(* ===== verification/_CoqProject ===== *)
-Q . S2P
Prelude.v
ArmMemset.v
CString.v
PageAlloc.v
Romfs.v
Process.v
Sched.v
Mmio.v
Gpio.v
Irq.v
Serial.v
Console.v
Interrupts.v
Files.v
Printk.v
I2c.v
Exec.v
Syscalls.v
Safety.v
DeviceTree.v
Atags.v
User.v
Vlibc.v
Ls.v
LsKernel.v
Blackjack.v
Shell.v
FileAccess.v
Slideshow.v
Controller.v
Programs.v
Boot.v
BoardTree.v
Debug.v
Genromfs.v
ImageTree.v
Image.v
HostDemo.v
HostImage.v
