(* ===== verification/Prelude.v ===== *)
(** * vmwOS: a verification library for the kernel under src/kernel, the
      programs under src/userspace and the tool that packs them

    vmwOS is a small operating system for the Raspberry Pi in C: a kernel with
    preemptive processes, a physical allocator, a read-only file system on a
    ramdisk, a console on the serial line and some thirty system calls; a C
    library; programs that run on it, a shell, [ls], [cat], a slide show and
    others; and genromfs, which packs them on the build host into the image of
    the ramdisk.  This library models the C code routine by routine, with the
    source's names, and proves what each part does, up to theorems about the
    composition: the kernel boots into the shell, keeps its tables in order
    until a store hits one of its objects, the programs do their work on it, and
    what the build host packs they read.

    ** How the code is modelled

    - Integers are [Z] with the wrap-around of their type written out ([u8],
      [u16], [u32], [s32], [u64]); bit operations are those of [Z].
    - Memory is flat: [mem] is a function from addresses to bytes, with
      little-endian words ([load32], [store32]).  Local arrays whose address is
      passed on are memory too, at addresses given by a record of the file
      ([locals], [flocals], [layout_]); so a routine that writes behind the end
      of an array does so in the model.  [modifies rs m m'] says that only the
      regions [rs] differ.
    - Process control blocks are records in a finite map from addresses; a
      dereference of NULL or of a freed block is a failed lookup.
    - A board is a type with a load and a store for registers ([Mmio.Device]);
      what a driver needs of its device is a class of laws ([Mmio.Plain],
      [Serial.Uart], [I2c.Bsc]), and each is instantiated by a concrete
      board in the witnesses.
    - A routine is a function of the state it uses; [option] is used where it
      may not return, dereferences a bad pointer or leaves an array (the map of
      the allocator): [None] is never a result.  [Genromfs.gen] and [User.user]
      have outcomes of their own for this, and [User.returns] asks of a program
      that it never meets them.
      A loop that the source does not bound takes fuel.  A theorem gives the
      fuel it needs in terms of the input, the length of a string, the entries
      of a directory, the turns a device may keep a driver waiting; so each
      also says that the code returns.
    - Errors are the negative numbers of the source (kernel/include/lib/errors.h,
      below).
    - Routines that other files rely on are offered as interfaces: [MemFill]
      (the assembly [memset], discharged in [ArmMemset]), [Ls.Directory] (what
      [ls] needs of a kernel, discharged in [LsKernel]), [FileAccess.Readable]
      (what a reader of files needs, discharged there), the laws of devices.
    - A program is a term of a small free monad ([User]): it computes on memory
      and stops at its system calls; [User.run] answers them, with the kernel of
      [Syscalls] or with an interface.

    ** The files

    Foundations.
    - [Prelude]: integers, memory, lists of bytes, the tactics [b2p], [bcase],
      [bind_with] and the hint database [words].
    - [ArmMemset]: lib/memset.c, userspace/vlibc/string.c: the assembly [memset]
      run on a machine with the instructions it uses.
    - [CString]: lib/string.c, lib/memcpy.c, vlibc/string.c.
    - [Printk]: lib/printk.c and the same formatter in vlibc/printf.c.

    Memory, files and processes.
    - [PageAlloc]: memory/memory.c, the bitmap of 4 kB chunks.
    - [Romfs]: fs/romfs/romfs.c and drivers/block/ramdisk.c on the bytes of the
      image.
    - [Files]: fs/files.c: descriptors, paths, the calls of the file system.
    - [Process]: processes/process.c, the table as a doubly linked list.
    - [Sched]: processes/scheduler.c, waitqueue.c, waitpid.c, vfork.c,
      syscalls/exit.c.
    - [Exec]: processes/exec.c, idle_task.c, userspace.c.

    Devices.
    - [Mmio]: lib/mmio.h, drivers/bcm2835; [Gpio]: boot/hardware_detect.c (the
      revision tables), drivers/gpio, drivers/led; [Irq]: interrupts/gic-400.c
      and the enabling of interrupts; [Serial]: drivers/serial; [Console]:
      drivers/console and the receive interrupt; [Interrupts]: the timer,
      time/time.c, syscalls/nanosleep.c and the interrupt handler; [I2c]:
      drivers/i2c.
    - [DeviceTree]: boot/device_tree.c and the rest of hardware_detect.c;
      [Atags]: boot/atags.c; [Debug]: debug/ and lib/memory_benchmark.c.

    The whole kernel.
    - [Syscalls]: syscalls/syscalls.c with the calls that have no file of their
      own, and the stubs of the library, vlibc/syscalls.arm.c.
    - [Safety]: the kernel as a transition system: system calls, calls that go
      on after a sleep, interrupts and the computations of programs, in any
      order, with a state [Lost] for what nothing is known of.
    - [Boot]: kernel_main.c, drivers/drivers.c and memory_hierarchy_init, from
      the registers of the loader to the first process; [BoardTree]:
      the same when the loader has left a device tree.

    Programs.
    - [User]: the monad; [Vlibc]: the rest of the C library; [FileAccess]:
      reading a file from the beginning.
    - [Ls] and [LsKernel]: ls.c; [Shell]: shell.c; [Blackjack]: blackjack.c;
      [Slideshow]: slideshow.c; [Controller]: wii_controller.c and bet_amount.c;
      [Programs]: hello.c, pwd.c, uname.c, sysinfo.c, printa.c, printb.c,
      cat_count.c, cat.c.

    The image.
    - [Genromfs]: genromfs-0.5.2/genromfs.c, the tool the Makefile of the
      userspace makes the image with: module [Dlist] the linked lists, [Walk] the
      directories of the host, then the writer and the options.  The system
      calls of the host are the record [host].
    - [ImageTree]: what the host must promise ([host_ok]), the tree the walk
      builds, the offsets of its nodes, and the end of the walk ([measured]).
    - [Image]: the bytes of the tree, read back with the routines of [Romfs] and
      [Files].
    - [HostDemo]: a host that fulfils [host_ok] and its image.
    - [HostImage]: the theorems from the directory to the kernel.

    ** How the parts interact

    [Interrupts.sys] joins the board, the console, the timer and the tables of
    the processes ([Process.kstate], which holds the memory, the allocator and
    the registers of the processor); [Syscalls.system] adds the open files and
    the I2C bus.  [Syscalls.swi_handler] is a system call with its entry and
    exit, [Interrupts.interrupt_handler_c] an interrupt; a call that blocks puts
    the process to sleep and hands the processor over ([Sched.schedule]), and
    goes on from where it slept when it is chosen again: that is an outcome of
    the call and a step of its own.  [Safety.kernel_step] is the union of these
    steps.  [User.run] with [User.kernel_call] puts a program on top of it.

    ** What the theorems show

    - Safety of the kernel: there is no protection, so a store into an object of
      the kernel, by a program or by a system call given such a pointer, and an
      undefined access lead to [Lost].  In every other state that is reached by
      steps in any order, the list of processes is well formed, every control
      block, stack and text is a block of the allocator of its own, the process
      that runs is in the table and has not exited, and the kernel still
      schedules, allocates and forks.
    - Booting: [kernel_main] reaches user mode with the idle task and /bin/shell
      in the table, with a device tree from the loader or without, and the state
      is one the safety theorem starts from.
    - The allocator: chunks in use are exactly those of live blocks; the search
      is next fit and fails only when no run is free.  The map has 8192 words,
      1 GB of chunks, and the search tests chunks behind the memory of the board:
      it stays inside the map when the board has as many chunks less than the map
      as a request asks for ([VIDEO_CHUNKS], 16 MB, which the video core keeps of
      every board, in the theorems on the whole kernel).
    - Processes: creation and destruction keep the invariant of table and
      memory; the scheduler goes round the ready processes; waiting, exiting,
      forking and sleeping wake and block the right ones; [execve] loads exactly
      the bytes of the file.
    - Files: names are looked up and paths resolved as the directory tree says,
      the walks end, and descriptors are handed out lowest first; a file that is
      opened and copied arrives on the serial line byte by byte.
    - Console and interrupts: the ring buffer is a queue; a key wakes its
      readers; the handler serves exactly what is pending, hands over to the
      next process in turn and keeps the invariants.
    - Formatting: the text written is the text the format stands for; numbers
      are read back by [atoi]; [printf] writes it with one system call.
    - Devices: the register values after initialisation, the bytes sent and
      received, under the laws of the device.
    - Device tree and tags: queries of a well-formed tree or list end and
      give what it says.
    - Programs on the kernel: [ls] lists a directory in columns, [cat] prints a
      file, the slide show decodes an image, the shell reads a line and starts
      the program it names, the controller programs follow the buttons;
      blackjack deals six decks, values hands right, never pays more than it
      should and stays inside its arrays.
    - The image: genromfs ends on every directory of finite depth and writes its
      image, unless the sum of a header is the least [int], which it negates;
      the image is well formed, every path of the host leads the kernel to the same file,
      a directory with bin/shell makes an image that [Boot] boots from, and
      [cat] on the kernel prints the host's file.  The fuel of the walk is the
      depth of the directory, a bound the host gives ([rank]); [weight] bounds
      the bytes, so that no [int] overflows.

    Where the code is wrong the model follows it, and a lemma shows the wrong
    behaviour (a limit off by one, an index that runs behind an array, a loop
    without an end); such lemmas stand next to the routine they are about.

    ** Not modelled

    - Assembly: boot/boot-armv7.s, interrupts/irq_handler.s,
      syscalls/swi_handler.s, vlibc's ll.arm.eabi.s; lib/locks.s, which nothing
      calls.  What the C code sees of it, the saved registers and the switch of
      the current process, is part of [Sched] and [Syscalls].  The idle loop and
      the jump to user mode have no effect on the state.
    - memory/armv7-mmu.c: every body is compiled out, so virtual addresses are
      physical ones and there is no protection between processes: the safety
      theorem ends ([Safety.Lost]) where a store hits an object of the kernel.
      The records that stand for these objects are not in [k_mem]; the machine
      of [Safety] gives their bytes any value before each step.
    - Drivers of which only the header is in the repository (mailbox, frame
      buffer, keyboard, random numbers, temperature, cycle counter); the code
      that calls them is modelled with the error or with a parameter.
    - [delay], which only takes time, and messages that a debug flag switches
      off.
    - vlibc/syscalls.x86_64.c, the stubs for a Linux host.
    - Of genromfs: the listing of -v and the help text, which only print, and
      the messages on stderr.  [getopt] is the list of the options it returns.
      The theorems on the image are for [plain_options], without -A and -x (a
      pattern for the dot entry moves the first header away from where it is
      looked for), and for directories without names that begin with @; the
      model has both.  They ask of the host that it does not change during the
      run and that each path of a file shows the same inode.
    - The image is a hypothesis of the theorems on kernel and programs
      ([Files.flayout] and the directories in it); [HostImage] shows of the
      directories that an image made by genromfs has them.  That the linker puts
      the image where the kernel looks for it stays a hypothesis. *)

From stdpp Require Import base list numbers gmap.
From Stdlib Require Import ZArith Lia.

#[global] Open Scope Z_scope.

(** ** Machine integers

    [uint32_t], [int32_t] and [uint8_t] are integers of [Z] with their
    wrap-around written out; [char] is unsigned on the ARM EABI. *)

Definition u8 (z : Z) : Z := z mod 2 ^ 8.
Definition u16 (z : Z) : Z := z mod 2 ^ 16.
Definition u32 (z : Z) : Z := z mod 2 ^ 32.
Definition u64 (z : Z) : Z := z mod 2 ^ 64.
Definition s32 (z : Z) : Z := (z + 2 ^ 31) mod 2 ^ 32 - 2 ^ 31.

Lemma u8_range z : 0 <= u8 z < 256.
Proof. unfold u8. apply Z.mod_pos_bound. lia. Qed.

Lemma u32_range z : 0 <= u32 z < 2 ^ 32.
Proof. unfold u32. apply Z.mod_pos_bound. lia. Qed.

Lemma s32_range z : - 2 ^ 31 <= s32 z < 2 ^ 31.
Proof.
  unfold s32. pose proof (Z.mod_pos_bound (z + 2 ^ 31) (2 ^ 32) ltac:(lia)). lia.
Qed.

Lemma u8_id z : 0 <= z < 256 -> u8 z = z.
Proof. intros. unfold u8. apply Z.mod_small. lia. Qed.

Lemma u32_id z : 0 <= z < 2 ^ 32 -> u32 z = z.
Proof. intros. unfold u32. apply Z.mod_small. lia. Qed.

Lemma s32_id z : - 2 ^ 31 <= z < 2 ^ 31 -> s32 z = z.
Proof. intros. unfold s32. rewrite Z.mod_small; lia. Qed.

Lemma u32_s32 z : u32 (s32 z) = u32 z.
Proof.
  unfold u32, s32. rewrite Zminus_mod_idemp_l. f_equal. lia.
Qed.

Lemma s32_u32 z : s32 (u32 z) = s32 z.
Proof. unfold u32, s32. rewrite Zplus_mod_idemp_l. reflexivity. Qed.

Lemma u32_u32 z : u32 (u32 z) = u32 z.
Proof. apply u32_id, u32_range. Qed.

Lemma u8_u32 z : u8 (u32 z) = u8 z.
Proof. unfold u8, u32. Z.div_mod_to_equations. lia. Qed.

Create HintDb words.
Create Rewrite HintDb words.
#[export] Hint Resolve u8_range u32_range s32_range : words.
#[export] Hint Rewrite u32_s32 s32_u32 u32_u32 : words.

(** ** kernel/include/lib/errors.h *)

Definition ENOENT : Z := 2.
Definition EBADF : Z := 9.
Definition ECHILD : Z := 10.
Definition ENOMEM : Z := 12.
Definition ENODEV : Z := 19.
Definition ENOTDIR : Z := 20.
Definition ENFILE : Z := 23.
Definition ERANGE : Z := 34.
Definition ENOSYS : Z := 38.

(** ** Tactics *)

(** Turn boolean comparisons in hypotheses and goal into propositions. *)
Ltac b2p :=
  repeat match goal with
  | H : (_ =? _) = true |- _ => apply Z.eqb_eq in H
  | H : (_ =? _) = false |- _ => apply Z.eqb_neq in H
  | H : (_ <? _) = true |- _ => apply Z.ltb_lt in H
  | H : (_ <? _) = false |- _ => apply Z.ltb_ge in H
  | H : (_ <=? _) = true |- _ => apply Z.leb_le in H
  | H : (_ <=? _) = false |- _ => apply Z.leb_gt in H
  | H : negb _ = true |- _ => apply negb_true_iff in H
  | H : negb _ = false |- _ => apply negb_false_iff in H
  | H : _ && _ = true |- _ => apply andb_true_iff in H; destruct H
  | H : _ || _ = false |- _ => apply orb_false_iff in H; destruct H
  end.

(** Case analysis on the next boolean test of the goal. *)
Ltac bcase :=
  match goal with
  | |- context [if ?b then _ else _] =>
      lazymatch b with
      | context [if _ then _ else _] => fail
      | _ => let E := fresh "Hb" in destruct b eqn:E; b2p
      end
  end.

(** Run the first bind of an option computation with the equation [E : c = Some v]
    (up to conversion). *)
Ltac bind_with E :=
  lazymatch type of E with
  | ?x = Some _ =>
      match goal with
      | |- context [@mbind option option_bind ?A ?B ?k ?y] =>
          change (@mbind option option_bind A B k y)
            with (@mbind option option_bind A B k x); rewrite E
      end
  end; cbn [mbind option_bind].

(** ** Counted loops

    [for_up n i f s] runs the body [f] on [i], [i+1], ..., [i+n-1]: a C
    [for] loop without an early exit. *)

Fixpoint for_up {A : Type} (n : nat) (i : Z) (f : Z -> A -> A) (s : A) : A :=
  match n with
  | O => s
  | S n' => for_up n' (i + 1) f (f i s)
  end.

Lemma for_up_ind {A : Type} (P : Z -> A -> Prop) (f : Z -> A -> A) (n : nat) :
  forall i s, P i s ->
  (forall j t, i <= j < i + Z.of_nat n -> P j t -> P (j + 1) (f j t)) ->
  P (i + Z.of_nat n) (for_up n i f s).
Proof.
  induction n as [|n IH]; intros i s H0 Hs; cbn [for_up].
  - by replace (i + Z.of_nat 0) with i by lia.
  - replace (i + Z.of_nat (S n)) with ((i + 1) + Z.of_nat n) by lia.
    apply IH.
    + apply Hs; [lia | done].
    + intros j t Hj. apply Hs. lia.
Qed.

(** Predicates that agree find the same element. *)
Lemma find_same {A} (f g : A -> bool) l : (forall x, f x = g x) -> List.find f l = List.find g l.
Proof. intros E. induction l as [|x l IH]; [done|]. cbn. by rewrite E, IH. Qed.

(** ** Byte-addressed memory

    The kernel runs on the flat physical address space of the board with no
    protection: every address can be read and written.  A memory maps an
    address to a byte; a store replaces one byte.  Two memories that agree on
    every address are the same memory ([mem_eq]). *)

Definition mem : Type := Z -> Z.

Definition upd (m : mem) (a v : Z) : mem := fun x => if x =? a then v else m x.

Definition mem_eq : relation mem := pointwise_relation Z eq.

#[global] Instance mem_eq_equiv : Equivalence mem_eq.
Proof. unfold mem_eq. apply _. Qed.

#[global] Instance upd_proper : Proper (mem_eq ==> eq ==> eq ==> mem_eq) upd.
Proof. intros m1 m2 H a ? <- v ? <- x. unfold upd. bcase; [done | apply H]. Qed.

Lemma upd_eq m a v : upd m a v a = v.
Proof. unfold upd. by rewrite Z.eqb_refl. Qed.

Lemma upd_ne m a v x : x <> a -> upd m a v x = m x.
Proof. intros H. unfold upd. by rewrite (proj2 (Z.eqb_neq x a) H). Qed.

(** The bytes of [m] from address [p], as C reads [p[i]]. *)
Definition at_ (m : mem) (p : Z) : Z -> Z := fun i => m (p + i).

(** Little-endian 32-bit loads and stores. *)
Definition load32 (m : mem) (a : Z) : Z :=
  m a + 2 ^ 8 * m (a + 1) + 2 ^ 16 * m (a + 2) + 2 ^ 24 * m (a + 3).

Definition store32 (m : mem) (a w : Z) : mem :=
  upd (upd (upd (upd m a (u8 w)) (a + 1) (u8 (w / 2 ^ 8)))
    (a + 2) (u8 (w / 2 ^ 16))) (a + 3) (u8 (w / 2 ^ 24)).

(** A memory that holds the bytes [l] from address [base] on top of [m]. *)
Definition mem_with (m : mem) (base : Z) (l : list Z) : mem :=
  fun a => if (base <=? a) && (a <? base + Z.of_nat (length l))
           then nth (Z.to_nat (a - base)) l 0 else m a.

(** [m] is [m0] with the [k] bytes from [s] set to [c]. *)
Definition filled (m0 : mem) (s c k : Z) (m : mem) : Prop :=
  forall a, m a = if (s <=? a) && (a <? s + k) then c else m0 a.

(** [m] is [m0] outside [s .. s+k-1]. *)
Definition same_outside (m0 : mem) (s k : Z) (m : mem) : Prop :=
  forall a, ~ (s <= a < s + k) -> m a = m0 a.

(** [m'] is [m] outside the regions [rs], each an address and a length. *)
Definition modifies (rs : list (Z * Z)) (m m' : mem) : Prop :=
  forall x, Forall (fun r => ~ (fst r <= x < fst r + snd r)) rs -> m' x = m x.

#[global] Instance modifies_preorder rs : PreOrder (modifies rs).
Proof. split; [done|]. intros m1 m2 m3 H1 H2 x Hx. by rewrite H2, H1. Qed.

Lemma modifies_sub rs rs' m m' :
  modifies rs m m' ->
  (forall x, Forall (fun r => ~ (fst r <= x < fst r + snd r)) rs' ->
             Forall (fun r => ~ (fst r <= x < fst r + snd r)) rs) ->
  modifies rs' m m'.
Proof. intros H Hs x Hx. by apply H, Hs. Qed.

Lemma modifies_upd a v m : modifies [(a, 1)] m (upd m a v).
Proof. intros x Hx. inversion_clear Hx. apply upd_ne. cbn in *. lia. Qed.

Lemma modifies_store32 a v m : modifies [(a, 4)] m (store32 m a v).
Proof.
  intros x Hx. inversion_clear Hx. unfold store32. rewrite !upd_ne by (cbn in *; lia). done.
Qed.

Lemma modifies_store32_in s n a v m :
  s <= a -> a + 4 <= s + n -> modifies [(s, n)] m (store32 m a v).
Proof.
  intros Hl Hh x Hx. inversion_clear Hx. cbn [fst snd] in *.
  unfold store32. rewrite !upd_ne by lia. done.
Qed.

Lemma modifies_same_outside a n m m' : same_outside m a n m' <-> modifies [(a, n)] m m'.
Proof.
  split; [intros H x Hx; inversion_clear Hx; by apply H|].
  intros H x Hx. apply H. by repeat constructor.
Qed.

Lemma load32_store32 m a w : load32 (store32 m a w) a = u32 w.
Proof.
  unfold load32, store32, upd.
  rewrite !Z.eqb_refl. repeat (rewrite (proj2 (Z.eqb_neq _ _)) by lia).
  unfold u8, u32. Z.div_mod_to_equations. lia.
Qed.

Lemma load32_ext m m' a a' :
  (forall i, 0 <= i < 4 -> m (a + i) = m' (a' + i)) -> load32 m a = load32 m' a'.
Proof.
  intros H. unfold load32. rewrite <- !H by lia.
  rewrite <- (Z.add_0_r a), <- (Z.add_0_r a'), <- (H 0) at 1 by lia. by rewrite Z.add_0_r.
Qed.

Lemma load32_store32_ne m a b w :
  a + 4 <= b \/ b + 4 <= a -> load32 (store32 m a w) b = load32 m b.
Proof.
  intros Hab. apply load32_ext. intros i Hi. unfold store32. rewrite !upd_ne by lia. done.
Qed.

Lemma modifies_incl rs rs' m m' : modifies rs m m' -> incl rs rs' -> modifies rs' m m'.
Proof.
  intros Hm Hi. eapply modifies_sub; [exact Hm|]. intros x. rewrite !List.Forall_forall. auto.
Qed.

(** Split the hypotheses and the goal that a point lies outside lists of
    regions, and compare the addresses. *)
Ltac split_regions :=
  repeat match goal with
  | H : Forall ?P ?l |- _ =>
      lazymatch l with
      | [] => clear H
      | _ :: _ => apply Forall_cons in H as [? H]; cbn [fst snd] in *
      | _ ++ _ => apply Forall_app in H as [? H]
      | _ => let l' := eval hnf in l in
             lazymatch l' with
             | _ :: _ => change (Forall P l') in H
             | _ ++ _ => change (Forall P l') in H
             | [] => clear H
             end
      end
  end.

Ltac regions :=
  let x := fresh "x" in let Hx := fresh "Hx" in
  intros x Hx; split_regions;
  repeat first [ assumption | apply List.Forall_nil | apply List.Forall_cons
               | apply Forall_app; split ];
  cbn [fst snd]; try lia.

(** *** The interface of [memset]

    What the allocator, the process code and the file system rely on; the
    assembly routine discharges it in [ArmMemset]. *)
Class MemFill := {
  memset : mem -> Z -> Z -> Z -> mem;
  memset_filled m s c n :
    0 <= c < 256 -> 0 <= s -> 0 <= n < 2 ^ 31 -> s + n < 2 ^ 32 ->
    filled m s c n (memset m s c n) }.

(** ** Byte sequences

    [has f l]: reading from [f] yields the bytes [l]; [cstring f s]: the
    NUL-terminated string [s]. *)

Definition has (f : Z -> Z) (l : list Z) : Prop :=
  forall i, (i < length l)%nat -> f (Z.of_nat i) = nth i l 0.

Definition cstring (f : Z -> Z) (s : list Z) : Prop :=
  Forall (fun b => b <> 0) s /\ has f (s ++ [0]).

(** The bytes read from [f] at [0 .. n-1]. *)
Definition bytes_of (f : Z -> Z) (n : nat) : list Z :=
  map (fun i => f (Z.of_nat i)) (seq 0 n).

(** The number of bytes of [f] before the first NUL, at most [n]. *)
Fixpoint strnlen (f : Z -> Z) (i : Z) (n : nat) : Z :=
  match n with
  | O => 0
  | S n' => if f i =? 0 then 0 else 1 + strnlen f (i + 1) n'
  end.

Lemma strnlen_range f n : forall i, 0 <= strnlen f i n <= Z.of_nat n.
Proof.
  induction n as [|n IH]; intros i; cbn [strnlen]; [lia|].
  bcase; [lia|]. specialize (IH (i + 1)). lia.
Qed.

Lemma strnlen_nonzero f n : forall i j,
  0 <= j < strnlen f i n -> f (i + j) <> 0.
Proof.
  induction n as [|n IH]; intros i j; cbn [strnlen]; [lia|].
  bcase; [lia|]. intros Hj. destruct (decide (j = 0)) as [->|].
  - by rewrite Z.add_0_r.
  - replace (i + j) with (i + 1 + (j - 1)) by lia. apply IH. lia.
Qed.

Lemma strnlen_zero f n : forall i,
  strnlen f i n < Z.of_nat n -> f (i + strnlen f i n) = 0.
Proof.
  induction n as [|n IH]; intros i; cbn [strnlen]; [lia|].
  bcase; intros H; [by rewrite Z.add_0_r|].
  replace (i + (1 + strnlen f (i + 1) n)) with (i + 1 + strnlen f (i + 1) n) by lia.
  apply IH. lia.
Qed.

Lemma strnlen_ext f g n : forall i,
  (forall j, i <= j < i + Z.of_nat n -> f j = g j) ->
  strnlen f i n = strnlen g i n.
Proof.
  induction n as [|n IH]; intros i H; cbn [strnlen]; [done|].
  rewrite H by lia. bcase; [done|]. f_equal. apply IH. intros. apply H. lia.
Qed.

Lemma cstring_strnlen f s n :
  cstring f s -> strnlen f 0 n = Z.min (Z.of_nat n) (Z.of_nat (length s)).
Proof.
  intros [Hnz Hf].
  enough (forall k i, k = length (drop i s) -> (i <= length s)%nat ->
    strnlen f (Z.of_nat i) n = Z.min (Z.of_nat n) (Z.of_nat k)) as H.
  { change 0 with (Z.of_nat 0) at 1. rewrite (H (length s) 0%nat) by (rewrite ?drop_0; lia). lia. }
  induction n as [|n IH]; intros k i Hk Hi; cbn [strnlen]; [lia|].
  rewrite length_drop in Hk. rewrite Hf by (rewrite length_app; cbn; lia).
  destruct (decide (i = length s)) as [->|].
  - rewrite app_nth2, Nat.sub_diag by lia. cbn. lia.
  - rewrite app_nth1 by lia.
    destruct (nth i s 0 =? 0) eqn:E; b2p.
    + rewrite Forall_forall in Hnz. exfalso.
      apply (Hnz (nth i s 0)); [apply list_elem_of_In, nth_In; lia | done].
    + replace (Z.of_nat i + 1) with (Z.of_nat (S i)) by lia.
      rewrite (IH (k - 1)%nat) by (rewrite ?length_drop; lia). lia.
Qed.

(** An executable check of [cstring], for concrete strings. *)
Definition cstringb (f : Z -> Z) (s : list Z) : bool :=
  forallb (fun b => negb (b =? 0)) s &&
  forallb (fun i => f (Z.of_nat i) =? nth i (s ++ [0]) 0) (seq 0 (S (length s))).

Lemma cstringb_cstring f s : cstringb f s = true -> cstring f s.
Proof.
  unfold cstringb. rewrite andb_true_iff, !forallb_forall. intros [H1 H2]. split.
  - apply List.Forall_forall. intros x Hx. specialize (H1 x Hx). by b2p.
  - intros i Hi. rewrite length_app in Hi. cbn in Hi.
    apply Z.eqb_eq, H2, in_seq. lia.
Qed.

(** The same with a body that may fail. *)
Fixpoint for_opt {A : Type} (n : nat) (i : Z) (f : Z -> A -> option A) (s : A) : option A :=
  match n with
  | O => Some s
  | S n' => s' ← f i s; for_opt n' (i + 1) f s'
  end.

Lemma for_opt_ind {A : Type} (P : Z -> A -> Prop) (f : Z -> A -> option A) (n : nat) :
  forall i s s', P i s ->
  (forall j t t', i <= j < i + Z.of_nat n -> P j t -> f j t = Some t' -> P (j + 1) t') ->
  for_opt n i f s = Some s' -> P (i + Z.of_nat n) s'.
Proof.
  induction n as [|n IH]; intros i s s' H0 Hs H; cbn [for_opt] in H.
  - injection H as <-. by replace (i + Z.of_nat 0) with i by lia.
  - replace (i + Z.of_nat (S n)) with ((i + 1) + Z.of_nat n) by lia.
    apply bind_Some in H as (t & E & H). eapply IH; [|intros; eapply Hs; eauto; lia|exact H].
    eapply Hs; [lia|exact H0|exact E].
Qed.

Lemma for_opt_total {A : Type} (P : Z -> A -> Prop) (f : Z -> A -> option A) (n : nat) :
  forall i s, P i s ->
  (forall j t, i <= j < i + Z.of_nat n -> P j t -> exists t', f j t = Some t' /\ P (j + 1) t') ->
  exists s', for_opt n i f s = Some s' /\ P (i + Z.of_nat n) s'.
Proof.
  induction n as [|n IH]; intros i s H0 Hs; cbn [for_opt].
  - exists s. split; [done|]. by replace (i + Z.of_nat 0) with i by lia.
  - replace (i + Z.of_nat (S n)) with ((i + 1) + Z.of_nat n) by lia.
    destruct (Hs i s ltac:(lia) H0) as (t & -> & Ht).
    apply IH; [done|]. intros j u Hj. apply Hs. lia.
Qed.

Lemma for_up_snoc {A : Type} (f : Z -> A -> A) (n : nat) : forall i s,
  for_up (S n) i f s = f (i + Z.of_nat n) (for_up n i f s).
Proof.
  induction n as [|n IH]; intros i s.
  - cbn. by rewrite Z.add_0_r.
  - change (for_up (S (S n)) i f s) with (for_up (S n) (i + 1) f (f i s)).
    rewrite IH. cbn [for_up]. f_equal. lia.
Qed.

(** Bits that do not overlap add up. *)
Lemma lor_add a b k : 0 <= k -> 0 <= a < 2 ^ k -> Z.lor a (b * 2 ^ k) = a + b * 2 ^ k.
Proof.
  intros Hk Ha. rewrite <- Z.shiftl_mul_pow2 by lia.
  assert (Hz : Z.land a (Z.shiftl b k) = 0).
  { apply Z.bits_inj'. intros i Hi. rewrite Z.land_spec, Z.shiftl_spec, Z.bits_0 by lia.
    destruct (Z.ltb_spec i k); [by rewrite (Z.testbit_neg_r _ (i - k)), andb_false_r by lia|].
    rewrite <- (Z.mod_small a (2 ^ k)) by lia. by rewrite Z.mod_pow2_bits_high by lia. }
  pose proof (Z.add_lor_land a (Z.shiftl b k)). lia.
Qed.
