(* ===== verification/ArmMemset.v ===== *)
(** * The assembly [memset]: kernel/lib/memset.c and userspace/vlibc/string.c

    A small ARM machine (registers, condition flags, memory, a save stack), the
    two copies of the [memset] program as lists of instructions, and the proof
    that running them fills exactly the requested bytes and restores the
    registers they save.  The result is offered to the other files as the
    interface [MemFill]. *)

From stdpp Require Import base list numbers.
From Stdlib Require Import ZArith Lia.
From S2P Require Import Prelude.

(** ** The machine *)

Inductive reg := R0 | R1 | R2 | R3 | R4 | R5 | R6 | R7 | R8 | IP | LR.

#[global] Instance reg_eq_dec : EqDecision reg.
Proof. solve_decision. Defined.

Record regs := Regs {
  r0 : Z; r1 : Z; r2 : Z; r3 : Z; r4 : Z; r5 : Z; r6 : Z; r7 : Z; r8 : Z;
  ip : Z; lr : Z }.

Definition get (rs : regs) (r : reg) : Z :=
  match r with
  | R0 => r0 rs | R1 => r1 rs | R2 => r2 rs | R3 => r3 rs | R4 => r4 rs
  | R5 => r5 rs | R6 => r6 rs | R7 => r7 rs | R8 => r8 rs | IP => ip rs
  | LR => lr rs
  end.

Definition set (rs : regs) (r : reg) (v : Z) : regs :=
  let '(Regs a b c d e f g h i j k) := rs in
  match r with
  | R0 => Regs v b c d e f g h i j k
  | R1 => Regs a v c d e f g h i j k
  | R2 => Regs a b v d e f g h i j k
  | R3 => Regs a b c v e f g h i j k
  | R4 => Regs a b c d v f g h i j k
  | R5 => Regs a b c d e v g h i j k
  | R6 => Regs a b c d e f v h i j k
  | R7 => Regs a b c d e f g v i j k
  | R8 => Regs a b c d e f g h v j k
  | IP => Regs a b c d e f g h i v k
  | LR => Regs a b c d e f g h i j v
  end.

(** The flags the conditions below read; C is never tested. *)
Record flags := Flags { fN : bool; fZ : bool; fV : bool }.

Inductive cond := AL | EQ | NE | LT | LE | GE | GT.

Definition holds (c : cond) (f : flags) : bool :=
  match c with
  | AL => true
  | EQ => fZ f
  | NE => negb (fZ f)
  | LT => negb (Bool.eqb (fN f) (fV f))
  | GE => Bool.eqb (fN f) (fV f)
  | GT => negb (fZ f) && Bool.eqb (fN f) (fV f)
  | LE => fZ f || negb (Bool.eqb (fN f) (fV f))
  end.

Inductive instr :=
  | STMFD (l : list reg)                  (* stmfd sp!, {l} *)
  | LDMFD (l : list reg)                  (* ldmfd sp!, {l} *)
  | ANDS (rd rn : reg) (imm : Z)
  | MOV (rd rm : reg)
  | ADD (rd rn rm : reg)
  | SUBS (rd rn : reg) (imm : Z)
  | CMP (rn : reg) (imm : Z)
  | TST (rn : reg) (imm : Z)
  | ORRLSL (rd rn rm : reg) (sh : Z)      (* orr rd, rn, rm, lsl #sh *)
  | STRB (c : cond) (rt rn : reg) (imm : Z)   (* str<c>b rt, [rn], #imm *)
  | STR (c : cond) (rt rn : reg) (imm : Z)    (* str<c> rt, [rn], #imm *)
  | STMIA (c : cond) (rn : reg) (l : list reg) (* stm<c>ia rn!, {l} *)
  | B (c : cond) (target : nat).

Record machine := Machine {
  pc : nat; rf : regs; fl : flags; memory : mem; stack : list (list Z) }.

(** Flags of the subtraction [a - b], of a logical result. *)
Definition sub_flags (a b : Z) : flags :=
  let d := u32 (a - b) in
  Flags (Z.testbit d 31) (d =? 0)
    (negb (s32 a - s32 b =? s32 (s32 a - s32 b))).

Definition logic_flags (f : flags) (w : Z) : flags :=
  Flags (Z.testbit w 31) (w =? 0) (fV f).

Fixpoint store_regs (rs : regs) (l : list reg) (m : mem) (a : Z) : mem :=
  match l with
  | [] => m
  | r :: l' => store_regs rs l' (store32 m a (get rs r)) (u32 (a + 4))
  end.

Fixpoint load_regs (rs : regs) (l : list reg) (vs : list Z) : regs :=
  match l, vs with
  | r :: l', v :: vs' => load_regs (set rs r v) l' vs'
  | _, _ => rs
  end.

Definition exec (i : instr) (s : machine) : option machine :=
  let '(Machine p rs f m st) := s in
  match i with
  | STMFD l => Some (Machine (S p) rs f m (map (get rs) l :: st))
  | LDMFD l =>
      match st with
      | vs :: st' => Some (Machine (S p) (load_regs rs l vs) f m st')
      | [] => None
      end
  | ANDS rd rn imm =>
      let w := Z.land (get rs rn) imm in
      Some (Machine (S p) (set rs rd w) (logic_flags f w) m st)
  | MOV rd rm => Some (Machine (S p) (set rs rd (get rs rm)) f m st)
  | ADD rd rn rm =>
      Some (Machine (S p) (set rs rd (u32 (get rs rn + get rs rm))) f m st)
  | SUBS rd rn imm =>
      Some (Machine (S p) (set rs rd (u32 (get rs rn - imm)))
              (sub_flags (get rs rn) imm) m st)
  | CMP rn imm => Some (Machine (S p) rs (sub_flags (get rs rn) imm) m st)
  | TST rn imm =>
      Some (Machine (S p) rs (logic_flags f (Z.land (get rs rn) imm)) m st)
  | ORRLSL rd rn rm sh =>
      Some (Machine (S p)
              (set rs rd (Z.lor (get rs rn) (u32 (Z.shiftl (get rs rm) sh))))
              f m st)
  | STRB c rt rn imm =>
      if holds c f
      then Some (Machine (S p) (set rs rn (u32 (get rs rn + imm))) f
                   (upd m (get rs rn) (u8 (get rs rt))) st)
      else Some (Machine (S p) rs f m st)
  | STR c rt rn imm =>
      if holds c f
      then Some (Machine (S p) (set rs rn (u32 (get rs rn + imm))) f
                   (store32 m (get rs rn) (get rs rt)) st)
      else Some (Machine (S p) rs f m st)
  | STMIA c rn l =>
      if holds c f
      then Some (Machine (S p)
                   (set rs rn (u32 (get rs rn + 4 * Z.of_nat (length l)))) f
                   (store_regs rs l m (get rs rn)) st)
      else Some (Machine (S p) rs f m st)
  | B c t => Some (Machine (if holds c f then t else S p) rs f m st)
  end.

(** [run] stops when the program counter leaves the program; [None] when the
    fuel runs out or an empty save stack is popped. *)
Fixpoint run (fuel : nat) (prog : list instr) (s : machine) : option machine :=
  match fuel with
  | O => None
  | S f =>
      match nth_error prog (pc s) with
      | None => Some s
      | Some i => match exec i s with Some s' => run f prog s' | None => None end
      end
  end.

(** ** The program of kernel/lib/memset.c *)

Definition saved : list reg := [R4; R5; R6; R7; R8; LR].
Definition block32 : list reg := [R1; R3; R4; R5; R6; R7; R8; LR].

Definition asm_memset_4bytealigned : nat := 11.
Definition asm_memset_loop : nat := 20.
Definition asm_memset_lessthan4 : nat := 33.
Definition asm_memset_done : nat := 38.

Definition asm_memset : list instr :=
  [ (*  0 *) STMFD saved;
    (*  1 *) ANDS R3 R0 3;
    (*  2 *) MOV IP R0;
    (*  3 *) B EQ asm_memset_4bytealigned;
    (*  4 *) SUBS R2 R2 4;
    (*  5 *) B LT asm_memset_lessthan4;
    (*  6 *) CMP R3 2;
    (*  7 *) STRB LT R1 IP 1;
    (*  8 *) STRB LE R1 IP 1;
    (*  9 *) STRB AL R1 IP 1;
    (* 10 *) ADD R2 R2 R3;
    (* 11: asm_memset_4bytealigned *)
             ORRLSL R1 R1 R1 8;
    (* 12 *) ORRLSL R1 R1 R1 16;
    (* 13 *) MOV R3 R1;
    (* 14 *) MOV R4 R1;
    (* 15 *) MOV R5 R1;
    (* 16 *) MOV R6 R1;
    (* 17 *) MOV R7 R1;
    (* 18 *) MOV R8 R1;
    (* 19 *) MOV LR R1;
    (* 20: asm_memset_loop *)
             SUBS R2 R2 64;
    (* 21 *) STMIA GE IP block32;
    (* 22 *) STMIA GE IP block32;
    (* 23 *) B GT asm_memset_loop;
    (* 24 *) B EQ asm_memset_done;
    (* 25 *) TST R2 32;
    (* 26 *) STMIA NE IP block32;
    (* 27 *) TST R2 16;
    (* 28 *) STMIA NE IP [R4; R5; R6; R7];
    (* 29 *) TST R2 8;
    (* 30 *) STMIA NE IP [R1; R3];
    (* 31 *) TST R2 4;
    (* 32 *) STR NE R1 IP 4;
    (* 33: asm_memset_lessthan4 *)
             TST R2 2;
    (* 34 *) STRB NE R1 IP 1;
    (* 35 *) STRB NE R1 IP 1;
    (* 36 *) TST R2 1;
    (* 37 *) STRB NE R1 IP 1;
    (* 38: asm_memset_done *)
             LDMFD saved ].

(** ** The copy in userspace/vlibc/string.c *)

Definition vlibc_asm_memset : list instr :=
  [ STMFD [R4; R5; R6; R7; R8; LR]; ANDS R3 R0 3; MOV IP R0; B EQ 11;
    SUBS R2 R2 4; B LT 33;
    CMP R3 2; STRB LT R1 IP 1; STRB LE R1 IP 1; STRB AL R1 IP 1; ADD R2 R2 R3;
    (* 11: asm_memset_4bytealigned *)
    ORRLSL R1 R1 R1 8; ORRLSL R1 R1 R1 16;
    MOV R3 R1; MOV R4 R1; MOV R5 R1; MOV R6 R1; MOV R7 R1; MOV R8 R1; MOV LR R1;
    (* 20: asm_memset_loop *)
    SUBS R2 R2 64;
    STMIA GE IP [R1; R3; R4; R5; R6; R7; R8; LR];
    STMIA GE IP [R1; R3; R4; R5; R6; R7; R8; LR];
    B GT 20; B EQ 38;
    TST R2 32; STMIA NE IP [R1; R3; R4; R5; R6; R7; R8; LR];
    TST R2 16; STMIA NE IP [R4; R5; R6; R7];
    TST R2 8; STMIA NE IP [R1; R3];
    TST R2 4; STR NE R1 IP 4;
    (* 33: asm_memset_lessthan4 *)
    TST R2 2; STRB NE R1 IP 1; STRB NE R1 IP 1;
    TST R2 1; STRB NE R1 IP 1;
    (* 38: asm_memset_done *)
    LDMFD [R4; R5; R6; R7; R8; LR] ].

(** The call: [s] in r0, [c] in r1, [n] in r2; the other registers hold
    whatever the caller left in them. *)
Definition memset_entry (m : mem) (s c n : Z) (rs : regs) : machine :=
  Machine 0 (set (set (set rs R0 s) R1 (u32 c)) R2 n) (Flags false false false)
    m [].

(** Four instructions per 64-byte block, 39 for the rest. *)
Definition memset_fuel (n : Z) : nat := 4 * Z.to_nat (n / 64) + 64.

Definition memset_asm (m : mem) (s c n : Z) (rs : regs) : option machine :=
  run (memset_fuel n) asm_memset (memset_entry m s c n rs).

(** ** Filled ranges *)

Definition pattern (c : Z) : Z := c * 16843009.

Lemma filled_0 m s c : filled m s c 0 m.
Proof. intros a. repeat bcase; try done. lia. Qed.

Lemma filled_upd m0 s c k m :
  0 <= k -> filled m0 s c k m -> filled m0 s c (k + 1) (upd m (s + k) c).
Proof.
  intros Hk H a. unfold upd. rewrite H.
  destruct (a =? s + k) eqn:?, (s <=? a) eqn:?, (a <? s + k) eqn:?,
    (a <? s + (k + 1)) eqn:?; b2p; cbn; try done; lia.
Qed.

Lemma pattern_byte c i :
  0 <= c < 256 -> In i [0; 8; 16; 24] -> u8 (pattern c / 2 ^ i) = c.
Proof.
  intros Hc Hi. unfold u8, pattern. cbn in Hi.
  destruct Hi as [<-|[<-|[<-|[<-|[]]]]];
    Z.div_mod_to_equations; lia.
Qed.

Lemma filled_store32 m0 s c k m :
  0 <= c < 256 -> 0 <= k -> filled m0 s c k m ->
  filled m0 s c (k + 4) (store32 m (s + k) (pattern c)).
Proof.
  intros Hc Hk H. unfold store32.
  rewrite !pattern_byte by (cbn; tauto).
  replace (u8 (pattern c)) with c
    by (rewrite <- (pattern_byte c 0) at 1 by (cbn; tauto);
        by rewrite Z.div_1_r).
  replace (k + 4) with (k + 1 + 1 + 1 + 1) by lia.
  repeat (replace (s + k + 3) with (s + (k + 1 + 1 + 1)) by lia;
          replace (s + k + 2) with (s + (k + 1 + 1)) by lia;
          replace (s + k + 1) with (s + (k + 1)) by lia).
  repeat (apply filled_upd; [lia|]). done.
Qed.

Lemma filled_store_regs m0 s c rs l :
  0 <= c < 256 -> (forall r, In r l -> get rs r = pattern c) ->
  forall k m, 0 <= s -> 0 <= k -> s + k + 4 * Z.of_nat (length l) < 2 ^ 32 ->
  filled m0 s c k m ->
  filled m0 s c (k + 4 * Z.of_nat (length l)) (store_regs rs l m (s + k)).
Proof.
  intros Hc. induction l as [|r l IH]; intros Hr k m Hs Hk Hb H;
    cbn [store_regs length] in *.
  - by replace (k + 4 * Z.of_nat 0) with k by lia.
  - rewrite Hr by (cbn; tauto).
    replace (k + 4 * Z.of_nat (S (length l)))
      with (k + 4 + 4 * Z.of_nat (length l)) by lia.
    rewrite u32_id by lia. replace (s + k + 4) with (s + (k + 4)) by lia.
    apply IH; try lia; [intros; apply Hr; cbn; tauto|].
    by apply filled_store32.
Qed.

(** The same facts read backwards, as the proofs below use them. *)
Lemma filled_upd_back m0 s c n m a v :
  0 < n -> a = s + (n - 1) -> v = c -> filled m0 s c (n - 1) m ->
  filled m0 s c n (upd m a v).
Proof.
  intros Hn -> -> H. replace n with (n - 1 + 1) at 1 by lia.
  apply filled_upd; [lia | done].
Qed.

Lemma filled_store32_back m0 s c n m a v :
  0 <= c < 256 -> 4 <= n -> a = s + (n - 4) -> v = pattern c ->
  filled m0 s c (n - 4) m -> filled m0 s c n (store32 m a v).
Proof.
  intros Hc Hn -> -> H. replace n with (n - 4 + 4) at 1 by lia.
  apply filled_store32; [done | lia | done].
Qed.

Lemma filled_store_regs_back m0 s c rs l n m a :
  0 <= c < 256 -> 0 <= s -> 4 * Z.of_nat (length l) <= n ->
  s + n < 2 ^ 32 -> a = s + (n - 4 * Z.of_nat (length l)) ->
  (forall r, In r l -> get rs r = pattern c) ->
  filled m0 s c (n - 4 * Z.of_nat (length l)) m ->
  filled m0 s c n (store_regs rs l m a).
Proof.
  intros Hc Hs Hl Hb -> Hr H.
  replace n with (n - 4 * Z.of_nat (length l) + 4 * Z.of_nat (length l)) at 1 by lia.
  apply filled_store_regs; try done; lia.
Qed.

(** ** Arithmetic of the tests, checked on every value *)

Lemma orr_pattern c :
  0 <= c < 256 ->
  Z.lor (Z.lor c (u32 (Z.shiftl c 8)))
    (u32 (Z.shiftl (Z.lor c (u32 (Z.shiftl c 8))) 16)) = pattern c.
Proof.
  intros Hc.
  assert (H : forallb (fun n => let c := Z.of_nat n in
    Z.lor (Z.lor c (u32 (Z.shiftl c 8)))
      (u32 (Z.shiftl (Z.lor c (u32 (Z.shiftl c 8))) 16)) =? pattern c)
    (seq 0 256) = true) by (vm_compute; reflexivity).
  rewrite forallb_forall in H.
  specialize (H (Z.to_nat c)). cbv zeta in H. rewrite Z2Nat.id in H by lia.
  apply Z.eqb_eq, H, in_seq. lia.
Qed.

(** The count left after the last 64-byte block, as the tail tests see it. *)
Definition tail_bit (k b : Z) : Z := if Z.land k b =? 0 then 0 else b.

Lemma tail_count k :
  0 <= k < 64 ->
  k = tail_bit (u32 (k - 64)) 32 + tail_bit (u32 (k - 64)) 16
      + tail_bit (u32 (k - 64)) 8 + tail_bit (u32 (k - 64)) 4
      + tail_bit (u32 (k - 64)) 2 + tail_bit (u32 (k - 64)) 1.
Proof.
  intros Hk.
  assert (H : forallb (fun n => let k := Z.of_nat n in
    k =? tail_bit (u32 (k - 64)) 32 + tail_bit (u32 (k - 64)) 16
      + tail_bit (u32 (k - 64)) 8 + tail_bit (u32 (k - 64)) 4
      + tail_bit (u32 (k - 64)) 2 + tail_bit (u32 (k - 64)) 1)
    (seq 0 64) = true) by (vm_compute; reflexivity).
  rewrite forallb_forall in H.
  specialize (H (Z.to_nat k)). cbv zeta in H. rewrite Z2Nat.id in H by lia.
  apply Z.eqb_eq, H, in_seq. lia.
Qed.

Lemma tail_count4 k :
  0 <= k < 4 -> k = tail_bit (u32 (k - 4)) 2 + tail_bit (u32 (k - 4)) 1.
Proof.
  intros Hk. assert (k = 0 \/ k = 1 \/ k = 2 \/ k = 3) as [->|[->|[->| ->]]]
    by lia; reflexivity.
Qed.

Lemma testbit31 d : 0 <= d < 2 ^ 32 -> Z.testbit d 31 = (2 ^ 31 <=? d).
Proof.
  intros Hd. rewrite Z.testbit_odd, Z.shiftr_div_pow2 by lia.
  destruct (2 ^ 31 <=? d) eqn:E; b2p.
  - replace (d / 2 ^ 31) with 1 by (apply Z.div_unique with (d - 2 ^ 31); lia).
    done.
  - by rewrite Z.div_small by lia.
Qed.

Lemma sub_flags_small a b :
  0 <= a < 2 ^ 31 -> 0 <= b < 2 ^ 31 ->
  sub_flags a b = Flags (a <? b) (a =? b) false.
Proof.
  intros Ha Hb. unfold sub_flags. rewrite testbit31 by apply u32_range.
  rewrite !(s32_id a), !(s32_id b), s32_id, Z.eqb_refl by lia.
  unfold u32. destruct (a <? b) eqn:E1, (a =? b) eqn:E2; b2p; try lia.
  - replace ((a - b) mod 2 ^ 32) with (a - b + 2 ^ 32)
      by (apply Z.mod_unique with (-1); lia).
    f_equal; [apply Z.leb_le | apply Z.eqb_neq]; lia.
  - subst. rewrite Z.sub_diag, Z.mod_0_l by lia. done.
  - rewrite Z.mod_small by lia.
    f_equal; [apply Z.leb_gt | apply Z.eqb_neq]; lia.
Qed.

Lemma u8_pattern c : 0 <= c < 256 -> u8 (pattern c) = c.
Proof.
  intros. rewrite <- (pattern_byte c 0) at 2 by (cbn; tauto). by rewrite Z.div_1_r.
Qed.

(** ** Symbolic execution *)

Lemma run_step f p s i s' :
  nth_error p (pc s) = Some i -> exec i s = Some s' ->
  run (S f) p s = run f p s'.
Proof. intros H1 H2. cbn [run]. by rewrite H1, H2. Qed.

Lemma run_end f p s : nth_error p (pc s) = None -> run (S f) p s = Some s.
Proof. intros H. cbn [run]. by rewrite H. Qed.

Arguments run : simpl never.
Arguments store32 : simpl never.
Arguments store_regs : simpl never.
Arguments sub_flags : simpl never.
Arguments u32 : simpl never.
Arguments u8 : simpl never.

(** One instruction: fetch it, execute it with the tests decided so far, name
    the next state. *)
Ltac known_tests :=
  repeat match goal with
  | H : ?b = true |- context [if ?b then _ else _] => rewrite H
  | H : ?b = false |- context [if ?b then _ else _] => rewrite H
  | H : ?b = _ |- context [if negb ?b then _ else _] => rewrite H; cbn [negb]
  end.

Ltac arm_step :=
  erewrite run_step;
  [ | cbn [pc nth_error asm_memset]; reflexivity
    | cbn [exec get set holds logic_flags fN fZ fV r0 r1 r2 r3 r4 r5 r6 r7 r8
           ip lr negb andb orb Bool.eqb]; known_tests; reflexivity ].

Ltac fuel f := destruct f as [|f]; [lia|].

(** What the caller is promised when the routine returns. *)
Record returned (m0 : mem) (s c n : Z) (rs0 : regs) (r : machine) : Prop := {
  ret_filled : filled m0 s c n (memory r);
  ret_r0 : get (rf r) R0 = s;
  ret_saved : forall x, In x saved -> get (rf r) x = get rs0 x;
  ret_stack : stack r = [] }.

Section Run.
Context (m0 : mem) (s c n : Z) (rs0 : regs).
Hypothesis Hc : 0 <= c < 256.
Hypothesis Hs : 0 <= s.
Hypothesis Hn : s + n < 2 ^ 32.

Definition frame : list (list Z) := [map (get rs0) saved].

Definition finishes (f : nat) (st : machine) : Prop :=
  exists r, run f asm_memset st = Some r /\ returned m0 s c n rs0 r.

Lemma run_done f rs fl m :
  (2 <= f)%nat -> get rs R0 = s -> filled m0 s c n m ->
  finishes f (Machine asm_memset_done rs fl m frame).
Proof.
  unfold finishes. intros Hf H0 H. fuel f. fuel f. unfold asm_memset_done.
  arm_step. rewrite run_end by done.
  eexists. split; [done|]. destruct rs, rs0. split; cbn in *; auto.
  intros x Hx. repeat destruct Hx as [<-|Hx]; done.
Qed.

(** [strne; strne; strne] on the low two bits of the count. *)
Lemma run_lessthan4 f rs fl m k :
  (10 <= f)%nat -> get rs R0 = s -> u8 (get rs R1) = c ->
  get rs IP = s + k -> 0 <= k ->
  n = k + tail_bit (get rs R2) 2 + tail_bit (get rs R2) 1 ->
  filled m0 s c k m ->
  finishes f (Machine asm_memset_lessthan4 rs fl m frame).
Proof.
  unfold finishes. intros Hf H0 H1 Hip Hk Hcount H. unfold asm_memset_lessthan4.
  destruct rs as [a0 a1 a2 a3 a4 a5 a6 a7 a8 aip alr]; cbn [get r0 r1 r2 ip] in *.
  unfold tail_bit in Hcount.
  do 6 fuel f. arm_step.
  destruct (Z.land a2 2 =? 0) eqn:E2, (Z.land a2 1 =? 0) eqn:E1;
    do 4 arm_step; (eapply run_done; [lia | done | ]); subst a0 aip;
    rewrite ?H1, ?(u32_id (s + k + 1)), ?(u32_id (s + k + 1 + 1)) by lia;
    repeat (apply filled_upd_back; [lia | lia | done | ]);
    match goal with |- filled _ _ _ ?x _ => by replace x with k by lia end.
Qed.

(** The registers once the pattern is spread: r1, r3-r8 and lr hold it. *)
Definition spread (w a : Z) : regs :=
  let p := pattern c in Regs s p w p p p p p p a p.

Lemma spread_block w a r : In r block32 -> get (spread w a) r = pattern c.
Proof. intros Hr. repeat destruct Hr as [<-|Hr]; done. Qed.

(** [tst r2, #b] followed by a conditional store of [b] bytes. *)
Lemma run_tst_stm f p b l w fl m k :
  nth_error asm_memset p = Some (TST R2 b) ->
  nth_error asm_memset (S p) = Some (STMIA NE IP l) ->
  4 * Z.of_nat (length l) = b -> (forall r, In r l -> In r block32) ->
  0 <= k -> k + tail_bit w b <= n -> filled m0 s c k m ->
  exists fl' m',
    run (S (S f)) asm_memset (Machine p (spread w (s + k)) fl m frame)
    = run f asm_memset
        (Machine (S (S p)) (spread w (s + (k + tail_bit w b))) fl' m' frame) /\
    filled m0 s c (k + tail_bit w b) m'.
Proof.
  intros H1 H2 Hl Hin Hk Hb H. unfold tail_bit in *.
  destruct (Z.land w b =? 0) eqn:E; do 2 eexists;
    (split; [ erewrite run_step; [|exact H1|reflexivity];
              erewrite run_step; [|exact H2|];
              [ | cbn [exec holds logic_flags fZ get r2 spread]; known_tests;
                  reflexivity ] | ]).
  - rewrite Z.add_0_r. reflexivity.
  - by rewrite Z.add_0_r.
  - rewrite Z.add_assoc, Hl. cbn [set spread get ip].
    rewrite (u32_id (s + k + b)) by lia. reflexivity.
  - apply filled_store_regs_back; try (done || lia).
    + intros r Hr. apply (spread_block w (s + k) r), Hin, Hr.
    + by replace (k + b - 4 * Z.of_nat (length l)) with k by lia.
Qed.

(** The tail, with [k] bytes written and [k'] < 64 left. *)
Lemma run_tail f fl m k k' :
  (24 <= f)%nat -> 0 <= k -> 0 <= k' < 64 -> n = k + k' ->
  filled m0 s c k m ->
  finishes f (Machine 25 (spread (u32 (k' - 64)) (s + k)) fl m frame).
Proof.
  unfold finishes. intros Hf Hk Hk' Hcount H. rewrite (tail_count k' Hk') in Hcount.
  set (w := u32 (k' - 64)) in *. clearbody w. clear Hk' k'. do 8 fuel f.
  assert (forall b, 0 <= b -> 0 <= tail_bit w b)
    by (intros; unfold tail_bit; bcase; lia).
  repeat match goal with H : forall b, 0 <= b -> 0 <= tail_bit w b |- _ =>
    pose proof (H 32 ltac:(lia)); pose proof (H 16 ltac:(lia));
    pose proof (H 8 ltac:(lia)); pose proof (H 4 ltac:(lia));
    pose proof (H 2 ltac:(lia)); pose proof (H 1 ltac:(lia)); clear H end.
  destruct (run_tst_stm (S (S (S (S (S (S f)))))) 25 32 block32 w fl m k)
    as (fl1 & m1 & -> & Hm1); [done..| tauto | lia | lia | done |].
  destruct (run_tst_stm (S (S (S (S f)))) 27 16 [R4; R5; R6; R7] w fl1 m1
    (k + tail_bit w 32)) as (fl2 & m2 & -> & Hm2);
    [done..| cbn; tauto | lia | lia | done |].
  destruct (run_tst_stm (S (S f)) 29 8 [R1; R3] w fl2 m2
    (k + tail_bit w 32 + tail_bit w 16)) as (fl3 & m3 & -> & Hm3);
    [done..| cbn; tauto | lia | lia | done |].
  set (k3 := k + tail_bit w 32 + tail_bit w 16 + tail_bit w 8) in *.
  unfold tail_bit at 4 in Hcount.
  unfold spread. arm_step.
  destruct (Z.land w 4 =? 0) eqn:E4; arm_step.
  - apply (run_lessthan4 f _ _ _ k3); cbn [get r0 r1 r2 ip];
      first [lia | done | by apply u8_pattern | idtac].
  - rewrite u32_id by lia.
    apply (run_lessthan4 f _ _ _ (k3 + 4)); cbn [get r0 r1 r2 ip];
      first [lia | done | by apply u8_pattern | idtac].
    apply filled_store32_back; first [lia | done | idtac].
    by replace (k3 + 4 - 4) with k3 by lia.
Qed.

(** The two [stmgeia] of one iteration. *)
Lemma next_block k :
  0 <= k -> s + k + 64 < 2 ^ 32 ->
  u32 (u32 (s + k + 4 * Z.of_nat (length block32))
       + 4 * Z.of_nat (length block32)) = s + (k + 64).
Proof.
  intros. cbn [length block32]. rewrite (u32_id (s + k + _)) by lia.
  rewrite u32_id; lia.
Qed.

Lemma two_blocks k w w' m :
  0 <= k -> k + 64 <= n -> filled m0 s c k m ->
  filled m0 s c (k + 64)
    (store_regs (spread w (u32 (s + k + 4 * Z.of_nat (length block32)))) block32
      (store_regs (spread w' (s + k)) block32 m (s + k))
      (u32 (s + k + 4 * Z.of_nat (length block32)))).
Proof.
  intros. cbn [length block32]. rewrite (u32_id (s + k + _)) by lia.
  repeat (apply filled_store_regs_back;
    [ cbn [length block32]; lia .. | intros r Hr; eapply spread_block, Hr | ]).
  cbn [length block32]. by replace (k + 64 - _ - _) with k by lia.
Qed.

(** The 64-byte loop, with [k] bytes written and [k'] left. *)
Lemma run_loop q : forall f fl m k k',
  (4 * q + 32 <= f)%nat -> 0 <= k -> 0 <= k' < 2 ^ 31 ->
  k' < 64 * (Z.of_nat q + 1) -> n = k + k' -> filled m0 s c k m ->
  finishes f (Machine asm_memset_loop (spread k' (s + k)) fl m frame).
Proof.
  induction q as [|q IH]; intros f fl m k k' Hf Hk Hk' Hq Hcount H;
    unfold finishes, asm_memset_loop, spread; do 5 fuel f; arm_step;
    rewrite sub_flags_small by lia;
    destruct (k' <? 64) eqn:Elt, (k' =? 64) eqn:Eeq; b2p; try lia;
    do 3 arm_step.
  - arm_step. by apply (run_tail f _ _ k k'); first [lia | done].
  - arm_step. by apply (run_tail f _ _ k k'); first [lia | done].
  - arm_step. eapply run_done; [lia | done |]. replace n with (k + 64) by lia.
    apply (two_blocks k (u32 (k' - 64)) (u32 (k' - 64)) m); first [lia | done].
  - rewrite next_block, (u32_id (k' - 64)) by lia.
    apply (IH (S f)); try lia.
    rewrite <- (u32_id (k' - 64)) by lia.
    apply (two_blocks k (u32 (k' - 64)) (u32 (k' - 64)) m); first [lia | done].
Qed.

Lemma run_aligned f a3 a4 a5 a6 a7 a8 ai al fl m k k' :
  (4 * Z.to_nat (k' / 64) + 41 <= f)%nat -> ai = s + k -> 0 <= k -> 0 <= k' < 2 ^ 31 ->
  n = k + k' -> filled m0 s c k m ->
  finishes f (Machine asm_memset_4bytealigned
    (Regs s c k' a3 a4 a5 a6 a7 a8 ai al) fl m frame).
Proof.
  unfold finishes, asm_memset_4bytealigned. intros Hf -> Hk Hk' Hcount H.
  do 9 fuel f. do 9 arm_step. rewrite orr_pattern by lia.
  apply (run_loop (Z.to_nat (k' / 64)) f fl m k k'); try (done || lia).
  Z.div_mod_to_equations. lia.
Qed.
End Run.

Lemma land3_cases s : let a := Z.land s 3 in a = 0 \/ a = 1 \/ a = 2 \/ a = 3.
Proof.
  cbv zeta. change 3 with (Z.ones 2) at 1 2 3 4. rewrite Z.land_ones by lia.
  pose proof (Z.mod_pos_bound s (2 ^ 2) ltac:(lia)). lia.
Qed.

(** The routine returns, fills exactly [s .. s+n-1] with [c], returns [s] in
    r0 and gives the callee-saved registers and the stack back. *)
Lemma memset_asm_returns m s c n rs :
  0 <= c < 256 -> 0 <= s -> 0 <= n < 2 ^ 31 -> s + n < 2 ^ 32 ->
  exists r, memset_asm m s c n rs = Some r /\ returned m s c n rs r.
Proof.
  intros Hc Hs Hn Hsn. unfold memset_asm, memset_entry, memset_fuel.
  rewrite (u32_id c) by lia.
  destruct rs as [a0 a1 a2 a3 a4 a5 a6 a7 a8 ai al]. cbn [set].
  set (f := (4 * Z.to_nat (n / 64) + 64)%nat).
  assert (Hf : (4 * Z.to_nat (n / 64) + 64 <= f)%nat) by lia. clearbody f.
  assert (Hdiv : forall k, k <= n -> (Z.to_nat (k / 64) <= Z.to_nat (n / 64))%nat)
    by (intros k ?; pose proof (Z.div_le_mono k n 64); lia).
  do 11 fuel f. do 3 arm_step.
  change (map _ saved :: []) with (frame (Regs a0 a1 a2 a3 a4 a5 a6 a7 a8 ai al)).
  destruct (land3_cases s) as [Ha|Ha]; [|destruct (Z.land s 3 =? 0) eqn:E0; [b2p; lia|]].
  { rewrite Ha. cbn [Z.eqb]. arm_step.
    by apply run_aligned with (k := 0) (k' := n); first [lia | apply filled_0]. }
  do 2 arm_step. rewrite sub_flags_small by lia.
  destruct (n <? 4) eqn:En; b2p.
  { arm_step. apply run_lessthan4 with (k := 0); cbn [get r0 r1 r2 ip];
      first [lia | done | by apply u8_id | apply filled_0 | idtac].
    rewrite (tail_count4 n) at 1 by lia. lia. }
  arm_step. arm_step. rewrite (u32_id (n - 4)) by lia.
  destruct Ha as [Ha|[Ha|Ha]]; rewrite Ha in *; rewrite sub_flags_small by lia;
    cbn [Z.ltb Z.eqb Z.compare Pos.compare Pos.compare_cont Pos.eqb];
    do 4 arm_step; rewrite (u32_id (n - 4 + _)), ?(u8_id c), ?(u32_id (s + 1)),
      ?(u32_id (s + 1 + 1)), ?(u32_id (s + 1 + 1 + 1)) by lia;
    match goal with |- context [n - 4 + ?a] =>
    apply run_aligned with (k := 4 - a) (k' := n - 4 + a);
      try (pose proof (Hdiv (n - 4 + a)); lia) end;
    repeat (apply filled_upd_back; [lia..|]); apply filled_0.
Qed.

(** C36. For a byte value, a count below 2^31 and a buffer that ends below the
    top of the address space, the assembly [memset] (the kernel's and the C
    library's copy) returns after a bounded number of instructions; the [n]
    bytes from [s] then hold [c] and every other byte of memory is unchanged,
    r0 holds [s], and r4-r8, lr and the stack are as the caller left them. *)
Theorem memset_fills prog m s c n rs :
  In prog [asm_memset; vlibc_asm_memset] ->
  0 <= c < 256 -> 0 <= s -> 0 <= n < 2 ^ 31 -> s + n < 2 ^ 32 ->
  exists r, run (memset_fuel n) prog (memset_entry m s c n rs) = Some r /\
    (forall a, memory r a = if (s <=? a) && (a <? s + n) then c else m a) /\
    get (rf r) R0 = s /\
    (forall x, In x saved -> get (rf r) x = get rs x) /\ stack r = [].
Proof.
  intros Hp Hc Hs Hn Hsn.
  replace prog with asm_memset by (destruct Hp as [<-|[<-|[]]]; reflexivity).
  destruct (memset_asm_returns m s c n rs Hc Hs Hn Hsn) as (r & E & [H1 H2 H3 H4]).
  exists r. auto.
Qed.

Lemma memset_fills_witness :
  exists r, run (memset_fuel 200) vlibc_asm_memset
      (memset_entry (fun _ => 7) 4099 171 200 (Regs 1 2 3 4 5 6 7 8 9 10 11)) = Some r /\
    (forall a, memory r a = if (4099 <=? a) && (a <? 4099 + 200) then 171 else 7) /\
    get (rf r) R0 = 4099 /\
    (forall x, In x saved -> get (rf r) x = get (Regs 1 2 3 4 5 6 7 8 9 10 11) x) /\
    stack r = [].
Proof.
  apply (memset_fills vlibc_asm_memset (fun _ => 7));
    [right; left; reflexivity | lia | lia | lia | lia].
Defined.

(** The C function: the memory the routine leaves behind. *)
Definition asm_memset_c (m : mem) (s c n : Z) : mem :=
  match memset_asm m s c n (Regs 0 0 0 0 0 0 0 0 0 0 0) with
  | Some r => memory r
  | None => m
  end.

#[global] Instance asm_memset_fill : MemFill.
Proof.
  refine {| memset := asm_memset_c |}.
  intros m s c n Hc Hs Hn Hsn.
  destruct (memset_asm_returns m s c n (Regs 0 0 0 0 0 0 0 0 0 0 0))
    as (r & E & H); try done.
  unfold asm_memset_c. rewrite E. apply H.
Defined.
