(* ===== verification/CString.v ===== *)
(** * String and memory routines: kernel/lib/string.c, kernel/lib/memcpy.c,
      the C part of kernel/lib/memset.c, userspace/vlibc/string.c

    Readers take the bytes they read as a function of the index
    ([at_ m p] for a pointer, a literal's bytes otherwise); writers take the
    memory and the addresses, and read the source from the memory as it is at
    that moment, so overlapping buffers behave as in the code.  [char] is
    unsigned.  A loop without a bound in the code takes fuel. *)

From stdpp Require Import base list numbers.
From Stdlib Require Import ZArith Lia.
From S2P Require Import Prelude.

(** ** kernel/lib/string.c *)

Fixpoint strncmp_loop (s1 s2 : Z -> Z) (i : Z) (n : nat) : Z :=
  match n with
  | O => 0
  | S n' =>
      let r := s1 i - s2 i in
      if negb (r =? 0) then r
      else if s1 i =? 0 then 0
      else strncmp_loop s1 s2 (i + 1) n'
  end.

Definition strncmp (s1 s2 : Z -> Z) (n : Z) : Z :=
  strncmp_loop s1 s2 0 (Z.to_nat n).

Fixpoint memcmp_loop (s1 s2 : Z -> Z) (i : Z) (n : nat) : Z :=
  match n with
  | O => 0
  | S n' =>
      let r := s1 i - s2 i in
      if negb (r =? 0) then r else memcmp_loop s1 s2 (i + 1) n'
  end.

Definition memcmp (s1 s2 : Z -> Z) (n : Z) : Z :=
  memcmp_loop s1 s2 0 (Z.to_nat n).

Fixpoint strlen_loop (fuel : nat) (s1 : Z -> Z) (i : Z) : option Z :=
  match fuel with
  | O => None
  | S f => if s1 i =? 0 then Some i else strlen_loop f s1 (i + 1)
  end.

Definition strlen (fuel : nat) (s1 : Z -> Z) : option Z := strlen_loop fuel s1 0.

(** [for (; i<n; i++) { dest[i]=src[i]; if (src[i]=='\0') break; }], the loop
    of [strncpy], [strlcpy] and [strncat]; [n] counts the iterations left. *)
Fixpoint copy_until (m : mem) (dest src i : Z) (n : nat) : mem * Z :=
  match n with
  | O => (m, i)
  | S n' =>
      let m' := upd m (dest + i) (m (src + i)) in
      if m' (src + i) =? 0 then (m', i) else copy_until m' dest src (i + 1) n'
  end.

Definition strncpy (m : mem) (dest src n : Z) : mem * Z :=
  let '(m1, i) := copy_until m dest src 0 (Z.to_nat n) in
  (for_up (Z.to_nat (n - i)) i (fun j m => upd m (dest + j) 0) m1, dest).

(** [n-1] is computed in [uint32_t]. *)
Definition strlcpy (m : mem) (dest src n : Z) : mem * Z :=
  let '(m1, i) := copy_until m dest src 0 (Z.to_nat (u32 (n - 1))) in
  (upd m1 (dest + i) 0, i).

(** [strlcpy] into an array that is not part of the memory, a local one or a
    field of a control block: [n] bytes left to copy. *)
Fixpoint copy_field (m : mem) (src : Z) (i n : nat) (name : list Z) : list Z :=
  match n with
  | O => <[i := 0]> name
  | S n' =>
      let name1 := <[i := m (src + Z.of_nat i)]> name in
      if m (src + Z.of_nat i) =? 0 then <[i := 0]> name1
      else copy_field m src (S i) n' name1
  end.

Definition strlcpy_name (m : mem) (src n : Z) (name : list Z) : list Z :=
  copy_field m src 0 (Z.to_nat (n - 1)) name.

Definition strncat (fuel : nat) (m : mem) (dest src n : Z) : option (mem * Z) :=
  dest_len ← strlen fuel (at_ m dest);
  let '(m1, i) := copy_until m (dest + dest_len) src 0 (Z.to_nat n) in
  Some (upd m1 (dest + dest_len + i) 0, dest).

(** ** userspace/vlibc/string.c *)

(** [i==n] compares an [int] with a [uint32_t]; [n] iterations from 0. *)
Fixpoint vlibc_strncmp_loop (s1 s2 : Z -> Z) (i : Z) (n : nat) : Z :=
  match n with
  | O => 0
  | S n' =>
      let r := s1 i - s2 i in
      if negb (r =? 0) then r else vlibc_strncmp_loop s1 s2 (i + 1) n'
  end.

Definition vlibc_strncmp (s1 s2 : Z -> Z) (n : Z) : Z :=
  vlibc_strncmp_loop s1 s2 0 (Z.to_nat n).

Fixpoint vlibc_strlen_loop (fuel : nat) (s : Z -> Z) (length : Z) : option Z :=
  match fuel with
  | O => None
  | S f => if negb (s length =? 0) then vlibc_strlen_loop f s (length + 1)
           else Some length
  end.

Definition vlibc_strlen (fuel : nat) (s : Z -> Z) : option Z :=
  vlibc_strlen_loop fuel s 0.

Fixpoint atoi_loop (fuel : nat) (string : Z -> Z) (ptr result : Z) : option Z :=
  match fuel with
  | O => None
  | S f =>
      if string ptr =? 0 then Some result
      else atoi_loop f string (ptr + 1) (s32 (s32 (result * 10) + (string ptr - 48)))
  end.

Definition atoi (fuel : nat) (string : Z -> Z) : option Z :=
  atoi_loop fuel string 0 0.

(** ** kernel/lib/memcpy.c *)

Definition memcpy (m : mem) (dest src n : Z) : mem :=
  for_up (Z.to_nat n) 0 (fun i m => upd m (dest + i) (m (src + i))) m.

Definition memcpy_4byte (m : mem) (dest src n : Z) : mem :=
  let tail := n mod 4 in
  let m1 := for_up (Z.to_nat ((n - tail) / 4)) 0
    (fun i m => store32 m (dest + 4 * i) (load32 m (src + 4 * i))) m in
  for_up (Z.to_nat tail) 0 (fun i m => upd m (dest + i) (m (src + i))) m1.

(** ** kernel/lib/memset.c, the C routines *)

Definition memset_byte (m : mem) (s c n : Z) : mem :=
  for_up (Z.to_nat n) 0 (fun i m => upd m (s + i) (u8 c)) m.

Definition memset_4byte (m : mem) (s c n : Z) : mem :=
  let p0 := Z.land c 255 in
  let pattern := Z.lor (Z.lor (Z.lor p0 (Z.shiftl p0 8)) (Z.shiftl p0 16))
                   (Z.shiftl p0 24) in
  let offset := s mod 4 in
  let '(m1, b, count) :=
    if negb (offset =? 0)
    then (for_up (Z.to_nat (4 - offset)) 0 (fun i m => upd m (s + i) (u8 c)) m,
          s + (4 - offset), u32 (n - 1))
    else (m, s, n) in
  let m2 := for_up (Z.to_nat (count / 4)) 0
    (fun i m => store32 m (b + 4 * i) pattern) m1 in
  for_up (Z.to_nat offset) 0
    (fun i m => upd m (s + u32 (n - offset) + i) (u8 c)) m2.

(** ** Comparison *)

Lemma strncmp_loop_zero s1 s2 n : forall i,
  strncmp_loop s1 s2 i n = 0 <->
  forall j, i <= j < i + Z.of_nat n ->
    (forall k, i <= k < j -> s1 k <> 0) -> s1 j = s2 j.
Proof.
  induction n as [|n IH]; intros i; cbn [strncmp_loop]; [split; [lia|done]|].
  destruct (s1 i - s2 i =? 0) eqn:E1; b2p; cbn [negb].
  - destruct (s1 i =? 0) eqn:E2; b2p.
    + split; [|done]. intros _ j Hj Hk.
      destruct (decide (j = i)) as [->|]; [lia|].
      exfalso. apply (Hk i); lia.
    + rewrite IH. split; intros H j Hj Hk.
      * destruct (decide (j = i)) as [->|]; [lia|].
        apply H; [lia|]. intros. apply Hk. lia.
      * apply H; [lia|]. intros k Hk'. destruct (decide (k = i)) as [->|]; [done|].
        apply Hk. lia.
  - split; [done|]. intros H. exfalso. apply E1.
    rewrite (H i); [lia | lia | intros; lia].
Qed.

Lemma has_cons f x l :
  has f (x :: l) <-> f 0 = x /\ has (fun j => f (1 + j)) l.
Proof.
  unfold has. split.
  - intros H. split; [apply (H 0%nat); cbn; lia|].
    intros i Hi. specialize (H (S i)). cbn [nth] in H. rewrite <- H by (cbn; lia).
    f_equal. lia.
  - intros [H0 H] [|i] Hi; cbn [nth]; [done|].
    rewrite <- H by (cbn in *; lia). f_equal. lia.
Qed.

Lemma has_ext f g l : (forall i, f i = g i) -> has f l -> has g l.
Proof. intros E H i Hi. rewrite <- E. by apply H. Qed.

Lemma strncmp_loop_cstring n : forall s1 s2 i a b,
  cstring (fun j => s1 (i + j)) a -> cstring (fun j => s2 (i + j)) b ->
  strncmp_loop s1 s2 i n = 0 <-> take n a = take n b.
Proof.
  induction n as [|n IH]; intros s1 s2 i a b [Ha Fa] [Hb Fb];
    cbn [strncmp_loop]; [by rewrite !take_0|].
  assert (Hsh : forall (s : Z -> Z) l, has (fun j => s (i + (1 + j))) l ->
            has (fun j => s (i + 1 + j)) l)
    by (intros s l; apply has_ext; intros; f_equal; lia).
  destruct a as [|x a], b as [|y b]; cbn [app] in Fa, Fb;
    apply has_cons in Fa as [Ex Fa]; apply has_cons in Fb as [Ey Fb];
    rewrite ?Z.add_0_r in *; rewrite Ex, Ey; cbn [firstn take].
  - by rewrite Z.eqb_refl.
  - inversion_clear Hb. destruct (0 - y =? 0) eqn:E; b2p; cbn [negb];
      [lia | split; [lia | done]].
  - inversion_clear Ha. destruct (x - 0 =? 0) eqn:E; b2p; cbn [negb];
      [lia | split; [lia | done]].
  - inversion_clear Ha. inversion_clear Hb.
    destruct (x - y =? 0) eqn:E; b2p; cbn [negb].
    + destruct (x =? 0) eqn:E0; b2p; [lia|].
      rewrite (IH s1 s2 (i + 1) a b) by (split; auto).
      replace y with x by lia. split; [intros -> | intros [=]]; done.
    + split; [lia | intros [=]; lia].
Qed.

(** On two NUL-terminated strings the kernel's [strncmp] returns zero
    exactly when the strings agree on their first [n] bytes: a string is not
    compared past its end. *)
Theorem strncmp_zero_iff s1 s2 a b n :
  cstring s1 a -> cstring s2 b ->
  strncmp s1 s2 n = 0 <-> take (Z.to_nat n) a = take (Z.to_nat n) b.
Proof. intros Ha Hb. by apply strncmp_loop_cstring. Qed.

(** ** Length *)

Lemma strlen_loop_S fuel f i :
  strlen_loop (S fuel) f i = if f i =? 0 then Some i else strlen_loop fuel f (i + 1).
Proof. done. Qed.

Lemma strlen_loop_cstring s : forall fuel f i,
  cstring (fun j => f (i + j)) s -> (length s < fuel)%nat ->
  strlen_loop fuel f i = Some (i + Z.of_nat (length s)).
Proof.
  induction s as [|x s IH]; intros [|fuel] f i [Hs Hf] Hl; cbn [length] in *;
    try lia; rewrite strlen_loop_S; cbn [app] in Hf;
    apply has_cons in Hf as [Hx Hf]; rewrite Z.add_0_r in Hx; rewrite Hx.
  - f_equal. lia.
  - inversion_clear Hs. destruct (x =? 0) eqn:E; b2p; [done|].
    rewrite IH; [f_equal; lia | split; [done|] | lia].
    revert Hf. apply has_ext. intros. f_equal. lia.
Qed.

Lemma strlen_cstring fuel f s :
  cstring f s -> (length s < fuel)%nat ->
  strlen fuel f = Some (Z.of_nat (length s)).
Proof. intros. unfold strlen. by rewrite (strlen_loop_cstring s). Qed.

(** ** Copying *)

(** The memory after copying [k] bytes from [src] to [dest]. *)
Definition copied (m : mem) (dest src k : Z) (m' : mem) : Prop :=
  forall a, m' a = if (dest <=? a) && (a <? dest + k)
                   then m (src + (a - dest)) else m a.

Definition apart (d n s k : Z) : Prop := d + n <= s \/ s + k <= d.

Lemma load32_modifies rs m m' a :
  modifies rs m m' -> Forall (fun r => apart (fst r) (snd r) a 4) rs ->
  load32 m' a = load32 m a.
Proof.
  intros Hm Hr. apply load32_ext. intros i Hi. apply Hm. revert Hr.
  apply List.Forall_impl. intros r Ha. unfold apart in Ha. lia.
Qed.

Lemma copied_0 m d s : copied m d s 0 m.
Proof. intros a. repeat bcase; try done. lia. Qed.

Lemma copied_step m d s k m' :
  0 <= k -> apart d (k + 1) s (k + 1) -> copied m d s k m' ->
  copied m d s (k + 1) (upd m' (d + k) (m' (s + k))).
Proof.
  intros Hk Hd H a. unfold upd.
  rewrite (H (s + k)). 
  destruct ((d <=? s + k) && (s + k <? d + k)) eqn:E; b2p; [unfold apart in Hd; lia|].
  destruct (a =? d + k) eqn:E1; b2p.
  - subst a. replace (d + k - d) with k by lia. by repeat (bcase; try lia).
  - rewrite H. destruct (d <=? a) eqn:?, (a <? d + k) eqn:?, (a <? d + (k + 1)) eqn:?;
      b2p; cbn; try done; lia.
Qed.

Lemma memcpy_copied m d s n :
  0 <= n -> apart d n s n -> copied m d s n (memcpy m d s n).
Proof.
  intros Hn Hd. unfold memcpy.
  pose proof (for_up_ind (fun i m' => copied m d s i m')
    (fun i m' => upd m' (d + i) (m' (s + i))) (Z.to_nat n) 0 m) as H.
  rewrite Z2Nat.id, Z.add_0_l in H by lia. apply H; [apply copied_0|].
  intros j t Hj. apply copied_step; unfold apart in *; lia.
Qed.

Lemma copy_until_spec d s n : forall m i,
  0 <= i -> apart (d + i) (Z.of_nat n) (s + i) (Z.of_nat n) ->
  let L := strnlen (at_ m s) i n in
  snd (copy_until m d s i n) = i + L /\
  copied m (d + i) (s + i) (Z.min (Z.of_nat n) (L + 1))
    (fst (copy_until m d s i n)).
Proof.
  induction n as [|n IH]; intros m i Hi Hd; cbn [copy_until strnlen].
  { split; [cbn; lia|]. apply copied_0. }
  cbn zeta. set (m1 := upd m (d + i) (m (s + i))).
  assert (E1 : m1 (s + i) = m (s + i))
    by (unfold m1; destruct (decide (s + i = d + i)) as [->|];
        [apply upd_eq | by apply upd_ne]).
  rewrite E1. unfold at_ at 1 3. destruct (m (s + i) =? 0) eqn:E0; b2p; cbn [fst snd].
  { split; [lia|]. replace (Z.min (Z.of_nat (S n)) (0 + 1)) with (0 + 1) by lia.
    unfold m1. rewrite <- (Z.add_0_r (d + i)) at 2. rewrite <- (Z.add_0_r (s + i)) at 2.
    apply copied_step; [lia | unfold apart in *; lia | apply copied_0]. }
  destruct (IH m1 (i + 1)) as [IH1 IH2]; [lia | unfold apart in *; lia |].
  assert (El : strnlen (at_ m1 s) (i + 1) n = strnlen (at_ m s) (i + 1) n)
    by (apply strnlen_ext; intros j Hj; unfold at_, m1; apply upd_ne;
        unfold apart in *; lia).
  rewrite El in IH1, IH2. pose proof (strnlen_range (at_ m s) n (i + 1)).
  split; [lia|]. intros a. rewrite IH2.
  set (L := strnlen (at_ m s) (i + 1) n) in *. clearbody L.
  replace (Z.min (Z.of_nat (S n)) (1 + L + 1)) with (1 + Z.min (Z.of_nat n) (L + 1)) by lia.
  set (K := Z.min (Z.of_nat n) (L + 1)).
  assert (Em : forall x, x <> d + i -> m1 x = m x) by (intros; by apply upd_ne).
  destruct (decide (a = d + i)) as [->|Ha].
  - unfold m1 at 2. rewrite upd_eq. replace (s + i + (d + i - (d + i))) with (s + i) by lia.
    repeat (bcase; try lia); done.
  - rewrite (Em a Ha).
    destruct ((d + (i + 1) <=? a) && (a <? d + (i + 1) + K)) eqn:E; b2p.
    + rewrite Em by (unfold apart in *; lia).
      replace (s + (i + 1) + (a - (d + (i + 1)))) with (s + i + (a - (d + i))) by lia.
      repeat (bcase; try lia); done.
    + destruct ((d + i <=? a) && (a <? d + i + (1 + K))) eqn:E'; b2p; [|done].
      apply andb_false_iff in E as [E|E]; b2p; lia.
Qed.

Lemma cstring_cons f b l : cstring f (b :: l) <-> b <> 0 /\ f 0 = b /\ cstring (fun i => f (1 + i)) l.
Proof.
  split.
  - intros [Hn Hh]. inversion_clear Hn. split; [done|]. split; [apply (Hh 0%nat); cbn; lia|].
    split; [done|]. intros i Hi. specialize (Hh (S i)). cbn in Hh.
    rewrite <- Hh by lia. f_equal. lia.
  - intros (Hb & H0 & [Hn Hh]). split; [by constructor|]. intros [|i] Hi; [done|].
    cbn in *. rewrite <- Hh by lia. f_equal. lia.
Qed.

Lemma cstring_nil f : cstring f [] <-> f 0 = 0.
Proof.
  split; [intros [_ Hh]; apply (Hh 0%nat); cbn; lia|].
  intros E. split; [constructor|]. intros [|i] Hi; [done|cbn in Hi; lia].
Qed.

Lemma cstring_at_cons m p b l :
  cstring (at_ m p) (b :: l) <-> b <> 0 /\ m p = b /\ cstring (at_ m (p + 1)) l.
Proof.
  rewrite cstring_cons. unfold at_. rewrite Z.add_0_r.
  assert (E : cstring (fun i => m (p + (1 + i))) l <-> cstring (fun i => m (p + 1 + i)) l).
  { split; intros [Hn Hh]; (split; [done|]); intros i Hi; rewrite <- Hh by done; f_equal; lia. }
  by rewrite E.
Qed.

Lemma cstring_at_nil m p : cstring (at_ m p) [] <-> m p = 0.
Proof. rewrite cstring_nil. unfold at_. by rewrite Z.add_0_r. Qed.

Lemma cstring_at_app m p a b :
  cstring (at_ m p) (a ++ b) -> cstring (at_ m (p + Z.of_nat (length a))) b.
Proof.
  revert p. induction a as [|x a IH]; intros p Hs; cbn [app length] in *.
  - by replace (p + Z.of_nat 0) with p by lia.
  - apply cstring_at_cons in Hs as (_ & _ & Hs). apply IH in Hs.
    by replace (p + Z.of_nat (S (length a))) with (p + 1 + Z.of_nat (length a)) by lia.
Qed.

Lemma bytes_of_nth f l : (forall i, (i < length l)%nat -> f (Z.of_nat i) = nth i l 0) ->
  bytes_of f (length l) = l.
Proof.
  intros H. unfold bytes_of. apply (nth_ext _ _ 0 0); rewrite length_map, length_seq; [done|].
  intros i Hi. rewrite (nth_indep _ 0 (f (Z.of_nat 0))) by (rewrite length_map, length_seq; lia).
  rewrite (map_nth (fun i => f (Z.of_nat i)) (seq 0 (length l)) 0%nat i).
  rewrite seq_nth by done. by apply H.
Qed.

Lemma bytes_of_app g (n k : nat) :
  bytes_of g n ++ bytes_of (fun i => g (Z.of_nat n + i)) k = bytes_of g (n + k).
Proof.
  unfold bytes_of. rewrite seq_app, map_app. f_equal. cbn [Nat.add].
  replace (seq n k) with (Nat.add n <$> seq 0 k) by (rewrite fmap_add_seq; f_equal; lia).
  unfold fmap. rewrite map_map. apply map_ext. intros i. f_equal. lia.
Qed.

(** The source is read as a NUL-terminated string; [L] bytes and a NUL land at
    [dest]: the common outcome of [strlcpy] and [strncat]. *)
Definition terminated (m : mem) (dest src L : Z) (m' : mem) : Prop :=
  forall a, m' a = if (dest <=? a) && (a <? dest + L)
                   then m (src + (a - dest))
                   else if a =? dest + L then 0 else m a.

Lemma copy_until_terminated m d s n :
  apart d (Z.of_nat n + 1) s (Z.of_nat n + 1) ->
  let L := strnlen (at_ m s) 0 n in
  let '(m1, i) := copy_until m d s 0 n in
  i = L /\ terminated m d s L (upd m1 (d + i) 0).
Proof.
  intros Hd L. pose proof (copy_until_spec d s n m 0 ltac:(lia)) as H.
  destruct (copy_until m d s 0 n) as [m1 i]. cbn [fst snd] in H. rewrite !Z.add_0_r in H.
  destruct H as [-> H]; [unfold apart in *; lia|]. fold L in H. fold L.
  pose proof (strnlen_range (at_ m s) n 0) as HL. fold L in HL.
  split; [lia|]. intros a. rewrite Z.add_0_l. unfold upd.
  destruct (a =? d + L) eqn:E; b2p.
  - by repeat (bcase; try lia).
  - rewrite H. repeat (bcase; try lia); done.
Qed.

Lemma cstring_intro f l :
  Forall (fun b => b <> 0) l ->
  (forall i, (i < length l)%nat -> f (Z.of_nat i) = nth i l 0) ->
  f (Z.of_nat (length l)) = 0 -> cstring f l.
Proof.
  intros Hl Hi H0. split; [done|]. intros i Hlt. rewrite length_app in Hlt. cbn in Hlt.
  destruct (decide (i = length l)) as [->|].
  - by rewrite app_nth2, Nat.sub_diag by lia.
  - rewrite app_nth1 by lia. apply Hi. lia.
Qed.

Lemma cstring_nth f l i :
  cstring f l -> (i < length l)%nat -> f (Z.of_nat i) = nth i l 0.
Proof.
  intros [_ H] Hi. rewrite H by (rewrite length_app; lia). by apply app_nth1.
Qed.

Lemma cstring_end f l : cstring f l -> f (Z.of_nat (length l)) = 0.
Proof.
  intros [_ H]. rewrite H by (rewrite length_app; cbn; lia).
  by rewrite app_nth2, Nat.sub_diag by lia.
Qed.

Lemma nth_take_lt (l : list Z) i n :
  (i < n)%nat -> nth i (take n l) 0 = nth i l 0.
Proof.
  revert i l. induction n as [|n IH]; intros [|i] [|x l]; cbn; try lia; try done.
  intros. apply IH. lia.
Qed.

Lemma terminated_cstring m d s m' l n :
  cstring (at_ m s) l -> terminated m d s (strnlen (at_ m s) 0 n) m' ->
  cstring (at_ m' d) (take n l).
Proof.
  intros Hs H. rewrite (cstring_strnlen _ _ n Hs) in H.
  apply cstring_intro.
  - apply Forall_take, Hs.
  - intros i Hi. rewrite length_take in Hi. unfold at_. rewrite H.
    rewrite nth_take_lt by lia. rewrite <- (cstring_nth _ _ _ Hs) by lia.
    unfold at_. replace (s + (d + Z.of_nat i - d)) with (s + Z.of_nat i) by lia.
    by repeat (bcase; try lia).
  - rewrite length_take. unfold at_. rewrite H. by repeat (bcase; try lia).
Qed.

Lemma terminated_outside m d s L m' :
  0 <= L -> terminated m d s L m' -> same_outside m d (L + 1) m'.
Proof. intros HL H a Ha. rewrite H. by repeat (bcase; try lia). Qed.

Lemma strlcpy_cstring m d s l n :
  cstring (at_ m s) l -> 1 <= n < 2 ^ 32 -> apart d n s n ->
  let '(m', r) := strlcpy m d s n in
  cstring (at_ m' d) (take (Z.to_nat (n - 1)) l) /\
  r = Z.min (n - 1) (Z.of_nat (length l)) /\
  same_outside m d (r + 1) m'.
Proof.
  intros Hs Hn Hd. unfold strlcpy. rewrite u32_id by lia.
  pose proof (copy_until_terminated m d s (Z.to_nat (n - 1))) as H.
  destruct (copy_until _ _ _ _ _) as [m1 i].
  rewrite Z2Nat.id in H by lia. replace (n - 1 + 1) with n in H by lia.
  destruct (H Hd) as [-> Ht]. split; [by eapply terminated_cstring|].
  rewrite (cstring_strnlen _ _ _ Hs) in *. rewrite Z2Nat.id by lia.
  split; [done|]. eapply terminated_outside; [lia|]. by rewrite Z2Nat.id in Ht by lia.
Qed.

Lemma cstring_app m d a b :
  Forall (fun x => x <> 0) a ->
  (forall i, (i < length a)%nat -> m (d + Z.of_nat i) = nth i a 0) ->
  cstring (at_ m (d + Z.of_nat (length a))) b -> cstring (at_ m d) (a ++ b).
Proof.
  intros Ha Hi Hb. apply cstring_intro.
  - apply Forall_app. split; [done | apply Hb].
  - intros i Hlt. rewrite length_app in Hlt. unfold at_.
    destruct (decide (i < length a)%nat).
    + rewrite app_nth1 by lia. by apply Hi.
    + rewrite app_nth2, <- (cstring_nth _ _ _ Hb) by lia. unfold at_. f_equal. lia.
  - rewrite length_app. rewrite <- (cstring_end _ _ Hb). unfold at_. f_equal. lia.
Qed.

Lemma cstring_ext f g l :
  (forall i, 0 <= i <= Z.of_nat (length l) -> g i = f i) -> cstring f l -> cstring g l.
Proof.
  intros H [Hl Hf]. split; [done|]. intros i Hi. rewrite <- Hf by done.
  rewrite length_app in Hi. cbn in Hi. apply H. lia.
Qed.

(** A string outside the modified regions is still there. *)
Lemma cstring_modifies rs m m' p l :
  modifies rs m m' ->
  Forall (fun r => apart (fst r) (snd r) p (Z.of_nat (length l) + 1)) rs ->
  cstring (at_ m p) l -> cstring (at_ m' p) l.
Proof.
  intros Hm Hr. apply cstring_ext. intros i Hi. apply Hm.
  revert Hr. apply List.Forall_impl. intros r Ha. unfold apart in Ha. lia.
Qed.

(** *** The same into an array *)

Lemma copy_field_ok m src n : forall i p name,
  cstring (at_ m (src + Z.of_nat i)) p -> (i + n < length name)%nat ->
  copy_field m src i n name
  = take i name ++ take n p ++ 0 :: drop (S (i + n `min` length p)) name.
Proof.
  induction n as [|n IH]; intros i p name Hs Hl; cbn [copy_field].
  - rewrite Nat.add_0_r. by rewrite insert_take_drop by lia.
  - destruct p as [|c p].
    + apply cstring_at_nil in Hs. rewrite Hs. cbn [Z.eqb take app length Nat.min].
      rewrite list_insert_insert_eq, Nat.add_0_r. by rewrite insert_take_drop by lia.
    + apply cstring_at_cons in Hs as (Hc & E & Hs).
      rewrite E, (proj2 (Z.eqb_neq c 0)) by done.
      rewrite (IH (S i) p) by (rewrite ?length_insert; try lia;
        by replace (src + Z.of_nat (S i)) with (src + Z.of_nat i + 1) by lia).
      rewrite (take_S_r _ _ c) by (apply list_lookup_insert_eq; lia).
      rewrite take_insert_ge, drop_insert_lt by lia. rewrite <- app_assoc.
      cbn [take app length Nat.min]. do 4 f_equal. by rewrite Nat.add_succ_r.
Qed.

(** The string, cut to what fits, its NUL and the rest of the array. *)
Lemma strlcpy_name_ok m src p n name :
  cstring (at_ m src) p -> 0 < n -> Z.of_nat (length name) = n ->
  let k := Z.to_nat (n - 1) in
  strlcpy_name m src n name = take k p ++ 0 :: drop (S (k `min` length p)) name.
Proof.
  intros Hs Hn Hl k. unfold strlcpy_name. rewrite (copy_field_ok m src _ 0 p name).
  - done.
  - by rewrite Z.add_0_r.
  - unfold k in *. lia.
Qed.

(** [strncat] of a source that starts with the non-NUL bytes [b] and is cut
    there by a NUL or by [n]. *)
Lemma strncat_bytes fuel m d s a b n :
  cstring (at_ m d) a -> Forall (fun x => x <> 0) b -> has (at_ m s) b ->
  strnlen (at_ m s) 0 (Z.to_nat n) = Z.of_nat (length b) ->
  0 <= n -> (length a < fuel)%nat ->
  apart (d + Z.of_nat (length a)) (n + 1) s (n + 1) ->
  exists m', strncat fuel m d s n = Some (m', d) /\
    cstring (at_ m' d) (a ++ b) /\
    same_outside m (d + Z.of_nat (length a)) (Z.of_nat (length b) + 1) m'.
Proof.
  intros Ha Hb Hsb HL Hn Hf Hd. unfold strncat. rewrite (strlen_cstring _ _ a Ha Hf).
  cbn [mbind option_bind].
  pose proof (copy_until_terminated m (d + Z.of_nat (length a)) s (Z.to_nat n)) as H.
  destruct (copy_until _ _ _ _ _) as [m1 i]. rewrite Z2Nat.id in H by lia.
  destruct (H Hd) as [-> Ht]. rewrite HL in *. eexists. split; [done|].
  pose proof Ht as Hout. apply terminated_outside in Hout; [|lia].
  split; [|done]. apply cstring_app; [apply Ha | |].
  - intros i Hi. rewrite Hout by lia. by apply (cstring_nth _ _ _ Ha).
  - apply cstring_intro; [done| |].
    + intros i Hi. rewrite <- Hsb by done. unfold at_. rewrite Ht.
      repeat (bcase; try lia). f_equal. lia.
    + unfold at_. rewrite Ht. by repeat (bcase; try lia).
Qed.

Lemma strncat_cstring fuel m d s a b n :
  cstring (at_ m d) a -> cstring (at_ m s) b -> 0 <= n -> (length a < fuel)%nat ->
  apart (d + Z.of_nat (length a)) (n + 1) s (n + 1) ->
  exists m', strncat fuel m d s n = Some (m', d) /\
    cstring (at_ m' d) (a ++ take (Z.to_nat n) b) /\
    same_outside m (d + Z.of_nat (length a))
      (Z.min n (Z.of_nat (length b)) + 1) m'.
Proof.
  intros Ha Hb Hn Hf Hd.
  destruct (strncat_bytes fuel m d s a (take (Z.to_nat n) b) n) as (m' & H1 & H2 & H3);
    try done.
  - apply Forall_take, Hb.
  - intros i Hi. rewrite length_take in Hi. rewrite nth_take_lt by lia.
    apply (cstring_nth _ _ _ Hb). lia.
  - rewrite (cstring_strnlen _ _ _ Hb), length_take. lia.
  - exists m'. split; [done|]. split; [done|]. rewrite length_take in H3.
    by replace (Z.of_nat (Z.to_nat n `min` length b)) with (Z.min n (Z.of_nat (length b)))
      in H3 by lia.
Qed.

Lemma zero_fill m d k n :
  let m' := for_up n k (fun j m => upd m (d + j) 0) m in
  forall a, m' a = if (d + k <=? a) && (a <? d + k + Z.of_nat n) then 0 else m a.
Proof.
  cbv zeta. pose proof (for_up_ind (fun i m' => forall a, m' a =
      if (d + k <=? a) && (a <? d + i) then 0 else m a)
    (fun j m => upd m (d + j) 0) n k m) as H.
  rewrite <- Z.add_assoc. apply H.
  - intros a. by repeat (bcase; try lia).
  - intros j t Hj Ht a. unfold upd. rewrite Ht. by repeat (bcase; try lia).
Qed.

(** [strncpy] writes exactly [n] bytes: the string, then NULs. *)
Lemma strncpy_bytes m d s n :
  0 <= n -> apart d n s n ->
  let L := strnlen (at_ m s) 0 (Z.to_nat n) in
  let '(m', r) := strncpy m d s n in
  r = d /\ forall a, m' a =
    if (d <=? a) && (a <? d + n)
    then (if a <? d + L then m (s + (a - d)) else 0) else m a.
Proof.
  intros Hn Hd L. unfold strncpy.
  pose proof (copy_until_spec d s (Z.to_nat n) m 0 ltac:(lia)) as H.
  pose proof (strnlen_range (at_ m s) (Z.to_nat n) 0) as HL.
  pose proof (strnlen_zero (at_ m s) (Z.to_nat n) 0) as HZ.
  destruct (copy_until _ _ _ _ _) as [m1 i]. cbn [fst snd] in H.
  rewrite !Z.add_0_r in H. rewrite Z2Nat.id in * by lia.
  destruct H as [-> H]; [unfold apart in *; lia|]. fold L in H, HL, HZ. fold L.
  split; [done|]. intros a. rewrite (zero_fill _ _ _ _ a), H.
  rewrite Z.add_0_l, Z2Nat.id by lia.
  destruct ((d <=? a) && (a <? d + n)) eqn:E1;
    [|by repeat (bcase; try lia)].
  destruct (a <? d + L) eqn:E2; b2p; [by repeat (bcase; try lia)|].
  by repeat (bcase; try lia).
Qed.

(** Into a buffer that does not overlap the source, [strlcpy] with a size
    of at least 1 leaves the source string cut to [n-1] bytes and terminated,
    returns its length, and touches nothing else; [strncat] leaves the old
    string followed by at most [n] bytes of the source, terminated, and touches
    only the bytes from the old terminator on: [n+1] bytes at most. *)
Theorem string_copies m d s a b n fuel :
  cstring (at_ m d) a -> cstring (at_ m s) b -> 1 <= n < 2 ^ 32 ->
  (length a < fuel)%nat ->
  apart d (Z.of_nat (length a) + n + 1) s (n + 1) ->
  (let '(m', r) := strlcpy m d s n in
   cstring (at_ m' d) (take (Z.to_nat (n - 1)) b) /\
   r = Z.min (n - 1) (Z.of_nat (length b)) /\ same_outside m d n m') /\
  (exists m', strncat fuel m d s n = Some (m', d) /\
   cstring (at_ m' d) (a ++ take (Z.to_nat n) b) /\
   same_outside m (d + Z.of_nat (length a)) (n + 1) m').
Proof.
  intros Ha Hb Hn Hf Hd. split.
  - pose proof (strlcpy_cstring m d s b n Hb Hn) as H. destruct (strlcpy m d s n) as [m' r].
    destruct H as (H1 & -> & H2); [unfold apart in *; lia|].
    split; [done|]. split; [done|]. intros x Hx. apply H2. lia.
  - destruct (strncat_cstring fuel m d s a b n) as (m' & E & H1 & H2);
      [done | done | lia | done | unfold apart in *; lia |].
    exists m'. split; [done|]. split; [done|]. intros x Hx. apply H2. lia.
Qed.

Lemma string_copies_witness :
  let m := mem_with (mem_with (fun _ => 9) 100 [72; 105; 0]) 200 [33; 34; 35; 0] in
  (let '(m', r) := strlcpy m 100 200 3 in
   cstring (at_ m' 100) [33; 34] /\ r = 2 /\ same_outside m 100 3 m') /\
  (exists m', strncat 5 m 100 200 3 = Some (m', 100) /\
   cstring (at_ m' 100) [72; 105; 33; 34; 35] /\ same_outside m 102 4 m').
Proof.
  apply (string_copies (mem_with (mem_with (fun _ => 9) 100 [72; 105; 0]) 200
           [33; 34; 35; 0]) 100 200 [72; 105] [33; 34; 35] 3 5);
    [ apply cstringb_cstring; reflexivity | apply cstringb_cstring; reflexivity
    | lia | cbn; lia | left; cbn; lia ].
Defined.

Lemma strncmp_zero_iff_witness :
  strncmp (at_ (mem_with (fun _ => 1) 10 [65; 66; 0]) 10)
    (at_ (mem_with (fun _ => 2) 20 [65; 67; 0]) 20) 2 = 0
  <-> take (Z.to_nat 2) [65; 66] = take (Z.to_nat 2) [65; 67].
Proof.
  apply strncmp_zero_iff; apply cstringb_cstring; reflexivity.
Defined.

(** The C library's [strncmp] has no test for the terminator: equal strings
    compare unequal when the bytes behind them differ. *)
Lemma vlibc_strncmp_past_nul :
  exists s1 s2, cstring s1 [65] /\ cstring s2 [65] /\
    vlibc_strncmp s1 s2 3 <> 0 /\ strncmp s1 s2 3 = 0.
Proof.
  exists (at_ (mem_with (fun _ => 1) 0 [65; 0]) 0), (at_ (mem_with (fun _ => 2) 0 [65; 0]) 0).
  split; [apply cstringb_cstring; reflexivity|].
  split; [apply cstringb_cstring; reflexivity|].
  split; [discriminate | reflexivity].
Qed.

(** [strlcpy] with a size of zero computes [n-1] = 2^32-1 and copies the whole
    source: the first byte is written although the buffer has none. *)
Lemma strlcpy_size_zero m d s l x :
  cstring (at_ m s) (x :: l) -> Z.of_nat (length l) < 1000 -> apart d (2 ^ 32) s (2 ^ 32) ->
  fst (strlcpy m d s 0) d = x.
Proof.
  intros Hs Hl Hd. unfold strlcpy. change (u32 (0 - 1)) with (2 ^ 32 - 1).
  pose proof (copy_until_terminated m d s (Z.to_nat (2 ^ 32 - 1))) as H.
  destruct (copy_until _ _ _ _ _) as [m1 i].
  rewrite Z2Nat.id in H by lia. destruct (H Hd) as [-> Ht]. cbn [fst].
  rewrite Ht, (cstring_strnlen _ _ _ Hs), Z2Nat.id by lia. cbn [length].
  pose proof (cstring_nth _ _ 0%nat Hs ltac:(cbn; lia)) as H0.
  unfold at_ in H0. cbn [nth Z.of_nat] in H0.
  clear H Ht Hs.
  rewrite Z.leb_refl, (proj2 (Z.ltb_lt d _)) by lia. cbn [andb].
  by replace (s + (d - d)) with (s + 0) by lia.
Qed.

(** ** The byte loops and the word loops *)

Lemma memset_byte_filled m s c n :
  0 <= c < 256 -> 0 <= n -> filled m s c n (memset_byte m s c n).
Proof.
  intros Hc Hn. unfold memset_byte. rewrite u8_id by lia.
  pose proof (for_up_ind (fun i m' => filled m s c i m')
    (fun i m' => upd m' (s + i) c) (Z.to_nat n) 0 m) as H.
  rewrite Z2Nat.id, Z.add_0_l in H by lia. apply H.
  - intros a. repeat bcase; try done. lia.
  - intros j t Hj Ht a. unfold upd. rewrite Ht. by repeat (bcase; try lia).
Qed.

Lemma store32_outside m a w x : ~ (a <= x < a + 4) -> store32 m a w x = m x.
Proof. intros H. unfold store32. rewrite !upd_ne by lia. done. Qed.

(** On an aligned buffer [memset_4byte] leaves the last [n mod 4] bytes
    untouched: the trailing loop runs [offset] = 0 times. *)
Lemma memset_4byte_misses_tail m s c n a :
  s mod 4 = 0 -> 0 <= n -> s + 4 * (n / 4) <= a -> memset_4byte m s c n a = m a.
Proof.
  intros Hs Hn Ha. unfold memset_4byte. rewrite Hs. cbn [Z.eqb negb Z.to_nat for_up].
  set (w := Z.lor _ _). clearbody w.
  pose proof (for_up_ind (fun i m' => m' a = m a)
    (fun i m' => store32 m' (s + 4 * i) w) (Z.to_nat (n / 4)) 0 m) as H.
  apply H; [done|]. intros j t Hj Ht.
  rewrite store32_outside; [done|]. pose proof (Z.div_pos n 4). lia.
Qed.

(** [memcpy_4byte] copies the trailing [n mod 4] bytes to the start of the
    buffer again: the last [n mod 4] bytes of the destination stay as they
    were. *)
Lemma memcpy_4byte_misses_tail m d s n a :
  4 <= n -> d + (n - n mod 4) <= a -> memcpy_4byte m d s n a = m a.
Proof.
  intros Hn Ha. unfold memcpy_4byte. pose proof (Z.mod_pos_bound n 4 ltac:(lia)).
  pose proof (Z.div_mod n 4 ltac:(lia)) as Hdm.
  replace (n - n mod 4) with (n / 4 * 4) in * by lia. rewrite Z.div_mul by lia.
  set (m1 := for_up (Z.to_nat (n / 4)) 0 _ m).
  assert (H1 : m1 a = m a).
  { apply (for_up_ind (fun i m' => m' a = m a)
      (fun i m' => store32 m' (d + 4 * i) (load32 m' (s + 4 * i)))
      (Z.to_nat (n / 4)) 0 m); [done|].
    intros j t Hj Ht. rewrite store32_outside; [done|]. lia. }
  rewrite <- H1.
  apply (for_up_ind (fun i m' => m' a = m1 a)
    (fun i m' => upd m' (d + i) (m' (s + i))) (Z.to_nat (n mod 4)) 0 m1); [done|].
  intros j t Hj Ht. rewrite upd_ne; [done|]. lia.
Qed.
