(* ===== verification/PageAlloc.v ===== *)
(** * The physical memory allocator: kernel/memory/memory.c

    A bitmap of 4 kB chunks, searched next-fit.  [Alloc] is the file's static
    state; the specification is the set of used chunks ([used]).  The map has
    [MAP_WORDS] words, and an access outside it makes an operation [None]. *)

From stdpp Require Import base list numbers.
From Stdlib Require Import ZArith Lia.
From S2P Require Import Prelude ArmMemset CString.

Definition MAX_MEMORY : Z := 1024 * 1024 * 1024.
Definition CHUNK_SIZE : Z := 4096.

(** The elements of [memory_map]. *)
Definition MAP_WORDS : Z := MAX_MEMORY / CHUNK_SIZE / 32.

(** [memory_map] is the array of 32-bit words by index; it is only accessed at
    the indices [at_chunk] lets through.  [previous_block] is the static local
    of [find_free]. *)
Record alloc := Alloc {
  memory_total : Z;
  memory_map : Z -> Z;
  max_chunk : Z;
  previous_block : Z }.

Definition with_map (st : alloc) (f : Z -> Z) : alloc :=
  Alloc (memory_total st) f (max_chunk st) (previous_block st).

(** ** Operations

    An access outside the array of [MAP_WORDS] words, and a shift by a negative
    number, is undefined: [None]. *)

(** The element and the bit of a chunk; C's [/] and [%] on [int] truncate. *)
Definition at_chunk (chunk : Z) : option (Z * Z) :=
  let element := Z.quot chunk 32 in
  let bit := Z.rem chunk 32 in
  if (0 <=? element) && (element <? MAP_WORDS) && (0 <=? bit) then Some (element, bit) else None.

(** The word is [unsigned]. *)
Definition memory_mark_used (st : alloc) (chunk : Z) : option alloc :=
  '(element, bit) ← at_chunk chunk;
  Some (with_map st (fun e => if e =? element
    then Z.lor (memory_map st e) (u32 (Z.shiftl 1 bit)) else memory_map st e)).

Definition memory_mark_free (st : alloc) (chunk : Z) : option alloc :=
  '(element, bit) ← at_chunk chunk;
  Some (with_map st (fun e => if e =? element
    then Z.land (memory_map st e) (u32 (Z.lnot (Z.shiftl 1 bit)))
    else memory_map st e)).

Definition memory_test_used (st : alloc) (chunk : Z) : option Z :=
  '(element, bit) ← at_chunk chunk;
  Some (s32 (Z.land (memory_map st element) (u32 (Z.shiftl 1 bit)))).

(** The loop that clears the map. *)
Definition clear_word (i : Z) (s : alloc) : option alloc :=
  if (0 <=? i) && (i <? MAP_WORDS)
  then Some (with_map s (fun e => if e =? i then 0 else memory_map s e)) else None.

Definition memory_init (st : alloc) (total kernel : Z) : option (Z * alloc) :=
  if MAX_MEMORY <? total then Some (-1, st)
  else
    let mc := total / CHUNK_SIZE in
    let st1 := Alloc (memory_total st) (memory_map st) mc (previous_block st) in
    st2 ← for_opt (Z.to_nat (mc / 32)) 0 clear_word st1;
    st3 ← for_opt (Z.to_nat (kernel / CHUNK_SIZE + 1)) 0 (fun i s => memory_mark_used s i) st2;
    Some (0, st3).

(** The inner loop of [find_free]: the value of [j] when it stops. *)
Fixpoint free_run (st : alloc) (i j : Z) (n : nat) : option Z :=
  match n with
  | O => Some j
  | S n' =>
      t ← memory_test_used st (i + j);
      if negb (t =? 0) then Some j else free_run st i (j + 1) n'
  end.

(** One of the two searches: [n] candidates from [i]; the inner [None] when no
    run was found. *)
Fixpoint find_from (st : alloc) (num_chunks i : Z) (n : nat) : option (option Z) :=
  match n with
  | O => Some None
  | S n' =>
      t ← memory_test_used st i;
      if t =? 0 then
        j ← free_run st i 0 (Z.to_nat num_chunks);
        if j =? num_chunks then Some (Some i) else find_from st num_chunks (i + 1) n'
      else find_from st num_chunks (i + 1) n'
  end.

Definition find_free (st : alloc) (num_chunks : Z) : option (Z * alloc) :=
  let found i := Some (i, Alloc (memory_total st) (memory_map st) (max_chunk st) (i + 1)) in
  r ← find_from st num_chunks (previous_block st)
        (Z.to_nat (max_chunk st - previous_block st));
  match r with
  | Some i => found i
  | None =>
      r ← find_from st num_chunks 0 (Z.to_nat (previous_block st));
      match r with
      | Some i => found i
      | None => Some (-1, st)
      end
  end.

Definition memory_total_free (st : alloc) : option Z :=
  total_free ← for_opt (Z.to_nat (max_chunk st)) 0
    (fun i total_free =>
       t ← memory_test_used st i;
       Some (if t =? 0 then total_free + 1 else total_free)) 0;
  Some (total_free * CHUNK_SIZE).

Definition chunks_of (size : Z) : Z := u32 (size - 1) / CHUNK_SIZE + 1.

(** The address returned; 0 is NULL. *)
Definition memory_allocate (st : alloc) (size0 : Z) : option (Z * alloc) :=
  let size := if size0 =? 0 then 1 else size0 in
  let num_chunks := chunks_of size in
  '(first_chunk, st1) ← find_free st num_chunks;
  if first_chunk <? 0 then Some (0, st1)
  else
    st2 ← for_opt (Z.to_nat num_chunks) 0
            (fun i s => memory_mark_used s (first_chunk + i)) st1;
    Some (first_chunk * CHUNK_SIZE, st2).

(** The freed bytes are poisoned with 'V' in the memory [m]. *)
Definition memory_free `{MemFill} (st : alloc) (m : mem) (location size : Z)
    : option (Z * alloc * mem) :=
  let num_chunks := chunks_of size in
  let first_chunk := Z.quot (s32 location) CHUNK_SIZE in
  let m' := memset m location 86 size in
  st' ← for_opt (Z.to_nat num_chunks) 0
          (fun i s => memory_mark_free s (first_chunk + i)) st;
  Some (0, st', m').

Definition memory_get_total (st : alloc) : Z := memory_total st.

(** ** The specification: the set of used chunks *)

Definition used (st : alloc) (c : Z) : bool :=
  Z.testbit (memory_map st (c / 32)) (c mod 32).

(** Bits [lo .. lo+n-1]. *)
Definition in_run (lo n c : Z) : bool := (lo <=? c) && (c <? lo + n).

(** The chunks the map has bits for, and the ones a board has fewer: the video
    core takes at least 16 MB of the first gigabyte. *)
Definition MAP_CHUNKS : Z := MAX_MEMORY / CHUNK_SIZE.
Definition VIDEO_CHUNKS : Z := 4096.

Record alloc_wf (st : alloc) : Prop := {
  wf_max : 0 <= max_chunk st <= MAP_CHUNKS - VIDEO_CHUNKS;
  wf_prev : 0 <= previous_block st <= max_chunk st }.

Lemma at_chunk_in c : 0 <= c < MAP_CHUNKS -> at_chunk c = Some (c / 32, c mod 32).
Proof.
  intros Hc. unfold at_chunk. change MAP_CHUNKS with 262144 in Hc. change MAP_WORDS with 8192.
  rewrite Z.quot_div_nonneg, Z.rem_mod_nonneg by lia.
  replace ((0 <=? c / 32) && (c / 32 <? 8192) && (0 <=? c mod 32)) with true; [done|].
  symmetry. rewrite !andb_true_iff, !Z.leb_le, Z.ltb_lt. Z.div_mod_to_equations. lia.
Qed.

Lemma at_chunk_out c : 0 <= c -> MAP_CHUNKS <= c -> at_chunk c = None.
Proof.
  intros H0 Hc. unfold at_chunk. change MAP_CHUNKS with 262144 in Hc. change MAP_WORDS with 8192.
  rewrite Z.quot_div_nonneg by lia. replace (c / 32 <? 8192) with false; [by rewrite andb_false_r|].
  symmetry. apply Z.ltb_ge. Z.div_mod_to_equations. lia.
Qed.

Lemma at_chunk_inv c x : 0 <= c -> at_chunk c = Some x -> c < MAP_CHUNKS /\ x = (c / 32, c mod 32).
Proof.
  intros H0 E. destruct (decide (c < MAP_CHUNKS)) as [Hc|Hc].
  - rewrite at_chunk_in in E by lia. by injection E as <-.
  - rewrite at_chunk_out in E by lia. done.
Qed.

Lemma shiftl1_u32 b : 0 <= b < 32 -> u32 (Z.shiftl 1 b) = 2 ^ b.
Proof.
  intros Hb. rewrite Z.shiftl_1_l, u32_id; [done|].
  split; [lia|]. apply Z.pow_lt_mono_r; lia.
Qed.

Lemma chunk_eq c d :
  0 <= c -> 0 <= d -> (c =? d) = (c / 32 =? d / 32) && (c mod 32 =? d mod 32).
Proof.
  intros. destruct (c =? d) eqn:E; b2p; [subst; by rewrite !Z.eqb_refl|].
  symmetry. apply andb_false_iff. rewrite !Z.eqb_neq.
  pose proof (Z.div_mod c 32). pose proof (Z.div_mod d 32). lia.
Qed.

Definition same_shape (st st' : alloc) : Prop :=
  max_chunk st' = max_chunk st /\ previous_block st' = previous_block st /\
  memory_total st' = memory_total st.

(** What marking does, where it is defined. *)
Lemma mark_used_inv st c st' : 0 <= c -> memory_mark_used st c = Some st' ->
  c < MAP_CHUNKS /\ same_shape st st' /\
  forall d, 0 <= d -> used st' d = (d =? c) || used st d.
Proof.
  intros Hc E. unfold memory_mark_used in E. apply bind_Some in E as (x & Ex & E).
  apply at_chunk_inv in Ex as [Hm ->]; [|done]. injection E as <-.
  split; [done|]. split; [done|]. intros d Hd. unfold used. cbn [memory_map with_map].
  pose proof (Z.mod_pos_bound c 32). pose proof (Z.mod_pos_bound d 32).
  rewrite shiftl1_u32, (chunk_eq d c) by lia.
  destruct (d / 32 =? c / 32) eqn:E; cbn [andb orb]; [|done].
  rewrite Z.lor_spec, Z.pow2_bits_eqb by lia.
  rewrite orb_comm, (Z.eqb_sym (c mod 32)). b2p. by rewrite E.
Qed.

Lemma mark_free_inv st c st' : 0 <= c -> memory_mark_free st c = Some st' ->
  c < MAP_CHUNKS /\ same_shape st st' /\
  forall d, 0 <= d -> used st' d = negb (d =? c) && used st d.
Proof.
  intros Hc E. unfold memory_mark_free in E. apply bind_Some in E as (x & Ex & E).
  apply at_chunk_inv in Ex as [Hm ->]; [|done]. injection E as <-.
  split; [done|]. split; [done|]. intros d Hd. unfold used. cbn [memory_map with_map].
  pose proof (Z.mod_pos_bound c 32). pose proof (Z.mod_pos_bound d 32).
  rewrite (chunk_eq d c) by lia. destruct (d / 32 =? c / 32) eqn:E; cbn [andb negb]; [|done].
  unfold u32. rewrite <- Z.land_ones, !Z.land_spec, Z.lnot_spec, Z.shiftl_1_l,
    Z.pow2_bits_eqb, Z.ones_spec_low by lia.
  rewrite andb_true_r, andb_comm, (Z.eqb_sym (c mod 32)). b2p. by rewrite E.
Qed.

Lemma mark_used_in st c : 0 <= c < MAP_CHUNKS -> is_Some (memory_mark_used st c).
Proof. intros Hc. unfold memory_mark_used. rewrite at_chunk_in by done. by eexists. Qed.

Lemma mark_free_in st c : 0 <= c < MAP_CHUNKS -> is_Some (memory_mark_free st c).
Proof. intros Hc. unfold memory_mark_free. rewrite at_chunk_in by done. by eexists. Qed.

(** The test of a bit. *)
Lemma word_bit_zero w b : 0 <= b < 32 ->
  (s32 (Z.land w (u32 (Z.shiftl 1 b))) =? 0) = negb (Z.testbit w b).
Proof.
  intros Hb. rewrite shiftl1_u32 by lia.
  assert (El : Z.land w (2 ^ b) = if Z.testbit w b then 2 ^ b else 0).
  { apply Z.bits_inj'. intros i Hi. rewrite Z.land_spec, Z.pow2_bits_eqb by lia.
    destruct (b =? i) eqn:E; b2p.
    - rewrite <- E. destruct (Z.testbit w b); [|by rewrite Z.bits_0].
      by rewrite Z.pow2_bits_eqb, Z.eqb_refl by lia.
    - rewrite andb_false_r.
      destruct (Z.testbit w b); [|by rewrite Z.bits_0].
      rewrite Z.pow2_bits_eqb by lia. symmetry. by apply Z.eqb_neq. }
  rewrite El. destruct (Z.testbit w b); cbn [negb]; [|done].
  apply Z.eqb_neq. intros E. apply (f_equal u32) in E.
  assert (2 ^ b < 2 ^ 32) by (apply Z.pow_lt_mono_r; lia).
  assert (0 < 2 ^ b) by (apply Z.pow_pos_nonneg; lia).
  rewrite u32_s32, u32_id in E by lia. change (u32 0) with 0 in E. lia.
Qed.

Lemma test_used_in st c : 0 <= c < MAP_CHUNKS ->
  exists t, memory_test_used st c = Some t /\ (t =? 0) = negb (used st c).
Proof.
  intros Hc. unfold memory_test_used, used. rewrite at_chunk_in by done.
  eexists. split; [done|]. apply word_bit_zero, Z.mod_pos_bound. lia.
Qed.

Lemma test_used_inv st c t : 0 <= c -> memory_test_used st c = Some t ->
  c < MAP_CHUNKS /\ (t =? 0) = negb (used st c).
Proof.
  intros H0 E. pose proof E as E'. unfold memory_test_used in E'.
  apply bind_Some in E' as (x & Ex & _). apply at_chunk_inv in Ex as [Hc _]; [|done].
  split; [done|]. destruct (test_used_in st c ltac:(lia)) as (t' & Et & Hz). congruence.
Qed.

(** ** The search *)

Lemma free_run_inv st i n : forall j r, 0 <= i + j -> free_run st i j n = Some r ->
  (r = j + Z.of_nat n <->
   forall c, i + j <= c < i + j + Z.of_nat n -> used st c = false).
Proof.
  induction n as [|n IH]; intros j r Hj E; cbn [free_run] in E.
  - injection E as <-. split; [intros; lia|lia].
  - apply bind_Some in E as (t & Et & E). apply test_used_inv in Et as [_ Et]; [|lia].
    rewrite Et, negb_involutive in E. destruct (used st (i + j)) eqn:U.
    + injection E as <-. split; [lia|]. intros H. rewrite H in U; [done|lia].
    + replace (j + Z.of_nat (S n)) with (j + 1 + Z.of_nat n) by lia.
      apply IH in E; [|lia]. rewrite E. split; intros H c Hc.
      * destruct (decide (c = i + j)) as [->|]; [done|]. apply H. lia.
      * apply H. lia.
Qed.

Lemma free_run_in st i n : forall j, 0 <= i + j -> i + j + Z.of_nat n <= MAP_CHUNKS ->
  is_Some (free_run st i j n).
Proof.
  induction n as [|n IH]; intros j Hj Hm; cbn [free_run]; [by eexists|].
  destruct (test_used_in st (i + j) ltac:(lia)) as (t & -> & _). cbn [mbind option_bind].
  destruct (negb (t =? 0)); [by eexists|]. apply IH; lia.
Qed.

(** The [num] chunks from [i] are free. *)
Definition run_is_free (st : alloc) (i num : Z) : Prop :=
  forall c, i <= c < i + num -> used st c = false.

(** What a search that stayed in the map found. *)
Lemma find_from_inv st num n : forall i r,
  0 <= i -> 1 <= num -> find_from st num i n = Some r ->
  match r with
  | Some c => i <= c < i + Z.of_nat n /\ run_is_free st c num /\
              forall d, i <= d < c -> ~ run_is_free st d num
  | None => forall d, i <= d < i + Z.of_nat n -> ~ run_is_free st d num
  end.
Proof.
  induction n as [|n IH]; intros i r Hi Hn E; cbn [find_from] in E; [injection E as <-; lia|].
  apply bind_Some in E as (t & Et & E). apply test_used_inv in Et as [_ Et]; [|lia].
  assert (Hnext : ~ run_is_free st i num -> find_from st num (i + 1) n = Some r ->
    match r with
    | Some c => i <= c < i + Z.of_nat (S n) /\ run_is_free st c num /\
                forall d, i <= d < c -> ~ run_is_free st d num
    | None => forall d, i <= d < i + Z.of_nat (S n) -> ~ run_is_free st d num
    end).
  { intros Hno Ef. apply IH in Ef; [|lia|done]. destruct r as [c|].
    - destruct Ef as (H1 & H2 & H3). split; [lia|]. split; [done|].
      intros d Hd. destruct (decide (d = i)) as [->|]; [done|]. apply H3. lia.
    - intros d Hd. destruct (decide (d = i)) as [->|]; [done|]. apply Ef. lia. }
  destruct (t =? 0).
  - apply bind_Some in E as (j & Ej & E). apply free_run_inv in Ej; [|lia].
    rewrite Z.add_0_r, Z.add_0_l, Z2Nat.id in Ej by lia.
    destruct (j =? num) eqn:Ejn; b2p.
    + injection E as <-. split; [lia|]. split; [exact (proj1 Ej Ejn)|]. lia.
    + apply Hnext; [|done]. intros Hr. apply Ejn. exact (proj2 Ej Hr).
  - apply Hnext; [|done]. intros Hr. rewrite (Hr i) in Et by lia. done.
Qed.

Lemma find_from_in st num n : forall i, 0 <= i -> 1 <= num ->
  i + Z.of_nat n + num <= MAP_CHUNKS + 1 -> is_Some (find_from st num i n).
Proof.
  induction n as [|n IH]; intros i Hi Hn Hm; cbn [find_from]; [by eexists|].
  destruct (test_used_in st i ltac:(lia)) as (t & -> & _). cbn [mbind option_bind].
  destruct (t =? 0); [|apply IH; lia].
  destruct (free_run_in st i (Z.to_nat num) 0 ltac:(lia) ltac:(lia)) as (j & ->).
  cbn [mbind option_bind]. destruct (j =? num); [by eexists|apply IH; lia].
Qed.

(** A search that meets only used chunks before a run. *)
Lemma find_from_first st num k : forall n i, 0 <= i <= k -> k < i + Z.of_nat n -> 1 <= num ->
  (forall c, i <= c < k -> used st c = true) -> run_is_free st k num -> k + num <= MAP_CHUNKS ->
  find_from st num i n = Some (Some k).
Proof.
  induction n as [|n IH]; intros i Hi Hk Hn Hu Hr Hm; [lia|]. cbn [find_from].
  destruct (test_used_in st i ltac:(lia)) as (t & -> & Ht). cbn [mbind option_bind]. rewrite Ht.
  destruct (decide (i = k)) as [->|Hne].
  - rewrite (Hr k) by lia. cbn [negb]. destruct (free_run_in st k (Z.to_nat num) 0) as (j & Ej); [lia..|].
    rewrite Ej. cbn [mbind option_bind]. apply free_run_inv in Ej; [|lia].
    rewrite Z.add_0_r, Z.add_0_l, Z2Nat.id in Ej by lia. by rewrite (proj2 Ej Hr), Z.eqb_refl.
  - rewrite Hu by lia. cbn [negb]. apply IH; try lia; [|done]. intros c Hc. apply Hu. lia.
Qed.

(** [i] is the first free run at or after the place where the last search
    stopped, else the first one before it. *)
Definition next_fit (st : alloc) (num i : Z) : Prop :=
  run_is_free st i num /\
  ((previous_block st <= i < max_chunk st /\
    forall d, previous_block st <= d < i -> ~ run_is_free st d num) \/
   (0 <= i < previous_block st /\
    (forall d, previous_block st <= d < max_chunk st -> ~ run_is_free st d num) /\
    forall d, 0 <= d < i -> ~ run_is_free st d num)).

Lemma next_fit_range st num i :
  alloc_wf st -> next_fit st num i -> 0 <= i < max_chunk st.
Proof. intros [Hm Hp] [_ [[? _]|[? _]]]; lia. Qed.

Lemma find_free_inv st num i st' :
  alloc_wf st -> 1 <= num -> find_free st num = Some (i, st') ->
  (i = -1 /\ st' = st /\
     forall d, 0 <= d < max_chunk st -> ~ run_is_free st d num) \/
  (next_fit st num i /\
   st' = Alloc (memory_total st) (memory_map st) (max_chunk st) (i + 1)).
Proof.
  intros [Hm Hp] Hn E. unfold find_free in E. apply bind_Some in E as (r1 & E1 & E).
  apply find_from_inv in E1; [|lia|done]. rewrite Z2Nat.id, Zplus_minus in E1 by lia.
  destruct r1 as [c|].
  { injection E as <- <-. right. destruct E1 as (? & ? & ?). split; [|done].
    split; [done|]. by left. }
  apply bind_Some in E as (r2 & E2 & E). apply find_from_inv in E2; [|lia|done].
  rewrite Z2Nat.id, Z.add_0_l in E2 by lia. destruct r2 as [c|].
  { injection E as <- <-. right. destruct E2 as (? & ? & ?). split; [|done].
    split; [done|]. by right. }
  injection E as <- <-. left. split; [done|]. split; [done|]. intros d Hd.
  destruct (decide (d < previous_block st)); [apply E2 | apply E1]; lia.
Qed.

Lemma find_free_in st num : alloc_wf st -> 1 <= num -> max_chunk st + num <= MAP_CHUNKS + 1 ->
  is_Some (find_free st num).
Proof.
  intros [Hm Hp] Hn Hr. unfold find_free.
  destruct (find_from_in st num (Z.to_nat (max_chunk st - previous_block st)) (previous_block st))
    as ([i|] & ->); [lia..|by eexists|]. cbn [mbind option_bind].
  destruct (find_from_in st num (Z.to_nat (previous_block st)) 0) as ([i|] & ->); [lia..|by eexists|].
  by eexists.
Qed.

(** ** Marking runs *)

Lemma used_with_prev st i c :
  used (Alloc (memory_total st) (memory_map st) (max_chunk st) i) c = used st c.
Proof. done. Qed.

(** The chunks from [lo] on are marked one by one by [mark], which sets the bit
    to [v]. *)
Section Runs.
Context (mark : alloc -> Z -> option alloc) (v : bool).
Context (mark_inv : forall st c st', 0 <= c -> mark st c = Some st' ->
  c < MAP_CHUNKS /\ same_shape st st' /\
  forall d, 0 <= d -> used st' d = if d =? c then v else used st d).
Context (mark_in : forall st c, 0 <= c < MAP_CHUNKS -> is_Some (mark st c)).

Definition marked (st : alloc) (lo n : Z) (st' : alloc) : Prop :=
  (0 < n -> lo + n <= MAP_CHUNKS) /\ same_shape st st' /\
  forall c, 0 <= c -> used st' c = if in_run lo n c then v else used st c.

Lemma marked_step st lo j t t' : 0 <= lo -> 0 <= j -> marked st lo j t ->
  mark t (lo + j) = Some t' -> marked st lo (j + 1) t'.
Proof.
  intros Hlo Hj (H1 & (S1 & S2 & S3) & H3) E. apply mark_inv in E as (E1 & (T1 & T2 & T3) & E3); [|lia].
  split; [lia|]. split; [repeat split; congruence|]. intros c Hc. rewrite E3, H3 by done.
  unfold in_run. repeat bcase; done || lia.
Qed.

Lemma marked_refl st lo : marked st lo 0 st.
Proof.
  split; [lia|]. split; [done|]. intros c Hc. unfold in_run.
  by replace ((lo <=? c) && (c <? lo + 0)) with false by lia.
Qed.

Lemma mark_run_inv st lo n st' : 0 <= lo ->
  for_opt n 0 (fun i s => mark s (lo + i)) st = Some st' -> marked st lo (Z.of_nat n) st'.
Proof.
  intros Hlo E. revert E. rewrite <- (Z.add_0_l (Z.of_nat n)).
  apply (for_opt_ind (fun i s => marked st lo i s)); [apply marked_refl|].
  intros j t t' Hj Ht Et. by eapply marked_step; [done|lia|exact Ht|].
Qed.

Lemma mark_run_in st lo n : 0 <= lo -> lo + Z.of_nat n <= MAP_CHUNKS ->
  is_Some (for_opt n 0 (fun i s => mark s (lo + i)) st).
Proof.
  intros Hlo Hm. destruct (for_opt_total (fun _ _ => True) (fun i s => mark s (lo + i)) n 0 st)
    as (s' & -> & _); [done| |by eexists].
  intros j t Hj _. destruct (mark_in t (lo + j) ltac:(lia)) as (t' & ->). eauto.
Qed.
End Runs.

Lemma mark_used_run st lo n st' : 0 <= lo ->
  for_opt n 0 (fun i s => memory_mark_used s (lo + i)) st = Some st' ->
  marked true st lo (Z.of_nat n) st'.
Proof.
  apply mark_run_inv. intros s c s' Hc E. apply mark_used_inv in E as (E1 & E2 & E3); [|done].
  split; [done|]. split; [done|]. intros d Hd. rewrite E3 by done. by bcase.
Qed.

Lemma mark_free_run st lo n st' : 0 <= lo ->
  for_opt n 0 (fun i s => memory_mark_free s (lo + i)) st = Some st' ->
  marked false st lo (Z.of_nat n) st'.
Proof.
  apply mark_run_inv. intros s c s' Hc E. apply mark_free_inv in E as (E1 & E2 & E3); [|done].
  split; [done|]. split; [done|]. intros d Hd. rewrite E3 by done. by bcase.
Qed.

(** ** Allocation *)

Lemma chunks_of_bounds size :
  1 <= size < 2 ^ 32 ->
  1 <= chunks_of size <= 2 ^ 20 /\
  CHUNK_SIZE * (chunks_of size - 1) < size <= CHUNK_SIZE * chunks_of size.
Proof.
  intros Hs. unfold chunks_of, CHUNK_SIZE. rewrite u32_id by lia.
  Z.div_mod_to_equations. lia.
Qed.

(** The size the code works with. *)
Definition eff_size (size : Z) : Z := if size =? 0 then 1 else size.

Lemma eff_size_bounds size : 0 <= size < 2 ^ 32 -> 1 <= eff_size size < 2 ^ 32.
Proof. unfold eff_size. bcase; lia. Qed.

(** Everything an allocation does, in terms of the set of used chunks. *)
Lemma memory_allocate_cases st size p st' :
  alloc_wf st -> 0 <= size < 2 ^ 32 -> memory_allocate st size = Some (p, st') ->
  let num := chunks_of (eff_size size) in
  (p = 0 /\ st' = st /\
     forall d, 0 <= d < max_chunk st -> ~ run_is_free st d num) \/
  (exists c, p = c * CHUNK_SIZE /\ 0 <= c < max_chunk st /\ c + num <= MAP_CHUNKS /\
     next_fit st num c /\
     (forall d, 0 <= d -> used st' d = in_run c num d || used st d) /\
     max_chunk st' = max_chunk st /\ alloc_wf st').
Proof.
  intros Hwf Hs E num. unfold memory_allocate in E. fold (eff_size size) in E. fold num in E.
  pose proof (chunks_of_bounds _ (eff_size_bounds size Hs)) as [Hn _]. fold num in Hn.
  apply bind_Some in E as ([i st1] & Ef & E). apply find_free_inv in Ef; [|done|lia].
  destruct Ef as [(-> & -> & H)|(Hr & ->)].
  - injection E as <- <-. by left.
  - pose proof (next_fit_range _ _ _ Hwf Hr) as Hi. rewrite (proj2 (Z.ltb_ge i 0)) in E by lia.
    apply bind_Some in E as (st2 & Em & [= <- <-]). right. exists i.
    apply mark_used_run in Em as (Hm & (S1 & S2 & _) & Hu); [|lia].
    rewrite Z2Nat.id in Hm, Hu by lia. cbn [max_chunk previous_block] in S1, S2.
    split; [done|]. split; [done|]. split; [lia|]. split; [done|]. split; [|split; [done|]].
    + intros d Hd. rewrite Hu by done. by bcase.
    + destruct Hwf. split; lia.
Qed.

(** An allocation that does not search behind the map returns. *)
Lemma memory_allocate_in st size :
  alloc_wf st -> 0 <= size < 2 ^ 32 ->
  max_chunk st + chunks_of (eff_size size) <= MAP_CHUNKS + 1 ->
  is_Some (memory_allocate st size).
Proof.
  intros Hwf Hs Hr. unfold memory_allocate. fold (eff_size size).
  pose proof (chunks_of_bounds _ (eff_size_bounds size Hs)) as [Hn _].
  destruct (find_free_in st _ Hwf (proj1 Hn) Hr) as ([i st1] & E). rewrite E. cbn [mbind option_bind].
  destruct (i <? 0) eqn:Ei; b2p; [by eexists|].
  apply find_free_inv in E; [|done|lia]. destruct E as [(-> & _)|[Hf ->]]; [lia|].
  pose proof (next_fit_range _ _ _ Hwf Hf). set (st1 := Alloc _ _ _ _).
  destruct (mark_run_in memory_mark_used mark_used_in st1 i (Z.to_nat (chunks_of (eff_size size))))
    as (st2 & ->); [lia..|]. by eexists.
Qed.

(** So does every small one. *)
Lemma memory_allocate_small st size :
  alloc_wf st -> 0 <= size <= VIDEO_CHUNKS * CHUNK_SIZE -> is_Some (memory_allocate st size).
Proof.
  intros Hwf Hs. change (VIDEO_CHUNKS * CHUNK_SIZE) with 16777216 in Hs.
  assert (Hs' : 0 <= size < 2 ^ 32) by lia. apply memory_allocate_in; [done|done|].
  destruct Hwf as [Hm _]. change (MAP_CHUNKS - VIDEO_CHUNKS) with 258048 in Hm.
  change MAP_CHUNKS with 262144.
  assert (chunks_of (eff_size size) <= 4096); [|lia].
  assert (1 <= eff_size size <= 16777216) by (unfold eff_size; bcase; lia).
  unfold chunks_of, CHUNK_SIZE. rewrite u32_id by lia. Z.div_mod_to_equations. lia.
Qed.

(** ** The state machine of a client

    A client allocates, and gives back blocks it holds with the size it asked
    for.  [live] is the list of blocks it holds: first chunk and size. *)

Definition block_chunks (b : Z * Z) (c : Z) : bool :=
  in_run (fst b) (chunks_of (snd b)) c.

Section Client.
Context `{MemFill}.

Inductive client_step : alloc * list (Z * Z) -> alloc * list (Z * Z) -> Prop :=
  | step_allocate st live size p st' :
      0 <= size < 2 ^ 32 -> memory_allocate st size = Some (p, st') -> p <> 0 ->
      client_step (st, live) (st', (p / CHUNK_SIZE, eff_size size) :: live)
  | step_no_memory st live size st' :
      0 <= size < 2 ^ 32 -> memory_allocate st size = Some (0, st') ->
      client_step (st, live) (st', live)
  | step_free st l1 l2 c size m r st' m' :
      memory_free st m (c * CHUNK_SIZE) size = Some (r, st', m') ->
      client_step (st, l1 ++ (c, size) :: l2) (st', l1 ++ l2).

Inductive client_steps : alloc * list (Z * Z) -> alloc * list (Z * Z) -> Prop :=
  | steps_refl s : client_steps s s
  | steps_snoc s1 s2 s3 :
      client_steps s1 s2 -> client_step s2 s3 -> client_steps s1 s3.

(** The number of blocks of [live] that contain chunk [c]. *)
Definition holders (live : list (Z * Z)) (c : Z) : nat :=
  length (List.filter (fun b => block_chunks b c) live).

(** The kernel's own chunks are used for ever; any other chunk is used
    exactly when one live block contains it, and no two blocks share one. *)
Record client_inv (kernel : Z -> bool) (s : alloc * list (Z * Z)) : Prop := {
  inv_wf : alloc_wf (fst s);
  inv_zero : kernel 0 = true;
  inv_blocks : forall b, In b (snd s) ->
    0 <= fst b /\ fst b + chunks_of (snd b) <= MAP_CHUNKS /\ 1 <= snd b < 2 ^ 32;
  inv_used : forall c, 0 <= c ->
    Nat.add (if kernel c then 1 else 0) (holders (snd s) c)
    = if used (fst s) c then 1%nat else 0%nat }.

Lemma holders_app l1 l2 c :
  holders (l1 ++ l2) c = (holders l1 c + holders l2 c)%nat.
Proof. unfold holders. by rewrite List.filter_app, length_app. Qed.

Lemma holders_cons b l c :
  holders (b :: l) c = ((if block_chunks b c then 1 else 0) + holders l c)%nat.
Proof. unfold holders. cbn. by destruct (block_chunks b c). Qed.

Lemma client_step_allocate kernel st live size p st' :
  client_inv kernel (st, live) -> 0 <= size < 2 ^ 32 ->
  memory_allocate st size = Some (p, st') ->
  (p = 0 /\ st' = st) \/
  (0 < p < 2 ^ 30 /\ p mod CHUNK_SIZE = 0 /\
   client_inv kernel (st', (p / CHUNK_SIZE, eff_size size) :: live)).
Proof.
  intros [Hwf Hz Hb Hu] Hs Ha. cbn [fst snd] in *.
  apply memory_allocate_cases in Ha; [|done|done].
  destruct Ha as [(-> & -> & _)|(c & -> & Hc & Hcm & [Hr _] & Hu' & Hm & Hwf')]; [by left|].
  right. pose proof (chunks_of_bounds _ (eff_size_bounds size Hs)) as [Hn _].
  pose proof (eff_size_bounds size Hs) as He.
  assert (Hfree : forall d, in_run c (chunks_of (eff_size size)) d = true ->
    used st d = false) by (intros d; unfold in_run; intros; b2p; apply Hr; lia).
  assert (c <> 0).
  { intros ->. specialize (Hu 0 ltac:(lia)). rewrite Hz, (Hr 0) in Hu by lia. done. }
  rewrite Z.div_mul, Z.mod_mul by done. change MAP_CHUNKS with 262144 in Hcm.
  split; [unfold CHUNK_SIZE; lia|]. split; [done|]. split; cbn [fst snd]; [done|done| |].
  - intros b [<-|Hin]; [|by apply Hb]. cbn [fst snd]. change MAP_CHUNKS with 262144. lia.
  - intros d Hd. rewrite holders_cons, Hu' by done. unfold block_chunks at 1. cbn [fst snd].
    specialize (Hu d Hd). destruct (in_run c _ d) eqn:E; cbn [orb]; [|exact Hu].
    rewrite (Hfree d E) in Hu. cbn. lia.
Qed.

(** A live block can be given back. *)
Lemma client_free_in kernel st l c size m :
  client_inv kernel (st, l) -> In (c, size) l ->
  exists st' m', memory_free st m (c * CHUNK_SIZE) size = Some (0, st', m').
Proof.
  intros [_ _ Hb _] Hin. destruct (Hb _ Hin) as (Hc & Hm & Hsz). cbn [fst snd] in *.
  pose proof (chunks_of_bounds size Hsz) as [Hn _]. unfold memory_free.
  change MAP_CHUNKS with 262144 in Hm. unfold CHUNK_SIZE. rewrite s32_id, Z.quot_mul by lia.
  destruct (mark_run_in memory_mark_free mark_free_in st c (Z.to_nat (chunks_of size)))
    as (st' & E); [lia|change MAP_CHUNKS with 262144; lia|]. rewrite E. cbn. eauto.
Qed.

Lemma client_step_free kernel st l1 l2 c size m r st' m' :
  client_inv kernel (st, l1 ++ (c, size) :: l2) ->
  memory_free st m (c * CHUNK_SIZE) size = Some (r, st', m') ->
  client_inv kernel (st', l1 ++ l2).
Proof.
  intros [Hwf Hz Hb Hu] Hf. cbn [fst snd] in *.
  destruct (Hb (c, size) ltac:(apply in_elt)) as (Hc & Hcm & Hsz). cbn [fst snd] in *.
  change MAP_CHUNKS with 262144 in Hcm. pose proof (chunks_of_bounds size Hsz) as [Hn _].
  unfold memory_free in Hf. unfold CHUNK_SIZE in Hf. rewrite s32_id, Z.quot_mul in Hf by lia.
  apply bind_Some in Hf as (st2 & Em & [= <- <- <-]).
  apply mark_free_run in Em as (_ & (Hmax & Hprev & _) & Hu'); [|done].
  rewrite Z2Nat.id in Hu' by lia.
  split; cbn [fst snd]; [|done| |].
  - destruct Hwf. split; lia.
  - intros b Hin. apply Hb. rewrite in_app_iff in *. cbn. tauto.
  - intros d Hd. rewrite Hu' by done. specialize (Hu d Hd).
    rewrite holders_app, holders_cons in Hu. rewrite holders_app.
    unfold block_chunks at 1 in Hu. cbn [fst snd] in Hu.
    destruct (in_run c _ d); destruct (used st d); cbn [andb negb]; lia.
Qed.

(** A step keeps the invariant, and the number of chunks. *)
Lemma client_step_inv kernel s s' n : client_inv kernel s /\ max_chunk (fst s) = n ->
  client_step s s' -> client_inv kernel s' /\ max_chunk (fst s') = n.
Proof.
  intros [I Hn] Hs. destruct Hs as
    [st live size p st' Hz Ha Hp|st live size st' Hz Ha|st l1 l2 c size m r st' m' Hf].
  - pose proof Ha as Ha'. apply memory_allocate_cases in Ha'; [|apply I|done].
    destruct (client_step_allocate _ _ _ _ _ _ I Hz Ha) as [[? _]|(_ & _ & ?)]; [done|].
    split; [done|]. cbn in *. destruct Ha' as [(-> & _)|(c & _ & _ & _ & _ & _ & Em & _)]; [done|lia].
  - destruct (client_step_allocate _ _ _ _ _ _ I Hz Ha) as [[_ ->]|[? _]]; [done|lia].
  - split; [by eapply client_step_free|]. unfold memory_free in Hf.
    apply bind_Some in Hf as (st2 & Em & [= _ <- _]).
    destruct (inv_blocks _ _ I (c, size)) as (H0 & H1 & H2); [apply in_elt|]. cbn [fst snd] in *.
    pose proof (chunks_of_bounds size H2) as [Hc _]. change MAP_CHUNKS with 262144 in H1.
    unfold CHUNK_SIZE in Em. rewrite s32_id, Z.quot_mul in Em by lia.
    apply mark_free_run in Em as (_ & (E & _) & _); [|done]. congruence.
Qed.
End Client.

Lemma holders_perm live live' c :
  Permutation live live' -> holders live c = holders live' c.
Proof.
  induction 1 as [|b l1 l2 _ IH|b1 b2 l|l1 l2 l3 _ IH1 _ IH2]; [done| | |congruence].
  - by rewrite !holders_cons, IH.
  - rewrite !holders_cons. lia.
Qed.

Lemma client_inv_perm kernel a live live' :
  Permutation live live' -> client_inv kernel (a, live) -> client_inv kernel (a, live').
Proof.
  intros Hp [Hwf Hz Hb Hu]. cbn [fst snd] in *. split; cbn [fst snd]; [done|done| |].
  - intros b Hin. apply Hb. by eapply Permutation_in; [symmetry|].
  - intros c Hc. rewrite <- (holders_perm _ _ c Hp). by apply Hu.
Qed.

(** No two live blocks start at the same chunk. *)
Lemma client_inv_distinct kernel a b1 b2 live :
  client_inv kernel (a, b1 :: live) -> In b2 live -> fst b1 <> fst b2.
Proof.
  intros [Hwf Hz Hb Hu] Hin E. cbn [fst snd] in *.
  destruct (Hb b1 (or_introl eq_refl)) as (Hc & _ & Hs1).
  destruct (Hb b2 (or_intror Hin)) as (_ & _ & Hs2).
  specialize (Hu (fst b1) Hc).
  assert (Hblk : forall b, 1 <= snd b < 2 ^ 32 -> block_chunks b (fst b) = true).
  { intros b Hb'. unfold block_chunks, in_run.
    pose proof (chunks_of_bounds (snd b) Hb') as [Hn _]. lia. }
  apply in_split in Hin as (l1 & l2 & ->).
  rewrite holders_cons, holders_app, holders_cons, (Hblk b1 Hs1) in Hu.
  rewrite E, (Hblk b2 Hs2) in Hu. destruct (used _ _), (kernel _); lia.
Qed.

(** The chunks of [blocks], and no others, are free again. *)
Definition released (a a' : alloc) (blocks : list (Z * Z)) : Prop :=
  forall c, 0 <= c ->
    used a' c = used a c && negb (existsb (fun b => block_chunks b c) blocks).

Lemma holders_existsb l c :
  existsb (fun b => block_chunks b c) l = negb (Nat.eqb (holders l c) 0).
Proof.
  induction l as [|b l IH]; [done|]. rewrite holders_cons. cbn [existsb]. rewrite IH.
  by destruct (block_chunks b c).
Qed.

Lemma client_inv_released kernel a a' mine rest :
  client_inv kernel (a, mine ++ rest) -> client_inv kernel (a', rest) -> released a a' mine.
Proof.
  intros [_ _ _ H1] [_ _ _ H2] c Hc. cbn [fst snd] in *.
  specialize (H1 c Hc). specialize (H2 c Hc). rewrite holders_app in H1. rewrite holders_existsb.
  destruct (used a c), (used a' c), (Nat.eqb (holders mine c) 0) eqn:E; try done;
    try apply Nat.eqb_eq in E; try apply Nat.eqb_neq in E; destruct (kernel c); lia.
Qed.

(** ** Fresh blocks

    Every byte of [x .. x+n-1] lies in a used chunk. *)
Definition in_use (a : alloc) (x n : Z) : Prop :=
  0 <= x /\ forall y, x <= y < x + n -> used a (y / CHUNK_SIZE) = true.

(** An allocation keeps what is in use, and its block meets none of it. *)
Lemma memory_allocate_fresh a size p a' :
  alloc_wf a -> 0 <= size < 2 ^ 32 -> memory_allocate a size = Some (p, a') -> p <> 0 ->
  alloc_wf a' /\ 0 <= p /\
  (forall x n, in_use a x n -> in_use a' x n) /\
  (forall x n, in_use a x n -> 0 < n -> apart p size x n) /\
  (forall y, p <= y < p + size -> used a' (y / CHUNK_SIZE) = true).
Proof.
  intros Hwf Hs Ea Hp. apply memory_allocate_cases in Ea; [|done|done].
  destruct Ea as [(-> & _)|(c & -> & Hc & _ & [Hr _] & Hu & _ & Hwf')]; [done|].
  pose proof (chunks_of_bounds _ (eff_size_bounds size Hs)) as [Hn Hsz].
  set (num := chunks_of (eff_size size)) in *.
  assert (Hle : size <= CHUNK_SIZE * num).
  { revert Hsz. unfold eff_size. bcase; [subst; unfold CHUNK_SIZE|]; lia. }
  assert (Hin : forall y, c * CHUNK_SIZE <= y < c * CHUNK_SIZE + size ->
    c <= y / CHUNK_SIZE < c + num).
  { intros y Hy. unfold CHUNK_SIZE in *. Z.div_mod_to_equations. lia. }
  split; [done|]. split; [unfold CHUNK_SIZE; lia|]. split; [|split].
  - intros x n [Hx Hi]. split; [done|]. intros y Hy. rewrite Hu.
    + by rewrite Hi, orb_true_r.
    + apply Z.div_pos; [lia|done].
  - intros x n [Hx Hi] Hn0. unfold apart.
    destruct (decide (c * CHUNK_SIZE + size <= x)); [by left|].
    destruct (decide (x + n <= c * CHUNK_SIZE)); [by right|]. exfalso.
    specialize (Hi (Z.max x (c * CHUNK_SIZE)) ltac:(lia)).
    destruct (decide (size = 0)) as [->|].
    + rewrite Z.max_r, Z.div_mul in Hi by done || lia. rewrite Hr in Hi by lia. done.
    + rewrite Hr in Hi; [done|]. apply Hin. lia.
  - intros y Hy. rewrite Hu by (apply Z.div_pos; [unfold CHUNK_SIZE in *; lia|done]).
    unfold in_run. specialize (Hin y Hy). lia.
Qed.

(** ** Initialisation *)

(** The static storage before [memory_init]: zeroed by the loader. *)
Definition alloc_bss : alloc := Alloc 0 (fun _ => 0) 0 0.

Lemma memory_init_used t0 total kernel :
  0 <= total <= MAX_MEMORY - VIDEO_CHUNKS * CHUNK_SIZE -> 0 <= kernel < MAX_MEMORY ->
  exists st, memory_init (Alloc t0 (fun _ => 0) 0 0) total kernel = Some (0, st) /\
    (forall c, 0 <= c -> used st c = (c <=? kernel / CHUNK_SIZE)) /\
    alloc_wf st /\ max_chunk st = total / CHUNK_SIZE /\ previous_block st = 0 /\
    memory_total st = t0.
Proof.
  intros Ht Hk. change (MAX_MEMORY - VIDEO_CHUNKS * CHUNK_SIZE) with 1056964608 in Ht.
  change MAX_MEMORY with 1073741824 in Hk.
  unfold memory_init. change MAX_MEMORY with 1073741824.
  rewrite (proj2 (Z.ltb_ge _ _)) by lia. cbn [memory_total memory_map previous_block].
  set (mc := total / CHUNK_SIZE).
  assert (Hmc : 0 <= mc <= 258048) by (unfold mc, CHUNK_SIZE; Z.div_mod_to_equations; lia).
  assert (Hkc : 0 <= kernel / CHUNK_SIZE < 262144)
    by (unfold CHUNK_SIZE; Z.div_mod_to_equations; lia).
  destruct (for_opt_total (fun _ s => (forall e, memory_map s e = 0) /\
      max_chunk s = mc /\ previous_block s = 0 /\ memory_total s = t0) clear_word (Z.to_nat (mc / 32)) 0
      (Alloc t0 (fun _ => 0) mc 0))
    as (st2 & -> & H1 & H2 & H3 & H4); [done| |].
  { intros j t Hj (H1 & H2). unfold clear_word. change MAP_WORDS with 8192.
    rewrite (proj2 (Z.leb_le 0 j)), (proj2 (Z.ltb_lt j 8192)) by (Z.div_mod_to_equations; lia).
    eexists. split; [done|]. split; [|done]. intros e. cbn. bcase; [done|apply H1]. }
  cbn [mbind option_bind].
  change (fun i s => memory_mark_used s i) with (fun i s => memory_mark_used s (0 + i)).
  destruct (mark_run_in memory_mark_used mark_used_in st2 0 (Z.to_nat (kernel / CHUNK_SIZE + 1)))
    as (st & E); [done|change MAP_CHUNKS with 262144; lia|]. rewrite E. cbn [mbind option_bind].
  exists st. split; [done|]. apply mark_used_run in E as (_ & (Hm & Hp & Htot) & Hu); [|done].
  rewrite Z2Nat.id in Hu by lia. split; [|repeat split; try congruence].
  - intros c Hc. rewrite Hu by done. unfold used. rewrite H1, Z.bits_0. unfold in_run. bcase; lia.
  - change (MAP_CHUNKS - VIDEO_CHUNKS) with 258048. lia.
  - change (MAP_CHUNKS - VIDEO_CHUNKS) with 258048. lia.
  - lia.
  - lia.
Qed.

(** The chunks of the kernel image, which [memory_init] reserves. *)
Definition kernel_chunk (kernel c : Z) : bool := (0 <=? c) && (c <=? kernel / CHUNK_SIZE).

Lemma memory_init_inv t0 total kernel :
  0 <= total <= MAX_MEMORY - VIDEO_CHUNKS * CHUNK_SIZE -> 0 <= kernel < MAX_MEMORY ->
  exists st, memory_init (Alloc t0 (fun _ => 0) 0 0) total kernel = Some (0, st) /\
    client_inv (kernel_chunk kernel) (st, []).
Proof.
  intros Ht Hk. destruct (memory_init_used t0 total kernel Ht Hk) as (st & E & Hu & Hwf & _).
  exists st. split; [done|].
  assert (0 <= kernel / CHUNK_SIZE) by (apply Z.div_pos; [lia|done]).
  split; cbn [fst snd]; [done|unfold kernel_chunk; lia|done|].
  intros c Hc. rewrite Hu by done. unfold kernel_chunk, holders. cbn.
  destruct (c <=? kernel / CHUNK_SIZE) eqn:E1; replace (0 <=? c) with true by lia; done.
Qed.

(** ** Counting free chunks *)

Fixpoint count (f : Z -> bool) (n : nat) : Z :=
  match n with
  | O => 0
  | S n' => count f n' + if f (Z.of_nat n') then 1 else 0
  end.

Lemma count_bounds f n : 0 <= count f n <= Z.of_nat n.
Proof. induction n as [|n IH]; cbn [count]; [lia|]. bcase; lia. Qed.

Lemma count_ext f g n :
  (forall c, 0 <= c < Z.of_nat n -> f c = g c) -> count f n = count g n.
Proof.
  intros H. induction n as [|n IH]; cbn [count]; [done|].
  rewrite H by lia. rewrite IH; [done|]. intros. apply H. lia.
Qed.

Lemma count_run lo num n :
  0 <= lo -> 0 <= num -> lo + num <= Z.of_nat n -> count (in_run lo num) n = num.
Proof.
  intros Hl Hn Hr.
  enough (forall k, count (in_run lo num) k = Z.max 0 (Z.min num (Z.of_nat k - lo))) as H
    by (rewrite H; lia).
  induction k as [|k IH]; cbn [count]; [lia|].
  rewrite IH. unfold in_run. bcase; lia.
Qed.

Lemma count_remove f g n :
  (forall c, 0 <= c < Z.of_nat n -> g c = true -> f c = true) ->
  count (fun c => f c && negb (g c)) n = count f n - count g n.
Proof.
  intros H. induction n as [|n IH]; cbn [count]; [done|].
  rewrite IH by (intros; apply H; [lia|done]).
  specialize (H (Z.of_nat n) ltac:(lia)).
  destruct (f (Z.of_nat n)), (g (Z.of_nat n)); cbn; try lia.
Qed.

Lemma memory_total_free_count st : alloc_wf st ->
  memory_total_free st
  = Some (CHUNK_SIZE * count (fun c => negb (used st c)) (Z.to_nat (max_chunk st))).
Proof.
  intros [Hm _]. change (MAP_CHUNKS - VIDEO_CHUNKS) with 258048 in Hm. unfold memory_total_free.
  destruct (for_opt_total (fun i t => t = count (fun c => negb (used st c)) (Z.to_nat i))
    (fun i total_free => t ← memory_test_used st i;
       Some (if t =? 0 then total_free + 1 else total_free)) (Z.to_nat (max_chunk st)) 0 0)
    as (r & -> & Hr); [done| |].
  - intros j t Hj ->. destruct (test_used_in st j) as (u & -> & Eu);
      [change MAP_CHUNKS with 262144; lia|]. cbn [mbind option_bind]. eexists. split; [done|].
    replace (Z.to_nat (j + 1)) with (S (Z.to_nat j)) by lia. cbn [count].
    rewrite Eu, Z2Nat.id by lia. bcase; lia.
  - cbn [mbind option_bind]. rewrite Hr, Z.add_0_l, Nat2Z.id. f_equal. lia.
Qed.

(** ** Properties *)

(** C3. From [memory_init] on the zeroed storage, whatever blocks the clients
    of the allocator allocate and give back, in any order, a chunk is marked
    used exactly when it belongs to the kernel image or to one live block:
    live blocks never overlap each other or the kernel, and nothing leaks.
    No access leaves the array of the map as long as no request is larger than
    what the map has bits for behind the memory: such a request returns, and
    every live block can be given back. *)
Theorem memory_client_safe `{MemFill} total kernel :
  0 <= total <= MAX_MEMORY - VIDEO_CHUNKS * CHUNK_SIZE -> 0 <= kernel < MAX_MEMORY ->
  exists st0, memory_init alloc_bss total kernel = Some (0, st0) /\
    forall s, client_steps (st0, []) s ->
      client_inv (kernel_chunk kernel) s /\
      (forall size, 0 <= size < 2 ^ 32 -> total / CHUNK_SIZE + chunks_of (eff_size size) <= MAP_CHUNKS + 1 ->
         is_Some (memory_allocate (fst s) size)) /\
      (forall c size m, In (c, size) (snd s) -> is_Some (memory_free (fst s) m (c * CHUNK_SIZE) size)).
Proof.
  intros Ht Hk. destruct (memory_init_used 0 total kernel Ht Hk) as (st0 & E & _ & _ & Hmax & _).
  destruct (memory_init_inv 0 total kernel Ht Hk) as (st1 & E1 & I0).
  assert (st1 = st0) as -> by congruence. exists st0. split; [done|]. intros s Hs.
  assert (HI : client_inv (kernel_chunk kernel) s /\ max_chunk (fst s) = total / CHUNK_SIZE).
  { remember (st0, []) as s0 eqn:E0. revert E0.
    induction Hs as [s|s1 s2 s3 _ IH Hs]; intros ->; [done|].
    eapply client_step_inv; [by apply IH|exact Hs]. }
  destruct HI as [HI Hm]. split; [done|]. split.
  - intros size Hs' Hr. apply memory_allocate_in; [apply HI|done|by rewrite Hm].
  - intros c size m Hin. destruct s as [st l].
    destruct (client_free_in _ _ _ c size m HI Hin) as (st' & m' & E2). cbn [fst]. rewrite E2. by eexists.
Qed.

(** C35. [memory_allocate], where it stays inside the map, returns the
    chunk-aligned address of the next-fit run of free chunks that covers the
    requested size and marks exactly that run used; it returns NULL, changing nothing, only when no run of that many
    free chunks starts below [max_chunk].  It stays inside the map when the
    request has no more chunks than the map has bits behind [max_chunk]. *)
Theorem memory_allocate_next_fit st size :
  alloc_wf st -> used st 0 = true -> 0 <= size < 2 ^ 32 ->
  (max_chunk st + chunks_of (eff_size size) <= MAP_CHUNKS + 1 ->
   is_Some (memory_allocate st size)) /\
  forall p st', memory_allocate st size = Some (p, st') ->
  if p =? 0
  then st' = st /\
       forall d, 0 <= d < max_chunk st -> ~ run_is_free st d (chunks_of (eff_size size))
  else exists num, next_fit st num (p / CHUNK_SIZE) /\ p mod CHUNK_SIZE = 0 /\
       CHUNK_SIZE * (num - 1) < eff_size size <= CHUNK_SIZE * num /\
       p / CHUNK_SIZE + num <= MAP_CHUNKS /\
       (forall d, 0 <= d -> used st' d = in_run (p / CHUNK_SIZE) num d || used st d) /\
       alloc_wf st'.
Proof.
  intros Hwf H0 Hs. split; [by apply memory_allocate_in|]. intros p st' E.
  apply memory_allocate_cases in E; [|done|done].
  pose proof (chunks_of_bounds _ (eff_size_bounds size Hs)) as [Hn Hb].
  destruct E as [(-> & Hst & Hno)|(c & -> & Hc & Hm & Hr & Hu & _ & Hwf')]; [done|].
  assert (c <> 0) by (intros ->; rewrite (proj1 Hr) in H0; [done|lia]).
  replace (c * CHUNK_SIZE =? 0) with false by (unfold CHUNK_SIZE; lia).
  rewrite Z.div_mul, Z.mod_mul by done.
  by exists (chunks_of (eff_size size)).
Qed.

(** Freeing a block just allocated gives the set of used chunks back
    exactly as it was, returns 0, and overwrites the [size] bytes of the block,
    and no other byte, with the poison byte 'V'. *)
Theorem memory_free_allocate `{MemFill} st m size p st' :
  alloc_wf st -> 1 <= size < 2 ^ 31 -> memory_allocate st size = Some (p, st') -> 0 < p ->
  exists st'' m', memory_free st' m p size = Some (0, st'', m') /\
    (forall d, 0 <= d -> used st'' d = used st d) /\ filled m p 86 size m'.
Proof.
  intros Hwf Hs E Hp. apply memory_allocate_cases in E; [|done|lia].
  unfold eff_size in E. rewrite (proj2 (Z.eqb_neq size 0)) in E by lia.
  pose proof (chunks_of_bounds size ltac:(lia)) as [Hn _].
  destruct E as [(-> & _)|(c & -> & Hc & Hm & [Hr _] & Hu & _ & Hwf')]; [lia|].
  change MAP_CHUNKS with 262144 in Hm.
  unfold memory_free. unfold CHUNK_SIZE in *. rewrite s32_id, Z.quot_mul by lia.
  destruct (mark_run_in memory_mark_free mark_free_in st' c (Z.to_nat (chunks_of size)))
    as (st2 & E); [lia|change MAP_CHUNKS with 262144; lia|]. rewrite E. cbn [mbind option_bind].
  exists st2, (memset m (c * 4096) 86 size). split; [done|].
  apply mark_free_run in E as (_ & _ & Hf); [|lia]. rewrite Z2Nat.id in Hf by lia. split.
  - intros d Hd. rewrite Hf, Hu by done.
    destruct (in_run c _ d) eqn:E; cbn; [|done]. symmetry. apply Hr. unfold in_run in E. lia.
  - apply memset_filled; lia.
Qed.

(** [memory_total_free] is [CHUNK_SIZE] times the number of free chunks
    below [max_chunk], fits in an [int32_t], and an allocation that stays
    below [max_chunk] lowers it by exactly the size rounded up to chunks. *)
Theorem memory_total_free_allocate st size p st' :
  alloc_wf st -> 0 <= size < 2 ^ 32 -> memory_allocate st size = Some (p, st') ->
  let num := chunks_of (eff_size size) in
  exists f, memory_total_free st = Some f /\ 0 <= f < 2 ^ 31 /\
    (0 < p -> p / CHUNK_SIZE + num <= max_chunk st ->
     memory_total_free st' = Some (f - num * CHUNK_SIZE)).
Proof.
  intros Hwf Hs E num. pose proof (wf_max _ Hwf) as Hmax.
  change (MAP_CHUNKS - VIDEO_CHUNKS) with 258048 in Hmax.
  rewrite memory_total_free_count by done. eexists. split; [done|]. split.
  { pose proof (count_bounds (fun c => negb (used st c)) (Z.to_nat (max_chunk st))).
    unfold CHUNK_SIZE. lia. }
  apply memory_allocate_cases in E; [|done|done].
  pose proof (chunks_of_bounds _ (eff_size_bounds size Hs)) as [Hn _]. intros Hp Hend.
  destruct E as [(-> & _)|(c & -> & Hc & _ & [Hr _] & Hu & Hm & Hwf')]; [lia|].
  rewrite Z.div_mul in Hend by done. rewrite memory_total_free_count, Hm by done. f_equal.
  fold num in Hu, Hr, Hn.
  rewrite (count_ext _ (fun d => negb (used st d) && negb (in_run c num d))).
  - rewrite (count_remove (fun d => negb (used st d))), count_run; [lia..|].
    intros d Hd Hin. rewrite Hr; [done|]. unfold in_run in Hin. lia.
  - intros d Hd. rewrite Hu by lia. by destruct (in_run _ _ d), (used st d).
Qed.

(** A board with 64 kB, of which the kernel takes 8 kB and a bit. *)
Definition small_board : alloc :=
  match memory_init alloc_bss 65536 9000 with Some (_, st) => st | None => alloc_bss end.

Lemma small_board_wf : alloc_wf small_board.
Proof. split; by vm_compute. Qed.

Definition small_allocated : alloc :=
  match memory_allocate small_board 5000 with Some (_, st) => st | None => alloc_bss end.

Lemma memory_client_safe_witness :
  exists st0, memory_init alloc_bss 65536 9000 = Some (0, st0) /\
    exists st', client_inv (kernel_chunk 9000) (st', [(3, 5000)]) /\
      is_Some (memory_allocate st' (2 ^ 29)).
Proof.
  destruct (memory_client_safe 65536 9000 ltac:(by vm_compute) ltac:(by vm_compute))
    as (st0 & E & Hs). exists st0. split; [exact E|].
  assert (Ea : exists st', memory_allocate st0 5000 = Some (3 * CHUNK_SIZE, st')).
  { vm_compute in E. injection E as <-. eexists. vm_compute. reflexivity. }
  destruct Ea as (st' & Ea). exists st'.
  destruct (Hs (st', [(3 * CHUNK_SIZE / CHUNK_SIZE, eff_size 5000)])) as (H1 & H2 & _).
  { eapply steps_snoc; [apply steps_refl|]. apply (step_allocate _ _ 5000); [lia|exact Ea|done]. }
  split; [exact H1|]. apply H2; by vm_compute.
Defined.

Lemma memory_allocate_next_fit_witness :
  is_Some (memory_allocate small_board 5000) /\
  exists num, next_fit small_board num 3 /\ 3 * CHUNK_SIZE mod CHUNK_SIZE = 0 /\
    CHUNK_SIZE * (num - 1) < 5000 <= CHUNK_SIZE * num /\ 3 + num <= MAP_CHUNKS /\
    (forall d, 0 <= d -> used small_allocated d = in_run 3 num d || used small_board d) /\
    alloc_wf small_allocated.
Proof.
  destruct (memory_allocate_next_fit small_board 5000 small_board_wf eq_refl ltac:(lia)) as [H1 H2].
  split; [apply H1; by vm_compute|].
  exact (H2 12288 small_allocated ltac:(by vm_compute)).
Defined.

Lemma memory_free_allocate_witness :
  exists st'' m', memory_free small_allocated (fun _ => 0) 12288 5000 = Some (0, st'', m') /\
    (forall d, 0 <= d -> used st'' d = used small_board d) /\ filled (fun _ => 0) 12288 86 5000 m'.
Proof.
  exact (memory_free_allocate small_board (fun _ => 0) 5000 12288 small_allocated small_board_wf
           ltac:(lia) ltac:(by vm_compute) ltac:(lia)).
Defined.

Lemma memory_total_free_allocate_witness :
  exists f, memory_total_free small_board = Some f /\ 0 <= f < 2 ^ 31 /\
    memory_total_free small_allocated = Some (f - 2 * CHUNK_SIZE).
Proof.
  destruct (memory_total_free_allocate small_board 5000 12288 small_allocated small_board_wf
    ltac:(lia) ltac:(by vm_compute)) as (f & E & Hf & H). exists f.
  split; [exact E|]. split; [exact Hf|]. exact (H ltac:(lia) ltac:(by vm_compute)).
Defined.

(** ** What the search and [memory_free] do at the edges *)

(** The inner loop of [find_free] tests chunks past [max_chunk]: with two
    chunks of memory, the first the kernel's, a request for three chunks
    succeeds and is given two chunks that do not exist. *)
Lemma find_free_past_max_chunk :
  (a ← memory_init alloc_bss 8192 100; fst <$> memory_allocate (snd a) 12288) = Some 4096.
Proof. by vm_compute. Qed.

(** With all of the map's memory in place the search runs off the array: a
    board of 1 GB whose last chunk alone is free, and a request for two. *)
Lemma find_free_off_the_map :
  memory_allocate (Alloc MAX_MEMORY (fun e => if e =? 8191 then 2 ^ 31 - 1 else 2 ^ 32 - 1)
    MAP_CHUNKS (MAP_CHUNKS - 32)) 8192 = None.
Proof. by vm_compute. Qed.

(** [size - 1] wraps for a size of 0, which [memory_allocate] rounds up and
    [memory_free] does not: it frees every chunk from the block on, and runs
    off the map. *)
Lemma memory_free_size_zero `{MemFill} st m c : 0 <= c < 2 ^ 18 ->
  memory_free st m (c * CHUNK_SIZE) 0 = None.
Proof.
  intros Hc. unfold memory_free, CHUNK_SIZE. rewrite s32_id, Z.quot_mul by lia.
  change (chunks_of 0) with 1048576.
  destruct (for_opt (Z.to_nat 1048576) 0 _ st) as [st'|] eqn:E; [|done].
  apply mark_free_run in E as (Hm & _); [|lia].
  rewrite Z2Nat.id in Hm by lia. change MAP_CHUNKS with 262144 in Hm. lia.
Qed.
