(* ===== verification/Romfs.v ===== *)
(** * The ROM file system on the ramdisk: kernel/fs/romfs/romfs.c and
      kernel/drivers/block/ramdisk.c

    Everything lives in the flat memory: the ramdisk image at
    [ramdisk_info.start], the caller's buffers, and the routines' own local
    objects whose address is passed on ([temp_int], [temp_buffer], [filename],
    [header]), which sit at the addresses of [locals].  Scalars whose address
    is not taken are values.  [uint32_t] offsets wrap; [int32_t] values are
    kept signed.  The list and chunk loops have no bound of their own and take
    fuel. *)

From stdpp Require Import base list numbers.
From Stdlib Require Import ZArith Lia.
From S2P Require Import Prelude ArmMemset CString.

(** ** kernel/include/fs/files.h, lib/endian.h: file modes, byte order *)

Definition S_IFMT : Z := 0xf000.
Definition S_IFSOCK : Z := 0xc000.
Definition S_IFLNK : Z := 0xa000.
Definition S_IFREG : Z := 0x8000.
Definition S_IFBLK : Z := 0x6000.
Definition S_IFDIR : Z := 0x4000.
Definition S_IFCHR : Z := 0x2000.
Definition S_IFIFO : Z := 0x1000.

(** [rev]: the four bytes in the opposite order. *)
Definition ntohl (x : Z) : Z :=
  u8 x * 2 ^ 24 + u8 (x / 2 ^ 8) * 2 ^ 16 + u8 (x / 2 ^ 16) * 2 ^ 8 + u8 (x / 2 ^ 24).

(** ** drivers/block/ramdisk.c *)

Record ramdisk := Ramdisk { rd_start : Z; rd_length : Z }.

Definition ramdisk_read (rd : ramdisk) (m : mem) (offset length dest : Z) : Z * mem :=
  if rd_length rd <? u32 (offset + length) then (- ERANGE, m)
  else (s32 length, memcpy m dest (rd_start rd + offset) length).

Definition ramdisk_init (rd : ramdisk) (start length : Z) : Z * ramdisk :=
  (0, Ramdisk start length).

(** ** fs/romfs/romfs.c *)

Definition MAX_FILENAME_SIZE : Z := 256.

(** Addresses of the local objects. *)
Record locals := Locals {
  temp_int : Z;
  temp_buffer : Z;
  filename : Z;
  header : Z }.

(** [struct stat], by field offset. *)
Definition st_ino : Z := 4.
Definition st_mode : Z := 8.
Definition st_rdev : Z := 24.
Definition st_size : Z := 28.
Definition sizeof_stat : Z := 52.

Definition or_field (m : mem) (buf field bits : Z) : mem :=
  store32 m (buf + field) (Z.lor (load32 m (buf + field)) bits).

Section Code.
Context `{MemFill} (rd : ramdisk) (lc : locals).

(** The result of [ramdisk_read] is dropped. *)
Definition romfs_read_noinc (m : mem) (buffer offset size : Z) : Z * mem :=
  (0, snd (ramdisk_read rd m offset size buffer)).

(** [romfs_read_noinc(&temp_int,offset,4); ... ntohl(temp_int)] *)
Definition read_temp_int (m : mem) (offset : Z) : Z * mem :=
  let m' := snd (romfs_read_noinc m (temp_int lc) (u32 offset) 4) in
  (ntohl (load32 m' (temp_int lc)), m').

(** [sl] is the fuel of the [strlen] inside [strncat]. *)
Fixpoint romfs_read_string_loop (sl fuel : nat) (m : mem)
    (our_offset buffer max_stringsize : Z) : option (Z * mem) :=
  match fuel with
  | O => None
  | S f =>
      let m1 := snd (romfs_read_noinc m (temp_buffer lc) (u32 our_offset) 16) in
      let our_offset' := s32 (our_offset + 16) in
      '(m2, _) ← (if 0 <? max_stringsize
                  then strncat sl m1 buffer (temp_buffer lc)
                         (if 16 <? max_stringsize then 16 else max_stringsize)
                  else Some (m1, buffer));
      if m2 (temp_buffer lc + 15) =? 0 then Some (our_offset', m2)
      else romfs_read_string_loop sl f m2 our_offset' buffer (s32 (max_stringsize - 16))
  end.

Definition romfs_read_string (fuel : nat) (m : mem) (offset buffer size : Z)
    : option (Z * mem) :=
  '(our_offset, m') ←
    romfs_read_string_loop (16 * fuel + 1) fuel (upd m buffer 0) offset buffer size;
  Some (s32 (our_offset - offset), m').

(** [temp_buffer[15]] is NUL where [strlen] runs: 16 bytes are enough. *)
Fixpoint romfs_string_length_loop (fuel : nat) (m : mem) (our_offset max_length : Z)
    : option (Z * mem) :=
  match fuel with
  | O => None
  | S f =>
      let m1 := snd (romfs_read_noinc m (temp_buffer lc) (u32 our_offset) 16) in
      if m1 (temp_buffer lc + 15) =? 0
      then l ← strlen 16 (at_ m1 (temp_buffer lc)); Some (s32 (max_length + l), m1)
      else romfs_string_length_loop f m1 (s32 (our_offset + 16)) (s32 (max_length + 16))
  end.

Definition romfs_string_length (fuel : nat) (m : mem) (offset : Z) : option (Z * mem) :=
  romfs_string_length_loop fuel m offset 0.

Fixpoint romfs_string_length_chunks_loop (fuel : nat) (m : mem)
    (our_offset max_length : Z) : option (Z * mem) :=
  match fuel with
  | O => None
  | S f =>
      let m1 := snd (romfs_read_noinc m (temp_buffer lc) (u32 our_offset) 16) in
      if m1 (temp_buffer lc + 15) =? 0 then Some (s32 (max_length + 16), m1)
      else romfs_string_length_chunks_loop f m1 (s32 (our_offset + 16))
             (s32 (max_length + 16))
  end.

Definition romfs_string_length_chunks (fuel : nat) (m : mem) (offset : Z)
    : option (Z * mem) :=
  romfs_string_length_chunks_loop fuel m offset 0.

Fixpoint romfs_inode_follow_links (fuel : nat) (m : mem) (inode : Z)
    : option (Z * mem) :=
  match fuel with
  | O => None
  | S f =>
      let '(w0, m1) := read_temp_int m inode in
      let type := Z.land (s32 w0) 7 in
      let '(w1, m2) := read_temp_int m1 (s32 (inode + 4)) in
      let spec_info := s32 w1 in
      if type =? 0 then romfs_inode_follow_links f m2 spec_info
      else Some (inode, m2)
  end.

(** The [switch] of [romfs_stat] on the file type. *)
Definition stat_type (m : mem) (buf type spec_info : Z) : mem :=
  if type =? 1 then or_field m buf st_mode S_IFDIR
  else if type =? 2 then or_field m buf st_mode S_IFREG
  else if type =? 3 then or_field m buf st_mode S_IFLNK
  else if type =? 4 then
    store32 (or_field m buf st_mode S_IFBLK) (buf + st_rdev) (u32 spec_info)
  else if type =? 5 then
    store32 (or_field m buf st_mode S_IFCHR) (buf + st_rdev) (u32 spec_info)
  else if type =? 6 then or_field m buf st_mode S_IFSOCK
  else if type =? 7 then or_field m buf st_mode S_IFIFO
  else m.

Fixpoint romfs_stat (fuel : nat) (m : mem) (inode buf : Z) : option (Z * mem) :=
  match fuel with
  | O => None
  | S f =>
      let m1 := memset m buf 0 sizeof_stat in
      let m2 := store32 m1 (buf + st_ino) (u32 inode) in
      let m3 := store32 m2 (buf + st_mode) 0x1b6 in
      let '(w0, m4) := read_temp_int m3 inode in
      let type0 := s32 w0 in
      let m5 := if negb (Z.land type0 8 =? 0) then or_field m4 buf st_mode 0x49 else m4 in
      let type := Z.land type0 7 in
      let '(w1, m6) := read_temp_int m5 (s32 (inode + 4)) in
      let spec_info := s32 w1 in
      let m7 := stat_type m6 buf type spec_info in
      if type =? 0 then romfs_stat f m7 spec_info buf
      else
        let '(size, m8) := read_temp_int m7 (s32 (inode + 8)) in
        Some (0, store32 m8 (buf + st_size) size)
  end.

Fixpoint get_inode_loop (fuel : nat) (m : mem) (offset name : Z) : option (Z * mem) :=
  match fuel with
  | O => None
  | S f =>
      let inode := s32 offset in
      let '(w, m1) := read_temp_int m offset in
      let next := s32 (Z.land w (u32 (Z.lnot 0xf))) in
      '(_, m2) ← romfs_read_string fuel m1 (s32 (offset + 16)) (filename lc)
                   MAX_FILENAME_SIZE;
      if strncmp (at_ m2 name) (at_ m2 (filename lc)) MAX_FILENAME_SIZE =? 0
      then romfs_inode_follow_links fuel m2 inode
      else if next =? 0 then Some (-1, m2)
      else get_inode_loop f m2 (u32 next) name
  end.

Definition romfs_get_inode (fuel : nat) (m : mem) (dir_inode name : Z)
    : option (Z * mem) :=
  let offset := u32 dir_inode in
  let '(w0, m1) := read_temp_int m offset in
  let '(w1, m2) := read_temp_int m1 (offset + 4) in
  if negb (Z.land (s32 w0) 7 =? 1) then Some (- ENOTDIR, m2)
  else get_inode_loop fuel m2 (u32 (s32 w1)) name.

(** The bytes of the literal "-rom1fs-". *)
Definition romfs_magic : list Z := [45; 114; 111; 109; 49; 102; 115; 45].

(** [struct romfs_header_t] at [header]: magic 0, size 8, checksum 12,
    volume_name 16.  Returns the result, the new [file_headers_start] (the
    old one on failure) and the memory. *)
Definition romfs_mount (fuel : nat) (m : mem) (file_headers_start : Z)
    : option (Z * Z * mem) :=
  let m1 := snd (romfs_read_noinc m (header lc) 0 8) in
  if negb (memcmp (at_ m1 (header lc)) (fun i => nth (Z.to_nat i) romfs_magic 0) 8 =? 0)
  then Some (-1, file_headers_start, m1)
  else
    let '(size, m2) := read_temp_int m1 8 in
    let m3 := store32 m2 (header lc + 8) size in
    let '(checksum, m4) := read_temp_int m3 12 in
    let m5 := store32 m4 (header lc + 12) checksum in
    '(result, m6) ← romfs_read_string fuel m5 16 (header lc + 16) 16;
    let offset := u32 (16 + result) in
    Some (s32 offset, offset, m6).

Definition romfs_statfs (m : mem) (buf : Z) : Z := 0.

Definition romfs_read_file (fuel : nat) (m : mem) (inode file_offset buf count : Z)
    : option (Z * mem) :=
  let header_offset := s32 (s32 inode + 8) in
  let '(w, m1) := read_temp_int m header_offset in
  let size := s32 w in
  let header_offset2 := s32 (header_offset + 8) in
  '(name_length, m2) ← romfs_string_length_chunks fuel m1 header_offset2;
  let header_offset3 := s32 (header_offset2 + name_length) in
  let max_count :=
    if u32 (size - file_offset) <? count then u32 (size - file_offset) else count in
  Some (ramdisk_read rd m2 (u32 (header_offset3 + file_offset)) max_count buf).

Definition dirent_length (name_length : Z) : Z :=
  let current_length := s32 (12 + name_length + 1) in
  if negb (Z.rem current_length 4 =? 0)
  then s32 (current_length + (4 - Z.rem current_length 4)) else current_length.

(** The loop of [romfs_getdents]: returns [inode], [total_length]. *)
Fixpoint getdents_loop (fuel : nat) (m : mem) (inode dirent_ptr total_length size : Z)
    : option (Z * Z * mem) :=
  match fuel with
  | O => None
  | S f =>
      let header_offset := s32 inode in
      let '(w, m1) := read_temp_int m header_offset in
      let next_header := s32 (Z.land w (u32 (Z.lnot 0xf))) in
      let header_offset' := s32 (header_offset + 16) in
      '(name_length, m2) ← romfs_string_length fuel m1 header_offset';
      let current_length := dirent_length name_length in
      if size <? u32 (current_length + total_length) then Some (inode, total_length, m2)
      else if inode =? 0 then Some (0xffffffff, total_length, m2)
      else
        let m3 := store32 m2 dirent_ptr inode in
        let m4 := store32 m3 (dirent_ptr + 4) (u32 current_length) in
        let m5 := store32 m4 (dirent_ptr + 8) (u32 current_length) in
        '(_, m6) ← romfs_read_string fuel m5 header_offset' (dirent_ptr + 12) name_length;
        let m7 := upd m6 (dirent_ptr + 12 + name_length) 0 in
        getdents_loop f m7 (u32 next_header) (dirent_ptr + current_length)
          (s32 (total_length + current_length)) size
  end.

(** [*current_inode] is passed and returned: result, [*current_inode],
    memory. *)
Definition romfs_getdents (fuel : nat) (m : mem) (dir_inode current_inode buf size : Z)
    : option (Z * Z * mem) :=
  if current_inode =? 0xffffffff then Some (0, current_inode, m)
  else
    let list m inode :=
      '(inode', total_length, m') ← getdents_loop fuel m inode buf 0 size;
      Some (total_length, inode', m') in
    if current_inode =? 0 then
      let header_offset := s32 dir_inode in
      let '(w, m1) := read_temp_int m header_offset in
      if negb (Z.land (s32 w) 7 =? 1) then Some (- ENOTDIR, current_inode, m1)
      else
        let '(inode, m2) := read_temp_int m1 (s32 (header_offset + 4)) in
        list m2 inode
    else list m current_inode.
End Code.

(** ** The image, as the format defines it

    [d] is the image by byte offset.  A file header at offset [o]: the next
    header with the type and the executable bit in its low four bits, the
    type's own word, the size, a checksum, the name padded to a multiple of 16
    bytes, the data. *)

Definition be32 (d : Z -> Z) (o : Z) : Z :=
  d o * 2 ^ 24 + d (o + 1) * 2 ^ 16 + d (o + 2) * 2 ^ 8 + d (o + 3).

(** A name of [n] bytes takes [padded n] bytes of the image. *)
Definition padded (n : Z) : Z := 16 * (n / 16 + 1).

Definition name_at (d : Z -> Z) (o : Z) (s : list Z) : Prop :=
  Forall (fun b => b <> 0) s /\
  forall i, 0 <= i < padded (Z.of_nat (length s)) -> d (o + i) = nth (Z.to_nat i) s 0.

Definition ftype (d : Z -> Z) (o : Z) : Z := Z.land (be32 d o) 7.
Definition fexec (d : Z -> Z) (o : Z) : bool := Z.testbit (be32 d o) 3.
Definition fnext (d : Z -> Z) (o : Z) : Z := 16 * (be32 d o / 16).
Definition fspec (d : Z -> Z) (o : Z) : Z := be32 d (o + 4).
Definition fsize (d : Z -> Z) (o : Z) : Z := be32 d (o + 8).

(** [o] is a header inside an image of [len] bytes, with the name [s]. *)
Record header_at (d : Z -> Z) (len o : Z) (s : list Z) : Prop := {
  header_range : 0 < o /\ o + 16 + padded (Z.of_nat (length s)) <= len;
  header_name : name_at d (o + 16) s }.

(** The headers from [o] on, linked by [next]. *)
Inductive dir_from (d : Z -> Z) (len : Z) : Z -> list (Z * list Z) -> Prop :=
  | dir_last o s : header_at d len o s -> fnext d o = 0 -> dir_from d len o [(o, s)]
  | dir_next o s l : header_at d len o s -> fnext d o <> 0 ->
      dir_from d len (fnext d o) l -> dir_from d len o ((o, s) :: l).

(** Hard links lead from [o] to [o']. *)
Inductive resolves (d : Z -> Z) (len : Z) : Z -> Z -> nat -> Prop :=
  | resolves_here o : 0 <= o -> o + 16 <= len -> ftype d o <> 0 -> resolves d len o o 0
  | resolves_link o o' n : 0 <= o -> o + 16 <= len -> ftype d o = 0 ->
      resolves d len (fspec d o) o' n -> resolves d len o o' (S n).

(** The data of a file with the name [s]. *)
Definition fdata (o : Z) (s : list Z) : Z := o + 16 + padded (Z.of_nat (length s)).

Lemma padded_bounds n : 0 <= n -> n < padded n <= n + 16.
Proof. unfold padded. intros. Z.div_mod_to_equations. lia. Qed.

Lemma padded_step n : 16 <= n -> padded n = 16 + padded (n - 16).
Proof. unfold padded. intros. Z.div_mod_to_equations. lia. Qed.

Lemma padded_small n : 0 <= n < 16 -> padded n = 16.
Proof. unfold padded. intros. Z.div_mod_to_equations. lia. Qed.

Lemma be32_range d o :
  (forall i, 0 <= d i < 256) -> 0 <= be32 d o < 2 ^ 32.
Proof.
  intros H. unfold be32. pose proof (H o). pose proof (H (o + 1)).
  pose proof (H (o + 2)). pose proof (H (o + 3)). lia.
Qed.

Lemma ntohl_load32 m a d o :
  (forall i, 0 <= d i < 256) -> (forall i, 0 <= i < 4 -> m (a + i) = d (o + i)) ->
  ntohl (load32 m a) = be32 d o.
Proof.
  intros Hd H. assert (Ha : forall b, 0 <= b < 4 -> 0 <= m (a + b) < 256)
    by (intros; rewrite H; auto).
  unfold be32. rewrite <- (H 1), <- (H 2), <- (H 3) by lia.
  replace (d o) with (m a) by (specialize (H 0); rewrite !Z.add_0_r in H; apply H; lia).
  pose proof (Ha 0 ltac:(lia)) as H0. rewrite Z.add_0_r in H0.
  pose proof (Ha 1 ltac:(lia)). pose proof (Ha 2 ltac:(lia)). pose proof (Ha 3 ltac:(lia)).
  unfold ntohl, load32, u8. Z.div_mod_to_equations. lia.
Qed.

Lemma land7_s32 w : Z.land (s32 w) 7 = Z.land w 7.
Proof.
  change 7 with (Z.ones 3). rewrite !Z.land_ones by lia. unfold s32.
  Z.div_mod_to_equations. lia.
Qed.

Lemma land8_s32 w : (Z.land (s32 w) 8 =? 0) = negb (Z.testbit w 3).
Proof.
  assert (E : Z.land (s32 w) 8 = if Z.testbit w 3 then 8 else 0).
  { apply Z.bits_inj'. intros i Hi. change 8 with (2 ^ 3) at 1.
    rewrite Z.land_spec, Z.pow2_bits_eqb by lia.
    destruct (3 =? i) eqn:E3; b2p.
    - subst i. rewrite andb_true_r.
      assert (Z.testbit (s32 w) 3 = Z.testbit w 3) as ->
        by (rewrite <- (Z.mod_pow2_bits_low _ 4 3), <- (Z.mod_pow2_bits_low w 4 3) by lia;
            f_equal; unfold s32; Z.div_mod_to_equations; lia).
      destruct (Z.testbit w 3); done.
    - rewrite andb_false_r. destruct (Z.testbit w 3); [|by rewrite Z.bits_0].
      change 8 with (2 ^ 3). rewrite Z.pow2_bits_eqb by lia. symmetry. by apply Z.eqb_neq. }
  rewrite E. by destruct (Z.testbit w 3).
Qed.

Lemma next_mask w :
  0 <= w < 2 ^ 32 -> Z.land w (u32 (Z.lnot 0xf)) = 16 * (w / 16).
Proof.
  intros Hw. change (u32 (Z.lnot 15)) with (Z.ldiff (Z.ones 32) (Z.ones 4)).
  replace (Z.land w (Z.ldiff (Z.ones 32) (Z.ones 4)))
    with (Z.ldiff (Z.land w (Z.ones 32)) (Z.ones 4)).
  - rewrite Z.land_ones, Z.mod_small, Z.ldiff_ones_r by lia.
    rewrite Z.shiftl_mul_pow2, Z.shiftr_div_pow2 by lia.
    change (2 ^ 4) with 16. apply Z.mul_comm.
  - apply Z.bits_inj'. intros i Hi. rewrite !Z.ldiff_spec, !Z.land_spec, Z.ldiff_spec.
    by rewrite andb_assoc.
Qed.

(** ** Reading the image *)

(** The image [d] of [rd] and the local objects: where they lie. *)
Record layout (rd : ramdisk) (lc : locals) (d : Z -> Z) : Prop := {
  lay_start : 0 <= rd_start rd;
  lay_len : 0 <= rd_length rd < 2 ^ 30;
  lay_bytes : forall i, 0 <= d i < 256;
  lay_int : apart (temp_int lc) 4 (rd_start rd) (rd_length rd);
  lay_buf : apart (temp_buffer lc) 17 (rd_start rd) (rd_length rd);
  lay_filename : apart (filename lc) 257 (rd_start rd) (rd_length rd);
  lay_filename_buf : apart (filename lc) 273 (temp_buffer lc) 17;
  lay_header : apart (header lc) 33 (rd_start rd) (rd_length rd);
  lay_header_buf : apart (header lc) 49 (temp_buffer lc) 17;
  lay_header_int : apart (header lc) 33 (temp_int lc) 4 }.

(** The image is in memory. *)
Definition on_disk (rd : ramdisk) (d : Z -> Z) (m : mem) : Prop :=
  forall i, 0 <= i < rd_length rd -> m (rd_start rd + i) = d i.

(** No region of [rs] meets the image. *)
Definition off_disk (rd : ramdisk) (rs : list (Z * Z)) : Prop :=
  Forall (fun r => apart (fst r) (snd r) (rd_start rd) (rd_length rd)) rs.

Ltac off_disk_tac :=
  repeat first [apply List.Forall_nil | apply List.Forall_cons];
  cbn [fst snd]; unfold apart in *; lia.

Lemma on_disk_modifies rd d rs m m' :
  off_disk rd rs -> modifies rs m m' -> on_disk rd d m -> on_disk rd d m'.
Proof.
  intros Hr Hm H i Hi. rewrite Hm; [by apply H|].
  revert Hr. apply List.Forall_impl. intros r Ha. unfold apart in Ha. lia.
Qed.

Section Read.
Context `{MemFill} (rd : ramdisk) (lc : locals) (d : Z -> Z).
Context (L : layout rd lc d).

Lemma ramdisk_read_ok m offset length dest :
  on_disk rd d m -> 0 <= offset -> 0 <= length -> offset + length <= rd_length rd ->
  apart dest length (rd_start rd) (rd_length rd) ->
  let '(r, m') := ramdisk_read rd m offset length dest in
  r = length /\ modifies [(dest, length)] m m' /\
  forall i, 0 <= i < length -> m' (dest + i) = d (offset + i).
Proof.
  intros Hd Ho Hl Hr Ha. pose proof (lay_len _ _ _ L) as Hlen.
  unfold ramdisk_read. rewrite u32_id by lia.
  replace (rd_length rd <? offset + length) with false by lia.
  rewrite s32_id by lia. split; [done|].
  pose proof (memcpy_copied m dest (rd_start rd + offset) length Hl) as Hc.
  assert (Hap : apart dest length (rd_start rd + offset) length)
    by (unfold apart in *; lia).
  specialize (Hc Hap). split.
  - intros x Hx. inversion_clear Hx. cbn [fst snd] in *. rewrite Hc.
    by repeat (bcase; try lia).
  - intros i Hi. rewrite Hc, <- Hd by lia.
    repeat (bcase; try lia). f_equal. lia.
Qed.

(** One scratch read: the bytes are there, and only the scratch changes. *)
Lemma read_buffer_ok m o :
  on_disk rd d m -> 0 <= o -> o + 16 <= rd_length rd ->
  let m' := snd (romfs_read_noinc rd m (temp_buffer lc) (u32 o) 16) in
  (forall i, 0 <= i < 16 -> m' (temp_buffer lc + i) = d (o + i)) /\
  modifies [(temp_buffer lc, 16)] m m' /\ on_disk rd d m'.
Proof.
  intros Hd Ho Hr. destruct L as [? Hlen _ _ Hb _ _ _ _ _]. cbv zeta. unfold romfs_read_noinc.
  rewrite u32_id by lia.
  pose proof (ramdisk_read_ok m o 16 (temp_buffer lc) Hd Ho ltac:(lia) Hr) as HR.
  destruct (ramdisk_read rd m o 16 (temp_buffer lc)) as [r m'].
  destruct HR as (_ & Hm & Hi); [unfold apart in *; lia|]. cbn [snd].
  split; [done|]. split; [done|]. eapply on_disk_modifies; [|exact Hm|done]. off_disk_tac.
Qed.

Lemma read_temp_int_ok m o :
  on_disk rd d m -> 0 <= o -> o + 4 <= rd_length rd ->
  exists m', read_temp_int rd lc m o = (be32 d o, m') /\
    modifies [(temp_int lc, 4)] m m' /\ on_disk rd d m'.
Proof.
  intros Hd Ho Hr. destruct L as [? Hlen Hby Hti _ _ _ _ _ _].
  unfold read_temp_int, romfs_read_noinc. rewrite u32_id by lia.
  pose proof (ramdisk_read_ok m o 4 (temp_int lc) Hd Ho ltac:(lia) Hr Hti) as HR.
  destruct (ramdisk_read rd m o 4 (temp_int lc)) as [r m'].
  destruct HR as (_ & Hm & Hi). cbn [snd].
  rewrite (ntohl_load32 m' _ d o) by done.
  exists m'. split; [done|]. split; [done|].
  eapply on_disk_modifies; [|exact Hm|done]. off_disk_tac.
Qed.
End Read.

(** ** Names *)

Lemma strnlen_full f n : forall i,
  (forall j, i <= j < i + Z.of_nat n -> f j <> 0) -> strnlen f i n = Z.of_nat n.
Proof.
  induction n as [|n IH]; intros i Hf; cbn [strnlen]; [done|].
  pose proof (Hf i ltac:(lia)). bcase; [done|]. rewrite IH; [lia|]. intros. apply Hf. lia.
Qed.

Section Chunk.
(** One 16-byte chunk of a name whose remaining bytes are [s]. *)
Context (f : Z -> Z) (s : list Z).
Context (Hs : Forall (fun b => b <> 0) s).
Context (Hf : forall i, 0 <= i < 16 -> f i = nth (Z.to_nat i) s 0).

Lemma chunk_nonzero i : 0 <= i < 16 -> i < Z.of_nat (length s) -> f i <> 0.
Proof.
  intros Hi Hl. rewrite Hf by lia. rewrite List.Forall_forall in Hs.
  apply Hs, nth_In. lia.
Qed.

Lemma chunk_last : (f 15 =? 0) = (Z.of_nat (length s) <? 16).
Proof.
  destruct (Z.of_nat (length s) <? 16) eqn:E; b2p.
  - rewrite Hf by lia. rewrite nth_overflow by lia. done.
  - apply Z.eqb_neq, chunk_nonzero; lia.
Qed.

Lemma chunk_cstring : Z.of_nat (length s) < 16 -> cstring f s.
Proof.
  intros Hl. apply cstring_intro; [done| |].
  - intros i Hi. rewrite Hf by lia. f_equal. lia.
  - rewrite Hf by lia. apply nth_overflow. lia.
Qed.

Lemma chunk_strnlen n :
  (n <= 16)%nat -> strnlen f 0 n = Z.of_nat (length (take n s)).
Proof.
  intros Hn. rewrite length_take. destruct (decide (Z.of_nat (length s) < 16)).
  - rewrite (cstring_strnlen f s) by (by apply chunk_cstring). lia.
  - rewrite strnlen_full; [lia|]. intros j Hj. apply chunk_nonzero; lia.
Qed.

Lemma chunk_has n : (n <= 16)%nat -> has f (take n s).
Proof.
  intros Hn i Hi. rewrite length_take in Hi. rewrite nth_take_lt, Hf by lia.
  f_equal. lia.
Qed.
End Chunk.

Lemma name_at_chunk d o s i :
  name_at d o s -> 0 <= i < 16 -> d (o + i) = nth (Z.to_nat i) s 0.
Proof.
  intros [_ H] Hi. apply H. pose proof (padded_bounds (Z.of_nat (length s))).
  destruct (decide (Z.of_nat (length s) < 16)).
  - rewrite padded_small; lia.
  - lia.
Qed.

Lemma nth_drop_Z (l : list Z) n i : nth i (drop n l) 0 = nth (n + i) l 0.
Proof.
  revert n i. induction l as [|x l IH]; intros [|n] i; cbn; try done.
  by destruct i.
Qed.

Lemma name_at_drop d o s :
  name_at d o s -> 16 <= Z.of_nat (length s) -> name_at d (o + 16) (drop 16 s).
Proof.
  intros [Hs Hi] Hl. split; [by apply Forall_drop|]. intros i Hr.
  rewrite length_drop in Hr. rewrite nth_drop_Z, <- Z.add_assoc.
  rewrite Hi; [f_equal; lia|]. rewrite padded_step by lia.
  replace (Z.of_nat (length s) - 16) with (Z.of_nat (length s - 16)) by lia. lia.
Qed.

Section Names.
Context `{MemFill} (rd : ramdisk) (lc : locals) (d : Z -> Z).
Context (L : layout rd lc d).

Section String.
Context (buf size : Z).
Context (Hsize : 0 <= size < 2 ^ 31).
Context (Hdisk : apart buf (size + 1) (rd_start rd) (rd_length rd)).
Context (Hbuf : apart buf (size + 17) (temp_buffer lc) 17).

(** The [strncat] of one chunk. *)
Lemma append_chunk sl m1 s1 s2 :
  Forall (fun b => b <> 0) s2 ->
  (forall i, 0 <= i < 16 -> m1 (temp_buffer lc + i) = nth (Z.to_nat i) s2 0) ->
  cstring (at_ m1 buf) (take (Z.to_nat size) s1) -> (length s1 < sl)%nat ->
  let max := size - Z.of_nat (length s1) in
  exists m2,
    (if 0 <? max
     then strncat sl m1 buf (temp_buffer lc) (if 16 <? max then 16 else max)
     else Some (m1, buf)) = Some (m2, buf) /\
    cstring (at_ m2 buf) (take (Z.to_nat size) (s1 ++ take 16 s2)) /\
    modifies [(buf, size + 1)] m1 m2.
Proof.
  intros Hs2 Hch Hc Hsl max. rewrite take_app.
  destruct (0 <? max) eqn:E; b2p.
  - rewrite (take_ge s1) in * by lia.
    set (n := if 16 <? max then 16 else max).
    assert (Hn : 0 < n <= 16 /\ n = Z.min 16 max) by (unfold n; bcase; lia).
    destruct (strncat_bytes sl m1 buf (temp_buffer lc) s1 (take (Z.to_nat n) s2) n)
      as (m2 & E2 & Hc2 & Ho2); try done.
    + by apply Forall_take.
    + apply chunk_has; [done|lia].
    + apply (chunk_strnlen (at_ m1 (temp_buffer lc)) s2); [done|done|lia].
    + lia.
    + unfold apart in *. lia.
    + exists m2. rewrite E2. split; [done|]. split.
      * rewrite take_take. replace (_ `min` 16)%nat with (Z.to_nat n) by lia. done.
      * apply modifies_same_outside in Ho2. eapply modifies_sub; [exact Ho2|].
        rewrite length_take. regions.
  - exists m1. split; [done|]. split; [|done].
    replace (Z.to_nat size - length s1)%nat with 0%nat by lia.
    by rewrite take_0, app_nil_r.
Qed.

Lemma read_string_loop_ok sl fuel : forall m o s1 s2,
  on_disk rd d m -> name_at d o s2 -> 0 <= o ->
  o + padded (Z.of_nat (length s2)) <= rd_length rd ->
  Z.of_nat (length s1) + Z.of_nat (length s2) < 2 ^ 31 ->
  (length s2 < 16 * fuel)%nat -> (length s1 + length s2 < sl)%nat ->
  cstring (at_ m buf) (take (Z.to_nat size) s1) ->
  exists m', romfs_read_string_loop rd lc sl fuel m o buf (size - Z.of_nat (length s1))
             = Some (o + padded (Z.of_nat (length s2)), m') /\
    cstring (at_ m' buf) (take (Z.to_nat size) (s1 ++ s2)) /\
    modifies [(buf, size + 1); (temp_buffer lc, 16)] m m' /\ on_disk rd d m'.
Proof.
  pose proof (lay_len _ _ _ L) as Hlen.
  induction fuel as [|fuel IH]; intros m o s1 s2 Hd Hn Ho Hr Hb Hf Hsl Hc; [lia|].
  cbn [romfs_read_string_loop].
  pose proof (padded_bounds (Z.of_nat (length s2)) ltac:(lia)) as Hp.
  assert (16 <= padded (Z.of_nat (length s2))) by (unfold padded; Z.div_mod_to_equations; lia).
  destruct (read_buffer_ok rd lc d L m o Hd Ho ltac:(lia)) as (Hch & Hm1 & Hd1).
  set (m1 := snd (romfs_read_noinc _ _ _ _ _)) in *.
  assert (Hch' : forall i, 0 <= i < 16 ->
    m1 (temp_buffer lc + i) = nth (Z.to_nat i) s2 0).
  { intros i Hi. rewrite Hch by done. by apply name_at_chunk. }
  assert (Hc1 : cstring (at_ m1 buf) (take (Z.to_nat size) s1)).
  { eapply cstring_modifies; [exact Hm1| |done].
    rewrite length_take. unfold apart in *. constructor; [cbn; lia|done]. }
  destruct (append_chunk sl m1 s1 s2 (proj1 Hn) Hch' Hc1 ltac:(lia))
    as (m2 & E2 & Hc2 & Hm2).
  bind_with E2.
  assert (m2 (temp_buffer lc + 15) = m1 (temp_buffer lc + 15)) as ->.
  { apply Hm2. constructor; [cbn; unfold apart in Hbuf; lia|constructor]. }
  pose proof (chunk_last (at_ m1 (temp_buffer lc)) s2 (proj1 Hn) Hch') as Hl.
  unfold at_ in Hl. rewrite Hl.
  assert (Hd2 : on_disk rd d m2)
    by (eapply on_disk_modifies; [|exact Hm2|done]; off_disk_tac).
  assert (Hm : modifies [(buf, size + 1); (temp_buffer lc, 16)] m m2).
  { transitivity m1; [eapply modifies_sub; [exact Hm1|regions]|].
    eapply modifies_sub; [exact Hm2|regions]. }
  rewrite s32_id by lia.
  destruct (Z.of_nat (length s2) <? 16) eqn:E16; b2p.
  - exists m2. rewrite padded_small, (take_ge s2) in * by lia. done.
  - rewrite s32_id by lia.
    destruct (IH m2 (o + 16) (s1 ++ take 16 s2) (drop 16 s2))
      as (m' & E & Hc' & Hm' & Hd').
    all: rewrite ?length_app, ?length_take, ?length_drop; try lia; try done.
    + by apply name_at_drop; [done|lia].
    + rewrite (padded_step (Z.of_nat (length s2))) in Hr by lia.
      replace (Z.of_nat (length s2 - 16)) with (Z.of_nat (length s2) - 16) by lia. lia.
    + rewrite length_app, length_take, length_drop in E.
      rewrite <- app_assoc, take_drop in Hc'. exists m'.
      replace (size - Z.of_nat (length s1) - 16)
        with (size - Z.of_nat (length s1 + 16 `min` length s2)) by lia.
      rewrite E. split; [do 2 f_equal|split; [done|split; [by transitivity m2|done]]].
      rewrite (padded_step (Z.of_nat (length s2))) by lia.
      replace (Z.of_nat (length s2 - 16)) with (Z.of_nat (length s2) - 16) by lia. lia.
Qed.

(** [romfs_read_string]: the size on disk, and the name cut to [size]. *)
Lemma read_string_ok fuel m o s :
  on_disk rd d m -> name_at d o s -> 0 <= o ->
  o + padded (Z.of_nat (length s)) <= rd_length rd ->
  (length s < 16 * fuel)%nat ->
  exists m', romfs_read_string rd lc fuel m o buf size
             = Some (padded (Z.of_nat (length s)), m') /\
    cstring (at_ m' buf) (take (Z.to_nat size) s) /\
    modifies [(buf, size + 1); (temp_buffer lc, 16)] m m' /\ on_disk rd d m'.
Proof.
  intros Hd Hn Ho Hr Hf. pose proof (lay_len _ _ _ L) as Hlen.
  pose proof (padded_bounds (Z.of_nat (length s)) ltac:(lia)) as Hp.
  pose proof (modifies_upd buf 0 m) as Hu.
  destruct (read_string_loop_ok (16 * fuel + 1) fuel (upd m buf 0) o [] s)
    as (m' & E & Hc & Hm & Hd'); try done; cbn [length]; try lia.
  - eapply on_disk_modifies; [|exact Hu|done]. off_disk_tac.
  - rewrite take_nil. apply cstring_intro; [done|cbn; lia|].
    cbn. unfold at_. rewrite Z.add_0_r. apply upd_eq.
  - rewrite Z.sub_0_r in E. unfold romfs_read_string. rewrite E.
    cbn [mbind option_bind]. exists m'. split; [rewrite s32_id by lia; do 2 f_equal; lia|].
    split; [done|]. split; [|done].
    transitivity (upd m buf 0); [eapply modifies_sub; [exact Hu|regions]|done].
Qed.
End String.

(** One iteration of the length loops: the chunk is read, byte 15 tells
    whether the name ends here. *)
Lemma length_chunk m o s :
  on_disk rd d m -> name_at d o s -> 0 <= o ->
  o + padded (Z.of_nat (length s)) <= rd_length rd ->
  let m1 := snd (romfs_read_noinc rd m (temp_buffer lc) (u32 o) 16) in
  (m1 (temp_buffer lc + 15) =? 0) = (Z.of_nat (length s) <? 16) /\
  (Z.of_nat (length s) < 16 ->
     strlen 16 (at_ m1 (temp_buffer lc)) = Some (Z.of_nat (length s))) /\
  modifies [(temp_buffer lc, 16)] m m1 /\ on_disk rd d m1.
Proof.
  intros Hd Hn Ho Hr.
  assert (16 <= padded (Z.of_nat (length s))) by (unfold padded; Z.div_mod_to_equations; lia).
  destruct (read_buffer_ok rd lc d L m o Hd Ho ltac:(lia)) as (Hch & Hm1 & Hd1).
  cbv zeta. set (m1 := snd (romfs_read_noinc _ _ _ _ _)) in *.
  assert (Hch' : forall i, 0 <= i < 16 ->
    at_ m1 (temp_buffer lc) i = nth (Z.to_nat i) s 0).
  { intros i Hi. unfold at_. rewrite Hch by done. by apply name_at_chunk. }
  split; [apply (chunk_last _ s (proj1 Hn) Hch')|]. split; [|done].
  intros Hl. apply strlen_cstring; [|lia]. by apply chunk_cstring; [apply Hn| |].
Qed.

Lemma string_length_loop_ok fuel : forall m o s k,
  on_disk rd d m -> name_at d o s -> 0 <= o ->
  o + padded (Z.of_nat (length s)) <= rd_length rd ->
  (length s < 16 * fuel)%nat -> 0 <= k -> k + padded (Z.of_nat (length s)) < 2 ^ 31 ->
  (exists m', romfs_string_length_loop rd lc fuel m o k
              = Some (k + Z.of_nat (length s), m') /\
     modifies [(temp_buffer lc, 16)] m m' /\ on_disk rd d m') /\
  (exists m', romfs_string_length_chunks_loop rd lc fuel m o k
              = Some (k + padded (Z.of_nat (length s)), m') /\
     modifies [(temp_buffer lc, 16)] m m' /\ on_disk rd d m').
Proof.
  pose proof (lay_len _ _ _ L) as Hlen.
  induction fuel as [|fuel IH]; intros m o s k Hd Hn Ho Hr Hf Hk Hb; [lia|].
  cbn [romfs_string_length_loop romfs_string_length_chunks_loop].
  destruct (length_chunk m o s Hd Hn Ho Hr) as (-> & Hsl & Hm1 & Hd1).
  set (m1 := snd (romfs_read_noinc _ _ _ _ _)) in *.
  destruct (Z.of_nat (length s) <? 16) eqn:E; b2p.
  - rewrite padded_small in * by lia. specialize (Hsl E).
    split; [bind_with Hsl|]; rewrite s32_id by lia; by exists m1.
  - pose proof (name_at_drop _ _ _ Hn E) as Hn'.
    pose proof (padded_bounds (Z.of_nat (length s)) ltac:(lia)).
    rewrite !s32_id by lia. rewrite (padded_step (Z.of_nat (length s))) in * by lia.
    specialize (IH m1 (o + 16) (drop 16 s) (k + 16) Hd1 Hn').
    rewrite length_drop in IH.
    replace (Z.of_nat (length s - 16)) with (Z.of_nat (length s) - 16) in IH by lia.
    destruct IH as [(m2 & -> & Hm2 & Hd2) (m3 & -> & Hm3 & Hd3)]; [lia..|].
    split; [exists m2 | exists m3].
    + split; [do 2 f_equal; lia|]. split; [by transitivity m1|done].
    + split; [do 2 f_equal; lia|]. split; [by transitivity m1|done].
Qed.

Lemma string_length_ok fuel m o s :
  on_disk rd d m -> name_at d o s -> 0 <= o ->
  o + padded (Z.of_nat (length s)) <= rd_length rd -> (length s < 16 * fuel)%nat ->
  exists m', romfs_string_length rd lc fuel m o = Some (Z.of_nat (length s), m') /\
    modifies [(temp_buffer lc, 16)] m m' /\ on_disk rd d m'.
Proof.
  intros Hd Hn Ho Hr Hf. pose proof (lay_len _ _ _ L) as Hlen.
  destruct (string_length_loop_ok fuel m o s 0) as [(m' & E & Hm) _]; try done; try lia.
  by exists m'.
Qed.

Lemma string_length_chunks_ok fuel m o s :
  on_disk rd d m -> name_at d o s -> 0 <= o ->
  o + padded (Z.of_nat (length s)) <= rd_length rd -> (length s < 16 * fuel)%nat ->
  exists m', romfs_string_length_chunks rd lc fuel m o
             = Some (padded (Z.of_nat (length s)), m') /\
    modifies [(temp_buffer lc, 16)] m m' /\ on_disk rd d m'.
Proof.
  intros Hd Hn Ho Hr Hf. pose proof (lay_len _ _ _ L) as Hlen.
  destruct (string_length_loop_ok fuel m o s 0) as [_ (m' & E & Hm)]; try done; try lia.
  by exists m'.
Qed.
End Names.

(** ** Links and directories *)

(** The first entry of a directory listing with the name [nm], as far as the
    code compares names. *)
Definition lookup_name (nm : list Z) (l : list (Z * list Z)) : option Z :=
  fst <$> List.find (fun e => bool_decide (take 256 (snd e) = take 256 nm)) l.

(** The objects a lookup writes to: [filename] receives up to 257 bytes. *)
Definition lookup_regions (lc : locals) : list (Z * Z) :=
  [(temp_int lc, 4); (temp_buffer lc, 16); (filename lc, 257)].

Section Lookup.
Context `{MemFill} (rd : ramdisk) (lc : locals) (d : Z -> Z).
Context (L : layout rd lc d).

Lemma be32_land o : 0 <= be32 d o < 2 ^ 32.
Proof. apply be32_range, L. Qed.

Lemma follow_links_ok n : forall fuel m o o',
  on_disk rd d m -> resolves d (rd_length rd) o o' n -> (n < fuel)%nat ->
  exists m', romfs_inode_follow_links rd lc fuel m o = Some (o', m') /\
    modifies [(temp_int lc, 4)] m m' /\ on_disk rd d m'.
Proof.
  pose proof (lay_len _ _ _ L) as Hlen.
  induction n as [|n IH]; intros [|fuel] m o o' Hd Hr Hf; try lia;
    cbn [romfs_inode_follow_links];
    assert (Ho : 0 <= o /\ o + 16 <= rd_length rd) by (inversion Hr; lia);
    destruct (read_temp_int_ok rd lc d L m o) as (m1 & -> & Hm1 & Hd1); try done; try lia;
    rewrite (s32_id (o + 4)) by lia;
    destruct (read_temp_int_ok rd lc d L m1 (o + 4)) as (m2 & -> & Hm2 & Hd2);
      try done; try lia;
    rewrite land7_s32; fold (ftype d o); inversion Hr; subst.
  - rewrite (proj2 (Z.eqb_neq _ _)) by done. exists m2.
    split; [done|]. split; [by transitivity m1|done].
  - replace (ftype d o) with 0 by done. cbn [Z.eqb].
    fold (fspec d o).
    assert (Hs : 0 <= fspec d o < 2 ^ 31)
      by (match goal with Hx : resolves _ _ (fspec d o) _ _ |- _ => inversion Hx; lia end).
    rewrite (s32_id (fspec d o)) by lia.
    destruct (IH fuel m2 (fspec d o) o') as (m' & -> & Hm' & Hd'); try done; try lia.
    exists m'. split; [done|]. split; [|done]. transitivity m2; [by transitivity m1|done].
Qed.

Lemma dir_from_header o l : dir_from d (rd_length rd) o l ->
  exists s l', l = (o, s) :: l' /\ header_at d (rd_length rd) o s.
Proof. intros Hl; inversion Hl; subst; eauto. Qed.

(** What a lookup is to return: the file behind the links, -1 for no entry. *)
Definition lookup_result (K : nat) (nm : list Z) (l : list (Z * list Z)) (r : Z) : Prop :=
  match lookup_name nm l with
  | Some i => exists n, resolves d (rd_length rd) i r n /\ (n < K)%nat
  | None => r = -1
  end.

Lemma get_inode_loop_ok K name nm :
  Forall (fun r => apart (fst r) (snd r) name (Z.of_nat (length nm) + 1))
    (lookup_regions lc) ->
  forall l fuel m o,
  on_disk rd d m -> dir_from d (rd_length rd) o l -> cstring (at_ m name) nm ->
  (length l + K <= fuel)%nat -> Forall (fun e => (length (snd e) < 16 * K)%nat) l ->
  forall r, lookup_result K nm l r ->
  exists m', get_inode_loop rd lc fuel m o name = Some (r, m') /\
    modifies (lookup_regions lc) m m' /\ on_disk rd d m'.
Proof.
  intros Hname. pose proof (lay_len _ _ _ L) as Hlen.
  induction l as [|[x s] l IH]; intros [|fuel] m o Hd Hl Hnm Hf HK r Hr; cbn [length] in *;
    try lia; [inversion Hl|inversion Hl|].
  destruct (dir_from_header o _ Hl) as (s' & l' & [= -> -> ->] & [Ho Hns]).
  inversion HK as [|? ? HKs HKl]; subst. cbn [snd] in HKs. cbn [get_inode_loop].
  pose proof (padded_bounds (Z.of_nat (length s')) ltac:(lia)).
  destruct (read_temp_int_ok rd lc d L m o) as (m1 & -> & Hm1 & Hd1); try done; try lia.
  rewrite next_mask by apply be32_land. fold (fnext d o).
  rewrite (s32_id o), (s32_id (o + 16)) by lia.
  destruct (read_string_ok rd lc d L (filename lc) 256 ltac:(lia) (lay_filename _ _ _ L)
    (lay_filename_buf _ _ _ L) (S fuel) m1 (o + 16) s') as (m2 & E2 & Hc2 & Hm2 & Hd2);
    try done; try lia.
  change MAX_FILENAME_SIZE with 256. bind_with E2.
  assert (Hm12 : modifies (lookup_regions lc) m m2).
  { transitivity m1; [eapply modifies_sub; [exact Hm1|regions]|].
    eapply modifies_sub; [exact Hm2|regions]. }
  assert (Hnm2 : cstring (at_ m2 name) nm) by (by eapply cstring_modifies).
  assert (Hcmp : (strncmp (at_ m2 name) (at_ m2 (filename lc)) 256 =? 0)
                 = bool_decide (take 256 s' = take 256 nm)).
  { apply eq_true_iff_eq. rewrite Z.eqb_eq, bool_decide_eq_true.
    rewrite (strncmp_loop_cstring 256 (at_ m2 name) (at_ m2 (filename lc)) 0 nm
              (take 256 s')) by done.
    rewrite take_take, Nat.min_id. split; congruence. }
  rewrite Hcmp. unfold lookup_result, lookup_name in Hr. cbn [List.find snd] in Hr.
  destruct (bool_decide (take 256 s' = take 256 nm)).
  { destruct Hr as (n & Hr & Hn). cbn [fst] in Hr.
    destruct (follow_links_ok n (S fuel) m2 o r) as (m' & E & Hm' & Hd'); try done; try lia.
    exists m'. split; [done|]. split; [|done]. transitivity m2; [done|].
    eapply modifies_sub; [exact Hm'|regions]. }
  destruct (fnext d o =? 0) eqn:En; b2p.
  - exists m2. assert (l' = []) as -> by (inversion Hl; subst; done).
    rewrite En. cbn in Hr. by subst r.
  - inversion Hl; subst; [done|].
    destruct (dir_from_header (fnext d o) l') as (s2 & ? & _ & [? _]); [done|].
    pose proof (padded_bounds (Z.of_nat (length s2)) ltac:(lia)).
    rewrite s32_id, u32_id, (proj2 (Z.eqb_neq _ _)) by (done || lia).
    destruct (IH fuel m2 (fnext d o)) with (r := r) as (m' & Er & Hm' & Hd');
      try done; try lia.
    exists m'. split; [done|]. split; [by transitivity m2|done].
Qed.

(** [romfs_get_inode] on a directory header whose list is [l]. *)
Lemma get_inode_ok K fuel m dir name nm l r :
  Forall (fun r => apart (fst r) (snd r) name (Z.of_nat (length nm) + 1))
    (lookup_regions lc) ->
  on_disk rd d m -> cstring (at_ m name) nm ->
  0 <= dir -> dir + 16 <= rd_length rd -> ftype d dir = 1 ->
  dir_from d (rd_length rd) (fspec d dir) l ->
  (length l + K <= fuel)%nat -> Forall (fun e => (length (snd e) < 16 * K)%nat) l ->
  lookup_result K nm l r ->
  exists m', romfs_get_inode rd lc fuel m dir name = Some (r, m') /\
    modifies (lookup_regions lc) m m' /\ on_disk rd d m'.
Proof.
  intros Hname Hd Hnm Hdir Hdl Ht Hl Hf HK Hr. pose proof (lay_len _ _ _ L) as Hlen.
  unfold romfs_get_inode. rewrite (u32_id dir) by lia.
  destruct (read_temp_int_ok rd lc d L m dir) as (m1 & -> & Hm1 & Hd1); try done; try lia.
  destruct (read_temp_int_ok rd lc d L m1 (dir + 4)) as (m2 & -> & Hm2 & Hd2);
    try done; try lia.
  rewrite land7_s32. fold (ftype d dir) (fspec d dir). rewrite Ht. cbn [Z.eqb Pos.eqb negb].
  destruct (dir_from_header _ _ Hl) as (s & l' & _ & [? _]).
  pose proof (padded_bounds (Z.of_nat (length s)) ltac:(lia)).
  rewrite s32_id, u32_id by lia.
  assert (Hm12 : modifies (lookup_regions lc) m m2).
  { transitivity m1; [eapply modifies_sub; [exact Hm1|regions]|].
    eapply modifies_sub; [exact Hm2|regions]. }
  destruct (get_inode_loop_ok K name nm Hname l fuel m2 (fspec d dir)) with (r := r)
    as (m' & E & Hm' & Hd'); try done; [by eapply cstring_modifies|].
  exists m'. split; [done|]. split; [by transitivity m2|done].
Qed.

Lemma get_inode_not_dir fuel m dir name :
  on_disk rd d m -> 0 <= dir -> dir + 16 <= rd_length rd -> ftype d dir <> 1 ->
  exists m', romfs_get_inode rd lc fuel m dir name = Some (- ENOTDIR, m') /\
    modifies (lookup_regions lc) m m' /\ on_disk rd d m'.
Proof.
  intros Hd Hdir Hdl Ht. pose proof (lay_len _ _ _ L) as Hlen.
  unfold romfs_get_inode. rewrite (u32_id dir) by lia.
  destruct (read_temp_int_ok rd lc d L m dir) as (m1 & -> & Hm1 & Hd1); try done; try lia.
  destruct (read_temp_int_ok rd lc d L m1 (dir + 4)) as (m2 & -> & Hm2 & Hd2);
    try done; try lia.
  rewrite land7_s32. fold (ftype d dir). rewrite (proj2 (Z.eqb_neq _ _)) by done.
  exists m2. split; [done|]. split; [|done].
  transitivity m1; [eapply modifies_sub; [exact Hm1|regions]|].
  eapply modifies_sub; [exact Hm2|regions].
Qed.
End Lookup.

(** ** Files, status, mount *)

(** The thirteen words of a [struct stat]. *)
Definition type_bits (t : Z) : Z :=
  nth (Z.to_nat t) [0; S_IFDIR; S_IFREG; S_IFLNK; S_IFBLK; S_IFCHR; S_IFSOCK; S_IFIFO] 0.

Definition stat_mode (d : Z -> Z) (o : Z) : Z :=
  Z.lor (Z.lor 0x1b6 (if fexec d o then 0x49 else 0)) (type_bits (ftype d o)).

Definition stat_fields (d : Z -> Z) (o : Z) : list Z :=
  [0; o; stat_mode d o; 0; 0; 0;
   if (ftype d o =? 4) || (ftype d o =? 5) then fspec d o else 0;
   fsize d o; 0; 0; 0; 0; 0].

(** The words [l] are stored from [buf] on. *)
Definition fields (m : mem) (buf : Z) (l : list Z) : Prop :=
  forall k, (k < length l)%nat -> load32 m (buf + 4 * Z.of_nat k) = nth k l 0.

Lemma u32_lor a b : u32 (Z.lor a b) = Z.lor (u32 a) (u32 b).
Proof.
  unfold u32. rewrite <- !Z.land_ones by lia.
  apply Z.bits_inj'. intros i Hi. rewrite !Z.land_spec, !Z.lor_spec, !Z.land_spec.
  by destruct (Z.testbit a i), (Z.testbit b i), (Z.testbit (Z.ones 32) i).
Qed.

Lemma nth_insert (l : list Z) j k w :
  (j < length l)%nat -> nth k (<[j:=w]> l) 0 = if decide (k = j) then w else nth k l 0.
Proof.
  revert j k. induction l as [|x l IH]; intros [|j] [|k] Hj; cbn in *; try lia; try done.
  rewrite IH by lia. destruct (decide (k = j)), (decide (S k = S j)); congruence || lia.
Qed.

Lemma fields_store m buf l j f w :
  fields m buf l -> f = 4 * Z.of_nat j -> (j < length l)%nat ->
  fields (store32 m (buf + f) w) buf (<[j := u32 w]> l).
Proof.
  intros Hf -> Hj k Hk. rewrite length_insert in Hk. rewrite nth_insert by done.
  destruct (decide (k = j)) as [->|Hne]; [apply load32_store32|].
  rewrite <- Hf by done. apply load32_ext. intros i Hi. apply store32_outside. lia.
Qed.

Lemma fields_modifies rs m m' buf l :
  modifies rs m m' ->
  Forall (fun r => apart (fst r) (snd r) buf (4 * Z.of_nat (length l))) rs ->
  fields m buf l -> fields m' buf l.
Proof.
  intros Hm Hr Hf k Hk. rewrite <- Hf by done. apply load32_ext. intros i Hi. apply Hm.
  revert Hr. apply List.Forall_impl. intros r Ha. unfold apart in Ha. lia.
Qed.

Lemma fields_zero m0 m buf n :
  filled m0 buf 0 (4 * Z.of_nat n) m -> fields m buf (repeat 0 n).
Proof.
  intros Hm k Hk. rewrite repeat_length in Hk. rewrite nth_repeat. unfold load32.
  rewrite !Hm. repeat (bcase; try lia).
Qed.

Section Files.
Context `{MemFill} (rd : ramdisk) (lc : locals) (d : Z -> Z).
Context (L : layout rd lc d).

Lemma read_file_ok fuel m o s off buf count :
  on_disk rd d m -> header_at d (rd_length rd) o s ->
  fdata o s + fsize d o <= rd_length rd -> (length s < 16 * fuel)%nat ->
  0 <= off <= fsize d o -> 0 <= count < 2 ^ 32 ->
  let n := Z.min count (fsize d o - off) in
  apart buf n (rd_start rd) (rd_length rd) ->
  exists m', romfs_read_file rd lc fuel m o off buf count = Some (n, m') /\
    (forall i, 0 <= i < n -> m' (buf + i) = d (fdata o s + off + i)) /\
    modifies [(temp_int lc, 4); (temp_buffer lc, 16); (buf, n)] m m' /\
    on_disk rd d m'.
Proof.
  intros Hd [Ho Hn] Hdata Hf Hoff Hc n Hbuf. pose proof (lay_len _ _ _ L) as Hlen.
  unfold fdata in *. pose proof (padded_bounds (Z.of_nat (length s)) ltac:(lia)).
  unfold romfs_read_file. rewrite (s32_id o), (s32_id (o + 8)), (s32_id (o + 8 + 8)) by lia.
  replace (o + 8 + 8) with (o + 16) by lia.
  destruct (read_temp_int_ok rd lc d L m (o + 8)) as (m1 & -> & Hm1 & Hd1);
    try done; try lia.
  destruct (string_length_chunks_ok rd lc d L fuel m1 (o + 16) s) as (m2 & E & Hm2 & Hd2);
    try done; try lia.
  bind_with E. fold (fsize d o).
  rewrite (s32_id (fsize d o)), (s32_id (o + 16 + _)), !(u32_id (fsize d o - off)) by lia.
  replace (if fsize d o - off <? count then fsize d o - off else count) with n
    by (unfold n; bcase; lia).
  rewrite u32_id by lia.
  pose proof (ramdisk_read_ok rd lc d L m2 (o + 16 + padded (Z.of_nat (length s)) + off)
    n buf Hd2 ltac:(lia) ltac:(lia) ltac:(lia) Hbuf) as HR.
  destruct (ramdisk_read _ _ _ _ _) as [r m'] in *. destruct HR as (-> & Hm' & Hb).
  exists m'. split; [done|]. split; [done|].
  split; [|eapply on_disk_modifies; [|exact Hm'|done]; off_disk_tac].
  transitivity m1; [eapply modifies_sub; [exact Hm1|regions]|].
  transitivity m2; [eapply modifies_sub; [exact Hm2|regions]|].
  eapply modifies_sub; [exact Hm'|regions].
Qed.

(** The volume name of the image. *)
Definition volume (vol : list Z) : Prop :=
  (forall i, 0 <= i < 8 -> d i = nth (Z.to_nat i) romfs_magic 0) /\
  name_at d 16 vol /\ 16 + padded (Z.of_nat (length vol)) <= rd_length rd.

Lemma memcmp_zero_iff s1 s2 n : forall i,
  memcmp_loop s1 s2 i n = 0 <-> forall j, i <= j < i + Z.of_nat n -> s1 j = s2 j.
Proof.
  induction n as [|n IH]; intros i; cbn [memcmp_loop]; [split; [lia|done]|].
  destruct (s1 i - s2 i =? 0) eqn:E; b2p; cbn [negb].
  - rewrite IH. split; intros Hj j Hr; [|apply Hj; lia].
    destruct (decide (j = i)) as [->|]; [lia|]. apply Hj. lia.
  - split; [lia|]. intros Hj. rewrite (Hj i) in E by lia. lia.
Qed.

Lemma mount_ok fuel m fhs vol :
  on_disk rd d m -> volume vol -> (length vol < 16 * fuel)%nat ->
  exists m', let root := 16 + padded (Z.of_nat (length vol)) in
    romfs_mount rd lc fuel m fhs = Some (root, root, m') /\
    cstring (at_ m' (header lc + 16)) (take 16 vol) /\
    modifies [(temp_int lc, 4); (temp_buffer lc, 16); (header lc, 33)] m m' /\
    on_disk rd d m'.
Proof.
  intros Hd (Hmag & Hvol & Hr) Hf. pose proof (lay_len _ _ _ L) as Hlen.
  pose proof (lay_header _ _ _ L). pose proof (lay_header_buf _ _ _ L).
  pose proof (lay_header_int _ _ _ L).
  pose proof (padded_bounds (Z.of_nat (length vol)) ltac:(lia)).
  assert (16 <= padded (Z.of_nat (length vol))) by (unfold padded; Z.div_mod_to_equations; lia).
  unfold romfs_mount, romfs_read_noinc.
  pose proof (ramdisk_read_ok rd lc d L m 0 8 (header lc) Hd ltac:(lia) ltac:(lia)
    ltac:(lia)) as HR.
  destruct (ramdisk_read rd m 0 8 (header lc)) as [r m1].
  destruct HR as (_ & Hm1 & Hb); [unfold apart in *; lia|]. cbn [snd].
  unfold memcmp. rewrite (proj2 (memcmp_zero_iff _ _ _ _)).
  2:{ intros j Hj. unfold at_. rewrite Hb, Hmag by lia. by rewrite Z.add_0_l. }
  cbn [Z.eqb negb].
  assert (Hd1 : on_disk rd d m1)
    by (eapply on_disk_modifies; [|exact Hm1|done]; off_disk_tac).
  destruct (read_temp_int_ok rd lc d L m1 8) as (m2 & -> & Hm2 & Hd2); try done; try lia.
  pose proof (modifies_store32 (header lc + 8) (be32 d 8) m2) as Hm3.
  destruct (read_temp_int_ok rd lc d L (store32 m2 (header lc + 8) (be32 d 8)) 12)
    as (m4 & -> & Hm4 & Hd4); try lia;
    [eapply on_disk_modifies; [|exact Hm3|done]; off_disk_tac|].
  pose proof (modifies_store32 (header lc + 12) (be32 d 12) m4) as Hm5.
  destruct (read_string_ok rd lc d L (header lc + 16) 16 ltac:(lia)) with
    (fuel := fuel) (m := store32 m4 (header lc + 12) (be32 d 12)) (o := 16) (s := vol)
    as (m6 & E & Hc & Hm6 & Hd6); try done; try lia; try (unfold apart in *; lia).
  { eapply on_disk_modifies; [|exact Hm5|done]; off_disk_tac. }
  bind_with E. rewrite u32_id, s32_id by lia. exists m6. cbv zeta.
  split; [done|]. split; [done|]. split; [|done].
  transitivity m1; [eapply modifies_sub; [exact Hm1|regions]|].
  transitivity m2; [eapply modifies_sub; [exact Hm2|regions]|].
  etransitivity; [eapply modifies_sub; [exact Hm3|regions]|].
  transitivity m4; [eapply modifies_sub; [exact Hm4|regions]|].
  etransitivity; [eapply modifies_sub; [exact Hm5|regions]|].
  eapply modifies_sub; [exact Hm6|regions].
Qed.

Lemma mount_bad_magic fuel m fhs i :
  on_disk rd d m -> 8 <= rd_length rd -> 0 <= i < 8 ->
  d i <> nth (Z.to_nat i) romfs_magic 0 ->
  exists m', romfs_mount rd lc fuel m fhs = Some (-1, fhs, m') /\
    modifies [(header lc, 8)] m m'.
Proof.
  intros Hd Hr Hi Hne. pose proof (lay_header _ _ _ L).
  unfold romfs_mount, romfs_read_noinc.
  pose proof (ramdisk_read_ok rd lc d L m 0 8 (header lc) Hd ltac:(lia) ltac:(lia)
    ltac:(lia)) as HR.
  destruct (ramdisk_read rd m 0 8 (header lc)) as [r m1].
  destruct HR as (_ & Hm1 & Hb); [unfold apart in *; lia|]. cbn [snd].
  rewrite (proj2 (Z.eqb_neq _ _)); [by exists m1|].
  unfold memcmp. rewrite memcmp_zero_iff. intros Hall. apply Hne.
  rewrite <- (Hall i) by lia. unfold at_. rewrite Hb by lia. by rewrite Z.add_0_l.
Qed.

(** The [switch] on the type, on the stored words. *)
Lemma stat_type_fields m buf l t spec :
  fields m buf l -> length l = 13%nat -> 1 <= t <= 7 -> 0 <= nth 2 l 0 < 2 ^ 16 ->
  0 <= spec < 2 ^ 32 ->
  fields (stat_type m buf t (s32 spec)) buf
    (<[2%nat := Z.lor (nth 2 l 0) (type_bits t)]>
      (if (t =? 4) || (t =? 5) then <[6%nat := spec]> l else l)) /\
  modifies [(buf, 52)] m (stat_type m buf t (s32 spec)).
Proof.
  intros Hf Hl Ht Hr Hs.
  assert (Hor : forall bits, 0 <= bits < 2 ^ 16 ->
    fields (or_field m buf st_mode bits) buf (<[2%nat := Z.lor (nth 2 l 0) bits]> l) /\
    modifies [(buf, 52)] m (or_field m buf st_mode bits)).
  { intros bits Hb. unfold or_field. split.
    - change (buf + st_mode) with (buf + 4 * Z.of_nat 2). rewrite (Hf 2%nat) by lia.
      replace (Z.lor (nth 2 l 0) bits) with (u32 (Z.lor (nth 2 l 0) bits)) at 2
        by (rewrite u32_lor, !u32_id by lia; done).
      apply fields_store; [done|lia|lia].
    - eapply modifies_sub; [apply modifies_store32|]. unfold st_mode. regions. }
  assert (Hrd : forall bits, 0 <= bits < 2 ^ 16 ->
    let m' := store32 (or_field m buf st_mode bits) (buf + st_rdev) (u32 (s32 spec)) in
    fields m' buf (<[2%nat := Z.lor (nth 2 l 0) bits]> (<[6%nat := spec]> l)) /\
    modifies [(buf, 52)] m m').
  { intros bits Hb m'. destruct (Hor bits Hb) as [Hf1 Hm1]. subst m'.
    rewrite u32_s32, (u32_id spec) by lia. split.
    - rewrite list_insert_insert_ne by lia. rewrite <- (u32_id spec) at 2 by lia.
      apply fields_store; [done|done|]. rewrite length_insert. lia.
    - etransitivity; [exact Hm1|]. eapply modifies_sub; [apply modifies_store32|].
      unfold st_rdev. regions. }
  assert (t = 1 \/ t = 2 \/ t = 3 \/ t = 4 \/ t = 5 \/ t = 6 \/ t = 7) as Hc by lia.
  unfold stat_type, type_bits.
  destruct Hc as [->|[->|[->|[->|[->|[->| ->]]]]]]; cbn -[store32 or_field insert];
    first [apply Hor; done | apply Hrd; done].
Qed.

(** The words of a [struct stat] after the part of [romfs_stat] that does not
    depend on the type. *)
Definition stat_common (o : Z) : list Z :=
  [0; o; Z.lor 0x1b6 (if fexec d o then 0x49 else 0); 0; 0; 0; 0; 0; 0; 0; 0; 0; 0].

Lemma stat_prefix fuel m o buf :
  on_disk rd d m -> 0 <= o -> o + 16 <= rd_length rd ->
  0 <= buf -> buf + 52 < 2 ^ 32 ->
  apart buf 52 (rd_start rd) (rd_length rd) -> apart buf 52 (temp_int lc) 4 ->
  exists m6,
    romfs_stat rd lc (S fuel) m o buf =
      (let m7 := stat_type m6 buf (ftype d o) (s32 (fspec d o)) in
       if ftype d o =? 0 then romfs_stat rd lc fuel m7 (s32 (fspec d o)) buf
       else let '(size, m8) := read_temp_int rd lc m7 (s32 (o + 8)) in
            Some (0, store32 m8 (buf + st_size) size)) /\
    fields m6 buf (stat_common o) /\
    modifies [(temp_int lc, 4); (buf, 52)] m m6 /\ on_disk rd d m6.
Proof.
  intros Hd Ho Hr Hb0 Hb Hbd Hbi. pose proof (lay_len _ _ _ L) as Hlen.
  cbn [romfs_stat].
  pose proof (memset_filled m buf 0 sizeof_stat ltac:(lia) Hb0 ltac:(done) Hb) as Hfill.
  set (m1 := memset m buf 0 sizeof_stat) in *.
  pose proof (fields_zero m m1 buf 13 Hfill) as F1.
  apply (fields_store _ _ _ 1 st_ino (u32 o)) in F1; [|done|cbn; lia].
  apply (fields_store _ _ _ 2 st_mode 0x1b6) in F1; [|done|cbn; lia].
  set (m3 := store32 (store32 m1 (buf + st_ino) (u32 o)) (buf + st_mode) 438) in *.
  assert (M3 : modifies [(temp_int lc, 4); (buf, 52)] m m3).
  { assert (modifies [(temp_int lc, 4); (buf, 52)] m m1).
    { intros x Hx. split_regions. rewrite Hfill. unfold sizeof_stat.
      by repeat (bcase; try lia). }
    etransitivity; [eassumption|]. unfold m3.
    etransitivity; (eapply modifies_sub; [apply modifies_store32|]);
      unfold st_ino, st_mode; regions. }
  assert (D3 : on_disk rd d m3)
    by (destruct L; eapply on_disk_modifies; [|exact M3|done]; off_disk_tac).
  destruct (read_temp_int_ok rd lc d L m3 o) as (m4 & -> & M4 & D4); try done; try lia.
  pose proof F1 as F4. eapply (fields_modifies _ _ _ _ _ M4) in F4;
    [|constructor; [cbn; unfold apart in *; lia|constructor]].
  rewrite land8_s32, negb_involutive, land7_s32. fold (ftype d o) (fexec d o).
  set (m5 := if fexec d o then or_field m4 buf st_mode 73 else m4).
  assert (F5 : fields m5 buf (stat_common o)).
  { unfold m5, stat_common. rewrite u32_u32, (u32_id o), (u32_id 438) in F4 by lia.
    destruct (fexec d o); [|exact F4].
    unfold or_field. change (buf + st_mode) with (buf + 4 * Z.of_nat 2).
    rewrite (F4 2%nat) by (cbn; lia).
    apply (fields_store _ _ _ 2 st_mode (Z.lor 438 73)) in F4; [|done|cbn; lia].
    exact F4. }
  assert (M5 : modifies [(temp_int lc, 4); (buf, 52)] m m5).
  { transitivity m3; [done|]. transitivity m4; [eapply modifies_sub; [exact M4|regions]|].
    unfold m5. destruct (fexec d o); [|done].
    eapply modifies_sub; [apply modifies_store32|]. unfold st_mode. regions. }
  rewrite (s32_id (o + 4)) by lia.
  assert (D5 : on_disk rd d m5)
    by (destruct L; eapply on_disk_modifies; [|exact M5|done]; off_disk_tac).
  destruct (read_temp_int_ok rd lc d L m5 (o + 4)) as (m6 & -> & M6 & D6); try done; try lia.
  exists m6. split; [done|]. split; [|split; [|done]].
  - eapply fields_modifies; [exact M6| |done].
    constructor; [cbn; unfold apart in *; lia|constructor].
  - transitivity m5; [done|]. eapply modifies_sub; [exact M6|regions].
Qed.

Lemma stat_ok n : forall fuel m o o' buf,
  on_disk rd d m -> resolves d (rd_length rd) o o' n -> (n < fuel)%nat ->
  0 <= buf -> buf + 52 < 2 ^ 32 ->
  apart buf 52 (rd_start rd) (rd_length rd) -> apart buf 52 (temp_int lc) 4 ->
  exists m', romfs_stat rd lc fuel m o buf = Some (0, m') /\
    fields m' buf (stat_fields d o') /\
    modifies [(temp_int lc, 4); (buf, 52)] m m' /\ on_disk rd d m'.
Proof.
  pose proof (lay_len _ _ _ L) as Hlen. pose proof (lay_bytes _ _ _ L) as Hby.
  pose proof (lay_int _ _ _ L) as Hti.
  induction n as [|n IH]; intros [|fuel] m o o' buf Hd Hr Hf Hb0 Hb Hbd Hbi; try lia;
    inversion Hr as [? Ho Hol Ht|? ? ? Ho Hol Ht Hr']; subst;
    [rename o' into o|];
    destruct (stat_prefix fuel m o buf) as (m6 & -> & F6 & M6 & D6); try done; cbv zeta.
  - rewrite (proj2 (Z.eqb_neq _ _)) by done.
    assert (Ht7 : 1 <= ftype d o <= 7).
    { unfold ftype in *. pose proof (Z.land_ones (be32 d o) 3 ltac:(lia)) as E.
      change (Z.ones 3) with 7 in E. pose proof (Z.mod_pos_bound (be32 d o) (2 ^ 3)). lia. }
    destruct (stat_type_fields m6 buf (stat_common o) (ftype d o) (fspec d o))
      as [F7 M7]; [done|done|done| |by apply be32_range|].
    { cbn [nth stat_common]. destruct (fexec d o); split; by vm_compute. }
    set (m7 := stat_type _ _ _ _) in *.
    assert (D7 : on_disk rd d m7)
      by (eapply on_disk_modifies; [|exact M7|done]; off_disk_tac).
    rewrite s32_id by lia.
    destruct (read_temp_int_ok rd lc d L m7 (o + 8)) as (m8 & -> & M8 & D8);
      try done; try lia.
    pose proof (modifies_store32 (buf + st_size) (be32 d (o + 8)) m8) as M9.
    exists (store32 m8 (buf + st_size) (be32 d (o + 8))). split; [done|]. split; [|split].
    + eapply (fields_modifies _ _ _ _ _ M8) in F7.
      2:{ constructor; [|constructor]. unfold apart in *. rewrite length_insert.
          destruct ((_ =? 4) || _); rewrite ?length_insert; cbn; lia. }
      apply (fields_store _ _ _ 7 st_size (be32 d (o + 8))) in F7; [|done|].
      2:{ rewrite length_insert. destruct ((_ =? 4) || _); rewrite ?length_insert; cbn; lia. }
      rewrite u32_id in F7 by (by apply be32_range).
      unfold stat_fields, stat_mode, stat_common in *.
      destruct ((ftype d o =? 4) || (ftype d o =? 5)); exact F7.
    + transitivity m6; [done|]. transitivity m7; [eapply modifies_sub; [exact M7|regions]|].
      transitivity m8; [eapply modifies_sub; [exact M8|regions]|].
      eapply modifies_sub; [exact M9|]. unfold st_size. regions.
    + eapply on_disk_modifies; [|exact M9|done]. unfold st_size. off_disk_tac.
  - rewrite Ht. cbn [Z.eqb]. change (stat_type m6 buf 0 (s32 (fspec d o))) with m6.
    assert (0 <= fspec d o < 2 ^ 31) by (inversion Hr'; lia).
    rewrite s32_id by lia.
    destruct (IH fuel m6 (fspec d o) o' buf) as (m' & -> & F & M & D); try done; try lia.
    exists m'. split; [done|]. split; [done|]. split; [by transitivity m6|done].
Qed.
End Files.

(** ** Directory listings *)

(** The length of the record for a name of [n] bytes. *)
Definition reclen (n : Z) : Z := 4 * ((n + 16) / 4).

(** The records of [l] lie one behind the other from [p] on. *)
Fixpoint dirents (m : mem) (p : Z) (l : list (Z * list Z)) : Prop :=
  match l with
  | [] => True
  | (o, s) :: l' =>
      let r := reclen (Z.of_nat (length s)) in
      load32 m p = o /\ load32 m (p + 4) = r /\ load32 m (p + 8) = r /\
      cstring (at_ m (p + 12)) s /\ dirents m (p + r) l'
  end.

Fixpoint dirents_size (l : list (Z * list Z)) : Z :=
  match l with
  | [] => 0
  | (_, s) :: l' => reclen (Z.of_nat (length s)) + dirents_size l'
  end.

(** The entries that fit into [size] bytes, and the rest. *)
Fixpoint fit (size : Z) (l : list (Z * list Z))
    : list (Z * list Z) * list (Z * list Z) :=
  match l with
  | [] => ([], [])
  | (o, s) :: l' =>
      let r := reclen (Z.of_nat (length s)) in
      if size <? r then ([], l)
      else let '(taken, rest) := fit (size - r) l' in ((o, s) :: taken, rest)
  end.

(** What [*current_inode] is left at: the first entry that did not fit; at the
    end of the directory 0xffffffff, but 0 when a record for the volume name
    would not fit into the rest of the buffer. *)
Definition resume (size : Z) (vol : list Z) (l : list (Z * list Z)) : Z :=
  match snd (fit size l) with
  | (o, _) :: _ => o
  | [] => if size - dirents_size (fst (fit size l)) <? reclen (Z.of_nat (length vol))
          then 0 else 0xffffffff
  end.

Lemma reclen_bounds n : 0 <= n -> n + 13 <= reclen n <= n + 16.
Proof. unfold reclen. intros. Z.div_mod_to_equations. lia. Qed.

Lemma dirent_length_reclen n : 0 <= n < 2 ^ 30 -> dirent_length n = reclen n.
Proof.
  intros Hn. unfold dirent_length. rewrite (s32_id (12 + n + 1)) by lia.
  rewrite Z.rem_mod_nonneg by lia. unfold reclen.
  destruct ((12 + n + 1) mod 4 =? 0) eqn:E; b2p; cbn [negb]; [|rewrite s32_id];
    Z.div_mod_to_equations; lia.
Qed.

Lemma dirents_modifies l : forall rs m m' p,
  modifies rs m m' ->
  Forall (fun r => apart (fst r) (snd r) p (dirents_size l)) rs ->
  dirents m p l -> dirents m' p l.
Proof.
  induction l as [|[o s] l IH]; intros rs m m' p Hm Hr Hl; [done|].
  cbn [dirents dirents_size] in *.
  pose proof (reclen_bounds (Z.of_nat (length s)) ltac:(lia)).
  destruct Hl as (H1 & H2 & H3 & H4 & H5).
  assert (Hpos : 0 <= dirents_size l).
  { clear. induction l as [|[? s] l IH]; cbn [dirents_size]; [lia|].
    pose proof (reclen_bounds (Z.of_nat (length s)) ltac:(lia)). lia. }
  assert (Hw : forall a, p <= a -> a + 4 <= p + reclen (Z.of_nat (length s)) ->
                 load32 m' a = load32 m a).
  { intros a Ha Ha'. apply load32_ext. intros i Hi. apply Hm.
    revert Hr. apply List.Forall_impl. intros r Hap. unfold apart in Hap. lia. }
  rewrite !Hw by lia. repeat (split; [done|]). split.
  - eapply cstring_modifies; [exact Hm| |done].
    revert Hr. apply List.Forall_impl. intros r Hap. unfold apart in *. lia.
  - eapply IH; [exact Hm| |done].
    revert Hr. apply List.Forall_impl. intros r Hap. unfold apart in *. lia.
Qed.

Section Getdents.
Context `{MemFill} (rd : ramdisk) (lc : locals) (d : Z -> Z).
Context (L : layout rd lc d).
Context (vol : list Z) (V : volume rd d vol).
(** The caller's buffer [base .. base+total-1]. *)
Context (base total : Z).
Context (Htot : 0 <= total < 2 ^ 31).
Context (Hdisk : apart base total (rd_start rd) (rd_length rd)).
Context (Hint : apart base total (temp_int lc) 4).
Context (Hbuf : apart base (total + 16) (temp_buffer lc) 17).

Definition dents_regions (p size : Z) : list (Z * Z) :=
  [(temp_int lc, 4); (temp_buffer lc, 16); (p, size)].

(** The start of an iteration: next header and name length. *)
Lemma dents_head fuel m o s :
  on_disk rd d m -> 0 <= o -> o + 16 + padded (Z.of_nat (length s)) <= rd_length rd ->
  name_at d (o + 16) s -> (length s < 16 * fuel)%nat ->
  exists m1 m2, read_temp_int rd lc m o = (be32 d o, m1) /\
    romfs_string_length rd lc fuel m1 (o + 16) = Some (Z.of_nat (length s), m2) /\
    modifies [(temp_int lc, 4); (temp_buffer lc, 16)] m m2 /\ on_disk rd d m2.
Proof.
  intros Hd Ho Hr Hn Hf. pose proof (padded_bounds (Z.of_nat (length s)) ltac:(lia)).
  destruct (read_temp_int_ok rd lc d L m o) as (m1 & E1 & Hm1 & Hd1); try done; try lia.
  destruct (string_length_ok rd lc d L fuel m1 (o + 16) s) as (m2 & E2 & Hm2 & Hd2);
    try done; try lia.
  exists m1, m2. split; [done|]. split; [done|]. split; [|done].
  transitivity m1; [eapply modifies_sub; [exact Hm1|regions]|].
  eapply modifies_sub; [exact Hm2|regions].
Qed.

(** One record: its header words, its name, and nothing else. *)
Lemma write_dirent fuel m o s p :
  on_disk rd d m -> header_at d (rd_length rd) o s -> (length s < 16 * fuel)%nat ->
  let r := reclen (Z.of_nat (length s)) in
  base <= p -> p + r <= base + total ->
  exists m6,
    romfs_read_string rd lc fuel
      (store32 (store32 (store32 m p o) (p + 4) (u32 r)) (p + 8) (u32 r))
      (o + 16) (p + 12) (Z.of_nat (length s)) = Some (padded (Z.of_nat (length s)), m6) /\
    let m7 := upd m6 (p + 12 + Z.of_nat (length s)) 0 in
    dirents m7 p [(o, s)] /\ on_disk rd d m7 /\
    modifies [(temp_buffer lc, 16); (p, r)] m m7.
Proof.
  intros Hd [Ho Hn] Hf r Hp Hpr. pose proof (lay_len _ _ _ L) as Hlen.
  pose proof (reclen_bounds (Z.of_nat (length s)) ltac:(lia)) as Hrl. fold r in Hrl.
  pose proof (padded_bounds (Z.of_nat (length s)) ltac:(lia)) as Hpb.
  rewrite (u32_id r) by lia.
  set (m3 := store32 (store32 (store32 m p o) (p + 4) r) (p + 8) r).
  assert (M3 : modifies [(p, 12)] m m3).
  { unfold m3. do 2 (etransitivity; [|apply modifies_store32_in; lia]).
    apply modifies_store32_in; lia. }
  assert (W3 : load32 m3 p = o /\ load32 m3 (p + 4) = r /\ load32 m3 (p + 8) = r).
  { unfold m3. rewrite !(load32_store32_ne _ (p + 8)) by lia.
    rewrite (load32_store32_ne _ (p + 4)), !load32_store32, !u32_id by lia. done. }
  assert (D3 : on_disk rd d m3)
    by (eapply on_disk_modifies; [|exact M3|done]; off_disk_tac).
  destruct (read_string_ok rd lc d L (p + 12) (Z.of_nat (length s)) ltac:(lia)) with
    (fuel := fuel) (m := m3) (o := o + 16) (s := s) as (m6 & E & Hc & M6 & D6);
    try done; try lia; try (unfold apart in *; lia).
  exists m6. split; [done|]. rewrite Nat2Z.id, take_ge in Hc by lia.
  pose proof (modifies_upd (p + 12 + Z.of_nat (length s)) 0 m6) as M7.
  set (m7 := upd m6 _ 0) in *.
  assert (M37 : modifies [(p + 12, Z.of_nat (length s) + 1); (temp_buffer lc, 16)] m3 m7).
  { transitivity m6; [done|]. eapply modifies_sub; [exact M7|regions]. }
  assert (Hw : forall a, p <= a -> a + 4 <= p + 12 -> load32 m7 a = load32 m3 a).
  { intros a Ha Ha'. apply load32_ext. intros i Hi. apply M37.
    repeat apply List.Forall_cons; [| |done]; cbn; unfold apart in *; lia. }
  split; [|split].
  - cbn [dirents]. fold r. rewrite !Hw by lia. destruct W3 as (-> & -> & ->).
    pose proof (cstring_end _ _ Hc) as Hz. unfold at_ in Hz.
    repeat (split; [done|]). split; [|done]. revert Hc. apply cstring_ext.
    intros i Hi. unfold at_, m7, upd. destruct (_ =? _) eqn:E0; b2p; [|done].
    rewrite <- Hz. f_equal. lia.
  - eapply on_disk_modifies; [|exact M7|done]. off_disk_tac.
  - transitivity m3; [eapply modifies_sub; [exact M3|regions]|].
    eapply modifies_sub; [exact M37|regions].
Qed.

(** Behind the last entry the loop reads the volume's header once more, for the
    name it would write, and ends either way. *)
Lemma dents_end fuel m p n : on_disk rd d m -> (length vol < 16 * S fuel)%nat -> 0 <= n <= total ->
  exists m', getdents_loop rd lc (S fuel) m 0 p n total
      = Some (if total <? reclen (Z.of_nat (length vol)) + n then 0 else 0xffffffff, n, m') /\
    modifies [(temp_int lc, 4); (temp_buffer lc, 16)] m m' /\ on_disk rd d m'.
Proof.
  pose proof (lay_len _ _ _ L) as Hlen. destruct V as (_ & Hvn & Hvr). intros Hd HV Hn.
  destruct (dents_head (S fuel) m 0 vol) as (m1 & m2 & E1 & E2 & M & D); try done; try lia.
  cbn [getdents_loop]. change (s32 0) with 0. rewrite E1.
  change (s32 (0 + 16)) with (0 + 16). bind_with E2.
  pose proof (padded_bounds (Z.of_nat (length vol)) ltac:(lia)).
  pose proof (reclen_bounds (Z.of_nat (length vol)) ltac:(lia)).
  rewrite dirent_length_reclen, u32_id by lia.
  exists m2. split; [by destruct (total <? _)|done].
Qed.

(** A record in front of the ones behind it. *)
Lemma dirents_front rs m m' p o s l :
  modifies rs m m' -> dirents m p [(o, s)] ->
  Forall (fun q => apart (fst q) (snd q) p (reclen (Z.of_nat (length s)))) rs ->
  dirents m' (p + reclen (Z.of_nat (length s))) l -> dirents m' p ((o, s) :: l).
Proof.
  intros M Hm Hr Hl. assert (Hw : dirents m' p [(o, s)]).
  { eapply dirents_modifies; [exact M| |exact Hm]. cbn [dirents_size]. by rewrite Z.add_0_r. }
  cbn [dirents] in *. tauto.
Qed.

Lemma dents_loop_ok K : forall l fuel m o p n,
  on_disk rd d m -> dir_from d (rd_length rd) o l ->
  (length l + K < fuel)%nat -> (length vol < 16 * K)%nat ->
  Forall (fun e => (length (snd e) < 16 * K)%nat) l ->
  p = base + n -> 0 <= n <= total ->
  let '(taken, rest) := fit (total - n) l in
  exists m', getdents_loop rd lc fuel m o p n total
      = Some (resume (total - n) vol l, n + dirents_size taken, m') /\
    dirents m' p taken /\ modifies (dents_regions p (total - n)) m m' /\ on_disk rd d m'.
Proof.
  pose proof (lay_len _ _ _ L) as Hlen.
  destruct V as (_ & Hvn & Hvr).
  induction l as [|[x s] l IH]; intros [|fuel] m o p n Hd Hl Hf HV HK -> Hn;
    cbn [length] in *; try lia; [inversion Hl|].
  destruct (dir_from_header rd d o _ Hl) as (s' & l' & [= -> -> ->] & Hh).
  pose proof Hh as [Ho Hns].
  inversion HK as [|? ? HKs HKl]; subst. cbn [snd] in HKs.
  pose proof (padded_bounds (Z.of_nat (length s')) ltac:(lia)).
  pose proof (reclen_bounds (Z.of_nat (length s')) ltac:(lia)).
  destruct (dents_head (S fuel) m o s') as (m1 & m2 & E1 & E2 & M2 & D2);
    try done; try lia.
  cbn [getdents_loop fit]. rewrite (s32_id o), E1, (s32_id (o + 16)) by lia.
  bind_with E2. rewrite dirent_length_reclen, (u32_id (_ + n)) by lia.
  set (r := reclen (Z.of_nat (length s'))) in *.
  replace (total <? r + n) with (total - n <? r) by (apply eq_true_iff_eq; lia).
  unfold resume. cbn [fit]. fold r.
  destruct (total - n <? r) eqn:E; b2p.
  { exists m2. cbn [snd fst dirents_size dirents]. rewrite Z.add_0_r.
    split; [done|]. split; [done|]. split; [|done].
    eapply modifies_sub; [exact M2|regions]. }
  rewrite (proj2 (Z.eqb_neq o 0)) by lia.
  destruct (write_dirent (S fuel) m2 o s' (base + n)) as (m6 & E6 & W7 & D7 & M7);
    try done; try (fold r; lia).
  bind_with E6. fold r in M7, W7. set (m7 := upd m6 _ 0) in *.
  rewrite next_mask, (s32_id (n + r)) by (lia || apply be32_range, L). fold (fnext d o).
  assert (M07 : modifies (dents_regions (base + n) (total - n)) m m7).
  { transitivity m2; [eapply modifies_sub; [exact M2|regions]|].
    eapply modifies_sub; [exact M7|regions]. }
  destruct (decide (fnext d o = 0)) as [En|En].
  - assert (l' = []) as -> by (inversion Hl; subst; done).
    rewrite En. cbn [fit snd fst dirents_size]. change (u32 (s32 0)) with 0.
    destruct fuel as [|fuel]; [lia|].
    destruct (dents_end fuel m7 (base + n + r) (n + r)) as (m9 & E9 & M9 & D9); try done; try lia.
    exists m9. fold r. rewrite E9. split; [|split; [|split]].
    + replace (total - n - (r + 0) <? _)
        with (total <? reclen (Z.of_nat (length vol)) + (n + r))
        by (apply eq_true_iff_eq; lia).
      do 3 f_equal. lia.
    + eapply dirents_modifies; [exact M9| |exact W7]. cbn [dirents_size]. fold r.
      repeat apply List.Forall_cons; [| |done]; cbn [fst snd]; unfold apart in *; lia.
    + transitivity m7; [done|]. eapply modifies_sub; [exact M9|regions].
    + done.
  - inversion Hl; subst; [done|].
    destruct (dir_from_header rd d (fnext d o) l') as (s2 & ? & _ & [? _]); [done|].
    pose proof (padded_bounds (Z.of_nat (length s2)) ltac:(lia)).
    rewrite s32_id, u32_id by lia.
    specialize (IH fuel m7 (fnext d o) (base + n + r) (n + r) D7 ltac:(done)
      ltac:(lia) HV HKl ltac:(lia) ltac:(lia)).
    replace (total - (n + r)) with (total - n - r) in IH by lia.
    unfold resume in IH. destruct (fit (total - n - r) l') as [taken rest] eqn:Efit.
    cbn [fst snd dirents_size] in *. destruct IH as (m' & -> & Wl & Ml & Dl).
    exists m'. fold r. split; [|split; [|split]].
    + replace (total - n - (r + dirents_size taken)) with (total - n - r - dirents_size taken)
        by lia. do 3 f_equal. lia.
    + eapply dirents_front; [exact Ml|done| |done]. fold r.
      repeat apply List.Forall_cons; [| | |done]; cbn [fst snd]; unfold apart in *; lia.
    + transitivity m7; [done|]. eapply modifies_sub; [exact Ml|regions].
    + done.
Qed.

(** A call on a freshly opened directory. *)
Lemma getdents_ok K fuel m dir l :
  on_disk rd d m -> 0 <= dir -> dir + 16 <= rd_length rd -> ftype d dir = 1 ->
  dir_from d (rd_length rd) (fspec d dir) l ->
  (length l + K < fuel)%nat -> (length vol < 16 * K)%nat ->
  Forall (fun e => (length (snd e) < 16 * K)%nat) l ->
  let taken := fst (fit total l) in
  exists m', romfs_getdents rd lc fuel m dir 0 base total
      = Some (dirents_size taken, resume total vol l, m') /\
    dirents m' base taken /\ modifies (dents_regions base total) m m' /\ on_disk rd d m'.
Proof.
  intros Hd Hdir Hdl Ht Hl Hf HV HK taken. pose proof (lay_len _ _ _ L) as Hlen.
  unfold romfs_getdents. cbn [Z.eqb]. rewrite (s32_id dir), (s32_id (dir + 4)) by lia.
  destruct (read_temp_int_ok rd lc d L m dir) as (m1 & -> & M1 & D1); try done; try lia.
  rewrite land7_s32. fold (ftype d dir). rewrite Ht. cbn [Z.eqb Pos.eqb negb].
  destruct (read_temp_int_ok rd lc d L m1 (dir + 4)) as (m2 & -> & M2 & D2);
    try done; try lia.
  fold (fspec d dir).
  pose proof (dents_loop_ok K l fuel m2 (fspec d dir) base 0 D2 Hl Hf HV HK
    ltac:(lia) ltac:(lia)) as HL.
  rewrite Z.sub_0_r in HL. unfold taken. destruct (fit total l) as [tk rest].
  destruct HL as (m' & E & W & M & D). bind_with E. rewrite Z.add_0_l. cbn [fst].
  exists m'. split; [done|]. split; [done|]. split; [|done].
  transitivity m1; [eapply modifies_sub; [exact M1|regions]|].
  transitivity m2; [eapply modifies_sub; [exact M2|regions]|done].
Qed.

(** A call that goes on from the entry [o] where the last one stopped. *)
Lemma getdents_resume K fuel m dir o l :
  on_disk rd d m -> dir_from d (rd_length rd) o l ->
  (length l + K < fuel)%nat -> (length vol < 16 * K)%nat ->
  Forall (fun e => (length (snd e) < 16 * K)%nat) l ->
  let taken := fst (fit total l) in
  exists m', romfs_getdents rd lc fuel m dir o base total
      = Some (dirents_size taken, resume total vol l, m') /\
    dirents m' base taken /\ modifies (dents_regions base total) m m' /\ on_disk rd d m'.
Proof.
  intros Hd Hl Hf HV HK taken. pose proof (lay_len _ _ _ L) as Hlen.
  destruct (dir_from_header rd d o _ Hl) as (s & ? & _ & [? _]).
  pose proof (padded_bounds (Z.of_nat (length s)) ltac:(lia)).
  unfold romfs_getdents. rewrite !(proj2 (Z.eqb_neq o _)) by lia.
  pose proof (dents_loop_ok K l fuel m o base 0 Hd Hl Hf HV HK
    ltac:(lia) ltac:(lia)) as HL.
  rewrite Z.sub_0_r in HL. unfold taken. destruct (fit total l) as [tk rest].
  destruct HL as (m' & E & W & M & D). bind_with E. rewrite Z.add_0_l. cbn [fst].
  by exists m'.
Qed.
End Getdents.

(** ** Properties *)

Section Properties.
Context `{MemFill} (rd : ramdisk) (lc : locals) (d : Z -> Z).
Context (L : layout rd lc d).

(** A name in the image is measured and read back: [romfs_string_length]
    returns its length, [romfs_string_length_chunks] the padded length it
    takes in the image, and [romfs_read_string] returns the padded length,
    leaves the first [size] bytes of the name, terminated, in the buffer, and
    writes nothing but those [size+1] bytes and its own chunk buffer. *)
Theorem romfs_names fuel m o s buf size :
  on_disk rd d m -> name_at d o s -> 0 <= o ->
  o + padded (Z.of_nat (length s)) <= rd_length rd -> (length s < 16 * fuel)%nat ->
  0 <= size < 2 ^ 31 -> apart buf (size + 1) (rd_start rd) (rd_length rd) ->
  apart buf (size + 17) (temp_buffer lc) 17 ->
  (exists m', romfs_string_length rd lc fuel m o = Some (Z.of_nat (length s), m')) /\
  (exists m', romfs_string_length_chunks rd lc fuel m o
              = Some (padded (Z.of_nat (length s)), m')) /\
  (exists m', romfs_read_string rd lc fuel m o buf size
              = Some (padded (Z.of_nat (length s)), m') /\
     cstring (at_ m' buf) (take (Z.to_nat size) s) /\
     modifies [(buf, size + 1); (temp_buffer lc, 16)] m m').
Proof.
  intros Hd Hn Ho Hr Hf Hs H1 H2.
  destruct (string_length_ok rd lc d L fuel m o s) as (m1 & E1 & _); try done.
  destruct (string_length_chunks_ok rd lc d L fuel m o s) as (m2 & E2 & _); try done.
  destruct (read_string_ok rd lc d L buf size Hs H1 H2 fuel m o s) as (m3 & E3 & ? & ? & _);
    try done.
  eauto 10.
Qed.

(** C21. Looking a name up in a directory returns the inode of the first entry
    of that name with all hard links followed, -1 when no entry has it, and
    -ENOTDIR when the inode is not a directory; the lookup terminates and
    writes only the routine's own objects. *)
Theorem romfs_lookup K fuel m dir name nm l r :
  Forall (fun r => apart (fst r) (snd r) name (Z.of_nat (length nm) + 1))
    (lookup_regions lc) ->
  on_disk rd d m -> cstring (at_ m name) nm ->
  0 <= dir -> dir + 16 <= rd_length rd ->
  (ftype d dir = 1 -> dir_from d (rd_length rd) (fspec d dir) l /\
                      lookup_result rd d K nm l r) ->
  (length l + K <= fuel)%nat -> Forall (fun e => (length (snd e) < 16 * K)%nat) l ->
  exists m', romfs_get_inode rd lc fuel m dir name
             = Some (if ftype d dir =? 1 then r else - ENOTDIR, m') /\
    modifies (lookup_regions lc) m m'.
Proof.
  intros Hreg Hd Hnm Hdir Hdl Hl Hf HK. destruct (ftype d dir =? 1) eqn:E; b2p.
  - destruct (Hl E) as [Hl1 Hl2].
    destruct (get_inode_ok rd lc d L K fuel m dir name nm l r) as (m' & E' & Hm & _);
      try done. by exists m'.
  - destruct (get_inode_not_dir rd lc d L fuel m dir name) as (m' & E' & Hm & _);
      try done. by exists m'.
Qed.

(** Reading [count] bytes at offset [off] of a file returns the number of
    bytes up to the end of the file, at most [count]; exactly those bytes of
    the file's data arrive in the buffer, and nothing behind them is
    written. *)
Theorem romfs_read_data fuel m o s off buf count :
  on_disk rd d m -> header_at d (rd_length rd) o s ->
  fdata o s + fsize d o <= rd_length rd -> (length s < 16 * fuel)%nat ->
  0 <= off <= fsize d o -> 0 <= count < 2 ^ 32 ->
  let n := Z.min count (fsize d o - off) in
  apart buf n (rd_start rd) (rd_length rd) ->
  exists m', romfs_read_file rd lc fuel m o off buf count = Some (n, m') /\
    (forall i, 0 <= i < n -> m' (buf + i) = d (fdata o s + off + i)) /\
    modifies [(temp_int lc, 4); (temp_buffer lc, 16); (buf, n)] m m'.
Proof.
  intros Hd Hh Hr Hf Ho Hc n Hb.
  destruct (read_file_ok rd lc d L fuel m o s off buf count) as (m' & E & ? & ? & _);
    try done. by exists m'.
Qed.

(** [romfs_stat] follows the hard links and returns 0 with all thirteen
    words of the [struct stat] set from the header they end at: the inode,
    the mode with type and execute bits, the device of a device node, the
    size, and zero in every other field. *)
Theorem romfs_stat_fields n fuel m o o' buf :
  on_disk rd d m -> resolves d (rd_length rd) o o' n -> (n < fuel)%nat ->
  0 <= buf -> buf + 52 < 2 ^ 32 ->
  apart buf 52 (rd_start rd) (rd_length rd) -> apart buf 52 (temp_int lc) 4 ->
  exists m', romfs_stat rd lc fuel m o buf = Some (0, m') /\
    (forall k, (k < 13)%nat ->
       load32 m' (buf + 4 * Z.of_nat k) = nth k (stat_fields d o') 0) /\
    modifies [(temp_int lc, 4); (buf, 52)] m m'.
Proof.
  intros Hd Hr Hf H1 H2 H3 H4.
  destruct (stat_ok rd lc d L n fuel m o o' buf) as (m' & E & Hk & Hm & _); try done.
  by exists m'.
Qed.

(** C34. [romfs_getdents], on a directory not yet listed or at the entry where
    the last call stopped, fills the buffer with the records of as many
    entries as fit, one behind the other and in directory order, returns
    their total size, and remembers where to go on; the buffer is never
    overrun. *)
Theorem romfs_getdents_listing vol K fuel m dir start l base total :
  volume rd d vol ->
  0 <= total < 2 ^ 31 -> apart base total (rd_start rd) (rd_length rd) ->
  apart base total (temp_int lc) 4 -> apart base (total + 16) (temp_buffer lc) 17 ->
  on_disk rd d m -> dir_from d (rd_length rd) start l ->
  (length l + K < fuel)%nat -> (length vol < 16 * K)%nat ->
  Forall (fun e => (length (snd e) < 16 * K)%nat) l ->
  0 <= dir -> dir + 16 <= rd_length rd -> ftype d dir = 1 ->
  let taken := fst (fit total l) in
  forall current, current = start \/ current = 0 /\ start = fspec d dir ->
  exists m', romfs_getdents rd lc fuel m dir current base total
      = Some (dirents_size taken, resume total vol l, m') /\
    dirents m' base taken /\
    modifies [(temp_int lc, 4); (temp_buffer lc, 16); (base, total)] m m'.
Proof.
  intros V Ht H1 H2 H3 Hd Hl Hf HV HK Hdir Hdl Hty taken current [->|[-> ->]].
  - destruct (getdents_resume rd lc d L vol V base total Ht H1 H2 H3 K fuel m dir start l)
      as (m' & E & ? & ? & _); try done. by exists m'.
  - destruct (getdents_ok rd lc d L vol V base total Ht H1 H2 H3 K fuel m dir l)
      as (m' & E & ? & ? & _); try done. by exists m'.
Qed.

(** Mounting an image with the right magic and a volume name returns, and
    records in [file_headers_start], the offset of the first file header,
    behind the padded volume name; an image with any other magic gives -1 and
    leaves the recorded offset alone. *)
Theorem romfs_mount_root fuel m fhs vol :
  on_disk rd d m -> 8 <= rd_length rd ->
  (volume rd d vol /\ (length vol < 16 * fuel)%nat \/
   exists i, 0 <= i < 8 /\ d i <> nth (Z.to_nat i) romfs_magic 0) ->
  exists m', romfs_mount rd lc fuel m fhs =
    (if forallb (fun i => d (Z.of_nat i) =? nth i romfs_magic 0) (seq 0 8)
     then let root := 16 + padded (Z.of_nat (length vol)) in Some (root, root, m')
     else Some (-1, fhs, m')).
Proof.
  intros Hd H8 [[V Hf]|(i & Hi & Hne)].
  - destruct (mount_ok rd lc d L fuel m fhs vol) as (m' & E & _); try done.
    exists m'. rewrite (proj2 (forallb_forall _ _)); [done|].
    intros i Hi%in_seq. apply Z.eqb_eq. rewrite (proj1 V) by lia. by rewrite Nat2Z.id.
  - destruct (mount_bad_magic rd lc d L fuel m fhs i) as (m' & E & _); try done.
    exists m'. destruct (forallb _ _) eqn:Ef; [|done].
    rewrite forallb_forall in Ef. specialize (Ef (Z.to_nat i)). b2p.
    rewrite Z2Nat.id in Ef by lia. exfalso. apply Hne, Z.eqb_eq, Ef, in_seq. lia.
Qed.

(** ** At the edges *)

(** When the last records fill the buffer so that a record for the volume name
    would not fit, the end of the directory is remembered as 0, which means
    "not started": the next call lists the directory again from the start. *)
Lemma getdents_starts_over vol K fuel m dir l base total :
  volume rd d vol ->
  0 <= total < 2 ^ 31 -> apart base total (rd_start rd) (rd_length rd) ->
  apart base total (temp_int lc) 4 -> apart base (total + 16) (temp_buffer lc) 17 ->
  on_disk rd d m -> 0 <= dir -> dir + 16 <= rd_length rd -> ftype d dir = 1 ->
  dir_from d (rd_length rd) (fspec d dir) l ->
  (length l + K < fuel)%nat -> (length vol < 16 * K)%nat ->
  Forall (fun e => (length (snd e) < 16 * K)%nat) l ->
  fit total l = (l, []) -> total - dirents_size l < reclen (Z.of_nat (length vol)) ->
  exists m1 m2, romfs_getdents rd lc fuel m dir 0 base total = Some (dirents_size l, 0, m1) /\
    romfs_getdents rd lc fuel m1 dir 0 base total = Some (dirents_size l, 0, m2).
Proof.
  intros V Ht H1 H2 H3 Hd Hdir Hdl Hty Hl Hf HV HK Hfit Hend.
  pose proof (getdents_ok rd lc d L vol V base total Ht H1 H2 H3 K fuel) as G.
  unfold resume in G.
  destruct (G m dir l) as (m1 & E1 & _ & _ & D1); try done.
  destruct (G m1 dir l) as (m2 & E2 & _); try done. exists m1, m2.
  rewrite E1, E2, Hfit. cbn [fst snd].
  by rewrite (proj2 (Z.ltb_lt (total - dirents_size l) _)).
Qed.

(** A name of 256 bytes or more is cut to 256 bytes and terminated one byte
    behind the 256-byte array [filename] of [romfs_get_inode]. *)
Lemma read_string_past_filename fuel m o s :
  on_disk rd d m -> name_at d o s -> 0 <= o ->
  o + padded (Z.of_nat (length s)) <= rd_length rd -> (length s < 16 * fuel)%nat ->
  (256 <= length s)%nat ->
  exists m', romfs_read_string rd lc fuel m o (filename lc) MAX_FILENAME_SIZE
             = Some (padded (Z.of_nat (length s)), m') /\
    m' (filename lc + MAX_FILENAME_SIZE) = 0.
Proof.
  intros Hd Hn Ho Hr Hf Hl.
  destruct (read_string_ok rd lc d L (filename lc) 256 ltac:(lia) (lay_filename _ _ _ L)
    (lay_filename_buf _ _ _ L) fuel m o s) as (m' & E & Hc & _); try done.
  exists m'. split; [done|]. apply cstring_end in Hc. unfold at_ in Hc.
  rewrite length_take in Hc.
  by replace (Z.of_nat (Z.to_nat 256 `min` length s)) with 256 in Hc by lia.
Qed.
End Properties.

(** ** A small image *)

(** A volume "v" whose root directory holds ".", "..", a hard link to it, and a
    file "hi" with the five bytes of "hello". *)
Definition be_bytes (w : Z) : list Z := [w / 2 ^ 24; w / 2 ^ 16 mod 256; w / 2 ^ 8 mod 256; w mod 256].

Definition demo_header (next spec size : Z) (name : list Z) : list Z :=
  be_bytes next ++ be_bytes spec ++ be_bytes size ++ be_bytes 0 ++
  name ++ repeat 0 (16 - length name).

Definition demo_image : list Z :=
  romfs_magic ++ be_bytes 160 ++ be_bytes 0 ++ 118 :: repeat 0 15 ++
  demo_header (64 + 9) 32 0 [46] ++ demo_header 96 32 0 [46; 46] ++
  demo_header 2 0 5 [104; 105] ++ [104; 101; 108; 108; 111] ++ repeat 0 27.

Definition demo_byte (i : Z) : Z := nth (Z.to_nat i) demo_image 0.
Definition demo_disk : ramdisk := Ramdisk 32768 160.
Definition demo_locals : locals := Locals 4096 4112 8192 12288.
Definition demo_memory : mem := mem_with (mem_with (fun _ => 1) 32768 demo_image) 20480 [104; 105; 0].

Lemma demo_layout : layout demo_disk demo_locals demo_byte.
Proof.
  split; cbn [rd_start rd_length demo_disk temp_int temp_buffer filename header demo_locals];
    try (unfold apart; lia).
  intros i. unfold demo_byte.
  assert (Hb : forallb (fun b => (0 <=? b) && (b <? 256)) demo_image = true) by reflexivity.
  rewrite forallb_forall in Hb.
  destruct (nth_in_or_default (Z.to_nat i) demo_image 0) as [Hin|E]; [|rewrite E; lia].
  specialize (Hb _ Hin). lia.
Qed.

(** An executable check over the offsets [0 .. n-1]. *)
Lemma check_below (P : Z -> bool) n :
  forallb (fun k => P (Z.of_nat k)) (seq 0 n) = true ->
  forall i, 0 <= i < Z.of_nat n -> P i = true.
Proof.
  intros Hp i Hi. rewrite forallb_forall in Hp. rewrite <- (Z2Nat.id i) by lia.
  apply Hp, in_seq. lia.
Qed.

Lemma demo_on_disk : on_disk demo_disk demo_byte demo_memory.
Proof.
  intros i Hi. apply Z.eqb_eq.
  by apply (check_below (fun i => demo_memory (32768 + i) =? demo_byte i) 160).
Qed.

Lemma name_at_check d o s :
  forallb (fun b => negb (b =? 0)) s = true ->
  forallb (fun k => d (o + Z.of_nat k) =? nth (Z.to_nat (Z.of_nat k)) s 0)
    (seq 0 (Z.to_nat (padded (Z.of_nat (length s))))) = true ->
  name_at d o s.
Proof.
  intros H1 H2. split.
  - apply List.Forall_forall. intros x Hx. rewrite forallb_forall in H1.
    specialize (H1 x Hx). by b2p.
  - intros i Hi. apply Z.eqb_eq.
    apply (check_below (fun i => d (o + i) =? nth (Z.to_nat i) s 0) _ H2).
    pose proof (padded_bounds (Z.of_nat (length s))). lia.
Qed.

Lemma demo_dir : dir_from demo_byte 160 32 [(32, [46]); (64, [46; 46]); (96, [104; 105])].
Proof.
  apply dir_next; [split; [by vm_compute|by apply name_at_check]|by vm_compute|].
  apply dir_next; [split; [by vm_compute|by apply name_at_check]|by vm_compute|].
  apply dir_last; [split; [by vm_compute|by apply name_at_check]|by vm_compute].
Qed.

Lemma demo_volume : volume demo_disk demo_byte [118].
Proof.
  split; [|split; [by apply name_at_check|by vm_compute]].
  intros i Hi. apply Z.eqb_eq.
  by apply (check_below (fun i => demo_byte i =? nth (Z.to_nat i) romfs_magic 0) 8).
Qed.

Lemma romfs_names_witness :
  (exists m', romfs_string_length demo_disk demo_locals 2 demo_memory 112 = Some (2, m')) /\
  (exists m', romfs_string_length_chunks demo_disk demo_locals 2 demo_memory 112
              = Some (16, m')) /\
  (exists m', romfs_read_string demo_disk demo_locals 2 demo_memory 112 24576 256
              = Some (16, m') /\ cstring (at_ m' 24576) [104; 105] /\
     modifies [(24576, 257); (4112, 16)] demo_memory m').
Proof.
  apply (romfs_names demo_disk demo_locals demo_byte demo_layout 2 demo_memory 112
           [104; 105] 24576 256);
    [ exact demo_on_disk | by apply name_at_check | lia | by vm_compute | cbn; lia
    | lia | left; cbn; lia | right; cbn; lia ].
Defined.

Lemma romfs_lookup_witness :
  exists m', romfs_get_inode demo_disk demo_locals 5 demo_memory 32 20480 = Some (96, m') /\
    modifies (lookup_regions demo_locals) demo_memory m'.
Proof.
  apply (romfs_lookup demo_disk demo_locals demo_byte demo_layout 2 5 demo_memory 32 20480
           [104; 105] [(32, [46]); (64, [46; 46]); (96, [104; 105])] 96);
    [ repeat apply List.Forall_cons; [left; cbn; lia..|constructor]
    | exact demo_on_disk | by apply cstringb_cstring | lia | cbn; lia
    | intros _; split; [exact demo_dir|exists 0%nat; split; [|lia]]
    | cbn; lia | repeat constructor; cbn; lia ].
  apply resolves_here; [lia|cbn; lia|by vm_compute].
Defined.

Lemma romfs_read_data_witness :
  exists m', romfs_read_file demo_disk demo_locals 2 demo_memory 96 1 24576 100
             = Some (4, m') /\
    (forall i, 0 <= i < 4 -> m' (24576 + i) = demo_byte (128 + 1 + i)) /\
    modifies [(4096, 4); (4112, 16); (24576, 4)] demo_memory m'.
Proof.
  apply (romfs_read_data demo_disk demo_locals demo_byte demo_layout 2 demo_memory 96
           [104; 105] 1 24576 100);
    [ exact demo_on_disk | split; [by vm_compute|by apply name_at_check]
    | by vm_compute | cbn; lia | by vm_compute | lia | left; by vm_compute ].
Defined.

Lemma romfs_stat_fields_witness :
  exists m', romfs_stat demo_disk demo_locals 2 demo_memory 64 24576 = Some (0, m') /\
    (forall k, (k < 13)%nat -> load32 m' (24576 + 4 * Z.of_nat k)
                               = nth k [0; 32; 0x41ff; 0; 0; 0; 0; 0; 0; 0; 0; 0; 0] 0) /\
    modifies [(4096, 4); (24576, 52)] demo_memory m'.
Proof.
  apply (romfs_stat_fields demo_disk demo_locals demo_byte demo_layout 1 2 demo_memory
           64 32 24576);
    [ exact demo_on_disk | | lia | lia | lia | left; cbn; lia | right; cbn; lia ].
  apply resolves_link; [lia|cbn; lia|by vm_compute|].
  apply resolves_here; [by vm_compute|by vm_compute|by vm_compute].
Defined.

Lemma romfs_getdents_listing_witness :
  exists m', romfs_getdents demo_disk demo_locals 6 demo_memory 32 0 24576 40
             = Some (32, 96, m') /\
    dirents m' 24576 [(32, [46]); (64, [46; 46])] /\
    modifies [(4096, 4); (4112, 16); (24576, 40)] demo_memory m'.
Proof.
  apply (romfs_getdents_listing demo_disk demo_locals demo_byte demo_layout [118] 2 6
           demo_memory 32 32 [(32, [46]); (64, [46; 46]); (96, [104; 105])] 24576 40);
    [ exact demo_volume | lia | left; cbn; lia | right; cbn; lia | right; cbn; lia
    | exact demo_on_disk | exact demo_dir | cbn; lia | cbn; lia
    | repeat constructor; cbn; lia | lia | cbn; lia | by vm_compute
    | right; split; by vm_compute ].
Defined.

Lemma romfs_mount_root_witness :
  exists m', romfs_mount demo_disk demo_locals 2 demo_memory 0 = Some (32, 32, m').
Proof.
  apply (romfs_mount_root demo_disk demo_locals demo_byte demo_layout 2 demo_memory 0 [118]);
    [ exact demo_on_disk | cbn; lia | left; split; [exact demo_volume|cbn; lia] ].
Defined.
