(* ===== verification/Process.v ===== *)
(** * Processes: kernel/processes/process.c

    A process control block is a record; [procs] maps the address of every
    allocated block to its contents, so a dereference of NULL or of a freed
    block is a lookup that fails ([None]).  A freed block also leaves the
    allocator's bitmap and is poisoned in memory.  The doubly linked list from
    [proc_first] is specified by [plist]. *)

From stdpp Require Import base list numbers gmap.
From Stdlib Require Import ZArith Lia.
From S2P Require Import Prelude PageAlloc.

(** ** struct process_control_block_type

    [user_r] is r0-r14 of the user state, [kernel_state] r0-r14 and the SPSR. *)
Record pcb := Pcb {
  user_r : list Z;
  user_pc : Z;
  user_spsr : Z;
  kernel_state : list Z;
  next : Z;
  prev : Z;
  wait_queue_next : Z;
  valid : Z;
  running : Z;
  status : Z;
  start_time : Z;
  last_scheduled : Z;
  total_time : Z;
  pid : Z;
  exit_value : Z;
  parent : Z;
  current_dir : Z;
  stack : Z;
  stacksize : Z;
  text : Z;
  textsize : Z;
  name : list Z }.

Definition set_user_r (v : list Z) (p : pcb) : pcb :=
  Pcb v (user_pc p) (user_spsr p) (kernel_state p) (next p) (prev p) (wait_queue_next
    p) (valid p) (running p) (status p) (start_time p) (last_scheduled p) (total_time p)
    (pid p) (exit_value p) (parent p) (current_dir p) (stack p) (stacksize p) (text p)
    (textsize p) (name p).

Definition set_user_pc (v : Z) (p : pcb) : pcb :=
  Pcb (user_r p) v (user_spsr p) (kernel_state p) (next p) (prev p) (wait_queue_next
    p) (valid p) (running p) (status p) (start_time p) (last_scheduled p) (total_time p)
    (pid p) (exit_value p) (parent p) (current_dir p) (stack p) (stacksize p) (text p)
    (textsize p) (name p).

Definition set_user_spsr (v : Z) (p : pcb) : pcb :=
  Pcb (user_r p) (user_pc p) v (kernel_state p) (next p) (prev p) (wait_queue_next p)
    (valid p) (running p) (status p) (start_time p) (last_scheduled p) (total_time p)
    (pid p) (exit_value p) (parent p) (current_dir p) (stack p) (stacksize p) (text p)
    (textsize p) (name p).

Definition set_kernel_state (v : list Z) (p : pcb) : pcb :=
  Pcb (user_r p) (user_pc p) (user_spsr p) v (next p) (prev p) (wait_queue_next p)
    (valid p) (running p) (status p) (start_time p) (last_scheduled p) (total_time p)
    (pid p) (exit_value p) (parent p) (current_dir p) (stack p) (stacksize p) (text p)
    (textsize p) (name p).

Definition set_next (v : Z) (p : pcb) : pcb :=
  Pcb (user_r p) (user_pc p) (user_spsr p) (kernel_state p) v (prev p)
    (wait_queue_next p) (valid p) (running p) (status p) (start_time p) (last_scheduled
    p) (total_time p) (pid p) (exit_value p) (parent p) (current_dir p) (stack p)
    (stacksize p) (text p) (textsize p) (name p).

Definition set_prev (v : Z) (p : pcb) : pcb :=
  Pcb (user_r p) (user_pc p) (user_spsr p) (kernel_state p) (next p) v
    (wait_queue_next p) (valid p) (running p) (status p) (start_time p) (last_scheduled
    p) (total_time p) (pid p) (exit_value p) (parent p) (current_dir p) (stack p)
    (stacksize p) (text p) (textsize p) (name p).

Definition set_wait_queue_next (v : Z) (p : pcb) : pcb :=
  Pcb (user_r p) (user_pc p) (user_spsr p) (kernel_state p) (next p) (prev p) v (valid
    p) (running p) (status p) (start_time p) (last_scheduled p) (total_time p) (pid p)
    (exit_value p) (parent p) (current_dir p) (stack p) (stacksize p) (text p) (textsize
    p) (name p).

Definition set_valid (v : Z) (p : pcb) : pcb :=
  Pcb (user_r p) (user_pc p) (user_spsr p) (kernel_state p) (next p) (prev p)
    (wait_queue_next p) v (running p) (status p) (start_time p) (last_scheduled p)
    (total_time p) (pid p) (exit_value p) (parent p) (current_dir p) (stack p)
    (stacksize p) (text p) (textsize p) (name p).

Definition set_running (v : Z) (p : pcb) : pcb :=
  Pcb (user_r p) (user_pc p) (user_spsr p) (kernel_state p) (next p) (prev p)
    (wait_queue_next p) (valid p) v (status p) (start_time p) (last_scheduled p)
    (total_time p) (pid p) (exit_value p) (parent p) (current_dir p) (stack p)
    (stacksize p) (text p) (textsize p) (name p).

Definition set_status (v : Z) (p : pcb) : pcb :=
  Pcb (user_r p) (user_pc p) (user_spsr p) (kernel_state p) (next p) (prev p)
    (wait_queue_next p) (valid p) (running p) v (start_time p) (last_scheduled p)
    (total_time p) (pid p) (exit_value p) (parent p) (current_dir p) (stack p)
    (stacksize p) (text p) (textsize p) (name p).

Definition set_start_time (v : Z) (p : pcb) : pcb :=
  Pcb (user_r p) (user_pc p) (user_spsr p) (kernel_state p) (next p) (prev p)
    (wait_queue_next p) (valid p) (running p) (status p) v (last_scheduled p)
    (total_time p) (pid p) (exit_value p) (parent p) (current_dir p) (stack p)
    (stacksize p) (text p) (textsize p) (name p).

Definition set_last_scheduled (v : Z) (p : pcb) : pcb :=
  Pcb (user_r p) (user_pc p) (user_spsr p) (kernel_state p) (next p) (prev p)
    (wait_queue_next p) (valid p) (running p) (status p) (start_time p) v (total_time p)
    (pid p) (exit_value p) (parent p) (current_dir p) (stack p) (stacksize p) (text p)
    (textsize p) (name p).

Definition set_total_time (v : Z) (p : pcb) : pcb :=
  Pcb (user_r p) (user_pc p) (user_spsr p) (kernel_state p) (next p) (prev p)
    (wait_queue_next p) (valid p) (running p) (status p) (start_time p) (last_scheduled
    p) v (pid p) (exit_value p) (parent p) (current_dir p) (stack p) (stacksize p) (text
    p) (textsize p) (name p).

Definition set_pid (v : Z) (p : pcb) : pcb :=
  Pcb (user_r p) (user_pc p) (user_spsr p) (kernel_state p) (next p) (prev p)
    (wait_queue_next p) (valid p) (running p) (status p) (start_time p) (last_scheduled
    p) (total_time p) v (exit_value p) (parent p) (current_dir p) (stack p) (stacksize
    p) (text p) (textsize p) (name p).

Definition set_exit_value (v : Z) (p : pcb) : pcb :=
  Pcb (user_r p) (user_pc p) (user_spsr p) (kernel_state p) (next p) (prev p)
    (wait_queue_next p) (valid p) (running p) (status p) (start_time p) (last_scheduled
    p) (total_time p) (pid p) v (parent p) (current_dir p) (stack p) (stacksize p) (text
    p) (textsize p) (name p).

Definition set_parent (v : Z) (p : pcb) : pcb :=
  Pcb (user_r p) (user_pc p) (user_spsr p) (kernel_state p) (next p) (prev p)
    (wait_queue_next p) (valid p) (running p) (status p) (start_time p) (last_scheduled
    p) (total_time p) (pid p) (exit_value p) v (current_dir p) (stack p) (stacksize p)
    (text p) (textsize p) (name p).

Definition set_current_dir (v : Z) (p : pcb) : pcb :=
  Pcb (user_r p) (user_pc p) (user_spsr p) (kernel_state p) (next p) (prev p)
    (wait_queue_next p) (valid p) (running p) (status p) (start_time p) (last_scheduled
    p) (total_time p) (pid p) (exit_value p) (parent p) v (stack p) (stacksize p) (text
    p) (textsize p) (name p).

Definition set_stack (v : Z) (p : pcb) : pcb :=
  Pcb (user_r p) (user_pc p) (user_spsr p) (kernel_state p) (next p) (prev p)
    (wait_queue_next p) (valid p) (running p) (status p) (start_time p) (last_scheduled
    p) (total_time p) (pid p) (exit_value p) (parent p) (current_dir p) v (stacksize p)
    (text p) (textsize p) (name p).

Definition set_stacksize (v : Z) (p : pcb) : pcb :=
  Pcb (user_r p) (user_pc p) (user_spsr p) (kernel_state p) (next p) (prev p)
    (wait_queue_next p) (valid p) (running p) (status p) (start_time p) (last_scheduled
    p) (total_time p) (pid p) (exit_value p) (parent p) (current_dir p) (stack p) v
    (text p) (textsize p) (name p).

Definition set_text (v : Z) (p : pcb) : pcb :=
  Pcb (user_r p) (user_pc p) (user_spsr p) (kernel_state p) (next p) (prev p)
    (wait_queue_next p) (valid p) (running p) (status p) (start_time p) (last_scheduled
    p) (total_time p) (pid p) (exit_value p) (parent p) (current_dir p) (stack p)
    (stacksize p) v (textsize p) (name p).

Definition set_textsize (v : Z) (p : pcb) : pcb :=
  Pcb (user_r p) (user_pc p) (user_spsr p) (kernel_state p) (next p) (prev p)
    (wait_queue_next p) (valid p) (running p) (status p) (start_time p) (last_scheduled
    p) (total_time p) (pid p) (exit_value p) (parent p) (current_dir p) (stack p)
    (stacksize p) (text p) v (name p).

Definition set_name (v : list Z) (p : pcb) : pcb :=
  Pcb (user_r p) (user_pc p) (user_spsr p) (kernel_state p) (next p) (prev p)
    (wait_queue_next p) (valid p) (running p) (status p) (start_time p) (last_scheduled
    p) (total_time p) (pid p) (exit_value p) (parent p) (current_dir p) (stack p)
    (stacksize p) (text p) (textsize p) v.

Definition PROCESS_STATUS_SLEEPING : Z := 0.
Definition PROCESS_STATUS_READY : Z := 1.
Definition PROCESS_STATUS_EXITED : Z := 2.
Definition DEFAULT_USER_STACK_SIZE : Z := 8192.
Definition DEFAULT_KERNEL_STACK_SIZE : Z := 8192.
Definition sizeof_pcb : Z := 8192.

(** The zeroed block. *)
Definition pcb_zero : pcb :=
  Pcb (repeat 0 15) 0 0 (repeat 0 16) 0 0 0 0 0 0 0 0 0 0 0 0 0 0 0 0 0 (repeat 0 32).

(** ** The kernel's state

    [ticks] is what [ticks_since_boot] reads; [cpu] the supervisor-mode
    registers r0-r14 and the SPSR of the code that runs; [waitpid_first],
    [console_first] and [timer_first] the heads of the three wait queues. *)
Record kstate := Kstate {
  procs : gmap Z pcb;
  proc_first : Z;
  current_process : Z;
  avail_pid : Z;
  k_alloc : alloc;
  k_mem : mem;
  ticks : Z;
  cpu : list Z;
  waitpid_first : Z;
  console_first : Z;
  timer_first : Z }.

Definition with_procs (v : gmap Z pcb) (s : kstate) : kstate :=
  Kstate v (proc_first s) (current_process s) (avail_pid s) (k_alloc s) (k_mem s)
    (ticks s) (cpu s) (waitpid_first s) (console_first s) (timer_first s).

Definition with_proc_first (v : Z) (s : kstate) : kstate :=
  Kstate (procs s) v (current_process s) (avail_pid s) (k_alloc s) (k_mem s) (ticks s)
    (cpu s) (waitpid_first s) (console_first s) (timer_first s).

Definition with_current_process (v : Z) (s : kstate) : kstate :=
  Kstate (procs s) (proc_first s) v (avail_pid s) (k_alloc s) (k_mem s) (ticks s) (cpu
    s) (waitpid_first s) (console_first s) (timer_first s).

Definition with_avail_pid (v : Z) (s : kstate) : kstate :=
  Kstate (procs s) (proc_first s) (current_process s) v (k_alloc s) (k_mem s) (ticks
    s) (cpu s) (waitpid_first s) (console_first s) (timer_first s).

Definition with_k_alloc (v : alloc) (s : kstate) : kstate :=
  Kstate (procs s) (proc_first s) (current_process s) (avail_pid s) v (k_mem s) (ticks
    s) (cpu s) (waitpid_first s) (console_first s) (timer_first s).

Definition with_k_mem (v : mem) (s : kstate) : kstate :=
  Kstate (procs s) (proc_first s) (current_process s) (avail_pid s) (k_alloc s) v
    (ticks s) (cpu s) (waitpid_first s) (console_first s) (timer_first s).

Definition with_ticks (v : Z) (s : kstate) : kstate :=
  Kstate (procs s) (proc_first s) (current_process s) (avail_pid s) (k_alloc s) (k_mem
    s) v (cpu s) (waitpid_first s) (console_first s) (timer_first s).

Definition with_cpu (v : list Z) (s : kstate) : kstate :=
  Kstate (procs s) (proc_first s) (current_process s) (avail_pid s) (k_alloc s) (k_mem
    s) (ticks s) v (waitpid_first s) (console_first s) (timer_first s).

Definition with_waitpid_first (v : Z) (s : kstate) : kstate :=
  Kstate (procs s) (proc_first s) (current_process s) (avail_pid s) (k_alloc s) (k_mem
    s) (ticks s) (cpu s) v (console_first s) (timer_first s).

Definition with_console_first (v : Z) (s : kstate) : kstate :=
  Kstate (procs s) (proc_first s) (current_process s) (avail_pid s) (k_alloc s) (k_mem
    s) (ticks s) (cpu s) (waitpid_first s) v (timer_first s).

Definition with_timer_first (v : Z) (s : kstate) : kstate :=
  Kstate (procs s) (proc_first s) (current_process s) (avail_pid s) (k_alloc s) (k_mem
    s) (ticks s) (cpu s) (waitpid_first s) (console_first s) v.

(** [p->f = v] *)
Definition upd_pcb (p : Z) (f : pcb -> pcb) (s : kstate) : option kstate :=
  q ← procs s !! p; Some (with_procs (<[p := f q]> (procs s)) s).

(** Every block visited once. *)
Definition list_fuel (s : kstate) : nat := S (size (procs s)).

(** ** Operations *)

Fixpoint process_get_totals_loop (fuel : nat) (s : kstate) (proc_ptr total count : Z)
    : option (Z * Z) :=
  match fuel with
  | O => None
  | S f =>
      q ← procs s !! proc_ptr;
      let total' := s32 (total + 1) in
      let count' := if status q =? PROCESS_STATUS_READY then s32 (count + 1) else count in
      if next q =? 0 then Some (total', count')
      else process_get_totals_loop f s (next q) total' count'
  end.

(** The result and [*count]. *)
Definition process_get_totals (s : kstate) : option (Z * Z) :=
  process_get_totals_loop (list_fuel s) s (proc_first s) 0 0.

Fixpoint process_lookup_loop (fuel : nat) (s : kstate) (wanted result : Z) : option Z :=
  match fuel with
  | O => None
  | S f =>
      if result =? 0 then Some 0
      else q ← procs s !! result;
           if pid q =? wanted then Some result else process_lookup_loop f s wanted (next q)
  end.

Definition process_lookup (s : kstate) (wanted : Z) : option Z :=
  process_lookup_loop (list_fuel s) s wanted (proc_first s).

Fixpoint process_lookup_child_loop (fuel : nat) (s : kstate) (caller result : Z) : option Z :=
  match fuel with
  | O => None
  | S f =>
      if result =? 0 then Some 0
      else q ← procs s !! result;
           if negb (result =? caller) && (parent q =? caller) then Some result
           else process_lookup_child_loop f s caller (next q)
  end.

Definition process_lookup_child (s : kstate) (caller : Z) : option Z :=
  process_lookup_child_loop (list_fuel s) s caller (proc_first s).

(** [last=proc_first; while(last->next!=NULL) last=last->next;] *)
Fixpoint last_proc (fuel : nat) (s : kstate) (last : Z) : option Z :=
  match fuel with
  | O => None
  | S f => q ← procs s !! last;
           if next q =? 0 then Some last else last_proc f s (next q)
  end.

Definition process_insert (s : kstate) (proc : Z) : option (Z * kstate) :=
  if proc_first s =? 0 then
    s' ← upd_pcb proc (fun q => set_prev 0 (set_next 0 q)) (with_proc_first proc s);
    Some (0, s')
  else
    last ← last_proc (list_fuel s) s (proc_first s);
    s1 ← upd_pcb last (set_next proc) s;
    s2 ← upd_pcb proc (fun q => set_prev last (set_next 0 q)) s1;
    Some (0, s2).

Fixpoint process_remove_loop (fuel : nat) (s : kstate) (proc current : Z)
    : option (Z * kstate) :=
  match fuel with
  | O => None
  | S f =>
      if current =? 0 then Some (0, s)
      else
        c ← procs s !! current;
        if current =? proc then
          q ← procs s !! proc;
          s1 ← upd_pcb (prev c) (set_next (next q)) s;
          q1 ← procs s1 !! proc;
          if negb (next q1 =? 0)
          then s2 ← upd_pcb (next q1) (set_prev (prev q1)) s1; Some (0, s2)
          else Some (0, s1)
        else process_remove_loop f s proc (next c)
  end.

Definition process_remove (s : kstate) (proc : Z) : option (Z * kstate) :=
  if proc_first s =? 0 then Some (-1, s)
  else if proc_first s =? proc then
    q ← procs s !! proc; Some (0, with_proc_first (next q) s)
  else process_remove_loop (list_fuel s) s proc (proc_first s).

(** The block [process_create] has set up before the insertion.  The loop
    clears r0-r13, the last assignment r14. *)
Definition new_pcb (now new_pid : Z) : pcb :=
  let p := set_status PROCESS_STATUS_SLEEPING (set_running 0 pcb_zero) in
  let p := set_total_time 0 (set_last_scheduled now (set_start_time now p)) in
  let p := set_pid new_pid p in
  let p := set_textsize 0 (set_stacksize 0 (set_text 0 (set_stack 0 p))) in
  let p := for_up 14 0 (fun i p => set_user_r (<[Z.to_nat i := 0]> (user_r p)) p) p in
  set_user_r (<[14%nat := 0]> (user_r p)) (set_user_spsr 0x10 p).

Section Memory.
Context `{MemFill}.

Definition process_create (s : kstate) : option (Z * kstate) :=
  '(new_proc, a) ← memory_allocate (k_alloc s) sizeof_pcb;
  let s1 := with_k_alloc a s in
  if new_proc =? 0 then Some (0, s1)
  else
    let s2 := with_k_mem (memset (k_mem s1) new_proc 0 sizeof_pcb) s1 in
    let p := new_pcb (s32 (ticks s2)) (avail_pid s2) in
    let s3 := with_avail_pid (s32 (avail_pid s2 + 1))
                (with_procs (<[new_proc := p]> (procs s2)) s2) in
    '(_, s4) ← process_insert s3 new_proc;
    Some (new_proc, s4).

Definition kmemory_free (location size : Z) (s : kstate) : option kstate :=
  '(_, a, m) ← memory_free (k_alloc s) (k_mem s) location size;
  Some (with_k_mem m (with_k_alloc a s)).

Definition process_destroy (s : kstate) (proc : Z) : option (Z * kstate) :=
  s1 ← upd_pcb proc (set_valid 0) s;
  '(_, s2) ← process_remove s1 proc;
  q ← procs s2 !! proc;
  s3 ← (if negb (stack q =? 0) then kmemory_free (stack q) (stacksize q) s2 else Some s2);
  s4 ← (if negb (text q =? 0) then kmemory_free (text q) (textsize q) s3 else Some s3);
  s5 ← kmemory_free proc sizeof_pcb s4;
  Some (0, with_procs (delete proc (procs s5)) s5).
End Memory.

(** ** The process list *)

(** From the block at [f] the [next] links go through [l] to [g]. *)
Fixpoint seg (m : gmap Z pcb) (f : Z) (l : list Z) (g : Z) : Prop :=
  match l with
  | [] => f = g
  | p :: l' => f = p /\ p <> 0 /\ exists q, m !! p = Some q /\ seg m (next q) l' g
  end.

(** Every block of [l] but the first names the block before it. *)
Fixpoint back (m : gmap Z pcb) (l : list Z) : Prop :=
  match l with
  | a :: ((b :: _) as l') => (exists q, m !! b = Some q /\ prev q = a) /\ back m l'
  | _ => True
  end.

(** The process list is [l].  The back link of the first block is not used:
    removing the first block leaves a stale one in the second. *)
Definition plist (s : kstate) (l : list Z) : Prop :=
  NoDup l /\ seg (procs s) (proc_first s) l 0 /\ back (procs s) l.

(** Two blocks that differ at most in their list links. *)
Definition same_pcb (q q' : pcb) : Prop :=
  set_next 0 (set_prev 0 q) = set_next 0 (set_prev 0 q').

(** The blocks of [m] are in [m'] with at most their links changed. *)
Definition same_procs (m m' : gmap Z pcb) : Prop :=
  forall a, match m !! a, m' !! a with
            | Some q, Some q' => same_pcb q q'
            | None, None => True
            | _, _ => False
            end.

#[global] Instance same_pcb_equiv : Equivalence same_pcb.
Proof. unfold same_pcb. split; red; congruence. Qed.

#[global] Instance same_procs_preorder : PreOrder same_procs.
Proof.
  split.
  - intros m a. by destruct (m !! a).
  - intros m1 m2 m3 H1 H2 a. specialize (H1 a). specialize (H2 a).
    destruct (m1 !! a), (m2 !! a), (m3 !! a); try done. by etransitivity.
Qed.

Lemma same_procs_insert m p q q' :
  m !! p = Some q -> same_pcb q q' -> same_procs m (<[p := q']> m).
Proof.
  intros Hp Hq a. destruct (decide (a = p)) as [->|].
  - by rewrite Hp, lookup_insert_eq.
  - rewrite lookup_insert_ne by done. by destruct (m !! a).
Qed.

Lemma seg_app m l1 : forall f l2 g,
  seg m f (l1 ++ l2) g <-> exists h, seg m f l1 h /\ seg m h l2 g.
Proof.
  induction l1 as [|p l1 IH]; intros f l2 g; cbn [app seg].
  - split; [intros Hs; by exists f|by intros (h & -> & ?)].
  - split.
    + intros (-> & Hp & q & Hq & Hs). apply IH in Hs as (h & H1 & H2).
      exists h. split; [|done]. eauto.
    + intros (h & (-> & Hp & q & Hq & H1) & H2). split; [done|]. split; [done|].
      exists q. split; [done|]. apply IH. eauto.
Qed.

Lemma seg_insert_ne m l p q : forall f g,
  ~ In p l -> seg (<[p := q]> m) f l g <-> seg m f l g.
Proof.
  induction l as [|x l IH]; intros f g Hp; cbn [seg]; [done|].
  cbn [In] in Hp. rewrite lookup_insert_ne by (intros ->; tauto).
  setoid_rewrite IH; tauto.
Qed.

Lemma seg_delete m l p : forall f g,
  ~ In p l -> seg m f l g -> seg (delete p m) f l g.
Proof.
  induction l as [|x l IH]; intros f g Hp Hs; [done|]. cbn [In] in Hp.
  destruct Hs as (-> & Hx & q & Hq & Hs). split; [done|]. split; [done|].
  exists q. rewrite lookup_delete_ne by (intros ->; tauto). split; [done|]. apply IH; tauto.
Qed.

Lemma seg_lookup m l : forall f g p, seg m f l g -> In p l -> p <> 0 /\ exists q, m !! p = Some q.
Proof.
  induction l as [|x l IH]; intros f g p Hs Hp; [done|].
  destruct Hs as (-> & Hx & q & Hq & Hs). destruct Hp as [->|Hp]; [eauto|]. by eapply IH.
Qed.

Lemma seg_length m f l g : NoDup l -> seg m f l g -> (length l <= size m)%nat.
Proof.
  intros Hd Hs. rewrite <- size_dom.
  rewrite <- (size_list_to_set (C := gset Z) l) by done.
  apply subseteq_size. intros p Hp%elem_of_list_to_set%list_elem_of_In.
  destruct (seg_lookup m l f g p Hs Hp) as (_ & q & Hq). by apply elem_of_dom.
Qed.

Lemma back_cons m a b l :
  back m (a :: b :: l) <-> (exists q, m !! b = Some q /\ prev q = a) /\ back m (b :: l).
Proof. done. Qed.

Lemma back_insert m l p q :
  (In p l -> exists q0, m !! p = Some q0 /\ prev q = prev q0) ->
  back m l -> back (<[p := q]> m) l.
Proof.
  induction l as [|a [|b l] IH]; intros Hp Hb; [done|done|].
  apply back_cons in Hb as [(qb & Hqb & E) Hb]. apply back_cons. split.
  - destruct (decide (b = p)) as [->|].
    + rewrite lookup_insert_eq. exists q. split; [done|].
      destruct Hp as (q0 & Hq0 & ->); [cbn; tauto|]. congruence.
    + rewrite lookup_insert_ne by done. eauto.
  - apply IH; [|done]. intros Hi. apply Hp. cbn in *. tauto.
Qed.

Lemma back_snoc m l x p q :
  back m (l ++ [x]) -> m !! p = Some q -> prev q = x -> back m ((l ++ [x]) ++ [p]).
Proof.
  intros Hb Hq Hx. rewrite <- app_assoc. cbn [app].
  induction l as [|a l IH]; cbn [app]; [cbn; eauto|].
  destruct l as [|b l]; cbn [app] in *; apply back_cons in Hb as [Ha Hb];
    apply back_cons; split; try done; by apply IH.
Qed.

Lemma back_delete m l p : ~ In p l -> back m l -> back (delete p m) l.
Proof.
  induction l as [|a [|b l] IH]; intros Hp Hb; [done|done|].
  apply back_cons in Hb as [(qb & Hqb & E) Hb]. apply back_cons. cbn [In] in Hp. split.
  - exists qb. rewrite lookup_delete_ne by (intros ->; tauto). done.
  - apply IH; [cbn [In]; tauto|done].
Qed.

Lemma back_insert_head m b l q :
  ~ In b l -> back m (b :: l) -> back (<[b := q]> m) (b :: l).
Proof.
  intros Hb Hm. destruct l as [|c l]; [done|]. apply back_cons in Hm as [(qc & Hc & E) Hm].
  cbn [In] in Hb. apply back_cons. split.
  - exists qc. rewrite lookup_insert_ne by (intros ->; tauto). done.
  - apply back_insert; [cbn [In]; tauto|done].
Qed.

(** Dropping [p] from the middle: the block after it now names [a]. *)
Lemma back_remove m l1 a p b l2 q :
  ~ In b (l1 ++ [a]) -> ~ In b l2 -> prev q = a ->
  back m (l1 ++ a :: p :: b :: l2) -> back (<[b := q]> m) (l1 ++ a :: b :: l2).
Proof.
  intros Hb1 Hb2 Hq Hm. induction l1 as [|c l1 IH]; cbn [app In] in *.
  - apply back_cons. split; [rewrite lookup_insert_eq; eauto|].
    apply back_insert_head; [done|]. apply Hm.
  - destruct l1 as [|c' l1]; cbn [app In] in *;
      apply back_cons in Hm as [(qc & Hc & E) Hm]; apply back_cons;
      (split; [exists qc; rewrite lookup_insert_ne by (intros ->; tauto); done|]);
      apply IH; tauto.
Qed.

Lemma back_remove_last m l1 a p : back m (l1 ++ [a; p]) -> back m (l1 ++ [a]).
Proof.
  intros Hm. induction l1 as [|c l1 IH]; cbn [app] in *; [done|].
  destruct l1 as [|c' l1]; cbn [app] in *; apply back_cons in Hm as [Hc Hm];
    apply back_cons; split; try done; by apply IH.
Qed.

(** Rewriting a block without its [next] link. *)
Lemma seg_insert_next m b q q' l : forall f g,
  m !! b = Some q -> next q' = next q -> seg m f l g -> seg (<[b := q']> m) f l g.
Proof.
  induction l as [|x l IH]; intros f g Hb Hn Hs; [done|].
  destruct Hs as (-> & Hx & qx & Hqx & Hs). split; [done|]. split; [done|].
  destruct (decide (x = b)) as [->|].
  - rewrite lookup_insert_eq. exists q'. split; [done|]. rewrite Hn.
    rewrite Hb in Hqx. injection Hqx as <-. by apply IH.
  - rewrite lookup_insert_ne by done. exists qx. split; [done|]. by apply IH.
Qed.

(** ** Traversals *)

(** A field of the block at [a], 0 if there is none. *)
Definition fld (f : pcb -> Z) (s : kstate) (a : Z) : Z := from_option f 0 (procs s !! a).

Lemma plist_fuel s l : plist s l -> (length l < list_fuel s)%nat.
Proof. intros (Hd & Hs & _). unfold list_fuel. pose proof (seg_length _ _ _ _ Hd Hs). lia. Qed.

Lemma last_proc_ok s l x : forall fuel f,
  seg (procs s) f (l ++ [x]) 0 -> (length l < fuel)%nat -> last_proc fuel s f = Some x.
Proof.
  induction l as [|p l IH]; intros [|fuel] f Hs Hf; cbn [length app seg last_proc] in *;
    try lia; destruct Hs as (-> & Hp & q & Hq & Hs); bind_with Hq.
  - by rewrite Hs.
  - rewrite (proj2 (Z.eqb_neq _ _)); [apply IH; [done|lia]|].
    destruct l; cbn in Hs; destruct Hs as (-> & ? & _); done.
Qed.

Lemma process_lookup_loop_ok s w l : forall fuel f,
  seg (procs s) f l 0 -> (length l < fuel)%nat ->
  process_lookup_loop fuel s w f
  = Some (default 0 (List.find (fun a => fld pid s a =? w) l)).
Proof.
  induction l as [|p l IH]; intros [|fuel] f Hs Hf; cbn [length seg] in *; try lia;
    cbn [process_lookup_loop].
  - by rewrite Hs.
  - destruct Hs as (-> & Hp & q & Hq & Hs). rewrite (proj2 (Z.eqb_neq _ _)) by done.
    bind_with Hq. cbn [List.find]. unfold fld at 1. rewrite Hq. cbn [from_option].
    bcase; [done|]. apply IH; [done|lia].
Qed.

Lemma process_lookup_child_loop_ok s c l : forall fuel f,
  seg (procs s) f l 0 -> (length l < fuel)%nat ->
  process_lookup_child_loop fuel s c f
  = Some (default 0 (List.find (fun a => negb (a =? c) && (fld parent s a =? c)) l)).
Proof.
  induction l as [|p l IH]; intros [|fuel] f Hs Hf; cbn [length seg] in *; try lia;
    cbn [process_lookup_child_loop].
  - by rewrite Hs.
  - destruct Hs as (-> & Hp & q & Hq & Hs). rewrite (proj2 (Z.eqb_neq _ _)) by done.
    bind_with Hq. cbn [List.find]. unfold fld at 1. rewrite Hq. cbn [from_option].
    destruct (negb _ && _); [done|]. apply IH; [done|lia].
Qed.

Lemma process_get_totals_loop_ok s l : forall fuel f t c,
  seg (procs s) f l 0 -> l <> [] -> (length l <= fuel)%nat ->
  0 <= t -> 0 <= c -> c <= t -> t + Z.of_nat (length l) < 2 ^ 31 ->
  process_get_totals_loop fuel s f t c
  = Some (t + Z.of_nat (length l),
          c + Z.of_nat (length (List.filter
                (fun a => fld status s a =? PROCESS_STATUS_READY) l))).
Proof.
  induction l as [|p l IH]; intros [|fuel] f t c Hs Hl Hf Ht Hc Hct Hb;
    cbn [length seg] in *; try lia; try done.
  destruct Hs as (-> & Hp & q & Hq & Hs). cbn [process_get_totals_loop].
  bind_with Hq. cbn [List.filter]. unfold fld at 1. rewrite Hq. cbn [from_option].
  rewrite !s32_id by lia.
  destruct l as [|x l]; cbn [seg] in Hs.
  - rewrite Hs. cbn [Z.eqb length]. destruct (status q =? _); cbn [length List.filter];
      do 2 f_equal; lia.
  - pose proof Hs as (Ex & Hx & _). rewrite (proj2 (Z.eqb_neq (next q) 0)) by (rewrite Ex; done).
    rewrite IH; [|done|done|lia|lia|bcase; lia|bcase; lia|cbn [length] in *; lia].
    do 2 f_equal; [cbn [length]; lia|].
    destruct (status q =? PROCESS_STATUS_READY); cbn [length]; lia.
Qed.

(** ** Insertion and removal *)

Lemma upd_pcb_eq p f s q :
  procs s !! p = Some q -> upd_pcb p f s = Some (with_procs (<[p := f q]> (procs s)) s).
Proof. intros Hq. unfold upd_pcb. by rewrite Hq. Qed.

Lemma process_insert_ok s l p q :
  plist s l -> ~ In p l -> p <> 0 -> procs s !! p = Some q ->
  exists s', process_insert s p = Some (0, s') /\ plist s' (l ++ [p]) /\
    same_procs (procs s) (procs s') /\
    s' = with_procs (procs s') (with_proc_first (proc_first s') s).
Proof.
  intros HP Hin Hp Hq. pose proof (plist_fuel _ _ HP) as Hf. destruct HP as (Hd & Hs & Hb).
  assert (Hd' : NoDup (l ++ [p])).
  { apply NoDup_app. split; [done|]. split; [|apply NoDup_singleton].
    intros x Hx ->%list_elem_of_singleton. by apply Hin, list_elem_of_In. }
  unfold process_insert. destruct l as [|x0 l0] eqn:El.
  - cbn in Hs. rewrite Hs. cbn [Z.eqb].
    rewrite (upd_pcb_eq _ _ _ q) by done. cbn [mbind option_bind].
    eexists. split; [done|]. cbn. split; [|split; [by apply same_procs_insert with q|done]].
    split; [done|]. split; cbn.
    + split; [done|]. split; [done|]. eexists. split; [apply lookup_insert_eq|done].
    + done.
  - rewrite <- El in *. pose proof Hs as Hs0. rewrite El in Hs0. destruct Hs0 as (E0 & Hx0 & _).
    rewrite (proj2 (Z.eqb_neq (proc_first s) 0)) by (rewrite E0; done).
    destruct (exists_last (l := l)) as (l1 & x & E); [by rewrite El|].
    clear El E0 Hx0 x0 l0. subst l.
    assert (E1 : last_proc (list_fuel s) s (proc_first s) = Some x).
    { apply last_proc_ok with l1; [done|]. rewrite length_app in Hf. cbn in Hf. lia. }
    bind_with E1.
    pose proof Hs as Hs1. apply seg_app in Hs1 as (h & Hs1 & -> & Hx & qx & Hqx & Hn).
    assert (x <> p) by (intros ->; apply Hin, in_app_iff; cbn; tauto).
    apply NoDup_app in Hd as (_ & Hxl & _).
    assert (Hx1 : ~ In x l1).
    { intros Hx1. apply (Hxl x); [by apply list_elem_of_In|]. by apply list_elem_of_singleton. }
    assert (Hp1 : ~ In p l1) by (intros ?; apply Hin, in_app_iff; tauto).
    rewrite (upd_pcb_eq x _ _ qx) by done. cbn [mbind option_bind].
    rewrite (upd_pcb_eq p _ _ q) by (cbn; by rewrite lookup_insert_ne).
    cbn [mbind option_bind]. eexists. split; [done|]. cbn [procs with_procs proc_first].
    split; [|split; [|done]].
    + split; [done|]. split; cbn [procs with_procs proc_first].
      * rewrite <- app_assoc. apply seg_app. exists x. split.
        { rewrite !seg_insert_ne by done. done. }
        cbn. rewrite lookup_insert_ne, lookup_insert_eq by done.
        split; [done|]. split; [done|]. eexists. split; [done|]. cbn.
        split; [done|]. split; [done|]. rewrite lookup_insert_eq. by eexists.
      * apply back_snoc with (set_prev x (set_next 0 q)); [|by rewrite lookup_insert_eq|done].
        apply back_insert; [intros Hpx; exfalso; by apply Hin|].
        apply back_insert; [|done]. intros _. by exists qx.
    + transitivity (<[x := set_next p qx]> (procs s)).
      * by apply same_procs_insert with qx.
      * apply same_procs_insert with q; [by rewrite lookup_insert_ne|done].
Qed.

(** The unlinking of [proc], when the loop of [process_remove] has found it. *)
Definition unlink (s : kstate) (proc : Z) : option (Z * kstate) :=
  q ← procs s !! proc;
  s1 ← upd_pcb (prev q) (set_next (next q)) s;
  q1 ← procs s1 !! proc;
  if negb (next q1 =? 0)
  then s2 ← upd_pcb (next q1) (set_prev (prev q1)) s1; Some (0, s2)
  else Some (0, s1).

Lemma process_remove_loop_found s p l2 l1 : forall fuel f,
  seg (procs s) f (l1 ++ p :: l2) 0 -> ~ In p l1 -> (length l1 < fuel)%nat ->
  process_remove_loop fuel s p f = unlink s p.
Proof.
  induction l1 as [|x l1 IH]; intros [|fuel] f Hs Hin Hf; cbn [length app seg In] in *;
    try lia; destruct Hs as (-> & Hp & q & Hq & Hs); cbn [process_remove_loop];
    rewrite (proj2 (Z.eqb_neq _ 0)) by done.
  - unfold unlink. by rewrite Z.eqb_refl, Hq.
  - bind_with Hq. rewrite (proj2 (Z.eqb_neq x p)) by (intros ->; tauto).
    apply IH; [done|tauto|lia].
Qed.

Lemma process_remove_loop_missing s p l : forall fuel f,
  seg (procs s) f l 0 -> ~ In p l -> (length l < fuel)%nat ->
  process_remove_loop fuel s p f = Some (0, s).
Proof.
  induction l as [|x l IH]; intros [|fuel] f Hs Hin Hf; cbn [length seg In] in *; try lia;
    cbn [process_remove_loop]; [by rewrite Hs|].
  destruct Hs as (-> & Hp & q & Hq & Hs). rewrite (proj2 (Z.eqb_neq _ 0)) by done.
  bind_with Hq. rewrite (proj2 (Z.eqb_neq x p)) by (intros ->; tauto).
  apply IH; [done|tauto|lia].
Qed.


Lemma back_at m l1 a p l2 :
  back m (l1 ++ a :: p :: l2) -> exists q, m !! p = Some q /\ prev q = a.
Proof.
  induction l1 as [|c l1 IH]; cbn [app]; [by intros [? _]|].
  intros Hb. apply IH. destruct l1; cbn [app] in *; by apply back_cons in Hb as [_ ?].
Qed.

Lemma NoDup_mid (l1 : list Z) a p l2 :
  NoDup (l1 ++ a :: p :: l2) ->
  NoDup (l1 ++ a :: l2) /\ ~ In p (l1 ++ a :: l2) /\ ~ In a (l1 ++ p :: l2).
Proof.
  rewrite !NoDup_ListNoDup. intros Hd.
  split; [|split; [|by apply NoDup_remove_2 in Hd]];
    replace (l1 ++ a :: p :: l2) with ((l1 ++ [a]) ++ p :: l2) in Hd by (by rewrite <- app_assoc);
    [apply NoDup_remove_1 in Hd|apply NoDup_remove_2 in Hd]; by rewrite <- app_assoc in Hd.
Qed.

(** The blocks other than [a] and [b] stay as they are. *)
Lemma unlink_ok s l1 a p l2 :
  plist s (l1 ++ a :: p :: l2) ->
  exists s', unlink s p = Some (0, s') /\ plist s' (l1 ++ a :: l2) /\
    same_procs (procs s) (procs s') /\ s' = with_procs (procs s') s /\
    procs s' !! p = procs s !! p.
Proof.
  intros (Hd & Hs & Hb). destruct (NoDup_mid _ _ _ _ Hd) as (Hd' & Hp & Ha).
  destruct (back_at _ _ _ _ _ Hb) as (q & Hq & Eq).
  pose proof Hs as Hs1. apply seg_app in Hs1 as (h & Hs1 & -> & Ha0 & qa & Hqa & Hs2).
  cbn [seg] in Hs2. destruct Hs2 as (Enx & Hp0 & q' & Hq' & Hs2).
  rewrite Hq in Hq'. injection Hq' as <-.
  assert (a <> p) by (intros ->; apply Hp, in_app_iff; cbn; tauto).
  rewrite in_app_iff in Hp, Ha. cbn [In] in Hp, Ha.
  unfold unlink. rewrite Hq. cbn [mbind option_bind]. rewrite Eq.
  rewrite (upd_pcb_eq a _ _ qa) by done. cbn [mbind option_bind procs with_procs].
  rewrite lookup_insert_ne by done. rewrite Hq. cbn [mbind option_bind].
  set (m1 := <[a := set_next (next q) qa]> (procs s)).
  assert (Hb1 : back m1 (l1 ++ a :: p :: l2))
    by (apply back_insert; [intros _; by exists qa|done]).
  assert (Hm1 : same_procs (procs s) m1) by (by apply same_procs_insert with qa).
  assert (Hseg1 : seg m1 (proc_first s) (l1 ++ a :: l2) 0).
  { apply seg_app. exists a. split; [by apply seg_insert_ne; [tauto|]|].
    split; [done|]. split; [done|]. eexists. split; [apply lookup_insert_eq|].
    cbn. by apply seg_insert_ne; [tauto|]. }
  destruct l2 as [|b l2]; cbn [seg] in Hs2.
  - rewrite Hs2. cbn [Z.eqb negb]. eexists. split; [done|]. cbn [procs with_procs].
    split; [split; [done|]; split; [done|by apply back_remove_last with p]|].
    split; [done|]. split; [done|]. unfold m1. by rewrite lookup_insert_ne.
  - destruct Hs2 as (Eb & Hb0 & qb & Hqb & Hs2).
    rewrite Eb, (proj2 (Z.eqb_neq b 0)) by done. cbn [negb].
    cbn [In] in Hp, Ha.
    assert (Hqb1 : m1 !! b = Some qb) by (unfold m1; rewrite lookup_insert_ne; [done|intros ->; tauto]).
    rewrite (upd_pcb_eq b _ _ qb) by (cbn; done). cbn [mbind option_bind].
    eexists. split; [done|]. cbn [procs with_procs]. split; [|split; [|split; [done|]]].
    + split; [done|]. cbn [procs with_procs proc_first]. split.
      * by apply seg_insert_next with qb.
      * apply NoDup_ListNoDup in Hd'.
        replace (l1 ++ a :: b :: l2) with ((l1 ++ [a]) ++ b :: l2) in Hd'
          by (by rewrite <- app_assoc).
        apply NoDup_remove_2 in Hd'. rewrite in_app_iff in Hd'.
        apply back_remove with p; tauto || done.
    + transitivity m1; [done|]. by apply same_procs_insert with qb.
    + rewrite lookup_insert_ne by (intros ->; tauto). unfold m1. by rewrite lookup_insert_ne.
Qed.

(** The head, or any other block, of the list is removed. *)
Lemma process_remove_ok s l1 p l2 :
  plist s (l1 ++ p :: l2) ->
  exists s', process_remove s p = Some (0, s') /\ plist s' (l1 ++ l2) /\
    same_procs (procs s) (procs s') /\ procs s' !! p = procs s !! p /\
    s' = with_procs (procs s') (with_proc_first (proc_first s') s).
Proof.
  intros HP. pose proof (plist_fuel _ _ HP) as Hf. pose proof HP as (Hd & Hs & Hb).
  unfold process_remove. destruct l1 as [|x l0] eqn:El.
  - cbn [app] in *. destruct Hs as (E & Hp & q & Hq & Hs).
    rewrite E, (proj2 (Z.eqb_neq p 0)), Z.eqb_refl by done. bind_with Hq.
    eexists. split; [done|]. cbn [procs with_proc_first].
    split; [|done]. apply NoDup_cons in Hd as [_ Hd]. split; [done|]. split; [done|].
    destruct l2; [done|]. by apply back_cons in Hb as [_ Hb].
  - assert (E : proc_first s = x /\ x <> 0) by (cbn in Hs; tauto). destruct E as [E Hx].
    rewrite E, (proj2 (Z.eqb_neq x 0)) by done.
    rewrite (proj2 (Z.eqb_neq x p)).
    2:{ intros ->. apply NoDup_cons in Hd as [Hd _]. apply Hd.
        apply list_elem_of_In, in_app_iff. cbn. tauto. }
    pose proof Hs as Hsx. rewrite E in Hsx. rewrite <- El in *.
    assert (Hp1 : ~ In p l1).
    { apply NoDup_ListNoDup in Hd. apply NoDup_remove_2 in Hd. rewrite in_app_iff in Hd. tauto. }
    rewrite process_remove_loop_found with (l1 := l1) (l2 := l2);
      [|done|done|rewrite length_app in Hf; cbn [length] in Hf; lia].
    destruct (exists_last (l := l1)) as (l3 & a & E3); [by rewrite El|]. rewrite E3 in *.
    rewrite <- app_assoc in HP. cbn [app] in HP.
    destruct (unlink_ok s l3 a p l2 HP) as (s' & E' & HP' & Hsame & Hfr & Hpp).
    exists s'. split; [done|]. rewrite <- app_assoc. split; [done|]. split; [done|].
    split; [done|]. rewrite Hfr. by destruct s.
Qed.

(** ** The invariant of the process table *)

(** The memory blocks a process owns: its control block, its stack, its text.
    The idle process has a text, in the kernel, and a stack with size 0. *)
Definition block_of (a n : Z) : list (Z * Z) :=
  if (a =? 0) || (n =? 0) then [] else [(a / CHUNK_SIZE, n)].

Definition blocks_of (p : Z) (q : pcb) : list (Z * Z) :=
  (p / CHUNK_SIZE, sizeof_pcb) ::
  block_of (stack q) (stacksize q) ++ block_of (text q) (textsize q).

(** The bytes of a process: its control block, its stack and its text. *)
Definition region_of (a n : Z) : list (Z * Z) := if a =? 0 then [] else [(a, n)].

Definition regions_of (p : Z) (q : pcb) : list (Z * Z) :=
  (p, sizeof_pcb) :: region_of (stack q) (stacksize q) ++ region_of (text q) (textsize q).

Definition owned (a n : Z) : Prop := a = 0 \/ n <> 0.

Definition owns (q : pcb) : Prop := owned (stack q) (stacksize q) /\ owned (text q) (textsize q).

Definition blocks (m : gmap Z pcb) (p : Z) : list (Z * Z) :=
  match m !! p with Some q => blocks_of p q | None => [] end.

Definition all_blocks (m : gmap Z pcb) (l : list Z) : list (Z * Z) :=
  concat (map (blocks m) l).

(** The list holds every block of [procs]; process ids are distinct and below
    the next one; what the processes own, and possibly leaked blocks besides, are
    live blocks of the allocator; only the first process, the idle one, may have
    a text or a stack it does not own. *)
Record kinv (kernel : Z -> bool) (s : kstate) (l : list Z) : Prop := {
  k_list : plist s l;
  k_dom : forall p, is_Some (procs s !! p) <-> In p l;
  k_pids : forall p q, procs s !! p = Some q -> 0 <= pid q < avail_pid s;
  k_distinct : forall p1 p2 q1 q2, procs s !! p1 = Some q1 -> procs s !! p2 = Some q2 ->
    pid q1 = pid q2 -> p1 = p2;
  k_aligned : forall p q, procs s !! p = Some q ->
    p mod CHUNK_SIZE = 0 /\ (stacksize q = 0 \/ stack q mod CHUNK_SIZE = 0) /\
    (textsize q = 0 \/ text q mod CHUNK_SIZE = 0);
  k_owns : forall p q, procs s !! p = Some q -> p <> proc_first s -> owns q;
  k_blocks : exists extra, client_inv kernel (k_alloc s, all_blocks (procs s) l ++ extra) }.

Lemma same_pcb_fields q q' :
  same_pcb q q' -> pid q' = pid q /\ stack q' = stack q /\ stacksize q' = stacksize q /\
    text q' = text q /\ textsize q' = textsize q /\ status q' = status q /\
    parent q' = parent q /\ exit_value q' = exit_value q /\
    wait_queue_next q' = wait_queue_next q.
Proof. destruct q, q'. unfold same_pcb. cbn. intros [=]; subst. done. Qed.

Lemma same_procs_lookup m m' p q :
  same_procs m m' -> m !! p = Some q -> exists q', m' !! p = Some q' /\ same_pcb q q'.
Proof. intros H Hq. specialize (H p). rewrite Hq in H. destruct (m' !! p); [eauto|done]. Qed.

Lemma same_procs_lookup_back m m' p q' :
  same_procs m m' -> m' !! p = Some q' -> exists q, m !! p = Some q /\ same_pcb q q'.
Proof. intros H Hq. specialize (H p). rewrite Hq in H. destruct (m !! p); [eauto|done]. Qed.

Lemma owns_same q q' : same_pcb q q' -> owns q -> owns q'.
Proof.
  intros E. destruct (same_pcb_fields _ _ E) as (_ & E1 & E2 & E3 & E4 & _).
  unfold owns. by rewrite E1, E2, E3, E4.
Qed.

(** What the code frees is what is owned. *)
Lemma owned_block a n : owned a n -> n = 0 \/ a mod CHUNK_SIZE = 0 ->
  a mod CHUNK_SIZE = 0 /\ block_of a n = if a =? 0 then [] else [(a / CHUNK_SIZE, n)].
Proof.
  unfold block_of. intros [->|Hn] Ha; [done|]. split; [by destruct Ha|].
  apply Z.eqb_neq in Hn as ->. by rewrite orb_false_r.
Qed.

(** Two lists with the same head. *)
Lemma plist_first s s' l l' : plist s' (l ++ l') -> plist s l -> l <> [] ->
  proc_first s' = proc_first s.
Proof.
  destruct l as [|x l]; [done|]. intros (_ & (E & _) & _) (_ & (E' & _) & _) _. congruence.
Qed.

Lemma blocks_same m m' p : same_procs m m' -> blocks m' p = blocks m p.
Proof.
  intros H. unfold blocks. specialize (H p). destruct (m !! p), (m' !! p); try done.
  destruct (same_pcb_fields _ _ H) as (_ & E1 & E2 & E3 & E4 & _).
  unfold blocks_of. by rewrite E1, E2, E3, E4.
Qed.

Lemma all_blocks_same m m' l : same_procs m m' -> all_blocks m' l = all_blocks m l.
Proof.
  intros H. unfold all_blocks. f_equal. apply map_ext. intros p. by apply blocks_same.
Qed.

Lemma all_blocks_ext m m' l :
  (forall p, In p l -> m' !! p = m !! p) -> all_blocks m' l = all_blocks m l.
Proof.
  intros H. unfold all_blocks. f_equal. apply map_ext_in. intros p Hp.
  unfold blocks. by rewrite H.
Qed.

Lemma all_blocks_app m l1 l2 : all_blocks m (l1 ++ l2) = all_blocks m l1 ++ all_blocks m l2.
Proof. unfold all_blocks. by rewrite map_app, concat_app. Qed.

Lemma all_blocks_mid m l1 p q l2 :
  m !! p = Some q ->
  Permutation (blocks_of p q ++ all_blocks m (l1 ++ l2)) (all_blocks m (l1 ++ p :: l2)).
Proof.
  intros Hq. rewrite !all_blocks_app.
  replace (all_blocks m (p :: l2)) with (blocks_of p q ++ all_blocks m l2)
    by (unfold all_blocks; cbn [map concat]; unfold blocks; by rewrite Hq).
  apply Permutation_app_swap_app.
Qed.

Lemma in_all_blocks m l p q b :
  In p l -> m !! p = Some q -> In b (blocks_of p q) -> In b (all_blocks m l).
Proof.
  intros Hp Hq Hb. unfold all_blocks. apply in_concat. exists (blocks m p).
  split; [by apply in_map|]. unfold blocks. by rewrite Hq.
Qed.

(** ** Creating and destroying *)

Lemma new_pcb_fields now n :
  pid (new_pcb now n) = n /\ stack (new_pcb now n) = 0 /\ text (new_pcb now n) = 0 /\
  status (new_pcb now n) = PROCESS_STATUS_SLEEPING /\ start_time (new_pcb now n) = now /\
  last_scheduled (new_pcb now n) = now /\ user_spsr (new_pcb now n) = 16 /\
  user_r (new_pcb now n) = repeat 0 15 /\ parent (new_pcb now n) = 0 /\
  wait_queue_next (new_pcb now n) = 0.
Proof. by cbv. Qed.

Section Lifetime.
Context `{MemFill} (kernel : Z -> bool).

Lemma kinv_fresh s l p extra a :
  kinv kernel s l -> p mod CHUNK_SIZE = 0 ->
  client_inv kernel (a, (p / CHUNK_SIZE, sizeof_pcb) :: all_blocks (procs s) l ++ extra) ->
  ~ In p l.
Proof.
  intros K Hp Hc Hin. destruct (proj2 (k_dom _ _ _ K p) Hin) as [q Hq].
  eapply (client_inv_distinct _ _ _ (p / CHUNK_SIZE, sizeof_pcb)); [exact Hc| |done].
  apply in_app_iff. left. eapply in_all_blocks; [done|done|]. by left.
Qed.

(** The invariant with the block [n] of a process at the end of the list. *)
Lemma kinv_append s s4 l p n a extra :
  kinv kernel s l -> ~ In p l -> p mod CHUNK_SIZE = 0 ->
  client_inv kernel (a, (p / CHUNK_SIZE, sizeof_pcb) :: all_blocks (procs s) l ++ extra) ->
  plist s4 (l ++ [p]) -> same_procs (<[p := n]> (procs s)) (procs s4) ->
  k_alloc s4 = a -> avail_pid s4 = avail_pid s + 1 -> 0 <= avail_pid s ->
  pid n = avail_pid s -> stack n = 0 -> text n = 0 -> kinv kernel s4 (l ++ [p]).
Proof.
  intros K Hfr Hal HC' HP4 Hsame Hal4 Hav4 Hav N1 N2 N3.
  assert (Hold : forall x q', procs s4 !! x = Some q' ->
    (x = p /\ same_pcb n q') \/ (x <> p /\ exists q, procs s !! x = Some q /\ same_pcb q q')).
  { intros x q' Hq'. destruct (same_procs_lookup_back _ _ _ _ Hsame Hq') as (q & Hq & Hqq).
    destruct (decide (x = p)) as [->|Hx].
    - rewrite lookup_insert_eq in Hq. injection Hq as <-. by left.
    - rewrite lookup_insert_ne in Hq by done. right. eauto. }
  split.
  - done.
  - intros x. rewrite in_app_iff. cbn [In]. rewrite <- (k_dom _ _ _ K x). split.
    + intros [q' Hq']. destruct (Hold x q' Hq') as [[-> _]|(_ & q & -> & _)]; [tauto|].
      left. eauto.
    + intros Hx. specialize (Hsame x). destruct (decide (x = p)) as [->|Hne].
      * rewrite lookup_insert_eq in Hsame. destruct (procs s4 !! p); [eauto|done].
      * rewrite lookup_insert_ne in Hsame by done. destruct Hx as [[q Hq]|[->|[]]]; [|done].
        rewrite Hq in Hsame. destruct (procs s4 !! x); [eauto|done].
  - intros x q' Hq'. rewrite Hav4.
    destruct (Hold x q' Hq') as [(-> & E)|(Hx & q & Hq & E)];
      destruct (same_pcb_fields _ _ E) as (-> & _); [lia|].
    pose proof (k_pids _ _ _ K x q Hq). lia.
  - intros x1 x2 q1 q2 H1 H2 E.
    destruct (Hold x1 q1 H1) as [(-> & E1)|(Hx1 & p1 & Hp1 & E1)];
      destruct (Hold x2 q2 H2) as [(-> & E2)|(Hx2 & p2 & Hp2 & E2)]; try done;
      destruct (same_pcb_fields _ _ E1) as (F1 & _);
      destruct (same_pcb_fields _ _ E2) as (F2 & _).
    + pose proof (k_pids _ _ _ K x2 p2 Hp2). lia.
    + pose proof (k_pids _ _ _ K x1 p1 Hp1). lia.
    + apply (k_distinct _ _ _ K x1 x2 p1 p2); [done|done|congruence].
  - intros x q' Hq'. destruct (Hold x q' Hq') as [(-> & E)|(Hx & q & Hq & E)];
      destruct (same_pcb_fields _ _ E) as (_ & -> & -> & -> & -> & _);
      [rewrite N2, N3; auto|by apply (k_aligned _ _ _ K x q)].
  - intros x q' Hq' Hx'. destruct (Hold x q' Hq') as [(-> & E)|(Hx & q & Hq & E)];
      apply (owns_same _ _ E); [split; left; assumption|].
    apply (k_owns _ _ _ K x q Hq). intros Ex. apply Hx'.
    assert (Hin : In x l) by (apply (k_dom _ _ _ K); eauto).
    by rewrite (plist_first _ _ _ _ HP4 (k_list _ _ _ K)), Ex by (by intros ->).
  - exists extra. rewrite Hal4. revert HC'. apply client_inv_perm.
    rewrite (all_blocks_same _ _ (l ++ [p]) Hsame).
    rewrite <- (all_blocks_mid _ l p n []) by apply lookup_insert_eq.
    rewrite app_nil_r, (all_blocks_ext (procs s) (<[p := n]> (procs s)) l).
    2:{ intros x Hx. apply lookup_insert_ne. intros ->. by apply Hfr. }
    unfold blocks_of, block_of. by rewrite N2, N3.
Qed.

Lemma process_create_ok s l :
  kinv kernel s l -> 0 <= avail_pid s < 2 ^ 31 - 1 ->
  exists p s', process_create s = Some (p, s') /\
    (p = 0 /\ s' = with_k_alloc (k_alloc s) s \/
     p <> 0 /\ ~ In p l /\ kinv kernel s' (l ++ [p]) /\ avail_pid s' = avail_pid s + 1 /\
     s' = with_procs (procs s') (with_proc_first (proc_first s') (with_avail_pid (avail_pid s')
            (with_k_alloc (k_alloc s') (with_k_mem (k_mem s') s)))) /\
     same_procs (<[p := new_pcb (s32 (ticks s)) (avail_pid s)]> (procs s)) (procs s')).
Proof.
  intros K Hav. destruct (k_blocks _ _ _ K) as [extra HC]. unfold process_create.
  destruct (memory_allocate_small (k_alloc s) sizeof_pcb) as [[p a] Ea]; [apply HC|done|].
  bind_with Ea. assert (Hsz : 0 <= sizeof_pcb < 2 ^ 32) by done.
  destruct (client_step_allocate _ _ _ _ _ _ HC Hsz Ea)
    as [[-> ->]|(Hp & Hal & HC')].
  { cbn [Z.eqb]. eexists _, _. split; [done|]. by left. }
  rewrite (proj2 (Z.eqb_neq p 0)) by lia.
  change (eff_size sizeof_pcb) with sizeof_pcb in HC'.
  pose proof (kinv_fresh s l p extra a K Hal HC') as Hfr.
  cbn [avail_pid with_k_mem with_k_alloc ticks procs].
  set (n := new_pcb _ _). set (s3 := with_avail_pid _ _).
  destruct (new_pcb_fields (s32 (ticks s)) (avail_pid s)) as (N1 & N2 & N3 & N4 & _).
  fold n in N1, N2, N3, N4.
  pose proof (k_list _ _ _ K) as (Hd & Hs & Hb).
  assert (HP3 : plist s3 l).
  { split; [done|]. cbn. split; [by apply seg_insert_ne|].
    apply back_insert; [intros ?; exfalso; by apply Hfr|done]. }
  destruct (process_insert_ok s3 l p n HP3 Hfr ltac:(lia)) as (s4 & E4 & HP4 & Hsame & Hfrm);
    [cbn; by rewrite lookup_insert_eq|].
  bind_with E4. exists p, s4. split; [done|]. right.
  split; [lia|]. split; [done|].
  assert (Hfr4 : s4 = with_procs (procs s4) (with_proc_first (proc_first s4)
    (with_avail_pid (avail_pid s4) (with_k_alloc (k_alloc s4) (with_k_mem (k_mem s4) s)))))
    by (rewrite Hfrm; by destruct s).
  assert (Hav4 : avail_pid s4 = avail_pid s + 1) by (rewrite Hfrm; cbn; by apply s32_id; lia).
  assert (Hal4 : k_alloc s4 = a) by (by rewrite Hfrm).
  split; [|done]. cbn [procs s3 with_avail_pid with_procs] in Hsame.
  apply (kinv_append s s4 l p n a extra); done || lia.
Qed.

Lemma kmemory_free_ok s live1 live2 loc size :
  client_inv kernel (k_alloc s, live1 ++ (loc / CHUNK_SIZE, size) :: live2) ->
  loc mod CHUNK_SIZE = 0 ->
  exists s', kmemory_free loc size s = Some s' /\
    client_inv kernel (k_alloc s', live1 ++ live2) /\
    s' = with_k_mem (k_mem s') (with_k_alloc (k_alloc s') s) /\
    modifies [(loc, size)] (k_mem s) (k_mem s').
Proof.
  intros HC Hal. unfold kmemory_free.
  destruct (client_free_in _ _ _ (loc / CHUNK_SIZE) size (k_mem s) HC) as (a & m & E); [apply in_elt|].
  replace (loc / CHUNK_SIZE * CHUNK_SIZE) with loc in E
    by (pose proof (Z.div_mod loc CHUNK_SIZE ltac:(done)); lia).
  rewrite E. eexists. split; [done|]. cbn [k_alloc k_mem with_k_mem with_k_alloc]. split; [|split; [done|]].
  - eapply client_step_free; [exact HC|].
    replace (loc / CHUNK_SIZE * CHUNK_SIZE) with loc; [exact E|].
    pose proof (Z.div_mod loc CHUNK_SIZE ltac:(done)). lia.
  - unfold memory_free in E. apply bind_Some in E as (a' & _ & [= _ <-]).
    destruct (inv_blocks _ _ HC (loc / CHUNK_SIZE, size)) as (H0 & Hm & Hs); [apply in_elt|].
    cbn [fst snd] in *. pose proof (chunks_of_bounds size Hs) as [Hn Hc].
    pose proof (Z.div_mod loc CHUNK_SIZE ltac:(done)). change MAP_CHUNKS with 262144 in Hm.
    unfold CHUNK_SIZE in *. intros x Hx. inversion_clear Hx as [|? ? Hx1]. cbn [fst snd] in Hx1.
    rewrite (memset_filled (k_mem s) loc 86 size) by lia.
    replace ((loc <=? x) && (x <? loc + size)) with false; [done|].
    symmetry. apply not_true_iff_false. rewrite andb_true_iff. lia.
Qed.

(** Free a block the process may not have. *)
Lemma kmemory_free_if s live1 live2 loc size :
  client_inv kernel (k_alloc s, live1 ++
    (if loc =? 0 then [] else [(loc / CHUNK_SIZE, size)]) ++ live2) ->
  loc mod CHUNK_SIZE = 0 ->
  exists s', (if negb (loc =? 0) then kmemory_free loc size s else Some s) = Some s' /\
    client_inv kernel (k_alloc s', live1 ++ live2) /\
    s' = with_k_mem (k_mem s') (with_k_alloc (k_alloc s') s) /\
    modifies (region_of loc size) (k_mem s) (k_mem s').
Proof.
  intros HC Hal. unfold region_of. destruct (loc =? 0); cbn [negb app] in *.
  - exists s. split; [done|]. split; [done|]. split; [by destruct s|done].
  - by apply kmemory_free_ok.
Qed.

(** The invariant once a block has left the list, the map and the
    allocator. *)
Lemma kinv_delete s s2 s' l1 p l2 q extra :
  kinv kernel s (l1 ++ p :: l2) -> procs s !! p = Some q -> plist s2 (l1 ++ l2) ->
  same_procs (delete p (procs s)) (delete p (procs s2)) ->
  procs s' = delete p (procs s2) -> proc_first s' = proc_first s2 ->
  avail_pid s' = avail_pid s ->
  client_inv kernel (k_alloc s', all_blocks (procs s) (l1 ++ l2) ++ extra) ->
  kinv kernel s' (l1 ++ l2).
Proof.
  intros K Hq (Hd & Hs & Hb) Hsame Hps Hpf Hav HC.
  assert (Hnin : ~ In p (l1 ++ l2)).
  { destruct (k_list _ _ _ K) as (Hd0 & _). apply NoDup_ListNoDup in Hd0.
    by apply NoDup_remove_2 in Hd0. }
  assert (Hold : forall x q', procs s' !! x = Some q' ->
    x <> p /\ exists q, procs s !! x = Some q /\ same_pcb q q').
  { intros x q' Hq'. rewrite Hps in Hq'.
    destruct (same_procs_lookup_back _ _ _ _ Hsame Hq') as (q0 & Hq0 & E).
    apply lookup_delete_Some in Hq0 as [? ?]. eauto. }
  split.
  - split; [done|]. rewrite Hps, Hpf. split; [by apply seg_delete|by apply back_delete].
  - intros x. transitivity (x <> p /\ is_Some (procs s !! x)).
    + specialize (Hsame x). rewrite Hps. destruct (decide (x = p)) as [->|Hx].
      * rewrite lookup_delete_eq. split; [by intros []|by intros []].
      * rewrite !lookup_delete_ne in * by done.
        destruct (procs s !! x), (procs s2 !! x); try done.
        split; [by intros []|by intros [_ []]].
    + rewrite (k_dom _ _ _ K x), !in_app_iff. cbn [In]. rewrite in_app_iff in Hnin.
      split; [intros [Hx [?|[->|?]]]; tauto|]. intros Hx. split; [|tauto].
      intros ->. tauto.
  - intros x q' Hq'. destruct (Hold x q' Hq') as (_ & q0 & Hq0 & E).
    destruct (same_pcb_fields _ _ E) as (-> & _). rewrite Hav. by apply (k_pids _ _ _ K x).
  - intros x1 x2 q1 q2 H1 H2 E.
    destruct (Hold x1 q1 H1) as (_ & p1 & Hp1 & E1).
    destruct (Hold x2 q2 H2) as (_ & p2 & Hp2 & E2).
    destruct (same_pcb_fields _ _ E1) as (F1 & _), (same_pcb_fields _ _ E2) as (F2 & _).
    apply (k_distinct _ _ _ K x1 x2 p1 p2); [done|done|congruence].
  - intros x q' Hq'. destruct (Hold x q' Hq') as (_ & q0 & Hq0 & E).
    destruct (same_pcb_fields _ _ E) as (_ & -> & -> & -> & -> & _). by apply (k_aligned _ _ _ K x).
  - intros x q' Hq' Hx. destruct (Hold x q' Hq') as (Hxp & q0 & Hq0 & E).
    apply (owns_same _ _ E). apply (k_owns _ _ _ K x q0 Hq0). intros Ex. apply Hx.
    assert (Hin : In x (l1 ++ l2)).
    { assert (Hxin : In x (l1 ++ p :: l2)) by (apply (k_dom _ _ _ K); eauto).
      rewrite in_app_iff in *. cbn [In] in Hxin. destruct Hxin as [?|[->|?]]; tauto. }
    destruct l1 as [|y l1].
    { exfalso. pose proof (k_list _ _ _ K) as HPK. destruct HPK as (_ & (Ef & _) & _). congruence. }
    rewrite Hpf. pose proof (k_list _ _ _ K) as HPK.
    destruct HPK as (_ & (Ef & _) & _), Hs as (Ef2 & _). congruence.
  - exists extra. rewrite Hps, (all_blocks_same _ _ _ Hsame).
    rewrite (all_blocks_ext (procs s)); [done|].
    intros x Hx. apply lookup_delete_ne. intros ->. by apply Hnin.
Qed.

Lemma process_destroy_ok s l1 p l2 q :
  kinv kernel s (l1 ++ p :: l2) -> procs s !! p = Some q -> owns q ->
  exists s', process_destroy s p = Some (0, s') /\ kinv kernel s' (l1 ++ l2) /\
    same_procs (delete p (procs s)) (procs s') /\ procs s' !! p = None /\
    released (k_alloc s) (k_alloc s') (blocks_of p q) /\
    modifies (regions_of p q) (k_mem s) (k_mem s') /\
    s' = with_procs (procs s') (with_proc_first (proc_first s')
           (with_k_alloc (k_alloc s') (with_k_mem (k_mem s') s))).
Proof.
  intros K Hq Hot. destruct (k_blocks _ _ _ K) as [extra HC].
  destruct (k_aligned _ _ _ K p q Hq) as (A1 & A2 & A3).
  destruct Hot as [Hos Hot]. destruct (owned_block _ _ Hos A2) as [A5 E5].
  destruct (owned_block _ _ Hot A3) as [A4 E4].
  unfold process_destroy. rewrite (upd_pcb_eq p _ _ q) by done. cbn [mbind option_bind].
  set (s1 := with_procs _ s).
  assert (HP1 : plist s1 (l1 ++ p :: l2)).
  { destruct (k_list _ _ _ K) as (Hd & Hs & Hb). split; [done|]. cbn. split.
    - by apply seg_insert_next with q.
    - apply back_insert; [|done]. intros _. by exists q. }
  destruct (process_remove_ok s1 l1 p l2 HP1) as (s2 & E2 & HP2 & Hsame & Hpp & Hfr2).
  bind_with E2. cbn [procs s1 with_procs] in Hpp, Hsame. rewrite lookup_insert_eq in Hpp.
  bind_with Hpp. cbn [stack stacksize text textsize set_valid].
  assert (Hal2 : k_alloc s2 = k_alloc s) by (by rewrite Hfr2).
  set (rest := all_blocks (procs s) (l1 ++ l2) ++ extra).
  assert (HC0 : client_inv kernel (k_alloc s2, blocks_of p q ++ rest)).
  { rewrite Hal2. revert HC. apply client_inv_perm. unfold rest.
    by rewrite app_assoc, all_blocks_mid. }
  pose proof HC0 as HCall. unfold blocks_of in HC0. rewrite E4, E5 in HC0. cbn [app] in HC0.
  rewrite <- app_assoc in HC0.
  destruct (kmemory_free_if s2 [(p / CHUNK_SIZE, sizeof_pcb)] _ (stack q) (stacksize q) HC0 A5)
    as (s3 & F3 & HC3 & Hfr3 & M3). bind_with F3.
  destruct (kmemory_free_if s3 [(p / CHUNK_SIZE, sizeof_pcb)] _ (text q) (textsize q) HC3 A4)
    as (s4 & F4 & HC4 & Hfr4 & M4). bind_with F4.
  destruct (kmemory_free_ok s4 [] rest p sizeof_pcb HC4 A1) as (s5 & F5 & HC5 & Hfr5 & M5).
  bind_with F5. cbn [app] in HC5.
  assert (Hps : procs s5 = procs s2 /\ proc_first s5 = proc_first s2).
  { rewrite Hfr5, Hfr4, Hfr3. done. }
  destruct Hps as [Hps Hpf].
  assert (Hnin : ~ In p (l1 ++ l2)).
  { destruct (k_list _ _ _ K) as (Hd & _). apply NoDup_ListNoDup in Hd.
    by apply NoDup_remove_2 in Hd. }
  eexists. split; [done|].
  assert (Hold : same_procs (delete p (procs s)) (delete p (procs s2))).
  { intros x. specialize (Hsame x). destruct (decide (x = p)) as [->|Hx].
    - by rewrite !lookup_delete_eq.
    - rewrite !lookup_delete_ne by done. by rewrite lookup_insert_ne in Hsame. }
  cbn [procs with_procs]. rewrite Hps.
  split; [|split; [done|split; [apply lookup_delete_eq|split; [|split]]]].
  - apply (kinv_delete s s2 _ l1 p l2 q extra K Hq HP2 Hold); cbn [procs with_procs
      proc_first avail_pid k_alloc]; [done|by rewrite <- Hpf| |exact HC5].
    rewrite Hfr5, Hfr4, Hfr3, Hfr2. done.
  - rewrite <- Hal2. cbn [k_alloc with_procs]. by eapply client_inv_released.
  - cbn [k_mem with_procs]. replace (k_mem s) with (k_mem s2) by (by rewrite Hfr2).
    unfold regions_of. transitivity (k_mem s4); [transitivity (k_mem s3)|];
      (eapply modifies_incl; [eassumption|]); intros x Hx; cbn in *; rewrite ?in_app_iff; tauto.
  - cbn [proc_first with_procs k_alloc k_mem]. rewrite Hfr5, Hfr4, Hfr3, Hfr2.
    by destruct s.
Qed.
End Lifetime.

(** ** Properties *)

(** C10. Creating a process either finds no memory, returns NULL and changes
    nothing, or returns a block that was not in the table: appended to the
    process list, sleeping, with the next process id, no stack and no text; the
    invariant of the table (list, ids, memory ownership) holds again and no
    other process changes but for a list link. *)
Theorem process_create_inv `{MemFill} kernel s l :
  kinv kernel s l -> 0 <= avail_pid s < 2 ^ 31 - 1 ->
  exists p s', process_create s = Some (p, s') /\
    if p =? 0 then s' = with_k_alloc (k_alloc s) s
    else ~ In p l /\ kinv kernel s' (l ++ [p]) /\ avail_pid s' = avail_pid s + 1 /\
         (exists q, procs s' !! p = Some q /\ pid q = avail_pid s /\
            status q = PROCESS_STATUS_SLEEPING /\ stack q = 0 /\ text q = 0) /\
         (forall x q, procs s !! x = Some q -> exists q', procs s' !! x = Some q' /\
            same_pcb q q').
Proof.
  intros K Hav. destruct (process_create_ok kernel s l K Hav) as (p & s' & E & Hcase).
  exists p, s'. split; [done|]. destruct Hcase as [[-> ->]|(Hp & Hnin & K' & Hav' & _ & Hs)].
  - done.
  - rewrite (proj2 (Z.eqb_neq p 0)) by done. split; [done|]. split; [done|]. split; [done|].
    split.
    + destruct (same_procs_lookup _ _ p _ Hs (lookup_insert_eq _ _ _)) as (q & Hq & E').
      destruct (same_pcb_fields _ _ E') as (F1 & F2 & _ & F4 & _ & F6 & _).
      destruct (new_pcb_fields (s32 (ticks s)) (avail_pid s)) as (N1 & N2 & N3 & N4 & _).
      exists q. repeat split; congruence.
    + intros x q Hq. assert (Hx : In x l) by (apply (k_dom _ _ _ K); eauto).
      apply (same_procs_lookup _ _ x q Hs). rewrite lookup_insert_ne; [done|].
      intros ->. contradiction.
Qed.

(** C13. Destroying a process whose stack and text, if it has them, have a size
    takes it out of the process list wherever it stands, gives its stack, its
    text and its control block back to the allocator, whose used chunks are
    then the ones from before but for exactly these blocks; it writes into these
    blocks only, and returns 0; its address no longer names a process, the other
    processes keep everything but their list links, and the invariant of the
    table, memory ownership included, holds again. *)
Theorem process_destroy_inv `{MemFill} kernel s l1 p l2 :
  kinv kernel s (l1 ++ p :: l2) ->
  owned (fld stack s p) (fld stacksize s p) -> owned (fld text s p) (fld textsize s p) ->
  exists s', process_destroy s p = Some (0, s') /\ kinv kernel s' (l1 ++ l2) /\
    procs s' !! p = None /\ current_process s' = current_process s /\
    released (k_alloc s) (k_alloc s') ((p / CHUNK_SIZE, sizeof_pcb) ::
      block_of (fld stack s p) (fld stacksize s p) ++ block_of (fld text s p) (fld textsize s p)) /\
    modifies ((p, sizeof_pcb) :: region_of (fld stack s p) (fld stacksize s p) ++
      region_of (fld text s p) (fld textsize s p)) (k_mem s) (k_mem s') /\
    (forall x q, x <> p -> procs s !! x = Some q ->
       exists q', procs s' !! x = Some q' /\ same_pcb q q').
Proof.
  intros K Hos Hot. destruct (proj2 (k_dom _ _ _ K p)) as [q Hq]; [apply in_elt|].
  unfold fld in *. rewrite Hq in *.
  destruct (process_destroy_ok kernel s l1 p l2 q K Hq (conj Hos Hot)) as (s' & E & K' & Hs & Hp & Hrel & Hm & Hfr).
  exists s'. split; [done|]. split; [done|]. split; [done|].
  split; [by rewrite Hfr|]. split; [exact Hrel|]. split; [exact Hm|]. intros x q0 Hx Hq0.
  apply (same_procs_lookup _ _ x q0 Hs). by rewrite lookup_delete_ne.
Qed.

(** The walks of the process list end and see every process once:
    [process_lookup] finds exactly the process with the id, NULL for an id no
    process has; [process_lookup_child] the first other process of the list
    whose parent is the caller, NULL if there is none; [process_get_totals]
    counts the processes and those that are ready. *)
Theorem process_walks kernel s l :
  kinv kernel s l -> Z.of_nat (length l) < 2 ^ 31 ->
  (forall p q, procs s !! p = Some q -> process_lookup s (pid q) = Some p) /\
  (forall w, (forall p q, procs s !! p = Some q -> pid q <> w) ->
     process_lookup s w = Some 0) /\
  (forall c, process_lookup_child s c
     = Some (default 0 (List.find (fun a => negb (a =? c) && (fld parent s a =? c)) l))) /\
  (l <> [] -> process_get_totals s = Some (Z.of_nat (length l),
     Z.of_nat (length (List.filter (fun a => fld status s a =? PROCESS_STATUS_READY) l)))).
Proof.
  intros K Hl. pose proof (plist_fuel _ _ (k_list _ _ _ K)) as Hf.
  destruct (k_list _ _ _ K) as (_ & Hs & _).
  assert (E : forall w, process_lookup s w
            = Some (default 0 (List.find (fun a => fld pid s a =? w) l)))
    by (intros w; by apply process_lookup_loop_ok).
  split; [|split; [|split]].
  - intros p q Hq. rewrite E. destruct (List.find _ l) as [p'|] eqn:Ef.
    + apply find_some in Ef as [Hin Ef]. b2p.
      destruct (proj2 (k_dom _ _ _ K p') Hin) as [q' Hq']. unfold fld in Ef.
      rewrite Hq' in Ef. cbn in Ef. cbn. f_equal. by apply (k_distinct _ _ _ K p' p q' q).
    + exfalso. eapply find_none in Ef; [|apply (k_dom _ _ _ K p); eauto].
      cbn in Ef. unfold fld in Ef. rewrite Hq in Ef. cbn in Ef. b2p. done.
  - intros w Hw. rewrite E. destruct (List.find _ l) as [p'|] eqn:Ef; [|done].
    apply find_some in Ef as [Hin Ef]. b2p.
    destruct (proj2 (k_dom _ _ _ K p') Hin) as [q' Hq']. unfold fld in Ef.
    rewrite Hq' in Ef. exfalso. by apply (Hw p' q').
  - intros c. by apply process_lookup_child_loop_ok.
  - intros Hne. unfold process_get_totals.
    by rewrite (process_get_totals_loop_ok s l) by (done || lia).
Qed.

(** ** A small machine *)

Definition boot_alloc : alloc :=
  match memory_init alloc_bss 1048576 9000 with Some (_, a) => a | None => alloc_bss end.

Lemma boot_alloc_inv : client_inv (kernel_chunk 9000) (boot_alloc, []).
Proof.
  unfold boot_alloc, alloc_bss.
  by destruct (memory_init_inv 0 1048576 9000 ltac:(by vm_compute) ltac:(by vm_compute)) as (a & -> & H).
Qed.

(** The state before the first process: a board of 1 MB. *)
Definition boot : kstate :=
  Kstate ∅ 0 0 0 boot_alloc (fun _ => 0) 7 [] 0 0 0.

Lemma boot_inv : kinv (kernel_chunk 9000) boot [].
Proof.
  split.
  - split; [constructor|]. done.
  - intros p. cbn. rewrite lookup_empty. split; [by intros []|done].
  - intros p q Hq. cbn in Hq. by rewrite lookup_empty in Hq.
  - intros p1 p2 q1 q2 Hq. cbn in Hq. by rewrite lookup_empty in Hq.
  - intros p q Hq. cbn in Hq. by rewrite lookup_empty in Hq.
  - intros p q Hq. cbn in Hq. by rewrite lookup_empty in Hq.
  - exists []. exact boot_alloc_inv.
Qed.

(** With one process, at chunk 3. *)
Lemma boot_create :
  exists s, process_create boot = Some (12288, s) /\ kinv (kernel_chunk 9000) s [12288] /\
    avail_pid s = 1.
Proof.
  destruct (process_create_ok _ boot [] boot_inv) as (p & s & E & Hc); [by vm_compute|].
  assert (Ep : option_map fst (process_create boot) = Some 12288) by (by vm_compute).
  rewrite E in Ep. injection Ep as ->. exists s.
  destruct Hc as [[Hp _]|(_ & _ & K & Hav & _)]; [discriminate Hp|].
  split; [exact E|]. split; [exact K|exact Hav].
Qed.

Lemma process_create_inv_witness :
  exists s s', process_create boot = Some (12288, s) /\ process_create s = Some (20480, s') /\
    kinv (kernel_chunk 9000) s' [12288; 20480].
Proof.
  destruct boot_create as (s & E & K & Hav).
  destruct (process_create_inv (kernel_chunk 9000) s [12288] K) as (p & s' & E' & Hc);
    [rewrite Hav; lia|].
  assert (Ep : (r ← process_create boot; option_map fst (process_create (snd r))) = Some 20480)
    by (by vm_compute).
  rewrite E in Ep. cbn in Ep. rewrite E' in Ep. injection Ep as ->.
  exists s, s'. destruct Hc as (_ & K' & _). split; [exact E|]. split; [exact E'|exact K'].
Defined.

Lemma process_destroy_inv_witness :
  exists s s', process_create boot = Some (12288, s) /\ process_destroy s 12288 = Some (0, s') /\
    kinv (kernel_chunk 9000) s' [] /\ used (k_alloc s) 3 = true /\ used (k_alloc s') 3 = false.
Proof.
  destruct boot_create as (s & E & K & _).
  destruct (process_destroy_inv (kernel_chunk 9000) s [] 12288 [] K) as (s' & E' & K' & _ & _ & Hr & _ & _).
  1, 2: left.
  { assert (Et : (r ← process_create boot; Some (fld stack (snd r) 12288)) = Some 0)
      by (by vm_compute). rewrite E in Et. by injection Et. }
  { assert (Et : (r ← process_create boot; Some (fld text (snd r) 12288)) = Some 0)
      by (by vm_compute). rewrite E in Et. by injection Et. }
  exists s, s'. split; [exact E|]. split; [exact E'|]. split; [exact K'|]. split.
  - assert (Eu : (r ← process_create boot; Some (used (k_alloc (snd r)) 3)) = Some true)
      by (by vm_compute). rewrite E in Eu. by injection Eu.
  - rewrite Hr by lia. by rewrite andb_false_r.
Defined.

Lemma process_walks_witness :
  exists s, process_create boot = Some (12288, s) /\ process_lookup s 5 = Some 0 /\
    process_get_totals s = Some (1, Z.of_nat (length (List.filter
      (fun a => fld status s a =? PROCESS_STATUS_READY) [12288]))).
Proof.
  destruct boot_create as (s & E & K & Hav). exists s. split; [done|].
  destruct (process_walks (kernel_chunk 9000) s [12288] K) as (_ & H2 & _ & H4);
    [by vm_compute|].
  split; [|by apply H4]. apply H2. intros p q Hq Hp.
  pose proof (k_pids _ _ _ K p q Hq). lia.
Defined.

(** ** Steps that keep the structure

    What the invariant of the table depends on, in one block: the size of a
    stack or text counts where there is one. *)
Definition core (q : pcb) : Z * Z * Z * Z * Z * Z * Z :=
  (next q, prev q, pid q, stack q, if stack q =? 0 then 0 else stacksize q,
   text q, if text q =? 0 then 0 else textsize q).

(** The same blocks with the same [core], the same list head, next id and
    allocator. *)
Record evolves (s s' : kstate) : Prop := {
  ev_first : proc_first s' = proc_first s;
  ev_avail : avail_pid s' = avail_pid s;
  ev_alloc : k_alloc s' = k_alloc s;
  ev_procs : forall a, match procs s !! a, procs s' !! a with
                       | Some q, Some q' => core q = core q'
                       | None, None => True
                       | _, _ => False
                       end }.

#[global] Instance evolves_preorder : PreOrder evolves.
Proof.
  split.
  - intros s. split; try done. intros a. by destruct (procs s !! a).
  - intros s1 s2 s3 [A1 B1 C1 D1] [A2 B2 C2 D2]. split; [congruence..|].
    intros a. specialize (D1 a). specialize (D2 a).
    destruct (procs s1 !! a), (procs s2 !! a), (procs s3 !! a); congruence || done.
Qed.

Lemma evolves_upd s p q q' :
  procs s !! p = Some q -> core q' = core q ->
  evolves s (with_procs (<[p := q']> (procs s)) s).
Proof.
  intros Hq Hc. split; try done. intros a. cbn. destruct (decide (a = p)) as [->|].
  - by rewrite Hq, lookup_insert_eq.
  - rewrite lookup_insert_ne by done. by destruct (procs s !! a).
Qed.

Lemma evolves_lookup s s' p q :
  evolves s s' -> procs s !! p = Some q -> exists q', procs s' !! p = Some q' /\ core q = core q'.
Proof.
  intros H Hq. pose proof (ev_procs _ _ H p) as Hp. rewrite Hq in Hp.
  destruct (procs s' !! p); [eauto|done].
Qed.

Lemma evolves_lookup_back s s' p q' :
  evolves s s' -> procs s' !! p = Some q' -> exists q, procs s !! p = Some q /\ core q = core q'.
Proof.
  intros H Hq. pose proof (ev_procs _ _ H p) as Hp. rewrite Hq in Hp.
  destruct (procs s !! p); [eauto|done].
Qed.

Lemma seg_evolves s s' l : forall f g,
  evolves s s' -> seg (procs s) f l g -> seg (procs s') f l g.
Proof.
  induction l as [|x l IH]; intros f g H Hs; [done|].
  destruct Hs as (-> & Hx & q & Hq & Hs). split; [done|]. split; [done|].
  destruct (evolves_lookup _ _ _ _ H Hq) as (q' & Hq' & E). exists q'. split; [done|].
  injection E as <- _ _ _ _ _ _. by apply IH.
Qed.

Lemma back_evolves s s' l : evolves s s' -> back (procs s) l -> back (procs s') l.
Proof.
  intros H. induction l as [|a [|b l] IH]; intros Hb; [done|done|].
  apply back_cons in Hb as [(q & Hq & Ep) Hb]. apply back_cons. split; [|by apply IH].
  destruct (evolves_lookup _ _ _ _ H Hq) as (q' & Hq' & E). exists q'. split; [done|].
  injection E as _ Eprev _ _ _ _ _. congruence.
Qed.

Lemma plist_evolves s s' l : evolves s s' -> plist s l -> plist s' l.
Proof.
  intros H (Hd & Hs & Hb). split; [done|]. rewrite (ev_first _ _ H).
  split; [by eapply seg_evolves|by eapply back_evolves].
Qed.

Lemma all_blocks_evolves s s' l :
  evolves s s' -> all_blocks (procs s') l = all_blocks (procs s) l.
Proof.
  intros H. unfold all_blocks. f_equal. apply map_ext. intros p. unfold blocks.
  pose proof (ev_procs _ _ H p) as Hp. destruct (procs s !! p), (procs s' !! p); try done.
  injection Hp as _ _ _ E1 E2 E3 E4. unfold blocks_of, block_of. rewrite E1, E3 in *.
  destruct (stack p1 =? 0), (text p1 =? 0); cbn [orb]; by rewrite ?E2, ?E4.
Qed.

Lemma kinv_evolves kernel s s' l : evolves s s' -> kinv kernel s l -> kinv kernel s' l.
Proof.
  intros H K. split.
  - eapply plist_evolves; [done|apply K].
  - intros p. rewrite <- (k_dom _ _ _ K p). pose proof (ev_procs _ _ H p) as Hp.
    destruct (procs s !! p), (procs s' !! p); try done;
      split; intros [? E]; try done; by eexists.
  - intros p q' Hq'. destruct (evolves_lookup_back _ _ _ _ H Hq') as (q & Hq & E).
    injection E as _ _ <- _ _ _ _. rewrite (ev_avail _ _ H). by apply (k_pids _ _ _ K p).
  - intros p1 p2 q1' q2' H1 H2 Ep.
    destruct (evolves_lookup_back _ _ _ _ H H1) as (q1 & Hq1 & E1).
    destruct (evolves_lookup_back _ _ _ _ H H2) as (q2 & Hq2 & E2).
    injection E1 as _ _ E1 _ _ _ _. injection E2 as _ _ E2 _ _ _ _.
    apply (k_distinct _ _ _ K p1 p2 q1 q2); [done|done|congruence].
  - intros p q' Hq'. destruct (evolves_lookup_back _ _ _ _ H Hq') as (q & Hq & E).
    injection E as _ _ _ E1 E2 E3 E4. rewrite <- E1, <- E3 in *.
    destruct (k_aligned _ _ _ K p q Hq) as (A1 & A2 & A3). split; [done|]. split.
    + destruct (stack q =? 0) eqn:Et; b2p; [right; by rewrite Et|]. by rewrite <- E2.
    + destruct (text q =? 0) eqn:Et; b2p; [right; by rewrite Et|]. by rewrite <- E4.
  - intros p q' Hq' Hp. rewrite (ev_first _ _ H) in Hp.
    destruct (evolves_lookup_back _ _ _ _ H Hq') as (q & Hq & E).
    injection E as _ _ _ E1 E2 E3 E4. unfold owns, owned. rewrite <- E1, <- E3 in *.
    destruct (k_owns _ _ _ K p q Hq Hp) as [O1 O2]. split.
    + destruct (stack q =? 0) eqn:Et; b2p; [by left|]. by rewrite <- E2.
    + destruct (text q =? 0) eqn:Et; b2p; [by left|]. by rewrite <- E4.
  - destruct (k_blocks _ _ _ K) as [extra HC]. exists extra.
    by rewrite (ev_alloc _ _ H), (all_blocks_evolves _ _ _ H).
Qed.

(** ** Giving a process new memory

    The blocks a process owned before stay allocated; [kinv] counts them as
    leaked. *)
Lemma kinv_replace kernel s l p q q' a new extra :
  kinv kernel s l -> procs s !! p = Some q ->
  next q' = next q -> prev q' = prev q -> pid q' = pid q ->
  stacksize q' = 0 \/ stack q' mod CHUNK_SIZE = 0 ->
  textsize q' = 0 \/ text q' mod CHUNK_SIZE = 0 ->
  p = proc_first s \/ owns q' ->
  Permutation (new ++ extra)
    (block_of (stack q') (stacksize q') ++ block_of (text q') (textsize q') ++ extra) ->
  (forall old, client_inv kernel (k_alloc s, all_blocks (procs s) l ++ old) ->
     client_inv kernel (a, new ++ extra ++ all_blocks (procs s) l ++ old)) ->
  kinv kernel (with_k_alloc a (with_procs (<[p := q']> (procs s)) s)) l.
Proof.
  intros K Hq En Ep Ei As At Ho Hperm HA.
  assert (Hin : In p l) by (apply (k_dom _ _ _ K); eauto).
  assert (Hold : forall x r, <[p := q']> (procs s) !! x = Some r ->
    (x = p /\ r = q') \/ (x <> p /\ procs s !! x = Some r)).
  { intros x r Hr. destruct (decide (x = p)) as [->|Hx].
    - rewrite lookup_insert_eq in Hr. injection Hr as <-. by left.
    - rewrite lookup_insert_ne in Hr by done. by right. }
  assert (Hpid : forall x r, <[p := q']> (procs s) !! x = Some r ->
    exists r0, procs s !! x = Some r0 /\ pid r = pid r0).
  { intros x r Hr. destruct (Hold x r Hr) as [[-> ->]|[_ Hr0]]; eauto. }
  destruct (k_list _ _ _ K) as (Hd & Hs & Hb). split; cbn [procs with_k_alloc with_procs
    proc_first avail_pid k_alloc].
  - split; [done|]. cbn. split; [by apply seg_insert_next with q|].
    apply back_insert; [|done]. intros _. by exists q.
  - intros x. rewrite <- (k_dom _ _ _ K x). destruct (decide (x = p)) as [->|Hx].
    + rewrite lookup_insert_eq, Hq. split; eauto.
    + by rewrite lookup_insert_ne.
  - intros x r Hr. destruct (Hpid x r Hr) as (r0 & Hr0 & ->). by apply (k_pids _ _ _ K x).
  - intros x1 x2 r1 r2 H1 H2 E. destruct (Hpid x1 r1 H1) as (s1 & F1 & E1).
    destruct (Hpid x2 r2 H2) as (s2 & F2 & E2).
    apply (k_distinct _ _ _ K x1 x2 s1 s2); [done|done|congruence].
  - intros x r Hr. destruct (Hold x r Hr) as [[-> ->]|[_ Hr0]].
    + destruct (k_aligned _ _ _ K p q Hq). done.
    + by apply (k_aligned _ _ _ K x).
  - intros x r Hr Hx. destruct (Hold x r Hr) as [[-> ->]|[_ Hr0]].
    + by destruct Ho.
    + by apply (k_owns _ _ _ K x).
  - destruct (k_blocks _ _ _ K) as [old HC].
    exists (extra ++ (block_of (stack q) (stacksize q) ++ block_of (text q) (textsize q)) ++ old).
    specialize (HA old HC). revert HA. apply client_inv_perm.
    apply in_split in Hin as (l1 & l2 & ->).
    rewrite <- (all_blocks_mid (<[p:=q']> (procs s)) l1 p q' l2) by apply lookup_insert_eq.
    rewrite <- (all_blocks_mid (procs s) l1 p q l2) by done.
    rewrite (all_blocks_ext (procs s) (<[p:=q']> (procs s)) (l1 ++ l2)).
    2:{ intros x Hx. apply lookup_insert_ne. intros ->. apply NoDup_ListNoDup in Hd.
        by apply NoDup_remove_2 in Hd. }
    rewrite (app_assoc new), Hperm. unfold blocks_of. cbn [app].
    rewrite <- !app_assoc. solve_Permutation.
Qed.

Lemma evolves_with_k_mem s m : evolves s (with_k_mem m s).
Proof. split; try done. intros a. cbn. by destruct (procs s !! a). Qed.

(** Memory allocated and not (yet) given to a process. *)
Lemma kinv_leak kernel s l size b a :
  kinv kernel s l -> 0 <= size < 2 ^ 32 -> memory_allocate (k_alloc s) size = Some (b, a) ->
  kinv kernel (with_k_alloc a s) l.
Proof.
  intros K Hs Ea. destruct (k_blocks _ _ _ K) as [extra HC].
  destruct K as [K1 K2 K3 K4 K5 K6 _]. split; try done. cbn [k_alloc with_k_alloc procs].
  destruct (client_step_allocate _ _ _ _ _ _ HC Hs Ea) as [[_ ->]|(_ & _ & HC')]; [by exists extra|].
  exists ((b / CHUNK_SIZE, eff_size size) :: extra). revert HC'. apply client_inv_perm.
  by rewrite Permutation_middle.
Qed.
