(* ===== verification/Sched.v ===== *)
(** * Scheduling and blocking: kernel/processes/scheduler.c, process_save and
      process_switch of process.c, waitqueue.c, waitpid.c, vfork.c and
      kernel/syscalls/exit.c

    [schedule] is the state at the moment the chosen process runs: [cpu] holds
    its registers, [current_process] its block.  A call that blocks inside a
    loop ([waitpid]) says so in its result; the process re-enters the loop when
    it is scheduled again. *)

From stdpp Require Import base list numbers gmap.
From Stdlib Require Import ZArith Lia.
From S2P Require Import Prelude CString PageAlloc Process.

(** ** Context switch

    [kernel_state] lies 68 bytes into the block; [r2] holds its address when
    the registers are stored.  Index 15 of [cpu] is the SPSR. *)

Definition process_save (s : kstate) (proc new_stack : Z) : option kstate :=
  upd_pcb proc
    (set_kernel_state (<[13%nat := new_stack]> (<[2%nat := proc + 68]> (cpu s)))) s.

Definition process_switch (s : kstate) (old new : Z) : option kstate :=
  s1 ← upd_pcb old (set_kernel_state (<[2%nat := old + 68]> (cpu s))) s;
  q ← procs s1 !! new;
  Some (with_cpu (kernel_state q) (with_current_process new s1)).

(** ** scheduler.c *)

(** The search; [fuel] iterations of the [while(1)]. *)
Fixpoint schedule_loop (fuel : nat) (s : kstate) (orig_proc proc : Z) : option Z :=
  match fuel with
  | O => None
  | S f =>
      q ← procs s !! proc;
      let proc1 := next q in
      head ← procs s !! proc_first s;
      let wrapped := proc1 =? 0 in
      let proc2 := if wrapped then next head else proc1 in
      if wrapped && (proc2 =? 0) then Some (proc_first s)
      else
        r ← procs s !! proc2;
        if status r =? PROCESS_STATUS_READY then Some proc2
        else if proc2 =? orig_proc then Some (proc_first s)
        else schedule_loop f s orig_proc proc2
  end.

(** Time accounting and the switch, once [proc] is chosen. *)
Definition schedule_to (s : kstate) (proc : Z) : option kstate :=
  let cur := current_process s in
  s1 ← upd_pcb cur (fun c => set_total_time
         (s32 (total_time c + s32 (ticks s - last_scheduled c))) c) s;
  s2 ← upd_pcb proc (set_last_scheduled (s32 (ticks s))) s1;
  if negb (proc =? cur) then process_switch s2 cur proc else Some s2.

Definition schedule (s : kstate) : option kstate :=
  let cur := current_process s in
  if cur =? proc_first s then
    q ← procs s !! cur;
    if next q =? 0 then Some s
    else proc ← schedule_loop (S (list_fuel s)) s (next q) (next q); schedule_to s proc
  else proc ← schedule_loop (S (list_fuel s)) s cur cur; schedule_to s proc.

Definition sched_yield (s : kstate) : option (Z * kstate) :=
  s' ← schedule s; Some (0, s').

(** ** waitqueue.c *)

(** The three queues of the kernel. *)
Inductive queue := waitpid_wait_queue | console_wait_queue | timer_wait_queue.

#[global] Instance queue_eq_dec : EqDecision queue.
Proof. solve_decision. Defined.

Definition first (q : queue) (s : kstate) : Z :=
  match q with
  | waitpid_wait_queue => waitpid_first s
  | console_wait_queue => console_first s
  | timer_wait_queue => timer_first s
  end.

Definition with_first (q : queue) (v : Z) (s : kstate) : kstate :=
  match q with
  | waitpid_wait_queue => with_waitpid_first v s
  | console_wait_queue => with_console_first v s
  | timer_wait_queue => with_timer_first v s
  end.

(** The walk to the end of the queue, or to [proc] itself. *)
Fixpoint wait_queue_append (fuel : nat) (s : kstate) (proc next : Z) : option kstate :=
  match fuel with
  | O => None
  | S f =>
      if next =? proc then Some s
      else
        q ← procs s !! next;
        if wait_queue_next q =? 0 then upd_pcb next (set_wait_queue_next proc) s
        else wait_queue_append f s proc (wait_queue_next q)
  end.

(** [wait_queue_add] up to its call of [schedule]. *)
Definition wait_queue_enter (s : kstate) (q : queue) (proc : Z) : option kstate :=
  s1 ← (if first q s =? 0 then Some (with_first q proc s)
        else wait_queue_append (list_fuel s) s proc (first q s));
  upd_pcb proc (set_status PROCESS_STATUS_SLEEPING) s1.

Definition wait_queue_add (s : kstate) (q : queue) (proc : Z) : option (Z * kstate) :=
  s1 ← wait_queue_enter s q proc;
  s2 ← schedule s1; Some (0, s2).

Fixpoint wait_queue_wake_loop (fuel : nat) (s : kstate) (proc : Z) : option kstate :=
  match fuel with
  | O => None
  | S f =>
      if proc =? 0 then Some s
      else
        s1 ← upd_pcb proc (set_status PROCESS_STATUS_READY) s;
        q ← procs s1 !! proc;
        let next_proc := wait_queue_next q in
        s2 ← upd_pcb proc (set_wait_queue_next 0) s1;
        wait_queue_wake_loop f s2 next_proc
  end.

Definition wait_queue_wake (s : kstate) (q : queue) : option (Z * kstate) :=
  s1 ← wait_queue_wake_loop (list_fuel s) s (first q s);
  Some (0, with_first q 0 s1).

(** ** waitpid.c *)

Definition WNOHANG : Z := 1.

Definition waitpid_done (s : kstate) : option (Z * kstate) :=
  '(_, s1) ← wait_queue_wake s waitpid_wait_queue; Some (0, s1).

(** A call returns a value, or sleeps in the loop that waits for [proc]. *)
Inductive wait_result := Returned (v : Z) | Blocked (proc : Z).

Section Waitpid.
Context `{MemFill}.

Definition store_wstatus (wstatus v : Z) (s : kstate) : kstate :=
  if negb (wstatus =? 0) then with_k_mem (store32 (k_mem s) wstatus (u32 v)) s else s.

(** The loop test [while (proc->status!=PROCESS_STATUS_EXITED)] and what
    follows it; re-entered each time the sleeping caller runs again. *)
Definition waitpid_loop (s : kstate) (proc wait_pid wstatus : Z)
    : option (wait_result * kstate) :=
  p ← procs s !! proc;
  if negb (status p =? PROCESS_STATUS_EXITED) then
    '(_, s1) ← wait_queue_add s waitpid_wait_queue (current_process s);
    Some (Blocked proc, s1)
  else
    let s1 := store_wstatus wstatus (exit_value p) s in
    '(_, s2) ← process_destroy s1 proc;
    Some (Returned wait_pid, s2).

Definition waitpid_nohang (s : kstate) (proc wstatus : Z) : option (wait_result * kstate) :=
  p ← procs s !! proc;
  if status p =? PROCESS_STATUS_EXITED then
    let s1 := store_wstatus wstatus (exit_value p) s in
    '(_, s2) ← process_destroy s1 proc;
    Some (Returned (pid p), s2)
  else Some (Returned 0, s).

Definition waitpid (s : kstate) (wait_pid wstatus options caller : Z)
    : option (wait_result * kstate) :=
  let wait s proc :=
    if options =? WNOHANG then waitpid_nohang s proc wstatus
    else waitpid_loop s proc wait_pid wstatus in
  if wait_pid =? -1 then
    proc ← process_lookup_child s caller;
    if proc =? 0 then Some (Returned (- ECHILD), s) else wait s proc
  else if wait_pid <? 0 then Some (Returned (- ENODEV), s)
  else proc ← process_lookup s wait_pid; wait s proc.

(** ** syscalls/exit.c *)

Definition exit (s : kstate) (v : Z) : option kstate :=
  s1 ← upd_pcb (current_process s)
         (fun q => set_exit_value v (set_status PROCESS_STATUS_EXITED q)) s;
  '(_, s2) ← waitpid_done s1;
  schedule s2.

(** ** vfork.c *)

(** The end of [vfork], which the parent reaches first and the child when it
    is switched to: the parent schedules and later returns the child's pid. *)
Definition vfork_return (s : kstate) (parent child_pid : Z) : option (Z * kstate) :=
  if current_process s =? parent then s1 ← schedule s; Some (child_pid, s1)
  else Some (0, s).

Definition vfork (s : kstate) : option (Z * kstate) :=
  let parent := current_process s in
  '(child, s1) ← process_create s;
  if child =? 0 then Some (-1, s1)
  else
    c ← procs s1 !! child;
    p ← procs s1 !! parent;
    let child_pid := pid c in
    let s2 := with_k_mem (memcpy (k_mem s1) child parent sizeof_pcb)
                (with_procs (<[child := p]> (procs s1)) s1) in
    s3 ← upd_pcb child (fun q => set_next (next c) (set_prev (prev c)
                                   (set_pid child_pid q))) s2;
    s4 ← upd_pcb child (fun q => set_text 0 (set_stack 0 (set_parent parent q))) s3;
    s5 ← upd_pcb parent (set_status PROCESS_STATUS_SLEEPING) s4;
    s6 ← upd_pcb child (set_status PROCESS_STATUS_READY) s5;
    let r13 := nth 13 (cpu s6) 0 in
    let old_stack_offset := s32 (r13 - parent) in
    let new_stack := u32 (child + old_stack_offset) in
    s7 ← process_save s6 child new_stack;
    vfork_return s7 parent child_pid.
End Waitpid.

(** ** The search is round robin *)

Section Search.
Context (s : kstate) (idle o : Z) (r1 r2 : list Z).
Context (HP : plist s (idle :: r1 ++ o :: r2)).

Definition ready (a : Z) : bool := fld status s a =? PROCESS_STATUS_READY.

(** The next link of a block of the list. *)
Lemma next_of a p t :
  idle :: r1 ++ o :: r2 = a ++ p :: t ->
  p <> 0 /\ exists q, procs s !! p = Some q /\ next q = hd 0 t.
Proof.
  intros E. destruct HP as (_ & Hs & _). rewrite E in Hs.
  apply seg_app in Hs as (h & _ & -> & Hp & q & Hq & Hs). split; [done|].
  exists q. split; [done|]. destruct t; [done|]. apply Hs.
Qed.

Lemma search_nodup : NoDup (idle :: r1 ++ o :: r2).
Proof. apply HP. Qed.

Lemma search_head : proc_first s = idle /\
  exists q, procs s !! idle = Some q /\ next q = hd 0 (r1 ++ [o]) /\ next q <> 0.
Proof.
  destruct HP as (_ & Hs & _). destruct Hs as (-> & Hi & q & Hq & Hs).
  split; [done|]. exists q. split; [done|]. destruct r1; cbn in *; destruct Hs as (-> & ? & _); done.
Qed.

(** One step to a block [x] that is in the list. *)
Lemma schedule_loop_step fuel p q x t :
  procs s !! p = Some q -> next q = x ->
  (exists a, idle :: r1 ++ o :: r2 = a ++ x :: t) ->
  schedule_loop (S fuel) s o p
  = if ready x then Some x else if x =? o then Some idle else schedule_loop fuel s o x.
Proof.
  intros Hq Hn [a E]. destruct (next_of a x t E) as (Hx & qx & Hqx & _).
  destruct search_head as (Ef & qf & Hqf & _).
  cbn [schedule_loop]. bind_with Hq. rewrite Ef. bind_with Hqf.
  rewrite Hn, (proj2 (Z.eqb_neq x 0)) by done. cbn [andb]. bind_with Hqx.
  unfold ready, fld. by rewrite Hqx.
Qed.

(** After the wrap, towards [o]. *)
Lemma schedule_loop_wrapped v : forall fuel p u w,
  r1 ++ o :: r2 = u ++ p :: v ++ o :: w -> ~ In o v -> (length v < fuel)%nat ->
  schedule_loop fuel s o p = Some (default idle (List.find ready (v ++ [o]))).
Proof.
  induction v as [|x v IH]; intros [|fuel] p u w E Ho Hf; cbn [length app] in *; try lia.
  - destruct (next_of (idle :: u) p (o :: w)) as (_ & q & Hq & Hn); [by rewrite E|].
    rewrite (schedule_loop_step _ p q o w Hq Hn).
    2:{ exists (idle :: u ++ [p]). rewrite E. cbn. by rewrite <- app_assoc. }
    cbn [List.find]. rewrite Z.eqb_refl. by destruct (ready o).
  - destruct (next_of (idle :: u) p (x :: v ++ o :: w)) as (_ & q & Hq & Hn); [by rewrite E|].
    rewrite (schedule_loop_step _ p q x (v ++ o :: w) Hq Hn).
    2:{ exists (idle :: u ++ [p]). rewrite E. cbn. by rewrite <- app_assoc. }
    cbn [In] in Ho. cbn [List.find]. destruct (ready x); [done|].
    rewrite (proj2 (Z.eqb_neq x o)) by (intros ->; tauto).
    apply (IH fuel x (u ++ [p]) w); [by rewrite <- app_assoc|tauto|lia].
Qed.

(** From [p], behind or at [o], to the end of the list, then around. *)
Lemma schedule_loop_ok v : forall fuel p u,
  r1 ++ o :: r2 = u ++ p :: v -> ~ In o v ->
  (length v + length r1 + 1 < fuel)%nat ->
  schedule_loop fuel s o p
  = Some (default idle (List.find ready (v ++ r1 ++ [o]))).
Proof.
  induction v as [|x v IH]; intros [|fuel] p u E Ho Hf; cbn [length app] in *; try lia.
  - destruct (next_of (idle :: u) p []) as (Hp & q & Hq & Hn); [by rewrite E|].
    destruct search_head as (Ef & qf & Hqf & Hnf & Hn0).
    cbn [schedule_loop]. bind_with Hq. rewrite Ef. bind_with Hqf.
    rewrite Hn. cbn [hd Z.eqb andb]. rewrite (proj2 (Z.eqb_neq (next qf) 0)) by done.
    assert (Hr : ~ In o r1).
    { pose proof search_nodup as Hd. apply NoDup_cons in Hd as [_ Hd].
      apply NoDup_ListNoDup, NoDup_remove_2 in Hd. rewrite in_app_iff in Hd. tauto. }
    rewrite Hnf.
    assert (Hc : r1 = [] \/ exists y r1', r1 = y :: r1') by (destruct r1; eauto).
    destruct Hc as [Er|(y & r1' & Er)]; rewrite Er; cbn [app hd List.find].
    + destruct (next_of [idle] o r2) as (_ & qo & Hqo & _); [by rewrite Er|].
      bind_with Hqo. unfold ready, fld. rewrite Hqo. cbn [from_option].
      rewrite Z.eqb_refl. by destruct (status qo =? _).
    + destruct (next_of [idle] y (r1' ++ o :: r2)) as (_ & qy & Hqy & _); [by rewrite Er|].
      bind_with Hqy. unfold ready at 1, fld. rewrite Hqy. rewrite Er in Hr, Hf.
      cbn [from_option In length] in *. destruct (status qy =? _); [done|].
      rewrite (proj2 (Z.eqb_neq y o)) by (intros ->; tauto).
      apply (schedule_loop_wrapped r1' fuel y [] r2); [by rewrite Er|tauto|cbn in *; lia].
  - destruct (next_of (idle :: u) p (x :: v)) as (_ & q & Hq & Hn); [by rewrite E|].
    rewrite (schedule_loop_step _ p q x v Hq Hn).
    2:{ exists (idle :: u ++ [p]). rewrite E. cbn. by rewrite <- app_assoc. }
    cbn [In] in Ho. cbn [List.find]. destruct (ready x); [done|].
    rewrite (proj2 (Z.eqb_neq x o)) by (intros ->; tauto).
    apply (IH fuel x (u ++ [p])); [by rewrite <- app_assoc|tauto|lia].
Qed.
End Search.

(** ** Choosing and switching *)

(** The block at [a] as it is in [s'], up to the fields the scheduler keeps:
    saved registers and times. *)
Definition same_but_times (q q' : pcb) : Prop :=
  set_kernel_state [] (set_total_time 0 (set_last_scheduled 0 q))
  = set_kernel_state [] (set_total_time 0 (set_last_scheduled 0 q')).

Definition times_only (s s' : kstate) : Prop :=
  forall a, match procs s !! a, procs s' !! a with
            | Some q, Some q' => same_but_times q q'
            | None, None => True
            | _, _ => False
            end.

#[global] Instance times_only_preorder : PreOrder times_only.
Proof.
  unfold times_only, same_but_times. split.
  - intros s a. by destruct (procs s !! a).
  - intros s1 s2 s3 D1 D2 a. specialize (D1 a). specialize (D2 a).
    destruct (procs s1 !! a), (procs s2 !! a), (procs s3 !! a); congruence || done.
Qed.

Lemma same_but_times_fields q q' :
  same_but_times q q' -> core q = core q' /\ status q = status q' /\
    wait_queue_next q = wait_queue_next q' /\ exit_value q = exit_value q' /\
    parent q = parent q' /\ current_dir q = current_dir q'.
Proof. destruct q, q'. unfold same_but_times. cbn. intros [=]; subst. done. Qed.

Lemma times_only_upd s p q q' :
  procs s !! p = Some q -> same_but_times q q' ->
  times_only s (with_procs (<[p := q']> (procs s)) s).
Proof.
  intros Hq Hc a. cbn. destruct (decide (a = p)) as [->|].
  - by rewrite Hq, lookup_insert_eq.
  - rewrite lookup_insert_ne by done. by destruct (procs s !! a).
Qed.

(** The whole effect of [schedule] once [p] is chosen. *)
Record switched (s s' : kstate) (p : Z) : Prop := {
  sw_current : current_process s' = p;
  sw_times : times_only s s';
  sw_evolves : evolves s s';
  sw_queues : forall q, first q s' = first q s;
  sw_mem : k_mem s' = k_mem s;
  sw_ticks : ticks s' = ticks s;
  sw_total : fld total_time s' (current_process s)
             = s32 (fld total_time s (current_process s)
                    + s32 (ticks s - fld last_scheduled s (current_process s)));
  sw_last : fld last_scheduled s' p = s32 (ticks s);
  sw_saved : p <> current_process s ->
    option_map kernel_state (procs s' !! current_process s)
    = Some (<[2%nat := current_process s + 68]> (cpu s)) /\
    option_map kernel_state (procs s !! p) = Some (cpu s');
  sw_stays : p = current_process s -> cpu s' = cpu s }.

Lemma schedule_to_ok s p qp qc :
  procs s !! p = Some qp -> procs s !! current_process s = Some qc ->
  exists s', schedule_to s p = Some s' /\ switched s s' p.
Proof.
  intros Hp Hc. unfold schedule_to. set (c := current_process s) in *.
  rewrite (upd_pcb_eq c _ _ qc) by done. cbn [mbind option_bind].
  set (t := s32 (total_time qc + s32 (ticks s - last_scheduled qc))).
  set (qc1 := set_total_time t qc).
  set (s1 := with_procs (<[c := qc1]> (procs s)) s).
  assert (T1 : times_only s s1) by (by apply times_only_upd with qc).
  assert (V1 : evolves s s1) by (by apply evolves_upd with qc).
  destruct (decide (p = c)) as [->|Hne].
  - assert (E1 : procs s1 !! c = Some qc1) by (cbn; apply lookup_insert_eq).
    rewrite (upd_pcb_eq c _ _ qc1) by done. cbn [mbind option_bind].
    rewrite Z.eqb_refl. cbn [negb]. eexists. split; [done|].
    split; try done.
    + transitivity s1; [done|]. by apply times_only_upd with qc1.
    + transitivity s1; [done|]. by apply evolves_upd with qc1.
    + unfold fld. cbn. rewrite lookup_insert_eq. fold c. by rewrite Hc.
    + unfold fld. cbn. by rewrite lookup_insert_eq.
  - assert (E1 : procs s1 !! p = Some qp) by (cbn; by rewrite lookup_insert_ne).
    rewrite (upd_pcb_eq p _ _ qp) by done. cbn [mbind option_bind].
    rewrite (proj2 (Z.eqb_neq p c)) by done. cbn [negb].
    set (qp1 := set_last_scheduled (s32 (ticks s)) qp).
    set (s2 := with_procs (<[p := qp1]> (procs s1)) s1).
    assert (T2 : times_only s s2) by (transitivity s1; [done|by apply times_only_upd with qp]).
    assert (V2 : evolves s s2) by (transitivity s1; [done|by apply evolves_upd with qp]).
    assert (E2 : procs s2 !! c = Some qc1)
      by (cbn; rewrite lookup_insert_ne, lookup_insert_eq by done; done).
    unfold process_switch. rewrite (upd_pcb_eq c _ _ qc1) by done. cbn [mbind option_bind].
    set (qc2 := set_kernel_state (<[2%nat := c + 68]> (cpu s2)) qc1).
    set (s3 := with_procs (<[c := qc2]> (procs s2)) s2).
    assert (E3 : procs s3 !! p = Some qp1)
      by (cbn; rewrite lookup_insert_ne, lookup_insert_eq by done; done).
    bind_with E3. eexists. split; [done|]. split; try done.
    + transitivity s2; [done|]. by apply times_only_upd with qc1.
    + transitivity s2; [done|].
      destruct (evolves_upd s2 c qc1 qc2 E2 ltac:(reflexivity)). by split.
    + unfold fld. cbn. fold c. by rewrite lookup_insert_eq, Hc.
    + unfold fld. cbn [procs with_cpu with_current_process]. rewrite E3. done.
    + intros _. cbn. fold c. rewrite lookup_insert_eq, Hp. done.
Qed.

Lemma schedule_rr s idle r1 o r2 :
  plist s (idle :: r1 ++ o :: r2) ->
  current_process s = o \/ current_process s = idle /\ r1 = [] ->
  exists s', schedule s = Some s' /\
    switched s s' (default idle (List.find (ready s) (r2 ++ r1 ++ [o]))).
Proof.
  intros HP Hc. pose proof (plist_fuel _ _ HP) as Hf. cbn [length] in Hf.
  rewrite length_app in Hf. cbn [length] in Hf.
  pose proof HP as (Hd & _ & _). apply NoDup_cons in Hd as [Hi Hd].
  assert (Ho : ~ In o r2).
  { apply NoDup_app in Hd as (_ & _ & Hd). apply NoDup_cons in Hd as [Hd _].
    intros Hin. by apply Hd, list_elem_of_In. }
  pose proof (schedule_loop_ok s idle o r1 r2 HP r2 (S (list_fuel s)) o r1 eq_refl Ho
    ltac:(lia)) as E.
  set (p := default idle (List.find (ready s) (r2 ++ r1 ++ [o]))) in *.
  destruct (search_head s idle o r1 r2 HP) as (Ef & qi & Hqi & Hn & Hn0).
  assert (Hp : exists qp, procs s !! p = Some qp).
  { assert (Hin : In p (idle :: r1 ++ o :: r2)).
    { unfold p. destruct (List.find _ _) as [x|] eqn:Ex; [|by left].
      apply find_some in Ex as [Hx _]. right. cbn.
      rewrite !in_app_iff in *. cbn [In] in *. tauto. }
    destruct HP as (_ & Hs & _). apply (seg_lookup _ _ _ _ _ Hs Hin). }
  destruct Hp as [qp Hqp].
  assert (Hcur : exists qc, procs s !! current_process s = Some qc).
  { destruct HP as (_ & Hs & _). apply (seg_lookup _ _ _ _ (current_process s) Hs).
    cbn [In]. rewrite in_app_iff. cbn [In]. destruct Hc as [->|[-> _]]; tauto. }
  destruct Hcur as [qc Hqc].
  destruct (schedule_to_ok s p qp qc Hqp Hqc) as (s' & Es & Hsw).
  exists s'. split; [|done]. unfold schedule. rewrite Ef.
  destruct Hc as [Hc|[Hc ->]]; rewrite Hc in *.
  - rewrite (proj2 (Z.eqb_neq o idle)).
    + rewrite E. done.
    + intros ->. apply Hi, list_elem_of_In, in_app_iff. cbn. tauto.
  - rewrite Z.eqb_refl. bind_with Hqi. rewrite (proj2 (Z.eqb_neq (next qi) 0)) by done.
    rewrite Hn. cbn [app hd]. rewrite E. done.
Qed.

Lemma schedule_alone s idle :
  plist s [idle] -> current_process s = idle -> schedule s = Some s.
Proof.
  intros (_ & Hs & _) Hc. destruct Hs as (Ef & _ & q & Hq & Hn). unfold schedule.
  rewrite Hc, Ef, Z.eqb_refl. bind_with Hq. by rewrite Hn.
Qed.

(** Whatever the current process of the list is, [schedule] ends. *)
Lemma schedule_ok s l :
  plist s l -> In (current_process s) l ->
  exists s' p, schedule s = Some s' /\ In p l /\
    (s' = s /\ p = current_process s /\ l = [p] \/ switched s s' p).
Proof.
  intros HP Hin. destruct l as [|idle rest]; [done|].
  destruct (decide (current_process s = idle)) as [Hc|Hc].
  - destruct rest as [|o r2].
    + exists s, idle. split; [by apply schedule_alone with idle|]. split; [by left|]. left.
      by rewrite Hc.
    + destruct (schedule_rr s idle [] o r2 HP) as (s' & E & Hsw); [by right|].
      eexists s', _. split; [done|]. split; [|right; done].
      destruct (List.find _ _) as [x|] eqn:Ex; [|by left].
      apply find_some in Ex as [Hx _]. right. rewrite in_app_iff in Hx. cbn in *. tauto.
  - destruct Hin as [->|Hin]; [done|]. apply in_split in Hin as (r1 & r2 & ->).
    destruct (schedule_rr s idle r1 (current_process s) r2 HP) as (s' & E & Hsw); [by left|].
    eexists s', _. split; [done|]. split; [|right; done].
    destruct (List.find _ _) as [x|] eqn:Ex; [|by left].
    apply find_some in Ex as [Hx _]. right. rewrite !in_app_iff in *. cbn in *. tauto.
Qed.

(** ** Wait queues *)

(** The queue with the head [f] is [l]. *)
Fixpoint wseg (m : gmap Z pcb) (f : Z) (l : list Z) : Prop :=
  match l with
  | [] => f = 0
  | p :: l' => f = p /\ p <> 0 /\ exists q, m !! p = Some q /\ wseg m (wait_queue_next q) l'
  end.

Definition wqueue (s : kstate) (q : queue) (l : list Z) : Prop :=
  NoDup l /\ wseg (procs s) (first q s) l.

Lemma wseg_insert_ne m l p q : forall f, ~ In p l -> wseg (<[p := q]> m) f l <-> wseg m f l.
Proof.
  induction l as [|x l IH]; intros f Hp; cbn [wseg]; [done|]. cbn [In] in Hp.
  rewrite lookup_insert_ne by (intros ->; tauto). setoid_rewrite IH; tauto.
Qed.

Lemma wseg_insert_same m l p q0 q : forall f,
  m !! p = Some q0 -> wait_queue_next q = wait_queue_next q0 ->
  wseg m f l -> wseg (<[p := q]> m) f l.
Proof.
  induction l as [|x l IH]; intros f Hp Hq Hs; [done|].
  destruct Hs as (-> & Hx & qx & Hqx & Hs). split; [done|]. split; [done|].
  destruct (decide (x = p)) as [->|].
  - rewrite lookup_insert_eq. exists q. split; [done|]. rewrite Hq.
    rewrite Hp in Hqx. injection Hqx as <-. by apply IH.
  - rewrite lookup_insert_ne by done. exists qx. split; [done|]. by apply IH.
Qed.

Lemma wseg_lookup m l : forall f p, wseg m f l -> In p l -> p <> 0 /\ exists q, m !! p = Some q.
Proof.
  induction l as [|x l IH]; intros f p Hs Hp; [done|].
  destruct Hs as (-> & Hx & q & Hq & Hs). destruct Hp as [->|Hp]; [eauto|]. by eapply IH.
Qed.

Lemma wseg_length m f l : NoDup l -> wseg m f l -> (length l <= size m)%nat.
Proof.
  intros Hd Hs. rewrite <- size_dom.
  rewrite <- (size_list_to_set (C := gset Z) l) by done.
  apply subseteq_size. intros p Hp%elem_of_list_to_set%list_elem_of_In.
  destruct (wseg_lookup m l f p Hs Hp) as (_ & q & Hq). by apply elem_of_dom.
Qed.

Lemma in_cons_ne (a p : Z) l : a <> p -> bool_decide (a ∈ l) = bool_decide (a ∈ p :: l).
Proof.
  intros Ha. apply bool_decide_ext. rewrite !list_elem_of_In. cbn [In].
  split; [tauto|]. by intros [->|?].
Qed.

(** Waking: every block of the queue becomes ready and leaves the queue; other
    blocks do not change. *)
Definition woken (m : gmap Z pcb) (l : list Z) (m' : gmap Z pcb) : Prop :=
  forall a, m' !! a = if bool_decide (a ∈ l)
                      then (fun q => set_wait_queue_next 0 (set_status PROCESS_STATUS_READY q))
                           <$> m !! a
                      else m !! a.

Lemma wait_queue_wake_loop_ok l : forall fuel s f,
  NoDup l -> wseg (procs s) f l -> (length l < fuel)%nat ->
  exists s', wait_queue_wake_loop fuel s f = Some s' /\
    woken (procs s) l (procs s') /\ evolves s s' /\ s' = with_procs (procs s') s.
Proof.
  induction l as [|p l IH]; intros [|fuel] s f Hd Hs Hf; cbn [length] in *; try lia;
    cbn [wait_queue_wake_loop].
  - cbn in Hs. subst f. exists s. split; [done|]. split; [done|]. split; [done|]. by destruct s.
  - destruct Hs as (-> & Hp & q & Hq & Hs). rewrite (proj2 (Z.eqb_neq p 0)) by done.
    apply NoDup_cons in Hd as [Hpl Hd].
    rewrite (upd_pcb_eq p _ _ q) by done. cbn [mbind option_bind procs with_procs].
    rewrite lookup_insert_eq. cbn [mbind option_bind].
    rewrite (upd_pcb_eq p _ _ (set_status PROCESS_STATUS_READY q)) by
      (cbn; apply lookup_insert_eq).
    cbn [mbind option_bind procs with_procs wait_queue_next set_status].
    rewrite insert_insert_eq.
    set (q' := set_wait_queue_next 0 _).
    destruct (IH fuel (with_procs (<[p := q']> (procs s)) s) (wait_queue_next q))
      as (s' & E & W & V & F); [done| |lia|].
    { apply wseg_insert_ne; [by rewrite <- list_elem_of_In|done]. }
    exists s'. split; [done|]. split; [|split].
    + intros a. rewrite W. cbn [procs with_procs].
      destruct (decide (a = p)) as [->|Ha].
      * rewrite lookup_insert_eq, Hq. rewrite bool_decide_eq_false_2 by done.
        rewrite bool_decide_eq_true_2 by apply list_elem_of_here. done.
      * rewrite lookup_insert_ne by done.
        assert (Eb : bool_decide (a ∈ l) = bool_decide (a ∈ p :: l))
          by (by apply in_cons_ne).
        by rewrite Eb.
    + etransitivity; [|exact V]. by apply evolves_upd with q.
    + rewrite F. by destruct s.
Qed.

Lemma evolves_with_first s q v : evolves s (with_first q v s).
Proof.
  destruct q; (split; [done..|]); intros a; cbn; by destruct (procs s !! a).
Qed.

Lemma evolves_running s c v : evolves s (with_waitpid_first v (with_current_process c s)).
Proof. split; [done..|]. intros a. cbn. by destruct (procs s !! a). Qed.

Lemma wqueue_fuel s q l : wqueue s q l -> (length l < list_fuel s)%nat.
Proof. intros [Hd Hs]. unfold list_fuel. pose proof (wseg_length _ _ _ Hd Hs). lia. Qed.

Lemma wait_queue_wake_ok s q l :
  wqueue s q l ->
  exists s', wait_queue_wake s q = Some (0, s') /\ woken (procs s) l (procs s') /\
    evolves s s' /\ s' = with_first q 0 (with_procs (procs s') s).
Proof.
  intros HW. pose proof (wqueue_fuel _ _ _ HW) as Hf. destruct HW as [Hd Hs].
  destruct (wait_queue_wake_loop_ok l (list_fuel s) s (first q s) Hd Hs Hf)
    as (s1 & E & W & V & F).
  unfold wait_queue_wake. rewrite E. cbn [mbind option_bind]. eexists. split; [done|].
  assert (Hp : procs (with_first q 0 s1) = procs s1) by (by destruct q). rewrite Hp.
  split; [done|]. split; [|by rewrite <- F].
  destruct V as [V1 V2 V3 V4]. split; [by destruct q..|]. by rewrite Hp.
Qed.

(** *** Wait queues that do not meet *)

(** Waking one queue does not disturb another. *)
Lemma woken_other m w m' : woken m w m' -> forall l f,
  (forall p, In p l -> ~ In p w) -> wseg m f l -> wseg m' f l.
Proof.
  intros Hw. induction l as [|x l IH]; intros f Hd Hs; [done|].
  destruct Hs as (-> & Hx & q & Hq & Hs). split; [done|]. split; [done|]. exists q.
  split; [|apply IH; [intros; apply Hd; by right|done]].
  rewrite Hw, bool_decide_eq_false_2; [done|].
  intros Hin. apply list_elem_of_In in Hin. by apply (Hd x (or_introl eq_refl)).
Qed.

Lemma first_ne q1 q2 v s : q1 <> q2 -> first q1 (with_first q2 v s) = first q1 s.
Proof. by destruct q1, q2. Qed.

Lemma wqueue_wake_other s s' q1 q2 w1 w2 :
  q1 <> q2 -> (forall p, In p w1 -> ~ In p w2) -> wqueue s q1 w1 ->
  woken (procs s) w2 (procs s') -> s' = with_first q2 0 (with_procs (procs s') s) ->
  wqueue s' q1 w1.
Proof.
  intros Hq Hd [Hn Hs] Hw F. split; [done|]. eapply woken_other; [exact Hw|done|].
  rewrite F, first_ne by done. by destruct q1.
Qed.

Lemma wseg_snoc m l p q : forall f x qx,
  ~ In p (l ++ [x]) -> ~ In x l -> p <> 0 ->
  wseg m f (l ++ [x]) -> m !! x = Some qx -> m !! p = Some q -> wait_queue_next q = 0 ->
  wseg (<[x := set_wait_queue_next p qx]> m) f ((l ++ [x]) ++ [p]).
Proof.
  induction l as [|y l IH]; intros f x qx Hp Hx Hp0 Hs Hqx Hq Hn; cbn [app In] in *.
  - destruct Hs as (-> & Hx0 & _). split; [done|]. split; [done|].
    eexists. split; [apply lookup_insert_eq|]. cbn. split; [done|]. split; [done|].
    exists q. rewrite lookup_insert_ne by (intros ->; tauto). done.
  - destruct Hs as (-> & Hy & qy & Hqy & Hs). split; [done|]. split; [done|].
    exists qy. rewrite lookup_insert_ne by (intros ->; tauto). split; [done|].
    apply IH; tauto || done.
Qed.

Lemma wait_queue_append_ok s p l : forall fuel f,
  wseg (procs s) f l -> l <> [] -> (length l < fuel)%nat ->
  wait_queue_append fuel s p f
  = if bool_decide (p ∈ l) then Some s
    else upd_pcb (List.last l 0) (set_wait_queue_next p) s.
Proof.
  induction l as [|x l IH]; intros [|fuel] f Hs Hl Hf; cbn [length] in *; try lia; [done|].
  destruct Hs as (-> & Hx & q & Hq & Hs). cbn [wait_queue_append].
  destruct (decide (x = p)) as [->|Hne].
  - rewrite Z.eqb_refl. by rewrite bool_decide_eq_true_2 by apply list_elem_of_here.
  - rewrite (proj2 (Z.eqb_neq x p)) by done. bind_with Hq.
    destruct l as [|y l].
    + cbn in Hs. rewrite Hs. cbn [Z.eqb List.last].
      rewrite bool_decide_eq_false_2; [done|]. rewrite list_elem_of_singleton. done.
    + pose proof Hs as (Ey & Hy & _). rewrite (proj2 (Z.eqb_neq _ 0)) by (rewrite Ey; done).
      rewrite IH; [|done|done|cbn [length] in *; lia].
      assert (Eb : bool_decide (p ∈ y :: l) = bool_decide (p ∈ x :: y :: l))
        by (by apply in_cons_ne).
      rewrite Eb. done.
Qed.

Lemma wait_queue_enter_ok s q l p qp :
  wqueue s q l -> p <> 0 -> procs s !! p = Some qp -> (~ In p l -> wait_queue_next qp = 0) ->
  exists s', wait_queue_enter s q p = Some s' /\
    wqueue s' q (if bool_decide (p ∈ l) then l else l ++ [p]) /\
    (forall a, fld status s' a = if a =? p then PROCESS_STATUS_SLEEPING else fld status s a) /\
    evolves s s' /\ current_process s' = current_process s.
Proof.
  intros HW Hp Hqp Hn. pose proof (wqueue_fuel _ _ _ HW) as Hf. destruct HW as [Hd Hs].
  (* the last assignment, on whatever the queue step left *)
  assert (Hend : forall s1 l', wqueue s1 q l' -> evolves s s1 ->
    (forall a, fld status s1 a = fld status s a) -> current_process s1 = current_process s ->
    exists s', upd_pcb p (set_status PROCESS_STATUS_SLEEPING) s1 = Some s' /\
      wqueue s' q l' /\
      (forall a, fld status s' a = if a =? p then PROCESS_STATUS_SLEEPING else fld status s a) /\
      evolves s s' /\ current_process s' = current_process s).
  { intros s1 l' [Hd1 Hs1] V St Hc. destruct (evolves_lookup _ _ _ _ V Hqp) as (q1 & Hq1 & _).
    rewrite (upd_pcb_eq p _ _ q1) by done. eexists. split; [done|]. split; [|split; [|split]].
    - split; [done|]. destruct q; by apply wseg_insert_same with q1.
    - intros a. rewrite <- St. unfold fld. cbn. destruct (a =? p) eqn:E; b2p.
      + subst a. by rewrite lookup_insert_eq.
      + by rewrite lookup_insert_ne.
    - etransitivity; [exact V|]. by apply evolves_upd with q1.
    - done. }
  unfold wait_queue_enter. destruct l as [|x l].
  - cbn in Hs. rewrite Hs. cbn [Z.eqb mbind option_bind].
    rewrite bool_decide_eq_false_2 by set_solver.
    apply Hend; [|apply evolves_with_first|by destruct q|by destruct q].
    split; [apply NoDup_singleton|]. assert (first q (with_first q p s) = p) as -> by (by destruct q).
    assert (procs (with_first q p s) = procs s) as -> by (by destruct q).
    split; [done|]. split; [done|]. exists qp. split; [done|]. apply Hn. by intros [].
  - rewrite (proj2 (Z.eqb_neq (first q s) 0)) by (destruct Hs as (-> & ? & _); done).
    rewrite (wait_queue_append_ok s p (x :: l)) by done.
    destruct (bool_decide (p ∈ x :: l)) eqn:Eb.
    + cbn [mbind option_bind]. by apply Hend.
    + apply bool_decide_eq_false in Eb. rewrite list_elem_of_In in Eb.
      destruct (exists_last (l := x :: l)) as (l1 & y & E); [done|]. rewrite E in *.
      rewrite last_last.
      assert (Hy : exists qy, procs s !! y = Some qy)
        by (apply (wseg_lookup _ _ _ y Hs), in_app_iff; cbn; tauto).
      destruct Hy as [qy Hqy]. rewrite (upd_pcb_eq y _ _ qy) by done. cbn [mbind option_bind].
      apply NoDup_app in Hd as Hd'. destruct Hd' as (_ & Hy1 & _).
      apply Hend; [|by apply evolves_upd with qy| |done].
      * split.
        { apply NoDup_app. split; [done|]. split; [|apply NoDup_singleton].
          intros z Hz ->%list_elem_of_singleton. by apply Eb, list_elem_of_In. }
        destruct q; (apply wseg_snoc with qp; [done| |done|done|done|done|by apply Hn]);
          intros Hin; eapply Hy1; (apply list_elem_of_In, Hin || apply list_elem_of_here).
      * intros a. unfold fld. cbn. destruct (decide (a = y)) as [->|].
        -- by rewrite lookup_insert_eq, Hqy.
        -- by rewrite lookup_insert_ne.
Qed.

(** ** waitpid, exit, vfork *)

Lemma times_only_status s s' a : times_only s s' -> fld status s' a = fld status s a.
Proof.
  intros H. specialize (H a). unfold fld. destruct (procs s !! a), (procs s' !! a); try done.
  destruct (same_but_times_fields _ _ H) as (_ & E & _). done.
Qed.

Lemma times_only_wseg s s' l : forall f, times_only s s' -> wseg (procs s) f l -> wseg (procs s') f l.
Proof.
  induction l as [|x l IH]; intros f H Hs; [done|].
  destruct Hs as (-> & Hx & q & Hq & Hs). split; [done|]. split; [done|].
  pose proof (H x) as Hx'. rewrite Hq in Hx'. destruct (procs s' !! x) as [q'|]; [|done].
  destruct (same_but_times_fields _ _ Hx') as (_ & _ & E & _). exists q'. split; [done|].
  rewrite <- E. by apply IH.
Qed.

(** After a [schedule] by a process that is not ready, another process runs,
    or the idle process does. *)
Lemma schedule_away s l :
  plist s l -> In (current_process s) l ->
  fld status s (current_process s) <> PROCESS_STATUS_READY ->
  current_process s <> proc_first s ->
  exists s', schedule s = Some s' /\ switched s s' (current_process s') /\
    current_process s' <> current_process s /\ In (current_process s') l.
Proof.
  intros HP Hin Hst Hne. destruct l as [|idle rest]; [done|].
  assert (Ef : proc_first s = idle) by (destruct HP as (_ & (E & _) & _); done).
  destruct Hin as [E|Hin]; [congruence|]. apply in_split in Hin as (r1 & r2 & ->).
  destruct (schedule_rr s idle r1 (current_process s) r2 HP) as (s' & E & Hsw); [by left|].
  exists s'. split; [done|]. pose proof (sw_current _ _ _ Hsw) as Hc.
  split; [by rewrite Hc|]. rewrite Hc.
  destruct (List.find _ _) as [x|] eqn:Ex;
    [change (default idle (Some x)) with x|split; [cbn; congruence|by left]].
  apply find_some in Ex as [Hx Hr]. unfold ready in Hr. b2p. split; [by intros ->|].
  right. rewrite !in_app_iff in *. cbn in *. tauto.
Qed.

(** A switch moves no process between queues. *)
Lemma switched_wqueue s s' p q w : switched s s' p -> wqueue s q w -> wqueue s' q w.
Proof.
  intros Hsw [Hn Hs]. split; [done|]. rewrite (sw_queues _ _ _ Hsw q).
  eapply times_only_wseg; [apply Hsw|done].
Qed.

Section Blocking.
Context `{MemFill} (kernel : Z -> bool).

Lemma wait_queue_add_ok s l q w :
  kinv kernel s l -> wqueue s q w -> In (current_process s) l ->
  current_process s <> proc_first s ->
  (~ In (current_process s) w -> fld wait_queue_next s (current_process s) = 0) ->
  exists s', wait_queue_add s q (current_process s) = Some (0, s') /\
    kinv kernel s' l /\ current_process s' <> current_process s /\
    In (current_process s') l /\
    fld status s' (current_process s) = PROCESS_STATUS_SLEEPING /\
    wqueue s' q (if bool_decide (current_process s ∈ w) then w else w ++ [current_process s]) /\
    (forall a, a <> current_process s -> fld status s' a = fld status s a).
Proof.
  intros K HW Hin Hne Hn. set (c := current_process s) in *.
  destruct (proj2 (k_dom _ _ _ K c) Hin) as [qc Hqc].
  assert (Hc0 : c <> 0).
  { destruct (k_list _ _ _ K) as (_ & Hs & _). apply (seg_lookup _ _ _ _ c Hs Hin). }
  destruct (wait_queue_enter_ok s q w c qc HW Hc0 Hqc) as (s1 & E1 & HW1 & St1 & V1 & Hc1).
  { intros Hw. specialize (Hn Hw). unfold fld in Hn. by rewrite Hqc in Hn. }
  fold c in Hc1. pose proof (kinv_evolves _ _ _ _ V1 K) as K1.
  destruct (schedule_away s1 l) as (s2 & E2 & Hsw & Hne2 & Hin2).
  - apply K1.
  - by rewrite Hc1.
  - rewrite Hc1, St1, Z.eqb_refl. done.
  - by rewrite Hc1, (ev_first _ _ V1).
  - exists s2. unfold wait_queue_add. rewrite E1. cbn [mbind option_bind]. rewrite E2.
    rewrite Hc1 in Hne2.
    assert (St2 : forall a, fld status s2 a = fld status s1 a)
      by (intros a; by apply times_only_status, Hsw).
    split; [done|]. split; [|split; [done|split; [done|split; [|split]]]].
    + eapply kinv_evolves; [apply Hsw|done].
    + by rewrite St2, St1, Z.eqb_refl.
    + destruct HW1 as [Hd1 Hs1]. split; [done|].
      rewrite (sw_queues _ _ _ Hsw q).
      eapply times_only_wseg; [apply Hsw|done].
    + intros a Ha. rewrite St2, St1. by rewrite (proj2 (Z.eqb_neq a c)).
Qed.

Lemma kinv_store_wstatus s l w v : kinv kernel s l -> kinv kernel (store_wstatus w v s) l.
Proof.
  intros K. eapply kinv_evolves; [|done]. unfold store_wstatus.
  destruct (negb _); [|done]. split; try done. intros a. cbn. by destruct (procs s !! a).
Qed.

(** The child's status is in the caller's word, its memory is given back, and
    nothing else is written. *)
Record reaped (s s' : kstate) (c : Z) (q : pcb) (wstatus : Z) : Prop := {
  rp_status : wstatus <> 0 -> Forall (fun r => apart (fst r) (snd r) wstatus 4) (regions_of c q) ->
    load32 (k_mem s') wstatus = u32 (exit_value q);
  rp_memory : modifies (region_of wstatus 4 ++ regions_of c q) (k_mem s) (k_mem s');
  rp_released : released (k_alloc s) (k_alloc s') (blocks_of c q) }.

(** The end of both variants: the status is delivered and the zombie goes. *)
Lemma reap_ok s l1 c l2 q wstatus :
  kinv kernel s (l1 ++ c :: l2) -> procs s !! c = Some q -> c <> proc_first s ->
  exists s', process_destroy (store_wstatus wstatus (exit_value q) s) c = Some (0, s') /\
    kinv kernel s' (l1 ++ l2) /\ procs s' !! c = None /\ reaped s s' c q wstatus.
Proof.
  intros K Hq Hc. pose proof (kinv_store_wstatus _ _ wstatus (exit_value q) K) as K1.
  set (s1 := store_wstatus _ _ _) in *.
  assert (Hq1 : procs s1 !! c = Some q)
    by (unfold s1, store_wstatus; by destruct (negb _)).
  destruct (process_destroy_ok kernel s1 l1 c l2 q K1 Hq1 (k_owns _ _ _ K c q Hq Hc)) as (s' & E & K' & _ & Hn & Hrel & Hm & _).
  exists s'. split; [done|]. split; [done|]. split; [done|].
  assert (Ha : k_alloc s1 = k_alloc s) by (unfold s1, store_wstatus; by destruct (negb _)).
  split; [| |by rewrite <- Ha].
  - intros Hw Hap. rewrite (load32_modifies _ _ _ _ Hm Hap). unfold s1, store_wstatus.
    rewrite (proj2 (Z.eqb_neq wstatus 0)) by done. cbn. by rewrite load32_store32, u32_u32.
  - assert (M1 : modifies (region_of wstatus 4) (k_mem s) (k_mem s1)).
    { unfold s1, store_wstatus, region_of. destruct (wstatus =? 0); [done|]. apply modifies_store32. }
    transitivity (k_mem s1); (eapply modifies_incl; [eassumption|]); intros x Hx; apply in_app_iff; tauto.
Qed.

(** [exit] up to [schedule]. *)
Lemma exit_ok s l w v :
  kinv kernel s l -> wqueue s waitpid_wait_queue w -> In (current_process s) l ->
  ~ In (current_process s) w -> current_process s <> proc_first s ->
  exists s', exit s v = Some s' /\ kinv kernel s' l /\
    current_process s' <> current_process s /\ In (current_process s') l /\
    fld status s' (current_process s) = PROCESS_STATUS_EXITED /\
    fld exit_value s' (current_process s) = v /\ waitpid_first s' = 0 /\
    (forall a, a <> current_process s -> fld status s' a =
       if bool_decide (a ∈ w) then PROCESS_STATUS_READY else fld status s a).
Proof.
  intros K HW Hin Hw Hne. set (c := current_process s) in *.
  destruct (proj2 (k_dom _ _ _ K c) Hin) as [qc Hqc]. unfold exit. fold c.
  rewrite (upd_pcb_eq c _ _ qc) by done. cbn [mbind option_bind].
  set (s1 := with_procs _ s).
  assert (V1 : evolves s s1) by (by apply evolves_upd with qc).
  assert (HW1 : wqueue s1 waitpid_wait_queue w).
  { destruct HW as [Hd Hs]. split; [done|]. by apply wseg_insert_ne. }
  destruct (wait_queue_wake_ok s1 waitpid_wait_queue w HW1) as (s2 & E2 & Wk & V2 & F2).
  unfold waitpid_done. rewrite E2. cbn [mbind option_bind].
  assert (V : evolves s s2) by (by transitivity s1).
  pose proof (kinv_evolves _ _ _ _ V K) as K2.
  assert (Hc2 : current_process s2 = c) by (by rewrite F2).
  assert (Hq2 : procs s2 !! c = Some (set_exit_value v (set_status PROCESS_STATUS_EXITED qc))).
  { rewrite Wk, bool_decide_eq_false_2 by (by rewrite list_elem_of_In).
    cbn. by rewrite lookup_insert_eq. }
  destruct (schedule_away s2 l) as (s3 & E3 & Hsw & Hne3 & Hin3).
  - apply K2.
  - by rewrite Hc2.
  - rewrite Hc2. unfold fld. by rewrite Hq2.
  - by rewrite Hc2, (ev_first _ _ V).
  - exists s3. rewrite E3. split; [done|]. split; [by eapply kinv_evolves; [apply Hsw|]|].
    rewrite Hc2 in Hne3. split; [done|]. split; [done|].
    assert (St : forall a, fld status s3 a = fld status s2 a)
      by (intros a; by apply times_only_status, Hsw).
    split; [|split; [|split]].
    + rewrite St. unfold fld. by rewrite Hq2.
    + pose proof (sw_times _ _ _ Hsw c) as Ht. rewrite Hq2 in Ht. unfold fld.
      destruct (procs s3 !! c) as [q3|]; [|done].
      destruct (same_but_times_fields _ _ Ht) as (_ & _ & _ & E & _). exact (eq_sym E).
    + pose proof (sw_queues _ _ _ Hsw waitpid_wait_queue) as Eq. cbn [first] in Eq. rewrite Eq. by rewrite F2.
    + intros a Ha. rewrite St. unfold fld. rewrite Wk. cbn [procs s1 with_procs].
      rewrite lookup_insert_ne by done.
      destruct (bool_decide (a ∈ w)) eqn:Eb; [|done].
      apply bool_decide_eq_true in Eb. rewrite list_elem_of_In in Eb.
      destruct HW as [_ Hs]. destruct (wseg_lookup _ _ _ _ Hs Eb) as (_ & q & ->). done.
Qed.
End Blocking.

Section Vfork.
Context `{MemFill} (kernel : Z -> bool).

(** The registers the child starts with: the parent's, with r2 left by
    [process_save] and the stack pointer at the same offset in the child's
    block. *)
Definition child_regs (s : kstate) (child : Z) : list Z :=
  <[13%nat := u32 (child + s32 (nth 13 (cpu s) 0 - current_process s))]>
    (<[2%nat := child + 68]> (cpu s)).

(** The state in which [vfork] reaches its end. *)
Record forked (s s' : kstate) (l : list Z) (child : Z) : Prop := {
  fk_fresh : ~ In child l;
  fk_inv : kinv kernel s' (l ++ [child]);
  fk_child : exists q p, procs s' !! child = Some q /\
    procs s !! current_process s = Some p /\
    user_r q = user_r p /\ user_pc q = user_pc p /\ user_spsr q = user_spsr p /\
    current_dir q = current_dir p /\ name q = name p /\ pid q = avail_pid s /\
    parent q = current_process s /\ stack q = 0 /\ text q = 0 /\
    status q = PROCESS_STATUS_READY /\ kernel_state q = child_regs s child;
  fk_parent : fld status s' (current_process s) = PROCESS_STATUS_SLEEPING;
  fk_current : current_process s' = current_process s;
  fk_first : proc_first s' = proc_first s;
  fk_others : forall a, a <> child -> a <> current_process s ->
    fld status s' a = fld status s a }.

(** What [vfork] does to the blocks [qp1] of the parent and [qc] of the fresh
    child. *)
Record fork_tables (s s1 s7 : kstate) (c : Z) (qp1 qc qc7 : pcb) : Prop := {
  ft_child : procs s7 !! c = Some qc7;
  ft_parent : procs s7 !! current_process s = Some (set_status PROCESS_STATUS_SLEEPING qp1);
  ft_others : forall a, a <> c -> a <> current_process s -> procs s7 !! a = procs s1 !! a;
  ft_evolves : evolves s1 s7;
  ft_state : current_process s7 = current_process s1 /\ proc_first s7 = proc_first s1;
  ft_fields : user_r qc7 = user_r qp1 /\ user_pc qc7 = user_pc qp1 /\
    user_spsr qc7 = user_spsr qp1 /\ current_dir qc7 = current_dir qp1 /\ name qc7 = name qp1 /\
    pid qc7 = pid qc /\ parent qc7 = current_process s /\ stack qc7 = 0 /\ text qc7 = 0 /\
    status qc7 = PROCESS_STATUS_READY /\ kernel_state qc7 = child_regs s c }.

Lemma vfork_tables s s1 c qc qp1 : process_create s = Some (c, s1) -> c <> 0 ->
  current_process s1 = current_process s -> cpu s1 = cpu s -> current_process s <> c ->
  procs s1 !! c = Some qc -> procs s1 !! current_process s = Some qp1 ->
  stack qc = 0 -> text qc = 0 ->
  exists qc7 s7, vfork s = vfork_return s7 (current_process s) (pid qc) /\
    fork_tables s s1 s7 c qp1 qc qc7.
Proof.
  intros E Hc Hcur1 Hcpu1 Hpc Hqc Hqp1 C2 C4. set (p0 := current_process s) in *.
  unfold vfork. rewrite E. cbn [mbind option_bind].
  rewrite (proj2 (Z.eqb_neq c 0)) by done. bind_with Hqc.
  fold p0. bind_with Hqp1.
  rewrite (upd_pcb_eq c _ _ qp1) by (cbn; apply lookup_insert_eq). cbn [mbind option_bind].
  erewrite (upd_pcb_eq c) by (cbn; apply lookup_insert_eq). cbn [mbind option_bind].
  rewrite (upd_pcb_eq p0 _ _ qp1)
    by (cbn; rewrite !lookup_insert_ne by done; exact Hqp1). cbn [mbind option_bind].
  erewrite (upd_pcb_eq c)
    by (cbn; rewrite lookup_insert_ne by done; apply lookup_insert_eq).
  cbn [mbind option_bind]. unfold process_save.
  erewrite (upd_pcb_eq c) by (cbn; apply lookup_insert_eq). cbn [mbind option_bind].
  cbn [procs with_procs with_k_mem cpu].
  rewrite Hcpu1. fold (child_regs s c).
  set (qc7 := set_kernel_state _ _). set (s7 := with_procs _ _).
  exists qc7, s7. split; [done|].
  assert (Lc : procs s7 !! c = Some qc7) by (cbn; apply lookup_insert_eq).
  assert (Lp : procs s7 !! p0 = Some (set_status PROCESS_STATUS_SLEEPING qp1))
    by (cbn; rewrite !lookup_insert_ne by done; apply lookup_insert_eq).
  assert (Lo : forall a, a <> c -> a <> p0 -> procs s7 !! a = procs s1 !! a)
    by (intros a Ha1 Ha2; cbn; by rewrite !lookup_insert_ne by done).
  split; try done. split; try done. intros a.
  destruct (decide (a = c)) as [->|Ha]; [rewrite Lc, Hqc; unfold core; cbn; by rewrite C2, C4|].
  destruct (decide (a = p0)) as [->|Ha2]; [by rewrite Lp, Hqp1|].
  rewrite Lo by done. by destruct (procs s1 !! a).
Qed.

Lemma vfork_ok s l :
  kinv kernel s l -> 0 <= avail_pid s < 2 ^ 31 - 1 -> In (current_process s) l ->
  (exists s', vfork s = Some (-1, s') /\ s' = with_k_alloc (k_alloc s) s) \/
  (exists child s1, forked s s1 l child /\
     vfork s = vfork_return s1 (current_process s) (avail_pid s)).
Proof.
  intros K Hav Hin. destruct (process_create_ok kernel s l K Hav) as (c & s1 & E & Hc).
  destruct (proj2 (k_dom _ _ _ K (current_process s)) Hin) as [qp Hqp].
  destruct Hc as [[-> ->]|(Hc & Hfr & K1 & Hav1 & Hfrm & Hsame)].
  { left. eexists. split; [|done]. unfold vfork. rewrite E. done. }
  right. assert (Hpc : current_process s <> c) by (intros <-; contradiction).
  destruct (same_procs_lookup _ _ c _ Hsame (lookup_insert_eq _ _ _)) as (qc & Hqc & Ec).
  destruct (same_procs_lookup _ _ (current_process s) qp Hsame) as (qp1 & Hqp1 & Ep);
    [by rewrite lookup_insert_ne|].
  destruct (new_pcb_fields (s32 (ticks s)) (avail_pid s)) as (N1 & N2 & N3 & _).
  destruct (same_pcb_fields _ _ Ec) as (C1 & C2 & _ & C4 & _).
  destruct (vfork_tables s s1 c qc qp1 E Hc) as (qc7 & s7 & Ev & [Lc Lp Lo V [S1 S2] F]);
    try done; try congruence; [by rewrite Hfrm..|].
  exists c, s7. split; [|by rewrite Ev, C1, N1]. split.
  - done.
  - by eapply kinv_evolves.
  - exists qc7, qp. split; [done|]. split; [done|].
    assert (G : user_r qp1 = user_r qp /\ user_pc qp1 = user_pc qp /\
      user_spsr qp1 = user_spsr qp /\ current_dir qp1 = current_dir qp /\ name qp1 = name qp).
    { destruct qp, qp1. unfold same_pcb in Ep. cbn in *. injection Ep as; subst. done. }
    rewrite C1, N1 in F. destruct G as (<- & <- & <- & <- & <-). tauto.
  - unfold fld. by rewrite Lp.
  - rewrite S1. by rewrite Hfrm.
  - rewrite S2. destruct l as [|x l']; [done|].
    destruct (k_list _ _ _ K) as (_ & (Ex & _) & _).
    destruct (k_list _ _ _ K1) as (_ & (Ex1 & _) & _). congruence.
  - intros a Ha1 Ha2. unfold fld. rewrite Lo by done. specialize (Hsame a).
    rewrite lookup_insert_ne in Hsame by done.
    destruct (procs s !! a), (procs s1 !! a); try done.
    destruct (same_pcb_fields _ _ Hsame) as (_ & _ & _ & _ & _ & E2 & _). exact E2.
Qed.
End Vfork.

(** ** Properties *)

(** C9. With the process list [idle :: r1 ++ o :: r2], [schedule] called by [o]
    (or by the idle process when [o] is the first of the others) ends and
    chooses, in the order of the list after [o], around its end and up to [o]
    itself, the first process that is ready, and the idle process when none is;
    the time of the old process is charged, its registers are saved (r2 holds
    the address of the save area), those of the new one are loaded, and nothing
    else of any process changes. *)
Theorem schedule_round_robin s idle r1 o r2 :
  plist s (idle :: r1 ++ o :: r2) ->
  current_process s = o \/ current_process s = idle /\ r1 = [] ->
  exists s', schedule s = Some s' /\
    switched s s' (default idle (List.find (ready s) (r2 ++ r1 ++ [o]))).
Proof. apply schedule_rr. Qed.

(** Waking a wait queue makes exactly the processes on it ready, takes each
    of them off the queue and leaves it empty; no other process and no list or
    memory state changes, and the walk ends. *)
Theorem wait_queue_wake_all kernel s l q w :
  kinv kernel s l -> wqueue s q w ->
  exists s', wait_queue_wake s q = Some (0, s') /\ kinv kernel s' l /\ wqueue s' q [] /\
    forall a, procs s' !! a =
      if bool_decide (a ∈ w)
      then (fun p => set_wait_queue_next 0 (set_status PROCESS_STATUS_READY p)) <$> procs s !! a
      else procs s !! a.
Proof.
  intros K HW. destruct (wait_queue_wake_ok s q w HW) as (s' & E & Wk & V & F).
  exists s'. split; [done|]. split; [by eapply kinv_evolves|]. split; [|done].
  split; [constructor|]. rewrite F. by destruct q.
Qed.

(** A process that waits on a queue goes to sleep, stands on the queue once,
    behind those that already wait, and another process runs: a ready one or
    the idle process; the status of no other process changes and the process
    table stays well formed. *)
Theorem wait_queue_add_sleeps kernel s l q w :
  kinv kernel s l -> wqueue s q w -> In (current_process s) l ->
  current_process s <> proc_first s ->
  (~ In (current_process s) w -> fld wait_queue_next s (current_process s) = 0) ->
  exists s', wait_queue_add s q (current_process s) = Some (0, s') /\
    kinv kernel s' l /\ current_process s' <> current_process s /\
    In (current_process s') l /\
    fld status s' (current_process s) = PROCESS_STATUS_SLEEPING /\
    wqueue s' q (if bool_decide (current_process s ∈ w) then w else w ++ [current_process s]) /\
    (forall a, a <> current_process s -> fld status s' a = fld status s a).
Proof. apply wait_queue_add_ok. Qed.

(** C31. A process that exits is marked exited with its value, every process that
    sleeps in [waitpid] is ready again and the queue is empty, and another
    process runs. *)
Theorem exit_wakes_waiters `{MemFill} kernel s l w v :
  kinv kernel s l -> wqueue s waitpid_wait_queue w -> In (current_process s) l ->
  ~ In (current_process s) w -> current_process s <> proc_first s ->
  exists s', exit s v = Some s' /\ kinv kernel s' l /\
    current_process s' <> current_process s /\ In (current_process s') l /\
    fld status s' (current_process s) = PROCESS_STATUS_EXITED /\
    fld exit_value s' (current_process s) = v /\ waitpid_first s' = 0 /\
    (forall a, a <> current_process s -> fld status s' a =
       if bool_decide (a ∈ w) then PROCESS_STATUS_READY else fld status s a).
Proof. apply exit_ok. Qed.

(** C22. [waitpid] on a child [c], not the idle process, with the id [n]: once
    the child has exited, both variants store its exit value in the caller's
    word, return [n], take the zombie out of the table, give exactly its chunks
    back to the allocator and write nowhere else; while it has not, the WNOHANG
    variant returns 0 and changes nothing, and the other puts the caller to sleep
    on the queue, to come back to the test. *)
Theorem waitpid_reaps `{MemFill} kernel s l1 c l2 q wstatus options caller w :
  kinv kernel s (l1 ++ c :: l2) -> procs s !! c = Some q -> c <> proc_first s ->
  wqueue s waitpid_wait_queue w -> In (current_process s) (l1 ++ c :: l2) ->
  current_process s <> proc_first s ->
  (~ In (current_process s) w -> fld wait_queue_next s (current_process s) = 0) ->
  exists r s', waitpid s (pid q) wstatus options caller = Some (r, s') /\
    if status q =? PROCESS_STATUS_EXITED
    then r = Returned (pid q) /\ kinv kernel s' (l1 ++ l2) /\ procs s' !! c = None /\
         reaped s s' c q wstatus
    else if options =? WNOHANG then r = Returned 0 /\ s' = s
    else r = Blocked c /\ kinv kernel s' (l1 ++ c :: l2) /\
         fld status s' (current_process s) = PROCESS_STATUS_SLEEPING /\
         (exists w', wqueue s' waitpid_wait_queue w' /\ In (current_process s) w').
Proof.
  intros K Hq Hc HW Hin Hne Hn.
  pose proof (k_pids _ _ _ K c q Hq) as Hpid. pose proof (k_list _ _ _ K) as HP.
  assert (El : process_lookup s (pid q) = Some c).
  { unfold process_lookup. rewrite (process_lookup_loop_ok s (pid q) (l1 ++ c :: l2)).
    - destruct (List.find _ _) as [p|] eqn:Ef.
      + apply find_some in Ef as [Hp Ef]. b2p.
        destruct (proj2 (k_dom _ _ _ K p) Hp) as [qp Hqp].
        unfold fld in Ef. rewrite Hqp in Ef. cbn. f_equal. by apply (k_distinct _ _ _ K p c qp q).
      + exfalso. eapply find_none in Ef; [|apply in_elt]. cbn in Ef. unfold fld in Ef.
        rewrite Hq in Ef. cbn in Ef. b2p. done.
    - apply HP.
    - by apply plist_fuel. }
  unfold waitpid. rewrite (proj2 (Z.eqb_neq (pid q) (-1))) by lia.
  replace (pid q <? 0) with false by lia. bind_with El.
  unfold waitpid_nohang, waitpid_loop. rewrite Hq. cbn [mbind option_bind].
  destruct (status q =? PROCESS_STATUS_EXITED) eqn:Est; cbn [negb].
  - destruct (reap_ok kernel s l1 c l2 q wstatus K Hq Hc) as (s' & E & K' & Hnone & Hr).
    rewrite E. cbn [mbind option_bind]. destruct (options =? WNOHANG); by eexists _, s'.
  - destruct (options =? WNOHANG); [by eexists _, s|].
    destruct (wait_queue_add_ok kernel s _ waitpid_wait_queue w K HW Hin Hne Hn)
      as (s' & E & K' & _ & _ & St & HW' & _).
    bind_with E. eexists _, s'. split; [done|]. split; [done|]. split; [done|]. split; [done|].
    eexists. split; [exact HW'|]. destruct (bool_decide _) eqn:Eb.
    + apply bool_decide_eq_true in Eb. by apply list_elem_of_In.
    + apply in_app_iff. cbn. tauto.
Qed.

(** C30. [vfork] either finds no memory and returns -1, or makes a child that is
    a copy of the parent (user registers, program counter, directory, name)
    with its own id and list links, no stack or text of its own, and the
    parent's kernel registers moved to its own kernel stack; the parent sleeps
    while the child is ready, and the child's id is what the parent gets. *)
Theorem vfork_copies `{MemFill} kernel s l :
  kinv kernel s l -> 0 <= avail_pid s < 2 ^ 31 - 1 -> In (current_process s) l ->
  current_process s <> proc_first s ->
  (exists s', vfork s = Some (-1, s')) \/
  (exists child s1 s2, forked kernel s s1 l child /\
     vfork s = Some (avail_pid s, s2) /\ switched s1 s2 (current_process s2) /\
     current_process s2 <> current_process s /\ kinv kernel s2 (l ++ [child])).
Proof.
  intros K Hav Hin Hne.
  destruct (vfork_ok kernel s l K Hav Hin) as [(s' & E & _)|(c & s1 & F & E)].
  { left. by exists s'. }
  right. pose proof (fk_current _ _ _ _ _ F) as Hc.
  destruct (schedule_away s1 (l ++ [c])) as (s2 & E2 & Hsw & Hne2 & _).
  - apply F.
  - rewrite Hc. apply in_app_iff. by left.
  - rewrite Hc, (fk_parent _ _ _ _ _ F). done.
  - by rewrite Hc, (fk_first _ _ _ _ _ F).
  - exists c, s1, s2. split; [done|]. rewrite E. unfold vfork_return.
    rewrite Hc, Z.eqb_refl, E2. split; [done|]. split; [done|]. split; [congruence|].
    eapply kinv_evolves; [apply Hsw|apply F].
Qed.

(** ** Three processes

    The idle process at chunk 3, and two ready ones at chunks 5 and 7, the first
    of them running. *)
Definition three_pcb (n p i st : Z) : pcb :=
  set_next n (set_prev p (set_pid i (set_status st pcb_zero))).

Definition grab (a : alloc) : alloc :=
  match memory_allocate a sizeof_pcb with Some (_, a') => a' | None => a end.

Definition three_alloc : alloc := grab (grab (grab boot_alloc)).

Definition three : kstate :=
  Kstate (<[12288 := three_pcb 20480 0 0 0]> (<[20480 := three_pcb 28672 12288 1 1]>
           (<[28672 := three_pcb 0 20480 2 1]> ∅)))
    12288 20480 3 three_alloc (fun _ => 0) 7 (repeat 5 16) 0 0 0.

(** The first of the others, asleep: it waits for the child at 28672. *)
Definition three_waiting : kstate :=
  with_waitpid_first 20480 (with_current_process 28672
    (with_procs (<[20480 := three_pcb 28672 12288 1 0]> (procs three)) three)).

Lemma grab_inv a live p :
  client_inv (kernel_chunk 9000) (a, live) -> fst <$> memory_allocate a sizeof_pcb = Some p ->
  p <> 0 -> client_inv (kernel_chunk 9000) (grab a, (p / CHUNK_SIZE, sizeof_pcb) :: live).
Proof.
  intros HC Hp Hp0. unfold grab. destruct (memory_allocate a sizeof_pcb) as [[p' a']|] eqn:E; [|done].
  injection Hp as ->. assert (Hsz : 0 <= sizeof_pcb < 2 ^ 32) by done.
  by destruct (client_step_allocate _ _ _ _ _ _ HC Hsz E) as [[? _]|(_ & _ & ?)].
Qed.

Lemma three_alloc_inv :
  client_inv (kernel_chunk 9000) (three_alloc, [(7, 8192); (5, 8192); (3, 8192)]).
Proof.
  apply (grab_inv _ _ 28672); [|by vm_compute|done].
  apply (grab_inv _ _ 20480); [|by vm_compute|done].
  apply (grab_inv _ _ 12288); [|by vm_compute|done].
  exact boot_alloc_inv.
Qed.

(** Case analysis on the address of one of the three. *)
Lemma three_lookup p q :
  procs three !! p = Some q ->
  p = 12288 /\ q = three_pcb 20480 0 0 0 \/ p = 20480 /\ q = three_pcb 28672 12288 1 1 \/
  p = 28672 /\ q = three_pcb 0 20480 2 1.
Proof.
  cbn [procs three]. rewrite !lookup_insert_Some, lookup_empty.
  intros [[<- <-]|(_ & [[<- <-]|(_ & [[<- <-]|[_ ?]])])]; tauto || done.
Qed.

Lemma three_inv : kinv (kernel_chunk 9000) three [12288; 20480; 28672].
Proof.
  split.
  - split; [by apply (bool_decide_unpack _); vm_compute|]. split.
    + split; [done|]. split; [done|]. exists (three_pcb 20480 0 0 0).
      split; [by vm_compute|]. split; [done|]. split; [done|].
      exists (three_pcb 28672 12288 1 1). split; [by vm_compute|]. split; [done|].
      split; [done|]. exists (three_pcb 0 20480 2 1). by split; [vm_compute|].
    + split; [exists (three_pcb 28672 12288 1 1); by split; [vm_compute|]|].
      split; [exists (three_pcb 0 20480 2 1); by split; [vm_compute|]|done].
  - intros p. split.
    + intros [q Hq]. destruct (three_lookup p q Hq) as [[-> _]|[[-> _]|[-> _]]]; cbn; tauto.
    + intros [<-|[<-|[<-|[]]]]; eexists; by vm_compute.
  - intros p q Hq. destruct (three_lookup p q Hq) as [[_ ->]|[[_ ->]|[_ ->]]]; cbn; lia.
  - intros p1 p2 q1 q2 H1 H2.
    destruct (three_lookup _ _ H1) as [[-> ->]|[[-> ->]|[-> ->]]],
      (three_lookup _ _ H2) as [[-> ->]|[[-> ->]|[-> ->]]]; done.
  - intros p q Hq. destruct (three_lookup p q Hq) as [[-> ->]|[[-> ->]|[-> ->]]];
      (split; [by vm_compute|split; by left]).
  - intros p q Hq _. destruct (three_lookup p q Hq) as [[-> ->]|[[-> ->]|[-> ->]]]; split; by left.
  - exists []. cbn [k_alloc three]. apply client_inv_perm with (2 := three_alloc_inv).
    assert (E : all_blocks (procs three) [12288; 20480; 28672] ++ []
                = rev [(7, 8192); (5, 8192); (3, 8192)]) by (by vm_compute).
    rewrite E. apply Permutation_rev.
Qed.

Lemma three_waiting_inv : kinv (kernel_chunk 9000) three_waiting [12288; 20480; 28672].
Proof.
  apply kinv_evolves with three; [|apply three_inv]. unfold three_waiting.
  transitivity (with_procs (<[20480 := three_pcb 28672 12288 1 0]> (procs three)) three).
  - apply evolves_upd with (three_pcb 28672 12288 1 1); by vm_compute.
  - apply evolves_running.
Qed.

Lemma schedule_round_robin_witness :
  exists s', schedule three = Some s' /\ switched three s' 28672.
Proof.
  apply (schedule_round_robin three 12288 [] 20480 [28672]); [apply three_inv|by left].
Defined.

Lemma wait_queue_wake_all_witness :
  exists s', wait_queue_wake three_waiting waitpid_wait_queue = Some (0, s') /\
    kinv (kernel_chunk 9000) s' [12288; 20480; 28672] /\ wqueue s' waitpid_wait_queue [] /\
    forall a, procs s' !! a =
      if bool_decide (a ∈ [20480])
      then (fun p => set_wait_queue_next 0 (set_status PROCESS_STATUS_READY p))
             <$> procs three_waiting !! a
      else procs three_waiting !! a.
Proof.
  apply (wait_queue_wake_all (kernel_chunk 9000) three_waiting [12288; 20480; 28672]);
    [apply three_waiting_inv|].
  split; [apply NoDup_singleton|]. split; [done|]. split; [done|].
  eexists. by split; [vm_compute|].
Defined.

Lemma wait_queue_add_sleeps_witness :
  exists s', wait_queue_add three console_wait_queue 20480 = Some (0, s') /\
    kinv (kernel_chunk 9000) s' [12288; 20480; 28672] /\ current_process s' <> 20480 /\
    In (current_process s') [12288; 20480; 28672] /\
    fld status s' 20480 = PROCESS_STATUS_SLEEPING /\
    wqueue s' console_wait_queue [20480] /\
    (forall a, a <> 20480 -> fld status s' a = fld status three a).
Proof.
  apply (wait_queue_add_sleeps (kernel_chunk 9000) three [12288; 20480; 28672]
           console_wait_queue []);
    [ exact three_inv | split; [constructor|reflexivity] | right; left; reflexivity
    | discriminate | intros _; by vm_compute ].
Defined.

Lemma exit_wakes_waiters_witness :
  exists s', exit three_waiting 3 = Some s' /\
    kinv (kernel_chunk 9000) s' [12288; 20480; 28672] /\ current_process s' <> 28672 /\
    In (current_process s') [12288; 20480; 28672] /\
    fld status s' 28672 = PROCESS_STATUS_EXITED /\ fld exit_value s' 28672 = 3 /\
    waitpid_first s' = 0 /\
    (forall a, a <> 28672 -> fld status s' a =
       if bool_decide (a ∈ [20480]) then PROCESS_STATUS_READY else fld status three_waiting a).
Proof.
  apply (exit_wakes_waiters (kernel_chunk 9000) three_waiting [12288; 20480; 28672] [20480] 3);
    [ exact three_waiting_inv
    | split; [apply NoDup_singleton|split; [reflexivity|split; [discriminate|]]]
    | right; right; left; reflexivity
    | intros [E|[]]; discriminate E | discriminate ].
  eexists. split; [by vm_compute|reflexivity].
Defined.

(** The child at 28672 has exited with 7. *)
Definition zombie : pcb :=
  set_exit_value 7 (set_status PROCESS_STATUS_EXITED (three_pcb 0 20480 2 1)).

Definition three_zombie : kstate := with_procs (<[28672 := zombie]> (procs three)) three.

Lemma three_zombie_inv : kinv (kernel_chunk 9000) three_zombie [12288; 20480; 28672].
Proof.
  eapply kinv_evolves; [|exact three_inv]. by apply evolves_upd with (three_pcb 0 20480 2 1).
Qed.

Lemma waitpid_reaps_witness :
  exists r s', waitpid three_zombie 2 5000 0 20480 = Some (r, s') /\ r = Returned 2 /\
    kinv (kernel_chunk 9000) s' [12288; 20480] /\ procs s' !! 28672 = None /\
    load32 (k_mem s') 5000 = 7 /\ used (k_alloc s') 7 = false.
Proof.
  destruct (waitpid_reaps (kernel_chunk 9000) three_zombie [12288; 20480] 28672 [] zombie 5000 0 20480 [])
    as (r & s' & E & Hr & K & Hn & [Hst _ Hrel]);
    [ exact three_zombie_inv | by vm_compute | discriminate | split; [constructor|reflexivity]
    | right; left; reflexivity | discriminate | intros _; by vm_compute | ].
  exists r, s'. split; [exact E|]. split; [exact Hr|]. split; [exact K|]. split; [exact Hn|].
  split; [|rewrite Hrel by lia; by rewrite andb_false_r].
  apply Hst; [discriminate|]. apply List.Forall_cons; [|apply List.Forall_nil]. right. cbn. lia.
Defined.

Lemma vfork_copies_witness :
  (exists s', vfork three = Some (-1, s')) \/
  (exists child s1 s2, forked (kernel_chunk 9000) three s1 [12288; 20480; 28672] child /\
     vfork three = Some (3, s2) /\ switched s1 s2 (current_process s2) /\
     current_process s2 <> 20480 /\
     kinv (kernel_chunk 9000) s2 ([12288; 20480; 28672] ++ [child])).
Proof.
  apply (vfork_copies (kernel_chunk 9000) three [12288; 20480; 28672]);
    [exact three_inv|cbn; lia|right; left; reflexivity|discriminate].
Defined.

(** ** At the edges *)

(** A blocking [waitpid(-1)] returns its argument, -1, for the child it has
    reaped: the caller cannot tell which child it was. *)
Lemma waitpid_any_returns_minus_1 `{MemFill} kernel s l1 c l2 q wstatus options caller :
  kinv kernel s (l1 ++ c :: l2) -> process_lookup_child s caller = Some c -> c <> 0 ->
  c <> proc_first s ->
  procs s !! c = Some q -> status q = PROCESS_STATUS_EXITED -> options <> WNOHANG ->
  exists s', waitpid s (-1) wstatus options caller = Some (Returned (-1), s').
Proof.
  intros K El Hc Hcf Hq Hst Ho. unfold waitpid. cbn [Z.eqb Pos.eqb]. bind_with El.
  rewrite (proj2 (Z.eqb_neq c 0)), (proj2 (Z.eqb_neq options WNOHANG)) by done.
  unfold waitpid_loop. rewrite Hq. cbn [mbind option_bind]. rewrite Hst. cbn [negb Z.eqb].
  destruct (reap_ok kernel s l1 c l2 q wstatus K Hq Hcf) as (s' & E & _).
  exists s'. bind_with E. done.
Qed.

(** [waitpid] for an id no process has reads the status of the block at NULL. *)
Lemma waitpid_unknown_null `{MemFill} kernel s l n wstatus options caller :
  kinv kernel s l -> 0 <= n -> (forall p q, procs s !! p = Some q -> pid q <> n) ->
  procs s !! 0 = None -> waitpid s n wstatus options caller = None.
Proof.
  intros K Hn Hno H0. pose proof (k_list _ _ _ K) as HP.
  assert (El : process_lookup s n = Some 0).
  { unfold process_lookup. rewrite (process_lookup_loop_ok s n l);
      [|apply HP|by apply plist_fuel].
    destruct (List.find _ _) as [p|] eqn:Ef; [|done].
    apply find_some in Ef as [Hp Ef]. b2p. destruct (proj2 (k_dom _ _ _ K p) Hp) as [q Hq].
    unfold fld in Ef. rewrite Hq in Ef. exfalso. by apply (Hno p q). }
  unfold waitpid. rewrite (proj2 (Z.eqb_neq n (-1))) by lia.
  replace (n <? 0) with false by lia. bind_with El.
  unfold waitpid_nohang, waitpid_loop. rewrite H0. by destruct (options =? WNOHANG).
Qed.
