(* ===== verification/Mmio.v ===== *)
(** * Memory-mapped devices: kernel/include/lib/mmio.h and
      kernel/drivers/bcm2835/bcm2835_io.c

    The board is not part of the program: a [Device] is a type of board states
    with a 32-bit load and a 32-bit store, both of which may change the state.
    What a driver relies on is stated as laws of the registers it uses:
    [plain] for registers that read back what was written. *)

From stdpp Require Import base list numbers.
From Stdlib Require Import ZArith Lia.
From S2P Require Import Prelude.

Class Device (W : Type) := {
  mmio_read : W -> Z -> Z * W;
  mmio_write : W -> Z -> Z -> W }.

Section Bcm2835.
Context `{Device W} (io_base : Z).

Definition bcm2835_write (w : W) (address data : Z) : W :=
  mmio_write w (u32 (io_base + address)) data.

Definition bcm2835_read (w : W) (address : Z) : Z * W :=
  mmio_read w (u32 (io_base + address)).

(** What a load of a register would return. *)
Definition reg (w : W) (address : Z) : Z := fst (bcm2835_read w address).

(** The registers in [P] hold what was last written to them, and a load does
    nothing else. *)
Class Plain (P : Z -> Prop) := {
  plain_read w a : P a -> snd (bcm2835_read w a) = w;
  plain_range w a : P a -> 0 <= reg w a < 2 ^ 32;
  plain_same w a v : P a -> 0 <= v < 2 ^ 32 -> reg (bcm2835_write w a v) a = v;
  plain_other w a b v : P a -> P b -> a <> b -> reg (bcm2835_write w b v) a = reg w a }.

(** Stores to the registers in [Q] do not change those in [P]. *)
Class Quiet (P Q : Z -> Prop) :=
  quiet w a b v : P a -> Q b -> reg (bcm2835_write w b v) a = reg w a.

Lemma plain_load `{Plain P} w a : P a -> bcm2835_read w a = (reg w a, w).
Proof.
  intros Ha. pose proof (plain_read w a Ha) as E. unfold reg.
  destruct (bcm2835_read w a) as [v w']. cbn in *. by subst w'.
Qed.

Lemma plain_sub (P Q : Z -> Prop) : Plain P -> (forall a, Q a -> P a) -> Plain Q.
Proof.
  intros [H1 H2 H3 H4] Hs. split; [|by auto..]. intros w a Ha. by apply H1, Hs.
Qed.
End Bcm2835.

(** A board all of whose registers are plain, to run the drivers on. *)
Definition bank : Type := Z -> Z.

#[global] Instance bank_device : Device bank := {
  mmio_read w a := (u32 (w a), w);
  mmio_write w a v := upd w a v }.

#[global] Instance bank_plain : Plain (W := bank) 0x20000000 (fun a => 0 <= a < 2 ^ 28).
Proof.
  split.
  - done.
  - intros. apply u32_range.
  - intros w a v _ Hv. unfold reg, bcm2835_read, bcm2835_write. cbn.
    rewrite upd_eq. by apply u32_id.
  - intros w a b v Ha Hb Hab. unfold reg, bcm2835_read, bcm2835_write. cbn.
    rewrite upd_ne; [done|]. rewrite !u32_id by lia. lia.
Qed.

(** ** Shifts, masks and bit fields of registers *)

(** [x << n] on 32 bits. *)
Definition shl32 (x n : Z) : Z := u32 (Z.shiftl x n).

(** [~x] on 32 bits. *)
Definition not32 (x : Z) : Z := u32 (Z.lnot x).

Lemma u32_testbit z n : 0 <= n -> Z.testbit (u32 z) n = (n <? 32) && Z.testbit z n.
Proof.
  intros Hn. unfold u32. rewrite <- Z.land_ones, Z.land_spec by lia.
  rewrite Z.testbit_ones_nonneg by lia. by rewrite andb_comm.
Qed.

Lemma not32_testbit z n : 0 <= n < 32 -> Z.testbit (not32 z) n = negb (Z.testbit z n).
Proof.
  intros Hn. unfold not32. rewrite u32_testbit, Z.lnot_spec by lia.
  by replace (n <? 32) with true by lia.
Qed.

Lemma shl32_testbit x k n : 0 <= k -> 0 <= n < 32 ->
  Z.testbit (shl32 x k) n = Z.testbit x (n - k).
Proof.
  intros Hk Hn. unfold shl32. rewrite u32_testbit, Z.shiftl_spec by lia.
  by replace (n <? 32) with true by lia.
Qed.

Lemma one_testbit n : Z.testbit 1 n = (n =? 0).
Proof. change 1 with (2 ^ 0). rewrite Z.pow2_bits_eqb by lia. apply Z.eqb_sym. Qed.

Lemma u32_lor_range a b : 0 <= a < 2 ^ 32 -> 0 <= b < 2 ^ 32 -> 0 <= Z.lor a b < 2 ^ 32.
Proof.
  intros Ha Hb. assert (Z.lor a b = u32 (Z.lor a b)) as ->; [|apply u32_range].
  apply Z.bits_inj'. intros n Hn. rewrite u32_testbit, Z.lor_spec by lia.
  destruct (n <? 32) eqn:E; b2p; [done|].
  rewrite <- (u32_id a), <- (u32_id b), !u32_testbit by lia.
  by replace (n <? 32) with false by lia.
Qed.

Lemma u32_land_range a b : 0 <= a < 2 ^ 32 -> 0 <= Z.land a b < 2 ^ 32.
Proof.
  intros Ha. assert (Z.land a b = u32 (Z.land a b)) as ->; [|apply u32_range].
  apply Z.bits_inj'. intros n Hn. rewrite u32_testbit, Z.land_spec by lia.
  destruct (n <? 32) eqn:E; b2p; [done|].
  rewrite <- (u32_id a), !u32_testbit by lia. by replace (n <? 32) with false by lia.
Qed.

Lemma lor_bit_testbit x p n : 0 <= p -> 0 <= n < 32 ->
  Z.testbit (Z.lor x (shl32 1 p)) n = Z.testbit x n || (n =? p).
Proof.
  intros Hp Hn. rewrite Z.lor_spec, shl32_testbit, one_testbit by lia.
  f_equal. apply eq_true_iff_eq. rewrite !Z.eqb_eq. lia.
Qed.

#[export] Hint Resolve u32_lor_range u32_land_range : words.

(** Three-bit fields: field [j] is the bits [3j .. 3j+2]. *)
Definition field3 (x j : Z) : Z := Z.land (Z.shiftr x (3 * j)) 7.

Lemma seven_testbit n : 0 <= n -> Z.testbit 7 n = (n <? 3).
Proof. intros Hn. change 7 with (Z.ones 3). by rewrite Z.testbit_ones_nonneg by lia. Qed.

Lemma field3_update x v i j :
  0 <= j < 10 -> 0 <= i < 10 -> 0 <= v < 8 ->
  field3 (Z.lor (Z.land x (not32 (shl32 7 (3 * j)))) (shl32 v (3 * j))) i
  = if i =? j then v else field3 x i.
Proof.
  intros Hj Hi Hv. assert (Hvb : forall n, 3 <= n -> Z.testbit v n = false).
  { intros n Hn. rewrite <- (Z.mod_small v (2 ^ 3)) by lia.
    apply Z.mod_pow2_bits_high. lia. }
  apply Z.bits_inj'. intros n Hn. unfold field3.
  rewrite !Z.land_spec, seven_testbit by done.
  destruct (n <? 3) eqn:E; b2p.
  - rewrite Z.shiftr_spec, Z.lor_spec, Z.land_spec, not32_testbit, !shl32_testbit by lia.
    rewrite andb_true_r.
    destruct (i =? j) eqn:Eij; b2p.
    + subst i. replace (n + 3 * j - 3 * j) with n by lia. rewrite seven_testbit by lia.
      replace (n <? 3) with true by lia. by rewrite andb_false_r.
    + rewrite Z.land_spec, Z.shiftr_spec, (seven_testbit n) by lia.
      replace (n <? 3) with true by lia. rewrite andb_true_r.
      destruct (Z.lt_ge_cases i j).
      * rewrite !(Z.testbit_neg_r _ (n + 3 * i - 3 * j)) by lia.
        by rewrite andb_true_r, orb_false_r.
      * rewrite (seven_testbit (n + 3 * i - 3 * j)), (Hvb (n + 3 * i - 3 * j)) by lia.
        replace (n + 3 * i - 3 * j <? 3) with false by lia.
        by rewrite andb_true_r, orb_false_r.
  - rewrite andb_false_r. destruct (i =? j); [by rewrite Hvb|].
    rewrite Z.land_spec, (seven_testbit n) by lia.
    by rewrite (proj2 (Z.ltb_ge n 3)), andb_false_r by lia.
Qed.
