(* ===== verification/Gpio.v ===== *)
(** * Board, pins and the activity LED: kernel/boot/hardware_detect.c
      (the revision tables), kernel/drivers/gpio/gpio.c and
      kernel/drivers/led/led.c

    The 64-bit set of reserved pins and the LED settings are the drivers'
    state; the pins themselves are device registers ([Mmio]). *)

From stdpp Require Import base list numbers.
From Stdlib Require Import ZArith Lia.
From S2P Require Import Prelude Mmio.

(** ** boot/hardware_detect.c *)

Definition RPI_MODEL_UNKNOWN : Z := 0.
Definition RPI_MODEL_A : Z := 1.
Definition RPI_MODEL_B : Z := 2.
Definition RPI_MODEL_APLUS : Z := 3.
Definition RPI_MODEL_BPLUS : Z := 4.
Definition RPI_COMPUTE_MODULE1 : Z := 6.
Definition RPI_MODEL_2B : Z := 7.
Definition RPI_MODEL_ZERO : Z := 8.
Definition RPI_MODEL_3B : Z := 9.
Definition RPI_MODEL_3BPLUS : Z := 10.
Definition RPI_MODEL_2B_V1_2 : Z := 11.
Definition RPI_COMPUTE_MODULE3 : Z := 12.
Definition RPI_MODEL_ZERO_W : Z := 13.
Definition RPI_MODEL_ZERO_2W : Z := 14.
Definition RPI_MODEL_3APLUS : Z := 15.
Definition RPI_MODEL_4B : Z := 16.

Definition is_in (x : Z) (l : list Z) : bool := existsb (Z.eqb x) l.

Definition hardware_convert_type (revision : Z) : Z :=
  if is_in revision [0x2; 0x3; 0x4; 0x5; 0x6; 0xd; 0xe; 0xf] then RPI_MODEL_B
  else if is_in revision [0x7; 0x8; 0x9] then RPI_MODEL_A
  else if is_in revision [0x10; 0x13; 0x900032] then RPI_MODEL_BPLUS
  else if is_in revision [0x11; 0x14] then RPI_COMPUTE_MODULE1
  else if is_in revision [0xa020a0] then RPI_COMPUTE_MODULE3
  else if is_in revision [0x12; 0x15; 0x900021] then RPI_MODEL_APLUS
  else if is_in revision [0x900092; 0x900093; 0x920093] then RPI_MODEL_ZERO
  else if is_in revision [0x9000c1] then RPI_MODEL_ZERO_W
  else if is_in revision [0x902120] then RPI_MODEL_ZERO_2W
  else if is_in revision [0xa01040; 0xa01041; 0xa21041] then RPI_MODEL_2B
  else if is_in revision [0xa22042] then RPI_MODEL_2B_V1_2
  else if is_in revision [0xa02082; 0xa22082; 0xa32082] then RPI_MODEL_3B
  else if is_in revision [0xa020d3] then RPI_MODEL_3BPLUS
  else if is_in revision [0x9020e0] then RPI_MODEL_3APLUS
  else if is_in revision [0xa03111; 0xb03111; 0xb03112; 0xb03114; 0xb03115; 0xc03111;
                          0xc03112; 0xc03114; 0xc03115; 0xd03114; 0xd03115]
  then RPI_MODEL_4B
  else RPI_MODEL_UNKNOWN.

(** [io_base] and [act_led_gpio] (which stays as it is where the code does not
    assign it). *)
Definition hardware_setup_vars (hardware_type act_led_gpio : Z) : Z * Z :=
  if hardware_type =? RPI_MODEL_A then (0x20000000, 16)
  else if hardware_type =? RPI_MODEL_APLUS then (0x20000000, 16)
  else if hardware_type =? RPI_MODEL_B then (0x20000000, act_led_gpio)
  else if hardware_type =? RPI_MODEL_BPLUS then (0x20000000, act_led_gpio)
  else if hardware_type =? RPI_MODEL_2B then (0x3f000000, act_led_gpio)
  else if hardware_type =? RPI_MODEL_2B_V1_2 then (0x3f000000, act_led_gpio)
  else if hardware_type =? RPI_MODEL_3B then (0x3f000000, act_led_gpio)
  else if hardware_type =? RPI_MODEL_3BPLUS then (0x3f000000, 29)
  else if hardware_type =? RPI_MODEL_3APLUS then (0x3f000000, 29)
  else if hardware_type =? RPI_MODEL_ZERO then (0x20000000, act_led_gpio)
  else if hardware_type =? RPI_MODEL_ZERO_W then (0x20000000, act_led_gpio)
  else if hardware_type =? RPI_MODEL_ZERO_2W then (0x3f000000, act_led_gpio)
  else if hardware_type =? RPI_COMPUTE_MODULE1 then (0x20000000, act_led_gpio)
  else if hardware_type =? RPI_COMPUTE_MODULE3 then (0x3f000000, act_led_gpio)
  else if hardware_type =? RPI_MODEL_4B then (0xfe000000, 42)
  else (0xfe000000, act_led_gpio).

(** ** drivers/gpio/gpio.c *)

Definition MAX_GPIO : Z := 54.

Definition GPIO_BASE : Z := 0x200000.
Definition GPIO_GPFSEL0 : Z := GPIO_BASE + 0x00.
Definition GPIO_GPSET0 : Z := GPIO_BASE + 0x1c.
Definition GPIO_GPCLR0 : Z := GPIO_BASE + 0x28.
Definition GPIO_GPLEV0 : Z := GPIO_BASE + 0x34.
Definition GPIO_GPEDS0 : Z := GPIO_BASE + 0x40.
Definition GPIO_GPFEN0 : Z := GPIO_BASE + 0x58.

(** [1ULL<<which_one] *)
Definition bit64 (which_one : Z) : Z := u64 (Z.shiftl 1 which_one).

(** [gpio_reserved] is passed and returned. *)
Definition gpio_request (gpio_reserved which_one : Z) : Z * Z :=
  if MAX_GPIO <? which_one then (-1, gpio_reserved)
  else if negb (Z.land (bit64 which_one) gpio_reserved =? 0) then (-1, gpio_reserved)
  else (0, Z.lor gpio_reserved (bit64 which_one)).

Definition gpio_free (gpio_reserved which_one : Z) : Z * Z :=
  if MAX_GPIO <? which_one then (-1, gpio_reserved)
  else (0, Z.land gpio_reserved (u64 (Z.lnot (bit64 which_one)))).

Definition gpio_to_irq (which_one : Z) : Z := 49.

Section Gpio.
Context `{Device W} (io_base : Z).

Definition gpio_direction_input (w : W) (which_one : Z) : Z * W :=
  if MAX_GPIO <? which_one then (-1, w)
  else
    let addr_offset := u32 (Z.quot which_one 10 * 4) in
    let bit := u32 (Z.rem which_one 10 * 3) in
    let '(old, w1) := bcm2835_read io_base w (u32 (GPIO_GPFSEL0 + addr_offset)) in
    let old1 := Z.land old (not32 (shl32 7 bit)) in
    (0, bcm2835_write io_base w1 (u32 (GPIO_GPFSEL0 + addr_offset)) old1).

Definition gpio_direction_output (w : W) (which_one : Z) : Z * W :=
  if MAX_GPIO <? which_one then (-1, w)
  else
    let addr_offset := u32 (Z.quot which_one 10 * 4) in
    let bit := u32 (Z.rem which_one 10 * 3) in
    let '(old, w1) := bcm2835_read io_base w (u32 (GPIO_GPFSEL0 + addr_offset)) in
    let old1 := Z.land old (not32 (shl32 7 bit)) in
    let old2 := Z.lor old1 (shl32 1 bit) in
    (0, bcm2835_write io_base w1 (u32 (GPIO_GPFSEL0 + addr_offset)) old2).

(** [1<<(which_one&0x1f)] and [(which_one/32)*4] *)
Definition pin_bit (which_one : Z) : Z := shl32 1 (Z.land which_one 0x1f).
Definition pin_offset (which_one : Z) : Z := u32 (Z.quot which_one 32 * 4).

Definition gpio_get_value (w : W) (which_one : Z) : Z * W :=
  if MAX_GPIO <? which_one then (-1, w)
  else
    let '(result, w1) := bcm2835_read io_base w (u32 (GPIO_GPLEV0 + pin_offset which_one)) in
    (if Z.land result (pin_bit which_one) =? 0 then 0 else 1, w1).

Definition gpio_set_value (w : W) (which_one value : Z) : Z * W :=
  if MAX_GPIO <? which_one then (-1, w)
  else if value =? 0 then
    (0, bcm2835_write io_base w (u32 (GPIO_GPCLR0 + pin_offset which_one)) (pin_bit which_one))
  else if value =? 1 then
    (0, bcm2835_write io_base w (u32 (GPIO_GPSET0 + pin_offset which_one)) (pin_bit which_one))
  else (0, w).

Definition gpio_set_falling (w : W) (which_one : Z) : Z * W :=
  if MAX_GPIO <? which_one then (-1, w)
  else
    let address := u32 (GPIO_GPFEN0 + pin_offset which_one) in
    let '(old, w1) := bcm2835_read io_base w address in
    (0, bcm2835_write io_base w1 address (Z.lor old (pin_bit which_one))).

Definition gpio_clear_interrupt (w : W) (which_one : Z) : Z * W :=
  if MAX_GPIO <? which_one then (-1, w)
  else (0, bcm2835_write io_base w (u32 (GPIO_GPEDS0 + pin_offset which_one)) (pin_bit which_one)).

(** ** drivers/led/led.c *)

Record led := Led { led_gpio : Z; led_active_low : Z; led_configured : Z }.

(** The initialised data of the driver. *)
Definition led_default : led := Led 16 1 0.

(** The result, the LED's settings, [gpio_reserved] and the board; the results
    of [gpio_request] and [gpio_direction_output] are dropped. *)
Definition led_init (hardware_type : Z) (l : led) (gpio_reserved : Z) (w : W)
    : Z * led * Z * W :=
  let start gpio low :=
    let l' := Led gpio low 1 in
    let reserved' := snd (gpio_request gpio_reserved gpio) in
    (0, l', reserved', snd (gpio_direction_output w gpio)) in
  if (hardware_type =? RPI_MODEL_B) || (hardware_type =? RPI_MODEL_A) then start 16 1
  else if (hardware_type =? RPI_MODEL_BPLUS) || (hardware_type =? RPI_MODEL_APLUS) ||
          (hardware_type =? RPI_MODEL_2B) then start 47 0
  else if hardware_type =? RPI_MODEL_3B then start 18 0
  else if hardware_type =? RPI_MODEL_4B then start 42 0
  else (ENODEV, Led (led_gpio l) (led_active_low l) 0, gpio_reserved, w).

Definition led_on (l : led) (w : W) : Z * W :=
  if led_configured l =? 0 then (0, w)
  else if negb (led_active_low l =? 0) then (0, snd (gpio_set_value w (led_gpio l) 0))
  else (0, snd (gpio_set_value w (led_gpio l) 1)).

Definition led_off (l : led) (w : W) : Z * W :=
  if led_configured l =? 0 then (0, w)
  else if negb (led_active_low l =? 0) then (0, snd (gpio_set_value w (led_gpio l) 1))
  else (0, snd (gpio_set_value w (led_gpio l) 0)).
End Gpio.

(** ** Reserved pins *)

Lemma bit64_testbit p q : 0 <= p < 64 -> 0 <= q -> Z.testbit (bit64 p) q = (q =? p).
Proof.
  intros Hp Hq. unfold bit64, u64. rewrite Z.shiftl_1_l, Z.mod_small.
  - rewrite Z.pow2_bits_eqb by lia. apply Z.eqb_sym.
  - split; [lia|]. apply Z.pow_lt_mono_r; lia.
Qed.

Lemma bit64_test r p : 0 <= p < 64 -> (Z.land (bit64 p) r =? 0) = negb (Z.testbit r p).
Proof.
  intros Hp. destruct (Z.testbit r p) eqn:E.
  - apply Z.eqb_neq. intros H0. apply (f_equal (fun z => Z.testbit z p)) in H0.
    rewrite Z.land_spec, bit64_testbit, Z.eqb_refl, E, Z.bits_0 in H0 by lia. done.
  - apply Z.eqb_eq, Z.bits_inj'. intros n Hn.
    rewrite Z.land_spec, bit64_testbit, Z.bits_0 by lia.
    destruct (n =? p) eqn:En; b2p; [by subst n|done].
Qed.

Lemma bit64_mask r p q : 0 <= p < 64 -> 0 <= q < 64 ->
  Z.testbit (Z.land r (u64 (Z.lnot (bit64 p)))) q = Z.testbit r q && negb (q =? p).
Proof.
  intros Hp Hq. rewrite Z.land_spec. f_equal. unfold u64.
  rewrite <- Z.land_ones, Z.land_spec, Z.testbit_ones_nonneg, Z.lnot_spec by lia.
  rewrite bit64_testbit by lia. by rewrite (proj2 (Z.ltb_lt q 64)), andb_true_r by lia.
Qed.

Lemma gpio_request_set res p q : 0 <= p <= 54 -> 0 <= q < 64 ->
  Z.testbit (snd (gpio_request res p)) q = Z.testbit res q || (q =? p).
Proof.
  intros Hp Hq. unfold gpio_request, MAX_GPIO. replace (54 <? p) with false by lia.
  rewrite bit64_test, negb_involutive by lia. destruct (Z.testbit res p) eqn:E; cbn [snd].
  - destruct (q =? p) eqn:Eq; b2p; [by subst q; rewrite E|by rewrite orb_false_r].
  - by rewrite Z.lor_spec, bit64_testbit by lia.
Qed.

(** ** Pin functions *)

(** The registers of the pins: the six function-select words. *)
Definition gpfsel (a : Z) : Prop := exists j, 0 <= j < 6 /\ a = GPIO_GPFSEL0 + 4 * j.

Section Pins.
Context `{Device W} (io_base : Z) `{!Plain (W := W) io_base gpfsel}.

(** The function a pin has: 0 input, 1 output. *)
Definition pin_function (w : W) (p : Z) : Z :=
  field3 (reg io_base w (GPIO_GPFSEL0 + 4 * (p / 10))) (p mod 10).

Lemma gpfsel_pin p : 0 <= p < 60 -> gpfsel (GPIO_GPFSEL0 + 4 * (p / 10)).
Proof. intros Hp. exists (p / 10). split; [|done]. Z.div_mod_to_equations. lia. Qed.

Lemma pin_address p : 0 <= p < 60 ->
  u32 (GPIO_GPFSEL0 + u32 (Z.quot p 10 * 4)) = GPIO_GPFSEL0 + 4 * (p / 10) /\
  u32 (Z.rem p 10 * 3) = 3 * (p mod 10).
Proof.
  intros Hp. rewrite Z.quot_div_nonneg, Z.rem_mod_nonneg by lia.
  pose proof (Z.mod_pos_bound p 10 ltac:(lia)).
  assert (0 <= p / 10 < 6) by (Z.div_mod_to_equations; lia).
  unfold GPIO_GPFSEL0, GPIO_BASE. rewrite (u32_id (p / 10 * 4)), !u32_id by lia. lia.
Qed.

(** Replacing the field of one pin leaves all others alone. *)
Lemma set_field w p q v :
  0 <= p < 54 -> 0 <= q < 54 -> 0 <= v < 8 ->
  let a := GPIO_GPFSEL0 + 4 * (p / 10) in
  pin_function (bcm2835_write io_base w a
    (Z.lor (Z.land (reg io_base w a) (not32 (shl32 7 (3 * (p mod 10)))))
       (shl32 v (3 * (p mod 10))))) q
  = if q =? p then v else pin_function w q.
Proof.
  intros Hp Hq Hv a. pose proof (gpfsel_pin p ltac:(lia)) as Hpa.
  pose proof (gpfsel_pin q ltac:(lia)) as Hqa.
  pose proof (plain_range io_base w a Hpa) as Hr.
  unfold pin_function. destruct (decide (q / 10 = p / 10)) as [E|E].
  - rewrite E. fold a. rewrite (plain_same io_base (P := gpfsel)); [|done|].
    + rewrite field3_update by (try lia; apply Z.mod_pos_bound; lia).
      assert ((q mod 10 =? p mod 10) = (q =? p)) as ->; [|done].
      apply eq_true_iff_eq. rewrite !Z.eqb_eq.
      pose proof (Z.div_mod q 10 ltac:(lia)). pose proof (Z.div_mod p 10 ltac:(lia)).
      split; [lia|]. by intros ->.
    + apply u32_lor_range; [by apply u32_land_range|apply u32_range].
  - rewrite (plain_other io_base (P := gpfsel)) by (done || (unfold a; lia)).
    replace (q =? p) with false; [done|]. symmetry. apply Z.eqb_neq. by intros ->.
Qed.

Lemma direction_output_ok w p q :
  0 <= p < 54 -> 0 <= q < 54 ->
  fst (gpio_direction_output io_base w p) = 0 /\
  pin_function (snd (gpio_direction_output io_base w p)) q
  = if q =? p then 1 else pin_function w q.
Proof.
  intros Hp Hq. unfold gpio_direction_output, MAX_GPIO.
  replace (54 <? p) with false by lia.
  destruct (pin_address p ltac:(lia)) as [-> ->].
  rewrite (plain_load io_base w _ (gpfsel_pin p ltac:(lia))). cbn [fst snd].
  split; [done|]. by apply set_field.
Qed.

Lemma direction_input_ok w p q :
  0 <= p < 54 -> 0 <= q < 54 ->
  fst (gpio_direction_input io_base w p) = 0 /\
  pin_function (snd (gpio_direction_input io_base w p)) q
  = if q =? p then 0 else pin_function w q.
Proof.
  intros Hp Hq. unfold gpio_direction_input, MAX_GPIO.
  replace (54 <? p) with false by lia.
  destruct (pin_address p ltac:(lia)) as [-> ->].
  rewrite (plain_load io_base w _ (gpfsel_pin p ltac:(lia))). cbn [fst snd].
  split; [done|]. pose proof (set_field w p q 0 Hp Hq ltac:(lia)) as Hs. cbv zeta in Hs.
  assert (E0 : shl32 0 (3 * (p mod 10)) = 0)
    by (unfold shl32; rewrite Z.shiftl_0_l; reflexivity).
  by rewrite E0, Z.lor_0_r in Hs.
Qed.
End Pins.

(** ** Properties *)

(** The reserved pins form a set: a request for a pin beyond 54 or one that
    is already reserved fails and changes nothing; any other request adds
    exactly that pin, and freeing removes exactly that pin, so that no pin is
    handed out twice without being freed between. *)
Theorem gpio_reservation res p q :
  0 <= p < 2 ^ 32 -> 0 <= q < 64 ->
  let '(r, res') := gpio_request res p in
  let '(f, res'') := gpio_free res p in
  r = (if (p <=? 54) && negb (Z.testbit res p) then 0 else -1) /\
  Z.testbit res' q = Z.testbit res q || (p <=? 54) && (q =? p) /\
  f = (if p <=? 54 then 0 else -1) /\
  Z.testbit res'' q = Z.testbit res q && negb ((p <=? 54) && (q =? p)).
Proof.
  intros Hp Hq. unfold gpio_request, gpio_free, MAX_GPIO. rewrite Z.ltb_antisym.
  destruct (p <=? 54) eqn:E; b2p; cbn [negb andb].
  - rewrite bit64_test, negb_involutive by lia.
    destruct (Z.testbit res p) eqn:Ep; cbn [negb].
    + rewrite bit64_mask by lia. split; [done|]. split; [|done].
      destruct (q =? p) eqn:Eq; b2p; [subst q; by rewrite Ep|by rewrite orb_false_r].
    + rewrite bit64_mask, Z.lor_spec, bit64_testbit by lia. done.
  - by rewrite orb_false_r, andb_true_r.
Qed.

(** Making a pin an output or an input sets that pin's function field and
    leaves the function of each of the other 53 pins as it was. *)
Theorem gpio_direction_fields `{Device W} io_base `{!Plain (W := W) io_base gpfsel} w p q :
  0 <= p < 54 -> 0 <= q < 54 ->
  let '(r1, w1) := gpio_direction_output io_base w p in
  let '(r2, w2) := gpio_direction_input io_base w p in
  r1 = 0 /\ pin_function io_base w1 q = (if q =? p then 1 else pin_function io_base w q) /\
  r2 = 0 /\ pin_function io_base w2 q = (if q =? p then 0 else pin_function io_base w q).
Proof.
  intros Hp Hq. pose proof (direction_output_ok io_base w p q Hp Hq) as [H1 H2].
  pose proof (direction_input_ok io_base w p q Hp Hq) as [H3 H4].
  by destruct (gpio_direction_output io_base w p), (gpio_direction_input io_base w p).
Qed.

(** ** Runs *)

#[global] Instance bank_gpfsel : Plain (W := bank) 0x20000000 gpfsel.
Proof.
  apply (plain_sub _ _ _ bank_plain). intros a (j & Hj & ->).
  unfold GPIO_GPFSEL0, GPIO_BASE. lia.
Qed.

Lemma gpio_reservation_witness :
  let '(r, res') := gpio_request 0x10000 47 in
  let '(f, res'') := gpio_free 0x10000 47 in
  r = 0 /\ Z.testbit res' 47 = true /\ f = 0 /\ Z.testbit res'' 47 = false.
Proof. apply (gpio_reservation 0x10000 47 47); lia. Defined.

Lemma gpio_direction_fields_witness :
  let '(r1, w1) := gpio_direction_output (W := bank) 0x20000000 (fun _ => 0xffffffff) 47 in
  let '(r2, w2) := gpio_direction_input (W := bank) 0x20000000 (fun _ => 0xffffffff) 47 in
  r1 = 0 /\ pin_function 0x20000000 w1 47 = 1 /\ r2 = 0 /\ pin_function 0x20000000 w2 47 = 0.
Proof.
  apply (gpio_direction_fields (W := bank) 0x20000000 (fun _ => 0xffffffff) 47 47); lia.
Defined.

(** Pins 0 to 53 exist, but the range check lets 54 through. *)
Lemma gpio_request_54 : gpio_request 0 54 = (0, 2 ^ 54).
Proof. reflexivity. Qed.
