(* ===== verification/Irq.v ===== *)
(** * Interrupt controllers: [irq_enable], [irq_disable] and
      [platform_irq_enable] of kernel/interrupts/interrupts.c, and
      kernel/interrupts/gic-400.c *)

From stdpp Require Import base list numbers.
From Stdlib Require Import ZArith Lia.
From S2P Require Import Prelude Mmio Gpio.

Definition MAX_IRQ : Z := 64.

Definition IRQ_BASE : Z := 0x00b000.
Definition IRQ_ENABLE_IRQ1 : Z := IRQ_BASE + 0x210.
Definition IRQ_ENABLE_BASIC_IRQ : Z := IRQ_BASE + 0x218.
Definition IRQ_DISABLE_IRQ1 : Z := IRQ_BASE + 0x21c.

Definition ARM_GICD_BASE : Z := 0xFF840000 + 0x1000.
Definition ARM_GICC_BASE : Z := 0xFF840000 + 0x2000.
Definition GICD_CTLR : Z := ARM_GICD_BASE + 0x000.
Definition GICD_TYPE : Z := ARM_GICD_BASE + 0x004.
Definition GICD_ISENABLER0 : Z := ARM_GICD_BASE + 0x100.
Definition GICD_ICENABLER0 : Z := ARM_GICD_BASE + 0x180.
Definition GICD_ICPENDR0 : Z := ARM_GICD_BASE + 0x280.
Definition GICD_ICACTIVER0 : Z := ARM_GICD_BASE + 0x380.
Definition GICD_IPRIORITYR0 : Z := ARM_GICD_BASE + 0x400.
Definition GICD_IPRIORITYR_DEFAULT : Z := 0xA0.
Definition GICD_ITARGETSR0 : Z := ARM_GICD_BASE + 0x800.
Definition GICD_ITARGETSR_CORE0 : Z := 1.
Definition GICD_ICFGR0 : Z := ARM_GICD_BASE + 0xC00.
Definition GICC_CTLR : Z := ARM_GICC_BASE + 0x000.
Definition GICC_PMR : Z := ARM_GICC_BASE + 0x004.
Definition GICC_PMR_PRIORITY : Z := 0xF0.

Section Irq.
Context `{Device W} (io_base : Z).

Definition irq_enable (w : W) (which_one : Z) : Z * W :=
  if MAX_IRQ <? which_one then (-1, w)
  else
    let bit := shl32 1 (Z.land which_one 0x1f) in
    let address_offset := u32 (Z.quot which_one 32 * 4) in
    let '(old, w1) := bcm2835_read io_base w (u32 (IRQ_ENABLE_IRQ1 + address_offset)) in
    (0, bcm2835_write io_base w1 (u32 (IRQ_ENABLE_IRQ1 + address_offset)) (Z.lor old bit)).

Definition irq_disable (w : W) (which_one : Z) : Z * W :=
  if MAX_IRQ <? which_one then (-1, w)
  else
    let bit := shl32 1 (Z.land which_one 0x1f) in
    let address_offset := u32 (Z.quot which_one 32 * 4) in
    let '(old, w1) := bcm2835_read io_base w (u32 (IRQ_DISABLE_IRQ1 + address_offset)) in
    (0, bcm2835_write io_base w1 (u32 (IRQ_DISABLE_IRQ1 + address_offset)) (Z.lor old bit)).

(** The same byte in all four positions of a word. *)
Definition four (b : Z) : Z :=
  Z.lor (Z.lor (Z.lor b (Z.shiftl b 8)) (Z.shiftl b 16)) (Z.shiftl b 24).

(** gic-400.c: [num_interrupts] and the board; the argument is not used. *)
Definition gic400_init (w : W) (interrupt_controller_base : Z) : Z * Z * W :=
  let w1 := mmio_write w GICD_CTLR 0 in
  let '(type, w2) := mmio_read w1 GICD_TYPE in
  let num_interrupts := Z.land type 0xf * 32 in
  let w3 := for_up (Z.to_nat (num_interrupts / 32)) 0 (fun n w =>
    mmio_write (mmio_write (mmio_write w (GICD_ICENABLER0 + 4 * n) 0xffffffff)
      (GICD_ICPENDR0 + 4 * n) 0xffffffff) (GICD_ICACTIVER0 + 4 * n) 0xffffffff) w2 in
  let w4 := for_up (Z.to_nat (num_interrupts / 4)) 0 (fun n w =>
    mmio_write (mmio_write w (GICD_IPRIORITYR0 + 4 * n) (four GICD_IPRIORITYR_DEFAULT))
      (GICD_ITARGETSR0 + 4 * n) (four GICD_ITARGETSR_CORE0)) w3 in
  let w5 := for_up (Z.to_nat (num_interrupts / 16)) 0 (fun n w =>
    mmio_write w (GICD_ICFGR0 + 4 * n) 0) w4 in
  let w6 := mmio_write w5 GICD_ISENABLER0 0x80000000 in
  let w7 := mmio_write w6 GICD_CTLR 1 in
  let w8 := mmio_write w7 GICC_PMR GICC_PMR_PRIORITY in
  (0, num_interrupts, mmio_write w8 GICC_CTLR 1).

(** [num_interrupts] is passed and returned. *)
Definition platform_irq_enable (hardware_type num_interrupts : Z) (w : W) : Z * Z * W :=
  if hardware_type =? RPI_MODEL_4B then
    let '(_, n, w1) := gic400_init w 0xFF840000 in (0, n, w1)
  else (0, num_interrupts, w).
End Irq.

(** ** Enabling *)

(** The three enable registers. *)
Definition irq_regs (a : Z) : Prop := exists j, 0 <= j < 3 /\ a = IRQ_ENABLE_IRQ1 + 4 * j.

Section Enable.
Context `{Device W} (io_base : Z) `{!Plain (W := W) io_base irq_regs}.

(** Bit [n] of the enable registers taken together. *)
Definition irq_enabled (w : W) (n : Z) : bool :=
  Z.testbit (reg io_base w (IRQ_ENABLE_IRQ1 + 4 * (n / 32))) (n mod 32).

Lemma irq_reg n : 0 <= n < 96 -> irq_regs (IRQ_ENABLE_IRQ1 + 4 * (n / 32)).
Proof. intros Hn. exists (n / 32). split; [|done]. Z.div_mod_to_equations. lia. Qed.

Lemma irq_address n : 0 <= n < 96 ->
  u32 (IRQ_ENABLE_IRQ1 + u32 (Z.quot n 32 * 4)) = IRQ_ENABLE_IRQ1 + 4 * (n / 32) /\
  Z.land n 0x1f = n mod 32.
Proof.
  intros Hn. rewrite Z.quot_div_nonneg by lia.
  assert (0 <= n / 32 < 3) by (Z.div_mod_to_equations; lia).
  unfold IRQ_ENABLE_IRQ1, IRQ_BASE. rewrite (u32_id (n / 32 * 4)), u32_id by lia.
  split; [lia|]. change 0x1f with (Z.ones 5). by rewrite Z.land_ones by lia.
Qed.

Lemma irq_enable_ok w n k :
  0 <= n <= 64 -> 0 <= k < 96 ->
  fst (irq_enable io_base w n) = 0 /\
  irq_enabled (snd (irq_enable io_base w n)) k = irq_enabled w k || (k =? n).
Proof.
  intros Hn Hk. unfold irq_enable, MAX_IRQ. replace (64 <? n) with false by lia.
  destruct (irq_address n ltac:(lia)) as [-> ->].
  pose proof (irq_reg n ltac:(lia)) as Ha. pose proof (irq_reg k ltac:(lia)) as Hka.
  rewrite (plain_load io_base w _ Ha). cbn [fst snd]. split; [done|].
  pose proof (plain_range io_base w _ Ha) as Hr.
  pose proof (Z.mod_pos_bound n 32 ltac:(lia)). pose proof (Z.mod_pos_bound k 32 ltac:(lia)).
  pose proof (Z.div_mod n 32 ltac:(lia)). pose proof (Z.div_mod k 32 ltac:(lia)).
  unfold irq_enabled. destruct (decide (k / 32 = n / 32)) as [E|E].
  - rewrite E, (plain_same io_base (P := irq_regs)); [|done|].
    + rewrite lor_bit_testbit by lia. f_equal. apply eq_true_iff_eq. rewrite !Z.eqb_eq. lia.
    + apply u32_lor_range; [done|apply u32_range].
  - rewrite (plain_other io_base (P := irq_regs)) by (done || lia).
    replace (k =? n) with false; [by rewrite orb_false_r|].
    symmetry. apply Z.eqb_neq. by intros ->.
Qed.
End Enable.

#[global] Instance bank_irq : Plain (W := bank) 0x20000000 irq_regs.
Proof.
  apply (plain_sub _ _ _ bank_plain). intros a (j & Hj & ->).
  unfold IRQ_ENABLE_IRQ1, IRQ_BASE. lia.
Qed.

(** Enabling interrupt [n] sets its bit in the enable registers, keeps every
    interrupt that is already enabled and enables no other; a number beyond 64
    is refused without touching the board. *)
Theorem irq_enable_exact `{Device W} io_base `{!Plain (W := W) io_base irq_regs} w n k :
  0 <= n -> 0 <= k < 64 ->
  let '(r, w') := irq_enable io_base w n in
  r = (if n <=? 64 then 0 else -1) /\
  irq_enabled io_base w' k = irq_enabled io_base w k || (k =? n).
Proof.
  intros Hn Hk. destruct (n <=? 64) eqn:E; b2p.
  - destruct (irq_enable_ok io_base w n k) as [H1 H2]; try lia.
    by destruct (irq_enable io_base w n).
  - unfold irq_enable, MAX_IRQ. replace (64 <? n) with true by lia.
    replace (k =? n) with false by lia. by rewrite orb_false_r.
Qed.

Lemma irq_enable_exact_witness :
  let '(r, w') := irq_enable (W := bank) 0x20000000 (fun _ => 5) 57 in
  r = 0 /\ irq_enabled 0x20000000 w' 57 = true.
Proof. exact (irq_enable_exact (W := bank) 0x20000000 (fun _ => 5) 57 57 ltac:(lia) ltac:(lia)). Defined.

(** There are 64 of them, but the check lets number 64 through: it enables bit 0
    of the basic interrupts, the ARM timer. *)
Lemma irq_enable_64 `{Device W} io_base `{!Plain (W := W) io_base irq_regs} w :
  fst (irq_enable io_base w 64) = 0 /\
  Z.testbit (reg io_base (snd (irq_enable io_base w 64)) IRQ_ENABLE_BASIC_IRQ) 0 = true.
Proof.
  destruct (irq_enable_ok io_base w 64 64) as [H1 H2]; try lia. split; [done|].
  unfold irq_enabled in H2. change (64 / 32) with 2 in H2. change (64 mod 32) with 0 in H2.
  rewrite orb_true_r in H2. exact H2.
Qed.
