(* ===== verification/Serial.v ===== *)
(** * The serial port: kernel/drivers/serial/pl011_uart.c, mini_uart.c and
      serial.c

    [struct serial_type] holds function pointers that its [init] sets; here it
    names the driver they belong to.  Reads of the flags register poll the
    board until it answers, so the loops take fuel.  The interrupt handlers,
    which call back into the console, are in [Console].  [delay] burns cycles
    and is left out. *)

From stdpp Require Import base list numbers.
From Stdlib Require Import ZArith Lia.
From S2P Require Import Prelude Mmio Gpio Irq.

Definition GPIO_GPFSEL1 : Z := GPIO_BASE + 0x04.
Definition GPIO_GPPUD : Z := GPIO_BASE + 0x94.
Definition GPIO_GPPUDCLK0 : Z := GPIO_BASE + 0x98.
Definition GPIO_GPPUD_DISABLE : Z := 0.

Definition UART0_BASE : Z := 0x201000.
Definition UART0_DR : Z := UART0_BASE + 0x00.
Definition UART0_FR : Z := UART0_BASE + 0x18.
Definition UART0_IBRD : Z := UART0_BASE + 0x24.
Definition UART0_FBRD : Z := UART0_BASE + 0x28.
Definition UART0_LCRH : Z := UART0_BASE + 0x2C.
Definition UART0_CR : Z := UART0_BASE + 0x30.
Definition UART0_IFLS : Z := UART0_BASE + 0x34.
Definition UART0_IMSC : Z := UART0_BASE + 0x38.
Definition UART0_ICR : Z := UART0_BASE + 0x44.
Definition UART0_FR_TXFF : Z := 2 ^ 5.
Definition UART0_FR_RXFE : Z := 2 ^ 4.
Definition UART0_LCRH_WLEN_8BIT : Z := 3 * 2 ^ 5.
Definition UART0_LCRH_FEN : Z := 2 ^ 4.
Definition UART0_CR_RXE : Z := 2 ^ 9.
Definition UART0_CR_TXE : Z := 2 ^ 8.
Definition UART0_CR_UARTEN : Z := 1.
Definition UART0_IMSC_RTIM : Z := 2 ^ 6.
Definition UART0_ICR_RTIC : Z := 2 ^ 6.

Definition SERIAL_UART_PL011 : Z := 1.
Definition SERIAL_UART_MINI : Z := 2.
Definition SERIAL_PARITY_NONE : Z := 0.

(** The driver the function pointers lead to. *)
Inductive uart := no_uart | pl011_uart | mini_uart.

Record serial_type := Serial {
  initialized : Z;
  baud : Z;
  bits : Z;
  stop : Z;
  parity : Z;
  driver : uart }.

(** The static object before [serial_init]. *)
Definition serial_bss : serial_type := Serial 0 0 0 0 0 no_uart.

Section Uart.
Context `{Device W} (io_base : Z).

(** ** pl011_uart.c *)

(** The object, [gpio_reserved] and the board are passed and returned. *)
Definition pl011_uart_init (s : serial_type) (gpio_reserved : Z) (w : W)
    : Z * serial_type * Z * W :=
  let s1 := Serial (initialized s) 115200 8 1 SERIAL_PARITY_NONE pl011_uart in
  let w1 := bcm2835_write io_base w UART0_CR 0 in
  let res1 := snd (gpio_request gpio_reserved 14) in
  let res2 := snd (gpio_request res1 15) in
  let '(old, w2) := bcm2835_read io_base w1 GPIO_GPFSEL1 in
  let old1 := Z.land old (not32 (shl32 7 12)) in
  let old2 := Z.lor old1 (shl32 4 12) in
  let old3 := Z.land old2 (not32 (shl32 7 15)) in
  let old4 := Z.lor old3 (shl32 4 15) in
  let w3 := bcm2835_write io_base w2 GPIO_GPFSEL1 old4 in
  let w4 := bcm2835_write io_base w3 GPIO_GPPUD GPIO_GPPUD_DISABLE in
  let w5 := bcm2835_write io_base w4 GPIO_GPPUDCLK0 (Z.lor (shl32 1 14) (shl32 1 15)) in
  let w6 := bcm2835_write io_base w5 GPIO_GPPUDCLK0 0 in
  let w7 := bcm2835_write io_base w6 UART0_ICR 0x7FF in
  let w8 := bcm2835_write io_base w7 UART0_IBRD 26 in
  let w9 := bcm2835_write io_base w8 UART0_FBRD 3 in
  let w10 := bcm2835_write io_base w9 UART0_LCRH (Z.lor UART0_LCRH_FEN UART0_LCRH_WLEN_8BIT) in
  let w11 := bcm2835_write io_base w10 UART0_IMSC 0 in
  let w12 := bcm2835_write io_base w11 UART0_CR
               (Z.lor (Z.lor UART0_CR_UARTEN UART0_CR_TXE) UART0_CR_RXE) in
  (0, s1, res2, w12).

Definition pl011_uart_enable_interrupts (w : W) : W :=
  let w1 := bcm2835_write io_base w UART0_ICR 0x7FF in
  let '(old, w2) := bcm2835_read io_base w1 UART0_IFLS in
  let w3 := bcm2835_write io_base w2 UART0_IFLS (Z.land old (not32 (shl32 7 3))) in
  let '(old', w4) := bcm2835_read io_base w3 UART0_IMSC in
  let w5 := bcm2835_write io_base w4 UART0_IMSC (Z.lor old' UART0_IMSC_RTIM) in
  snd (irq_enable io_base w5 57).

Fixpoint pl011_uart_putc (fuel : nat) (w : W) (byte : Z) : option W :=
  match fuel with
  | O => None
  | S f =>
      let '(fr, w1) := bcm2835_read io_base w UART0_FR in
      if negb (Z.land fr UART0_FR_TXFF =? 0) then pl011_uart_putc f w1 byte
      else Some (bcm2835_write io_base w1 UART0_DR byte)
  end.

Fixpoint pl011_uart_getc (fuel : nat) (w : W) : option (Z * W) :=
  match fuel with
  | O => None
  | S f =>
      let '(fr, w1) := bcm2835_read io_base w UART0_FR in
      if negb (Z.land fr UART0_FR_RXFE =? 0) then pl011_uart_getc f w1
      else let '(v, w2) := bcm2835_read io_base w1 UART0_DR in Some (s32 v, w2)
  end.

Definition pl011_uart_getc_noblock (w : W) : Z * W :=
  let '(fr, w1) := bcm2835_read io_base w UART0_FR in
  if negb (Z.land fr UART0_FR_RXFE =? 0) then (-1, w1)
  else let '(v, w2) := bcm2835_read io_base w1 UART0_DR in (Z.land v 0xff, w2).

(** The rest of the file, which nothing in the kernel calls. *)
Fixpoint pl011_uart_putc_extra (fuel : nat) (w : W) (byte extra : Z) : option W :=
  match fuel with
  | O => None
  | S f =>
      let '(fr, w1) := bcm2835_read io_base w UART0_FR in
      if negb (Z.land fr UART0_FR_TXFF =? 0) then pl011_uart_putc_extra f w1 byte extra
      else Some (bcm2835_write io_base w1 UART0_DR (u32 (u32 (byte + extra) - extra)))
  end.

Fixpoint pl011_write_loop (n fuel : nat) (w : W) (m : mem) (ptr : Z) : option W :=
  match n with
  | O => Some w
  | S n' => w1 ← pl011_uart_putc fuel w (m ptr); pl011_write_loop n' fuel w1 m (ptr + 1)
  end.

Definition pl011_write (fuel : nat) (w : W) (m : mem) (buffer size : Z) : option (Z * W) :=
  w1 ← pl011_write_loop (Z.to_nat size) fuel w m buffer; Some (s32 size, w1).

(** The result, [gpio_reserved], [pl011_uart_initialized] and the board. *)
Definition old_pl011_uart_init (gpio_reserved : Z) (w : W) : Z * Z * Z * W :=
  let w1 := bcm2835_write io_base w UART0_CR 0 in
  let res1 := snd (gpio_request gpio_reserved 14) in
  let res2 := snd (gpio_request res1 15) in
  let w2 := bcm2835_write io_base w1 GPIO_GPPUD GPIO_GPPUD_DISABLE in
  let w3 := bcm2835_write io_base w2 GPIO_GPPUDCLK0 (Z.lor (shl32 1 14) (shl32 1 15)) in
  let w4 := bcm2835_write io_base w3 GPIO_GPPUDCLK0 0 in
  let w5 := bcm2835_write io_base w4 UART0_ICR 0x7FF in
  let w6 := bcm2835_write io_base w5 UART0_IBRD 1 in
  let w7 := bcm2835_write io_base w6 UART0_FBRD 40 in
  let w8 := bcm2835_write io_base w7 UART0_LCRH (Z.lor UART0_LCRH_FEN UART0_LCRH_WLEN_8BIT) in
  let w9 := bcm2835_write io_base w8 UART0_IMSC 0 in
  let w10 := bcm2835_write io_base w9 UART0_CR
               (Z.lor (Z.lor UART0_CR_UARTEN UART0_CR_TXE) UART0_CR_RXE) in
  (0, res2, 1, w10).

(** ** mini_uart.c *)

Definition mini_uart_init (s : serial_type) (gpio_reserved : Z) (w : W)
    : Z * serial_type * Z * W :=
  let s1 := Serial (initialized s) 115200 8 1 SERIAL_PARITY_NONE mini_uart in
  let w1 := bcm2835_write io_base w UART0_CR 0 in
  let res1 := snd (gpio_request gpio_reserved 14) in
  let res2 := snd (gpio_request res1 15) in
  let w4 := bcm2835_write io_base w1 GPIO_GPPUD GPIO_GPPUD_DISABLE in
  let w5 := bcm2835_write io_base w4 GPIO_GPPUDCLK0 (Z.lor (shl32 1 14) (shl32 1 15)) in
  let w6 := bcm2835_write io_base w5 GPIO_GPPUDCLK0 0 in
  let w7 := bcm2835_write io_base w6 UART0_ICR 0x7FF in
  let w8 := bcm2835_write io_base w7 UART0_IBRD 1 in
  let w9 := bcm2835_write io_base w8 UART0_FBRD 40 in
  let w10 := bcm2835_write io_base w9 UART0_LCRH (Z.lor UART0_LCRH_FEN UART0_LCRH_WLEN_8BIT) in
  let w11 := bcm2835_write io_base w10 UART0_IMSC 0 in
  let w12 := bcm2835_write io_base w11 UART0_CR
               (Z.lor (Z.lor UART0_CR_UARTEN UART0_CR_TXE) UART0_CR_RXE) in
  (0, s1, res2, w12).

Definition mini_uart_enable_interrupts (w : W) : W :=
  let w1 := bcm2835_write io_base w UART0_ICR 0x7FF in
  let '(old, w2) := bcm2835_read io_base w1 UART0_IFLS in
  let w3 := bcm2835_write io_base w2 UART0_IFLS (Z.land old (not32 (shl32 7 3))) in
  let '(old', w4) := bcm2835_read io_base w3 UART0_IMSC in
  let w5 := bcm2835_write io_base w4 UART0_IMSC (Z.lor old' UART0_IMSC_RTIM) in
  snd (irq_enable io_base w5 57).

Fixpoint mini_uart_putc (fuel : nat) (w : W) (byte : Z) : option W :=
  match fuel with
  | O => None
  | S f =>
      let '(fr, w1) := bcm2835_read io_base w UART0_FR in
      if negb (Z.land fr UART0_FR_TXFF =? 0) then mini_uart_putc f w1 byte
      else Some (bcm2835_write io_base w1 UART0_DR byte)
  end.

Fixpoint mini_uart_getc (fuel : nat) (w : W) : option (Z * W) :=
  match fuel with
  | O => None
  | S f =>
      let '(fr, w1) := bcm2835_read io_base w UART0_FR in
      if negb (Z.land fr UART0_FR_RXFE =? 0) then mini_uart_getc f w1
      else let '(v, w2) := bcm2835_read io_base w1 UART0_DR in Some (s32 v, w2)
  end.

Definition mini_uart_getc_noblock (w : W) : Z * W :=
  let '(fr, w1) := bcm2835_read io_base w UART0_FR in
  if negb (Z.land fr UART0_FR_RXFE =? 0) then (-1, w1)
  else let '(v, w2) := bcm2835_read io_base w1 UART0_DR in (Z.land v 0xff, w2).

(** ** serial.c *)

Definition serial_init (s : serial_type) (gpio_reserved : Z) (w : W) (type : Z)
    : Z * serial_type * Z * W :=
  let '(result, s1, res1, w1) :=
    if type =? SERIAL_UART_PL011 then pl011_uart_init s gpio_reserved w
    else if type =? SERIAL_UART_MINI then mini_uart_init s gpio_reserved w
    else (0, s, gpio_reserved, w) in
  let set v := Serial v (baud s1) (bits s1) (stop s1) (parity s1) (driver s1) in
  if negb (result =? 0) then (- ENODEV, set 0, res1, w1)
  else (0, set 1, res1, w1).

(** The calls through the pointers; a call through NULL does not return. *)
Definition uart_putc (s : serial_type) (fuel : nat) (w : W) (byte : Z) : option W :=
  match driver s with
  | pl011_uart => pl011_uart_putc fuel w byte
  | mini_uart => mini_uart_putc fuel w byte
  | no_uart => None
  end.

Fixpoint serial_write_loop (n fuel : nat) (s : serial_type) (w : W) (m : mem) (ptr : Z)
    : option W :=
  match n with
  | O => Some w
  | S n' =>
      w1 ← (if m ptr =? 10 then uart_putc s fuel w 13 else Some w);
      w2 ← uart_putc s fuel w1 (m ptr);
      serial_write_loop n' fuel s w2 m (ptr + 1)
  end.

Definition serial_write (fuel : nat) (s : serial_type) (w : W) (m : mem) (buffer size : Z)
    : option (Z * W) :=
  if initialized s =? 0 then Some (0, w)
  else w' ← serial_write_loop (Z.to_nat size) fuel s w m buffer; Some (size, w').

Definition serial_enable_interrupts (s : serial_type) (w : W) : option W :=
  match driver s with
  | pl011_uart => Some (pl011_uart_enable_interrupts w)
  | mini_uart => Some (mini_uart_enable_interrupts w)
  | no_uart => None
  end.

(** ** What the device promises

    The bytes handed to the transmitter, the bytes received and not yet read,
    and how often the flags register reports a full transmitter before it has
    room again: at most [depth] times.  Each load of the data register takes
    one received byte; its error bits lie above the byte. *)
Class Uart := {
  tx : W -> list Z;
  rx : W -> list Z;
  full : W -> nat;
  depth : nat;
  full_bounded w : (full w <= depth)%nat;
  uart_fr w :
    let '(v, w') := bcm2835_read io_base w UART0_FR in
    tx w' = tx w /\ rx w' = rx w /\ full w' = Nat.pred (full w) /\
    (Z.land v UART0_FR_TXFF = 0 <-> full w = 0%nat) /\
    (Z.land v UART0_FR_RXFE = 0 <-> rx w <> []);
  uart_put w b : full w = 0%nat -> 0 <= b < 256 ->
    tx (bcm2835_write io_base w UART0_DR b) = tx w ++ [b] /\
    rx (bcm2835_write io_base w UART0_DR b) = rx w;
  uart_get w b r : rx w = b :: r ->
    let '(v, w') := bcm2835_read io_base w UART0_DR in
    0 <= b < 256 /\ Z.land v 0xff = b /\ 0 <= v < 2 ^ 12 /\ rx w' = r /\ tx w' = tx w;
  uart_icr w v :
    tx (bcm2835_write io_base w UART0_ICR v) = tx w /\
    rx (bcm2835_write io_base w UART0_ICR v) = rx w }.

(** What a terminal is sent for a text. *)
Definition crlf (l : list Z) : list Z :=
  flat_map (fun c => if c =? 10 then [13; 10] else [c]) l.

Section Laws.
Context `{U : Uart}.

Lemma pl011_putc_ok b : 0 <= b < 256 -> forall fuel w, (full w < fuel)%nat ->
  exists w', pl011_uart_putc fuel w b = Some w' /\ tx w' = tx w ++ [b] /\ rx w' = rx w.
Proof.
  intros Hb. induction fuel as [|fuel IH]; intros w Hf; [lia|]. cbn [pl011_uart_putc].
  pose proof (uart_fr w) as HF. destruct (bcm2835_read io_base w UART0_FR) as [v w1].
  destruct HF as (Ht & Hr & Hp & Hfull & _).
  destruct (Z.land v UART0_FR_TXFF =? 0) eqn:E; b2p; cbn [negb].
  - apply Hfull in E. destruct (uart_put w1 b) as [E1 E2]; [lia|done|].
    eexists. split; [done|]. by rewrite E1, E2, Ht, Hr.
  - destruct (full w) eqn:Ew; [by destruct E; apply Hfull|]. cbn in Hp.
    destruct (IH w1) as (w' & -> & T & R); [lia|]. exists w'. by rewrite T, R, Ht, Hr.
Qed.

Lemma mini_putc_same : mini_uart_putc = pl011_uart_putc.
Proof. reflexivity. Qed.

Lemma uart_putc_ok s b fuel w : driver s <> no_uart -> 0 <= b < 256 -> (depth < fuel)%nat ->
  exists w', uart_putc s fuel w b = Some w' /\ tx w' = tx w ++ [b] /\ rx w' = rx w.
Proof.
  intros Hd Hb Hf. pose proof (full_bounded w). unfold uart_putc. rewrite mini_putc_same.
  destruct (driver s); [done| |]; apply pl011_putc_ok; done || lia.
Qed.

(** [extra] cancels out, whatever the addition overflows to. *)
Lemma putc_extra_same fuel extra b : 0 <= b < 256 -> forall w,
  pl011_uart_putc_extra fuel w b extra = pl011_uart_putc fuel w b.
Proof.
  intros Hb. induction fuel as [|fuel IH]; intros w; [done|].
  cbn [pl011_uart_putc_extra pl011_uart_putc].
  destruct (bcm2835_read io_base w UART0_FR) as [fr w1]. rewrite IH.
  replace (u32 (u32 (b + extra) - extra)) with b; [done|].
  unfold u32. rewrite Zminus_mod_idemp_l, Z.add_simpl_r. symmetry. apply Z.mod_small. lia.
Qed.

(** [pl011_write] sends the bytes as they are. *)
Lemma pl011_write_loop_ok fuel m : (depth < fuel)%nat -> forall n w p,
  (forall i, (i < n)%nat -> 0 <= m (p + Z.of_nat i) < 256) ->
  exists w', pl011_write_loop n fuel w m p = Some w' /\
    tx w' = tx w ++ bytes_of (at_ m p) n /\ rx w' = rx w.
Proof.
  intros Hf. induction n as [|n IH]; intros w p Hm; cbn [pl011_write_loop].
  { exists w. by rewrite app_nil_r. }
  pose proof (Hm 0%nat ltac:(lia)) as H0. rewrite Z.add_0_r in H0.
  destruct (pl011_putc_ok (m p) H0 fuel w) as (w1 & -> & T1 & R1); [pose proof (full_bounded w); lia|].
  cbn [mbind option_bind]. destruct (IH w1 (p + 1)) as (w' & -> & T & R).
  { intros i Hi. replace (p + 1 + Z.of_nat i) with (p + Z.of_nat (S i)) by lia. apply Hm. lia. }
  exists w'. split; [done|]. split; [|congruence]. rewrite T, T1, <- app_assoc. f_equal.
  unfold bytes_of, at_. cbn [seq map app]. rewrite Z.add_0_r. f_equal.
  rewrite <- seq_shift, map_map. apply map_ext. intros i. f_equal. lia.
Qed.

Lemma serial_write_loop_ok fuel s m : driver s <> no_uart -> (depth < fuel)%nat ->
  forall n w p, (forall i, (i < n)%nat -> 0 <= m (p + Z.of_nat i) < 256) ->
  exists w', serial_write_loop n fuel s w m p = Some w' /\
    tx w' = tx w ++ crlf (map (fun i => m (p + Z.of_nat i)) (seq 0 n)) /\ rx w' = rx w.
Proof.
  intros Hd Hf. induction n as [|n IH]; intros w p Hm; cbn [serial_write_loop].
  { exists w. by rewrite app_nil_r. }
  assert (Hw1 : exists w1, (if m p =? 10 then uart_putc s fuel w 13 else Some w) = Some w1 /\
    tx w1 = tx w ++ (if m p =? 10 then [13] else []) /\ rx w1 = rx w).
  { destruct (m p =? 10); [apply uart_putc_ok; done || lia|].
    exists w. by rewrite app_nil_r. }
  destruct Hw1 as (w1 & -> & T1 & R1). cbn [mbind option_bind].
  pose proof (Hm 0%nat ltac:(lia)) as H0. rewrite Z.add_0_r in H0.
  destruct (uart_putc_ok s (m p) fuel w1) as (w2 & -> & T2 & R2); try done.
  cbn [mbind option_bind]. destruct (IH w2 (p + 1)) as (w' & -> & T & R).
  { intros i Hi. replace (p + 1 + Z.of_nat i) with (p + Z.of_nat (S i)) by lia.
    apply Hm. lia. }
  exists w'. split; [done|]. split; [|congruence].
  rewrite T, T2, T1, <- !app_assoc. f_equal. cbn [seq map crlf flat_map].
  rewrite Z.add_0_r, <- seq_shift, map_map.
  assert (Em : map (fun i => m (p + Z.of_nat (S i))) (seq 0 n) =
               map (fun i => m (p + 1 + Z.of_nat i)) (seq 0 n))
    by (apply map_ext; intros i; f_equal; lia).
  rewrite Em. destruct (m p =? 10) eqn:E; b2p; cbn [app]; [by rewrite E|done].
Qed.

(** One received byte, or none. *)
Lemma getc_noblock_ok w :
  let '(v, w') := pl011_uart_getc_noblock w in
  tx w' = tx w /\
  match rx w with
  | [] => v = -1 /\ rx w' = []
  | b :: r => v = b /\ 0 <= b < 256 /\ rx w' = r
  end.
Proof.
  unfold pl011_uart_getc_noblock. pose proof (uart_fr w) as HF.
  destruct (bcm2835_read io_base w UART0_FR) as [v w1].
  destruct HF as (Ht & Hr & _ & _ & Hrx).
  destruct (Z.land v UART0_FR_RXFE =? 0) eqn:E; b2p; cbn [negb].
  - destruct (rx w) as [|b r] eqn:Ew; [by apply Hrx in E|].
    pose proof (uart_get w1 b r Hr) as HG.
    destruct (bcm2835_read io_base w1 UART0_DR) as [v2 w2].
    destruct HG as (? & ? & ? & ? & ?). split; [congruence|]. done.
  - destruct (rx w) as [|b r] eqn:Ew; [done|]. destruct E. by apply Hrx.
Qed.
End Laws.
End Uart.

(** ** Properties *)

Lemma serial_write_ok `{Device W} io_base `{!Uart (W := W) io_base} fuel s w m buffer size :
  initialized s <> 0 -> driver s <> no_uart -> (depth io_base < fuel)%nat -> 0 <= size ->
  (forall i, 0 <= i < size -> 0 <= m (buffer + i) < 256) ->
  exists w', serial_write io_base fuel s w m buffer size = Some (size, w') /\
    tx io_base w' = tx io_base w ++ crlf (bytes_of (at_ m buffer) (Z.to_nat size)) /\
    rx io_base w' = rx io_base w.
Proof.
  intros Hi Hd Hf Hs Hm. unfold serial_write. rewrite (proj2 (Z.eqb_neq _ _)) by done.
  destruct (serial_write_loop_ok io_base fuel s m Hd Hf (Z.to_nat size) w buffer)
    as (w' & -> & T & R); [intros i Hlt; apply Hm; lia|]. by exists w'.
Qed.

(** Writing to an initialised serial port returns, with the number of bytes
    asked for, after every byte has been handed to the transmitter in order,
    each newline preceded by a carriage return; no received byte is lost. *)
Theorem serial_write_transmits `{Device W} io_base `{!Uart (W := W) io_base} fuel s w m buffer size :
  initialized s <> 0 -> driver s <> no_uart -> (depth io_base < fuel)%nat -> 0 <= size ->
  (forall i, 0 <= i < size -> 0 <= m (buffer + i) < 256) ->
  exists w', serial_write io_base fuel s w m buffer size = Some (size, w') /\
    tx io_base w' = tx io_base w ++ crlf (bytes_of (at_ m buffer) (Z.to_nat size)) /\
    rx io_base w' = rx io_base w.
Proof. apply serial_write_ok. Qed.

(** *** Initialisation *)

(** Registers that hold the port's configuration, and registers that only
    trigger something. *)
Definition uart_config (a : Z) : Prop :=
  gpfsel a \/ In a [UART0_IBRD; UART0_FBRD; UART0_LCRH; UART0_CR; UART0_IMSC].

Definition uart_triggers (a : Z) : Prop := In a [GPIO_GPPUD; GPIO_GPPUDCLK0; UART0_ICR].

Lemma config_gpfsel1 : uart_config GPIO_GPFSEL1.
Proof. left. exists 1. split; [lia|reflexivity]. Qed.

Ltac config_side :=
  lazymatch goal with
  | |- uart_config GPIO_GPFSEL1 => exact config_gpfsel1
  | |- uart_config _ => first [assumption | right; unfold In; auto 10]
  | |- uart_triggers _ => unfold uart_triggers, In; auto 10
  | |- _ <= _ < _ => first [assumption | vm_compute; split; congruence]
  end.

Section Init.
Context `{Device W} (io_base : Z).
Context `{P : !Plain (W := W) io_base uart_config, Q : !Quiet (W := W) io_base uart_config uart_triggers}.

(** A store to a register of the configuration, seen at another or the same. *)
Lemma config_write w a b v : uart_config a -> uart_config b -> 0 <= v < 2 ^ 32 ->
  reg io_base (bcm2835_write io_base w b v) a = if a =? b then v else reg io_base w a.
Proof.
  intros Ha Hb Hv. destruct (a =? b) eqn:E; b2p.
  - subst b. by apply (plain_same io_base (P := uart_config)).
  - by apply (plain_other io_base (P := uart_config)).
Qed.

Lemma alt0_word old q : 0 <= old < 2 ^ 32 -> 0 <= q < 10 ->
  let new := Z.lor (Z.land (Z.lor (Z.land old (not32 (shl32 7 12))) (shl32 4 12))
                     (not32 (shl32 7 15))) (shl32 4 15) in
  0 <= new < 2 ^ 32 /\
  field3 new q = if (q =? 4) || (q =? 5) then 4 else field3 old q.
Proof.
  intros Ho Hq new. split.
  - unfold new. repeat first [apply u32_lor_range | apply u32_land_range | apply u32_range | done].
  - unfold new. change 15 with (3 * 5). change 12 with (3 * 4).
    rewrite (field3_update _ 4 q 5), (field3_update _ 4 q 4) by lia.
    by destruct (q =? 5), (q =? 4).
Qed.
(** Every configuration register after the driver's initialisation. *)
Lemma pl011_init_regs s res w a :
  uart_config a ->
  let '(r, s', res', w') := pl011_uart_init io_base s res w in
  let old := reg io_base w GPIO_GPFSEL1 in
  reg io_base w' a =
    if a =? UART0_CR then 0x301 else if a =? UART0_IMSC then 0
    else if a =? UART0_LCRH then 0x70 else if a =? UART0_FBRD then 3
    else if a =? UART0_IBRD then 26
    else if a =? GPIO_GPFSEL1 then
      Z.lor (Z.land (Z.lor (Z.land old (not32 (shl32 7 12))) (shl32 4 12))
               (not32 (shl32 7 15))) (shl32 4 15)
    else reg io_base w a.
Proof.
  intros Ha. unfold pl011_uart_init.
  rewrite (plain_load io_base (P := uart_config) _ _ config_gpfsel1). cbv zeta.
  rewrite (config_write w GPIO_GPFSEL1 UART0_CR 0) by config_side.
  change (GPIO_GPFSEL1 =? UART0_CR) with false. cbv iota.
  pose proof (plain_range io_base (P := uart_config) w _ config_gpfsel1) as Hr.
  destruct (alt0_word _ 0 Hr ltac:(lia)) as [Hn _]. cbv zeta in Hn.
  revert Hn. generalize (Z.lor (Z.land (Z.lor (Z.land (reg io_base w GPIO_GPFSEL1)
    (not32 (shl32 7 12))) (shl32 4 12)) (not32 (shl32 7 15))) (shl32 4 15)). intros new Hn.
  rewrite (config_write _ a UART0_CR), (config_write _ a UART0_IMSC),
    (config_write _ a UART0_LCRH), (config_write _ a UART0_FBRD),
    (config_write _ a UART0_IBRD) by config_side.
  rewrite !(quiet io_base (P := uart_config) (Q := uart_triggers)) by config_side.
  rewrite (config_write _ a GPIO_GPFSEL1), (config_write _ a UART0_CR)
    by config_side.
  by destruct (a =? UART0_CR).
Qed.
End Init.

(** Initialising the PL011 port sets it up for 8N1 at the divisor 26 + 3/64
    with transmitter and receiver on and all interrupts masked, and routes it
    to pins 14 and 15 (function ALT0), which are reserved; every other pin keeps
    its function. *)
Theorem serial_init_pl011 `{Device W} io_base
    `{!Plain (W := W) io_base uart_config, !Quiet (W := W) io_base uart_config uart_triggers}
    s res w q :
  0 <= q < 54 ->
  let '(r, s', res', w') := serial_init io_base s res w SERIAL_UART_PL011 in
  r = 0 /\ initialized s' = 1 /\ driver s' = pl011_uart /\ baud s' = 115200 /\
  Z.testbit res' 14 = true /\ Z.testbit res' 15 = true /\
  pin_function io_base w' q = (if (q =? 14) || (q =? 15) then 4 else pin_function io_base w q) /\
  map (reg io_base w') [UART0_CR; UART0_LCRH; UART0_IBRD; UART0_FBRD; UART0_IMSC]
  = [0x301; 0x70; 26; 3; 0].
Proof.
  intros Hq. unfold serial_init. change (SERIAL_UART_PL011 =? SERIAL_UART_PL011) with true.
  cbv iota.
  pose proof (pl011_init_regs io_base s res w) as HR.
  destruct (pl011_uart_init io_base s res w) as [[[r s1] res1] w1] eqn:E.
  assert (E1 : r = 0 /\ driver s1 = pl011_uart /\ baud s1 = 115200 /\
    res1 = snd (gpio_request (snd (gpio_request res 14)) 15)).
  { unfold pl011_uart_init in E. destruct (bcm2835_read _ _ _). by simplify_eq. }
  destruct E1 as (-> & Hd & Hb & ->). change (negb (0 =? 0)) with false. cbv iota.
  split; [done|]. split; [done|]. split; [done|]. split; [done|].
  cbv zeta in HR. split; [|split; [|split]].
  - by rewrite !gpio_request_set, Z.eqb_refl, orb_true_r by lia.
  - by rewrite gpio_request_set, Z.eqb_refl, orb_true_r by lia.
  - unfold pin_function. pose proof (gpfsel_pin q ltac:(lia)) as Hg.
    rewrite HR by (by left).
    assert (Hn : forall b, b >= UART0_BASE -> (GPIO_GPFSEL0 + 4 * (q / 10) =? b) = false).
    { intros b Hb'. apply Z.eqb_neq. unfold UART0_BASE, GPIO_GPFSEL0, GPIO_BASE in *.
      Z.div_mod_to_equations. lia. }
    rewrite !Hn by (vm_compute; congruence).
    destruct (decide (q / 10 = 1)) as [E1|E1].
    + rewrite E1. change (GPIO_GPFSEL0 + 4 * 1) with GPIO_GPFSEL1. rewrite Z.eqb_refl.
      destruct (alt0_word (reg io_base w GPIO_GPFSEL1) (q mod 10)) as [_ ->].
      * exact (plain_range io_base (P := uart_config) w _ config_gpfsel1).
      * apply Z.mod_pos_bound. lia.
      * pose proof (Z.div_mod q 10 ltac:(lia)).
        replace (q =? 14) with (q mod 10 =? 4) by lia.
        by replace (q =? 15) with (q mod 10 =? 5) by lia.
    + replace (GPIO_GPFSEL0 + 4 * (q / 10) =? GPIO_GPFSEL1) with false
        by (symmetry; apply Z.eqb_neq; unfold GPIO_GPFSEL0, GPIO_GPFSEL1; lia).
      replace ((q =? 14) || (q =? 15)) with false; [done|].
      symmetry. apply orb_false_intro; apply Z.eqb_neq; intros ->; by apply E1.
  - cbn [map]. rewrite !HR by config_side. reflexivity.
Qed.

(** ** Runs *)

(** A port whose transmitter is full for one poll after each byte, with the
    received bytes in a list; its interrupt and that of the timer are pending. *)
Record port := Port { port_tx : list Z; port_rx : list Z; port_full : bool }.

Definition port_flags (p : port) : Z :=
  (if port_full p then UART0_FR_TXFF else 0) +
  match port_rx p with [] => UART0_FR_RXFE | _ => 0 end.

#[global] Instance port_device : Device port := {
  mmio_read p a :=
    if a =? 0x20201018 then (port_flags p, Port (port_tx p) (port_rx p) false)
    else if a =? 0x20201000 then
      match port_rx p with
      | b :: r => (u8 b, Port (port_tx p) r (port_full p))
      | [] => (0, p)
      end
    else if a =? 0x2000b200 then (2 ^ 19 + 1, p)
    else (0, p);
  mmio_write p a v :=
    if a =? 0x20201000 then Port (port_tx p ++ [v]) (port_rx p) true else p }.

#[global] Instance port_uart : Uart (W := port) 0x20000000.
Proof.
  refine {| tx := port_tx; rx p := map u8 (port_rx p);
            full p := if port_full p then 1%nat else 0%nat; depth := 1%nat |}.
  - intros p. destruct (port_full p); lia.
  - intros [t r f].
    change (bcm2835_read 0x20000000 (Port t r f) UART0_FR)
      with (port_flags (Port t r f), Port t r false).
    cbn [port_tx port_rx port_full]. split; [done|]. split; [done|]. split; [by destruct f|].
    unfold port_flags. cbn [port_rx port_full].
    split; destruct f, r; cbn [map]; split; intros; congruence || by vm_compute.
  - intros [t r f] b _ _. done.
  - intros [t r f] b l E. cbn [port_rx] in E. destruct r as [|b' r]; [done|].
    cbn in E. injection E as <- <-.
    change (bcm2835_read 0x20000000 (Port t (b' :: r) f) UART0_DR) with (u8 b', Port t r f).
    pose proof (u8_range b'). split; [done|]. split; [|split; [lia|done]].
    change 0xff with (Z.ones 8). rewrite Z.land_ones, Z.mod_small by lia. done.
  - intros [t r f] v. done.
Defined.

Lemma serial_write_transmits_witness :
  exists w', serial_write 0x20000000 3 (Serial 1 115200 8 1 0 pl011_uart) (Port [] [7] true)
      (mem_with (fun _ => 0) 100 [104; 105; 10]) 100 3 = Some (3, w') /\
    tx 0x20000000 w' = [104; 105; 13; 10] /\ rx 0x20000000 w' = [7].
Proof.
  refine (serial_write_transmits 0x20000000 3 (Serial 1 115200 8 1 0 pl011_uart)
    (Port [] [7] true) (mem_with (fun _ => 0) 100 [104; 105; 10]) 100 3 _ _ _ _ _);
    [done|done|cbn; lia|lia|].
  intros i Hi. assert (i = 0 \/ i = 1 \/ i = 2) as [->|[->| ->]] by lia; by vm_compute.
Defined.

#[global] Instance bank_config : Plain (W := bank) 0x20000000 uart_config.
Proof.
  apply (plain_sub _ _ _ bank_plain). intros a [(j & Hj & ->)|Hi].
  - unfold GPIO_GPFSEL0, GPIO_BASE. lia.
  - cbn in Hi. unfold UART0_IBRD, UART0_FBRD, UART0_LCRH, UART0_CR, UART0_IMSC, UART0_BASE in Hi.
    lia.
Qed.

#[global] Instance bank_triggers : Quiet (W := bank) 0x20000000 uart_config uart_triggers.
Proof.
  intros w a b v Ha Hb. apply (plain_other _ (P := fun a => 0 <= a < 2 ^ 28)).
  - destruct Ha as [(j & Hj & ->)|Hi]; [unfold GPIO_GPFSEL0, GPIO_BASE; lia|]. cbn in Hi.
    unfold UART0_IBRD, UART0_FBRD, UART0_LCRH, UART0_CR, UART0_IMSC, UART0_BASE in Hi. lia.
  - cbn in Hb. unfold GPIO_GPPUD, GPIO_GPPUDCLK0, UART0_ICR, UART0_BASE, GPIO_BASE in Hb. lia.
  - unfold uart_triggers, GPIO_GPPUD, GPIO_GPPUDCLK0, UART0_ICR, GPIO_BASE in Hb. cbn in Hb.
    unfold UART0_BASE in Hb. destruct Ha as [(j & Hj & ->)|Hi];
      [unfold GPIO_GPFSEL0, GPIO_BASE; lia|]. cbn in Hi.
    unfold UART0_IBRD, UART0_FBRD, UART0_LCRH, UART0_CR, UART0_IMSC, UART0_BASE in Hi. lia.
Qed.

Lemma serial_init_pl011_witness :
  let '(r, s', res', w') :=
    serial_init (W := bank) 0x20000000 serial_bss 0 (fun _ => 0) SERIAL_UART_PL011 in
  r = 0 /\ initialized s' = 1 /\ driver s' = pl011_uart /\ baud s' = 115200 /\
  Z.testbit res' 14 = true /\ Z.testbit res' 15 = true /\
  pin_function 0x20000000 w' 15 = 4 /\
  map (reg 0x20000000 w') [UART0_CR; UART0_LCRH; UART0_IBRD; UART0_FBRD; UART0_IMSC]
  = [0x301; 0x70; 26; 3; 0].
Proof.
  exact (serial_init_pl011 (W := bank) 0x20000000 serial_bss 0 (fun _ => 0) 15 ltac:(lia)).
Defined.
