(* ===== verification/Console.v ===== *)
(** * The console: kernel/drivers/console/console_io.c, and the receive
      interrupt of the serial port that feeds it (the interrupt handlers of
      kernel/drivers/serial/pl011_uart.c, mini_uart.c and serial.c)

    The input buffer is a ring of 256 bytes with two indices.
    [scheduling_enabled] is the variable of processes/scheduler.c that ^Z
    toggles.  The dump of the user registers on ^B prints and changes nothing;
    it is left out. *)

From stdpp Require Import base list numbers gmap.
From Stdlib Require Import ZArith Lia.
From S2P Require Import Prelude PageAlloc Process Sched Mmio Serial.

Definition INPUT_BUFFER_SIZE : Z := 256.

Record console := Console {
  input_buffer : list Z;
  input_buffer_head : Z;
  input_buffer_tail : Z;
  scheduling_enabled : Z }.

(** The static objects at boot. *)
Definition console_bss : console := Console (repeat 0 256) 0 0 1.

Definition console_insert_char (c : console) (s : kstate) (ch : Z)
    : option (Z * console * kstate) :=
  let new_head0 := u32 (input_buffer_head c + 1) in
  let new_head := if INPUT_BUFFER_SIZE <=? new_head0 then 0 else new_head0 in
  if new_head =? input_buffer_tail c then Some (-1, c, s)
  else
    let buffer := <[Z.to_nat (input_buffer_head c) := u8 ch]> (input_buffer c) in
    let enabled := if ch =? 26 then if scheduling_enabled c =? 0 then 1 else 0
                   else scheduling_enabled c in
    '(_, s1) ← wait_queue_wake s console_wait_queue;
    Some (0, Console buffer new_head (input_buffer_tail c) enabled, s1).

Definition console_get_char (c : console) : Z * console :=
  if input_buffer_head c =? input_buffer_tail c then (0, c)
  else
    let result := nth (Z.to_nat (input_buffer_tail c)) (input_buffer c) 0 in
    let tail := u32 (input_buffer_tail c + 1) in
    let tail' := if INPUT_BUFFER_SIZE <=? tail then 0 else tail in
    (result, Console (input_buffer c) (input_buffer_head c) tail' (scheduling_enabled c)).

(** The loop that copies. *)
Fixpoint console_read_loop (n : nat) (c : console) (m : mem) (ptr : Z) : console * mem :=
  match n with
  | O => (c, m)
  | S n' =>
      let '(ch, c1) := console_get_char c in
      console_read_loop n' c1 (upd m ptr (u8 ch)) (ptr + 1)
  end.

(** [Blocked] is a caller that sleeps inside the [while] of [console_read]; it
    enters again when it is woken and scheduled. *)
Definition console_read (c : console) (s : kstate) (buf count : Z)
    : option (wait_result * console * kstate) :=
  if input_buffer_head c =? input_buffer_tail c then
    '(_, s1) ← wait_queue_add s console_wait_queue (current_process s);
    Some (Blocked 0, c, s1)
  else
    let '(c1, m1) := console_read_loop (Z.to_nat count) c (k_mem s) buf in
    Some (Returned count, c1, with_k_mem m1 s).

Section Hardware.
Context `{Device W} (io_base : Z).

Definition console_write (fuel : nat) (sr : serial_type) (w : W) (m : mem) (buf count : Z)
    : option (Z * W) :=
  '(result, w1) ← serial_write io_base fuel sr w m buf count;
  Some (s32 result, w1).

Fixpoint pl011_receive_loop (fuel : nat) (w : W) (c : console) (s : kstate)
    : option (W * console * kstate) :=
  match fuel with
  | O => None
  | S f =>
      let '(ascii, w1) := pl011_uart_getc_noblock io_base w in
      if ascii =? -1 then Some (w1, c, s)
      else
        '(_, c1, s1) ← console_insert_char c s ascii;
        pl011_receive_loop f w1 c1 s1
  end.

Definition pl011_uart_interrupt_handler (fuel : nat) (w : W) (c : console) (s : kstate)
    : option (Z * W * console * kstate) :=
  '(w1, c1, s1) ← pl011_receive_loop fuel w c s;
  Some (0, bcm2835_write io_base w1 UART0_ICR UART0_ICR_RTIC, c1, s1).

Fixpoint mini_receive_loop (fuel : nat) (w : W) (c : console) (s : kstate)
    : option (W * console * kstate) :=
  match fuel with
  | O => None
  | S f =>
      let '(ascii, w1) := mini_uart_getc_noblock io_base w in
      if ascii =? -1 then Some (w1, c, s)
      else
        '(_, c1, s1) ← console_insert_char c s ascii;
        mini_receive_loop f w1 c1 s1
  end.

Definition mini_uart_interrupt_handler (fuel : nat) (w : W) (c : console) (s : kstate)
    : option (Z * W * console * kstate) :=
  '(w1, c1, s1) ← mini_receive_loop fuel w c s;
  Some (0, bcm2835_write io_base w1 UART0_ICR UART0_ICR_RTIC, c1, s1).

Definition serial_interrupt_handler (fuel : nat) (sr : serial_type) (w : W) (c : console)
    (s : kstate) : option (Z * W * console * kstate) :=
  match driver sr with
  | pl011_uart => pl011_uart_interrupt_handler fuel w c s
  | mini_uart => mini_uart_interrupt_handler fuel w c s
  | no_uart => None
  end.
End Hardware.

(** ** The abstract console: a queue of at most 255 bytes *)

(** The ring is well formed. *)
Record ring (c : console) : Prop := {
  ring_length : length (input_buffer c) = 256%nat;
  ring_head : 0 <= input_buffer_head c < 256;
  ring_tail : 0 <= input_buffer_tail c < 256 }.

(** How many bytes it holds, and which. *)
Definition fill (c : console) : Z := (input_buffer_head c - input_buffer_tail c) mod 256.

Definition contents (c : console) : list Z :=
  map (fun i => nth (Z.to_nat ((input_buffer_tail c + Z.of_nat i) mod 256)) (input_buffer c) 0)
    (seq 0 (Z.to_nat (fill c))).

Definition enqueue (q : list Z) (ch : Z) : Z * list Z :=
  if (255 <=? Z.of_nat (length q)) then (-1, q) else (0, q ++ [u8 ch]).

Definition dequeue (q : list Z) : Z * list Z :=
  match q with [] => (0, []) | b :: r => (b, r) end.

Lemma fill_range c : 0 <= fill c < 256.
Proof. unfold fill. apply Z.mod_pos_bound. lia. Qed.

Lemma contents_length c : Z.of_nat (length (contents c)) = fill c.
Proof.
  unfold contents. rewrite length_map, length_seq. pose proof (fill_range c). lia.
Qed.

Lemma wrap_step x : 0 <= x < 256 ->
  (if INPUT_BUFFER_SIZE <=? u32 (x + 1) then 0 else u32 (x + 1)) = (x + 1) mod 256.
Proof.
  intros Hx. unfold INPUT_BUFFER_SIZE. rewrite u32_id by lia.
  bcase; [replace x with 255 by lia; done|]. by rewrite Z.mod_small by lia.
Qed.

Lemma empty_iff c : ring c -> (input_buffer_head c =? input_buffer_tail c) = true <-> contents c = [].
Proof.
  intros [_ Hh Ht]. rewrite Z.eqb_eq. pose proof (contents_length c) as HL. unfold fill in HL.
  split; intros E.
  - apply nil_length_inv. rewrite E, Z.sub_diag, Z.mod_0_l in HL by lia. lia.
  - rewrite E in HL. cbn [length] in HL. Z.div_mod_to_equations. lia.
Qed.

(** A stored byte is seen at the end. *)
Lemma contents_snoc c b en : ring c -> fill c < 255 ->
  let c' := Console (<[Z.to_nat (input_buffer_head c) := b]> (input_buffer c))
              ((input_buffer_head c + 1) mod 256) (input_buffer_tail c) en in
  ring c' /\ contents c' = contents c ++ [b].
Proof.
  intros [Hl Hh Ht] Hf c'. split.
  { split; cbn; [by rewrite length_insert|apply Z.mod_pos_bound; lia|done]. }
  assert (Ef : fill c' = fill c + 1).
  { unfold fill in *. cbn. Z.div_mod_to_equations. lia. }
  unfold contents. rewrite Ef. pose proof (fill_range c).
  replace (Z.to_nat (fill c + 1)) with (S (Z.to_nat (fill c))) by lia.
  rewrite seq_S, map_app. cbn [map input_buffer_tail input_buffer c'].
  set (n := Z.to_nat (fill c)) in *. f_equal.
  - apply map_ext_in. intros i Hi%in_seq.
    rewrite nth_lookup, list_lookup_insert_ne, <- nth_lookup; [done|].
    unfold fill in *. intros E. apply (f_equal Z.of_nat) in E.
    rewrite !Z2Nat.id in E by (try lia; apply Z.mod_pos_bound; lia).
    Z.div_mod_to_equations. lia.
  - f_equal. rewrite nth_lookup.
    replace (Z.to_nat ((input_buffer_tail c + Z.of_nat (0 + n)) mod 256))
      with (Z.to_nat (input_buffer_head c)).
    + rewrite list_lookup_insert_eq by lia. done.
    + f_equal. unfold n, fill. cbn [Nat.add]. rewrite Z2Nat.id by (apply Z.mod_pos_bound; lia).
      Z.div_mod_to_equations. lia.
Qed.

(** The oldest byte is taken. *)
Lemma contents_uncons c en : ring c -> 0 < fill c ->
  let c' := Console (input_buffer c) (input_buffer_head c)
              ((input_buffer_tail c + 1) mod 256) en in
  ring c' /\ contents c = nth (Z.to_nat (input_buffer_tail c)) (input_buffer c) 0 :: contents c'.
Proof.
  intros [Hl Hh Ht] Hf c'. split.
  { split; cbn; [done|done|apply Z.mod_pos_bound; lia]. }
  assert (Ef : fill c' = fill c - 1).
  { unfold fill in *. cbn. Z.div_mod_to_equations. lia. }
  unfold contents. rewrite Ef.
  replace (Z.to_nat (fill c)) with (S (Z.to_nat (fill c - 1))) by lia.
  cbn [seq map]. f_equal.
  - rewrite Z.add_0_r, Z.mod_small by lia. done.
  - rewrite <- seq_shift, map_map. apply map_ext. intros i. cbn. f_equal. f_equal.
    rewrite Zplus_mod_idemp_l. f_equal. lia.
Qed.

(** ** The operations on the abstract queue *)

Lemma insert_ok c s w ch :
  ring c -> wqueue s console_wait_queue w ->
  exists c' s', console_insert_char c s ch = Some (fst (enqueue (contents c) ch), c', s') /\
    ring c' /\ contents c' = snd (enqueue (contents c) ch) /\
    (if 255 <=? Z.of_nat (length (contents c)) then c' = c /\ s' = s
     else wqueue s' console_wait_queue [] /\ woken (procs s) w (procs s') /\ evolves s s' /\
          s' = with_first console_wait_queue 0 (with_procs (procs s') s)).
Proof.
  intros R HW. unfold console_insert_char. rewrite wrap_step by apply R.
  unfold enqueue. rewrite contents_length.
  pose proof (fill_range c) as Hr. destruct R as [Hl Hh Ht].
  destruct (255 <=? fill c) eqn:Ef; b2p.
  - replace ((input_buffer_head c + 1) mod 256 =? input_buffer_tail c) with true.
    2:{ symmetry. apply Z.eqb_eq. unfold fill in *. Z.div_mod_to_equations. lia. }
    by exists c, s.
  - replace ((input_buffer_head c + 1) mod 256 =? input_buffer_tail c) with false.
    2:{ symmetry. apply Z.eqb_neq. unfold fill in *. Z.div_mod_to_equations. lia. }
    destruct (wait_queue_wake_ok s console_wait_queue w HW) as (s' & E & Wk & V & F).
    rewrite E. cbn [mbind option_bind].
    set (en := if ch =? 26 then _ else _).
    destruct (contents_snoc c (u8 ch) en) as [R' C']; [by split|lia|].
    eexists _, s'. split; [done|]. split; [done|]. split; [done|]. split; [|done].
    split; [constructor|]. rewrite F. done.
Qed.

Lemma get_ok c :
  ring c ->
  let '(b, c') := console_get_char c in
  ring c' /\ b = fst (dequeue (contents c)) /\ contents c' = snd (dequeue (contents c)).
Proof.
  intros R. unfold console_get_char. pose proof (empty_iff c R) as He.
  destruct (input_buffer_head c =? input_buffer_tail c) eqn:E.
  - rewrite (proj1 He eq_refl). done.
  - rewrite wrap_step by apply R. pose proof (contents_length c) as HL.
    destruct (contents_uncons c (scheduling_enabled c) R) as [R' C'].
    { pose proof (fill_range c). destruct (decide (fill c = 0)) as [E0|]; [|lia].
      rewrite E0 in HL. destruct (contents c); [by discriminate (proj2 He eq_refl)|cbn in HL; lia]. }
    split; [done|]. by rewrite C'.
Qed.

Lemma read_loop_ok n : forall c m p,
  ring c -> Forall (fun b => 0 <= b < 256) (contents c) ->
  let '(c', m') := console_read_loop n c m p in
  ring c' /\ contents c' = drop n (contents c) /\
  (forall i, (i < n)%nat -> m' (p + Z.of_nat i) = nth i (contents c) 0) /\
  modifies [(p, Z.of_nat n)] m m'.
Proof.
  induction n as [|n IH]; intros c m p R Hb; cbn [console_read_loop].
  { split; [done|]. split; [done|]. split; [lia|done]. }
  pose proof (get_ok c R) as HG. destruct (console_get_char c) as [b c1].
  destruct HG as (R1 & -> & C1).
  assert (Hb1 : Forall (fun b => 0 <= b < 256) (contents c1)).
  { rewrite C1. destruct (contents c); [done|]. by inversion Hb. }
  assert (Hb0 : u8 (fst (dequeue (contents c))) = nth 0 (contents c) 0).
  { destruct Hb; [done|]. cbn. by apply u8_id. }
  specialize (IH c1 (upd m p (u8 (fst (dequeue (contents c))))) (p + 1) R1 Hb1).
  destruct (console_read_loop n c1 _ (p + 1)) as [c' m'].
  destruct IH as (R' & C' & Hi & Hm). split; [done|]. split; [|split].
  - rewrite C', C1. destruct (contents c); [by destruct n|done].
  - intros [|i] Hin.
    + rewrite Hm by (repeat constructor; cbn; lia). rewrite Z.add_0_r, upd_eq. done.
    + replace (p + Z.of_nat (S i)) with (p + 1 + Z.of_nat i) by lia. rewrite Hi by lia.
      rewrite C1. by destruct (contents c), i.
  - transitivity (upd m p (u8 (fst (dequeue (contents c))))).
    + eapply modifies_sub; [apply modifies_upd|regions].
    + eapply modifies_sub; [exact Hm|regions].
Qed.

(** The receive loop: everything the port holds goes to the console. *)
Fixpoint enqueue_all (q l : list Z) : list Z :=
  match l with [] => q | b :: r => enqueue_all (snd (enqueue q b)) r end.

(** What keys do to the kernel: they may empty the console's wait queue. *)
Record console_frame (s : kstate) (wq : list Z) (s' : kstate) (wq' : list Z) : Prop := {
  cf_queue : wqueue s' console_wait_queue wq';
  cf_woken : wq' = wq \/ wq' = [];
  cf_evolves : evolves s s';
  cf_ticks : ticks s' = ticks s;
  cf_current : current_process s' = current_process s;
  cf_other : forall q wx, q <> console_wait_queue -> (forall p, In p wx -> ~ In p wq) ->
               wqueue s q wx -> wqueue s' q wx }.

Lemma console_frame_trans s1 w1 s2 w2 s3 w3 :
  console_frame s1 w1 s2 w2 -> console_frame s2 w2 s3 w3 -> console_frame s1 w1 s3 w3.
Proof.
  intros [A1 B1 C1 D1 E1 F1] [A2 B2 C2 D2 E2 F2]. split; try congruence.
  - destruct B1 as [->| ->]; [done|]. right. by destruct B2.
  - by transitivity s2.
  - intros q wx Hq Hd Hwx. apply F2; [done| |by apply F1].
    intros p Hp Hin. destruct B1 as [->| ->]; [by apply (Hd p)|done].
Qed.

Section Receive.
Context `{Device W} (io_base : Z) `{!Uart (W := W) io_base}.

Lemma mini_receive_same fuel w c s :
  mini_receive_loop io_base fuel w c s = pl011_receive_loop io_base fuel w c s.
Proof.
  revert w c s. induction fuel as [|fuel IH]; intros w c s; [done|].
  cbn [mini_receive_loop pl011_receive_loop].
  change (mini_uart_getc_noblock io_base w) with (pl011_uart_getc_noblock io_base w).
  destruct (pl011_uart_getc_noblock io_base w) as [v w1]. bcase; [done|].
  destruct (console_insert_char c s v) as [[[? c1] s1]|]; [|done]. apply IH.
Qed.

(** The effect of one key on the kernel's state. *)
Lemma insert_frame c s wq ch :
  ring c -> wqueue s console_wait_queue wq ->
  exists c' s' wq', console_insert_char c s ch = Some (fst (enqueue (contents c) ch), c', s') /\
    ring c' /\ contents c' = snd (enqueue (contents c) ch) /\ console_frame s wq s' wq'.
Proof.
  intros R HW. destruct (insert_ok c s wq ch R HW) as (c1 & s1 & E1 & Rc1 & C1 & D1).
  exists c1, s1. destruct (255 <=? Z.of_nat (length (contents c))).
  - destruct D1 as [-> ->]. exists wq. split; [done|]. split; [done|]. split; [done|].
    split; auto; reflexivity.
  - destruct D1 as (HW1 & Wk & V & F). exists []. split; [done|]. split; [done|].
    split; [done|]. split; [done|by right|done|by rewrite F|by rewrite F|].
    intros q wx Hq Hd Hwx. by eapply wqueue_wake_other.
Qed.

Lemma receive_loop_ok l : forall fuel w c s wq,
  rx io_base w = l -> (length l < fuel)%nat -> ring c -> wqueue s console_wait_queue wq ->
  exists w' c' s' wq', pl011_receive_loop io_base fuel w c s = Some (w', c', s') /\
    rx io_base w' = [] /\ tx io_base w' = tx io_base w /\ ring c' /\
    contents c' = enqueue_all (contents c) l /\ console_frame s wq s' wq'.
Proof.
  induction l as [|b l IH]; intros [|fuel] w c s wq Hrx Hf R HW; cbn [length] in *; try lia;
    cbn [pl011_receive_loop]; pose proof (getc_noblock_ok io_base w) as HG;
    destruct (pl011_uart_getc_noblock io_base w) as [v w1]; rewrite Hrx in HG;
    destruct HG as [T HG].
  - destruct HG as [-> R1]. cbn [Z.eqb Pos.eqb]. exists w1, c, s, wq.
    split; [done|]. split; [done|]. split; [done|]. split; [done|]. split; [done|].
    split; auto; reflexivity.
  - destruct HG as (-> & Hb & R1). rewrite (proj2 (Z.eqb_neq b (-1))) by lia.
    destruct (insert_frame c s wq b R HW) as (c1 & s1 & wq1 & E1 & Rc1 & C1 & F1).
    rewrite E1. cbn [mbind option_bind].
    destruct (IH fuel w1 c1 s1 wq1) as (w' & c' & s' & wq' & -> & ? & ? & ? & C' & F');
      try done; [lia|apply F1|].
    exists w', c', s', wq'. split; [done|]. split; [done|]. split; [congruence|]. split; [done|].
    split; [by rewrite C', C1|]. by eapply console_frame_trans.
Qed.
End Receive.

(** ** Properties *)

(** A history of the console: keys arriving and bytes taken. *)
Inductive console_op := Key (ch : Z) | Take.

Fixpoint console_run (ops : list console_op) (c : console) (s : kstate)
    : option (list Z * console * kstate) :=
  match ops with
  | [] => Some ([], c, s)
  | Key ch :: ops' =>
      '(r, c1, s1) ← console_insert_char c s ch;
      '(rs, c2, s2) ← console_run ops' c1 s1; Some (r :: rs, c2, s2)
  | Take :: ops' =>
      let '(b, c1) := console_get_char c in
      '(rs, c2, s2) ← console_run ops' c1 s; Some (b :: rs, c2, s2)
  end.

Fixpoint queue_run (ops : list console_op) (q : list Z) : list Z * list Z :=
  match ops with
  | [] => ([], q)
  | op :: ops' =>
      let '(r, q1) := match op with Key ch => enqueue q ch | Take => dequeue q end in
      let '(rs, q2) := queue_run ops' q1 in (r :: rs, q2)
  end.

Lemma console_run_ok ops : forall c s w,
  ring c -> wqueue s console_wait_queue w ->
  exists c' s', console_run ops c s = Some (fst (queue_run ops (contents c)), c', s') /\
    ring c' /\ contents c' = snd (queue_run ops (contents c)).
Proof.
  induction ops as [|[ch|] ops IH]; intros c s w R HW; cbn [console_run queue_run].
  - by exists c, s.
  - destruct (insert_ok c s w ch R HW) as (c1 & s1 & -> & R1 & C1 & D).
    cbn [mbind option_bind].
    assert (HW1 : exists w1, wqueue s1 console_wait_queue w1).
    { destruct (255 <=? _); [destruct D as [-> ->]; by exists w|exists []; apply D]. }
    destruct HW1 as [w1 HW1]. destruct (IH c1 s1 w1 R1 HW1) as (c2 & s2 & -> & R2 & C2).
    cbn [mbind option_bind]. exists c2, s2. rewrite C2, C1.
    destruct (enqueue (contents c) ch) as [r q1]. cbn [fst snd].
    by destruct (queue_run ops q1).
  - pose proof (get_ok c R) as HG. destruct (console_get_char c) as [b c1].
    destruct HG as (R1 & -> & C1). destruct (IH c1 s w R1 HW) as (c2 & s2 & -> & R2 & C2).
    cbn [mbind option_bind]. exists c2, s2.
    destruct (dequeue (contents c)) as [r q1]. cbn [fst snd] in *. rewrite C2, C1.
    by destruct (queue_run ops q1).
Qed.

(** C18. The ring buffer implements a first-in first-out queue of at most 255
    bytes: over every history of arriving keys and taken bytes it gives the
    answers of the queue (0 for a key that is kept, -1 for one that is dropped
    because the queue is full, the oldest byte or 0 when there is none) and ends
    with the queue's contents. *)
Theorem console_refines_queue ops c s w :
  ring c -> wqueue s console_wait_queue w ->
  exists c' s', console_run ops c s = Some (fst (queue_run ops (contents c)), c', s') /\
    contents c' = snd (queue_run ops (contents c)).
Proof.
  intros R HW. destruct (console_run_ok ops c s w R HW) as (c' & s' & ? & _ & ?). eauto.
Qed.

(** C32. A read from the console with input waiting returns the number of bytes
    asked for and takes the oldest bytes out of the queue; where there are not
    enough, the rest of the caller's buffer is filled with NULs.  With no input
    the caller goes to sleep on the console's wait queue and another process
    runs; the buffer is not touched. *)
Theorem console_read_bytes kernel c s l w buf count :
  ring c -> Forall (fun b => 0 <= b < 256) (contents c) -> 0 <= count ->
  kinv kernel s l -> wqueue s console_wait_queue w -> In (current_process s) l ->
  current_process s <> proc_first s ->
  (~ In (current_process s) w -> fld wait_queue_next s (current_process s) = 0) ->
  match contents c with
  | [] => exists s', console_read c s buf count = Some (Blocked 0, c, s') /\
      kinv kernel s' l /\ current_process s' <> current_process s /\
      fld status s' (current_process s) = PROCESS_STATUS_SLEEPING /\
      exists w', wqueue s' console_wait_queue w' /\ In (current_process s) w'
  | q => exists c' m', console_read c s buf count
             = Some (Returned count, c', with_k_mem m' s) /\
      contents c' = drop (Z.to_nat count) q /\
      (forall i, 0 <= i < count -> m' (buf + i) = nth (Z.to_nat i) q 0) /\
      modifies [(buf, count)] (k_mem s) m'
  end.
Proof.
  intros R Hb Hc K HW Hin Hne Hn. unfold console_read. pose proof (empty_iff c R) as He.
  destruct (contents c) as [|b q] eqn:Eq.
  - rewrite (proj2 He eq_refl).
    destruct (wait_queue_add_ok kernel s l console_wait_queue w K HW Hin Hne Hn)
      as (s' & E & K' & ? & _ & St & HW' & _).
    rewrite E. cbn [mbind option_bind]. exists s'. split; [done|]. split; [done|].
    split; [done|]. split; [done|]. eexists. split; [exact HW'|].
    case_bool_decide; [by apply list_elem_of_In|apply in_or_app; right; by left].
  - destruct (input_buffer_head c =? input_buffer_tail c) eqn:E.
    { discriminate (proj1 He eq_refl). }
    pose proof (read_loop_ok (Z.to_nat count) c (k_mem s) buf R) as HL. rewrite Eq in HL.
    specialize (HL Hb). destruct (console_read_loop _ c (k_mem s) buf) as [c' m'].
    destruct HL as (_ & C' & Hi & Hm). rewrite Z2Nat.id in Hm by done.
    exists c', m'. split; [done|]. split; [done|]. split; [|done].
    intros i Hi'. rewrite <- (Hi (Z.to_nat i)) by lia. f_equal. lia.
Qed.

(** No wake-up is lost: when a process sleeps in a console read, the next
    key is kept and makes the process ready again, together with every other
    process that waits for input. *)
Theorem console_key_wakes_readers kernel c s l w ch p :
  ring c -> contents c = [] -> kinv kernel s l -> wqueue s console_wait_queue w -> In p w ->
  exists c' s', console_insert_char c s ch = Some (0, c', s') /\
    contents c' = [u8 ch] /\ kinv kernel s' l /\ wqueue s' console_wait_queue [] /\
    fld status s' p = PROCESS_STATUS_READY /\ fld wait_queue_next s' p = 0.
Proof.
  intros R Ec K HW Hp. destruct (insert_ok c s w ch R HW) as (c' & s' & E & _ & C & D).
  rewrite Ec in *. cbn [length enqueue] in *. destruct D as (HW' & Wk & V & _).
  exists c', s'. split; [exact E|]. split; [exact C|].
  split; [by eapply kinv_evolves|]. split; [done|].
  destruct HW as [_ Hs]. destruct (wseg_lookup _ _ _ _ Hs Hp) as (_ & qp & Hqp).
  unfold fld. rewrite Wk, bool_decide_eq_true_2, Hqp by (by apply list_elem_of_In). done.
Qed.

(** The receive interrupt moves every byte the port holds to the console, in
    order, dropping those for which it has no room, and ends; nothing is
    sent. *)
Theorem serial_interrupt_delivers `{Device W} io_base `{!Uart (W := W) io_base}
    kernel fuel sr w c s l wq :
  driver sr <> no_uart -> (length (rx io_base w) < fuel)%nat -> ring c ->
  kinv kernel s l -> wqueue s console_wait_queue wq ->
  exists w' c' s', serial_interrupt_handler io_base fuel sr w c s = Some (0, w', c', s') /\
    rx io_base w' = [] /\ tx io_base w' = tx io_base w /\
    contents c' = enqueue_all (contents c) (rx io_base w) /\ kinv kernel s' l.
Proof.
  intros Hd Hf R K HW.
  destruct (receive_loop_ok io_base (rx io_base w) fuel w c s wq eq_refl Hf R HW)
    as (w1 & c' & s' & wq' & E & Hr & Ht & _ & C & FR).
  assert (Hu := uart_icr io_base w1 UART0_ICR_RTIC).
  exists (bcm2835_write io_base w1 UART0_ICR UART0_ICR_RTIC), c', s'.
  split; [|split; [|split; [|split]]].
  - unfold serial_interrupt_handler. destruct (driver sr); [done| |].
    + unfold pl011_uart_interrupt_handler. by rewrite E.
    + unfold mini_uart_interrupt_handler. rewrite <- mini_receive_same in E. by rewrite E.
  - by rewrite (proj2 Hu).
  - by rewrite (proj1 Hu).
  - done.
  - eapply kinv_evolves; [apply FR|done].
Qed.

(** ** Runs *)

Lemma console_refines_queue_witness :
  exists c' s', console_run [Key 104; Key 10; Take; Take; Take] console_bss three
    = Some ([0; 0; 104; 10; 0], c', s') /\ contents c' = [].
Proof.
  apply (console_refines_queue [Key 104; Key 10; Take; Take; Take] console_bss three []);
    [split; cbn; lia|split; [constructor|reflexivity]].
Defined.

(** A ring that holds "hi". *)
Definition typed : console := Console (104 :: 105 :: repeat 0 254) 2 0 1.

Lemma console_read_bytes_witness :
  exists c' m', console_read typed three 100 3 = Some (Returned 3, c', with_k_mem m' three) /\
    contents c' = [] /\
    (forall i, 0 <= i < 3 -> m' (100 + i) = nth (Z.to_nat i) [104; 105] 0) /\
    modifies [(100, 3)] (k_mem three) m'.
Proof.
  apply (console_read_bytes (kernel_chunk 9000) typed three [12288; 20480; 28672] [] 100 3);
    [ split; cbn; lia | repeat constructor; by vm_compute | lia | exact three_inv
    | split; [constructor|reflexivity] | cbn; auto | done | reflexivity ].
Defined.

Lemma evolves_sleeping s c v : evolves s (with_console_first v (with_current_process c s)).
Proof. split; [done..|]. intros a. cbn. by destruct (procs s !! a). Qed.

(** The process at 20480 waits for input. *)
Definition three_reading : kstate :=
  with_console_first 20480 (with_current_process 28672
    (with_procs (<[20480 := three_pcb 28672 12288 1 0]> (procs three)) three)).

Lemma three_reading_inv : kinv (kernel_chunk 9000) three_reading [12288; 20480; 28672].
Proof.
  eapply kinv_evolves; [|apply three_inv]. unfold three_reading.
  transitivity (with_procs (<[20480 := three_pcb 28672 12288 1 0]> (procs three)) three).
  - apply evolves_upd with (three_pcb 28672 12288 1 1); by vm_compute.
  - apply (evolves_sleeping _ 28672 20480).
Qed.

Lemma console_key_wakes_readers_witness :
  exists c' s', console_insert_char console_bss three_reading 104 = Some (0, c', s') /\
    contents c' = [104] /\ kinv (kernel_chunk 9000) s' [12288; 20480; 28672] /\
    wqueue s' console_wait_queue [] /\ fld status s' 20480 = PROCESS_STATUS_READY /\
    fld wait_queue_next s' 20480 = 0.
Proof.
  apply (console_key_wakes_readers (kernel_chunk 9000) console_bss three_reading
           [12288; 20480; 28672] [20480] 104 20480);
    [ split; cbn; lia | reflexivity | exact three_reading_inv | | cbn; auto ].
  split; [repeat constructor; set_solver|].
  cbn. split; [done|]. split; [done|]. eexists. split; [by vm_compute|done].
Defined.

Lemma serial_interrupt_delivers_witness :
  exists w' c' s', serial_interrupt_handler 0x20000000 3 (Serial 1 115200 8 1 0 pl011_uart)
      (Port [] [104; 10] false) console_bss three = Some (0, w', c', s') /\
    rx 0x20000000 w' = [] /\ tx 0x20000000 w' = [] /\ contents c' = [104; 10] /\
    kinv (kernel_chunk 9000) s' [12288; 20480; 28672].
Proof.
  refine (serial_interrupt_delivers 0x20000000 (kernel_chunk 9000) 3
           (Serial 1 115200 8 1 0 pl011_uart) (Port [] [104; 10] false) console_bss three
           [12288; 20480; 28672] [] _ _ _ _ _);
    [ done | cbn; lia | split; cbn; lia | exact three_inv | split; [constructor|reflexivity] ].
Defined.
