(* ===== verification/Interrupts.v ===== *)
(** * The timer, sleeping and the interrupt handler:
      kernel/drivers/timer/sp804_timer.c, kernel/time/time.c,
      kernel/syscalls/nanosleep.c and [interrupt_handler_c] of
      kernel/interrupts/interrupts.c

    [tick_counter] is [ticks] of [Process.kstate].  [lit] is the static local
    of the timer interrupt handler. *)

From stdpp Require Import base list numbers gmap.
From Stdlib Require Import ZArith Lia.
From S2P Require Import Prelude PageAlloc Process Sched Mmio Gpio Irq Serial Console.

Definition TIMER_HZ : Z := 64.

Definition TIMER_BASE : Z := 0x00b000.
Definition TIMER_LOAD : Z := TIMER_BASE + 0x400.
Definition TIMER_CONTROL : Z := TIMER_BASE + 0x408.
Definition TIMER_CONTROL_ENABLE : Z := 2 ^ 7.
Definition TIMER_CONTROL_INT_ENABLE : Z := 2 ^ 5.
Definition TIMER_CONTROL_PRESCALE_256 : Z := 2 * 2 ^ 2.
Definition TIMER_CONTROL_32BIT : Z := 2.
Definition TIMER_IRQ_CLEAR : Z := TIMER_BASE + 0x40c.
Definition TIMER_PREDIVIDER : Z := TIMER_BASE + 0x41c.
Definition IRQ_ENABLE_BASIC_IRQ_ARM_TIMER : Z := 1.

Definition IRQ_BASIC_PENDING : Z := IRQ_BASE + 0x200.
Definition IRQ_BASIC_PENDING_TIMER : Z := 1.
Definition IRQ_BASIC_PENDING_IRQ57 : Z := 2 ^ 19.
Definition IRQ0_PENDING0 : Z := IRQ_BASE + 0x200.
Definition IRQ0_PENDING1 : Z := IRQ_BASE + 0x204.
Definition IRQ0_PENDING2 : Z := IRQ_BASE + 0x208.
Definition IRQ_PENDING1_IRQ57 : Z := 2 ^ 25.
Definition IRQ_PENDING2_TIMER_IRQ : Z := 1.

Record timer := Timer {
  timer_next_wakeup : Z;
  blinking_enabled : Z;
  lit : Z }.

(** The initialised data of the driver. *)
Definition timer_default : timer := Timer 0 1 0.

(** time.c *)
Definition time_since_boot (s : kstate) : Z := ticks s / TIMER_HZ.
Definition ticks_since_boot (s : kstate) : Z := ticks s.

Definition timer_sleep_until (t : timer) (s : kstate) (time : Z) : option (timer * kstate) :=
  let t1 :=
    if timer_next_wakeup t =? 0 then Timer time (blinking_enabled t) (lit t)
    else if time <? timer_next_wakeup t then Timer time (blinking_enabled t) (lit t)
    else t in
  '(_, s1) ← wait_queue_add s timer_wait_queue (current_process s);
  Some (t1, s1).

(** ** nanosleep.c

    [req] is read once; the loop is entered again each time the sleeping caller
    runs: [Blocked] holds the time it sleeps until. *)

Definition nanosleep_end (s : kstate) (seconds ns : Z) : Z :=
  let ticks_to_sleep := u32 (u32 (ns / 1000000 * TIMER_HZ) / 1000) in
  let ticks_to_sleep := u32 (ticks_to_sleep + u32 (seconds * 64)) in
  u32 (ticks_since_boot s + ticks_to_sleep).

Definition nanosleep_loop (t : timer) (s : kstate) (end_time : Z)
    : option (wait_result * timer * kstate) :=
  if ticks_since_boot s <=? end_time then
    '(t1, s1) ← timer_sleep_until t s end_time; Some (Blocked end_time, t1, s1)
  else Some (Returned 0, t, s).

Definition nanosleep (t : timer) (s : kstate) (req : Z) : option (wait_result * timer * kstate) :=
  let m := k_mem s in
  nanosleep_loop t s (nanosleep_end s (load32 m req) (load32 m (req + 4))).

Section Timer.
Context `{Device W} (io_base : Z).

Definition timer_init (w : W) : Z * W :=
  let '(old, w1) := bcm2835_read io_base w TIMER_CONTROL in
  let old1 := Z.land old (not32 (Z.lor TIMER_CONTROL_ENABLE TIMER_CONTROL_INT_ENABLE)) in
  let w2 := bcm2835_write io_base w1 TIMER_CONTROL old1 in
  let w3 := bcm2835_write io_base w2 TIMER_PREDIVIDER 0xf9 in
  let w4 := bcm2835_write io_base w3 TIMER_LOAD 61 in
  let w5 := bcm2835_write io_base w4 TIMER_CONTROL
    (Z.lor (Z.lor (Z.lor TIMER_CONTROL_32BIT TIMER_CONTROL_ENABLE) TIMER_CONTROL_INT_ENABLE)
       TIMER_CONTROL_PRESCALE_256) in
  (0, bcm2835_write io_base w5 IRQ_ENABLE_BASIC_IRQ IRQ_ENABLE_BASIC_IRQ_ARM_TIMER).

(** The blinking at the end of the handler. *)
Definition timer_blink (t : timer) (l : led) (w : W) : timer * W :=
  if blinking_enabled t =? 0 then (t, w)
  else
    let lit1 := s32 (lit t + 1) in
    let w1 := if lit1 =? TIMER_HZ / 2 then snd (led_off io_base l w) else w in
    let '(lit2, w2) := if lit1 =? TIMER_HZ then (0, snd (led_on io_base l w1)) else (lit1, w1) in
    (Timer (timer_next_wakeup t) (blinking_enabled t) lit2, w2).

(** The wake-up of sleepers. *)
Definition timer_wake (t : timer) (s : kstate) : option (timer * kstate) :=
  if negb (timer_next_wakeup t =? 0) && (timer_next_wakeup t <? ticks s) then
    '(_, s1) ← wait_queue_wake s timer_wait_queue;
    Some (Timer 0 (blinking_enabled t) (lit t), s1)
  else Some (t, s).

Definition timer_interrupt_handler (t : timer) (l : led) (w : W) (s : kstate)
    : option (timer * W * kstate) :=
  let w1 := bcm2835_write io_base w TIMER_IRQ_CLEAR 1 in
  let s1 := with_ticks (u32 (ticks s + 1)) s in
  '(t1, s2) ← timer_wake t s1;
  let '(t2, w2) := timer_blink t1 l w1 in
  Some (t2, w2, s2).

(** ** interrupts.c *)

(** What an interrupt can change. *)
Record sys := Sys {
  sys_board : W;
  sys_console : console;
  sys_timer : timer;
  sys_kernel : kstate }.

Definition on_serial (fuel : nat) (sr : serial_type) (y : sys) : option sys :=
  '(_, w1, c1, s1) ← serial_interrupt_handler io_base fuel sr (sys_board y) (sys_console y)
                       (sys_kernel y);
  Some (Sys w1 c1 (sys_timer y) s1).

Definition on_timer (l : led) (y : sys) : option sys :=
  '(t1, w1, s1) ← timer_interrupt_handler (sys_timer y) l (sys_board y) (sys_kernel y);
  Some (Sys w1 (sys_console y) t1 s1).

(** The sources that are pending: the port, the timer. *)
Definition pending (hardware_type : Z) (w : W) : bool * bool * W :=
  if hardware_type =? RPI_MODEL_4B then
    let '(pending0, w1) := bcm2835_read io_base w IRQ0_PENDING0 in
    let '(pending1, w2) := bcm2835_read io_base w1 IRQ0_PENDING1 in
    let '(pending2, w3) := bcm2835_read io_base w2 IRQ0_PENDING2 in
    (negb (Z.land pending1 IRQ_PENDING1_IRQ57 =? 0),
     negb (Z.land pending2 IRQ_PENDING2_TIMER_IRQ =? 0), w3)
  else
    let '(basic_pending, w1) := bcm2835_read io_base w IRQ_BASIC_PENDING in
    (negb (Z.land basic_pending IRQ_BASIC_PENDING_IRQ57 =? 0),
     negb (Z.land basic_pending IRQ_BASIC_PENDING_TIMER =? 0), w1).

Definition interrupt_handler_c (fuel : nat) (hardware_type : Z) (sr : serial_type) (l : led)
    (y : sys) : option sys :=
  let '(port, tick, w1) := pending hardware_type (sys_board y) in
  let y1 := Sys w1 (sys_console y) (sys_timer y) (sys_kernel y) in
  y2 ← (if port : bool then on_serial fuel sr y1 else Some y1);
  y3 ← (if tick : bool then on_timer l y2 else Some y2);
  if negb (port || tick) then Some y3
  else
    let w4 := if hardware_type =? RPI_MODEL_4B
              then mmio_write (sys_board y3) GICD_ICPENDR0 0xffffffff else sys_board y3 in
    s4 ← (if negb (scheduling_enabled (sys_console y3) =? 0) then schedule (sys_kernel y3)
          else Some (sys_kernel y3));
    Some (Sys w4 (sys_console y3) (sys_timer y3) s4).
End Timer.

(** ** Sleepers *)

Lemma evolves_ticks s v : evolves s (with_ticks v s).
Proof. split; [done..|]. intros a. cbn. by destruct (procs s !! a). Qed.

Lemma wqueue_ticks s q w v : wqueue s q w -> wqueue (with_ticks v s) q w.
Proof. intros [Hn Hs]. split; [done|]. by destruct q. Qed.

(** [w] sleeps on the timer queue, each process [p] until [dl p]: the next
    wake-up is set and not later than any of them. *)
Definition sleepers (t : timer) (s : kstate) (w : list Z) (dl : Z -> Z) : Prop :=
  wqueue s timer_wait_queue w /\ 0 <= timer_next_wakeup t /\
  forall p, In p w -> 0 < timer_next_wakeup t <= dl p.

Lemma sleep_until_ok kernel t s l w dl time :
  kinv kernel s l -> sleepers t s w dl -> In (current_process s) l ->
  current_process s <> proc_first s -> ~ In (current_process s) w ->
  fld wait_queue_next s (current_process s) = 0 -> 0 < time ->
  exists t' s', timer_sleep_until t s time = Some (t', s') /\ kinv kernel s' l /\
    current_process s' <> current_process s /\ In (current_process s') l /\
    fld status s' (current_process s) = PROCESS_STATUS_SLEEPING /\
    sleepers t' s' (w ++ [current_process s])
      (fun p => if p =? current_process s then time else dl p).
Proof.
  intros K (HW & Hn & Hdl) Hin Hne Hw Hz Ht. unfold timer_sleep_until.
  destruct (wait_queue_add_ok kernel s l timer_wait_queue w K HW Hin Hne (fun _ => Hz))
    as (s' & E & K' & Hc & Hin' & St & HW' & _).
  rewrite bool_decide_eq_false_2 in HW' by (by rewrite list_elem_of_In).
  rewrite E. cbn [mbind option_bind]. eexists _, s'. split; [done|]. split; [done|].
  split; [done|]. split; [done|]. split; [done|]. split; [done|].
  set (t1 := if timer_next_wakeup t =? 0 then _ else _).
  assert (H1 : 0 < timer_next_wakeup t1 <= time /\
    (timer_next_wakeup t <> 0 -> timer_next_wakeup t1 <= timer_next_wakeup t)).
  { unfold t1. bcase; [cbn; lia|]. bcase; cbn; lia. }
  split; [lia|]. intros p Hp. destruct (p =? current_process s) eqn:Ep; b2p; [lia|].
  apply in_app_iff in Hp as [Hp|[Hp|[]]]; [|congruence]. specialize (Hdl p Hp). lia.
Qed.

Section Ticks.
Context (kernel : Z -> bool).

Lemma timer_wake_ok t s l w dl :
  kinv kernel s l -> sleepers t s w dl ->
  exists t' s', timer_wake t s = Some (t', s') /\ kinv kernel s' l /\ evolves s s' /\
    blinking_enabled t' = blinking_enabled t /\ lit t' = lit t /\ ticks s' = ticks s /\
    (forall q wq, q <> timer_wait_queue -> (forall p, In p wq -> ~ In p w) ->
       wqueue s q wq -> wqueue s' q wq) /\
    (t' = t /\ s' = s /\ (forall p, In p w -> ticks s <= dl p) \/
     sleepers t' s' [] dl /\ forall p, In p w -> fld status s' p = PROCESS_STATUS_READY).
Proof.
  intros K (HW & Hn & Hdl). unfold timer_wake. bcase.
  - destruct (wait_queue_wake_ok s timer_wait_queue w HW) as (s' & E & Wk & V & F).
    rewrite E. cbn [mbind option_bind]. eexists _, s'. split; [done|].
    split; [by eapply kinv_evolves|]. split; [done|]. split; [done|]. split; [done|].
    split; [rewrite F; by destruct s|]. split.
    { intros q wq Hq Hd Hwq. by eapply wqueue_wake_other. }
    right. split; [split; [split; [constructor|by rewrite F]|split; [done|done]]|].
    intros p Hp. destruct (wseg_lookup _ _ _ _ (proj2 HW) Hp) as (_ & qp & Hqp).
    unfold fld. rewrite Wk, bool_decide_eq_true_2, Hqp by (by apply list_elem_of_In). done.
  - exists t, s. do 6 (split; [done|]). split; [done|]. left. split; [done|]. split; [done|].
    intros p Hp. specialize (Hdl p Hp). apply andb_false_iff in Hb as [Hb|Hb]; b2p; lia.
Qed.

Lemma timer_handler_ok `{Device W} io_base t ld (w : W) s l wq dl :
  kinv kernel s l -> sleepers t s wq dl -> 0 <= ticks s < 2 ^ 32 - 1 ->
  exists t' w' s' wq', timer_interrupt_handler io_base t ld w s = Some (t', w', s') /\
    kinv kernel s' l /\ evolves s s' /\ ticks s' = ticks s + 1 /\ sleepers t' s' wq' dl /\
    (wq' = wq \/ wq' = []) /\
    (forall p, In p wq -> In p wq' /\ ticks s' <= dl p \/
                          ~ In p wq' /\ fld status s' p = PROCESS_STATUS_READY) /\
    (forall q wx, q <> timer_wait_queue -> (forall p, In p wx -> ~ In p wq) ->
       wqueue s q wx -> wqueue s' q wx).
Proof.
  intros K Sl Ht. unfold timer_interrupt_handler. rewrite u32_id by lia.
  destruct (timer_wake_ok t (with_ticks (ticks s + 1) s) l wq dl)
    as (t1 & s1 & E & K1 & V1 & _ & _ & T1 & Q1 & HC).
  { eapply kinv_evolves; [apply evolves_ticks|done]. }
  { destruct Sl as (HW & ? & ?). split; [by apply wqueue_ticks|done]. }
  rewrite E. cbn [mbind option_bind].
  set (w1 := bcm2835_write io_base w TIMER_IRQ_CLEAR 1).
  destruct (timer_blink io_base t1 ld w1) as [t2 w2] eqn:Eb.
  assert (Hn : timer_next_wakeup t2 = timer_next_wakeup t1).
  { unfold timer_blink in Eb. destruct (blinking_enabled t1 =? 0); [congruence|].
    destruct (s32 (lit t1 + 1) =? TIMER_HZ); injection Eb as <- _; done. }
  assert (V : evolves s s1) by (etransitivity; [apply evolves_ticks|exact V1]).
  assert (HQ : forall q wx, q <> timer_wait_queue -> (forall p, In p wx -> ~ In p wq) ->
    wqueue s q wx -> wqueue s1 q wx).
  { intros q wx Hq Hd Hwx. apply Q1; [done|done|]. by apply wqueue_ticks. }
  destruct HC as [(-> & -> & Hp)|[Hs1 Hp]].
  - exists t2, w2, (with_ticks (ticks s + 1) s), wq. split; [done|]. split; [done|].
    split; [done|]. split; [done|]. split; [|split; [by left|split; [|done]]].
    + destruct Sl as (HW & Hn0 & Hdl). split; [by apply wqueue_ticks|]. by rewrite Hn.
    + intros p Hin. left. split; [done|]. by apply Hp.
  - exists t2, w2, s1, []. split; [done|]. split; [done|]. split; [done|].
    split; [by rewrite T1|]. split; [|split; [by right|split; [|done]]].
    + destruct Hs1 as (HW & Hn0 & Hdl). split; [done|]. by rewrite Hn.
    + intros p Hin. right. split; [by intros []|]. by apply Hp.
Qed.
End Ticks.

(** ** Properties *)

(** C29. A timer tick counts, and no process oversleeps: after it every process
    that slept until a given tick either still sleeps with its time not yet
    past, or has left the queue and is ready.  The process table and the other
    wait queues stay well formed. *)
Theorem timer_tick_wakes `{Device W} kernel io_base t ld (w : W) s l wq dl :
  kinv kernel s l -> sleepers t s wq dl -> 0 <= ticks s < 2 ^ 32 - 1 ->
  exists t' w' s' wq', timer_interrupt_handler io_base t ld w s = Some (t', w', s') /\
    kinv kernel s' l /\ ticks s' = ticks s + 1 /\ sleepers t' s' wq' dl /\
    (forall p, In p wq -> In p wq' /\ ticks s' <= dl p \/
                          ~ In p wq' /\ fld status s' p = PROCESS_STATUS_READY).
Proof.
  intros K Sl Ht.
  destruct (timer_handler_ok kernel io_base t ld w s l wq dl K Sl Ht)
    as (t' & w' & s' & wq' & ? & ? & _ & ? & ? & _ & ? & _). by exists t', w', s', wq'.
Qed.

(** [nanosleep] for [seconds] and [ns] sleeps until 64 ticks per second and
    64 per 1000 milliseconds (rounded down) have passed: until that tick is past
    the caller is put on the timer queue, with its time recorded, and another
    process runs; when it is past the call returns 0. *)
Theorem nanosleep_sleeps kernel t s l w dl req :
  let seconds := load32 (k_mem s) req in let ns := load32 (k_mem s) (req + 4) in
  let end_time := ticks s + seconds * 64 + ns / 1000000 * 64 / 1000 in
  0 <= seconds -> 0 <= ns < 10 ^ 9 -> 0 < end_time < 2 ^ 32 -> 0 <= ticks s ->
  kinv kernel s l -> sleepers t s w dl -> In (current_process s) l ->
  current_process s <> proc_first s -> ~ In (current_process s) w ->
  fld wait_queue_next s (current_process s) = 0 ->
  (exists t' s', nanosleep t s req = Some (Blocked end_time, t', s') /\
    kinv kernel s' l /\ current_process s' <> current_process s /\
    fld status s' (current_process s) = PROCESS_STATUS_SLEEPING /\
    sleepers t' s' (w ++ [current_process s])
      (fun p => if p =? current_process s then end_time else dl p)) /\
  (forall t2 s2, end_time < ticks s2 ->
    nanosleep_loop t2 s2 end_time = Some (Returned 0, t2, s2)).
Proof.
  intros seconds ns end_time Hs Hn He Ht K Sl Hin Hne Hw Hz. split.
  - assert (Hd : 0 <= ns / 1000000 * 64 / 1000 /\ ns / 1000000 * 64 < 2 ^ 32)
      by (Z.div_mod_to_equations; lia).
    assert (En : nanosleep_end s seconds ns = end_time).
    { unfold nanosleep_end, ticks_since_boot, TIMER_HZ, end_time in *.
      rewrite (u32_id (ns / 1000000 * 64)) by (Z.div_mod_to_equations; lia).
      rewrite (u32_id (ns / 1000000 * 64 / 1000)), (u32_id (seconds * 64)) by lia.
      rewrite (u32_id (ns / 1000000 * 64 / 1000 + seconds * 64)), u32_id by lia. lia. }
    unfold nanosleep. fold seconds ns. cbv zeta. rewrite En. unfold nanosleep_loop.
    replace (ticks_since_boot s <=? end_time) with true
      by (unfold ticks_since_boot, end_time; lia).
    destruct (sleep_until_ok kernel t s l w dl end_time K Sl Hin Hne Hw Hz ltac:(lia))
      as (t' & s' & E & K' & Hc & _ & St & Sl').
    rewrite E. cbn [mbind option_bind]. by exists t', s'.
  - intros t2 s2 H2. unfold nanosleep_loop, ticks_since_boot.
    by replace (ticks s2 <=? end_time) with false by lia.
Qed.

(** The state between interrupts: a well-formed process table with a running
    process, a well-formed console, and the two queues an interrupt wakes. *)
Record steady (kernel : Z -> bool) (l : list Z) (dl : Z -> Z)
    (c : console) (t : timer) (s : kstate) : Prop := {
  st_table : kinv kernel s l;
  st_current : In (current_process s) l;
  st_ring : ring c;
  st_queues : exists wc wt, wqueue s console_wait_queue wc /\ sleepers t s wt dl /\
                forall p, In p wc -> ~ In p wt }.

Section Handler.
Context `{Device W} (io_base : Z) `{!Uart (W := W) io_base}.
Context (kernel : Z -> bool) (l : list Z) (dl : Z -> Z).

Definition ready_sys (y : sys (W := W)) : Prop :=
  steady kernel l dl (sys_console y) (sys_timer y) (sys_kernel y).

Lemma on_serial_ok fuel sr (y : sys) :
  driver sr <> no_uart -> (length (rx io_base (sys_board y)) < fuel)%nat -> ready_sys y ->
  exists y', on_serial io_base fuel sr y = Some y' /\ ready_sys y' /\
    sys_timer y' = sys_timer y /\ ticks (sys_kernel y') = ticks (sys_kernel y) /\
    current_process (sys_kernel y') = current_process (sys_kernel y) /\
    contents (sys_console y')
      = enqueue_all (contents (sys_console y)) (rx io_base (sys_board y)).
Proof.
  intros Hd Hf [K Hc R (wc & wt & HW & (HT & Hn & Hdl) & Hdis)].
  destruct (receive_loop_ok io_base _ fuel (sys_board y) (sys_console y) (sys_kernel y) wc
    eq_refl Hf R HW) as (w1 & c1 & s1 & wc1 & E & _ & _ & R1 & C1 & F).
  unfold on_serial, serial_interrupt_handler, pl011_uart_interrupt_handler,
    mini_uart_interrupt_handler.
  pose proof (mini_receive_same io_base fuel (sys_board y) (sys_console y) (sys_kernel y)) as Em.
  rewrite E in Em.
  exists (Sys (bcm2835_write io_base w1 UART0_ICR UART0_ICR_RTIC) c1 (sys_timer y) s1).
  split; [destruct (driver sr); [done|by rewrite E|by rewrite Em]|].
  split; [|split; [done|split; [apply F|split; [apply F|done]]]].
  split; cbn [sys_console sys_timer sys_kernel].
  - eapply kinv_evolves; [apply F|done].
  - by rewrite (cf_current _ _ _ _ F).
  - done.
  - exists wc1, wt. split; [apply F|]. split; [split; [|done]|].
    + apply (cf_other _ _ _ _ F); [done| |done]. intros p Hp Hin. by apply (Hdis p).
    + intros p Hp. destruct (cf_woken _ _ _ _ F) as [->| ->]; [by apply Hdis|done].
Qed.

Lemma timer_handler_current ld t (w : W) s t' w' s' wq :
  wqueue s timer_wait_queue wq ->
  timer_interrupt_handler io_base t ld w s = Some (t', w', s') ->
  current_process s' = current_process s.
Proof.
  intros HW. unfold timer_interrupt_handler, timer_wake. bcase.
  - destruct (wait_queue_wake_ok (with_ticks (u32 (ticks s + 1)) s) timer_wait_queue wq)
      as (s1 & -> & _ & _ & F); [by apply wqueue_ticks|].
    cbn [mbind option_bind]. destruct (timer_blink _ _ _ _) as [t2 w2].
    intros [= _ _ <-]. rewrite F. done.
  - cbn [mbind option_bind]. destruct (timer_blink _ _ _ _) as [t2 w2]. by intros [= _ _ <-].
Qed.

Lemma on_timer_ok ld (y : sys) :
  ready_sys y -> 0 <= ticks (sys_kernel y) < 2 ^ 32 - 1 ->
  exists y', on_timer io_base ld y = Some y' /\ ready_sys y' /\
    sys_console y' = sys_console y /\
    ticks (sys_kernel y') = ticks (sys_kernel y) + 1 /\
    current_process (sys_kernel y') = current_process (sys_kernel y).
Proof.
  intros [K Hc R (wc & wt & HW & Sl & Hdis)] Ht.
  destruct (timer_handler_ok kernel io_base (sys_timer y) ld (sys_board y) (sys_kernel y) l wt dl
    K Sl Ht) as (t' & w' & s' & wt' & E & K' & V & T' & Sl' & Hwt & _ & HQ).
  pose proof (timer_handler_current ld _ _ _ _ _ _ wt (proj1 Sl) E) as Ec.
  exists (Sys w' (sys_console y) t' s'). unfold on_timer. rewrite E.
  split; [done|]. split; [|done].
  split; cbn [sys_console sys_timer sys_kernel]; [done|by rewrite Ec|done|].
  exists wc, wt'. split; [by apply HQ|]. split; [done|].
  intros p Hp. destruct Hwt as [->| ->]; [by apply Hdis|by intros []].
Qed.

Lemma schedule_steady s c t :
  steady kernel l dl c t s ->
  exists s', schedule s = Some s' /\ steady kernel l dl c t s' /\ ticks s' = ticks s.
Proof.
  intros [K Hc R (wc & wt & HW & (HT & Hn & Hdl) & Hdis)].
  destruct (schedule_ok s l (k_list _ _ _ K) Hc) as (s' & p & E & Hp & [(-> & _ & _)|Hsw]).
  - exists s. split; [done|]. split; [|done]. split; [done..|]. exists wc, wt. done.
  - exists s'. split; [done|]. split; [|apply Hsw].
    split; [eapply kinv_evolves; [apply Hsw|done]|by rewrite (sw_current _ _ _ Hsw)|done|].
    exists wc, wt. split; [by eapply switched_wqueue|]. split; [|done].
    split; [by eapply switched_wqueue|done].
Qed.

(** The process that runs next: the first ready one after [o] in the order of the
    list, which goes round without the idle process. *)
Definition next_in_turn (s : kstate) (c p : Z) : Prop :=
  forall idle r1 o r2, l = idle :: r1 ++ o :: r2 -> c = o \/ c = idle /\ r1 = [] ->
    p = default idle (List.find (ready s) (r2 ++ r1 ++ [o])).

Lemma schedule_in_turn s s' : kinv kernel s l -> schedule s = Some s' ->
  next_in_turn s' (current_process s) (current_process s').
Proof.
  intros K E idle r1 o r2 -> Hc.
  destruct (schedule_rr s idle r1 o r2 (k_list _ _ _ K) Hc) as (s1 & E1 & Hsw).
  assert (s1 = s') as -> by congruence. rewrite (sw_current _ _ _ Hsw). f_equal.
  apply find_same. intros p. unfold ready. by rewrite (times_only_status _ _ _ (sw_times _ _ _ Hsw)).
Qed.
End Handler.

(** C14. An interrupt is handled to its end and keeps the kernel sound: the port's
    bytes go to the console when its bit is pending, the tick is counted when
    the timer's is, and then, unless scheduling is switched off, the processor
    goes to the first ready process after the current one in the order of the
    list, or to the idle process when none is ready; when nothing known was
    pending the kernel does not change.  The process table, the console ring,
    both wait queues and the deadlines of the sleepers stay well formed. *)
Theorem interrupt_handler_steady `{Device W} io_base `{!Uart (W := W) io_base}
    kernel l dl fuel hardware_type sr ld (y : sys (W := W)) :
  steady kernel l dl (sys_console y) (sys_timer y) (sys_kernel y) ->
  driver sr <> no_uart -> 0 <= ticks (sys_kernel y) < 2 ^ 32 - 1 ->
  let '(port, tick, w1) := pending io_base hardware_type (sys_board y) in
  (length (rx io_base w1) < fuel)%nat ->
  exists y', interrupt_handler_c io_base fuel hardware_type sr ld y = Some y' /\
    steady kernel l dl (sys_console y') (sys_timer y') (sys_kernel y') /\
    ticks (sys_kernel y') = ticks (sys_kernel y) + (if tick then 1 else 0) /\
    contents (sys_console y') =
      (if port then enqueue_all (contents (sys_console y)) (rx io_base w1)
       else contents (sys_console y)) /\
    (port || tick = false -> sys_kernel y' = sys_kernel y) /\
    (scheduling_enabled (sys_console y') = 0 ->
       current_process (sys_kernel y') = current_process (sys_kernel y)) /\
    (scheduling_enabled (sys_console y') <> 0 -> port || tick = true ->
       next_in_turn l (sys_kernel y') (current_process (sys_kernel y))
         (current_process (sys_kernel y'))).
Proof.
  intros St Hd Ht. unfold interrupt_handler_c.
  destruct (pending io_base hardware_type (sys_board y)) as [[port tick] w1]. intros Hf.
  set (y1 := Sys w1 _ _ _).
  assert (H2 : exists y2, (if port then on_serial io_base fuel sr y1 else Some y1) = Some y2 /\
    ready_sys kernel l dl y2 /\ ticks (sys_kernel y2) = ticks (sys_kernel y) /\
    current_process (sys_kernel y2) = current_process (sys_kernel y) /\
    contents (sys_console y2) =
      (if port then enqueue_all (contents (sys_console y)) (rx io_base w1)
       else contents (sys_console y)) /\ (port = false -> y2 = y1)).
  { destruct port; [|by exists y1].
    destruct (on_serial_ok io_base kernel l dl fuel sr y1 Hd Hf St)
      as (y2 & -> & S2 & _ & T2 & C2 & Q2). by exists y2. }
  destruct H2 as (y2 & -> & S2 & T2 & C2 & Q2 & N2). cbn [mbind option_bind].
  assert (H3 : exists y3, (if tick then on_timer io_base ld y2 else Some y2) = Some y3 /\
    ready_sys kernel l dl y3 /\ sys_console y3 = sys_console y2 /\
    ticks (sys_kernel y3) = ticks (sys_kernel y) + (if tick then 1 else 0) /\
    current_process (sys_kernel y3) = current_process (sys_kernel y) /\
    (tick = false -> y3 = y2)).
  { destruct tick; [|exists y2; rewrite T2, Z.add_0_r; done].
    destruct (on_timer_ok io_base kernel l dl ld y2 S2) as (y3 & -> & S3 & R3 & T3 & C3);
      [by rewrite T2|]. exists y3. rewrite T3, T2, C3, C2. done. }
  destruct H3 as (y3 & -> & S3 & R3 & T3 & C3 & N3). cbn [mbind option_bind].
  rewrite R3. destruct (port || tick) eqn:Ep; cbn [negb].
  - destruct (scheduling_enabled (sys_console y2) =? 0) eqn:Es; b2p; cbn [negb].
    + cbn [mbind option_bind]. eexists. split; [done|]. cbn [sys_console sys_timer sys_kernel].
      rewrite <- R3. split; [exact S3|]. rewrite R3. done.
    + destruct (schedule_steady kernel l dl _ _ _ S3) as (s4 & E4 & S4 & T4).
      rewrite E4. cbn [mbind option_bind]. eexists. split; [done|]. cbn [sys_console sys_timer sys_kernel].
      rewrite <- R3. split; [exact S4|]. rewrite T4, R3. do 3 (split; [done|]). split; [done|].
      intros _ _. rewrite <- C3. eapply schedule_in_turn; [|exact E4]. apply S3.
  - apply orb_false_iff in Ep as [-> ->]. exists y3. split; [done|]. split; [exact S3|].
    split; [done|]. split; [by rewrite R3|]. split; [intros _; by rewrite N3, N2|]. by split.
Qed.

(** ** Runs *)

Lemma evolves_timer s c v : evolves s (with_timer_first v (with_current_process c s)).
Proof. split; [done..|]. intros a. cbn. by destruct (procs s !! a). Qed.

(** The process at 20480 sleeps until tick 7. *)
Definition three_sleeping : kstate :=
  with_timer_first 20480 (with_current_process 28672
    (with_procs (<[20480 := three_pcb 28672 12288 1 0]> (procs three)) three)).

Lemma three_sleeping_inv : kinv (kernel_chunk 9000) three_sleeping [12288; 20480; 28672].
Proof.
  eapply kinv_evolves; [|apply three_inv]. unfold three_sleeping.
  transitivity (with_procs (<[20480 := three_pcb 28672 12288 1 0]> (procs three)) three).
  - apply evolves_upd with (three_pcb 28672 12288 1 1); by vm_compute.
  - apply (evolves_timer _ 28672 20480).
Qed.

Lemma timer_tick_wakes_witness :
  exists t' w' s' wq', timer_interrupt_handler (W := port) 0x20000000 (Timer 7 1 0) led_default
      (Port [] [] false) three_sleeping = Some (t', w', s') /\
    kinv (kernel_chunk 9000) s' [12288; 20480; 28672] /\ ticks s' = 7 + 1 /\
    sleepers t' s' wq' (fun _ => 7) /\
    (forall p, In p [20480] -> In p wq' /\ ticks s' <= 7 \/
                               ~ In p wq' /\ fld status s' p = PROCESS_STATUS_READY).
Proof.
  apply (timer_tick_wakes (W := port) (kernel_chunk 9000) 0x20000000 (Timer 7 1 0) led_default
           (Port [] [] false) three_sleeping [12288; 20480; 28672] [20480] (fun _ => 7));
    [ exact three_sleeping_inv | | by vm_compute ].
  split; [|split; [done|by intros p _]]. split; [apply NoDup_singleton|].
  cbn. split; [done|]. split; [done|]. eexists. split; [by vm_compute|done].
Defined.

Lemma nanosleep_sleeps_witness :
  (exists t' s', nanosleep timer_default three 100 = Some (Blocked 7, t', s') /\
    kinv (kernel_chunk 9000) s' [12288; 20480; 28672] /\ current_process s' <> 20480 /\
    fld status s' 20480 = PROCESS_STATUS_SLEEPING /\
    sleepers t' s' ([] ++ [20480]) (fun p => if p =? 20480 then 7 else 0)) /\
  (forall t2 s2, 7 < ticks s2 -> nanosleep_loop t2 s2 7 = Some (Returned 0, t2, s2)).
Proof.
  apply (nanosleep_sleeps (kernel_chunk 9000) timer_default three [12288; 20480; 28672] []
           (fun _ => 0) 100);
    [ by vm_compute | by vm_compute | by vm_compute | by vm_compute | exact three_inv
    | split; [split; [constructor|reflexivity]|split; [done|done]]
    | cbn; auto | done | by intros [] | by vm_compute ].
Defined.

Lemma three_steady : steady (kernel_chunk 9000) [12288; 20480; 28672] (fun _ => 0)
  console_bss timer_default three.
Proof.
  split; [exact three_inv|cbn; auto|split; cbn; lia|]. exists [], [].
  split; [split; [constructor|reflexivity]|]. split; [|done].
  split; [split; [constructor|reflexivity]|done].
Qed.

Lemma interrupt_handler_steady_witness :
  exists y', interrupt_handler_c 0x20000000 3 RPI_MODEL_B (Serial 1 115200 8 1 0 pl011_uart)
      led_default (Sys (Port [] [104; 10] false) console_bss timer_default three) = Some y' /\
    steady (kernel_chunk 9000) [12288; 20480; 28672] (fun _ => 0)
      (sys_console y') (sys_timer y') (sys_kernel y') /\
    ticks (sys_kernel y') = 7 + 1 /\
    contents (sys_console y') = [104; 10] /\
    (true || true = false -> sys_kernel y' = three) /\
    (scheduling_enabled (sys_console y') = 0 -> current_process (sys_kernel y') = 20480) /\
    (scheduling_enabled (sys_console y') <> 0 -> true || true = true ->
       next_in_turn [12288; 20480; 28672] (sys_kernel y') 20480 (current_process (sys_kernel y'))).
Proof.
  exact (interrupt_handler_steady (W := port) 0x20000000 (kernel_chunk 9000)
    [12288; 20480; 28672] (fun _ => 0) 3 RPI_MODEL_B (Serial 1 115200 8 1 0 pl011_uart)
    led_default (Sys (Port [] [104; 10] false) console_bss timer_default three)
    three_steady ltac:(discriminate) ltac:(by vm_compute) ltac:(cbn; lia)).
Defined.

(** A wake-up time of 0 means that none is set: a process whose end time wraps
    around to 0 is queued without a wake-up, and no tick will wake it. *)
Lemma sleep_until_zero s p s' :
  wait_queue_add s timer_wait_queue (current_process s) = Some (p, s') ->
  timer_sleep_until timer_default s 0 = Some (timer_default, s') /\
  forall n, timer_wake timer_default (with_ticks n s') = Some (timer_default, with_ticks n s').
Proof. intros E. unfold timer_sleep_until. by rewrite E. Qed.
