(* ===== verification/Files.v ===== *)
(** * Files: kernel/fs/files.c, and kernel/userspace's [cat]

    The file descriptor table and the inode of the root directory are the
    state; everything else is the ROM file system ([Romfs]), the console
    ([Console]) and the current directory of the running process ([Process]).
    The local arrays of [get_inode], [chdir] and [getcwd] have the addresses of
    [flocals]. *)

From stdpp Require Import base list numbers gmap.
From Stdlib Require Import ZArith Lia.
From S2P Require Import Prelude ArmMemset CString PageAlloc Romfs Process Sched Mmio Serial Console.

Definition MAX_FD : Z := 32.

Record fd_info := FdInfo { fd_valid : Z; fd_inode : Z; file_ptr : Z }.

Record files := Files {
  fd_table : list fd_info;
  root_dir : Z;
  file_headers_start : Z }.

Definition with_fd_table (t : list fd_info) (f : files) : files :=
  Files t (root_dir f) (file_headers_start f).

(** The objects in the kernel's BSS. *)
Definition files_bss : files := Files (repeat (FdInfo 0 0 0) 32) 0 0.

Record flocals := Flocals {
  fl_romfs : locals;
  fl_name : Z;
  fl_stat : Z;
  fl_broken : Z }.

(** ** Descriptors *)

Definition fd_free (fd : Z) : Z := - EBADF.

(** [n]: entries left to look at. *)
Fixpoint fd_allocate_loop (n : nat) (t : list fd_info) (fd inode : Z) : option (Z * list fd_info) :=
  match n with
  | O => None
  | S n' =>
      e ← t !! Z.to_nat fd;
      if fd_valid e =? 0 then Some (fd, <[Z.to_nat fd := FdInfo 1 inode 0]> t)
      else if MAX_FD <=? fd + 1 then Some (- ENFILE, t)
      else fd_allocate_loop n' t (fd + 1) inode
  end.

Definition fd_allocate (t : list fd_info) (inode : Z) : option (Z * list fd_info) :=
  fd_allocate_loop 32 t 0 inode.

Definition close (fd : Z) : Z := fd_free fd.

Definition set_fd_valid (v : Z) (e : fd_info) : fd_info := FdInfo v (fd_inode e) (file_ptr e).

Definition fd_table_init (t : list fd_info) : list fd_info :=
  let t1 := for_up 32 0 (fun i t => alter (set_fd_valid 0) (Z.to_nat i) t) t in
  alter (set_fd_valid 1) 2%nat (alter (set_fd_valid 1) 1%nat (alter (set_fd_valid 1) 0%nat t1)).

(** ** Paths *)

(** NULL is 0.  [n]: iterations left; the loop makes at most [len] of them. *)
Fixpoint split_filename_loop (n : nat) (m : mem) (ptr out count len : Z) : option (Z * mem) :=
  match n with
  | O => None
  | S n' =>
      if m ptr =? 0 then Some (0, upd m out 0)
      else if len - 1 <=? count then Some (0, upd m out 0)
      else if m ptr =? 47 then Some (ptr + 1, upd m out 0)
      else split_filename_loop n' (upd m out (m ptr)) (ptr + 1) (out + 1) (count + 1) len
  end.

Definition split_filename (m : mem) (start_ptr name len : Z) : option (Z * mem) :=
  split_filename_loop (Z.to_nat len) m start_ptr name 0 len.

Section Code.
Context `{MemFill} (rd : ramdisk) (fl : flocals).

(** [rf] is the fuel of the file system's own loops. *)
Fixpoint path_loop (fuel rf : nat) (m : mem) (dir_inode ptr : Z) : option (Z * mem) :=
  match fuel with
  | O => None
  | S f =>
      '(ptr', m1) ← split_filename m ptr (fl_name fl) MAX_FILENAME_SIZE;
      '(inode, m2) ← romfs_get_inode rd (fl_romfs fl) rf m1 dir_inode (fl_name fl);
      if ptr' =? 0 then Some (inode, m2)
      else path_loop f rf m2 inode ptr'
  end.

(** [current_dir] is that of the current process. *)
Definition get_inode (fuel rf : nat) (m : mem) (root_dir current_dir pathname : Z)
    : option (Z * mem) :=
  let '(dir_inode, ptr) :=
    if m pathname =? 47 then (root_dir, pathname + 1) else (current_dir, pathname) in
  if m ptr =? 0 then Some (dir_inode, m)
  else path_loop fuel rf m dir_inode ptr.

(** The call with the kernel's state. *)
Definition get_inode_k (fuel rf : nat) (f : files) (s : kstate) (pathname : Z)
    : option (Z * kstate) :=
  p ← procs s !! current_process s;
  '(inode, m) ← get_inode fuel rf (k_mem s) (root_dir f) (current_dir p) pathname;
  Some (inode, with_k_mem m s).

Definition open (fuel rf : nat) (f : files) (s : kstate) (pathname flags mode : Z)
    : option (Z * files * kstate) :=
  '(inode, s1) ← get_inode_k fuel rf f s pathname;
  if inode <? 0 then Some (- ENOENT, f, s1)
  else
    '(result, t) ← fd_allocate (fd_table f) (u32 inode);
    Some (result, with_fd_table t f, s1).

Definition read (rf : nat) (f : files) (c : console) (s : kstate) (fd buf count : Z)
    : option (wait_result * files * console * kstate) :=
  if fd =? 0 then
    '(r, c1, s1) ← console_read c s buf count; Some (r, f, c1, s1)
  else if MAX_FD <=? fd then Some (Returned (- ENFILE), f, c, s)
  else
    e ← fd_table f !! Z.to_nat fd;
    if fd_valid e =? 0 then Some (Returned (- EBADF), f, c, s)
    else
      '(result, m) ← romfs_read_file rd (fl_romfs fl) rf (k_mem s) (fd_inode e) (file_ptr e)
                       buf count;
      let e' := if 0 <? result then FdInfo (fd_valid e) (fd_inode e) (u32 (file_ptr e + result))
                else e in
      Some (Returned result, with_fd_table (<[Z.to_nat fd := e']> (fd_table f)) f, c,
            with_k_mem m s).

Definition write `{Device W} (io_base : Z) (fuel : nat) (sr : serial_type) (w : W) (s : kstate)
    (fd buf count : Z) : option (Z * W) :=
  if (fd =? 1) || (fd =? 2) then console_write io_base fuel sr w (k_mem s) buf count
  else Some (- EBADF, w).

Definition stat (fuel rf : nat) (f : files) (s : kstate) (pathname buf : Z)
    : option (Z * kstate) :=
  '(inode, s1) ← get_inode_k fuel rf f s pathname;
  if inode <? 0 then Some (- ENOENT, s1)
  else
    '(result, m) ← romfs_stat rd (fl_romfs fl) rf (k_mem s1) inode buf;
    Some (result, with_k_mem m s1).

(** The bytes of the literal "romfs". *)
Definition romfs_type : list Z := [114; 111; 109; 102; 115].

Definition mount (rf : nat) (f : files) (m : mem)
    (source target filesystemtype mountflags data : Z) : option (Z * files * mem) :=
  if strncmp (at_ m filesystemtype) (fun i => nth (Z.to_nat i) romfs_type 0) 5 =? 0 then
    '(result, fhs, m1) ← romfs_mount rd (fl_romfs fl) rf m (file_headers_start f);
    if 0 <=? result then Some (0, Files (fd_table f) result fhs, m1)
    else Some (result, Files (fd_table f) (root_dir f) fhs, m1)
  else Some (- ENODEV, f, m).

Definition getdents (rf : nat) (f : files) (s : kstate) (fd dirp count : Z)
    : option (Z * files * kstate) :=
  if MAX_FD <=? fd then Some (- ENFILE, f, s)
  else
    e ← fd_table f !! Z.to_nat fd;
    if fd_valid e =? 0 then Some (- EBADF, f, s)
    else
      '(result, current, m) ← romfs_getdents rd (fl_romfs fl) rf (k_mem s) (fd_inode e)
                                (file_ptr e) dirp count;
      let e' := FdInfo (fd_valid e) (fd_inode e) current in
      Some (result, with_fd_table (<[Z.to_nat fd := e']> (fd_table f)) f, with_k_mem m s).

Definition chdir (fuel rf : nat) (f : files) (s : kstate) (path : Z) : option (Z * kstate) :=
  '(inode, s1) ← get_inode_k fuel rf f s path;
  if inode <? 0 then Some (- ENOENT, s1)
  else
    '(result, m) ← romfs_stat rd (fl_romfs fl) rf (k_mem s1) inode (fl_stat fl);
    let s2 := with_k_mem m s1 in
    if result <? 0 then Some (result, s2)
    else if negb (Z.land (load32 m (fl_stat fl + st_mode)) S_IFMT =? S_IFDIR)
    then Some (- ENOTDIR, s2)
    else s3 ← upd_pcb (current_process s2) (set_current_dir inode) s2; Some (0, s3).

Definition getcwd (rf : nat) (s : kstate) (buf size : Z) : option (Z * kstate) :=
  p ← procs s !! current_process s;
  '(_, m) ← romfs_stat rd (fl_romfs fl) rf (k_mem s) (current_dir p) (fl_stat fl);
  let '(m', _) := strncpy m buf (fl_broken fl) size in
  Some (buf, with_k_mem m' s).

(** ** userspace/cat.c: the copying loop

    The system calls hand their arguments to [read] and [write] above.  The loop
    is left when a call fails or has to wait. *)
Definition BUF_SIZE : Z := 128.

Fixpoint cat `{Device W} (io_base : Z) (fuel wf rf : nat) (sr : serial_type) (w : W) (f : files)
    (c : console) (s : kstate) (in_fd out_fd buffer : Z)
    : option (Z * W * files * console * kstate) :=
  match fuel with
  | O => None
  | S n =>
      '(r, f1, c1, s1) ← read rf f c s in_fd buffer BUF_SIZE;
      match r with
      | Blocked _ => None
      | Returned result =>
          if result <=? 0 then Some (0, w, f1, c1, s1)
          else
            '(result2, w1) ← write io_base wf sr w s1 out_fd buffer result;
            if result2 <=? 0 then Some (0, w1, f1, c1, s1)
            else cat io_base n wf rf sr w1 f1 c1 s1 in_fd out_fd buffer
      end
  end.
End Code.

(** ** Paths *)

(** A path of components, joined by slashes. *)
Fixpoint join (cs : list (list Z)) : list Z :=
  match cs with
  | [] => []
  | [c] => c
  | c :: cs' => c ++ 47 :: join cs'
  end.

Definition component (c : list Z) : Prop :=
  Forall (fun b => b <> 0 /\ b <> 47) c /\ (length c < 255)%nat.

(** One component is copied, and the pointer moves behind the slash. *)
Lemma split_loop_ok rest : (rest = [] \/ exists tl, rest = 47 :: tl) ->
  forall c n m ptr out k,
  cstring (at_ m ptr) (c ++ rest) -> Forall (fun b => b <> 0 /\ b <> 47) c ->
  k + Z.of_nat (length c) < 255 -> (length c < n)%nat ->
  apart out (Z.of_nat (length c) + 1) ptr (Z.of_nat (length (c ++ rest)) + 1) ->
  exists m', split_filename_loop n m ptr out k 256
    = Some (match rest with [] => 0 | _ => ptr + Z.of_nat (length c) + 1 end, m') /\
    cstring (at_ m' out) c /\ modifies [(out, Z.of_nat (length c) + 1)] m m'.
Proof.
  intros Hrest. induction c as [|b c IH]; intros [|n] m ptr out k Hs Hc Hk Hn Ha;
    cbn [length] in *; try lia; cbn [split_filename_loop].
  - exists (upd m out 0). split.
    + cbn [app] in Hs. destruct Hrest as [->|[tl ->]].
      * apply cstring_at_nil in Hs. by rewrite Hs.
      * apply cstring_at_cons in Hs as (_ & E & _). rewrite E.
        replace (256 - 1 <=? k) with false by lia. cbn. f_equal. f_equal. lia.
    + split; [apply cstring_at_nil, upd_eq|apply modifies_upd].
  - cbn [app] in Hs. apply cstring_at_cons in Hs as (Hb & E & Hs). inversion_clear Hc.
    rewrite E, !(proj2 (Z.eqb_neq b _)) by tauto. replace (256 - 1 <=? k) with false by lia.
    rewrite length_app in Ha. cbn [length] in Ha.
    destruct (IH n (upd m out b) (ptr + 1) (out + 1) (k + 1)) as (m' & E' & Hs' & Hm); try done.
    + eapply cstring_modifies; [apply modifies_upd| |exact Hs].
      rewrite length_app. constructor; [unfold apart in *; cbn; lia|constructor].
    + lia.
    + lia.
    + rewrite length_app. unfold apart in *. lia.
    + exists m'. split; [|split].
      * rewrite E'. f_equal. f_equal. destruct rest; lia.
      * apply cstring_at_cons. split; [done|]. split; [|done].
        rewrite Hm by (repeat constructor; cbn; lia). apply upd_eq.
      * transitivity (upd m out b).
        -- eapply modifies_sub; [apply modifies_upd|regions].
        -- eapply modifies_sub; [exact Hm|regions].
Qed.

Lemma join_cons c cs : exists rest, join (c :: cs) = c ++ rest /\
  (cs = [] /\ rest = [] \/ cs <> [] /\ rest = 47 :: join cs).
Proof.
  destruct cs as [|c' cs].
  - exists []. cbn. rewrite app_nil_r. auto.
  - exists (47 :: join (c' :: cs)). split; [done|]. right. done.
Qed.

(** Where the objects of [get_inode] and its callers lie. *)
Record flayout (rd : ramdisk) (fl : flocals) (d : Z -> Z) : Prop := {
  fl_lay : layout rd (fl_romfs fl) d;
  fl_name_disk : apart (fl_name fl) 256 (rd_start rd) (rd_length rd);
  fl_name_look : Forall (fun r => apart (fst r) (snd r) (fl_name fl) 256)
                   (lookup_regions (fl_romfs fl));
  fl_stat_range : 0 <= fl_stat fl /\ fl_stat fl + 52 < 2 ^ 32;
  fl_stat_disk : apart (fl_stat fl) 52 (rd_start rd) (rd_length rd);
  fl_stat_int : apart (fl_stat fl) 52 (temp_int (fl_romfs fl)) 4 }.

Definition path_regions (fl : flocals) : list (Z * Z) :=
  (fl_name fl, 256) :: lookup_regions (fl_romfs fl).

Section Paths.
Context `{MemFill} (rd : ramdisk) (fl : flocals) (d : Z -> Z) (L : flayout rd fl d).
Context (K rf : nat).

(** [dir] is a directory with the entries [l], within the bounds [K] on links
    and names and the fuel. *)
Record is_dir (dir : Z) (l : list (Z * list Z)) : Prop := {
  id_range : 0 <= dir /\ dir + 16 <= rd_length rd;
  id_type : ftype d dir = 1;
  id_list : dir_from d (rd_length rd) (fspec d dir) l;
  id_fuel : (length l + K <= rf)%nat;
  id_names : Forall (fun e => (length (snd e) < 16 * K)%nat) l }.

(** What resolving the components from a directory is to give: each but the
    last leads to a file that exists; the last one gives the result. *)
Inductive walks : Z -> list (list Z) -> Z -> Prop :=
  | walk_last dir l c r : is_dir dir l -> lookup_result rd d K c l r -> walks dir [c] r
  | walk_not_dir dir c : 0 <= dir -> dir + 16 <= rd_length rd -> ftype d dir <> 1 ->
      walks dir [c] (- ENOTDIR)
  | walk_down dir l c r c' cs r' : is_dir dir l -> lookup_result rd d K c l r -> 0 <= r ->
      walks r (c' :: cs) r' -> walks dir (c :: c' :: cs) r'.

Lemma path_modifies_on_disk m m' :
  modifies (path_regions fl) m m' -> on_disk rd d m -> on_disk rd d m'.
Proof.
  intros Hm. eapply on_disk_modifies; [|exact Hm].
  destruct L as [[? ? ? Hi Hb Hf _ _ _ _] Hn _ _ _ _].
  repeat first [apply List.Forall_nil | apply List.Forall_cons]; cbn [fst snd];
    unfold apart in *; lia.
Qed.

(** One lookup of a component in the name buffer. *)
Lemma lookup_component m dir c r :
  (exists l, is_dir dir l /\ lookup_result rd d K c l r) \/
  (r = - ENOTDIR /\ 0 <= dir /\ dir + 16 <= rd_length rd /\ ftype d dir <> 1) ->
  on_disk rd d m -> component c -> cstring (at_ m (fl_name fl)) c ->
  exists m', romfs_get_inode rd (fl_romfs fl) rf m dir (fl_name fl) = Some (r, m') /\
    modifies (lookup_regions (fl_romfs fl)) m m' /\ on_disk rd d m'.
Proof.
  intros HD Hd [_ Hlen] Hc. destruct HD as [(l & [[? ?] Ht Hl Hf HK] & Hr)|(-> & ? & ? & Ht)].
  - eapply get_inode_ok; try done; [apply L|].
    generalize (fl_name_look _ _ _ L). apply List.Forall_impl.
    intros x Hx. unfold apart in *. lia.
  - eapply get_inode_not_dir; try done. apply L.
Qed.

Lemma path_loop_ok : forall cs fuel m dir ptr r,
  walks dir cs r -> Forall component cs -> cstring (at_ m ptr) (join cs) -> 0 < ptr ->
  Forall (fun x => apart (fst x) (snd x) ptr (Z.of_nat (length (join cs)) + 1)) (path_regions fl) ->
  on_disk rd d m -> (length cs <= fuel)%nat ->
  exists m', path_loop rd fl fuel rf m dir ptr = Some (r, m') /\
    modifies (path_regions fl) m m' /\ on_disk rd d m'.
Proof.
  induction cs as [|c cs IH]; intros [|fuel] m dir ptr r HW Hcs Hs Hp Ha Hd Hf;
    try (inversion HW; fail); cbn [length] in Hf; try lia.
  destruct (join_cons c cs) as (rest & Ej & Hrest). rewrite Ej in *.
  inversion_clear Hcs as [|? ? Hc Hcs']. pose proof Hc as [Hc1 Hc2].
  assert (Hn : apart (fl_name fl) 256 ptr (Z.of_nat (length (c ++ rest)) + 1))
    by (by inversion_clear Ha).
  destruct (split_loop_ok rest ltac:(destruct Hrest as [[_ ->]|[_ ->]]; eauto) c 256 m ptr
    (fl_name fl) 0 Hs Hc1) as (m1 & E1 & Hc1' & M1); [lia|lia|unfold apart in *; lia|].
  assert (M1' : modifies (path_regions fl) m m1)
    by (eapply modifies_sub; [exact M1|unfold path_regions; regions]).
  pose proof (path_modifies_on_disk _ _ M1' Hd) as D1.
  cbn [path_loop]. unfold split_filename. change (Z.to_nat MAX_FILENAME_SIZE) with 256%nat.
  change MAX_FILENAME_SIZE with 256. rewrite E1. cbn [mbind option_bind].
  assert (Hstep : forall r', (exists l, is_dir dir l /\ lookup_result rd d K c l r') \/
      (r' = - ENOTDIR /\ 0 <= dir /\ dir + 16 <= rd_length rd /\ ftype d dir <> 1) ->
    exists m2, romfs_get_inode rd (fl_romfs fl) rf m1 dir (fl_name fl) = Some (r', m2) /\
      modifies (path_regions fl) m m2 /\ on_disk rd d m2).
  { intros r' Hr'. destruct (lookup_component m1 dir c r' Hr' D1 Hc Hc1') as (m2 & -> & M2 & D2).
    exists m2. split; [done|]. split; [|done]. transitivity m1; [done|].
    eapply modifies_sub; [exact M2|unfold path_regions; regions]. }
  inversion HW; subst.
  - destruct (Hstep r) as (m2 & -> & M2 & D2); [by left; exists l|].
    cbn [mbind option_bind]. destruct Hrest as [[_ ->]|[? _]]; [|done]. by exists m2.
  - destruct (Hstep (- ENOTDIR)) as (m2 & -> & M2 & D2); [right; done|].
    cbn [mbind option_bind]. destruct Hrest as [[_ ->]|[? _]]; [|done]. by exists m2.
  - destruct (Hstep r0) as (m2 & -> & M2 & D2); [by left; exists l|].
    cbn [mbind option_bind]. destruct Hrest as [[? _]|[_ ->]]; [done|].
    rewrite (proj2 (Z.eqb_neq _ 0)) by lia.
    assert (Hlen : Z.of_nat (length (c ++ 47 :: join (c' :: cs0))) =
      Z.of_nat (length c) + 1 + Z.of_nat (length (join (c' :: cs0))))
      by (rewrite length_app; cbn [length]; lia).
    assert (Ha2 : Forall (fun x => apart (fst x) (snd x) (ptr + Z.of_nat (length c) + 1)
        (Z.of_nat (length (join (c' :: cs0))) + 1)) (path_regions fl)).
    { revert Ha. apply List.Forall_impl. intros x Hx. rewrite Hlen in Hx. unfold apart in *. lia. }
    destruct (IH fuel m2 r0 (ptr + Z.of_nat (length c) + 1) r) as (m' & -> & M' & D');
      try done; try lia.
    + eapply cstring_modifies; [exact M2|exact Ha2|].
      replace (ptr + Z.of_nat (length c) + 1) with (ptr + Z.of_nat (length (c ++ [47])))
        by (rewrite length_app; cbn; lia).
      apply cstring_at_app. rewrite <- app_assoc. exact Hs.
    + exists m'. split; [done|]. split; [by transitivity m2|done].
Qed.

(** A path string names the file [r]: absolute from [root], relative from
    [cwd]; the empty path and "/" name the starting directory itself.  A path
    with a missing component before its last names nothing, not even an error:
    see [path_goes_on_after_error]. *)
Definition names_path (root cwd : Z) (p : list Z) (r : Z) : Prop :=
  exists (abs : bool) cs, Forall component cs /\
    p = (if abs then [47] else []) ++ join cs /\ (abs = false -> hd 0 p <> 47) /\
    let dir := if abs then root else cwd in
    match join cs with [] => r = dir | _ => walks dir cs r end.

Lemma length_join cs : (length cs <= S (length (join cs)))%nat.
Proof.
  induction cs as [|c [|c' cs] IH]; cbn [join length] in *; [lia|lia|].
  rewrite length_app. cbn [length]. lia.
Qed.

Lemma path_resolves_ok fuel m root cwd pathname p r :
  names_path root cwd p r -> cstring (at_ m pathname) p -> 0 < pathname ->
  Forall (fun x => apart (fst x) (snd x) pathname (Z.of_nat (length p) + 1)) (path_regions fl) ->
  on_disk rd d m -> (length p < fuel)%nat ->
  exists m', get_inode rd fl fuel rf m root cwd pathname = Some (r, m') /\
    modifies (path_regions fl) m m' /\ on_disk rd d m'.
Proof.
  intros (abs & cs & Hcs & -> & Hrel & HW) Hs Hp Ha Hd Hf. pose proof (length_join cs) as Hlen.
  set (ptr := pathname + (if abs then 1 else 0)).
  set (dir := if abs then root else cwd) in *.
  assert (Hs' : cstring (at_ m ptr) (join cs)).
  { unfold ptr. destruct abs.
    - cbn [app] in Hs. by apply cstring_at_cons in Hs as (_ & _ & Hs).
    - by rewrite Z.add_0_r. }
  assert (Ha' : Forall (fun x => apart (fst x) (snd x) ptr (Z.of_nat (length (join cs)) + 1))
    (path_regions fl)).
  { revert Ha. apply List.Forall_impl. intros x Hx. unfold ptr.
    rewrite length_app in Hx. destruct abs; cbn [length] in Hx; unfold apart in *; lia. }
  rewrite length_app in Hf.
  unfold get_inode. assert (E : (m pathname =? 47) = abs).
  { destruct abs; cbn [app] in Hs.
    - apply cstring_at_cons in Hs as (_ & E & _). by rewrite E.
    - apply Z.eqb_neq. cbn [app] in Hrel. destruct (join cs) as [|b l].
      + apply cstring_at_nil in Hs. by rewrite Hs.
      + apply cstring_at_cons in Hs as (_ & E & _). rewrite E. by apply Hrel. }
  rewrite E. replace (if abs then (root, pathname + 1) else (cwd, pathname)) with (dir, ptr)
    by (unfold dir, ptr; destruct abs; f_equal; lia).
  destruct (join cs) as [|b l] eqn:Ej.
  - apply cstring_at_nil in Hs'. rewrite Hs'. cbn. exists m. by rewrite HW.
  - pose proof Hs' as Hs2. apply cstring_at_cons in Hs2 as (Hb & E2 & _).
    rewrite E2, (proj2 (Z.eqb_neq b 0)) by done. rewrite <- Ej in *.
    apply path_loop_ok with (cs := cs); try done.
    + unfold ptr. destruct abs; lia.
    + destruct abs; cbn [length] in Hf; lia.
Qed.
End Paths.

(** ** Descriptors *)

(** The lowest free descriptor. *)
Definition free_fd (t : list fd_info) : option nat :=
  fst <$> list_find (fun e => fd_valid e = 0) t.

Lemma fd_allocate_loop_ok inode t : length t = 32%nat ->
  forall n fd, (fd + n = 32)%nat -> (0 < n)%nat ->
  fd_allocate_loop n t (Z.of_nat fd) inode =
  Some (match free_fd (drop fd t) with
        | Some i => (Z.of_nat (fd + i), <[(fd + i)%nat := FdInfo 1 inode 0]> t)
        | None => (- ENFILE, t)
        end).
Proof.
  intros Hl. induction n as [|n IH]; intros fd Hn H0; [lia|]. cbn [fd_allocate_loop].
  rewrite Nat2Z.id. destruct (lookup_lt_is_Some_2 t fd) as [e He]; [lia|].
  rewrite He. cbn [mbind option_bind]. rewrite (drop_S _ _ _ He).
  unfold free_fd. cbn [list_find].
  destruct (decide (fd_valid e = 0)) as [E|E].
  - rewrite E. cbn. by rewrite !Nat.add_0_r.
  - rewrite (proj2 (Z.eqb_neq _ _)) by done. unfold MAX_FD.
    destruct n as [|n].
    + replace (32 <=? Z.of_nat fd + 1) with true by lia. by rewrite drop_ge by lia.
    + replace (32 <=? Z.of_nat fd + 1) with false by lia.
      replace (Z.of_nat fd + 1) with (Z.of_nat (S fd)) by lia. rewrite IH by lia.
      unfold free_fd. destruct (list_find _ (drop (S fd) t)) as [[i e']|]; cbn; [|done].
      f_equal. f_equal; [lia|]. f_equal. lia.
Qed.

Lemma fd_allocate_ok t inode : length t = 32%nat ->
  fd_allocate t inode =
  Some (match free_fd t with
        | Some i => (Z.of_nat i, <[i := FdInfo 1 inode 0]> t)
        | None => (- ENFILE, t)
        end).
Proof.
  intros Hl. unfold fd_allocate. change 0 with (Z.of_nat 0) at 1.
  by rewrite (fd_allocate_loop_ok inode t Hl 32 0) by lia.
Qed.

Lemma free_fd_Some t i : free_fd t = Some i ->
  (exists e, t !! i = Some e /\ fd_valid e = 0) /\
  forall j e, (j < i)%nat -> t !! j = Some e -> fd_valid e <> 0.
Proof.
  unfold free_fd. intros E. apply fmap_Some in E as ([i' e] & E & ->). cbn.
  apply list_find_Some in E as (He & Hv & Hj). split; [by exists e|].
  intros j e' Hj' He'. by apply (Hj j e').
Qed.

Lemma free_fd_None t : free_fd t = None -> Forall (fun e => fd_valid e <> 0) t.
Proof. unfold free_fd. rewrite fmap_None. apply list_find_None. Qed.

Section Ops.
Context `{MemFill} (rd : ramdisk) (fl : flocals) (d : Z -> Z) (L : flayout rd fl d).
Context (K rf : nat).

(** A regular call on an open descriptor. *)
Record opened (f : files) (fd : Z) (o : Z) (name : list Z) (pos : Z) : Prop := {
  op_range : 0 < fd < 32;
  op_entry : exists v, v <> 0 /\ fd_table f !! Z.to_nat fd = Some (FdInfo v o pos);
  op_header : header_at d (rd_length rd) o name;
  op_data : fdata o name + fsize d o <= rd_length rd;
  op_fuel : (length name < 16 * rf)%nat;
  op_pos : 0 <= pos <= fsize d o }.

(** The data of the file [o] from [pos] on. *)
Definition file_bytes (o : Z) (name : list Z) (pos n : Z) : list Z :=
  bytes_of (fun i => d (fdata o name + pos + i)) (Z.to_nat n).

Lemma read_ok f c s fd o name pos buf count :
  opened f fd o name pos -> on_disk rd d (k_mem s) -> 0 <= count < 2 ^ 32 ->
  let n := Z.min count (fsize d o - pos) in
  apart buf n (rd_start rd) (rd_length rd) ->
  exists f' m', read rd fl rf f c s fd buf count
      = Some (Returned n, f', c, with_k_mem m' s) /\
    opened f' fd o name (pos + n) /\ on_disk rd d m' /\
    modifies [(temp_int (fl_romfs fl), 4); (temp_buffer (fl_romfs fl), 16); (buf, n)]
      (k_mem s) m' /\
    bytes_of (at_ m' buf) (Z.to_nat n) = file_bytes o name pos n /\
    (forall i, 0 <= i < n -> m' (buf + i) = d (fdata o name + pos + i)) /\
    (forall fd', fd' <> Z.to_nat fd -> fd_table f' !! fd' = fd_table f !! fd') /\
    root_dir f' = root_dir f.
Proof.
  intros [Hfd (v & Hv & He) Hh Hdt Hf Hp] Hd Hc n Hb.
  pose proof (lay_len _ _ _ (fl_lay _ _ _ L)) as Hlen.
  destruct (read_file_ok rd (fl_romfs fl) d (fl_lay _ _ _ L) rf (k_mem s) o name pos buf count
    Hd Hh Hdt Hf Hp Hc Hb) as (m' & E & Hi & Hm & Hd').
  unfold read, MAX_FD. rewrite (proj2 (Z.eqb_neq fd 0)), (proj2 (Z.leb_gt 32 fd)) by lia.
  rewrite He. cbn [mbind option_bind fd_valid fd_inode file_ptr].
  rewrite (proj2 (Z.eqb_neq v 0)) by done. bind_with E.
  destruct Hh as [[? Ho] ?]. unfold fdata in *.
  pose proof (padded_bounds (Z.of_nat (length name)) ltac:(lia)).
  eexists _, m'. split; [done|]. split; [|split; [done|split; [done|split; [|split; [done|split; [|done]]]]]].
  - split; try done; [|lia]. exists v. split; [done|]. cbn.
    rewrite list_lookup_insert_eq by (by eapply lookup_lt_Some).
    f_equal. fold n. destruct (0 <? n) eqn:En; b2p; [by rewrite u32_id by lia|].
    f_equal. lia.
  - unfold file_bytes, bytes_of, at_. apply map_ext_in. intros i Hin%in_seq.
    rewrite Hi by lia. done.
  - intros fd' Hne. cbn. by rewrite list_lookup_insert_ne.
Qed.

Lemma get_inode_k_ok fuel f s q pathname p r :
  procs s !! current_process s = Some q ->
  names_path rd d K rf (root_dir f) (current_dir q) p r ->
  cstring (at_ (k_mem s) pathname) p -> 0 < pathname ->
  Forall (fun x => apart (fst x) (snd x) pathname (Z.of_nat (length p) + 1)) (path_regions fl) ->
  on_disk rd d (k_mem s) -> (length p < fuel)%nat ->
  exists m', get_inode_k rd fl fuel rf f s pathname = Some (r, with_k_mem m' s) /\
    modifies (path_regions fl) (k_mem s) m' /\ on_disk rd d m'.
Proof.
  intros Hq HP Hs Hp Ha Hd Hf. unfold get_inode_k. bind_with Hq.
  destruct (path_resolves_ok rd fl d L K rf fuel (k_mem s) _ _ pathname p r HP Hs Hp Ha Hd Hf)
    as (m' & E & ? & ?). bind_with E. by exists m'.
Qed.

(** What [open] answers and does to the table. *)
Definition opened_table (t : list fd_info) (r : Z) : Z * list fd_info :=
  if r <? 0 then (- ENOENT, t)
  else match free_fd t with
       | Some i => (Z.of_nat i, <[i := FdInfo 1 (u32 r) 0]> t)
       | None => (- ENFILE, t)
       end.

Lemma open_ok fuel f s q pathname p r flags mode :
  length (fd_table f) = 32%nat ->
  procs s !! current_process s = Some q ->
  names_path rd d K rf (root_dir f) (current_dir q) p r ->
  cstring (at_ (k_mem s) pathname) p -> 0 < pathname ->
  Forall (fun x => apart (fst x) (snd x) pathname (Z.of_nat (length p) + 1)) (path_regions fl) ->
  on_disk rd d (k_mem s) -> (length p < fuel)%nat ->
  exists m', open rd fl fuel rf f s pathname flags mode
      = Some (fst (opened_table (fd_table f) r),
              with_fd_table (snd (opened_table (fd_table f) r)) f, with_k_mem m' s) /\
    modifies (path_regions fl) (k_mem s) m' /\ on_disk rd d m'.
Proof.
  intros Hl Hq HP Hs Hp Ha Hd Hf.
  destruct (get_inode_k_ok fuel f s q pathname p r Hq HP Hs Hp Ha Hd Hf) as (m' & E & Hm & Hd').
  unfold open. bind_with E. exists m'. split; [|done]. unfold opened_table.
  destruct (r <? 0); [by destruct f|]. rewrite fd_allocate_ok by done.
  by destruct (free_fd (fd_table f)).
Qed.

(** The copying loop of [cat] from position [pos] on. *)
Section Cat.
Context `{Device W} (io_base : Z) `{!Uart (W := W) io_base}.
Context (wf : nat) (sr : serial_type) (fd out_fd o : Z) (name : list Z) (buffer : Z).
Context (Hi : initialized sr <> 0) (Hdr : driver sr <> no_uart) (Hwf : (depth io_base < wf)%nat).
Context (Hout : out_fd = 1 \/ out_fd = 2).
Context (Hbuf : apart buffer BUF_SIZE (rd_start rd) (rd_length rd)).

Lemma cat_ok fuel : forall w f c s pos,
  opened f fd o name pos -> on_disk rd d (k_mem s) -> fsize d o - pos + 128 <= 128 * Z.of_nat fuel ->
  exists w' f' s', cat rd fl io_base fuel wf rf sr w f c s fd out_fd buffer
      = Some (0, w', f', c, s') /\
    tx io_base w' = tx io_base w ++ crlf (file_bytes o name pos (fsize d o - pos)) /\
    rx io_base w' = rx io_base w /\ opened f' fd o name (fsize d o).
Proof.
  induction fuel as [|fuel IH]; intros w f c s pos HO Hd Hf.
  { pose proof (op_pos _ _ _ _ _ HO). lia. }
  pose proof (op_pos _ _ _ _ _ HO) as Hp. cbn [cat]. unfold BUF_SIZE in *.
  destruct (read_ok f c s fd o name pos buffer 128 HO Hd ltac:(lia))
    as (f1 & m1 & E & HO1 & Hd1 & Hm1 & Hb1 & Hi1 & _); [unfold apart in *; lia|].
  rewrite E. cbn [mbind option_bind].
  destruct (Z.min 128 (fsize d o - pos) <=? 0) eqn:En; b2p.
  - exists w, f1, (with_k_mem m1 s). replace (fsize d o - pos) with 0 by lia.
    replace (fsize d o) with (pos + Z.min 128 (fsize d o - pos)) at 1 by lia.
    split; [done|]. by rewrite app_nil_r.
  - set (k := Z.min 128 (fsize d o - pos)) in *.
    unfold write. rewrite (proj2 (orb_true_iff _ _)) by (rewrite !Z.eqb_eq; tauto).
    unfold console_write. cbn [k_mem with_k_mem].
    destruct (serial_write_ok io_base wf sr w m1 buffer k Hi Hdr Hwf ltac:(lia))
      as (w1 & E1 & T1 & R1).
    { intros i Hlt. rewrite Hi1 by lia. apply (lay_bytes _ _ _ (fl_lay _ _ _ L)). }
    bind_with E1. rewrite s32_id by lia. replace (k <=? 0) with false by lia.
    destruct (IH w1 f1 c (with_k_mem m1 s) (pos + k)) as (w' & f' & s' & -> & T & R & HO');
      [done|done|lia|].
    exists w', f', s'. split; [done|]. split; [|split; [congruence|done]].
    rewrite T, T1, Hb1, <- app_assoc. f_equal. unfold crlf. rewrite <- flat_map_app. f_equal.
    unfold file_bytes.
    replace (Z.to_nat (fsize d o - pos)) with (Z.to_nat k + Z.to_nat (fsize d o - (pos + k)))%nat
      by lia.
    rewrite <- bytes_of_app. f_equal. unfold bytes_of. apply map_ext. intros i. f_equal. lia.
Qed.
End Cat.
End Ops.

(** ** Properties *)

Section Properties.
Context `{MemFill} (rd : ramdisk) (fl : flocals) (d : Z -> Z) (L : flayout rd fl d).
Context (K rf : nat).

Lemma ftype_range o : 0 <= ftype d o < 8.
Proof.
  unfold ftype. change 7 with (Z.ones 3). rewrite Z.land_ones by lia.
  apply Z.mod_pos_bound. lia.
Qed.

Lemma stat_mode_dir o :
  (Z.land (stat_mode d o) S_IFMT =? S_IFDIR) = (ftype d o =? 1).
Proof.
  unfold stat_mode, type_bits. pose proof (ftype_range o).
  assert (ftype d o = 0 \/ ftype d o = 1 \/ ftype d o = 2 \/ ftype d o = 3 \/ ftype d o = 4 \/
          ftype d o = 5 \/ ftype d o = 6 \/ ftype d o = 7) as Ht by lia.
  by destruct Ht as [->|[->|[->|[->|[->|[->|[->| ->]]]]]]], (fexec d o).
Qed.

(** C20. A path whose components but the last lead to files that exist is
    resolved component by component: from the root directory when it starts with
    a slash, from the current directory otherwise, each component being looked
    up in the directory the previous ones lead to; the answer is the file of the
    last component, -1 when the last one does not exist, and -ENOTDIR when it is
    looked up in something else than a directory.  The walk of such a path ends
    and writes only its own objects.  Nothing is said of a path with a missing
    component before its last one: there the code looks the next one up in the
    negative error number ([path_goes_on_after_error]). *)
Theorem get_inode_resolves fuel m root cwd pathname p r :
  names_path rd d K rf root cwd p r -> cstring (at_ m pathname) p -> 0 < pathname ->
  Forall (fun x => apart (fst x) (snd x) pathname (Z.of_nat (length p) + 1)) (path_regions fl) ->
  on_disk rd d m -> (length p < fuel)%nat ->
  exists m', get_inode rd fl fuel rf m root cwd pathname = Some (r, m') /\
    modifies (path_regions fl) m m'.
Proof.
  intros HP Hs Hp Ha Hd Hf.
  destruct (path_resolves_ok rd fl d L K rf fuel m root cwd pathname p r HP Hs Hp Ha Hd Hf)
    as (m' & ? & ? & _). by exists m'.
Qed.

(** C28. Opening a path returns -ENOENT when it does not resolve, the lowest free
    descriptor otherwise, and -ENFILE when all 32 are in use; a descriptor that
    is returned stands for the file at position 0, every other entry of the
    table is unchanged, and on an error the whole table is. *)
Theorem open_lowest fuel f s q pathname p r flags mode :
  length (fd_table f) = 32%nat ->
  procs s !! current_process s = Some q ->
  names_path rd d K rf (root_dir f) (current_dir q) p r ->
  cstring (at_ (k_mem s) pathname) p -> 0 < pathname ->
  Forall (fun x => apart (fst x) (snd x) pathname (Z.of_nat (length p) + 1)) (path_regions fl) ->
  on_disk rd d (k_mem s) -> (length p < fuel)%nat ->
  exists fd f' m', open rd fl fuel rf f s pathname flags mode = Some (fd, f', with_k_mem m' s) /\
    if r <? 0 then fd = - ENOENT /\ fd_table f' = fd_table f
    else
      fd = - ENFILE /\ Forall (fun e => fd_valid e <> 0) (fd_table f) /\
        fd_table f' = fd_table f \/
      0 <= fd < 32 /\ fd_table f' = <[Z.to_nat fd := FdInfo 1 (u32 r) 0]> (fd_table f) /\
        (exists e, fd_table f !! Z.to_nat fd = Some e /\ fd_valid e = 0) /\
        (forall i e, 0 <= i < fd -> fd_table f !! Z.to_nat i = Some e -> fd_valid e <> 0).
Proof.
  intros Hl Hq HP Hs Hp Ha Hd Hf.
  destruct (open_ok rd fl d L K rf fuel f s q pathname p r flags mode Hl Hq HP Hs Hp Ha Hd Hf)
    as (m' & -> & _). eexists _, _, m'. split; [done|]. unfold opened_table.
  destruct (r <? 0) eqn:Er; [done|].
  destruct (free_fd (fd_table f)) as [i|] eqn:Ei; cbn [fst snd fd_table with_fd_table].
  - right. destruct (free_fd_Some _ _ Ei) as [(e & He & Hv) Hj].
    pose proof (lookup_lt_Some _ _ _ He). rewrite Nat2Z.id.
    split; [lia|]. split; [done|]. split; [by exists e|].
    intros k e' Hk. apply Hj. lia.
  - left. split; [done|]. split; [by apply free_fd_None|done].
Qed.

(** [cat] prints a file: a path that names a regular file is opened, and the
    copying loop on the descriptor ends with 0 after the port has been given
    exactly the bytes of the file, in order, each newline preceded by a carriage
    return. *)
Theorem cat_prints_file `{Device W} io_base `{!Uart (W := W) io_base}
    fuel wf sr (w : W) f c s q pathname p r name buffer flags mode :
  length (fd_table f) = 32%nat ->
  (exists e, fd_table f !! 0%nat = Some e /\ fd_valid e <> 0) ->
  (exists fd, free_fd (fd_table f) = Some fd) ->
  procs s !! current_process s = Some q ->
  names_path rd d K rf (root_dir f) (current_dir q) p r ->
  header_at d (rd_length rd) r name -> fdata r name + fsize d r <= rd_length rd ->
  (length name < 16 * rf)%nat ->
  cstring (at_ (k_mem s) pathname) p -> 0 < pathname ->
  Forall (fun x => apart (fst x) (snd x) pathname (Z.of_nat (length p) + 1)) (path_regions fl) ->
  on_disk rd d (k_mem s) -> (length p < fuel)%nat ->
  apart buffer BUF_SIZE (rd_start rd) (rd_length rd) ->
  initialized sr <> 0 -> driver sr <> no_uart -> (depth io_base < wf)%nat ->
  fsize d r + 128 <= 128 * Z.of_nat fuel ->
  exists fd f1 s1, open rd fl fuel rf f s pathname flags mode = Some (fd, f1, s1) /\ 0 < fd /\
  exists w' f2 s2, cat rd fl io_base fuel wf rf sr w f1 c s1 fd 1 buffer
      = Some (0, w', f2, c, s2) /\
    tx io_base w' = tx io_base w ++ crlf (file_bytes d r name 0 (fsize d r)) /\
    rx io_base w' = rx io_base w.
Proof.
  intros Hl (e0 & He0 & Hv0) [fd Hfd] Hq HP Hh Hdt Hn Hs Hp Ha Hd Hf Hb Hi Hdr Hwf Hfs.
  destruct (open_ok rd fl d L K rf fuel f s q pathname p r flags mode Hl Hq HP Hs Hp Ha Hd Hf)
    as (m1 & E & _ & Hd1).
  pose proof (lay_len _ _ _ (fl_lay _ _ _ L)) as Hlen. pose proof (lay_bytes _ _ _ (fl_lay _ _ _ L)) as Hby.
  destruct Hh as [[Hr0 Hr1] Hnm].
  pose proof (padded_bounds (Z.of_nat (length name)) ltac:(lia)).
  unfold opened_table in E. replace (r <? 0) with false in E by lia. rewrite Hfd in E.
  cbn [fst snd] in E. destruct (free_fd_Some _ _ Hfd) as [(e & He & Hv) _].
  assert (fd <> 0%nat) by (intros ->; congruence).
  eexists _, _, _. split; [exact E|]. split; [lia|].
  destruct (cat_ok rd fl d L rf io_base wf sr (Z.of_nat fd) 1 r name buffer Hi Hdr Hwf
    (or_introl eq_refl) Hb fuel w (with_fd_table (<[fd:=FdInfo 1 (u32 r) 0]> (fd_table f)) f)
    c (with_k_mem m1 s) 0) as (w' & f2 & s2 & -> & T & R & _).
  - pose proof (lookup_lt_Some _ _ _ He). split; [lia| |done|done|done|].
    + exists 1. split; [done|]. rewrite Nat2Z.id. cbn.
      rewrite list_lookup_insert_eq by lia. by rewrite u32_id by lia.
    + pose proof (be32_range d (r + 8) Hby). unfold fsize. lia.
  - exact Hd1.
  - lia.
  - exists w', f2, s2. rewrite T. by replace (fsize d r - 0) with (fsize d r) by lia.
Qed.

(** [chdir] makes the directory a path names the current directory of the
    running process and returns 0; a path that does not resolve gives -ENOENT,
    one that names something else than a directory -ENOTDIR, and then the
    process is unchanged. *)
Theorem chdir_checks fuel f s q pathname p r :
  procs s !! current_process s = Some q ->
  names_path rd d K rf (root_dir f) (current_dir q) p r ->
  (0 <= r -> r + 16 <= rd_length rd /\ ftype d r <> 0) ->
  cstring (at_ (k_mem s) pathname) p -> 0 < pathname -> (0 < rf)%nat ->
  Forall (fun x => apart (fst x) (snd x) pathname (Z.of_nat (length p) + 1)) (path_regions fl) ->
  on_disk rd d (k_mem s) -> (length p < fuel)%nat ->
  exists m', chdir rd fl fuel rf f s pathname =
    if r <? 0 then Some (- ENOENT, with_k_mem m' s)
    else if ftype d r =? 1 then
      Some (0, with_procs (<[current_process s := set_current_dir r q]> (procs s))
                 (with_k_mem m' s))
    else Some (- ENOTDIR, with_k_mem m' s).
Proof.
  intros Hq HP Hr Hs Hp Hrf Ha Hd Hf.
  destruct (get_inode_k_ok rd fl d L K rf fuel f s q pathname p r Hq HP Hs Hp Ha Hd Hf)
    as (m1 & E & _ & Hd1).
  unfold chdir. bind_with E. destruct (r <? 0) eqn:Er; b2p; [by exists m1|].
  destruct (Hr Er) as [Hr1 Hr2]. destruct (fl_stat_range _ _ _ L) as [? ?].
  destruct (stat_ok rd (fl_romfs fl) d (fl_lay _ _ _ L) 0 rf m1 r r (fl_stat fl)) as
    (m2 & E2 & F2 & _ & _); try done; [by constructor|apply L|apply L|].
  cbn [k_mem with_k_mem]. bind_with E2. cbn [Z.ltb Z.compare].
  assert (Em : load32 m2 (fl_stat fl + st_mode) = stat_mode d r)
    by (exact (F2 2%nat ltac:(cbn; lia))).
  rewrite Em, stat_mode_dir. exists m2. destruct (ftype d r =? 1); cbn [negb]; [|done].
  change (current_process (with_k_mem m2 (with_k_mem m1 s))) with (current_process s).
  by rewrite (upd_pcb_eq _ _ _ q).
Qed.
End Properties.

(** ** Runs: the small image of [Romfs] *)

Definition demo_fl : flocals := Flocals demo_locals 16384 16640 16704.

(** The paths "/hi" and "/..". *)
Definition demo_fmem : mem :=
  mem_with (mem_with demo_memory 20736 [47; 104; 105; 0]) 20752 [47; 46; 46; 0].

Definition demo_files : files := Files (fd_table_init (fd_table files_bss)) 32 32.
Definition demo_kernel : kstate := with_k_mem demo_fmem three.

Lemma demo_flayout : flayout demo_disk demo_fl demo_byte.
Proof.
  split; [exact demo_layout|left; cbn; lia| |cbn; lia|left; cbn; lia|right; cbn; lia].
  repeat apply List.Forall_cons; [left; cbn; lia..|constructor].
Qed.

Lemma demo_fdisk : on_disk demo_disk demo_byte demo_fmem.
Proof.
  intros i Hi. apply Z.eqb_eq.
  by apply (check_below (fun i => demo_fmem (32768 + i) =? demo_byte i) 160).
Qed.

Lemma demo_root : is_dir demo_disk demo_byte 2 5 32 [(32, [46]); (64, [46; 46]); (96, [104; 105])].
Proof.
  split; [cbn; lia|by vm_compute|exact demo_dir|cbn; lia|repeat constructor; cbn; lia].
Qed.

Lemma demo_path : names_path demo_disk demo_byte 2 5 32 0 [47; 104; 105] 96.
Proof.
  exists true, [[104; 105]]. split; [repeat constructor; cbn; lia|]. split; [done|].
  split; [done|]. cbn [join]. eapply walk_last; [exact demo_root|].
  exists 0%nat. split; [|lia]. apply resolves_here; [lia|cbn; lia|by vm_compute].
Qed.

Lemma demo_path_parent : names_path demo_disk demo_byte 2 5 32 0 [47; 46; 46] 32.
Proof.
  exists true, [[46; 46]]. split; [repeat constructor; cbn; lia|]. split; [done|].
  split; [done|]. cbn [join]. eapply walk_last; [exact demo_root|].
  exists 1%nat. split; [|lia]. apply (resolves_link _ _ 64 32 0); [lia|cbn; lia|by vm_compute|].
  apply resolves_here; [by vm_compute|by vm_compute|by vm_compute].
Qed.

Lemma demo_path_apart p n : 20736 <= p -> p + n <= 24576 -> 0 <= n ->
  Forall (fun x => apart (fst x) (snd x) p n) (path_regions demo_fl).
Proof. intros. repeat apply List.Forall_cons; [left; cbn; lia..|constructor]. Qed.

Lemma get_inode_resolves_witness :
  exists m', get_inode demo_disk demo_fl 5 5 demo_fmem 32 0 20736 = Some (96, m') /\
    modifies (path_regions demo_fl) demo_fmem m'.
Proof.
  apply (get_inode_resolves demo_disk demo_fl demo_byte demo_flayout 2 5 5 demo_fmem 32 0 20736
           [47; 104; 105] 96);
    [ exact demo_path | by apply cstringb_cstring | lia | apply demo_path_apart; cbn; lia
    | exact demo_fdisk | cbn; lia ].
Defined.

Lemma open_lowest_witness :
  exists fd f' m', open demo_disk demo_fl 5 5 demo_files demo_kernel 20736 0 0
      = Some (fd, f', with_k_mem m' demo_kernel) /\
    (fd = - ENFILE /\ Forall (fun e => fd_valid e <> 0) (fd_table demo_files) /\
       fd_table f' = fd_table demo_files \/
     0 <= fd < 32 /\ fd_table f' = <[Z.to_nat fd := FdInfo 1 96 0]> (fd_table demo_files) /\
       (exists e, fd_table demo_files !! Z.to_nat fd = Some e /\ fd_valid e = 0) /\
       (forall i e, 0 <= i < fd -> fd_table demo_files !! Z.to_nat i = Some e ->
          fd_valid e <> 0)).
Proof.
  refine (open_lowest demo_disk demo_fl demo_byte demo_flayout 2 5 5 demo_files demo_kernel
           (three_pcb 28672 12288 1 1) 20736 [47; 104; 105] 96 0 0 _ _ _ _ _ _ _ _);
    [ reflexivity | by vm_compute | exact demo_path | by apply cstringb_cstring | lia
    | apply demo_path_apart; cbn; lia | exact demo_fdisk | cbn; lia ].
Defined.

Lemma cat_prints_file_witness :
  exists fd f1 s1, open demo_disk demo_fl 5 5 demo_files demo_kernel 20736 0 0
      = Some (fd, f1, s1) /\ 0 < fd /\
  exists w' f2 s2, cat demo_disk demo_fl 0x20000000 5 2 5 (Serial 1 115200 8 1 0 pl011_uart)
      (Port [] [] false) f1 console_bss s1 fd 1 24576 = Some (0, w', f2, console_bss, s2) /\
    tx 0x20000000 w' = [104; 101; 108; 108; 111] /\ rx 0x20000000 w' = [].
Proof.
  refine (cat_prints_file demo_disk demo_fl demo_byte demo_flayout 2 5 0x20000000 5 2
    (Serial 1 115200 8 1 0 pl011_uart) (Port [] [] false) demo_files console_bss demo_kernel
    (three_pcb 28672 12288 1 1) 20736 [47; 104; 105] 96 [104; 105] 24576 0 0
    _ _ _ _ _ _ _ _ _ _ _ _ _ _ _ _ _ _);
    [ reflexivity | eexists; split; [reflexivity|discriminate] | exists 3%nat; reflexivity
    | by vm_compute | exact demo_path | split; [by vm_compute|by apply name_at_check]
    | by vm_compute | cbn; lia | by apply cstringb_cstring | lia
    | apply demo_path_apart; cbn; lia | exact demo_fdisk | cbn; lia
    | left; cbn; unfold BUF_SIZE; lia | discriminate | discriminate | cbn; lia | by vm_compute ].
Defined.

Lemma chdir_checks_witness :
  exists m', chdir demo_disk demo_fl 5 5 demo_files demo_kernel 20752
    = Some (0, with_procs (<[20480 := set_current_dir 32 (three_pcb 28672 12288 1 1)]>
                            (procs demo_kernel)) (with_k_mem m' demo_kernel)).
Proof.
  refine (chdir_checks demo_disk demo_fl demo_byte demo_flayout 2 5 5 demo_files demo_kernel
           (three_pcb 28672 12288 1 1) 20752 [47; 46; 46] 32 _ _ _ _ _ _ _ _ _);
    [ by vm_compute | exact demo_path_parent | intros _; split; [by vm_compute|by vm_compute]
    | by apply cstringb_cstring | lia | lia | apply demo_path_apart; cbn; lia
    | exact demo_fdisk | cbn; lia ].
Defined.

(** ** At the edges *)

(** Descriptors are never given back: [close] fails and the table stays as it
    is, so that 29 opens use it up for good. *)
Fixpoint open_n (n : nat) (t : list fd_info) : option (list Z * list fd_info) :=
  match n with
  | O => Some ([], t)
  | S n' =>
      '(fd, t1) ← fd_allocate t 96;
      '(l, t2) ← open_n n' t1; Some (fd :: l, t2)
  end.

Lemma descriptors_leak :
  close 3 = - EBADF /\
  fst <$> open_n 31 (fd_table demo_files)
  = Some (map Z.of_nat (seq 3 29) ++ [- ENFILE; - ENFILE]).
Proof. split; by vm_compute. Qed.

(** A failed component does not stop the walk: the next one is looked up in the
    negative error number. *)
Lemma path_goes_on_after_error `{MemFill} rd fl fuel rf m m1 m2 dir ptr ptr' e :
  split_filename m ptr (fl_name fl) 256 = Some (ptr', m1) -> ptr' <> 0 ->
  romfs_get_inode rd (fl_romfs fl) rf m1 dir (fl_name fl) = Some (e, m2) ->
  path_loop rd fl (S fuel) rf m dir ptr = path_loop rd fl fuel rf m2 e ptr'.
Proof.
  intros E1 Hp E2. cbn [path_loop]. change MAX_FILENAME_SIZE with 256.
  rewrite E1. cbn [mbind option_bind]. bind_with E2. by rewrite (proj2 (Z.eqb_neq _ _)).
Qed.
