(* ===== verification/Printk.v ===== *)
(** * Formatted output: kernel/lib/printk.c and the formatting half of
      userspace/vlibc/printf.c

    [vsprintf] reads the format and the strings it prints from the memory as it
    is at that moment and writes the text at [buffer]; the two copies of the
    routine, the kernel's and the C library's, differ only in the type they
    fetch a character and a string argument with.  The arguments of a call are
    a list of words and 64-bit values ([varg]); fetching one that is not there
    or not of that size is undefined in C, [None] here.  The last part states
    the text a format stands for and that [vsprintf] writes it. *)

From stdpp Require Import base list numbers.
From Stdlib Require Import ZArith Lia.
From S2P Require Import Prelude CString Mmio Gpio Process Sched Serial Console.

Definition MAX_PRINT_SIZE : Z := 256.

(** ** Variable arguments *)

Inductive varg :=
| Word (w : Z)
| Quad (w : Z).

Definition va_arg_ulong (ap : list varg) : option (Z * list varg) :=
  match ap with
  | Word w :: ap' => Some (u32 w, ap')
  | _ => None
  end.

(** [va_arg(ap, int)] assigned to an [unsigned long] or cast to a pointer. *)
Definition va_arg_int (ap : list varg) : option (Z * list varg) :=
  match ap with
  | Word w :: ap' => Some (u32 (s32 w), ap')
  | _ => None
  end.

Definition va_arg_uint64 (ap : list varg) : option (Z * list varg) :=
  match ap with
  | Quad w :: ap' => Some (u64 w, ap')
  | _ => None
  end.

(** ** vsprintf *)

(** The memory and [buffer_pointer]. *)
Record out := Out { o_mem : mem; buffer_pointer : Z }.

Definition is_digit (c : Z) : bool := (48 <=? c) && (c <=? 57).

Definition digit10 (x : Z) : Z := x mod 10 + 48.

Definition digit16 (x : Z) : Z :=
  if x mod 16 <? 10 then x mod 16 + 48 else x mod 16 - 10 + 97.

(** The digits of [x], from the last one on, into [int_buffer]. *)
Fixpoint digits_loop (fuel : nat) (digit : Z -> Z) (base x : Z) (int_buffer : mem)
    (int_pointer printed_size : Z) : option (mem * Z * Z) :=
  match fuel with
  | O => None
  | S f =>
      let int_buffer1 := upd int_buffer int_pointer (digit x) in
      let x1 := x / base in
      if negb (x1 =? 0)
      then digits_loop f digit base x1 int_buffer1 (int_pointer - 1) (u8 (printed_size + 1))
      else Some (int_buffer1, int_pointer - 1, u8 (printed_size + 1))
  end.

Fixpoint padding_loop (fuel : nat) (m : mem) (string pad_len : Z) : option (Z * Z) :=
  match fuel with
  | O => None
  | S f =>
      if is_digit (m string)
      then padding_loop f m (string + 1) (u8 (u8 (pad_len * 10) + (m string - 48)))
      else Some (pad_len, string)
  end.

(** [pad_value], [pad_len] and the pointer behind the digits. *)
Definition padding (fuel : nat) (m : mem) (string : Z) : option (Z * Z * Z) :=
  if is_digit (m string) then
    let pad_value := if m string =? 48 then 48 else 32 in
    '(pad_len, string1) ← padding_loop fuel m (string + 1) (u8 (m string - 48));
    Some (pad_value, pad_len, string1)
  else Some (32, 0, string).

Section Vsprintf.

(** The type a character and a string argument is fetched with, the buffer,
    and what the local array [int_buffer] holds on entry. *)
Variables (va_char va_string : list varg -> option (Z * list varg)).
Variables (buffer : Z) (int_buffer : mem).

Definition put (c : Z) (o : out) : out :=
  Out (upd (o_mem o) (buffer + buffer_pointer o) (u8 c)) (buffer_pointer o + 1).

Definition at_max (o : out) : bool := buffer_pointer o =? MAX_PRINT_SIZE.

(** [n] copies of the padding character; the [break] leaves this loop only. *)
Fixpoint put_padding (n : nat) (pad_value : Z) (o : out) : out :=
  match n with
  | O => o
  | S n' =>
      let o1 := put pad_value o in
      if at_max o1 then o1 else put_padding n' pad_value o1
  end.

(** [int_buffer[i]] and the [n-1] elements behind it. *)
Fixpoint put_digits (n : nat) (b : mem) (i : Z) (o : out) : out :=
  match n with
  | O => o
  | S n' =>
      let o1 := put (b i) o in
      if at_max o1 then o1 else put_digits n' b (i + 1) o1
  end.

Fixpoint put_string (fuel : nat) (s : Z) (o : out) : option out :=
  match fuel with
  | O => None
  | S f =>
      if negb (o_mem o s =? 0) then
        let o1 := put (o_mem o s) o in
        if at_max o1 then Some o1 else put_string f (s + 1) o1
      else Some o
  end.

Definition put_number (fuel : nat) (digit : Z -> Z) (base x pad_value pad_len printed_size : Z)
    (o : out) : option out :=
  '(b, int_pointer, printed) ← digits_loop fuel digit base x int_buffer 9 printed_size;
  let o1 := if printed <? pad_len
            then put_padding (Z.to_nat (pad_len - printed)) pad_value o else o in
  Some (put_digits (Z.to_nat (10 - (int_pointer + 1))) b (int_pointer + 1) o1).

(** [%d]: the answer says whether the routine's loop was left. *)
Definition print_decimal (fuel : nat) (pad_value pad_len : Z) (ap : list varg) (o : out)
    : option (bool * list varg * out) :=
  '(x, ap1) ← va_arg_ulong ap;
  if negb (Z.land x 0x80000000 =? 0) then
    let o1 := put 45 o in
    if at_max o1 then Some (true, ap1, o1)
    else
      o2 ← put_number fuel digit10 10 (u32 (u32 (Z.lnot x) + 1)) pad_value pad_len 1 o1;
      Some (false, ap1, o2)
  else
    o2 ← put_number fuel digit10 10 x pad_value pad_len 0 o;
    Some (false, ap1, o2).

Definition print_hex (fuel : nat) (pad_value pad_len : Z) (ap : list varg) (o : out)
    : option (list varg * out) :=
  '(x, ap1) ← va_arg_ulong ap;
  o1 ← put_number fuel digit16 16 x pad_value pad_len 0 o;
  Some (ap1, o1).

Definition print_long_hex (fuel : nat) (ap : list varg) (o : out) : option (list varg * out) :=
  '(lx, ap1) ← va_arg_uint64 ap;
  '(b, int_pointer, _) ← digits_loop fuel digit16 16 lx int_buffer 17 0;
  Some (ap1, put_digits (Z.to_nat (18 - (int_pointer + 1))) b (int_pointer + 1) o).

(** What follows a percent sign: whether the routine's loop was left, and the
    pointer, arguments and output after it. *)
Definition directive (fuel : nat) (string : Z) (ap : list varg) (o : out)
    : option (bool * Z * list varg * out) :=
  '(pad_value, pad_len, string) ← padding fuel (o_mem o) string;
  let c := o_mem o string in
  if (c =? 100) || (c =? 105) then
    '(stop, ap1, o1) ← print_decimal fuel pad_value pad_len ap o;
    Some (stop, string + 1, ap1, o1)
  else if c =? 108 then
    '(ap1, o1) ← print_long_hex fuel ap o; Some (false, string + 3, ap1, o1)
  else if (c =? 120) || (c =? 112) then
    '(ap1, o1) ← print_hex fuel pad_value pad_len ap o; Some (false, string + 1, ap1, o1)
  else if c =? 99 then
    '(x, ap1) ← va_char ap;
    let o1 := put x o in
    Some (at_max o1, string + 1, ap1, o1)
  else if c =? 37 then
    let o1 := put 37 o in
    Some (at_max o1, string + 1, ap, o1)
  else if c =? 115 then
    '(s, ap1) ← va_string ap;
    o1 ← put_string fuel s o;
    Some (false, string + 1, ap1, o1)
  else Some (false, string, ap, o).

Fixpoint vsprintf_loop (fuel : nat) (string : Z) (ap : list varg) (o : out) : option out :=
  match fuel with
  | O => None
  | S f =>
      let c := o_mem o string in
      if c =? 0 then Some o
      else
        '(stop, string1, ap1, o1) ←
          (if c =? 37 then directive f (string + 1) ap o
           else let o1 := put c o in Some (at_max o1, string + 1, ap, o1));
        if (stop : bool) || (buffer_pointer o1 =? MAX_PRINT_SIZE - 1) then Some o1
        else vsprintf_loop f string1 ap1 o1
  end.

Definition vsprintf_with (fuel : nat) (m : mem) (string : Z) (ap : list varg)
    : option (Z * mem) :=
  o ← vsprintf_loop fuel string ap (Out m 0);
  Some (buffer_pointer o, o_mem o).

End Vsprintf.

Definition vsprintf : Z -> mem -> nat -> mem -> Z -> list varg -> option (Z * mem) :=
  vsprintf_with va_arg_int va_arg_int.

(** userspace/vlibc/printf.c *)
Definition vlibc_vsprintf : Z -> mem -> nat -> mem -> Z -> list varg -> option (Z * mem) :=
  vsprintf_with va_arg_ulong va_arg_ulong.

Definition sprintf (int_buffer : mem) (fuel : nat) (m : mem) (string fmt : Z) (ap : list varg)
    : option (Z * mem) :=
  '(result, m1) ← vsprintf string int_buffer fuel m fmt ap;
  Some (result, upd m1 (string + result) 0).

Definition vlibc_sprintf (int_buffer : mem) (fuel : nat) (m : mem) (string fmt : Z)
    (ap : list varg) : option (Z * mem) :=
  '(result, m1) ← vlibc_vsprintf string int_buffer fuel m fmt ap;
  Some (result, upd m1 (string + result) 0).

(** [printk] and [serial_printk] format into a buffer of their frame, at
    address [buffer]; the bytes go to the console or to the serial port. *)
Definition printk `{Device W} (io_base : Z) (buffer : Z) (int_buffer : mem) (fuel wf : nat)
    (sr : serial_type) (w : W) (m : mem) (string : Z) (ap : list varg)
    : option (Z * W * mem) :=
  '(result, m1) ← vsprintf buffer int_buffer fuel m string ap;
  '(_, w1) ← console_write io_base wf sr w m1 buffer result;
  Some (result, w1, m1).

Definition serial_printk `{Device W} (io_base : Z) (buffer : Z) (int_buffer : mem)
    (fuel wf : nat) (sr : serial_type) (w : W) (m : mem) (string : Z) (ap : list varg)
    : option (Z * W * mem) :=
  '(result, m1) ← vsprintf buffer int_buffer fuel m string ap;
  '(_, w1) ← serial_write io_base wf sr w m1 buffer result;
  Some (result, w1, m1).

(** ** What a format stands for *)

(** A conversion with its argument; the argument of [%s] is the address and
    the text of a string. *)
Inductive conv :=
| Dec (i : bool) (x : Z)
| Hex (p : bool) (x : Z)
| LongHex (x : Z)
| Chr (x : Z)
| Percent
| Str (s : Z) (l : list Z).

(** A format is a sequence of literal characters and of conversions with the
    digits of their padding. *)
Inductive piece :=
| Lit (c : Z)
| Conv (pad : list Z) (k : conv).

Definition conv_chars (k : conv) : list Z :=
  match k with
  | Dec i _ => [if i : bool then 105 else 100]
  | Hex p _ => [if p : bool then 112 else 120]
  | LongHex _ => [108; 108; 120]
  | Chr _ => [99]
  | Percent => [37]
  | Str _ _ => [115]
  end.

Definition spell (p : piece) : list Z :=
  match p with
  | Lit c => [c]
  | Conv pad k => 37 :: pad ++ conv_chars k
  end.

Definition args_of (p : piece) : list varg :=
  match p with
  | Conv _ (Dec _ x | Hex _ x | Chr x | Str x _) => [Word x]
  | Conv _ (LongHex x) => [Quad x]
  | _ => []
  end.

(** The numeral of [x], most significant digit first; 20 digits are enough for
    64 bits in base 10. *)
Fixpoint numeral_ (n : nat) (digit : Z -> Z) (base x : Z) : list Z :=
  match n with
  | O => []
  | S n' => if x / base =? 0 then [digit x]
            else numeral_ n' digit base (x / base) ++ [digit x]
  end.

Definition numeral : (Z -> Z) -> Z -> Z -> list Z := numeral_ 20.

Definition pad_value_of (pad : list Z) : Z :=
  match pad with 48 :: _ => 48 | _ => 32 end.

Definition pad_len_of (pad : list Z) : Z :=
  fold_left (fun n c => u8 (u8 (n * 10) + (c - 48))) pad 0.

(** Padding goes between the sign and the digits. *)
Definition field (pad sign digits : list Z) : list Z :=
  sign ++ repeat (pad_value_of pad)
            (Z.to_nat (pad_len_of pad - Z.of_nat (length sign + length digits)))
       ++ digits.

Definition piece_text (p : piece) : list Z :=
  match p with
  | Lit c => [c]
  | Conv pad (Dec _ x) =>
      if u32 x <? 2 ^ 31 then field pad [] (numeral digit10 10 (u32 x))
      else field pad [45] (numeral digit10 10 (2 ^ 32 - u32 x))
  | Conv pad (Hex _ x) => field pad [] (numeral digit16 16 (u32 x))
  | Conv _ (LongHex x) => numeral digit16 16 (u64 x)
  | Conv _ (Chr x) => [u8 x]
  | Conv _ Percent => [37]
  | Conv _ (Str _ l) => l
  end.

Definition spelled : list piece -> list Z := flat_map spell.
Definition args : list piece -> list varg := flat_map args_of.
Definition rendered : list piece -> list Z := flat_map piece_text.

(** Characters of a format are bytes other than NUL and a literal is no
    percent sign; a string argument is a string of the memory that the buffer
    does not overlap. *)
Definition piece_ok (buffer : Z) (m : mem) (p : piece) : Prop :=
  match p with
  | Lit c => 0 < c < 256 /\ c <> 37
  | Conv pad k => Forall (fun c => is_digit c = true) pad /\
      match k with
      | Str s l => cstring (at_ m s) l /\ Forall (fun c => 0 <= c < 256) l /\
                   0 <= s < 2 ^ 32 /\
                   apart buffer MAX_PRINT_SIZE s (Z.of_nat (length l) + 1)
      | _ => True
      end
  end.

(** *** Numerals *)

Lemma numeral_S n digit base x : numeral_ (S n) digit base x =
  if x / base =? 0 then [digit x] else numeral_ n digit base (x / base) ++ [digit x].
Proof. done. Qed.

Lemma div_pow_bound base n x :
  1 < base -> 0 <= x < base ^ Z.of_nat (S n) -> 0 <= x / base < base ^ Z.of_nat n.
Proof.
  intros Hb. rewrite Nat2Z.inj_succ, Z.pow_succ_r by lia. intros Hx.
  split; [apply Z.div_pos; lia|]. apply Z.div_lt_upper_bound; lia.
Qed.

Lemma numeral_stable digit base : 1 < base -> forall n k x,
  0 <= x < base ^ Z.of_nat (S n) -> (n <= k)%nat ->
  numeral_ (S k) digit base x = numeral_ (S n) digit base x.
Proof.
  intros Hb. induction n as [|n IH]; intros k x Hx Hk; rewrite !numeral_S;
    pose proof (div_pow_bound base _ x Hb Hx) as Hd.
  - change (base ^ Z.of_nat 0) with 1 in Hd. by replace (x / base) with 0 by lia.
  - destruct (x / base =? 0); [done|]. destruct k as [|k]; [lia|].
    by rewrite IH by (done || lia).
Qed.

Lemma numeral_length n digit base x : (length (numeral_ n digit base x) <= n)%nat.
Proof.
  revert x. induction n as [|n IH]; intros x; cbn [numeral_]; [done|].
  destruct (_ =? 0); cbn [length]; [lia|]. rewrite length_app. cbn. specialize (IH (x / base)).
  lia.
Qed.

Lemma numeral_bytes n digit base x : (forall x, 0 <= digit x < 256) ->
  Forall (fun c => 0 <= c < 256) (numeral_ n digit base x).
Proof.
  intros Hd. revert x. induction n as [|n IH]; intros x; cbn [numeral_]; [done|].
  assert (H1 : Forall (fun c => 0 <= c < 256) [digit x]) by (constructor; [apply Hd|done]).
  destruct (_ =? 0); [done|]. apply Forall_app. by split.
Qed.

(** The loop leaves the numeral in the array, ending at the old pointer. *)
Lemma digits_loop_ok digit base : 1 < base -> forall n fuel x b ptr printed,
  0 <= x < base ^ Z.of_nat (S n) -> (n < fuel)%nat ->
  let l := numeral_ (S n) digit base x in
  let k := Z.of_nat (length l) in
  exists b', digits_loop fuel digit base x b ptr printed
      = Some (b', ptr - k, u8 (printed + k)) /\
    (forall i, (i < length l)%nat -> b' (ptr - k + 1 + Z.of_nat i) = nth i l 0) /\
    (forall i, ptr < i -> b' i = b i).
Proof.
  intros Hb. induction n as [|n IH]; intros [|fuel] x b ptr printed Hx Hf; try lia;
    cbn [digits_loop]; rewrite numeral_S; pose proof (div_pow_bound base _ x Hb Hx) as Hd;
    destruct (x / base =? 0) eqn:E; b2p; cbn [negb].
  1, 3: eexists; split; [done|]; split; [|intros; by rewrite upd_ne by lia];
    intros [|i] Hi; [|cbn in Hi; lia]; cbn [length nth];
    replace (ptr - Z.of_nat 1 + 1 + Z.of_nat 0) with ptr by lia; apply upd_eq.
  - change (base ^ Z.of_nat 0) with 1 in Hd. lia.
  - destruct (IH fuel (x / base) (upd b ptr (digit x)) (ptr - 1) (u8 (printed + 1)) Hd
      ltac:(lia)) as (b' & -> & Hi & Ho).
    set (l := numeral_ (S n) digit base (x / base)) in *. rewrite length_app.
    cbn [length]. exists b'. split; [|split].
    + f_equal. f_equal; [f_equal; lia|]. unfold u8. rewrite Zplus_mod_idemp_l. f_equal. lia.
    + intros i Hlt. destruct (decide (i < length l)%nat).
      * rewrite app_nth1 by done. rewrite <- Hi by done. f_equal. lia.
      * replace i with (length l) in * by lia. rewrite app_nth2, Nat.sub_diag by lia.
        rewrite Ho by lia. cbn [nth].
        replace (ptr - Z.of_nat (length l + 1) + 1 + Z.of_nat (length l)) with ptr by lia.
        apply upd_eq.
    + intros i Hlt. rewrite Ho, upd_ne by lia. done.
Qed.

(** *** The output *)

(** The text [t] has been written at [buffer]. *)
Definition wrote (buffer : Z) (m : mem) (t : list Z) (o : out) : Prop :=
  buffer_pointer o = Z.of_nat (length t) /\
  (forall i, (i < length t)%nat -> o_mem o (buffer + Z.of_nat i) = nth i t 0) /\
  same_outside m buffer (Z.of_nat (length t)) (o_mem o).

Section Wrote.
Variables (buffer : Z) (m : mem).

Lemma wrote_nil : wrote buffer m [] (Out m 0).
Proof. split; [done|]. split; [intros i Hi; cbn in Hi; lia|done]. Qed.

Lemma wrote_put t c o :
  wrote buffer m t o -> 0 <= c < 256 -> wrote buffer m (t ++ [c]) (put buffer c o).
Proof.
  intros (E & Hi & Ho) Hc. unfold wrote, put. cbn [buffer_pointer o_mem].
  rewrite length_app. cbn [length]. split; [lia|]. split.
  - intros i Hlt. destruct (decide (i < length t)%nat).
    + rewrite app_nth1, upd_ne by lia. by apply Hi.
    + replace i with (length t) in * by lia. rewrite app_nth2, Nat.sub_diag by lia.
      rewrite E, upd_eq. by apply u8_id.
  - intros a Ha. rewrite upd_ne by lia. apply Ho. lia.
Qed.

Lemma put_u8 c o : put buffer c o = put buffer (u8 c) o.
Proof. unfold put. by rewrite (u8_id (u8 c)) by apply u8_range. Qed.

Lemma wrote_not_max t o : wrote buffer m t o -> (length t < 256)%nat -> at_max o = false.
Proof. intros (E & _) Hl. unfold at_max, MAX_PRINT_SIZE. lia. Qed.

Lemma wrote_padding v n : 0 <= v < 256 -> forall t o, wrote buffer m t o ->
  (length t + n < 256)%nat -> wrote buffer m (t ++ repeat v n) (put_padding buffer n v o).
Proof.
  intros Hv. induction n as [|n IH]; intros t o Hw Hl; cbn [put_padding repeat].
  { by rewrite app_nil_r. }
  apply (wrote_put t v o) in Hw; [|done].
  rewrite (wrote_not_max _ _ Hw) by (rewrite length_app; cbn; lia).
  change (v :: repeat v n) with ([v] ++ repeat v n). rewrite app_assoc.
  apply IH; [done|]. rewrite length_app. cbn. lia.
Qed.

Lemma wrote_digits b l : forall i t o, wrote buffer m t o ->
  (forall j, (j < length l)%nat -> b (i + Z.of_nat j) = nth j l 0) ->
  Forall (fun c => 0 <= c < 256) l ->
  (length t + length l < 256)%nat ->
  wrote buffer m (t ++ l) (put_digits buffer (length l) b i o).
Proof.
  induction l as [|c l IH]; intros i t o Hw Hb Hc Hl; cbn [put_digits length] in *.
  { by rewrite app_nil_r. }
  apply Forall_cons_iff in Hc as [Hc Hc'].
  pose proof (Hb 0%nat ltac:(lia)) as E. rewrite Z.add_0_r in E. cbn in E. rewrite E.
  apply (wrote_put t c o) in Hw; [|done].
  rewrite (wrote_not_max _ _ Hw) by (rewrite length_app; cbn; lia).
  change (c :: l) with ([c] ++ l). rewrite app_assoc.
  apply IH; [done| |done|rewrite length_app; cbn; lia].
  intros j Hj. specialize (Hb (S j) ltac:(lia)). cbn [nth] in Hb. rewrite <- Hb. f_equal. lia.
Qed.

(** A string that the buffer does not overlap reads the same throughout. *)
Lemma wrote_cstring t o s l : wrote buffer m t o -> (length t <= 256)%nat ->
  apart buffer MAX_PRINT_SIZE s (Z.of_nat (length l) + 1) ->
  cstring (at_ m s) l -> cstring (at_ (o_mem o) s) l.
Proof.
  intros (_ & _ & Ho) Ht Ha. apply cstring_ext. intros i Hi. unfold at_. apply Ho.
  unfold apart, MAX_PRINT_SIZE in Ha. lia.
Qed.

Lemma wrote_string fuel : forall l s t o, wrote buffer m t o ->
  cstring (at_ m s) l -> Forall (fun c => 0 <= c < 256) l ->
  apart buffer MAX_PRINT_SIZE s (Z.of_nat (length l) + 1) ->
  (length t + length l < 256)%nat -> (length l < fuel)%nat ->
  exists o', put_string buffer fuel s o = Some o' /\ wrote buffer m (t ++ l) o'.
Proof.
  induction fuel as [|fuel IH]; intros l s t o Hw Hs Hc Ha Hl Hf; [lia|].
  pose proof (wrote_cstring t o s l Hw ltac:(lia) Ha Hs) as Hs'. cbn [put_string].
  destruct l as [|c l].
  { apply cstring_at_nil in Hs' as ->. cbn. eexists. by rewrite app_nil_r. }
  apply cstring_at_cons in Hs' as (Hn & -> & _). apply cstring_at_cons in Hs as (_ & _ & Hs).
  cbn [length] in *. rewrite (proj2 (Z.eqb_neq c 0)) by done. cbn [negb].
  apply Forall_cons_iff in Hc as [Hc Hc']. apply (wrote_put t c o) in Hw; [|done].
  rewrite (wrote_not_max _ _ Hw) by (rewrite length_app; cbn; lia).
  destruct (IH l (s + 1) (t ++ [c]) (put buffer c o)) as (o' & -> & Hw'); try done.
  - unfold apart in *. lia.
  - rewrite length_app. cbn. lia.
  - lia.
  - exists o'. by rewrite <- app_assoc in Hw'.
Qed.

Lemma wrote_number fuel digit base n x v len p0 (sign t : list Z) o int_buffer :
  1 < base -> 0 <= x < base ^ Z.of_nat (S n) -> (n <= 9)%nat -> (n < fuel)%nat ->
  (forall x, 0 <= digit x < 256) -> 0 <= v < 256 ->
  p0 = Z.of_nat (length sign) -> (length sign <= 1)%nat ->
  let l := numeral digit base x in
  let f := repeat v (Z.to_nat (len - Z.of_nat (length sign + length l))) ++ l in
  wrote buffer m (t ++ sign) o -> (length (t ++ sign) + length f < 256)%nat ->
  exists o', put_number buffer int_buffer fuel digit base x v len p0 o = Some o' /\
    wrote buffer m (t ++ sign ++ f) o'.
Proof.
  intros Hb Hx Hn Hf Hd Hv -> Hs l f Hw Hl. unfold f in *. rewrite !length_app, repeat_length in Hl.
  assert (El : l = numeral_ (S n) digit base x)
    by (apply (numeral_stable digit base Hb n 19); done || lia).
  pose proof (numeral_length (S n) digit base x) as Hk. rewrite <- El in Hk.
  unfold put_number.
  destruct (digits_loop_ok digit base Hb n fuel x int_buffer 9 (Z.of_nat (length sign)) Hx Hf)
    as (b & E & Hbuf & _). rewrite <- El in *. rewrite E. cbn [mbind option_bind].
  rewrite u8_id by lia. eexists. split; [done|].
  replace (Z.to_nat (10 - (9 - Z.of_nat (length l) + 1))) with (length l) by lia.
  rewrite !app_assoc. apply wrote_digits.
  - destruct (_ <? len) eqn:Ep; b2p.
    + replace (Z.to_nat (len - Z.of_nat (length sign + length l))) with
        (Z.to_nat (len - (Z.of_nat (length sign) + Z.of_nat (length l)))) in * by lia.
      apply wrote_padding; [done|done|rewrite length_app; lia].
    + replace (Z.to_nat (len - Z.of_nat (length sign + length l))) with 0%nat by lia.
      by rewrite app_nil_r.
  - intros j Hj. by apply Hbuf.
  - by apply numeral_bytes.
  - rewrite !length_app, repeat_length in *. lia.
Qed.
End Wrote.

(** *** The format *)

Lemma padding_loop_ok m c rest : is_digit c = false -> forall pad fuel string len,
  cstring (at_ m string) (pad ++ c :: rest) -> Forall (fun c => is_digit c = true) pad ->
  (length pad < fuel)%nat ->
  padding_loop fuel m string len =
    Some (fold_left (fun n c => u8 (u8 (n * 10) + (c - 48))) pad len,
          string + Z.of_nat (length pad)).
Proof.
  intros Hc. induction pad as [|d pad IH]; intros [|fuel] string len Hs Hp Hf;
    cbn [app length] in *; try lia; cbn [padding_loop fold_left];
    apply cstring_at_cons in Hs as (_ & E & Hs); rewrite E.
  - rewrite Hc. do 2 f_equal. lia.
  - apply Forall_cons_iff in Hp as [-> Hp]. rewrite IH by (done || lia). do 2 f_equal. lia.
Qed.

Lemma padding_ok fuel m string pad c rest :
  cstring (at_ m string) (pad ++ c :: rest) -> Forall (fun c => is_digit c = true) pad ->
  is_digit c = false -> (length pad < fuel)%nat ->
  padding fuel m string =
    Some (pad_value_of pad, pad_len_of pad, string + Z.of_nat (length pad)).
Proof.
  intros Hs Hp Hc Hf. unfold padding. destruct pad as [|d pad]; cbn [app length] in *.
  { apply cstring_at_cons in Hs as (_ & -> & _). rewrite Hc. by rewrite Z.add_0_r. }
  apply cstring_at_cons in Hs as (_ & -> & Hs). apply Forall_cons_iff in Hp as [Hd Hp].
  rewrite Hd, (padding_loop_ok _ c rest Hc pad) by (done || lia). cbn [mbind option_bind].
  assert (E : u8 (u8 (0 * 10) + (d - 48)) = u8 (d - 48)) by done.
  unfold pad_len_of. cbn [fold_left]. rewrite E.
  replace (string + 1 + Z.of_nat (length pad)) with (string + Z.of_nat (S (length pad))) by lia.
  do 3 f_equal. unfold pad_value_of, is_digit in *.
  assert (d = 48 \/ d = 49 \/ d = 50 \/ d = 51 \/ d = 52 \/ d = 53 \/ d = 54 \/ d = 55 \/
          d = 56 \/ d = 57) as Hk by (b2p; lia).
  by destruct Hk as [->|[->|[->|[->|[->|[->|[->|[->|[->| ->]]]]]]]]].
Qed.

Lemma digit10_byte x : 0 <= digit10 x < 256.
Proof. unfold digit10. pose proof (Z.mod_pos_bound x 10). lia. Qed.

Lemma digit16_byte x : 0 <= digit16 x < 256.
Proof. unfold digit16. pose proof (Z.mod_pos_bound x 16). bcase; lia. Qed.

Lemma pad_value_byte pad : 0 <= pad_value_of pad < 256.
Proof.
  unfold pad_value_of. destruct pad as [|[|p|p] pad]; try lia.
  repeat (destruct p as [p|p|]; try lia).
Qed.

Lemma va_int_ulong ap : va_arg_int ap = va_arg_ulong ap.
Proof. destruct ap as [|[w|w] ap]; cbn; [done| |done]. by rewrite u32_s32. Qed.

(** The sign bit. *)
Lemma sign_bit x : 0 <= x < 2 ^ 32 ->
  negb (Z.land x 0x80000000 =? 0) = negb (x <? 2 ^ 31).
Proof.
  intros Hx. f_equal. change 0x80000000 with (Z.shiftl 1 31).
  apply eq_true_iff_eq. rewrite Z.eqb_eq, Z.ltb_lt. split.
  - intros E. assert (Z.testbit x 31 = false) as Ht.
    { pose proof (f_equal (fun z => Z.testbit z 31) E) as Eb.
      cbv beta in Eb. rewrite Z.land_spec in Eb. rewrite Z.bits_0 in Eb.
      change (Z.testbit (Z.shiftl 1 31) 31) with true in Eb. by rewrite andb_true_r in Eb. }
    rewrite Z.testbit_eqb in Ht by lia. b2p. Z.div_mod_to_equations. lia.
  - intros Hlt. apply Z.bits_inj'. intros n Hn. rewrite Z.land_spec, Z.bits_0.
    change (Z.shiftl 1 31) with (2 ^ 31). destruct (decide (n = 31)) as [->|Hne].
    + rewrite Z.testbit_eqb by lia. rewrite Z.div_small by lia. done.
    + rewrite (Z.pow2_bits_false 31 n) by done. apply andb_false_r.
Qed.

Lemma negated x : 2 ^ 31 <= x < 2 ^ 32 -> u32 (u32 (Z.lnot x) + 1) = 2 ^ 32 - x.
Proof.
  intros Hx. unfold u32. rewrite Zplus_mod_idemp_l.
  replace (Z.lnot x + 1) with (- x) by (unfold Z.lnot; lia).
  rewrite Z_mod_nz_opp_full; rewrite Z.mod_small by lia; lia.
Qed.

Section Render.
Variables (buffer : Z) (m int_buffer : mem).
#[local] Abbreviation directive_k := (directive va_arg_int va_arg_int buffer int_buffer).
#[local] Abbreviation loop_k := (vsprintf_loop va_arg_int va_arg_int buffer int_buffer).

Ltac lens := rewrite ?app_nil_r, ?length_app in *; cbn [app length] in *; lia.

Lemma print_decimal_ok fuel pad i x ap t o : (20 < fuel)%nat ->
  wrote buffer m t o -> (length t + length (piece_text (Conv pad (Dec i x))) < 255)%nat ->
  exists o', print_decimal buffer int_buffer fuel (pad_value_of pad) (pad_len_of pad)
      (Word x :: ap) o = Some (false, ap, o') /\
    wrote buffer m (t ++ piece_text (Conv pad (Dec i x))) o'.
Proof.
  intros Hf Hw Hl. unfold print_decimal. cbn [va_arg_ulong mbind option_bind piece_text] in *.
  pose proof (u32_range x) as Hx. rewrite sign_bit by done. unfold field in *.
  destruct (u32 x <? 2 ^ 31) eqn:E; b2p; cbn [negb].
  - destruct (wrote_number buffer m fuel digit10 10 9 (u32 x) (pad_value_of pad)
      (pad_len_of pad) 0 [] t o int_buffer) as (o' & -> & Hw');
      try (done || apply digit10_byte || apply pad_value_byte || lens).
    + by rewrite app_nil_r.
    + by exists o'.
  - rewrite negated by lia. apply (wrote_put buffer m t 45 o) in Hw; [|lia].
    rewrite length_app in Hl. cbn [length] in Hl.
    rewrite (wrote_not_max buffer m _ _ Hw) by (rewrite length_app; cbn [length]; lia).
    destruct (wrote_number buffer m fuel digit10 10 9 (2 ^ 32 - u32 x) (pad_value_of pad)
      (pad_len_of pad) 1 [45] t (put buffer 45 o) int_buffer) as (o' & -> & Hw');
      try (done || apply digit10_byte || apply pad_value_byte || lens).
    by exists o'.
Qed.

Lemma print_hex_ok fuel pad p x ap t o : (20 < fuel)%nat ->
  wrote buffer m t o -> (length t + length (piece_text (Conv pad (Hex p x))) < 255)%nat ->
  exists o', print_hex buffer int_buffer fuel (pad_value_of pad) (pad_len_of pad)
      (Word x :: ap) o = Some (ap, o') /\
    wrote buffer m (t ++ piece_text (Conv pad (Hex p x))) o'.
Proof.
  intros Hf Hw Hl. unfold print_hex. cbn [va_arg_ulong mbind option_bind piece_text] in *.
  pose proof (u32_range x) as Hx. unfold field in *.
  destruct (wrote_number buffer m fuel digit16 16 9 (u32 x) (pad_value_of pad)
    (pad_len_of pad) 0 [] t o int_buffer) as (o' & -> & Hw');
    try (done || apply digit16_byte || apply pad_value_byte || lens).
  - by rewrite app_nil_r.
  - by exists o'.
Qed.

Lemma print_long_hex_ok fuel pad x ap t o : (20 < fuel)%nat ->
  wrote buffer m t o -> (length t + length (piece_text (Conv pad (LongHex x))) < 255)%nat ->
  exists o', print_long_hex buffer int_buffer fuel (Quad x :: ap) o = Some (ap, o') /\
    wrote buffer m (t ++ piece_text (Conv pad (LongHex x))) o'.
Proof.
  intros Hf Hw Hl. unfold print_long_hex. cbn [va_arg_uint64 mbind option_bind piece_text] in *.
  assert (0 <= u64 x < 2 ^ 64) as Hx by (unfold u64; apply Z.mod_pos_bound; lia).
  destruct (digits_loop_ok digit16 16 ltac:(lia) 15 fuel (u64 x) int_buffer 17 0)
    as (b & -> & Hb & _); [done|lia|].
  assert (El : numeral digit16 16 (u64 x) = numeral_ 16 digit16 16 (u64 x))
    by (apply (numeral_stable digit16 16 ltac:(lia) 15 19); done || lia).
  rewrite <- El in *. pose proof (numeral_length 16 digit16 16 (u64 x)) as Hk.
  rewrite <- El in Hk. cbn [mbind option_bind]. eexists. split; [done|].
  set (l := numeral _ _ _) in *.
  replace (Z.to_nat (18 - (17 - Z.of_nat (length l) + 1))) with (length l) by lia.
  apply wrote_digits; [done|exact Hb| |lia]. apply numeral_bytes, digit16_byte.
Qed.

Lemma conv_char_not_digit k : exists c r, conv_chars k = c :: r /\ is_digit c = false /\ c <> 0.
Proof. destruct k as [[]| [] | | | |]; cbn; by repeat eexists. Qed.

Lemma directive_ok fuel pad k rest string ap t o :
  wrote buffer m t o -> piece_ok buffer m (Conv pad k) ->
  cstring (at_ m string) (pad ++ conv_chars k ++ rest) ->
  apart buffer MAX_PRINT_SIZE string (Z.of_nat (length (pad ++ conv_chars k ++ rest)) + 1) ->
  (length t + length (piece_text (Conv pad k)) < 255)%nat ->
  (20 + length pad + length (piece_text (Conv pad k)) < fuel)%nat ->
  exists o', directive_k fuel string (args_of (Conv pad k) ++ ap) o
      = Some (false, string + Z.of_nat (length (pad ++ conv_chars k)), ap, o') /\
    wrote buffer m (t ++ piece_text (Conv pad k)) o'.
Proof.
  intros Hw [Hp Hk] Hs Ha Hl Hf.
  pose proof (wrote_cstring buffer m t o _ _ Hw ltac:(lia) Ha Hs) as Hs'.
  destruct (conv_char_not_digit k) as (c & r & Ek & Hc & _).
  pose proof Hs' as Hs2. rewrite Ek in Hs2. cbn [app] in Hs2.
  unfold directive. rewrite (padding_ok _ _ _ _ _ _ Hs2 Hp Hc) by lia.
  cbn [mbind option_bind]. apply cstring_at_app, cstring_at_cons in Hs2 as (_ & Ec & _).
  rewrite Ec, length_app, Nat2Z.inj_add, Z.add_assoc, Ek. clear Hs Hs' Ha Ec Hc.
  assert (forall c, wrote buffer m t o -> 0 <= c < 256 -> (length t < 255)%nat ->
    at_max (put buffer c o) = false) as Hmax.
  { intros c' Hc Hc' Ht. eapply wrote_not_max; [by apply wrote_put|].
    rewrite length_app. cbn. lia. }
  destruct k as [i x|p x|x|x| |s l]; cbn in Ek; injection Ek as <- <-.
  - destruct (print_decimal_ok fuel pad i x ap t o) as (o' & E & Hw'); [lia|done|done|].
    exists o'. split; [|done]. cbn [args_of app]. by destruct i; bind_with E.
  - destruct (print_hex_ok fuel pad p x ap t o) as (o' & E & Hw'); [lia|done|done|].
    exists o'. split; [|done]. cbn [args_of app]. by destruct p; bind_with E.
  - destruct (print_long_hex_ok fuel pad x ap t o) as (o' & E & Hw'); [lia|done|done|].
    exists o'. split; [|done]. cbn [args_of app]. by bind_with E.
  - cbn [args_of app va_arg_int mbind option_bind piece_text length] in *.
    exists (put buffer (u32 (s32 x)) o).
    cbn [Z.eqb orb Pos.eqb]. rewrite u32_s32, (put_u8 buffer (u32 x)), u8_u32.
    rewrite Hmax by (done || lia || apply u8_range). split; [done|].
    apply wrote_put; [done|apply u8_range].
  - exists (put buffer 37 o). cbn [args_of app Z.eqb orb Pos.eqb].
    rewrite Hmax by (done || lens). split; [done|]. by apply wrote_put.
  - cbn [args_of app va_arg_int mbind option_bind piece_text length Z.eqb orb Pos.eqb] in *.
    destruct Hk as (Hs & Hb & Hs32 & Ha).
    rewrite u32_s32, u32_id by done.
    destruct (wrote_string buffer m fuel l s t o) as (o' & E & Hw'); try done; [lia|lia|].
    exists o'. split; [|done]. by bind_with E.
Qed.

(** One piece of the format. *)
Lemma vsprintf_piece fuel p rest string ap t o :
  wrote buffer m t o -> piece_ok buffer m p ->
  cstring (at_ m string) (spell p ++ rest) ->
  apart buffer MAX_PRINT_SIZE string (Z.of_nat (length (spell p ++ rest)) + 1) ->
  (length t + length (piece_text p) < 255)%nat ->
  (20 + length (spell p) + length (piece_text p) < fuel)%nat ->
  exists o', loop_k (S fuel) string (args_of p ++ ap) o
      = loop_k fuel (string + Z.of_nat (length (spell p))) ap o' /\
    wrote buffer m (t ++ piece_text p) o'.
Proof.
  intros Hw Hp Hs Ha Hl Hf.
  pose proof (wrote_cstring buffer m t o _ _ Hw ltac:(lia) Ha Hs) as Hs'.
  destruct p as [c|pad k]; cbn [spell app] in *.
  - destruct Hp as [Hc Hn]. apply cstring_at_cons in Hs' as (_ & Ec & _).
    exists (put buffer c o). cbn [vsprintf_loop]. rewrite Ec.
    rewrite !(proj2 (Z.eqb_neq c _)) by lia. cbn [mbind option_bind args_of piece_text app length] in *.
    apply (wrote_put buffer m t c o) in Hw; [|lia]. split; [|done].
    rewrite (wrote_not_max buffer m _ _ Hw) by lens. destruct Hw as (E & _).
    replace (buffer_pointer _ =? MAX_PRINT_SIZE - 1) with false
      by (unfold MAX_PRINT_SIZE; lens). done.
  - apply cstring_at_cons in Hs as (_ & _ & Hs). apply cstring_at_cons in Hs' as (_ & Ec & _).
    cbn [length] in *. rewrite <- app_assoc in *.
    destruct (directive_ok fuel pad k rest (string + 1) ap t o) as (o' & E & Hw'); try done.
    + unfold apart in *. lia.
    + rewrite length_app in Hf. lia.
    + exists o'. split; [|done]. cbn [vsprintf_loop]. rewrite Ec. cbn [Z.eqb Pos.eqb].
      bind_with E. destruct Hw' as (E' & _).
      replace (buffer_pointer o' =? MAX_PRINT_SIZE - 1) with false
        by (unfold MAX_PRINT_SIZE; lens). cbn [orb]. f_equal. lia.
Qed.

Lemma vsprintf_pieces ps : forall fuel string t o,
  wrote buffer m t o -> Forall (piece_ok buffer m) ps ->
  cstring (at_ m string) (spelled ps) ->
  apart buffer MAX_PRINT_SIZE string (Z.of_nat (length (spelled ps)) + 1) ->
  (length t + length (rendered ps) < 255)%nat ->
  (280 + length (spelled ps) < fuel)%nat ->
  exists o', loop_k fuel string (args ps) o = Some o' /\
    wrote buffer m (t ++ rendered ps) o'.
Proof.
  induction ps as [|p ps IH]; intros [|fuel] string t o Hw Hps Hs Ha Hl Hf; try lia;
    cbn [spelled rendered args flat_map] in *;
    pose proof (wrote_cstring buffer m t o _ _ Hw ltac:(lia) Ha Hs) as Hs'.
  - apply cstring_at_nil in Hs'. exists o. cbn [vsprintf_loop]. rewrite Hs'.
    by rewrite app_nil_r.
  - apply Forall_cons_iff in Hps as [Hp Hps]. rewrite !length_app in Hl, Hf.
    destruct (vsprintf_piece fuel p (spelled ps) string (args ps) t o)
      as (o1 & -> & Hw1); try done; [lia|lia|].
    rewrite app_assoc. apply IH; try done.
    + by apply cstring_at_app.
    + rewrite length_app in Ha. unfold apart in *. lia.
    + rewrite length_app. lia.
    + assert (0 < length (spell p))%nat by (destruct p; cbn; lia). lia.
Qed.
End Render.

(** *** The two copies *)

Section Copies.
Variables (c1 s1 c2 s2 : list varg -> option (Z * list varg)) (buffer : Z) (int_buffer : mem).
Hypothesis (Hc : forall ap, c1 ap = c2 ap) (Hs : forall ap, s1 ap = s2 ap).

Lemma vsprintf_loop_ext fuel : forall string ap o,
  vsprintf_loop c1 s1 buffer int_buffer fuel string ap o =
  vsprintf_loop c2 s2 buffer int_buffer fuel string ap o.
Proof.
  induction fuel as [|fuel IH]; intros string ap o; cbn [vsprintf_loop]; [done|].
  destruct (_ =? 0); [done|].
  assert (E : directive c1 s1 buffer int_buffer fuel (string + 1) ap o =
              directive c2 s2 buffer int_buffer fuel (string + 1) ap o).
  { unfold directive. destruct (padding _ _ _) as [[[v l] p]|]; cbn [mbind option_bind]; [|done].
    by rewrite Hc, Hs. }
  rewrite E. destruct (if _ =? 37 then _ else _) as [[[[stop p] ap1] o1]|];
    cbn [mbind option_bind]; [|done]. destruct (stop || _); [done|apply IH].
Qed.
End Copies.

Lemma vlibc_vsprintf_same buffer int_buffer fuel m string ap :
  vlibc_vsprintf buffer int_buffer fuel m string ap =
  vsprintf buffer int_buffer fuel m string ap.
Proof.
  unfold vlibc_vsprintf, vsprintf, vsprintf_with. erewrite vsprintf_loop_ext; [done|..];
    intros; by rewrite va_int_ulong.
Qed.

(** *** Whole calls *)

Lemma vsprintf_ok buffer int_buffer fuel m string ps :
  Forall (piece_ok buffer m) ps -> cstring (at_ m string) (spelled ps) ->
  apart buffer MAX_PRINT_SIZE string (Z.of_nat (length (spelled ps)) + 1) ->
  (length (rendered ps) < 255)%nat -> (280 + length (spelled ps) < fuel)%nat ->
  exists m', vsprintf buffer int_buffer fuel m string (args ps)
      = Some (Z.of_nat (length (rendered ps)), m') /\
    (forall i, (i < length (rendered ps))%nat ->
       m' (buffer + Z.of_nat i) = nth i (rendered ps) 0) /\
    same_outside m buffer (Z.of_nat (length (rendered ps))) m'.
Proof.
  intros Hps Hs Ha Hl Hf.
  destruct (vsprintf_pieces buffer m int_buffer ps fuel string [] (Out m 0))
    as (o & E & Hp & Hi & Ho); try done; [apply wrote_nil|].
  exists (o_mem o). cbn [app] in *. unfold vsprintf, vsprintf_with.
  bind_with E. by rewrite Hp.
Qed.

(** C8. For a format made of literal characters and conversions, with the
    arguments the conversions ask for and a text of at most 254 bytes, both
    copies of [vsprintf] write exactly the text the format stands for at the
    start of the buffer, return its length and change no other byte: decimal
    numbers with their sign before the padding, hexadecimal numbers, 64-bit
    hexadecimal numbers, characters, percent signs and strings. *)
Theorem vsprintf_renders buffer int_buffer fuel m string ps :
  Forall (piece_ok buffer m) ps -> cstring (at_ m string) (spelled ps) ->
  apart buffer MAX_PRINT_SIZE string (Z.of_nat (length (spelled ps)) + 1) ->
  (length (rendered ps) < 255)%nat -> (280 + length (spelled ps) < fuel)%nat ->
  exists m', vsprintf buffer int_buffer fuel m string (args ps)
      = Some (Z.of_nat (length (rendered ps)), m') /\
    vlibc_vsprintf buffer int_buffer fuel m string (args ps)
      = Some (Z.of_nat (length (rendered ps)), m') /\
    bytes_of (at_ m' buffer) (length (rendered ps)) = rendered ps /\
    same_outside m buffer (Z.of_nat (length (rendered ps))) m'.
Proof.
  intros. destruct (vsprintf_ok buffer int_buffer fuel m string ps) as (m' & E & Hi & Ho);
    try done. exists m'. rewrite vlibc_vsprintf_same. repeat split; try done.
  by apply bytes_of_nth.
Qed.

(** "%5d|%04x|%s%%" with -42, 0xb0b and "ok". *)
Definition demo_pieces : list piece :=
  [Conv [53] (Dec false (-42)); Lit 124; Conv [48; 52] (Hex false 0xb0b); Lit 124;
   Conv [] (Str 600 [111; 107]); Conv [] Percent].

Definition demo_format : mem :=
  mem_with (mem_with (fun _ => 7) 500 (spelled demo_pieces ++ [0])) 600 [111; 107; 0].

Lemma vsprintf_renders_witness :
  exists m', vsprintf 1000 (fun _ => 0) 300 demo_format 500 (args demo_pieces) = Some (14, m') /\
    vlibc_vsprintf 1000 (fun _ => 0) 300 demo_format 500 (args demo_pieces) = Some (14, m') /\
    bytes_of (at_ m' 1000) 14 =
      [45; 32; 32; 52; 50; 124; 48; 98; 48; 98; 124; 111; 107; 37] /\
    same_outside demo_format 1000 14 m'.
Proof.
  refine (vsprintf_renders 1000 (fun _ => 0) 300 demo_format 500 demo_pieces _ _ _ _ _).
  - assert (Forall (fun c => 0 <= c < 256) [111; 107]) by (repeat constructor; lia).
    unfold demo_pieces. repeat apply List.Forall_cons; try apply List.Forall_nil.
    1, 3: by split; [repeat constructor|].
    1, 2: cbn; lia.
    + split; [done|]. split; [apply cstringb_cstring; by vm_compute|].
      split; [done|]. split; [lia|]. right. by vm_compute.
    + by split.
  - apply cstringb_cstring. by vm_compute.
  - right. vm_compute. congruence.
  - by vm_compute; lia.
  - vm_compute. lia.
Defined.

Lemma text_bytes buffer m p : piece_ok buffer m p -> Forall (fun c => 0 <= c < 256) (piece_text p).
Proof.
  assert (Hf : forall pad sign l, Forall (fun c => 0 <= c < 256) sign ->
    Forall (fun c => 0 <= c < 256) l -> Forall (fun c => 0 <= c < 256) (field pad sign l)).
  { intros pad sign l Hs Hl. unfold field. repeat (apply Forall_app; split); try done.
    apply List.Forall_forall. intros x Hx. apply repeat_spec in Hx as ->.
    apply pad_value_byte. }
  assert (H45 : Forall (fun c => 0 <= c < 256) [45]) by (repeat constructor; lia).
  destruct p as [c|pad [i x|p x|x|x| |s l]]; cbn [piece_ok piece_text].
  - intros [Hc _]. repeat constructor; lia.
  - intros _. destruct (_ <? _); apply Hf; try done; apply numeral_bytes, digit10_byte.
  - intros _. apply Hf; [done|]. apply numeral_bytes, digit16_byte.
  - intros _. apply numeral_bytes, digit16_byte.
  - intros _. constructor; [apply u8_range|done].
  - intros _. repeat constructor; lia.
  - by intros (_ & _ & H & _).
Qed.

Lemma rendered_bytes buffer m ps :
  Forall (piece_ok buffer m) ps -> Forall (fun c => 0 <= c < 256) (rendered ps).
Proof.
  induction 1 as [|p ps Hp Hps IH]; [done|]. cbn [rendered flat_map]. apply Forall_app.
  split; [by eapply text_bytes|done].
Qed.

Lemma printk_ok `{Device W} io_base `{!Uart (W := W) io_base} buffer int_buffer fuel wf
    sr w m string ps :
  initialized sr <> 0 -> driver sr <> no_uart -> (depth io_base < wf)%nat ->
  Forall (piece_ok buffer m) ps -> cstring (at_ m string) (spelled ps) ->
  apart buffer MAX_PRINT_SIZE string (Z.of_nat (length (spelled ps)) + 1) ->
  (length (rendered ps) < 255)%nat -> (280 + length (spelled ps) < fuel)%nat ->
  exists w' m', printk io_base buffer int_buffer fuel wf sr w m string (args ps)
      = Some (Z.of_nat (length (rendered ps)), w', m') /\
    serial_printk io_base buffer int_buffer fuel wf sr w m string (args ps)
      = Some (Z.of_nat (length (rendered ps)), w', m') /\
    tx io_base w' = tx io_base w ++ crlf (rendered ps) /\ rx io_base w' = rx io_base w /\
    same_outside m buffer MAX_PRINT_SIZE m'.
Proof.
  intros Hi Hd Hwf Hps Hs Ha Hl Hf.
  destruct (vsprintf_ok buffer int_buffer fuel m string ps Hps Hs Ha Hl Hf)
    as (m' & E & Hb & Ho).
  destruct (serial_write_ok io_base wf sr w m' buffer (Z.of_nat (length (rendered ps)))
    Hi Hd Hwf ltac:(lia)) as (w' & E' & T & R).
  { intros i Hlt. specialize (Hb (Z.to_nat i) ltac:(lia)). rewrite Z2Nat.id in Hb by lia.
    rewrite Hb. pose proof (rendered_bytes buffer m ps Hps) as HB.
    rewrite List.Forall_forall in HB. apply HB, nth_In. lia. }
  exists w', m'. unfold printk, serial_printk, console_write. rewrite E.
  cbn [mbind option_bind]. rewrite E'. cbn [mbind option_bind]. split; [done|].
  split; [done|]. split.
  - rewrite T, Nat2Z.id. do 2 f_equal. by apply bytes_of_nth.
  - split; [done|]. intros a Hx. apply Ho. unfold MAX_PRINT_SIZE in Hx. lia.
Qed.

(** [printk] of such a format on an initialised port hands the text to the
    transmitter, carriage returns added, and returns its length; outside its
    own buffer no byte changes, and no received byte is lost.  [serial_printk]
    does the same. *)
Theorem printk_transmits `{Device W} io_base `{!Uart (W := W) io_base} buffer int_buffer fuel wf
    sr w m string ps :
  initialized sr <> 0 -> driver sr <> no_uart -> (depth io_base < wf)%nat ->
  Forall (piece_ok buffer m) ps -> cstring (at_ m string) (spelled ps) ->
  apart buffer MAX_PRINT_SIZE string (Z.of_nat (length (spelled ps)) + 1) ->
  (length (rendered ps) < 255)%nat -> (280 + length (spelled ps) < fuel)%nat ->
  exists w' m', printk io_base buffer int_buffer fuel wf sr w m string (args ps)
      = Some (Z.of_nat (length (rendered ps)), w', m') /\
    serial_printk io_base buffer int_buffer fuel wf sr w m string (args ps)
      = Some (Z.of_nat (length (rendered ps)), w', m') /\
    tx io_base w' = tx io_base w ++ crlf (rendered ps) /\ rx io_base w' = rx io_base w /\
    same_outside m buffer MAX_PRINT_SIZE m'.
Proof. apply printk_ok. Qed.

Lemma printk_transmits_witness :
  exists w' m', printk 0x20000000 1000 (fun _ => 0) 300 3 (Serial 1 115200 8 1 0 pl011_uart)
      (Port [] [7] true) (mem_with (fun _ => 7) 500 [37; 100; 10; 0]) 500 [Word (-7)]
      = Some (3, w', m') /\
    serial_printk 0x20000000 1000 (fun _ => 0) 300 3 (Serial 1 115200 8 1 0 pl011_uart)
      (Port [] [7] true) (mem_with (fun _ => 7) 500 [37; 100; 10; 0]) 500 [Word (-7)]
      = Some (3, w', m') /\
    tx 0x20000000 w' = [45; 55; 13; 10] /\ rx 0x20000000 w' = [7] /\
    same_outside (mem_with (fun _ => 7) 500 [37; 100; 10; 0]) 1000 256 m'.
Proof.
  refine (printk_transmits 0x20000000 1000 (fun _ => 0) 300 3
    (Serial 1 115200 8 1 0 pl011_uart) (Port [] [7] true)
    (mem_with (fun _ => 7) 500 [37; 100; 10; 0]) 500
    [Conv [] (Dec false (-7)); Lit 10] _ _ _ _ _ _ _ _);
    [done|done|cbn; lia| | |right; by vm_compute|by vm_compute; lia|vm_compute; lia].
  - repeat constructor; lia.
  - apply cstringb_cstring. by vm_compute.
Defined.

(** *** Reading a number back *)

Definition value_from (v : Z) (l : list Z) : Z := fold_left (fun v c => v * 10 + (c - 48)) l v.

Lemma numeral_value n x : 0 <= x < 10 ^ Z.of_nat n ->
  value_from 0 (numeral_ n digit10 10 x) = x.
Proof.
  revert x. induction n as [|n IH]; intros x Hx.
  { change (10 ^ Z.of_nat 0) with 1 in Hx. cbn. lia. }
  rewrite numeral_S. pose proof (div_pow_bound 10 n x ltac:(lia) Hx) as Hd.
  pose proof (Z.div_mod x 10 ltac:(lia)) as Hm.
  destruct (x / 10 =? 0) eqn:E; b2p.
  - unfold value_from, digit10. cbn [fold_left]. lia.
  - unfold value_from in *. rewrite fold_left_app, IH by done. cbn [fold_left].
    unfold digit10. lia.
Qed.

Lemma numeral_digits n x : Forall (fun c => 48 <= c <= 57) (numeral_ n digit10 10 x).
Proof.
  assert (Hd : forall x, Forall (fun c => 48 <= c <= 57) [digit10 x]).
  { intros y. constructor; [|done]. unfold digit10. pose proof (Z.mod_pos_bound y 10). lia. }
  revert x. induction n as [|n IH]; intros x; cbn [numeral_]; [done|].
  destruct (_ =? 0); [done|]. apply Forall_app. by split.
Qed.

Lemma value_from_le l : Forall (fun c => 48 <= c <= 57) l -> forall v, 0 <= v ->
  v <= value_from v l.
Proof.
  unfold value_from. induction 1 as [|c l Hc Hl IH]; intros v Hv; cbn [fold_left]; [lia|].
  specialize (IH (v * 10 + (c - 48)) ltac:(lia)). lia.
Qed.

Lemma atoi_loop_value m p l : Forall (fun c => 48 <= c <= 57) l -> forall fuel ptr v,
  cstring (at_ m (p + ptr)) l -> 0 <= v -> value_from v l < 2 ^ 31 -> (length l < fuel)%nat ->
  atoi_loop fuel (at_ m p) ptr v = Some (value_from v l).
Proof.
  induction 1 as [|c l Hc Hl IH]; intros [|fuel] ptr v Hs Hv Hb Hf; cbn [length] in *;
    try lia; cbn [atoi_loop].
  - apply cstring_at_nil in Hs. change (at_ m p ptr) with (m (p + ptr)). by rewrite Hs.
  - apply cstring_at_cons in Hs as (Hn & E & Hs).
    change (at_ m p ptr) with (m (p + ptr)). rewrite E, (proj2 (Z.eqb_neq c 0)) by done.
    change (value_from v (c :: l)) with (value_from (v * 10 + (c - 48)) l) in *.
    pose proof (value_from_le l Hl (v * 10 + (c - 48)) ltac:(lia)).
    rewrite (s32_id (v * 10)), s32_id by lia.
    apply IH; [|lia|done|lia]. by rewrite Z.add_assoc.
Qed.

(** C40. [sprintf] with "%d" and [atoi] of the C library are inverse on the
    numbers from 0 to 2^31-1. *)
Theorem atoi_sprintf int_buffer fuel m string fmt x :
  cstring (at_ m fmt) [37; 100] -> apart string MAX_PRINT_SIZE fmt 3 ->
  0 <= x < 2 ^ 31 -> (282 < fuel)%nat ->
  exists n m', vlibc_sprintf int_buffer fuel m string fmt [Word x] = Some (n, m') /\
    atoi fuel (at_ m' string) = Some x.
Proof.
  intros Hs Ha Hx Hf. unfold vlibc_sprintf. rewrite vlibc_vsprintf_same.
  assert (Et : rendered [Conv [] (Dec false x)] = numeral_ 20 digit10 10 x).
  { cbn [rendered flat_map piece_text]. rewrite u32_id by lia. rewrite (proj2 (Z.ltb_lt x _)) by lia.
    rewrite app_nil_r. unfold field. change (pad_len_of []) with 0.
    by replace (Z.to_nat (0 - _)) with 0%nat by lia. }
  pose proof (numeral_length 20 digit10 10 x) as Hk.
  destruct (vsprintf_ok string int_buffer fuel m fmt [Conv [] (Dec false x)])
    as (m' & E & Hi & Ho); [by repeat constructor|done|done|rewrite Et; lia|cbn; lia|].
  bind_with E. rewrite Et in *. set (l := numeral_ 20 digit10 10 x) in *.
  eexists _, _. split; [done|]. pose proof (numeral_digits 20 x) as Hd. fold l in Hd.
  rewrite <- (numeral_value 20 x) at 1 by lia. fold l.
  apply (atoi_loop_value _ string l Hd); [|lia| |lia].
  - rewrite Z.add_0_r. apply cstring_intro.
    + revert Hd. apply List.Forall_impl. intros c. lia.
    + intros i Hlt. unfold at_. rewrite upd_ne by lia. by apply Hi.
    + unfold at_. apply upd_eq.
  - unfold l. rewrite numeral_value by lia. lia.
Qed.

Lemma atoi_sprintf_witness :
  exists n m', vlibc_sprintf (fun _ => 0) 300 (mem_with (fun _ => 7) 500 [37; 100; 0]) 1000 500
      [Word 2024] = Some (n, m') /\
    atoi 300 (at_ m' 1000) = Some 2024.
Proof.
  apply (atoi_sprintf (fun _ => 0) 300 (mem_with (fun _ => 7) 500 [37; 100; 0]) 1000 500 2024);
    [apply cstringb_cstring; by vm_compute|right; unfold MAX_PRINT_SIZE; lia|lia|lia].
Defined.

(** [atoi] takes a sign for a digit. *)
Lemma atoi_negative : atoi 10 (at_ (mem_with (fun _ => 7) 0 [45; 53; 0]) 0) = Some (-25).
Proof. by vm_compute. Qed.

(** The inner loops stop at 256 bytes but the routine goes on: after a string
    that leaves room for five bytes, a padded number is written past the
    buffer, and the next directive follows. *)
Lemma vsprintf_overflow :
  option_map fst (vsprintf 10000 (fun _ => 0) 1000
    (mem_with (mem_with (fun _ => 0) 500 [37; 115; 37; 57; 100; 37; 115]) 600 (repeat 65 251))
    500 [Word 600; Word 5; Word 600]) = Some 508.
Proof. by vm_compute. Qed.

(** A lone [%l] at the end of a format moves the pointer past the terminator. *)
Lemma vsprintf_past_format :
  option_map fst (vsprintf 10000 (fun _ => 0) 100
    (mem_with (fun _ => 0) 500 [37; 108; 0; 65; 66; 67]) 500 [Quad 1]) = Some 3.
Proof. by vm_compute. Qed.
