(* ===== verification/I2c.v ===== *)
(** * The I2C bus: kernel/drivers/i2c/bcm2835_i2c.c and i2c.c

    Transfers are polled, so the loops take fuel; the bytes come from and go to
    the data register of the controller.  [struct i2c_core] holds function
    pointers that [i2c_init] sets; here it names the driver they belong to.
    [delay] burns cycles and is left out, and so are the two interrupt
    routines, which are empty in the source. *)

From stdpp Require Import base list numbers.
From Stdlib Require Import ZArith Lia.
From S2P Require Import Prelude CString Mmio Gpio Irq Serial.

Definition I2C1_BASE : Z := 0x804000.
Definition I2C1_C : Z := I2C1_BASE + 0x0.
Definition I2C1_S : Z := I2C1_BASE + 0x4.
Definition I2C1_DLEN : Z := I2C1_BASE + 0x8.
Definition I2C1_A : Z := I2C1_BASE + 0xC.
Definition I2C1_FIFO : Z := I2C1_BASE + 0x10.
Definition I2C1_CLKT : Z := I2C1_BASE + 0x1c.
Definition I2C_C_I2CEN : Z := 2 ^ 15.
Definition I2C_C_INTR : Z := 2 ^ 10.
Definition I2C_C_INTT : Z := 2 ^ 9.
Definition I2C_C_INTD : Z := 2 ^ 8.
Definition I2C_C_ST : Z := 2 ^ 7.
Definition I2C_C_CLEAR : Z := 3 * 2 ^ 4.
Definition I2C_C_READ : Z := 1.
Definition I2C_S_CLKT : Z := 2 ^ 9.
Definition I2C_S_ERR : Z := 2 ^ 8.
Definition I2C_S_RXD : Z := 2 ^ 5.
Definition I2C_S_TXW : Z := 2 ^ 2.
Definition I2C_S_DONE : Z := 2 ^ 1.
Definition I2C_A_ADDR : Z := 0x7F.
Definition GPIO_GPFSEL_ALT0 : Z := 4.
Definition GPIO_GPPUD_PULLUP : Z := 2.
Definition I2C_BCM2835 : Z := 0.

(** The driver the function pointers lead to. *)
Inductive i2c_driver := no_i2c | bcm2835_i2c1.

Record i2c_core := I2cCore { i2c_initialized : Z; i2c_functions : i2c_driver }.

(** The static object before [i2c_init]. *)
Definition i2c_bss : i2c_core := I2cCore 0 no_i2c.

Section I2c.
Context `{Device W} (io_base : Z).

(** ** bcm2835_i2c.c *)

Definition XFER_DONE (w : W) : bool * W :=
  let '(v, w1) := bcm2835_read io_base w I2C1_S in (negb (Z.land v I2C_S_DONE =? 0), w1).

(** [gpio_reserved] and the board are passed and returned. *)
Definition bcm2835_i2c1_gpio_setup (gpio_reserved : Z) (w : W) : Z * W :=
  let res1 := snd (gpio_request gpio_reserved 2) in
  let res2 := snd (gpio_request res1 3) in
  let '(old, w1) := bcm2835_read io_base w GPIO_GPFSEL0 in
  let old1 := Z.land old (not32 (shl32 63 6)) in
  let old2 := Z.lor old1 (Z.lor (shl32 GPIO_GPFSEL_ALT0 6) (shl32 GPIO_GPFSEL_ALT0 9)) in
  let w2 := bcm2835_write io_base w1 GPIO_GPFSEL0 old2 in
  let w3 := bcm2835_write io_base w2 GPIO_GPPUD GPIO_GPPUD_PULLUP in
  let w4 := bcm2835_write io_base w3 GPIO_GPPUDCLK0 (Z.lor (shl32 1 2) (shl32 1 3)) in
  let w5 := bcm2835_write io_base w4 GPIO_GPPUD 0 in
  (res2, bcm2835_write io_base w5 GPIO_GPPUDCLK0 0).

Definition i2c1_setup_xfer (w : W) (addr count : Z) : W :=
  let w1 := bcm2835_write io_base w I2C1_A (Z.land addr I2C_A_ADDR) in
  let w2 := bcm2835_write io_base w1 I2C1_S
              (Z.lor (Z.lor I2C_S_ERR I2C_S_CLKT) I2C_S_DONE) in
  let w3 := bcm2835_write io_base w2 I2C1_DLEN count in
  let '(old, w4) := bcm2835_read io_base w3 I2C1_C in
  let old1 := Z.land old (not32 I2C_C_READ) in
  let old2 := Z.lor old1 I2C_C_CLEAR in
  bcm2835_write io_base w4 I2C1_C old2.

(** [while (bytes_received < count && (status & RXD))]: the comparison is
    unsigned. *)
Fixpoint receive_fifo (fuel : nat) (w : W) (m : mem) (buf bytes_received count : Z)
    : option (W * mem * Z * Z) :=
  match fuel with
  | O => None
  | S f =>
      if u32 bytes_received <? count then
        let '(status, w1) := bcm2835_read io_base w I2C1_S in
        if negb (Z.land status I2C_S_RXD =? 0) then
          let '(v, w2) := bcm2835_read io_base w1 I2C1_FIFO in
          receive_fifo f w2 (upd m buf (Z.land v 0xff)) (u32 (buf + 1))
            (s32 (bytes_received + 1)) count
        else Some (w1, m, buf, bytes_received)
      else Some (w, m, buf, bytes_received)
  end.

(** [while (!XFER_DONE(I2C1)) { ... }] *)
Fixpoint receive_loop (fuel : nat) (w : W) (m : mem) (buf bytes_received count : Z)
    : option (W * mem * Z * Z) :=
  match fuel with
  | O => None
  | S f =>
      let '(finished, w1) := XFER_DONE w in
      if (finished : bool) then Some (w1, m, buf, bytes_received)
      else
        '(w2, m2, buf2, n2) ← receive_fifo fuel w1 m buf bytes_received count;
        receive_loop f w2 m2 buf2 n2 count
  end.

Definition bcm2835_i2c1_read (fuel : nat) (w : W) (m : mem) (address buf count : Z)
    : option (Z * W * mem) :=
  let w1 := i2c1_setup_xfer w address count in
  let '(old, w2) := bcm2835_read io_base w1 I2C1_C in
  let w3 := bcm2835_write io_base w2 I2C1_C (Z.lor old (Z.lor I2C_C_ST I2C_C_READ)) in
  '(w4, m4, buf4, n4) ← receive_loop fuel w3 m buf 0 count;
  '(w5, m5, buf5, n5) ← receive_fifo fuel w4 m4 buf4 n4 count;
  let '(old, w6) := bcm2835_read io_base w5 I2C1_S in
  let old1 := Z.lor old I2C_S_DONE in
  let w7 := bcm2835_write io_base w6 I2C1_S old1 in
  if negb (Z.land old1 I2C_S_ERR =? 0) then Some (-1, w7, m5)
  else if negb (Z.land old1 I2C_S_CLKT =? 0) then Some (-2, w7, m5)
  else Some (n5, w7, m5).

(** [while (status & TXW)]: [count] is not looked at. *)
Fixpoint send_fifo (fuel : nat) (w : W) (m : mem) (buf bytes_sent : Z) : option (W * Z * Z) :=
  match fuel with
  | O => None
  | S f =>
      let '(status, w1) := bcm2835_read io_base w I2C1_S in
      if negb (Z.land status I2C_S_TXW =? 0) then
        send_fifo f (bcm2835_write io_base w1 I2C1_FIFO (m buf)) m (u32 (buf + 1))
          (s32 (bytes_sent + 1))
      else Some (w1, buf, bytes_sent)
  end.

Fixpoint send_loop (fuel : nat) (w : W) (m : mem) (buf bytes_sent : Z) : option (W * Z * Z) :=
  match fuel with
  | O => None
  | S f =>
      let '(finished, w1) := XFER_DONE w in
      if (finished : bool) then Some (w1, buf, bytes_sent)
      else '(w2, buf2, n2) ← send_fifo fuel w1 m buf bytes_sent; send_loop f w2 m buf2 n2
  end.

Definition bcm2835_i2c1_write (fuel : nat) (w : W) (m : mem) (address buf count : Z)
    : option (Z * W) :=
  let w1 := i2c1_setup_xfer w address count in
  let '(old, w2) := bcm2835_read io_base w1 I2C1_C in
  let w3 := bcm2835_write io_base w2 I2C1_C (Z.lor old I2C_C_ST) in
  '(w4, buf4, n4) ← send_loop fuel w3 m buf 0;
  let '(old, w5) := bcm2835_read io_base w4 I2C1_S in
  let old1 := Z.lor old I2C_S_DONE in
  let w6 := bcm2835_write io_base w5 I2C1_S old1 in
  if negb (Z.land old1 I2C_S_ERR =? 0) then Some (-1, w6)
  else if negb (Z.land old1 I2C_S_CLKT =? 0) then Some (-1, w6)
  else Some (n4, w6).

Definition bcm2835_i2c1_init (i2c : i2c_core) (gpio_reserved : Z) (w : W)
    : Z * i2c_core * Z * W :=
  let '(old, w1) := bcm2835_read io_base w I2C1_C in
  let old1 := Z.land old (not32 I2C_C_I2CEN) in
  let w2 := bcm2835_write io_base w1 I2C1_C old1 in
  let old2 := Z.land old1 (not32 (Z.lor (Z.lor I2C_C_INTD I2C_C_INTR) I2C_C_INTT)) in
  let w3 := bcm2835_write io_base w2 I2C1_C old2 in
  let w4 := bcm2835_write io_base w3 I2C1_CLKT 0 in
  let w5 := bcm2835_write io_base w4 I2C1_C (Z.lor old2 I2C_C_I2CEN) in
  let '(res, w6) := bcm2835_i2c1_gpio_setup gpio_reserved w5 in
  (0, I2cCore (i2c_initialized i2c) bcm2835_i2c1, res, w6).

(** ** i2c.c *)

Definition i2c_init (i2c : i2c_core) (gpio_reserved : Z) (w : W) (type : Z)
    : Z * i2c_core * Z * W :=
  let '(result, i2c1, res, w1) :=
    if type =? I2C_BCM2835 then bcm2835_i2c1_init i2c gpio_reserved w
    else (1, i2c, gpio_reserved, w) in
  if negb (result =? 0) then (- ENODEV, i2c1, res, w1)
  else (0, I2cCore 1 (i2c_functions i2c1), res, w1).

(** The address is a [uint16_t]; a call through NULL does not return. *)
Definition i2c_read (i2c : i2c_core) (fuel : nat) (w : W) (m : mem) (address buf count : Z)
    : option (Z * W * mem) :=
  match i2c_functions i2c with
  | bcm2835_i2c1 => bcm2835_i2c1_read fuel w m (u16 address) buf count
  | no_i2c => None
  end.

Definition i2c_write (i2c : i2c_core) (fuel : nat) (w : W) (m : mem) (address buf count : Z)
    : option (Z * W) :=
  match i2c_functions i2c with
  | bcm2835_i2c1 => bcm2835_i2c1_write fuel w m (u16 address) buf count
  | no_i2c => None
  end.
End I2c.

(** ** What the controller promises

    The bytes a slave still delivers in the running transfer, how often the
    status register is loaded before it reports the end, and the two error
    flags.  Data is announced only when there is some, and all that is left is
    announced once the transfer has ended. *)
Section Laws.
Context `{Device W} (io_base : Z).

Class Bsc := {
  fifo : W -> list Z;
  polls : W -> nat;
  faults : W -> bool * bool;
  bsc_status w :
    let '(v, w') := bcm2835_read io_base w I2C1_S in
    fifo w' = fifo w /\ polls w' = Nat.pred (polls w) /\ faults w' = faults w /\
    (Z.land v I2C_S_DONE = 0 <-> polls w <> 0%nat) /\
    (Z.land v I2C_S_RXD <> 0 -> fifo w <> []) /\
    (polls w = 0%nat -> fifo w <> [] -> Z.land v I2C_S_RXD <> 0) /\
    (Z.land v I2C_S_ERR =? 0) = negb (fst (faults w)) /\
    (Z.land v I2C_S_CLKT =? 0) = negb (snd (faults w));
  bsc_take w b r : fifo w = b :: r ->
    let '(v, w') := bcm2835_read io_base w I2C1_FIFO in
    Z.land v 0xff = b /\ fifo w' = r /\ polls w' = polls w /\ faults w' = faults w }.

(** The bytes [t] lie at [buf]; nothing else has changed. *)
Definition received (m0 : mem) (buf : Z) (t : list Z) (m : mem) : Prop :=
  (forall i, (i < length t)%nat -> m (buf + Z.of_nat i) = nth i t 0) /\
  same_outside m0 buf (Z.of_nat (length t)) m.

Lemma received_snoc m0 buf t b m :
  received m0 buf t m ->
  received m0 buf (t ++ [b]) (upd m (buf + Z.of_nat (length t)) b).
Proof.
  intros [Hi Ho]. split; rewrite length_app; cbn [length].
  - intros i Hlt. destruct (decide (i < length t)%nat).
    + rewrite app_nth1, upd_ne by lia. by apply Hi.
    + replace i with (length t) by lia. rewrite app_nth2, Nat.sub_diag by lia. apply upd_eq.
  - intros a Ha. rewrite upd_ne by lia. apply Ho. lia.
Qed.

Context `{!Bsc} (m0 : mem) (buf count : Z).
Context (Hcount : 0 <= count < 2 ^ 31) (Hbuf : 0 <= buf /\ buf + count < 2 ^ 32).

(** What has been taken so far, from [l]. *)
Record taken (l t : list Z) (w : W) (m : mem) : Prop := {
  tk_split : l = t ++ fifo w;
  tk_count : Z.of_nat (length t) <= count;
  tk_mem : received m0 buf t m }.

Lemma receive_fifo_ok l fl fuel : forall w m t,
  taken l t w m -> faults w = fl -> (length (fifo w) < fuel)%nat ->
  exists w' m' t', receive_fifo io_base fuel w m (buf + Z.of_nat (length t))
      (Z.of_nat (length t)) count
      = Some (w', m', buf + Z.of_nat (length t'), Z.of_nat (length t')) /\
    taken l t' w' m' /\ faults w' = fl /\ (polls w' <= polls w)%nat /\
    (length (fifo w') <= length (fifo w))%nat /\
    (polls w = 0%nat -> Z.of_nat (length t') = count \/ fifo w' = []).
Proof.
  induction fuel as [|fuel IH]; intros w m t T F Hf; [lia|]. cbn [receive_fifo].
  destruct T as [Hs Hc Hm]. rewrite u32_id by lia.
  destruct (Z.of_nat (length t) <? count) eqn:E; b2p.
  2:{ exists w, m, t. split; [done|]. split; [done|]. split; [done|].
      split; [lia|]. split; [lia|]. left. lia. }
  pose proof (bsc_status w) as HS. destruct (bcm2835_read io_base w I2C1_S) as [v w1].
  destruct HS as (E1 & E2 & E3 & _ & Hr1 & Hr2 & _).
  destruct (Z.land v I2C_S_RXD =? 0) eqn:Er; b2p; cbn [negb].
  - exists w1, m, t. split; [done|]. split; [by split; rewrite ?E1|].
    split; [congruence|]. split; [lia|]. split; [by rewrite E1|].
    intros Hp. right. rewrite E1. destruct (fifo w); [done|]. by destruct (Hr2 Hp).
  - destruct (fifo w) as [|b r] eqn:Ef; [by destruct Hr1|].
    pose proof (bsc_take w1 b r E1) as HT.
    destruct (bcm2835_read io_base w1 I2C1_FIFO) as [x w2].
    destruct HT as (-> & E4 & E5 & E6). cbn [length] in Hf.
    rewrite (u32_id (buf + _ + 1)), s32_id by lia.
    replace (Z.of_nat (length t) + 1) with (Z.of_nat (length (t ++ [b])))
      by (rewrite length_app; cbn; lia).
    replace (buf + Z.of_nat (length t) + 1) with (buf + Z.of_nat (length (t ++ [b])))
      by (rewrite length_app; cbn; lia).
    destruct (IH w2 (upd m (buf + Z.of_nat (length t)) b) (t ++ [b]))
      as (w' & m' & t' & -> & T' & F' & P' & L' & D').
    + split; [by rewrite E4, <- app_assoc|rewrite length_app; cbn; lia|].
      by apply received_snoc.
    + congruence.
    + rewrite E4. lia.
    + exists w', m', t'. split; [done|]. split; [done|]. split; [done|].
      split; [lia|]. rewrite E4 in L'. cbn [length]. split; [lia|].
      intros Hp. apply D'. lia.
Qed.

Lemma i2c_receive_loop_ok l fl fuel : forall w m t,
  taken l t w m -> faults w = fl -> (length (fifo w) + polls w < fuel)%nat ->
  exists w' m' t', receive_loop io_base fuel w m (buf + Z.of_nat (length t))
      (Z.of_nat (length t)) count
      = Some (w', m', buf + Z.of_nat (length t'), Z.of_nat (length t')) /\
    taken l t' w' m' /\ faults w' = fl /\ polls w' = 0%nat /\
    (length (fifo w') <= length (fifo w))%nat.
Proof.
  induction fuel as [|fuel IH]; intros w m t T F Hf; [lia|]. cbn [receive_loop].
  unfold XFER_DONE. pose proof (bsc_status w) as HS.
  destruct (bcm2835_read io_base w I2C1_S) as [v w1].
  destruct HS as (E1 & E2 & E3 & Hd & _).
  destruct (Z.land v I2C_S_DONE =? 0) eqn:Ed; b2p; cbn [negb].
  - apply Hd in Ed. destruct T as [Hs Hc Hm].
    destruct (receive_fifo_ok l fl (S fuel) w1 m t)
      as (w2 & m2 & t2 & -> & T2 & F2 & P2 & L2 & _);
      [by split; rewrite ?E1|congruence|rewrite E1; lia|].
    cbn [mbind option_bind]. rewrite E1 in L2.
    destruct (IH w2 m2 t2 T2 F2) as (w' & m' & t' & -> & T' & F' & P' & L'); [lia|].
    exists w', m', t'. repeat split; try done; try apply T'. lia.
  - assert (polls w = 0%nat) by (destruct (polls w); [done|]; by destruct Ed; apply Hd).
    exists w1, m, t. split; [done|]. destruct T as [Hs Hc Hm].
    split; [by split; rewrite ?E1|]. split; [congruence|]. split; [lia|by rewrite E1].
Qed.
End Laws.

(** The board once the transfer has been started. *)
Definition i2c1_started `{Device W} (io_base : Z) (w : W) (address count dir : Z) : W :=
  let '(old, w1) := bcm2835_read io_base (i2c1_setup_xfer io_base w address count) I2C1_C in
  bcm2835_write io_base w1 I2C1_C (Z.lor old dir).

(** C33. With a controller that ends the transfer and announces its data, reading
    [count] bytes from a slave that delivers the bytes [l] puts the first
    [count] of them, or all when they are fewer, into the buffer in order,
    writes no other byte, and returns their number, or the code of the error
    the controller reports. *)
Theorem i2c_read_delivers `{Device W} io_base `{!Bsc (W := W) io_base} i2c fuel w m address buf count :
  i2c_functions i2c = bcm2835_i2c1 ->
  0 <= count < 2 ^ 31 -> 0 <= buf -> buf + count < 2 ^ 32 ->
  let w0 := i2c1_started io_base w (u16 address) count (Z.lor I2C_C_ST I2C_C_READ) in
  let got := take (Z.to_nat count) (fifo io_base w0) in
  (length (fifo io_base w0) + polls io_base w0 < fuel)%nat ->
  exists w' m', i2c_read io_base i2c fuel w m address buf count = Some
      (if fst (faults io_base w0) then -1 else if snd (faults io_base w0) then -2
       else Z.of_nat (length got), w', m') /\
    bytes_of (at_ m' buf) (length got) = got /\
    same_outside m buf (Z.of_nat (length got)) m'.
Proof.
  intros Hi Hc Hb Hbc w0 got Hf. unfold i2c_read. rewrite Hi. unfold bcm2835_i2c1_read.
  unfold w0, i2c1_started in *. clear w0.
  destruct (bcm2835_read io_base _ I2C1_C) as [old w2].
  set (w0 := bcm2835_write _ _ _ _) in *.
  assert (T0 : taken io_base m buf count (fifo io_base w0) [] w0 m).
  { split; [done|cbn; lia|]. split; [intros i Hlt; cbn in Hlt; lia|done]. }
  destruct (i2c_receive_loop_ok io_base m buf count Hc (conj Hb Hbc) _ _ fuel w0 m [] T0 eq_refl Hf)
    as (w4 & m4 & t4 & E4 & T4 & F4 & P4 & L4).
  cbn [length] in E4. change (Z.of_nat 0) with 0 in E4. rewrite Z.add_0_r in E4.
  rewrite E4. cbn [mbind option_bind].
  destruct (receive_fifo_ok io_base m buf count Hc (conj Hb Hbc) _ _ fuel w4 m4 t4 T4 F4)
    as (w5 & m5 & t5 & -> & T5 & F5 & P5 & L5 & D5); [lia|].
  cbn [mbind option_bind]. specialize (D5 P4). destruct T5 as [Hs Hn [Hm Ho]].
  assert (Et : got = t5).
  { unfold got. rewrite Hs. destruct D5 as [D5|D5].
    - rewrite <- D5, Nat2Z.id, take_app_length. done.
    - rewrite D5, app_nil_r. apply take_ge. lia. }
  pose proof (bsc_status io_base w5) as HS. destruct (bcm2835_read io_base w5 I2C1_S) as [v w6].
  destruct HS as (_ & _ & _ & _ & _ & _ & He & Hk). rewrite F5 in He, Hk.
  assert (Eb : forall k, Z.land I2C_S_DONE k = 0 ->
    Z.land (Z.lor v I2C_S_DONE) k = Z.land v k).
  { intros k Hk0. by rewrite Z.land_lor_distr_l, Hk0, Z.lor_0_r. }
  rewrite !Eb, He, Hk, !negb_involutive, Et by done.
  eexists _, m5. split; [by destruct (fst _), (snd _)|]. split; [|done].
  by apply bytes_of_nth.
Qed.

(** A controller that answers a started read with what its slave holds, one
    busy poll before the end; a write is announced as possible [room] times. *)
Record bus := Bus {
  bus_slave : list Z;
  bus_fifo : list Z;
  bus_polls : nat;
  bus_room : nat;
  bus_sent : list Z }.

#[global] Instance bus_device : Device bus := {
  mmio_read b a :=
    if a =? 0x20804004 then
      ((if Nat.eqb (bus_polls b) 0 then 2 else 0) +
       (if Nat.eqb (bus_room b) 0 then 0 else 4) +
       match bus_fifo b with [] => 0 | _ => 32 end,
       Bus (bus_slave b) (bus_fifo b) (Nat.pred (bus_polls b)) (bus_room b) (bus_sent b))
    else if a =? 0x20804010 then
      match bus_fifo b with
      | x :: r => (u8 x, Bus (bus_slave b) r (bus_polls b) (bus_room b) (bus_sent b))
      | [] => (0, b)
      end
    else (0, b);
  mmio_write b a v :=
    if (a =? 0x20804000) && negb (Z.land v 128 =? 0) then
      Bus (bus_slave b) (bus_slave b) 1 (bus_room b) (bus_sent b)
    else if a =? 0x20804010 then
      Bus (bus_slave b) (bus_fifo b) (bus_polls b) (Nat.pred (bus_room b)) (bus_sent b ++ [v])
    else b }.

#[global] Instance bus_bsc : Bsc (W := bus) 0x20000000.
Proof.
  refine {| fifo b := map u8 (bus_fifo b); polls := bus_polls; faults _ := (false, false) |}.
  - intros [s f p r t].
    change (bcm2835_read 0x20000000 (Bus s f p r t) I2C1_S)
      with (mmio_read (Bus s f p r t) 0x20804004).
    cbn [mmio_read bus_device Z.eqb Pos.eqb bus_polls bus_room bus_fifo bus_slave bus_sent fst snd].
    split; [done|]. split; [done|]. split; [done|].
    destruct p, r, f; cbn [Nat.eqb map]; repeat split; intros; congruence || by vm_compute.
  - intros [s f p r t] b l E. cbn [bus_fifo] in E. destruct f as [|x f]; [done|].
    cbn in E. injection E as <- <-.
    change (bcm2835_read 0x20000000 (Bus s (x :: f) p r t) I2C1_FIFO)
      with (u8 x, Bus s f p r t).
    pose proof (u8_range x). split; [|done].
    change 0xff with (Z.ones 8). by rewrite Z.land_ones, Z.mod_small by lia.
Defined.

Lemma i2c_read_delivers_witness :
  exists w' m', i2c_read 0x20000000 (I2cCore 1 bcm2835_i2c1) 10
      (Bus [16; 32; 48; 64] [] 0 0 []) (fun _ => 7) 0x52 1000 3 = Some (3, w', m') /\
    bytes_of (at_ m' 1000) 3 = [16; 32; 48] /\ same_outside (fun _ => 7) 1000 3 m'.
Proof.
  refine (i2c_read_delivers 0x20000000 (I2cCore 1 bcm2835_i2c1) 10
    (Bus [16; 32; 48; 64] [] 0 0 []) (fun _ => 7) 0x52 1000 3 _ _ _ _ _);
    [done|lia|lia|lia|vm_compute; lia].
Defined.

(** A write of one byte to a controller with room for three sends three: the
    two bytes behind the buffer go out as well. *)
Lemma i2c_write_past_count :
  option_map (fun r => (fst r, bus_sent (snd r)))
    (i2c_write 0x20000000 (I2cCore 1 bcm2835_i2c1) 10 (Bus [] [] 0 3 [])
       (mem_with (fun _ => 0) 1000 [1; 2; 3; 4]) 0x52 1000 1) = Some (3, [1; 2; 3]).
Proof. by vm_compute. Qed.
