(* ===== verification/Exec.v ===== *)
(** * Running programs: kernel/processes/exec.c, idle_task.c and userspace.c

    [execve] replaces the program of the current process: a block for the file
    and one for the stack, the arguments copied to the top of the stack, and
    the registers the new program starts with.  The kernel keeps the strings of
    its messages in its image; [str_idle] and [str_userspace] are the addresses
    of the two formats printed here.  The idle loop and the switch to user mode
    are assembly and take no part in the state. *)

From stdpp Require Import base list numbers gmap.
From Stdlib Require Import ZArith Lia.
From S2P Require Import Prelude ArmMemset CString PageAlloc Romfs Process Sched Mmio Gpio Serial Console Files Printk.

(** [while(argv[argc]!=0) argc++;] *)
Fixpoint count_args (fuel : nat) (m : mem) (argv argc : Z) : option Z :=
  match fuel with
  | O => None
  | S f => if negb (load32 m (argv + 4 * argc) =? 0) then count_args f m argv (argc + 1)
           else Some argc
  end.

(** The room reserved for the arguments; [argv[argc]] is NULL, so that
    [strlen] runs from address 0. *)
Definition argv_room (fuel : nat) (m : mem) (argv argc : Z) : option Z :=
  last ← strlen fuel (at_ m (load32 m (argv + 4 * argc)));
  let argv_length := s32 ((argc + 1) * 4
    + (load32 m (argv + 4 * (argc - 1)) - load32 m argv) + last + 1) in
  Some ((Z.quot argv_length 8 + 1) * 8).

(** [for(i=0;i<argc;i++)]: [n] arguments left. *)
Fixpoint argv_loop (n fuel : nat) (m : mem) (argv i stack_argv argv_ptr : Z) : option mem :=
  match n with
  | O => Some m
  | S n' =>
      let m1 := store32 m (stack_argv + 4 * i) argv_ptr in
      l1 ← strlen fuel (at_ m1 (load32 m1 (argv + 4 * i)));
      let '(m2, ptr) := strncpy m1 argv_ptr (load32 m1 (argv + 4 * i)) (l1 + 1) in
      l2 ← strlen fuel (at_ m2 (load32 m2 (argv + 4 * i)));
      argv_loop n' fuel m2 argv (i + 1) stack_argv (u32 (ptr + (l2 + 1)))
  end.

(** [argc], [argv_location] and the memory. *)
Definition setup_argv (fuel : nat) (m : mem) (argv stack_end : Z) : option (Z * Z * mem) :=
  if negb (argv =? 0) then
    argc ← count_args fuel m argv 0;
    room ← argv_room fuel m argv argc;
    let argv_location := u32 (stack_end - room) in
    let argv_ptr := u32 (argv_location + 4 * (argc + 2)) in
    let m1 := upd m argv_ptr 0 in
    m2 ← argv_loop (Z.to_nat argc) fuel m1 argv 0 argv_location argv_ptr;
    Some (argc, argv_location, m2)
  else Some (0, stack_end, m).

(** The fields of the block set once everything is in place. *)
Definition exec_pcb (argc argv_location stack_page stack_size binary_start size : Z) (q : pcb)
    : pcb :=
  let q := set_user_r (<[13%nat := argv_location]> (user_r q)) q in
  let q := set_stacksize stack_size (set_stack stack_page q) in
  let q := set_user_r (<[0%nat := argc]> (user_r q)) q in
  let q := set_user_r (<[1%nat := argv_location]> (user_r q)) q in
  let q := set_text binary_start (set_user_pc binary_start q) in
  set_textsize size q.

Section Exec.
Context `{MemFill} (rd : ramdisk) (fl : flocals).

(** [stat_info] is the address of the local object. *)
Definition execve (fuel rf : nat) (stat_info : Z) (f : files) (s : kstate)
    (filename argv envp : Z) : option (Z * kstate) :=
  '(inode, s1) ← get_inode_k rd fl fuel rf f s filename;
  if inode <? 0 then Some (inode, s1)
  else
    '(result, m) ← romfs_stat rd (fl_romfs fl) rf (k_mem s1) inode stat_info;
    let s2 := with_k_mem m s1 in
    if result <? 0 then Some (result, s2)
    else
      let size := s32 (load32 m (stat_info + st_size)) in
      let stack_size := DEFAULT_USER_STACK_SIZE in
      '(binary_start, a1) ← memory_allocate (k_alloc s2) (u32 size);
      '(stack_page, a2) ← memory_allocate a1 (u32 stack_size);
      let s3 := with_k_alloc a2 s2 in
      if (binary_start =? 0) || (stack_page =? 0) then Some (- ENOMEM, s3)
      else
        '(_, m4) ← romfs_read_file rd (fl_romfs fl) rf (k_mem s3) inode 0 binary_start (u32 size);
        let s4 := with_k_mem m4 s3 in
        s5 ← upd_pcb (current_process s4)
               (fun q => set_name (strlcpy_name m4 filename 32 (name q)) q) s4;
        '(argc, argv_location, m6) ← setup_argv fuel (k_mem s5) argv (stack_page + stack_size);
        s6 ← upd_pcb (current_process s5)
               (exec_pcb argc argv_location stack_page stack_size binary_start (u32 size))
               (with_k_mem m6 s5);
        Some (argc, s6).

(** ** idle_task.c *)

(** The addresses of the routines a block is pointed at. *)
Record entry_points := Entry { idle_task : Z; enter_userspace : Z }.

Definition idle_name : list Z := [105; 100; 108; 101; 0].

(** [strncpy(idle_process->name,"idle",5)] replaces the first five bytes. *)
Definition idle_pcb (e : entry_points) (now stack_page : Z) (q : pcb) : pcb :=
  let q := set_user_pc (idle_task e) (set_text (idle_task e) q) in
  let q := set_total_time 0 (set_running 1 q) in
  let q := set_last_scheduled (s32 now) (set_start_time (s32 now) q) in
  let q := set_stack stack_page q in
  let q := set_user_r (<[13%nat := u32 (stack_page + 4096)]> (user_r q)) q in
  let q := set_name (idle_name ++ drop 5 (name q)) q in
  let q := set_kernel_state (<[14%nat := enter_userspace e]> (kernel_state q)) q in
  set_status PROCESS_STATUS_READY q.

(** What [printk] needs besides its arguments: its frame and the fuel. *)
Record print_env := PrintEnv {
  pe_buffer : Z;
  pe_int_buffer : mem;
  pe_fuel : nat;
  pe_wf : nat }.

Definition kprintk `{Device W} (io_base : Z) (pe : print_env) (sr : serial_type) (w : W)
    (m : mem) (string : Z) (ap : list varg) : option (Z * W * mem) :=
  printk io_base (pe_buffer pe) (pe_int_buffer pe) (pe_fuel pe) (pe_wf pe) sr w m string ap.

Definition create_idle_task `{Device W} (io_base : Z) (pe : print_env) (sr : serial_type)
    (str_idle : Z) (e : entry_points) (w : W) (s : kstate) : option (W * kstate) :=
  '(idle_process, s1) ← process_create s;
  '(stack_page, a) ← memory_allocate (k_alloc s1) 4096;
  s2 ← upd_pcb idle_process (idle_pcb e (ticks s1) stack_page) (with_k_alloc a s1);
  q ← procs s2 !! idle_process;
  '(_, w1, m1) ← kprintk io_base pe sr w (k_mem s2) str_idle [Word (pid q)];
  Some (w1, with_k_mem m1 s2).

(** ** userspace.c *)

(** The offset of [name] in the control block. *)
Definition PCB_NAME : Z := 200.

(** Up to the jump to the new program: [true] when it is reached.  The name of
    the process is printed from its control block. *)
Definition start_userspace `{Device W} (io_base : Z) (pe : print_env) (sr : serial_type)
    (str_userspace str_root : Z) (fuel rf : nat) (stat_info : Z) (f : files) (w : W) (s : kstate)
    (init_filename : Z) : option (bool * W * kstate) :=
  '(init_process, s1) ← process_create s;
  let s2 := with_current_process init_process s1 in
  s3 ← upd_pcb init_process (set_parent init_process) s2;
  '(inode, s4) ← get_inode_k rd fl fuel rf f s3 str_root;
  s5 ← upd_pcb init_process (set_current_dir inode) s4;
  '(result, s6) ← execve fuel rf stat_info f s5 init_filename 0 0;
  if result <? 0 then Some (false, w, s6)
  else
    q ← procs s6 !! init_process;
    '(_, w1, m1) ← kprintk io_base pe sr w
        (mem_with (k_mem s6) (init_process + PCB_NAME) (name q)) str_userspace
        [Word (pid q); Word (init_process + PCB_NAME)];
    s7 ← upd_pcb init_process (set_status PROCESS_STATUS_READY)
           (with_k_mem m1 s6);
    Some (true, w1, s7).
End Exec.

(** ** The arguments of a program

    A list of arguments as the caller holds it: pointers to strings, from
    [argv] on, closed by NULL; none of it meets the [n] bytes from [r]. *)
Fixpoint arg_list (r n : Z) (m : mem) (argv : Z) (l : list (Z * list Z)) : Prop :=
  apart r n argv 4 /\
  match l with
  | [] => load32 m argv = 0
  | (p, a) :: l' =>
      load32 m argv = p /\ p <> 0 /\ cstring (at_ m p) a /\
      apart r n p (Z.of_nat (length a) + 1) /\ arg_list r n m (argv + 4) l'
  end.

(** The bytes of the strings with their terminators. *)
Definition arg_bytes (l : list (Z * list Z)) : Z :=
  fold_right (fun a n => Z.of_nat (length (snd a)) + 1 + n) 0 l.

(** The list the new program finds: the pointers from [slot] on, the strings
    one behind the other from [ptr] on. *)
Fixpoint args_laid (m : mem) (slot ptr : Z) (l : list (list Z)) : Prop :=
  match l with
  | [] => True
  | a :: l' =>
      load32 m slot = ptr /\ cstring (at_ m ptr) a /\
      args_laid m (slot + 4) (ptr + Z.of_nat (length a) + 1) l'
  end.

Lemma arg_bytes_nonneg l : 0 <= arg_bytes l.
Proof. unfold arg_bytes. induction l as [|[p a] l IH]; cbn [fold_right snd]; lia. Qed.

Lemma arg_list_modifies r n m m' l : modifies [(r, n)] m m' -> forall argv,
  arg_list r n m argv l -> arg_list r n m' argv l.
Proof.
  intros Hm. assert (HL : forall a, apart r n a 4 -> load32 m' a = load32 m a).
  { intros a Ha. eapply load32_modifies; [exact Hm|]. by constructor. }
  induction l as [|[p a] l IH]; intros argv [Ha Hl]; cbn [arg_list]; split; try done.
  - by rewrite HL.
  - destruct Hl as (E & Hp & Hs & Hap & Hl). rewrite HL by done.
    split; [done|]. split; [done|]. split; [|split; [done|by apply IH]].
    eapply cstring_modifies; [exact Hm| |done]. by constructor.
Qed.

Lemma arg_list_sub r n r' n' m l : r <= r' -> r' + n' <= r + n -> forall argv,
  arg_list r n m argv l -> arg_list r' n' m argv l.
Proof.
  intros H1 H2. induction l as [|[p a] l IH]; intros argv [Ha Hl]; cbn [arg_list];
    (split; [unfold apart in *; lia|]); [done|].
  destruct Hl as (E & Hp & Hs & Hap & Hl). repeat split; try done; [apply Hs|apply Hs| |by apply IH].
  unfold apart in *. lia.
Qed.

(** Writes below the slots and the strings leave the new list alone. *)
Lemma args_laid_modifies r n m m' l : modifies [(r, n)] m m' -> forall slot ptr,
  slot + 4 * Z.of_nat (length l) <= r \/ r + n <= slot ->
  r + n <= ptr -> args_laid m slot ptr l -> args_laid m' slot ptr l.
Proof.
  intros Hm. induction l as [|a l IH]; intros slot ptr Hs Hp HL; [done|].
  destruct HL as (E & Hc & HL). cbn [length] in Hs. split; [|split].
  - rewrite <- E. eapply load32_modifies; [exact Hm|]. constructor; [|constructor].
    cbn. unfold apart. lia.
  - eapply cstring_modifies; [exact Hm| |done]. constructor; [|constructor]. cbn.
    unfold apart. lia.
  - apply IH; [lia|lia|done].
Qed.

Lemma count_args_ok r n m l : forall fuel argv i,
  arg_list r n m (argv + 4 * i) l -> (length l < fuel)%nat ->
  count_args fuel m argv i = Some (i + Z.of_nat (length l)).
Proof.
  induction l as [|[p a] l IH]; intros [|fuel] argv i [_ Hl] Hf; cbn [length count_args] in *;
    try lia.
  - rewrite Hl. cbn. f_equal. lia.
  - destruct Hl as (E & Hp & _ & _ & Hl). rewrite E, (proj2 (Z.eqb_neq p 0)) by done.
    cbn [negb]. rewrite IH; [f_equal; lia| |lia].
    by replace (argv + 4 * (i + 1)) with (argv + 4 * i + 4) by lia.
Qed.

(** One string with its terminator. *)
Lemma strncpy_string m d s a :
  cstring (at_ m s) a -> apart d (Z.of_nat (length a) + 1) s (Z.of_nat (length a) + 1) ->
  let '(m', r) := strncpy m d s (Z.of_nat (length a) + 1) in
  r = d /\ cstring (at_ m' d) a /\ modifies [(d, Z.of_nat (length a) + 1)] m m'.
Proof.
  intros Hs Ha. pose proof (strncpy_bytes m d s (Z.of_nat (length a) + 1) ltac:(lia) Ha) as H.
  cbv zeta in H. rewrite (cstring_strnlen _ _ _ Hs) in H.
  destruct (strncpy m d s _) as [m' r]. destruct H as [-> H]. split; [done|].
  rewrite Z2Nat.id, Z.min_r in H by lia. split.
  - apply cstring_intro; [apply Hs| |].
    + intros i Hi. rewrite <- (cstring_nth _ _ _ Hs Hi). unfold at_. rewrite H.
      repeat (bcase; try lia). f_equal. lia.
    + unfold at_. rewrite H, (proj2 (andb_true_iff _ _)), Z.ltb_irrefl; [done|].
      rewrite Z.leb_le, Z.ltb_lt. lia.
  - apply modifies_same_outside. intros x Hx. rewrite H. by repeat (bcase; try lia).
Qed.

Lemma argv_loop_ok r n l : 0 <= r -> r + n < 2 ^ 32 -> forall fuel m argv i loc ptr,
  arg_list r n m (argv + 4 * i) l ->
  r <= loc + 4 * i -> loc + 4 * (i + Z.of_nat (length l)) <= ptr -> ptr + arg_bytes l <= r + n ->
  Forall (fun a => (length (snd a) < fuel)%nat) l ->
  exists m', argv_loop (length l) fuel m argv i loc ptr = Some m' /\
    args_laid m' (loc + 4 * i) ptr (map snd l) /\
    modifies [(loc + 4 * i, 4 * Z.of_nat (length l)); (ptr, arg_bytes l)] m m'.
Proof.
  intros Hr Hn. induction l as [|[p a] l IH]; intros fuel m argv i loc ptr HL H1 H2 H3 Hf;
    cbn [length map argv_loop snd] in *.
  { by exists m. }
  apply Forall_cons_iff in Hf as [Hfa Hf]. cbn [snd] in Hfa.
  pose proof (arg_bytes_nonneg l) as Hnn. change (arg_bytes ((p, a) :: l)) with
    (Z.of_nat (length a) + 1 + arg_bytes l) in *.
  set (m1 := store32 m (loc + 4 * i) ptr).
  assert (M1 : modifies [(loc + 4 * i, 4)] m m1) by apply modifies_store32.
  assert (HL1 : arg_list r n m1 (argv + 4 * i) ((p, a) :: l)).
  { eapply arg_list_modifies; [|exact HL]. eapply modifies_sub; [exact M1|]. regions. }
  pose proof HL1 as (_ & E1 & Hp & Hs1 & Ha1 & _). rewrite E1.
  rewrite (strlen_cstring _ _ a Hs1 Hfa). cbn [mbind option_bind].
  pose proof (strncpy_string m1 ptr p a Hs1) as HC.
  destruct (strncpy m1 ptr p _) as [m2 r2].
  destruct HC as (-> & Hs2 & M2); [unfold apart in *; lia|].
  assert (HL2 : arg_list r n m2 (argv + 4 * i) ((p, a) :: l)).
  { eapply arg_list_modifies; [|exact HL1]. eapply modifies_sub; [exact M2|]. regions. }
  pose proof HL2 as (_ & E2 & _ & Hs2' & _ & HL2'). rewrite E2.
  rewrite (strlen_cstring _ _ a Hs2' Hfa). cbn [mbind option_bind].
  rewrite u32_id by lia.
  destruct (IH fuel m2 argv (i + 1) loc (ptr + (Z.of_nat (length a) + 1)))
    as (m' & -> & HA & M3); try lia; try done.
  { by replace (argv + 4 * (i + 1)) with (argv + 4 * i + 4) by lia. }
  exists m'. split; [done|]. cbn [args_laid].
  replace (loc + 4 * (i + 1)) with (loc + 4 * i + 4) in * by lia. split; [split; [|split]|].
  - transitivity (load32 m2 (loc + 4 * i)).
    { eapply load32_modifies; [exact M3|]. repeat constructor; cbn; unfold apart; lia. }
    transitivity (load32 m1 (loc + 4 * i)).
    { eapply load32_modifies; [exact M2|]. repeat constructor; cbn; unfold apart; lia. }
    unfold m1. rewrite load32_store32. apply u32_id. lia.
  - eapply cstring_modifies; [exact M3| |exact Hs2].
    repeat constructor; cbn; unfold apart; lia.
  - by replace (ptr + Z.of_nat (length a) + 1) with (ptr + (Z.of_nat (length a) + 1)) by lia.
  - transitivity m1; [eapply modifies_sub; [exact M1|regions]|].
    transitivity m2; [eapply modifies_sub; [exact M2|regions]|].
    eapply modifies_sub; [exact M3|regions].
Qed.

(** The room [execve] reserves for the arguments [l], when the memory at
    address 0 reads as the string [vec]. *)
Definition reserved (l : list (Z * list Z)) (vec : list Z) : Z :=
  ((4 * (Z.of_nat (length l) + 1) + (fst (List.last l (0, [])) - fst (hd (0, []) l))
    + Z.of_nat (length vec) + 1) / 8 + 1) * 8.

(** The arguments are there, and what is reserved holds them. *)
Record args_fit (st : Z) (m : mem) (argv : Z) (l : list (Z * list Z)) (vec : list Z) : Prop := {
  af_some : l <> [];
  af_list : arg_list st DEFAULT_USER_STACK_SIZE m argv l;
  af_zero : cstring (at_ m 0) vec;
  af_zero_apart : apart st DEFAULT_USER_STACK_SIZE 0 (Z.of_nat (length vec) + 1);
  af_room : 4 * (Z.of_nat (length l) + 2) + arg_bytes l <= reserved l vec
            <= DEFAULT_USER_STACK_SIZE }.

Lemma arg_list_first r n m argv p a l : arg_list r n m argv ((p, a) :: l) -> load32 m argv = p.
Proof. by intros (_ & E & _). Qed.

Lemma arg_list_last r n m l : forall argv, arg_list r n m argv l -> l <> [] ->
  load32 m (argv + 4 * (Z.of_nat (length l) - 1)) = fst (List.last l (0, [])).
Proof.
  induction l as [|[p a] l IH]; intros argv [_ Hl] Hne; [done|].
  destruct Hl as (E & _ & _ & _ & Hl). destruct l as [|x l].
  - cbn [List.last length fst]. by replace (argv + 4 * (Z.of_nat 1 - 1)) with argv by lia.
  - change (List.last ((p, a) :: x :: l) (0, [])) with (List.last (x :: l) (0, [])).
    rewrite <- (IH (argv + 4)) by done. f_equal. cbn [length]. lia.
Qed.

Lemma arg_list_end r n m l : forall argv, arg_list r n m argv l ->
  load32 m (argv + 4 * Z.of_nat (length l)) = 0.
Proof.
  induction l as [|[p a] l IH]; intros argv [_ Hl]; cbn [length].
  - by rewrite Z.add_0_r.
  - destruct Hl as (_ & _ & _ & _ & Hl). rewrite <- (IH (argv + 4) Hl). f_equal. lia.
Qed.

Lemma argv_room_ok fuel st m argv l vec :
  args_fit st m argv l vec -> (length vec < fuel)%nat ->
  argv_room fuel m argv (Z.of_nat (length l)) = Some (reserved l vec).
Proof.
  intros [Hne Hl Hz Hza [Hr1 Hr2]] Hf. unfold argv_room.
  rewrite (arg_list_end _ _ _ _ _ Hl), (strlen_cstring _ _ vec Hz Hf).
  cbn [mbind option_bind]. rewrite (arg_list_last _ _ _ _ _ Hl Hne).
  assert (E0 : load32 m argv = fst (hd (0, []) l)).
  { destruct l as [|[p a] l]; [done|]. cbn. by eapply arg_list_first. }
  rewrite E0. unfold reserved in *. unfold DEFAULT_USER_STACK_SIZE in *.
  pose proof (arg_bytes_nonneg l).
  set (t := fst (List.last l (0, [])) - fst (hd (0, []) l)) in *.
  assert (Ht : 0 <= (Z.of_nat (length l) + 1) * 4 + t + Z.of_nat (length vec) + 1 < 2 ^ 31).
  { Z.div_mod_to_equations. lia. }
  rewrite s32_id, Z.quot_div_nonneg by lia. do 5 f_equal. lia.
Qed.

Lemma setup_argv_ok fuel st m argv l vec :
  args_fit st m argv l vec -> argv <> 0 -> 0 <= st -> st + 8192 < 2 ^ 32 ->
  (length l < fuel)%nat -> (length vec < fuel)%nat ->
  Forall (fun a => (length (snd a) < fuel)%nat) l ->
  let loc := st + 8192 - reserved l vec in
  exists m', setup_argv fuel m argv (st + 8192) = Some (Z.of_nat (length l), loc, m') /\
    args_laid m' loc (loc + 4 * (Z.of_nat (length l) + 2)) (map snd l) /\
    modifies [(st, 8192)] m m'.
Proof.
  intros A Ha H0 H1 Hf1 Hf2 Hf3 loc. pose proof A as [Hne Hl Hz Hza Hr].
  unfold DEFAULT_USER_STACK_SIZE in *. unfold setup_argv.
  rewrite (proj2 (Z.eqb_neq argv 0)) by done. cbn [negb].
  rewrite (count_args_ok st 8192 m l) by (rewrite ?Z.mul_0_r, ?Z.add_0_r; done).
  rewrite Z.add_0_l. cbn [mbind option_bind]. rewrite (argv_room_ok fuel st m argv l vec A Hf2).
  cbn [mbind option_bind]. pose proof (arg_bytes_nonneg l).
  rewrite (u32_id (st + 8192 - _)) by lia. fold loc. rewrite u32_id by lia. rewrite Nat2Z.id.
  set (ptr := loc + 4 * (Z.of_nat (length l) + 2)).
  assert (M1 : modifies [(st, 8192)] m (upd m ptr 0)).
  { eapply modifies_sub; [apply modifies_upd|]. unfold ptr, loc.
    destruct l as [|[p a] l]; [done|]. unfold arg_bytes in *. cbn [fold_right snd length] in *.
    pose proof (arg_bytes_nonneg l) as Hb. unfold arg_bytes in Hb. regions. }
  destruct (argv_loop_ok st 8192 l H0 H1 fuel (upd m ptr 0) argv 0 loc ptr)
    as (m' & E & HA & M2); try (unfold ptr, loc; lia); try done.
  { rewrite Z.mul_0_r, Z.add_0_r. by eapply arg_list_modifies. }
  rewrite E. cbn [mbind option_bind]. rewrite Z.mul_0_r, Z.add_0_r in *.
  exists m'. split; [done|]. split; [done|]. transitivity (upd m ptr 0); [done|].
  eapply modifies_sub; [exact M2|]. unfold ptr, loc. regions.
Qed.

(** *** The arguments in the caller's memory *)

Fixpoint args_at (m : mem) (argv : Z) (l : list (Z * list Z)) : Prop :=
  match l with
  | [] => load32 m argv = 0
  | (p, a) :: l' =>
      load32 m argv = p /\ p <> 0 /\ cstring (at_ m p) a /\ args_at m (argv + 4) l'
  end.

(** The table and the strings. *)
Definition string_regions (l : list (Z * list Z)) : list (Z * Z) :=
  map (fun a => (fst a, Z.of_nat (length (snd a)) + 1)) l.

Definition arg_regions (argv : Z) (l : list (Z * list Z)) : list (Z * Z) :=
  (argv, 4 * (Z.of_nat (length l) + 1)) :: string_regions l.

Definition away (rs : list (Z * Z)) (x : Z * Z) : Prop :=
  Forall (fun r => apart (fst r) (snd r) (fst x) (snd x)) rs.

Lemma arg_list_intro r n m l : forall argv,
  args_at m argv l -> Forall (away [(r, n)]) (arg_regions argv l) -> arg_list r n m argv l.
Proof.
  induction l as [|[p a] l IH]; intros argv Hl HF; unfold arg_regions, string_regions in HF;
    cbn [length map fst snd] in HF; apply Forall_cons_iff in HF as [H0 HF];
    apply Forall_inv in H0; cbn [fst snd arg_list] in *.
  - split; [unfold apart in *; lia|done].
  - apply Forall_cons_iff in HF as [H1 HF]. apply Forall_inv in H1. cbn [fst snd] in H1.
    destruct Hl as (E & Hp & Hs & Hl). split; [unfold apart in *; lia|].
    split; [done|]. split; [done|]. split; [done|]. split; [done|]. apply IH; [done|].
    constructor; [|done]. constructor; [|done]. cbn. unfold apart in *. lia.
Qed.

Lemma args_at_modifies rs m m' l : modifies rs m m' -> forall argv,
  Forall (away rs) (arg_regions argv l) -> args_at m argv l -> args_at m' argv l.
Proof.
  intros Hm. induction l as [|[p a] l IH]; intros argv HF Hl;
    unfold arg_regions, string_regions in HF; cbn [length map fst snd] in HF;
    apply Forall_cons_iff in HF as [H0 HF]; cbn [args_at] in *.
  - rewrite <- Hl. eapply load32_modifies; [exact Hm|]. revert H0. apply List.Forall_impl.
    intros r Hr. cbn [fst snd] in Hr. unfold apart in *. lia.
  - apply Forall_cons_iff in HF as [H1 HF]. destruct Hl as (E & Hp & Hs & Hl).
    split; [|split; [done|split; [by eapply cstring_modifies|]]].
    + rewrite <- E. eapply load32_modifies; [exact Hm|]. revert H0. apply List.Forall_impl.
      intros r Hr. cbn [fst snd] in Hr. unfold apart in *. lia.
    + apply IH; [|done]. constructor; [|done]. revert H0. apply List.Forall_impl.
      intros r Hr. cbn [fst snd] in *. unfold apart in *. lia.
Qed.

(** What a caller passes: nothing, or a list that fits the room. *)
Record exec_args (m : mem) (argv : Z) (l : list (Z * list Z)) (vec : list Z) : Prop := {
  ea_null : argv = 0 -> l = [];
  ea_some : argv <> 0 -> l <> [];
  ea_list : argv <> 0 -> args_at m argv l;
  ea_zero : argv <> 0 -> cstring (at_ m 0) vec;
  ea_room : argv <> 0 -> 4 * (Z.of_nat (length l) + 2) + arg_bytes l <= reserved l vec
                         <= DEFAULT_USER_STACK_SIZE }.

(** What [execve] reads of it. *)
Definition exec_regions (argv : Z) (l : list (Z * list Z)) (vec : list Z) : list (Z * Z) :=
  if argv =? 0 then [] else (0, Z.of_nat (length vec) + 1) :: arg_regions argv l.

(** Where the new program finds its arguments. *)
Definition exec_sp (argv st : Z) (l : list (Z * list Z)) (vec : list Z) : Z :=
  st + 8192 - (if argv =? 0 then 0 else reserved l vec).

Lemma setup_argv_exec fuel st m argv l vec :
  exec_args m argv l vec -> Forall (away [(st, 8192)]) (exec_regions argv l vec) ->
  0 <= st -> st + 8192 < 2 ^ 32 -> (length l < fuel)%nat -> (length vec < fuel)%nat ->
  Forall (fun a => (length (snd a) < fuel)%nat) l ->
  let sp := exec_sp argv st l vec in
  exists m', setup_argv fuel m argv (st + 8192) = Some (Z.of_nat (length l), sp, m') /\
    args_laid m' sp (sp + 4 * (Z.of_nat (length l) + 2)) (map snd l) /\
    modifies [(st, 8192)] m m'.
Proof.
  intros [E1 E2 E3 E4 E5] Ha H0 H1 Hf1 Hf2 Hf3 sp. unfold sp, exec_sp, exec_regions in *.
  destruct (argv =? 0) eqn:Ez; b2p.
  - unfold setup_argv. rewrite Ez, E1 by done. cbn. exists m. split; [|done].
    by rewrite Z.sub_0_r.
  - apply Forall_cons_iff in Ha as [Ha0 Ha]. apply Forall_inv in Ha0.
    apply setup_argv_ok; try done. split; [by apply E2| |by apply E4|done|by apply E5].
    apply arg_list_intro; [by apply E3|done].
Qed.

Lemma exec_args_modifies rs m m' argv l vec : modifies rs m m' ->
  Forall (away rs) (exec_regions argv l vec) -> exec_args m argv l vec ->
  exec_args m' argv l vec.
Proof.
  intros Hm Ha [E1 E2 E3 E4 E5]. unfold exec_regions in Ha.
  split; try done; intros Hz; apply Z.eqb_neq in Hz as Hz'; rewrite Hz' in Ha;
    apply Forall_cons_iff in Ha as [Ha0 Ha].
  - eapply args_at_modifies; [exact Hm|done|by apply E3].
  - eapply cstring_modifies; [exact Hm|exact Ha0|by apply E4].
Qed.

(** ** [execve] *)

Definition occupied (a : alloc) (x : Z * Z) : Prop := in_use a (fst x) (snd x) /\ 0 < snd x.

Lemma occupied_fresh a size p a' objs :
  alloc_wf a -> 0 <= size < 2 ^ 32 -> memory_allocate a size = Some (p, a') -> p <> 0 ->
  Forall (occupied a) objs -> Forall (occupied a') objs /\ Forall (away [(p, size)]) objs.
Proof.
  intros Hwf Hs Ea Hp Ho.
  destruct (memory_allocate_fresh a size p a' Hwf Hs Ea Hp) as (_ & _ & H1 & H2 & _).
  split; revert Ho; apply List.Forall_impl; intros x [Hx Hn].
  - split; [by apply H1|done].
  - constructor; [|done]. by apply H2.
Qed.

Lemma away_app rs1 rs2 x : away rs1 x -> away rs2 x -> away (rs1 ++ rs2) x.
Proof. intros. by apply Forall_app. Qed.

Lemma away_sub rs rs' x : away rs x -> incl rs' rs -> away rs' x.
Proof. unfold away. rewrite !List.Forall_forall. auto. Qed.

Section Execve.
Context `{MemFill} (rd : ramdisk) (fl : flocals) (d : Z -> Z) (L : flayout rd fl d).
Context (K rf : nat) (stat_info : Z) (f : files).

(** The regular file [r] with the name [nm], not empty. *)
Record program (r : Z) (nm : list Z) : Prop := {
  pg_header : header_at d (rd_length rd) r nm;
  pg_data : fdata r nm + fsize d r <= rd_length rd;
  pg_fuel : (length nm < 16 * rf)%nat /\ (0 < rf)%nat;
  pg_link : ftype d r <> 0;
  pg_size : 0 < fsize d r }.

(** The local object [stat_info]. *)
Record exec_frame : Prop := {
  ef_range : 0 <= stat_info /\ stat_info + 52 < 2 ^ 32;
  ef_disk : apart stat_info 52 (rd_start rd) (rd_length rd);
  ef_int : apart stat_info 52 (temp_int (fl_romfs fl)) 4 }.

(** The objects of the kernel the call writes. *)
Definition kernel_regions : list (Z * Z) := (stat_info, 52) :: path_regions fl.

Context (EF : exec_frame).

(** Resolving the name and reading the size. *)
Lemma exec_lookup s q fuel filename p r nm :
  procs s !! current_process s = Some q ->
  names_path rd d K rf (root_dir f) (current_dir q) p r -> program r nm ->
  cstring (at_ (k_mem s) filename) p -> 0 < filename ->
  away kernel_regions (filename, Z.of_nat (length p) + 1) ->
  on_disk rd d (k_mem s) -> (length p < fuel)%nat ->
  exists m1 m2, get_inode_k rd fl fuel rf f s filename = Some (r, with_k_mem m1 s) /\
    romfs_stat rd (fl_romfs fl) rf m1 r stat_info = Some (0, m2) /\
    s32 (load32 m2 (stat_info + st_size)) = fsize d r /\
    modifies kernel_regions (k_mem s) m2 /\ on_disk rd d m2.
Proof.
  intros Hq HP [Hh Hdt [Hn Hrf] Hlk Hsz] Hs Hp Ha Hd Hf.
  apply Forall_cons_iff in Ha as [_ Ha]. cbn [fst snd] in Ha.
  destruct (get_inode_k_ok rd fl d L K rf fuel f s q filename p r Hq HP Hs Hp Ha Hd Hf)
    as (m1 & E & M1 & Hd1).
  destruct Hh as [[Ho1 Ho2] Hnm], EF as [[Hr1 Hr2] Hdk Hint].
  pose proof (padded_bounds (Z.of_nat (length nm)) ltac:(lia)) as Hpb.
  destruct (stat_ok rd (fl_romfs fl) d (fl_lay _ _ _ L) 0 rf m1 r r stat_info)
    as (m2 & E2 & F2 & M2 & Hd2); try done; [apply resolves_here; [lia|lia|done]|].
  exists m1, m2. split; [done|]. split; [done|]. split; [|split; [|done]].
  - pose proof (F2 7%nat ltac:(cbn; lia)) as Esz.
    change (load32 m2 (stat_info + st_size)) with (load32 m2 (stat_info + 4 * Z.of_nat 7)).
    rewrite Esz. cbn [nth stat_fields]. apply s32_id.
    pose proof (lay_len _ _ _ (fl_lay _ _ _ L)). unfold fdata in Hdt. lia.
  - transitivity m1; [eapply modifies_incl; [exact M1|intros x Hx; by right]|].
    eapply modifies_sub; [exact M2|]. unfold kernel_regions, path_regions, lookup_regions. regions.
Qed.

(** Loading the file and the arguments into two fresh blocks. *)
Lemma exec_load s m2 fuel filename p r nm argv l vec b a1 st a2 :
  program r nm -> on_disk rd d m2 -> alloc_wf (k_alloc s) ->
  exec_args m2 argv l vec -> cstring (at_ m2 filename) p ->
  Forall (away kernel_regions) ((filename, Z.of_nat (length p) + 1) :: exec_regions argv l vec) ->
  Forall (occupied (k_alloc s)) ((rd_start rd, rd_length rd) ::
    (filename, Z.of_nat (length p) + 1) :: exec_regions argv l vec) ->
  memory_allocate (k_alloc s) (fsize d r) = Some (b, a1) -> b <> 0 ->
  memory_allocate a1 DEFAULT_USER_STACK_SIZE = Some (st, a2) -> st <> 0 -> st + 8192 < 2 ^ 32 ->
  (length l < fuel)%nat -> (length vec < fuel)%nat ->
  Forall (fun a => (length (snd a) < fuel)%nat) l ->
  let sp := exec_sp argv st l vec in
  exists m4 m6, romfs_read_file rd (fl_romfs fl) rf m2 r 0 b (fsize d r)
      = Some (fsize d r, m4) /\
    setup_argv fuel m4 argv (st + DEFAULT_USER_STACK_SIZE) = Some (Z.of_nat (length l), sp, m6) /\
    cstring (at_ m4 filename) p /\
    args_laid m6 sp (sp + 4 * (Z.of_nat (length l) + 2)) (map snd l) /\
    bytes_of (at_ m6 b) (Z.to_nat (fsize d r)) = file_bytes d r nm 0 (fsize d r) /\
    modifies ((b, fsize d r) :: (st, DEFAULT_USER_STACK_SIZE) :: kernel_regions) m2 m6.
Proof.
  intros [Hh Hdt [Hn Hrf] Hlk Hsz] Hd Hwf HE Hs Haw Hocc Eb Hb Est Hst0 Hst Hf1 Hf2 Hf3 sp.
  pose proof (lay_len _ _ _ (fl_lay _ _ _ L)) as Hlen.
  pose proof (padded_bounds (Z.of_nat (length nm)) ltac:(lia)) as Hpb.
  assert (Hr : 0 <= r) by (destruct Hh as [[? ?] ?]; lia).
  assert (Hfs : 0 <= fsize d r < 2 ^ 32) by (unfold fdata in *; lia).
  destruct (memory_allocate_fresh _ _ _ _ Hwf Hfs Eb Hb) as (Hwf1 & Hb0 & _ & _ & Hbu).
  destruct (occupied_fresh _ _ _ _ _ Hwf Hfs Eb Hb Hocc) as [Hocc1 Hab].
  assert (Hocc1' : Forall (occupied a1) ((b, fsize d r) :: (rd_start rd, rd_length rd) ::
    (filename, Z.of_nat (length p) + 1) :: exec_regions argv l vec))
    by (constructor; [split; [split; [done|exact Hbu]|done]|done]).
  assert (H8 : 0 <= DEFAULT_USER_STACK_SIZE < 2 ^ 32) by done.
  destruct (memory_allocate_fresh _ _ _ _ Hwf1 H8 Est Hst0) as (_ & Hs0 & _).
  destruct (occupied_fresh _ _ _ _ _ Hwf1 H8 Est Hst0 Hocc1') as [_ Has].
  apply Forall_cons_iff in Hab as [Hbd Hab]. apply Forall_cons_iff in Has as [Hsb Has].
  apply Forall_cons_iff in Has as [_ Has]. apply Forall_inv in Hbd, Hsb. cbn [fst snd] in Hbd, Hsb.
  destruct (read_file_ok rd (fl_romfs fl) d (fl_lay _ _ _ L) rf m2 r nm 0 b (fsize d r))
    as (m4 & E4 & H4 & M4 & Hd4); try done; try lia.
  { by rewrite Z.sub_0_r, Z.min_id. }
  rewrite Z.sub_0_r, Z.min_id in *.
  assert (M4' : modifies ((b, fsize d r) :: kernel_regions) m2 m4).
  { eapply modifies_incl; [exact M4|]. intros x [<-|[<-|[<-|[]]]]; cbn; tauto. }
  assert (Hav : Forall (away ((b, fsize d r) :: kernel_regions))
    ((filename, Z.of_nat (length p) + 1) :: exec_regions argv l vec)).
  { rewrite List.Forall_forall in *. intros x Hx. constructor; [|by apply Haw].
    specialize (Hab x Hx). by apply Forall_inv in Hab. }
  apply Forall_cons_iff in Hav as [Hav1 Hav]. apply Forall_cons_iff in Has as [_ Has].
  destruct (setup_argv_exec fuel st m4 argv l vec) as (m6 & E6 & A6 & M6); try done.
  { eapply exec_args_modifies; [exact M4'|done|done]. }
  exists m4, m6. split; [done|]. split; [done|].
  split; [eapply cstring_modifies; [exact M4'|done|done]|]. split; [done|]. split.
  - unfold file_bytes, bytes_of. apply map_ext_in. intros i Hi%in_seq. unfold at_.
    rewrite M6 by (constructor; [cbn; unfold apart, DEFAULT_USER_STACK_SIZE in *; lia|done]).
    apply H4. lia.
  - transitivity m4; (eapply modifies_incl; [eassumption|]); intros x Hx; cbn in *; tauto.
Qed.
End Execve.

(** The block of the process once the program is in place. *)
Definition loaded_pcb (m : mem) (filename argc sp st b size : Z) (q : pcb) : pcb :=
  exec_pcb argc sp st DEFAULT_USER_STACK_SIZE b size (set_name (strlcpy_name m filename 32 (name q)) q).

(** The current process with a new program: the blocks are its own. *)
Lemma kinv_load kernel s ps q m filename argc sp size b a1 st a2 :
  kinv kernel s ps -> procs s !! current_process s = Some q -> 0 < size < 2 ^ 32 ->
  memory_allocate (k_alloc s) size = Some (b, a1) ->
  memory_allocate a1 DEFAULT_USER_STACK_SIZE = Some (st, a2) -> b <> 0 -> st <> 0 ->
  kinv kernel (with_k_alloc a2 (with_procs (<[current_process s :=
    loaded_pcb m filename argc sp st b size q]> (procs s)) s)) ps.
Proof.
  intros KI Hq Hsz Eb Est Hb0 Hst0. set (q' := loaded_pcb _ _ _ _ _ _ _ _).
  assert (Hsz2 : 0 <= size < 2 ^ 32) by lia.
  assert (H8 : 0 <= DEFAULT_USER_STACK_SIZE < 2 ^ 32) by done.
  destruct (k_blocks _ _ _ KI) as [extra HC].
  destruct (client_step_allocate _ _ _ _ _ _ HC Hsz2 Eb) as [[? _]|(_ & Hba & HC1)]; [done|].
  destruct (client_step_allocate _ _ _ _ _ _ HC1 H8 Est) as [[? _]|(_ & Hsta & _)]; [done|].
  apply (kinv_replace kernel s ps (current_process s) q q' a2
    [(st / CHUNK_SIZE, 8192); (b / CHUNK_SIZE, size)] []); try done.
  - by right.
  - by right.
  - right. split; right; [done|cbn; lia].
  - unfold block_of. cbn. rewrite (proj2 (Z.eqb_neq b 0)), (proj2 (Z.eqb_neq st 0)) by done.
    rewrite (proj2 (Z.eqb_neq size 0)) by lia. done.
  - intros old HC'. cbn [app].
    destruct (client_step_allocate _ _ _ _ _ _ HC' Hsz2 Eb) as [[? _]|(_ & _ & D1)]; [done|].
    destruct (client_step_allocate _ _ _ _ _ _ D1 H8 Est) as [[? _]|(_ & _ & D2)]; [done|].
    revert D2. unfold eff_size. by rewrite (proj2 (Z.eqb_neq size 0)) by lia.
Qed.

Section Execve_ok.
Context `{MemFill} (rd : ramdisk) (fl : flocals) (d : Z -> Z) (L : flayout rd fl d).
Context (K rf : nat) (stat_info : Z) (f : files) (kernel : Z -> bool).
Context (EF : exec_frame rd fl stat_info).

(** A call of [execve]: the name [p] of the program [r], the arguments, the
    fuel, and the memory it all lies in. *)
Record exec_call (s : kstate) (q : pcb) (fuel : nat) (filename : Z) (p : list Z) (r : Z)
    (nm : list Z) (argv : Z) (l : list (Z * list Z)) (vec : list Z) : Prop := {
  ec_current : procs s !! current_process s = Some q;
  ec_path : names_path rd d K rf (root_dir f) (current_dir q) p r;
  ec_program : program rd d rf r nm;
  ec_name : cstring (at_ (k_mem s) filename) p /\ 0 < filename;
  ec_args : exec_args (k_mem s) argv l vec;
  ec_disk : on_disk rd d (k_mem s);
  ec_away : Forall (away (kernel_regions fl stat_info))
              ((filename, Z.of_nat (length p) + 1) :: exec_regions argv l vec);
  ec_occupied : Forall (occupied (k_alloc s)) ((rd_start rd, rd_length rd) ::
                  (filename, Z.of_nat (length p) + 1) :: exec_regions argv l vec);
  ec_fuel : (length p < fuel)%nat /\ (length l < fuel)%nat /\ (length vec < fuel)%nat /\
            Forall (fun a => (length (snd a) < fuel)%nat) l }.

(** The state after a call that found memory. *)
Record exec_done (s s' : kstate) (q : pcb) (filename r : Z) (p nm : list Z) (argv : Z)
    (l : list (Z * list Z)) (vec : list Z) (b st : Z) : Prop := {
  ed_pcb : exists m4, cstring (at_ m4 filename) p /\
    procs s' = <[current_process s := loaded_pcb m4 filename (Z.of_nat (length l))
                  (exec_sp argv st l vec) st b (fsize d r) q]> (procs s);
  ed_text : bytes_of (at_ (k_mem s') b) (Z.to_nat (fsize d r)) = file_bytes d r nm 0 (fsize d r);
  ed_args : let sp := exec_sp argv st l vec in
    args_laid (k_mem s') sp (sp + 4 * (Z.of_nat (length l) + 2)) (map snd l);
  ed_mem : modifies ((b, fsize d r) :: (st, DEFAULT_USER_STACK_SIZE) ::
             kernel_regions fl stat_info) (k_mem s) (k_mem s');
  ed_current : current_process s' = current_process s }.

Lemma execve_ok s q fuel filename p r nm argv l vec envp ps b a1 st a2 :
  kinv kernel s ps -> exec_call s q fuel filename p r nm argv l vec ->
  memory_allocate (k_alloc s) (fsize d r) = Some (b, a1) ->
  memory_allocate a1 DEFAULT_USER_STACK_SIZE = Some (st, a2) ->
  exists s', execve rd fl fuel rf stat_info f s filename argv envp
    = Some (if (b =? 0) || (st =? 0) then - ENOMEM else Z.of_nat (length l), s') /\
    kinv kernel s' ps /\
    if (b =? 0) || (st =? 0) then procs s' = procs s
    else exec_done s s' q filename r p nm argv l vec b st.
Proof.
  intros KI [Hq HP PG [Hs Hp] HA Hd Haw Hocc (Hf1 & Hf2 & Hf3 & Hf4)] Eb Est.
  pose proof Haw as Haw'. apply Forall_cons_iff in Haw' as [Haw1 Haw2].
  destruct (exec_lookup rd fl d L K rf stat_info f EF s q fuel filename p r nm)
    as (m1 & m2 & E1 & E2 & Esz & M2 & Hd2); try done.
  assert (Hfs : 0 < fsize d r < 2 ^ 30).
  { destruct PG as [[[? ?] _] Hdt _ _ ?]. pose proof (lay_len _ _ _ (fl_lay _ _ _ L)).
    unfold fdata in Hdt. pose proof (padded_bounds (Z.of_nat (length nm)) ltac:(lia)). lia. }
  assert (Hr : (r <? 0) = false) by (destruct PG as [[[? ?] _] _ _ _ _]; lia).
  assert (K1 : kinv kernel (with_k_alloc a1 s) ps) by (eapply kinv_leak; [exact KI| |exact Eb]; lia).
  assert (K2 : kinv kernel (with_k_alloc a2 (with_k_alloc a1 s)) ps)
    by (eapply kinv_leak; [exact K1| |exact Est]; done).
  unfold execve. bind_with E1. rewrite Hr. cbn [k_mem with_k_mem]. bind_with E2.
  cbn [Z.ltb Z.compare k_alloc with_k_alloc with_k_mem]. rewrite Esz, u32_id, Eb by lia.
  cbn [mbind option_bind]. rewrite (u32_id DEFAULT_USER_STACK_SIZE), Est by done.
  cbn [mbind option_bind].
  destruct ((b =? 0) || (st =? 0)) eqn:Ez.
  { eexists. split; [done|]. split; [|done]. eapply kinv_evolves; [|exact K2].
    exact (evolves_with_k_mem _ m2). }
  assert (Hfs2 : 0 <= fsize d r < 2 ^ 32) by lia.
  assert (H8 : 0 <= DEFAULT_USER_STACK_SIZE < 2 ^ 32) by done.
  b2p. destruct (k_blocks _ _ _ KI) as [extra HC].
  pose proof (inv_wf _ _ HC) as Hwf. cbn [fst] in Hwf.
  destruct (client_step_allocate _ _ _ _ _ _ HC Hfs2 Eb) as [[? _]|(Hb & Hba & HC1)];
    [done|].
  destruct (client_step_allocate _ _ _ _ _ _ HC1 H8 Est) as [[? _]|(Hst & Hsta & _)];
    [done|].
  destruct (exec_load rd fl d L rf stat_info s m2 fuel filename p r nm argv l vec b a1 st a2)
    as (m4 & m6 & E4 & E6 & Hs4 & A6 & B6 & M6); try done; [|by eapply cstring_modifies|lia|].
  { eapply exec_args_modifies; [exact M2|done|done]. }
  cbn [k_mem with_k_alloc with_k_mem]. bind_with E4.
  rewrite (upd_pcb_eq _ _ _ q) by exact Hq. cbn [mbind option_bind].
  cbn [k_mem with_procs with_k_mem]. bind_with E6.
  rewrite (upd_pcb_eq _ _ _ (set_name (strlcpy_name m4 filename 32 (name q)) q))
    by (cbn; apply lookup_insert_eq).
  cbn [mbind option_bind procs with_procs with_k_mem with_k_alloc current_process].
  rewrite insert_insert_eq. fold (loaded_pcb m4 filename (Z.of_nat (length l))
    (exec_sp argv st l vec) st b (fsize d r) q).
  set (q' := loaded_pcb _ _ _ _ _ _ _ _).
  eexists. split; [done|]. split.
  - eapply kinv_evolves; [|apply (kinv_load kernel s ps q m4 filename (Z.of_nat (length l))
      (exec_sp argv st l vec) (fsize d r) b a1 st a2); (done || lia)].
    exact (evolves_with_k_mem _ m6).
  - split; try done.
    + by exists m4.
    + transitivity m2; [eapply modifies_incl; [exact M2|by apply incl_tl, incl_tl, incl_refl]|].
      done.
Qed.
End Execve_ok.

(** C4. [execve] of a file that is not empty, with no argument list or one that
    fits the room reserved for it, finds no memory and returns -ENOMEM with
    every process as it was, or returns the number of arguments after putting
    the program in place: a fresh block holds exactly the bytes of the file,
    another is the stack, the argument pointers and strings lie at its end, the
    block of the process has the new text, stack, name and registers (r0 the
    number of arguments, r1 and r13 the argument list, the start of the file as
    program counter), no other process changes, nothing is written but the two
    blocks and the kernel's own objects, and the invariant of the process table
    holds. *)
Theorem execve_loads `{MemFill} rd fl d (L : flayout rd fl d) K rf stat_info f kernel
    (EF : exec_frame rd fl stat_info) s q fuel filename p r nm argv l vec envp ps b a1 st a2 :
  kinv kernel s ps ->
  exec_call rd fl d K rf stat_info f s q fuel filename p r nm argv l vec ->
  length (name q) = 32%nat ->
  memory_allocate (k_alloc s) (fsize d r) = Some (b, a1) ->
  memory_allocate a1 DEFAULT_USER_STACK_SIZE = Some (st, a2) ->
  exists s', kinv kernel s' ps /\
    if (b =? 0) || (st =? 0) then
      execve rd fl fuel rf stat_info f s filename argv envp = Some (- ENOMEM, s') /\
      procs s' = procs s
    else
      let sp := exec_sp argv st l vec in
      execve rd fl fuel rf stat_info f s filename argv envp = Some (Z.of_nat (length l), s') /\
      bytes_of (at_ (k_mem s') b) (Z.to_nat (fsize d r)) = file_bytes d r nm 0 (fsize d r) /\
      args_laid (k_mem s') sp (sp + 4 * (Z.of_nat (length l) + 2)) (map snd l) /\
      modifies ((b, fsize d r) :: (st, DEFAULT_USER_STACK_SIZE) :: kernel_regions fl stat_info)
        (k_mem s) (k_mem s') /\
      exists q', procs s' = <[current_process s := q']> (procs s) /\
        (text q', textsize q', stack q', stacksize q', user_pc q')
          = (b, fsize d r, st, DEFAULT_USER_STACK_SIZE, b) /\
        user_r q' = <[1%nat := sp]> (<[0%nat := Z.of_nat (length l)]>
                      (<[13%nat := sp]> (user_r q))) /\
        name q' = take 31 p ++ 0 :: drop (S (31 `min` length p)) (name q) /\
        (pid q', parent q', status q', current_dir q')
          = (pid q, parent q, status q, current_dir q).
Proof.
  intros KI EC Hn Eb Est.
  destruct (execve_ok rd fl d L K rf stat_info f kernel EF s q fuel filename p r nm argv l vec
    envp ps b a1 st a2 KI EC Eb Est) as (s' & E & K' & Hd).
  exists s'. split; [done|]. destruct (_ || _); [done|].
  destruct Hd as [(m4 & Hs4 & Ep) Ht Ha Hm _]. split; [done|]. split; [done|]. split; [done|].
  split; [done|]. eexists. split; [exact Ep|]. split; [done|]. split; [done|]. split; [|done].
  cbn. apply strlcpy_name_ok; [done|done|lia].
Qed.

(** *** A run: "/hi" with the arguments "hi" and "x" *)

Definition demo_args : list (Z * list Z) := [(20816, [104; 105]); (20819, [120])].

Definition demo_emem : mem :=
  mem_with (mem_with demo_fmem 20800
    [80; 81; 0; 0; 83; 81; 0; 0; 0; 0; 0; 0; 9; 9; 9; 9; 104; 105; 0; 120; 0]) 0 [5; 0].

Definition demo_exec : kstate := with_k_mem demo_emem three.

Lemma demo_exec_frame : exec_frame demo_disk demo_fl 16900.
Proof. split; [lia|left; cbn; lia|right; cbn; lia]. Qed.

(** The used chunks, by evaluation. *)
Lemma demo_in_use x n : 0 <= x -> x + n <= 36864 -> in_use three_alloc x n.
Proof.
  intros Hx Hn. split; [done|]. intros y Hy.
  assert (H0 : 0 <= y / CHUNK_SIZE < 9) by (unfold CHUNK_SIZE; Z.div_mod_to_equations; lia).
  assert (Hall : forallb (fun i => used three_alloc (Z.of_nat i)) (seq 0 9) = true)
    by (by vm_compute).
  rewrite forallb_forall in Hall. rewrite <- (Z2Nat.id (y / CHUNK_SIZE)) by lia.
  apply Hall, in_seq. lia.
Qed.

Lemma demo_edisk : on_disk demo_disk demo_byte demo_emem.
Proof.
  intros i Hi. apply Z.eqb_eq.
  by apply (check_below (fun i => demo_emem (32768 + i) =? demo_byte i) 160).
Qed.

Lemma demo_exec_call : exec_call demo_disk demo_fl demo_byte 2 5 16900 demo_files demo_exec
  (three_pcb 28672 12288 1 1) 5 20736 [47; 104; 105] 96 [104; 105] 20800 demo_args [5].
Proof.
  assert (Hap : forall x n, 20736 <= x /\ 0 <= n /\ x + n <= 24576 \/ 0 <= x /\ x + n <= 4096 ->
    away (kernel_regions demo_fl 16900) (x, n)).
  { intros x n Hc. repeat apply List.Forall_cons; [unfold apart; cbn; lia..|constructor]. }
  split.
  - by vm_compute.
  - exact demo_path.
  - split; [split; [by vm_compute|by apply name_at_check]|by vm_compute|cbn; lia|by vm_compute
           |by vm_compute].
  - split; [apply cstringb_cstring; by vm_compute|lia].
  - split; [discriminate|discriminate| | |].
    + intros _. unfold demo_args. cbn [args_at].
      split; [by vm_compute|]. split; [discriminate|]. split; [apply cstringb_cstring; by vm_compute|].
      split; [by vm_compute|]. split; [discriminate|]. split; [apply cstringb_cstring; by vm_compute|].
      by vm_compute.
    + intros _. apply cstringb_cstring; by vm_compute.
    + intros _. by vm_compute.
  - exact demo_edisk.
  - do 5 (apply List.Forall_cons; [apply Hap; cbn; lia|]). constructor.
  - do 6 (apply List.Forall_cons; [split; [apply demo_in_use; cbn; lia|cbn; lia]|]). constructor.
  - cbn. repeat constructor; cbn; lia.
Qed.

Lemma execve_loads_witness :
  exists s' q', execve demo_disk demo_fl 5 5 16900 demo_files demo_exec 20736 20800 0
      = Some (2, s') /\
    kinv (kernel_chunk 9000) s' [12288; 20480; 28672] /\
    bytes_of (at_ (k_mem s') 36864) 5 = [104; 101; 108; 108; 111] /\
    procs s' !! 20480 = Some q' /\ user_pc q' = 36864 /\ nth 0 (user_r q') 0 = 2 /\
    args_laid (k_mem s') 49128 49144 [[104; 105]; [120]].
Proof.
  assert (E1 : ('(b, a1) ← memory_allocate three_alloc 5; '(st, _) ← memory_allocate a1 8192;
    Some (b, st)) = Some (36864, 40960)) by (by vm_compute).
  destruct (memory_allocate three_alloc 5) as [[b a1]|] eqn:Eb; [|discriminate E1].
  cbn [mbind option_bind] in E1.
  destruct (memory_allocate a1 8192) as [[st a2]|] eqn:Est; [|discriminate E1].
  cbn [mbind option_bind] in E1. injection E1 as -> ->.
  destruct (execve_loads demo_disk demo_fl demo_byte demo_flayout 2 5 16900 demo_files
    (kernel_chunk 9000) demo_exec_frame demo_exec (three_pcb 28672 12288 1 1) 5 20736
    [47; 104; 105] 96 [104; 105] 20800 demo_args [5] 0 [12288; 20480; 28672] 36864 a1 40960 a2)
    as (s' & K' & E & T & A & _ & q' & Ep & F & R & _).
  - eapply kinv_evolves; [exact (evolves_with_k_mem three demo_emem)|exact three_inv].
  - exact demo_exec_call.
  - reflexivity.
  - exact Eb.
  - exact Est.
  - exists s', q'. split; [exact E|]. split; [exact K'|]. split; [exact T|].
    split; [rewrite Ep; apply lookup_insert_eq|]. injection F as _ _ _ _ Fp.
    split; [exact Fp|]. split; [by rewrite R|exact A].
Defined.

(** The entry behind the last argument is not set to NULL: it keeps what the
    stack block held. *)
Lemma argv_not_terminated :
  option_map (fun r => map (fun i => load32 (snd r) (49128 + 4 * i)) [0; 1; 2; 3])
    (setup_argv 5 demo_emem 20800 49152) = Some [49144; 49147; 0x01010101; 0x01010101].
Proof. by vm_compute. Qed.

(** The length of the last string is taken at address 0.  When that is shorter,
    the string runs past the end of the stack block. *)
Lemma argv_past_stack :
  let m := mem_with (mem_with (mem_with (fun _ => 0) 2000 (repeat 65 30)) 1000
             [208; 7; 0; 0; 0; 0; 0; 0]) 0 [0] in
  option_map (fun r => map (snd r) [8191; 8192; 8200]) (setup_argv 40 m 1000 8192)
  = Some [65; 65; 65].
Proof. by vm_compute. Qed.
