(* ===== verification/Syscalls.v ===== *)
(** * System calls: kernel/syscalls and the library's side, userspace/vlibc

    [swi_handler_c] is the dispatcher, over everything a system call can change:
    the board, the console, the timer, the kernel's tables ([sys] of the
    interrupt code), the open files and the I2C bus.  [swi_handler] adds what
    the assembly entry and exit do to the saved registers of the caller.  The
    second part is the library a program is linked with: every stub as the
    registers it executes [svc] with. *)

From stdpp Require Import base list numbers gmap.
From Stdlib Require Import ZArith Lia.
From S2P Require Import Prelude ArmMemset CString PageAlloc Romfs Process Sched Mmio Gpio Serial Console Interrupts Files Printk I2c Exec.

(** ** include/syscalls/syscalls.h *)

Definition SYSCALL_EXIT : Z := 1.
Definition SYSCALL_READ : Z := 3.
Definition SYSCALL_WRITE : Z := 4.
Definition SYSCALL_OPEN : Z := 5.
Definition SYSCALL_CLOSE : Z := 6.
Definition SYSCALL_WAITPID : Z := 7.
Definition SYSCALL_EXECVE : Z := 11.
Definition SYSCALL_CHDIR : Z := 12.
Definition SYSCALL_TIME : Z := 13.
Definition SYSCALL_GETPID : Z := 20.
Definition SYSCALL_TIMES : Z := 43.
Definition SYSCALL_IOCTL : Z := 54.
Definition SYSCALL_REBOOT : Z := 88.
Definition SYSCALL_STAT : Z := 106.
Definition SYSCALL_SYSINFO : Z := 116.
Definition SYSCALL_UNAME : Z := 122.
Definition SYSCALL_GETDENTS : Z := 141.
Definition SYSCALL_NANOSLEEP : Z := 162.
Definition SYSCALL_GETCWD : Z := 183.
Definition SYSCALL_VFORK : Z := 190.
Definition SYSCALL_BLINK : Z := 8192.
Definition SYSCALL_SETFONT : Z := 8193.
Definition SYSCALL_GRADIENT : Z := 8194.
Definition SYSCALL_TB1 : Z := 8195.
Definition SYSCALL_TEMPERATURE : Z := 8198.
Definition SYSCALL_RANDOM : Z := 8199.
Definition SYSCALL_FRAMEBUFFER_LOAD : Z := 8200.
Definition SYSCALL_MALLOC : Z := 8201.
Definition SYSCALL_I2C_READ : Z := 8202.
Definition SYSCALL_I2C_WRITE : Z := 8203.

(** include/drivers/bcm2835/bcm2835_periph.h *)
Definition PM_BASE : Z := 0x100000.
Definition PM_RSTC : Z := PM_BASE + 0x1c.
Definition PM_PASSWORD : Z := 0x5a000000.
Definition PM_RSTC_WRCFG_FULL_RESET : Z := 0x20.
Definition PM_WDOG : Z := PM_BASE + 0x24.

(** ** sysinfo.c *)

Section Calls.
Context `{MemFill}.

Definition sizeof_sysinfo : Z := 64.

Definition sysinfo (s : kstate) (buf : Z) : option (Z * kstate) :=
  let m := memset (k_mem s) buf 0 sizeof_sysinfo in
  let m := store32 m buf (ticks_since_boot s / TIMER_HZ) in
  let m := store32 m (buf + 16) (memory_get_total (k_alloc s)) in
  freeram ← memory_total_free (k_alloc s);
  let m := store32 m (buf + 20) freeram in
  '(total_proc_count, ready_proc_count) ← process_get_totals s;
  let m := store32 m (buf + 40) total_proc_count in
  let m := store32 m (buf + 56) ready_proc_count in
  p ← procs s !! proc_first s;
  let m := store32 m (buf + 60) (Z.quot (total_time p) TIMER_HZ) in
  Some (0, with_k_mem m s).

(** ** times.c *)

Definition times (s : kstate) (buf : Z) : option (Z * kstate) :=
  p ← procs s !! current_process s;
  let m := store32 (k_mem s) buf (total_time p) in
  let m := store32 m (buf + 4) 0 in
  let m := store32 m (buf + 8) 0 in
  let m := store32 m (buf + 12) 0 in
  Some (0, with_k_mem m s).

(** ** uname.c

    The addresses of the six strings. *)
Definition UTSNAME_SIZE : Z := 65.

Record uname_strings := UnameStrings {
  us_sysname : Z; us_nodename : Z; us_release : Z; us_version : Z; us_machine : Z;
  us_domainname : Z }.

Definition uname (u : uname_strings) (m : mem) (buf : Z) : Z * mem :=
  let '(m, _) := strlcpy m buf (us_sysname u) UTSNAME_SIZE in
  let '(m, _) := strlcpy m (buf + 65) (us_nodename u) UTSNAME_SIZE in
  let '(m, _) := strlcpy m (buf + 130) (us_release u) UTSNAME_SIZE in
  let '(m, _) := strlcpy m (buf + 195) (us_version u) UTSNAME_SIZE in
  let '(m, _) := strlcpy m (buf + 260) (us_machine u) UTSNAME_SIZE in
  let '(m, _) := strlcpy m (buf + 325) (us_domainname u) UTSNAME_SIZE in
  (0, m).
End Calls.

(** Conversion compares calls of these before looking inside. *)
Strategy 1000 [strlcpy uname].

(** ** syscalls.c *)

(** What the system call code finds in the kernel image: the address of the
    I/O registers, where messages are built, the serial port, the formats it
    prints, the strings of [uname], the stack slot of [execve]; and the fuel of
    the loops below it. *)
Record swi_env := SwiEnv {
  se_io_base : Z;
  se_print : print_env;
  se_serial : serial_type;
  se_ioctl : Z; se_disabling : Z; se_enabling : Z; se_unknown : Z;
  se_uname : uname_strings;
  se_stat_info : Z;
  se_fuel : nat; se_rf : nat; se_wf : nat; se_bf : nat }.

(** What a system call can change. *)
Record system `{Device W} := System {
  y_sys : sys (W := W);
  y_files : files;
  y_i2c : i2c_core }.
Arguments system W {_}.

Section Swi.
Context `{MemFill} `{Device W} (rd : ramdisk) (fl : flocals) (e : swi_env).

Definition kern (y : system W) : kstate := sys_kernel (y_sys y).
Definition board (y : system W) : W := sys_board (y_sys y).

Definition with_kern (s : kstate) (y : system W) : system W :=
  System W _ (Sys (sys_board (y_sys y)) (sys_console (y_sys y)) (sys_timer (y_sys y)) s)
    (y_files y) (y_i2c y).
Definition with_board (w : W) (y : system W) : system W :=
  System W _ (Sys w (sys_console (y_sys y)) (sys_timer (y_sys y)) (kern y)) (y_files y) (y_i2c y).
Definition with_console (c : console) (y : system W) : system W :=
  System W _ (Sys (board y) c (sys_timer (y_sys y)) (kern y)) (y_files y) (y_i2c y).
Definition with_timer (t : timer) (y : system W) : system W :=
  System W _ (Sys (board y) (sys_console (y_sys y)) t (kern y)) (y_files y) (y_i2c y).
Definition with_files (f : files) (y : system W) : system W := System W _ (y_sys y) f (y_i2c y).

(** [result] is a [uint32_t]. *)
Definition word_result (r : wait_result) : wait_result :=
  match r with Returned v => Returned (u32 v) | Blocked p => Blocked p end.

Definition returned_ (v : Z) (y : system W) : option (wait_result * system W) :=
  Some (Returned (u32 v), y).

(** [printk] with the messages of this file. *)
Definition sprint (y : system W) (string : Z) (ap : list varg) : option (system W) :=
  '(_, w, m) ← kprintk (se_io_base e) (se_print e) (se_serial e) (board y) (k_mem (kern y))
                 string ap;
  Some (with_board w (with_kern (with_k_mem m (kern y)) y)).

(** One case of the switch each.  [s] is the kernel's part of the state. *)
Definition do_exit (y : system W) (r0 : Z) : option (wait_result * system W) :=
  s1 ← exit (kern y) (s32 r0); returned_ 0 (with_kern s1 y).

Definition do_read (y : system W) (r0 r1 r2 : Z) : option (wait_result * system W) :=
  '(r, f, c, s1) ← read rd fl (se_rf e) (y_files y) (sys_console (y_sys y)) (kern y) r0 r1 r2;
  Some (word_result r, with_files f (with_console c (with_kern s1 y))).

Definition do_write (y : system W) (r0 r1 r2 : Z) : option (wait_result * system W) :=
  '(r, w) ← write (se_io_base e) (se_wf e) (se_serial e) (board y) (kern y) r0 r1 r2;
  returned_ r (with_board w y).

Definition do_open (y : system W) (r0 r1 r2 : Z) : option (wait_result * system W) :=
  '(r, f, s1) ← open rd fl (se_fuel e) (se_rf e) (y_files y) (kern y) r0 r1 r2;
  returned_ r (with_files f (with_kern s1 y)).

Definition do_close (y : system W) (r0 : Z) : option (wait_result * system W) :=
  returned_ (close r0) y.

Definition do_waitpid (y : system W) (r0 r1 r2 : Z) : option (wait_result * system W) :=
  '(r, s1) ← waitpid (kern y) (s32 r0) r1 (s32 r2) (current_process (kern y));
  Some (word_result r, with_kern s1 y).

(** The parent is woken and another process chosen. *)
Definition do_execve (y : system W) (r0 r1 r2 : Z) : option (wait_result * system W) :=
  '(result, s1) ← execve rd fl (se_fuel e) (se_rf e) (se_stat_info e) (y_files y) (kern y) r0 r1 r2;
  p ← procs s1 !! current_process s1;
  s2 ← upd_pcb (parent p) (set_status PROCESS_STATUS_READY) s1;
  s3 ← schedule s2;
  returned_ result (with_kern s3 y).

Definition do_chdir (y : system W) (r0 : Z) : option (wait_result * system W) :=
  '(r, s1) ← chdir rd fl (se_fuel e) (se_rf e) (y_files y) (kern y) r0;
  returned_ r (with_kern s1 y).

Definition do_uname (y : system W) (r0 : Z) : option (wait_result * system W) :=
  let '(r, m) := uname (se_uname e) (k_mem (kern y)) r0 in
  returned_ r (with_kern (with_k_mem m (kern y)) y).

Definition do_sysinfo (y : system W) (r0 : Z) : option (wait_result * system W) :=
  '(r, s1) ← sysinfo (kern y) r0; returned_ r (with_kern s1 y).

Definition do_stat (y : system W) (r0 r1 : Z) : option (wait_result * system W) :=
  '(r, s1) ← stat rd fl (se_fuel e) (se_rf e) (y_files y) (kern y) r0 r1;
  returned_ r (with_kern s1 y).

Definition do_time (y : system W) : option (wait_result * system W) :=
  returned_ (time_since_boot (kern y)) y.

Definition do_getpid (y : system W) : option (wait_result * system W) :=
  p ← procs (kern y) !! current_process (kern y); returned_ (pid p) y.

Definition do_times (y : system W) (r0 : Z) : option (wait_result * system W) :=
  '(r, s1) ← times (kern y) r0; returned_ r (with_kern s1 y).

Definition do_ioctl (y : system W) (r0 r1 r2 : Z) : option (wait_result * system W) :=
  y1 ← sprint y (se_ioctl e) [Word r0; Word r1; Word r2]; returned_ (-1) y1.

Definition do_getdents (y : system W) (r0 r1 r2 : Z) : option (wait_result * system W) :=
  '(r, f, s1) ← getdents rd fl (se_rf e) (y_files y) (kern y) r0 r1 r2;
  returned_ r (with_files f (with_kern s1 y)).

Definition do_nanosleep (y : system W) (r0 : Z) : option (wait_result * system W) :=
  '(r, t, s1) ← nanosleep (sys_timer (y_sys y)) (kern y) r0;
  Some (word_result r, with_timer t (with_kern s1 y)).

Definition do_getcwd (y : system W) (r0 r1 : Z) : option (wait_result * system W) :=
  '(r, s1) ← getcwd rd fl (se_rf e) (kern y) r0 r1; returned_ r (with_kern s1 y).

Definition do_vfork (y : system W) : option (wait_result * system W) :=
  '(r, s1) ← vfork (kern y); returned_ r (with_kern s1 y).

Definition do_blink (y : system W) (r0 : Z) : option (wait_result * system W) :=
  let on := if r0 =? 0 then 0 else 1 in
  y1 ← sprint y (if r0 =? 0 then se_disabling e else se_enabling e) [];
  let t := sys_timer (y_sys y1) in
  returned_ 0 (with_timer (Timer (timer_next_wakeup t) on (lit t)) y1).

Definition do_reboot (y : system W) : option (wait_result * system W) :=
  let w1 := bcm2835_write (se_io_base e) (board y) PM_WDOG (Z.lor PM_PASSWORD 1) in
  let w2 := bcm2835_write (se_io_base e) w1 PM_RSTC (Z.lor PM_PASSWORD PM_RSTC_WRCFG_FULL_RESET) in
  returned_ (-1) (with_board w2 y).

Definition do_malloc (y : system W) (r0 : Z) : option (wait_result * system W) :=
  '(p, a) ← memory_allocate (k_alloc (kern y)) r0;
  returned_ p (with_kern (with_k_alloc a (kern y)) y).

Definition do_i2c_read (y : system W) (r0 r1 r2 : Z) : option (wait_result * system W) :=
  '(r, w, m) ← i2c_read (se_io_base e) (y_i2c y) (se_bf e) (board y) (k_mem (kern y)) r0 r1 r2;
  returned_ r (with_board w (with_kern (with_k_mem m (kern y)) y)).

Definition do_i2c_write (y : system W) (r0 r1 r2 : Z) : option (wait_result * system W) :=
  '(r, w) ← i2c_write (se_io_base e) (y_i2c y) (se_bf e) (board y) (k_mem (kern y)) r0 r1 r2;
  returned_ r (with_board w y).

Definition do_unknown (y : system W) (r7 : Z) : option (wait_result * system W) :=
  y1 ← sprint y (se_unknown e) [Word r7]; returned_ 0 y1.

(** The result is the value the caller gets when it runs again, [Blocked] that
    it sleeps inside the call. *)
Definition swi_handler_c (r0 r1 r2 r3 r7 : Z) (y : system W) : option (wait_result * system W) :=
  if r7 =? SYSCALL_EXIT then do_exit y r0
  else if r7 =? SYSCALL_READ then do_read y r0 r1 r2
  else if r7 =? SYSCALL_WRITE then do_write y r0 r1 r2
  else if r7 =? SYSCALL_OPEN then do_open y r0 r1 r2
  else if r7 =? SYSCALL_CLOSE then do_close y r0
  else if r7 =? SYSCALL_WAITPID then do_waitpid y r0 r1 r2
  else if r7 =? SYSCALL_EXECVE then do_execve y r0 r1 r2
  else if r7 =? SYSCALL_CHDIR then do_chdir y r0
  else if r7 =? SYSCALL_UNAME then do_uname y r0
  else if r7 =? SYSCALL_SYSINFO then do_sysinfo y r0
  else if r7 =? SYSCALL_STAT then do_stat y r0 r1
  else if r7 =? SYSCALL_TIME then do_time y
  else if r7 =? SYSCALL_GETPID then do_getpid y
  else if r7 =? SYSCALL_TIMES then do_times y r0
  else if r7 =? SYSCALL_IOCTL then do_ioctl y r0 r1 r2
  else if r7 =? SYSCALL_GETDENTS then do_getdents y r0 r1 r2
  else if r7 =? SYSCALL_NANOSLEEP then do_nanosleep y r0
  else if r7 =? SYSCALL_GETCWD then do_getcwd y r0 r1
  else if r7 =? SYSCALL_VFORK then do_vfork y
  else if r7 =? SYSCALL_BLINK then do_blink y r0
  else if r7 =? SYSCALL_REBOOT then do_reboot y
  else if r7 =? SYSCALL_MALLOC then do_malloc y r0
  else if r7 =? SYSCALL_I2C_READ then do_i2c_read y r0 r1 r2
  else if r7 =? SYSCALL_I2C_WRITE then do_i2c_write y r0 r1 r2
  else do_unknown y r7.

(** ** swi_handler.s

    The user's registers r0-lr, the return address and the SPSR go into the
    caller's control block; the result replaces the r0 stored there. *)
Definition swi_enter (regs : list Z) (pc spsr : Z) (q : pcb) : pcb :=
  set_user_spsr spsr (set_user_pc pc (set_user_r regs q)).

Definition swi_leave (v : Z) (q : pcb) : pcb := set_user_r (<[0%nat := v]> (user_r q)) q.

Definition swi_handler (regs : list Z) (pc spsr : Z) (y : system W)
    : option (wait_result * system W) :=
  let caller := current_process (kern y) in
  s1 ← upd_pcb caller (swi_enter regs pc spsr) (kern y);
  let r i := nth i regs 0 in
  '(result, y1) ← swi_handler_c (r 0%nat) (r 1%nat) (r 2%nat) (r 3%nat) (r 7%nat) (with_kern s1 y);
  match result with
  | Blocked _ => Some (result, y1)
  | Returned v =>
      s2 ← upd_pcb caller (swi_leave v) (kern y1);
      Some (result, with_kern s2 y1)
  end.
End Swi.

(** ** The library: userspace/vlibc/syscalls.arm.c, vmwos.c and i2c-dev.c

    A stub as the registers at its [svc]: the arguments in r0 to r3, the number
    in r7, the others as they were.  A stub without arguments leaves r0 alone;
    so does [vmwos_blink] for a value that is neither letter. *)
Section Stubs.
Context (rs : list Z).

Definition svc0 (nr : Z) : list Z := <[7%nat := nr]> rs.
Definition svc1 (nr a0 : Z) : list Z := <[7%nat := nr]> (<[0%nat := u32 a0]> rs).
Definition svc2 (nr a0 a1 : Z) : list Z := <[1%nat := u32 a1]> (svc1 nr a0).
Definition svc3 (nr a0 a1 a2 : Z) : list Z := <[2%nat := u32 a2]> (svc2 nr a0 a1).
Definition svc4 (nr a0 a1 a2 a3 : Z) : list Z := <[3%nat := u32 a3]> (svc3 nr a0 a1 a2).

Definition libc_exit (status : Z) := svc1 1 status.
Definition libc_read (fd buf count : Z) := svc3 3 fd buf count.
Definition libc_write (fd buf size : Z) := svc3 4 fd buf size.
Definition libc_open (filename flags mode : Z) := svc3 5 filename flags mode.
Definition libc_close (fd : Z) := svc1 6 fd.
Definition libc_waitpid (pid wstatus options : Z) := svc3 7 pid wstatus options.
Definition libc_execve (filename argv envp : Z) := svc3 11 filename argv envp.
Definition libc_chdir (path : Z) := svc1 12 path.
Definition libc_getcwd (buf size : Z) := svc2 183 buf size.
Definition libc_getpid := svc0 20.
Definition libc_times (buf : Z) := svc1 43 buf.
Definition libc_stat (pathname buf : Z) := svc2 106 pathname buf.
Definition libc_sysinfo (buf : Z) := svc1 116 buf.
Definition libc_uname (buf : Z) := svc1 122 buf.
Definition libc_getdents (fd dirp count : Z) := svc3 141 fd dirp count.
Definition libc_nanosleep (req rem : Z) := svc2 162 req rem.
Definition libc_vfork := svc0 190.
Definition libc_ioctl3 (fd request req2 : Z) := svc3 54 fd request req2.
Definition libc_ioctl4 (fd request req2 req3 : Z) := svc4 54 fd request req2 req3.
Definition libc_sys_time := svc0 13.
Definition libc_sys_reboot := svc0 88.

Definition vmwos_blink (value : Z) : list Z :=
  let r0 := if value =? 102 then 0 else if value =? 110 then 1 else nth 0 rs 0 in
  <[7%nat := 8192]> (<[0%nat := r0]> rs).
Definition vmwos_tb1 := svc0 8195.
Definition vmwos_setfont (which : Z) := svc1 8193 which.
Definition vmwos_gradient := svc0 8194.
Definition vmwos_framebuffer_load (x y depth fb : Z) := svc4 8200 x y depth fb.
Definition vmwos_get_temp := svc0 8198.
Definition vmwos_random (buffer : Z) := svc1 8199 buffer.
Definition vmwos_malloc (size : Z) := svc1 8201 size.

(** [address] is a [uint16_t]. *)
Definition libc_i2c_read (address buf count : Z) := svc3 8202 (u16 address) buf count.
Definition libc_i2c_write (address buf count : Z) := svc3 8203 (u16 address) buf count.
End Stubs.

(** ** What the calls deliver *)

(** The words of an object in memory. *)
Definition words (m : mem) (a : Z) (n : nat) : list Z :=
  map (fun i => load32 m (a + 4 * Z.of_nat i)) (seq 0 n).

Lemma load32_filled m0 a n m x : filled m0 a 0 n m -> a <= x -> x + 4 <= a + n -> load32 m x = 0.
Proof.
  intros Hf Hl Hh. unfold load32. rewrite !Hf. by repeat (bcase; try lia).
Qed.

(** [sysinfo] always returns 0 and fills the 64 bytes at [buf], and no
    other: the seconds since the last boot, the memory there is and the memory
    that is free, the number of processes, of those that are ready, and the
    seconds the idle process ran; the other words are 0. *)
Theorem sysinfo_reports `{MemFill} kernel s l buf q :
  kinv kernel s l -> Z.of_nat (length l) < 2 ^ 31 -> procs s !! proc_first s = Some q ->
  0 <= buf -> buf + 64 < 2 ^ 32 ->
  exists f m, memory_total_free (k_alloc s) = Some f /\
    sysinfo s buf = Some (0, with_k_mem m s) /\ modifies [(buf, 64)] (k_mem s) m /\
    words m buf 16 =
      [ u32 (ticks s / 64); 0; 0; 0; u32 (memory_total (k_alloc s));
        u32 f; 0; 0; 0; 0; u32 (Z.of_nat (length l)); 0; 0; 0;
        u32 (Z.of_nat (length (List.filter
              (fun a => fld status s a =? PROCESS_STATUS_READY) l)));
        u32 (Z.quot (total_time q) 64) ].
Proof.
  intros K Hl Hq Hb1 Hb2. unfold sysinfo. destruct (k_blocks _ _ _ K) as [extra HC].
  pose proof (memory_total_free_count _ (inv_wf _ _ HC)) as Ef. cbn [fst] in Ef.
  rewrite Ef. cbn [mbind option_bind].
  assert (Hne : l <> []).
  { intros ->. destruct (k_dom _ _ _ K (proc_first s)) as [Hi _]. by apply Hi. }
  assert (Et : process_get_totals s = Some (Z.of_nat (length l), Z.of_nat (length
    (List.filter (fun a => fld status s a =? PROCESS_STATUS_READY) l)))).
  { unfold process_get_totals. rewrite (process_get_totals_loop_ok s l); try done; try lia.
    - destruct (k_list _ _ _ K) as (_ & Hs & _). exact Hs.
    - by apply Nat.lt_le_incl, plist_fuel, K. }
  bind_with Et. bind_with Hq.
  pose proof (memset_filled (k_mem s) buf 0 sizeof_sysinfo ltac:(lia) Hb1 ltac:(done) Hb2) as Hf.
  set (m0 := memset _ _ _ _) in *.
  eexists _, _. split; [done|]. split; [done|]. split.
  - assert (M0 : modifies [(buf, 64)] (k_mem s) m0)
      by (apply modifies_same_outside; intros x Hx; rewrite Hf; unfold sizeof_sysinfo; bcase; [lia|done]).
    repeat (etransitivity; [|apply modifies_store32_in; lia]). done.
  - assert (Hz : forall i, 0 <= i < 16 -> load32 m0 (buf + 4 * i) = 0)
      by (intros i Hi; apply (load32_filled (k_mem s) buf 64); [done|lia|lia]).
    unfold words. cbn [seq map].
    repeat f_equal; cbn [Z.of_nat Z.mul Pos.mul Pos.of_succ_nat Pos.succ Z.add];
      repeat first [ rewrite load32_store32_ne by lia
                   | match goal with |- load32 (store32 _ ?a _) ?b = _ =>
                       replace b with a by lia; apply load32_store32 end ];
      by (apply Hz; lia).
Qed.

Lemma strlcpy_field m d s l :
  cstring (at_ m s) l -> apart d 65 s 65 ->
  let m' := fst (strlcpy m d s UTSNAME_SIZE) in
  cstring (at_ m' d) (take 64 l) /\ modifies [(d, 65)] m m'.
Proof.
  intros Hs Hd. pose proof (strlcpy_cstring m d s l UTSNAME_SIZE Hs ltac:(done) Hd) as H.
  cbn zeta. destruct (strlcpy m d s UTSNAME_SIZE) as [m' r]. destruct H as (Hc & Hr & Ho).
  split; [done|]. apply modifies_same_outside. intros x Hx. apply Ho. unfold UTSNAME_SIZE in *. lia.
Qed.

(** The strings [ls] lie at the addresses [us], away from the object filled in. *)
Definition strings_at (m : mem) (buf n : Z) : list Z -> list (list Z) -> Prop :=
  Forall2 (fun a l => cstring (at_ m a) l /\ apart buf n a 65 /\ (length l < 65)%nat).

Definition uname_addresses (u : uname_strings) : list Z :=
  [us_sysname u; us_nodename u; us_release u; us_version u; us_machine u; us_domainname u].

Lemma strings_at_modifies m m' buf n d us ls :
  modifies [(d, 65)] m m' -> buf <= d -> d + 65 <= buf + n ->
  strings_at m buf n us ls -> strings_at m' buf n us ls.
Proof.
  intros Hm Hl Hh Hs. eapply Forall2_impl; [exact Hs|]. intros a l (Hc & Ha & Hn). split; [|done].
  eapply cstring_modifies; [exact Hm| |done]. constructor; [|done]. unfold apart in *. cbn. lia.
Qed.

(** The fields from [d] on. *)
Fixpoint fill_fields (m : mem) (d : Z) (us : list Z) : mem :=
  match us with
  | [] => m
  | a :: us' => fill_fields (fst (strlcpy m d a UTSNAME_SIZE)) (d + 65) us'
  end.

Fixpoint fields_at (m : mem) (d : Z) (ls : list (list Z)) : Prop :=
  match ls with
  | [] => True
  | l :: ls' => cstring (at_ m d) l /\ fields_at m (d + 65) ls'
  end.

Lemma fill_fields_ok buf n us : forall m d ls, buf <= d -> d + 65 * Z.of_nat (length us) <= buf + n ->
  strings_at m buf n us ls ->
  modifies [(d, 65 * Z.of_nat (length us))] m (fill_fields m d us) /\
  fields_at (fill_fields m d us) d ls.
Proof.
  induction us as [|a us IH]; intros m d ls Hl Hh Hs; cbn [fill_fields length] in *.
  - apply Forall2_nil_inv_l in Hs as ->. split; [done|exact I].
  - apply Forall2_cons_inv_l in Hs as (l & ls' & (Hc & Ha & Hn) & Hs & ->).
    destruct (strlcpy_field m d a l Hc) as [Hc' Hm]; [unfold apart in *; lia|].
    set (m1 := fst _) in *. rewrite take_ge in Hc' by lia.
    destruct (IH m1 (d + 65) ls') as [M F]; [lia|lia|
      eapply strings_at_modifies; [exact Hm|lia|lia|exact Hs]|]. split.
    + transitivity m1; [eapply modifies_sub; [exact Hm|regions]|].
      eapply modifies_sub; [exact M|regions].
    + split; [|done]. eapply cstring_modifies; [exact M| |done].
      constructor; [|done]. unfold apart. cbn. lia.
Qed.

(** [uname] always returns 0 and fills the six arrays of 65 bytes at [buf]
    with the six strings of the kernel, in order and each with its NUL, and
    writes nothing else, if the strings are shorter than an array and lie
    elsewhere. *)
Theorem uname_fields u m buf ls :
  strings_at m buf 390 (uname_addresses u) ls ->
  exists m', uname u m buf = (0, m') /\ modifies [(buf, 390)] m m' /\ fields_at m' buf ls.
Proof.
  intros Hs. exists (fill_fields m buf (uname_addresses u)). split.
  - unfold uname, uname_addresses. cbn [fill_fields].
    replace (buf + 65 + 65) with (buf + 130) by lia. replace (buf + 130 + 65) with (buf + 195) by lia.
    replace (buf + 195 + 65) with (buf + 260) by lia. replace (buf + 260 + 65) with (buf + 325) by lia.
    by repeat (destruct (strlcpy _ _ _ _); cbn [fst]).
  - exact (fill_fields_ok buf 390 (uname_addresses u) m buf ls ltac:(lia) ltac:(cbn; lia) Hs).
Qed.

(** *** The library's calls *)

Section Library.
Context `{MemFill} `{Device W} (rd : ramdisk) (fl : flocals) (e : swi_env).

(** What the kernel does with the registers of a trap. *)
Definition trap (rs : list Z) (y : system W) : option (wait_result * system W) :=
  swi_handler_c rd fl e (nth 0 rs 0) (nth 1 rs 0) (nth 2 rs 0) (nth 3 rs 0) (nth 7 rs 0) y.
End Library.

(** Fifteen registers, and the numbers of the arguments. *)
Ltac trap_eq :=
  intros; match goal with H : length ?rs = 15%nat |- _ =>
    do 15 (destruct rs as [|? rs]; [discriminate H|]); reflexivity end.

(** The stubs of the library trap with the number and in the registers their
    routine of the kernel takes its arguments from, whatever the other registers
    hold.  Six of them (tb1, setfont, gradient, framebuffer_load, get_temp and
    random) have numbers the kernel does not know, and get the answer of an
    unknown call. *)
Theorem library_reaches_kernel `{MemFill} `{Device W} rd fl e rs (y : system W) :
  length rs = 15%nat -> let call r := trap rd fl e r y in
  (forall a, call (libc_exit rs a) = do_exit y (u32 a)) /\
  (forall a b c, call (libc_read rs a b c) = do_read rd fl e y (u32 a) (u32 b) (u32 c)) /\
  (forall a b c, call (libc_write rs a b c) = do_write e y (u32 a) (u32 b) (u32 c)) /\
  (forall a b c, call (libc_open rs a b c) = do_open rd fl e y (u32 a) (u32 b) (u32 c)) /\
  (forall a, call (libc_close rs a) = do_close y (u32 a)) /\
  (forall a b c, call (libc_waitpid rs a b c) = do_waitpid y (u32 a) (u32 b) (u32 c)) /\
  (forall a b c, call (libc_execve rs a b c) = do_execve rd fl e y (u32 a) (u32 b) (u32 c)) /\
  (forall a, call (libc_chdir rs a) = do_chdir rd fl e y (u32 a)) /\
  (forall a b, call (libc_getcwd rs a b) = do_getcwd rd fl e y (u32 a) (u32 b)) /\
  call (libc_getpid rs) = do_getpid y /\
  (forall a, call (libc_times rs a) = do_times y (u32 a)) /\
  (forall a b, call (libc_stat rs a b) = do_stat rd fl e y (u32 a) (u32 b)) /\
  (forall a, call (libc_sysinfo rs a) = do_sysinfo y (u32 a)) /\
  (forall a, call (libc_uname rs a) = do_uname e y (u32 a)) /\
  (forall a b c, call (libc_getdents rs a b c) = do_getdents rd fl e y (u32 a) (u32 b) (u32 c)) /\
  (forall a b, call (libc_nanosleep rs a b) = do_nanosleep y (u32 a)) /\
  call (libc_vfork rs) = do_vfork y /\
  (forall a b c, call (libc_ioctl3 rs a b c) = do_ioctl e y (u32 a) (u32 b) (u32 c)) /\
  (forall a b c d, call (libc_ioctl4 rs a b c d) = do_ioctl e y (u32 a) (u32 b) (u32 c)) /\
  call (libc_sys_time rs) = do_time y /\
  call (libc_sys_reboot rs) = do_reboot e y /\
  call (vmwos_blink rs 110) = do_blink e y 1 /\ call (vmwos_blink rs 102) = do_blink e y 0 /\
  (forall a, call (vmwos_malloc rs a) = do_malloc y (u32 a)) /\
  (forall a b c, call (libc_i2c_read rs a b c) = do_i2c_read e y (u32 (u16 a)) (u32 b) (u32 c)) /\
  (forall a b c, call (libc_i2c_write rs a b c) = do_i2c_write e y (u32 (u16 a)) (u32 b) (u32 c)) /\
  call (vmwos_tb1 rs) = do_unknown e y SYSCALL_TB1 /\
  (forall a, call (vmwos_setfont rs a) = do_unknown e y SYSCALL_SETFONT) /\
  call (vmwos_gradient rs) = do_unknown e y SYSCALL_GRADIENT /\
  (forall a b c d, call (vmwos_framebuffer_load rs a b c d)
     = do_unknown e y SYSCALL_FRAMEBUFFER_LOAD) /\
  call (vmwos_get_temp rs) = do_unknown e y SYSCALL_TEMPERATURE /\
  (forall a, call (vmwos_random rs a) = do_unknown e y SYSCALL_RANDOM).
Proof.
  intros Hl call. repeat (split; [trap_eq|]). trap_eq.
Qed.

(** *** Runs *)

Definition demo_env : swi_env :=
  SwiEnv 0x20000000 (PrintEnv 0 (fun _ => 0) 0 0) (Serial 1 115200 8 1 0 pl011_uart)
    0 0 0 0 (UnameStrings 0 0 0 0 0 0) 16900 5 5 3 3.

Definition demo_system : system port :=
  System _ _ (Sys (Port [] [] false) console_bss timer_default demo_kernel) demo_files i2c_bss.

Lemma sysinfo_reports_witness :
  exists m, sysinfo three 40000 = Some (0, with_k_mem m three) /\
    modifies [(40000, 64)] (k_mem three) m /\
    words m 40000 16 = [0; 0; 0; 0; 0; 1011712; 0; 0; 0; 0; 3; 0; 0; 0; 2; 0].
Proof.
  destruct (sysinfo_reports (kernel_chunk 9000) three [12288; 20480; 28672] 40000
    (three_pcb 20480 0 0 0) three_inv ltac:(done) ltac:(by vm_compute) ltac:(done) ltac:(done))
    as (f & m & Ef & E & M & Ew).
  assert (E1 : memory_total_free (k_alloc three) = Some 1011712) by (by vm_compute).
  rewrite E1 in Ef. injection Ef as <-. exists m. split; [exact E|]. split; [exact M|exact Ew].
Defined.

Lemma uname_fields_witness :
  exists m', uname (UnameStrings 500 503 506 509 512 515)
      (mem_with (fun _ => 0) 500 [97; 98; 0; 99; 100; 0; 54; 55; 0; 101; 102; 0; 103; 104; 0; 105; 106; 0])
      1000 = (0, m') /\
    modifies [(1000, 390)]
      (mem_with (fun _ => 0) 500 [97; 98; 0; 99; 100; 0; 54; 55; 0; 101; 102; 0; 103; 104; 0; 105; 106; 0]) m' /\
    fields_at m' 1000 [[97; 98]; [99; 100]; [54; 55]; [101; 102]; [103; 104]; [105; 106]].
Proof.
  apply uname_fields. unfold uname_addresses, strings_at.
  repeat (apply Forall2_cons; split; [split; [apply cstringb_cstring; by vm_compute|
    split; [unfold apart; cbn; lia|cbn; lia]]|]). constructor.
Defined.

Lemma library_reaches_kernel_witness :
  trap demo_disk demo_fl demo_env (libc_getpid (repeat 9 15)) demo_system = do_getpid demo_system.
Proof.
  by destruct (library_reaches_kernel demo_disk demo_fl demo_env (repeat 9 15) demo_system eq_refl)
    as (_ & _ & _ & _ & _ & _ & _ & _ & _ & Hp & _).
Defined.
