(* ===== verification/Safety.v ===== *)
(** * The kernel as a transition system

    System calls, the sleeping calls that run on, interrupts and programs that
    compute, in any order: the steps of the whole kernel, and the invariant that
    all of them keep.  The kernel runs without protection: a step that stores
    into an object of the kernel, or that does not return, leads to [Lost].  The
    lemmas take a step of the code that has returned and say what it did to the
    tables; that the calls return is the subject of the theorems of each
    component, and of [serves] for the scheduler, the allocator and [vfork]. *)

From stdpp Require Import base list numbers gmap relations.
From Stdlib Require Import ZArith Lia.
From S2P Require Import Prelude ArmMemset CString PageAlloc Romfs Process Sched Mmio Gpio Serial Console Interrupts Files Printk I2c Exec Syscalls.

(** Take apart a computation that returned. *)
Ltac ret_in H :=
  repeat lazymatch type of H with
  | mbind _ _ = Some _ =>
      let E := fresh "E" in apply bind_Some in H as (? & E & H)
  | (let (_, _) := ?p in _) = Some _ =>
      lazymatch p with
      | (_, _) => cbn beta iota in H
      | _ => first [is_var p; destruct p | let E := fresh "E" in destruct p eqn:E]
      end
  | (if ?b then _ else _) = Some _ => let E := fresh "Hb" in destruct b eqn:E; b2p
  | None = Some _ => discriminate H
  | Some _ = Some _ => injection H as H; subst
  | match ?q with _ => _ end = Some _ => let E := fresh "E" in destruct q eqn:E
  end.

(** ** Steps that change no structure *)

(** The blocks keep their links, ids and memory, nobody exits, and the process
    that runs afterwards is the same, or one of the table that has not exited,
    or the idle process. *)
Record proceeds (s s' : kstate) : Prop := {
  pr_evolves : evolves s s';
  pr_alive : forall a, fld status s' a = PROCESS_STATUS_EXITED ->
    fld status s a = PROCESS_STATUS_EXITED;
  pr_current : current_process s' = current_process s \/
    (is_Some (procs s' !! current_process s') /\
     (fld status s' (current_process s') <> PROCESS_STATUS_EXITED \/
      current_process s' = proc_first s')) }.

#[global] Instance proceeds_preorder : PreOrder proceeds.
Proof.
  split; [by intros s; split; [done|auto|by left]|].
  intros s1 s2 s3 [V1 A1 C1] [V2 A2 C2]. split; [by transitivity s2|auto|].
  destruct C2 as [E|C2]; [|by right]. rewrite E. destruct C1 as [C1|[[q Hq] C1]]; [by left|].
  right. destruct (evolves_lookup _ _ _ _ V2 Hq) as (q' & Hq' & _). split; [by eexists|].
  destruct C1 as [C1|C1]; [left; auto|]. right. by rewrite C1, (ev_first _ _ V2).
Qed.

Lemma proceeds_frame s s' : procs s' = procs s -> proc_first s' = proc_first s ->
  avail_pid s' = avail_pid s -> k_alloc s' = k_alloc s ->
  current_process s' = current_process s -> proceeds s s'.
Proof.
  intros E1 E2 E3 E4 E5. split; [split; try done|..|by left].
  - intros a. rewrite E1. by destruct (procs s !! a).
  - intros a. unfold fld. by rewrite E1.
Qed.

Lemma proceeds_k_mem s m : proceeds s (with_k_mem m s).
Proof. by apply proceeds_frame. Qed.

Lemma fld_upd {f p q s} a : fld f (with_procs (<[p := q]> (procs s)) s) a
  = if decide (a = p) then f q else fld f s a.
Proof.
  unfold fld. cbn. destruct (decide (a = p)) as [->|Hne];
    [by rewrite lookup_insert_eq|by rewrite lookup_insert_ne].
Qed.

Lemma upd_pcb_inv p f s s' : upd_pcb p f s = Some s' ->
  exists q, procs s !! p = Some q /\ s' = with_procs (<[p := f q]> (procs s)) s.
Proof. unfold upd_pcb. intros H. ret_in H. eauto. Qed.

Lemma upd_pcb_proceeds s s' p f : upd_pcb p f s = Some s' ->
  (forall q, core (f q) = core q) ->
  (forall q, status (f q) = PROCESS_STATUS_EXITED -> status q = PROCESS_STATUS_EXITED) ->
  proceeds s s'.
Proof.
  unfold upd_pcb. intros H Hc Hst. ret_in H. split; [by eapply evolves_upd| |by left].
  intros a. rewrite fld_upd. destruct (decide (a = p)) as [->|]; [|done].
  unfold fld. rewrite E. cbn. apply Hst.
Qed.

Ltac upd_ok := eapply upd_pcb_proceeds; [eassumption|by intros []|by intros []].

Create HintDb proceeds.
Create HintDb calls.
#[export] Hint Resolve proceeds_k_mem : proceeds.

(** *** The scheduler *)

Lemma schedule_loop_chooses s o : forall fuel p q, schedule_loop fuel s o p = Some q ->
  q = proc_first s \/ fld status s q = PROCESS_STATUS_READY.
Proof.
  induction fuel as [|fuel IH]; intros p q H; [done|]. cbn [schedule_loop] in H.
  ret_in H; try (by left); [|eauto]. right. unfold fld.
  match goal with X : procs s !! ?q = Some _ |- context [procs s !! ?q] => by rewrite X end.
Qed.

Lemma schedule_to_ran s s' p : schedule_to s p = Some s' -> switched s s' p /\ is_Some (procs s' !! p).
Proof.
  intros H. pose proof H as H0. unfold schedule_to in H0.
  apply bind_Some in H0 as (s1 & E1 & H0). apply bind_Some in H0 as (s2 & E2 & _).
  apply upd_pcb_inv in E1 as (qc & Hc & ->). apply upd_pcb_inv in E2 as (qp0 & Hp0 & _).
  assert (Hp : exists qp, procs s !! p = Some qp).
  { cbn in Hp0. destruct (decide (p = current_process s)) as [->|]; [eauto|].
    rewrite lookup_insert_ne in Hp0 by done. eauto. }
  destruct Hp as [qp Hp].
  destruct (schedule_to_ok s p qp qc Hp Hc) as (s3 & E & Hsw). rewrite E in H.
  injection H as ->. split; [done|].
  destruct (evolves_lookup _ _ _ _ (sw_evolves _ _ _ Hsw) Hp) as (q & Hq & _). by eexists.
Qed.

(** What a [schedule] that returned did. *)
Record scheduled (s s' : kstate) : Prop := {
  sc_evolves : evolves s s';
  sc_status : forall a, fld status s' a = fld status s a;
  sc_some : is_Some (procs s' !! current_process s');
  sc_choice : current_process s' = proc_first s' \/
    fld status s' (current_process s') = PROCESS_STATUS_READY }.

Lemma schedule_ran s s' : schedule s = Some s' -> scheduled s s'.
Proof.
  intros H. assert (Ht : forall o p q, schedule_loop (S (list_fuel s)) s o p = Some q ->
    schedule_to s q = Some s' -> scheduled s s').
  { intros o p q Hl Hto. apply schedule_to_ran in Hto as [Hsw Hs]. 
    pose proof (sw_current _ _ _ Hsw) as Ec.
    assert (St : forall a, fld status s' a = fld status s a)
      by (intros a; by apply times_only_status, Hsw).
    split; [apply Hsw|done|by rewrite Ec|]. rewrite Ec, St, (ev_first _ _ (sw_evolves _ _ _ Hsw)).
    by eapply schedule_loop_chooses. }
  unfold schedule in H. ret_in H; [|by eapply Ht..].
  split; [done|done|by eexists|by left].
Qed.

Lemma schedule_proceeds s s' : schedule s = Some s' -> proceeds s s'.
Proof.
  intros H. apply schedule_ran in H as [V St Hs Hc]. split; [done|intros a; by rewrite St|].
  right. split; [done|]. destruct Hc as [->| ->]; [by right|by left].
Qed.
#[export] Hint Resolve schedule_proceeds : proceeds.

(** *** Wait queues *)

Lemma with_first_proceeds s q v : proceeds s (with_first q v s).
Proof. by apply proceeds_frame; destruct q. Qed.

Lemma wait_queue_append_proceeds p : forall fuel s s' n,
  wait_queue_append fuel s p n = Some s' -> proceeds s s'.
Proof.
  induction fuel as [|fuel IH]; intros s s' n H; [done|]. cbn [wait_queue_append] in H.
  ret_in H; [done|upd_ok|eauto].
Qed.

Lemma wait_queue_add_proceeds s q p r s' : wait_queue_add s q p = Some (r, s') -> proceeds s s'.
Proof.
  unfold wait_queue_add, wait_queue_enter. intros H. ret_in H.
  match goal with X : schedule _ = Some _ |- _ => apply schedule_proceeds in X as Hs end.
  ret_in E. ret_in E1.
  - etransitivity; [apply with_first_proceeds|]. etransitivity; [upd_ok|done].
  - etransitivity; [by eapply wait_queue_append_proceeds|]. etransitivity; [upd_ok|done].
Qed.

Lemma wait_queue_wake_loop_proceeds : forall fuel s s' p,
  wait_queue_wake_loop fuel s p = Some s' -> proceeds s s'.
Proof.
  induction fuel as [|fuel IH]; intros s s' p H; [done|]. cbn [wait_queue_wake_loop] in H.
  ret_in H; [done|]. etransitivity; [|by eapply IH]. etransitivity; [|upd_ok]. upd_ok.
Qed.

Lemma wait_queue_wake_proceeds s q r s' : wait_queue_wake s q = Some (r, s') -> proceeds s s'.
Proof.
  unfold wait_queue_wake. intros H. ret_in H.
  etransitivity; [by eapply wait_queue_wake_loop_proceeds|apply with_first_proceeds].
Qed.
#[export] Hint Resolve wait_queue_add_proceeds wait_queue_wake_proceeds : proceeds.

(** ** The invariant of the running kernel

    The tables are in order; the current process is one of them and has not
    exited; neither has the idle process. *)
Record good (kernel : Z -> bool) (s : kstate) (l : list Z) : Prop := {
  g_inv : kinv kernel s l;
  g_current : In (current_process s) l;
  g_running : fld status s (current_process s) <> PROCESS_STATUS_EXITED;
  g_idle : fld status s (proc_first s) <> PROCESS_STATUS_EXITED }.

Lemma good_proceeds kernel s s' l : proceeds s s' -> good kernel s l -> good kernel s' l.
Proof.
  intros [V A C] [K Hin Hr Hi]. pose proof (kinv_evolves _ _ _ _ V K) as K'.
  assert (Hi' : fld status s' (proc_first s') <> PROCESS_STATUS_EXITED)
    by (rewrite (ev_first _ _ V); auto).
  split; [done| | |done].
  - destruct C as [->|[C _]]; [done|]. by apply (k_dom _ _ _ K').
  - destruct C as [->|[_ [C|C]]]; [auto|done|by rewrite C].
Qed.

(** [exit]: the caller has exited, and something else runs. *)
Lemma exit_good kernel s l v s' : good kernel s l -> current_process s <> proc_first s ->
  exit s v = Some s' -> good kernel s' l.
Proof.
  intros [K Hin Hr Hi] Hne H. unfold exit in H.
  apply bind_Some in H as (s1 & E1 & H). apply upd_pcb_inv in E1 as (q & Hq & ->).
  apply bind_Some in H as ([r s2] & E2 & H). unfold waitpid_done in E2.
  apply bind_Some in E2 as ([? s2'] & E2 & [= _ ->]).
  apply wait_queue_wake_proceeds in E2. apply schedule_ran in H as [V St Hs Hc].
  set (q' := set_exit_value _ _) in *.
  assert (V1 : evolves s (with_procs (<[current_process s:=q']> (procs s)) s))
    by (by eapply evolves_upd).
  assert (V' : evolves s s')
    by (transitivity s2; [transitivity (with_procs (<[current_process s:=q']> (procs s)) s);
          [done|apply E2]|done]).
  pose proof (kinv_evolves _ _ _ _ V' K) as K'.
  assert (Hi' : fld status s' (proc_first s') <> PROCESS_STATUS_EXITED).
  { rewrite St, (ev_first _ _ V'). intros Hx. apply (pr_alive _ _ E2) in Hx.
    rewrite fld_upd in Hx. destruct (decide _); [congruence|done]. }
  split; [done|by apply (k_dom _ _ _ K')| |done].
  destruct Hc as [->| ->]; done.
Qed.

Section Reap.
Context `{MemFill} (kernel : Z -> bool).

(** A process that has exited is taken out. *)
Lemma destroy_good s l p q r s' : good kernel s l -> procs s !! p = Some q ->
  status q = PROCESS_STATUS_EXITED -> process_destroy s p = Some (r, s') ->
  exists l', good kernel s' l'.
Proof.
  intros [K Hin Hr Hi] Hq Hst H'.
  assert (Hp : fld status s p = PROCESS_STATUS_EXITED) by (unfold fld; by rewrite Hq).
  assert (Hpi : In p l) by (apply (k_dom _ _ _ K); by eexists).
  apply in_split in Hpi as (l1 & l2 & ->).
  assert (Hpf : p <> proc_first s) by congruence.
  destruct (process_destroy_ok kernel s l1 p l2 q K Hq (k_owns _ _ _ K p q Hq Hpf))
    as (s2 & E & K' & Hsame & Hn & _ & _ & Hfr).
  rewrite E in H'. injection H' as _ ->. exists (l1 ++ l2).
  assert (Hst' : forall a, a <> p -> fld status s' a = fld status s a).
  { intros a Ha. specialize (Hsame a). rewrite lookup_delete_ne in Hsame by done.
    unfold fld. destruct (procs s !! a), (procs s' !! a); try done.
    destruct (same_pcb_fields _ _ Hsame) as (_ & _ & _ & _ & _ & Es & _). exact Es. }
  assert (Ec : current_process s' = current_process s) by (by rewrite Hfr).
  assert (Ef : proc_first s' = proc_first s).
  { pose proof (k_list _ _ _ K) as (_ & Hs & _). pose proof (k_list _ _ _ K') as (_ & Hs' & _).
    destruct l1 as [|x l1]; destruct Hs as [E1 _]; [congruence|].
    destruct Hs' as [E2 _]. congruence. }
  assert (Hcp : current_process s <> p) by congruence.
  split; [done| | |].
  - rewrite Ec. rewrite in_app_iff in *. destruct Hin as [?|[?|?]]; [by left|congruence|by right].
  - by rewrite Ec, Hst'.
  - by rewrite Ef, Hst'.
Qed.

Lemma store_wstatus_proceeds w v s : proceeds s (store_wstatus w v s).
Proof. unfold store_wstatus. destruct (negb _); [apply proceeds_k_mem|done]. Qed.

Lemma reap_good s l p q w r s' : good kernel s l -> procs s !! p = Some q ->
  status q = PROCESS_STATUS_EXITED ->
  process_destroy (store_wstatus w (exit_value q) s) p = Some (r, s') ->
  exists l', good kernel s' l'.
Proof.
  intros G Hq Hst E. eapply (destroy_good (store_wstatus w (exit_value q) s)); [| |exact Hst|exact E].
  - eapply good_proceeds; [apply store_wstatus_proceeds|done].
  - unfold store_wstatus. by destruct (negb _).
Qed.

Lemma waitpid_loop_good s l p n w r s' : good kernel s l ->
  waitpid_loop s p n w = Some (r, s') -> exists l', good kernel s' l'.
Proof.
  intros G E. unfold waitpid_loop in E. ret_in E.
  - exists l. eapply good_proceeds; [|done]. eauto with proceeds.
  - eapply reap_good; eauto.
Qed.

Lemma waitpid_good s l n w o c r s' : good kernel s l ->
  waitpid s n w o c = Some (r, s') -> exists l', good kernel s' l'.
Proof.
  intros G E.
  assert (Hw : forall p r s', (if o =? WNOHANG then waitpid_nohang s p w
    else waitpid_loop s p n w) = Some (r, s') -> exists l', good kernel s' l').
  { intros p r0 s0 E0. destruct (o =? WNOHANG); [|by eapply waitpid_loop_good].
    unfold waitpid_nohang in E0. ret_in E0; [by eapply reap_good; eauto|by exists l]. }
  unfold waitpid in E. ret_in E; eauto.
Qed.

Lemma vfork_good s l r s' : good kernel s l -> 0 <= avail_pid s < 2 ^ 31 - 1 ->
  vfork s = Some (r, s') -> exists l', good kernel s' l'.
Proof.
  intros [K Hin Hr Hi] Hav E.
  destruct (vfork_ok kernel s l K Hav Hin) as [(s1 & E1 & Hs1)|(c & s1 & F & E1)];
    rewrite E1 in E.
  { injection E as _ ->. exists l. rewrite Hs1.
    apply (good_proceeds _ s); [by apply proceeds_frame|by split]. }
  exists (l ++ [c]). assert (G1 : good kernel s1 (l ++ [c])).
  { pose proof (fk_current _ _ _ _ _ F) as Ec. split; [apply F| | |].
    - rewrite Ec. apply in_app_iff. by left.
    - by rewrite Ec, (fk_parent _ _ _ _ _ F).
    - rewrite (fk_first _ _ _ _ _ F). destruct (decide (proc_first s = current_process s)) as [->|Hn].
      + by rewrite (fk_parent _ _ _ _ _ F).
      + rewrite (fk_others _ _ _ _ _ F); [done| |done]. intros Hf.
        apply (fk_fresh _ _ _ _ _ F). rewrite <- Hf.
        destruct l as [|x l']; [done|].
        destruct (k_list _ _ _ K) as (_ & (-> & _) & _). by left. }
  unfold vfork_return in E. ret_in E; [|done].
  eapply good_proceeds; [|exact G1]. by apply schedule_proceeds.
Qed.
End Reap.

(** ** The calls that touch one thing *)

Lemma get_inode_k_mem `{MemFill} rd fl fuel rf f s p r s' :
  get_inode_k rd fl fuel rf f s p = Some (r, s') -> exists m, s' = with_k_mem m s.
Proof. unfold get_inode_k. intros E. ret_in E. eauto. Qed.

Ltac inode_in E := apply get_inode_k_mem in E as [? ->].

Section Simple.
Context `{MemFill} (rd : ramdisk) (fl : flocals).

Lemma open_proceeds fuel rf f s p fg md r f' s' :
  open rd fl fuel rf f s p fg md = Some (r, f', s') -> proceeds s s'.
Proof. unfold open. intros E. ret_in E; inode_in E0; apply proceeds_k_mem. Qed.

Lemma stat_proceeds fuel rf f s p b r s' :
  stat rd fl fuel rf f s p b = Some (r, s') -> proceeds s s'.
Proof.
  unfold stat. intros E. ret_in E; inode_in E0; [apply proceeds_k_mem|].
  by apply proceeds_frame.
Qed.

Lemma chdir_proceeds fuel rf f s p r s' :
  chdir rd fl fuel rf f s p = Some (r, s') -> proceeds s s'.
Proof.
  unfold chdir. intros E. ret_in E; inode_in E0; try by apply proceeds_frame.
  etransitivity; [|upd_ok]. by apply proceeds_frame.
Qed.

Lemma getcwd_proceeds rf s b n r s' : getcwd rd fl rf s b n = Some (r, s') -> proceeds s s'.
Proof. unfold getcwd. intros E. ret_in E. apply proceeds_k_mem. Qed.

Lemma getdents_proceeds rf f s fd b n r f' s' :
  getdents rd fl rf f s fd b n = Some (r, f', s') -> proceeds s s'.
Proof. unfold getdents. intros E. ret_in E; try done. apply proceeds_k_mem. Qed.

Lemma console_read_proceeds c s b n r c' s' :
  console_read c s b n = Some (r, c', s') -> proceeds s s'.
Proof.
  unfold console_read. intros E. ret_in E; [eauto with proceeds|apply proceeds_k_mem].
Qed.

Lemma read_proceeds rf f c s fd b n r f' c' s' :
  read rd fl rf f c s fd b n = Some (r, f', c', s') -> proceeds s s'.
Proof.
  unfold read. intros E. ret_in E; try done; [by eapply console_read_proceeds|].
  apply proceeds_k_mem.
Qed.

Lemma sysinfo_proceeds s b r s' : sysinfo s b = Some (r, s') -> proceeds s s'.
Proof. unfold sysinfo. intros E. ret_in E. apply proceeds_k_mem. Qed.

Lemma times_proceeds s b r s' : times s b = Some (r, s') -> proceeds s s'.
Proof. unfold times. intros E. ret_in E. apply proceeds_k_mem. Qed.

Lemma nanosleep_loop_proceeds t s d r t' s' :
  nanosleep_loop t s d = Some (r, t', s') -> proceeds s s'.
Proof.
  unfold nanosleep_loop, timer_sleep_until. intros E. ret_in E; [|done].
  ret_in E0. eauto with proceeds.
Qed.
End Simple.
#[export] Hint Resolve open_proceeds stat_proceeds chdir_proceeds getcwd_proceeds
  getdents_proceeds read_proceeds sysinfo_proceeds times_proceeds nanosleep_loop_proceeds
  console_read_proceeds : proceeds.

(** ** [execve]

    The size of the file counts: the blocks of a process are given back with
    the sizes noted in its control block. *)
Section Exec.
Context `{MemFill} (rd : ramdisk) (fl : flocals) (kernel : Z -> bool).

(** Whatever file the path names, [stat] reports a size. *)
Definition nonempty_file (fuel rf : nat) (stat_info : Z) (f : files) (s : kstate) (p : Z) : Prop :=
  forall inode s1 r m, get_inode_k rd fl fuel rf f s p = Some (inode, s1) ->
    romfs_stat rd (fl_romfs fl) rf (k_mem s1) inode stat_info = Some (r, m) -> 0 <= r ->
    u32 (load32 m (stat_info + st_size)) <> 0.

Lemma execve_good fuel rf st f s l p argv envp r s' : good kernel s l ->
  nonempty_file fuel rf st f s p ->
  execve rd fl fuel rf st f s p argv envp = Some (r, s') -> good kernel s' l.
Proof.
  intros G Hn E. assert (Hmem : forall m, good kernel (with_k_mem m s) l)
    by (intros m; eapply good_proceeds; [apply proceeds_k_mem|done]).
  unfold execve in E. apply bind_Some in E as ([inode s1] & E1 & E).
  specialize (Hn inode s1). specialize (Hn) with (1 := E1). inode_in E1.
  destruct (inode <? 0); [injection E as _ <-; apply Hmem|].
  apply bind_Some in E as ([r1 m2] & E2 & E). specialize (Hn _ _ E2).
  destruct (r1 <? 0) eqn:Hr; b2p; [injection E as _ <-; apply (Hmem m2)|].
  specialize (Hn Hr). rewrite u32_s32 in E. set (size := u32 (load32 m2 _)) in *.
  pose proof (u32_range (load32 m2 (st + st_size))) as Hsz. fold size in Hsz.
  cbn [k_alloc with_k_mem] in E. apply bind_Some in E as ([b a1] & Eb & E).
  rewrite (u32_id DEFAULT_USER_STACK_SIZE) in E by done.
  apply bind_Some in E as ([stk a2] & Est & E).
  destruct ((b =? 0) || (stk =? 0)) eqn:Ez; b2p.
  { injection E as _ <-. pose proof G as [K _ _ _].
    pose proof (kinv_leak _ _ _ size _ _ K ltac:(lia) Eb) as K1.
    pose proof (kinv_leak _ _ _ DEFAULT_USER_STACK_SIZE _ _ K1 ltac:(done) Est) as K2.
    destruct G as [_ ? ? ?]. split; try done.
    eapply kinv_evolves; [|exact K2]. exact (evolves_with_k_mem _ m2). }
  apply bind_Some in E as ([r4 m4] & E4 & E). apply bind_Some in E as (s5 & E5 & E).
  apply upd_pcb_inv in E5 as (q & Hq & ->). cbn in Hq.
  apply bind_Some in E as ([[argc sp] m6] & E6 & E). apply bind_Some in E as (s6 & E7 & E).
  apply upd_pcb_inv in E7 as (q5 & Hq5 & ->). injection E as _ <-.
  cbn in Hq5. rewrite lookup_insert_eq in Hq5. injection Hq5 as <-.
  cbn [procs with_procs with_k_mem with_k_alloc current_process].
  rewrite insert_insert_eq. fold (loaded_pcb m4 p argc sp stk b size q).
  set (q' := loaded_pcb _ _ _ _ _ _ _ _).
  destruct G as [K Hin Hrun Hi]. assert (Hst : forall a, fld status
    (with_procs (<[current_process s := q']> (procs s)) s) a = fld status s a).
  { intros a. rewrite fld_upd. destruct (decide _) as [->|]; [|done].
    unfold fld. by rewrite Hq. }
  split; [|done|exact (eq_ind_r (fun x => x <> _) Hrun (Hst _))
          |exact (eq_ind_r (fun x => x <> _) Hi (Hst _))].
  eapply kinv_evolves; [|apply (kinv_load kernel s l q m4 p argc sp size b a1 stk a2); (done || lia)].
  exact (evolves_with_k_mem _ m6).
Qed.
End Exec.

(** ** Every system call *)

Section Calls.
Context `{MemFill} `{Device W} (rd : ramdisk) (fl : flocals) (e : swi_env).
Context (kernel : Z -> bool).

(** What is asked of a caller: the idle process does not exit, ids do not run
    out, no empty program is started. *)
Definition may_call (y : system W) (r7 r0 : Z) : Prop :=
  (r7 = SYSCALL_EXIT -> current_process (kern y) <> proc_first (kern y)) /\
  (r7 = SYSCALL_VFORK -> 0 <= avail_pid (kern y) < 2 ^ 31 - 1) /\
  (r7 = SYSCALL_EXECVE -> nonempty_file rd fl (se_fuel e) (se_rf e) (se_stat_info e)
                            (y_files y) (kern y) r0).

Definition sound (y : system W) : Prop := exists l, good kernel (kern y) l.

Lemma sound_proceeds (y y' : system W) : sound y -> proceeds (kern y) (kern y') -> sound y'.
Proof. intros [l G] P. exists l. by eapply good_proceeds. Qed.

Lemma sprint_proceeds (y y' : system W) f ap : sprint e y f ap = Some y' ->
  proceeds (kern y) (kern y').
Proof. unfold sprint. intros E. ret_in E. apply proceeds_k_mem. Qed.

(** The call, if it returns, leaves a sound state. *)
Definition keeps (c : option (wait_result * system W)) : Prop :=
  forall r y', c = Some (r, y') -> sound y'.

Lemma keeps_if (b : bool) c1 c2 :
  (b = true -> keeps c1) -> keeps c2 -> keeps (if b then c1 else c2).
Proof. destruct b; auto. Qed.

#[local] Hint Unfold do_read do_write do_open do_close do_chdir do_uname do_sysinfo do_stat do_time
  do_getpid do_times do_ioctl do_getdents do_nanosleep do_getcwd do_blink do_reboot do_i2c_read
  do_i2c_write do_unknown nanosleep returned_ : calls.

Ltac keep_call :=
  let r := fresh "r" in let y' := fresh "y'" in let E := fresh "E" in
  intros ? r y' E; autounfold with calls in E; cbv zeta in E; ret_in E;
  match goal with S : sound ?y |- _ => apply sound_proceeds with y; [exact S|] end;
  first [done | apply proceeds_k_mem | by eapply nanosleep_loop_proceeds
        | by eauto 3 with proceeds
        | match goal with X : sprint _ _ _ _ = Some _ |- _ => exact (sprint_proceeds _ _ _ _ X) end].

Lemma do_read_keeps (y : system W) r0 r1 r2 : sound y -> keeps (do_read rd fl e y r0 r1 r2).
Proof. keep_call. Qed.

Lemma do_write_keeps (y : system W) r0 r1 r2 : sound y -> keeps (do_write e y r0 r1 r2).
Proof. keep_call. Qed.

Lemma do_open_keeps (y : system W) r0 r1 r2 : sound y -> keeps (do_open rd fl e y r0 r1 r2).
Proof. keep_call. Qed.

Lemma do_close_keeps (y : system W) r0 : sound y -> keeps (do_close y r0).
Proof. keep_call. Qed.

Lemma do_chdir_keeps (y : system W) r0 : sound y -> keeps (do_chdir rd fl e y r0).
Proof. keep_call. Qed.

Lemma do_uname_keeps (y : system W) r0 : sound y -> keeps (do_uname e y r0).
Proof. keep_call. Qed.

Lemma do_sysinfo_keeps (y : system W) r0 : sound y -> keeps (do_sysinfo y r0).
Proof. keep_call. Qed.

Lemma do_stat_keeps (y : system W) r0 r1 : sound y -> keeps (do_stat rd fl e y r0 r1).
Proof. keep_call. Qed.

Lemma do_time_keeps (y : system W) : sound y -> keeps (do_time y).
Proof. keep_call. Qed.

Lemma do_getpid_keeps (y : system W) : sound y -> keeps (do_getpid y).
Proof. keep_call. Qed.

Lemma do_times_keeps (y : system W) r0 : sound y -> keeps (do_times y r0).
Proof. keep_call. Qed.

Lemma do_ioctl_keeps (y : system W) r0 r1 r2 : sound y -> keeps (do_ioctl e y r0 r1 r2).
Proof. keep_call. Qed.

Lemma do_getdents_keeps (y : system W) r0 r1 r2 : sound y -> keeps (do_getdents rd fl e y r0 r1 r2).
Proof. keep_call. Qed.

Lemma do_nanosleep_keeps (y : system W) r0 : sound y -> keeps (do_nanosleep y r0).
Proof. keep_call. Qed.

Lemma do_getcwd_keeps (y : system W) r0 r1 : sound y -> keeps (do_getcwd rd fl e y r0 r1).
Proof. keep_call. Qed.

Lemma do_blink_keeps (y : system W) r0 : sound y -> keeps (do_blink e y r0).
Proof. keep_call. Qed.

Lemma do_reboot_keeps (y : system W) : sound y -> keeps (do_reboot e y).
Proof. keep_call. Qed.

Lemma do_i2c_read_keeps (y : system W) r0 r1 r2 : sound y -> keeps (do_i2c_read e y r0 r1 r2).
Proof. keep_call. Qed.

Lemma do_i2c_write_keeps (y : system W) r0 r1 r2 : sound y -> keeps (do_i2c_write e y r0 r1 r2).
Proof. keep_call. Qed.

Lemma do_unknown_keeps (y : system W) r7 : sound y -> keeps (do_unknown e y r7).
Proof. keep_call. Qed.

Lemma do_exit_keeps (y : system W) r0 : current_process (kern y) <> proc_first (kern y) ->
  sound y -> keeps (do_exit y r0).
Proof. intros Hc [l G] r y' E. unfold do_exit, returned_ in E. ret_in E. exists l. by eapply exit_good. Qed.

Lemma do_waitpid_keeps (y : system W) r0 r1 r2 : sound y -> keeps (do_waitpid y r0 r1 r2).
Proof. intros [l G] r y' E. unfold do_waitpid in E. ret_in E. by eapply waitpid_good. Qed.

Lemma do_vfork_keeps (y : system W) : 0 <= avail_pid (kern y) < 2 ^ 31 - 1 -> sound y ->
  keeps (do_vfork y).
Proof. intros Ha [l G] r y' E. unfold do_vfork, returned_ in E. ret_in E. by eapply vfork_good. Qed.

Lemma do_malloc_keeps (y : system W) r0 : 0 <= r0 < 2 ^ 32 -> sound y -> keeps (do_malloc y r0).
Proof.
  intros Hr [l G] r y' E. unfold do_malloc, returned_ in E. ret_in E. destruct G as [K ? ? ?].
  exists l. split; try done. by eapply kinv_leak.
Qed.

Lemma do_execve_keeps (y : system W) r0 r1 r2 :
  nonempty_file rd fl (se_fuel e) (se_rf e) (se_stat_info e) (y_files y) (kern y) r0 ->
  sound y -> keeps (do_execve rd fl e y r0 r1 r2).
Proof.
  intros Hn [l G] r y' E. unfold do_execve, returned_ in E. ret_in E.
  match goal with X : execve _ _ _ _ _ _ _ _ _ _ = Some _ |- _ =>
    apply (execve_good _ _ kernel _ _ _ _ _ l) in X as G1; [|done|done] end.
  exists l. eapply good_proceeds; [|exact G1]. etransitivity; [|by apply schedule_proceeds].
  upd_ok.
Qed.

Lemma swi_handler_c_keeps (y : system W) r0 r1 r2 r3 r7 : sound y ->
  0 <= r0 < 2 ^ 32 -> may_call y r7 r0 -> keeps (swi_handler_c rd fl e r0 r1 r2 r3 r7 y).
Proof.
  intros S Hr (M1 & M2 & M3). unfold swi_handler_c.
  repeat (apply keeps_if; [intros Eb%Z.eqb_eq|]);
    [ apply do_exit_keeps | apply do_read_keeps | apply do_write_keeps | apply do_open_keeps | apply do_close_keeps | apply do_waitpid_keeps | apply do_execve_keeps | apply do_chdir_keeps | apply do_uname_keeps | apply do_sysinfo_keeps | apply do_stat_keeps | apply do_time_keeps | apply do_getpid_keeps | apply do_times_keeps | apply do_ioctl_keeps | apply do_getdents_keeps | apply do_nanosleep_keeps | apply do_getcwd_keeps | apply do_vfork_keeps | apply do_blink_keeps | apply do_reboot_keeps | apply do_malloc_keeps | apply do_i2c_read_keeps | apply do_i2c_write_keeps | apply do_unknown_keeps ]; auto.
Qed.

(** The entry touches no field that decides what is called. *)
Lemma nonempty_upd fuel rf st f s s' c g p : upd_pcb c g s = Some s' ->
  (forall q, current_dir (g q) = current_dir q) ->
  nonempty_file rd fl fuel rf st f s p -> nonempty_file rd fl fuel rf st f s' p.
Proof.
  intros E Hg Hn inode s1 r m E1 E2 Hr. apply upd_pcb_inv in E as (q & Hq & ->).
  unfold get_inode_k in E1. apply bind_Some in E1 as (p1 & Hp1 & E1).
  apply bind_Some in E1 as ([i m1] & E1 & [= <- <-]). cbn in *.
  assert (Hd : exists p0, procs s !! current_process s = Some p0 /\ current_dir p1 = current_dir p0).
  { destruct (decide (current_process s = c)) as [Ec|Hne].
    - rewrite Ec in *. rewrite lookup_insert_eq in Hp1. injection Hp1 as <-. eauto.
    - rewrite lookup_insert_ne in Hp1 by done. eauto. }
  destruct Hd as (p0 & Hp0 & Ed). rewrite Ed in E1.
  apply (Hn i (with_k_mem m1 s) r m); [|done|done].
  unfold get_inode_k. bind_with Hp0. bind_with E1. done.
Qed.

Lemma swi_handler_sound (y y' : system W) regs pc spsr r : sound y ->
  0 <= nth 0 regs 0 < 2 ^ 32 -> may_call y (nth 7 regs 0) (nth 0 regs 0) ->
  swi_handler rd fl e regs pc spsr y = Some (r, y') -> sound y'.
Proof.
  intros S Hr (M1 & M2 & M3) E. unfold swi_handler in E.
  apply bind_Some in E as (s1 & E1 & E). apply bind_Some in E as ([res y1] & E2 & E).
  assert (P1 : proceeds (kern y) s1) by upd_ok.
  assert (S1 : sound y1).
  { apply (swi_handler_c_keeps (with_kern s1 y)) in E2; [done| |done|].
    - by apply sound_proceeds with y.
    - pose proof E1 as E1'. apply upd_pcb_inv in E1 as (q & _ & ->).
      split; [exact M1|]. split; [exact M2|]. intros H7.
      eapply nonempty_upd; [exact E1'|by intros []|auto]. }
  ret_in E; [|done]. apply sound_proceeds with y1; [done|]. upd_ok.
Qed.

(** ** Interrupts *)

Lemma console_insert_proceeds c s ch r c' s' :
  console_insert_char c s ch = Some (r, c', s') -> proceeds s s'.
Proof. unfold console_insert_char. intros E. ret_in E; [done|eauto with proceeds]. Qed.

Lemma receive_loop_proceeds io_base : forall fuel (w w' : W) c c' s s',
  pl011_receive_loop io_base fuel w c s = Some (w', c', s') -> proceeds s s'.
Proof.
  induction fuel as [|fuel IH]; intros w w' c c' s s' E; [done|]. cbn [pl011_receive_loop] in E.
  ret_in E; [done|]. etransitivity; [by eapply console_insert_proceeds|eauto].
Qed.

Lemma on_serial_proceeds io_base fuel sr (z z' : sys (W := W)) :
  on_serial io_base fuel sr z = Some z' -> proceeds (sys_kernel z) (sys_kernel z').
Proof.
  unfold on_serial, serial_interrupt_handler. intros E. ret_in E. cbn [sys_kernel].
  ret_in E0.
  - unfold pl011_uart_interrupt_handler in E0. ret_in E0. by eapply receive_loop_proceeds.
  - unfold mini_uart_interrupt_handler in E0. rewrite mini_receive_same in E0. ret_in E0.
    by eapply receive_loop_proceeds.
Qed.

Lemma on_timer_proceeds io_base ld (z z' : sys (W := W)) :
  on_timer io_base ld z = Some z' -> proceeds (sys_kernel z) (sys_kernel z').
Proof.
  unfold on_timer, timer_interrupt_handler, timer_wake. intros E. ret_in E. cbn [sys_kernel].
  ret_in E0. etransitivity; [|ret_in E; [by eapply wait_queue_wake_proceeds|done]].
  by apply proceeds_frame.
Qed.

Lemma interrupt_proceeds io_base fuel hw sr ld (z z' : sys (W := W)) :
  interrupt_handler_c io_base fuel hw sr ld z = Some z' -> proceeds (sys_kernel z) (sys_kernel z').
Proof.
  unfold interrupt_handler_c. intros E. destruct (pending _ _ _) as [[port tick] w1].
  apply bind_Some in E as (z1 & E1 & E). apply bind_Some in E as (z2 & E2 & E).
  assert (P1 : proceeds (sys_kernel z) (sys_kernel z1)).
  { ret_in E1; [|done]. by apply on_serial_proceeds in E1. }
  assert (P2 : proceeds (sys_kernel z1) (sys_kernel z2)).
  { ret_in E2; [|done]. by apply on_timer_proceeds in E2. }
  ret_in E; [by transitivity (sys_kernel z1)|]. cbn [sys_kernel].
  transitivity (sys_kernel z1); [done|]. transitivity (sys_kernel z2); [done|].
  ret_in E0; [by apply schedule_proceeds|done].
Qed.
End Calls.

(** ** The machine

    What goes on while the kernel runs: a program traps with these registers; a
    call that slept goes on where it left off ([AWait], [ASleep], [ARead]) and
    its result is stored ([AResult]; [vfork]'s 0 for the child is stored the
    same way); an interrupt is taken; a program computes, turning the memory
    into [f] of it. *)
Inductive activity :=
| ATrap (regs : list Z) (pc spsr : Z)
| AWait (proc n wstatus : Z)
| ASleep (until : Z)
| ARead (buf count : Z)
| AResult (p v : Z)
| AInterrupt
| ACompute (f : mem -> mem).

Section Machine.
Context `{MemFill} `{Device W} (rd : ramdisk) (fl : flocals) (e : swi_env) (hw : Z) (ld : led).

(** The bytes at which the kernel's code and variables are ([static]: the table
    of the allocator, the heads of the lists, the descriptors and so on) are part
    of the image; the model keeps their contents, as those of the control blocks
    with their kernel stacks, in records and not in [k_mem]. *)
Context (static : Z -> bool).

Definition kernel_object (s : kstate) (a : Z) : bool :=
  static a || existsb (fun x => (fst x <=? a) && (a <? fst x + sizeof_pcb)) (map_to_list (procs s)).

(** The state when the bytes of those objects are [v]. *)
Definition with_objects (v : mem) (y : system W) : system W :=
  with_kern (with_k_mem (fun a => if kernel_object (kern y) a then v a else k_mem (kern y) a)
               (kern y)) y.

Definition perform (act : activity) (y : system W) : option (system W) :=
  match act with
  | ATrap regs pc spsr => snd <$> swi_handler rd fl e (u32 <$> regs) pc spsr y
  | AWait proc n wstatus =>
      '(_, s) ← waitpid_loop (kern y) proc n wstatus; Some (with_kern s y)
  | ASleep until =>
      '(_, t, s) ← nanosleep_loop (sys_timer (y_sys y)) (kern y) until;
      Some (with_timer t (with_kern s y))
  | ARead buf count =>
      '(_, c, s) ← console_read (sys_console (y_sys y)) (kern y) buf count;
      Some (with_console c (with_kern s y))
  | AResult p v => s ← upd_pcb p (swi_leave v) (kern y); Some (with_kern s y)
  | AInterrupt =>
      z ← interrupt_handler_c (se_io_base e) (se_wf e) hw (se_serial e) ld (y_sys y);
      Some (System W _ z (y_files y) (y_i2c y))
  | ACompute f => Some (with_kern (with_k_mem (f (k_mem (kern y))) (kern y)) y)
  end.

(** What is asked of a caller, and that no store, of the program or of the
    kernel through a pointer of the program, hits an object of the kernel that
    is there before and after: the bytes of the objects, whatever they are,
    are left alone. *)
Definition admissible (act : activity) (y : system W) : Prop :=
  match act with
  | ATrap regs _ _ => may_call rd fl e y (u32 (nth 7 regs 0)) (u32 (nth 0 regs 0))
  | _ => True
  end.

Definition spares (act : activity) (y : system W) : Prop :=
  forall v y', perform act (with_objects v y) = Some y' ->
    forall a, kernel_object (kern y) a = true -> kernel_object (kern y') a = true ->
      k_mem (kern y') a = v a.

(** Nothing protects the kernel: when a store hits one of its objects, an
    access is undefined or a caller asks for what is not provided for, nothing
    is known any more. *)
Inductive machine :=
| Running (y : system W)
| Lost.

Inductive kernel_step : machine -> machine -> Prop :=
| step_done act v y y' :
    admissible act (with_objects v y) -> spares act y ->
    perform act (with_objects v y) = Some y' -> kernel_step (Running y) (Running y')
| step_lost act v y :
    ~ admissible act (with_objects v y) \/ ~ spares act y \/ perform act (with_objects v y) = None ->
    kernel_step (Running y) Lost.

Lemma nth_u32 n regs : nth n (u32 <$> regs) 0 = u32 (nth n regs 0).
Proof. exact (map_nth u32 regs 0 n). Qed.

Lemma perform_sound kernel act (y y' : system W) : admissible act y ->
  perform act y = Some y' -> sound kernel y -> sound kernel y'.
Proof.
  intros Ha E S. pose proof S as [l G]. destruct act; cbn [perform admissible] in *.
  - apply fmap_Some in E as ([r y1] & E & ->). eapply swi_handler_sound; [exact S| | |exact E].
    + rewrite nth_u32. apply u32_range.
    + by rewrite !nth_u32.
  - ret_in E. by eapply waitpid_loop_good.
  - ret_in E. apply sound_proceeds with y; [done|]. by eapply nanosleep_loop_proceeds.
  - ret_in E. apply sound_proceeds with y; [done|]. by eapply console_read_proceeds.
  - ret_in E. apply sound_proceeds with y; [done|]. upd_ok.
  - ret_in E. apply sound_proceeds with y; [done|]. by eapply interrupt_proceeds.
  - ret_in E. apply sound_proceeds with y; [done|]. apply proceeds_k_mem.
Qed.

Lemma kernel_run_sound kernel (y0 : system W) x : rtc kernel_step (Running y0) x ->
  sound kernel y0 -> match x with Running y => sound kernel y | Lost => True end.
Proof.
  intros Hr S. remember (Running y0) as x0 eqn:E0. revert y0 E0 S.
  induction Hr as [x|x0 x1 x2 Hs Hr IH]; intros y0 -> S; [done|].
  inversion Hs as [act v y y' Ha Hsp E E1 E2|act v y Hl E1 E2]; subst.
  - eapply IH; [done|]. eapply perform_sound; [exact Ha|exact E|].
    apply sound_proceeds with y0; [done|]. apply proceeds_k_mem.
  - inversion Hr as [|? ? ? Hs']; subst; [done|]. inversion Hs'.
Qed.
End Machine.

(** What a state with its tables in order still does: it chooses a process,
    the idle one or a ready one; it gives out memory; it makes a process. *)
Record serves `{MemFill} (s : kstate) : Prop := {
  sv_schedules : exists s', schedule s = Some s' /\
    (current_process s' = proc_first s \/ fld status s (current_process s') = PROCESS_STATUS_READY);
  sv_allocates : forall size, 0 <= size <= VIDEO_CHUNKS * CHUNK_SIZE ->
    is_Some (memory_allocate (k_alloc s) size);
  sv_forks : 0 <= avail_pid s < 2 ^ 31 - 1 -> exists r s', vfork s = Some (r, s') }.

Lemma good_serves `{MemFill} kernel s l : good kernel s l -> serves s.
Proof.
  intros [K Hin Hr Hi]. destruct (schedule_ok s l (k_list _ _ _ K) Hin) as (s' & p & E & _).
  split.
  - exists s'. split; [exact E|]. apply schedule_ran in E as [V St _ Hc].
    rewrite <- (ev_first _ _ V), <- St. exact Hc.
  - intros size Hs. apply memory_allocate_small; [|done].
    destruct (k_blocks _ _ _ K) as [extra [W _ _ _]]. exact W.
  - intros Hav. destruct (vfork_ok kernel s l K Hav Hin) as [(s1 & E1 & _)|(c & s1 & F & E1)];
      [by exists (-1), s1|].
    rewrite E1. unfold vfork_return. rewrite (fk_current _ _ _ _ _ F), Z.eqb_refl.
    assert (Hc : In (current_process s1) (l ++ [c]))
      by (rewrite (fk_current _ _ _ _ _ F); apply in_app_iff; by left).
    destruct (schedule_ok s1 (l ++ [c]) (k_list _ _ _ (fk_inv _ _ _ _ _ F)) Hc) as (s2 & q & E2 & _).
    bind_with E2. by eexists _, _.
Qed.

(** C1. The kernel runs without protection, so a program can destroy it: a
    store into one of its objects, of the program itself or of a system call
    given such a pointer, an undefined access, or a call that is not provided
    for ([exit] of the idle process, ids past [int], an empty program) leads to
    [Lost], of which nothing is said.  As long as that has not happened, from a
    state in which the tables are in order and neither the running nor the idle
    process has exited, after any sequence of system calls, of calls going on
    after a sleep, of interrupts and of computations the tables are in order:
    the process list is well linked and holds every control block once, process
    ids are distinct and below the next one, every control block, stack and
    text is a live block of the allocator and no two of them overlap; the
    process that runs is one of the list and has not exited.  And there the
    scheduler returns with a ready process or the idle one, the allocator
    answers every request of up to 16 MB, and [vfork] returns. *)
Theorem kernel_safe `{MemFill} `{Device W} rd fl e hw ld static kernel (y0 : system W) l x :
  good kernel (kern y0) l -> rtc (kernel_step rd fl e hw ld static) (Running y0) x ->
  match x with
  | Running y => (exists l', good kernel (kern y) l') /\ serves (kern y)
  | Lost => True
  end.
Proof.
  intros G Hr. pose proof (kernel_run_sound _ _ _ _ _ _ kernel _ _ Hr ltac:(by exists l)) as S.
  destruct x as [y|]; [|done]. split; [exact S|]. destruct S as [l' G']. by eapply good_serves.
Qed.

(** ** Calls that store nothing through a pointer *)

Lemma upd_pcb_mem p f s s' : upd_pcb p f s = Some s' -> k_mem s' = k_mem s.
Proof. intros E. by apply upd_pcb_inv in E as (q & _ & ->). Qed.

Lemma schedule_mem s s' : schedule s = Some s' -> k_mem s' = k_mem s.
Proof.
  intros E. assert (Ht : forall q, schedule_to s q = Some s' -> k_mem s' = k_mem s)
    by (intros q Eq; apply schedule_to_ran in Eq as [Hsw _]; by apply sw_mem in Hsw).
  unfold schedule in E. ret_in E; [done|by eapply Ht..].
Qed.

Lemma wake_loop_mem : forall fuel s s' p, wait_queue_wake_loop fuel s p = Some s' ->
  k_mem s' = k_mem s.
Proof.
  induction fuel as [|fuel IH]; intros s s' p E; [done|]. cbn [wait_queue_wake_loop] in E.
  ret_in E; [done|]. apply IH in E.
  repeat match goal with U : upd_pcb _ _ _ = Some _ |- _ => apply upd_pcb_mem in U end. congruence.
Qed.

Lemma wait_append_mem p : forall fuel s s' n, wait_queue_append fuel s p n = Some s' ->
  k_mem s' = k_mem s.
Proof.
  induction fuel as [|fuel IH]; intros s s' n E; [done|]. cbn [wait_queue_append] in E.
  ret_in E; [done|by eapply upd_pcb_mem|eauto].
Qed.

Lemma wait_queue_add_mem s q p r s' : wait_queue_add s q p = Some (r, s') -> k_mem s' = k_mem s.
Proof.
  assert (Hw : forall v, k_mem (with_first q v s) = k_mem s) by (intros v; by destruct q).
  unfold wait_queue_add, wait_queue_enter. intros E. ret_in E.
  all: repeat match goal with
  | U : schedule _ = Some _ |- _ => apply schedule_mem in U
  | U : upd_pcb _ _ _ = Some _ |- _ => apply upd_pcb_mem in U
  | U : wait_queue_append _ _ _ _ = Some _ |- _ => apply wait_append_mem in U
  | U : mbind _ _ = Some _ |- _ => progress ret_in U
  | U : (if _ then _ else _) = Some _ |- _ => progress ret_in U
  end.
  all: specialize (Hw p); congruence.
Qed.

Lemma exit_mem s v s' : exit s v = Some s' -> k_mem s' = k_mem s.
Proof.
  unfold exit, waitpid_done, wait_queue_wake. intros E. ret_in E.
  repeat match goal with
  | U : schedule _ = Some _ |- _ => apply schedule_mem in U
  | U : upd_pcb _ _ _ = Some _ |- _ => apply upd_pcb_mem in U
  | U : mbind _ _ = Some _ |- _ => progress ret_in U
  | U : wait_queue_wake_loop _ _ _ = Some _ |- _ => apply wake_loop_mem in U
  end. cbn in *. congruence.
Qed.

(** [waitpid] without a place for the status writes in the blocks of the
    process it takes out. *)
Lemma waitpid_null_modifies `{MemFill} kernel s l n o c r s' : good kernel s l ->
  waitpid s n 0 o c = Some (r, s') ->
  exists rs, modifies rs (k_mem s) (k_mem s') /\
    (rs = [] \/ exists p q, procs s !! p = Some q /\ status q = PROCESS_STATUS_EXITED /\
                           rs = regions_of p q).
Proof.
  intros [K Hin Hr Hi] E. set (P := fun s' : kstate => exists rs, modifies rs (k_mem s) (k_mem s') /\
    (rs = [] \/ exists p q, procs s !! p = Some q /\ status q = PROCESS_STATUS_EXITED /\
                           rs = regions_of p q)).
  assert (Hsame : forall s1, k_mem s1 = k_mem s -> P s1)
    by (intros s1 E1; exists []; split; [by rewrite E1|by left]).
  assert (Hd : forall p q r1 s1, procs s !! p = Some q -> status q = PROCESS_STATUS_EXITED ->
    process_destroy s p = Some (r1, s1) -> P s1).
  { intros p q r1 s1 Hq Hst E1. assert (Hp : In p l) by (apply (k_dom _ _ _ K); by eexists).
    apply in_split in Hp as (l1 & l2 & ->).
    assert (Hpf : p <> proc_first s) by (intros ->; apply Hi; unfold fld; by rewrite Hq).
    destruct (process_destroy_ok kernel s l1 p l2 q K Hq (k_owns _ _ _ K p q Hq Hpf))
      as (s2 & E2 & _ & _ & _ & _ & Hm & _).
    rewrite E2 in E1. injection E1 as _ <-. exists (regions_of p q). split; [done|]. right. eauto. }
  assert (Hw : forall p r1 s1, (if o =? WNOHANG then waitpid_nohang s p 0
    else waitpid_loop s p n 0) = Some (r1, s1) -> P s1).
  { intros p r0 s0 E0. unfold waitpid_nohang, waitpid_loop, store_wstatus in E0. cbn [negb Z.eqb] in E0.
    ret_in E0; eauto. apply Hsame. by eapply wait_queue_add_mem. }
  unfold waitpid in E. change (P s'). ret_in E; eauto.
Qed.

(** ** A run: one process exits, the other waits for it *)

Definition call_regs (r7 r0 : Z) : list Z := [r0; 0; 0; 0; 0; 0; 0; r7; 0; 0; 0; 0; 0; 0; 0].

Lemma demo_good : good (kernel_chunk 9000) demo_kernel [12288; 20480; 28672].
Proof.
  split; [|cbn; tauto|by vm_compute|by vm_compute].
  eapply kinv_evolves; [apply evolves_with_k_mem|apply three_inv].
Qed.

(** The kernel's variables, in the last chunk of its image. *)
Definition demo_static (a : Z) : bool := (10000 <=? a) && (a <? 12288).

Definition demo_perform (regs : list Z) (y : system port) : option (system port) :=
  perform demo_disk demo_fl demo_env RPI_MODEL_B led_default (ATrap regs 0x8000 16) y.

Definition after (regs : list Z) (y : system port) : system port :=
  default y (demo_perform regs (with_objects demo_static (fun _ => 0) y)).

Lemma after_ok regs y :
  match demo_perform regs (with_objects demo_static (fun _ => 0) y) with Some _ => true | None => false end
  = true ->
  demo_perform regs (with_objects demo_static (fun _ => 0) y) = Some (after regs y).
Proof. unfold after. by destruct (demo_perform _ _). Qed.

Lemma with_objects_mem static v (y : system port) a : kernel_object static (kern y) a = true ->
  k_mem (kern (with_objects static v y)) a = v a.
Proof. intros Ha. cbn. by rewrite Ha. Qed.

Lemma with_objects_sound kernel static v (y : system port) : sound kernel y ->
  sound kernel (with_objects static v y).
Proof. intros S. apply sound_proceeds with y; [done|]. apply proceeds_k_mem. Qed.

(** The memory after a trap is the memory after the handler of its number. *)
Lemma trap_mem (regs : list Z) (y y' : system port) : demo_perform regs y = Some y' ->
  exists s1 r y1, upd_pcb (current_process (kern y)) (swi_enter (u32 <$> regs) 0x8000 16) (kern y) = Some s1 /\
    k_mem s1 = k_mem (kern y) /\ proceeds (kern y) s1 /\
    swi_handler_c demo_disk demo_fl demo_env (u32 (nth 0 regs 0)) (u32 (nth 1 regs 0))
      (u32 (nth 2 regs 0)) (u32 (nth 3 regs 0)) (u32 (nth 7 regs 0)) (with_kern s1 y) = Some (r, y1) /\
    k_mem (kern y') = k_mem (kern y1).
Proof.
  unfold demo_perform, perform. intros E. apply fmap_Some in E as ([r y2] & E & ->).
  unfold swi_handler in E. apply bind_Some in E as (s1 & E1 & E).
  apply bind_Some in E as ([r1 y1] & E2 & E). rewrite !nth_u32 in E2.
  assert (P : proceeds (kern y) s1) by upd_ok.
  exists s1, r1, y1. split; [exact E1|]. split; [by eapply upd_pcb_mem|]. split; [done|].
  split; [exact E2|]. ret_in E; [|done]. cbn [snd].
  match goal with U : upd_pcb _ _ (kern y1) = Some _ |- _ => exact (upd_pcb_mem _ _ _ _ U) end.
Qed.

Lemma exit_spares (y : system port) :
  spares demo_disk demo_fl demo_env RPI_MODEL_B led_default demo_static
    (ATrap (call_regs SYSCALL_EXIT 3) 0x8000 16) y.
Proof.
  intros v y' E a Ha _. apply trap_mem in E as (s1 & r & y1 & _ & Em & _ & E & ->).
  change (swi_handler_c _ _ _ _ _ _ _ _ _) with (do_exit (with_kern s1 (with_objects demo_static v y)) 3) in E.
  unfold do_exit, returned_ in E. ret_in E.
  match goal with U : exit _ _ = Some _ |- _ => apply exit_mem in U; cbn in U |- *; rewrite U, Em end.
  by apply with_objects_mem.
Qed.

(** When the only process that has exited is the one at [p]. *)
Definition only_zombie (p : Z) (rs : list (Z * Z)) (s : kstate) : bool :=
  forallb (fun x => negb (status (snd x) =? PROCESS_STATUS_EXITED) ||
                    (fst x =? p) && bool_decide (regions_of p (snd x) = rs))
    (map_to_list (procs s)).

Lemma only_zombie_lookup p rs s a q : only_zombie p rs s = true -> procs s !! a = Some q ->
  status q = PROCESS_STATUS_EXITED -> regions_of a q = rs.
Proof.
  unfold only_zombie. rewrite forallb_forall. intros Hz Hq Hst.
  specialize (Hz (a, q)). cbn [fst snd] in Hz. rewrite Hst in Hz. cbn [negb orb] in Hz.
  apply andb_prop in Hz as [Ha Hz]; [|by apply list_elem_of_In, elem_of_map_to_list].
  apply Z.eqb_eq in Ha as ->. by apply bool_decide_eq_true in Hz.
Qed.
Definition exited_one : system port := after (call_regs SYSCALL_EXIT 3) demo_system.

Definition demo_keys (y : system port) : list Z := map fst (map_to_list (procs (kern y))).

Lemma kernel_object_keys static (y : system port) a : kernel_object static (kern y) a
  = static a || existsb (fun p => (p <=? a) && (a <? p + sizeof_pcb)) (demo_keys y).
Proof.
  unfold kernel_object, demo_keys. f_equal. induction (map_to_list _) as [|x l IH]; [done|].
  cbn. by rewrite IH.
Qed.

Lemma waitpid_keys v :
  demo_keys <$> demo_perform (call_regs SYSCALL_WAITPID 1) (with_objects demo_static v exited_one)
  = Some [28672; 12288].
Proof. by vm_compute. Qed.

Lemma waitpid_zombie v :
  only_zombie 20480 [(20480, sizeof_pcb)] <$>
    upd_pcb 28672 (swi_enter (u32 <$> call_regs SYSCALL_WAITPID 1) 0x8000 16)
      (kern (with_objects demo_static v exited_one)) = Some true.
Proof. by vm_compute. Qed.

Lemma waitpid_spares : sound (kernel_chunk 9000) exited_one ->
  spares demo_disk demo_fl demo_env RPI_MODEL_B led_default demo_static
    (ATrap (call_regs SYSCALL_WAITPID 1) 0x8000 16) exited_one.
Proof.
  intros S v y' E a Ha Ha'. pose proof (waitpid_keys v) as HK. fold (demo_perform
    (call_regs SYSCALL_WAITPID 1) (with_objects demo_static v exited_one)) in E.
  rewrite E in HK. injection HK as HK. rewrite kernel_object_keys, HK in Ha'.
  apply trap_mem in E as (s1 & r & y1 & E1 & Em & P & E & ->).
  pose proof (waitpid_zombie v) as HZ.
  change (current_process _) with 28672 in E1. rewrite E1 in HZ. injection HZ as HZ.
  destruct (sound_proceeds _ _ (with_kern s1 (with_objects demo_static v exited_one))
    (with_objects_sound _ demo_static v _ S) P) as [l G].
  change (swi_handler_c _ _ _ _ _ _ _ _ _) with
    (do_waitpid (with_kern s1 (with_objects demo_static v exited_one)) 1 0 0) in E.
  unfold do_waitpid in E. ret_in E.
  match goal with U : waitpid _ _ _ _ _ = Some _ |- _ =>
    eapply waitpid_null_modifies in U as (rs & Hm & Hrs); [|exact G] end.
  cbn in Hm |- *. rewrite <- (with_objects_mem demo_static v exited_one a Ha), <- Em.
  assert (Hrs' : rs = [] \/ rs = [(20480, sizeof_pcb)]).
  { destruct Hrs as [->|(p & q & Hq & Hst & ->)]; [by left|right]. by eapply only_zombie_lookup. }
  apply Hm. destruct Hrs' as [->| ->]; repeat constructor. cbn [fst snd].
  unfold demo_static in Ha'. cbn in Ha'. unfold sizeof_pcb in *. lia.
Qed.

Lemma exited_sound : sound (kernel_chunk 9000) exited_one.
Proof.
  eapply (perform_sound demo_disk demo_fl demo_env RPI_MODEL_B led_default _
    (ATrap (call_regs SYSCALL_EXIT 3) 0x8000 16)
    (with_objects demo_static (fun _ => 0) demo_system)).
  - split; [by vm_compute|]. split; intros Hc; discriminate Hc.
  - exact (after_ok (call_regs SYSCALL_EXIT 3) demo_system ltac:(by vm_compute)).
  - apply with_objects_sound. eexists. exact demo_good.
Qed.

Lemma kernel_safe_witness :
  let y2 := after (call_regs SYSCALL_WAITPID 1) exited_one in
  rtc (kernel_step demo_disk demo_fl demo_env RPI_MODEL_B led_default demo_static)
    (Running demo_system) (Running y2) /\
  current_process (kern y2) = 28672 /\ procs (kern y2) !! 20480 = None /\
  (exists l', good (kernel_chunk 9000) (kern y2) l') /\ serves (kern y2).
Proof.
  intros y2. assert (R : rtc (kernel_step demo_disk demo_fl demo_env RPI_MODEL_B led_default demo_static)
    (Running demo_system) (Running y2)).
  { apply rtc_l with (Running exited_one); [|apply rtc_once].
    - apply (step_done _ _ _ _ _ _ (ATrap (call_regs SYSCALL_EXIT 3) 0x8000 16) (fun _ => 0));
        [|apply exit_spares|apply (after_ok (call_regs SYSCALL_EXIT 3)); by vm_compute].
      split; [by vm_compute|]. split; intros Hc; discriminate Hc.
    - apply (step_done _ _ _ _ _ _ (ATrap (call_regs SYSCALL_WAITPID 1) 0x8000 16) (fun _ => 0));
        [|apply waitpid_spares, exited_sound|apply (after_ok (call_regs SYSCALL_WAITPID 1)); by vm_compute].
      split; [by vm_compute|]. split; intros Hc; discriminate Hc. }
  split; [exact R|]. split; [by vm_compute|]. split; [by vm_compute|].
  exact (kernel_safe demo_disk demo_fl demo_env RPI_MODEL_B led_default demo_static (kernel_chunk 9000)
    demo_system _ (Running y2) demo_good R).
Defined.
