(* ===== verification/DeviceTree.v ===== *)
(** * The device tree: kernel/boot/device_tree.c and hardware_detect.c

    The loader leaves a tree of named nodes with properties in memory, as a
    sequence of big-endian words.  The parser walks it from the start for every
    query and hands back the index of the word where the property was found.
    The boot code is run once: what it prints is kept as the list of the calls
    of [printk], each a format, without its tabs and line ends, and its arguments.  [junk] is what the local
    arrays hold before they are filled. *)

From stdpp Require Import base list numbers.
From Stdlib Require Import ZArith Lia.
From Stdlib Require String.
Import String.StringSyntax.
Delimit Scope string_scope with string.
From S2P Require Import Prelude CString Gpio.

Definition FDT_BEGIN_NODE : Z := 1.
Definition FDT_END_NODE : Z := 2.
Definition FDT_PROP : Z := 3.
Definition FDT_NOP : Z := 4.
Definition FDT_END : Z := 9.
Definition DT_STRING_MAXSIZE : Z := 128.

(** What is printed. *)
Definition message : Type := String.string * list Z.

(** [device_tree] *)
Record device_tree_type := DeviceTree {
  dt_address : Z;
  dt_valid : Z;
  dt_magic : Z;
  dt_totalsize : Z;
  dt_off_struct : Z;
  dt_off_strs : Z;
  dt_off_rsvmap : Z;
  dt_version : Z;
  dt_last_comp_ver : Z;
  dt_boot_cpu_id : Z;
  dt_size_strs : Z }.

Definition device_tree_bss : device_tree_type := DeviceTree 0 0 0 0 0 0 0 0 0 0 0.

Definition big_to_little (big : Z) : Z :=
  Z.lor (Z.lor (Z.lor
    (Z.shiftr (Z.land big 0xff000000) 24)
    (Z.shiftr (Z.land big 0x00ff0000) 8))
    (Z.shiftl (Z.land big 0x0000ff00) 8))
    (Z.shiftl (Z.land big 0x000000ff) 24).

Definition big_to_little64 (big : Z) : Z :=
  Z.lor (Z.lor (Z.lor (Z.lor (Z.lor (Z.lor (Z.lor
    (Z.shiftr (Z.land big 0xff00000000000000) 48)
    (Z.shiftr (Z.land big 0x00ff000000000000) 32))
    (Z.shiftr (Z.land big 0x0000ff0000000000) 16))
    (Z.shiftr (Z.land big 0x000000ff00000000) 8))
    (Z.shiftl (Z.land big 0x00000000ff000000) 8))
    (Z.shiftl (Z.land big 0x0000000000ff0000) 16))
    (Z.shiftl (Z.land big 0x000000000000ff00) 32))
    (Z.shiftl (Z.land big 0x00000000000000ff) 48).

Definition array (l : list Z) : Z -> Z := fun i => nth (Z.to_nat i) l 0.

Section Parser.
Context (m : mem) (junk : list Z).

(** [tree[i]] *)
Definition tree_word (tree i : Z) : Z := load32 m (u32 (tree + 4 * i)).
Definition dt_word (tree i : Z) : Z := big_to_little (tree_word tree i).

Definition devicetree_setup (dt : device_tree_type) (dt_ptr : Z) : Z * device_tree_type :=
  let w := dt_word dt_ptr in
  let magic := w 0 in
  if negb (magic =? 0xd00dfeed) then
    (- ENODEV, DeviceTree (dt_address dt) 0 magic (dt_totalsize dt) (dt_off_struct dt)
       (dt_off_strs dt) (dt_off_rsvmap dt) (dt_version dt) (dt_last_comp_ver dt)
       (dt_boot_cpu_id dt) (dt_size_strs dt))
  else
    let version := w 5 in
    (0, DeviceTree dt_ptr 1 magic (w 1) (w 2) (w 3) (w 4) version (w 6)
          (if 2 <=? version then w 7 else dt_boot_cpu_id dt)
          (if 3 <=? version then w 8 else dt_size_strs dt)).

Definition dt_copy_string (dt : device_tree_type) (offset : Z) (s : list Z) (len : Z) : list Z :=
  strlcpy_name m (u32 (dt_address dt + dt_off_strs dt + offset)) len s.

(** [for(j=0;j<(length+3)/4;j++)]: the words of the value go through the first
    four bytes of [string]. *)
Definition prop_words (tree n i : Z) (string : list Z) : Z * list Z :=
  for_up (Z.to_nat n) 0 (fun _ '(i, s) =>
    let temp := tree_word tree i in
    (i + 1, [u8 temp; u8 (temp / 2 ^ 8); u8 (temp / 2 ^ 16); u8 (temp / 2 ^ 24)] ++ drop 4 s))
    (i, string).

(** The result and the index. *)
Definition dt_parse_prop (dt : device_tree_type) (tree i : Z) (current_node_name : list Z)
    (node prop : Z) : Z * Z :=
  let start_i := i in
  let string := <[4%nat := 0]> junk in
  let length := dt_word tree i in
  let i := i + 1 in
  let temp := dt_word tree i in
  let string := dt_copy_string dt temp string DT_STRING_MAXSIZE in
  if ((node =? 0) || (strncmp (at_ m node) (array current_node_name) DT_STRING_MAXSIZE =? 0))
     && (strncmp (array string) (at_ m prop) DT_STRING_MAXSIZE =? 0)
  then (u32 start_i, i)
  else
    let i := i + 1 in
    let saved := i in
    let '(i, string) := prop_words tree (u32 (length + 3) / 4) i string in
    let '(i, string) := prop_words tree (u32 (length + 3) / 4) saved string in
    (0, i).

(** "Skip to end of padding" *)
Fixpoint skip_name (fuel : nat) (tree i : Z) : option Z :=
  match fuel with
  | O => None
  | S f => if Z.land (dt_word tree i) 0xff =? 0 then Some (i + 1) else skip_name f tree (i + 1)
  end.

(** The result, the index and what is printed; [dt_parse_items] is the second
    loop of the function. *)
Fixpoint dt_parse_node (fuel : nat) (dt : device_tree_type) (tree i node prop : Z)
    : option (Z * Z * list message) :=
  match fuel with
  | O => None
  | S f =>
      if negb (dt_word tree i =? FDT_BEGIN_NODE) then
        Some (u32 (-1), i + 1, [("Expected FDT_BEGIN_NODE, got %x"%string, [tree_word tree i])])
      else
        let i := i + 1 in
        let node_name := strlcpy_name m (u32 (tree + 4 * i)) DT_STRING_MAXSIZE junk in
        i ← skip_name f tree i;
        dt_parse_items f dt tree i node_name node prop
  end
with dt_parse_items (fuel : nat) (dt : device_tree_type) (tree i : Z) (node_name : list Z)
    (node prop : Z) : option (Z * Z * list message) :=
  match fuel with
  | O => None
  | S f =>
      let token := dt_word tree i in
      if token =? FDT_NOP then dt_parse_items f dt tree (i + 1) node_name node prop
      else if token =? FDT_PROP then
        let '(result, i) := dt_parse_prop dt tree (i + 1) node_name node prop in
        if 0 <? result then Some (result, i, [])
        else dt_parse_items f dt tree i node_name node prop
      else if token =? FDT_BEGIN_NODE then
        '(result, i, out) ← dt_parse_node f dt tree i node prop;
        if 0 <? result then Some (result, i, out)
        else '(r, i, out') ← dt_parse_items f dt tree i node_name node prop;
             Some (r, i, out ++ out')
      else if token =? FDT_END_NODE then Some (0, i + 1, [])
      else
        '(r, i, out) ← dt_parse_items f dt tree (i + 1) node_name node prop;
        Some (r, i, ("UNEXPECTED %x"%string, [token]) :: out)
  end.

Definition dt_tree (dt : device_tree_type) : Z := u32 (dt_address dt + dt_off_struct dt).

Fixpoint find_loop (fuel : nat) (dt : device_tree_type) (i node prop : Z)
    : option (Z * list message) :=
  match fuel with
  | O => None
  | S f =>
      '(result, i, out) ← dt_parse_node f dt (dt_tree dt) i node prop;
      if 0 <? result then Some (s32 result, out)
      else if dt_word (dt_tree dt) i =? FDT_END then Some (- ENOENT, out)
      else if dt_totalsize dt <? u32 (dt_off_struct dt + u32 (i * 4)) then Some (- ENOENT, out)
      else '(r, out') ← find_loop f dt i node prop; Some (r, out ++ out')
  end.

Definition devicetree_find_node_prop (fuel : nat) (dt : device_tree_type) (node prop : Z)
    : option (Z * list message) :=
  if dt_valid dt =? 0 then Some (- ENODEV, [])
  else find_loop fuel dt 0 node prop.

(** [*value] is set, or left alone ([None]). *)
Definition devicetree_prop_int (dt : device_tree_type) (start_i : Z)
    : Z * option Z * list message :=
  if dt_valid dt =? 0 then (u32 (- ENODEV), None, [])
  else
    let tree := dt_tree dt in
    let i := u32 start_i in
    let length := dt_word tree i in
    let i := u32 (u32 (i + 1) + 1) in
    (0, Some (dt_word tree i),
     if negb (length =? 4) then [("Warning! Asking for int32 but length is %d"%string, [length])]
     else []).

Definition devicetree_prop_int64 (dt : device_tree_type) (start_i : Z)
    : Z * option Z * list message :=
  if dt_valid dt =? 0 then (u32 (- ENODEV), None, [])
  else
    let tree := dt_tree dt in
    let i := u32 start_i in
    let length := dt_word tree i in
    let i := u32 (u32 (i + 1) + 1) in
    let value1 := dt_word tree i in
    let value2 := dt_word tree (u32 (i + 1)) in
    (0, Some (Z.lor (u64 (Z.shiftl value1 32)) value2),
     if negb (length =? 8) then [("Warning! Asking for int64 but length is %d"%string, [length])]
     else []).

(** The value is copied whole; [len] is not looked at. *)
Definition devicetree_prop_string (dt : device_tree_type) (start_i string len : Z) : Z * mem :=
  if dt_valid dt =? 0 then (u32 (- ENODEV), m)
  else
    let tree := dt_tree dt in
    let i := u32 start_i in
    let length := dt_word tree i in
    let i := u32 (u32 (i + 1) + 1) in
    let ptr := u32 (tree + 4 * i) in
    (0, for_up (Z.to_nat length) 0 (fun j m => upd m (string + j) (m (ptr + j))) m).

(** [result] is a [uint32_t] in these. *)
Definition devicetree_find_string (fuel : nat) (dt : device_tree_type)
    (node prop string len : Z) : option (Z * mem * list message) :=
  '(r, out) ← devicetree_find_node_prop fuel dt node prop;
  let result := u32 r in
  if result <? 0 then Some (result, m, out)
  else
    let '(_, m') := devicetree_prop_string dt (s32 result) string len in
    Some (0, m', out).

Definition devicetree_find_int (fuel : nat) (dt : device_tree_type) (node prop : Z)
    : option (Z * option Z * list message) :=
  '(r, out) ← devicetree_find_node_prop fuel dt node prop;
  let result := u32 r in
  if result <? 0 then Some (result, None, out)
  else
    let '(_, value, out') := devicetree_prop_int dt (s32 result) in
    Some (0, value, out ++ out').

Definition devicetree_find_int64 (fuel : nat) (dt : device_tree_type) (node prop : Z)
    : option (Z * option Z * list message) :=
  '(r, out) ← devicetree_find_node_prop fuel dt node prop;
  let result := u32 r in
  if result <? 0 then Some (result, None, out)
  else
    let '(_, value, out') := devicetree_prop_int64 dt (s32 result) in
    Some (0, value, out ++ out').
End Parser.

(** ** Finding the memory *)

Section Memory.
Context (m : mem) (junk : list Z).

(** The names in the kernel image, and what the two locals hold that are only
    set when there is a tree. *)
Record dt_names := DtNames {
  n_address_cells : Z; n_size_cells : Z; n_memory : Z; n_memory0 : Z; n_reg : Z;
  n_junk_address : Z; n_junk_size : Z }.

(** The 64-bit word that starts at [tree[i]]. *)
Definition tree_word64 (tree i : Z) : Z := tree_word m tree i + 2 ^ 32 * tree_word m tree (i + 1).

(** A number of one or two cells at [tree[i]], and the index behind it. *)
Definition dt_cells (tree i cells : Z) (complaint : String.string) : Z * Z * list message :=
  if cells =? 1 then (dt_word m tree i, i + 1, [])
  else if cells =? 2 then (big_to_little64 (tree_word64 tree i), i + 2, [])
  else (0, i, [(complaint, [])]).

(** The length, the address and what is printed. *)
Definition devicetree_get_memory_old (fuel : nat) (dt : device_tree_type) (n : dt_names)
    : option (Z * Z * list message) :=
  '(_, a, o1) ← devicetree_find_int m junk fuel dt 0 (n_address_cells n);
  let address_cells := default (n_junk_address n) a in
  '(_, s, o2) ← devicetree_find_int m junk fuel dt 0 (n_size_cells n);
  let size_cells := default (n_junk_size n) s in
  let found := [("mem: found addr cells: %d"%string, [address_cells]);
                ("mem: found size cells: %d"%string, [size_cells])] in
  '(r, o3) ← devicetree_find_node_prop m junk fuel dt (n_memory n) (n_reg n);
  let result := u32 r in
  if result <? 0 then Some (result, 0, o1 ++ o2 ++ found ++ o3)
  else
    let tree := dt_tree dt in
    let i := s32 result in
    let val_len := dt_word m tree i in
    let i := i + 2 in
    let o4 := if negb (val_len =? 8) then
        [("Warning!  Old detect: Unexpected number of memory entries"%string, [])] else [] in
    let '(address, i, o5) := dt_cells tree i address_cells "Error! Unknown addr cell size"%string in
    let '(length, i, o6) := dt_cells tree i size_cells "Error! Unknown size cell size"%string in
    Some (length, address, o1 ++ o2 ++ found ++ o3 ++ o4 ++ o5 ++ o6).

Definition devicetree_get_memory_new (fuel : nat) (dt : device_tree_type) (n : dt_names)
    : option (Z * Z * list message) :=
  '(r, o1) ← devicetree_find_node_prop m junk fuel dt (n_memory0 n) (n_reg n);
  let result := u32 r in
  if result <? 0 then Some (result, 0, o1)
  else
    let tree := dt_tree dt in
    let i := s32 result in
    let val_len := dt_word m tree i in
    let i := i + 2 in
    if val_len =? 8 then Some (dt_word m tree (i + 1), dt_word m tree i, o1)
    else if val_len =? 12 then
      Some (big_to_little64 (tree_word m tree (i + 2)), big_to_little64 (tree_word64 tree i), o1)
    else if val_len =? 24 then
      let address2 := big_to_little64 (tree_word64 tree (i + 3)) in
      let length2 := dt_word m tree (i + 5) in
      Some (dt_word m tree (i + 2), big_to_little64 (tree_word64 tree i),
        o1 ++ [("For now ignoring secondary memory range of 0x%llx at 0x%llx (%d MB)"%string,
                [length2; address2; length2 / 1024 / 1024])])
    else
      Some (0, 0, o1 ++ ("ERROR!  Unexpected memory@0 reg size %d"%string, [val_len]) ::
        map (fun j => ("0x%llx"%string, [dt_word m tree (i + Z.of_nat j)]))
          (seq 0 (Z.to_nat (val_len / 4)))).

Definition devicetree_get_memory (fuel : nat) (dt : device_tree_type) (n : dt_names)
    : option (Z * list message) :=
  '(length, address, o1) ← devicetree_get_memory_old fuel dt n;
  '(length, address, o2) ← (if length <? 1024 then devicetree_get_memory_new fuel dt n
                            else Some (length, address, []));
  let '(length, o3) :=
    if length <? 1024
    then (256 * 1024 * 1024,
          [("ERROR!  detected memory too small, using 256MB instead"%string, [])])
    else (length, []) in
  Some (length, o1 ++ o2 ++ o3 ++
    [("Memory found, 0x%llx bytes at address 0x%llx (%dMB)"%string,
      [length; address; length / 1024 / 1024])]).

(** The reserved ranges are printed up to a pair of zeros. *)
Fixpoint reserved_loop (fuel : nat) (table i : Z) : option (list message) :=
  match fuel with
  | O => None
  | S f =>
      let entry j := tree_word m table (2 * j) + 2 ^ 32 * tree_word m table (2 * j + 1) in
      if (entry i =? 0) && (entry (i + 1) =? 0) then Some []
      else
        out ← reserved_loop f table (i + 2);
        Some (("0x%llx bytes starting at address 0x%llx"%string,
               [big_to_little64 (entry (i + 1)); big_to_little64 (entry i)]) :: out)
  end.

Definition devicetree_find_reserved (fuel : nat) (dt : device_tree_type)
    : option (Z * list message) :=
  if dt_valid dt =? 0 then Some (- ENODEV, [])
  else
    let header :=
      [("Device tree:"%string, []); ("Magic: 0x%x"%string, [dt_magic dt]);
       ("Totalsize:  %d"%string, [dt_totalsize dt]);
       ("Off Struct: 0x%x"%string, [dt_off_struct dt]);
       ("Off strs:   0x%x"%string, [dt_off_strs dt]);
       ("Off rsvmap: 0x%x"%string, [dt_off_rsvmap dt]);
       ("Version:    %d"%string, [dt_version dt]);
       ("LastCompVer:%d"%string, [dt_last_comp_ver dt])] ++
      (if 2 <=? dt_version dt then [("BootCpuID: %d"%string, [dt_boot_cpu_id dt])] else []) ++
      (if 3 <=? dt_version dt then [("SizeStrs: %d"%string, [dt_size_strs dt])] else []) ++
      [("Reserved memory:"%string, [])] in
    out ← reserved_loop fuel (u32 (dt_address dt + dt_off_rsvmap dt)) 0;
    Some (0, header ++ out).
End Memory.

(** ** hardware_detect.c *)

Record hardware := Hardware {
  device_tree_found : Z;
  atags_found : Z;
  hardware_type : Z;
  hardware_revision : Z;
  hw_tree : device_tree_type }.

Definition hardware_bss : hardware := Hardware 0 0 RPI_MODEL_3B 0 device_tree_bss.

(** [system] and [revision] are the names "system" and "linux,revision". *)
Definition hardware_detect (fuel : nat) (m : mem) (junk : list Z) (system revision : Z)
    (h : hardware) (info_ptr : Z) : option (Z * hardware * list message) :=
  let '(r, dt) := devicetree_setup m (hw_tree h) info_ptr in
  if u32 r =? 0 then
    '(_, value, out) ← devicetree_find_int m junk fuel dt system revision;
    let rev := default (hardware_revision h) value in
    Some (0, Hardware 1 (atags_found h) (hardware_convert_type rev) rev dt, out)
  else Some (0, Hardware (device_tree_found h) (atags_found h) (hardware_type h)
                  (hardware_revision h) dt, []).

Definition hardware_get_type (h : hardware) : Z := hardware_type h.

(** The memory's start and length, or neither set. *)
Definition hardware_get_memory (fuel : nat) (m : mem) (junk : list Z) (n : dt_names) (h : hardware)
    : option (option (Z * Z) * list message) :=
  if negb (device_tree_found h =? 0) then
    '(length, out) ← devicetree_get_memory m junk fuel (hw_tree h) n;
    Some (Some (0, u32 length), out)
  else if negb (atags_found h =? 0) then Some (None, [])
  else Some (Some (0, 256 * 1024 * 1024),
         [("ERROR: did not detect memory, assuming 256MB"%string, [])]).

Definition model_message (h : hardware) : message :=
  let name (s : String.string) : message := (s, []) in
  let t := hardware_type h in
  if t =? RPI_MODEL_A then name "A"%string
  else if t =? RPI_MODEL_APLUS then name "A+"%string
  else if t =? RPI_MODEL_B then name "B"%string
  else if t =? RPI_MODEL_BPLUS then name "B+"%string
  else if t =? RPI_MODEL_2B then name "2B"%string
  else if t =? RPI_MODEL_2B_V1_2 then name "2B v1.2"%string
  else if t =? RPI_MODEL_3B then name "3B"%string
  else if t =? RPI_MODEL_3BPLUS then name "3B+"%string
  else if t =? RPI_MODEL_3APLUS then name "3A+"%string
  else if t =? RPI_MODEL_ZERO then name "Zero"%string
  else if t =? RPI_MODEL_ZERO_W then name "Zero W"%string
  else if t =? RPI_MODEL_ZERO_2W then name "Zero 2W"%string
  else if t =? RPI_COMPUTE_MODULE1 then name "Compute Module 1"%string
  else if t =? RPI_COMPUTE_MODULE3 then name "Compute Module 3"%string
  else if t =? RPI_MODEL_4B then name "4B"%string
  else ("Unknown %x"%string, [hardware_revision h]).

(** [string] is the local array: its address is what "%s" is given. *)
Definition hardware_print_model (fuel : nat) (m : mem) (junk : list Z) (model string : Z)
    (h : hardware) (version : Z) : option (mem * list message) :=
  let o1 := [("Hardware version: %x "%string, [version]);
             (if version =? 0xc42 then ("(Raspberry Pi)"%string, [])
              else ("(Unknown Hardware)"%string, []));
             (String.EmptyString, [])] in
  '(m1, o2) ← (if negb (device_tree_found h =? 0) then
                 '(_, m1, o) ← devicetree_find_string m junk fuel (hw_tree h) 0 model string
                                 DT_STRING_MAXSIZE;
                 Some (m1, o ++ [("Device Tree reports: %s"%string, [string])])
               else Some (m, []));
  Some (m1, o1 ++ o2 ++ [("We detect as: Model "%string, []); model_message h; (String.EmptyString, [])]).

Definition CMDLINESIZE : Z := 1024.

(** [cmdline] is the static array. *)
Definition hardware_print_commandline (fuel : nat) (m : mem) (junk : list Z)
    (chosen bootargs cmdline : Z) (h : hardware) : option (mem * list message) :=
  let o1 := [("Command line from bootloader:"%string, [])] in
  if negb (device_tree_found h =? 0) then
    '(_, m1, o) ← devicetree_find_string m junk fuel (hw_tree h) chosen bootargs cmdline CMDLINESIZE;
    Some (m1, o1 ++ o ++ [("%s"%string, [cmdline])])
  else if negb (atags_found h =? 0) then Some (m, o1 ++ [("FIXME: print command line"%string, [])])
  else Some (m, o1).

(** ** What a device tree holds

    Byte swapping: the word is read with its bytes in the order they lie in. *)

Lemma land_byte x k : 0 <= k -> Z.land x (Z.shiftl 255 k) = (x / 2 ^ k) mod 256 * 2 ^ k.
Proof.
  intros Hk. change 255 with (Z.ones 8). change 256 with (2 ^ 8).
  rewrite <- Z.land_ones by lia. rewrite <- Z.shiftr_div_pow2, <- Z.shiftl_mul_pow2 by lia.
  apply Z.bits_inj'. intros i Hi. rewrite Z.land_spec, !Z.shiftl_spec, Z.land_spec by lia.
  destruct (Z.ltb_spec i k).
  - rewrite !(Z.testbit_neg_r _ (i - k)) by lia. by rewrite !andb_false_r.
  - rewrite Z.shiftr_spec by lia. do 2 f_equal. lia.
Qed.

Lemma big_to_little_bytes b0 b1 b2 b3 :
  0 <= b0 < 256 -> 0 <= b1 < 256 -> 0 <= b2 < 256 -> 0 <= b3 < 256 ->
  big_to_little (b0 + 2 ^ 8 * b1 + 2 ^ 16 * b2 + 2 ^ 24 * b3)
  = b3 + b2 * 2 ^ 8 + b1 * 2 ^ 16 + b0 * 2 ^ 24.
Proof.
  intros H0 H1 H2 H3. unfold big_to_little. set (x := _ + _).
  change 0xff000000 with (Z.shiftl 255 24). change 0x00ff0000 with (Z.shiftl 255 16).
  change 0x0000ff00 with (Z.shiftl 255 8).
  change (Z.land x 0x000000ff) with (Z.land x (Z.ones 8)). rewrite (Z.land_ones x 8) by lia.
  rewrite !land_byte by lia.
  assert (E0 : x mod 2 ^ 8 = b0) by (unfold x; Z.div_mod_to_equations; lia).
  assert (E1 : (x / 2 ^ 8) mod 256 = b1) by (unfold x; Z.div_mod_to_equations; lia).
  assert (E2 : (x / 2 ^ 16) mod 256 = b2) by (unfold x; Z.div_mod_to_equations; lia).
  assert (E3 : (x / 2 ^ 24) mod 256 = b3) by (unfold x; Z.div_mod_to_equations; lia).
  rewrite E0, E1, E2, E3. rewrite !Z.shiftr_div_pow2, !Z.shiftl_mul_pow2 by lia.
  replace (b3 * 2 ^ 24 / 2 ^ 24) with b3 by (symmetry; apply Z.div_mul; lia).
  replace (b2 * 2 ^ 16 / 2 ^ 8) with (b2 * 2 ^ 8)
    by (Z.div_mod_to_equations; lia).
  replace (b1 * 2 ^ 8 * 2 ^ 8) with (b1 * 2 ^ 16) by lia.
  by rewrite (lor_add b3 b2 8), (lor_add _ b1 16), (lor_add _ b0 24) by lia.
Qed.

Section Bytes.
Context (m : mem) (Hm : forall a, 0 <= m a < 256).

Lemma load32_swapped a : big_to_little (load32 m a)
  = m (a + 3) + m (a + 2) * 2 ^ 8 + m (a + 1) * 2 ^ 16 + m a * 2 ^ 24.
Proof. apply big_to_little_bytes; apply Hm. Qed.

Lemma dt_word_low tree i : 0 <= tree + 4 * i < 2 ^ 32 ->
  Z.land (dt_word m tree i) 0xff = m (tree + 4 * i + 3).
Proof.
  intros Hi. unfold dt_word, tree_word. rewrite u32_id, load32_swapped by lia.
  change 0xff with (Z.ones 8). rewrite Z.land_ones by lia.
  pose proof (Hm (tree + 4 * i + 3)). Z.div_mod_to_equations. lia.
Qed.

(** A name and its padding. *)
Definition name_words (l : list Z) : Z := Z.of_nat (length l) / 4 + 1.

Definition padded_name (p : Z) (l : list Z) : Prop :=
  cstring (at_ m p) l /\
  forall b, Z.of_nat (length l) <= b < 4 * name_words l -> m (p + b) = 0.

Lemma skip_name_ok tree : forall fuel i l, padded_name (tree + 4 * i) l ->
  0 <= tree + 4 * i -> tree + 4 * (i + name_words l) < 2 ^ 32 -> name_words l <= Z.of_nat fuel ->
  skip_name m fuel tree i = Some (i + name_words l).
Proof.
  unfold name_words. induction fuel as [|fuel IH]; intros i l [Hc Hp] H0 H1 Hf.
  { exfalso. Z.div_mod_to_equations. lia. }
  cbn [skip_name].
  assert (Hnw : 0 <= Z.of_nat (length l) / 4) by (Z.div_mod_to_equations; lia).
  rewrite dt_word_low by lia.
  destruct (decide (length l < 4)%nat) as [Hl|Hl].
  - assert (E : Z.of_nat (length l) / 4 = 0) by (Z.div_mod_to_equations; lia).
    rewrite E in *. rewrite Hp by (unfold name_words; lia). done.
  - assert (E : Z.of_nat (length l) / 4 = Z.of_nat (length (drop 4 l)) / 4 + 1)
      by (rewrite length_drop; Z.div_mod_to_equations; lia).
    pose proof (cstring_nth _ _ 3 Hc ltac:(lia)) as E3. unfold at_ in E3.
    assert (Hn3 : nth 3 l 0 <> 0).
    { destruct Hc as [Hn _]. rewrite Forall_forall in Hn. apply Hn, nth_In. lia. }
    replace (tree + 4 * i + 3) with (tree + 4 * i + Z.of_nat 3) by lia.
    rewrite E3, (proj2 (Z.eqb_neq _ 0)) by done.
    rewrite (IH (i + 1) (drop 4 l)); try lia; [f_equal; lia|].
    replace (tree + 4 * (i + 1)) with (tree + 4 * i + 4) by lia. split.
    + rewrite <- (take_drop 4 l) in Hc. apply cstring_at_app in Hc.
      by rewrite length_take, Nat.min_l in Hc by lia.
    + intros b Hb. unfold name_words in *. rewrite length_drop in *.
      replace (tree + 4 * i + 4 + b) with (tree + 4 * i + (4 + b)) by lia. apply Hp. lia.
Qed.
End Bytes.

(** *** The shape of a tree

    [node_at i ps j]: the words from [i] to [j] are a node; [ps] lists the
    properties in it and below it, in order, each with the name of its node,
    its own name and the index of its first word.  [items_at] is what follows
    the name of a node. *)
Record entry := Entry { e_node : list Z; e_prop : list Z; e_index : Z }.

Section Layout.
Context (m : mem) (dt : device_tree_type).

Definition short (l : list Z) : Prop := Z.of_nat (length l) < DT_STRING_MAXSIZE.

Inductive node_at : Z -> list entry -> Z -> Prop :=
| node_intro i name ps j :
    dt_word m (dt_tree dt) i = FDT_BEGIN_NODE ->
    padded_name m (dt_tree dt + 4 * (i + 1)) name -> short name ->
    items_at name (i + 1 + name_words name) ps j ->
    node_at i ps j
with items_at : list Z -> Z -> list entry -> Z -> Prop :=
| items_end name i :
    dt_word m (dt_tree dt) i = FDT_END_NODE -> items_at name i [] (i + 1)
| items_nop name i ps j :
    dt_word m (dt_tree dt) i = FDT_NOP -> items_at name (i + 1) ps j -> items_at name i ps j
| items_prop name i pname ps j :
    dt_word m (dt_tree dt) i = FDT_PROP ->
    cstring (at_ m (u32 (dt_address dt + dt_off_strs dt + dt_word m (dt_tree dt) (i + 2)))) pname ->
    short pname -> dt_word m (dt_tree dt) (i + 1) < 2 ^ 32 - 3 ->
    items_at name (i + 3 + (dt_word m (dt_tree dt) (i + 1) + 3) / 4) ps j ->
    items_at name i (Entry name pname (i + 1) :: ps) j
| items_node name i ps1 k ps2 j :
    node_at i ps1 k -> items_at name k ps2 j -> items_at name i (ps1 ++ ps2) j.

Scheme node_at_ind2 := Induction for node_at Sort Prop
with items_at_ind2 := Induction for items_at Sort Prop.
Combined Scheme node_items_ind from node_at_ind2, items_at_ind2.

(** What a query asks for: the node's name, if it matters, and the property's. *)
Definition wanted (node : option (list Z)) (prop : list Z) (x : entry) : bool :=
  match node with None => true | Some n => bool_decide (e_node x = n) end &&
  bool_decide (e_prop x = prop).

Definition first_entry (node : option (list Z)) (prop : list Z) (ps : list entry) : option Z :=
  option_map e_index (List.find (wanted node prop) ps).

Lemma first_entry_app node prop ps1 ps2 : first_entry node prop (ps1 ++ ps2)
  = match first_entry node prop ps1 with Some x => Some x | None => first_entry node prop ps2 end.
Proof.
  unfold first_entry. induction ps1 as [|x ps1 IH]; [done|]. cbn. by destruct (wanted node prop x).
Qed.
End Layout.

(** ** The search *)

Lemma array_cstring l r : Forall (fun b => b <> 0) l -> cstring (array (l ++ 0 :: r)) l.
Proof.
  intros Hl. apply cstring_intro; [done| |].
  - intros i Hi. unfold array. rewrite Nat2Z.id. by apply app_nth1.
  - unfold array. by rewrite Nat2Z.id, app_nth2, Nat.sub_diag by lia.
Qed.

Section Indices.
Context (m : mem) (Hm : forall a, 0 <= m a < 256) (dt : device_tree_type).

Lemma dt_word_nonneg tree i : 0 <= dt_word m tree i.
Proof.
  unfold dt_word, tree_word. rewrite load32_swapped by done.
  pose proof (Hm (u32 (tree + 4 * i) + 3)). pose proof (Hm (u32 (tree + 4 * i) + 2)).
  pose proof (Hm (u32 (tree + 4 * i) + 1)). pose proof (Hm (u32 (tree + 4 * i))). lia.
Qed.

Lemma name_words_pos l : 1 <= name_words l.
Proof. unfold name_words. Z.div_mod_to_equations. lia. Qed.

Lemma node_items_grow :
  (forall i ps j, node_at m dt i ps j -> i < j) /\
  (forall name i ps j, items_at m dt name i ps j -> i < j).
Proof.
  apply (node_items_ind m dt (fun i _ j _ => i < j) (fun _ i _ j _ => i < j)); try lia.
  - intros i name ps j _ _ _ _ H. pose proof (name_words_pos name). lia.
  - intros name i pname ps j _ _ _ Hl _ H. pose proof (dt_word_nonneg (dt_tree dt) (i + 1)).
    Z.div_mod_to_equations. lia.
Qed.

(** Indices are positive and small. *)
Lemma node_items_indices :
  (forall i ps j, node_at m dt i ps j -> 0 <= i -> j < 2 ^ 31 ->
     Forall (fun x => 0 < e_index x < 2 ^ 31) ps) /\
  (forall name i ps j, items_at m dt name i ps j -> 0 <= i -> j < 2 ^ 31 ->
     Forall (fun x => 0 < e_index x < 2 ^ 31) ps).
Proof.
  apply (node_items_ind m dt
    (fun i ps j _ => 0 <= i -> j < 2 ^ 31 -> Forall (fun x => 0 < e_index x < 2 ^ 31) ps)
    (fun _ i ps j _ => 0 <= i -> j < 2 ^ 31 -> Forall (fun x => 0 < e_index x < 2 ^ 31) ps)).
  - intros i name ps j _ _ _ Hit IH Hi Hj2. pose proof (name_words_pos name). apply IH; lia.
  - intros. constructor.
  - intros name i ps j _ Hit IH Hi Hj2. apply IH; lia.
  - intros name i pname ps j _ _ _ Hl Hit IH Hi Hj2.
    pose proof (dt_word_nonneg (dt_tree dt) (i + 1)) as Hw.
    pose proof (proj2 node_items_grow _ _ _ _ Hit).
    constructor; [cbn; Z.div_mod_to_equations; lia|]. apply IH; [Z.div_mod_to_equations|]; lia.
  - intros name i ps1 k ps2 j Hn IH1 Hit IH2 Hi Hj2.
    pose proof (proj1 node_items_grow _ _ _ Hn). pose proof (proj2 node_items_grow _ _ _ _ Hit).
    apply Forall_app. split; [apply IH1|apply IH2]; lia.
Qed.
End Indices.

Section Search.
Context (m : mem) (Hm : forall a, 0 <= m a < 256) (junk : list Z) (dt : device_tree_type).
Context (Hj : Z.of_nat (length junk) = DT_STRING_MAXSIZE).

Lemma local_name p l junk' : cstring (at_ m p) l -> short l ->
  Z.of_nat (length junk') = DT_STRING_MAXSIZE ->
  cstring (array (strlcpy_name m p DT_STRING_MAXSIZE junk')) l.
Proof.
  intros Hc Hs Hl. rewrite (strlcpy_name_ok m p l DT_STRING_MAXSIZE junk' Hc eq_refl Hl).
  rewrite take_ge by (unfold short, DT_STRING_MAXSIZE in *; lia).
  apply array_cstring. by destruct Hc.
Qed.

Lemma short_names_eq f g a b : cstring f a -> cstring g b -> short a -> short b ->
  (strncmp f g DT_STRING_MAXSIZE =? 0) = bool_decide (a = b).
Proof.
  intros Ha Hb Sa Sb. pose proof (strncmp_zero_iff f g a b DT_STRING_MAXSIZE Ha Hb) as H.
  unfold short, DT_STRING_MAXSIZE in *. rewrite !take_ge in H by lia.
  apply eq_true_iff_eq. by rewrite Z.eqb_eq, bool_decide_eq_true.
Qed.

(** The query's arguments: addresses of strings, NULL for any node. *)
Context (node prop : Z) (qn : option (list Z)) (qp : list Z).

Record query : Prop := {
  q_node : match qn with
           | None => node = 0
           | Some n => node <> 0 /\ cstring (at_ m node) n /\ short n
           end;
  q_prop : cstring (at_ m prop) qp;
  q_short : short qp }.

Context (Q : query).

Lemma prop_words_index tree n : forall i s, fst (prop_words m tree n i s) = i + Z.of_nat (Z.to_nat n).
Proof.
  unfold prop_words. generalize 0 at 1 as k. induction (Z.to_nat n) as [|c IH]; intros k i s;
    cbn [for_up]; [cbn; lia|]. rewrite IH. lia.
Qed.

Lemma dt_parse_prop_ok i name pname cur :
  cstring (array cur) name -> short name ->
  cstring (at_ m (u32 (dt_address dt + dt_off_strs dt + dt_word m (dt_tree dt) (i + 1)))) pname ->
  short pname -> 0 <= dt_word m (dt_tree dt) i < 2 ^ 32 - 3 -> 0 < i < 2 ^ 31 ->
  dt_parse_prop m junk dt (dt_tree dt) i cur node prop
  = if wanted qn qp (Entry name pname i) then (i, i + 1)
    else (0, i + 2 + (dt_word m (dt_tree dt) i + 3) / 4).
Proof.
  intros Hcur Hs Hp Hsp Hl Hi. destruct Q as [Qn Qp Qs]. unfold dt_parse_prop, dt_copy_string.
  assert (E : (node =? 0) || (strncmp (at_ m node) (array cur) DT_STRING_MAXSIZE =? 0)
    = match qn with None => true | Some n => bool_decide (name = n) end).
  { destruct qn as [n|]; [|by rewrite Qn]. destruct Qn as (Hn0 & Hn & Hns).
    rewrite (proj2 (Z.eqb_neq _ _) Hn0), (short_names_eq _ _ n name) by done. cbn [orb].
    apply bool_decide_ext. split; congruence. }
  rewrite E.
  pose proof (local_name _ pname (<[4%nat := 0]> junk) Hp Hsp ltac:(by rewrite length_insert)) as Hlo.
  rewrite (short_names_eq _ _ pname qp Hlo Qp Hsp Qs).
  unfold wanted. cbn [e_node e_prop].
  destruct (_ && _); [by rewrite u32_id by lia|].
  rewrite (u32_id (_ + 3)) by lia.
  destruct (prop_words m _ _ (i + 1 + 1) _) as [i1 s1] eqn:E1.
  destruct (prop_words m _ _ (i + 1 + 1) s1) as [i2 s2] eqn:E2.
  pose proof (f_equal fst E2) as Ei. rewrite prop_words_index in Ei. cbn in Ei. rewrite <- Ei.
  rewrite Z2Nat.id by (Z.div_mod_to_equations; lia). f_equal. lia.
Qed.

(** What the walk of a node or of its items answers: the index found first, or
    nothing and the index behind. *)
Definition answers (ps : list entry) (j : Z) (c : option (Z * Z * list message)) : Prop :=
  match first_entry qn qp ps with
  | Some x => exists i, c = Some (x, i, [])
  | None => c = Some (0, j, [])
  end.

Lemma dt_parse_items_step f i name :
  dt_parse_items m junk (S f) dt (dt_tree dt) i name node prop =
      let token := dt_word m (dt_tree dt) i in
      if token =? FDT_NOP then dt_parse_items m junk f dt (dt_tree dt) (i + 1) name node prop
      else if token =? FDT_PROP then
        let '(result, i) := dt_parse_prop m junk dt (dt_tree dt) (i + 1) name node prop in
        if 0 <? result then Some (result, i, [])
        else dt_parse_items m junk f dt (dt_tree dt) i name node prop
      else if token =? FDT_BEGIN_NODE then
        '(result, i, out) ← dt_parse_node m junk f dt (dt_tree dt) i node prop;
        if 0 <? result then Some (result, i, out)
        else '(r, i, out') ← dt_parse_items m junk f dt (dt_tree dt) i name node prop;
             Some (r, i, out ++ out')
      else if token =? FDT_END_NODE then Some (0, i + 1, [])
      else
        '(r, i, out) ← dt_parse_items m junk f dt (dt_tree dt) (i + 1) name node prop;
        Some (r, i, ("UNEXPECTED %x"%string, [token]) :: out).
Proof. done. Qed.

Lemma dt_parse_node_step f i : dt_word m (dt_tree dt) i = FDT_BEGIN_NODE ->
  dt_parse_node m junk (S f) dt (dt_tree dt) i node prop =
    i1 ← skip_name m f (dt_tree dt) (i + 1);
    dt_parse_items m junk f dt (dt_tree dt) i1
      (strlcpy_name m (u32 (dt_tree dt + 4 * (i + 1))) DT_STRING_MAXSIZE junk) node prop.
Proof. intros Ht. cbn [dt_parse_node]. by rewrite Ht. Qed.

Lemma first_entry_index ps x : Forall (fun x => 0 < e_index x < 2 ^ 31) ps ->
  first_entry qn qp ps = Some x -> 0 < x < 2 ^ 31.
Proof.
  unfold first_entry. intros Hp E. destruct (List.find _ _) as [y|] eqn:Ef; [|done].
  injection E as <-. apply find_some in Ef as [Hin _]. rewrite List.Forall_forall in Hp. by apply Hp.
Qed.

Lemma answers_cons x ps j c : wanted qn qp x = false -> answers ps j c -> answers (x :: ps) j c.
Proof. intros Hw. unfold answers, first_entry. cbn [List.find]. by rewrite Hw. Qed.

Lemma parse_ok :
  (forall i ps j, node_at m dt i ps j -> 0 <= i -> 0 <= dt_tree dt -> dt_tree dt + 4 * j < 2 ^ 32 ->
     forall fuel, j - i <= Z.of_nat fuel ->
     answers ps j (dt_parse_node m junk fuel dt (dt_tree dt) i node prop)) /\
  (forall name i ps j, items_at m dt name i ps j -> 0 <= i -> 0 <= dt_tree dt ->
     dt_tree dt + 4 * j < 2 ^ 32 -> short name ->
     forall fuel cur, j - i <= Z.of_nat fuel -> cstring (array cur) name ->
     answers ps j (dt_parse_items m junk fuel dt (dt_tree dt) i cur node prop)).
Proof.
  apply (node_items_ind m dt
    (fun i ps j _ => 0 <= i -> 0 <= dt_tree dt -> dt_tree dt + 4 * j < 2 ^ 32 ->
       forall fuel, j - i <= Z.of_nat fuel ->
       answers ps j (dt_parse_node m junk fuel dt (dt_tree dt) i node prop))
    (fun name i ps j _ => 0 <= i -> 0 <= dt_tree dt -> dt_tree dt + 4 * j < 2 ^ 32 -> short name ->
       forall fuel cur, j - i <= Z.of_nat fuel -> cstring (array cur) name ->
       answers ps j (dt_parse_items m junk fuel dt (dt_tree dt) i cur node prop))).
  - intros i name ps j Ht Hn Hs Hit IH Hi Htr Hb fuel Hf.
    pose proof (proj2 (node_items_grow m Hm dt) _ _ _ _ Hit). pose proof (name_words_pos name).
    destruct fuel as [|f]; [lia|]. rewrite dt_parse_node_step by done.
    rewrite (skip_name_ok m Hm (dt_tree dt) f (i + 1) name) by (done || lia). cbn [mbind option_bind].
    rewrite u32_id by lia. apply IH; try lia; [done|]. apply local_name; [by destruct Hn|done|done].
  - intros name i Ht Hi Htr Hb Hs [|f] cur Hf Hc; [lia|]. rewrite dt_parse_items_step, Ht. done.
  - intros name i ps j Ht Hit IH Hi Htr Hb Hs [|f] cur Hf Hc.
    { pose proof (proj2 (node_items_grow m Hm dt) _ _ _ _ Hit). lia. }
    rewrite dt_parse_items_step, Ht. cbn. apply IH; (done || lia).
  - intros name i pname ps j Ht Hp Hsp Hl Hit IH Hi Htr Hb Hs fuel cur Hf Hc.
    pose proof (proj2 (node_items_grow m Hm dt) _ _ _ _ Hit) as Hg.
    pose proof (dt_word_nonneg m Hm (dt_tree dt) (i + 1)) as Hw.
    assert (Hj2 : i + 3 < 2 ^ 31) by (Z.div_mod_to_equations; lia).
    destruct fuel as [|f]; [Z.div_mod_to_equations; lia|].
    rewrite dt_parse_items_step, Ht. cbn.
    replace (i + 2) with (i + 1 + 1) in Hp by lia.
    rewrite (dt_parse_prop_ok (i + 1) name pname cur) by (done || lia).
    destruct (wanted qn qp (Entry name pname (i + 1))) eqn:Ew.
    + rewrite (proj2 (Z.ltb_lt 0 (i + 1))) by lia. unfold answers, first_entry. cbn. rewrite Ew.
      by eexists.
    + cbn. apply answers_cons; [done|]. replace (i + 1 + 2) with (i + 3) by lia.
      apply IH; try done; Z.div_mod_to_equations; lia.
  - intros name i ps1 k ps2 j Hn IH1 Hit IH2 Hi Htr Hb Hs fuel cur Hf Hc.
    pose proof (proj1 (node_items_grow m Hm dt) _ _ _ Hn). pose proof (proj2 (node_items_grow m Hm dt) _ _ _ _ Hit).
    destruct fuel as [|f]; [lia|]. rewrite dt_parse_items_step.
    assert (Ht : dt_word m (dt_tree dt) i = FDT_BEGIN_NODE) by (by destruct Hn).
    rewrite Ht. cbn. specialize (IH1 Hi Htr ltac:(lia) f ltac:(lia)).
    specialize (IH2 ltac:(lia) Htr Hb Hs f cur ltac:(lia) Hc).
    unfold answers in *. rewrite first_entry_app.
    pose proof (proj1 (node_items_indices m Hm dt) _ _ _ Hn Hi ltac:(lia)) as Hix.
    destruct (first_entry qn qp ps1) as [x|] eqn:E1.
    + destruct IH1 as [i1 E]. rewrite E. cbn.
      apply first_entry_index in E1; [|done]. rewrite (proj2 (Z.ltb_lt 0 x)) by lia. by eexists.
    + rewrite IH1. cbn. destruct (first_entry qn qp ps2) as [x|].
      * destruct IH2 as [i2 ->]. by eexists.
      * by rewrite IH2.
Qed.

(** The whole tree: the root's words, then the end token. *)
Lemma find_node_prop_ok ps j fuel : dt_valid dt <> 0 -> node_at m dt 0 ps j ->
  dt_word m (dt_tree dt) j = FDT_END -> 0 <= dt_tree dt -> dt_tree dt + 4 * j < 2 ^ 32 ->
  j < Z.of_nat fuel ->
  devicetree_find_node_prop m junk fuel dt node prop
  = Some (default (- ENOENT) (first_entry qn qp ps), []).
Proof.
  intros Hv Hn He Htr Hb Hf. unfold devicetree_find_node_prop.
  pose proof (proj1 (node_items_grow m Hm dt) _ _ _ Hn).
  rewrite (proj2 (Z.eqb_neq _ _) Hv). destruct fuel as [|f]; [lia|]. cbn [find_loop].
  pose proof (proj1 parse_ok _ _ _ Hn ltac:(lia) Htr Hb f ltac:(lia)) as Ha. unfold answers in Ha.
  pose proof (proj1 (node_items_indices m Hm dt) _ _ _ Hn ltac:(lia) ltac:(lia)) as Hix.
  destruct (first_entry qn qp ps) as [x|] eqn:E1.
  - destruct Ha as [i ->]. cbn. apply first_entry_index in E1; [|done].
    rewrite (proj2 (Z.ltb_lt 0 x)) by lia. by rewrite s32_id by lia.
  - rewrite Ha. cbn. by rewrite He.
Qed.
End Search.

(** ** Queries *)

(** A tree that is there and well formed, with the properties [ps]. *)
Record holds_tree (m : mem) (dt : device_tree_type) (ps : list entry) (j : Z) : Prop := {
  ht_bytes : forall a, 0 <= m a < 256;
  ht_valid : dt_valid dt <> 0;
  ht_root : node_at m dt 0 ps j;
  ht_end : dt_word m (dt_tree dt) j = FDT_END;
  ht_low : 0 <= dt_tree dt;
  ht_high : dt_tree dt + 4 * j < 2 ^ 32 }.

Definition size_warning (length : Z) : list message :=
  if negb (length =? 4) then [("Warning! Asking for int32 but length is %d"%string, [length])] else [].

Lemma index_found x : 0 < x < 2 ^ 31 ->
  s32 (u32 x) = x /\ u32 x = x /\ u32 (u32 (x + 1) + 1) = x + 2.
Proof.
  intros Hx. rewrite s32_u32, s32_id, (u32_id x), (u32_id (x + 1)), (u32_id (x + 1 + 1)) by lia. lia.
Qed.

Lemma find_int_ok m junk dt ps j fuel node prop qn qp :
  Z.of_nat (length junk) = DT_STRING_MAXSIZE -> holds_tree m dt ps j ->
  query m node prop qn qp -> j < Z.of_nat fuel ->
  devicetree_find_node_prop m junk fuel dt node prop
    = Some (default (- ENOENT) (first_entry qn qp ps), []) /\
  devicetree_find_int m junk fuel dt node prop
    = match first_entry qn qp ps with
      | Some x => Some (0, Some (dt_word m (dt_tree dt) (x + 2)),
                        size_warning (dt_word m (dt_tree dt) x))
      | None => Some (0, Some FDT_BEGIN_NODE,
                      size_warning (dt_word m (dt_tree dt) (2 ^ 32 - 2)))
      end.
Proof.
  intros Hj [Hm Hv Hn He Hl Hh] Q Hf.
  pose proof (find_node_prop_ok m Hm junk dt Hj node prop qn qp Q ps j fuel Hv Hn He Hl Hh Hf) as E.
  split; [done|]. unfold devicetree_find_int. rewrite E. cbn [mbind option_bind].
  rewrite (proj2 (Z.ltb_ge _ 0)) by apply u32_range. unfold devicetree_prop_int.
  rewrite (proj2 (Z.eqb_neq _ _) Hv). destruct (first_entry qn qp ps) as [x|] eqn:Ex; cbn [from_option id].
  - pose proof (proj1 (node_items_grow m Hm dt) _ _ _ Hn).
    pose proof (proj1 (node_items_indices m Hm dt) _ _ _ Hn ltac:(lia) ltac:(lia)) as Hix.
    apply (first_entry_index qn qp) in Ex; [|done].
    destruct (index_found x Ex) as (-> & -> & ->). done.
  - change (u32 (s32 (u32 (- ENOENT)))) with (2 ^ 32 - 2).
    change (u32 (u32 (2 ^ 32 - 2 + 1) + 1)) with 0.
    assert (Ew : dt_word m (dt_tree dt) 0 = FDT_BEGIN_NODE) by (by destruct Hn). by rewrite Ew.
Qed.

(** C27. A query for a property of a well-formed device tree ends, prints nothing
    of its own and finds the first property, in the order of the tree, that has
    the name asked for and, if one is asked for, the node's name; the value
    [devicetree_find_int] sets is its first word, with a warning when it is not
    4 bytes long.  When there is none the search says -ENOENT; the unsigned test
    of its result lets that through, and the value set is 1, the token the tree
    starts with. *)
Theorem devicetree_finds m junk dt ps j fuel node prop qn qp :
  Z.of_nat (length junk) = DT_STRING_MAXSIZE -> holds_tree m dt ps j ->
  query m node prop qn qp -> j < Z.of_nat fuel ->
  devicetree_find_node_prop m junk fuel dt node prop
    = Some (default (- ENOENT) (first_entry qn qp ps), []) /\
  devicetree_find_int m junk fuel dt node prop
    = match first_entry qn qp ps with
      | Some x => Some (0, Some (dt_word m (dt_tree dt) (x + 2)),
                        size_warning (dt_word m (dt_tree dt) x))
      | None => Some (0, Some FDT_BEGIN_NODE,
                      size_warning (dt_word m (dt_tree dt) (2 ^ 32 - 2)))
      end.
Proof. apply find_int_ok. Qed.

(** The strings the memory code asks for. *)
Record names_at (m : mem) (n : dt_names) (ac sc mem0 mem1 reg : list Z) : Prop := {
  na_address : query m 0 (n_address_cells n) None ac;
  na_size : query m 0 (n_size_cells n) None sc;
  na_memory : query m (n_memory n) (n_reg n) (Some mem0) reg;
  na_memory0 : query m (n_memory0 n) (n_reg n) (Some mem1) reg }.

(** For a tree as the loader of the newer firmware leaves it (one cell for
    addresses and one for sizes, a root without a name, no property "reg" in a
    node "memory", and one of 8 bytes in "memory@0"), [devicetree_get_memory]
    ends and returns the size given there, if it is at least 1024; the older
    place is looked up first, is not there, and what is read in its stead is
    the start of the tree, too small to be taken for a size. *)
Theorem devicetree_memory m junk dt ps j fuel n ac sc mem0 mem1 reg xa xs x :
  Z.of_nat (length junk) = DT_STRING_MAXSIZE -> holds_tree m dt ps j -> j < Z.of_nat fuel ->
  names_at m n ac sc mem0 mem1 reg ->
  first_entry None ac ps = Some xa -> dt_word m (dt_tree dt) (xa + 2) = 1 ->
  first_entry None sc ps = Some xs -> dt_word m (dt_tree dt) (xs + 2) = 1 ->
  dt_word m (dt_tree dt) 1 = 0 ->
  first_entry (Some mem0) reg ps = None ->
  first_entry (Some mem1) reg ps = Some x -> dt_word m (dt_tree dt) x = 8 ->
  1024 <= dt_word m (dt_tree dt) (x + 3) ->
  exists out, devicetree_get_memory m junk fuel dt n
    = Some (dt_word m (dt_tree dt) (x + 3), out).
Proof.
  intros Hj Ht Hf [Q1 Q2 Q3 Q4] E1 V1 E2 V2 V3 E3 E4 V4 V5.
  destruct (find_int_ok _ _ _ _ _ _ _ _ _ _ Hj Ht Q1 Hf) as [_ F1]. rewrite E1, V1 in F1.
  destruct (find_int_ok _ _ _ _ _ _ _ _ _ _ Hj Ht Q2 Hf) as [_ F2]. rewrite E2, V2 in F2.
  destruct (find_int_ok _ _ _ _ _ _ _ _ _ _ Hj Ht Q3 Hf) as [F3 _]. rewrite E3 in F3.
  destruct (find_int_ok _ _ _ _ _ _ _ _ _ _ Hj Ht Q4 Hf) as [F4 _]. rewrite E4 in F4.
  assert (Hx : 0 < x < 2 ^ 31).
  { destruct Ht as [Hm Hv Hn He Hl Hh]. pose proof (proj1 (node_items_grow m Hm dt) _ _ _ Hn).
    eapply first_entry_index; [|exact E4].
    apply (proj1 (node_items_indices m Hm dt) _ _ _ Hn); lia. }
  destruct (index_found x Hx) as (I1 & I2 & _).
  unfold devicetree_get_memory, devicetree_get_memory_old. rewrite F1. cbn [mbind option_bind].
  rewrite F2. cbn [mbind option_bind]. rewrite F3. cbn [mbind option_bind from_option id].
  rewrite (proj2 (Z.ltb_ge (u32 (- ENOENT)) 0)) by done.
  change (s32 (u32 (- ENOENT)) + 2) with 0. unfold dt_cells. cbn [Z.eqb Pos.eqb].
  change (0 + 1) with 1. rewrite V3. cbn [Z.ltb Z.compare].
  unfold devicetree_get_memory_new. rewrite F4. cbn [mbind option_bind from_option id].
  rewrite (proj2 (Z.ltb_ge (u32 x) 0)) by apply u32_range. rewrite I1, V4.
  cbn [Z.eqb Pos.eqb mbind option_bind].
  replace (x + 2 + 1) with (x + 3) by lia. change (0 <? 1024) with true. cbn [mbind option_bind].
  rewrite (proj2 (Z.ltb_ge (dt_word m (dt_tree dt) (x + 3)) 1024)) by lia. by eexists.
Qed.

(** ** A run: a tree with the memory of a board of 948 MB *)

Definition be32 (v : Z) : list Z := [u8 (v / 2 ^ 24); u8 (v / 2 ^ 16); u8 (v / 2 ^ 8); u8 v].

(** "#address-cells", "#size-cells", "reg" *)
Definition demo_strings : list Z :=
  [35; 97; 100; 100; 114; 101; 115; 115; 45; 99; 101; 108; 108; 115; 0;
   35; 115; 105; 122; 101; 45; 99; 101; 108; 108; 115; 0; 114; 101; 103; 0].

(** "memory", "memory@0" *)
Definition demo_memory_name : list Z := [109; 101; 109; 111; 114; 121].
Definition demo_memory0_name : list Z := [109; 101; 109; 111; 114; 121; 64; 48].

Definition demo_struct : list Z :=
  flat_map be32 [1; 0; 3; 4; 0; 1; 3; 4; 15; 1; 1] ++ demo_memory0_name ++ [0; 0; 0; 0] ++
  flat_map be32 [3; 8; 27; 0; 0x3b400000; 2; 4; 2; 9].

Definition demo_blob : list Z :=
  flat_map be32 [0xd00dfeed; 164; 40; 132; 164; 17; 16; 0; 31; 92] ++ demo_struct ++ demo_strings.

(** The tree at 256, the names of the kernel at 1024. *)
Definition demo_dt_mem : mem :=
  mem_with (mem_with (fun _ => 0) 256 demo_blob) 1024
    (demo_strings ++ demo_memory_name ++ [0] ++ demo_memory0_name ++ [0]).

Definition demo_dt : device_tree_type := snd (devicetree_setup demo_dt_mem device_tree_bss 256).

Definition demo_dt_names : dt_names := DtNames 1024 1039 1055 1062 1051 9 9.

Definition demo_entries : list entry :=
  [Entry [] (take 14 demo_strings) 3; Entry [] (take 11 (drop 15 demo_strings)) 7;
   Entry demo_memory0_name [114; 101; 103] 15].

Lemma mem_with_range m base l : (forall a, 0 <= m a < 256) -> Forall (fun b => 0 <= b < 256) l ->
  forall a, 0 <= mem_with m base l a < 256.
Proof.
  intros Hm Hl a. unfold mem_with. bcase; [|done].
  rewrite List.Forall_forall in Hl. apply Hl, nth_In. lia.
Qed.

Ltac at_index i := match goal with |- items_at _ _ _ ?k _ _ => change k with i || (replace k with i by by vm_compute) end.
Ltac demo_string := apply cstringb_cstring; by vm_compute.

Lemma demo_root_node : node_at demo_dt_mem demo_dt 0 demo_entries 22.
Proof.
  apply node_intro with (name := []); [by vm_compute| |by vm_compute|].
  { split; [demo_string|]. intros b Hb. change (0 <= b < 4) in Hb.
    assert (Hc : b = 0 \/ b = 1 \/ b = 2 \/ b = 3) by lia.
    destruct Hc as [->|[->|[->| ->]]]; by vm_compute. }
  at_index 2. apply items_prop; [by vm_compute|demo_string|by vm_compute|by vm_compute|].
  at_index 6. apply items_prop; [by vm_compute|demo_string|by vm_compute|by vm_compute|].
  at_index 10. apply (items_node _ _ _ _ [Entry demo_memory0_name [114; 101; 103] 15] 20 []).
  - apply node_intro with (name := demo_memory0_name); [by vm_compute| |by vm_compute|].
    { split; [demo_string|]. intros b Hb. change (8 <= b < 12) in Hb.
      assert (Hc : b = 8 \/ b = 9 \/ b = 10 \/ b = 11) by lia.
      destruct Hc as [->|[->|[->| ->]]]; by vm_compute. }
    at_index 14. apply items_prop; [by vm_compute|demo_string|by vm_compute|by vm_compute|].
    at_index 19. apply (items_end _ _ _ 19). by vm_compute.
  - apply items_nop; [by vm_compute|]. at_index 21. apply (items_end _ _ _ 21). by vm_compute.
Qed.

Lemma demo_holds_tree : holds_tree demo_dt_mem demo_dt demo_entries 22.
Proof.
  split; [|by vm_compute|exact demo_root_node|by vm_compute|by vm_compute|by vm_compute].
  assert (Hb : forall l, forallb (fun b => (0 <=? b) && (b <? 256)) l = true ->
    Forall (fun b => 0 <= b < 256) l).
  { intros l H. apply List.Forall_forall. intros x Hx. rewrite forallb_forall in H.
    specialize (H x Hx). apply andb_true_iff in H as [??]. b2p. lia. }
  unfold demo_dt_mem. apply mem_with_range; [apply mem_with_range; [lia|]|]; apply Hb; by vm_compute.
Qed.

Definition junk128 : list Z := repeat 7 128.

Lemma devicetree_finds_witness :
  devicetree_find_node_prop demo_dt_mem junk128 23 demo_dt 1062 1051 = Some (15, []) /\
  devicetree_find_int demo_dt_mem junk128 23 demo_dt 1062 1051
  = Some (0, Some 0, [("Warning! Asking for int32 but length is %d"%string, [8])]).
Proof.
  apply (devicetree_finds demo_dt_mem junk128 demo_dt demo_entries 22 23 1062 1051
    (Some demo_memory0_name) [114; 101; 103]);
    [done|exact demo_holds_tree|split; [split; [done|split; [demo_string|done]]|demo_string|done]|done].
Defined.

Lemma devicetree_memory_witness :
  exists out, devicetree_get_memory demo_dt_mem junk128 23 demo_dt demo_dt_names
    = Some (0x3b400000, out).
Proof.
  apply (devicetree_memory demo_dt_mem junk128 demo_dt demo_entries 22 23 demo_dt_names
    (take 14 demo_strings) (take 11 (drop 15 demo_strings)) demo_memory_name demo_memory0_name
    [114; 101; 103] 3 7 15); try by vm_compute.
  - exact demo_holds_tree.
  - split; (split; [first [done | split; [done|split; [demo_string|done]]]|demo_string|done]).
Defined.

(** *** Edges *)

(** The 64-bit swap moves the bytes to the wrong places. *)
Lemma big_to_little64_wrong : big_to_little64 (2 ^ 56) = 2 ^ 8.
Proof. reflexivity. Qed.

(** A string is copied with the length in the tree, whatever room there is. *)
Lemma find_string_ignores_len m dt start string len len' :
  devicetree_prop_string m dt start string len = devicetree_prop_string m dt start string len'.
Proof. reflexivity. Qed.

(** A root that is preceded by a NOP, which the format allows, is not parsed. *)
Lemma nop_before_root m junk dt f node prop : dt_valid dt <> 0 ->
  dt_word m (dt_tree dt) 0 = FDT_NOP ->
  devicetree_find_node_prop m junk (S (S f)) dt node prop
  = Some (-1, [("Expected FDT_BEGIN_NODE, got %x"%string, [tree_word m (dt_tree dt) 0])]).
Proof.
  intros Hv Hw. unfold devicetree_find_node_prop. rewrite (proj2 (Z.eqb_neq _ _) Hv).
  cbn [find_loop dt_parse_node]. by rewrite Hw.
Qed.
