(* ===== verification/Atags.v ===== *)
(** * The list of tags of old boot loaders: kernel/boot/atags.c

    The call in [hardware_detect] is compiled out in favour of the device tree.
    A list is a sequence of records of words, the size in words first and the
    kind second.  The strings a command line is searched for are literals, read
    as lists of bytes.  What is printed is kept as in [DeviceTree]. *)

From stdpp Require Import base list numbers.
From Stdlib Require Import ZArith Lia.
From Stdlib Require String.
From S2P Require Import Prelude CString DeviceTree.
Import String.StringSyntax.
Delimit Scope string_scope with string.

Definition ATAG_NONE : Z := 0x00000000.
Definition ATAG_CORE : Z := 0x54410001.
Definition ATAG_MEM : Z := 0x54410002.
Definition ATAG_VIDEOTEXT : Z := 0x54410003.
Definition ATAG_RAMDISK : Z := 0x54410004.
Definition ATAG_INITRD2 : Z := 0x54420005.
Definition ATAG_SERIAL : Z := 0x54410006.
Definition ATAG_REVISION : Z := 0x54410007.
Definition ATAG_VIDEOLFB : Z := 0x54410008.
Definition ATAG_CMDLINE : Z := 0x54410009.

Record atag_info_t := AtagInfo {
  revision : Z;
  ramsize : Z;
  atag_hardware : Z;                     (* [hardware_type] *)
  framebuffer_x : Z;
  framebuffer_y : Z }.

Definition atag_info_bss : atag_info_t := AtagInfo 0 0 0 0 0.

(** ** Numbers of the command line *)

(** The loop over the digits; they end at a space, or when less than the length
    of the key is left of the line. *)
Fixpoint digit_loop (fuel : nat) (cmdline : Z -> Z) (cmdline_len key_len base i result : Z)
    : option Z :=
  match fuel with
  | O => None
  | S f =>
      if cmdline_len <? u32 (i + key_len) then Some result
      else
        let digit := cmdline i in
        if (digit =? 32) || (digit =? 0) then Some result
        else
          let result := s32 (result * base) in
          let result := if digit <=? 57 then s32 (result + (digit - 48))
                        else s32 (result + (digit - 97 + 10)) in
          digit_loop f cmdline cmdline_len key_len base (u32 (i + 1)) result
  end.

Fixpoint key_loop (fuel : nat) (cmdline key : Z -> Z) (cmdline_len key_len i : Z) : option Z :=
  match fuel with
  | O => None
  | S f =>
      if cmdline i =? 0 then Some 0
      else if cmdline_len <? u32 (i + key_len) then Some 0
      else if strncmp key (fun j => cmdline (i + j)) key_len =? 0 then
        let i := u32 (i + key_len) in
        let i := u32 (i + 1) in
        if (cmdline i =? 48) && (cmdline (i + 1) =? 120)
        then digit_loop f cmdline cmdline_len key_len 16 (u32 (i + 2)) 0
        else digit_loop f cmdline cmdline_len key_len 10 i 0
      else key_loop f cmdline key cmdline_len key_len (u32 (i + 1))
  end.

Definition parse_cmdline_int (fuel : nat) (cmdline key : Z -> Z) : option Z :=
  cmdline_len ← strlen fuel cmdline;
  key_len ← strlen fuel key;
  key_loop fuel cmdline key cmdline_len key_len 0.

(** ** The list *)

Definition fbwidth : list Z := [102; 98; 119; 105; 100; 116; 104].
Definition fbheight : list Z := [102; 98; 104; 101; 105; 103; 104; 116].
Definition rev_key : list Z := [114; 101; 118].

Section Tags.
Context (m : mem).

(** [tags[i]], and the next tag. *)
Definition tag (tags i : Z) : Z := load32 m (u32 (tags + 4 * i)).
Definition next_tag (tags : Z) : Z := u32 (tags + 4 * tag tags 0).

Definition skipped (kind : Z) : bool :=
  (kind =? ATAG_CORE) || (kind =? ATAG_VIDEOTEXT) || (kind =? ATAG_RAMDISK) ||
  (kind =? ATAG_INITRD2) || (kind =? ATAG_SERIAL) || (kind =? ATAG_REVISION) ||
  (kind =? ATAG_VIDEOLFB).

(** The loop of [atags_detect]: a tag it does not know is not stepped over. *)
Fixpoint detect_loop (fuel : nat) (tags : Z) (info : atag_info_t) : option (atag_info_t * list message) :=
  match fuel with
  | O => None
  | S f =>
      let kind := tag tags 1 in
      if skipped kind then detect_loop f (next_tag tags) info
      else if kind =? ATAG_MEM then
        let msg := if negb (tag tags 3 =? 0)
          then [("Warning!  We do not handle memory not starting at zero!"%string, [])] else [] in
        let info := AtagInfo (revision info) (tag tags 2) (atag_hardware info)
                      (framebuffer_x info) (framebuffer_y info) in
        '(info, out) ← detect_loop f (next_tag tags) info; Some (info, msg ++ out)
      else if kind =? ATAG_CMDLINE then
        let cmdline := at_ m (u32 (tags + 8)) in
        x ← parse_cmdline_int f cmdline (array fbwidth);
        y ← parse_cmdline_int f cmdline (array fbheight);
        r ← parse_cmdline_int f cmdline (array rev_key);
        detect_loop f (next_tag tags)
          (AtagInfo (u32 r) (ramsize info) (atag_hardware info) (u32 x) (u32 y))
      else if kind =? ATAG_NONE then Some (info, [])
      else
        '(info, out) ← detect_loop f tags info;
        Some (info, ("ERROR! Unknown atag"%string, []) :: out)
  end.

(** The structure is cleared first. *)
Definition atags_detect (fuel : nat) (tags : Z) : option (atag_info_t * list message) :=
  detect_loop fuel tags atag_info_bss.

Definition atags_get_memory (info : atag_info_t) : Z := ramsize info.
Definition atags_get_revision (info : atag_info_t) : Z := revision info.

(** "Get around 256 char printk limit" *)
Fixpoint cmdline_loop (fuel : nat) (cmdline length count : Z) : option (list message) :=
  match fuel with
  | O => None
  | S f =>
      if 0 <? length then
        out ← cmdline_loop f cmdline (s32 (length - 256)) (u32 (count + 1));
        Some (("%s"%string, [u32 (cmdline + 256 * count)]) :: out)
      else Some []
  end.

Fixpoint dump_loop (fuel : nat) (tags : Z) : option (list message) :=
  match fuel with
  | O => None
  | S f =>
      let kind := tag tags 1 in
      let t i := tag tags i in
      let go msg := out ← dump_loop f (next_tag tags); Some (msg :: out) in
      if kind =? ATAG_CORE then
        go ("CORE: flags: %x, pagesize: %x, rootdev: %x"%string, [t 2; t 3; t 4])
      else if kind =? ATAG_MEM then
        go ("MEMORY: size: %x (%dMB), start: %x"%string, [t 2; t 2 / 1024 / 1024; t 3])
      else if kind =? ATAG_VIDEOTEXT then
        go ("VIDEOTEXT x,y,video: %x, mode,cols, ega: %x, lines, vga, points: %x"%string,
            [t 2; t 3; t 4])
      else if kind =? ATAG_RAMDISK then
        go ("RAMDISK flags: %x, size: %x, start: %x"%string, [t 2; t 3; t 4])
      else if kind =? ATAG_INITRD2 then go ("INITRD size: %x, start: %x"%string, [t 3; t 2])
      else if kind =? ATAG_SERIAL then go ("SERIAL NUMBER: low: %x, high: %x"%string, [t 2; t 3])
      else if kind =? ATAG_REVISION then go ("Board revision: %x"%string, [t 2])
      else if kind =? ATAG_VIDEOLFB then go ("VESA framebuffer"%string, [])
      else if kind =? ATAG_CMDLINE then
        let cmdline := u32 (tags + 8) in
        length ← strlen f (at_ m cmdline);
        line ← cmdline_loop f cmdline (s32 length) 0;
        out ← dump_loop f (next_tag tags);
        Some (("Commandline (%d): "%string, [s32 length]) :: line ++ out)
      else if kind =? ATAG_NONE then Some []
      else out ← dump_loop f tags; Some (("ERROR! Unknown atag"%string, []) :: out)
  end.

Definition atags_dump (fuel : nat) (tags : Z) : option (list message) :=
  out ← dump_loop fuel tags;
  Some (("Dumping ATAGs provied by bootloader:"%string, []) :: out).
End Tags.

(** ** What the numbers are *)

Definition digit_value (c : Z) : Z := if c <=? 57 then c - 48 else c - 97 + 10.

Definition value (base v : Z) (ds : list Z) : Z :=
  fold_left (fun v c => v * base + digit_value c) ds v.

(** Up to the first space. *)
Fixpoint word (l : list Z) : list Z :=
  match l with
  | [] => []
  | c :: l' => if c =? 32 then [] else c :: word l'
  end.

(** What follows the first occurrence of the key. *)
Fixpoint find_key (key l : list Z) : option (list Z) :=
  match l with
  | [] => None
  | _ :: l' => if decide (take (length key) l = key) then Some (drop (length key) l)
               else find_key key l'
  end.

(** The digits that are read stop where less than the length of the key is left. *)
Definition number (base : Z) (key r : list Z) : Z :=
  s32 (value base 0 (word (take (S (length r) - length key) r))).

(** "0x" changes the base. *)
Definition number_from (key r : list Z) : Z :=
  match r with
  | a :: b :: r' => if (a =? 48) && (b =? 120) then number 16 key r' else number 10 key r
  | _ => number 10 key r
  end.

Definition cmd_int (key l : list Z) : Z :=
  match find_key key l with
  | None => 0
  | Some rest => number_from key (drop 1 rest)
  end.

Lemma s32_step v base d : s32 (s32 (s32 v * base) + d) = s32 (v * base + d).
Proof.
  unfold s32. rewrite <- (Zplus_mod_idemp_l (v * base + d)).
  rewrite <- (Zplus_mod_idemp_l (_ + d)). f_equal. f_equal. f_equal.
  set (M := 2 ^ 32). set (h := 2 ^ 31).
  assert (E : forall x, exists q, (x + h) mod M - h = x - M * q).
  { intros x. exists ((x + h) / M). pose proof (Z.div_mod (x + h) M ltac:(done)). lia. }
  destruct (E v) as [q1 ->]. destruct (E ((v - M * q1) * base)) as [q2 ->].
  replace ((v - M * q1) * base - M * q2 + d) with (v * base + d + (- q1 * base - q2) * M) by ring.
  by apply Z_mod_plus_full.
Qed.

Section Numbers.
Context (cmdline : Z -> Z) (l : list Z) (Hl : cstring cmdline l).
Context (key : list Z) (Hk : Forall (fun c => c <> 0) key) (Hk0 : key <> []).
Context (Hlen : Z.of_nat (length l) + Z.of_nat (length key) + 4 < 2 ^ 32).

#[local] Abbreviation klen := (Z.of_nat (length key)).
#[local] Abbreviation len := (Z.of_nat (length l)).

Lemma key_length : (0 < length key)%nat.
Proof. destruct key; [done|cbn; lia]. Qed.

(** A byte of the line, or its end. *)
Lemma line_at pre r : l = pre ++ r -> cmdline (Z.of_nat (length pre)) = nth 0 r 0.
Proof.
  intros E. destruct Hl as [_ Hh]. rewrite Hh by (rewrite E, !length_app; cbn; lia).
  rewrite E, <- app_assoc, app_nth2, Nat.sub_diag by lia. by destruct r.
Qed.

Lemma line_nonzero pre c r : l = pre ++ c :: r -> c <> 0.
Proof.
  intros E. destruct Hl as [Hn _]. rewrite E in Hn. apply Forall_app in Hn as [_ Hn].
  by apply Forall_cons_1 in Hn as [Hc _].
Qed.

Lemma digit_loop_ok base : forall r pre v fuel, l = pre ++ r -> (length r < fuel)%nat ->
  digit_loop fuel cmdline len klen base (Z.of_nat (length pre)) (s32 v)
  = Some (s32 (value base v (word (take (S (length r) - length key) r)))).
Proof.
  pose proof key_length as Hk1.
  induction r as [|c r IH]; intros pre v [|fuel] E Hf; try (cbn in Hf; lia);
    cbn [digit_loop].
  - rewrite app_nil_r in E. subst pre. rewrite u32_id by lia.
    rewrite (proj2 (Z.ltb_lt _ _)) by lia. by rewrite take_nil.
  - assert (El : length l = (length pre + S (length r))%nat) by (rewrite E, length_app; done).
    rewrite u32_id by lia. destruct (_ <? _) eqn:Hroom; b2p.
    { by replace (S (length (c :: r)) - length key)%nat with 0%nat by (cbn; lia). }
    replace (S (length (c :: r)) - length key)%nat with (S (S (length r) - length key))
      by (cbn; lia).
    pose proof (line_at pre (c :: r) E) as Hc. cbn [nth] in Hc. rewrite Hc.
    pose proof (line_nonzero pre c r E) as Hc0. rewrite (proj2 (Z.eqb_neq c 0)) by done.
    rewrite orb_false_r. cbn [take word]. destruct (c =? 32); [done|].
    assert (Hd : (if c <=? 57 then s32 (s32 (s32 v * base) + (c - 48))
      else s32 (s32 (s32 v * base) + (c - 97 + 10))) = s32 (v * base + digit_value c))
      by (unfold digit_value; destruct (c <=? 57); apply s32_step).
    rewrite Hd, u32_id by lia.
    specialize (IH (pre ++ [c]) (v * base + digit_value c) fuel).
    rewrite length_app in IH. cbn [length] in IH.
    replace (Z.of_nat (length pre) + 1) with (Z.of_nat (length pre + 1)) by lia.
    rewrite IH; [done| |cbn in Hf; lia]. by rewrite <- app_assoc.
Qed.

Lemma find_key_short r : (length r < length key)%nat -> find_key key r = None.
Proof.
  induction r as [|c r IH]; intros Hr; [done|]. cbn [find_key]. rewrite decide_False.
  - apply IH. cbn in Hr. lia.
  - intros Ht. apply (f_equal length) in Ht. rewrite length_take in Ht. lia.
Qed.

Lemma line_from pre r : l = pre ++ r -> cstring (fun j => cmdline (Z.of_nat (length pre) + j)) r.
Proof.
  intros E. destruct Hl as [Hn Hh]. split.
  { rewrite E in Hn. by apply Forall_app in Hn as [_ Hn]. }
  intros i Hi. replace (Z.of_nat (length pre) + Z.of_nat i) with (Z.of_nat (length pre + i)) by lia.
  rewrite Hh by (rewrite E, !length_app in *; cbn in *; lia).
  rewrite E, <- app_assoc, app_nth2 by lia. f_equal. lia.
Qed.

Lemma key_compare pre r : l = pre ++ r ->
  (strncmp (array key) (fun j => cmdline (Z.of_nat (length pre) + j)) klen =? 0)
  = bool_decide (take (length key) r = key).
Proof.
  intros E. apply eq_true_iff_eq. rewrite Z.eqb_eq, bool_decide_eq_true.
  assert (Ha : cstring (array key) key).
  { split; [done|]. intros i Hi. unfold array. rewrite Nat2Z.id.
    destruct (decide (i < length key)%nat); [by rewrite app_nth1|].
    rewrite length_app in Hi. cbn in Hi. rewrite nth_overflow, app_nth2 by lia.
    by replace (i - length key)%nat with 0%nat by lia. }
  rewrite (strncmp_zero_iff _ _ key r klen Ha (line_from pre r E)).
  rewrite Nat2Z.id, take_ge by done. naive_solver.
Qed.

(** The digits behind the key, whatever the byte between them is. *)
Lemma number_at pre rest fuel : l = pre ++ key ++ rest -> (length rest + 1 < fuel)%nat ->
  (let i := u32 (u32 (Z.of_nat (length pre) + klen) + 1) in
   if (cmdline i =? 48) && (cmdline (i + 1) =? 120)
   then digit_loop fuel cmdline len klen 16 (u32 (i + 2)) 0
   else digit_loop fuel cmdline len klen 10 i 0)
  = Some (number_from key (drop 1 rest)).
Proof.
  intros E Hf. pose proof key_length as Hk1. cbv zeta.
  assert (El : length l = (length pre + length key + length rest)%nat)
    by (rewrite E, !length_app; lia).
  assert (Ei : u32 (u32 (Z.of_nat (length pre) + klen) + 1) = Z.of_nat (length pre) + klen + 1)
    by (rewrite (u32_id (_ + klen)) by lia; by rewrite u32_id by lia).
  rewrite Ei, (u32_id (_ + 2)) by lia. clear Ei.
  destruct rest as [|sep rest].
  { assert (Hend : forall base k, 1 <= k <= 3 ->
      digit_loop fuel cmdline len klen base (Z.of_nat (length pre) + klen + k) 0 = Some 0).
    { intros base k Hkk. destruct fuel as [|fuel]; [lia|]. cbn [digit_loop]. cbn in El.
      rewrite u32_id by lia. by rewrite (proj2 (Z.ltb_lt _ _)) by lia. }
    rewrite <- (Z.add_assoc _ 1 2), !Hend by lia. unfold number_from, number.
    rewrite drop_nil, take_nil. by destruct (_ && _). }
  cbn [drop length] in *. rewrite drop_0.
  assert (E1 : l = (pre ++ key ++ [sep]) ++ rest) by (rewrite E, <- !app_assoc; done).
  assert (P1 : Z.of_nat (length pre) + klen + 1 = Z.of_nat (length (pre ++ key ++ [sep])))
    by (rewrite !length_app; cbn; lia).
  rewrite !P1. pose proof (line_at _ _ E1) as H1.
  assert (Hdec : digit_loop fuel cmdline len klen 10 (Z.of_nat (length (pre ++ key ++ [sep]))) 0
    = Some (number 10 key rest)) by (apply (digit_loop_ok 10 rest _ 0 fuel E1); lia).
  destruct rest as [|a rest]; [by rewrite H1|]. cbn [nth] in H1. rewrite H1.
  assert (E2 : l = ((pre ++ key ++ [sep]) ++ [a]) ++ rest) by (rewrite <- app_assoc; exact E1).
  pose proof (line_at _ _ E2) as H2. rewrite (length_app _ [a]), Nat2Z.inj_add in H2.
  cbn [length] in H2. change (Z.of_nat 1) with 1 in H2. rewrite H2.
  destruct rest as [|b rest]; [by rewrite andb_false_r|]. cbn [nth number_from].
  destruct ((a =? 48) && (b =? 120)); [|exact Hdec].
  assert (E3 : l = (((pre ++ key ++ [sep]) ++ [a]) ++ [b]) ++ rest)
    by (rewrite <- app_assoc; exact E2).
  replace (Z.of_nat (length (pre ++ key ++ [sep])) + 2)
    with (Z.of_nat (length (((pre ++ key ++ [sep]) ++ [a]) ++ [b])))
    by (rewrite !length_app; cbn; lia).
  apply (digit_loop_ok 16 rest _ 0 fuel E3). cbn in Hf. lia.
Qed.

Lemma key_loop_ok : forall r pre fuel, l = pre ++ r -> (length r + 3 < fuel)%nat ->
  key_loop fuel cmdline (array key) len klen (Z.of_nat (length pre))
  = Some (match find_key key r with
          | None => 0
          | Some rest => number_from key (drop 1 rest)
          end).
Proof.
  induction r as [|c r IH]; intros pre [|fuel] E Hf; try lia; cbn [key_loop];
    rewrite (line_at _ _ E); [done|]. cbn [nth].
  rewrite (proj2 (Z.eqb_neq c 0)) by (by apply (line_nonzero pre c r)).
  assert (El : length l = (length pre + S (length r))%nat) by (rewrite E, length_app; done).
  destruct (len <? _) eqn:Hroom; b2p.
  { rewrite u32_id in Hroom by lia. rewrite find_key_short; [done|cbn; lia]. }
  rewrite (key_compare pre (c :: r) E). cbn [find_key].
  destruct (decide (take (length key) (c :: r) = key)) as [Ht|Ht].
  - rewrite bool_decide_eq_true_2 by done. apply number_at.
    + rewrite <- Ht at 1. by rewrite take_drop.
    + rewrite length_drop. pose proof key_length. cbn in *. lia.
  - rewrite bool_decide_eq_false_2 by done. rewrite u32_id by lia.
    specialize (IH (pre ++ [c]) fuel). rewrite length_app in IH. cbn [length] in IH, Hf.
    replace (Z.of_nat (length pre) + 1) with (Z.of_nat (length pre + 1)) by lia.
    apply IH; [by rewrite <- app_assoc|lia].
Qed.
End Numbers.

(** Searching the line is searching the list of its bytes. *)
Lemma parse_cmdline_int_ok cmdline l key fuel : cstring cmdline l ->
  Forall (fun c => c <> 0) key -> key <> [] ->
  Z.of_nat (length l) + Z.of_nat (length key) + 4 < 2 ^ 32 ->
  (length l + 4 <= fuel)%nat -> (length key < fuel)%nat ->
  parse_cmdline_int fuel cmdline (array key) = Some (cmd_int key l).
Proof.
  intros Hl Hk Hk0 Hlen Hf Hf'. unfold parse_cmdline_int.
  rewrite (strlen_cstring fuel cmdline l Hl) by lia. cbn [mbind option_bind].
  assert (Hc : cstring (array key) key).
  { apply cstring_intro; [done|intros i Hi; unfold array; by rewrite Nat2Z.id|].
    unfold array. rewrite Nat2Z.id. by apply nth_overflow. }
  rewrite (strlen_cstring fuel _ key Hc) by lia. cbn [mbind option_bind].
  apply (key_loop_ok cmdline l Hl key Hk Hk0 Hlen l [] fuel eq_refl). lia.
Qed.

(** A number that is followed by enough of the line is read as it stands. *)
Lemma cmd_int_number key l ds tail :
  find_key key l = Some (61 :: ds ++ tail) ->
  Forall (fun c => 48 <= c <= 57) ds -> tail = [] \/ nth 0 tail 0 = 32 ->
  (length key <= S (length tail))%nat ->
  cmd_int key l = s32 (value 10 0 ds).
Proof.
  intros E Hd Ht Hk. unfold cmd_int. rewrite E. cbn [drop]. rewrite drop_0.
  assert (En : number 10 key (ds ++ tail) = s32 (value 10 0 ds)).
  { unfold number. do 2 f_equal. rewrite length_app.
    replace (S (length ds + length tail) - length key)%nat
      with (length ds + (S (length tail) - length key))%nat by lia.
    rewrite take_app_add. generalize (S (length tail) - length key)%nat. intros k.
    clear - Hd Ht. induction ds as [|c ds IH].
    - cbn [app]. destruct Ht as [-> |Ht]; [by rewrite take_nil|].
      destruct tail as [|c tail]; [by rewrite take_nil|]. cbn [nth] in Ht. subst c.
      by destruct k.
    - apply Forall_cons_1 in Hd as [Hc Hd]. cbn [app word].
      rewrite (proj2 (Z.eqb_neq c 32)) by lia. f_equal. by apply IH. }
  unfold number_from. destruct ds as [|a [|b ds]]; cbn [app] in *.
  - destruct tail as [|a [|b tail]]; try exact En. destruct Ht as [?|Ht]; [done|].
    cbn [nth] in Ht. subst a. exact En.
  - destruct tail as [|b tail]; [exact En|]. destruct Ht as [?|Ht]; [done|]. cbn [nth] in Ht.
    subst b. by rewrite andb_false_r.
  - apply Forall_cons_1 in Hd as [_ Hd]. apply Forall_cons_1 in Hd as [Hb _].
    by rewrite (proj2 (Z.eqb_neq b 120)), andb_false_r by lia.
Qed.

(** "rev=12": at the end of the line the digits are cut off. *)
Lemma number_at_end : cmd_int rev_key [114; 101; 118; 61; 49; 50] = 0 /\
  cmd_int rev_key [114; 101; 118; 61; 49; 50; 32; 97] = 12 /\
  cmd_int rev_key [114; 101; 118; 61; 49; 50; 51; 52] = 12.
Proof. by vm_compute. Qed.

(** ** What the list says *)

Inductive atag :=
  | Skipped (kind : Z)
  | Memory (size start : Z)
  | Commandline (l : list Z).

Definition apply_tag (info : atag_info_t) (t : atag) : atag_info_t :=
  match t with
  | Skipped _ => info
  | Memory size _ =>
      AtagInfo (revision info) size (atag_hardware info) (framebuffer_x info) (framebuffer_y info)
  | Commandline l =>
      AtagInfo (u32 (cmd_int rev_key l)) (ramsize info) (atag_hardware info)
        (u32 (cmd_int fbwidth l)) (u32 (cmd_int fbheight l))
  end.

Definition warnings (t : atag) : list message :=
  match t with
  | Memory _ start => if negb (start =? 0)
      then [("Warning!  We do not handle memory not starting at zero!"%string, [])] else []
  | _ => []
  end.

Definition holds_tag (m : mem) (tags : Z) (t : atag) : Prop :=
  match t with
  | Skipped kind => tag m tags 1 = kind /\ skipped kind = true
  | Memory size start => tag m tags 1 = ATAG_MEM /\ tag m tags 2 = size /\ tag m tags 3 = start
  | Commandline l => tag m tags 1 = ATAG_CMDLINE /\ cstring (at_ m (u32 (tags + 8))) l
  end.

Fixpoint holds_tags (m : mem) (tags : Z) (ts : list atag) : Prop :=
  match ts with
  | [] => tag m tags 1 = ATAG_NONE
  | t :: ts' => holds_tag m tags t /\ holds_tags m (next_tag m tags) ts'
  end.

(** The command lines have at most [k] bytes. *)
Definition short_lines (k : nat) (ts : list atag) : Prop :=
  Forall (fun t => match t with Commandline l => (length l <= k)%nat | _ => True end) ts.

Lemma detect_loop_ok m k : Z.of_nat k + 20 < 2 ^ 32 -> forall ts tags info fuel,
  holds_tags m tags ts -> short_lines k ts -> (length ts + k + 10 < fuel)%nat ->
  detect_loop m fuel tags info = Some (fold_left apply_tag ts info, flat_map warnings ts).
Proof.
  intros Hk. induction ts as [|t ts IH]; intros tags info [|fuel] Ht Hs Hf; try lia;
    cbn [detect_loop fold_left flat_map].
  { cbn [holds_tags] in Ht. rewrite Ht. done. }
  destruct Ht as [Ht Hts]. apply Forall_cons_1 in Hs as [Hl Hs]. cbn [length] in Hf.
  destruct t as [kind|size start|l]; cbn [holds_tag] in Ht.
  - destruct Ht as [-> ->]. rewrite IH by (done || lia). done.
  - destruct Ht as (-> & E2 & E3). change (skipped ATAG_MEM) with false.
    change (ATAG_MEM =? ATAG_MEM) with true. cbv iota. rewrite IH by (done || lia).
    cbn [mbind option_bind]. rewrite E2, E3. done.
  - destruct Ht as (-> & Hc). change (skipped ATAG_CMDLINE) with false.
    change (ATAG_CMDLINE =? ATAG_MEM) with false.
    change (ATAG_CMDLINE =? ATAG_CMDLINE) with true. cbv iota.
    rewrite !(parse_cmdline_int_ok _ l) by
      (first [exact Hc | done | cbn; lia | by repeat (apply List.Forall_cons; [done|]); apply List.Forall_nil]).
    cbn [mbind option_bind]. by rewrite IH by (done || lia).
Qed.

(** A well-formed list is read to its end: the size is that of the last tag of
    memory, the revision and the sizes of the frame buffer are those of the last
    command line. *)
Lemma atags_detect_ok m k ts tags fuel : Z.of_nat k + 20 < 2 ^ 32 ->
  holds_tags m tags ts -> short_lines k ts -> (length ts + k + 10 < fuel)%nat ->
  atags_detect m fuel tags = Some (fold_left apply_tag ts atag_info_bss, flat_map warnings ts).
Proof. intros Hk Ht Hs Hf. by apply (detect_loop_ok m k). Qed.

(** A kind that is not known is never stepped over: the loop has no end. *)
Lemma unknown_tag_hangs m tags info fuel : skipped (tag m tags 1) = false ->
  ~ In (tag m tags 1) [ATAG_MEM; ATAG_CMDLINE; ATAG_NONE] -> detect_loop m fuel tags info = None.
Proof.
  intros Hs Hn. induction fuel as [|fuel IH]; [done|]. cbn [detect_loop]. rewrite Hs.
  rewrite !(proj2 (Z.eqb_neq _ _)) by (intros E; apply Hn; rewrite E; cbn; tauto).
  by rewrite IH.
Qed.

(** A core tag, 256 MB and "fbwidth=640 rev=0x10 quiet". *)
Definition demo_line : list Z :=
  [102; 98; 119; 105; 100; 116; 104; 61; 54; 52; 48; 32; 114; 101; 118; 61; 48; 120; 49; 48; 32;
   113; 117; 105; 101; 116].

Definition demo_tags : mem :=
  let words := [2; ATAG_CORE; 4; ATAG_MEM; 0x10000000; 0; 9; ATAG_CMDLINE] in
  let m := fold_right (fun '(i, v) m => store32 m (256 + 4 * Z.of_nat i) v) (fun _ => 0)
    (zip (seq 0 8) words) in
  mem_with m 288 (demo_line ++ [0]).

Lemma atags_detect_witness :
  atags_detect demo_tags 60 256 = Some (AtagInfo 16 0x10000000 0 640 0, []).
Proof.
  refine (atags_detect_ok demo_tags 30 [Skipped ATAG_CORE; Memory 0x10000000 0; Commandline demo_line]
    256 60 _ _ _ _).
  - done.
  - split; [by vm_compute|]. split; [by vm_compute|]. split; [|by vm_compute].
    split; [by vm_compute|]. apply cstringb_cstring. by vm_compute.
  - repeat (apply List.Forall_cons; [cbn; lia || done|]). apply List.Forall_nil.
  - cbn. lia.
Defined.
