(* ===== verification/User.v ===== *)
(** * Programs: how the code under userspace/ is modelled

    A program computes on the flat memory it shares with the kernel and stops at
    its system calls: an [outcome] is its result, the registers at its next
    [svc] with what it does with the answer, or [Stuck] when a loop has run out
    of fuel or an object is read outside its bounds.  [run] answers the calls;
    [kernel_call] answers them with the kernel of [Syscalls], so a program and
    the kernel make one transition system.

    [Printf ps] stands for a call of [printf] with the format [spelled ps] and
    the arguments [args ps]; [printf_writes] of [Vlibc] shows that the library's
    [printf] writes just the text [rendered ps] with one [write]. *)

From stdpp Require Import base list numbers.
From Stdlib Require Import ZArith Lia.
From Stdlib Require Ascii String.
From S2P Require Import Prelude CString Romfs Process Sched Mmio Serial Files Printk Syscalls.
Import String.StringSyntax.
Delimit Scope string_scope with string.

(** ** Text *)

Definition char_code (c : Ascii.ascii) : Z := Z.of_nat (Ascii.nat_of_ascii c).

Definition text (s : String.string) : list Z := map char_code (String.list_ascii_of_string s).

(** The literal part of a format. *)
Definition lits (s : String.string) : list piece := map Lit (text s).
Arguments text s%_string.
Arguments lits s%_string.

(** "%d" and its like. *)
Definition dec (x : Z) : piece := Conv [] (Dec false x).

(** "\n" *)
Definition nl : piece := Lit 10.

(** The string at [a]; [n] is the fuel of the search for its end. *)
Definition string_at (n : nat) (m : mem) (a : Z) : option (list Z) :=
  length ← vlibc_strlen n (at_ m a);
  Some (bytes_of (at_ m a) (Z.to_nat length)).

Lemma vlibc_strlen_cstring n f l : cstring f l -> (length l < n)%nat ->
  vlibc_strlen n f = Some (Z.of_nat (length l)).
Proof.
  intros Hs Hl. rewrite <- (strlen_cstring n f l Hs Hl). unfold vlibc_strlen, strlen.
  clear Hs Hl. generalize 0. induction n as [|n IH]; intros i; [done|].
  cbn [vlibc_strlen_loop strlen_loop]. rewrite IH. by destruct (f i =? 0).
Qed.

Lemma string_at_cstring n m a l : cstring (at_ m a) l -> (length l < n)%nat ->
  string_at n m a = Some l.
Proof.
  intros Hs Hl. unfold string_at. rewrite (vlibc_strlen_cstring n _ l Hs Hl).
  cbn [mbind option_bind]. rewrite Nat2Z.id. f_equal. apply bytes_of_nth.
  intros i Hi. by apply cstring_nth.
Qed.

(** ** Programs *)

Inductive call :=
| Svc (regs : list Z)
| Printf (ps : list piece).

Inductive outcome (A : Type) :=
| Done (a : A) (m : mem)
| Ask (c : call) (m : mem) (k : Z -> mem -> outcome A)
| Stuck.
Arguments Done {A} a m.
Arguments Ask {A} c m k.
Arguments Stuck {A}.

Fixpoint then_ {A B} (o : outcome A) (f : A -> mem -> outcome B) : outcome B :=
  match o with
  | Done a m => f a m
  | Ask c m k => Ask c m (fun v m1 => then_ (k v m1) f)
  | Stuck => Stuck
  end.

Definition user (A : Type) : Type := mem -> outcome A.

#[export] Instance user_ret : MRet user := fun A a m => Done a m.
#[export] Instance user_bind : MBind user := fun A B f p m => then_ (p m) f.

Lemma bind_done {A B} (p : user A) (f : A -> user B) m a m1 :
  p m = Done a m1 -> (p ≫= f) m = f a m1.
Proof. intros E. change ((p ≫= f) m) with (then_ (p m) f). by rewrite E. Qed.

(** A system call with the registers of a stub; a [printf]; an access to the
    memory; a computation that may be undefined. *)
Definition svc (regs : list Z) : user Z := fun m => Ask (Svc regs) m Done.
Definition say (ps : list piece) : user Z := fun m => Ask (Printf ps) m Done.
Definition get_mem : user mem := fun m => Done m m.
Definition set_mem (m1 : mem) : user () := fun _ => Done () m1.
Definition stuck {A} : user A := fun _ => Stuck.
Definition of_option {A} (o : option A) : user A :=
  match o with Some a => mret a | None => stuck end.

(** [int32_t] results. *)
Definition svc_int (regs : list Z) : user Z := r ← svc regs; mret (s32 r).

(** ** Running a program *)

Section Run.
Context {W : Type} (answer : list Z -> mem -> W -> option (Z * mem * W)).

(** Result, memory, what was printed and the world. *)
Fixpoint run {A} (o : outcome A) (printed : list piece) (w : W)
    : option (A * mem * list piece * W) :=
  match o with
  | Done a m => Some (a, m, printed, w)
  | Ask (Svc regs) m k => '(v, m1, w1) ← answer regs m w; run (k v m1) printed w1
  | Ask (Printf ps) m k => run (k (Z.of_nat (length (rendered ps))) m) (printed ++ ps) w
  | Stuck => None
  end.

Lemma run_then {A B} (o : outcome A) (f : A -> mem -> outcome B) : forall printed w,
  run (then_ o f) printed w =
  ('(a, m, printed1, w1) ← run o printed w; run (f a m) printed1 w1).
Proof.
  induction o as [a m|[regs|ps] m k IH|]; intros printed w; cbn [then_ run]; try done.
  destruct (answer regs m w) as [[[v m1] w1]|]; [|done]. cbn. apply IH.
Qed.

Lemma run_bind {A B} (p : user A) (f : A -> user B) m printed w :
  run ((p ≫= f) m) printed w =
  ('(a, m1, printed1, w1) ← run (p m) printed w; run (f a m1) printed1 w1).
Proof. apply run_then. Qed.

Lemma run_svc_int regs m printed w :
  run (svc_int regs m) printed w =
  ('(v, m1, w1) ← answer regs m w; Some (s32 v, m1, printed, w1)).
Proof.
  unfold svc_int. rewrite run_bind. unfold svc. cbn [run].
  by destruct (answer regs m w) as [[[v m1] w1]|].
Qed.
End Run.

(** *** What every run ends with

    [ensures P o]: whatever the answers, a result of [o] satisfies [P]; nothing
    is said of a run that gets stuck. *)
Fixpoint ensures {A} (P : A -> Prop) (o : outcome A) : Prop :=
  match o with
  | Done a _ => P a
  | Ask _ _ k => forall v m, ensures P (k v m)
  | Stuck => True
  end.

Lemma ensures_then {A B} (P : A -> Prop) (Q : B -> Prop) (o : outcome A) (f : A -> mem -> outcome B) :
  ensures P o -> (forall a m, P a -> ensures Q (f a m)) -> ensures Q (then_ o f).
Proof.
  intros Ho Hf. induction o as [a m|c m k IH|]; cbn [then_ ensures] in *; [by apply Hf| |done].
  intros v m1. by apply IH.
Qed.

Lemma ensures_bind {A B} (P : A -> Prop) (Q : B -> Prop) (p : user A) (f : A -> user B) m :
  ensures P (p m) -> (forall a m, P a -> ensures Q (f a m)) -> ensures Q ((p ≫= f) m).
Proof. apply ensures_then. Qed.

Lemma ensures_option {A} (P : A -> Prop) (o : option A) m :
  (forall a, o = Some a -> P a) -> ensures P (of_option o m).
Proof. destruct o as [a|]; cbn; [auto|done]. Qed.

Lemma ensures_true {A} (o : outcome A) : ensures (fun _ => True) o.
Proof. induction o as [a m|c m k IH|]; cbn; auto. Qed.

Lemma ensures_mono {A} (P Q : A -> Prop) (o : outcome A) :
  ensures P o -> (forall a, P a -> Q a) -> ensures Q o.
Proof. intros Ho H. induction o as [a m|c m k IH|]; cbn [ensures] in *; auto. Qed.

(** The result of a run. *)
Lemma ensures_run {W A} (answer : list Z -> mem -> W -> option (Z * mem * W)) (P : A -> Prop)
    (o : outcome A) : ensures P o -> forall printed w a m printed1 w1,
  run answer o printed w = Some (a, m, printed1, w1) -> P a.
Proof.
  induction o as [a' m'|[regs|ps] m' k IH|]; cbn [ensures run]; intros Ho printed w a m printed1 w1.
  - by intros [= <- _ _ _].
  - destruct (answer regs m' w) as [[[v m2] w2]|]; [|done]. cbn. by apply IH.
  - by apply IH.
  - done.
Qed.

(** [returns P o]: whatever the answers, [o] never gets stuck and its result
    satisfies [P]. *)
Fixpoint returns {A} (P : A -> Prop) (o : outcome A) : Prop :=
  match o with
  | Done a _ => P a
  | Ask _ _ k => forall v m, returns P (k v m)
  | Stuck => False
  end.

Lemma returns_bind {A B} (P : A -> Prop) (Q : B -> Prop) (p : user A) (f : A -> user B) m :
  returns P (p m) -> (forall a m, P a -> returns Q (f a m)) -> returns Q ((p ≫= f) m).
Proof.
  intros Ho Hf. change ((p ≫= f) m) with (then_ (p m) f).
  induction (p m) as [a m'|c m' k IH|]; cbn [then_ returns] in *; [by apply Hf| |done].
  intros v m1. by apply IH.
Qed.

Lemma returns_option {A B} (o : option A) a (f : A -> user B) Q m : o = Some a ->
  returns Q (f a m) -> returns Q ((of_option o ≫= f) m).
Proof. by intros ->. Qed.

Lemma returns_mono {A} (P Q : A -> Prop) (o : outcome A) :
  returns P o -> (forall a, P a -> Q a) -> returns Q o.
Proof. intros Ho H. induction o as [a m|c m k IH|]; cbn [returns] in *; auto. Qed.

Lemma returns_ensures {A} (P Q : A -> Prop) (o : outcome A) :
  ensures P o -> returns Q o -> returns (fun a => P a /\ Q a) o.
Proof. intros H1 H2. induction o as [a m|c m k IH|]; cbn [returns ensures] in *; auto. Qed.

(** Printing returns. *)
Ltac ret_say := eapply returns_bind with (fun _ => True); [intros ? ?; exact I|intros ? ? _].

(** Steps whose result does not matter. *)
Ltac ens_skip := eapply ensures_bind; [apply ensures_true|intros ? ? _].

(** One step of a run: the program's next action. *)
Ltac user_step :=
  cbn [then_ mbind user_bind mret user_ret svc say get_mem set_mem of_option svc_int].

(** ** The kernel as the world *)

Section Kernel.
Context `{MemFill} `{Device W} (rd : ramdisk) (fl : flocals) (e : swi_env).

Definition with_memory (m : mem) (y : system W) : system W :=
  with_kern (with_k_mem m (kern y)) y.

(** A call that answers at once; one that puts the caller to sleep is a matter
    of the scheduler. *)
Definition kernel_call (regs : list Z) (m : mem) (y : system W)
    : option (Z * mem * system W) :=
  '(r, y1) ← trap rd fl e regs (with_memory m y);
  match r with
  | Returned v => Some (v, k_mem (kern y1), y1)
  | Blocked _ => None
  end.
End Kernel.

(** ** start.c *)

(** What [_start] does with [main]. *)
Definition start (rs : list Z) (main : user Z) : user Z :=
  result ← main; svc_int (libc_exit rs result).
