(* ===== verification/Vlibc.v ===== *)
(** * The C library: div.c, random.c, error.c, time.c, stdio.c, tty.c, system.c
      and the calls of printf.c under userspace/vlibc

    The string routines are in [CString], [memset] in [ArmMemset], the formatter
    in [Printk] and the stubs of the system calls in [Syscalls].  [frame] is the
    address of a routine's local object, [rs] what the registers a stub does not
    set hold. *)

From stdpp Require Import base list numbers.
From Stdlib Require Import ZArith Lia Znumtheory.
From Stdlib Require String.
From S2P Require Import Prelude CString Romfs Mmio Gpio Process Sched Serial Console Files Printk Interrupts Syscalls User.
Import String.StringSyntax.

(** ** div.c *)

(** The loop adds [divisor] to a word until it is past [dividend]. *)
Fixpoint uidiv_loop (fuel : nat) (dividend divisor q new_d : Z) : option Z :=
  match fuel with
  | O => None
  | S f =>
      if dividend <? new_d then Some q
      else uidiv_loop f dividend divisor (u32 (q + 1)) (u32 (new_d + divisor))
  end.

Definition aeabi_uidiv (fuel : nat) (dividend divisor : Z) : user Z :=
  if divisor =? 0 then say (lits "Division by zero!" ++ [nl]) ;; mret 0
  else of_option (uidiv_loop fuel dividend divisor 0 divisor).

Definition aeabi_idivmod (fuel : nat) (dividend divisor : Z) : user Z :=
  q ← aeabi_uidiv fuel (u32 dividend) (u32 divisor);
  mret (s32 (u32 (dividend - u32 (q * divisor)))).

(** ** random.c *)

Record rng := Rng { r_x : Z; r_w : Z; r_s : Z }.

Definition rng_start : rng := Rng 0 0 0xDA1CE2A9.

Definition rand (g : rng) : Z * rng :=
  let x := u32 (r_x g * r_x g) in
  let w := u32 (r_w g + r_s g) in
  let x := u32 (x + w) in
  let x := Z.lor (Z.shiftr x 16) (u32 (Z.shiftl x 16)) in
  (u16 x, Rng x w (r_s g)).

Definition srand (seed : Z) (g : rng) : rng :=
  let g := Rng (r_x g) (r_w g) (Z.lor (Z.lor (Z.land (r_s g) 0xffff0000) (u16 seed)) 1) in
  let g := snd (rand g) in
  let g := snd (rand g) in
  let g := snd (rand g) in
  snd (rand g).

(** ** error.c *)

Definition MAX_ERRNO : Z := 40.

Definition error_none : String.string := "No error"%string.
Definition error_enoent : String.string := "File not found"%string.
Definition error_ebadf : String.string := "Bad file descriptor"%string.
Definition error_enomem : String.string := "Not enougn memory"%string.
Definition error_enodev : String.string := "No such device"%string.
Definition error_enotdir : String.string := "Not a directory"%string.
Definition error_enfile : String.string := "Not enough fds"%string.
Definition error_erange : String.string := "Result out of range"%string.
Definition error_enosys : String.string := "No such system call"%string.
Definition error_generic : String.string := "Unknown error"%string.

Definition error_table : list String.string :=
  [ error_none; error_generic; error_enoent; error_generic; error_generic; error_generic;
    error_generic; error_generic; error_generic; error_ebadf; error_generic; error_generic;
    error_enomem; error_generic; error_generic; error_generic; error_generic; error_generic;
    error_generic; error_enodev; error_enotdir; error_generic; error_generic; error_enfile;
    error_generic; error_generic; error_generic; error_generic; error_generic; error_generic;
    error_generic; error_generic; error_generic; error_erange; error_generic; error_generic;
    error_generic; error_generic; error_generic; error_enosys ].

(** A negative index is outside the table. *)
Definition strerror (errnum : Z) : option String.string :=
  let errnum := if errnum <? 0 then s32 (- errnum) else errnum in
  if MAX_ERRNO <=? errnum then Some error_generic
  else if errnum <? 0 then None
  else error_table !! Z.to_nat errnum.

(** ** time.c *)

Section Time.
Context (rs : list Z) (frame : Z).

(** [nanosleep] of a [timespec] in the frame. *)
Definition sleep_for (tv_sec tv_nsec : Z) : user Z :=
  m ← get_mem;
  set_mem (store32 (store32 m frame tv_sec) (frame + 4) tv_nsec) ;;
  svc_int (libc_nanosleep rs frame 0) ;;
  mret 0.

Definition sleep (seconds : Z) : user Z := sleep_for seconds 0.

Definition usleep (usecs : Z) : user Z :=
  let tv_sec := usecs / 1000000 in
  sleep_for tv_sec (u32 (u32 (usecs - u32 (tv_sec * 1000000)) * 1000)).

Definition time (t : Z) : user Z :=
  our_time ← svc_int (libc_sys_time rs);
  m ← get_mem;
  set_mem (if negb (t =? 0) then store32 m t our_time else m) ;;
  mret our_time.
End Time.

(** Days, hours, minutes and seconds; the divisions of C round to 0. *)
Definition time_parts (time : Z) : Z * Z * Z * Z :=
  let days := if 24 * 60 * 60 <? time then Z.quot time (24 * 60 * 60) else 0 in
  let time := if 24 * 60 * 60 <? time then time - days * 24 * 60 * 60 else time in
  let hours := if 60 * 60 <? time then Z.quot time (60 * 60) else 0 in
  let time := if 60 * 60 <? time then time - hours * 60 * 60 else time in
  let minutes := if 60 <? time then Z.quot time 60 else 0 in
  let time := if 60 <? time then time - minutes * 60 else time in
  (days, hours, minutes, time).

(** The four formats, with their arguments. *)
Definition dhms (days hours minutes seconds : Z) : list piece :=
  [dec days] ++ lits "d " ++ [dec hours] ++ lits "h " ++ [dec minutes] ++ lits "m " ++
  [dec seconds] ++ lits "s".
Definition hms (hours minutes seconds : Z) : list piece :=
  [dec hours] ++ lits "h " ++ [dec minutes] ++ lits "m " ++ [dec seconds] ++ lits "s".
Definition ms (minutes seconds : Z) : list piece :=
  [dec minutes] ++ lits "m " ++ [dec seconds] ++ lits "s".
Definition secs (seconds : Z) : list piece := [dec seconds] ++ lits "s".

Definition pretty (time : Z) : list piece :=
  let '(days, hours, minutes, seconds) := time_parts time in
  if negb (days =? 0) then dhms days hours minutes seconds
  else if negb (hours =? 0) then hms hours minutes seconds
  else if negb (minutes =? 0) then ms minutes seconds
  else secs seconds.

(** [fmt4] to [fmt1] are the addresses of the formats. *)
Definition time_pretty (fmt4 fmt3 fmt2 fmt1 : Z) (int_buffer : mem) (fuel : nat) (m : mem)
    (time buffer size : Z) : option (Z * mem) :=
  let m1 := upd m buffer 0 in
  let '(days, hours, minutes, seconds) := time_parts time in
  '(_, m2) ←
    (if negb (days =? 0) then
       vlibc_sprintf int_buffer fuel m1 buffer fmt4 [Word days; Word hours; Word minutes; Word seconds]
     else if negb (hours =? 0) then
       vlibc_sprintf int_buffer fuel m1 buffer fmt3 [Word hours; Word minutes; Word seconds]
     else if negb (minutes =? 0) then
       vlibc_sprintf int_buffer fuel m1 buffer fmt2 [Word minutes; Word seconds]
     else vlibc_sprintf int_buffer fuel m1 buffer fmt1 [Word seconds]);
  Some (buffer, m2).

(** ** stdio.c, tty.c, system.c, printf.c *)

Definition TCSETS : Z := 0x5402.
Definition TCGETS : Z := 0x5401.

Section Calls.
Context (rs : list Z) (frame : Z).

(** The [int] whose first byte is written or read lies in the frame. *)
Definition putchar (c : Z) : user Z :=
  m ← get_mem; set_mem (store32 m frame c) ;; svc_int (libc_write rs 1 frame 1).

Definition getchar : user Z :=
  m ← get_mem; set_mem (store32 m frame 0) ;;
  svc_int (libc_read rs 0 frame 1) ;;
  m ← get_mem; mret (s32 (load32 m frame)).

Definition tcgetattr (fd termios_p : Z) : user Z := svc_int (libc_ioctl3 rs fd TCGETS termios_p).

Definition tcsetattr (fd optional_actions termios_p : Z) : user Z :=
  svc_int (libc_ioctl3 rs fd TCSETS termios_p).

Definition reboot : user Z := svc_int (libc_sys_reboot rs).

(** The 256 bytes of [buffer] lie at [frame]. *)
Definition printf (int_buffer : mem) (fuel : nat) (string : Z) (ap : list varg) : user Z :=
  m ← get_mem;
  '(result, m1) ← of_option (vlibc_vsprintf frame int_buffer fuel m string ap);
  set_mem m1 ;;
  svc_int (libc_write rs 1 frame result) ;;
  mret result.
End Calls.

(** The flag words of a [struct termios]. *)
Definition IGNBRK : Z := 1.
Definition BRKINT : Z := 2.
Definition PARMRK : Z := 8.
Definition ISTRIP : Z := 32.
Definition INLCR : Z := 64.
Definition IGNCR : Z := 128.
Definition ICRNL : Z := 256.
Definition IXON : Z := 1024.
Definition OPOST : Z := 1.
Definition ISIG : Z := 1.
Definition ICANON : Z := 2.
Definition ECHO : Z := 8.
Definition ECHONL : Z := 64.
Definition IEXTEN : Z := 32768.
Definition CSIZE : Z := 48.
Definition CS8 : Z := 48.
Definition PARENB : Z := 256.

Definition or_all (l : list Z) (x : Z) : Z := fold_left Z.lor l x.

Definition cfmakeraw (m : mem) (termios_p : Z) : mem :=
  let c_iflag := termios_p in let c_oflag := termios_p + 4 in
  let c_cflag := termios_p + 8 in let c_lflag := termios_p + 12 in
  let m := store32 m c_iflag (Z.land (load32 m c_iflag)
    (not32 (or_all [BRKINT; PARMRK; ISTRIP; INLCR; IGNCR; ICRNL; IXON] IGNBRK))) in
  let m := store32 m c_oflag (Z.land (load32 m c_oflag) (not32 OPOST)) in
  let m := store32 m c_lflag (Z.land (load32 m c_lflag)
    (not32 (or_all [ECHONL; ICANON; ISIG; IEXTEN] ECHO))) in
  let m := store32 m c_cflag (Z.land (load32 m c_cflag) (not32 (or_all [PARENB] CSIZE))) in
  store32 m c_cflag (Z.lor (load32 m c_cflag) CS8).

(** ** Division *)

Lemma uidiv_loop_ok dividend divisor : 0 < divisor -> 0 <= dividend ->
  dividend + divisor < 2 ^ 32 ->
  forall fuel q, 0 <= q <= dividend / divisor -> dividend / divisor < q + Z.of_nat fuel ->
  uidiv_loop fuel dividend divisor q (divisor * (q + 1)) = Some (dividend / divisor).
Proof.
  intros Hd H0 Hs. induction fuel as [|f IH]; intros q Hq Hf; [lia|]. cbn [uidiv_loop].
  pose proof (Z.mul_div_le dividend divisor Hd).
  pose proof (Z.mul_succ_div_gt dividend divisor Hd).
  bcase.
  - f_equal. nia.
  - assert (q < dividend / divisor) by nia.
    rewrite (u32_id (q + 1)) by nia.
    replace (divisor * (q + 1) + divisor) with (divisor * (q + 1 + 1)) by lia.
    rewrite u32_id by nia. apply IH; lia.
Qed.

Lemma uidiv_ok fuel dividend divisor m : 0 < divisor -> 0 <= dividend ->
  dividend + divisor < 2 ^ 32 -> dividend / divisor < Z.of_nat fuel ->
  aeabi_uidiv fuel dividend divisor m = Done (dividend / divisor) m.
Proof.
  intros Hd H0 Hs Hf. unfold aeabi_uidiv. rewrite (proj2 (Z.eqb_neq divisor 0)) by lia.
  replace divisor with (divisor * (0 + 1)) at 2 by lia.
  rewrite uidiv_loop_ok; [done|lia..| |lia].
  pose proof (Z.div_pos dividend divisor). lia.
Qed.

(** The division routines of the library end and are the integer division
    of C, when the dividend and the divisor do not add up to 2^32 or more: the
    quotient and, for numbers that are not negative, the remainder. *)
Theorem division_exact fuel dividend divisor m :
  0 < divisor -> 0 <= dividend -> dividend + divisor < 2 ^ 32 ->
  dividend / divisor < Z.of_nat fuel ->
  aeabi_uidiv fuel dividend divisor m = Done (dividend / divisor) m /\
  (dividend < 2 ^ 31 -> divisor < 2 ^ 31 ->
   aeabi_idivmod fuel dividend divisor m = Done (dividend mod divisor) m).
Proof.
  intros Hd H0 Hs Hf. split; [by apply uidiv_ok|]. intros Hn Hv. unfold aeabi_idivmod.
  rewrite !u32_id by lia. unfold mbind, user_bind. rewrite uidiv_ok by done. cbn [then_].
  pose proof (Z.mul_div_le dividend divisor Hd).
  pose proof (Z.div_pos dividend divisor H0 Hd).
  pose proof (Z.mod_pos_bound dividend divisor Hd).
  pose proof (Z.div_mod dividend divisor ltac:(lia)).
  unfold mret, user_ret. f_equal. rewrite (u32_id (_ * _)) by nia.
  rewrite (u32_id (_ - _)) by nia. rewrite s32_id by nia. lia.
Qed.

(** Any word is at most 2^32-1: the loop does not end. *)
Lemma uidiv_endless fuel divisor : 0 <= divisor < 2 ^ 32 -> forall q,
  uidiv_loop fuel (2 ^ 32 - 1) divisor q divisor = None.
Proof.
  intros Hd.
  enough (forall new_d q, 0 <= new_d < 2 ^ 32 ->
    uidiv_loop fuel (2 ^ 32 - 1) divisor q new_d = None) as H by (intros; by apply H).
  induction fuel as [|f IH]; intros new_d q Hn; [done|]. cbn [uidiv_loop].
  rewrite (proj2 (Z.ltb_ge _ _)) by lia. apply IH, u32_range.
Qed.

(** ** The random number generator *)

Definition draws (n : nat) (g : rng) : rng := Nat.iter n (fun g => snd (rand g)) g.

Lemma draws_weyl n g : 0 <= r_w g < 2 ^ 32 ->
  r_s (draws n g) = r_s g /\ r_w (draws n g) = u32 (r_w g + Z.of_nat n * r_s g).
Proof.
  intros Hw. induction n as [|n IH].
  - cbn. rewrite Z.add_0_r, u32_id; done.
  - change (draws (S n) g) with (snd (rand (draws n g))). destruct IH as [Es Ew]. unfold rand. cbn [snd r_s r_w]. split; [done|].
    rewrite Es, Ew. unfold u32. rewrite Zplus_mod_idemp_l. f_equal. lia.
Qed.

Lemma odd_multiple s n : Z.odd s = true -> 0 < n < 2 ^ 32 -> (n * s) mod 2 ^ 32 <> 0.
Proof.
  intros Hs Hn Hm. apply Z.mod_divide in Hm; [|lia].
  assert (Hr : Z.gcd (2 ^ 32) s = 1).
  { apply Z.coprime_pow_l; [lia|]. apply Z.bezout_1_gcd.
    exists (- (s / 2)), 1. apply Z.odd_spec in Hs as [k ->].
    Z.div_mod_to_equations. lia. }
  rewrite Z.mul_comm in Hm. apply (Z.gauss _ _ _ Hm), Z.divide_pos_le in Hr; lia.
Qed.

Lemma rand_fields g : r_s (snd (rand g)) = r_s g /\ 0 <= r_w (snd (rand g)) < 2 ^ 32.
Proof. split; [done|apply u32_range]. Qed.

Lemma srand_fields seed g :
  Z.odd (r_s (srand seed g)) = true /\ 0 <= r_w (srand seed g) < 2 ^ 32.
Proof.
  unfold srand. split; [|apply rand_fields].
  repeat match goal with |- context [r_s (snd (rand ?g))] =>
    rewrite (proj1 (rand_fields g)) end.
  cbn [r_s]. rewrite <- Z.bit0_odd, Z.lor_spec. apply orb_true_r.
Qed.

Lemma draws_distinct h i j : Z.odd (r_s h) = true -> 0 <= r_w h < 2 ^ 32 ->
  (i < j)%nat -> Z.of_nat j < Z.of_nat i + 2 ^ 32 -> draws i h <> draws j h.
Proof.
  intros Hs Hw Hij Hj E.
  destruct (draws_weyl i h Hw) as [_ Ei]. destruct (draws_weyl j h Hw) as [_ Ej].
  rewrite E, Ej in Ei. unfold u32 in Ei. apply Z.cong_iff_0 in Ei.
  apply (odd_multiple (r_s h) (Z.of_nat j - Z.of_nat i)); [done|lia|].
  rewrite <- Ei. f_equal. lia.
Qed.

(** Whatever the seed, the generator's state does not repeat in any 2^32
    successive draws: the Weyl sequence runs through all words before it comes
    back. *)
Theorem random_period seed g i j :
  (i < j)%nat -> Z.of_nat j < Z.of_nat i + 2 ^ 32 ->
  draws i (srand seed g) <> draws j (srand seed g).
Proof. destruct (srand_fields seed g) as [Hs Hw]. by apply draws_distinct. Qed.

(** ** Errors *)

(** Every [errno] but the least integer has a text. *)
Lemma strerror_total errnum : - 2 ^ 31 < errnum < 2 ^ 31 -> is_Some (strerror errnum).
Proof.
  intros He. unfold strerror. set (n := if _ <? 0 then _ else _).
  assert (0 <= n) by (unfold n; bcase; [rewrite s32_id|]; lia).
  bcase; [done|]. rewrite (proj2 (Z.ltb_ge n 0)) by done.
  unfold MAX_ERRNO in *. apply lookup_lt_is_Some. cbn. lia.
Qed.

(** The library's ENOSYS is 38, the entry of the table for it is 39. *)
Lemma strerror_enosys : strerror ENOSYS = Some error_generic /\ strerror 39 = Some error_enosys.
Proof. done. Qed.

(** -2^31 is read before the table. *)
Lemma strerror_least : strerror (- 2 ^ 31) = None.
Proof. done. Qed.

(** ** Formatting *)

Lemma numeral_nonzero n digit base x : (forall x, digit x <> 0) ->
  Forall (fun c => c <> 0) (numeral_ n digit base x).
Proof.
  intros Hd. revert x. induction n as [|n IH]; intros x; cbn [numeral_]; [done|].
  bcase; [by repeat constructor|]. apply Forall_app. by repeat constructor.
Qed.

Lemma field_nonzero pad sign digits : Forall (fun c => c <> 0) sign ->
  Forall (fun c => c <> 0) digits -> Forall (fun c => c <> 0) (field pad sign digits).
Proof.
  intros Hs Hd. unfold field. repeat (apply Forall_app; split); try done.
  set (n := Z.to_nat _). clearbody n. induction n as [|n IH]; [done|]. constructor; [|done].
  unfold pad_value_of. by repeat case_match.
Qed.

Definition no_char (p : piece) : Prop := match p with Conv _ (Chr _) => False | _ => True end.

Lemma text_nonzero buffer m p : piece_ok buffer m p -> no_char p ->
  Forall (fun c => c <> 0) (piece_text p).
Proof.
  assert (H10 : forall x, digit10 x <> 0)
    by (intros x; unfold digit10; pose proof (Z.mod_pos_bound x 10); lia).
  assert (H16 : forall x, digit16 x <> 0)
    by (intros x; unfold digit16; pose proof (Z.mod_pos_bound x 16); bcase; lia).
  destruct p as [c|pad [i x|p x|x|x| |s l]]; cbn [piece_ok no_char piece_text]; intros Hp Hc.
  - constructor; [lia|done].
  - bcase; apply field_nonzero; try apply numeral_nonzero; try done. by repeat constructor.
  - apply field_nonzero; [done|]. by apply numeral_nonzero.
  - by apply numeral_nonzero.
  - done.
  - by repeat constructor.
  - apply Hp.
Qed.

Lemma rendered_nonzero buffer m ps : Forall (piece_ok buffer m) ps -> Forall no_char ps ->
  Forall (fun c => c <> 0) (rendered ps).
Proof.
  intros Hp Hc. induction Hp as [|p ps Hp Hps IH]; [done|].
  apply Forall_cons_1 in Hc as [? ?]. cbn [rendered flat_map]. apply Forall_app.
  split; [by eapply text_nonzero|by apply IH].
Qed.

(** [sprintf] leaves the text as a string. *)
Lemma vlibc_sprintf_ok int_buffer fuel m string fmt ps :
  Forall (piece_ok string m) ps -> Forall no_char ps -> cstring (at_ m fmt) (spelled ps) ->
  apart string MAX_PRINT_SIZE fmt (Z.of_nat (length (spelled ps)) + 1) ->
  (length (rendered ps) < 255)%nat -> (280 + length (spelled ps) < fuel)%nat ->
  exists m', vlibc_sprintf int_buffer fuel m string fmt (args ps)
      = Some (Z.of_nat (length (rendered ps)), m') /\
    cstring (at_ m' string) (rendered ps) /\
    modifies [(string, Z.of_nat (length (rendered ps)) + 1)] m m'.
Proof.
  intros Hp Hc Hs Ha Hl Hf. unfold vlibc_sprintf. rewrite vlibc_vsprintf_same.
  destruct (vsprintf_ok string int_buffer fuel m fmt ps Hp Hs Ha Hl Hf) as (m' & E & Hb & Ho).
  bind_with E. eexists. split; [done|]. split.
  - apply cstring_intro; [by eapply rendered_nonzero| |].
    + intros i Hi. unfold at_. rewrite upd_ne by lia. by apply Hb.
    + unfold at_. apply upd_eq.
  - apply modifies_same_outside. intros x Hx. rewrite upd_ne by lia. apply Ho. lia.
Qed.

(** ** time_pretty *)

(** The parts add up to the time; an exact day, hour or minute counts as 24
    hours, 60 minutes or 60 seconds. *)
Lemma time_parts_ok time : 0 <= time < 2 ^ 31 ->
  let '(days, hours, minutes, seconds) := time_parts time in
  time = ((days * 24 + hours) * 60 + minutes) * 60 + seconds /\
  0 <= days /\ 0 <= hours <= 24 /\ 0 <= minutes <= 60 /\ 0 <= seconds <= 60.
Proof.
  intros Ht. unfold time_parts. cbv beta zeta iota.
  rewrite !Z.quot_div_nonneg by (repeat bcase; Z.div_mod_to_equations; lia).
  repeat bcase; Z.div_mod_to_equations; lia.
Qed.

(** Pieces that print without looking at the memory, checked by computation. *)
Definition simple (p : piece) : bool :=
  match p with
  | Lit c => (0 <? c) && (c <? 256) && negb (c =? 37)
  | Conv [] (Dec _ _) => true
  | _ => false
  end.

Lemma simple_ok buffer m ps : forallb simple ps = true ->
  Forall (piece_ok buffer m) ps /\ Forall no_char ps /\
  (length (rendered ps) <= 21 * length ps)%nat.
Proof.
  induction ps as [|p ps IH]; cbn [forallb]; intros H; [by repeat split|]. b2p.
  destruct (IH H0) as (Hp & Hc & Hl). cbn [rendered flat_map length]. rewrite length_app.
  fold (rendered ps).
  destruct p as [c|[|? ?] [i x|? ?|?|?| |? ?]]; cbn [simple] in H; try discriminate; b2p.
  - split; [constructor; [split; [lia|done]|done]|]. split; [by constructor|]. cbn. lia.
  - split; [by repeat constructor|]. split; [by constructor|].
    enough (length (piece_text (Conv [] (Dec i x))) <= 21)%nat by lia. cbn [piece_text].
    unfold field. change (pad_len_of []) with 0.
    pose proof (numeral_length 20 digit10 10 (u32 x)).
    pose proof (numeral_length 20 digit10 10 (2 ^ 32 - u32 x)). unfold numeral.
    bcase; rewrite !length_app, repeat_length; cbn [length]; lia.
Qed.

(** Formats at the addresses of [l], away from the [n] bytes at [buffer]. *)
Definition formats_at (m : mem) (buffer n : Z) (l : list (Z * list piece)) : Prop :=
  Forall (fun '(f, ps) => cstring (at_ m f) (spelled ps) /\
    apart buffer n f (Z.of_nat (length (spelled ps)) + 1)) l.

Lemma formats_modifies m m' buffer n l :
  modifies [(buffer, n)] m m' -> formats_at m buffer n l -> formats_at m' buffer n l.
Proof.
  intros Hm Hl. eapply List.Forall_impl; [|exact Hl]. intros [f ps] [Hc Ha]. split; [|done].
  eapply cstring_modifies; [exact Hm| |done]. constructor; [|done]. unfold apart in *. cbn. lia.
Qed.

Lemma sprintf_simple int_buffer fuel m string fmt ps :
  forallb simple ps = true -> (length ps < 12)%nat ->
  cstring (at_ m fmt) (spelled ps) ->
  apart string MAX_PRINT_SIZE fmt (Z.of_nat (length (spelled ps)) + 1) ->
  (280 + length (spelled ps) < fuel)%nat ->
  exists n m', vlibc_sprintf int_buffer fuel m string fmt (args ps) = Some (n, m') /\
    cstring (at_ m' string) (rendered ps) /\ modifies [(string, MAX_PRINT_SIZE)] m m'.
Proof.
  intros Hp Hn Hs Ha Hf. destruct (simple_ok string m ps Hp) as (Hok & Hc & Hl).
  destruct (vlibc_sprintf_ok int_buffer fuel m string fmt ps) as (m' & E & Ht & Hm);
    try done; [lia|]. eexists _, m'. split; [exact E|]. split; [done|].
  eapply modifies_sub; [exact Hm|]. unfold MAX_PRINT_SIZE. regions.
Qed.

(** [time_pretty] leaves in the buffer, as a string, the days, hours,
    minutes and seconds of the time, without the leading parts that are 0; the
    parts add up to the time, and no byte outside the buffer changes.  The
    parts are in their usual ranges except that an exact day, hour or minute
    stays 24 hours, 60 minutes or 60 seconds. *)
Theorem time_pretty_text fmt4 fmt3 fmt2 fmt1 int_buffer fuel m time buffer size :
  0 <= time < 2 ^ 31 -> (300 < fuel)%nat ->
  formats_at m buffer MAX_PRINT_SIZE
    [(fmt4, dhms 0 0 0 0); (fmt3, hms 0 0 0); (fmt2, ms 0 0); (fmt1, secs 0)] ->
  exists m', time_pretty fmt4 fmt3 fmt2 fmt1 int_buffer fuel m time buffer size
      = Some (buffer, m') /\
    cstring (at_ m' buffer) (rendered (pretty time)) /\
    modifies [(buffer, MAX_PRINT_SIZE)] m m' /\
    let '(days, hours, minutes, seconds) := time_parts time in
    time = ((days * 24 + hours) * 60 + minutes) * 60 + seconds /\
    0 <= days /\ 0 <= hours <= 24 /\ 0 <= minutes <= 60 /\ 0 <= seconds <= 60.
Proof.
  intros Ht Hf Hl. unfold time_pretty, pretty.
  pose proof (time_parts_ok time Ht) as Hp.
  destruct (time_parts time) as [[[days hours] minutes] seconds].
  assert (M0 : modifies [(buffer, MAX_PRINT_SIZE)] m (upd m buffer 0))
    by (eapply modifies_sub; [apply modifies_upd|unfold MAX_PRINT_SIZE; regions]).
  apply (formats_modifies _ _ _ _ _ M0) in Hl. set (m1 := upd m buffer 0) in *.
  enough (exists n m', (if negb (days =? 0)
      then vlibc_sprintf int_buffer fuel m1 buffer fmt4 [Word days; Word hours; Word minutes; Word seconds]
      else if negb (hours =? 0)
      then vlibc_sprintf int_buffer fuel m1 buffer fmt3 [Word hours; Word minutes; Word seconds]
      else if negb (minutes =? 0)
      then vlibc_sprintf int_buffer fuel m1 buffer fmt2 [Word minutes; Word seconds]
      else vlibc_sprintf int_buffer fuel m1 buffer fmt1 [Word seconds]) = Some (n, m') /\
    cstring (at_ m' buffer) (rendered (if negb (days =? 0) then dhms days hours minutes seconds
      else if negb (hours =? 0) then hms hours minutes seconds
      else if negb (minutes =? 0) then ms minutes seconds else secs seconds)) /\
    modifies [(buffer, MAX_PRINT_SIZE)] m1 m') as (n & m' & E & Hc & Hm).
  { exists m'. bind_with E. split; [done|]. split; [done|]. split; [|done].
    by transitivity m1. }
  apply Forall_cons_1 in Hl as [[C4 A4] Hl]. apply Forall_cons_1 in Hl as [[C3 A3] Hl].
  apply Forall_cons_1 in Hl as [[C2 A2] Hl]. apply Forall_cons_1 in Hl as [[C1 A1] _].
  repeat case_match.
  - apply (sprintf_simple int_buffer fuel m1 buffer fmt4 (dhms days hours minutes seconds));
      try done; cbn; lia.
  - apply (sprintf_simple int_buffer fuel m1 buffer fmt3 (hms hours minutes seconds));
      try done; cbn; lia.
  - apply (sprintf_simple int_buffer fuel m1 buffer fmt2 (ms minutes seconds));
      try done; cbn; lia.
  - apply (sprintf_simple int_buffer fuel m1 buffer fmt1 (secs seconds)); try done; cbn; lia.
Qed.

(** ** Sleeping *)

(** [usleep] asks the kernel for exactly its microseconds: the request is in
    range and loses nothing for any word. *)
Lemma usleep_asks rs frame usecs m : 0 <= usecs < 2 ^ 32 ->
  exists m' k, usleep rs frame usecs m = Ask (Svc (libc_nanosleep rs frame 0)) m' k /\
    modifies [(frame, 8)] m m' /\
    0 <= load32 m' (frame + 4) < 10 ^ 9 /\
    load32 m' frame * 10 ^ 9 + load32 m' (frame + 4) = usecs * 1000.
Proof.
  intros Hu. eexists _, _. split; [reflexivity|].
  assert (E : u32 (u32 (usecs - u32 (usecs / 1000000 * 1000000)) * 1000)
              = usecs mod 1000000 * 1000).
  { pose proof (Z.mod_pos_bound usecs 1000000 ltac:(lia)).
    rewrite (u32_id (usecs / 1000000 * 1000000)) by (Z.div_mod_to_equations; lia).
    rewrite (u32_id (usecs - _)) by (Z.div_mod_to_equations; lia).
    rewrite u32_id by (Z.div_mod_to_equations; lia). Z.div_mod_to_equations. lia. }
  rewrite E. split.
  { transitivity (store32 m frame (usecs / 1000000)); apply modifies_store32_in; lia. }
  pose proof (Z.mod_pos_bound usecs 1000000 ltac:(lia)).
  pose proof (Z.div_mod usecs 1000000 ltac:(lia)).
  rewrite load32_store32, load32_store32_ne, load32_store32 by lia.
  rewrite !u32_id by (Z.div_mod_to_equations; lia). lia.
Qed.

(** ** The terminal *)

Section Terminal.
Context `{MemFill} `{Device W} (rd : ramdisk) (fl : flocals) (e : swi_env).
Context `{!Uart (W := W) (se_io_base e)}.
Context (rs : list Z) (Hrs : length rs = 15%nat).

(** The kernel's answer to [write] and [read] on the console. *)
Lemma kernel_call_write a n m (y : system W) : 0 <= a < 2 ^ 32 -> 0 <= n < 2 ^ 31 ->
  initialized (se_serial e) <> 0 -> driver (se_serial e) <> no_uart ->
  (depth (se_io_base e) < se_wf e)%nat ->
  (forall i, 0 <= i < n -> 0 <= m (a + i) < 256) ->
  exists w, kernel_call rd fl e (libc_write rs 1 a n) m y
      = Some (n, m, with_board w (with_memory m y)) /\
    tx (se_io_base e) w = tx (se_io_base e) (board y) ++ crlf (bytes_of (at_ m a) (Z.to_nat n)) /\
    rx (se_io_base e) w = rx (se_io_base e) (board y).
Proof.
  intros Ha Hn Hi Hd Hwf Hb.
  destruct (serial_write_ok (se_io_base e) (se_wf e) (se_serial e) (board y) m a n)
    as (w & E & T & R); try done; [lia|]. exists w. split; [|done].
  unfold kernel_call.
  replace (trap rd fl e (libc_write rs 1 a n) (with_memory m y))
    with (do_write e (with_memory m y) 1 (u32 a) (u32 n)) by (symmetry; revert rs Hrs; trap_eq).
  unfold do_write, write, console_write. rewrite !u32_id by lia.
  cbn [Z.eqb Pos.eqb orb]. change (board (with_memory m y)) with (board y).
  change (k_mem (kern (with_memory m y))) with m. rewrite E.
  cbn [mbind option_bind]. unfold returned_. cbn [mbind option_bind].
  rewrite u32_s32, (u32_id n) by lia. done.
Qed.
End Terminal.

(** A program's [printf] appears on the terminal: the library formats the
    text into its frame, traps once, and the kernel hands the bytes to the
    transmitter, carriage returns added; the program gets the length of the
    text and finds its memory unchanged outside the frame.  Of the system only
    the port changes. *)
Theorem printf_writes `{MemFill} `{Device W} rd fl e `{!Uart (W := W) (se_io_base e)}
    rs frame int_buffer fuel string ps m printed (y : system W) :
  length rs = 15%nat -> 0 <= frame < 2 ^ 32 ->
  initialized (se_serial e) <> 0 -> driver (se_serial e) <> no_uart ->
  (depth (se_io_base e) < se_wf e)%nat ->
  Forall (piece_ok frame m) ps -> cstring (at_ m string) (spelled ps) ->
  apart frame MAX_PRINT_SIZE string (Z.of_nat (length (spelled ps)) + 1) ->
  (length (rendered ps) < 255)%nat -> (280 + length (spelled ps) < fuel)%nat ->
  exists m' w, run (kernel_call rd fl e) (printf rs frame int_buffer fuel string (args ps) m)
      printed y = Some (Z.of_nat (length (rendered ps)), m', printed,
                        with_board w (with_memory m' y)) /\
    tx (se_io_base e) w = tx (se_io_base e) (board y) ++ crlf (rendered ps) /\
    rx (se_io_base e) w = rx (se_io_base e) (board y) /\
    modifies [(frame, MAX_PRINT_SIZE)] m m'.
Proof.
  intros Hrs Hfr Hi Hd Hwf Hps Hs Ha Hl Hf.
  destruct (vsprintf_ok frame int_buffer fuel m string ps Hps Hs Ha Hl Hf) as (m' & E & Hb & Ho).
  rewrite <- vlibc_vsprintf_same in E.
  destruct (kernel_call_write rd fl e rs Hrs frame (Z.of_nat (length (rendered ps))) m' y)
    as (w & Ew & T & R); try done; try lia.
  { intros i Hi'. specialize (Hb (Z.to_nat i) ltac:(lia)). rewrite Z2Nat.id in Hb by lia.
    rewrite Hb. pose proof (rendered_bytes frame m ps Hps) as HB.
    rewrite List.Forall_forall in HB. apply HB, nth_In. lia. }
  exists m', w. unfold printf. rewrite run_bind. cbn [get_mem run mbind option_bind].
  rewrite E. rewrite run_bind. cbn [of_option run mbind option_bind mret user_ret].
  rewrite run_bind. cbn [set_mem run mbind option_bind].
  rewrite run_bind, run_svc_int, Ew. cbn [mbind option_bind run mret user_ret]. split; [done|].
  rewrite Nat2Z.id in T. rewrite T. split; [|split; [done|]].
  - do 2 f_equal. by apply bytes_of_nth.
  - apply modifies_same_outside. intros x Hx. apply Ho. unfold MAX_PRINT_SIZE in Hx. lia.
Qed.

(** With input waiting [getchar] takes the oldest byte. *)
Lemma getchar_takes `{MemFill} `{Device W} rd fl e rs frame m printed (y : system W) b q :
  length rs = 15%nat -> 0 <= frame < 2 ^ 32 ->
  ring (sys_console (y_sys y)) -> contents (sys_console (y_sys y)) = b :: q ->
  Forall (fun b => 0 <= b < 256) (b :: q) ->
  exists m' y', run (kernel_call rd fl e) (getchar rs frame m) printed y = Some (b, m', printed, y') /\
    ring (sys_console (y_sys y')) /\ contents (sys_console (y_sys y')) = q /\
    board y' = board y /\ modifies [(frame, 4)] m m'.
Proof.
  intros Hrs Hfr R Hc Hb. set (c := sys_console (y_sys y)) in *.
  assert (Hne : (input_buffer_head c =? input_buffer_tail c) = false).
  { destruct (input_buffer_head c =? input_buffer_tail c) eqn:E; [|done].
    apply (empty_iff c R) in E. by rewrite E in Hc. }
  set (m0 := store32 m frame 0).
  pose proof (read_loop_ok 1 c m0 frame R) as HR. rewrite Hc in HR.
  destruct (console_read_loop 1 c m0 frame) as [c' m'] eqn:El.
  destruct (HR Hb) as (R' & C' & B' & M').
  set (y1 := with_console c' (with_kern (with_k_mem m' (kern (with_memory m0 y))) (with_memory m0 y))).
  exists m', y1. split; [|split; [done|]; split; [done|]; split; [done|]].
  - assert (Ek : kernel_call rd fl e (libc_read rs 0 frame 1) m0 y = Some (1, m', y1)).
    { unfold kernel_call.
      replace (trap rd fl e (libc_read rs 0 frame 1) (with_memory m0 y))
        with (do_read rd fl e (with_memory m0 y) 0 (u32 frame) 1)
        by (symmetry; revert rs Hrs; trap_eq).
      unfold do_read, read. cbn [Z.eqb]. unfold console_read.
      change (sys_console (y_sys (with_memory m0 y))) with c. rewrite Hne.
      change (Z.to_nat 1) with 1%nat. change (k_mem (kern (with_memory m0 y))) with m0.
      rewrite u32_id by lia. rewrite El. done. }
    unfold getchar. rewrite run_bind. cbn [get_mem run mbind option_bind]. rewrite run_bind.
    cbn [set_mem run mbind option_bind]. fold m0. rewrite run_bind, run_svc_int, Ek.
    cbn [mbind option_bind]. rewrite run_bind. cbn [mbind option_bind run mret user_ret get_mem].
    do 4 f_equal. specialize (B' 0%nat ltac:(lia)). rewrite Z.add_0_r in B'. cbn in B'.
    assert (E0 : forall i, 1 <= i < 4 -> m' (frame + i) = 0).
    { intros i Hi. rewrite M' by (constructor; [cbn; lia|done]). unfold m0, store32, upd.
      repeat (bcase; [done|]). b2p. lia. }
    unfold load32. rewrite B', !E0 by lia. inversion Hb; subst. rewrite s32_id; lia.
  - transitivity m0; [apply modifies_store32|]. eapply modifies_sub; [exact M'|]. regions.
Qed.

(** ** Runs *)

Lemma division_exact_witness :
  aeabi_uidiv 30 100 7 (fun _ => 0) = Done 14 (fun _ => 0) /\
  (100 < 2 ^ 31 -> 7 < 2 ^ 31 ->
   aeabi_idivmod 30 100 7 (fun _ => 0) = Done 2 (fun _ => 0)).
Proof. apply (division_exact 30 100 7 (fun _ => 0)); [lia|lia|lia|by vm_compute]. Defined.

Lemma random_period_witness : draws 0 (srand 5 rng_start) <> draws 1 (srand 5 rng_start).
Proof. apply (random_period 5 rng_start 0 1); lia. Defined.

(** The formats, one after the other from 500 on. *)
Definition pretty_mem : mem :=
  mem_with (fun _ => 7) 500
    (spelled (dhms 0 0 0 0) ++ [0] ++ spelled (hms 0 0 0) ++ [0] ++
     spelled (ms 0 0) ++ [0] ++ spelled (secs 0) ++ [0]).

Lemma time_pretty_text_witness :
  exists m', time_pretty 500 516 528 536 (fun _ => 0) 400 pretty_mem 93784 1000 256
      = Some (1000, m') /\
    cstring (at_ m' 1000) (text "1d 2h 3m 4s") /\
    modifies [(1000, MAX_PRINT_SIZE)] pretty_mem m' /\
    93784 = ((1 * 24 + 2) * 60 + 3) * 60 + 4 /\
    0 <= 1 /\ 0 <= 2 <= 24 /\ 0 <= 3 <= 60 /\ 0 <= 4 <= 60.
Proof.
  refine (time_pretty_text 500 516 528 536 (fun _ => 0) 400 pretty_mem 93784 1000 256 _ _ _);
    [lia|lia|].
  repeat (apply List.Forall_cons; [split; [apply cstringb_cstring; by vm_compute|right; by vm_compute]|]).
  by apply List.Forall_nil.
Defined.

(** "n=%d" and a line end. *)
Definition hello_pieces : list piece := lits "n=" ++ [dec (-7); nl].
Definition hello_mem : mem := mem_with (fun _ => 7) 500 (spelled hello_pieces ++ [0]).

Lemma printf_writes_witness :
  exists m' w, run (kernel_call demo_disk demo_fl demo_env)
      (printf (repeat 9 15) 1000 (fun _ => 0) 300 500 [Word (-7)] hello_mem) [] demo_system
      = Some (5, m', [], with_board w (with_memory m' demo_system)) /\
    tx 0x20000000 w = tx 0x20000000 (board demo_system) ++ [110; 61; 45; 55; 13; 10] /\
    rx 0x20000000 w = rx 0x20000000 (board demo_system) /\
    modifies [(1000, MAX_PRINT_SIZE)] hello_mem m'.
Proof.
  refine (printf_writes demo_disk demo_fl demo_env (repeat 9 15) 1000 (fun _ => 0) 300 500
    hello_pieces hello_mem [] demo_system _ _ _ _ _ _ _ _ _ _);
    [done|lia|done|done|cbn; lia|apply simple_ok; by vm_compute|apply cstringb_cstring; by vm_compute
    |right; vm_compute; discriminate|vm_compute; lia|vm_compute; lia].
Defined.
