(* ===== verification/Ls.v ===== *)
(** * Listing a directory: userspace/ls.c

    The program runs on the library of [Vlibc] and the monad of [User]; its
    frames have room for the buffer of [getdents] at [buf], a [struct stat] at
    [stat_buf], the one of [list_file_long] at [long_buf] and the names of the
    months at [month_names].  [n] is the fuel of the loops over strings and
    directories.  Debugging output, which is compiled out by [debug=0], is left
    out.  [Directory] states what the listing needs of the kernel; [LsKernel]
    shows that the kernel provides it. *)

From stdpp Require Import base list numbers.
From Stdlib Require Import ZArith Lia.
From Stdlib Require String.
From S2P Require Import Prelude CString Romfs Printk Syscalls User Vlibc.
Import String.StringSyntax.

Definition BUF_SIZE : Z := 1024.

(** ** Dates *)

Definition leap_year (year : Z) : bool :=
  (Z.rem year 4 =? 0) && (negb (Z.rem year 100 =? 0) || (Z.rem year 400 =? 0)).

Definition seconds_in_year (year : Z) : Z :=
  s32 ((365 + Z.b2z (leap_year year)) * 24 * 60 * 60).

Fixpoint year_loop (fuel : nat) (s year : Z) : option (Z * Z) :=
  match fuel with
  | O => None
  | S f => if s <? seconds_in_year year then Some (s, year)
           else year_loop f (s32 (s - seconds_in_year year)) (s32 (year + 1))
  end.

Definition month_days : list Z := [31; 28; 31; 30; 31; 30; 31; 31; 30; 31; 30; 31].

Definition month_name : list (list Z) :=
  [text "Jan"; text "Feb"; text "Mar"; text "Apr"; text "May"; text "Jun";
   text "Jul"; text "Aug"; text "Sep"; text "Oct"; text "Nov"; text "Dec"].

Definition days_in_month (year month : Z) : option Z :=
  days ← month_days !! Z.to_nat month;
  Some (if (month =? 1) && leap_year year then days + 1 else days).

Fixpoint month_loop (fuel : nat) (year s month : Z) : option (Z * Z) :=
  match fuel with
  | O => None
  | S f =>
      days ← days_in_month year month;
      let seconds_in_month := s32 (days * (24 * 60 * 60)) in
      if s <? seconds_in_month then Some (s, month)
      else month_loop f year (s32 (s - seconds_in_month)) (s32 (month + 1))
  end.

(** The loops for the day, the hour and the minute. *)
Fixpoint unit_loop (fuel : nat) (unit s count : Z) : option (Z * Z) :=
  match fuel with
  | O => None
  | S f => if s <? unit then Some (s, count) else unit_loop f unit (s32 (s - unit)) (s32 (count + 1))
  end.

(** Year, month from 0, day from 0, hour, minute, second. *)
Definition civil (fuel : nat) (s : Z) : option (Z * Z * Z * Z * Z * Z) :=
  '(s, year) ← year_loop fuel s 1970;
  '(s, month) ← month_loop fuel year s 0;
  '(s, day) ← unit_loop fuel (24 * 60 * 60) s 0;
  '(s, hour) ← unit_loop fuel (60 * 60) s 0;
  '(s, min) ← unit_loop fuel 60 s 0;
  Some (year, month, day, hour, min, s).

Definition two (x : Z) : piece := Conv [48; 50] (Dec false x).
Definition wide (x : Z) : piece := Conv [50] (Dec false x).

Section Ls.
Context (n : nat) (rs : list Z) (buf stat_buf long_buf month_names : Z).

Definition print_date (s : Z) : user Z :=
  '(year, month, day, hour, min, seconds) ← of_option (civil n s);
  name ← of_option (month_name !! Z.to_nat month);
  say ([wide (s32 (day + 1)); Lit 32; Conv [] (Str (month_names + 4 * month) name); Lit 32; dec year;
        Lit 32; two hour; Lit 58; two min; Lit 58; two seconds]) ;;
  mret 0.

(** ** Permissions and names *)

Definition type_letter (type : Z) : list piece :=
  if type =? 1 then lits "f"
  else if type =? 2 then lits "c"
  else if type =? 4 then lits "d"
  else if type =? 6 then lits "b"
  else if type =? 8 then lits "-"
  else if type =? 10 then lits "l"
  else if type =? 12 then lits "s"
  else lits "?".

Definition permission_letter (temp bit i : Z) (letter : list piece) : user Z :=
  if negb (Z.land temp (Z.shiftl bit i) =? 0) then say letter else say (lits "-").

Definition print_triple (temp i : Z) : user Z :=
  permission_letter temp 4 i (lits "r") ;;
  permission_letter temp 2 i (lits "w") ;;
  permission_letter temp 1 i (lits "x").

(** [mode] is an [int]: the shift keeps the sign. *)
Definition print_permissions (mode : Z) : user Z :=
  say (type_letter (Z.shiftr mode 12)) ;;
  let temp := Z.land mode 0x1ff in
  print_triple temp 6 ;; print_triple temp 3 ;; print_triple temp 0 ;; mret 0.

(** The escape sequence of a colour. *)
Definition escape (s : String.string) : list piece := Lit 27 :: lits s.
Arguments escape s%_string.
Definition LS_EXE_COLOR : list piece := escape "[1;32m".
Definition LS_DIR_COLOR : list piece := escape "[1;34m".
Definition LS_NORMAL_COLOR : list piece := escape "[0m".

(** The colours are arguments of the format, with addresses of their own. *)
Definition color_arg (a : Z) (c : list piece) : piece := Conv [] (Str a (rendered c)).

Context (dir_color exe_color normal_color : Z).

Definition file_color (mode name : Z) (s : list Z) : list piece :=
  if Z.land mode S_IFMT =? S_IFDIR then
    [color_arg dir_color LS_DIR_COLOR; Conv [] (Str name s); color_arg normal_color LS_NORMAL_COLOR]
  else if negb (Z.land mode 1 =? 0) then
    [color_arg exe_color LS_EXE_COLOR; Conv [] (Str name s); color_arg normal_color LS_NORMAL_COLOR]
  else [Conv [] (Str name s)].

Definition print_file_color (mode name : Z) : user Z :=
  m ← get_mem; s ← of_option (string_at n m name); say (file_color mode name s).

Definition ilog10 (value : Z) : Z :=
  if 1000000000 <=? value then 9
  else if 100000000 <=? value then 8
  else if 10000000 <=? value then 7
  else if 1000000 <=? value then 6
  else if 100000 <=? value then 5
  else if 10000 <=? value then 4
  else if 1000 <=? value then 3
  else if 100 <=? value then 2
  else if 10 <=? value then 1
  else 0.

(** [count] blanks, one [printf] each. *)
Fixpoint blanks (count : nat) : user () :=
  match count with
  | O => mret tt
  | S c => say [Lit 32] ;; blanks c
  end.

(** A word of the [struct stat] at [a]. *)
Definition stat_word (a field : Z) : user Z := m ← get_mem; mret (load32 m (a + field)).

Definition st_nlink : Z := 12.
Definition st_uid : Z := 16.
Definition st_gid : Z := 20.
Definition st_mtime : Z := 44.

(** [padding] is an [int]: a negative one prints nothing. *)
Definition list_file_long (name maxsize : Z) : user () :=
  svc_int (libc_stat rs name long_buf) ;;
  mode ← stat_word long_buf st_mode;
  print_permissions (s32 mode) ;;
  nlink ← stat_word long_buf st_nlink;
  uid ← stat_word long_buf st_uid;
  gid ← stat_word long_buf st_gid;
  say ([Lit 32; wide nlink; Lit 32; dec uid; Lit 32; dec gid; Lit 32]) ;;
  size ← stat_word long_buf st_size;
  let padding := ilog10 (u32 maxsize) - ilog10 size in
  blanks (Z.to_nat padding) ;;
  say [dec size; Lit 32] ;;
  mtime ← stat_word long_buf st_mtime;
  print_date (s32 mtime) ;;
  say [Lit 32] ;;
  mode ← stat_word long_buf st_mode;
  print_file_color (s32 mode) name ;;
  say [nl] ;;
  mret tt.

(** ** Directories *)

(** "Error! %s\n" with the text for [errno], which the library leaves 0. *)
Definition print_error (a : Z) : user Z :=
  s ← of_option (strerror 0);
  say (lits "Error! " ++ [Conv [] (Str a (text s)); nl]).

Section Loops.
Context {A : Type} (error : Z) (body : Z -> A -> user A).

(** The records of the buffer, [body] for each. *)
Fixpoint records (fuel : nat) (nread offset : Z) (acc : A) : user A :=
  match fuel with
  | O => stuck
  | S f =>
      if offset <? nread then
        let d := buf + offset in
        acc ← body d acc;
        m ← get_mem;
        records f nread (s32 (offset + load32 m (d + 8))) acc
      else mret acc
  end.

(** [getdents] until it returns 0 or an error. *)
Fixpoint listing (fuel : nat) (fd : Z) (acc : A) : user A :=
  match fuel with
  | O => stuck
  | S f =>
      nread ← svc_int (libc_getdents rs fd buf BUF_SIZE);
      if nread <? 0 then print_error error ;; mret acc
      else if nread =? 0 then mret acc
      else acc ← records n nread 0 acc; listing f fd acc
  end.
End Loops.

(** [O_RDONLY] is 0. *)
Definition open_directory (path error : Z) : user Z :=
  fd ← svc_int (libc_open rs path 0 0);
  (if fd <? 0 then print_error error else mret 0) ;;
  mret fd.

Definition d_name (d : Z) : Z := d + 12.

(** [max_len] is an [int], [st_size] is not: the comparison is unsigned. *)
Definition largest (d max_len : Z) : user Z :=
  svc_int (libc_stat rs (d_name d) stat_buf) ;;
  size ← stat_word stat_buf st_size;
  mret (if u32 max_len <? size then s32 size else max_len).

Definition cannot_access (path : Z) : user Z :=
  m ← get_mem;
  s ← of_option (string_at n m path);
  say (lits "Cannot access " ++ [Conv [] (Str path s)] ++ lits ": no such file or directory!" ++ [nl]) ;;
  mret (-1).

Definition ls_long (error path : Z) : user Z :=
  result ← svc_int (libc_stat rs path stat_buf);
  if result <? 0 then cannot_access path
  else
    mode ← stat_word stat_buf st_mode;
    if negb (Z.land mode S_IFMT =? S_IFDIR) then
      size ← stat_word stat_buf st_size;
      list_file_long path (s32 size) ;; mret 0
    else
      fd ← open_directory path error;
      max_len ← listing error largest n fd 0;
      svc_int (libc_close rs fd) ;;
      fd ← svc_int (libc_open rs path 0 0);
      listing error (fun d _ => list_file_long (d_name d) max_len) n fd tt ;;
      svc_int (libc_close rs fd) ;;
      mret 0.

Definition longest_name (d max_filename_len : Z) : user Z :=
  m ← get_mem;
  len ← of_option (vlibc_strlen n (at_ m (d_name d)));
  mret (if max_filename_len <? len then len else max_filename_len).

(** One name, padded to the width of a column; the counter of columns. *)
Definition print_column (columns colwidth : Z) (d whichcol : Z) : user Z :=
  svc_int (libc_stat rs (d_name d) stat_buf) ;;
  mode ← stat_word stat_buf st_mode;
  print_file_color mode (d_name d) ;;
  let whichcol := u32 (whichcol + 1) in
  m ← get_mem;
  len ← of_option (vlibc_strlen n (at_ m (d_name d)));
  blanks (Z.to_nat (u32 (colwidth - len))) ;;
  if columns <=? whichcol then say [nl] ;; mret 0 else mret whichcol.

Definition ls_plain (error path : Z) : user Z :=
  result ← svc_int (libc_stat rs path stat_buf);
  if result <? 0 then cannot_access path
  else
    mode ← stat_word stat_buf st_mode;
    if negb (Z.land mode S_IFMT =? S_IFDIR) then
      print_file_color mode path ;; say [nl] ;; mret 0
    else
      fd ← open_directory path error;
      max_filename_len ← listing error longest_name n fd 0;
      columns ← aeabi_uidiv 81 80 (u32 (max_filename_len + 1));
      colwidth ← aeabi_uidiv 81 80 columns;
      svc_int (libc_close rs fd) ;;
      fd ← svc_int (libc_open rs path 0 0);
      listing error (print_column columns colwidth) n fd 0 ;;
      svc_int (libc_close rs fd) ;;
      say [nl] ;;
      mret 0.

(** The options: the file to list, or 0, and whether to list long. *)
Fixpoint parse_args (count : nat) (m : mem) (argv i : Z) (file list_long : Z) : Z * Z :=
  match count with
  | O => (file, list_long)
  | S c =>
      let arg := load32 m (argv + 4 * i) in
      if m arg =? 45
      then parse_args c m argv (i + 1) file (if m (arg + 1) =? 108 then 1 else list_long)
      else parse_args c m argv (i + 1) arg list_long
  end.

(** [dot] is the address of ".". *)
Definition main (error dot argc argv : Z) : user Z :=
  m ← get_mem;
  let '(file_to_list, list_long) := parse_args (Z.to_nat (argc - 1)) m argv 1 0 0 in
  let path := if file_to_list =? 0 then dot else file_to_list in
  (if negb (list_long =? 0) then ls_long error path else ls_plain error path) ;;
  mret 0.
End Ls.

(** ** The calendar *)

(** The Gregorian calendar: every fourth year is a leap year, of the centuries
    every fourth; thirty days have September, April, June and November.  Months
    count from 0. *)
Definition gregorian_leap (y : Z) : bool :=
  if y mod 100 =? 0 then y mod 400 =? 0 else y mod 4 =? 0.

Definition month_length (y month : Z) : Z :=
  match month with
  | 1 => if gregorian_leap y then 29 else 28
  | 3 | 5 | 8 | 10 => 30
  | _ => 31
  end.

(** Leap years up to [y]. *)
Definition leaps (y : Z) : Z := y / 4 - y / 100 + y / 400.

(** Days from the start of 1970 to the start of a year, and from the start of a
    year to the start of a month. *)
Definition days_to_year (y : Z) : Z := 365 * (y - 1970) + (leaps (y - 1) - leaps 1969).

Fixpoint days_to_month (year : Z) (month : nat) : Z :=
  match month with
  | O => 0
  | S j => days_to_month year j + month_length year (Z.of_nat j)
  end.

(** The seconds since the start of 1970 of a date; month and day from 0. *)
Definition epoch (year month day hour min seconds : Z) : Z :=
  (((days_to_year year + days_to_month year (Z.to_nat month) + day) * 24 + hour) * 60 + min) * 60
  + seconds.

(** "29 Feb 2024 12:34:56": the first three letters of the month, two digits for
    the clock, the day padded with a blank. *)
Definition month_text (month : Z) : list Z :=
  take 3 (nth (Z.to_nat month)
    [text "January"; text "February"; text "March"; text "April"; text "May"; text "June";
     text "July"; text "August"; text "September"; text "October"; text "November";
     text "December"] []).

Definition digits2 (pad v : Z) : list Z := [if v <? 10 then pad else 48 + v / 10; 48 + v mod 10].

Definition date_text (year month day hour min seconds : Z) : list Z :=
  digits2 32 (day + 1) ++ 32 :: month_text month ++ 32 :: numeral digit10 10 year ++
  32 :: digits2 48 hour ++ 58 :: digits2 48 min ++ 58 :: digits2 48 seconds.

Lemma two_text v : 0 <= v < 100 -> piece_text (two v) = digits2 48 v.
Proof.
  intros Hv. apply (check_below (fun v => bool_decide (piece_text (two v) = digits2 48 v)) 100) in Hv;
    [by apply bool_decide_eq_true in Hv|by vm_compute].
Qed.

Lemma wide_text v : 0 <= v < 100 -> piece_text (wide v) = digits2 32 v.
Proof.
  intros Hv. apply (check_below (fun v => bool_decide (piece_text (wide v) = digits2 32 v)) 100) in Hv;
    [by apply bool_decide_eq_true in Hv|by vm_compute].
Qed.

Lemma dec_text v : 0 <= v < 2 ^ 31 -> piece_text (dec v) = numeral digit10 10 v.
Proof.
  intros Hv. unfold dec. cbn [piece_text]. rewrite u32_id, (proj2 (Z.ltb_lt v (2 ^ 31))) by lia.
  unfold field. change (pad_len_of []) with 0. by replace (Z.to_nat _) with 0%nat by lia.
Qed.

Lemma div_step y k : 0 < k -> y / k - (y - 1) / k = Z.b2z (y mod k =? 0).
Proof.
  intros Hk. destruct (y mod k =? 0) eqn:E; b2p; cbn [Z.b2z].
  - enough ((y - 1) / k = y / k - 1) by lia. symmetry. apply Z.div_unique with (r := k - 1);
      [lia|]. pose proof (Z.div_mod y k). nia.
  - enough ((y - 1) / k = y / k) by lia. symmetry. apply Z.div_unique with (r := y mod k - 1);
      pose proof (Z.mod_pos_bound y k Hk); pose proof (Z.div_mod y k); nia.
Qed.

Lemma leap_year_gregorian y : 0 <= y -> leap_year y = gregorian_leap y.
Proof.
  intros Hy. unfold leap_year, gregorian_leap. rewrite !Z.rem_mod_nonneg by lia.
  assert (y mod 100 = 0 -> y mod 4 = 0) by (Z.div_mod_to_equations; lia).
  assert (y mod 400 = 0 -> y mod 100 = 0) by (Z.div_mod_to_equations; lia).
  destruct (y mod 100 =? 0) eqn:E, (y mod 4 =? 0) eqn:E4, (y mod 400 =? 0) eqn:E400; b2p; try done; lia.
Qed.

Lemma year_step y : 0 <= y -> days_to_year (y + 1) = days_to_year y + 365 + Z.b2z (leap_year y).
Proof.
  intros Hy. unfold days_to_year. replace (y + 1 - 1) with y by lia.
  enough (leaps y - leaps (y - 1) = Z.b2z (leap_year y)) by lia.
  unfold leaps, leap_year. rewrite !Z.rem_mod_nonneg by lia.
  pose proof (div_step y 4). pose proof (div_step y 100). pose proof (div_step y 400).
  assert (y mod 100 = 0 -> y mod 4 = 0) by (Z.div_mod_to_equations; lia).
  assert (y mod 400 = 0 -> y mod 100 = 0) by (Z.div_mod_to_equations; lia).
  destruct (y mod 4 =? 0) eqn:E4, (y mod 100 =? 0) eqn:E100, (y mod 400 =? 0) eqn:E400; b2p;
    cbn [Z.b2z andb orb negb] in *; lia.
Qed.

Lemma seconds_in_year_eq y : seconds_in_year y = (365 + Z.b2z (leap_year y)) * 86400.
Proof. unfold seconds_in_year. by destruct (leap_year y). Qed.

Lemma leap_bit y : 0 <= Z.b2z (leap_year y) <= 1.
Proof. destruct (leap_year y); cbn; lia. Qed.

Lemma year_loop_ok fuel : forall s year, 0 <= s < 2 ^ 31 -> 0 <= year ->
  year + Z.of_nat fuel < 2 ^ 31 -> s < 365 * 86400 * Z.of_nat fuel ->
  exists s' year', year_loop fuel s year = Some (s', year') /\ year <= year' /\
    0 <= s' < (365 + Z.b2z (leap_year year')) * 86400 /\
    days_to_year year' * 86400 + s' = days_to_year year * 86400 + s.
Proof.
  induction fuel as [|f IH]; intros s year Hs Hy Hb Hf; [lia|]. cbn [year_loop].
  rewrite seconds_in_year_eq. bcase.
  - exists s, year. repeat split; lia.
  - pose proof (leap_bit year). rewrite (s32_id (s - _)), (s32_id (year + 1)) by lia.
    destruct (IH (s - (365 + Z.b2z (leap_year year)) * 86400) (year + 1))
      as (s' & y' & -> & ? & ? & E); try lia.
    exists s', y'. split; [done|]. split; [lia|]. split; [done|].
    rewrite E, year_step by lia. lia.
Qed.

Lemma days_in_month_length year i : 0 <= year -> (i < 12)%nat ->
  days_in_month year (Z.of_nat i) = Some (month_length year (Z.of_nat i)).
Proof.
  intros Hy Hi. unfold days_in_month, month_length. rewrite leap_year_gregorian by done.
  do 12 (destruct i as [|i]; [by destruct (gregorian_leap year)|]). lia.
Qed.

Lemma month_length_range year i : 28 <= month_length year i <= 31.
Proof. unfold month_length. repeat case_match; lia. Qed.

Lemma days_to_month_year year : 0 <= year -> days_to_month year 12 = 365 + Z.b2z (leap_year year).
Proof.
  intros Hy. rewrite leap_year_gregorian by done. cbn [days_to_month]. unfold month_length. cbn -[gregorian_leap Z.add].
  by destruct (gregorian_leap year).
Qed.

Lemma days_to_month_nonneg year i : 0 <= days_to_month year i.
Proof.
  induction i as [|i IH]; cbn [days_to_month]; [lia|].
  pose proof (month_length_range year (Z.of_nat i)). lia.
Qed.

Lemma month_loop_ok k : forall fuel year s i, (i + k = 12)%nat -> (k < fuel)%nat -> 0 <= year ->
  0 <= s < (days_to_month year 12 - days_to_month year i) * 86400 ->
  exists s' j, month_loop fuel year s (Z.of_nat i) = Some (s', Z.of_nat j) /\ (i <= j < 12)%nat /\
    days_to_month year j * 86400 + s' = days_to_month year i * 86400 + s /\
    0 <= s' < month_length year (Z.of_nat j) * 86400.
Proof.
  induction k as [|k IH]; intros [|fuel] year s i Hi Hf Hy Hs; try lia.
  - replace i with 12%nat in Hs by lia. lia.
  - cbn [month_loop]. rewrite days_in_month_length by lia. cbn [mbind option_bind].
    pose proof (month_length_range year (Z.of_nat i)). set (days := month_length _ _) in *.
    assert (Es : days_to_month year (S i) = days_to_month year i + days) by done.
    change (24 * 60 * 60) with 86400. rewrite (s32_id (days * _)) by lia. bcase.
    + exists s, i. split; [done|]. split; [lia|]. split; [done|]. fold days. lia.
    + pose proof (days_to_month_year year Hy). pose proof (leap_bit year).
      pose proof (days_to_month_nonneg year i).
      rewrite (s32_id (s - _)), (s32_id (Z.of_nat i + 1)) by lia.
      replace (Z.of_nat i + 1) with (Z.of_nat (S i)) by lia.
      destruct (IH fuel year (s - days * 86400) (S i)) as (s' & j & -> & ? & E & ?); try lia.
      exists s', j. split; [done|]. split; [lia|]. split; [lia|done].
Qed.

Lemma unit_loop_ok unit fuel : 0 < unit -> forall s count, 0 <= s < 2 ^ 31 ->
  0 <= count -> count + s / unit < 2 ^ 31 -> s / unit < Z.of_nat fuel ->
  unit_loop fuel unit s count = Some (s mod unit, count + s / unit).
Proof.
  intros Hu. induction fuel as [|f IH]; intros s count Hs Hc Hb Hf.
  - pose proof (Z.div_pos s unit). lia.
  - cbn [unit_loop]. bcase.
    + by rewrite Z.mod_small, Z.div_small, Z.add_0_r by lia.
    + assert (Ed : s / unit = (s - unit) / unit + 1)
        by (rewrite <- Z.div_add by lia; f_equal; lia).
      assert (Em : s mod unit = (s - unit) mod unit)
        by (rewrite <- (Z_mod_plus_full (s - unit) 1 unit); f_equal; lia).
      pose proof (Z.div_pos (s - unit) unit).
      rewrite (s32_id (s - _)), (s32_id (count + 1)), IH by lia. do 2 f_equal; lia.
Qed.

Lemma civil_ok n s : 0 <= s < 2 ^ 31 -> 70 <= Z.of_nat n < 2 ^ 20 ->
  exists year month day hour min seconds,
    civil n s = Some (year, month, day, hour, min, seconds) /\
    epoch year month day hour min seconds = s /\
    1970 <= year < 2 ^ 21 /\ 0 <= month < 12 /\ 0 <= day < month_length year month /\
    0 <= hour < 24 /\ 0 <= min < 60 /\ 0 <= seconds < 60.
Proof.
  intros Hs Hn. unfold civil.
  destruct (year_loop_ok n s 1970) as (s1 & year & E1 & Hy & H1 & Q1); [lia..|].
  bind_with E1. pose proof (leap_bit year).
  destruct (month_loop_ok 12 n year s1 0) as (s2 & j & E2 & Hj & Q2 & Hd);
    [lia|lia|lia|rewrite days_to_month_year; cbn; lia|].
  bind_with E2. pose proof (month_length_range year (Z.of_nat j)) as Hr.
  set (days := month_length year _) in *.
  rewrite (unit_loop_ok (24 * 60 * 60) n) by (Z.div_mod_to_equations; lia).
  cbn [mbind option_bind].
  rewrite (unit_loop_ok (60 * 60) n) by (Z.div_mod_to_equations; lia).
  cbn [mbind option_bind].
  rewrite (unit_loop_ok 60 n) by (Z.div_mod_to_equations; lia).
  cbn [mbind option_bind]. do 6 eexists. split; [reflexivity|].
  change (24 * 60 * 60) with 86400. change (60 * 60) with 3600. rewrite !Z.add_0_l.
  split.
  - unfold epoch. rewrite Nat2Z.id. change (days_to_year 1970) with 0 in Q1.
    cbn [days_to_month] in Q2. Z.div_mod_to_equations. lia.
  - assert (year < 2 ^ 21).
    { pose proof (days_to_month_nonneg year j). unfold days_to_year, leaps in Q1.
      change (1969 / 4 - 1969 / 100 + 1969 / 400) with 477 in Q1. Z.div_mod_to_equations. lia. }
    split; [lia|]. split; [lia|]. split; [fold days; Z.div_mod_to_equations; lia|].
    Z.div_mod_to_equations. lia.
Qed.

Lemma month_name_text j : (j < 12)%nat -> month_name !! j = Some (month_text (Z.of_nat j)).
Proof. intros Hj. do 12 (destruct j as [|j]; [done|]). lia. Qed.

(** C39. The date [ls] prints for a time before 2^31 is its date in the Gregorian
    calendar: the loops end, the line is the day, the month, the year and the
    clock of a date whose fields are in their ranges (29 days in the February of
    leap years, thirty days in September, April, June and November), and
    counting its seconds from the start of 1970 gives the time. *)
Theorem date_roundtrip {W} (answer : list Z -> mem -> W -> option (Z * mem * W))
    n month_names s m printed w : 0 <= s < 2 ^ 31 -> 70 <= Z.of_nat n < 2 ^ 20 ->
  exists year month day hour min seconds ps,
    run answer (print_date n month_names s m) printed w = Some (0, m, printed ++ ps, w) /\
    rendered ps = date_text year month day hour min seconds /\
    epoch year month day hour min seconds = s /\
    1970 <= year /\ 0 <= month < 12 /\ 0 <= day < month_length year month /\
    0 <= hour < 24 /\ 0 <= min < 60 /\ 0 <= seconds < 60.
Proof.
  intros Hs Hn. destruct (civil_ok n s Hs Hn) as (y & mo & d & h & mi & sec & E & Ee & Hy & Hm & Hd & H).
  pose proof (month_length_range y mo). exists y, mo, d, h, mi, sec. eexists.
  split; [|split; [|repeat split; (done || lia)]].
  - unfold print_date. rewrite run_bind, E. cbn [of_option mret user_ret run mbind option_bind].
    rewrite run_bind, (month_name_text (Z.to_nat mo)) by lia.
    cbn [of_option mret user_ret run mbind option_bind]. rewrite run_bind. reflexivity.
  - unfold rendered. cbn [flat_map]. rewrite (wide_text (s32 (d + 1))), dec_text, !two_text
      by (rewrite ?s32_id; lia).
    rewrite s32_id, Z2Nat.id by lia. unfold date_text. cbn [piece_text field app].
    rewrite ?app_nil_r. done.
Qed.

(** ** Columns *)

Lemma numeral_length_exact k : forall n v, (k < n)%nat -> 0 <= v < 10 ^ (Z.of_nat k + 1) ->
  (k = 0%nat \/ 10 ^ Z.of_nat k <= v) -> length (numeral_ n digit10 10 v) = S k.
Proof.
  induction k as [|k IH]; intros [|n] v Hn Hv Hl; try lia; cbn [numeral_].
  - rewrite Z.div_small by lia. done.
  - destruct Hl as [|Hl]; [done|].
    rewrite Nat2Z.inj_succ, Z.pow_succ_r in Hl by lia.
    rewrite Nat2Z.inj_succ, <- Z.add_1_r, Z.pow_add_r in Hv by lia. change (10 ^ 1) with 10 in Hv.
    pose proof (Z.pow_pos_nonneg 10 (Z.of_nat k) ltac:(lia) ltac:(lia)).
    assert (10 ^ Z.of_nat k <= v / 10) by (apply Z.div_le_lower_bound; lia).
    rewrite (proj2 (Z.eqb_neq (v / 10) 0)) by lia. rewrite length_app, IH; [cbn; lia|lia| |lia].
    split; [lia|]. apply Z.div_lt_upper_bound; lia.
Qed.

Lemma digits_between k v : 0 <= k < 20 -> 0 <= v < 10 ^ (k + 1) -> k = 0 \/ 10 ^ k <= v ->
  Z.of_nat (length (numeral digit10 10 v)) = k + 1.
Proof.
  intros Hk Hv Hl. unfold numeral. rewrite (numeral_length_exact (Z.to_nat k));
    rewrite ?Z2Nat.id by lia; lia.
Qed.

(** [ilog10] is the number of digits less one. *)
Lemma ilog10_digits v : 0 <= v < 2 ^ 32 ->
  Z.of_nat (length (numeral digit10 10 v)) = ilog10 v + 1.
Proof. intros Hv. unfold ilog10. repeat bcase; apply digits_between; lia. Qed.

(** The size of a file ends in the same column for every file that is not
    larger than the largest one. *)
Lemma size_column size maxsize : 0 <= size <= maxsize -> maxsize < 2 ^ 31 ->
  (Z.to_nat (ilog10 (u32 maxsize) - ilog10 size) + length (rendered [dec size]))%nat
  = length (rendered [dec maxsize]).
Proof.
  assert (Hd : forall x, 0 <= x < 2 ^ 31 ->
    Z.of_nat (length (rendered [dec x])) = ilog10 x + 1).
  { intros x Hx. unfold rendered, dec. cbn [flat_map piece_text]. rewrite app_nil_r.
    rewrite u32_id, (proj2 (Z.ltb_lt x (2 ^ 31))) by lia. unfold field.
    change (pad_len_of []) with 0. cbn [app length].
    replace (Z.to_nat _) with 0%nat by lia. apply ilog10_digits. lia. }
  intros Hs Hm. rewrite u32_id by lia. pose proof (Hd size ltac:(lia)).
  pose proof (Hd maxsize ltac:(lia)).
  assert (ilog10 size <= ilog10 maxsize) by (unfold ilog10; repeat bcase; lia). lia.
Qed.

(** ** What is printed

    A directory is bright blue, a program bright green, anything else as it
    is.  The type is in bits 12 to 15 of the mode, and bit 0 lets everybody
    run the file. *)
Inductive file_kind := KDirectory | KProgram | KPlain.

Definition tinted (k : file_kind) (s : list Z) : list Z :=
  match k with
  | KDirectory => 27 :: text "[1;34m" ++ s ++ 27 :: text "[0m"
  | KProgram => 27 :: text "[1;32m" ++ s ++ 27 :: text "[0m"
  | KPlain => s
  end.

Definition kind_of (mode : Z) : file_kind :=
  if Z.land mode S_IFMT =? S_IFDIR then KDirectory
  else if Z.land mode 1 =? 0 then KPlain else KProgram.

Section Show.
Context {W : Type} (answer : list Z -> mem -> W -> option (Z * mem * W)).
Context (dir_color exe_color normal_color : Z).

Lemma file_color_text mode name s :
  rendered (file_color dir_color exe_color normal_color mode name s) = tinted (kind_of mode) s.
Proof.
  unfold file_color, kind_of. destruct (_ =? S_IFDIR); [|destruct (Z.land mode 1 =? 0)];
    cbn [negb tinted]; cbn; by rewrite ?app_nil_r, <- ?app_assoc.
Qed.

Lemma kind_directory mode : kind_of mode = KDirectory -> (Z.land mode S_IFMT =? S_IFDIR) = true.
Proof. unfold kind_of. by repeat bcase. Qed.

Lemma rendered_app a b : rendered (a ++ b) = rendered a ++ rendered b.
Proof. apply flat_map_app. Qed.

Lemma run_say ps m printed w : run answer (say ps m) printed w
  = Some (Z.of_nat (length (rendered ps)), m, printed ++ ps, w).
Proof. done. Qed.

Lemma run_blanks k : forall m printed w, exists ps, run answer (blanks k m) printed w
  = Some (tt, m, printed ++ ps, w) /\ rendered ps = repeat 32 k.
Proof.
  induction k as [|k IH]; intros m printed w; cbn [blanks repeat].
  - exists []. by rewrite app_nil_r.
  - rewrite run_bind, run_say. cbn [mbind option_bind].
    destruct (IH m (printed ++ [Lit 32]) w) as (ps & -> & E).
    exists (Lit 32 :: ps). rewrite <- app_assoc. split; [done|]. cbn. by f_equal.
Qed.

(** Nine letters for the permissions and one for the type. *)
Definition permission_text (mode : Z) : list Z :=
  rendered (type_letter (Z.shiftr mode 12)) ++
  flat_map (fun i => map (fun '(bit, c) => if Z.testbit mode (bit + i) then c else 45)
                         [(2, 114); (1, 119); (0, 120)]) [6; 3; 0].

Lemma permission_bit mode b i : 0 <= b -> 0 <= i -> b + i < 9 ->
  (Z.land (Z.land mode 0x1ff) (Z.shiftl (2 ^ b) i) =? 0) = negb (Z.testbit mode (b + i)).
Proof.
  intros Hb Hi Hs. rewrite Z.shiftl_mul_pow2, <- Z.pow_add_r by lia.
  rewrite <- (Z.shiftl_1_l (b + i)), Z.land_comm.
  destruct (Z.testbit mode (b + i)) eqn:E; cbn [negb].
  - apply Z.eqb_neq. intros E0. assert (Ht : Z.testbit 0 (b + i) = true); [|by rewrite Z.bits_0 in Ht].
    rewrite <- E0, !Z.land_spec, E, Z.shiftl_spec, Z.sub_diag by lia.
    change 511 with (Z.ones 9). rewrite Z.ones_spec_low by lia. done.
  - apply Z.eqb_eq, Z.bits_inj'. intros k Hk. rewrite !Z.land_spec, Z.bits_0.
    destruct (decide (k = b + i)) as [->|]; [by rewrite E, !andb_false_r|].
    rewrite Z.shiftl_1_l, Z.pow2_bits_false; [done|lia].
Qed.

Lemma run_letter mode b i c m printed w : 0 <= b -> 0 <= i -> b + i < 9 -> exists ps,
  run answer (permission_letter (Z.land mode 0x1ff) (2 ^ b) i [Lit c] m) printed w
  = Some (Z.of_nat (length (rendered ps)), m, printed ++ ps, w) /\
  rendered ps = [if Z.testbit mode (b + i) then c else 45].
Proof.
  intros. unfold permission_letter. rewrite permission_bit by done.
  destruct (Z.testbit mode (b + i)); cbn [negb]; eexists; by rewrite run_say.
Qed.

Lemma run_triple mode i m printed w : 0 <= i <= 6 -> exists v ps,
  run answer (print_triple (Z.land mode 0x1ff) i m) printed w
  = Some (v, m, printed ++ ps, w) /\
  rendered ps = map (fun '(bit, c) => if Z.testbit mode (bit + i) then c else 45)
                  [(2, 114); (1, 119); (0, 120)].
Proof.
  intros Hi. unfold print_triple. rewrite run_bind.
  destruct (run_letter mode 2 i 114 m printed w) as (p1 & E1 & R1); [lia..|].
  change (lits "r") with [Lit 114]. change (2 ^ 2) with 4 in E1. rewrite E1.
  cbn [mbind option_bind]. rewrite run_bind.
  destruct (run_letter mode 1 i 119 m (printed ++ p1) w) as (p2 & E2 & R2); [lia..|].
  change (lits "w") with [Lit 119]. change (2 ^ 1) with 2 in E2. rewrite E2.
  cbn [mbind option_bind].
  destruct (run_letter mode 0 i 120 m ((printed ++ p1) ++ p2) w) as (p3 & E3 & R3); [lia..|].
  change (lits "x") with [Lit 120]. change (2 ^ 0) with 1 in E3. rewrite E3.
  eexists _, (p1 ++ p2 ++ p3). rewrite !app_assoc. split; [done|].
  by rewrite !rendered_app, R1, R2, R3.
Qed.

(** The ten letters at the start of a long line. *)
Lemma run_permissions mode m printed w : exists ps,
  run answer (print_permissions mode m) printed w = Some (0, m, printed ++ ps, w) /\
  rendered ps = permission_text mode.
Proof.
  unfold print_permissions. rewrite run_bind, run_say. cbn [mbind option_bind].
  set (p0 := type_letter _). set (pr := printed ++ p0).
  rewrite run_bind. destruct (run_triple mode 6 m pr w) as (v1 & p1 & -> & R1); [lia|].
  cbn [mbind option_bind]. rewrite run_bind.
  destruct (run_triple mode 3 m (pr ++ p1) w) as (v2 & p2 & -> & R2); [lia|].
  cbn [mbind option_bind]. rewrite run_bind.
  destruct (run_triple mode 0 m ((pr ++ p1) ++ p2) w) as (v3 & p3 & -> & R3); [lia|].
  cbn [mbind option_bind run mret user_ret]. exists (p0 ++ p1 ++ p2 ++ p3).
  unfold pr. rewrite !app_assoc. split; [done|].
  rewrite !rendered_app, R1, R2, R3, <- !app_assoc. done.
Qed.
End Show.

(** ** The listing

    What the program needs of the kernel: a path that is a directory with the
    entries [l], which fit into the buffer; [kind] gives the kind of the path and
    of the entries' names, as the program looks them up.  [state k o] says how
    many descriptors are left and which one is open, with whether its entries
    have been read; [scratch] is the kernel's part of the memory. *)
Class Directory {W : Type} (answer : list Z -> mem -> W -> option (Z * mem * W)) (rs : list Z)
    (buf stat_buf : Z) (path : list Z) (l : list (Z * list Z)) (kind : list Z -> file_kind) := {
  scratch : list (Z * Z);
  state : nat -> option (Z * bool) -> W -> mem -> Prop;
  dir_fits : dirents_size l <= BUF_SIZE;
  dir_stat k o w m a s : state k o w m -> s = path \/ In s (map snd l) ->
    cstring (at_ m a) s -> 0 < a -> a + Z.of_nat (length s) < 2 ^ 32 ->
    Forall (fun r => apart (fst r) (snd r) a (Z.of_nat (length s) + 1)) scratch ->
    exists m' w', answer (libc_stat rs a stat_buf) m w = Some (0, m', w') /\
      kind_of (load32 m' (stat_buf + st_mode)) = kind s /\ state k o w' m' /\
      modifies ((stat_buf, 52) :: scratch) m m';
  dir_open k w m a : state (S k) None w m -> cstring (at_ m a) path -> 0 < a ->
    a + Z.of_nat (length path) < 2 ^ 32 ->
    Forall (fun r => apart (fst r) (snd r) a (Z.of_nat (length path) + 1)) scratch ->
    exists fd m' w', answer (libc_open rs a 0 0) m w = Some (fd, m', w') /\ 0 <= fd < 2 ^ 31 /\
      state k (Some (fd, false)) w' m' /\ modifies scratch m m';
  dir_list k fd w m : state k (Some (fd, false)) w m ->
    exists m' w', answer (libc_getdents rs fd buf BUF_SIZE) m w = Some (dirents_size l, m', w') /\
      dirents m' buf l /\ state k (Some (fd, true)) w' m' /\
      modifies ((buf, BUF_SIZE) :: scratch) m m';
  dir_done k fd w m : state k (Some (fd, true)) w m ->
    exists m' w', answer (libc_getdents rs fd buf BUF_SIZE) m w = Some (0, m', w') /\
      state k (Some (fd, true)) w' m' /\ modifies scratch m m';
  dir_close k fd b w m : state k (Some (fd, b)) w m ->
    exists v m' w', answer (libc_close rs fd) m w = Some (v, m', w') /\
      state k None w' m' /\ modifies scratch m m' }.

(** The length of the longest name, and what is printed: the names in columns
    wide enough for it, each row ended by a newline. *)
Definition longer (max : Z) (x : Z * list Z) : Z :=
  if max <? Z.of_nat (length (snd x)) then Z.of_nat (length (snd x)) else max.

Definition longest (l : list (Z * list Z)) : Z := fold_left longer l 0.

Definition cell (kind : list Z -> file_kind) (colwidth : Z) (s : list Z) : list Z :=
  tinted (kind s) s ++ repeat 32 (Z.to_nat (colwidth - Z.of_nat (length s))).

Fixpoint grid (columns i : Z) (cells : list (list Z)) : list Z :=
  match cells with
  | [] => []
  | c :: cells' =>
      c ++ (if (i + 1) mod columns =? 0 then [10] else []) ++ grid columns (i + 1) cells'
  end.

Definition columns_text (kind : list Z -> file_kind) (l : list (Z * list Z)) : list Z :=
  let columns := 80 / (longest l + 1) in
  grid columns 0 (map (fun x => cell kind (80 / columns) (snd x)) l) ++ [10].

Lemma dirents_size_nonneg l : 0 <= dirents_size l.
Proof.
  induction l as [|[? s] l IH]; cbn [dirents_size]; [lia|].
  pose proof (reclen_bounds (Z.of_nat (length s)) ltac:(lia)). lia.
Qed.

Lemma dirents_size_zero l : dirents_size l = 0 -> l = [].
Proof.
  destruct l as [|[? s] l]; [done|]. cbn [dirents_size].
  pose proof (reclen_bounds (Z.of_nat (length s)) ltac:(lia)).
  pose proof (dirents_size_nonneg l). lia.
Qed.

Section Listing.
Context {W : Type} (answer : list Z -> mem -> W -> option (Z * mem * W)).
Context (n : nat) (rs : list Z) (buf stat_buf : Z) (path : list Z) (l : list (Z * list Z)).
Context (kind : list Z -> file_kind) `{!Directory answer rs buf stat_buf path l kind}.
Context (dir_color exe_color normal_color error : Z).

(** The buffer lies apart from what the kernel writes. *)
Record buffers : Prop := {
  b_range : 0 < buf /\ buf + BUF_SIZE < 2 ^ 32;
  b_stat : apart stat_buf 52 buf BUF_SIZE;
  b_scratch : Forall (fun r => apart (fst r) (snd r) buf BUF_SIZE) scratch;
  b_fuel : (length l + 2 < n)%nat;
  b_names : Forall (fun x => (length (snd x) < n)%nat) l }.
Context (B : buffers).

Definition keeps_ : list (Z * Z) := (stat_buf, 52) :: scratch.

Lemma within_buffer r a k : buf <= a -> a + k <= buf + BUF_SIZE ->
  apart (fst r) (snd r) buf BUF_SIZE -> apart (fst r) (snd r) a k.
Proof. unfold apart. lia. Qed.

Lemma regions_within a k : buf <= a -> a + k <= buf + BUF_SIZE ->
  Forall (fun r => apart (fst r) (snd r) a k) keeps_.
Proof.
  intros Hl Hh. unfold keeps_. apply List.Forall_cons.
  - apply within_buffer; [done..|]. apply B.
  - eapply List.Forall_impl; [|apply B]. intros r. by apply within_buffer.
Qed.

Section Records.
Context {A : Type} (body : Z -> A -> user A) (step : A -> Z * list Z -> A).
Context (out : A -> Z * list Z -> list Z) (inv : A -> Prop) (k : nat) (fd : Z).

(** What is printed for the entries from the value [acc] on. *)
Fixpoint outs (acc : A) (l' : list (Z * list Z)) : list Z :=
  match l' with
  | [] => []
  | x :: l'' => out acc x ++ outs (step acc x) l''
  end.

(** One entry. *)
Definition body_ok : Prop := forall d acc x m printed w,
  buf <= d -> d + reclen (Z.of_nat (length (snd x))) <= buf + BUF_SIZE -> In x l ->
  dirents m d [x] -> state k (Some (fd, true)) w m -> inv acc ->
  exists m' w' ps, run answer (body d acc m) printed w = Some (step acc x, m', printed ++ ps, w') /\
    rendered ps = out acc x /\ state k (Some (fd, true)) w' m' /\ modifies keeps_ m m' /\
    inv (step acc x).
Context (Hbody : body_ok).

Lemma records_ok l' : forall fuel off acc m printed w,
  incl l' l -> dirents m (buf + off) l' -> 0 <= off -> off + dirents_size l' <= BUF_SIZE ->
  (length l' < fuel)%nat -> state k (Some (fd, true)) w m -> inv acc ->
  exists m' w' ps, run answer (records buf body fuel (off + dirents_size l') off acc m) printed w
      = Some (fold_left step l' acc, m', printed ++ ps, w') /\
    rendered ps = outs acc l' /\ state k (Some (fd, true)) w' m' /\ modifies keeps_ m m'.
Proof.
  induction l' as [|[o s] l' IH]; intros [|fuel] off acc m printed w Hin Hd H0 Hs Hf St Hi;
    cbn [length] in Hf; try lia; cbn [records dirents_size fold_left outs] in *.
  - rewrite Z.add_0_r, (proj2 (Z.ltb_ge off off)) by lia. exists m, w, [].
    rewrite app_nil_r. done.
  - pose proof (reclen_bounds (Z.of_nat (length s)) ltac:(lia)).
    pose proof (dirents_size_nonneg l'). set (r := reclen _) in *.
    rewrite (proj2 (Z.ltb_lt off _)) by lia. rewrite run_bind.
    destruct Hd as (D1 & D2 & D3 & D4 & D5). fold r in D2, D3, D5.
    destruct (Hbody (buf + off) acc (o, s) m printed w) as (m1 & w1 & p1 & -> & R1 & S1 & M1 & I1);
      try done; [lia|cbn [snd]; fold r; lia|by apply Hin; left|].
    cbn [mbind option_bind]. rewrite run_bind. cbn [get_mem run mbind option_bind].
    assert (Er : load32 m1 (buf + off + 8) = r).
    { rewrite <- D3. apply load32_ext. intros i Hi'. apply M1.
      pose proof (regions_within (buf + off) r ltac:(lia) ltac:(lia)) as Hr.
      eapply List.Forall_impl; [|exact Hr]. intros q Hq. unfold apart in Hq. lia. }
    rewrite Er, s32_id by (unfold BUF_SIZE in *; lia).
    replace (off + (r + dirents_size l')) with (off + r + dirents_size l') by lia.
    destruct (IH fuel (off + r) (step acc (o, s)) m1 (printed ++ p1) w1)
      as (m2 & w2 & p2 & -> & R2 & S2 & M2); try done; try lia.
    + intros x Hx. apply Hin. by right.
    + rewrite Z.add_assoc. eapply dirents_modifies; [exact M1| |exact D5].
      apply regions_within; lia.
    + exists m2, w2, (p1 ++ p2). rewrite app_assoc. split; [done|].
      rewrite rendered_app, R1, R2. split; [done|]. split; [done|]. by transitivity m1.
Qed.

Lemma listing_ok fuel acc m printed w : (2 <= fuel)%nat ->
  state k (Some (fd, false)) w m -> inv acc -> 0 <= fd < 2 ^ 31 ->
  exists m' w' ps, run answer (listing n rs buf error body fuel fd acc m) printed w
      = Some (fold_left step l acc, m', printed ++ ps, w') /\
    rendered ps = outs acc l /\ state k (Some (fd, true)) w' m' /\
    modifies ((buf, BUF_SIZE) :: keeps_) m m'.
Proof.
  intros Hfuel St Hi Hfd. pose proof (b_fuel B) as Hn. destruct fuel as [|[|fuel]]; [lia..|].
  remember (S fuel) as fuel1. cbn [listing]. rewrite run_bind, run_svc_int.
  destruct (dir_list k fd w m St) as (m1 & w1 & E1 & D1 & S1 & M1). rewrite E1.
  cbn [mbind option_bind].
  pose proof (dirents_size_nonneg l). pose proof dir_fits as Hfit. unfold BUF_SIZE in Hfit.
  rewrite s32_id by lia. rewrite (proj2 (Z.ltb_ge _ 0)) by lia.
  destruct (dirents_size l =? 0) eqn:E0; b2p.
  - assert (fold_left step l acc = acc /\ outs acc l = []) as [-> ->]
      by (by rewrite (dirents_size_zero l E0)).
    exists m1, w1, []. rewrite app_nil_r. repeat (split; [done|]).
    eapply modifies_sub; [exact M1|]. unfold keeps_. regions.
  - rewrite run_bind.
    destruct (records_ok l n 0 acc m1 printed w1) as (m2 & w2 & p2 & E2 & R2 & S2 & M2);
      rewrite ?Z.add_0_r; try done;
      unfold BUF_SIZE; try lia; [apply incl_refl|].
    rewrite Z.add_0_l in E2. rewrite E2. cbn [mbind option_bind]. subst fuel1.
    cbn [listing]. rewrite run_bind, run_svc_int.
    destruct (dir_done k fd w2 m2 S2) as (m3 & w3 & -> & S3 & M3). cbn [mbind option_bind].
    exists m3, w3, p2. repeat (split; [done|]).
    transitivity m1; [eapply modifies_sub; [exact M1|]; unfold keeps_; regions|].
    transitivity m2; [eapply modifies_sub; [exact M2|]; regions|].
    eapply modifies_sub; [exact M3|]. unfold keeps_. regions.
Qed.
End Records.

Lemma entry_name m d x : buf <= d -> d + reclen (Z.of_nat (length (snd x))) <= buf + BUF_SIZE ->
  In x l -> dirents m d [x] ->
  cstring (at_ m (d_name d)) (snd x) /\ (length (snd x) < n)%nat /\
  Forall (fun r => apart (fst r) (snd r) (d_name d) (Z.of_nat (length (snd x)) + 1)) keeps_.
Proof.
  destruct x as [o s]. cbn [snd dirents]. intros Hl Hh Hin (_ & _ & _ & Hc & _).
  pose proof (reclen_bounds (Z.of_nat (length s)) ltac:(lia)). split; [done|]. split.
  - pose proof (b_names B) as Hn. rewrite List.Forall_forall in Hn. exact (Hn _ Hin).
  - unfold d_name. apply regions_within; lia.
Qed.

Lemma longest_name_ok k fd :
  body_ok (longest_name n) longer (fun _ _ => []) (fun _ => True) k fd.
Proof.
  intros d acc x m printed w Hl Hh Hin Hd St _.
  destruct (entry_name m d x Hl Hh Hin Hd) as (Hc & Hn & _).
  unfold longest_name. rewrite run_bind. cbn [get_mem run mbind option_bind].
  rewrite run_bind, (vlibc_strlen_cstring n _ _ Hc Hn). cbn [of_option mret user_ret run mbind option_bind].
  exists m, w, []. by rewrite app_nil_r.
Qed.

Section Columns.
Context (columns colwidth : Z) (Hcol : 0 < columns < 2 ^ 31).
Context (Hwidth : forall x, In x l -> Z.of_nat (length (snd x)) < colwidth < 2 ^ 31).

Definition next_column (whichcol : Z) (x : Z * list Z) : Z :=
  if columns <=? whichcol + 1 then 0 else whichcol + 1.

Definition column_text (whichcol : Z) (x : Z * list Z) : list Z :=
  cell kind colwidth (snd x) ++ (if columns <=? whichcol + 1 then [10] else []).

Lemma print_column_ok k fd :
  body_ok (print_column n rs stat_buf dir_color exe_color normal_color columns colwidth)
    next_column column_text (fun whichcol => 0 <= whichcol < columns) k fd.
Proof.
  intros d acc x m printed w Hl Hh Hin Hd St Hacc.
  destruct (entry_name m d x Hl Hh Hin Hd) as (Hc & Hn & Hr).
  pose proof (Hwidth x Hin) as Hw. pose proof (b_range B). unfold print_column.
  pose proof (reclen_bounds (Z.of_nat (length (snd x))) ltac:(lia)).
  destruct (dir_stat k (Some (fd, true)) w m (d_name d) (snd x) St) as (m1 & w1 & E1 & Em & S1 & M1);
    [right; by apply in_map|done|unfold d_name; lia|unfold d_name; lia|by inversion Hr|].
  rewrite run_bind, run_svc_int, E1. cbn [mbind option_bind].
  rewrite run_bind. cbn [stat_word]. unfold stat_word at 1. rewrite run_bind.
  cbn [get_mem run mbind option_bind mret user_ret].
  assert (Hc1 : cstring (at_ m1 (d_name d)) (snd x)) by (eapply cstring_modifies; [exact M1|exact Hr|exact Hc]).
  rewrite run_bind. unfold print_file_color. rewrite run_bind. cbn [get_mem run mbind option_bind].
  rewrite run_bind, (string_at_cstring n m1 _ _ Hc1 Hn).
  cbn [of_option mret user_ret run mbind option_bind]. rewrite run_say. cbn [mbind option_bind].
  set (p1 := file_color _ _ _ _ _ _). rewrite run_bind. cbn [get_mem run mbind option_bind].
  rewrite run_bind, (vlibc_strlen_cstring n _ _ Hc1 Hn).
  cbn [of_option mret user_ret run mbind option_bind]. rewrite run_bind.
  destruct (run_blanks answer (Z.to_nat (u32 (colwidth - Z.of_nat (length (snd x))))) m1 (printed ++ p1) w1)
    as (p2 & -> & R2). cbn [mbind option_bind].
  rewrite (u32_id (acc + 1)) by lia. rewrite u32_id in R2 by lia.
  assert (R1 : rendered (p1 ++ p2) = cell kind colwidth (snd x))
    by (unfold cell, p1; by rewrite rendered_app, R2, (file_color_text dir_color exe_color normal_color), Em).
  unfold next_column, column_text. destruct (columns <=? acc + 1) eqn:Ec; b2p.
  - rewrite run_bind, run_say. cbn [mbind option_bind run mret user_ret].
    exists m1, w1, (p1 ++ p2 ++ [nl]). split; [by rewrite !app_assoc|]. split; [|split; [done|split; [exact M1|lia]]].
    by rewrite app_assoc, rendered_app, R1.
  - exists m1, w1, (p1 ++ p2). split; [by rewrite !app_assoc|]. split; [|split; [done|split; [exact M1|lia]]].
    by rewrite app_nil_r.
Qed.

(** The counter of the columns is the number of the entry modulo their number. *)
Lemma outs_grid l' : forall i, 0 <= i ->
  outs next_column column_text (i mod columns) l'
  = grid columns i (map (fun x => cell kind colwidth (snd x)) l').
Proof.
  induction l' as [|x l' IH]; intros i Hi; [done|]. cbn [outs map grid].
  pose proof (Z.mod_pos_bound i columns ltac:(lia)).
  assert (E : next_column (i mod columns) x = (i + 1) mod columns /\
    (columns <=? i mod columns + 1) = ((i + 1) mod columns =? 0)).
  { unfold next_column. rewrite <- (Zplus_mod_idemp_l i 1).
    destruct (columns <=? i mod columns + 1) eqn:Ec; b2p.
    - replace (i mod columns + 1) with columns by lia. by rewrite Z_mod_same_full.
    - rewrite (Z.mod_small (i mod columns + 1)) by lia. split; [done|]. symmetry. apply Z.eqb_neq. lia. }
  destruct E as [E1 E2]. unfold column_text at 1.
  by rewrite E1, E2, IH, <- app_assoc by lia.
Qed.
End Columns.

Lemma longest_bound (l' : list (Z * list Z)) : forall a, a <= fold_left longer l' a /\
  (forall x, In x l' -> Z.of_nat (length (snd x)) <= fold_left longer l' a).
Proof.
  induction l' as [|x l' IH]; intros a; cbn [fold_left]; [split; [lia|done]|].
  destruct (IH (longer a x)) as [Ha Hx].
  assert (a <= longer a x /\ Z.of_nat (length (snd x)) <= longer a x) as [? ?]
    by (unfold longer; bcase; lia).
  split; [lia|]. intros y [->|Hy]; [lia|by apply Hx].
Qed.

(** The path of the directory in the program's memory. *)
Record path_at (m : mem) (a : Z) : Prop := {
  pa_string : cstring (at_ m a) path;
  pa_range : 0 < a /\ a + Z.of_nat (length path) < 2 ^ 32;
  pa_apart : Forall (fun r => apart (fst r) (snd r) a (Z.of_nat (length path) + 1))
               ((buf, BUF_SIZE) :: keeps_) }.

Lemma path_at_modifies rs' m m' a : modifies rs' m m' ->
  (forall P, Forall P ((buf, BUF_SIZE) :: keeps_) -> Forall P rs') -> path_at m a -> path_at m' a.
Proof.
  intros Hm Hs [Hc Hr Ha]. split; [|done|done].
  eapply cstring_modifies; [exact Hm| |exact Hc]. by apply Hs.
Qed.

Lemma path_scratch m a : path_at m a ->
  Forall (fun r => apart (fst r) (snd r) a (Z.of_nat (length path) + 1)) scratch.
Proof. intros [_ _ Ha]. inversion Ha as [|? ? _ Ha']. by inversion Ha'. Qed.

Lemma path_at_scratch m m' a : modifies scratch m m' -> path_at m a -> path_at m' a.
Proof.
  intros Hm P. eapply path_at_modifies; [exact Hm| |exact P].
  intros Q HQ. inversion HQ as [|? ? _ HQ']. by inversion HQ'.
Qed.

Lemma path_at_stat m m' a : modifies keeps_ m m' -> path_at m a -> path_at m' a.
Proof.
  intros Hm P. eapply path_at_modifies; [exact Hm| |exact P]. intros Q HQ. by inversion HQ.
Qed.

(** There is a column, and a column is wider than every name. *)
Lemma widths max : 0 <= max < 80 ->
  1 <= 80 / (max + 1) <= 80 /\ max < 80 / (80 / (max + 1)) <= 80.
Proof.
  intros Hm. assert (Hc : 1 <= 80 / (max + 1) <= 80)
    by (split; [apply Z.div_le_lower_bound; lia|apply Z.div_le_upper_bound; nia]).
  split; [done|]. pose proof (Z.mul_div_le 80 (max + 1) ltac:(lia)).
  set (columns := 80 / (max + 1)) in *.
  split; [apply Z.le_succ_l, Z.div_le_lower_bound; lia|apply Z.div_le_upper_bound; nia].
Qed.

Lemma ls_plain_ok k a m printed w :
  state (S (S k)) None w m -> path_at m a -> kind path = KDirectory ->
  longest l < 80 ->
  exists m' w' ps, run answer (ls_plain n rs buf stat_buf dir_color exe_color normal_color error a m)
      printed w = Some (0, m', printed ++ ps, w') /\ rendered ps = columns_text kind l.
Proof.
  intros St P Hmode Hlong. unfold ls_plain. rewrite run_bind, run_svc_int.
  pose proof (b_fuel B) as Hfuel. destruct (longest_bound l 0) as [HL0 HL].
  fold (longest l) in HL0, HL.
  destruct (dir_stat (S (S k)) None w m a path St) as (m1 & w1 & -> & Em & S1 & M1);
    [by left|apply P|apply P|apply P|by eapply path_scratch|]. cbn [mbind option_bind].
  apply (path_at_stat _ _ _ M1) in P as P1.
  change (s32 0 <? 0) with false. cbv iota. unfold stat_word at 1. rewrite !run_bind.
  cbn [get_mem run mbind option_bind mret user_ret]. rewrite (kind_directory _ (eq_trans Em Hmode)). cbn [negb].
  unfold open_directory. rewrite run_bind, run_bind, run_svc_int.
  destruct (dir_open (S k) w1 m1 a S1) as (fd & m2 & w2 & -> & Hfd & S2 & M2);
    [apply P1|apply P1|apply P1|by eapply path_scratch|]. cbn [mbind option_bind].
  apply (path_at_scratch _ _ _ M2) in P1 as P2.
  rewrite s32_id, (proj2 (Z.ltb_ge fd 0)) by lia.
  rewrite run_bind. cbn [mret user_ret run mbind option_bind].
  rewrite run_bind.
  destruct (listing_ok (longest_name n) longer (fun _ _ => []) (fun _ => True) (S k) fd
    (longest_name_ok (S k) fd) n 0 m2 printed w2) as (m3 & w3 & p3 & -> & R3 & S3 & M3);
    try done; [lia|]. cbn [mbind option_bind]. fold (longest l).
  assert (P3 : path_at m3 a) by (eapply path_at_modifies; [exact M3| |exact P2]; done).
  set (L := longest l) in *. rewrite u32_id by lia.
  destruct (widths L ltac:(lia)) as [Hc Hw].
  rewrite run_bind, uidiv_ok by lia. cbn [run mbind option_bind].
  set (columns := 80 / (L + 1)) in *.
  rewrite run_bind, uidiv_ok by lia. cbn [run mbind option_bind].
  set (colwidth := 80 / columns) in *.
  rewrite run_bind, run_svc_int. destruct (dir_close (S k) fd true w3 m3 S3) as (v4 & m4 & w4 & -> & S4 & M4).
  cbn [mbind option_bind].
  apply (path_at_scratch _ _ _ M4) in P3 as P4.
  rewrite run_bind, run_svc_int.
  destruct (dir_open k w4 m4 a S4) as (fd' & m5 & w5 & -> & Hfd' & S5 & M5);
    [apply P4|apply P4|apply P4|by eapply path_scratch|]. cbn [mbind option_bind].
  rewrite s32_id by lia. rewrite run_bind.
  destruct (listing_ok _ _ _ _ k fd' (print_column_ok columns colwidth ltac:(lia)
    ltac:(intros x Hx; specialize (HL x Hx); lia) k fd') n 0 m5 (printed ++ p3) w5)
    as (m6 & w6 & p6 & -> & R6 & S6 & M6); try done; [lia|lia|]. cbn [mbind option_bind].
  rewrite run_bind, run_svc_int.
  destruct (dir_close k fd' true w6 m6 S6) as (v7 & m7 & w7 & -> & S7 & M7). cbn [mbind option_bind].
  rewrite run_bind, run_say. cbn [mbind option_bind run mret user_ret].
  exists m7, w7, (p3 ++ p6 ++ [nl]). rewrite !app_assoc. split; [done|].
  rewrite !rendered_app, R3, R6.
  assert (Ho : forall acc l', outs longer (fun _ _ => []) acc l' = [])
    by (intros acc l'; revert acc; induction l' as [|x l' IH]; intros acc; [done|apply IH]).
  change (columns_text kind l)
    with (grid columns 0 (map (fun x => cell kind colwidth (snd x)) l) ++ [10]).
  rewrite Ho, <- (outs_grid columns colwidth ltac:(lia) l 0) by lia. done.
Qed.
End Listing.

(** [ls] on a directory prints the names of its entries, each in the colour
    of its kind and padded to the width of the longest name, in as many columns
    as 80 characters hold, a newline after each row, and ends with 0; for any
    kernel that serves the directory and names shorter than 80 characters. *)
Lemma ls_main_ok {W} (answer : list Z -> mem -> W -> option (Z * mem * W))
    n rs buf stat_buf path l kind `{!Directory answer rs buf stat_buf path l kind}
    long_buf month_names dir_color exe_color normal_color error dot argc argv file k m printed w :
  buffers answer n rs buf stat_buf path l kind ->
  parse_args (Z.to_nat (argc - 1)) m argv 1 0 0 = (file, 0) ->
  path_at answer rs buf stat_buf path l kind m (if file =? 0 then dot else file) ->
  state (S (S k)) None w m -> kind path = KDirectory -> longest l < 80 ->
  exists m' w' ps, run answer (main n rs buf stat_buf long_buf month_names dir_color exe_color
      normal_color error dot argc argv m) printed w = Some (0, m', printed ++ ps, w') /\
    rendered ps = columns_text kind l.
Proof.
  intros B E P St Hm Hl. unfold main. rewrite run_bind. cbn [get_mem run mbind option_bind].
  rewrite E. cbn [Z.eqb negb]. rewrite run_bind.
  destruct (ls_plain_ok answer n rs buf stat_buf path l kind dir_color exe_color normal_color
    error B k _ m printed w St P Hm Hl) as (m' & w' & ps & -> & R).
  by exists m', w', ps.
Qed.

(** ** At the edges *)

(** A name of 80 characters leaves no column: the second division is by zero,
    which prints a message and gives a column of width 0, and the padding of the
    name is almost 2^32 blanks. *)
Lemma long_name_columns m :
  aeabi_uidiv 81 80 (u32 (80 + 1)) m = Done 0 m /\
  (exists ps, aeabi_uidiv 81 80 0 m = Ask (Printf ps) m (fun _ m => Done 0 m) /\
     rendered ps = text "Division by zero!" ++ [10]) /\
  u32 (0 - 80) = 2 ^ 32 - 80.
Proof. split; [done|]. split; [|done]. by eexists. Qed.

(** Every error is reported as "No error". *)
Lemma print_error_text a m : exists ps,
  print_error a m = Ask (Printf ps) m Done /\
  rendered ps = text "Error! No error" ++ [10].
Proof. by eexists. Qed.

(** 29 February 2024, 12:34:56. *)
Lemma date_roundtrip_witness :
  exists year month day hour min seconds ps,
    run (fun _ _ (_ : unit) => None) (print_date 100 5000 1709210096 (fun _ => 0)) [] tt
      = Some (0, fun _ => 0, ps, tt) /\
    rendered ps = date_text year month day hour min seconds /\
    epoch year month day hour min seconds = 1709210096 /\
    1970 <= year /\ 0 <= month < 12 /\ 0 <= day < month_length year month /\
    0 <= hour < 24 /\ 0 <= min < 60 /\ 0 <= seconds < 60.
Proof. apply (date_roundtrip (fun _ _ _ => None) 100 5000 1709210096 (fun _ => 0) [] tt); lia. Defined.

Lemma leap_day_text : date_text 2024 1 28 12 34 56 = text "29 Feb 2024 12:34:56".
Proof. by vm_compute. Qed.

Lemma leap_day : civil 100 1709210096 = Some (2024, 1, 28, 12, 34, 56).
Proof. by vm_compute. Qed.
