(* ===== verification/LsKernel.v ===== *)
(** * [ls] on the kernel

    The kernel of [Syscalls] provides what [Ls.Directory] asks for: a directory
    of the romfs image, named by a path, whose entries' records fit into the
    program's buffer.  So the whole of [ls], the system calls, the path lookup
    and the file system below it are one verified stack. *)

From stdpp Require Import base list numbers gmap.
From Stdlib Require Import ZArith Lia.
From Stdlib Require String.
From S2P Require Import Prelude ArmMemset CString Romfs Process Sched Mmio Gpio Serial Console Interrupts Files Printk I2c Exec Syscalls User Ls.
Import String.StringSyntax.

(** ** Descriptors *)

Definition free_count (t : list fd_info) : nat :=
  length (List.filter (fun x => fd_valid x =? 0) t).

Lemma free_fd_count t i x : free_fd t = Some i ->
  free_count (<[i := FdInfo 1 x 0]> t) = pred (free_count t) /\ (0 < free_count t)%nat.
Proof.
  unfold free_fd. revert i. induction t as [|y t IH]; intros i; [done|]. cbn [list_find].
  unfold free_count. cbn [List.filter]. destruct (decide (fd_valid y = 0)) as [E|E].
  - intros [= <-]. rewrite E. cbn. split; [done|lia].
  - rewrite (proj2 (Z.eqb_neq _ _)) by done.
    destruct (list_find _ t) as [[j z]|] eqn:Ej; [|done]. intros [= <-]. cbn.
    rewrite (proj2 (Z.eqb_neq _ _)) by done. exact (IH j eq_refl).
Qed.

Lemma free_count_cons x t :
  free_count (x :: t) = ((if (fd_valid x =? 0)%Z then 1 else 0) + free_count t)%nat.
Proof. unfold free_count. cbn [List.filter]. by destruct (fd_valid x =? 0). Qed.

Lemma free_count_used t : forall i x y, t !! i = Some x -> fd_valid x = fd_valid y ->
  free_count (<[i := y]> t) = free_count t.
Proof.
  induction t as [|z t IH]; intros [|i] x y; [done|done| |].
  - intros [= ->] E. change (<[0%nat := y]> (x :: t)) with (y :: t).
    by rewrite !free_count_cons, E.
  - intros Hx E. change (<[S i := y]> (z :: t)) with (z :: <[i := y]> t).
    by rewrite !free_count_cons, (IH i x y Hx E).
Qed.

Lemma free_fd_exists t : (0 < free_count t)%nat -> exists i, free_fd t = Some i.
Proof.
  intros Hc. destruct (free_fd t) as [i|] eqn:E; [by exists i|]. apply free_fd_None in E. exfalso.
  unfold free_count in Hc. induction E as [|y t Hy _ IH]; [cbn in Hc; lia|].
  cbn [List.filter] in Hc. rewrite (proj2 (Z.eqb_neq _ _)) in Hc by done. by apply IH.
Qed.

Lemma fit_all l : forall size, dirents_size l <= size -> fit size l = (l, []).
Proof.
  induction l as [|[o s] l IH]; intros size Hs; [done|]. cbn [fit dirents_size] in *.
  pose proof (reclen_bounds (Z.of_nat (length s)) ltac:(lia)). pose proof (dirents_size_nonneg l).
  rewrite (proj2 (Z.ltb_ge _ _)) by lia. by rewrite IH by lia.
Qed.

(** What the type and the executable bit of a file header make of it. *)
Definition image_kind (d : Z -> Z) (o : Z) : file_kind :=
  if ftype d o =? 1 then KDirectory else if fexec d o then KProgram else KPlain.

Lemma kind_stat d o : kind_of (stat_mode d o) = image_kind d o.
Proof.
  unfold stat_mode, type_bits, image_kind. pose proof (ftype_range d o) as Ht.
  assert (Hc : ftype d o = 0 \/ ftype d o = 1 \/ ftype d o = 2 \/ ftype d o = 3 \/ ftype d o = 4 \/
    ftype d o = 5 \/ ftype d o = 6 \/ ftype d o = 7) by lia.
  repeat destruct Hc as [->|Hc]; [..|rewrite Hc]; by destruct (fexec d o).
Qed.

Section Kernel.
Context `{MemFill} `{Device W} (rd : ramdisk) (fl : flocals) (d : Z -> Z) (L : flayout rd fl d).
Context (e : swi_env) (K : nat) (rs : list Z) (Hrs : length rs = 15%nat).
Context (root cwd dir : Z) (vol path : list Z) (l : list (Z * list Z)) (kind : list Z -> file_kind).
Context (buf stat_buf : Z).

Abbreviation resolved := (names_path rd d K (se_rf e) root cwd).

(** The directory [dir] of the image and the program's objects. *)
Record served : Prop := {
  sv_volume : volume rd d vol;
  sv_path : resolved path dir;
  sv_dir : 0 <= dir /\ dir + 16 <= rd_length rd /\ ftype d dir = 1;
  sv_list : dir_from d (rd_length rd) (fspec d dir) l;
  sv_fuel : (length l + K < se_rf e)%nat /\ (length vol < 16 * K)%nat;
  sv_short : Forall (fun x => (length (snd x) < 16 * K)%nat) l;
  sv_names s : s = path \/ In s (map snd l) -> (length s < se_fuel e)%nat /\
    exists r o k, resolved s r /\ 0 <= r /\ resolves d (rd_length rd) r o k /\ (k < se_rf e)%nat /\
      kind s = image_kind d o;
  sv_fits : dirents_size l + reclen (Z.of_nat (length vol)) <= BUF_SIZE;
  sv_buf : 0 <= buf /\ buf + BUF_SIZE < 2 ^ 32 /\ apart buf BUF_SIZE (rd_start rd) (rd_length rd) /\
    apart buf BUF_SIZE (temp_int (fl_romfs fl)) 4 /\
    apart buf (BUF_SIZE + 16) (temp_buffer (fl_romfs fl)) 17;
  sv_stat : 0 <= stat_buf /\ stat_buf + 52 < 2 ^ 32 /\
    apart stat_buf 52 (rd_start rd) (rd_length rd) /\
    apart stat_buf 52 (temp_int (fl_romfs fl)) 4 }.
Context (V : served).

(** The image is in memory, [k] descriptors are free, the caller's directory is
    [cwd], and the open descriptor stands for the directory. *)
Record serving (k : nat) (o : option (Z * bool)) (y : system W) (m : mem) : Prop := {
  sg_disk : on_disk rd d m;
  sg_table : length (fd_table (y_files y)) = 32%nat;
  sg_free : (k <= free_count (fd_table (y_files y)))%nat;
  sg_root : root_dir (y_files y) = root;
  sg_caller : exists q, procs (kern y) !! current_process (kern y) = Some q /\ current_dir q = cwd;
  sg_open : match o with
            | Some (fd, listed) => 0 <= fd < 32 /\ fd_table (y_files y) !! Z.to_nat fd
                = Some (FdInfo 1 dir (if listed : bool then 0xffffffff else 0))
            | None => True
            end }.

Definition kernel_scratch : list (Z * Z) := path_regions fl.

(** A system call: the trap, then the routine's effect on the state. *)
Lemma kernel_call_eq regs m (y : system W) r m1 y1 :
  trap rd fl e regs (with_memory m y) = Some (Returned r, y1) -> k_mem (kern y1) = m1 ->
  kernel_call rd fl e regs m y = Some (r, m1, y1).
Proof. intros E <-. unfold kernel_call. by rewrite E. Qed.

Lemma kernel_stat k o y m a s : serving k o y m -> s = path \/ In s (map snd l) ->
  cstring (at_ m a) s -> 0 < a -> a + Z.of_nat (length s) < 2 ^ 32 ->
  Forall (fun r => apart (fst r) (snd r) a (Z.of_nat (length s) + 1)) kernel_scratch ->
  exists m' y', kernel_call rd fl e (libc_stat rs a stat_buf) m y = Some (0, m', y') /\
    kind_of (load32 m' (stat_buf + st_mode)) = kind s /\ serving k o y' m' /\
    modifies ((stat_buf, 52) :: kernel_scratch) m m'.
Proof.
  intros [Hd Ht Hf Hr (q & Hq & Hcw) Ho] Hs Hc Ha0 Ha1 Ha.
  destruct (sv_names V s Hs) as (Hsf & r & o' & j & HP & Hr0 & Hres & Hj & Em).
  destruct (sv_stat V) as (B0 & B1 & B2 & B3).
  set (ym := with_memory m y).
  destruct (get_inode_k_ok rd fl d L K (se_rf e) (se_fuel e) (y_files y) (kern ym) q a s r)
    as (m1 & E1 & M1 & D1); try done; [by rewrite Hr, Hcw|].
  destruct (stat_ok rd (fl_romfs fl) d (fl_lay _ _ _ L) j (se_rf e) m1 r o' stat_buf)
    as (m2 & E2 & F2 & M2 & D2); try done.
  exists m2, (with_kern (with_k_mem m2 (with_k_mem m1 (kern ym))) ym). split; [|split; [|split]].
  - eapply kernel_call_eq; [|reflexivity].
    replace (trap rd fl e (libc_stat rs a stat_buf) ym) with (do_stat rd fl e ym (u32 a) (u32 stat_buf))
      by (symmetry; revert rs Hrs; trap_eq).
    unfold do_stat, stat. rewrite !u32_id by lia.
    change (y_files ym) with (y_files y). rewrite E1. cbn [mbind option_bind].
    rewrite (proj2 (Z.ltb_ge r 0)) by done. cbn [k_mem with_k_mem]. rewrite E2. done.
  - rewrite Em, <- kind_stat. f_equal. exact (F2 2%nat ltac:(cbn; lia)).
  - split; try done. by exists q.
  - transitivity m1; [eapply modifies_sub; [exact M1|]; regions|].
    eapply modifies_sub; [exact M2|]. unfold kernel_scratch, path_regions, lookup_regions. regions.
Qed.

Lemma kernel_open k y m a : serving (S k) None y m ->
  cstring (at_ m a) path -> 0 < a -> a + Z.of_nat (length path) < 2 ^ 32 ->
  Forall (fun r => apart (fst r) (snd r) a (Z.of_nat (length path) + 1)) kernel_scratch ->
  exists fd m' y', kernel_call rd fl e (libc_open rs a 0 0) m y = Some (fd, m', y') /\
    0 <= fd < 2 ^ 31 /\ serving k (Some (fd, false)) y' m' /\ modifies kernel_scratch m m'.
Proof.
  intros [Hd Ht Hf Hr (q & Hq & Hcw) _] Hc Ha0 Ha1 Ha.
  destruct (sv_names V path (or_introl eq_refl)) as [Hsf _].
  destruct (sv_dir V) as (Hd0 & Hd1 & _). pose proof (lay_len _ _ _ (fl_lay _ _ _ L)).
  set (ym := with_memory m y).
  destruct (open_ok rd fl d L K (se_rf e) (se_fuel e) (y_files y) (kern ym) q a path dir 0 0)
    as (m1 & E1 & M1 & D1); try done; [rewrite Hr, Hcw; apply V|].
  destruct (free_fd_exists (fd_table (y_files y))) as [i Hi]; [lia|].
  destruct (free_fd_count _ _ (u32 dir) Hi) as [Hcount _].
  destruct (free_fd_Some _ _ Hi) as [(x & Hx & _) _]. pose proof (lookup_lt_Some _ _ _ Hx).
  unfold opened_table in E1. rewrite (proj2 (Z.ltb_ge dir 0)), Hi in E1 by done. cbn [fst snd] in E1.
  eexists (Z.of_nat i), m1, _. split; [|split; [lia|split; [|done]]].
  - eapply kernel_call_eq.
    { replace (trap rd fl e (libc_open rs a 0 0) ym) with (do_open rd fl e ym (u32 a) (u32 0) (u32 0))
      by (symmetry; revert rs Hrs; trap_eq).
    unfold do_open. rewrite (u32_id a) by lia. change (u32 0) with 0.
    change (y_files ym) with (y_files y). rewrite E1. cbn [mbind option_bind]. unfold returned_.
    rewrite u32_id by lia. done. }
    done.
  - split; try done; [by cbn; rewrite length_insert| |by exists q|].
    { change (k <= free_count (<[i := FdInfo 1 (u32 dir) 0]> (fd_table (y_files y))))%nat.
      rewrite Hcount. lia. }
    cbn. split; [lia|]. rewrite Nat2Z.id, list_lookup_insert_eq by lia. by rewrite u32_id by lia.
Qed.

(** [getdents] on the open descriptor, before and after the end is reached. *)
Lemma kernel_getdents k fd b y m : serving k (Some (fd, b)) y m ->
  exists m' y', kernel_call rd fl e (libc_getdents rs fd buf BUF_SIZE) m y
      = Some (if b : bool then 0 else dirents_size l, m', y') /\
    (b = false -> dirents m' buf l) /\ serving k (Some (fd, true)) y' m' /\
    modifies (if b : bool then kernel_scratch else (buf, BUF_SIZE) :: kernel_scratch) m m'.
Proof.
  intros [Hd Ht Hf Hr (q & Hq & Hcw) [Hfd He]].
  destruct (sv_dir V) as (Hd0 & Hd1 & Hty). destruct (sv_buf V) as (B0 & B1 & B2 & B3 & B4).
  destruct (sv_fuel V) as [F1 F2]. pose proof (sv_fits V) as Hfit.
  pose proof (dirents_size_nonneg l). pose proof (reclen_bounds (Z.of_nat (length vol)) ltac:(lia)).
  set (ym := with_memory m y).
  assert (Hg : exists m', romfs_getdents rd (fl_romfs fl) (se_rf e) m dir
      (if b then 0xffffffff else 0) buf BUF_SIZE
      = Some (if b then 0 else dirents_size l, 0xffffffff, m') /\ (b = false -> dirents m' buf l) /\
    modifies (if b then kernel_scratch else (buf, BUF_SIZE) :: kernel_scratch) m m' /\ on_disk rd d m').
  { destruct b; [by exists m|].
    destruct (getdents_ok rd (fl_romfs fl) d (fl_lay _ _ _ L) vol (sv_volume V) buf BUF_SIZE
      ltac:(unfold BUF_SIZE; lia) B2 B3 B4 K (se_rf e) m dir l) as (m' & E & D & M & D');
      try done; [apply V|apply V|].
    unfold resume in E. rewrite fit_all in * by lia. cbn [fst snd] in *.
    rewrite (proj2 (Z.ltb_ge _ _)) in E by lia. exists m'. split; [exact E|].
    split; [done|]. split; [|done]. eapply modifies_sub; [exact M|].
    unfold kernel_scratch, path_regions, lookup_regions. regions. }
  destruct Hg as (m' & E & Hdir & M & D').
  eexists m', _. split; [|split; [done|split; [|done]]].
  - eapply kernel_call_eq.
    { replace (trap rd fl e (libc_getdents rs fd buf BUF_SIZE) ym)
      with (do_getdents rd fl e ym (u32 fd) (u32 buf) (u32 BUF_SIZE))
      by (symmetry; revert rs Hrs; trap_eq).
    unfold do_getdents, getdents, MAX_FD. rewrite !u32_id by (unfold BUF_SIZE in *; lia).
    rewrite (proj2 (Z.leb_gt 32 fd)) by lia. change (y_files ym) with (y_files y). rewrite He.
    cbn [mbind option_bind fd_valid fd_inode file_ptr Z.eqb]. change (k_mem (kern ym)) with m.
    rewrite E. cbn [mbind option_bind]. unfold returned_.
    rewrite u32_id by (unfold BUF_SIZE in *; destruct b; lia). done. }
    done.
  - split; try done; cbn.
    + by rewrite length_insert.
    + etransitivity; [exact Hf|]. eapply Nat.eq_le_incl, eq_sym, free_count_used; [exact He|done].
    + by exists q.
    + split; [done|]. by rewrite list_lookup_insert_eq by lia.
Qed.

#[export] Instance kernel_directory :
  Directory (kernel_call rd fl e) rs buf stat_buf path l kind.
Proof.
  refine {| scratch := kernel_scratch; state := serving |}.
  - pose proof (sv_fits V). pose proof (reclen_bounds (Z.of_nat (length vol)) ltac:(lia)). lia.
  - intros k o w m a s. apply kernel_stat.
  - intros k w m a. apply kernel_open.
  - intros k fd w m St. destruct (kernel_getdents k fd false w m St) as (m' & w' & E & D & S' & M).
    exists m', w'. auto.
  - intros k fd w m St. destruct (kernel_getdents k fd true w m St) as (m' & w' & E & D & S' & M).
    exists m', w'. auto.
  - intros k fd b w m [Hd Ht Hf Hr Hq Ho]. eexists _, m, _. split; [|split; [|done]].
    + eapply kernel_call_eq.
      { replace (trap rd fl e (libc_close rs fd) (with_memory m w))
          with (do_close (with_memory m w) (u32 fd)) by (symmetry; revert rs Hrs; trap_eq).
        done. }
      done.
    + done.
Defined.
End Kernel.


(** ** A run: the root directory of the small image of [Romfs] *)

Definition ls_env : swi_env :=
  SwiEnv 0x20000000 (PrintEnv 0 (fun _ => 0) 0 0) (Serial 1 115200 8 1 0 pl011_uart)
    0 0 0 0 (UnameStrings 0 0 0 0 0 0) 16900 10 10 3 3.

Definition ls_kernel : kstate :=
  with_procs (<[20480 := set_current_dir 32 (three_pcb 28672 12288 1 1)]> (procs three)) demo_kernel.

Definition ls_system : system port :=
  System _ _ (Sys (Port [] [] false) console_bss timer_default ls_kernel) demo_files i2c_bss.

(** "." at 20768. *)
Definition ls_mem : mem := mem_with demo_fmem 20768 [46; 0].

Definition demo_entries : list (Z * list Z) := [(32, [46]); (64, [46; 46]); (96, [104; 105])].

Definition demo_kind (s : list Z) : file_kind :=
  if decide (s = [104; 105]) then KPlain else KDirectory.

Lemma demo_ls_dir : is_dir demo_disk demo_byte 2 10 32 demo_entries.
Proof.
  split; [cbn; lia|by vm_compute|exact demo_dir|cbn; lia|repeat constructor; cbn; lia].
Qed.

(** A name of one component, looked up in the root directory. *)
Lemma demo_name s r : component s -> s <> [] -> hd 0 s <> 47 ->
  lookup_result demo_disk demo_byte 2 s demo_entries r ->
  names_path demo_disk demo_byte 2 10 32 32 s r.
Proof.
  intros Hs Hne Hh Hl. exists false, [s]. split; [by constructor|]. split; [done|].
  split; [done|]. cbn [join]. destruct s as [|c s]; [done|].
  eapply walk_last; [exact demo_ls_dir|exact Hl].
Qed.

Lemma demo_resolves_root : resolves demo_byte 160 32 32 0.
Proof. apply resolves_here; by vm_compute. Qed.

Lemma demo_served :
  served demo_disk demo_fl demo_byte ls_env 2 32 32 32 [118] [46] demo_entries demo_kind 40000 42000.
Proof.
  assert (Hdot : names_path demo_disk demo_byte 2 10 32 32 [46] 32).
  { apply demo_name; [repeat constructor; cbn; lia|done|done|].
    exists 0%nat. split; [exact demo_resolves_root|lia]. }
  split; [exact demo_volume|exact Hdot|by vm_compute|exact demo_dir|cbn; lia
         |repeat constructor; cbn; lia| |by vm_compute|unfold apart, BUF_SIZE; cbn; lia
         |unfold apart; cbn; lia].
  - intros s Hs. assert (s = [46] \/ s = [46; 46] \/ s = [104; 105]) as Hs3
      by (cbn in Hs; intuition congruence).
    destruct Hs3 as [->|[->| ->]]; (split; [cbn; lia|]).
    + exists 32, 32, 0%nat. split; [done|]. split; [lia|]. split; [exact demo_resolves_root|].
      split; [cbn; lia|by vm_compute].
    + exists 32, 32, 0%nat. split; [|split; [lia|split; [exact demo_resolves_root|split; [cbn; lia|by vm_compute]]]].
      apply demo_name; [repeat constructor; cbn; lia|done|done|].
      exists 1%nat. split; [|lia]. apply (resolves_link _ _ 64 32 0); [lia|cbn; lia|by vm_compute|].
      exact demo_resolves_root.
    + assert (Hr : resolves demo_byte 160 96 96 0) by (apply resolves_here; by vm_compute).
      exists 96, 96, 0%nat. split; [|split; [lia|split; [exact Hr|split; [cbn; lia|by vm_compute]]]].
      apply demo_name; [repeat constructor; cbn; lia|done|done|]. exists 0%nat. split; [exact Hr|lia].
Qed.

Lemma demo_ls_disk : on_disk demo_disk demo_byte ls_mem.
Proof.
  intros i Hi. apply Z.eqb_eq.
  by apply (check_below (fun i => ls_mem (32768 + i) =? demo_byte i) 160).
Qed.

Lemma demo_serving : serving demo_disk demo_byte 32 32 32 2 None ls_system ls_mem.
Proof.
  split; [exact demo_ls_disk|by vm_compute|vm_compute; lia|done| |done].
  eexists. split; [by vm_compute|done].
Qed.

(** A blue name. *)
Definition blue (s : list Z) : list Z := 27 :: text "[1;34m" ++ s ++ 27 :: text "[0m".

