(* ===== verification/Blackjack.v ===== *)
(** * Blackjack: userspace/blackjack.c

    Cards are the strings the shoe points to; [shoe] is the array of them.  The
    players' structs are the fields of [game]; an index outside an array is
    undefined, [Stuck].  On the board the program does not read the keyboard:
    it ends at the first bet.  The rest of the game, which the host build plays,
    is modelled with its input as a list: a bet or an action, or [None] where
    [scanf] fails, as it does at the end of the list; the board's [player_turn]
    is given "hit" for every action.  [atoi] is the one the program is linked
    with, the library's on the board; [player_a] and [house_a] are the addresses
    of the structs. *)

From stdpp Require Import base list numbers.
From Stdlib Require Import ZArith Lia.
From Stdlib Require String.
From S2P Require Import Prelude CString Printk Syscalls User Vlibc.
Import String.StringSyntax.

Definition SHOE_SIZE : Z := 312.
Definition HAND_SIZE : Z := 22.
Definition MAX_HANDS : Z := 4.
Definition CARD_SIZE : Z := 3.

Record player := Player {
  value : list Z;
  result : list Z;
  money : Z;
  bet_size : Z;
  has_split : Z;
  hand : list (list (list Z));
  hand_index : Z;
  next_slot : list Z }.

Record house := House {
  h_value : Z;
  h_result : Z;
  h_next_slot : Z;
  h_hand : list (list Z) }.

Record game := Game { pl : player; ho : house; shoe : list (list Z); g_rng : rng }.

Definition with_pl (p : player) (g : game) : game := Game p (ho g) (shoe g) (g_rng g).
Definition with_ho (h : house) (g : game) : game := Game (pl g) h (shoe g) (g_rng g).
Definition with_shoe (s : list (list Z)) (r : rng) (g : game) : game := Game (pl g) (ho g) s r.

Definition set_value (v : list Z) (p : player) : player :=
  Player v (result p) (money p) (bet_size p) (has_split p) (hand p) (hand_index p) (next_slot p).
Definition set_result (v : list Z) (p : player) : player :=
  Player (value p) v (money p) (bet_size p) (has_split p) (hand p) (hand_index p) (next_slot p).
Definition set_money (v : Z) (p : player) : player :=
  Player (value p) (result p) v (bet_size p) (has_split p) (hand p) (hand_index p) (next_slot p).
Definition set_bet_size (v : Z) (p : player) : player :=
  Player (value p) (result p) (money p) v (has_split p) (hand p) (hand_index p) (next_slot p).
Definition set_has_split (v : Z) (p : player) : player :=
  Player (value p) (result p) (money p) (bet_size p) v (hand p) (hand_index p) (next_slot p).
Definition set_hand (v : list (list (list Z))) (p : player) : player :=
  Player (value p) (result p) (money p) (bet_size p) (has_split p) v (hand_index p) (next_slot p).
Definition set_hand_index (v : Z) (p : player) : player :=
  Player (value p) (result p) (money p) (bet_size p) (has_split p) (hand p) v (next_slot p).
Definition set_next_slot (v : list Z) (p : player) : player :=
  Player (value p) (result p) (money p) (bet_size p) (has_split p) (hand p) (hand_index p) v.

Definition set_h_value (v : Z) (h : house) : house := House v (h_result h) (h_next_slot h) (h_hand h).
Definition set_h_result (v : Z) (h : house) : house := House (h_value h) v (h_next_slot h) (h_hand h).
Definition set_h_next_slot (v : Z) (h : house) : house := House (h_value h) (h_result h) v (h_hand h).
Definition set_h_hand (v : list (list Z)) (h : house) : house :=
  House (h_value h) (h_result h) (h_next_slot h) v.

(** The structs in the zeroed data section. *)
Definition no_hand : list (list Z) := repeat (repeat 0 3) 22.
Definition player_bss : player :=
  Player (repeat 0 4) (repeat 0 4) 0 0 0 (repeat no_hand 4) 0 (repeat 0 4).
Definition house_bss : house := House 0 0 0 no_hand.

(** ** Arrays *)

Definition index {A} (l : list A) (i : Z) : option A :=
  if i <? 0 then None else l !! Z.to_nat i.

Definition store_at {A} (l : list A) (i : Z) (x : A) : option (list A) :=
  if (0 <=? i) && (i <? Z.of_nat (length l)) then Some (<[Z.to_nat i := x]> l) else None.

(** The bytes of a string with its terminator. *)
Definition chars (l : list Z) (i : Z) : Z := nth (Z.to_nat i) (l ++ [0]) 0.

(** [strcpy] into a card of three bytes. *)
Definition strcpy_card (dst src : list Z) : option (list Z) :=
  if Z.of_nat (length src) + 1 <=? CARD_SIZE
  then Some (src ++ 0 :: drop (S (length src)) dst) else None.

Definition put_card (hand : list (list Z)) (slot : Z) (card : list Z) : option (list (list Z)) :=
  old ← index hand slot; new ← strcpy_card old card; store_at hand slot new.

(** The string in a card. *)
Fixpoint card_text (c : list Z) : list Z :=
  match c with
  | [] => []
  | b :: c' => if b =? 0 then [] else b :: card_text c'
  end.

(** ** The shoe *)

Definition six (s : String.string) : list (list Z) := repeat (text s) 6.
Arguments six s%_string.

Definition all_cards : list (list Z) :=
  six "AH" ++ six "AD" ++ six "AC" ++ six "AS" ++ six "KH" ++ six "KD" ++ six "KC" ++ six "KS" ++
  six "QH" ++ six "QD" ++ six "QC" ++ six "QS" ++ six "JH" ++ six "JD" ++ six "JC" ++ six "JS" ++
  six "TH" ++ six "TD" ++ six "TC" ++ six "TS" ++ six "9H" ++ six "9D" ++ six "9C" ++ six "9S" ++
  six "8H" ++ six "8D" ++ six "8C" ++ six "8S" ++ six "7H" ++ six "7D" ++ six "7C" ++ six "7S" ++
  six "6H" ++ six "6D" ++ six "6C" ++ six "6S" ++ six "5H" ++ six "5D" ++ six "5C" ++ six "5S" ++
  six "4H" ++ six "4D" ++ six "4C" ++ six "4S" ++ six "3H" ++ six "3D" ++ six "3C" ++ six "3S" ++
  six "2H" ++ six "2D" ++ six "2C" ++ six "2S".

Definition create_shoe : list (list Z) := all_cards.

(** The swaps of [shuffle] from index [i] down to 1. *)
Fixpoint shuffle_loop (i : nat) (shoe : list (list Z)) (r : rng) : option (list (list Z) * rng) :=
  match i with
  | O => Some (shoe, r)
  | S i' =>
      let '(random, r1) := rand r in
      let j := Z.rem random (Z.of_nat i + 1) in
      tmp ← index shoe (Z.of_nat i);
      other ← index shoe j;
      shoe1 ← store_at shoe (Z.of_nat i) other;
      shoe2 ← store_at shoe1 j tmp;
      shuffle_loop i' shoe2 r1
  end.

Definition shuffle (n : Z) (shoe : list (list Z)) (r : rng) : option (list (list Z) * rng) :=
  shuffle_loop (Z.to_nat (n - 1)) shoe r.

(** The cards move up by one. *)
Definition shift_up (shoe : list (list Z)) : list (list Z) := drop 1 shoe ++ [[]].

Section Blackjack.
Context (rs : list Z) (atoi : (Z -> Z) -> option Z) (player_a house_a : Z).

(** [srand(time(NULL)); shuffle(shoe, SHOE_SIZE)] on a new shoe. *)
Definition fresh_shoe (g : game) : user game :=
  seed ← time rs 0;
  '(s, r) ← of_option (shuffle SHOE_SIZE create_shoe (srand seed (g_rng g)));
  mret (with_shoe s r g).

Definition pop_shoe (g : game) : user (list Z * game) :=
  top ← of_option (index (shoe g) 0);
  g ← (if vlibc_strncmp (chars top) (chars []) 1 =? 0
       then say (lits "The shoe has run out. Reshuffling now." ++ [nl]) ;; fresh_shoe g
       else mret g);
  tmp ← of_option (index (shoe g) 0);
  mret (tmp, with_shoe (shift_up (shoe g)) (g_rng g) g).

(** ** Hands *)

Definition is_card (c : list Z) (s : String.string) : bool :=
  vlibc_strncmp (fun i => nth (Z.to_nat i) c 0) (chars (text s)) 1 =? 0.
Arguments is_card c s%_string.

(** The cards of a hand up to the first empty one: the sum and the aces. *)
Fixpoint count_hand (cards : list (list Z)) (ace value : Z) : option (Z * Z) :=
  match cards with
  | [] => Some (ace, value)
  | c :: cards' =>
      if is_card c String.EmptyString then Some (ace, value)
      else if is_card c "A" then count_hand cards' (ace + 1) (value + 11)
      else if is_card c "K" || is_card c "Q" || is_card c "J" || is_card c "T"
      then count_hand cards' ace (value + 10)
      else
        points ← atoi (fun i => nth (Z.to_nat i) c 0);
        count_hand cards' ace (value + points)
  end.

(** While the hand is over 21 an ace counts 1. *)
Fixpoint lower_aces (ace : nat) (value : Z) : Z :=
  match ace with
  | O => value
  | S a => if 21 <? value then lower_aces a (value - 10) else value
  end.

Definition hand_value (cards : list (list Z)) : option Z :=
  '(ace, value) ← count_hand cards 0 0; Some (lower_aces (Z.to_nat ace) value).

Definition hand_value_player (g : game) (hand_index : Z) : option Z :=
  cards ← index (hand (pl g)) hand_index; hand_value cards.

Definition hand_value_house (g : game) : option Z := hand_value (h_hand (ho g)).

(** ** Printing *)

(** A card of a player's hand, of the house's hand, as the argument of "%s". *)
Definition player_card (g : game) (hand_index i : Z) : option piece :=
  cards ← index (hand (pl g)) hand_index; c ← index cards i;
  Some (Conv [] (Str (player_a + 44 + 66 * hand_index + 3 * i) (card_text c))).

Definition house_card (g : game) (i : Z) : option piece :=
  c ← index (h_hand (ho g)) i; Some (Conv [] (Str (house_a + 12 + 3 * i) (card_text c))).

(** The [n] cards from [i] on, each followed by a blank. *)
Fixpoint print_cards (n : nat) (card : Z -> option piece) (i : Z) : user () :=
  match n with
  | O => mret tt
  | S n' => c ← of_option (card i); say [c; Lit 32] ;; print_cards n' card (i + 1)
  end.

Definition print_player_hand (g : game) (hand_index : Z) : user Z :=
  say (lits "player hand: ") ;; print_cards 22 (player_card g hand_index) 0 ;; say [nl].

Definition print_house_hand (g : game) : user Z :=
  print_cards 22 (house_card g) 0 ;; say [nl].

Definition print_house_hand_hidden (g : game) : user Z :=
  c ← of_option (house_card g 1); say (lits "house's hand: ? " ++ [c; nl]).

(** A card of the shoe; [card_a] is where its string lies. *)
Definition shoe_card (card_a : Z -> Z) (g : game) (i : Z) : option piece :=
  c ← index (shoe g) i; Some (Conv [] (Str (card_a i) c)).

Definition print_shoe (card_a : Z -> Z) (g : game) : user Z :=
  say (lits "shoe: ") ;; print_cards 312 (shoe_card card_a g) 0 ;; say [nl].

(** ** A new hand *)

(** [printf("")], [n] times. *)
Fixpoint print_nothing (n : nat) : user () :=
  match n with O => mret tt | S n' => say [] ;; print_nothing n' end.

(** [house.hand[i][j] = 0] for the first three bytes of the first four cards. *)
Definition clear_house_cards (hand : list (list Z)) : list (list Z) :=
  map (fun _ => repeat 0 3) (take 4 hand) ++ drop 4 hand.

Definition reset_hands (g : game) : user game :=
  print_nothing (4 * 22 * 3) ;;
  mret (with_pl (Player (repeat 0 4) (repeat 0 4) (money (pl g)) (bet_size (pl g)) 0
                  (repeat no_hand 4) 0 (repeat 0 4))
         (with_ho (House 0 0 0 (clear_house_cards (h_hand (ho g)))) g)).

(** A card from the shoe into a slot of a player's hand, or of the house's. *)
Definition deal_player (g : game) (hand_index slot : Z) : user game :=
  '(c, g) ← pop_shoe g;
  cards ← of_option (index (hand (pl g)) hand_index);
  cards ← of_option (put_card cards slot c);
  hands ← of_option (store_at (hand (pl g)) hand_index cards);
  mret (with_pl (set_hand hands (pl g)) g).

Definition deal_house (g : game) (slot : Z) : user game :=
  '(c, g) ← pop_shoe g;
  cards ← of_option (put_card (h_hand (ho g)) slot c);
  mret (with_ho (set_h_hand cards (ho g)) g).

(** ** The house *)

Fixpoint house_turn (fuel : nat) (g : game) : user game :=
  match fuel with
  | O => stuck
  | S f =>
      value ← of_option (hand_value_house g);
      let g := with_ho (set_h_value value (ho g)) g in
      if 21 <? value then
        print_house_hand g ;;
        say (lits "Dealer busts!" ++ [nl]) ;;
        mret (with_ho (set_h_result 2 (ho g)) g)
      else if 17 <=? value then
        say (lits "Dealer stands at ") ;;
        print_house_hand g ;;
        mret (with_ho (set_h_result 1 (ho g)) g)
      else
        g ← deal_house g (h_next_slot (ho g));
        house_turn f (with_ho (set_h_next_slot (h_next_slot (ho g) + 1) (ho g)) g)
  end.

(** ** The player *)

Definition is_action (action : list Z) (s : String.string) (n : Z) : bool :=
  vlibc_strncmp (chars action) (chars (text s)) n =? 0.
Arguments is_action action s%_string n.

(** What an action leads to: the turn ends, goes on without showing the hand, or
    goes on with [hand_index] and [num_splits]. *)
Inductive after_action :=
| Turn_over
| Continue
| Next (hand_index num_splits : Z).

(** The hand is over: on to the next one, if there is one. *)
Definition hand_over (hand_index num_splits : Z) : after_action :=
  if hand_index =? num_splits then Turn_over else Next (hand_index + 1) num_splits.

Definition hit (g : game) (hand_index num_splits : Z) : user (game * after_action) :=
  slot ← of_option (index (next_slot (pl g)) hand_index);
  g ← deal_player g hand_index slot;
  slots ← of_option (store_at (next_slot (pl g)) hand_index (slot + 1));
  let g := with_pl (set_next_slot slots (pl g)) g in
  v ← of_option (hand_value_player g hand_index);
  values ← of_option (store_at (value (pl g)) hand_index v);
  let g := with_pl (set_value values (pl g)) g in
  cards ← of_option (index (hand (pl g)) hand_index);
  first ← of_option (index cards 0);
  if 21 <? v then
    print_player_hand g hand_index ;;
    say (lits "bust!" ++ [nl]) ;;
    results ← of_option (store_at (result (pl g)) hand_index 2);
    mret (with_pl (set_result results (pl g)) g, hand_over hand_index num_splits)
  else if (slot + 1 =? 2) && is_card first "A" then
    print_player_hand g hand_index ;;
    say (lits "hand over as you split aces" ++ [nl]) ;;
    results ← of_option (store_at (result (pl g)) hand_index 1);
    mret (with_pl (set_result results (pl g)) g, hand_over hand_index num_splits)
  else mret (g, Next hand_index num_splits).

Definition double_down (g : game) (hand_index : Z) : user (game * after_action) :=
  if negb (has_split (pl g) =? 0) then
    say (lits "You cannot double down after splitting" ++ [nl]) ;; mret (g, Continue)
  else
  v ← of_option (hand_value_player g hand_index);
  slot ← of_option (index (next_slot (pl g)) hand_index);
  if v =? 21 then
    say (lits "You cannot double down on 21" ++ [nl]) ;; mret (g, Continue)
  else if negb (slot =? 2) then
    say (lits "You cannot double down after hitting" ++ [nl]) ;; mret (g, Continue)
  else if money (pl g) <? bet_size (pl g) then
    say (lits "You do not have enough money to double down" ++ [nl]) ;; mret (g, Continue)
  else
    let g := with_pl (set_money (s32 (money (pl g) - bet_size (pl g))) (pl g)) g in
    let g := with_pl (set_bet_size (s32 (bet_size (pl g) + bet_size (pl g))) (pl g)) g in
    g ← deal_player g hand_index slot;
    slots ← of_option (store_at (next_slot (pl g)) hand_index (slot + 1));
    let g := with_pl (set_next_slot slots (pl g)) g in
    print_player_hand g hand_index ;;
    v ← of_option (hand_value_player g hand_index);
    values ← of_option (store_at (value (pl g)) hand_index v);
    let g := with_pl (set_value values (pl g)) g in
    (if 21 <? v then say (lits "bust!" ++ [nl]) else mret 0) ;;
    results ← of_option (store_at (result (pl g)) hand_index (if 21 <? v then 2 else 1));
    mret (with_pl (set_result results (pl g)) g, Turn_over).

Definition stand (g : game) (hand_index num_splits : Z) : user (game * after_action) :=
  results ← of_option (store_at (result (pl g)) hand_index 1);
  v ← of_option (hand_value_player g hand_index);
  values ← of_option (store_at (value (pl g)) hand_index v);
  mret (with_pl (set_value values (set_result results (pl g))) g,
        if hand_index =? num_splits then Turn_over else Next (hand_index + 1) num_splits).

(** The comparison of no bytes always succeeds, so the card goes to the next
    hand whether or not that is in use. *)
Definition split (g : game) (hand_index num_splits : Z) : user (game * after_action) :=
  c0 ← of_option (player_card g hand_index 0);
  c1 ← of_option (player_card g hand_index 1);
  say (lits "cards: " ++ [c0; Lit 32; c1; nl]) ;;
  slot ← of_option (index (next_slot (pl g)) hand_index);
  cards ← of_option (index (hand (pl g)) hand_index);
  first ← of_option (index cards 0);
  second ← of_option (index cards 1);
  if negb (slot =? 2) then
    say (lits "You do not have the right amount of cards to split" ++ [nl]) ;; mret (g, Continue)
  else
  v ← of_option (hand_value_player g hand_index);
  if negb (vlibc_strncmp (fun i => nth (Z.to_nat i) first 0)
                  (fun i => nth (Z.to_nat i) second 0) 1 =? 0) && negb (v =? 20) then
    say (lits "You cannot split this hand" ++ [nl]) ;; mret (g, Continue)
  else if num_splits =? 3 then
    say (lits "You have already split the max amount of times" ++ [nl]) ;; mret (g, Continue)
  else if money (pl g) <? bet_size (pl g) then
    say (lits "You do not have enough money to split" ++ [nl]) ;; mret (g, Continue)
  else
    let p := set_money (s32 (money (pl g) - bet_size (pl g))) (pl g) in
    next_cards ← of_option (index (hand p) (hand_index + 1));
    next_cards ← of_option (put_card next_cards 0 (card_text second));
    hands ← of_option (store_at (hand p) (hand_index + 1) next_cards);
    cards ← of_option (put_card cards (slot - 1) []);
    hands ← of_option (store_at hands hand_index cards);
    slots ← of_option (store_at (next_slot p) hand_index 1);
    slots ← of_option (store_at slots (hand_index + 1) 1);
    mret (with_pl (set_has_split 1 (set_next_slot slots (set_hand_index (Blackjack.hand_index p + 1)
            (set_hand hands p)))) g, Next hand_index (num_splits + 1)).

Definition take_action (g : game) (action : list Z) (hand_index num_splits : Z)
    : user (game * after_action) :=
  if is_action action "hit" 3 then hit g hand_index num_splits
  else if is_action action "double_down" 11 then double_down g hand_index
  else if is_action action "stand" 5 then stand g hand_index num_splits
  else if is_action action "split" 5 then split g hand_index num_splits
  else say (lits "you did not choose a valid input" ++ [nl]) ;; mret (g, Next hand_index num_splits).

Definition ask_action : user Z := say (lits "please take an action (hit, double_down, split, stand): ").
Definition ask_bet (g : game) : user Z :=
  say (lits "You have $" ++ [dec (money (pl g))] ++ lits ", please enter a bet size: ").
Definition invalid_input : user Z := say (lits "Error: Invalid input. Exiting now." ++ [nl]).

(** The answer says whether the input was lost; the rest of the input is left. *)
Fixpoint player_turn (input : list (option (list Z))) (g : game) (hand_index num_splits : Z)
    : user (bool * game * list (option (list Z))) :=
  match input with
  | [] => ask_action ;; invalid_input ;; mret (true, g, [])
  | a :: input' =>
      ask_action ;;
      match a with
      | None => invalid_input ;; mret (true, g, input')
      | Some action =>
          '(g, after) ← take_action g action hand_index num_splits;
          match after with
          | Turn_over => mret (false, g, input')
          | Continue => player_turn input' g hand_index num_splits
          | Next h n => print_player_hand g h ;; player_turn input' g h n
          end
      end
  end.

(** ** The game *)

(** What a hand that was bet [bet] on brings, with the texts of the outcomes:
    nothing, the bet, or twice the bet. *)
Inductive hand_result :=
| Lost_bust | Won_house_bust | Won | Won_blackjack | Lost_blackjack | Tied | Lost.

Definition hand_outcome (player_value house_value player_slots house_slots : Z) : hand_result :=
  if 21 <? player_value then Lost_bust
  else if 21 <? house_value then Won_house_bust
  else if house_value <? player_value then Won
  else if player_value =? house_value then
    if (player_slots =? 2) && negb (house_slots =? 2) && (player_value =? 21) then Won_blackjack
    else if negb (player_slots =? 2) && (house_slots =? 2) && (player_value =? 21) then Lost_blackjack
    else Tied
  else Lost.

Definition payout (o : hand_result) (bet : Z) : Z :=
  match o with
  | Won_house_bust | Won | Won_blackjack => s32 (bet * 2)
  | Tied => bet
  | Lost_bust | Lost_blackjack | Lost => 0
  end.

Definition outcome_text (o : hand_result) (i : Z) : list piece :=
  lits (match o with
        | Lost_bust | Lost => "Player has lost to the house with hand "
        | Won_house_bust | Won => "Player has beat the house with hand "
        | Won_blackjack => "Player has beat the house with blackjack with hand "
        | Lost_blackjack => "Player has lost to the house's blackjack with hand "
        | Tied => "Player has tied with the house with hand "
        end) ++ [dec (i + 1); nl].

(** The hands from [i] on, [n] of them. *)
Fixpoint settle (n : nat) (g : game) (house_value i : Z) : user game :=
  match n with
  | O => mret g
  | S n' =>
      player_value ← of_option (index (value (pl g)) i);
      slots ← of_option (index (next_slot (pl g)) i);
      let o := hand_outcome player_value house_value slots (h_next_slot (ho g)) in
      say (outcome_text o i) ;;
      settle n' (with_pl (set_money (s32 (money (pl g) + payout o (bet_size (pl g)))) (pl g)) g)
        house_value (i + 1)
  end.

(** The bet: [None] ends the program.  On the board [bets] is [None :: _]. *)
Fixpoint place_bet (bets : list (option Z)) (g : game) : user (option game * list (option Z)) :=
  match bets with
  | [] => ask_bet g ;; invalid_input ;; mret (None, [])
  | bet :: bets' =>
      ask_bet g ;;
      match bet with
      | None => invalid_input ;; mret (None, bets')
      | Some bet_size =>
          if (bet_size <? 1) || (money (pl g) <? bet_size) then
            say (lits "Please enter a number between 1 and " ++ [dec (money (pl g)); nl]) ;;
            place_bet bets' g
          else
            mret (Some (with_pl (set_money (s32 (money (pl g) - bet_size))
                                  (set_bet_size bet_size (pl g))) g), bets')
      end
  end.

(** Two cards each, in turn. *)
Definition deal (g : game) : user game :=
  let h := hand_index (pl g) in
  g ← deal_player g h 0; g ← deal_house g 0;
  g ← deal_player g h 1; g ← deal_house g 1;
  slot ← of_option (index (next_slot (pl g)) h);
  slots ← of_option (store_at (next_slot (pl g)) h (slot + 2));
  mret (with_ho (set_h_next_slot (h_next_slot (ho g) + 2) (ho g))
          (with_pl (set_next_slot slots (pl g)) g)).

(** One round of the loop of [main]: [None] where the program returns 1. *)
Definition round (fuel : nat) (bets : list (option Z)) (actions : list (option (list Z))) (g : game)
    : user (option game * list (option Z) * list (option (list Z))) :=
  say ([nl] ++ lits " *** new hand ***" ++ [nl]) ;;
  g ← reset_hands g;
  '(bet, bets) ← place_bet bets g;
  match bet with
  | None => mret (None, bets, actions)
  | Some g =>
      g ← deal g;
      print_house_hand_hidden g ;;
      print_player_hand g (hand_index (pl g)) ;;
      '(lost, g, actions) ← player_turn actions g 0 0;
      if lost : bool then mret (None, bets, actions)
      else
        g ← (if forallb (fun r => negb (r =? 1)) (result (pl g))
             then say (lits "The player has bust, dealer automatically wins" ++ [nl]) ;; mret g
             else house_turn fuel g);
        g ← settle (Z.to_nat (hand_index (pl g) + 1)) g (h_value (ho g)) 0;
        mret (Some g, bets, actions)
  end.

Fixpoint play (fuel : nat) (bets : list (option Z)) (actions : list (option (list Z))) (g : game)
    : user Z :=
  match fuel with
  | O => stuck
  | S f =>
      if 0 <? money (pl g) then
        '(r, bets, actions) ← round fuel bets actions g;
        match r with None => mret 1 | Some g => play f bets actions g end
      else
        say (lits "You have run out of money. Thank you for playing!" ++ [nl]) ;; mret 0
  end.

(** [main] stores zeros over the zeroed structs. *)
Definition main (fuel : nat) (bets : list (option Z)) (actions : list (option (list Z))) : user Z :=
  g ← fresh_shoe (Game player_bss house_bss [] rng_start);
  let g := with_pl (set_money 1500 (pl g)) g in
  print_nothing (4 * 22 * 3) ;;
  say (lits "Welcome to the best blackjack simulator!" ++ [nl]) ;;
  play fuel bets actions g.
End Blackjack.
Arguments is_card c s%_string.

(** ** The shoe *)

Lemma index_lookup {A} (l : list A) i : 0 <= i -> index l i = l !! Z.to_nat i.
Proof. intros Hi. unfold index. by rewrite (proj2 (Z.ltb_ge i 0)). Qed.

Lemma store_at_insert {A} (l : list A) i x : 0 <= i < Z.of_nat (length l) ->
  store_at l i x = Some (<[Z.to_nat i := x]> l).
Proof.
  intros Hi. unfold store_at.
  by rewrite (proj2 (Z.leb_le 0 i)), (proj2 (Z.ltb_lt i _)) by lia.
Qed.

Lemma shuffle_loop_ok i : forall s r, (i < length s)%nat ->
  exists s' r', shuffle_loop i s r = Some (s', r') /\ s' ≡ₚ s.
Proof.
  induction i as [|i IH]; intros s r Hi; cbn [shuffle_loop]; [by exists s, r|].
  destruct (rand r) as [random r1] eqn:Er.
  assert (Hr : 0 <= random).
  { unfold rand in Er. injection Er as <- _. unfold u16. apply Z.mod_pos_bound. lia. }
  set (j := Z.rem random (Z.of_nat (S i) + 1)).
  assert (Hj : 0 <= j < Z.of_nat (S i) + 1).
  { unfold j. rewrite Z.rem_mod_nonneg by lia. apply Z.mod_pos_bound. lia. }
  rewrite !index_lookup, Nat2Z.id by lia.
  destruct (lookup_lt_is_Some_2 s (S i) Hi) as [x Hx].
  destruct (lookup_lt_is_Some_2 s (Z.to_nat j)) as [y Hy]; [lia|].
  rewrite Hx, Hy. cbn [mbind option_bind].
  rewrite store_at_insert, Nat2Z.id by lia. cbn [mbind option_bind].
  rewrite store_at_insert by (rewrite length_insert; lia). cbn [mbind option_bind].
  pose proof (Permutation_insert_swap s (S i) (Z.to_nat j) x y Hx Hy) as Hp.
  destruct (IH (<[Z.to_nat j := x]> (<[S i := y]> s)) r1) as (s' & r' & -> & Hs);
    [rewrite !length_insert; lia|].
  exists s', r'. split; [done|]. by rewrite Hs.
Qed.

(** Six of each of the 52 cards. *)
Lemma six_decks : length all_cards = 312%nat /\
  Forall (fun c => length (List.filter (fun x => bool_decide (x = c)) all_cards) = 6%nat) all_cards.
Proof.
  split; [done|]. apply List.Forall_forall. intros c Hc.
  assert (Hb : forallb (fun c => Nat.eqb
    (length (List.filter (fun x => bool_decide (x = c)) all_cards)) 6) all_cards = true) by (by vm_compute).
  rewrite forallb_forall in Hb. by apply Nat.eqb_eq, Hb.
Qed.

Lemma cards_nonempty : Forall (fun c => exists b c', c = b :: c' /\ b <> 0) all_cards.
Proof.
  apply List.Forall_forall. intros c Hc.
  assert (Hb : forallb (fun c => match c with [] => false | b :: _ => negb (b =? 0) end) all_cards
    = true) by (by vm_compute).
  rewrite forallb_forall in Hb. specialize (Hb c Hc). destruct c as [|b c']; [done|].
  exists b, c'. split; [done|]. by b2p.
Qed.

(** [k] cards off the top. *)
Fixpoint pops (rs : list Z) (k : nat) (g : game) : user (list (list Z) * game) :=
  match k with
  | O => mret ([], g)
  | S k' => '(c, g1) ← pop_shoe rs g; '(cs, g2) ← pops rs k' g1; mret (c :: cs, g2)
  end.

Lemma pops_ok {W} (answer : list Z -> mem -> W -> option (Z * mem * W)) rs k : forall s j g m printed w,
  shoe g = s ++ repeat [] j -> Forall (fun c => exists b c', c = b :: c' /\ b <> 0) s ->
  (k <= length s)%nat ->
  exists g', run answer (pops rs k g m) printed w = Some (take k s, g', m, printed, w) /\
    shoe g' = drop k s ++ repeat [] (j + k).
Proof.
  induction k as [|k IH]; intros s j g m printed w Hs Hc Hk; cbn [pops].
  - exists g. by rewrite Nat.add_0_r.
  - destruct s as [|c s]; [cbn in *; lia|]. apply Forall_cons_1 in Hc as [(b & c' & -> & Hb) Hc].
    assert (Ei : index (shoe g) 0 = Some (b :: c')) by (by rewrite Hs).
    assert (Eb : (vlibc_strncmp (chars (b :: c')) (chars []) 1 =? 0) = false).
    { apply Z.eqb_neq. unfold vlibc_strncmp. cbn. by destruct b. }
    assert (Ep : run answer (pop_shoe rs g m) printed w
        = Some (b :: c', with_shoe (shift_up (shoe g)) (g_rng g) g, m, printed, w)).
    { unfold pop_shoe. rewrite run_bind, Ei. cbn [of_option mret user_ret run mbind option_bind].
      rewrite run_bind, Eb. cbn [mret user_ret run mbind option_bind].
      by rewrite run_bind, Ei. }
    rewrite run_bind, Ep. cbn [mbind option_bind]. rewrite run_bind.
    destruct (IH s (S j) (with_shoe (shift_up (shoe g)) (g_rng g) g) m printed w)
      as (g' & -> & Hg'); [|done|cbn in *; lia|].
    + cbn [shoe with_shoe]. rewrite Hs. unfold shift_up.
      change (drop 1 (((b :: c') :: s) ++ repeat [] j)) with (s ++ repeat [] j).
      rewrite <- app_assoc. f_equal. symmetry. apply repeat_cons.
    + exists g'. split; [done|]. rewrite Hg'. cbn [drop]. do 2 f_equal. lia.
Qed.

(** C38. The shoe is fair in the sense that it deals every card: whatever the
    seed, a new shoe is some order of six decks of 52 cards, the cards come off
    the top in that order without a reshuffle until all 312 are dealt, and then
    it is empty. *)
Theorem shoe_deals_six_decks {W} (answer : list Z -> mem -> W -> option (Z * mem * W)) rs g m w
    seed (Ht : answer (libc_sys_time rs) m w = Some (seed, m, w)) printed :
  exists cards g', run answer ((g ← fresh_shoe rs g; pops rs 312 g) m) printed w
      = Some (cards, g', m, printed, w) /\
    cards ≡ₚ all_cards /\ length all_cards = 312%nat /\
    Forall (fun c => length (List.filter (fun x => bool_decide (x = c)) all_cards) = 6%nat) all_cards /\
    shoe g' = repeat [] 312.
Proof.
  destruct six_decks as [Hl H6].
  destruct (shuffle_loop_ok 311 all_cards (srand (s32 seed) (g_rng g))) as (s & r & Es & Hp);
    [rewrite Hl; lia|].
  assert (Hs : length s = 312%nat) by (by rewrite Hp).
  assert (Hn : Forall (fun c => exists b c', c = b :: c' /\ b <> 0) s)
    by (rewrite Hp; apply cards_nonempty).
  set (g1 := with_shoe s r g).
  assert (Ef : run answer (fresh_shoe rs g m) printed w = Some (g1, m, printed, w)).
  { unfold fresh_shoe, time. rewrite run_bind, run_bind, run_svc_int, Ht.
    cbn [mbind option_bind]. rewrite run_bind. cbn [get_mem run mbind option_bind].
    rewrite run_bind. cbn [Z.eqb negb set_mem run mbind option_bind mret user_ret].
    rewrite run_bind. unfold shuffle, create_shoe. change (Z.to_nat (SHOE_SIZE - 1)) with 311%nat.
    by rewrite Es. }
  destruct (pops_ok answer rs 312 s 0 g1 m printed w) as (g' & Eg & Hg'); [by cbn; rewrite app_nil_r|done|lia|].
  exists s, g'. rewrite run_bind, Ef. cbn [mbind option_bind]. rewrite Eg.
  rewrite take_ge by lia. split; [done|]. split; [done|]. split; [done|]. split; [done|].
  by rewrite Hg', drop_ge by lia.
Qed.

(** ** The value of a hand *)

Section Values.
Context (atoi : (Z -> Z) -> option Z).

Definition ten (c : list Z) : bool := is_card c "K" || is_card c "Q" || is_card c "J" || is_card c "T".

(** What the cards before the first empty one can add up to: an ace counts 1 or
    11, a king, queen, jack or ten counts 10, another card what [atoi] reads. *)
Inductive total : list (list Z) -> Z -> Prop :=
| total_nil : total [] 0
| total_end c cs : is_card c String.EmptyString = true -> total (c :: cs) 0
| total_ace (low : bool) c cs t : is_card c String.EmptyString = false -> is_card c "A" = true ->
    total cs t -> total (c :: cs) ((if low then 1 else 11) + t)
| total_ten c cs t : is_card c String.EmptyString = false -> is_card c "A" = false ->
    ten c = true -> total cs t -> total (c :: cs) (10 + t)
| total_points c cs p t : is_card c String.EmptyString = false -> is_card c "A" = false ->
    ten c = false -> atoi (fun i => nth (Z.to_nat i) c 0) = Some p -> total cs t ->
    total (c :: cs) (p + t).

(** The aces [k] and the rest [h] of a hand. *)
Lemma count_hand_ok cards :
  Forall (fun c => is_Some (atoi (fun i => nth (Z.to_nat i) c 0))) cards ->
  exists k h, 0 <= k /\ (forall a v, count_hand atoi cards a v = Some (a + k, v + h + 11 * k)) /\
    forall t, total cards t <-> exists j, 0 <= j <= k /\ t = h + k + 10 * j.
Proof.
  induction 1 as [|c cs [p Hp] _ IH]; cbn [count_hand].
  - exists 0, 0. split; [lia|]. split; [intros; f_equal; f_equal; lia|]. intros t. split.
    + intros Ht. inversion Ht; subst. exists 0. lia.
    + intros (j & Hj & ->). replace (0 + 0 + 10 * j) with 0 by lia. constructor.
  - destruct (is_card c String.EmptyString) eqn:E0.
    { exists 0, 0. split; [lia|]. split; [intros; f_equal; f_equal; lia|]. intros t. split.
      - intros Ht. inversion Ht; subst; try congruence. exists 0. lia.
      - intros (j & Hj & ->). replace (0 + 0 + 10 * j) with 0 by lia. by constructor. }
    destruct IH as (k & h & Hk & Hc & Ht). destruct (is_card c "A") eqn:EA; [|destruct (ten c) eqn:ET].
    + exists (k + 1), h. split; [lia|]. split; [intros; rewrite Hc; f_equal; f_equal; lia|].
      intros t. split.
      * intros HT. inversion HT as [|? ? ?|low ? ? t' ? ? HT'|? ? ? ? ? ? ?|? ? ? ? ? ? ? ? ?]; subst; try congruence.
        apply Ht in HT' as (j & Hj & ->). exists (if low then j else j + 1). destruct low; lia.
      * intros (j & Hj & ->). destruct (decide (j = 0)) as [->|].
        -- replace (h + (k + 1) + 10 * 0) with (1 + (h + k + 10 * 0)) by lia.
           apply (total_ace true); try done. apply Ht. exists 0. lia.
        -- replace (h + (k + 1) + 10 * j) with (11 + (h + k + 10 * (j - 1))) by lia.
           apply (total_ace false); try done. apply Ht. exists (j - 1). lia.
    + fold (ten c). rewrite ET. exists k, (h + 10). split; [lia|].
      split; [intros; rewrite Hc; f_equal; f_equal; lia|]. intros t. split.
      * intros HT. inversion HT; subst; try congruence.
        match goal with H : total cs _ |- _ => apply Ht in H as (j & Hj & ->) end. exists j. lia.
      * intros (j & Hj & ->). replace (h + 10 + k + 10 * j) with (10 + (h + k + 10 * j)) by lia.
        apply total_ten; try done. apply Ht. by exists j.
    + fold (ten c). rewrite ET, Hp. cbn [mbind option_bind]. exists k, (h + p). split; [lia|].
      split; [intros; rewrite Hc; f_equal; f_equal; lia|]. intros t. split.
      * intros HT. inversion HT as [|? ? ?|? ? ? ? ? ? ?|? ? ? ? ? ? ?|? ? p' t' ? ? ? Hp' HT']; subst; try congruence.
        rewrite Hp in Hp'. injection Hp' as <-. apply Ht in HT' as (j & Hj & ->). exists j. lia.
      * intros (j & Hj & ->). replace (h + p + k + 10 * j) with (p + (h + k + 10 * j)) by lia.
        apply total_points; try done. apply Ht. by exists j.
Qed.

Lemma lower_aces_ok k : forall h, exists j, 0 <= j <= Z.of_nat k /\
  lower_aces k (h + 11 * Z.of_nat k) = h + Z.of_nat k + 10 * j /\
  (j = Z.of_nat k \/ 21 < h + Z.of_nat k + 10 * (j + 1)) /\ (j = 0 \/ h + Z.of_nat k + 10 * j <= 21).
Proof.
  induction k as [|k IH]; intros h; cbn [lower_aces]; [exists 0; lia|]. bcase.
  - destruct (IH (h + 1)) as (j & Hj & E & Hmax & Hmin).
    replace (h + 11 * Z.of_nat (S k) - 10) with (h + 1 + 11 * Z.of_nat k) by lia. rewrite E.
    exists j. split; [lia|]. split; [lia|]. lia.
  - exists (Z.of_nat (S k)). lia.
Qed.

(** C24. The value of a hand is the best one: it is a total the cards can have
    with every ace counting 1 or 11; when some total is at most 21 the value is
    the largest of those, and a value over 21 is the least total there is. *)
Theorem hand_value_best cards :
  Forall (fun c => is_Some (atoi (fun i => nth (Z.to_nat i) c 0))) cards ->
  exists v, hand_value atoi cards = Some v /\ total cards v /\
    (forall t, total cards t -> t <= 21 -> t <= v <= 21) /\
    (21 < v -> forall t, total cards t -> v <= t).
Proof.
  intros Hp. destruct (count_hand_ok cards Hp) as (k & h & Hk & Hc & Ht).
  unfold hand_value. rewrite Hc. cbn [mbind option_bind]. rewrite !Z.add_0_l.
  destruct (lower_aces_ok (Z.to_nat k) h) as (j & Hj & E & Hmax & Hmin).
  rewrite Z2Nat.id in * by lia. rewrite E. eexists. split; [done|]. split; [apply Ht; by exists j|].
  split; [intros t (j' & Hj' & ->)%Ht; lia|]. intros Hv t (j' & Hj' & ->)%Ht. lia.
Qed.
End Values.

(** ** The money *)

Section Money.
Context (rs : list Z) (atoi : (Z -> Z) -> option Z) (player_a house_a : Z).

(** What dealing and drawing leave alone. *)
Definition accounts (p : player) : Z * Z * Z * Z := (money p, bet_size p, has_split p, hand_index p).

Definition same_accounts (g g' : game) : Prop := accounts (pl g') = accounts (pl g).

Lemma pop_shoe_accounts g m : ensures (fun '(_, g') => same_accounts g g') (pop_shoe rs g m).
Proof.
  unfold pop_shoe. ens_skip. eapply ensures_bind with (same_accounts g).
  - bcase; [|done]. ens_skip. unfold fresh_shoe. ens_skip. by eapply ensures_bind;
      [apply ensures_true|intros [s r] ? _].
  - intros g' m' Hg. by ens_skip.
Qed.

Lemma deal_player_accounts g h slot m : ensures (same_accounts g) (deal_player rs g h slot m).
Proof.
  unfold deal_player. eapply ensures_bind; [apply pop_shoe_accounts|]. intros [c g'] m' Hg.
  do 3 ens_skip. exact Hg.
Qed.

Lemma deal_house_accounts g slot m : ensures (same_accounts g) (deal_house rs g slot m).
Proof.
  unfold deal_house. eapply ensures_bind; [apply pop_shoe_accounts|]. intros [c g'] m' Hg.
  ens_skip. exact Hg.
Qed.

Lemma house_turn_accounts fuel : forall g m,
  ensures (same_accounts g) (house_turn rs atoi house_a fuel g m).
Proof.
  induction fuel as [|f IH]; intros g m; [done|]. cbn [house_turn]. ens_skip. repeat bcase.
  - by repeat ens_skip.
  - by repeat ens_skip.
  - eapply ensures_bind; [apply deal_house_accounts|]. intros g' m' Hg.
    eapply ensures_mono; [apply IH|]. intros g2 H2. unfold same_accounts in *. by rewrite H2.
Qed.

(** Since the start of a round with [M] the player has put the bet on each of
    the hands. *)
Record staked (M : Z) (p : player) : Prop := {
  sk_money : 0 <= money p;
  sk_bet : 0 < bet_size p;
  sk_hands : 0 <= hand_index p;
  sk_sum : money p + bet_size p * (hand_index p + 1) = M;
  sk_split : has_split p = 0 -> hand_index p = 0 }.

Lemma staked_accounts M p p' : accounts p' = accounts p -> staked M p -> staked M p'.
Proof. intros [= E1 E2 E3 E4] [? ? ? ? ?]. split; by rewrite ?E1, ?E2, ?E3, ?E4. Qed.

Context (M : Z) (HM : M < 2 ^ 30).

Ltac ens_deal := eapply ensures_bind; [apply deal_player_accounts|intros ? ? ?].
Ltac ens_accounts := cbn [ensures mret user_ret fst]; eapply staked_accounts; [|eassumption];
  unfold same_accounts, accounts in *; cbn in *; congruence.

Definition turn_staked (r : game * after_action) : Prop := staked M (pl (fst r)).

Lemma hit_staked g h n m : staked M (pl g) ->
  ensures turn_staked (hit rs atoi player_a g h n m).
Proof.
  intros Hs. unfold hit. ens_skip. ens_deal. repeat (bcase || ens_skip); ens_accounts.
Qed.

Lemma stand_staked g h n m : staked M (pl g) -> ensures turn_staked (stand atoi g h n m).
Proof. intros Hs. unfold stand. repeat ens_skip. ens_accounts. Qed.

Lemma double_down_staked g h m : staked M (pl g) ->
  ensures turn_staked (double_down rs atoi player_a g h m).
Proof.
  intros Hs. pose proof Hs as [H1 H2 H3 H4 H5]. unfold double_down. bcase; b2p; [by ens_skip|].
  do 2 ens_skip. do 3 (bcase; [by ens_skip|]). b2p. rewrite Hb in H5. specialize (H5 eq_refl).
  rewrite H5 in *. ens_deal. repeat (bcase || ens_skip);
  cbn [ensures mret user_ret]; unfold turn_staked; cbn [fst].
  all: match goal with H : same_accounts ?g0 _ |- _ => apply (staked_accounts M (pl g0)); [by cbn|] end.
  all: split; cbn; rewrite ?s32_id by lia; lia.
Qed.

Lemma split_staked g h n m : staked M (pl g) -> ensures turn_staked (split atoi player_a g h n m).
Proof.
  intros Hs. pose proof Hs as [H1 H2 H3 H4 H5]. unfold split. do 6 ens_skip.
  repeat (bcase || ens_skip); try done.
  cbn [ensures mret user_ret]. unfold turn_staked. cbn [fst]. b2p.
  split; cbn; rewrite ?s32_id by lia; lia.
Qed.

Lemma player_turn_staked input : forall g h n m, staked M (pl g) ->
  ensures (fun '(_, g', _) => staked M (pl g')) (player_turn rs atoi player_a input g h n m).
Proof.
  induction input as [|a input IH]; intros g h n m Hs; cbn [player_turn]; [by do 2 ens_skip|]. ens_skip.
  destruct a as [action|]; [|by ens_skip].
  eapply ensures_bind with turn_staked.
  - unfold take_action. repeat bcase; [by apply hit_staked|by apply double_down_staked
      |by apply stand_staked|by apply split_staked|by ens_skip].
  - intros [g' after] m' Hg. unfold turn_staked in Hg. cbn [fst] in Hg.
    destruct after as [| |h' n']; [done|by apply IH|]. ens_skip. by apply IH.
Qed.

Lemma place_bet_staked bets : forall g m, money (pl g) = M -> 0 <= M ->
  has_split (pl g) = 0 -> hand_index (pl g) = 0 ->
  ensures (fun '(r, _) => match r with Some g' => staked M (pl g') | None => True end)
    (place_bet bets g m).
Proof.
  induction bets as [|[bet|] bets IH]; intros g m Hm H0 Hs Hh; cbn [place_bet]; [by do 2 ens_skip| |].
  - ens_skip. bcase; [ens_skip; by apply IH|]. b2p.
    split; cbn; rewrite ?s32_id, ?Hs, ?Hh by lia; lia.
  - by do 2 ens_skip.
Qed.

Lemma deal_staked g m : staked M (pl g) -> ensures (fun g' => staked M (pl g')) (deal rs g m).
Proof.
  intros Hs. unfold deal. ens_deal. eapply ensures_bind; [apply deal_house_accounts|intros ? ? ?].
  ens_deal. eapply ensures_bind; [apply deal_house_accounts|intros ? ? ?]. do 2 ens_skip. ens_accounts.
Qed.

Lemma payout_range o bet : 0 <= bet -> bet * 2 < 2 ^ 31 -> 0 <= payout o bet <= 2 * bet.
Proof. intros. destruct o; cbn [payout]; rewrite ?s32_id by lia; lia. Qed.

Lemma settle_money n : forall g hv i m, 0 <= money (pl g) -> 0 <= bet_size (pl g) ->
  money (pl g) + 2 * bet_size (pl g) * Z.of_nat n < 2 ^ 31 ->
  ensures (fun g' => money (pl g) <= money (pl g')
                     <= money (pl g) + 2 * bet_size (pl g) * Z.of_nat n) (settle n g hv i m).
Proof.
  induction n as [|n IH]; intros g hv i m H0 Hb Hm; cbn [settle]; [cbn; lia|].
  do 3 ens_skip. match goal with |- context [payout ?o _] => set (r := o) end.
  pose proof (payout_range r (bet_size (pl g)) Hb ltac:(nia)).
  eapply ensures_mono; [apply IH|]; cbn; rewrite ?s32_id by nia; nia.
Qed.

Lemma round_money fuel bets actions g m : 0 <= money (pl g) -> money (pl g) = M ->
  ensures (fun '(r, _, _) => match r with Some g' => 0 <= money (pl g') <= 2 * M | None => True end)
    (round rs atoi player_a house_a fuel bets actions g m).
Proof.
  intros H0 HM'. unfold round. ens_skip.
  eapply ensures_bind with (fun g1 => money (pl g1) = M /\ has_split (pl g1) = 0 /\ hand_index (pl g1) = 0).
  { unfold reset_hands. ens_skip. by cbn. }
  intros g1 m1 (E1 & E2 & E3).
  eapply ensures_bind; [apply place_bet_staked; try done; lia|]. intros [[g2|] bets'] m2 Hs; [|done].
  eapply ensures_bind; [by apply deal_staked|]. intros g3 m3 S3. do 2 ens_skip.
  eapply ensures_bind; [by apply player_turn_staked|]. intros [[lost g4] actions'] ? S4.
  destruct lost; [done|].
  eapply ensures_bind with (fun g5 => staked M (pl g5)).
  { bcase; [by ens_skip|]. eapply ensures_mono; [apply house_turn_accounts|].
    intros g5 H5. eapply staked_accounts; [exact H5|exact S4]. }
  intros g5 ? [K1 K2 K3 K4 K5].
  eapply ensures_bind; [apply settle_money; rewrite ?Z2Nat.id by lia; nia|].
  intros g6 ? H6. rewrite Z2Nat.id in H6 by lia. cbn. nia.
Qed.
End Money.

(** ** The table

    That no index leaves its array: the shoe holds cards or empty strings; of
    every hand the first so many slots hold cards, and the others can be told
    from cards. *)
Definition valid_card (c : list Z) : Prop := exists t, In t all_cards /\ c = t ++ [0].
Definition empty_slot (c : list Z) : Prop := length c = 3%nat /\ hd 0 c = 0.
Definition slot_ok (c : list Z) : Prop := valid_card c \/ empty_slot c.

Record hand_ok (k : Z) (cards : list (list Z)) : Prop := {
  hk_length : length cards = 22%nat;
  hk_slots : Forall slot_ok cards;
  hk_range : 0 <= k <= 22;
  hk_cards : Forall valid_card (take (Z.to_nat k) cards) }.

(** [ns] and [kh] are the numbers of cards in the player's hands and in the
    house's. *)
Record table (ns : list Z) (kh : Z) (g : game) : Prop := {
  tb_shoe : length (shoe g) = 312%nat /\ Forall (fun c => c = [] \/ In c all_cards) (shoe g);
  tb_hands : Forall2 hand_ok ns (hand (pl g));
  tb_four : length ns = 4%nat /\ length (value (pl g)) = 4%nat /\ length (result (pl g)) = 4%nat;
  tb_house : hand_ok kh (h_hand (ho g)) }.

Lemma two_chars t : In t all_cards -> exists a b, t = [a; b] /\ a <> 0 /\ b <> 0.
Proof.
  intros Ht. assert (Hb : forallb (fun t => match t with
    | [a; b] => negb (a =? 0) && negb (b =? 0) | _ => false end) all_cards = true) by (by vm_compute).
  rewrite forallb_forall in Hb. specialize (Hb t Ht).
  destruct t as [|a [|b [|? ?]]]; try done. exists a, b. b2p. tauto.
Qed.

Lemma valid_shape c : valid_card c -> exists a b, c = [a; b; 0] /\ a <> 0 /\ b <> 0 /\ In [a; b] all_cards.
Proof. intros (t & Ht & ->). destruct (two_chars t Ht) as (a & b & -> & ? & ?). exists a, b. auto. Qed.

Lemma slot_length c : slot_ok c -> length c = 3%nat.
Proof. intros [Hv|[Hl _]]; [|done]. by destruct (valid_shape c Hv) as (a & b & -> & _). Qed.

(** A card, or nothing, copied into a slot. *)
Lemma put_card_ok k cards slot t : hand_ok k cards -> 0 <= slot < 22 -> t = [] \/ In t all_cards ->
  exists cards' c, put_card cards slot t = Some cards' /\ cards' = <[Z.to_nat slot := c]> cards /\
    slot_ok c /\ (In t all_cards -> valid_card c).
Proof.
  intros [Hl Hs Hr Hc] Hslot Ht. unfold put_card. rewrite index_lookup by lia.
  destruct (lookup_lt_is_Some_2 cards (Z.to_nat slot)) as [old Ho]; [lia|]. rewrite Ho.
  cbn [mbind option_bind].
  assert (Hold : length old = 3%nat).
  { apply slot_length. rewrite List.Forall_forall in Hs. by apply Hs, list_elem_of_In, (list_elem_of_lookup_2 _ (Z.to_nat slot)). }
  destruct old as [|o1 [|o2 [|o3 [|? ?]]]]; try done.
  assert (E : exists c, strcpy_card [o1; o2; o3] t = Some c /\ slot_ok c /\ (In t all_cards -> valid_card c)).
  { destruct Ht as [->|Ht].
    - exists [0; o2; o3]. split; [done|]. split; [by right|]. intros Hi.
      destruct (two_chars [] Hi) as (? & ? & ? & _). done.
    - destruct (two_chars t Ht) as (a & b & -> & _). exists [a; b; 0]. split; [done|].
      assert (valid_card [a; b; 0]) by (by exists [a; b]). by split; [left|]. }
  destruct E as (c & -> & H1 & H2). cbn [mbind option_bind]. rewrite store_at_insert by lia.
  by exists (<[Z.to_nat slot := c]> cards), c.
Qed.

Lemma hand_ok_insert k cards slot c : hand_ok k cards -> slot_ok c -> 0 <= slot ->
  (slot < k -> valid_card c) -> hand_ok k (<[Z.to_nat slot := c]> cards).
Proof.
  intros [Hl Hs Hr Hc] Hok H0 Hv. split; [by rewrite length_insert|by apply Forall_insert|done|].
  destruct (decide (slot < k)) as [Hk|Hk].
  - rewrite take_insert_lt by lia. apply Forall_insert; [done|by apply Hv].
  - by rewrite take_insert_ge by lia.
Qed.

(** A hand with one more card, with fewer cards. *)
Lemma hand_ok_deal k cards c : hand_ok k cards -> k <= 21 -> valid_card c ->
  hand_ok (k + 1) (<[Z.to_nat k := c]> cards).
Proof.
  intros Hh Hk Hc. pose proof Hh as [Hl Hs Hr Hv].
  split; [by rewrite length_insert|by apply Forall_insert; [|left]|lia|].
  replace (Z.to_nat (k + 1)) with (S (Z.to_nat k)) by lia.
  rewrite (take_S_r _ _ c) by (rewrite list_lookup_insert_eq by lia; done).
  apply Forall_app. split; [|by constructor]. by rewrite take_insert_ge by lia.
Qed.

Lemma hand_ok_fewer k j cards : hand_ok k cards -> 0 <= j <= k -> hand_ok j cards.
Proof.
  intros [Hl Hs Hr Hv] Hj. split; [done..|lia|].
  replace (take (Z.to_nat j) cards) with (take (Z.to_nat j) (take (Z.to_nat k) cards))
    by (rewrite take_take; f_equal; lia). by apply Forall_take.
Qed.

Section Table.
Context (rs : list Z) (atoi : (Z -> Z) -> option Z) (player_a house_a : Z).

(** What is asked of [atoi]: it reads a number of points off every card that is
    not an ace or worth ten. *)
Definition reads_cards : Prop := forall t, In t all_cards ->
  is_card (t ++ [0]) "A" = false -> ten (t ++ [0]) = false ->
  exists p, atoi (fun i => nth (Z.to_nat i) (t ++ [0]) 0) = Some p /\ 1 <= p <= 1000.
Context (Hread : reads_cards).

Lemma is_card_empty c : is_card c String.EmptyString = (hd 0 c =? 0).
Proof.
  unfold is_card, vlibc_strncmp. change (Z.to_nat 1) with 1%nat. cbn [vlibc_strncmp_loop].
  replace (nth (Z.to_nat 0) c 0) with (hd 0 c) by (by destruct c).
  change (chars (text String.EmptyString) 0) with 0. rewrite Z.sub_0_r.
  destruct (hd 0 c =? 0) eqn:E; cbn [negb]; [done|]. by rewrite E.
Qed.

(** Every card of the first [m] counts at least 1, whatever the aces count. *)
Lemma count_hand_cards cards : forall m a v, Forall slot_ok cards ->
  Forall valid_card (take m cards) -> (m <= length cards)%nat ->
  exists a' v', count_hand atoi cards a v = Some (a', v') /\ a <= a' /\
    v - 10 * a + Z.of_nat m <= v' - 10 * a'.
Proof.
  induction cards as [|c cards IH]; intros m a v Hs Hv Hm; cbn [count_hand].
  { cbn in Hm. exists a, v. split; [done|]. lia. }
  apply Forall_cons_1 in Hs as [Hc Hs]. rewrite is_card_empty.
  destruct (hd 0 c =? 0) eqn:E0; b2p.
  { exists a, v. split; [done|]. destruct m as [|m]; [lia|]. cbn in Hv.
    apply Forall_cons_1 in Hv as [Hv _]. destruct (valid_shape c Hv) as (x & y & -> & Hx & _). done. }
  assert (Hvc : valid_card c) by (by destruct Hc as [|[_ ?]]).
  assert (Hnext : forall a1 v1, a <= a1 -> v - 10 * a + 1 <= v1 - 10 * a1 ->
    exists a' v', count_hand atoi cards a1 v1 = Some (a', v') /\ a <= a' /\
      v - 10 * a + Z.of_nat m <= v' - 10 * a').
  { intros a1 v1 H1 H2. destruct (IH (pred m) a1 v1 Hs) as (a' & v' & -> & ? & ?);
      [destruct m; [constructor|by apply Forall_cons_1 in Hv as [_ Hv]]|cbn in Hm; lia|].
    exists a', v'. split; [done|]. lia. }
  destruct (is_card c "A") eqn:EA; [apply Hnext; lia|]. fold (ten c).
  destruct (ten c) eqn:ET; [apply Hnext; lia|]. destruct Hvc as (t & Ht & ->).
  destruct (Hread t Ht EA ET) as (p & -> & Hp). cbn [mbind option_bind]. apply Hnext; lia.
Qed.

(** So the value of a hand is at least the number of its cards. *)
Lemma hand_value_cards k cards : hand_ok k cards ->
  exists v, hand_value atoi cards = Some v /\ k <= v.
Proof.
  intros [Hl Hs Hr Hv]. destruct (count_hand_cards cards (Z.to_nat k) 0 0 Hs Hv) as (a & v & E & Ha & Hb);
    [lia|]. unfold hand_value. rewrite E. cbn [mbind option_bind]. eexists. split; [done|].
  destruct (lower_aces_ok (Z.to_nat a) (v - 11 * a)) as (j & Hj & El & _).
  rewrite Z2Nat.id in El by lia. replace (v - 11 * a + 11 * a) with v in El by lia. rewrite El. lia.
Qed.

(** What is left alone by taking a card. *)
Definition kept (g g' : game) : Prop :=
  next_slot (pl g') = next_slot (pl g) /\ hand_index (pl g') = hand_index (pl g) /\
  h_next_slot (ho g') = h_next_slot (ho g).

Lemma fresh_shoe_returns g m : returns (fun g' => pl g' = pl g /\ ho g' = ho g /\
  length (shoe g') = 312%nat /\ Forall (fun c => In c all_cards) (shoe g')) (fresh_shoe rs g m).
Proof.
  unfold fresh_shoe. eapply returns_bind with (fun _ => True).
  { unfold time. eapply returns_bind with (fun _ => True); [intros ? ?; exact I|].
    intros v m1 _. eapply returns_bind with (fun _ => True); [exact I|]. intros ? ? _. exact I. }
  intros seed m1 _. destruct six_decks as [Hl _].
  destruct (shuffle_loop_ok 311 all_cards (srand seed (g_rng g))) as (s & r & Es & Hp); [rewrite Hl; lia|].
  eapply returns_option; [exact Es|]. cbn. split; [done|]. split; [done|]. split; [by rewrite Hp|].
  rewrite Hp. by apply List.Forall_forall.
Qed.

Lemma table_shoe ns kh g g' : table ns kh g -> pl g' = pl g -> ho g' = ho g ->
  length (shoe g') = 312%nat /\ Forall (fun c => c = [] \/ In c all_cards) (shoe g') -> table ns kh g'.
Proof. intros [_ H1 H2 H3] E1 E2 H0. split; by rewrite ?E1, ?E2. Qed.

Lemma pop_shoe_returns ns kh g m : table ns kh g ->
  returns (fun '(c, g') => In c all_cards /\ table ns kh g' /\ kept g g' /\ pl g' = pl g /\ ho g' = ho g)
    (pop_shoe rs g m).
Proof.
  intros T. destruct (tb_shoe _ _ _ T) as [Hl Hs]. unfold pop_shoe.
  destruct (shoe g) as [|top s] eqn:Es; [done|]. eapply returns_option; [done|].
  eapply returns_bind with (fun g1 => table ns kh g1 /\ pl g1 = pl g /\ ho g1 = ho g /\
    exists c s', shoe g1 = c :: s' /\ In c all_cards).
  - apply Forall_cons_1 in Hs as [Hc Hs]. destruct Hc as [->|Hc].
    + cbn. ret_say. eapply returns_mono; [apply fresh_shoe_returns|].
      intros g1 (E1 & E2 & L1 & F1). split; [|split; [done|split; [done|]]].
      * eapply table_shoe; [exact T|done|done|]. split; [done|].
        eapply List.Forall_impl; [|exact F1]. by right.
      * destruct (shoe g1) as [|c s']; [done|]. apply Forall_cons_1 in F1 as [F1 _]. by exists c, s'.
    + destruct (two_chars top Hc) as (a & b & -> & Ha & _).
      replace (vlibc_strncmp (chars [a; b]) (chars []) 1 =? 0) with false.
      { cbn. split; [done|]. split; [done|]. split; [done|]. by exists [a; b], s. }
      symmetry. apply Z.eqb_neq. unfold vlibc_strncmp. cbn. by destruct a.
  - intros g1 m1 (T1 & E1 & E2 & c & s' & Es' & Hc). eapply returns_option; [by rewrite Es'|].
    cbn. split; [done|]. split; [|unfold kept; cbn; by rewrite E1, E2].
    destruct (tb_shoe _ _ _ T1) as [L1 F1]. eapply table_shoe; [exact T1|done|done|].
    cbn [shoe with_shoe]. rewrite Es' in *. unfold shift_up. change (drop 1 (c :: s')) with s'.
    rewrite length_app. split; [cbn in *; lia|]. apply Forall_cons_1 in F1 as [_ F1]. apply Forall_app. split; [done|].
    constructor; [by left|constructor].
Qed.
(** *** Dealing *)

Lemma hands_lookup ns kh g h : table ns kh g -> 0 <= h < 4 ->
  exists k cards, ns !! Z.to_nat h = Some k /\ hand (pl g) !! Z.to_nat h = Some cards /\ hand_ok k cards.
Proof.
  intros [_ H1 (H2 & _) _] Hh. destruct (lookup_lt_is_Some_2 ns (Z.to_nat h)) as [k Hk]; [lia|].
  destruct (Forall2_lookup_l _ _ _ _ _ H1 Hk) as (cards & Hc & Ho). by exists k, cards.
Qed.

Lemma deal_player_returns ns kh g h k m : table ns kh g -> 0 <= h < 4 ->
  ns !! Z.to_nat h = Some k -> k <= 21 ->
  returns (fun g' => table (<[Z.to_nat h := k + 1]> ns) kh g' /\ kept g g') (deal_player rs g h k m).
Proof.
  intros T Hh Hk H21. unfold deal_player. eapply returns_bind; [by apply pop_shoe_returns|].
  intros [c g1] m1 (Hc & T1 & K1 & E1 & E2).
  destruct (hands_lookup _ _ _ h T1 Hh) as (k' & cards & Hk' & Hcards & Hok).
  assert (k' = k) as -> by congruence.
  eapply returns_option; [by rewrite index_lookup by lia|].
  destruct (put_card_ok k cards k c Hok) as (cards' & x & Ep & -> & _ & Hx); [destruct Hok; lia|by right|].
  eapply returns_option; [exact Ep|]. pose proof (Forall2_length (tb_hands _ _ _ T1)) as Hlen.
  destruct T1 as [T0 T1 (T2 & T3 & T4) T5].
  eapply returns_option; [apply store_at_insert; lia|]. cbn. split; [|exact K1].
  split; [exact T0| |by rewrite length_insert|exact T5]. cbn.
  apply Forall2_insert; [done|]. apply hand_ok_deal; [done|done|by apply Hx].
Qed.

Lemma deal_house_returns ns kh g m : table ns kh g -> kh <= 21 ->
  returns (fun g' => table ns (kh + 1) g' /\ kept g g') (deal_house rs g kh m).
Proof.
  intros T H21. unfold deal_house. eapply returns_bind; [by apply pop_shoe_returns|].
  intros [c g1] m1 (Hc & [T0 T1 T2 T3] & K1 & E1 & E2).
  destruct (put_card_ok kh _ kh c T3) as (cards' & x & Ep & -> & _ & Hx); [destruct T3; lia|by right|].
  eapply returns_option; [exact Ep|]. cbn. split; [|exact K1].
  split; [exact T0|exact T1|exact T2|]. cbn. apply hand_ok_deal; [done|done|by apply Hx].
Qed.

Lemma print_cards_returns card n : forall i m,
  (forall j, i <= j < i + Z.of_nat n -> is_Some (card j)) ->
  returns (fun _ => True) (print_cards n card i m).
Proof.
  induction n as [|n IH]; intros i m Hc; cbn [print_cards]; [done|].
  destruct (Hc i) as [c E]; [lia|]. eapply returns_option; [exact E|]. ret_say. apply IH.
  intros j Hj. apply Hc. lia.
Qed.

Lemma hand_card ns kh g h i : table ns kh g -> 0 <= h < 4 -> 0 <= i < 22 ->
  is_Some (player_card player_a g h i).
Proof.
  intros T Hh Hi. destruct (hands_lookup _ _ _ h T Hh) as (k & cards & _ & Hc & [Hl _ _ _]).
  unfold player_card. rewrite index_lookup, Hc by lia. cbn [mbind option_bind].
  rewrite index_lookup by lia. destruct (lookup_lt_is_Some_2 cards (Z.to_nat i)) as [c ->]; [lia|].
  by eexists.
Qed.

Lemma print_player_hand_returns ns kh g h m : table ns kh g -> 0 <= h < 4 ->
  returns (fun _ => True) (print_player_hand player_a g h m).
Proof.
  intros T Hh. unfold print_player_hand. ret_say.
  eapply returns_bind; [|intros ? ? _; by intros ? ?].
  apply print_cards_returns. intros j Hj. eapply hand_card; [exact T|done|lia].
Qed.

Lemma house_card_some ns kh g i : table ns kh g -> 0 <= i < 22 -> is_Some (house_card house_a g i).
Proof.
  intros [_ _ _ [Hl _ _ _]] Hi. unfold house_card. rewrite index_lookup by lia.
  destruct (lookup_lt_is_Some_2 (h_hand (ho g)) (Z.to_nat i)) as [c ->]; [lia|]. by eexists.
Qed.

Lemma print_house_hand_returns ns kh g m : table ns kh g ->
  returns (fun _ => True) (print_house_hand house_a g m).
Proof.
  intros T. unfold print_house_hand. eapply returns_bind; [|intros ? ? _; by intros ? ?].
  apply print_cards_returns. intros j Hj. eapply house_card_some; [exact T|lia].
Qed.

(** *** The house's turn: every card counts, so seventeen are enough. *)
Lemma house_turn_returns ns fuel : forall g m, table ns (h_next_slot (ho g)) g ->
  (Z.to_nat (17 - h_next_slot (ho g)) < fuel)%nat ->
  returns (fun g' => table ns (h_next_slot (ho g')) g' /\ hand_index (pl g') = hand_index (pl g) /\
    next_slot (pl g') = next_slot (pl g)) (house_turn rs atoi house_a fuel g m).
Proof.
  induction fuel as [|f IH]; intros g m T Hf; [lia|]. cbn [house_turn].
  destruct (hand_value_cards _ _ (tb_house _ _ _ T)) as (v & Ev & Hv).
  eapply returns_option; [exact Ev|]. set (g1 := with_ho (set_h_value v (ho g)) g).
  assert (T1 : table ns (h_next_slot (ho g1)) g1) by (destruct T; by split).
  destruct (21 <? v) eqn:E1; b2p.
  { eapply returns_bind; [by eapply print_house_hand_returns|]. intros ? ? _. ret_say. cbn.
    split; [by destruct T; split|done]. }
  destruct (17 <=? v) eqn:E2; b2p.
  { ret_say. eapply returns_bind; [by eapply print_house_hand_returns|]. intros ? ? _. cbn.
    split; [by destruct T; split|done]. }
  eapply returns_bind; [apply deal_house_returns; [exact T1|cbn; lia]|].
  intros g2 m2 ([T2a T2b T2c T2d] & K1 & K2 & K3).
  eapply returns_mono; [apply IH|].
  - cbn [ho with_ho h_next_slot set_h_next_slot]. rewrite K3. by split.
  - cbn [ho with_ho h_next_slot set_h_next_slot]. rewrite K3. cbn. lia.
  - cbn. intros g' (Tg & H1 & H2). split; [done|]. by rewrite H1, H2, K1, K2.
Qed.

(** *** The player's turn

    [h] is the hand that is played, [n] how often the hands were split: the
    hands from [h] on have at most 21 cards. *)
Record turn (h n : Z) (g : game) : Prop := {
  tn_table : table (next_slot (pl g)) (h_next_slot (ho g)) g;
  tn_range : 0 <= h <= n /\ n <= 3;
  tn_index : hand_index (pl g) = n;
  tn_slots : forall j s, h <= j -> next_slot (pl g) !! Z.to_nat j = Some s -> s <= 21 }.

(** The same of the hands after [h]. *)
Record rest (h n : Z) (g : game) : Prop := {
  rs_table : table (next_slot (pl g)) (h_next_slot (ho g)) g;
  rs_range : 0 <= h <= n /\ n <= 3;
  rs_index : hand_index (pl g) = n;
  rs_slots : forall j s, h + 1 <= j -> next_slot (pl g) !! Z.to_nat j = Some s -> s <= 21 }.

Lemma turn_rest h n g : turn h n g -> rest h n g.
Proof. intros [T R I S]. split; [done..|]. intros j s Hj. apply S. lia. Qed.

Definition played (g : game) : Prop :=
  table (next_slot (pl g)) (h_next_slot (ho g)) g /\ 0 <= hand_index (pl g) <= 3.

Lemma turn_played h n g : turn h n g -> played g.
Proof. intros [T R I _]. split; [done|]. rewrite I. lia. Qed.

Definition after_ok (h n : Z) (r : game * after_action) : Prop :=
  match snd r with
  | Turn_over => played (fst r)
  | Continue => turn h n (fst r)
  | Next h' n' => turn h' n' (fst r)
  end.

(** The totals and results of the hands do not matter. *)
Definition same_cards (g g' : game) : Prop :=
  shoe g' = shoe g /\ ho g' = ho g /\ hand (pl g') = hand (pl g) /\
  next_slot (pl g') = next_slot (pl g) /\ hand_index (pl g') = hand_index (pl g) /\
  length (value (pl g')) = length (value (pl g)) /\ length (result (pl g')) = length (result (pl g)).

Lemma table_same ns kh g g' : same_cards g g' -> table ns kh g -> table ns kh g'.
Proof.
  intros (E1 & E2 & E3 & E4 & E5 & E6 & E7) [H1 H2 H3 H4]. split; by rewrite ?E1, ?E2, ?E3, ?E6, ?E7.
Qed.

Lemma turn_same h n g g' : same_cards g g' -> turn h n g -> turn h n g'.
Proof.
  intros E [T R I S]. pose proof E as (E1 & E2 & E3 & E4 & E5 & _). split; rewrite ?E2, ?E4, ?E5; try done.
  by eapply table_same.
Qed.

Lemma rest_same h n g g' : same_cards g g' -> rest h n g -> rest h n g'.
Proof.
  intros E [T R I S]. pose proof E as (E1 & E2 & E3 & E4 & E5 & _). split; rewrite ?E2, ?E4, ?E5; try done.
  by eapply table_same.
Qed.

Lemma rest_played h n g : rest h n g -> played g.
Proof. intros [T R I _]. split; [done|]. rewrite I. lia. Qed.

Lemma hand_over_ok h n g : rest h n g -> after_ok h n (g, hand_over h n).
Proof.
  intros Hr. unfold hand_over, after_ok. destruct (h =? n) eqn:E; b2p; cbn [fst snd];
    [by eapply rest_played|]. destruct Hr as [T R I S]. split; [done|lia|done|done].
Qed.

(** The slot, the cards and the value of the hand that is played. *)
Lemma turn_hand h n g : turn h n g -> exists s cards v, 0 <= h < 4 /\
  next_slot (pl g) !! Z.to_nat h = Some s /\ hand (pl g) !! Z.to_nat h = Some cards /\
  index (next_slot (pl g)) h = Some s /\ index (hand (pl g)) h = Some cards /\ hand_ok s cards /\
  0 <= s <= 21 /\ hand_value_player atoi g h = Some v /\ s <= v.
Proof.
  intros [T R I S]. destruct (hands_lookup _ _ _ h T) as (s & cards & Hs & Hc & Hok); [lia|].
  destruct (hand_value_cards _ _ Hok) as (v & Ev & Hv). exists s, cards, v.
  rewrite !index_lookup by lia. specialize (S h s ltac:(lia) Hs). pose proof (hk_range _ _ Hok).
  split; [lia|]. split; [done|]. split; [done|]. split; [done|]. split; [done|]. split; [done|].
  split; [lia|]. unfold hand_value_player. rewrite index_lookup, Hc by lia. done.
Qed.

(** One more card for the hand that is played. *)
Record drawn (h n k : Z) (g g' : game) : Prop := {
  dn_table : table (<[Z.to_nat h := k + 1]> (next_slot (pl g))) (h_next_slot (ho g)) g';
  dn_kept : kept g g' }.

Lemma drawn_slots h n k g g' : turn h n g -> drawn h n k g g' ->
  store_at (next_slot (pl g')) h (k + 1) = Some (<[Z.to_nat h := k + 1]> (next_slot (pl g))).
Proof.
  intros [T R I S] [_ (K1 & _)]. destruct (tb_four _ _ _ T) as [Hl _].
  rewrite K1. apply store_at_insert. lia.
Qed.

(** The state after the card, with the slot counted. *)
Definition counted (h k : Z) (g g' : game) : game :=
  with_pl (set_next_slot (<[Z.to_nat h := k + 1]> (next_slot (pl g))) (pl g')) g'.

Lemma counted_table h n k g g' : drawn h n k g g' ->
  table (next_slot (pl (counted h k g g'))) (h_next_slot (ho (counted h k g g'))) (counted h k g g').
Proof.
  intros [[T1 T2 T3 T4] (_ & _ & K3)]. cbn. rewrite K3. by split.
Qed.

Lemma counted_rest h n k g g' : turn h n g -> drawn h n k g g' -> rest h n (counted h k g g').
Proof.
  intros [T R I S] D. split; [by eapply counted_table|done|by destruct D as [_ (_ & K2 & _)]; cbn; rewrite K2|].
  intros j s Hj Hs. cbn in Hs. apply list_lookup_insert_Some in Hs as [(E & _ & _)|(_ & Hs)]; [lia|].
  apply (S j); [lia|done].
Qed.

Lemma counted_turn h n k g g' : turn h n g -> drawn h n k g g' -> k + 1 <= 21 ->
  turn h n (counted h k g g').
Proof.
  intros [T R I S] D Hk. split; [by eapply counted_table|done|by destruct D as [_ (_ & K2 & _)]; cbn; rewrite K2|].
  intros j s Hj Hs. cbn in Hs. apply list_lookup_insert_Some in Hs as [(_ & <- & _)|(_ & Hs)]; [done|].
  by apply (S j).
Qed.

(** The game after the totals and the results are noted. *)
Definition noted (vs rs0 : list Z) (g : game) : game :=
  with_pl (set_result rs0 (set_value vs (pl g))) g.

Lemma noted_same g vs rs0 : length vs = length (value (pl g)) -> length rs0 = length (result (pl g)) ->
  same_cards g (noted vs rs0 g).
Proof. intros. repeat split; done. Qed.

Lemma stand_returns h n g m : turn h n g -> returns (after_ok h n) (stand atoi g h n m).
Proof.
  intros Ht. destruct (turn_hand h n g Ht) as (s & cards & v & Hh & _ & _ & _ & _ & _ & _ & Ev & _).
  destruct (tb_four _ _ _ (tn_table _ _ _ Ht)) as (_ & L1 & L2). unfold stand.
  eapply returns_option; [apply store_at_insert; lia|]. eapply returns_option; [exact Ev|].
  eapply returns_option; [apply store_at_insert; lia|]. cbn [returns mret user_ret].
  apply hand_over_ok, turn_rest. eapply turn_same; [|exact Ht].
  exact (noted_same g _ _ (length_insert _ _ _) (length_insert _ _ _)).
Qed.

(** Taking a card and counting it. *)
Lemma draw_returns h n g k m : turn h n g -> next_slot (pl g) !! Z.to_nat h = Some k -> 0 <= k <= 21 ->
  returns (fun g' => drawn h n k g g') (deal_player rs g h k m).
Proof.
  intros Ht Hk Hr. eapply returns_mono; [eapply deal_player_returns; [apply Ht| |exact Hk|lia]|].
  - pose proof (tn_range _ _ _ Ht). lia.
  - intros g' [T K]. by split.
Qed.

Lemma counted_hand h n k g g' : turn h n g -> drawn h n k g g' -> next_slot (pl g) !! Z.to_nat h = Some k ->
  exists cards first v, index (hand (pl (counted h k g g'))) h = Some cards /\ index cards 0 = Some first /\
    hand_value_player atoi (counted h k g g') h = Some v /\ k + 1 <= v.
Proof.
  intros Ht D Hk. pose proof (counted_table h n k g g' D) as T. pose proof (tn_range _ _ _ Ht).
  destruct (hands_lookup _ _ _ h T) as (k' & cards & Hk' & Hc & Hok); [lia|].
  assert (k' = k + 1) as ->.
  { cbn in Hk'. rewrite list_lookup_insert_eq in Hk'; [congruence|]. by apply lookup_lt_Some in Hk. }
  destruct (hand_value_cards _ _ Hok) as (v & Ev & Hv).
  destruct (lookup_lt_is_Some_2 cards 0%nat) as [first Hf]; [rewrite (hk_length _ _ Hok); lia|].
  exists cards, first, v. unfold hand_value_player. rewrite !index_lookup, Hc by lia. done.
Qed.

Lemma hit_returns h n g m : turn h n g -> returns (after_ok h n) (hit rs atoi player_a g h n m).
Proof.
  intros Ht. destruct (turn_hand h n g Ht) as (k & ? & ? & Hh & Hk & _ & Ik & _ & _ & Hr & _).
  unfold hit. eapply returns_option; [exact Ik|].
  eapply returns_bind; [apply (draw_returns h n); [done|exact Hk|lia]|]. intros g1 m1 D.
  eapply returns_option; [by eapply drawn_slots|].
  destruct (counted_hand h n k g g1 Ht D Hk) as (cards & first & v & Hc & Hf & Ev & Hv).
  change (with_pl _ g1) with (counted h k g g1). set (g2 := counted h k g g1) in *.
  pose proof (counted_table h n k g g1 D) as T2. fold g2 in T2.
  destruct (tb_four _ _ _ T2) as (_ & L1 & L2).
  eapply returns_option; [exact Ev|]. eapply returns_option; [apply store_at_insert; lia|].
  set (vs := <[_ := v]> _). assert (Lv : length vs = length (value (pl g2))) by apply length_insert.
  change (with_pl (set_value vs _) _) with (noted vs (result (pl g2)) g2).
  pose proof (noted_same g2 vs (result (pl g2)) Lv eq_refl) as E3. set (g3 := noted _ _ g2) in *.
  pose proof (table_same _ _ _ _ E3 T2) as T3.
  eapply returns_option; [exact Hc|]. eapply returns_option; [exact Hf|].
  assert (Hover : forall res m, returns (after_ok h n) ((results ← of_option (store_at (result (pl g3)) h res);
    mret (with_pl (set_result results (pl g3)) g3, hand_over h n)) m)).
  { intros res m'. eapply returns_option;
      [apply store_at_insert; change (result (pl g3)) with (result (pl g2)); lia|].
    cbn [returns mret user_ret]. apply hand_over_ok. eapply rest_same; [|by apply (counted_rest h n k g g1)].
    apply (noted_same g2 vs); [done|by rewrite length_insert]. }
  destruct (21 <? v) eqn:E1; b2p.
  { eapply returns_bind; [eapply print_player_hand_returns; [exact T3|lia]|]. intros ? ? _. ret_say.
    exact (Hover 2 _). }
  destruct ((k + 1 =? 2) && _).
  { eapply returns_bind; [eapply print_player_hand_returns; [exact T3|lia]|]. intros ? ? _. ret_say.
    exact (Hover 1 _). }
  cbn. eapply turn_same; [exact E3|]. apply counted_turn with (g := g); [done|done|lia].
Qed.

(** A double down ends the turn of a player with one hand. *)
Lemma double_down_returns h n g m : turn h n g ->
  returns (after_ok h n) (double_down rs atoi player_a g h m).
Proof.
  intros Ht. destruct (turn_hand h n g Ht) as (k & ? & v0 & Hh & Hk & _ & Ik & _ & _ & Hr & Ev0 & _).
  unfold double_down. destruct (negb (has_split (pl g) =? 0)); [by ret_say|].
  eapply returns_option; [exact Ev0|]. eapply returns_option; [exact Ik|].
  repeat (match goal with |- returns _ ((if ?b then _ else _) _) => destruct b end; [by ret_say|]).
  match goal with |- context [deal_player _ ?g0 _ _] => set (g' := g0) end.
  assert (Ht' : turn h n g') by (by eapply turn_same; [|exact Ht]).
  eapply returns_bind; [apply (draw_returns h n g'); [done|exact Hk|lia]|]. intros g1 m1 D.
  eapply returns_option; [by eapply drawn_slots|].
  destruct (counted_hand h n k g' g1 Ht' D Hk) as (cards & first & v & _ & _ & Ev & _).
  change (with_pl _ g1) with (counted h k g' g1). set (g2 := counted h k g' g1) in *.
  pose proof (counted_table h n k g' g1 D) as T2. fold g2 in T2.
  destruct (tb_four _ _ _ T2) as (_ & L1 & L2).
  eapply returns_bind; [eapply print_player_hand_returns; [exact T2|lia]|]. intros ? ? _.
  eapply returns_option; [exact Ev|]. eapply returns_option; [apply store_at_insert; lia|].
  eapply returns_bind with (fun _ => True); [by destruct (21 <? v)|]. intros ? ? _.
  eapply returns_option;
    [apply store_at_insert; change (result (pl (with_pl _ g2))) with (result (pl g2)); lia|].
  cbn [returns mret user_ret]. apply (rest_played h n).
  eapply rest_same; [|by apply (counted_rest h n k g' g1)].
  exact (noted_same g2 _ _ (length_insert _ _ _) (length_insert _ _ _)).
Qed.

(** The hands after a split: one card stays, the other starts the next hand. *)
Definition split_game (h : Z) (cards next_cards : list (list Z)) (g : game) : game :=
  with_pl (set_has_split 1 (set_next_slot
      (<[Z.to_nat (h + 1) := 1]> (<[Z.to_nat h := 1]> (next_slot (pl g))))
      (set_hand_index (hand_index (pl g) + 1)
        (set_hand (<[Z.to_nat h := cards]> (<[Z.to_nat (h + 1) := next_cards]> (hand (pl g))))
          (set_money (s32 (money (pl g) - bet_size (pl g))) (pl g)))))) g.

Lemma split_game_turn h n g cards next_cards : turn h n g -> n < 3 ->
  hand_ok 1 cards -> hand_ok 1 next_cards -> turn h (n + 1) (split_game h cards next_cards g).
Proof.
  intros [[T0 T1 (T2 & T3 & T4) T5] R I S] Hn Hc Hx. split; cbn; [|lia|lia|].
  - split; cbn; [done| |by rewrite !length_insert|done].
    rewrite (list_insert_insert_ne (next_slot (pl g))) by lia.
    apply Forall2_insert; [|done]. by apply Forall2_insert.
  - intros j s Hj Hs. apply list_lookup_insert_Some in Hs as [(_ & <- & _)|(_ & Hs)]; [lia|].
    apply list_lookup_insert_Some in Hs as [(_ & <- & _)|(_ & Hs)]; [lia|by apply (S j)].
Qed.

(** What is done to the two hands. *)
Lemma split_cards k cards next_k next_cards : hand_ok k cards -> hand_ok next_k next_cards -> 2 <= k ->
  exists second cards' next_cards', index cards 1 = Some second /\
    put_card next_cards 0 (card_text second) = Some next_cards' /\
    put_card cards 1 [] = Some cards' /\ hand_ok 1 cards' /\ hand_ok 1 next_cards'.
Proof.
  intros Hc Hx Hk. pose proof (hk_length _ _ Hc) as Hl.
  destruct (lookup_lt_is_Some_2 cards 1%nat) as [second Hs]; [lia|].
  assert (Hv : valid_card second).
  { pose proof (hk_cards _ _ Hc) as Hv. rewrite List.Forall_forall in Hv.
    apply Hv, list_elem_of_In, (list_elem_of_lookup_2 _ 1%nat). rewrite lookup_take_lt by lia. done. }
  assert (Ht : In (card_text second) all_cards).
  { destruct (valid_shape _ Hv) as (a & b & -> & Ha & Hb & Hi). cbn [card_text].
    by rewrite (proj2 (Z.eqb_neq a 0)), (proj2 (Z.eqb_neq b 0)) by done. }
  destruct (put_card_ok next_k next_cards 0 (card_text second) Hx) as (nc & x & E1 & -> & _ & Hxv);
    [lia|by right|].
  destruct (put_card_ok k cards 1 [] Hc) as (cs & y & E2 & -> & Hy & _); [lia|by left|].
  exists second. do 2 eexists. split; [exact Hs|]. split; [exact E1|]. split; [exact E2|]. split.
  - apply (hand_ok_insert 1 cards 1); [by apply (hand_ok_fewer k); [|lia]|done|lia|lia].
  - apply (hand_ok_deal 0); [apply (hand_ok_fewer next_k); [done|]|lia|by apply Hxv].
    destruct Hx; lia.
Qed.

Lemma split_returns h n g m : turn h n g -> returns (after_ok h n) (split atoi player_a g h n m).
Proof.
  intros Ht. destruct (turn_hand h n g Ht) as (k & cards & v & Hh & Hk & Hc & Ik & Ic & Hok & Hr & Ev & _).
  pose proof (tn_table _ _ _ Ht) as T. pose proof (tn_range _ _ _ Ht) as R. unfold split.
  destruct (hand_card _ _ _ h 0 T Hh ltac:(lia)) as [c0 E0].
  destruct (hand_card _ _ _ h 1 T Hh ltac:(lia)) as [c1 E1].
  eapply returns_option; [exact E0|]. eapply returns_option; [exact E1|]. ret_say.
  eapply returns_option; [exact Ik|]. eapply returns_option; [exact Ic|].
  pose proof (hk_length _ _ Hok) as Hl.
  destruct (lookup_lt_is_Some_2 cards 0%nat) as [first Hf]; [lia|].
  destruct (lookup_lt_is_Some_2 cards 1%nat) as [second' Hs]; [lia|].
  eapply returns_option; [exact Hf|]. eapply returns_option; [exact Hs|].
  destruct (k =? 2) eqn:E2; cbn [negb]; b2p; [|by ret_say]. eapply returns_option; [exact Ev|].
  destruct (negb _ && negb _); [by ret_say|]. destruct (n =? 3) eqn:E3; b2p; [by ret_say|].
  destruct (_ <? _); [by ret_say|].
  destruct (hands_lookup _ _ _ (h + 1) T ltac:(lia)) as (k' & next_cards & _ & Hn & Hnok).
  destruct (split_cards k cards k' next_cards Hok Hnok ltac:(lia))
    as (second & cards' & next' & Is & P1 & P2 & H1 & H2).
  assert (second' = second) as ->
    by (change (index cards 1) with (cards !! 1%nat) in Is; congruence).
  pose proof (Forall2_length (tb_hands _ _ _ T)) as Hlen. destruct (tb_four _ _ _ T) as [H4 _].
  eapply returns_option; [rewrite index_lookup by lia; exact Hn|]. eapply returns_option; [exact P1|].
  eapply returns_option; [apply store_at_insert; cbn; lia|]. subst k. change (2 - 1) with 1.
  eapply returns_option; [exact P2|]. eapply returns_option; [apply store_at_insert; rewrite length_insert; cbn; lia|].
  eapply returns_option; [apply store_at_insert; cbn; lia|].
  eapply returns_option; [apply store_at_insert; rewrite length_insert; cbn; lia|].
  exact (split_game_turn h n g cards' next' Ht ltac:(lia) H1 H2).
Qed.

Lemma player_turn_returns input : forall g h n m, turn h n g ->
  returns (fun '(_, g', _) => played g') (player_turn rs atoi player_a input g h n m).
Proof.
  induction input as [|a input IH]; intros g h n m Ht; cbn [player_turn].
  { do 2 ret_say. cbn. by eapply turn_played. }
  ret_say. destruct a as [action|]; [|ret_say; cbn; by eapply turn_played].
  eapply returns_bind with (after_ok h n).
  - unfold take_action. repeat match goal with |- context [if ?b then _ else _] => destruct b end;
      [by apply hit_returns|by apply double_down_returns|by apply stand_returns|by apply split_returns|].
    by ret_say.
  - intros [g' after] m' Ha. unfold after_ok in Ha. cbn [fst snd] in Ha.
    destruct after as [| |h' n']; [done|by apply IH|].
    eapply returns_bind; [|intros ? ? _; by apply IH].
    eapply print_player_hand_returns; [apply Ha|]. pose proof (tn_range _ _ _ Ha). lia.
Qed.

(** *** A round

    Before it only the shoe and the shape of the house's slots matter. *)
Record ready_table (g : game) : Prop := {
  rt_shoe : length (shoe g) = 312%nat /\ Forall (fun c => c = [] \/ In c all_cards) (shoe g);
  rt_house : hand_ok 0 (h_hand (ho g)) }.

Lemma played_ready g : played g -> ready_table g.
Proof. intros [[T0 _ _ T3] _]. split; [done|]. eapply hand_ok_fewer; [exact T3|]. destruct T3; lia. Qed.

Lemma no_hand_ok : hand_ok 0 no_hand.
Proof.
  split; [done| |lia|constructor]. apply List.Forall_forall. intros c Hc%repeat_spec. subst. by right.
Qed.

Lemma clear_house_ok cards : hand_ok 0 cards -> hand_ok 0 (clear_house_cards cards).
Proof.
  intros [Hl Hs _ _]. unfold clear_house_cards.
  split; [rewrite length_app, length_map, length_take, length_drop; lia| |lia|constructor].
  apply Forall_app. split; [|by apply Forall_drop]. apply List.Forall_forall. intros c Hc.
  apply in_map_iff in Hc as (x & <- & _). by right.
Qed.

Lemma print_nothing_returns n : forall m, returns (fun _ => True) (print_nothing n m).
Proof. induction n as [|n IH]; intros m; cbn [print_nothing]; [done|]. ret_say. apply IH. Qed.

(** The state in which the cards are dealt. *)
Definition cleared (g : game) : Prop :=
  table (repeat 0 4) 0 g /\ next_slot (pl g) = repeat 0 4 /\ hand_index (pl g) = 0 /\
  h_next_slot (ho g) = 0.

Lemma reset_hands_returns g m : ready_table g -> returns cleared (reset_hands g m).
Proof.
  intros [R1 R2]. unfold reset_hands. eapply returns_bind; [apply print_nothing_returns|].
  intros ? ? _. cbn [returns mret user_ret]. split; [|done].
  split; [done| |done|by apply clear_house_ok].
  change (Forall2 hand_ok [0; 0; 0; 0] [no_hand; no_hand; no_hand; no_hand]).
  repeat (apply List.Forall2_cons; [exact no_hand_ok|]). apply List.Forall2_nil.
Qed.

Lemma place_bet_returns bets : forall g m, cleared g ->
  returns (fun '(r, _) => match r with Some g' => cleared g' | None => True end) (place_bet bets g m).
Proof.
  induction bets as [|[bet|] bets IH]; intros g m Hc; cbn [place_bet]; [by do 2 ret_say| |by do 2 ret_say].
  ret_say. destruct (_ || _); [ret_say; by apply IH|]. cbn.
  destruct Hc as ([T0 T1 T2 T3] & H1 & H2 & H3). split; [by split|done].
Qed.

Lemma deal_returns g m : cleared g -> returns (turn 0 0) (deal rs g m).
Proof.
  intros (T & N & I & K). unfold deal. rewrite I.
  eapply returns_bind; [by apply (deal_player_returns (repeat 0 4) 0 g 0 0 m T)|]. intros g1 m1 (T1 & N1 & I1 & K1).
  eapply returns_bind; [by apply (deal_house_returns _ 0 _ _ T1)|]. intros g2 m2 (T2 & N2 & I2 & K2).
  eapply returns_bind; [by apply (deal_player_returns _ _ g2 0 1 m2 T2)|].
  intros g3 m3 (T3 & N3 & I3 & K3).
  eapply returns_bind; [by apply (deal_house_returns _ 1 _ _ T3)|]. intros g4 m4 ([A1 A2 A3 A4] & N4 & I4 & K4).
  assert (EN : next_slot (pl g4) = repeat 0 4) by congruence. rewrite EN.
  eapply returns_option; [reflexivity|]. eapply returns_option; [reflexivity|]. cbn.
  split; cbn; [|lia|congruence|].
  - rewrite K4, K3, K2, K1, K. by split.
  - intros j s _ Hs. destruct (Z.to_nat j) as [|[|[|[|?]]]]; cbn in Hs; try done; injection Hs as <-; lia.
Qed.

Lemma settle_returns n : forall g hv i m, played g -> 0 <= i -> i + Z.of_nat n <= 4 ->
  returns played (settle n g hv i m).
Proof.
  induction n as [|n IH]; intros g hv i m Hp Hi Hn; cbn [settle]; [done|].
  pose proof Hp as [T R]. destruct (tb_four _ _ _ T) as (L0 & L1 & _).
  destruct (lookup_lt_is_Some_2 (value (pl g)) (Z.to_nat i)) as [v Ev]; [lia|].
  destruct (lookup_lt_is_Some_2 (next_slot (pl g)) (Z.to_nat i)) as [k Ek]; [lia|].
  eapply returns_option; [by rewrite index_lookup by lia|].
  eapply returns_option; [by rewrite index_lookup by lia|]. ret_say.
  apply IH; [|lia|lia]. destruct T. by split; [split|].
Qed.

Lemma round_returns fuel bets actions g m : (18 <= fuel)%nat -> ready_table g ->
  returns (fun '(r, _, _) => match r with Some g' => ready_table g' | None => True end)
    (round rs atoi player_a house_a fuel bets actions g m).
Proof.
  intros Hf Hr. unfold round. ret_say.
  eapply returns_bind; [by apply reset_hands_returns|]. intros g1 m1 C1.
  eapply returns_bind; [by apply place_bet_returns|]. intros [[g2|] bets'] m2 C2; [|done].
  eapply returns_bind; [by apply deal_returns|]. intros g3 m3 Ht.
  pose proof (tn_table _ _ _ Ht) as T3. unfold print_house_hand_hidden.
  destruct (house_card_some _ _ g3 1 T3 ltac:(lia)) as [c Ec].
  eapply returns_bind with (fun _ => True); [by eapply returns_option; [exact Ec|]; intros ? ?|].
  intros ? ? _. eapply returns_bind; [eapply print_player_hand_returns; [exact T3|];
    rewrite (tn_index _ _ _ Ht); lia|]. intros ? ? _.
  eapply returns_bind; [by apply player_turn_returns|]. intros [[lost g4] actions'] ? P4.
  destruct lost; [done|].
  eapply returns_bind with played.
  { destruct (forallb _ _); [by ret_say|]. destruct P4 as [T4 I4].
    eapply returns_mono; [apply house_turn_returns; [exact T4|]|].
    - pose proof (hk_range _ _ (tb_house _ _ _ T4)). lia.
    - intros g' (T' & I' & N'). split; [by rewrite N'|by rewrite I']. }
  intros g5 ? P5. pose proof P5 as [_ R5].
  eapply returns_bind; [apply settle_returns; [exact P5|lia|lia]|].
  intros g6 ? P6. cbn. by apply played_ready.
Qed.
End Table.

(** C23. A round stays inside the arrays and keeps the accounts: with 312 places
    of cards and empty strings in the shoe, whatever is bet, played and drawn,
    splitting and doubling included, every hand, slot, total and result that is
    accessed exists (a hand of 22 cards is over 21, no hand is split a fourth
    time, eighteen steps are enough for the house), the round ends, the money
    afterwards is between 0 and twice the money before, no sum of money
    overflowing up to 2^30, and the table is ready for another round. *)
Theorem round_bounds rs atoi player_a house_a fuel bets actions g m :
  reads_cards atoi -> (18 <= fuel)%nat -> ready_table g -> 0 <= money (pl g) < 2 ^ 30 ->
  returns (fun '(r, _, _) => match r with
                             | Some g' => 0 <= money (pl g') <= 2 * money (pl g) /\ ready_table g'
                             | None => True
                             end)
    (round rs atoi player_a house_a fuel bets actions g m).
Proof.
  intros Hread Hf Hr Hm. eapply returns_mono.
  - apply returns_ensures; [apply (round_money rs atoi player_a house_a (money (pl g))); [lia|lia|done]|].
    by apply round_returns.
  - intros [[[g'|] ?] ?] [H1 H2]; [by split|done].
Qed.

(** ** Runs *)

(** The board's program: it prints the welcome and the first prompt and ends. *)
Definition clock (regs : list Z) (m : mem) (w : ()) : option (Z * mem * ()) := Some (77, m, w).

Lemma board_exits : exists g ps, run clock (main (repeat 9 15) (atoi 9) 100 500 3 [None] [] g) [] ()
    = Some (1, g, ps, ()) /\
  rendered ps = text "Welcome to the best blackjack simulator!" ++ [10] ++
    [10] ++ text " *** new hand ***" ++ [10] ++
    text "You have $1500, please enter a bet size: " ++ text "Error: Invalid input. Exiting now." ++ [10].
Proof. eexists (fun _ => 0), _. split; [by vm_compute|by vm_compute]. Qed.

(** The library's [atoi] takes the suit for a digit: a nine counts 114. *)
Lemma nine_of_hearts : hand_value (atoi 9) (text "9H" :: repeat [0; 0; 0] 21) = Some 114.
Proof. by vm_compute. Qed.

Lemma shoe_deals_six_decks_witness :
  exists cards g', run clock ((g ← fresh_shoe (repeat 9 15) (Game player_bss house_bss [] rng_start);
      pops (repeat 9 15) 312 g) (fun _ => 0)) [] () = Some (cards, g', fun _ => 0, [], ()) /\
    cards ≡ₚ all_cards /\ length all_cards = 312%nat /\
    Forall (fun c => length (List.filter (fun x => bool_decide (x = c)) all_cards) = 6%nat) all_cards /\
    shoe g' = repeat [] 312.
Proof. exact (shoe_deals_six_decks clock (repeat 9 15) _ (fun _ => 0) () 77 eq_refl []). Defined.

Lemma hand_value_best_witness :
  exists v, hand_value (atoi 9) [text "AH"; text "KD"; text "AC"; [0; 0; 0]] = Some v /\
    total (atoi 9) [text "AH"; text "KD"; text "AC"; [0; 0; 0]] v /\
    (forall t, total (atoi 9) [text "AH"; text "KD"; text "AC"; [0; 0; 0]] t -> t <= 21 -> t <= v <= 21) /\
    (21 < v -> forall t, total (atoi 9) [text "AH"; text "KD"; text "AC"; [0; 0; 0]] t -> v <= t).
Proof.
  apply (hand_value_best (atoi 9)). repeat apply List.Forall_cons; try (by eexists; vm_compute).
  apply List.Forall_nil.
Defined.

(** The library's [atoi] reads every card, though not its points. *)
Lemma library_reads_cards : reads_cards (atoi 9).
Proof.
  intros t Ht HA HT. assert (Hb : forallb (fun t => is_card (t ++ [0]) "A" || ten (t ++ [0]) ||
    match atoi 9 (fun i => nth (Z.to_nat i) (t ++ [0]) 0) with
    | Some p => (1 <=? p) && (p <=? 1000) | None => false end) all_cards = true) by (by vm_compute).
  rewrite forallb_forall in Hb. specialize (Hb t Ht). rewrite HA, HT in Hb. cbn [orb] in Hb.
  destruct (atoi 9 _) as [p|]; [|done]. exists p. split; [done|]. lia.
Qed.

Definition demo_game : game :=
  with_pl (set_money 1500 player_bss) (Game player_bss house_bss all_cards rng_start).

Lemma demo_ready : ready_table demo_game.
Proof.
  split; [|exact no_hand_ok]. split; [done|]. apply List.Forall_forall. by right.
Qed.

Lemma round_bounds_witness :
  returns (fun '(r, _, _) => match r with
                             | Some g' => 0 <= money (pl g') <= 2 * 1500 /\ ready_table g'
                             | None => True
                             end)
    (round (repeat 9 15) (atoi 9) 100 500 18 [Some 10] [Some (text "stand")] demo_game (fun _ => 0)).
Proof.
  apply (round_bounds (repeat 9 15) (atoi 9) 100 500 18 [Some 10] [Some (text "stand")] demo_game
    (fun _ => 0) library_reads_cards); [lia|exact demo_ready|cbn; lia].
Defined.
