(* ===== verification/Shell.v ===== *)
(** * The shell: userspace/shell.c

    [create_argv] cuts a line into the argument table that [execve] takes;
    [parse_input] runs the built-in commands and starts programs; [read_line] is
    the line editor of [main].  The shell's objects are at the addresses of
    [layout_]; [n] is the fuel of the loops over strings, [f] that of the
    formatter and [int_buffer] what its local array holds.  Debugging output,
    which is compiled out by [argv_debug=0], is left out. *)

From stdpp Require Import base list numbers.
From Stdlib Require Import ZArith Lia.
From Stdlib Require String.
From S2P Require Import Prelude ArmMemset CString Romfs Process Sched Mmio Gpio Serial Console Interrupts Files Printk I2c Exec Syscalls User Vlibc.
Import String.StringSyntax.

(** ** create_argv *)

(** The end of the word at [string + ptr]. *)
Fixpoint word_end (fuel : nat) (m : mem) (string ptr : Z) : option Z :=
  match fuel with
  | O => None
  | S f =>
      if negb (m (string + ptr) =? 32) && negb (m (string + ptr) =? 0)
      then word_end f m string (ptr + 1) else Some ptr
  end.

(** The number of arguments, [*background] and the memory; [arguments] is the
    table.  There is no check of its size. *)
Fixpoint argv_loop (fuel : nat) (m : mem) (arguments string count ptr : Z)
    : option (Z * Z * mem) :=
  match fuel with
  | O => None
  | S f =>
      let m := store32 m (arguments + 4 * count) (string + ptr) in
      if m (string + ptr) =? 38 then Some (count, 1, store32 m (arguments + 4 * count) 0)
      else
        ptr ← word_end fuel m string ptr;
        let count := count + 1 in
        if m (string + ptr) =? 0 then Some (count, 0, store32 m (arguments + 4 * count) 0)
        else argv_loop f (upd m (string + ptr) 0) arguments string count (ptr + 1)
  end.

Definition create_argv (fuel : nat) (m : mem) (arguments string : Z) : option (Z * Z * mem) :=
  argv_loop fuel m arguments string 0 0.

(** [result] counts the slashes. *)
Definition is_relative (fuel : nat) (m : mem) (string : Z) : option Z :=
  length ← vlibc_strlen fuel (at_ m string);
  Some (for_up (Z.to_nat length) 0
          (fun i result => if m (string + i) =? 47 then result + 1 else result) 0).

(** ** Commands *)

Definition VERSION : list Z := text "13.1".

Definition print_help (version : Z) : user Z :=
  say (lits "VMWos Shell Version " ++ [Conv [] (Str version VERSION); nl; nl]) ;;
  say (Lit 9 :: lits "blink on/off" ++ Lit 9 :: lits "- turns on/off heartbeat LED" ++ [nl]) ;;
  say (Lit 9 :: lits "cd" ++ Lit 9 :: Lit 9 :: lits "- change directory" ++ [nl]) ;;
  say (Lit 9 :: lits "cls" ++ Lit 9 :: Lit 9 :: lits "- clears the screen" ++ [nl]) ;;
  say (Lit 9 :: lits "color X" ++ Lit 9 :: lits "- set text to color #X" ++ [nl]) ;;
  say (Lit 9 :: lits "echo X" ++ Lit 9 :: lits "- prints string X" ++ [nl]) ;;
  say (Lit 9 :: lits "font X" ++ Lit 9 :: lits "- sets the font to font #X" ++ [nl]) ;;
  say (Lit 9 :: lits "getpid" ++ Lit 9 :: lits "- print current process ID" ++ [nl]) ;;
  say (Lit 9 :: lits "gradient" ++ Lit 9 :: lits "- make background look cool" ++ [nl]) ;;
  say (Lit 9 :: lits "help" ++ Lit 9 :: Lit 9 :: lits "- prints this help message" ++ [nl]) ;;
  say (Lit 9 :: lits "random" ++ Lit 9 :: lits "- print random number" ++ [nl]) ;;
  say (Lit 9 :: lits "reset" ++ Lit 9 :: Lit 9 :: lits "- reset the machine" ++ [nl]) ;;
  say (Lit 9 :: lits "sleep" ++ Lit 9 :: lits "X" ++ Lit 9 :: lits "- sleep for X seconds" ++ [nl]) ;;
  say (Lit 9 :: lits "temp" ++ Lit 9 :: Lit 9 :: lits "- print the temperature" ++ [nl]) ;;
  say (Lit 9 :: lits "uptime" ++ Lit 9 :: lits "- print seconds since boot" ++ [nl]) ;;
  say (Lit 9 :: lits "ver" ++ Lit 9 :: Lit 9 :: lits "- print version" ++ [nl]) ;;
  say [nl] ;;
  mret 0.

(** Where the shell's objects and literals lie. *)
Record layout_ := Layout {
  y_frame : Z;           (* the local object of a library routine *)
  y_input : Z;           (* input_string *)
  y_arguments : Z;
  y_temp : Z;            (* temp_string *)
  y_stat : Z;
  y_status : Z;
  y_tms : Z;
  y_timestring : Z;
  y_oldt : Z; y_newt : Z;
  y_home : Z;            (* "/home" *)
  y_version : Z;
  y_error : Z;           (* the text of strerror *)
  y_fmt_s : Z;           (* "%s" *)
  y_fmt_bin : Z;         (* "/bin/%s" *)
  y_fmt4 : Z; y_fmt3 : Z; y_fmt2 : Z; y_fmt1 : Z }.

Section Shell.
Context (n f : nat) (rs : list Z) (int_buffer : mem) (y : layout_).

(** The string at [a] as the argument of "%s". *)
Definition arg_string (a : Z) : user piece :=
  m ← get_mem; s ← of_option (string_at n m a); mret (Conv [] (Str a s)).

(** A computation of the library on the memory. *)
Definition on_mem {A} (c : mem -> option (A * mem)) : user A :=
  m ← get_mem; '(a, m1) ← of_option (c m); set_mem m1 ;; mret a.

Definition starts (m : mem) (string : Z) (s : String.string) : bool :=
  vlibc_strncmp (at_ m string) (fun i => nth (Z.to_nat i) (text s ++ [0]) 0)
    (Z.of_nat (length (text s))) =? 0.
Arguments starts m string s%_string.

Definition run_cd (string : Z) : user Z :=
  m ← get_mem;
  len ← of_option (vlibc_strlen n (at_ m string));
  result ← svc_int (libc_chdir rs (if 3 <? len then string + 3 else y_home y));
  (if result <? 0 then
     e ← of_option (strerror result);
     say (lits "Error changing directory " ++ [Conv [] (Str (y_error y) (text e)); nl])
   else mret 0) ;;
  mret result.

Definition pretty_time (t : Z) : user piece :=
  a ← on_mem (fun m => time_pretty (y_fmt4 y) (y_fmt3 y) (y_fmt2 y) (y_fmt1 y) int_buffer f m t
                         (y_timestring y) 256);
  arg_string a.

Definition run_uptime : user Z :=
  svc_int (libc_times rs (y_tms y)) ;;
  t ← time rs 0;
  p ← pretty_time t;
  say (lits "Time since boot: " ++ [p; nl]) ;;
  m ← get_mem;
  p ← pretty_time (Z.quot (s32 (load32 m (y_tms y))) 64);
  say (lits "Time running: " ++ [p; nl]) ;;
  mret 0.

Definition run_sleep (string : Z) : user Z :=
  m ← get_mem;
  seconds ← of_option (atoi n (at_ m (string + 6)));
  say (lits "Sleeping for " ++ [dec seconds] ++ lits "s..." ++ [nl]) ;;
  sleep rs (y_frame y) (u32 seconds) ;;
  mret 0.

Definition run_temp : user Z :=
  temperature ← svc (vmwos_get_temp rs);
  say (lits "Current temperature " ++ [dec (temperature / 1000)] ++ lits "C, " ++
       [dec (u32 (u32 (temperature * 9) / 5000 + 32))] ++ lits "F" ++ [nl]) ;;
  mret 0.

(** The path of a command: the word itself when it has a slash, the file of that
    name in /bin otherwise. *)
Definition command_path (string : Z) : user Z :=
  m ← get_mem;
  slashes ← of_option (is_relative n m string);
  on_mem (fun m => vlibc_sprintf int_buffer f m (y_temp y)
            (if negb (slashes =? 0) then y_fmt_s y else y_fmt_bin y) [Word string]).

(** A program, as a child of the shell.  The value of [execve] is dropped. *)
Definition run_program (string : Z) : user Z :=
  '(_, background) ← on_mem (fun m => '(count, background, m1) ← create_argv n m (y_arguments y) string;
                                      Some (count, background, m1));
  command_path string ;;
  result ← svc_int (libc_stat rs (y_temp y) (y_stat y));
  if result <? 0 then
    p ← arg_string (y_temp y);
    say (nl :: lits "Commmand not found: " ++ [Lit 34; p; Lit 34] ++ lits "!" ++ [nl]) ;; mret 0
  else
    pid ← svc_int (libc_vfork rs);
    if pid =? 0 then svc_int (libc_execve rs (y_temp y) (y_arguments y) 0) ;; mret 0
    else if negb (background =? 0) then mret 0
    else
      say (lits "Waiting for " ++ [dec pid] ++ lits " to finish" ++ [nl]) ;;
      svc_int (libc_waitpid rs pid (y_status y) 0) ;;
      m ← get_mem;
      say (lits "Child exited with " ++ [dec (load32 m (y_status y)); nl]) ;;
      mret 0.

(** The answer 1 ends the shell; the random numbers are the process's. *)
Definition parse_input (string : Z) (g : rng) : user (Z * rng) :=
  m ← get_mem;
  if starts m string "echo" then
    if negb (m (string + 4) =? 0)
    then p ← arg_string (string + 5); say [p; nl] ;; mret (0, g)
    else mret (0, g)
  else if starts m string "cls" then
    say ([nl; Lit 13; Lit 27] ++ lits "[2J" ++ [Lit 27] ++ lits "[H") ;; mret (0, g)
  else if starts m string "cd" then result ← run_cd string; mret (result, g)
  else if starts m string "font " then svc_int (vmwos_setfont rs (m (string + 5))) ;; mret (0, g)
  else if starts m string "gradient" then svc_int (vmwos_gradient rs) ;; mret (0, g)
  else if starts m string "getpid" then
    pid ← svc_int (libc_getpid rs); say (lits "Current pid: " ++ [dec pid; nl]) ;; mret (0, g)
  else if starts m string "exit" then mret (1, g)
  else if starts m string "blink " then svc_int (vmwos_blink rs (m (string + 6))) ;; mret (0, g)
  else if starts m string "help" then result ← print_help (y_version y); mret (result, g)
  else if starts m string "color " then
    say ([Conv [] (Chr 27)] ++ lits "[3" ++ [Conv [] (Chr (m (string + 6)))] ++ lits "m" ++ [nl]) ;;
    mret (0, g)
  else if starts m string "ver" then
    say (lits "VMWos Shell version " ++ [Conv [] (Str (y_version y) VERSION); nl]) ;; mret (0, g)
  else if starts m string "uptime" then run_uptime ;; mret (0, g)
  else if starts m string "reset" then
    say (lits "Resetting..." ++ [nl]) ;; reboot rs ;; mret (0, g)
  else if starts m string "sleep" then run_sleep string ;; mret (0, g)
  else if starts m string "temp" then run_temp ;; mret (0, g)
  else if starts m string "random" then
    let '(r, g) := rand g in say [dec r; nl] ;; mret (0, g)
  else
    len ← of_option (vlibc_strlen n (at_ m string));
    if len =? 0 then mret (0, g) else run_program string ;; mret (0, g).

(** ** The line editor *)

(** What a line ends with: a line in [input_string], or the end of input. *)
Inductive line_end := Line | End_of_input.

Fixpoint read_line (fuel : nat) (input_pointer : Z) : user line_end :=
  match fuel with
  | O => stuck
  | S fuel' =>
      ch ← getchar rs (y_frame y);
      if (ch =? 10) || (ch =? 13) then
        say [nl] ;;
        m ← get_mem; set_mem (upd m (y_input y + input_pointer) 0) ;;
        mret Line
      else if ch =? 4 then mret End_of_input
      else if (ch =? 0x7f) || (ch =? 8) then
        if 0 <? input_pointer then
          say [Lit 8; Lit 32; Lit 8] ;; read_line fuel' (input_pointer - 1)
        else read_line fuel' input_pointer
      else
        m ← get_mem; set_mem (upd m (y_input y + input_pointer) (u8 ch)) ;;
        putchar rs (y_frame y) ch ;;
        read_line fuel' (input_pointer + 1)
  end.

(** The children that have finished. *)
Definition report_child : user () :=
  result ← svc_int (libc_waitpid rs (-1) (y_status y) 1);
  if 0 <? result then
    m ← get_mem;
    say (lits "Child " ++ [dec result] ++ lits " exited with " ++ [dec (load32 m (y_status y)); nl]) ;;
    mret tt
  else mret tt.

Fixpoint shell_loop (lines fuel : nat) (g : rng) : user () :=
  match lines with
  | O => stuck
  | S lines' =>
      say (lits "] ") ;;
      e ← read_line fuel 0;
      '(done, g) ← match e with
                   | Line => '(result, g) ← parse_input (y_input y) g; mret (result =? 1, g)
                   | End_of_input => mret (true, g)
                   end;
      report_child ;;
      if done : bool then mret tt else shell_loop lines' fuel g
  end.

(** [newt = oldt] copies the 60 bytes of a [struct termios]. *)
Definition main (lines fuel : nat) : user Z :=
  tcgetattr rs 0 (y_oldt y) ;;
  m ← get_mem; set_mem (memcpy m (y_newt y) (y_oldt y) 60) ;;
  m ← get_mem; set_mem (cfmakeraw m (y_newt y)) ;;
  tcsetattr rs 0 0 (y_newt y) ;;
  shell_loop lines fuel rng_start ;;
  tcsetattr rs 0 0 (y_oldt y) ;;
  mret 0.
End Shell.

(** Regions apart from the given one, by comparing addresses. *)
Ltac apart_all :=
  repeat (apply List.Forall_cons; [unfold apart in *; cbn [fst snd]; lia|]); apply List.Forall_nil.

(** ** Words

    The lines whose splitting the code means: words without spaces, one space
    between them. *)

Fixpoint spaced (ws : list (list Z)) : list Z :=
  match ws with
  | [] => []
  | [w] => w
  | w :: ws' => w ++ 32 :: spaced ws'
  end.

(** Where the words of the line at [p] lie. *)
Fixpoint words_at (p : Z) (ws : list (list Z)) : list (Z * list Z) :=
  match ws with
  | [] => []
  | w :: ws' => (p, w) :: words_at (p + Z.of_nat (length w) + 1) ws'
  end.

Definition word (w : list Z) : Prop := Forall (fun c => c <> 0 /\ c <> 32) w /\ hd 0 w <> 38.

(** The arguments, and the rest of a line with an ampersand. *)
Definition command_line (ws : list (list Z)) (rest : option (list Z)) : list Z :=
  spaced (ws ++ match rest with Some r => [38 :: r] | None => [] end).

Definition in_background (rest : option (list Z)) : Z :=
  match rest with Some _ => 1 | None => 0 end.

Lemma spaced_cons w ws : ws <> [] -> spaced (w :: ws) = w ++ 32 :: spaced ws.
Proof. by destruct ws. Qed.

Lemma word_end_ok m string w : forall fuel ptr,
  Forall (fun c => c <> 0 /\ c <> 32) w -> (length w < fuel)%nat ->
  (forall i, (i < length w)%nat -> m (string + ptr + Z.of_nat i) = nth i w 0) ->
  m (string + ptr + Z.of_nat (length w)) = 0 \/ m (string + ptr + Z.of_nat (length w)) = 32 ->
  word_end fuel m string ptr = Some (ptr + Z.of_nat (length w)).
Proof.
  induction w as [|c w IH]; intros [|fuel] ptr Hw Hf Hi He; cbn [length] in *; try lia;
    cbn [word_end].
  - rewrite !Z.add_0_r in *. destruct He as [-> | ->]; cbn; done.
  - apply Forall_cons_1 in Hw as [[Hc0 Hc] Hw].
    pose proof (Hi 0%nat ltac:(lia)) as E. rewrite Z.add_0_r in E. cbn in E. rewrite E.
    rewrite !(proj2 (Z.eqb_neq _ _)) by done. cbn [negb andb].
    rewrite IH; [f_equal; lia|done|lia| |].
    + intros i Hlt. pose proof (Hi (S i) ltac:(lia)) as Ei. cbn [nth] in Ei. rewrite <- Ei. f_equal. lia.
    + replace (string + (ptr + 1) + Z.of_nat (length w))
        with (string + ptr + Z.of_nat (S (length w))) by lia. done.
Qed.

(** The end of a line that the ampersand cuts. *)
Lemma argv_loop_background fuel m arguments string count ptr r :
  cstring (at_ m (string + ptr)) (38 :: r) ->
  apart (arguments + 4 * count) 4 (string + ptr) (Z.of_nat (length r) + 2) ->
  exists m', argv_loop (S fuel) m arguments string count ptr = Some (count, 1, m') /\
    load32 m' (arguments + 4 * count) = 0 /\ modifies [(arguments + 4 * count, 4)] m m'.
Proof.
  intros Hc Ha. apply cstring_at_cons in Hc as (_ & Hc & _). cbn [argv_loop].
  rewrite store32_outside, Hc by (unfold apart in Ha; lia). cbn [Z.eqb Pos.eqb].
  eexists. split; [done|]. split; [by rewrite load32_store32|].
  by etransitivity; [|apply modifies_store32]; apply modifies_store32.
Qed.

(** A word and its slot: the end of the word is found, and it is not an
    ampersand. *)
Lemma argv_loop_word fuel m a p w t ptr string :
  p = string + ptr -> word w -> cstring (at_ m p) (w ++ t) -> t = [] \/ hd 0 t = 32 ->
  apart a 4 p (Z.of_nat (length (w ++ t)) + 1) -> (length w < fuel)%nat ->
  let m1 := store32 m a p in
  cstring (at_ m1 p) (w ++ t) /\ m1 p <> 38 /\
  word_end fuel m1 string ptr = Some (ptr + Z.of_nat (length w)) /\
  m1 (p + Z.of_nat (length w)) = hd 0 t.
Proof.
  intros -> [Hw H38] Hc Ht Ha Hf m1.
  assert (Hc1 : cstring (at_ m1 (string + ptr)) (w ++ t)).
  { eapply cstring_modifies; [apply modifies_store32| |done].
    apart_all. }
  assert (Et : m1 (string + ptr + Z.of_nat (length w)) = hd 0 t).
  { apply cstring_at_app in Hc1. destruct t; [by apply cstring_at_nil in Hc1|].
    by apply cstring_at_cons in Hc1 as (_ & ? & _). }
  split; [done|]. split; [|split; [|done]].
  - destruct w as [|c w]; cbn in *.
    + rewrite Z.add_0_r in Et. rewrite Et. by destruct Ht as [-> | ->].
    + by apply cstring_at_cons in Hc1 as (_ & -> & _).
  - apply word_end_ok; [done|done| |].
    + intros i Hi. pose proof (cstring_nth _ _ i Hc1 ltac:(rewrite length_app; lia)) as E.
      unfold at_ in E. by rewrite E, app_nth1 by lia.
    + rewrite Et. destruct Ht as [-> | ->]; [by left|by right].
Qed.

(** What is left of a line after a word and its space. *)
Lemma split_word m p w t : 0 <= p -> Forall (fun c => c <> 0 /\ c <> 32) w ->
  cstring (at_ m p) (w ++ 32 :: t) ->
  let m1 := upd m (p + Z.of_nat (length w)) 0 in
  cstring (at_ m1 p) w /\ cstring (at_ m1 (p + Z.of_nat (length w) + 1)) t.
Proof.
  intros Hp Hw Hc m1. split.
  - apply cstring_intro; [revert Hw; apply List.Forall_impl; tauto| |].
    + intros i Hi. unfold m1, at_. rewrite upd_ne by lia.
      pose proof (cstring_nth _ _ i Hc ltac:(rewrite length_app; lia)) as E. unfold at_ in E.
      by rewrite E, app_nth1 by lia.
    + unfold m1, at_. apply upd_eq.
  - apply cstring_at_app, cstring_at_cons in Hc as (_ & _ & Hc).
    eapply cstring_modifies; [apply modifies_upd| |done].
    apart_all.
Qed.

Lemma argv_loop_last fuel m arguments string count ptr w :
  word w -> cstring (at_ m (string + ptr)) w -> (length w < S fuel)%nat ->
  0 < string + ptr -> string + ptr + Z.of_nat (length w) < 2 ^ 32 ->
  apart (arguments + 4 * count) 8 (string + ptr) (Z.of_nat (length w) + 1) ->
  exists m', argv_loop (S fuel) m arguments string count ptr = Some (count + 1, 0, m') /\
    args_at m' (arguments + 4 * count) [(string + ptr, w)] /\
    modifies [(arguments + 4 * count, 8)] m m'.
Proof.
  intros Hw Hc Hf Hp0 Hp1 Ha. set (p := string + ptr) in *. set (a := arguments + 4 * count) in *.
  destruct (argv_loop_word (S fuel) m a p w [] ptr string) as (Hc1 & H38 & Ee & E0);
    rewrite ?app_nil_r; try done; [by left|unfold apart in *; lia|].
  rewrite app_nil_r in Hc1. set (m1 := store32 m a p) in *.
  cbn [argv_loop]. fold p a m1. rewrite (proj2 (Z.eqb_neq _ 38)) by done. bind_with Ee.
  rewrite Z.add_assoc. fold p. rewrite E0. cbn [hd Z.eqb].
  replace (arguments + 4 * (count + 1)) with (a + 4) by lia.
  exists (store32 m1 (a + 4) 0). split; [done|]. split.
  - cbn [args_at]. unfold m1.
    rewrite load32_store32_ne, !load32_store32, u32_id by lia. split; [done|]. split; [lia|].
    split; [|done]. eapply cstring_modifies; [apply modifies_store32| |exact Hc1].
    apart_all.
  - transitivity m1; apply modifies_store32_in; lia.
Qed.

Lemma words_loop_ok arguments string rest ws : forall fuel m count ptr,
  Forall word ws -> (rest = None -> ws <> []) ->
  cstring (at_ m (string + ptr)) (command_line ws rest) ->
  (length (command_line ws rest) < fuel)%nat ->
  0 < string + ptr -> string + ptr + Z.of_nat (length (command_line ws rest)) < 2 ^ 32 ->
  apart (arguments + 4 * count) (4 * (Z.of_nat (length ws) + 1))
    (string + ptr) (Z.of_nat (length (command_line ws rest)) + 1) ->
  exists m', argv_loop fuel m arguments string count ptr
      = Some (count + Z.of_nat (length ws), in_background rest, m') /\
    args_at m' (arguments + 4 * count) (words_at (string + ptr) ws) /\
    modifies [(arguments + 4 * count, 4 * (Z.of_nat (length ws) + 1));
              (string + ptr, Z.of_nat (length (command_line ws rest)) + 1)] m m'.
Proof.
  induction ws as [|w ws IH]; intros fuel m count ptr Hws Hne Hc Hf Hp0 Hp1 Ha;
    (destruct fuel as [|fuel]; [lia|]).
  - destruct rest as [r|]; [|by destruct (Hne eq_refl)].
    unfold command_line in *. cbn [app spaced length] in *.
    destruct (argv_loop_background fuel m arguments string count ptr r Hc) as (m' & E & L & M);
      [unfold apart in *; lia|].
    exists m'. rewrite E, Z.add_0_r. split; [done|]. split; [done|].
    eapply modifies_sub; [exact M|]. regions.
  - apply Forall_cons_1 in Hws as [Hw Hws].
    destruct (decide (ws = [] /\ rest = None)) as [[-> ->]|Hmore].
    { unfold command_line in *. cbn [app spaced length words_at] in *.
      destruct (argv_loop_last fuel m arguments string count ptr w) as (m' & E & Hl & M); try done.
      exists m'. split; [done|]. split; [done|]. eapply modifies_sub; [exact M|]. regions. }
    assert (El : command_line (w :: ws) rest = w ++ 32 :: command_line ws rest).
    { unfold command_line. cbn [app]. apply spaced_cons. intros [E1 E2]%app_nil.
      apply Hmore. split; [done|]. by destruct rest. }
    rewrite El in *. rewrite length_app in *. cbn [length] in *. clear El.
    set (p := string + ptr) in *. set (a := arguments + 4 * count) in *.
    destruct (argv_loop_word (S fuel) m a p w (32 :: command_line ws rest) ptr string)
      as (Hc1 & H38 & Ee & E0); try done; [by right| |lia|].
    { rewrite length_app. cbn [length]. unfold apart in *. lia. }
    set (m1 := store32 m a p) in *. cbn [argv_loop]. fold p a m1.
    rewrite (proj2 (Z.eqb_neq _ 38)) by done. bind_with Ee.
    rewrite Z.add_assoc. fold p. rewrite E0. cbn [hd Z.eqb].
    destruct (split_word m1 p w _ ltac:(lia) (proj1 Hw) Hc1) as [Hcw Hct].
    set (m2 := upd m1 _ 0) in *.
    assert (Ep : string + (ptr + Z.of_nat (length w) + 1) = p + Z.of_nat (length w) + 1) by lia.
    destruct (IH fuel m2 (count + 1) (ptr + Z.of_nat (length w) + 1)) as (m' & E & Hl & M);
      rewrite ?Ep; try done; try lia; [by intros -> ->; apply Hmore|unfold apart in *; lia|].
    rewrite Ep in Hl, M. replace (arguments + 4 * (count + 1)) with (a + 4) in * by lia.
    exists m'. rewrite E. split; [do 3 f_equal; lia|]. split.
    + cbn [words_at args_at]. split; [|split; [lia|split; [|done]]].
      * rewrite (load32_modifies _ m2 _ _ M) by
          apart_all.
        unfold m2. rewrite (load32_modifies _ m1 _ _ (modifies_upd _ _ _)) by
          apart_all.
        unfold m1. by rewrite load32_store32, u32_id by lia.
      * eapply cstring_modifies; [exact M| |done].
        apart_all.
    + transitivity m2; [|eapply modifies_sub; [exact M|]; regions].
      transitivity m1; [eapply modifies_sub; [apply modifies_store32|]; regions|].
      eapply modifies_sub; [apply modifies_upd|]; regions.
Qed.

(** A line of words, with one space between them, becomes the argument table
    of [execve]: the entries are the addresses of the words, which are strings
    there, and a NULL ends it.  From a word that starts with an ampersand on the
    line is cut off, and the program is to run in the background.  Only the
    table and the line change. *)
Theorem create_argv_splits fuel m arguments string ws rest :
  Forall word ws -> (rest = None -> ws <> []) ->
  cstring (at_ m string) (command_line ws rest) ->
  (length (command_line ws rest) < fuel)%nat ->
  0 < string -> string + Z.of_nat (length (command_line ws rest)) < 2 ^ 32 ->
  apart arguments (4 * (Z.of_nat (length ws) + 1))
    string (Z.of_nat (length (command_line ws rest)) + 1) ->
  exists m', create_argv fuel m arguments string
      = Some (Z.of_nat (length ws), in_background rest, m') /\
    args_at m' arguments (words_at string ws) /\
    modifies [(arguments, 4 * (Z.of_nat (length ws) + 1));
              (string, Z.of_nat (length (command_line ws rest)) + 1)] m m'.
Proof.
  intros Hws Hne Hc Hf Hp0 Hp1 Ha.
  pose proof (words_loop_ok arguments string rest ws fuel m 0 0) as H.
  rewrite Z.mul_0_r, !Z.add_0_r in H. by apply H.
Qed.

(** ** Starting a program *)

Lemma slashes m a w : forall i s,
  (forall j, (j < length w)%nat -> m (a + (i + Z.of_nat j)) = nth j w 0) ->
  for_up (length w) i (fun i result => if m (a + i) =? 47 then result + 1 else result) s
  = s + Z.of_nat (length (List.filter (Z.eqb 47) w)).
Proof.
  induction w as [|c w IH]; intros i s Hi; cbn [length for_up List.filter]; [lia|].
  pose proof (Hi 0%nat ltac:(cbn; lia)) as E. rewrite Z.add_0_r in E. cbn in E. rewrite E.
  rewrite IH.
  - rewrite (Z.eqb_sym 47 c). destruct (c =? 47); cbn [length]; lia.
  - intros j Hj. pose proof (Hi (S j) ltac:(cbn; lia)) as Ej. cbn [nth] in Ej. rewrite <- Ej.
    f_equal. lia.
Qed.

Lemma is_relative_ok n m a w : cstring (at_ m a) w -> (length w < n)%nat ->
  exists r, is_relative n m a = Some r /\ negb (r =? 0) = existsb (Z.eqb 47) w.
Proof.
  intros Hc Hn. unfold is_relative. rewrite (vlibc_strlen_cstring n _ _ Hc Hn).
  cbn [mbind option_bind]. rewrite Nat2Z.id, slashes.
  - eexists. split; [done|]. clear. rewrite Z.add_0_l. induction w as [|c w IH]; [done|].
    cbn [List.filter existsb]. by destruct (47 =? c).
  - intros j Hj. rewrite Z.add_0_l. by apply (cstring_nth _ _ j Hc).
Qed.

(** The path of the command [w]. *)
Definition program (w : list Z) : list Z :=
  if existsb (Z.eqb 47) w then w else text "/bin/" ++ w.

(** The words start with the command. *)
Definition path_pieces (a : Z) (w : list Z) : list piece :=
  (if existsb (Z.eqb 47) w then [] else lits "/bin/") ++ [Conv [] (Str a w)].

Definition path_format (y : layout_) (w : list Z) : Z :=
  if existsb (Z.eqb 47) w then y_fmt_s y else y_fmt_bin y.

Lemma path_pieces_facts a w :
  rendered (path_pieces a w) = program w /\ args (path_pieces a w) = [Word a] /\
  Forall no_char (path_pieces a w) /\ (length (spelled (path_pieces a w)) <= 7)%nat.
Proof.
  unfold path_pieces, program. destruct (existsb _ _); cbn; rewrite ?app_nil_r;
    repeat split; try lia; by repeat constructor.
Qed.

Section Program.
Context (n f : nat) (rs : list Z) (int_buffer : mem) (y : layout_).

(** [sprintf] writes the path into [temp_string]. *)
Lemma command_path_ok m string w :
  cstring (at_ m string) w -> Forall (fun c => 0 <= c < 256) w -> 0 <= string < 2 ^ 32 ->
  (length w < n)%nat -> (length (program w) < 255)%nat -> (288 < f)%nat ->
  apart (y_temp y) 256 string (Z.of_nat (length w) + 1) ->
  cstring (at_ m (path_format y w)) (spelled (path_pieces string w)) ->
  apart (y_temp y) 256 (path_format y w) 8 ->
  exists m', command_path n f int_buffer y string m = Done (Z.of_nat (length (program w))) m' /\
    cstring (at_ m' (y_temp y)) (program w) /\ modifies [(y_temp y, 256)] m m'.
Proof.
  intros Hc Hb Hs Hn Hl Hf Ha Hfm Hfa.
  destruct (path_pieces_facts string w) as (Er & Eg & Hnc & Hsl).
  destruct (vlibc_sprintf_ok int_buffer f m (y_temp y) (path_format y w) (path_pieces string w))
    as (m' & E & Ht & M); rewrite ?Er; try done; try lia.
  - apply Forall_app. split.
    + destruct (existsb _ _); [done|]. by apply simple_ok.
    + apply List.Forall_cons; [|done]. split; [done|]. done.
  - unfold apart, MAX_PRINT_SIZE in *. lia.
  - rewrite Er in *. exists m'. split; [|split; [done|]].
    + unfold command_path.
      destruct (is_relative_ok n m string w Hc Hn) as (r & E1 & E2).
      change (mbind ?k get_mem m) with (k m m). cbv beta. rewrite E1.
      change (mbind ?k (of_option (Some r)) m) with (k r m). cbv beta. rewrite E2.
      rewrite Eg in E. unfold path_format in E. unfold on_mem.
      change (mbind ?k get_mem m) with (k m m). cbv beta. rewrite E. done.
    + eapply modifies_sub; [exact M|]. regions.
Qed.
End Program.

(** Where the objects of a command with the words [w :: ws] lie. *)
Record command_frame (m : mem) (y : layout_) (string : Z) (w : list Z) (ws : list (list Z))
    (line : Z) : Prop := {
  cf_string : 0 < string /\ string + line < 2 ^ 32;
  cf_table : apart (y_arguments y) (4 * (Z.of_nat (length ws) + 2)) string (line + 1);
  cf_temp : apart (y_temp y) 256 string (line + 1);
  cf_temp_table : apart (y_temp y) 256 (y_arguments y) (4 * (Z.of_nat (length ws) + 2));
  cf_format : cstring (at_ m (path_format y w)) (spelled (path_pieces string w));
  cf_format_away : Forall (fun r => apart (fst r) (snd r) (path_format y w) 8)
    [(y_temp y, 256); (y_arguments y, 4 * (Z.of_nat (length ws) + 2)); (string, line + 1)] }.

Lemma spaced_app_length ws us : (length (spaced ws) <= length (spaced (ws ++ us)))%nat.
Proof.
  induction ws as [|w ws IH]; cbn [app]; [cbn; lia|].
  destruct ws as [|w' ws]; [|cbn [app] in *; rewrite (spaced_cons w), (spaced_cons w (w' :: ws ++ us)), !length_app by done;
    cbn [length] in *; lia].
  destruct us as [|u us]; [done|]. cbn [app]. rewrite (spaced_cons w (u :: us)), length_app by done. cbn. lia.
Qed.

Lemma words_at_length p ws : length (words_at p ws) = length ws.
Proof. revert p. induction ws as [|w ws IH]; intros p; cbn; [done|]. by f_equal. Qed.

(** What is away from the line is away from its words. *)
Lemma words_at_away a n p ws : forall L, apart a n p (L + 1) ->
  Z.of_nat (length (spaced ws)) <= L -> Forall (away [(a, n)]) (string_regions (words_at p ws)).
Proof.
  revert p. induction ws as [|w ws IH]; intros p L Ha Hl; [done|].
  unfold string_regions. cbn [words_at map fst snd]. destruct (decide (ws = [])) as [->|Hne].
  - cbn [spaced] in Hl. apply List.Forall_cons; [|apply List.Forall_nil].
    unfold away. apart_all.
  - rewrite spaced_cons, length_app in Hl by done. cbn [length] in Hl. apply List.Forall_cons.
    + unfold away. apart_all.
    + apply (IH _ (L - Z.of_nat (length w) - 1)); [unfold apart in *; lia|lia].
Qed.

(** C15. What the shell does with a command.  It asks the kernel for the status
    of the file: of the first word as a path when the word has a slash, of the
    file of that name in /bin otherwise.  When there is one it forks, and the
    child asks the kernel to load it, with the words of the line as the
    argument table; the parent of a program in the background goes on at once. *)
Theorem shell_starts_program n f rs int_buffer y m string w ws rest :
  let line := command_line (w :: ws) rest in
  Forall word (w :: ws) -> cstring (at_ m string) line -> (length line < n)%nat ->
  Forall (fun c => 0 <= c < 256) w -> (length (program w) < 255)%nat -> (288 < f)%nat ->
  command_frame m y string w ws (Z.of_nat (length line)) ->
  exists m1 k,
    run_program n f rs int_buffer y string m
      = Ask (Svc (libc_stat rs (y_temp y) (y_stat y))) m1 k /\
    cstring (at_ m1 (y_temp y)) (program w) /\
    args_at m1 (y_arguments y) (words_at string (w :: ws)) /\
    modifies [(y_temp y, 256); (y_arguments y, 4 * (Z.of_nat (length ws) + 2));
              (string, Z.of_nat (length line) + 1)] m m1 /\
    (forall v m2, s32 v < 0 -> (length (program w) < n)%nat ->
       cstring (at_ m2 (y_temp y)) (program w) ->
       k v m2 = Ask (Printf (nl :: lits "Commmand not found: " ++
                             [Lit 34; Conv [] (Str (y_temp y) (program w)); Lit 34] ++
                             lits "!" ++ [nl])) m2 (fun _ m3 => Done 0 m3)) /\
    (forall v m2, 0 <= s32 v ->
       exists k2, k v m2 = Ask (Svc (libc_vfork rs)) m2 k2 /\
         (forall m3, k2 0 m3 = Ask (Svc (libc_execve rs (y_temp y) (y_arguments y) 0)) m3
                                 (fun _ m4 => Done 0 m4)) /\
         (forall pid m3, s32 pid <> 0 -> rest <> None -> k2 pid m3 = Done 0 m3)).
Proof.
  intros line Hw Hc Hn Hb Hl Hf [HS HT H1 H2 H3 H4].
  destruct (create_argv_splits n m (y_arguments y) string (w :: ws) rest)
    as (m0 & E0 & A0 & M0); try done; try lia; [apply HS| |].
  { fold line. cbn [length]. unfold apart in *. lia. }
  fold line in M0. cbn [length] in M0. cbn [words_at args_at] in A0.
  assert (Hw0 : cstring (at_ m0 string) w) by apply A0.
  assert (Hlw : (length w <= length line)%nat).
  { etransitivity; [|apply (spaced_app_length (w :: ws))]. destruct ws; [done|].
    rewrite spaced_cons, length_app by done. lia. }
  destruct (path_pieces_facts string w) as (_ & _ & _ & Hsl).
  destruct (command_path_ok n f int_buffer y m0 string w) as (m1 & E1 & Ht & M1); try done; try lia.
  { unfold apart in *. lia. }
  { eapply cstring_modifies; [exact M0| |exact H3]. split_regions. apart_all. }
  { split_regions. done. }
  assert (A1 : args_at m1 (y_arguments y) (words_at string (w :: ws))).
  { eapply args_at_modifies; [exact M1| |exact A0]. apply List.Forall_cons.
    - rewrite words_at_length. cbn [length]. unfold away. apart_all.
    - eapply words_at_away; [exact H1|]. fold (words_at string (w :: ws)).
      pose proof (spaced_app_length (w :: ws) (match rest with Some r => [38 :: r] | None => [] end)).
      unfold line, command_line. lia. }
  eexists m1, _. split; [|split; [done|split; [done|split; [|split]]]].
  - unfold run_program. erewrite bind_done;
      [|unfold on_mem; erewrite bind_done; [|reflexivity]; cbv beta; rewrite E0; reflexivity].
    cbv beta iota. erewrite bind_done; [|exact E1]. reflexivity.
  - transitivity m0; (eapply modifies_sub; [eassumption|]; regions).
  - intros v m2 Hv Hpn Hc2. cbv beta. cbn [then_ mret user_ret].
    rewrite (proj2 (Z.ltb_lt _ _)) by done. unfold arg_string.
    erewrite bind_done; [reflexivity|]. erewrite bind_done; [|reflexivity].
    by rewrite (string_at_cstring n m2 _ _ Hc2 Hpn).
  - intros v m2 Hv. cbv beta. cbn [then_ mret user_ret].
    rewrite (proj2 (Z.ltb_ge _ _)) by done. eexists. split; [reflexivity|]. split; [done|].
    intros pid m3 Hp Hr. cbn [then_ mret user_ret]. rewrite (proj2 (Z.eqb_neq _ _)) by done.
    by destruct rest.
Qed.

(** ** The line editor *)

Definition rubout (k : Z) : bool := (k =? 0x7f) || (k =? 8).

(** The line after a key. *)
Definition edit (line : list Z) (k : Z) : list Z :=
  if rubout k then removelast line else line ++ [k].

(** What the editor prints for a key, and the keys it echoes. *)
Definition erasure (line : list Z) (k : Z) : list piece :=
  if rubout k then match line with [] => [] | _ => [Lit 8; Lit 32; Lit 8] end else [].

Fixpoint erasures (line keys : list Z) : list piece :=
  match keys with
  | [] => []
  | k :: keys' => erasure line k ++ erasures (edit line k) keys'
  end.

Definition echo (keys : list Z) : list Z := List.filter (fun k => negb (rubout k)) keys.

(** The line never has more than [size - 1] characters. *)
Fixpoint fits (size : nat) (line keys : list Z) : bool :=
  (length line <? size)%nat &&
  match keys with [] => true | k :: keys' => fits size (edit line k) keys' end.

(** Keys that the editor takes into the line. *)
Definition ordinary (k : Z) : Prop := 0 <= k < 256 /\ k <> 10 /\ k <> 13 /\ k <> 4.

Section Input.
Context (y : layout_) (size : nat).
Context (Hap : apart (y_frame y) 4 (y_input y) (Z.of_nat size)).

(** [input_string] starts with the line. *)
Definition holds_line (m : mem) (line : list Z) : Prop :=
  forall i, (i < length line)%nat -> m (y_input y + Z.of_nat i) = nth i line 0.

Definition editor_regions : list (Z * Z) := [(y_frame y, 4); (y_input y, Z.of_nat size)].

Lemma holds_line_frame m m' line : (length line <= size)%nat ->
  modifies [(y_frame y, 4)] m m' -> holds_line m line -> holds_line m' line.
Proof.
  intros Hl Hm Hh i Hlt. rewrite Hm; [by apply Hh|].
  apply List.Forall_cons; [unfold apart in Hap; cbn; lia|apply List.Forall_nil].
Qed.

Lemma holds_line_snoc m line k : holds_line m line ->
  holds_line (upd m (y_input y + Z.of_nat (length line)) k) (line ++ [k]).
Proof.
  intros Hh i Hlt. rewrite length_app in Hlt. cbn in Hlt.
  destruct (decide (i = length line)) as [->|].
  - by rewrite upd_eq, app_nth2, Nat.sub_diag by lia.
  - rewrite upd_ne, app_nth1 by lia. apply Hh. lia.
Qed.

End Input.

Section Editor.
Context `{MemFill} `{Device W} (rd : ramdisk) (fl : flocals) (e : swi_env).
Context `{!Uart (W := W) (se_io_base e)}.
Context (rs : list Z) (Hrs : length rs = 15%nat).
Context (Hi : initialized (se_serial e) <> 0) (Hd : driver (se_serial e) <> no_uart).
Context (Hwf : (depth (se_io_base e) < se_wf e)%nat).
Context (y : layout_) (size : nat).
Context (Hfr : 0 <= y_frame y /\ y_frame y + 4 <= 2 ^ 32).
Context (Hap : apart (y_frame y) 4 (y_input y) (Z.of_nat size)).

Abbreviation answer := (kernel_call rd fl e).

(** The console has the bytes [q], and the transmitter has sent [t]. *)
Definition at_terminal (s : system W) (q t : list Z) : Prop :=
  ring (sys_console (y_sys s)) /\ contents (sys_console (y_sys s)) = q /\
  Forall (fun b => 0 <= b < 256) q /\ tx (se_io_base e) (board s) = t.

Lemma getchar_step m printed s k q t : at_terminal s (k :: q) t ->
  exists m' s', run answer (getchar rs (y_frame y) m) printed s = Some (k, m', printed, s') /\
    at_terminal s' q t /\ modifies [(y_frame y, 4)] m m'.
Proof using Hrs Hfr.
  intros (R & C & B & T).
  destruct (getchar_takes rd fl e rs (y_frame y) m printed s k q) as (m' & s' & E & R' & C' & T' & M);
    try done; [clear Hwf; lia|].
  exists m', s'. split; [exact E|]. split; [|done].
  split; [done|]. split; [done|]. apply Forall_cons_1 in B as [_ B]. by rewrite T'.
Qed.

Lemma putchar_step m printed s k q t : at_terminal s q t -> 0 <= k < 256 ->
  exists s', run answer (putchar rs (y_frame y) k m) printed s
      = Some (1, store32 m (y_frame y) k, printed, s') /\
    at_terminal s' q (t ++ crlf [k]).
Proof.
  intros (R & C & B & T) Hk. set (m1 := store32 m (y_frame y) k).
  assert (Ek : m1 (y_frame y) = k).
  { unfold m1, store32. rewrite !upd_ne by lia. rewrite upd_eq. by apply u8_id. }
  destruct (kernel_call_write rd fl e rs Hrs (y_frame y) 1 m1 s) as (w & E & T' & R');
    try done; try lia.
  { intros i Hi1. assert (i = 0) as -> by lia. by rewrite Z.add_0_r, Ek. }
  exists (with_board w (with_memory m1 s)). split.
  - unfold putchar. rewrite run_bind. cbn [get_mem run mbind option_bind]. rewrite run_bind.
    cbn [set_mem run mbind option_bind]. fold m1. rewrite run_svc_int, E. done.
  - split; [done|]. split; [done|]. split; [done|]. change (tx (se_io_base e) w = t ++ crlf [k]).
    assert (Eb : bytes_of (at_ m1 (y_frame y)) (Z.to_nat 1) = [k]).
    { apply (bytes_of_nth _ [k]). intros [|j] Hj; cbn [length] in Hj; [|lia].
      unfold at_. by rewrite Z.add_0_r. }
    by rewrite T', T, Eb.
Qed.

(** A key that erases. *)
Lemma rubout_step k line fuel m printed s q t :
  at_terminal s (k :: q) t -> rubout k = true -> (length line < size)%nat -> holds_line y m line ->
  exists m' s', run answer (read_line rs y (S fuel) (Z.of_nat (length line)) m) printed s
      = run answer (read_line rs y fuel (Z.of_nat (length (edit line k))) m')
          (printed ++ erasure line k) s' /\
    at_terminal s' q t /\ holds_line y m' (edit line k) /\ modifies [(y_frame y, 4)] m m'.
Proof.
  intros Hs Hk Hl Hh.
  destruct (getchar_step m printed s k q t Hs) as (m1 & s1 & E1 & Hs1 & M1).
  pose proof (holds_line_frame y size Hap m m1 line ltac:(lia) M1 Hh) as Hh1.
  exists m1, s1. cbn [read_line]. rewrite run_bind, E1. cbn [mbind option_bind].
  unfold erasure, edit. rewrite Hk. fold (rubout k). rewrite Hk.
  unfold rubout in Hk. rewrite !(proj2 (Z.eqb_neq k _)) by (intros ->; discriminate).
  cbn [orb]. destruct line as [|c line] using rev_ind; [|clear IHline].
  - cbn [length removelast]. by rewrite app_nil_r.
  - rewrite removelast_last. rewrite length_app in *. cbn [length] in *.
    rewrite (proj2 (Z.ltb_lt _ _)) by lia. rewrite run_bind. cbn [say run mbind option_bind].
    replace (Z.of_nat (length line + 1) - 1) with (Z.of_nat (length line)) by lia.
    split; [by destruct line|]. split; [done|]. split; [|done].
    intros i Hlt. rewrite Hh1 by (rewrite length_app; cbn; lia). by apply app_nth1.
Qed.

(** A key that is taken. *)
Lemma insert_step k line fuel m printed s q t :
  at_terminal s (k :: q) t -> ordinary k -> rubout k = false -> (length line < size)%nat ->
  holds_line y m line ->
  exists m' s', run answer (read_line rs y (S fuel) (Z.of_nat (length line)) m) printed s
      = run answer (read_line rs y fuel (Z.of_nat (length (line ++ [k]))) m') printed s' /\
    at_terminal s' q (t ++ crlf [k]) /\
    holds_line y m' (line ++ [k]) /\ modifies (editor_regions y size) m m'.
Proof.
  intros Hs (Hb & H10 & H13 & H4) Hk Hl Hh.
  destruct (getchar_step m printed s k q t Hs) as (m1 & s1 & E1 & Hs1 & M1).
  pose proof (holds_line_frame y size Hap m m1 line ltac:(lia) M1 Hh) as Hh1.
  set (m2 := upd m1 (y_input y + Z.of_nat (length line)) k).
  destruct (putchar_step m2 printed s1 k q t Hs1 Hb) as (s2 & E2 & Hs2).
  exists (store32 m2 (y_frame y) k), s2. cbn [read_line]. rewrite run_bind, E1.
  cbn [mbind option_bind]. rewrite !(proj2 (Z.eqb_neq k _)) by lia. cbn [orb].
  unfold rubout in Hk. rewrite Hk. rewrite run_bind. cbn [get_mem run mbind option_bind].
  rewrite run_bind. cbn [set_mem run mbind option_bind]. rewrite (u8_id k) by done. fold m2.
  rewrite run_bind, E2. cbn [mbind option_bind].
  split; [|split; [done|split]].
  - rewrite length_app. cbn [length]. by rewrite Nat.add_1_r, Nat2Z.inj_succ.
  - eapply (holds_line_frame y size Hap); [rewrite length_app; cbn; lia|apply modifies_store32|].
    by apply holds_line_snoc.
  - unfold editor_regions.
    transitivity m2; [|eapply modifies_sub; [apply modifies_store32|]; regions].
    transitivity m1; [eapply modifies_sub; [exact M1|]; regions|].
    eapply modifies_sub; [apply modifies_upd|]; regions.
Qed.

Lemma read_line_keys keys : forall line fuel m printed s q t,
  at_terminal s (keys ++ q) t -> Forall ordinary keys -> fits size line keys = true ->
  holds_line y m line ->
  exists m' s', run answer (read_line rs y (length keys + fuel) (Z.of_nat (length line)) m) printed s
      = run answer (read_line rs y fuel (Z.of_nat (length (fold_left edit keys line))) m')
          (printed ++ erasures line keys) s' /\
    at_terminal s' q (t ++ crlf (echo keys)) /\
    holds_line y m' (fold_left edit keys line) /\
    (length (fold_left edit keys line) < size)%nat /\ modifies (editor_regions y size) m m'.
Proof.
  induction keys as [|k keys IH]; intros line fuel m printed s q t Hs Hk Hf Hh;
    cbn [fits app length Nat.add fold_left] in *; apply andb_true_iff in Hf as [Hl Hf];
    apply Nat.ltb_lt in Hl.
  - exists m, s. cbn. by rewrite !app_nil_r.
  - apply Forall_cons_1 in Hk as [Hk Hks]. destruct (rubout k) eqn:Er.
    + destruct (rubout_step k line (length keys + fuel) m printed s _ t Hs Er Hl Hh)
        as (m1 & s1 & -> & Hs1 & Hh1 & M1).
      destruct (IH _ fuel m1 (printed ++ erasure line k) s1 q t Hs1 Hks Hf Hh1)
        as (m2 & s2 & -> & Hs2 & Hh2 & Hl2 & M2).
      exists m2, s2. cbn [erasures echo List.filter]. rewrite Er, app_assoc. cbn [negb].
      do 4 (split; [done|]). transitivity m1; [|done].
      eapply modifies_sub; [exact M1|]. unfold editor_regions. regions.
    + destruct (insert_step k line (length keys + fuel) m printed s _ t Hs Hk Er Hl Hh)
        as (m1 & s1 & -> & Hs1 & Hh1 & M1).
      assert (Ee : edit line k = line ++ [k]) by (unfold edit; by rewrite Er).
      rewrite Ee in *.
      destruct (IH _ fuel m1 printed s1 q _ Hs1 Hks Hf Hh1) as (m2 & s2 & -> & Hs2 & Hh2 & Hl2 & M2).
      exists m2, s2. cbn [erasures echo List.filter]. unfold erasure. rewrite Er, Ee. cbn [negb app].
      split; [done|]. split; [|split; [done|split; [done|by transitivity m1]]].
      rewrite <- app_assoc in Hs2. unfold crlf in *. rewrite <- flat_map_app in Hs2. exact Hs2.
Qed.
End Editor.

Section Line.
Context `{MemFill} `{Device W} (rd : ramdisk) (fl : flocals) (e : swi_env).
Context `{!Uart (W := W) (se_io_base e)}.
Context (rs : list Z) (y : layout_) (size : nat).

(** The console of the shell works, and its objects are apart. *)
Record editor_ready : Prop := {
  er_regs : length rs = 15%nat;
  er_serial : initialized (se_serial e) <> 0 /\ driver (se_serial e) <> no_uart;
  er_fuel : (depth (se_io_base e) < se_wf e)%nat;
  er_frame : 0 <= y_frame y /\ y_frame y + 4 <= 2 ^ 32;
  er_apart : apart (y_frame y) 4 (y_input y) (Z.of_nat size) }.
Context (R : editor_ready).

Abbreviation answer := (kernel_call rd fl e).

(** The line, then a key that ends it. *)
Lemma read_line_ended keys stop fuel m printed s q t :
  at_terminal e s (keys ++ stop :: q) t -> Forall ordinary keys -> fits size [] keys = true ->
  stop = 10 \/ stop = 13 \/ stop = 4 -> (length keys < fuel)%nat ->
  exists m' s' printed', run answer (read_line rs y fuel 0 m) printed s
      = Some (if stop =? 4 then End_of_input else Line, m', printed', s') /\
    printed' = printed ++ erasures [] keys ++ (if stop =? 4 then [] else [nl]) /\
    at_terminal e s' q (t ++ crlf (echo keys)) /\
    (stop <> 4 -> has (at_ m' (y_input y)) (fold_left edit keys [] ++ [0])) /\
    modifies (editor_regions y size) m m'.
Proof.
  intros Hs Hk Hf Hstop Hlt. destruct R as [R1 [R2 R3] R4 R5 R6].
  replace fuel with (length keys + S (fuel - length keys - 1))%nat by lia.
  destruct (read_line_keys rd fl e rs R1 R2 R3 R4 y size R5 R6 keys [] (S (fuel - length keys - 1))
              m printed s (stop :: q) t Hs Hk Hf) as (m1 & s1 & E & Hs1 & Hh & Hl & M);
    [by intros i Hi; cbn in Hi; lia|].
  change (Z.of_nat (length [])) with 0 in E. rewrite E. clear E.
  destruct (getchar_step rd fl e rs R1 y R5 m1 (printed ++ erasures [] keys) s1 stop q _ Hs1)
    as (m2 & s2 & E2 & Hs2 & M2).
  pose proof (holds_line_frame y size R6 m1 m2 (fold_left edit keys []) ltac:(lia) M2 Hh) as Hh2.
  assert (M12 : modifies (editor_regions y size) m m2).
  { transitivity m1; [done|]. eapply modifies_sub; [exact M2|]. unfold editor_regions. regions. }
  cbn [read_line]. rewrite run_bind, E2. cbn [mbind option_bind].
  destruct (decide (stop = 4)) as [->|Hne].
  - exists m2, s2, (printed ++ erasures [] keys). by rewrite app_nil_r.
  - set (line := fold_left edit keys []) in *.
    exists (upd m2 (y_input y + Z.of_nat (length line)) 0), s2, ((printed ++ erasures [] keys) ++ [nl]).
    rewrite (proj2 (Z.eqb_neq stop 4)) by done.
    replace ((stop =? 10) || (stop =? 13)) with true by (by destruct Hstop as [->|[->| ->]]).
    split; [done|]. split; [by rewrite app_assoc|]. split; [done|]. split.
    + intros _ i Hi. apply (holds_line_snoc y m2 line 0 Hh2 i). done.
    + transitivity m2; [done|]. eapply modifies_sub; [apply modifies_upd|].
      unfold editor_regions. regions.
Qed.
End Line.

(** C25. The line that the shell takes from the keys in the console: a key is
    added and echoed, a backspace takes the last character back from the line
    and the screen, and at the end of the line the characters that are left lie
    in [input_string], with a NUL behind them.  Neither the rest of the input
    nor memory outside the shell's frame is touched. *)
Theorem shell_reads_line `{MemFill} `{Device W} rd fl e `{!Uart (W := W) (se_io_base e)}
    rs y size keys stop fuel m printed (s : system W) q t :
  editor_ready e rs y size -> at_terminal e s (keys ++ stop :: q) t ->
  Forall ordinary keys -> fits size [] keys = true -> stop = 10 \/ stop = 13 ->
  (length keys < fuel)%nat ->
  exists m' s', run (kernel_call rd fl e) (read_line rs y fuel 0 m) printed s
      = Some (Line, m', printed ++ erasures [] keys ++ [nl], s') /\
    at_terminal e s' q (t ++ crlf (echo keys)) /\
    has (at_ m' (y_input y)) (fold_left edit keys [] ++ [0]) /\
    modifies (editor_regions y size) m m'.
Proof.
  intros R Hs Hk Hf Hstop Hlt.
  destruct (read_line_ended rd fl e rs y size R keys stop fuel m printed s q t Hs Hk Hf
              ltac:(tauto) Hlt) as (m' & s' & p & E & -> & Hs' & Hh & M).
  assert (stop <> 4) as Hne by lia. rewrite (proj2 (Z.eqb_neq stop 4)) in * by done.
  exists m', s'. by specialize (Hh Hne).
Qed.

(** ctrl-D ends the shell's input. *)
Lemma shell_end_of_input `{MemFill} `{Device W} rd fl e `{!Uart (W := W) (se_io_base e)}
    rs y size keys fuel m printed (s : system W) q t :
  editor_ready e rs y size -> at_terminal e s (keys ++ 4 :: q) t ->
  Forall ordinary keys -> fits size [] keys = true -> (length keys < fuel)%nat ->
  exists m' s', run (kernel_call rd fl e) (read_line rs y fuel 0 m) printed s
      = Some (End_of_input, m', printed ++ erasures [] keys, s').
Proof.
  intros R Hs Hk Hf Hlt.
  destruct (read_line_ended rd fl e rs y size R keys 4 fuel m printed s q t Hs Hk Hf
              ltac:(tauto) Hlt) as (m' & s' & p & E & -> & _).
  exists m', s'. by rewrite app_nil_r in E.
Qed.

Lemma edit_ordinary keys : Forall (fun k => rubout k = false) keys -> forall line,
  fold_left edit keys line = line ++ keys /\
  (forall size, (length line + length keys < size)%nat -> fits size line keys = true).
Proof.
  induction 1 as [|k keys Hk Hks IH]; intros line; cbn [fold_left fits length].
  - rewrite app_nil_r. split; [done|]. intros size Hl. rewrite andb_true_r. apply Nat.ltb_lt. lia.
  - assert (Ee : edit line k = line ++ [k]) by (unfold edit; by rewrite Hk).
    rewrite Ee. destruct (IH (line ++ [k])) as [E1 E2]. split; [by rewrite E1, <- app_assoc|].
    intros size Hl. apply andb_true_iff. split; [apply Nat.ltb_lt; lia|]. apply E2.
    rewrite length_app. cbn. lia.
Qed.

(** The array has 256 bytes and the editor does not count: the 257th key of a
    line is stored behind it. *)
Lemma input_overruns `{MemFill} `{Device W} rd fl e `{!Uart (W := W) (se_io_base e)}
    rs y keys fuel m printed (s : system W) q t :
  editor_ready e rs y 258 -> at_terminal e s (keys ++ 13 :: q) t ->
  Forall ordinary keys -> Forall (fun k => rubout k = false) keys -> length keys = 257%nat ->
  (257 < fuel)%nat ->
  exists m' s' p, run (kernel_call rd fl e) (read_line rs y fuel 0 m) printed s
      = Some (Line, m', p, s') /\ m' (y_input y + 256) = nth 256 keys 0.
Proof.
  intros R Hs Hk Hr Hl Hf. destruct (edit_ordinary keys Hr []) as [E1 E2].
  destruct (read_line_ended rd fl e rs y 258 R keys 13 fuel m printed s q t Hs Hk
              (E2 258%nat ltac:(cbn; lia)) ltac:(tauto) ltac:(lia))
    as (m' & s' & p & E & _ & _ & Hh & _).
  exists m', s', p. split; [done|]. specialize (Hh ltac:(discriminate) 256%nat).
  rewrite E1 in Hh. cbn [app] in Hh. rewrite length_app, Hl in Hh. specialize (Hh ltac:(cbn; lia)).
  rewrite app_nth1 in Hh by lia. exact Hh.
Qed.

(** ** Runs *)

Definition demo_layout : layout_ :=
  Layout 900 1000 2000 3000 3300 3360 3400 3500 3800 3880 3950 3960 3970 4000 4010 4020 4040 4060 4080.

Definition demo_line : list Z := text "hi -l &".

Definition demo_shell_mem : mem :=
  mem_with (mem_with (fun _ => 7) 4010 (text "/bin/%s" ++ [0])) 1000 (demo_line ++ [0]).

Lemma demo_words : Forall word [text "hi"; text "-l"].
Proof.
  apply List.Forall_cons; [|apply List.Forall_cons; [|apply List.Forall_nil]];
    (split; [|discriminate]); repeat (apply List.Forall_cons; [split; discriminate|]); apply List.Forall_nil.
Qed.

Lemma create_argv_splits_witness :
  exists m', create_argv 20 demo_shell_mem 2000 1000 = Some (2, 1, m') /\
    args_at m' 2000 [(1000, text "hi"); (1003, text "-l")] /\
    modifies [(2000, 12); (1000, 8)] demo_shell_mem m'.
Proof.
  refine (create_argv_splits 20 demo_shell_mem 2000 1000 [text "hi"; text "-l"] (Some [])
    _ _ _ _ _ _ _); try (by vm_compute); try (vm_compute; lia).
  - exact demo_words.
  - apply cstringb_cstring. by vm_compute.
  - right. by vm_compute.
Defined.

Lemma shell_starts_program_witness :
  exists m1 k,
    run_program 20 400 [] (fun _ => 0) demo_layout 1000 demo_shell_mem
      = Ask (Svc (libc_stat [] 3000 3300)) m1 k /\
    cstring (at_ m1 3000) (text "/bin/hi") /\
    args_at m1 2000 [(1000, text "hi"); (1003, text "-l")] /\
    modifies [(3000, 256); (2000, 12); (1000, 8)] demo_shell_mem m1 /\
    (forall v m2, s32 v < 0 -> (7 < 20)%nat -> cstring (at_ m2 3000) (text "/bin/hi") ->
       k v m2 = Ask (Printf (nl :: lits "Commmand not found: " ++
                             [Lit 34; Conv [] (Str 3000 (text "/bin/hi")); Lit 34] ++
                             lits "!" ++ [nl])) m2 (fun _ m3 => Done 0 m3)) /\
    (forall v m2, 0 <= s32 v ->
       exists k2, k v m2 = Ask (Svc (libc_vfork [])) m2 k2 /\
         (forall m3, k2 0 m3 = Ask (Svc (libc_execve [] 3000 2000 0)) m3 (fun _ m4 => Done 0 m4)) /\
         (forall pid m3, s32 pid <> 0 -> Some (@nil Z) <> None -> k2 pid m3 = Done 0 m3)).
Proof.
  refine (shell_starts_program 20 400 [] (fun _ => 0) demo_layout demo_shell_mem 1000
    (text "hi") [text "-l"] (Some []) _ _ _ _ _ _ _); try (by vm_compute); try (vm_compute; lia).
  - exact demo_words.
  - apply cstringb_cstring. by vm_compute.
  - repeat constructor; by vm_compute.
  - split; try (split; by vm_compute); try (right; by vm_compute).
    + apply cstringb_cstring. by vm_compute.
    + repeat (apply List.Forall_cons; [left + right; by vm_compute|]). apply List.Forall_nil.
Defined.

(** "lx", a backspace and "s". *)
Definition demo_keys : list Z := [108; 120; 127; 115].

Definition demo_typed : system port :=
  with_console (Console (demo_keys ++ 13 :: repeat 0 251) 5 0 1) demo_system.

Lemma shell_reads_line_witness :
  exists m' s', run (kernel_call demo_disk demo_fl demo_env)
      (read_line (repeat 9 15) demo_layout 10 0 demo_shell_mem) [] demo_typed
      = Some (Line, m', [Lit 8; Lit 32; Lit 8; nl], s') /\
    at_terminal demo_env s' [] [108; 120; 115] /\
    has (at_ m' 1000) [108; 115; 0] /\
    modifies [(900, 4); (1000, 256)] demo_shell_mem m'.
Proof.
  refine (shell_reads_line demo_disk demo_fl demo_env (repeat 9 15) demo_layout 256 demo_keys 13 10
    demo_shell_mem [] demo_typed [] [] _ _ _ _ _ _); try (by vm_compute); try (vm_compute; lia).
  - split; [done|done|cbn; lia|by vm_compute|left; by vm_compute].
  - split; [split; cbn; lia|]. split; [done|]. split; [|done].
    repeat constructor; by vm_compute.
  - repeat constructor; by vm_compute.
Defined.

(** *** Behaviour at the edges *)

(** The table has 16 entries and nothing counts them: the NULL after 16 words is
    stored behind it. *)
Lemma arguments_overrun :
  let m := mem_with (fun _ => 7) 1000 (spaced (repeat (text "a") 16) ++ [0]) in
  match create_argv 100 m 2000 1000 with
  | Some (count, _, m') => count = 16 /\ load32 m' (2000 + 4 * 16) = 0
  | None => False
  end.
Proof. by vm_compute. Qed.

(** Two spaces make an empty argument. *)
Lemma empty_argument :
  let m := mem_with (fun _ => 7) 1000 (text "a  b" ++ [0]) in
  match create_argv 100 m 2000 1000 with
  | Some (count, _, m') => count = 3 /\ m' (load32 m' 2004) = 0
  | None => False
  end.
Proof. by vm_compute. Qed.

Arguments starts m string s%_string.

(** Commands are recognised by their first letters: "cdfoo" changes to "oo". *)
Lemma command_prefix :
  let m := mem_with (fun _ => 7) 1000 (text "cdfoo" ++ [0]) in
  exists k, parse_input 20 400 [] (fun _ => 0) demo_layout 1000 rng_start m
    = Ask (Svc (libc_chdir [] 1003)) m k.
Proof.
  intros m. unfold parse_input. erewrite bind_done; [|reflexivity].
  replace (starts m 1000 "echo") with false by (by vm_compute).
  replace (starts m 1000 "cls") with false by (by vm_compute).
  replace (starts m 1000 "cd") with true by (by vm_compute).
  assert (exists k, run_cd 20 [] demo_layout 1000 m = Ask (Svc (libc_chdir [] 1003)) m k) as [k E].
  { unfold run_cd. erewrite bind_done; [|reflexivity]. cbv beta.
    replace (vlibc_strlen 20 (at_ m 1000)) with (Some 5) by (by vm_compute).
    erewrite bind_done; [|reflexivity]. eexists. reflexivity. }
  eexists. unfold mbind, user_bind. rewrite E. reflexivity.
Qed.
