(* ===== verification/FileAccess.v ===== *)
(** * Reading a file, as a program sees it

    [Readable] is what the kernel promises to a program that opens a file and
    reads it from the beginning: every [read] delivers the next bytes.  The
    program's theorems are proved against the interface; [kernel_readable]
    discharges it with the system calls of [Syscalls] for a regular file of the
    romfs image. *)

From stdpp Require Import base list numbers.
From Stdlib Require Import ZArith Lia.
From S2P Require Import Prelude ArmMemset CString Romfs Process Sched Mmio Gpio Serial Console Interrupts Files Printk I2c Exec Syscalls User Ls LsKernel.

(** [held o w m]: the world stands as the program needs it; with [Some (fd, l)]
    the descriptor is open and the bytes [l] are still to come.  [guarded] are
    the regions a buffer must not touch, [touched] those the kernel uses. *)
Class Readable {W : Type} (answer : list Z -> mem -> W -> option (Z * mem * W)) (rs : list Z)
    (path content : list Z) := {
  guarded : list (Z * Z);
  touched : list (Z * Z);
  held : option (Z * list Z) -> W -> mem -> Prop;
  held_frame o w m m' rgs : held o w m -> modifies rgs m m' ->
    Forall (fun r => Forall (fun g => apart (fst r) (snd r) (fst g) (snd g)) guarded) rgs ->
    held o w m';
  file_open w m a : held None w m -> cstring (at_ m a) path -> 0 < a ->
    a + Z.of_nat (length path) < 2 ^ 32 ->
    Forall (fun r => apart (fst r) (snd r) a (Z.of_nat (length path) + 1)) touched ->
    exists fd m' w', answer (libc_open rs a 0 0) m w = Some (fd, m', w') /\ 0 < fd < 32 /\
      held (Some (fd, content)) w' m' /\ modifies touched m m';
  file_read w m fd l a n : held (Some (fd, l)) w m -> 0 <= a < 2 ^ 32 -> 0 <= n < 2 ^ 31 ->
    Forall (fun g => apart a n (fst g) (snd g)) guarded ->
    exists m' w', answer (libc_read rs fd a n) m w
        = Some (Z.of_nat (length (take (Z.to_nat n) l)), m', w') /\
      (forall i, (i < length (take (Z.to_nat n) l))%nat -> m' (a + Z.of_nat i) = nth i l 0) /\
      held (Some (fd, drop (Z.to_nat n) l)) w' m' /\ modifies ((a, n) :: touched) m m';
  file_close w m fd l : held (Some (fd, l)) w m ->
    exists v w', answer (libc_close rs fd) m w = Some (v, m, w') }.

(** A table that differs in one valid place has the same length. *)
Lemma table_length f f' fd : length (fd_table f) = 32%nat ->
  (forall j, j <> Z.to_nat fd -> fd_table f' !! j = fd_table f !! j) -> 0 <= fd < 32 ->
  is_Some (fd_table f' !! Z.to_nat fd) -> length (fd_table f') = 32%nat.
Proof.
  intros Hl Hs Hfd He. apply Nat.le_antisymm.
  - apply lookup_ge_None. rewrite Hs by lia. apply lookup_ge_None. lia.
  - apply Nat.le_succ_l with (n := 31%nat), lookup_lt_is_Some.
    destruct (decide (Z.to_nat fd = 31%nat)) as [E|E]; [by rewrite <- E|].
    rewrite Hs by lia. apply lookup_lt_is_Some. lia.
Qed.

Section Kernel.
Context `{MemFill} `{Device W} (rd : ramdisk) (fl : flocals) (d : Z -> Z) (L : flayout rd fl d).
Context (e : swi_env) (K : nat) (rs : list Z) (Hrs : length rs = 15%nat).
Context (root cwd o : Z) (name path : list Z).

(** The path leads to the regular file [o]. *)
Record regular : Prop := {
  rg_path : names_path rd d K (se_rf e) root cwd path o;
  rg_fuel : (length path < se_fuel e)%nat;
  rg_range : 0 <= o < 2 ^ 32;
  rg_header : header_at d (rd_length rd) o name;
  rg_data : fdata o name + fsize d o <= rd_length rd;
  rg_size : 0 <= fsize d o;
  rg_name : (length name < 16 * se_rf e)%nat }.
Context (R : regular).

(** Descriptor 0 is the console, one of the others is free. *)
Record file_state (x : option (Z * list Z)) (y : system W) (m : mem) : Prop := {
  fs_disk : on_disk rd d m;
  fs_table : length (fd_table (y_files y)) = 32%nat;
  fs_console : exists c, fd_table (y_files y) !! 0%nat = Some c /\ fd_valid c <> 0;
  fs_root : root_dir (y_files y) = root;
  fs_caller : exists q, procs (kern y) !! current_process (kern y) = Some q /\ current_dir q = cwd;
  fs_open : match x with
            | None => (0 < free_count (fd_table (y_files y)))%nat
            | Some (fd, l) => exists pos, opened rd d (se_rf e) (y_files y) fd o name pos /\
                l = file_bytes d o name pos (fsize d o - pos)
            end }.

Lemma file_bytes_length pos k : length (file_bytes d o name pos k) = Z.to_nat k.
Proof. unfold file_bytes, bytes_of. by rewrite length_map, length_seq. Qed.

Lemma file_bytes_drop pos k j : 0 <= j <= k ->
  drop (Z.to_nat j) (file_bytes d o name pos k) = file_bytes d o name (pos + j) (k - j).
Proof.
  intros Hj. unfold file_bytes.
  replace (Z.to_nat k) with (Z.to_nat j + Z.to_nat (k - j))%nat by lia.
  rewrite <- bytes_of_app, drop_app_length'; [|by unfold bytes_of; rewrite length_map, length_seq].
  unfold bytes_of. apply map_ext. intros i. f_equal. lia.
Qed.

Lemma file_bytes_nth pos k i : (i < Z.to_nat k)%nat ->
  nth i (file_bytes d o name pos k) 0 = d (fdata o name + pos + Z.of_nat i).
Proof.
  intros Hi. unfold file_bytes, bytes_of.
  rewrite (nth_indep _ 0 (d (fdata o name + pos + Z.of_nat 0)))
    by (by rewrite length_map, length_seq).
  by rewrite (map_nth (fun i => d (fdata o name + pos + Z.of_nat i))), seq_nth.
Qed.

Lemma kernel_file_open y m a : file_state None y m -> cstring (at_ m a) path -> 0 < a ->
  a + Z.of_nat (length path) < 2 ^ 32 ->
  Forall (fun r => apart (fst r) (snd r) a (Z.of_nat (length path) + 1)) (path_regions fl) ->
  exists fd m' y', kernel_call rd fl e (libc_open rs a 0 0) m y = Some (fd, m', y') /\
    0 < fd < 32 /\ file_state (Some (fd, file_bytes d o name 0 (fsize d o))) y' m' /\
    modifies (path_regions fl) m m' /\ board y' = board y.
Proof.
  intros [Hd Ht (c & Hc0 & Hc1) Hr (q & Hq & Hcw) Hf] Hc Ha0 Ha1 Ha.
  destruct R as [R1 R2 R3 R4 R5 R6 R7]. set (ym := with_memory m y).
  destruct (open_ok rd fl d L K (se_rf e) (se_fuel e) (y_files y) (kern ym) q a path o 0 0)
    as (m1 & E1 & M1 & D1); try done; [by rewrite Hr, Hcw|].
  destruct (free_fd_exists (fd_table (y_files y)) Hf) as [i Hi].
  destruct (free_fd_Some _ _ Hi) as [(x & Hx & Hv) _]. pose proof (lookup_lt_Some _ _ _ Hx).
  assert (i <> 0%nat) by (intros ->; congruence).
  unfold opened_table in E1. rewrite (proj2 (Z.ltb_ge o 0)), Hi in E1 by lia. cbn [fst snd] in E1.
  eexists (Z.of_nat i), m1, _. split; [|split; [lia|split; [|split; [done|]]]].
  - eapply kernel_call_eq; [|shelve].
    replace (trap rd fl e (libc_open rs a 0 0) ym) with (do_open rd fl e ym (u32 a) (u32 0) (u32 0))
      by (symmetry; revert rs Hrs; trap_eq).
    unfold do_open. rewrite (u32_id a) by lia. change (u32 0) with 0.
    change (y_files ym) with (y_files y). rewrite E1. cbn [mbind option_bind]. unfold returned_.
    by rewrite u32_id by lia.
    Unshelve. done.
  - split; try done; cbn.
    + by rewrite length_insert.
    + exists c. by rewrite list_lookup_insert_ne.
    + by exists q.
    + exists 0. rewrite Z.sub_0_r. split; [|done]. split; try done; try lia.
      exists 1. split; [done|]. cbn. by rewrite Nat2Z.id, list_lookup_insert_eq, u32_id by lia.
  - done.
Qed.

Lemma kernel_file_read y m fd l a n : file_state (Some (fd, l)) y m ->
  0 <= a < 2 ^ 32 -> 0 <= n < 2 ^ 31 -> apart a n (rd_start rd) (rd_length rd) ->
  exists m' y', kernel_call rd fl e (libc_read rs fd a n) m y
      = Some (Z.of_nat (length (take (Z.to_nat n) l)), m', y') /\
    (forall i, (i < length (take (Z.to_nat n) l))%nat -> m' (a + Z.of_nat i) = nth i l 0) /\
    file_state (Some (fd, drop (Z.to_nat n) l)) y' m' /\ modifies ((a, n) :: path_regions fl) m m' /\
    board y' = board y.
Proof.
  intros [Hd Ht (c & Hc0 & Hc1) Hr Hq (pos & Ho & ->)] Ha Hn Hap.
  pose proof (op_pos _ _ _ _ _ _ _ _ Ho) as Hpos. pose proof (op_range _ _ _ _ _ _ _ _ Ho) as Hfd.
  set (k := fsize d o - pos) in *. set (j := Z.min n k).
  set (ym := with_memory m y).
  destruct (read_ok rd fl d L (se_rf e) (y_files y) (sys_console (y_sys y)) (kern ym) fd o name pos a n
    Ho Hd ltac:(lia)) as (f' & m1 & E1 & O1 & D1 & M1 & _ & B1 & T1 & R1).
  { fold k j. unfold apart in *. lia. }
  fold k j in E1, O1, M1, B1.
  assert (El : length (take (Z.to_nat n) (file_bytes d o name pos k)) = Z.to_nat j).
  { rewrite length_take, file_bytes_length. lia. }
  rewrite El. eexists m1, _. split; [|split; [|split; [|split]]].
  - eapply kernel_call_eq; [|shelve].
    replace (trap rd fl e (libc_read rs fd a n) ym)
      with (do_read rd fl e ym (u32 fd) (u32 a) (u32 n)) by (symmetry; revert rs Hrs; trap_eq).
    unfold do_read. rewrite !u32_id by lia.
    change (y_files ym) with (y_files y). change (sys_console (y_sys ym)) with (sys_console (y_sys y)).
    rewrite E1. cbn [mbind option_bind word_result]. by rewrite u32_id, Z2Nat.id by lia.
    Unshelve. done.
  - intros i Hi. rewrite B1, file_bytes_nth by lia. done.
  - split; try done; cbn.
    + apply (table_length (y_files y) f' fd); [done|done|lia|].
      destruct (op_entry _ _ _ _ _ _ _ _ O1) as (v & _ & Ev). by eexists.
    + exists c. rewrite T1; [done|lia].
    + by rewrite R1.
    + exists (pos + j). split; [done|].
      replace (drop (Z.to_nat n) (file_bytes d o name pos k))
        with (drop (Z.to_nat j) (file_bytes d o name pos k)).
      * rewrite file_bytes_drop by lia. f_equal. lia.
      * destruct (decide (n <= k)) as [|]; [by replace j with n by lia|].
        rewrite !drop_ge; [done| |]; rewrite file_bytes_length; lia.
  - eapply modifies_sub; [exact M1|]. unfold path_regions, lookup_regions. regions.
  - done.
Qed.

Lemma kernel_file_close y m fd : exists v y',
  kernel_call rd fl e (libc_close rs fd) m y = Some (v, m, y') /\ board y' = board y.
Proof.
  eexists _, _. split.
  - eapply kernel_call_eq.
    { replace (trap rd fl e (libc_close rs fd) (with_memory m y))
        with (do_close (with_memory m y) (u32 fd)) by (symmetry; revert rs Hrs; trap_eq). done. }
    done.
  - done.
Qed.

#[export] Instance kernel_readable :
  Readable (kernel_call rd fl e) rs path (file_bytes d o name 0 (fsize d o)).
Proof.
  refine {| guarded := [(rd_start rd, rd_length rd)]; touched := path_regions fl;
            held := file_state |}.
  - intros x y m m' rgs [Hd Ht Hc Hr Hq Ho] M HF. split; try done.
    intros i Hi. rewrite M; [by apply Hd|].
    pose proof (lay_len _ _ _ (fl_lay _ _ _ L)).
    revert HF. apply List.Forall_impl. intros [a n] Ha. apply Forall_inv in Ha.
    unfold apart in Ha. cbn [fst snd] in *. lia.
  - intros y m a H1 H2 H3 H4 H5.
    destruct (kernel_file_open y m a H1 H2 H3 H4 H5) as (fd & m' & y' & E & Hfd & St & M & _).
    by exists fd, m', y'.
  - intros y m fd l a n St Ha Hn HF. apply Forall_inv in HF.
    destruct (kernel_file_read y m fd l a n St Ha Hn HF) as (m' & y' & E & B & St' & M & _).
    by exists m', y'.
  - intros y m fd l _. destruct (kernel_file_close y m fd) as (v & y' & E & _). by exists v, y'.
Defined.
End Kernel.
