(* ===== verification/Slideshow.v ===== *)
(** * The slide show: userspace/slideshow.c

    [vmwLoadPCX] decodes a run-length encoded image from a file into memory;
    [main] pages through the files [out-0.pcx], [out-1.pcx], ...  The objects of
    the program are at the addresses of [layout_]; the tables on the stack are
    memory like the rest, so that the accesses behind their ends are those of
    the program. *)

From stdpp Require Import base list numbers.
From Stdlib Require Import ZArith Lia.
From Stdlib Require String.
From S2P Require Import Prelude ArmMemset CString Romfs Process Sched Mmio Gpio Serial Console Interrupts Files Printk I2c Exec Syscalls User Vlibc Ls LsKernel FileAccess.
Import String.StringSyntax.

Record layout_ := Layout {
  l_frame : Z;           (* the local object of a library routine *)
  l_header : Z;          (* pcx_header *)
  l_temp : Z;            (* temp_byte *)
  l_rgb : Z;
  l_filename : Z;
  l_format : Z }.        (* "out-%d.pcx" *)

Section Slideshow.
Context (n f : nat) (rs : list Z) (int_buffer : mem) (y : layout_).

(** ** The header *)

(** [(pcx_header[i+1]<<8)+pcx_header[i]] *)
Definition header16 (m : mem) (i : Z) : Z := m (l_header y + i + 1) * 256 + m (l_header y + i).

Definition version_name (version : Z) : list piece :=
  if version =? 0 then lits "2.5" ++ [nl]
  else if version =? 2 then lits "2.8 w palette" ++ [nl]
  else if version =? 3 then lits "2.8 w/o palette" ++ [nl]
  else if version =? 4 then lits "Paintbrush for Windows" ++ [nl]
  else if version =? 5 then lits "3.0+" ++ [nl]
  else lits "Unknown " ++ [Conv [] (Dec true version); nl].

(** "%i" *)
Definition int (x : Z) : piece := Conv [] (Dec true x).

Definition print_header (m : mem) : user Z :=
  let h := fun i => m (l_header y + i) in
  say (lits "Manufacturer: ") ;;
  (if h 0 =? 10 then say (lits "Zsoft" ++ [nl]) else say (lits "Unknown " ++ [dec (h 0); nl])) ;;
  say (lits "Version: ") ;;
  say (version_name (h 1)) ;;
  say (lits "Encoding: ") ;;
  (if h 2 =? 1 then say (lits "RLE" ++ [nl]) else say (lits "Unknown " ++ [dec (h 2); nl])) ;;
  say (lits "BitsPerPixelPerPlane: " ++ [dec (h 3); nl]) ;;
  say (lits "File goes from " ++ [int (header16 m 4); Lit 44; int (header16 m 6)] ++ lits " to " ++
       [int (header16 m 8); Lit 44; int (header16 m 10); nl]) ;;
  say (lits "Horizontal DPI: " ++ [int (header16 m 12); nl]) ;;
  say (lits "Vertical   DPI: " ++ [int (header16 m 14); nl]) ;;
  say (lits "Number of colored planes: " ++ [int (h 65); nl]) ;;
  say (lits "Bytes per line: " ++ [int (header16 m 66); nl]) ;;
  say (lits "Palette Type: " ++ [int (header16 m 68); nl]) ;;
  say (lits "Hscreen Size: " ++ [int (header16 m 70); nl]) ;;
  say (lits "Vscreen Size: " ++ [int (header16 m 72); nl]).

(** ** The image *)

(** [&rgb[x][plane]] of [int rgb[800][4]]. *)
Definition pixel (x plane : Z) : Z := l_rgb y + 16 * x + 4 * plane.

(** [rgb[x][plane]=temp_byte; x++] *)
Definition put_pixel (plane : Z) (s : mem * Z) : mem * Z :=
  let '(m, x) := s in (store32 m (pixel x plane) (m (l_temp y)), x + 1).

(** [while (x<xsize)]: the pixels of one plane of a line. *)
Fixpoint plane_loop (fuel : nat) (fd xsize plane x : Z) : user Z :=
  match fuel with
  | O => stuck
  | S fuel' =>
      if x <? xsize then
        svc_int (libc_read rs fd (l_temp y) 1) ;;
        m ← get_mem;
        if Z.land (m (l_temp y)) 0xc0 =? 0xc0 then
          let numacross := Z.land (m (l_temp y)) 0x3f in
          svc_int (libc_read rs fd (l_temp y) 1) ;;
          m ← get_mem;
          let '(m1, x1) := for_up (Z.to_nat numacross) 0 (fun _ => put_pixel plane) (m, x) in
          set_mem m1 ;;
          plane_loop fuel' fd xsize plane x1
        else
          let '(m1, x1) := put_pixel plane (m, x) in
          set_mem m1 ;;
          plane_loop fuel' fd xsize plane x1
      else mret x
  end.

(** The lines of the image in memory have three bytes per pixel. *)
Definition copy_line (m : mem) (raw_image row xsize : Z) : mem :=
  for_up (Z.to_nat xsize) 0
    (fun i m =>
       let a := raw_image + row * xsize * 3 + i * 3 in
       let m := upd m (a + 0) (u8 (load32 m (pixel i 0))) in
       let m := upd m (a + 1) (u8 (load32 m (pixel i 1))) in
       upd m (a + 2) (u8 (load32 m (pixel i 2)))) m.

(** [while(y<ysize)] *)
Fixpoint line_loop (fuel : nat) (fd raw_image xsize ysize row : Z) : user Z :=
  match fuel with
  | O => stuck
  | S fuel' =>
      if row <? ysize then
        plane_loop n fd xsize 0 0 ;;
        plane_loop n fd xsize 1 0 ;;
        plane_loop n fd xsize 2 0 ;;
        plane_loop n fd xsize 3 0 ;;
        m ← get_mem; set_mem (copy_line m raw_image row xsize) ;;
        line_loop fuel' fd raw_image xsize ysize (row + 1)
      else mret row
  end.

Definition vmwLoadPCX (filename raw_image : Z) : user Z :=
  pcx_fd ← svc_int (libc_open rs filename 0 0);
  if pcx_fd <? 0 then
    m ← get_mem;
    s ← of_option (string_at n m filename);
    say (lits "ERROR!  File " ++ [Lit 34; Conv [] (Str filename s); Lit 34] ++ lits " not found!" ++ [nl]) ;;
    mret (-1)
  else
    svc_int (libc_read rs pcx_fd (l_header y) 128) ;;
    m ← get_mem;
    let xmin := header16 m 4 in
    let ymin := header16 m 6 in
    let xmax := header16 m 8 in
    let ymax := header16 m 10 in
    print_header m ;;
    let xsize := (xmax - xmin) + 1 in
    let ysize := (ymax - ymin) + 1 in
    line_loop n pcx_fd raw_image xsize ysize 0 ;;
    svc_int (libc_close rs pcx_fd) ;;
    mret 0.

(** ** main *)

Definition next_slide (slide ch : Z) : Z :=
  let slide := if ch =? 32 then slide + 1 else slide in
  if ch =? 98 then (if slide - 1 <? 0 then 0 else slide - 1) else slide.

Fixpoint slide_loop (fuel : nat) (pixels slide : Z) : user Z :=
  match fuel with
  | O => stuck
  | S fuel' =>
      m ← get_mem;
      '(_, m1) ← of_option (vlibc_sprintf int_buffer f m (l_filename y) (l_format y) [Word slide]);
      set_mem m1 ;;
      result ← vmwLoadPCX (l_filename y) pixels;
      (if result <? 0 then
         m ← get_mem;
         s ← of_option (string_at n m (l_filename y));
         say (lits "Error opening " ++ [Conv [] (Str (l_filename y) s); nl]) ;;
         svc_int (libc_exit rs 1)
       else mret 0) ;;
      svc_int (vmwos_framebuffer_load rs 800 600 24 pixels) ;;
      say (lits "About to get character" ++ [nl]) ;;
      ch ← getchar rs (l_frame y);
      say (lits "Read character " ++ [Conv [] (Hex false ch); nl]) ;;
      if ch =? 113 then mret 0 else slide_loop fuel' pixels (next_slide slide ch)
  end.

Definition main `{MemFill} (fuel : nat) : user Z :=
  say (lits "Starting slide show!" ++ [nl]) ;;
  pixels ← svc (vmwos_malloc rs (800 * 600 * 3));
  say (lits "Memsetting " ++ [Conv [] (Hex true pixels); nl]) ;;
  m ← get_mem; set_mem (memset m pixels 0xff (800 * 600 * 3)) ;;
  slide_loop fuel pixels 0.
End Slideshow.

(** ** The format

    [encodes bs px]: the bytes [bs] of the file stand for the values [px], a
    byte below 192 for itself and a count above 192 for a run of the byte that
    follows. *)

Inductive encodes : list Z -> list Z -> Prop :=
| encodes_end : encodes [] []
| encodes_byte b bs px : 0 <= b < 192 -> encodes bs px -> encodes (b :: bs) (b :: px)
| encodes_run k b bs px : (0 < k < 64)%nat -> 0 <= b < 256 -> encodes bs px ->
    encodes (192 + Z.of_nat k :: b :: bs) (repeat b k ++ px).

(** One encoder: bytes that cannot stand for themselves are runs of length 1. *)
Definition pcx_encode (px : list Z) : list Z :=
  flat_map (fun b => if b <? 192 then [b] else [193; b]) px.

Lemma pcx_encode_encodes px : Forall (fun b => 0 <= b < 256) px -> encodes (pcx_encode px) px.
Proof.
  induction 1 as [|b px Hb Hpx IH]; [constructor|]. cbn [pcx_encode flat_map].
  destruct (b <? 192) eqn:E; b2p; cbn [app].
  - apply encodes_byte; [lia|done].
  - apply (encodes_run 1 b); [lia|done|done].
Qed.

Lemma run_byte k : (k < 64)%nat ->
  Z.land (192 + Z.of_nat k) 0xc0 = 0xc0 /\ Z.land (192 + Z.of_nat k) 0x3f = Z.of_nat k.
Proof.
  intros Hk. assert (forallb (fun k => (Z.land (192 + Z.of_nat k) 0xc0 =? 0xc0) &&
    (Z.land (192 + Z.of_nat k) 0x3f =? Z.of_nat k)) (seq 0 64) = true) as H by (by vm_compute).
  rewrite forallb_forall in H. specialize (H k ltac:(apply in_seq; lia)). by b2p.
Qed.

Lemma plain_byte b : 0 <= b < 192 -> Z.land b 0xc0 <> 0xc0.
Proof.
  intros Hb. assert (forallb (fun b => negb (Z.land (Z.of_nat b) 0xc0 =? 0xc0)) (seq 0 192) = true)
    as H by (by vm_compute).
  rewrite forallb_forall in H. specialize (H (Z.to_nat b) ltac:(apply in_seq; lia)).
  rewrite Z2Nat.id in H by lia. by b2p.
Qed.

Lemma encodes_some bs px : encodes bs px -> bs <> [] -> px <> [].
Proof. intros [|b bs' px' ? ?|[|k] b bs' px' ? ? ?] Hne; try done; lia. Qed.

(** ** Decoding *)

(** The bytes of [rgb]. *)
Definition TABLE : Z := 12800.

(** The objects of the decoder are apart from each other, from what a buffer
    must not touch and from what the kernel uses. *)
Record apart_objects (guarded touched : list (Z * Z)) (y : layout_) (raw size : Z) : Prop := {
  ao_temp : 0 <= l_temp y < 2 ^ 32;
  ao_header : 0 <= l_header y < 2 ^ 32;
  ao_guarded : Forall (fun o => Forall (fun g => apart (fst o) (snd o) (fst g) (snd g)) guarded)
    [(l_temp y, 1); (l_header y, 128); (l_rgb y, TABLE); (raw, size)];
  ao_touched : Forall (fun o => Forall (fun g => apart (fst o) (snd o) (fst g) (snd g)) touched)
    [(l_rgb y, TABLE); (raw, size)];
  ao_table_temp : apart (l_rgb y) TABLE (l_temp y) 1;
  ao_raw_temp : apart raw size (l_temp y) 1;
  ao_raw_table : apart raw size (l_rgb y) TABLE;
  ao_raw_header : apart raw size (l_header y) 128 }.
Section Decode.
Context {W : Type} (answer : list Z -> mem -> W -> option (Z * mem * W)) (rs path content : list Z).
Context `{R : !Readable answer rs path content}.
Context (y : layout_) (raw size : Z).

Context (A : apart_objects guarded touched y raw size).

(** What a read may change. *)
Definition read_regions : list (Z * Z) := (l_temp y, 1) :: touched.

Lemma read_table m m' a n : modifies read_regions m m' ->
  l_rgb y <= a -> a + n <= l_rgb y + TABLE -> forall x, a <= x < a + n -> m' x = m x.
Proof.
  intros M Hl Hh x Hx. apply M. apply List.Forall_cons.
  - pose proof (ao_table_temp _ _ _ _ _ A) as H. unfold apart in H. cbn. lia.
  - pose proof (ao_touched _ _ _ _ _ A) as H. apply Forall_cons_1 in H as [H _].
    revert H. apply List.Forall_impl. intros g Hg. unfold apart in Hg. cbn [fst snd] in Hg. lia.
Qed.

Lemma read_pixel m m' x p : modifies read_regions m m' -> 0 <= x < 800 -> 0 <= p < 4 ->
  load32 m' (pixel y x p) = load32 m (pixel y x p).
Proof.
  intros M Hx Hp. apply load32_ext. intros i Hi.
  apply (read_table m m' (pixel y x p) 4 M); unfold pixel, TABLE; lia.
Qed.

(** The next byte of the file. *)
Lemma read_byte fd b l m printed w : held (Some (fd, b :: l)) w m ->
  exists v m' w', run answer (svc_int (libc_read rs fd (l_temp y) 1) m) printed w
      = Some (v, m', printed, w') /\
    m' (l_temp y) = b /\ held (Some (fd, l)) w' m' /\ modifies read_regions m m'.
Proof.
  intros Hh. pose proof (ao_guarded _ _ _ _ _ A) as Hg. apply Forall_cons_1 in Hg as [Hg _].
  destruct (file_read w m fd (b :: l) (l_temp y) 1 Hh (ao_temp _ _ _ _ _ A) ltac:(lia) Hg)
    as (m' & w' & E & Hb & Hh' & M).
  eexists _, m', w'. rewrite run_svc_int, E. split; [reflexivity|].
  change (take (Z.to_nat 1) (b :: l)) with [b] in Hb. specialize (Hb 0%nat ltac:(cbn; lia)). rewrite Z.add_0_r in Hb.
  change (drop (Z.to_nat 1) (b :: l)) with l in Hh'. done.
Qed.

(** The table after the run of [k] copies of [b]. *)
Definition same_pixels (m m' : mem) (plane x k : Z) : Prop :=
  forall i p, 0 <= i < 800 -> 0 <= p < 4 -> ~ (p = plane /\ x <= i < x + k) ->
  load32 m' (pixel y i p) = load32 m (pixel y i p).

Lemma put_pixel_ok m x plane : 0 <= x < 800 -> 0 <= plane < 4 -> 0 <= m (l_temp y) < 256 ->
  let m' := fst (put_pixel y plane (m, x)) in
  load32 m' (pixel y x plane) = m (l_temp y) /\ m' (l_temp y) = m (l_temp y) /\
  same_pixels m m' plane x 1 /\ modifies [(l_rgb y, TABLE)] m m'.
Proof.
  intros Hx Hp Hb. cbn [put_pixel fst]. pose proof (ao_table_temp _ _ _ _ _ A) as Ht.
  unfold same_pixels, pixel, TABLE in *. split; [by rewrite load32_store32, u32_id by lia|]. split.
  - apply store32_outside. unfold apart in Ht. lia.
  - split; [|apply modifies_store32_in; lia].
    intros i p Hi Hpp Hne. apply load32_store32_ne. lia.
Qed.

Lemma run_ok plane k : 0 <= plane < 4 -> forall (m : mem) z x, 0 <= m (l_temp y) < 256 ->
  0 <= x -> x + Z.of_nat k <= 800 ->
  exists m', for_up k z (fun _ => put_pixel y plane) (m, x) = (m', x + Z.of_nat k) /\
    (forall i, x <= i < x + Z.of_nat k -> load32 m' (pixel y i plane) = m (l_temp y)) /\
    same_pixels m m' plane x (Z.of_nat k) /\ modifies [(l_rgb y, TABLE)] m m'.
Proof.
  intros Hp. induction k as [|k IH]; intros m z x Hb Hx Hk; cbn [for_up].
  - exists m. split; [f_equal; lia|]. split; [lia|]. by split.
  - destruct (put_pixel_ok m x plane ltac:(lia) Hp Hb) as (E1 & T1 & S1 & M1).
    cbn [put_pixel fst] in *. set (m1 := store32 m _ _) in *.
    destruct (IH m1 (z + 1) (x + 1) ltac:(rewrite T1; lia)) as (m' & E & E' & S' & M'); [lia|lia|].
    exists m'. split; [etransitivity; [exact E|f_equal; lia]|]. split; [|split; [|by transitivity m1]].
    + intros i Hi. destruct (decide (i = x)) as [->|]; [|rewrite E', T1; [done|lia]].
      rewrite S' by lia. done.
    + intros i p Hi Hpp Hne. rewrite S', S1 by (try lia; intros [-> ?]; apply Hne; lia). done.
Qed.

Definition line_regions : list (Z * Z) := (l_rgb y, TABLE) :: read_regions.

Lemma held_table o w m m' : held o w m -> modifies [(l_rgb y, TABLE)] m m' -> held o w m'.
Proof.
  intros Hh M. eapply held_frame; [exact Hh|exact M|]. pose proof (ao_guarded _ _ _ _ _ A) as H.
  do 2 apply Forall_cons_1 in H as [_ H]. apply Forall_cons_1 in H as [H _].
  by apply List.Forall_cons.
Qed.

Lemma same_pixels_read m m' m2 plane x k :
  modifies read_regions m m' -> same_pixels m' m2 plane x k -> same_pixels m m2 plane x k.
Proof. intros M HS i p Hi Hp Hne. rewrite HS by done. by apply read_pixel. Qed.

Lemma same_pixels_join m m' m2 plane x j k : 0 <= j -> 0 <= k ->
  same_pixels m m' plane x j -> same_pixels m' m2 plane (x + j) k ->
  same_pixels m m2 plane x (j + k).
Proof.
  intros Hj Hk H1 H2 i p Hi Hp Hne. rewrite H2, H1 by (try lia; intros [-> ?]; apply Hne; lia). done.
Qed.

(** The rest of a plane, after the pixels that the last bytes stand for. *)
Definition plane_done (fd plane x : Z) (px tail : list Z) (m : mem) (r : option (Z * mem * list piece * W))
    (printed : list piece) : Prop :=
  exists m' w', r = Some (x + Z.of_nat (length px), m', printed, w') /\
    held (Some (fd, tail)) w' m' /\
    (forall i, (i < length px)%nat -> load32 m' (pixel y (x + Z.of_nat i) plane) = nth i px 0) /\
    same_pixels m m' plane x (Z.of_nat (length px)) /\ modifies line_regions m m'.

(** Pixels [a] are in the table, the pixels [b] follow. *)
Lemma plane_done_step fd plane x a b tail m m1 m2 r printed :
  0 <= x -> x + Z.of_nat (length (a ++ b)) <= 800 -> 0 <= plane < 4 ->
  modifies read_regions m m1 -> modifies [(l_rgb y, TABLE)] m1 m2 ->
  (forall i, (i < length a)%nat -> load32 m2 (pixel y (x + Z.of_nat i) plane) = nth i a 0) ->
  same_pixels m1 m2 plane x (Z.of_nat (length a)) ->
  plane_done fd plane (x + Z.of_nat (length a)) b tail m2 r printed ->
  plane_done fd plane x (a ++ b) tail m r printed.
Proof.
  intros Hx Hl Hp M1 M2 Ha S2 (m' & w' & -> & Hh & Hb & S' & M'). exists m', w'.
  rewrite length_app in *. split; [do 4 f_equal; lia|]. split; [done|]. split; [|split].
  - intros i Hi. destruct (decide (i < length a)%nat).
    + rewrite S', Ha, app_nth1 by (try lia; intros [_ ?]; lia). done.
    + rewrite app_nth2, <- Hb by lia. f_equal. f_equal. lia.
  - rewrite Nat2Z.inj_add. eapply same_pixels_join; [lia|lia| |exact S'].
    by eapply same_pixels_read.
  - transitivity m2; [|done]. transitivity m1; unfold line_regions;
      (eapply modifies_sub; [eassumption|]; regions).
Qed.

Lemma plane_loop_ok fd xsize plane tail bs px : encodes bs px -> 0 <= plane < 4 -> xsize <= 800 ->
  forall fuel x m printed w, held (Some (fd, bs ++ tail)) w m -> 0 <= x ->
  x + Z.of_nat (length px) = xsize -> (length bs < fuel)%nat ->
  plane_done fd plane x px tail m (run answer (plane_loop rs y fuel fd xsize plane x m) printed w) printed.
Proof.
  intros E Hp Hxs. induction E as [|b bs px Hb E IH|k b bs px Hk Hb E IH];
    intros [|fuel] x m printed w Hh Hx Hl Hf; cbn [length app] in *; try lia; cbn [plane_loop].
  - rewrite (proj2 (Z.ltb_ge _ _)) by lia. exists m, w. cbn.
    split; [do 4 f_equal; cbn in Hl; lia|]. split; [done|]. split; [lia|]. split; [|done]. by intros i p.
  - rewrite (proj2 (Z.ltb_lt _ _)) by lia. rewrite run_bind.
    destruct (read_byte fd b (bs ++ tail) m printed w Hh) as (v & m1 & w1 & -> & T1 & Hh1 & M1).
    cbn [mbind option_bind]. rewrite run_bind. cbn [get_mem run mbind option_bind].
    rewrite T1, (proj2 (Z.eqb_neq _ _)) by (by apply plain_byte).
    destruct (put_pixel_ok m1 x plane ltac:(lia) Hp ltac:(rewrite T1; lia)) as (E2 & T2 & S2 & M2).
    cbn [put_pixel fst] in *. rewrite run_bind. cbn [set_mem run mbind option_bind].
    apply (plane_done_step fd plane x [b] px tail m m1 (store32 m1 (pixel y x plane) (m1 (l_temp y))));
      try done; [cbn; lia| |].
    + intros i Hi. cbn [length] in Hi. assert (i = 0%nat) as -> by lia. cbn [nth].
      by rewrite Z.add_0_r, E2.
    + apply IH; [by eapply held_table|lia|cbn; lia|lia].
  - rewrite length_app, repeat_length in Hl.
    rewrite (proj2 (Z.ltb_lt _ _)) by lia. rewrite run_bind.
    destruct (read_byte fd _ (b :: bs ++ tail) m printed w Hh) as (v & m1 & w1 & -> & T1 & Hh1 & M1).
    cbn [mbind option_bind]. rewrite run_bind. cbn [get_mem run mbind option_bind].
    destruct (run_byte k ltac:(lia)) as [R1 R2].
    rewrite T1, R1, R2, Z.eqb_refl, Nat2Z.id, run_bind.
    destruct (read_byte fd b (bs ++ tail) m1 printed w1 Hh1) as (v2 & m2 & w2 & -> & T2 & Hh2 & M2).
    cbn [mbind option_bind]. rewrite run_bind. cbn [get_mem run mbind option_bind].
    destruct (run_ok plane k Hp m2 0 x ltac:(rewrite T2; lia)) as (m3 & E3 & P3 & S3 & M3); [lia|lia|].
    rewrite E3. rewrite run_bind. cbn [set_mem run mbind option_bind].
    apply (plane_done_step fd plane x (repeat b k) px tail m m2 m3); try done.
    + rewrite length_app, repeat_length. lia.
    + by transitivity m1.
    + intros i Hi. rewrite repeat_length in Hi. rewrite P3, T2 by lia.
      by rewrite nth_repeat_lt by lia.
    + by rewrite repeat_length.
    + rewrite repeat_length. apply IH; [by eapply held_table|lia|lia|lia].
Qed.

(** ** Lines *)

(** A region may be named by a larger one. *)
Lemma modifies_within a k b j rgs m m' : modifies ((b, j) :: rgs) m m' -> a <= b -> b + j <= a + k ->
  modifies ((a, k) :: rgs) m m'.
Proof.
  intros M Ha Hb. eapply modifies_sub; [exact M|]. intros x Hx.
  apply Forall_cons_1 in Hx as [Hx HF]. apply List.Forall_cons; [cbn [fst snd] in *; lia|done].
Qed.

Section Line.
Context (n : nat) (fd xsize : Z) (Hxs : 0 < xsize <= 800).

(** The table holds the planes below [p] of a line. *)
Definition holds_planes (m : mem) (planes : list (list Z)) (p : Z) : Prop :=
  forall i q, 0 <= i < xsize -> 0 <= q < p ->
  load32 m (pixel y i q) = nth (Z.to_nat i) (nth (Z.to_nat q) planes []) 0.

Lemma plane_then plane planes bs px tail (k : user Z) m printed w :
  encodes bs px -> Z.of_nat (length px) = xsize -> (length bs < n)%nat -> 0 <= plane < 4 ->
  nth (Z.to_nat plane) planes [] = px ->
  held (Some (fd, bs ++ tail)) w m -> holds_planes m planes plane ->
  exists m' w', run answer ((plane_loop rs y n fd xsize plane 0 ;; k) m) printed w
      = run answer (k m') printed w' /\
    held (Some (fd, tail)) w' m' /\ holds_planes m' planes (plane + 1) /\ modifies line_regions m m'.
Proof.
  intros E Hl Hn Hp Hpx Hh HP.
  destruct (plane_loop_ok fd xsize plane tail bs px E Hp (proj2 Hxs) n 0 m printed w Hh)
    as (m' & w' & E' & Hh' & Hi & S' & M'); [lia|lia|done|].
  exists m', w'. rewrite run_bind, E'. split; [done|]. split; [done|]. split; [|done].
  intros i q Hi' Hq. destruct (decide (q = plane)) as [->|].
  - rewrite Hpx, <- (Hi (Z.to_nat i)) by lia. do 2 f_equal. lia.
  - rewrite S' by (try lia; intros [-> ?]; done). apply HP; lia.
Qed.

(** A line of the file: four planes. *)
Definition line_of (bs : list Z) (planes : list (list Z)) : Prop :=
  exists b0 b1 b2 b3 p0 p1 p2 p3, bs = b0 ++ b1 ++ b2 ++ b3 /\ planes = [p0; p1; p2; p3] /\
    Forall2 encodes [b0; b1; b2; b3] planes /\
    Forall (fun p => Z.of_nat (length p) = xsize) planes.

Lemma planes_ok bs planes tail (k : user Z) m printed w :
  line_of bs planes -> (length bs < n)%nat -> held (Some (fd, bs ++ tail)) w m ->
  exists m' w', run answer ((plane_loop rs y n fd xsize 0 0 ;; plane_loop rs y n fd xsize 1 0 ;;
      plane_loop rs y n fd xsize 2 0 ;; plane_loop rs y n fd xsize 3 0 ;; k) m) printed w
      = run answer (k m') printed w' /\
    held (Some (fd, tail)) w' m' /\ holds_planes m' planes 4 /\ modifies line_regions m m'.
Proof.
  intros (b0 & b1 & b2 & b3 & p0 & p1 & p2 & p3 & -> & -> & HE & HL) Hn Hh.
  apply Forall2_cons_1 in HE as [E0 HE]. apply Forall2_cons_1 in HE as [E1 HE].
  apply Forall2_cons_1 in HE as [E2 HE]. apply Forall2_cons_1 in HE as [E3 _].
  apply Forall_cons_1 in HL as [L0 HL]. apply Forall_cons_1 in HL as [L1 HL].
  apply Forall_cons_1 in HL as [L2 HL]. apply Forall_cons_1 in HL as [L3 _].
  rewrite !length_app in Hn. rewrite <- !app_assoc in Hh. set (planes := [p0; p1; p2; p3]).
  assert (P0 : holds_planes m planes 0) by (intros i q _ Hq; lia).
  destruct (plane_then 0 planes b0 p0 _ (plane_loop rs y n fd xsize 1 0 ;;
    plane_loop rs y n fd xsize 2 0 ;; plane_loop rs y n fd xsize 3 0 ;; k) m printed w E0 L0
    ltac:(lia) ltac:(lia) eq_refl Hh P0) as (m1 & w1 & -> & H1 & P1 & M1).
  destruct (plane_then 1 planes b1 p1 _ (plane_loop rs y n fd xsize 2 0 ;;
    plane_loop rs y n fd xsize 3 0 ;; k) m1 printed w1 E1 L1
    ltac:(lia) ltac:(lia) eq_refl H1 P1) as (m2 & w2 & -> & H2 & P2 & M2).
  destruct (plane_then 2 planes b2 p2 _ (plane_loop rs y n fd xsize 3 0 ;; k) m2 printed w2 E2 L2
    ltac:(lia) ltac:(lia) eq_refl H2 P2) as (m3 & w3 & -> & H3 & P3 & M3).
  destruct (plane_then 3 planes b3 p3 _ k m3 printed w3 E3 L3
    ltac:(lia) ltac:(lia) eq_refl H3 P3) as (m4 & w4 & -> & H4 & P4 & M4).
  exists m4, w4. split; [done|]. split; [done|]. split; [done|].
  transitivity m3; [|done]. transitivity m2; [|done]. by transitivity m1.
Qed.

(** The line in memory, three bytes for a pixel. *)
Lemma copy_line_ok m row : raw <= raw + row * xsize * 3 ->
  raw + row * xsize * 3 + 3 * xsize <= raw + size ->
  let m' := copy_line y m raw row xsize in
  (forall i c, 0 <= i < xsize -> 0 <= c < 3 ->
     m' (raw + row * xsize * 3 + i * 3 + c) = u8 (load32 m (pixel y i c))) /\
  modifies [(raw + row * xsize * 3, 3 * xsize)] m m'.
Proof.
  intros Hl Hh. unfold copy_line. set (base := raw + row * xsize * 3) in *.
  pose (P j t := (forall i c, 0 <= i < j -> 0 <= c < 3 ->
    t (base + i * 3 + c) = u8 (load32 m (pixel y i c))) /\ modifies [(base, 3 * xsize)] m t).
  assert (Hr : forall t i c, modifies [(base, 3 * xsize)] m t -> 0 <= i < xsize -> 0 <= c < 3 ->
    load32 t (pixel y i c) = load32 m (pixel y i c)).
  { intros t i c M Hi Hc. eapply load32_modifies; [exact M|]. apply List.Forall_cons; [|done].
    pose proof (ao_raw_table _ _ _ _ _ A) as Ha. unfold apart, pixel, TABLE in *. cbn. lia. }
  enough (P (0 + Z.of_nat (Z.to_nat xsize)) (for_up (Z.to_nat xsize) 0
    (fun i m => upd (upd (upd m (base + i * 3 + 0) (u8 (load32 m (pixel y i 0))))
       (base + i * 3 + 1) (u8 (load32 (upd m (base + i * 3 + 0) (u8 (load32 m (pixel y i 0)))) (pixel y i 1))))
       (base + i * 3 + 2) (u8 (load32 (upd (upd m (base + i * 3 + 0) (u8 (load32 m (pixel y i 0))))
       (base + i * 3 + 1) (u8 (load32 (upd m (base + i * 3 + 0) (u8 (load32 m (pixel y i 0)))) (pixel y i 1)))) (pixel y i 2)))) m)) as HP.
  { rewrite Z2Nat.id in HP by lia. exact HP. }
  apply for_up_ind; [split; [lia|done]|].
  intros j t Hj [Hb M]. rewrite Z2Nat.id in Hj by lia.
  set (t1 := upd t (base + j * 3 + 0) (u8 (load32 t (pixel y j 0)))).
  set (t2 := upd t1 (base + j * 3 + 1) (u8 (load32 t1 (pixel y j 1)))).
  assert (M1 : modifies [(base, 3 * xsize)] m t1).
  { transitivity t; [done|]. eapply modifies_sub; [apply modifies_upd|]. regions. }
  assert (M2 : modifies [(base, 3 * xsize)] m t2).
  { transitivity t1; [done|]. eapply modifies_sub; [apply modifies_upd|]. regions. }
  rewrite (Hr t2 j 2 M2) by lia. split.
  - intros i c Hi Hc. destruct (decide (i = j)) as [->|].
    + assert (c = 0 \/ c = 1 \/ c = 2) as [-> |[-> | ->]] by lia.
      * rewrite upd_ne by lia. unfold t2. rewrite upd_ne by lia. unfold t1. by rewrite upd_eq, Hr by done.
      * rewrite upd_ne by lia. unfold t2. by rewrite upd_eq, Hr by done.
      * by rewrite upd_eq.
    + rewrite upd_ne by lia. unfold t2. rewrite upd_ne by lia. unfold t1. rewrite upd_ne by lia.
      apply Hb; lia.
  - transitivity t2; [done|]. eapply modifies_sub; [apply modifies_upd|]. regions.
Qed.

(** The lines of the image from [row] on are in memory. *)
Definition holds_lines (m : mem) (row : Z) (lines : list (list (list Z))) : Prop :=
  forall r i c, 0 <= r < Z.of_nat (length lines) -> 0 <= i < xsize -> 0 <= c < 3 ->
  m (raw + ((row + r) * xsize + i) * 3 + c)
  = nth (Z.to_nat i) (nth (Z.to_nat c) (nth (Z.to_nat r) lines []) []) 0.

Lemma encodes_bytes bs px : encodes bs px -> Forall (fun b => 0 <= b < 256) px.
Proof.
  induction 1 as [|b bs px Hb E IH|k b bs px Hk Hb E IH]; [done|apply List.Forall_cons; [lia|done]|].
  apply Forall_app. split; [|done]. clear Hk. induction k; [done|]. by apply List.Forall_cons.
Qed.

Lemma line_bytes bs planes i c : line_of bs planes -> 0 <= i < xsize -> 0 <= c < 3 ->
  0 <= nth (Z.to_nat i) (nth (Z.to_nat c) planes []) 0 < 256.
Proof.
  intros (b0 & b1 & b2 & b3 & p0 & p1 & p2 & p3 & _ & -> & HE & HL) Hi Hc.
  assert (Forall (fun p => Forall (fun b => 0 <= b < 256) p) [p0; p1; p2; p3]) as HF.
  { clear HL. induction HE as [|b p bs' ps E _ IH]; [done|]. apply List.Forall_cons; [|done].
    by eapply encodes_bytes. }
  rewrite List.Forall_forall in HF, HL.
  assert (Hin : In (nth (Z.to_nat c) [p0; p1; p2; p3] []) [p0; p1; p2; p3])
    by (apply nth_In; cbn; lia).
  specialize (HF _ Hin). rewrite List.Forall_forall in HF. apply HF, nth_In.
  pose proof (HL _ Hin). lia.
Qed.

Lemma line_step bs planes tail row ysize fuel m printed w :
  line_of bs planes -> (length bs < n)%nat -> held (Some (fd, bs ++ tail)) w m ->
  0 <= row < ysize -> 3 * xsize * ysize <= size ->
  exists m' w', run answer (line_loop n rs y (S fuel) fd raw xsize ysize row m) printed w
      = run answer (line_loop n rs y fuel fd raw xsize ysize (row + 1) m') printed w' /\
    held (Some (fd, tail)) w' m' /\
    (forall i c, 0 <= i < xsize -> 0 <= c < 3 ->
       m' (raw + (row * xsize + i) * 3 + c) = nth (Z.to_nat i) (nth (Z.to_nat c) planes []) 0) /\
    modifies ((raw + row * xsize * 3, 3 * xsize) :: line_regions) m m'.
Proof.
  intros HL Hn Hh Hr Hs. cbn [line_loop]. rewrite (proj2 (Z.ltb_lt _ _)) by lia.
  destruct (planes_ok bs planes tail (m ← get_mem; set_mem (copy_line y m raw row xsize) ;;
    line_loop n rs y fuel fd raw xsize ysize (row + 1)) m printed w HL Hn Hh)
    as (m1 & w1 & -> & H1 & P1 & M1).
  assert (row * xsize + xsize <= ysize * xsize) by nia.
  destruct (copy_line_ok m1 row) as [C1 C2]; [nia|lia|].
  exists (copy_line y m1 raw row xsize), w1. rewrite run_bind. cbn [get_mem run mbind option_bind].
  rewrite run_bind. cbn [set_mem run mbind option_bind]. split; [done|]. split; [|split].
  - eapply held_frame; [exact H1|exact C2|]. apply List.Forall_cons; [|done].
    pose proof (ao_guarded _ _ _ _ _ A) as Hg. do 3 apply Forall_cons_1 in Hg as [_ Hg].
    apply Forall_inv in Hg. revert Hg. apply List.Forall_impl. intros g Hg.
    unfold apart in *. cbn [fst snd] in *. nia.
  - intros i c Hi Hc. replace (raw + (row * xsize + i) * 3 + c) with (raw + row * xsize * 3 + i * 3 + c) by lia.
    rewrite C1, (P1 i c) by lia. apply u8_id. by eapply line_bytes.
  - transitivity m1; [eapply modifies_sub; [exact M1|]; regions|].
    eapply modifies_sub; [exact C2|]. regions.
Qed.

(** The image is away from what else a line changes. *)
Lemma raw_outside a : raw <= a < raw + size ->
  Forall (fun r => ~ (fst r <= a < fst r + snd r)) line_regions.
Proof.
  intros Ha. apply List.Forall_cons.
  - pose proof (ao_raw_table _ _ _ _ _ A) as H. unfold apart in H. cbn [fst snd]. lia.
  - apply List.Forall_cons.
    + pose proof (ao_raw_temp _ _ _ _ _ A) as H. unfold apart in H. cbn [fst snd]. lia.
    + pose proof (ao_touched _ _ _ _ _ A) as H. apply Forall_cons_1 in H as [_ H]. apply Forall_inv in H.
      revert H. apply List.Forall_impl. intros g Hg. unfold apart in Hg. cbn [fst snd] in Hg. lia.
Qed.

Lemma line_loop_ok lines tail ysize bss : Forall2 line_of bss lines -> 3 * xsize * ysize <= size ->
  forall fuel row m printed w, 0 <= row -> row + Z.of_nat (length lines) = ysize ->
  (length (concat bss) < n)%nat -> (length lines < fuel)%nat ->
  held (Some (fd, concat bss ++ tail)) w m ->
  exists m' w', run answer (line_loop n rs y fuel fd raw xsize ysize row m) printed w
      = Some (ysize, m', printed, w') /\
    held (Some (fd, tail)) w' m' /\ holds_lines m' row lines /\
    modifies ((raw + row * xsize * 3, 3 * xsize * Z.of_nat (length lines)) :: line_regions) m m'.
Proof.
  intros HL Hs. induction HL as [|bs planes bss lines HL HLs IH];
    intros [|fuel] row m printed w Hr Hy Hn Hf Hh; cbn [length concat] in *; try lia.
  - cbn [line_loop]. rewrite (proj2 (Z.ltb_ge _ _)) by lia. exists m, w.
    split; [by replace ysize with row by lia|]. split; [done|]. split; [|done].
    intros r i c Hr'. cbn in Hr'. lia.
  - rewrite length_app in Hn. rewrite <- app_assoc in Hh.
    destruct (line_step bs planes (concat bss ++ tail) row ysize fuel m printed w HL ltac:(lia) Hh
      ltac:(lia) Hs) as (m1 & w1 & -> & H1 & P1 & M1).
    destruct (IH fuel (row + 1) m1 printed w1) as (m2 & w2 & -> & H2 & P2 & M2); try lia; [done|].
    exists m2, w2. split; [done|]. split; [done|]. split.
    + intros r i c Hr' Hi Hc. cbn [length] in Hr'. destruct (decide (r = 0)) as [->|].
      * cbn [nth Z.to_nat]. rewrite Z.add_0_r, M2, P1 by (done || lia || (apply List.Forall_cons;
          [cbn [fst snd]; nia|apply raw_outside; nia])). done.
      * replace (nth (Z.to_nat r) (planes :: lines) []) with (nth (Z.to_nat (r - 1)) lines [])
          by (replace (Z.to_nat r) with (S (Z.to_nat (r - 1))) by lia; done).
        rewrite <- (P2 (r - 1) i c) by lia. f_equal. lia.
    + transitivity m1; (eapply modifies_within; [eassumption|nia|nia]).
Qed.
End Line.
End Decode.

(** ** A whole file *)

(** The header's field at [i] and the sizes it gives. *)
Definition field16 (header : list Z) (i : nat) : Z := nth (i + 1) header 0 * 256 + nth i header 0.
Definition pcx_width (header : list Z) : Z := field16 header 8 - field16 header 4 + 1.
Definition pcx_height (header : list Z) : Z := field16 header 10 - field16 header 6 + 1.

Lemma run_print_header {W} answer y m0 m printed (w : W) :
  exists v ps, run answer (print_header y m0 m) printed w = Some (v, m, printed ++ ps, w).
Proof.
  assert (Hsay : forall A (k : user A) q printed, (forall printed, exists v ps,
      run answer (k m) printed w = Some (v, m, printed ++ ps, w)) ->
    exists v ps, run answer ((say q ;; k) m) printed w = Some (v, m, printed ++ ps, w)).
  { intros A k q pr Hk. rewrite run_bind. cbn [say run mbind option_bind].
    destruct (Hk (pr ++ q)) as (v & ps & ->). exists v, (q ++ ps). by rewrite app_assoc. }
  assert (Hif : forall A (k : user A) (b : bool) q1 q2 printed, (forall printed, exists v ps,
      run answer (k m) printed w = Some (v, m, printed ++ ps, w)) ->
    exists v ps, run answer (((if b then say q1 else say q2) ;; k) m) printed w
      = Some (v, m, printed ++ ps, w)).
  { intros A k [] q1 q2 pr Hk; by apply Hsay. }
  unfold print_header. repeat (intros || apply Hsay || apply Hif).
  eexists _, _. reflexivity.
Qed.

Lemma load_pcx_ok {W} answer n rs y filename raw path content header bss lines tail m printed
    (w : W) `{R : !Readable answer rs path content} :
  content = header ++ concat bss ++ tail ->
  let xsize := pcx_width header in
  let ysize := pcx_height header in
  apart_objects guarded touched y raw (3 * xsize * ysize) ->
  length header = 128%nat -> 0 < xsize <= 800 -> ysize = Z.of_nat (length lines) ->
  Forall2 (line_of xsize) bss lines -> (length (concat bss) < n)%nat -> (length lines < n)%nat ->
  held None w m -> cstring (at_ m filename) path -> 0 < filename ->
  filename + Z.of_nat (length path) < 2 ^ 32 ->
  Forall (fun r => apart (fst r) (snd r) filename (Z.of_nat (length path) + 1)) touched ->
  exists m' w' ps, run answer (vmwLoadPCX n rs y filename raw m) printed w
      = Some (0, m', printed ++ ps, w') /\
    holds_lines raw xsize m' 0 lines /\
    modifies ((l_header y, 128) :: (raw, 3 * xsize * ysize) :: line_regions answer rs path content y) m m'.
Proof.
  intros Hcont xsize ysize A Hh Hx Hy HL Hn1 Hn2 H0 Hc Hf0 Hf1 Ha.
  destruct (file_open w m filename H0 Hc Hf0 Hf1 Ha) as (fd & m1 & w1 & E1 & Hfd & H1 & M1).
  unfold vmwLoadPCX. rewrite run_bind, run_svc_int, E1. cbn [mbind option_bind].
  rewrite s32_id, (proj2 (Z.ltb_ge fd 0)) by lia.
  pose proof (ao_guarded _ _ _ _ _ A) as Hg. apply Forall_cons_1 in Hg as [_ Hg].
  apply Forall_inv in Hg.
  assert (H1' : held (Some (fd, header ++ concat bss ++ tail)) w1 m1) by (by rewrite <- Hcont).
  destruct (file_read w1 m1 fd _ (l_header y) 128 H1' (ao_header _ _ _ _ _ A) ltac:(lia) Hg)
    as (m2 & w2 & E2 & Hb & H2 & M2).
  assert (Hlh : length (take 128 (header ++ concat bss ++ tail)) = 128%nat)
    by (rewrite length_take, length_app; lia).
  change (Z.to_nat 128) with 128%nat in *. rewrite Hlh in *.
  rewrite drop_app_length' in H2 by done.
  rewrite run_bind, run_svc_int, E2. cbn [mbind option_bind]. rewrite run_bind.
  cbn [get_mem run mbind option_bind].
  assert (Hf : forall i, (i < 127)%nat -> header16 y m2 (Z.of_nat i) = field16 header i).
  { intros i Hi. unfold header16, field16.
    pose proof (Hb (i + 1)%nat ltac:(lia)) as B1. pose proof (Hb i ltac:(lia)) as B0.
    rewrite app_nth1 in B0, B1 by lia. rewrite <- B0, <- B1.
    replace (l_header y + Z.of_nat (i + 1)) with (l_header y + Z.of_nat i + 1) by lia. done. }
  change 4 with (Z.of_nat 4). change 6 with (Z.of_nat 6).
  change 8 with (Z.of_nat 8). change 10 with (Z.of_nat 10). rewrite !Hf by lia.
  fold (pcx_width header). fold (pcx_height header). fold xsize ysize.
  rewrite run_bind. destruct (run_print_header answer y m2 m2 printed w2) as (v & ps & ->).
  cbn [mbind option_bind].
  destruct (line_loop_ok answer rs path _ y raw _ A n fd xsize Hx lines tail ysize bss HL ltac:(lia)
    n 0 m2 (printed ++ ps) w2) as (m3 & w3 & E3 & H3 & P3 & M3); try done; try lia.
  rewrite run_bind, E3. cbn [mbind option_bind].
  destruct (file_close w3 m3 fd tail H3) as (v4 & w4 & E4).
  rewrite run_bind, run_svc_int, E4. cbn [mbind option_bind].
  exists m3, w4, ps. split; [done|]. split; [done|].
  transitivity m2; [transitivity m1|].
  - eapply modifies_sub; [exact M1|]. unfold line_regions, read_regions. regions.
  - eapply modifies_sub; [exact M2|]. unfold line_regions, read_regions. regions.
  - eapply modifies_sub; [exact M3|]. unfold line_regions, read_regions. regions.
Qed.

(** C11. The slide show decodes its images.  Let the regular file at the path
    hold a header of 128 bytes, then for each line of the image four planes of
    the width of the header, each encoded on its own in bytes and runs, then
    anything.  Run on the kernel, [vmwLoadPCX] returns 0 and has put the first
    three planes into the image, three bytes for a pixel, line by line; it has
    written nothing but the image, its tables and the kernel's scratch space. *)
Theorem pcx_decodes `{MemFill} `{Device W} rd fl d (L : flayout rd fl d) e K rs
    root cwd o name path n y filename raw header bss lines tail m printed (s : system W) :
  length rs = 15%nat -> regular rd d e K root cwd o name path ->
  file_bytes d o name 0 (fsize d o) = header ++ concat bss ++ tail ->
  let xsize := pcx_width header in
  let ysize := pcx_height header in
  apart_objects [(rd_start rd, rd_length rd)] (path_regions fl) y raw (3 * xsize * ysize) ->
  length header = 128%nat -> 0 < xsize <= 800 -> ysize = Z.of_nat (length lines) ->
  Forall2 (line_of xsize) bss lines -> (length (concat bss) < n)%nat -> (length lines < n)%nat ->
  file_state rd d e root cwd o name None s m -> cstring (at_ m filename) path -> 0 < filename ->
  filename + Z.of_nat (length path) < 2 ^ 32 ->
  Forall (fun r => apart (fst r) (snd r) filename (Z.of_nat (length path) + 1)) (path_regions fl) ->
  exists m' s' ps, run (kernel_call rd fl e) (vmwLoadPCX n rs y filename raw m) printed s
      = Some (0, m', printed ++ ps, s') /\
    holds_lines raw xsize m' 0 lines /\
    modifies ([(l_header y, 128); (raw, 3 * xsize * ysize); (l_rgb y, TABLE); (l_temp y, 1)] ++
              path_regions fl) m m'.
Proof.
  intros Hrs R Hb xsize ysize A Hh Hx Hy HL Hn1 Hn2 Hheld Hc Hf0 Hf1 Ha.
  exact (load_pcx_ok (kernel_call rd fl e) n rs y filename raw path _ header bss lines tail m printed s
    (R := kernel_readable rd fl d L e K rs Hrs root cwd o name path R)
    Hb A Hh Hx Hy HL Hn1 Hn2 Hheld Hc Hf0 Hf1 Ha).
Qed.

(** ** A run: an image of three by two pixels in the file "/p" *)

Definition tiny_header : list Z := [10; 5; 1; 8; 0; 0; 0; 0; 2; 0; 1; 0] ++ repeat 0 116.

Definition tiny_lines : list (list (list Z)) :=
  [[[10; 20; 200]; [1; 1; 1]; [255; 0; 7]; [0; 0; 0]];
   [[5; 5; 5]; [6; 6; 6]; [7; 7; 7]; [0; 0; 0]]].

(** The second line in runs of three. *)
Definition tiny_bytes : list (list Z) :=
  [flat_map pcx_encode (nth 0 tiny_lines []); [195; 5; 195; 6; 195; 7; 195; 0]].

Definition tiny_file : list Z := tiny_header ++ concat tiny_bytes.

Definition tiny_image : list Z :=
  romfs_magic ++ be_bytes 288 ++ be_bytes 0 ++ 118 :: repeat 0 15 ++
  demo_header (64 + 9) 32 0 [46] ++ demo_header 96 32 0 [46; 46] ++
  demo_header 2 0 150 [112] ++ tiny_file ++ repeat 0 10.

Definition tiny_byte (i : Z) : Z := nth (Z.to_nat i) tiny_image 0.
Definition tiny_disk : ramdisk := Ramdisk 32768 288.
Definition tiny_mem : mem := mem_with (mem_with (fun _ => 1) 32768 tiny_image) 20736 [47; 112; 0].
Definition tiny_slides : layout_ := Layout 40900 41000 41200 42000 20736 41300.

Lemma tiny_flayout : flayout tiny_disk demo_fl tiny_byte.
Proof.
  split; [|left; cbn; lia| |cbn; lia|left; cbn; lia|right; cbn; lia].
  - split; cbn [rd_start rd_length tiny_disk temp_int temp_buffer filename header demo_fl fl_romfs demo_locals];
      try (unfold apart; lia).
    intros i. unfold tiny_byte.
    assert (Hb : forallb (fun b => (0 <=? b) && (b <? 256)) tiny_image = true) by (by vm_compute).
    rewrite forallb_forall in Hb.
    destruct (nth_in_or_default (Z.to_nat i) tiny_image 0) as [Hin|E]; [|rewrite E; lia].
    specialize (Hb _ Hin). lia.
  - repeat apply List.Forall_cons; [left; cbn; lia..|constructor].
Qed.

Lemma tiny_root : is_dir tiny_disk tiny_byte 2 10 32 [(32, [46]); (64, [46; 46]); (96, [112])].
Proof.
  split; [cbn; lia|by vm_compute| |cbn; lia|repeat constructor; cbn; lia].
  apply dir_next; [split; [by vm_compute|by apply name_at_check]|by vm_compute|].
  apply dir_next; [split; [by vm_compute|by apply name_at_check]|by vm_compute|].
  apply dir_last; [split; [by vm_compute|by apply name_at_check]|by vm_compute].
Qed.

Lemma tiny_regular : regular tiny_disk tiny_byte ls_env 2 32 32 96 [112] [47; 112].
Proof.
  split; [|cbn; lia|lia|split; [by vm_compute|by apply name_at_check]|by vm_compute|by vm_compute
         |cbn; lia].
  exists true, [[112]]. split; [repeat constructor; cbn; lia|]. split; [done|].
  split; [done|]. cbn [join]. eapply walk_last; [exact tiny_root|].
  exists 0%nat. split; [|cbn; lia]. apply resolves_here; [lia|cbn; lia|by vm_compute].
Qed.

Lemma tiny_state : file_state tiny_disk tiny_byte ls_env 32 32 96 [112] None ls_system tiny_mem.
Proof.
  split; [|by vm_compute|eexists; split; [by vm_compute|discriminate]|done| |vm_compute; lia].
  - intros i Hi. apply Z.eqb_eq.
    by apply (check_below (fun i => tiny_mem (32768 + i) =? tiny_byte i) 288).
  - eexists. split; [by vm_compute|done].
Qed.

Lemma tiny_line_of : Forall2 (line_of 3) tiny_bytes tiny_lines.
Proof.
  apply List.Forall2_cons; [|apply List.Forall2_cons; [|apply List.Forall2_nil]].
  - exists [10; 20; 193; 200], [1; 1; 1], [193; 255; 0; 7], [0; 0; 0].
    eexists _, _, _, _. split; [by vm_compute|]. split; [reflexivity|].
    split; [|by repeat constructor].
    repeat match goal with
    | |- Forall2 _ (_ :: _) (_ :: _) => apply List.Forall2_cons
    | |- Forall2 _ [] [] => apply List.Forall2_nil
    end;
    match goal with |- encodes _ ?px => apply (pcx_encode_encodes px) end;
      repeat (apply List.Forall_cons; [lia|]); apply List.Forall_nil.
  - exists [195; 5], [195; 6], [195; 7], [195; 0].
    eexists _, _, _, _. split; [by vm_compute|]. split; [reflexivity|].
    split; [|by repeat constructor].
    do 4 (apply List.Forall2_cons; [apply (encodes_run 3 _ [] []); [lia|lia|constructor]|]).
    apply List.Forall2_nil.
Qed.

Lemma pcx_decodes_witness :
  exists m' s' ps, run (kernel_call tiny_disk demo_fl ls_env)
      (vmwLoadPCX 100 (repeat 9 15) tiny_slides 20736 60000 tiny_mem) [] ls_system
      = Some (0, m', ps, s') /\
    holds_lines 60000 3 m' 0 tiny_lines /\
    modifies ([(41000, 128); (60000, 18); (42000, TABLE); (41200, 1)] ++ path_regions demo_fl)
      tiny_mem m'.
Proof.
  refine (pcx_decodes tiny_disk demo_fl tiny_byte tiny_flayout ls_env 2 (repeat 9 15) 32 32 96
    [112] [47; 112] 100 tiny_slides 20736 60000 tiny_header tiny_bytes tiny_lines [] tiny_mem []
    ls_system _ tiny_regular _ _ _ _ _ tiny_line_of _ _ tiny_state _ _ _ _).
  - done.
  - by vm_compute.
  - split; try (unfold apart, TABLE; cbn; lia);
      repeat (apply List.Forall_cons || apply List.Forall_nil); unfold apart, TABLE; cbn; lia.
  - done.
  - change (pcx_width tiny_header) with 3. lia.
  - by vm_compute.
  - vm_compute; lia.
  - vm_compute; lia.
  - apply cstringb_cstring. by vm_compute.
  - lia.
  - cbn; lia.
  - apply demo_path_apart; cbn; lia.
Defined.

(** *** Behaviour at the edges *)

(** [read] is not checked: behind the end of the file the last byte counts again
    and again, and when it is 192, a run of length 0, the decoder never ends. *)
Lemma endless_run {W} (answer : list Z -> mem -> W -> option (Z * mem * W)) rs y fd xsize plane x
    m printed w fuel :
  (forall w m, exists w', answer (libc_read rs fd (l_temp y) 1) m w = Some (0, m, w')) ->
  m (l_temp y) = 192 -> x < xsize ->
  run answer (plane_loop rs y fuel fd xsize plane x m) printed w = None.
Proof.
  intros Hend Hm Hx. revert w. induction fuel as [|fuel IH]; intros w; [done|]. cbn [plane_loop].
  rewrite (proj2 (Z.ltb_lt _ _)) by done. rewrite run_bind, run_svc_int.
  destruct (Hend w m) as (w1 & ->). cbn [mbind option_bind]. rewrite run_bind.
  cbn [get_mem run mbind option_bind]. rewrite Hm.
  change (Z.land 192 192 =? 192) with true. cbv iota. rewrite run_bind, run_svc_int.
  destruct (Hend w1 m) as (w2 & ->). cbn [mbind option_bind]. rewrite run_bind.
  cbn [get_mem run mbind option_bind]. change (Z.to_nat (Z.land 192 63)) with 0%nat.
  cbn [for_up]. rewrite run_bind. cbn [set_mem run mbind option_bind]. apply IH.
Qed.

(** A run may be longer than the line: it is stored in full, behind the pixels of
    the line and, from the 801st pixel on, behind the table. *)
Lemma run_past_line (y : layout_) m k x plane :
  snd (for_up k 0 (fun _ => put_pixel y plane) (m, x)) = x + Z.of_nat k.
Proof.
  revert m x. generalize 0 as z. induction k as [|k IH]; intros z m x; cbn [for_up snd]; [lia|].
  change (put_pixel y plane (m, x)) with (store32 m (pixel y x plane) (m (l_temp y)), x + 1).
  rewrite IH. lia.
Qed.
