(* ===== verification/Controller.v ===== *)
(** * The game controller: userspace/wii_controller.c and bet_amount.c

    Both programs talk to an extension controller at address 0x52 of the I2C
    bus; the routines they share are modelled once, [Wii] and [Bet] hold what
    is different.  [wii_controller] prints the buttons as they are pressed,
    [bet_amount] lets the player choose a number with the pad. *)

From stdpp Require Import base list numbers.
From Stdlib Require Import ZArith Lia.
From Stdlib Require String.
From S2P Require Import Prelude CString Romfs Process Sched Mmio Serial Files Printk Syscalls User Vlibc Ls.
Import String.StringSyntax.

Definition WII_CONTROLLER_ADDR : Z := 0x52.

(** The buttons in the last two bytes of the registers. *)
Definition BDR : Z := 2 ^ 15.
Definition BDD : Z := 2 ^ 14.
Definition BLT : Z := 2 ^ 13.
Definition BMI : Z := 2 ^ 12.
Definition BHO : Z := 2 ^ 11.
Definition BPL : Z := 2 ^ 10.
Definition BRT : Z := 2 ^ 9.
Definition BZL : Z := 2 ^ 7.
Definition BB : Z := 2 ^ 6.
Definition BY : Z := 2 ^ 5.
Definition BA : Z := 2 ^ 4.
Definition BX : Z := 2 ^ 3.
Definition BZR : Z := 2 ^ 2.
Definition BDL : Z := 2 ^ 1.
Definition BDU : Z := 2 ^ 0.

(** Where the local objects lie. *)
Record layout_ := Layout {
  c_time : Z;            (* the timespec of usleep *)
  c_pair : Z;            (* the two bytes of i2c_set_reg *)
  c_reg : Z;             (* reg_addr *)
  c_id : Z;
  c_buf : Z;             (* the six bytes of the registers *)
  c_msg : Z }.           (* the message of the prompt *)

Section Controller.
Context (rs : list Z) (y : layout_).

(** The address is an argument that is not used. *)
Definition i2c_set_reg (addr reg_addr value : Z) : user Z :=
  m ← get_mem; set_mem (upd (upd m (c_pair y) reg_addr) (c_pair y + 1) value) ;;
  svc_int (libc_i2c_write rs WII_CONTROLLER_ADDR (c_pair y) 2).

Definition i2c_get_regs (addr reg_addr buf count : Z) : user Z :=
  m ← get_mem; set_mem (upd m (c_reg y) reg_addr) ;;
  svc_int (libc_i2c_write rs WII_CONTROLLER_ADDR (c_reg y) 1) ;;
  usleep rs (c_time y) 200 ;;
  svc_int (libc_i2c_read rs WII_CONTROLLER_ADDR buf count).

(** The identification, or the error of the step that failed. *)
Definition identify : user (Z + Z) :=
  r ← i2c_set_reg WII_CONTROLLER_ADDR 0xF0 0x55;
  if negb (r =? 2) then mret (inl (-1))
  else
    usleep rs (c_time y) 2000 ;;
    r ← i2c_set_reg WII_CONTROLLER_ADDR 0xFB 0x00;
    if negb (r =? 2) then mret (inl (-2))
    else
      usleep rs (c_time y) 2000 ;;
      r ← i2c_get_regs WII_CONTROLLER_ADDR 0xFE (c_id y) 2;
      if negb (r =? 2) then mret (inl (-3))
      else m ← get_mem; mret (inr (m (c_id y) + 256 * m (c_id y + 1))).

Definition read_buttons (buf : Z) : user Z :=
  results ← i2c_get_regs WII_CONTROLLER_ADDR 0x00 buf 6;
  if results <? 0 then mret results
  else if negb (results =? 6) then mret (-3)
  else mret 0.

(** [~((buf[4] << 8) | buf[5])] as a [uint16_t]: a button that is down reads 0. *)
Definition buttons_of (m : mem) (buf : Z) : Z :=
  u16 (Z.lnot (Z.lor (Z.shiftl (m (buf + 4)) 8) (m (buf + 5)))).

End Controller.

(** ** wii_controller.c *)
Module Wii.
Section Wii.
Context (rs : list Z) (y : layout_).

(** What the identification is called, and the result of [init_controller]. *)
Definition controller_name (id : Z) : list piece :=
  if id =? 0x0000 then lits "Nunchuk"
  else if id =? 0x0101 then lits "Classic Controller"
  else if id =? 0x0013 then lits "Drawsome Graphics tablet"
  else if id =? 0x0103 then lits "Guitar Hero/DJ Hero controller"
  else if id =? 0x0111 then lits "Taiko no Tatsujin TaTaCon"
  else if id =? 0x0112 then lits "uDraw GameTablet"
  else if id =? 0x0310 then lits "Densha de GO! Shinkansen Controller"
  else if id =? 0x0402 then lits "Wii Balance Board"
  else if (id =? 0x0005) || (id =? 0x0405) then lits "Wii Motion Plus"
  else if id =? 0x0505 then lits "Wii Motion Plus (Nunchuck passthru)"
  else if id =? 0x0705 then lits "Wii Motion Plus (Classic Controller Passthru)"
  else [].

Definition init_controller : user Z :=
  r ← identify rs y;
  match r with
  | inl error => mret error
  | inr id =>
      match controller_name id with
      | [] => say (lits "No valid controller detected!") ;; mret 1
      | name =>
          say name ;; say (lits " detected" ++ [nl]) ;;
          mret (if id =? 0x0101 then 0 else -4)
      end
  end.

(** The letters of the buttons in [tmp], one [printf] each. *)
Definition print_button (tmp bit : Z) (name : list piece) : user Z :=
  if negb (Z.land tmp bit =? 0) then say name else mret 0.

Definition print_buttons (tmp : Z) : user Z :=
  print_button tmp BDR (lits "> ") ;;
  print_button tmp BDD (lits "V ") ;;
  print_button tmp BDL (lits "< ") ;;
  print_button tmp BDU (lits "^ ") ;;
  print_button tmp BA (lits "A ") ;;
  print_button tmp BB (lits "B ") ;;
  print_button tmp BX (lits "X ") ;;
  print_button tmp BY (lits "Y ") ;;
  print_button tmp BRT (lits "RT ") ;;
  print_button tmp BLT (lits "LT ") ;;
  print_button tmp BZR (lits "ZL ") ;;
  print_button tmp BZL (lits "ZR ") ;;
  print_button tmp BPL (lits "+ ") ;;
  print_button tmp BMI (lits "- ") ;;
  print_button tmp BHO (lits "H ") ;;
  say [nl].

(** [while (!(buttons_pressed & BHO))] *)
Fixpoint button_loop (fuel : nat) (buttons_pressed : Z) : user Z :=
  match fuel with
  | O => stuck
  | S fuel' =>
      if negb (Z.land buttons_pressed BHO =? 0) then mret 0
      else
        result ← read_buttons rs y (c_buf y);
        if negb (result =? 0) then
          say (lits "Error reading from controller" ++ [nl]) ;; mret result
        else
          let buttons_pressed_prev := buttons_pressed in
          m ← get_mem;
          let buttons_pressed := buttons_of m (c_buf y) in
          let tmp := Z.land (Z.lxor buttons_pressed buttons_pressed_prev) buttons_pressed in
          (if negb (tmp =? 0) then print_buttons tmp else mret 0) ;;
          usleep rs (c_time y) 2000 ;;
          button_loop fuel' buttons_pressed
  end.

Definition main (fuel : nat) : user Z :=
  say (lits "Initializing Wii Extension Controller..." ++ [nl]) ;;
  result ← init_controller;
  if result <? 0 then
    say (lits "Error configuring controller: " ++ [dec result; nl]) ;; mret (-1)
  else if negb (result =? 0) then
    say (lits "A controller was connected, but not a classic controller, exiting." ++ [nl]) ;;
    mret (-2)
  else
    say (lits "Reading buttons: printing when a new one is pressed." ++ [nl]) ;;
    say (lits "Press home to exit" ++ [nl]) ;;
    button_loop fuel 0.
End Wii.
End Wii.

(** ** bet_amount.c *)
Module Bet.
Section Bet.
Context (n : nat) (rs : list Z) (y : layout_).

Definition init_controller : user Z :=
  r ← identify rs y;
  match r with
  | inl error => mret error
  | inr id => if id =? 0 then mret 1 else mret (if id =? 0x0101 then 0 else 1)
  end.

(** The amount and the number of samples for which up or down has been held. *)
Definition prompt_step (delta minimum buttons_pressed cash_money consecutive : Z) : Z * Z :=
  if negb (Z.land buttons_pressed (Z.lor BDU BDD) =? 0) then
    let cash_money :=
      if (consecutive =? 0) && negb (Z.land buttons_pressed BDD =? 0) &&
         (minimum <=? s32 (cash_money - delta))
      then s32 (cash_money - delta) else cash_money in
    let cash_money :=
      if (consecutive =? 0) && negb (Z.land buttons_pressed BDU =? 0)
      then s32 (cash_money + delta) else cash_money in
    (cash_money, Z.land (u8 (consecutive + 1)) 0x07)
  else (cash_money, 0).

(** "\033[%dG%d\033[0K" *)
Definition show_amount (col cash_money : Z) : list piece :=
  Lit 27 :: lits "[" ++ [dec col] ++ lits "G" ++ [dec cash_money; Lit 27] ++ lits "[0K".

Fixpoint prompt_loop (fuel : nat) (col delta minimum buttons_pressed cash_money consecutive : Z)
    : user Z :=
  match fuel with
  | O => stuck
  | S fuel' =>
      if negb (Z.land buttons_pressed BA =? 0) then
        say ([nl; Lit 27] ++ lits "[?25h") ;; mret cash_money
      else
        result ← read_buttons rs y (c_buf y);
        if negb (result =? 0) then
          say ([Lit 13] ++ lits "Error reading from controller" ++ [Lit 27] ++ lits "[0" ++
               [nl; Lit 27] ++ lits "[?25h") ;;
          mret (- 2 ^ 31)
        else
          m ← get_mem;
          let buttons_pressed := buttons_of m (c_buf y) in
          let '(cash_money, consecutive) :=
            prompt_step delta minimum buttons_pressed cash_money consecutive in
          (if negb (Z.land buttons_pressed (Z.lor BDU BDD) =? 0)
           then say (show_amount col cash_money) else mret 0) ;;
          usleep rs (c_time y) 2000 ;;
          prompt_loop fuel' col delta minimum buttons_pressed cash_money consecutive
  end.

Definition wii_controller_prompt (fuel : nat) (msg starting_val delta minimum : Z) : user Z :=
  m ← get_mem;
  len ← of_option (vlibc_strlen n (at_ m msg));
  s ← of_option (string_at n m msg);
  say ([Lit 27] ++ lits "[?25l" ++ [Conv [] (Str msg s); dec starting_val]) ;;
  prompt_loop fuel (s32 (len + 1)) delta minimum 0 starting_val 0.

Definition main (fuel : nat) : user Z :=
  result ← init_controller;
  if result <? 0 then
    say (lits "Error configuring controller: " ++ [dec result; nl]) ;; mret (-1)
  else if negb (result =? 0) then
    say (lits "A controller was connected, but not a classic controller, exiting." ++ [nl]) ;;
    mret (-2)
  else
    say (lits "Press up or down to change the value or press A to confirm." ++ [nl]) ;;
    cash_money ← wii_controller_prompt fuel (c_msg y) 10 10 0;
    say (lits "Player betted $" ++ [dec cash_money; nl]) ;;
    mret 0.
End Bet.
End Bet.

(** ** A controller on the bus

    The world of the two programs: a controller that acknowledges what is
    written to it and delivers one list of six register bytes after the other;
    when they are used up a read fails. *)

Definition pad : Type := list (list Z).

Definition pad_answer (regs : list Z) (m : mem) (w : pad) : option (Z * mem * pad) :=
  let nr := nth 7 regs 0 in
  if nr =? 8203 then Some (nth 2 regs 0, m, w)
  else if nr =? 162 then Some (0, m, w)
  else if nr =? 8202 then
    match w with
    | [] => Some (u32 (-1), m, [])
    | s :: w' => Some (nth 2 regs 0, mem_with m (nth 1 regs 0) (take (Z.to_nat (nth 2 regs 0)) s), w')
    end
  else None.

(** The registers report the buttons in [b], and no other. *)
Definition reports (s : list Z) (b : Z) : Prop :=
  length s = 6%nat /\ 0 <= nth 4 s 0 < 256 /\ 0 <= nth 5 s 0 < 256 /\
  nth 4 s 0 * 256 + nth 5 s 0 = 0xffff - b.

Lemma lor_bytes a b : 0 <= b < 256 -> Z.lor (Z.shiftl a 8) b = a * 256 + b.
Proof.
  intros Hb. assert (Z.land (Z.shiftl a 8) b = 0) as H0.
  { apply Z.bits_inj'. intros k Hk. rewrite Z.land_spec, Z.bits_0, Z.shiftl_spec by lia.
    destruct (decide (k < 8)); [by rewrite (Z.testbit_neg_r a) by lia|].
    replace b with (b mod 2 ^ 8) by (apply Z.mod_small; lia).
    rewrite Z.mod_pow2_bits_high by lia. apply andb_false_r. }
  rewrite <- Z.lxor_lor, <- Z.add_nocarry_lxor by done. by rewrite Z.shiftl_mul_pow2 by lia.
Qed.

Lemma buttons_of_sample m buf s b : reports s b -> 0 <= b < 2 ^ 16 ->
  m (buf + 4) = nth 4 s 0 -> m (buf + 5) = nth 5 s 0 -> buttons_of m buf = b.
Proof.
  intros (_ & H4 & H5 & E) Hb E4 E5. unfold buttons_of. rewrite E4, E5, lor_bytes, E by done.
  unfold u16, Z.lnot. replace (Z.pred (- (0xffff - b))) with (b + (-1) * 2 ^ 16) by lia.
  rewrite Z.mod_add by lia. apply Z.mod_small. lia.
Qed.

(** The registers of a stub. *)
Lemma svc3_regs rs nr a b c : length rs = 15%nat -> let regs := svc3 rs nr a b c in
  nth 7 regs 0 = nr /\ nth 1 regs 0 = u32 b /\ nth 2 regs 0 = u32 c.
Proof. intros Hrs. do 15 (destruct rs as [|? rs]; [done|]). by destruct rs. Qed.

Lemma pad_write rs a b c m w : length rs = 15%nat ->
  pad_answer (libc_i2c_write rs a b c) m w = Some (u32 c, m, w).
Proof.
  intros Hrs. unfold pad_answer, libc_i2c_write.
  by destruct (svc3_regs rs 8203 (u16 a) b c Hrs) as (-> & _ & ->).
Qed.

Lemma pad_read rs a b c m w : length rs = 15%nat ->
  pad_answer (libc_i2c_read rs a b c) m w =
  match w with
  | [] => Some (u32 (-1), m, [])
  | s :: w' => Some (u32 c, mem_with m (u32 b) (take (Z.to_nat (u32 c)) s), w')
  end.
Proof.
  intros Hrs. unfold pad_answer, libc_i2c_read.
  by destruct (svc3_regs rs 8202 (u16 a) b c Hrs) as (-> & -> & ->).
Qed.

Lemma svc2_number rs nr a b : length rs = 15%nat -> nth 7 (svc2 rs nr a b) 0 = nr.
Proof. intros Hrs. do 15 (destruct rs as [|? rs]; [done|]). by destruct rs. Qed.

Section Pad.
Context (rs : list Z) (Hrs : length rs = 15%nat) (y : layout_).
Context (Hbuf : 0 <= c_buf y /\ c_buf y + 6 < 2 ^ 32).

Lemma pad_usleep usecs m printed w : exists v m',
  run pad_answer (usleep rs (c_time y) usecs m) printed w = Some (v, m', printed, w).
Proof.
  unfold usleep, sleep_for. rewrite run_bind. cbn [get_mem run mbind option_bind].
  rewrite run_bind. cbn [set_mem run mbind option_bind]. rewrite run_bind, run_svc_int.
  unfold pad_answer, libc_nanosleep. rewrite svc2_number by done. eexists _, _. reflexivity.
Qed.

Lemma read_buttons_ok s b m printed w : reports s b -> 0 <= b < 2 ^ 16 ->
  exists m', run pad_answer (read_buttons rs y (c_buf y) m) printed (s :: w)
      = Some (0, m', printed, w) /\ buttons_of m' (c_buf y) = b.
Proof.
  intros Hs Hb. unfold read_buttons, i2c_get_regs.
  rewrite !run_bind. cbn [get_mem run mbind option_bind]. rewrite run_bind.
  cbn [set_mem run mbind option_bind]. rewrite run_bind, run_svc_int.
  rewrite pad_write by done. cbn [mbind option_bind]. rewrite run_bind.
  destruct (pad_usleep 200 (upd m (c_reg y) 0) printed (s :: w)) as (v & m1 & ->).
  cbn [mbind option_bind]. rewrite run_svc_int, pad_read by done. cbn [mbind option_bind].
  rewrite !u32_id by lia.
  exists (mem_with m1 (c_buf y) s). split; [by rewrite take_ge by (destruct Hs as [-> _]; vm_compute; lia)|].
  eapply buttons_of_sample; [exact Hs|done| |]; destruct Hs as [Hl _]; unfold mem_with;
    rewrite Hl, (proj2 (Z.leb_le _ _)), (proj2 (Z.ltb_lt _ _)) by lia; cbn [andb]; f_equal; lia.
Qed.
End Pad.

(** ** The buttons that are printed *)

(** The names in the order of the program. *)
Definition button_names : list (Z * list Z) :=
  [(15, text "> "); (14, text "V "); (1, text "< "); (0, text "^ "); (4, text "A "); (6, text "B ");
   (3, text "X "); (5, text "Y "); (9, text "RT "); (13, text "LT "); (2, text "ZL "); (7, text "ZR ");
   (10, text "+ "); (12, text "- "); (11, text "H ")].

(** Down now and not before. *)
Definition pressed (before now k : Z) : bool := Z.testbit now k && negb (Z.testbit before k).

(** A line with the names of the buttons that have been pressed, if there are
    any. *)
Definition press_text (before now : Z) : list Z :=
  if Z.ldiff now before =? 0 then []
  else flat_map (fun '(k, name) => if pressed before now k then name else []) button_names ++ [10].

Fixpoint presses_text (before : Z) (bs : list Z) : list Z :=
  match bs with
  | [] => []
  | b :: bs' => press_text before b ++ presses_text b bs'
  end.

Lemma edge_ldiff before now : Z.land (Z.lxor now before) now = Z.ldiff now before.
Proof.
  apply Z.bits_inj'. intros k Hk. rewrite Z.land_spec, Z.lxor_spec, Z.ldiff_spec.
  by destruct (Z.testbit now k), (Z.testbit before k).
Qed.

Lemma land_bit x k : 0 <= k -> (Z.land x (2 ^ k) =? 0) = negb (Z.testbit x k).
Proof.
  intros Hk. destruct (Z.testbit x k) eqn:E; cbn [negb].
  - apply Z.eqb_neq. intros H0. assert (Z.testbit (Z.land x (2 ^ k)) k = false)
      by (by rewrite H0, Z.bits_0).
    rewrite Z.land_spec, E, Z.pow2_bits_true in H by done. done.
  - apply Z.eqb_eq, Z.bits_inj'. intros j Hj. rewrite Z.land_spec, Z.bits_0.
    destruct (decide (j = k)) as [->|]; [by rewrite E|].
    by rewrite Z.pow2_bits_false, andb_false_r by done.
Qed.

Section Buttons.
Context {W : Type} (answer : list Z -> mem -> W -> option (Z * mem * W)).

(** A program that only prints. *)
Definition prints {A} (p : user A) (l : list Z) : Prop :=
  forall m printed w, exists v ps, run answer (p m) printed w = Some (v, m, printed ++ ps, w) /\
    rendered ps = l.

Lemma prints_then {A B} (p : user A) (q : user B) l1 l2 :
  prints p l1 -> prints q l2 -> prints (p ;; q) (l1 ++ l2).
Proof.
  intros Hp Hq m printed w. destruct (Hp m printed w) as (v1 & ps1 & E1 & R1).
  destruct (Hq m (printed ++ ps1) w) as (v2 & ps2 & E2 & R2).
  exists v2, (ps1 ++ ps2). rewrite run_bind, E1. cbn [mbind option_bind].
  rewrite E2, app_assoc, rendered_app, R1, R2. done.
Qed.

Lemma prints_say ps : prints (say ps) (rendered ps).
Proof. intros m printed w. eexists _, ps. by split. Qed.

Lemma prints_button tmp k name : 0 <= k ->
  prints (Wii.print_button tmp (2 ^ k) name) (if Z.testbit tmp k then rendered name else []).
Proof.
  intros Hk m printed w. unfold Wii.print_button. rewrite land_bit, negb_involutive by done.
  destruct (Z.testbit tmp k); [apply prints_say|]. exists 0, []. by rewrite app_nil_r.
Qed.

Lemma prints_buttons before now :
  prints (Wii.print_buttons (Z.ldiff now before))
    (flat_map (fun '(k, name) => if pressed before now k then name else []) button_names ++ [10]).
Proof.
  assert (forall k name, 0 <= k -> prints (Wii.print_button (Z.ldiff now before) (2 ^ k) name)
    (if pressed before now k then rendered name else [])) as H.
  { intros k name Hk. pose proof (prints_button (Z.ldiff now before) k name Hk) as HP.
    by rewrite Z.ldiff_spec in HP. }
  unfold Wii.print_buttons, button_names. cbn [flat_map]. rewrite <- !app_assoc.
  repeat (apply prints_then; [by apply H|]). rewrite app_nil_l. apply prints_say.
Qed.
End Buttons.

Section Wii.
Context (rs : list Z) (Hrs : length rs = 15%nat) (y : layout_).
Context (Hbuf : 0 <= c_buf y /\ c_buf y + 6 < 2 ^ 32).

Definition word16 (b : Z) : Prop := 0 <= b < 2 ^ 16.

Lemma button_loop_ok ss bs last : Forall2 reports ss bs ->
  Forall word16 bs -> removelast bs ++ [last] = bs ->
  Forall (fun b => Z.testbit b 11 = false) (removelast bs) -> Z.testbit last 11 = true ->
  forall fuel before m printed, Z.testbit before 11 = false -> (length bs < fuel)%nat ->
  exists m' ps, run pad_answer (Wii.button_loop rs y fuel before m) printed ss
      = Some (0, m', printed ++ ps, []) /\ rendered ps = presses_text before bs.
Proof.
  intros HR. revert last. induction HR as [|s b ss bs Hs HR IH];
    intros last Hw He Hn Hl fuel before m printed Hb Hf; [by destruct (app_cons_not_nil [] [] last)|].
  destruct fuel as [|fuel]; [cbn in Hf; lia|]. cbn [length] in Hf.
  apply Forall_cons_1 in Hw as [Hw Hws]. cbn [Wii.button_loop presses_text].
  unfold BHO. rewrite land_bit, Hb by lia. cbn [negb]. rewrite run_bind.
  destruct (read_buttons_ok rs Hrs y Hbuf s b m printed ss Hs Hw) as (m1 & -> & E1).
  cbn [mbind option_bind Z.eqb negb]. rewrite run_bind. cbn [get_mem run mbind option_bind].
  rewrite E1, edge_ldiff, run_bind.
  assert (exists v ps, run pad_answer ((if negb (Z.ldiff b before =? 0)
      then Wii.print_buttons (Z.ldiff b before) else mret 0) m1) printed ss
    = Some (v, m1, printed ++ ps, ss) /\ rendered ps = press_text before b) as (v & ps & -> & R1).
  { unfold press_text. destruct (Z.ldiff b before =? 0); cbn [negb]; [|apply prints_buttons].
    exists 0, []. by rewrite app_nil_r. }
  cbn [mbind option_bind]. rewrite run_bind.
  destruct (pad_usleep rs Hrs y 2000 m1 (printed ++ ps) ss) as (v2 & m2 & ->).
  cbn [mbind option_bind]. destruct bs as [|b' bs].
  - apply Forall2_nil_inv_r in HR as ->. cbn in He. injection He as ->.
    destruct fuel as [|fuel]; [cbn in Hf; lia|]. cbn [Wii.button_loop].
    unfold BHO. rewrite land_bit, Hl by lia. cbn [negb run mret user_ret].
    exists m2, ps. split; [done|]. cbn [presses_text]. by rewrite app_nil_r.
  - cbn [removelast] in He, Hn. change (match bs with [] => [] | _ :: _ => b' :: removelast bs end)
      with (removelast (b' :: bs)) in *. cbn [app] in He. injection He as He.
    apply Forall_cons_1 in Hn as [Hb1 Hn].
    destruct (IH last Hws He Hn Hl fuel b m2 (printed ++ ps) Hb1 ltac:(lia)) as (m3 & ps2 & -> & R2).
    exists m3, (ps ++ ps2). by rewrite app_assoc, rendered_app, R1, R2.
Qed.
End Wii.

(** With a controller that reports one state of the buttons after the other
    and the home button only at last, [wii_controller] prints, for every state,
    the names of the buttons that are down now and were not down before, on a
    line of their own, nothing for a state without a new button, and ends. *)
Theorem buttons_printed rs y ss bs fuel m :
  length rs = 15%nat -> 0 <= c_buf y -> c_buf y + 6 < 2 ^ 32 ->
  Forall2 reports ss bs -> Forall word16 bs -> bs <> [] ->
  Forall (fun b => Z.testbit b 11 = false) (removelast bs) -> Z.testbit (List.last bs 0) 11 = true ->
  (length bs < fuel)%nat ->
  exists m' ps, run pad_answer (Wii.button_loop rs y fuel 0 m) [] ss = Some (0, m', ps, []) /\
    rendered ps = presses_text 0 bs.
Proof.
  intros Hrs Hb0 Hb1 HR Hw Hne Hn Hl Hf.
  exact (button_loop_ok rs Hrs y (conj Hb0 Hb1) ss bs (List.last bs 0) HR Hw
    (eq_sym (app_removelast_last 0 Hne)) Hn Hl fuel 0 m [] (Z.bits_0 11) Hf).
Qed.

(** The state [b] as registers. *)
Definition registers (b : Z) : list Z := [0; 0; 0; 0; (0xffff - b) / 256; (0xffff - b) mod 256].

Lemma registers_report b : word16 b -> reports (registers b) b.
Proof.
  intros Hb. unfold word16 in Hb. unfold reports, registers. cbn [length nth].
  Z.div_mod_to_equations. lia.
Qed.

Lemma registers_reports bs : Forall word16 bs -> Forall2 reports (map registers bs) bs.
Proof.
  induction 1 as [|b bs Hb Hbs IH]; [by apply List.Forall2_nil|].
  apply List.Forall2_cons; [by apply registers_report|done].
Qed.

(** A, A and right, right, home. *)
Definition demo_states : list Z := [16; 16 + 2 ^ 15; 2 ^ 15; 2 ^ 11].
Definition demo_pad : layout_ := Layout 1000 1010 1014 1016 1020 1030.

Lemma buttons_printed_witness :
  exists m' ps, run pad_answer (Wii.button_loop (repeat 9 15) demo_pad 5 0 (fun _ => 7)) []
      (map registers demo_states) = Some (0, m', ps, []) /\
    rendered ps = text "A " ++ [10] ++ text "> " ++ [10] ++ text "H " ++ [10].
Proof.
  refine (buttons_printed (repeat 9 15) demo_pad (map registers demo_states) demo_states 5
    (fun _ => 7) _ _ _ _ _ _ _ _ _); try done; try (cbn; lia).
  - apply registers_reports. repeat constructor; by vm_compute.
  - repeat constructor; by vm_compute.
  - repeat constructor; by vm_compute.
Defined.

(** ** The amount that is chosen *)

Section Amount.
Context (delta minimum : Z).

(** What the samples do to the amount. *)
Definition step (s : Z * Z) (b : Z) : Z * Z := Bet.prompt_step delta minimum b (fst s) (snd s).

(** Up or down is held for [k] samples and released for one. *)
Definition hold_samples (h : bool * nat) : list Z :=
  repeat (if fst h then BDU else BDD) (snd h) ++ [0].

(** A key that is held counts again after every eighth sample; an amount below
    the minimum is not reached. *)
Definition repeats (k : nat) : Z := (Z.of_nat k + 7) / 8.

Definition held_amount (amount : Z) (h : bool * nat) : Z :=
  if fst h then amount + delta * repeats (snd h)
  else amount - delta * Z.min (repeats (snd h)) ((amount - minimum) / delta).

Context (Hd : 0 < delta) (Hm : - 2 ^ 31 <= minimum - delta).

Lemma count8 c : 0 <= c < 8 -> Z.land (u8 (c + 1)) 0x07 = (c + 1) mod 8.
Proof.
  intros Hc. rewrite u8_id by lia. change 7 with (Z.ones 3). by rewrite Z.land_ones by lia.
Qed.

Lemma repeats_S k : repeats (S k) = repeats k + (if Z.of_nat k mod 8 =? 0 then 1 else 0).
Proof. unfold repeats. bcase; Z.div_mod_to_equations; lia. Qed.

Lemma repeats_nonneg k : 0 <= repeats k <= Z.of_nat k.
Proof. unfold repeats. Z.div_mod_to_equations. lia. Qed.

Lemma hold_up amount k : - 2 ^ 31 <= amount -> amount + delta * repeats k < 2 ^ 31 ->
  fold_left step (repeat BDU k) (amount, 0) = (amount + delta * repeats k, Z.of_nat k mod 8).
Proof.
  intros Ha. induction k as [|k IH]; intros Hb;
    [cbn [repeat fold_left]; change (repeats 0) with 0; f_equal; lia|].
  pose proof (repeats_nonneg k). pose proof (repeats_S k) as ER.
  assert (repeats k <= repeats (S k)) by (rewrite ER; bcase; lia).
  change (repeat BDU (S k)) with (BDU :: repeat BDU k).
  rewrite repeat_cons, fold_left_app, IH by nia. cbn [fold_left].
  unfold step, Bet.prompt_step. cbn [fst snd]. change (Z.land BDU (Z.lor BDU BDD) =? 0) with false.
  change (Z.land BDU BDD =? 0) with true. change (Z.land BDU BDU =? 0) with false.
  cbn [negb andb]. rewrite !andb_false_r, andb_true_r, count8 by (apply Z.mod_pos_bound; lia).
  cbn [andb]. rewrite ER in *. f_equal; [|rewrite Zplus_mod_idemp_l; f_equal; lia].
  destruct (Z.of_nat k mod 8 =? 0); [rewrite s32_id; nia|lia].
Qed.

Lemma hold_down amount k : minimum <= amount < 2 ^ 31 ->
  fold_left step (repeat BDD k) (amount, 0)
  = (amount - delta * Z.min (repeats k) ((amount - minimum) / delta), Z.of_nat k mod 8).
Proof.
  intros Ha. set (q := (amount - minimum) / delta).
  assert (Hq : delta * q <= amount - minimum < delta * q + delta)
    by (unfold q; pose proof (Z.div_mod (amount - minimum) delta);
        pose proof (Z.mod_pos_bound (amount - minimum) delta); lia).
  assert (0 <= q) by (apply Z.div_pos; lia).
  induction k as [|k IH];
    [cbn [repeat fold_left]; change (repeats 0) with 0; rewrite Z.min_l by done; f_equal; lia|].
  pose proof (repeats_nonneg k). pose proof (repeats_S k) as ER.
  change (repeat BDD (S k)) with (BDD :: repeat BDD k).
  rewrite repeat_cons, fold_left_app, IH. cbn [fold_left].
  unfold step, Bet.prompt_step. cbn [fst snd]. change (Z.land BDD (Z.lor BDU BDD) =? 0) with false.
  change (Z.land BDD BDD =? 0) with false. change (Z.land BDD BDU =? 0) with true.
  cbn [negb andb]. rewrite !andb_false_r, andb_true_r, count8 by (apply Z.mod_pos_bound; lia).
  rewrite ER. f_equal; [|rewrite Zplus_mod_idemp_l; f_equal; lia].
  destruct (Z.of_nat k mod 8 =? 0); cbn [andb]; [|rewrite Z.add_0_r; lia].
  rewrite s32_id by nia.
  destruct (minimum <=? _) eqn:E; b2p; nia.
Qed.

(** The amounts on the way. *)
Fixpoint amounts (amount : Z) (hs : list (bool * nat)) : list Z :=
  amount :: match hs with [] => [] | h :: hs' => amounts (held_amount amount h) hs' end.

Lemma step_idle s b : Z.land b (Z.lor BDU BDD) = 0 -> step s b = (fst s, 0).
Proof. intros Hb. unfold step, Bet.prompt_step. by rewrite Hb. Qed.

Lemma held_minimum amount h : minimum <= amount -> minimum <= held_amount amount h.
Proof.
  intros Ha. unfold held_amount. pose proof (repeats_nonneg (snd h)).
  destruct (fst h); [nia|].
  pose proof (Z.div_mod (amount - minimum) delta). pose proof (Z.mod_pos_bound (amount - minimum) delta).
  assert (0 <= (amount - minimum) / delta) by (apply Z.div_pos; lia). nia.
Qed.

Lemma holds_ok hs : forall amount, minimum <= amount -> - 2 ^ 31 <= minimum ->
  Forall (fun a => a < 2 ^ 31) (amounts amount hs) ->
  fold_left step (flat_map hold_samples hs) (amount, 0) = (fold_left held_amount hs amount, 0) /\
  minimum <= fold_left held_amount hs amount.
Proof.
  induction hs as [|h hs IH]; intros amount Ha Hm' HF; [done|]. cbn [flat_map fold_left].
  cbn [amounts] in HF. apply Forall_cons_1 in HF as [Hlt HF].
  pose proof (held_minimum amount h Ha) as Hh.
  assert (Hb : held_amount amount h < 2 ^ 31) by (destruct hs; by apply Forall_inv in HF).
  rewrite fold_left_app. unfold hold_samples at 2. rewrite fold_left_app. cbn [fold_left].
  assert (E : fold_left step (repeat (if fst h then BDU else BDD) (snd h)) (amount, 0)
    = (held_amount amount h, Z.of_nat (snd h) mod 8)).
  { unfold held_amount in *. destruct (fst h); [apply hold_up; lia|apply hold_down; lia]. }
  rewrite E, step_idle by done. cbn [fst]. by apply IH.
Qed.
End Amount.

Lemma run_maybe_say {W} (answer : list Z -> mem -> W -> option (Z * mem * W)) (b : bool) ps m printed w :
  exists v pr, run answer ((if b then say ps else mret 0) m) printed w = Some (v, m, pr, w).
Proof. destruct b; by eexists _, _. Qed.

Section Bet.
Context (n : nat) (rs : list Z) (Hrs : length rs = 15%nat) (y : layout_).
Context (Hbuf : 0 <= c_buf y /\ c_buf y + 6 < 2 ^ 32).
Context (delta minimum : Z).

Lemma prompt_loop_ok ss bs last : Forall2 reports ss (bs ++ [last]) ->
  Forall word16 (bs ++ [last]) ->
  Forall (fun b => Z.testbit b 4 = false) bs -> Z.testbit last 4 = true ->
  forall fuel col before cash consecutive m printed, Z.testbit before 4 = false ->
  (S (length bs) < fuel)%nat ->
  exists m' printed', run pad_answer
      (Bet.prompt_loop rs y fuel col delta minimum before cash consecutive m) printed ss
      = Some (fst (fold_left (step delta minimum) (bs ++ [last]) (cash, consecutive)), m', printed', []).
Proof.
  revert ss. induction bs as [|b bs IH]; intros ss HR Hw Hn Hl [|fuel] col before cash consecutive
    m printed Hb Hf; try (cbn in Hf; lia); cbn [app length] in *;
    apply Forall2_cons_inv_r in HR as (s & ss' & Hs & HR & ->);
    apply Forall_cons_1 in Hw as [Hw Hws]; cbn [Bet.prompt_loop];
    unfold BA; rewrite land_bit, Hb by lia; cbn [negb]; rewrite run_bind.
  - destruct (read_buttons_ok rs Hrs y Hbuf s last m printed ss' Hs Hw) as (m1 & -> & E1).
    cbn [mbind option_bind Z.eqb negb]. rewrite run_bind. cbn [get_mem run mbind option_bind].
    rewrite E1. cbn [fold_left]. unfold step at 1. cbn [fst snd].
    destruct (Bet.prompt_step delta minimum last cash consecutive) as [cash1 c1]. cbn [fst].
    rewrite run_bind. destruct (run_maybe_say pad_answer (negb (Z.land last (Z.lor BDU BDD) =? 0))
      (Bet.show_amount col cash1) m1 printed ss') as (v & pr & ->). cbn [mbind option_bind].
    rewrite run_bind. destruct (pad_usleep rs Hrs y 2000 m1 pr ss') as (v2 & m2 & ->).
    cbn [mbind option_bind]. destruct fuel as [|fuel]; [lia|]. cbn [Bet.prompt_loop].
    unfold BA. rewrite land_bit, Hl by lia. cbn [negb]. rewrite run_bind.
    cbn [say mret user_ret run mbind option_bind]. apply Forall2_nil_inv_r in HR as ->.
    by eexists _, _.
  - apply Forall_cons_1 in Hn as [Hb1 Hn].
    destruct (read_buttons_ok rs Hrs y Hbuf s b m printed ss' Hs Hw) as (m1 & -> & E1).
    cbn [mbind option_bind Z.eqb negb]. rewrite run_bind. cbn [get_mem run mbind option_bind].
    rewrite E1. cbn [fold_left]. unfold step at 2. cbn [fst snd].
    destruct (Bet.prompt_step delta minimum b cash consecutive) as [cash1 c1].
    rewrite run_bind. destruct (run_maybe_say pad_answer (negb (Z.land b (Z.lor BDU BDD) =? 0))
      (Bet.show_amount col cash1) m1 printed ss') as (v & pr & ->). cbn [mbind option_bind].
    rewrite run_bind. destruct (pad_usleep rs Hrs y 2000 m1 pr ss') as (v2 & m2 & ->).
    cbn [mbind option_bind]. apply IH; try done. lia.
Qed.
End Bet.

(** C26. The amount chosen with [wii_controller_prompt] on a controller that
    reports up or down held for some samples and released, any number of times,
    and then A.  A key counts once at first and again after every eighth sample;
    up adds [delta], down takes it away as often as the amount stays at or above
    the minimum; so the result is never below the minimum. *)
Theorem prompt_amount n rs y holds ss fuel msg s starting_val delta minimum m :
  length rs = 15%nat -> 0 <= c_buf y -> c_buf y + 6 < 2 ^ 32 ->
  cstring (at_ m msg) s -> (length s < n)%nat ->
  0 < delta -> - 2 ^ 31 <= minimum - delta -> minimum <= starting_val ->
  Forall (fun a => a < 2 ^ 31) (amounts delta minimum starting_val holds) ->
  Forall2 reports ss (flat_map hold_samples holds ++ [BA]) -> (length ss < fuel)%nat ->
  let result := fold_left (held_amount delta minimum) holds starting_val in
  exists m' ps, run pad_answer (Bet.wii_controller_prompt n rs y fuel msg starting_val delta minimum m)
      [] ss = Some (result, m', ps, []) /\ minimum <= result.
Proof.
  intros Hrs Hb0 Hb1 Hs Hn Hd Hm Hst HF HR Hf result.
  destruct (holds_ok delta minimum Hd Hm holds starting_val Hst ltac:(lia) HF) as [E Hmin].
  assert (Hk : forall h, In h holds -> Forall (fun b => word16 b /\ Z.testbit b 4 = false) (hold_samples h)).
  { intros [d k] _. unfold hold_samples. apply Forall_app. split; [|repeat constructor; by vm_compute].
    cbn [fst snd]. induction k; [done|]. apply List.Forall_cons; [by destruct d|done]. }
  assert (Hall : Forall (fun b => word16 b /\ Z.testbit b 4 = false) (flat_map hold_samples holds)).
  { clear - Hk. induction holds as [|h holds IH]; [done|]. cbn [flat_map]. apply Forall_app.
    split; [by apply Hk; left|]. apply IH. intros h' Hh'. apply Hk. by right. }
  destruct (prompt_loop_ok rs Hrs y (conj Hb0 Hb1) delta minimum ss (flat_map hold_samples holds) BA HR)
    with (fuel := fuel) (col := s32 (Z.of_nat (length s) + 1)) (before := 0) (cash := starting_val)
      (consecutive := 0) (m := m)
      (printed := [Lit 27] ++ lits "[?25l" ++ [Conv [] (Str msg s); dec starting_val])
    as (m' & ps & Er); try done.
  - apply Forall_app. split; [|by repeat constructor].
    revert Hall. apply List.Forall_impl. tauto.
  - revert Hall. apply List.Forall_impl. tauto.
  - pose proof (List.Forall2_length HR) as Hlen. rewrite length_app in Hlen. cbn in Hlen. lia.
  - exists m', ps. split; [|done]. unfold Bet.wii_controller_prompt. rewrite run_bind.
    cbn [get_mem run mbind option_bind]. rewrite (vlibc_strlen_cstring n _ s Hs Hn), run_bind.
    cbn [of_option mret user_ret run mbind option_bind].
    rewrite (string_at_cstring n m msg s Hs Hn), run_bind.
    cbn [of_option mret user_ret run mbind option_bind]. rewrite run_bind.
    cbn [say run mbind option_bind]. cbn [app] in Er |- *. rewrite Er, fold_left_app, E.
    cbn [fold_left]. by rewrite step_idle.
Qed.

(** Up for 10 samples, down for 30; the minimum stops it. *)
Definition demo_holds : list (bool * nat) := [(true, 10%nat); (false, 30%nat)].

Lemma demo_amount : fold_left (held_amount 10 0) demo_holds 10 = 0.
Proof. by vm_compute. Qed.

Lemma demo_amounts : Forall (fun a => a < 2 ^ 31) (amounts 10 0 10 demo_holds).
Proof. repeat constructor; by vm_compute. Qed.

Lemma demo_samples : Forall2 reports (map registers (flat_map hold_samples demo_holds ++ [BA]))
  (flat_map hold_samples demo_holds ++ [BA]).
Proof.
  apply registers_reports. apply Forall_app. split; [|by repeat constructor].
  assert (forallb (fun b => (0 <=? b) && (b <? 2 ^ 16)) (flat_map hold_samples demo_holds) = true)
    as Hb by (by vm_compute).
  apply List.Forall_forall. intros b Hin. rewrite forallb_forall in Hb. specialize (Hb b Hin).
  unfold word16. lia.
Qed.

Lemma prompt_amount_witness :
  exists m' ps, run pad_answer (Bet.wii_controller_prompt 5 (repeat 9 15) demo_pad 50 1030 10 10 0
      (mem_with (fun _ => 7) 1030 [36; 0])) []
      (map registers (flat_map hold_samples demo_holds ++ [BA]))
      = Some (fold_left (held_amount 10 0) demo_holds 10, m', ps, []) /\
    0 <= fold_left (held_amount 10 0) demo_holds 10.
Proof.
  apply (prompt_amount 5 (repeat 9 15) demo_pad demo_holds _ 50 1030 [36] 10 10 0
    (mem_with (fun _ => 7) 1030 [36; 0])).
  - done.
  - cbn; lia.
  - cbn; lia.
  - by apply cstringb_cstring.
  - cbn; lia.
  - lia.
  - lia.
  - lia.
  - exact demo_amounts.
  - exact demo_samples.
  - vm_compute; lia.
Defined.

(** [BZR] is printed as ZL and [BZL] as ZR. *)
Lemma swapped_triggers :
  press_text 0 BZR = text "ZL " ++ [10] /\ press_text 0 BZL = text "ZR " ++ [10].
Proof. by split; vm_compute. Qed.
