(* ===== verification/Programs.v ===== *)
(** * The small programs: userspace/hello.c, pwd.c, uname.c, sysinfo.c, printa.c,
      printb.c, cat_count.c and cat.c

    One module each.  [n] is the fuel of the loops over strings; objects are at
    the addresses the definitions take. *)

From stdpp Require Import base list numbers.
From Stdlib Require Import ZArith Lia.
From Stdlib Require String.
From S2P Require Import Prelude ArmMemset CString Romfs Process Sched Mmio Gpio Serial Console Interrupts Files Printk I2c Exec Syscalls User Vlibc Ls LsKernel FileAccess Shell Slideshow.
Import String.StringSyntax.

(** ** hello.c *)
Module Hello.

Definition main (rs : list Z) : user Z :=
  say (lits "Hello World!" ++ [nl]) ;; svc_int (libc_exit rs 5) ;; mret 0.
End Hello.

(** ** pwd.c *)
Module Pwd.

Definition main (n : nat) (rs : list Z) (dirname : Z) : user Z :=
  svc_int (libc_getcwd rs dirname 256) ;;
  p ← arg_string n dirname;
  say [p; nl] ;;
  mret 0.
End Pwd.

(** ** uname.c *)
Module Uname.

Definition main (n : nat) (rs : list Z) (buf : Z) : user Z :=
  svc_int (libc_uname rs buf) ;;
  sysname ← arg_string n buf;
  nodename ← arg_string n (buf + 65);
  release ← arg_string n (buf + 130);
  machine ← arg_string n (buf + 260);
  say [sysname; Lit 32; nodename; Lit 32; release; Lit 32; machine; nl] ;;
  mret 0.
End Uname.

(** ** sysinfo.c *)
Module Sysinfo.
Section Sysinfo.
Context (n f : nat) (rs : list Z) (int_buffer : mem) (y : Shell.layout_) (buf ubuf : Z).

(** A word of [struct sysinfo]. *)
Definition field (m : mem) (i : Z) : Z := load32 m (buf + 4 * i).

(** [time_pretty] takes an [int]. *)
Definition main : user Z :=
  svc_int (libc_sysinfo rs buf) ;;
  svc_int (libc_uname rs ubuf) ;;
  say [nl] ;;
  sysname ← arg_string n ubuf;
  release ← arg_string n (ubuf + 130);
  say (sysname :: lits " version " ++ [release] ++ lits " system info:" ++ [nl]) ;;
  m ← get_mem;
  say (Lit 9 :: dec (field m 14) :: Lit 47 :: dec (field m 10) :: lits " Processes Ready" ++ [nl]) ;;
  say (Lit 9 :: dec (field m 5 / 1024) :: lits "k/" ++ [dec (field m 4 / 1024)] ++
       lits "k RAM free" ++ [nl]) ;;
  up ← pretty_time n f int_buffer y (s32 (field m 0));
  say (Lit 9 :: lits "Up " ++ [up] ++ lits ", ") ;;
  m ← get_mem;
  idle ← pretty_time n f int_buffer y (s32 (field m 15));
  say (lits "Idle for " ++ [idle; nl]) ;;
  mret 0.
End Sysinfo.
End Sysinfo.

(** ** printa.c and printb.c

    The two differ only in the letter.  The delay loop, which only counts, is
    left out. *)
Module Print.
Section Print.
Context (rs : list Z) (letter : Z) (buf : Z).

Definition RUNTIME : Z := 5.

Fixpoint print_loop (fuel : nat) (start_time : Z) : user Z :=
  match fuel with
  | O => stuck
  | S fuel' =>
      say [Lit letter] ;;
      current_time ← time rs 0;
      if RUNTIME <? s32 (current_time - start_time) then mret current_time
      else print_loop fuel' start_time
  end.

(** The percentage is computed in [unsigned]. *)
Definition main (fuel : nat) : user Z :=
  start_time ← time rs 0;
  current_time ← print_loop fuel start_time;
  svc_int (libc_times rs buf) ;;
  m ← get_mem;
  let user_time := Z.quot (s32 (load32 m buf)) 64 in
  let wallclock := s32 (current_time - start_time) in
  say (nl :: lits "Time running " ++ [Lit letter] ++ lits ": Wallclock: " ++ [dec wallclock] ++
       lits " seconds, User: " ++ [dec user_time] ++ lits " seconds, Running " ++
       [dec (u32 (user_time * 100) / u32 wallclock)] ++ [Conv [] Percent] ++ lits " of time" ++ [nl]) ;;
  mret 0.
End Print.
End Print.

(** ** cat_count.c *)
Module CatCount.
Section CatCount.
Context (n : nat) (rs : list Z) (buffer : Z).

Definition main (argc argv : Z) : user Z :=
  m ← get_mem;
  if negb (argc =? 3) then
    name ← arg_string n (load32 m argv);
    say (lits "Usage:" ++ [nl; Lit 9; name] ++ lits " FILENAME count" ++ [nl; nl]) ;;
    mret (-1)
  else
    count ← of_option (atoi n (at_ m (load32 m (argv + 8))));
    say (lits "Only catting " ++ [dec count] ++ lits " bytes" ++ [nl]) ;;
    m ← get_mem;
    input_fd ← svc_int (libc_open rs (load32 m (argv + 4)) 0 0);
    if input_fd <? 0 then
      m ← get_mem;
      name ← arg_string n (load32 m (argv + 4));
      say (lits "Error opening " ++ [name; nl]) ;;
      mret (-1)
    else
      result ← svc_int (libc_read rs input_fd buffer count);
      (if 0 <? result then svc_int (libc_write rs 1 buffer result) else mret 0) ;;
      svc_int (libc_close rs input_fd) ;;
      mret 0.
End CatCount.
End CatCount.

(** ** cat.c *)
Module Cat.
Section Cat.
Context (n : nat) (rs : list Z) (buffer : Z).

Definition BUF_SIZE : Z := 128.

Fixpoint cat (fuel : nat) (in_fd out_fd : Z) : user Z :=
  match fuel with
  | O => stuck
  | S fuel' =>
      result ← svc_int (libc_read rs in_fd buffer BUF_SIZE);
      if result <=? 0 then mret 0
      else
        result ← svc_int (libc_write rs out_fd buffer result);
        if result <=? 0 then mret 0 else cat fuel' in_fd out_fd
  end.

(** [for(i=1;i<argc;i++)]: [k] arguments left. *)
Fixpoint arguments (fuel k : nat) (argv i : Z) : user Z :=
  match k with
  | O => mret 0
  | S k' =>
      m ← get_mem;
      input_fd ← svc_int (libc_open rs (load32 m (argv + 4 * i)) 0 0);
      if input_fd <? 0 then
        m ← get_mem;
        name ← arg_string n (load32 m (argv + 4 * i));
        say (lits "Error opening " ++ [name; nl]) ;;
        mret (-1)
      else
        cat fuel input_fd 1 ;;
        svc_int (libc_close rs input_fd) ;;
        arguments fuel k' argv (i + 1)
  end.

Definition main (fuel : nat) (argc argv : Z) : user Z :=
  if argc <? 2 then cat fuel 0 1 ;; mret 0
  else arguments fuel (Z.to_nat (argc - 1)) argv 1.
End Cat.
End Cat.

(** ** What they print *)

Lemma run_arg_string {W} (answer : list Z -> mem -> W -> option (Z * mem * W)) n a l m printed w :
  cstring (at_ m a) l -> (length l < n)%nat ->
  run answer (arg_string n a m) printed w = Some (Conv [] (Str a l), m, printed, w).
Proof.
  intros Hc Hl. unfold arg_string. rewrite run_bind. cbn [get_mem run mbind option_bind].
  by rewrite (string_at_cstring n m a l Hc Hl).
Qed.

Lemma kernel_uname `{MemFill} `{Device W} rd fl e rs buf m (s : system W) ls :
  length rs = 15%nat -> 0 <= buf < 2 ^ 32 ->
  strings_at m buf 390 (uname_addresses (se_uname e)) ls ->
  exists m' s', kernel_call rd fl e (libc_uname rs buf) m s = Some (0, m', s') /\
    modifies [(buf, 390)] m m' /\ fields_at m' buf ls.
Proof.
  intros Hrs Hb Hs. destruct (uname_fields (se_uname e) m buf ls Hs) as (m' & E & M & F).
  exists m'. eexists. split; [|by split].
  eapply kernel_call_eq.
  { replace (trap rd fl e (libc_uname rs buf) (with_memory m s))
      with (do_uname e (with_memory m s) (u32 buf)) by (symmetry; revert rs Hrs; trap_eq).
    unfold do_uname. rewrite u32_id by lia. change (k_mem (kern (with_memory m s))) with m.
    rewrite E. done. }
  done.
Qed.

(** Bytes of a buffer are written to the terminal, if there are any. *)
Lemma kernel_terminal_write `{MemFill} `{Device W} rd fl e `{!Uart (W := W) (se_io_base e)} rs
    (Hrs : length rs = 15%nat) (got : list Z) buffer m (s : system W) :
  initialized (se_serial e) <> 0 -> driver (se_serial e) <> no_uart ->
  (depth (se_io_base e) < se_wf e)%nat -> got <> [] -> Z.of_nat (length got) < 2 ^ 31 ->
  0 <= buffer < 2 ^ 32 -> Forall (fun b => 0 <= b < 256) got ->
  (forall i, (i < length got)%nat -> m (buffer + Z.of_nat i) = nth i got 0) ->
  exists s', kernel_call rd fl e (libc_write rs 1 buffer (Z.of_nat (length got))) m s
      = Some (Z.of_nat (length got), m, s') /\
    tx (se_io_base e) (board s') = tx (se_io_base e) (board s) ++ crlf got /\
    (kern s', y_files s') = (with_k_mem m (kern s), y_files s).
Proof.
  intros Hi Hd Hwf Hne Hl Hb Hr Hm.
  destruct (kernel_call_write rd fl e rs Hrs buffer (Z.of_nat (length got)) m s)
    as (w & E & T & _); try done; try lia.
  { intros i Hlt. specialize (Hm (Z.to_nat i) ltac:(lia)). rewrite Z2Nat.id in Hm by lia. rewrite Hm.
    rewrite List.Forall_forall in Hr. apply Hr, nth_In. lia. }
  eexists. split; [exact E|]. split; [|done]. change (board (with_board w (with_memory m s))) with w.
  rewrite T, Nat2Z.id. do 2 f_equal. by apply bytes_of_nth.
Qed.

(** The bytes of a file are bytes. *)
Lemma file_bytes_range rd fl d (L : flayout rd fl d) o name pos k :
  Forall (fun b => 0 <= b < 256) (file_bytes d o name pos k).
Proof.
  unfold file_bytes, bytes_of. apply List.Forall_forall. intros b Hb.
  apply in_map_iff in Hb as (i & <- & _). apply (lay_bytes _ _ _ (fl_lay _ _ _ L)).
Qed.

(** [uname], run on the kernel, prints the names of the system, the node, the
    release and the machine that the kernel was built with, with a space between
    them. *)
Theorem uname_prints `{MemFill} `{Device W} rd fl e rs n buf m (s : system W)
    sysname nodename release version machine domainname :
  length rs = 15%nat -> 0 <= buf < 2 ^ 32 -> (65 <= n)%nat ->
  strings_at m buf 390 (uname_addresses (se_uname e))
    [sysname; nodename; release; version; machine; domainname] ->
  exists m' s' ps, run (kernel_call rd fl e) (Uname.main n rs buf m) [] s = Some (0, m', ps, s') /\
    rendered ps = sysname ++ [32] ++ nodename ++ [32] ++ release ++ [32] ++ machine ++ [10] /\
    modifies [(buf, 390)] m m'.
Proof.
  intros Hrs Hb Hn Hs.
  assert (Hl : Forall (fun l => (length l < 65)%nat)
    [sysname; nodename; release; version; machine; domainname]).
  { clear - Hs. induction Hs as [|a l us ls (_ & _ & Hl) _ IH]; [done|]. by apply List.Forall_cons. }
  destruct (kernel_uname rd fl e rs buf m s _ Hrs Hb Hs) as (m' & s' & E & M & F).
  cbn [fields_at] in F. destruct F as (F0 & F1 & F2 & F3 & F4 & _).
  replace (buf + 65 + 65) with (buf + 130) in * by lia.
  replace (buf + 130 + 65 + 65) with (buf + 260) in * by lia.
  apply Forall_cons_1 in Hl as [L0 Hl]. apply Forall_cons_1 in Hl as [L1 Hl].
  apply Forall_cons_1 in Hl as [L2 Hl]. apply Forall_cons_1 in Hl as [_ Hl].
  apply Forall_cons_1 in Hl as [L4 _].
  exists m', s'. eexists. split; [|split; [|done]].
  - unfold Uname.main. rewrite run_bind, run_svc_int, E. cbn [mbind option_bind].
    rewrite run_bind, (run_arg_string _ n _ sysname) by (done || lia). cbn [mbind option_bind].
    rewrite run_bind, (run_arg_string _ n _ nodename) by (done || lia). cbn [mbind option_bind].
    rewrite run_bind, (run_arg_string _ n _ release) by (done || lia). cbn [mbind option_bind].
    rewrite run_bind, (run_arg_string _ n _ machine) by (done || lia). cbn [mbind option_bind].
    rewrite run_bind. cbn [say run mbind option_bind mret user_ret]. reflexivity.
  - cbn. by rewrite !app_nil_r || done.
Qed.

(** [cat_count], run on the kernel, sends the first [count] bytes of the
    file to the terminal, or all of it when it is shorter; its buffer has 8192
    bytes, which it does not check. *)
Theorem cat_count_prefix `{MemFill} `{Device W} rd fl d (L : flayout rd fl d) e
    `{!Uart (W := W) (se_io_base e)} K rs root cwd o name path n buffer argv count m (s : system W) :
  length rs = 15%nat -> regular rd d e K root cwd o name path ->
  initialized (se_serial e) <> 0 -> driver (se_serial e) <> no_uart ->
  (depth (se_io_base e) < se_wf e)%nat ->
  atoi n (at_ m (load32 m (argv + 8))) = Some count -> 0 <= count <= 8192 ->
  0 <= buffer < 2 ^ 32 -> apart buffer count (rd_start rd) (rd_length rd) ->
  (let a := load32 m (argv + 4) in
   cstring (at_ m a) path /\ 0 < a /\ a + Z.of_nat (length path) < 2 ^ 32 /\
   Forall (fun r => apart (fst r) (snd r) a (Z.of_nat (length path) + 1)) (path_regions fl)) ->
  file_state rd d e root cwd o name None s m ->
  exists m' s' ps, run (kernel_call rd fl e) (CatCount.main n rs buffer 3 argv m) [] s
      = Some (0, m', ps, s') /\
    rendered ps = text "Only catting " ++ piece_text (dec count) ++ text " bytes" ++ [10] /\
    tx (se_io_base e) (board s') = tx (se_io_base e) (board s) ++
      crlf (take (Z.to_nat count) (file_bytes d o name 0 (fsize d o))).
Proof.
  intros Hrs R Hi Hd Hwf Hcount Hc Hb Hap (Hs & Ha0 & Ha1 & Ha) St.
  destruct (kernel_file_open rd fl d L e K rs Hrs root cwd o name path R s m _ St Hs Ha0 Ha1 Ha)
    as (fd & m1 & s1 & E1 & Hfd & St1 & M1 & T1).
  set (content := file_bytes d o name 0 (fsize d o)) in *.
  destruct (kernel_file_read rd fl d L e rs Hrs root cwd o name s1 m1 fd content buffer count St1 Hb
    ltac:(lia) Hap) as (m2 & s2 & E2 & B2 & St2 & M2 & T2).
  set (got := take (Z.to_nat count) content) in *.
  assert (Hgot : (length got <= Z.to_nat count)%nat) by (unfold got; rewrite length_take; lia).
  unfold CatCount.main. rewrite run_bind. cbn [get_mem run mbind option_bind].
  change (negb (3 =? 3)) with false. cbv iota. rewrite Hcount, run_bind.
  cbn [of_option mret user_ret run mbind option_bind]. rewrite run_bind.
  cbn [say run mbind option_bind]. rewrite run_bind. cbn [get_mem run mbind option_bind].
  rewrite run_bind, run_svc_int, E1. cbn [mbind option_bind].
  rewrite s32_id, (proj2 (Z.ltb_ge fd 0)) by lia.
  rewrite run_bind, run_svc_int, E2. cbn [mbind option_bind]. rewrite s32_id by lia.
  assert (exists v w3, run (kernel_call rd fl e) ((if 0 <? Z.of_nat (length got)
      then svc_int (libc_write rs 1 buffer (Z.of_nat (length got))) else mret 0) m2)
      (lits "Only catting " ++ [dec count] ++ lits " bytes" ++ [nl]) s2
    = Some (v, m2, lits "Only catting " ++ [dec count] ++ lits " bytes" ++ [nl], w3) /\
      tx (se_io_base e) (board w3) = tx (se_io_base e) (board s2) ++ crlf got) as (v & s3 & E3 & T3).
  { destruct (decide (got = [])) as [->|Hne].
    - exists 0, s2. cbn. by rewrite app_nil_r.
    - destruct (kernel_terminal_write rd fl e rs Hrs got buffer m2 s2) as (s3 & E3 & T3 & _); try done; try lia.
      { unfold got. apply Forall_take, (file_bytes_range rd fl d L). }
      { intros i Hlt. rewrite B2 by done. unfold got in *. rewrite length_take in Hlt.
        by rewrite nth_take_lt by lia. }
      destruct got as [|b got']; [done|]. rewrite (proj2 (Z.ltb_lt _ _)) by (cbn; lia).
      eexists _, s3. rewrite run_svc_int, E3. done. }
  rewrite run_bind. change ([] ++ ?l) with l. rewrite E3. cbn [mbind option_bind].
  destruct (kernel_file_close rd fl e rs Hrs s3 m2 fd) as (v4 & s4 & E4 & T4).
  rewrite run_bind, run_svc_int, E4. cbn [mbind option_bind run mret user_ret].
  eexists m2, s4, _. split; [reflexivity|]. split; [reflexivity|].
  by rewrite T4, T3, T2, T1.
Qed.

(** The copying loop of [cat] on the kernel. *)
Section Copy.
Context `{MemFill} `{Device W} (rd : ramdisk) (fl : flocals) (d : Z -> Z) (L : flayout rd fl d).
Context (e : swi_env) `{!Uart (W := W) (se_io_base e)} (rs : list Z) (Hrs : length rs = 15%nat).
Context (root cwd o : Z) (name : list Z) (buffer : Z).
Context (Hi : initialized (se_serial e) <> 0) (Hd : driver (se_serial e) <> no_uart).
Context (Hwf : (depth (se_io_base e) < se_wf e)%nat).
Context (Hb : 0 <= buffer < 2 ^ 32) (Hap : apart buffer Cat.BUF_SIZE (rd_start rd) (rd_length rd)).

(** One turn: the next bytes are read into the buffer and written. *)
Lemma cat_turn fuel l fd m printed (s : system W) :
  Forall (fun b => 0 <= b < 256) l -> 0 <= fd < 32 ->
  file_state rd d e root cwd o name (Some (fd, l)) s m ->
  exists m' s', run (kernel_call rd fl e) (Cat.cat rs buffer (S fuel) fd 1 m) printed s
      = (if decide (l = []) then Some (0, m', printed, s')
         else run (kernel_call rd fl e) (Cat.cat rs buffer fuel fd 1 m') printed s') /\
    tx (se_io_base e) (board s') = tx (se_io_base e) (board s) ++ crlf (take 128 l) /\
    file_state rd d e root cwd o name (Some (fd, drop 128 l)) s' m'.
Proof.
  intros Hl Hfd St. cbn [Cat.cat]. unfold Cat.BUF_SIZE in *.
  destruct (kernel_file_read rd fl d L e rs Hrs root cwd o name s m fd l buffer 128 St Hb
    ltac:(lia) Hap) as (m2 & s2 & E2 & B2 & St2 & _ & T2).
  change (Z.to_nat 128) with 128%nat in *. set (got := take 128 l) in *.
  assert (Hgot : (length got <= 128)%nat) by (unfold got; rewrite length_take; lia).
  rewrite run_bind, run_svc_int, E2. cbn [mbind option_bind]. rewrite s32_id by lia.
  destruct (decide (l = [])) as [El|Hne].
  { exists m2, s2. unfold got. rewrite El in *. split; [done|]. split; [|exact St2]. cbn.
    by rewrite app_nil_r, T2. }
  assert (Hne' : got <> []) by (by destruct l).
  rewrite (proj2 (Z.leb_gt _ _)) by (destruct got; [done|cbn; lia]).
  destruct (kernel_terminal_write rd fl e rs Hrs got buffer m2 s2) as (s3 & E3 & T3 & K3);
    try done; try lia.
  { by apply Forall_take. }
  { intros i Hlt. rewrite B2 by done. unfold got in *. rewrite length_take in Hlt.
    by rewrite nth_take_lt by lia. }
  rewrite run_bind, run_svc_int, E3. cbn [mbind option_bind]. rewrite s32_id by lia.
  rewrite (proj2 (Z.leb_gt _ _)) by (destruct got; [done|cbn; lia]).
  exists m2, s3. split; [done|]. split; [by rewrite T3, T2|].
  injection K3 as K3 F3. destruct St2 as [S1 S2 S3 S4 S5 S6]. split; rewrite ?K3, ?F3; done.
Qed.

Lemma cat_loop_ok fuel : forall l fd m printed (s : system W),
  Forall (fun b => 0 <= b < 256) l -> (length l <= 128 * fuel)%nat -> 0 <= fd < 32 ->
  file_state rd d e root cwd o name (Some (fd, l)) s m ->
  exists m' s', run (kernel_call rd fl e) (Cat.cat rs buffer (S fuel) fd 1 m) printed s
      = Some (0, m', printed, s') /\
    tx (se_io_base e) (board s') = tx (se_io_base e) (board s) ++ crlf l.
Proof.
  induction fuel as [|fuel IH]; intros l fd m printed s Hl Hf Hfd St.
  - destruct l as [|b l]; [|cbn in Hf; lia].
    destruct (cat_turn 0 [] fd m printed s Hl Hfd St) as (m' & s' & E & T & _). by exists m', s'.
  - destruct (cat_turn (S fuel) l fd m printed s Hl Hfd St) as (m2 & s2 & E & T & St2).
    destruct (decide (l = [])) as [->|]; [by exists m2, s2|].
    destruct (IH (drop 128 l) fd m2 printed s2) as (m' & s' & E' & T'); try done.
    { by apply Forall_drop. }
    { rewrite length_drop. lia. }
    exists m', s'. split; [congruence|]. rewrite T', T, <- app_assoc. f_equal.
    unfold crlf. rewrite <- flat_map_app. by rewrite take_drop.
Qed.
End Copy.

Lemma cat_main_ok `{MemFill} `{Device W} rd fl d (L : flayout rd fl d) e
    `{!Uart (W := W) (se_io_base e)} K rs root cwd o name path n fuel buffer argv m (s : system W) :
  length rs = 15%nat -> regular rd d e K root cwd o name path ->
  initialized (se_serial e) <> 0 -> driver (se_serial e) <> no_uart ->
  (depth (se_io_base e) < se_wf e)%nat ->
  0 <= buffer < 2 ^ 32 -> apart buffer Cat.BUF_SIZE (rd_start rd) (rd_length rd) ->
  (Z.to_nat (fsize d o) <= 128 * fuel)%nat ->
  (let a := load32 m (argv + 4) in
   cstring (at_ m a) path /\ 0 < a /\ a + Z.of_nat (length path) < 2 ^ 32 /\
   Forall (fun r => apart (fst r) (snd r) a (Z.of_nat (length path) + 1)) (path_regions fl)) ->
  file_state rd d e root cwd o name None s m ->
  exists m' s', run (kernel_call rd fl e) (Cat.main n rs buffer (S fuel) 2 argv m) [] s
      = Some (0, m', [], s') /\
    tx (se_io_base e) (board s') = tx (se_io_base e) (board s) ++
      crlf (file_bytes d o name 0 (fsize d o)).
Proof.
  intros Hrs R Hi Hd Hwf Hb Hap Hf (Hs & Ha0 & Ha1 & Ha) St.
  destruct (kernel_file_open rd fl d L e K rs Hrs root cwd o name path R s m _ St Hs Ha0 Ha1 Ha)
    as (fd & m1 & s1 & E1 & Hfd & St1 & M1 & T1).
  destruct (cat_loop_ok rd fl d L e rs Hrs root cwd o name buffer Hi Hd Hwf Hb Hap fuel
    (file_bytes d o name 0 (fsize d o)) fd m1 [] s1) as (m2 & s2 & E2 & T2);
    [apply (file_bytes_range rd fl d L)|by rewrite file_bytes_length|lia|exact St1|].
  destruct (kernel_file_close rd fl e rs Hrs s2 m2 fd) as (v3 & s3 & E3 & T3).
  exists m2, s3. split; [|by rewrite T3, T2, T1].
  change (Cat.main n rs buffer (S fuel) 2 argv) with (Cat.arguments n rs buffer (S fuel) 1 argv 1).
  cbn [Cat.arguments]. change (4 * 1) with 4. rewrite run_bind. cbn [get_mem run mbind option_bind].
  rewrite run_bind, run_svc_int, E1. cbn [mbind option_bind].
  rewrite s32_id, (proj2 (Z.ltb_ge fd 0)) by lia.
  rewrite run_bind, E2. cbn [mbind option_bind].
  rewrite run_bind, run_svc_int, E3. done.
Qed.

(** C5. [cat] of a file, run on the kernel, sends every byte of the file to the
    terminal, prints nothing else and returns 0: the loop ends after one turn
    for each 128 bytes and one more. *)
Theorem cat_prints `{MemFill} `{Device W} rd fl d (L : flayout rd fl d) e
    `{!Uart (W := W) (se_io_base e)} K rs root cwd o name path n fuel buffer argv m (s : system W) :
  length rs = 15%nat -> regular rd d e K root cwd o name path ->
  initialized (se_serial e) <> 0 -> driver (se_serial e) <> no_uart ->
  (depth (se_io_base e) < se_wf e)%nat ->
  0 <= buffer < 2 ^ 32 -> apart buffer Cat.BUF_SIZE (rd_start rd) (rd_length rd) ->
  (Z.to_nat (fsize d o) <= 128 * fuel)%nat ->
  (let a := load32 m (argv + 4) in
   cstring (at_ m a) path /\ 0 < a /\ a + Z.of_nat (length path) < 2 ^ 32 /\
   Forall (fun r => apart (fst r) (snd r) a (Z.of_nat (length path) + 1)) (path_regions fl)) ->
  file_state rd d e root cwd o name None s m ->
  exists m' s', run (kernel_call rd fl e) (Cat.main n rs buffer (S fuel) 2 argv m) [] s
      = Some (0, m', [], s') /\
    tx (se_io_base e) (board s') = tx (se_io_base e) (board s) ++
      crlf (file_bytes d o name 0 (fsize d o)).
Proof. exact (cat_main_ok rd fl d L e K rs root cwd o name path n fuel buffer argv m s). Qed.

(** ** Runs *)

Definition uname_env : swi_env :=
  SwiEnv 0x20000000 (PrintEnv 0 (fun _ => 0) 0 0) (Serial 1 115200 8 1 0 pl011_uart)
    0 0 0 0 (UnameStrings 1000 1070 1140 1210 1280 1350) 16900 10 10 3 3.

Definition uname_mem : mem :=
  mem_with (mem_with (mem_with (mem_with (fun _ => 0) 1000 (text "vmwos")) 1070 (text "pi"))
    1140 (text "13")) 1280 (text "arm").

Lemma uname_demo_strings : strings_at uname_mem 2000 390 (uname_addresses (se_uname uname_env))
  [text "vmwos"; text "pi"; text "13"; []; text "arm"; []].
Proof.
  repeat (apply List.Forall2_cons; [split; [apply cstringb_cstring; by vm_compute|]; split;
    [right; by vm_compute|vm_compute; lia]|]). apply List.Forall2_nil.
Qed.

Lemma uname_prints_witness :
  exists m' s' ps, run (kernel_call demo_disk demo_fl uname_env)
      (Uname.main 65 (repeat 9 15) 2000 uname_mem) [] demo_system = Some (0, m', ps, s') /\
    rendered ps = text "vmwos" ++ [32] ++ text "pi" ++ [32] ++ text "13" ++ [32] ++ text "arm" ++ [10] /\
    modifies [(2000, 390)] uname_mem m'.
Proof.
  apply (uname_prints demo_disk demo_fl uname_env (repeat 9 15) 65 2000 uname_mem demo_system
    (text "vmwos") (text "pi") (text "13") [] (text "arm") []);
    [done|lia|lia|exact uname_demo_strings].
Defined.

(** "cat_count /p 5": the table at 20800, "5" at 20820. *)
Definition count_mem : mem :=
  mem_with (store32 (store32 tiny_mem 20804 20736) 20808 20820) 20820 [53; 0].

Lemma count_state : file_state tiny_disk tiny_byte ls_env 32 32 96 [112] None ls_system count_mem.
Proof.
  split; [|by vm_compute|eexists; split; [by vm_compute|discriminate]|done| |vm_compute; lia].
  - intros i Hi. apply Z.eqb_eq.
    by apply (check_below (fun i => count_mem (32768 + i) =? tiny_byte i) 288).
  - eexists. split; [by vm_compute|done].
Qed.

Lemma cat_count_prefix_witness :
  exists m' s' ps, run (kernel_call tiny_disk demo_fl ls_env)
      (CatCount.main 10 (repeat 9 15) 40000 3 20800 count_mem) [] ls_system
      = Some (0, m', ps, s') /\
    rendered ps = text "Only catting " ++ piece_text (dec 5) ++ text " bytes" ++ [10] /\
    tx 0x20000000 (board s') = tx 0x20000000 (board ls_system) ++
      crlf (take 5 (file_bytes tiny_byte 96 [112] 0 (fsize tiny_byte 96))).
Proof.
  refine (cat_count_prefix tiny_disk demo_fl tiny_byte tiny_flayout ls_env 2 (repeat 9 15) 32 32 96
    [112] [47; 112] 10 40000 20800 5 count_mem ls_system _ tiny_regular _ _ _ _ _ _ _ _ count_state).
  - done.
  - done.
  - done.
  - cbn; lia.
  - by vm_compute.
  - lia.
  - lia.
  - right. by vm_compute.
  - split; [apply cstringb_cstring; by vm_compute|]. split; [by vm_compute|]. split; [by vm_compute|].
    apply demo_path_apart; by vm_compute.
Defined.

Lemma cat_prints_witness :
  exists m' s', run (kernel_call tiny_disk demo_fl ls_env)
      (Cat.main 10 (repeat 9 15) 40000 3 2 20800 count_mem) [] ls_system
      = Some (0, m', [], s') /\
    tx 0x20000000 (board s') = tx 0x20000000 (board ls_system) ++
      crlf (file_bytes tiny_byte 96 [112] 0 (fsize tiny_byte 96)).
Proof.
  refine (cat_prints tiny_disk demo_fl tiny_byte tiny_flayout ls_env 2 (repeat 9 15) 32 32 96
    [112] [47; 112] 10 2 40000 20800 count_mem ls_system _ tiny_regular _ _ _ _ _ _ _ count_state).
  - done.
  - done.
  - done.
  - cbn; lia.
  - lia.
  - right. by vm_compute.
  - vm_compute. lia.
  - split; [apply cstringb_cstring; by vm_compute|]. split; [by vm_compute|]. split; [by vm_compute|].
    apply demo_path_apart; by vm_compute.
Defined.
