(* ===== verification/Boot.v ===== *)
(** * Booting: kernel/kernel_main.c, drivers/drivers.c and memory_hierarchy_init

    From the loader's registers to the first process.  Before there is a
    process the boot code runs once, straight through: what [kernel_main] and
    the hardware detection print is kept as a list of messages, what the drivers
    print about themselves is left out; the idle task and the first process
    print on the port.  The caches and the memory management unit change
    nothing in flat memory. *)

From stdpp Require Import base list numbers gmap relations.
From Stdlib Require Import ZArith Lia.
From Stdlib Require String.
From S2P Require Import Prelude ArmMemset CString PageAlloc Romfs Process Sched Mmio Gpio Irq Serial Console Interrupts Files Printk I2c Exec Syscalls Safety DeviceTree User.
Import String.StringSyntax.
Delimit Scope string_scope with string.

(** Where the kernel image has its strings, buffers and local objects, what
    memory on the stack holds before it is set, and the fuel of the loops. *)
Record boot_env := BootEnv {
  b_print : print_env;
  b_entry : entry_points;
  b_cpu : list Z;                        (* the registers *)
  b_junk : list Z;
  b_length : Z;                          (* the local [length] *)
  b_names : dt_names;
  b_system : Z; b_revision : Z;          (* "system", "linux,revision" *)
  b_model : Z; b_string : Z;             (* "model", the local [string] *)
  b_chosen : Z; b_bootargs : Z; b_cmdline : Z;
  b_version : Z;                         (* [VERSION] *)
  b_idle : Z; b_userspace : Z;           (* the two formats of Exec.v *)
  b_root : Z; b_romfs : Z; b_shell : Z;  (* "/", "romfs", "/bin/shell" *)
  b_device : Z;                          (* "/dev/ramdisk" *)
  b_image : Z; b_image_size : Z;         (* [initrd_image] *)
  b_stat_info : Z;
  b_locals : flocals;
  b_fuel : nat; b_rf : nat }.

(** The objects of the drivers. *)
Record drivers := Drivers {
  d_serial : serial_type;
  d_led : led;
  d_reserved : Z;                        (* [gpio_reserved] *)
  d_i2c : i2c_core }.

Definition drivers_bss : drivers := Drivers serial_bss led_default 0 i2c_bss.

(** What the calls leave besides the running system. *)
Record boot_state := BootState {
  bs_hardware : hardware;
  bs_io_base : Z;
  bs_drivers : drivers;
  bs_num_interrupts : Z;
  bs_ramdisk : ramdisk }.

Section Boot.
Context `{MemFill} `{Device W}.

Definition drivers_init_all (io_base hardware_type : Z) (w : W) (d : drivers) : option (W * drivers) :=
  let '(_, ld, reserved, w1) := led_init io_base hardware_type (d_led d) (d_reserved d) w in
  let '(_, w2) := timer_init io_base w1 in
  w3 ← serial_enable_interrupts io_base (d_serial d) w2;
  let '(_, i2c, reserved, w4) := i2c_init io_base (d_i2c d) reserved w3 I2C_BCM2835 in
  Some (w4, Drivers (d_serial d) ld reserved i2c).

Definition named (s : String.string) : message := (s, []).
Arguments named s%_string.

Definition cache_messages (h : hardware) : list message :=
  if (hardware_get_type h =? RPI_MODEL_2B) || (hardware_get_type h =? RPI_MODEL_3B) then
    [named "Enabling MMU with 1:1 Virt/Phys page mapping"]
  else
    [named "Enabling L1 icache"; named "Enabling branch predictor";
     named "Enabling MMU with 1:1 Virt/Phys page mapping"; named "Enabling L1 dcache"].

(** The error of [memory_init] is not looked at. *)
Definition memory_hierarchy_init (e : boot_env) (m : mem) (h : hardware) (a : alloc)
    (memory_kernel : Z) : option (alloc * list message) :=
  '(range, out) ← hardware_get_memory (b_fuel e) m (b_junk e) (b_names e) h;
  let length := match range with Some (_, length) => length | None => b_length e end in
  let a := Alloc length (memory_map a) (max_chunk a) (previous_block a) in
  '(_, a) ← memory_init a length memory_kernel;
  Some (a, out ++ cache_messages h).

(** The tables before the first process. *)
Definition kernel_bss (cpu : list Z) (m : mem) (a : alloc) : kstate :=
  Kstate ∅ 0 0 0 a m 0 cpu 0 0 0.

(** From the initialised memory to user mode: [false] when the first program
    could not be started, in which case the kernel loops for ever. *)
Definition start_processes (io_base : Z) (e : boot_env) (sr : serial_type) (w : W) (m : mem)
    (a : alloc) : option (bool * W * ramdisk * files * kstate) :=
  let f := with_fd_table (fd_table_init (fd_table files_bss)) files_bss in
  let '(_, rd) := ramdisk_init (Ramdisk 0 0) (b_image e) (b_image_size e) in
  '(_, f, m) ← mount rd (b_locals e) (b_rf e) f m (b_device e) (b_root e) (b_romfs e) 0 0;
  '(w, s) ← create_idle_task io_base (b_print e) sr (b_idle e) (b_entry e) w
              (kernel_bss (b_cpu e) m a);
  '(entered, w, s) ← start_userspace rd (b_locals e) io_base (b_print e) sr (b_userspace e)
                       (b_root e) (b_fuel e) (b_rf e) (b_stat_info e) f w s (b_shell e);
  Some (entered, w, rd, f, s).

Definition kernel_main (e : boot_env) (w : W) (m : mem) (r0 r1 r2 memory_kernel : Z)
    : option (bool * boot_state * system W * list message) :=
  '(_, h, out1) ← hardware_detect (b_fuel e) m (b_junk e) (b_system e) (b_revision e)
                    hardware_bss r2;
  let '(io_base, _) := hardware_setup_vars (hardware_type h) 0 in
  let '(_, sr, reserved, w) := serial_init io_base serial_bss 0 w SERIAL_UART_PL011 in
  let out2 := [named "Using pl011-uart";
               ("From bootloader: r0=%x r1=%x r2=%x"%string, [r0; r1; r2]); named "ECE531 OS";
               ("Version %s"%string, [b_version e])] in
  '(m, out3) ← hardware_print_model (b_fuel e) m (b_junk e) (b_model e) (b_string e) h r1;
  '(m, out4) ← hardware_print_commandline (b_fuel e) m (b_junk e) (b_chosen e) (b_bootargs e)
                 (b_cmdline e) h;
  let '(_, interrupts, w) := platform_irq_enable (hardware_type h) 0 w in
  '(w, d) ← drivers_init_all io_base (hardware_type h) w (Drivers sr led_default reserved i2c_bss);
  '(a, out5) ← memory_hierarchy_init e m h alloc_bss memory_kernel;
  '(entered, w, rd, f, s) ← start_processes io_base e sr w m a;
  Some (entered, BootState h io_base d interrupts rd,
        System W _ (Sys w console_bss timer_default s) f (d_i2c d),
        out1 ++ out2 ++ out3 ++ out4 ++ out5 ++
        (if entered : bool then [] else [named "Error starting init!"])).
End Boot.

(** ** A fresh allocator

    The chunks below [k] are used, the rest are free. *)
Definition filled_to (a : alloc) (k : Z) : Prop :=
  (forall c, 0 <= c -> used a c = (c <? k)) /\ 0 <= previous_block a <= k /\
  0 < k /\ max_chunk a <= MAP_CHUNKS - VIDEO_CHUNKS.

Lemma filled_run a k num i : filled_to a k -> 0 < num -> 0 <= i ->
  run_is_free a i num <-> k <= i.
Proof.
  intros [Hu _] Hn Hi. split.
  - intros Hr. specialize (Hr i ltac:(lia)). rewrite Hu in Hr by done. lia.
  - intros Hk c Hc. rewrite Hu by lia. lia.
Qed.

(** What is asked for next is put at [k]. *)
Lemma filled_allocate a k size : filled_to a k -> 0 <= size < 2 ^ 32 ->
  let num := chunks_of (eff_size size) in
  k + num <= max_chunk a ->
  exists a', memory_allocate a size = Some (k * CHUNK_SIZE, a') /\ filled_to a' (k + num) /\
    max_chunk a' = max_chunk a.
Proof.
  intros F Hs num Hk. pose proof F as (Hu & Hp & Hk0 & Hm).
  change (MAP_CHUNKS - VIDEO_CHUNKS) with 258048 in Hm.
  pose proof (chunks_of_bounds _ (eff_size_bounds size Hs)) as [Hn _]. fold num in Hn.
  unfold memory_allocate. fold (eff_size size). fold num. unfold find_free.
  rewrite (find_from_first a num k _ (previous_block a)); [|lia..| | |change MAP_CHUNKS with 262144; lia];
    [|intros c Hc; rewrite Hu; lia|apply (filled_run a k num k F); lia].
  cbn [mbind option_bind]. rewrite (proj2 (Z.ltb_ge k 0)) by lia. set (a1 := Alloc _ _ _ _).
  destruct (mark_run_in memory_mark_used mark_used_in a1 k (Z.to_nat num)) as (a' & E);
    [lia|change MAP_CHUNKS with 262144; lia|]. rewrite E. exists a'. split; [done|].
  apply mark_used_run in E as (_ & (Hmax & Hprev & _) & Hu'); [|lia].
  rewrite Z2Nat.id in Hu' by lia. cbn [a1 max_chunk previous_block] in Hmax, Hprev.
  split; [split; [|change (MAP_CHUNKS - VIDEO_CHUNKS) with 258048; lia]|done].
  intros c Hc. rewrite Hu' by done. change (used a1 c) with (used a c). rewrite Hu by done.
  unfold in_run. bcase; lia.
Qed.

Lemma filled_in_use a k x n : filled_to a k -> 0 <= x -> x + n <= k * CHUNK_SIZE -> in_use a x n.
Proof.
  intros (Hu & _) Hx Hn. split; [done|]. intros y Hy. unfold CHUNK_SIZE in *.
  rewrite Hu by (apply Z.div_pos; lia). Z.div_mod_to_equations. lia.
Qed.

(** The chunks the kernel image leaves free. *)
Definition first_chunk (memory_kernel : Z) : Z := memory_kernel / CHUNK_SIZE + 1.

Lemma memory_init_fresh t total kernel :
  0 <= total <= MAX_MEMORY - VIDEO_CHUNKS * CHUNK_SIZE -> 0 <= kernel < MAX_MEMORY ->
  exists a, memory_init (Alloc t (memory_map alloc_bss) (max_chunk alloc_bss)
                           (previous_block alloc_bss)) total kernel = Some (0, a) /\
  filled_to a (first_chunk kernel) /\ max_chunk a = total / CHUNK_SIZE /\
  client_inv (kernel_chunk kernel) (a, []).
Proof.
  intros Ht Hk. destruct (memory_init_used t total kernel Ht Hk) as (a & E & Hu & [Hm _] & Em & Hp & _).
  destruct (memory_init_inv t total kernel Ht Hk) as (a1 & E1 & HC).
  assert (a1 = a) as -> by congruence. exists a. split; [exact E|].
  assert (0 <= kernel / CHUNK_SIZE) by (apply Z.div_pos; [lia|done]). unfold first_chunk.
  split; [|done]. split; [|lia]. intros c Hc. rewrite Hu by done. lia.
Qed.

(** ** The kernel image

    Strings and the disk stay as the loader left them. *)
Definition image_regions (rd : ramdisk) (strings : list (Z * list Z)) : list (Z * Z) :=
  (rd_start rd, rd_length rd) :: string_regions strings.

Definition holds_image (rd : ramdisk) (d : Z -> Z) (strings : list (Z * list Z)) (m : mem) : Prop :=
  on_disk rd d m /\ Forall (fun x => cstring (at_ m (fst x)) (snd x)) strings.

Lemma holds_image_modifies rd d strings rs m m' : modifies rs m m' ->
  Forall (away rs) (image_regions rd strings) ->
  holds_image rd d strings m -> holds_image rd d strings m'.
Proof.
  intros M A [Hd Hs]. apply Forall_cons_1 in A as [Ad As]. split.
  - eapply on_disk_modifies; [exact Ad|exact M|exact Hd].
  - unfold string_regions in As. rewrite List.Forall_forall in *.
    intros x Hx. eapply cstring_modifies; [exact M| |exact (Hs x Hx)].
    apply (As (fst x, Z.of_nat (length (snd x)) + 1)).
    by apply (in_map (fun a => (fst a, Z.of_nat (length (snd a)) + 1))).
Qed.

(** Below [lim]. *)
Definition below (lim : Z) (x : Z * Z) : Prop := 0 <= fst x /\ fst x + snd x <= lim /\ 0 < snd x.

Lemma below_away lim l p n : Forall (below lim) l -> lim <= p -> Forall (away [(p, n)]) l.
Proof.
  intros B Hp. revert B. apply List.Forall_impl. intros x (H0 & H1 & H2).
  apply List.Forall_cons; [|constructor]. unfold apart. cbn [fst snd]. lia.
Qed.

Lemma below_occupied a k lim l : filled_to a k -> lim <= k * CHUNK_SIZE -> Forall (below lim) l ->
  Forall (occupied a) l.
Proof.
  intros F Hk. apply List.Forall_impl. intros x (H0 & H1 & H2). split; [|done].
  eapply filled_in_use; [exact F|done|lia].
Qed.

Lemma modifies_mem_with m a l : modifies [(a, Z.of_nat (length l))] m (mem_with m a l).
Proof.
  apply modifies_same_outside. intros x Hx. unfold mem_with. bcase; [lia|done].
Qed.

Lemma cstring_mem_with m a l r : Forall (fun b => b <> 0) l ->
  cstring (at_ (mem_with m a (l ++ 0 :: r)) a) l.
Proof.
  intros Hl. apply cstring_intro; [done| |].
  - intros i Hi. unfold at_, mem_with. rewrite length_app. cbn [length].
    replace (a + Z.of_nat i - a) with (Z.of_nat i) by lia. rewrite Nat2Z.id, app_nth1 by done.
    by rewrite (proj2 (Z.leb_le _ _)), (proj2 (Z.ltb_lt _ _)) by lia.
  - unfold at_, mem_with. rewrite length_app. cbn [length].
    replace (a + Z.of_nat (length l) - a) with (Z.of_nat (length l)) by lia.
    rewrite Nat2Z.id, app_nth2, Nat.sub_diag by lia.
    by rewrite (proj2 (Z.leb_le _ _)), (proj2 (Z.ltb_lt _ _)) by lia.
Qed.

(** ** The first processes *)

Lemma process_insert_frame s p r s' : process_insert s p = Some (r, s') ->
  k_alloc s' = k_alloc s /\ k_mem s' = k_mem s.
Proof.
  unfold process_insert. intros E. ret_in E;
    repeat match goal with U : upd_pcb _ _ _ = Some _ |- _ => apply upd_pcb_inv in U as (? & _ & ->) end;
    done.
Qed.

Section Create.
Context `{MemFill} (kernel : Z -> bool).

(** A new process in a fresh allocator. *)
Record created (s s' : kstate) (l : list Z) (k : Z) (q : pcb) : Prop := {
  cr_inv : kinv kernel s' (l ++ [k * CHUNK_SIZE]);
  cr_new : ~ In (k * CHUNK_SIZE) l;
  cr_pcb : procs s' !! (k * CHUNK_SIZE) = Some q;
  cr_same : same_pcb (new_pcb (s32 (ticks s)) (avail_pid s)) q;
  cr_others : forall x, x <> k * CHUNK_SIZE ->
    match procs s !! x, procs s' !! x with
    | Some q, Some q' => same_pcb q q' | None, None => True | _, _ => False end;
  cr_alloc : filled_to (k_alloc s') (k + 2);
  cr_max : max_chunk (k_alloc s') = max_chunk (k_alloc s);
  cr_pid : avail_pid s' = avail_pid s + 1;
  cr_current : current_process s' = current_process s;
  cr_ticks : ticks s' = ticks s;
  cr_mem : modifies [(k * CHUNK_SIZE, sizeof_pcb)] (k_mem s) (k_mem s') }.

Lemma create_process s l k : kinv kernel s l -> 0 <= avail_pid s < 2 ^ 31 - 1 ->
  filled_to (k_alloc s) k -> k + 2 <= max_chunk (k_alloc s) ->
  exists s' q, process_create s = Some (k * CHUNK_SIZE, s') /\ created s s' l k q.
Proof.
  intros K Hav F Hk. pose proof F as (_ & _ & Hk0 & Hm). change (MAP_CHUNKS - VIDEO_CHUNKS) with 258048 in Hm.
  destruct (filled_allocate _ _ sizeof_pcb F ltac:(done) Hk) as (a & Ea & Fa & Em).
  destruct (process_create_ok kernel s l K Hav) as (p & s' & E & HC).
  pose proof E as E1. unfold process_create in E1. rewrite Ea in E1. cbn [mbind option_bind] in E1.
  assert (Hp : 0 < k * CHUNK_SIZE < 2 ^ 30) by (unfold CHUNK_SIZE; lia).
  rewrite (proj2 (Z.eqb_neq (k * CHUNK_SIZE) 0)) in E1 by lia. ret_in E1.
  match goal with X : process_insert _ _ = Some _ |- _ =>
    apply process_insert_frame in X as [Fa' Fm] end.
  cbn in Fa', Fm. destruct HC as [[? _]|(_ & Hin & K' & Hpid & Hfr & Hsame)]; [lia|].
  pose proof (Hsame (k * CHUNK_SIZE)) as Hq. rewrite lookup_insert_eq in Hq.
  destruct (procs s' !! (k * CHUNK_SIZE)) as [q|] eqn:Eq; [|done].
  exists s', q. split; [done|]. split; try done.
  - intros x Hx. specialize (Hsame x). by rewrite lookup_insert_ne in Hsame.
  - by rewrite Fa'.
  - by rewrite Fa'.
  - by rewrite Hfr.
  - by rewrite Hfr.
  - rewrite Fm. apply modifies_same_outside. intros x Hx.
    rewrite (memset_filled _ _ 0 sizeof_pcb) by (unfold sizeof_pcb; lia). bcase; lia.
Qed.
End Create.

(** *** What is printed

    The formats of the two messages, which are strings of the image. *)
Definition idle_format (pid : Z) : list piece := lits "Created idle thread: " ++ [dec pid; nl].

Definition user_format (pid a : Z) (name : list Z) : list piece :=
  nl :: lits "Entering userspace by starting process " ++ [dec pid] ++ lits " (" ++
  [Conv [] (Str a name)] ++ lits ")!" ++ [nl].

(** Literal text is printable. *)
Lemma lits_ok buffer m s : forallb (fun c => (0 <? c) && (c <? 256) && negb (c =? 37)) (text s) = true ->
  Forall (piece_ok buffer m) (lits s).
Proof.
  intros Hs. rewrite forallb_forall in Hs. unfold lits. apply List.Forall_forall. intros p Hp.
  apply in_map_iff in Hp as (c & <- & Hc). apply Hs in Hc. cbn. b2p. lia.
Qed.

Lemma idle_format_ok buffer m pid : Forall (piece_ok buffer m) (idle_format pid).
Proof.
  unfold idle_format. apply List.Forall_app. split; [by apply lits_ok|].
  apply List.Forall_cons; [by split|]. apply List.Forall_cons; [cbn; lia|constructor].
Qed.

Lemma user_format_ok buffer m pid a name : piece_ok buffer m (Conv [] (Str a name)) ->
  Forall (piece_ok buffer m) (user_format pid a name).
Proof.
  intros Hn. unfold user_format. apply List.Forall_cons; [cbn; lia|].
  apply List.Forall_app. split; [by apply lits_ok|].
  apply List.Forall_cons; [by split|]. apply List.Forall_app. split; [by apply lits_ok|].
  apply List.Forall_cons; [done|]. apply List.Forall_app. split; [by apply lits_ok|].
  apply List.Forall_cons; [cbn; lia|constructor].
Qed.

(** A port that is initialised, and enough fuel. *)
Record may_print `{Device W} (io_base : Z) `{!Uart (W := W) io_base} (pe : print_env)
    (sr : serial_type) : Prop := {
  mp_initialized : initialized sr <> 0;
  mp_driver : driver sr <> no_uart;
  mp_depth : (depth io_base < pe_wf pe)%nat;
  mp_fuel : (400 < pe_fuel pe)%nat }.

Section Print.
Context `{Device W} (io_base : Z) `{!Uart (W := W) io_base} (pe : print_env) (sr : serial_type).
Context (P : may_print io_base pe sr).

Lemma kprintk_ok w m string ps : Forall (piece_ok (pe_buffer pe) m) ps ->
  cstring (at_ m string) (spelled ps) ->
  apart (pe_buffer pe) MAX_PRINT_SIZE string (Z.of_nat (length (spelled ps)) + 1) ->
  (length (rendered ps) < 255)%nat -> (length (spelled ps) <= 120)%nat ->
  exists r w' m', kprintk io_base pe sr w m string (args ps) = Some (r, w', m') /\
    tx io_base w' = tx io_base w ++ crlf (rendered ps) /\
    modifies [(pe_buffer pe, MAX_PRINT_SIZE)] m m'.
Proof.
  destruct P as [P1 P2 P3 P4]. intros Hps Hs Ha Hl Hf.
  destruct (printk_ok io_base (pe_buffer pe) (pe_int_buffer pe) (pe_fuel pe) (pe_wf pe) sr w m
    string ps) as (w' & m' & E & _ & T & _ & M); try done; [lia|].
  eexists _, w', m'. split; [exact E|]. split; [done|]. by apply modifies_same_outside.
Qed.
End Print.

Section Start.
Context `{MemFill} `{Device W} (io_base : Z) `{!Uart (W := W) io_base}.
Context (e : boot_env) (sr : serial_type) (kernel : Z -> bool) (lim : Z).
Context (P : may_print io_base (b_print e) sr).

(** The five strings. *)
Definition boot_strings : list (Z * list Z) :=
  [(b_idle e, spelled (idle_format 0)); (b_userspace e, spelled (user_format 0 0 []));
   (b_root e, [47]); (b_romfs e, text "romfs"); (b_shell e, text "/bin/shell")].

Context (rd : ramdisk) (d : Z -> Z).

Definition image (m : mem) : Prop := holds_image rd d boot_strings m.

(** The regions in the kernel image, apart from the buffer of [printk]. *)
Definition image_low : Prop := Forall (below lim) (image_regions rd boot_strings).
Context (IL : image_low).
Context (IP : Forall (away [(pe_buffer (b_print e), MAX_PRINT_SIZE)]) (image_regions rd boot_strings)).

Lemma image_fresh m m' p n : modifies [(p, n)] m m' -> lim <= p -> image m -> image m'.
Proof. intros M Hp. eapply holds_image_modifies; [exact M|by eapply below_away]. Qed.

Lemma image_string m i : image m -> (i < 5)%nat ->
  let x := nth i boot_strings (0, []) in
  cstring (at_ m (fst x)) (snd x) /\
  apart (pe_buffer (b_print e)) MAX_PRINT_SIZE (fst x) (Z.of_nat (length (snd x)) + 1) /\
  below lim (fst x, Z.of_nat (length (snd x)) + 1).
Proof.
  intros [_ Hs] Hi x. assert (Hx : In x boot_strings) by (apply nth_In; exact Hi).
  assert (Hr : In (fst x, Z.of_nat (length (snd x)) + 1) (image_regions rd boot_strings)).
  { right. by apply (in_map (fun a => (fst a, Z.of_nat (length (snd a)) + 1))). }
  unfold image_low in IL. rewrite List.Forall_forall in *. split; [by apply Hs|]. split.
  - specialize (IP _ Hr). by apply Forall_cons_1 in IP as [? _].
  - by apply IL.
Qed.

(** The idle task: the first entry of the table, ready, with its stack behind
    its control block. *)
Lemma create_idle_ok w s k :
  kinv kernel s [] -> procs s = ∅ -> avail_pid s = 0 -> filled_to (k_alloc s) k ->
  k + 3 <= max_chunk (k_alloc s) -> lim <= k * CHUNK_SIZE -> image (k_mem s) ->
  exists w' s' q, create_idle_task io_base (b_print e) sr (b_idle e) (b_entry e) w s = Some (w', s') /\
    kinv kernel s' [k * CHUNK_SIZE] /\ procs s' !! (k * CHUNK_SIZE) = Some q /\
    (pid q, status q, user_pc q) = (0, PROCESS_STATUS_READY, idle_task (b_entry e)) /\
    filled_to (k_alloc s') (k + 3) /\ max_chunk (k_alloc s') = max_chunk (k_alloc s) /\
    avail_pid s' = 1 /\ ticks s' = ticks s /\ image (k_mem s') /\
    tx io_base w' = tx io_base w ++ crlf (rendered (idle_format 0)).
Proof.
  intros K Hp Hav F Hm Hlim Hi. pose proof F as (_ & _ & Hk0 & Hmx).
  destruct (create_process kernel s [] k K ltac:(lia) F ltac:(lia)) as (s1 & q & E1 & C).
  destruct C as [K1 _ Hq Hsame _ F1 Em1 Ep1 Ec1 Et1 M1]. cbn [app] in K1.
  destruct (filled_allocate _ _ 4096 F1 ltac:(done)) as (a & Ea & Fa & Ema).
  { rewrite Em1. change (chunks_of (eff_size 4096)) with 1. lia. }
  change (chunks_of (eff_size 4096)) with 1 in Fa. replace (k + 2 + 1) with (k + 3) in Fa by lia.
  set (p := k * CHUNK_SIZE) in *. set (st := (k + 2) * CHUNK_SIZE) in *.
  set (q' := idle_pcb (b_entry e) (ticks s1) st q).
  assert (Eq : procs (with_procs (<[p := q']> (procs s1)) (with_k_alloc a s1)) !! p = Some q')
    by apply lookup_insert_eq.
  assert (Epid : pid q' = 0).
  { destruct (same_pcb_fields _ _ Hsame) as (X & _). cbn. rewrite X, Hav. by cbv. }
  destruct (image_string (k_mem s1) 0) as (Hs & Hb & _); [|lia|].
  { eapply image_fresh; [exact M1|lia|done]. }
  destruct (kprintk_ok io_base (b_print e) sr P w (k_mem s1) (b_idle e) (idle_format 0))
    as (r & w' & m' & E2 & T & M2); [by apply idle_format_ok|exact Hs|exact Hb|vm_compute; lia|vm_compute; lia|].
  eexists w', _, q'. split.
  { unfold create_idle_task. bind_with E1. rewrite Ea. unfold upd_pcb.
    cbn [procs with_k_alloc]. rewrite Hq. cbn [mbind option_bind]. fold q'. rewrite Eq. cbn [mbind option_bind].
    cbn [k_mem with_procs with_k_alloc]. rewrite Epid. bind_with E2. reflexivity. }
  cbn [procs with_k_mem with_procs k_alloc with_k_alloc avail_pid ticks k_mem].
  destruct (k_list _ _ _ K1) as (_ & (Ef & _) & _).
  split; [|split; [exact Eq|split; [by rewrite <- Epid|split; [exact Fa|
    split; [by rewrite Ema|split; [by rewrite Ep1, Hav|split; [done|split; [|exact T]]]]]]]].
  - eapply (kinv_evolves _ (with_k_alloc a (with_procs (<[p := q']> (procs s1)) s1)));
      [exact (evolves_with_k_mem _ m')|].
    destruct (same_pcb_fields _ _ Hsame) as (_ & _ & Es & _ & Et & _).
    apply (kinv_replace kernel s1 [p] p q q' a [] [(st / CHUNK_SIZE, 4096)]); try done.
    + left. transitivity (stacksize q); [done|]. rewrite Es. by cbv.
    + left. transitivity (textsize q); [done|]. rewrite Et. by cbv.
    + by left.
    + change (stacksize q') with (stacksize q). change (textsize q') with (textsize q).
      rewrite Es, Et. unfold block_of. cbn. by rewrite !orb_true_r.
    + intros old HC. destruct (client_step_allocate _ _ _ 4096 _ _ HC ltac:(done) Ea)
        as [[Hz _]|(_ & _ & HC')]; [|exact HC']. unfold st, CHUNK_SIZE in Hz. lia.
  - eapply holds_image_modifies; [exact M2|exact IP|]. eapply image_fresh; [exact M1|lia|done].
Qed.

(** *** The first program *)

Context (L : flayout rd (b_locals e) d) (EF : exec_frame rd (b_locals e) (b_stat_info e)).
Context (K : nat) (f : files) (r : Z) (nm : list Z).
Context (NS : names_path rd d K (b_rf e) (root_dir f) (root_dir f) (text "/bin/shell") r).
Context (PG : program rd d (b_rf e) r nm).
Context (AW : Forall (away (kernel_regions (b_locals e) (b_stat_info e)))
                (image_regions rd boot_strings)).
Context (PB : below lim (pe_buffer (b_print e), MAX_PRINT_SIZE)).
Context (BF : (12 < b_fuel e)%nat) (BZ : 0 < b_root e /\ 0 < b_shell e).

Lemma names_root cwd : names_path rd d K (b_rf e) (root_dir f) cwd [47] (root_dir f).
Proof. by exists true, []. Qed.

Lemma same_pcb_name q q' : same_pcb q q' -> name q' = name q.
Proof. destruct q, q'. unfold same_pcb. cbn. by intros [=]. Qed.

(** [start_userspace] up to the call of [execve]: the new process is current,
    its own parent and in the root directory. *)
Record init_ready (s s5 : kstate) (l : list Z) (k : Z) (q : pcb) : Prop := {
  ir_inv : kinv kernel s5 (l ++ [k * CHUNK_SIZE]);
  ir_pcb : procs s5 !! (k * CHUNK_SIZE) = Some q;
  ir_current : current_process s5 = k * CHUNK_SIZE;
  ir_fields : (pid q, parent q, current_dir q) = (avail_pid s, k * CHUNK_SIZE, root_dir f);
  ir_name : length (name q) = 32%nat;
  ir_others : forall x q0, x <> k * CHUNK_SIZE -> procs s !! x = Some q0 ->
    exists q1, procs s5 !! x = Some q1 /\ same_pcb q0 q1;
  ir_new : ~ In (k * CHUNK_SIZE) l;
  ir_alloc : filled_to (k_alloc s5) (k + 2);
  ir_max : max_chunk (k_alloc s5) = max_chunk (k_alloc s);
  ir_image : image (k_mem s5) }.

Definition init_prepare (s : kstate) : option (Z * kstate) :=
  '(init_process, s1) ← process_create s;
  let s2 := with_current_process init_process s1 in
  s3 ← upd_pcb init_process (set_parent init_process) s2;
  '(inode, s4) ← get_inode_k rd (b_locals e) (b_fuel e) (b_rf e) f s3 (b_root e);
  s5 ← upd_pcb init_process (set_current_dir inode) s4;
  Some (init_process, s5).

Lemma init_prepare_ok s l k :
  kinv kernel s l -> 0 <= avail_pid s < 2 ^ 31 - 1 -> filled_to (k_alloc s) k ->
  k + 2 <= max_chunk (k_alloc s) -> lim <= k * CHUNK_SIZE -> image (k_mem s) ->
  exists s5 q, init_prepare s = Some (k * CHUNK_SIZE, s5) /\ init_ready s s5 l k q.
Proof.
  intros K0 Hav F Hm Hlim Hi.
  destruct (create_process kernel s l k K0 Hav F Hm) as (s1 & q & E1 & C).
  destruct C as [K1 Hnew Hq Hsame Hoth F1 Em1 Ep1 Ec1 Et1 M1].
  set (p := k * CHUNK_SIZE) in *. unfold init_prepare. bind_with E1.
  rewrite (upd_pcb_eq _ _ _ q) by exact Hq. cbn [mbind option_bind procs with_current_process].
  set (q3 := set_parent p q). set (s3 := with_procs _ _).
  assert (Hi1 : image (k_mem s1)) by (eapply image_fresh; [exact M1|lia|done]).
  destruct (image_string (k_mem s1) 2 Hi1) as (Hs & _ & Hb); [lia|]. cbn [nth boot_strings fst snd] in Hs, Hb.
  assert (Aw2 : away (kernel_regions (b_locals e) (b_stat_info e)) (b_root e, 2)).
  { rewrite List.Forall_forall in AW. apply AW. cbn. tauto. }
  destruct (get_inode_k_ok rd (b_locals e) d L K (b_rf e) (b_fuel e) f s3 q3 (b_root e) [47] (root_dir f))
    as (m4 & E4 & M4 & D4).
  { apply lookup_insert_eq. }
  { apply names_root. }
  { exact Hs. }
  { lia. }
  { apply Forall_cons_1 in Aw2 as [_ Aw2]. exact Aw2. }
  { apply Hi1. }
  { cbn. lia. }
  bind_with E4. rewrite (upd_pcb_eq _ _ _ q3) by apply lookup_insert_eq.
  cbn [mbind option_bind procs with_k_mem]. eexists _, _. split; [reflexivity|].
  destruct (same_pcb_fields _ _ Hsame) as (Hpid & _).
  split; cbn [procs with_procs with_k_mem current_process k_alloc k_mem s3 with_current_process].
  - eapply kinv_evolves; [|exact K1]. transitivity (with_k_mem m4 s3).
    + transitivity s3; [|apply evolves_with_k_mem]. transitivity (with_current_process p s1).
      * split; [done..|]. intros a. cbn. by destruct (procs s1 !! a).
      * by apply (evolves_upd (with_current_process p s1) p q q3).
    + apply (evolves_upd (with_k_mem m4 s3) p q3 (set_current_dir (root_dir f) q3)); [|done].
      apply lookup_insert_eq.
  - apply lookup_insert_eq.
  - done.
  - cbn. rewrite Hpid. by cbv.
  - cbn. rewrite (same_pcb_name _ _ Hsame). by cbv.
  - intros x q0 Hx Hq0. specialize (Hoth x Hx). rewrite Hq0 in Hoth.
    rewrite !lookup_insert_ne by done. destruct (procs s1 !! x); [eauto|done].
  - done.
  - exact F1.
  - exact Em1.
  - eapply holds_image_modifies; [exact M4| |exact Hi1]. revert AW. apply List.Forall_impl.
    intros x Hx. by apply Forall_cons_1 in Hx as [_ Hx].
Qed.
(** The rest of [start_userspace]. *)
Definition init_enter (w : W) (init_process : Z) (s5 : kstate) : option (bool * W * kstate) :=
  '(result, s6) ← execve rd (b_locals e) (b_fuel e) (b_rf e) (b_stat_info e) f s5 (b_shell e) 0 0;
  if result <? 0 then Some (false, w, s6)
  else
    q ← procs s6 !! init_process;
    '(_, w1, m1) ← kprintk io_base (b_print e) sr w
        (mem_with (k_mem s6) (init_process + PCB_NAME) (name q)) (b_userspace e)
        [Word (pid q); Word (init_process + PCB_NAME)];
    s7 ← upd_pcb init_process (set_status PROCESS_STATUS_READY) (with_k_mem m1 s6);
    Some (true, w1, s7).

Lemma start_userspace_eq w s :
  start_userspace rd (b_locals e) io_base (b_print e) sr (b_userspace e) (b_root e) (b_fuel e)
    (b_rf e) (b_stat_info e) f w s (b_shell e)
  = '(p, s5) ← init_prepare s; init_enter w p s5.
Proof.
  unfold start_userspace, init_prepare, init_enter.
  destruct (process_create s) as [[p s1]|]; [|done]. cbn [mbind option_bind].
  destruct (upd_pcb _ _ _) as [s3|]; [|done]. cbn [mbind option_bind].
  destruct (get_inode_k _ _ _ _ _ _ _) as [[inode s4]|]; [|done]. cbn [mbind option_bind].
  by destruct (upd_pcb _ _ _).
Qed.

Lemma program_size : 0 < fsize d r < 2 ^ 30 /\ 1 <= chunks_of (fsize d r) <= 2 ^ 20.
Proof.
  pose proof (pg_size _ _ _ _ _ PG) as Hsz. pose proof (pg_data _ _ _ _ _ PG) as Hdt.
  assert (Hfs : 0 < fsize d r < 2 ^ 30).
  { destruct PG as [[[? ?] _] _ _ _ _]. pose proof (lay_len _ _ _ (fl_lay _ _ _ L)).
    unfold fdata in Hdt. pose proof (padded_bounds (Z.of_nat (length nm)) ltac:(lia)). lia. }
  split; [done|]. by apply chunks_of_bounds; lia.
Qed.

(** The program is in place. *)
Lemma init_loaded s s5 l k q : init_ready s s5 l k q ->
  k + 2 + chunks_of (fsize d r) + 2 <= max_chunk (k_alloc s) -> lim <= k * CHUNK_SIZE ->
  let p := k * CHUNK_SIZE in
  let b := (k + 2) * CHUNK_SIZE in
  let st := (k + 2 + chunks_of (fsize d r)) * CHUNK_SIZE in
  exists s6, execve rd (b_locals e) (b_fuel e) (b_rf e) (b_stat_info e) f s5 (b_shell e) 0 0
    = Some (0, s6) /\ kinv kernel s6 (l ++ [p]) /\
    exec_done (b_locals e) d (b_stat_info e) s5 s6 q (b_shell e) r (text "/bin/shell") nm 0 [] [] b st /\
    image (k_mem s6).
Proof.
  intros [I1 I2 I3 I4 I5 I6 I7 I8 I9 I10] Hm Hlim p b st.
  injection I4 as Epid Epar Edir. pose proof I8 as (_ & _ & Hk0 & Hmx).
  change (MAP_CHUNKS - VIDEO_CHUNKS) with 258048 in Hmx.
  destruct (image_string (k_mem s5) 4 I10) as (Hs & _ & Hb); [lia|].
  cbn [nth boot_strings fst snd] in Hs, Hb.
  destruct program_size as [Hfs Hn].
  assert (Ee : eff_size (fsize d r) = fsize d r) by (unfold eff_size; bcase; lia).
  destruct (filled_allocate _ _ (fsize d r) I8 ltac:(lia)) as (a1 & Ea1 & F1 & Em1);
    [rewrite Ee; lia|]. rewrite Ee in F1.
  destruct (filled_allocate _ _ DEFAULT_USER_STACK_SIZE F1 ltac:(done)) as (a2 & Ea2 & _);
    [rewrite Em1, I9; change (chunks_of (eff_size DEFAULT_USER_STACK_SIZE)) with 2; lia|].
  fold b in Ea1. fold st in Ea2.
  destruct (execve_ok rd (b_locals e) d L K (b_rf e) (b_stat_info e) f kernel EF s5 q (b_fuel e)
    (b_shell e) (text "/bin/shell") r nm 0 [] [] 0 (l ++ [p]) b a1 st a2)
    as (s6 & E6 & K6 & D6); try done.
  { split; try done.
    - by rewrite I3.
    - by rewrite Edir.
    - split; [exact Hs|lia].
    - apply I10.
    - rewrite List.Forall_forall in AW. apply List.Forall_cons; [|constructor]. apply AW. cbn. tauto.
    - pose proof (below_occupied (k_alloc s5) (k + 2) lim _ I8 ltac:(unfold CHUNK_SIZE in *; lia) IL)
        as Ho. rewrite List.Forall_forall in Ho.
      apply List.Forall_cons; [apply Ho; cbn; tauto|].
      apply List.Forall_cons; [apply Ho; cbn; tauto|constructor].
    - cbn. repeat split; try lia. constructor. }
  assert (Hz : (b =? 0) || (st =? 0) = false) by (unfold b, st, CHUNK_SIZE; lia).
  rewrite Hz in E6, D6. exists s6. split; [exact E6|]. split; [exact K6|]. split; [exact D6|].
  eapply holds_image_modifies; [exact (ed_mem _ _ _ _ _ _ _ _ _ _ _ _ _ _ _ D6)| |exact I10].
  pose proof (below_away lim _ b (fsize d r) IL ltac:(unfold b, CHUNK_SIZE in *; lia)) as B1.
  pose proof (below_away lim _ st DEFAULT_USER_STACK_SIZE IL
    ltac:(unfold st, CHUNK_SIZE in *; lia)) as B2.
  rewrite List.Forall_forall in *. intros x Hx.
  apply (away_app [_] (_ :: _)); [by apply B1|]. apply (away_app [_]); [by apply B2|by apply AW].
Qed.
(** The new process is ready, with its program, and is told of on the port. *)
Record init_running (s s7 : kstate) (w w7 : W) (l : list Z) (k : Z) (q : pcb) : Prop := {
  in_inv : kinv kernel s7 (l ++ [k * CHUNK_SIZE]);
  in_pcb : procs s7 !! (k * CHUNK_SIZE) = Some q;
  in_current : current_process s7 = k * CHUNK_SIZE;
  in_fields : (pid q, status q, parent q, current_dir q)
    = (avail_pid s, PROCESS_STATUS_READY, k * CHUNK_SIZE, root_dir f);
  in_program : (user_pc q, Process.text q, textsize q)
    = ((k + 2) * CHUNK_SIZE, (k + 2) * CHUNK_SIZE, fsize d r);
  in_name : take 11 (name q) = text "/bin/shell" ++ [0];
  in_text : bytes_of (at_ (k_mem s7) ((k + 2) * CHUNK_SIZE)) (Z.to_nat (fsize d r))
    = file_bytes d r nm 0 (fsize d r);
  in_others : forall x q0, x <> k * CHUNK_SIZE -> procs s !! x = Some q0 ->
    exists q1, procs s7 !! x = Some q1 /\ same_pcb q0 q1;
  in_image : image (k_mem s7);
  in_tx : tx io_base w7 = tx io_base w ++
    crlf (rendered (user_format (avail_pid s) (k * CHUNK_SIZE + PCB_NAME) (text "/bin/shell"))) }.

Lemma init_printed w s6 q p : image (k_mem s6) -> lim <= p -> p + 232 < 2 ^ 32 ->
  pid q = 1 -> name q = text "/bin/shell" ++ 0 :: drop 11 (name q) -> length (name q) = 32%nat ->
  exists c w7 m7, kprintk io_base (b_print e) sr w (mem_with (k_mem s6) (p + PCB_NAME) (name q))
      (b_userspace e) [Word (pid q); Word (p + PCB_NAME)] = Some (c, w7, m7) /\
    tx io_base w7 = tx io_base w ++
      crlf (rendered (user_format 1 (p + PCB_NAME) (text "/bin/shell"))) /\
    modifies [(p + PCB_NAME, 32); (pe_buffer (b_print e), MAX_PRINT_SIZE)] (k_mem s6) m7 /\
    image m7.
Proof.
  intros Hi Hp Hp2 Epid En Hl. unfold PCB_NAME in *.
  pose proof (modifies_mem_with (k_mem s6) (p + 200) (name q)) as M1. rewrite Hl in M1.
  set (mm := mem_with _ _ _) in *.
  assert (Hi1 : image mm) by (eapply image_fresh; [exact M1|lia|done]).
  destruct (image_string mm 1 Hi1) as (Hs & Hb & _); [lia|].
  destruct (kprintk_ok io_base (b_print e) sr P w mm (b_userspace e)
    (user_format 1 (p + 200) (text "/bin/shell"))) as (c & w7 & m7 & E & T & M2);
    [|exact Hs|exact Hb|vm_compute; lia|vm_compute; lia|].
  { apply user_format_ok. split; [constructor|]. split.
    { unfold mm. rewrite En. apply cstring_mem_with. by repeat constructor. }
    destruct PB as (B1 & B2 & _). cbn [fst snd] in *.
    split; [cbn; repeat (apply List.Forall_cons; [by split; vm_compute|]); constructor|].
    unfold MAX_PRINT_SIZE in B2.
    split; [lia|]. unfold apart, MAX_PRINT_SIZE. left. lia. }
  rewrite Epid. exists c, w7, m7. split; [exact E|]. split; [exact T|]. split.
  - transitivity mm; (eapply modifies_incl; [eassumption|]); intros x [<-|[]]; cbn; tauto.
  - eapply holds_image_modifies; [exact M2|exact IP|exact Hi1].
Qed.

Lemma start_userspace_ok w s l k :
  kinv kernel s l -> avail_pid s = 1 -> filled_to (k_alloc s) k ->
  k + 2 + chunks_of (fsize d r) + 2 <= max_chunk (k_alloc s) -> lim <= k * CHUNK_SIZE ->
  image (k_mem s) ->
  exists w7 s7 q, start_userspace rd (b_locals e) io_base (b_print e) sr (b_userspace e) (b_root e)
      (b_fuel e) (b_rf e) (b_stat_info e) f w s (b_shell e) = Some (true, w7, s7) /\
    init_running s s7 w w7 l k q.
Proof.
  intros K0 Hav F Hm Hlim Hi.
  pose proof F as (_ & _ & Hk0 & Hmx). change (MAP_CHUNKS - VIDEO_CHUNKS) with 258048 in Hmx.
  destruct program_size as [Hfs Hn].
  destruct (init_prepare_ok s l k) as (s5 & q & E5 & R5); try done; [lia|lia|].
  destruct (init_loaded s s5 l k q R5 Hm Hlim) as (s6 & E6 & K6 & [(m4 & Hs4 & Ep6) Ht6 _ Hm6 Hc6] & Hi6).
  pose proof R5 as [_ _ Ec5 Ef Hl Ho Hnew _ _ _]. injection Ef as Epid Epar Edir.
  set (p := k * CHUNK_SIZE) in *. set (b := (k + 2) * CHUNK_SIZE) in *. set (st := (k + 2 + _) * _) in *.
  rewrite Ec5 in Ep6. set (q6 := loaded_pcb _ _ _ _ _ _ _ _) in *.
  assert (En : name q6 = text "/bin/shell" ++ 0 :: drop 11 (name q))
    by exact (strlcpy_name_ok m4 (b_shell e) (text "/bin/shell") 32 (name q) Hs4 eq_refl ltac:(lia)).
  assert (Hp : 0 < p /\ p + 8192 <= b /\ b < 2 ^ 31) by (unfold p, b, CHUNK_SIZE in *; lia).
  destruct (init_printed w s6 q6 p Hi6 Hlim) as (c & w7 & m7 & E7 & T7 & M7 & Hi7); [lia| | | |].
  { cbn. congruence. }
  { rewrite En at 1. by rewrite En. }
  { rewrite En. rewrite length_app. cbn [length]. rewrite length_drop. rewrite Hl. by vm_compute. }
  rewrite start_userspace_eq, E5. cbn [mbind option_bind]. unfold init_enter. bind_with E6.
  cbn [Z.ltb Z.compare]. rewrite Ep6, lookup_insert_eq. cbn [mbind option_bind]. bind_with E7.
  rewrite (upd_pcb_eq _ _ _ q6) by (cbn; rewrite Ep6; apply lookup_insert_eq).
  cbn [mbind option_bind procs with_k_mem]. eexists w7, _, _. split; [reflexivity|].
  split; cbn [procs with_procs with_k_mem current_process k_alloc k_mem].
  - eapply kinv_evolves; [|exact K6]. transitivity (with_k_mem m7 s6); [apply evolves_with_k_mem|].
    apply (evolves_upd (with_k_mem m7 s6) p q6); [|done]. cbn. rewrite Ep6. apply lookup_insert_eq.
  - apply lookup_insert_eq.
  - exact (eq_trans Hc6 Ec5).
  - cbn. fold p. congruence.
  - done.
  - cbn [name set_status]. by rewrite En.
  - rewrite <- Ht6. unfold bytes_of. apply map_ext_in. intros i Hi0%in_seq. unfold at_. apply M7.
    destruct PB as (_ & B2 & _). cbn [fst snd] in B2.
    apply List.Forall_cons; [unfold PCB_NAME; cbn; lia|].
    apply List.Forall_cons; [cbn [fst snd]; lia|constructor].
  - intros x q0 Hx Hq0. destruct (Ho x q0 Hx Hq0) as (q1 & Hq1 & S1). exists q1.
    split; [|done]. by rewrite Ep6, !lookup_insert_ne.
  - exact Hi7.
  - by rewrite T7, Hav.
Qed.
End Start.

(** ** The whole boot *)

(** The regions the boot code writes. *)
Definition boot_regions (e : boot_env) : list (Z * Z) :=
  [(pe_buffer (b_print e), MAX_PRINT_SIZE); (header (fl_romfs (b_locals e)), 33);
   (b_string e, DT_STRING_MAXSIZE); (b_cmdline e, CMDLINESIZE)] ++
  kernel_regions (b_locals e) (b_stat_info e).

Definition boot_disk (e : boot_env) : ramdisk := Ramdisk (b_image e) (b_image_size e).

(** The kernel image with its strings and the disk image, below [lim] and apart
    from what the boot code writes. *)
Record kernel_image (e : boot_env) (d : Z -> Z) (lim : Z) (m : mem) : Prop := {
  ki_low : image_low e lim (boot_disk e);
  ki_away : Forall (away (boot_regions e)) (image_regions (boot_disk e) (boot_strings e));
  ki_buffer : below lim (pe_buffer (b_print e), MAX_PRINT_SIZE);
  ki_strings : 0 < b_root e /\ 0 < b_shell e;
  ki_layout : flayout (boot_disk e) (b_locals e) d;
  ki_frame : exec_frame (boot_disk e) (b_locals e) (b_stat_info e);
  ki_holds : image e (boot_disk e) d m;
  ki_fuel : (12 < b_fuel e)%nat }.

(** Where the first header lies in an image of the volume [vol]. *)
Definition root_of (vol : list Z) : Z := 16 + padded (Z.of_nat (length vol)).

(** The disk image has the program /bin/shell, the file [r]. *)
Record has_shell (e : boot_env) (d : Z -> Z) (K : nat) (vol : list Z) (r : Z) (nm : list Z) : Prop := {
  hs_volume : volume (boot_disk e) d vol /\ (length vol < 16 * b_rf e)%nat;
  hs_path : names_path (boot_disk e) d K (b_rf e) (root_of vol) (root_of vol) (text "/bin/shell") r;
  hs_program : program (boot_disk e) d (b_rf e) r nm }.

Lemma kinv_bss kernel cpu m a : client_inv kernel (a, []) -> kinv kernel (kernel_bss cpu m a) [].
Proof.
  intros HC. split; cbn; try done.
  - by repeat constructor.
  - intros p. split; [by intros [? ?]|done].
  - by exists [].
Qed.

(** The first three descriptors are open. *)
Definition boot_files (root : Z) : files :=
  Files (repeat (FdInfo 1 0 0) 3 ++ repeat (FdInfo 0 0 0) 29) root root.

Section Whole.
Context `{MemFill} `{Device W} (io_base : Z) `{!Uart (W := W) io_base}.
Context (e : boot_env) (d : Z -> Z) (K : nat) (vol : list Z) (r : Z) (nm : list Z) (lim : Z).

Lemma mount_boot m : kernel_image e d lim m -> has_shell e d K vol r nm ->
  exists m', mount (boot_disk e) (b_locals e) (b_rf e)
      (with_fd_table (fd_table_init (fd_table files_bss)) files_bss) m (b_device e) (b_root e) (b_romfs e) 0 0
    = Some (0, boot_files (root_of vol), m') /\ kernel_image e d lim m'.
Proof.
  intros [I1 I2 I3 I4 I5 I6 I7 I8] [[V Hv] _ _].
  destruct (mount_ok (boot_disk e) (fl_romfs (b_locals e)) d (fl_lay _ _ _ I5) (b_rf e) m 0 vol (proj1 I7) V Hv)
    as (m' & E & _ & M & Hd).
  unfold mount. rewrite (proj2 (Z.eqb_eq _ _)).
  2:{ apply (strncmp_zero_iff _ _ (text "romfs") romfs_type 5); [|split; [by repeat constructor|]|done].
      - destruct I7 as [_ Hs]. rewrite List.Forall_forall in Hs.
        apply (Hs (b_romfs e, text "romfs")). cbn. tauto.
      - intros i Hi. rewrite Nat2Z.id. cbn in Hi. do 6 (destruct i as [|i]; [done|]). lia. }
  cbn [file_headers_start with_fd_table files_bss]. bind_with E.
  fold (root_of vol). assert (0 <= root_of vol).
  { unfold root_of. pose proof (padded_bounds (Z.of_nat (length vol))). lia. }
  rewrite (proj2 (Z.leb_le 0 (root_of vol))) by done.
  exists m'. split; [done|]. split; try done.
  eapply holds_image_modifies; [|exact I2|exact I7]. eapply modifies_incl; [exact M|].
  intros x. unfold boot_regions, kernel_regions, path_regions, lookup_regions. cbn. tauto.
Qed.

(** The two processes of a booted kernel. *)
Record first_processes (mk : Z) (s : kstate) : Prop := {
  fp_inv : kinv (kernel_chunk mk) s
    [first_chunk mk * CHUNK_SIZE; (first_chunk mk + 3) * CHUNK_SIZE];
  fp_current : current_process s = (first_chunk mk + 3) * CHUNK_SIZE;
  fp_first : proc_first s = first_chunk mk * CHUNK_SIZE;
  fp_idle : exists q, procs s !! (first_chunk mk * CHUNK_SIZE) = Some q /\
    (pid q, status q, user_pc q) = (0, PROCESS_STATUS_READY, idle_task (b_entry e));
  fp_init : exists q, procs s !! ((first_chunk mk + 3) * CHUNK_SIZE) = Some q /\
    (pid q, status q, parent q, current_dir q)
      = (1, PROCESS_STATUS_READY, (first_chunk mk + 3) * CHUNK_SIZE, root_of vol) /\
    (user_pc q, Process.text q, textsize q)
      = ((first_chunk mk + 5) * CHUNK_SIZE, (first_chunk mk + 5) * CHUNK_SIZE, fsize d r) /\
    take 11 (name q) = text "/bin/shell" ++ [0];
  fp_text : bytes_of (at_ (k_mem s) ((first_chunk mk + 5) * CHUNK_SIZE)) (Z.to_nat (fsize d r))
    = file_bytes d r nm 0 (fsize d r) }.

Lemma same_pcb_run q q' : same_pcb q q' ->
  (pid q', status q', user_pc q') = (pid q, status q, user_pc q).
Proof. destruct q, q'. unfold same_pcb. cbn. by intros [=]; subst. Qed.

(** Neither process has exited. *)
Lemma first_processes_good mk s : first_processes mk s ->
  good (kernel_chunk mk) s [first_chunk mk * CHUNK_SIZE; (first_chunk mk + 3) * CHUNK_SIZE].
Proof.
  intros [F1 F2 F3 (q0 & Hq0 & E0) (q1 & Hq1 & E1 & _) _].
  split; [done| | |].
  - rewrite F2. cbn. tauto.
  - unfold fld. rewrite F2, Hq1. injection E1 as ? Es ? ?. cbn. by rewrite Es.
  - unfold fld. rewrite F3, Hq0. injection E0 as ? Es ?. cbn. by rewrite Es.
Qed.

Context (sr : serial_type) (P : may_print io_base (b_print e) sr).

Lemma start_processes_ok mk w m a : lim = first_chunk mk * CHUNK_SIZE ->
  kernel_image e d lim m -> has_shell e d K vol r nm ->
  client_inv (kernel_chunk mk) (a, []) -> filled_to a (first_chunk mk) ->
  first_chunk mk + 7 + chunks_of (fsize d r) <= max_chunk a ->
  exists w' s before, start_processes io_base e sr w m a
    = Some (true, w', boot_disk e, boot_files (root_of vol), s) /\
    first_processes mk s /\
    tx io_base w' = before ++ crlf (rendered (user_format 1
      ((first_chunk mk + 3) * CHUNK_SIZE + PCB_NAME) (text "/bin/shell"))).
Proof.
  intros El KI HS HC F Hk. set (k := first_chunk mk) in *.
  destruct (mount_boot m KI HS) as (m1 & E1 & KI1).
  destruct HS as [_ NS PG]. pose proof KI1 as [I1 I2 I3 I4 I5 I6 I7 I8].
  assert (IP : Forall (away [(pe_buffer (b_print e), MAX_PRINT_SIZE)])
    (image_regions (boot_disk e) (boot_strings e))).
  { revert I2. apply List.Forall_impl. intros x Hx. eapply away_sub; [exact Hx|].
    intros y [<-|[]]. by left. }
  assert (AW : Forall (away (kernel_regions (b_locals e) (b_stat_info e)))
    (image_regions (boot_disk e) (boot_strings e))).
  { revert I2. apply List.Forall_impl. intros x Hx. eapply away_sub; [exact Hx|].
    by apply incl_appr, incl_refl. }
  destruct (program_size e (boot_disk e) d I5 r nm PG I8) as [_ Hn].
  destruct (create_idle_ok io_base e sr (kernel_chunk mk) lim P (boot_disk e) d I1 IP w
    (kernel_bss (b_cpu e) m1 a) k) as (w2 & s2 & q0 & E2 & K2 & Hq0 & Eq0 & F2 & Em2 & Ep2 & _ & Hi2 & _);
    try done; [by apply kinv_bss|change (k + 3 <= max_chunk a); lia|lia|].
  idtac.
  cbn [k_alloc kernel_bss] in Em2.
  destruct (start_userspace_ok io_base e sr (kernel_chunk mk) lim P (boot_disk e) d I1 IP I5 I6 K
    (boot_files (root_of vol)) r nm NS PG AW I3 I8 I4 w2 s2 [k * CHUNK_SIZE] (k + 3))
    as (w7 & s7 & q1 & E7 & [R1 R2 R3 R4 R5 R6 R7 R8 R9 R10]); try done; [lia|unfold CHUNK_SIZE in *; lia|].
  exists w7, s7. eexists. split.
  { unfold start_processes, ramdisk_init. fold (boot_disk e). bind_with E1. bind_with E2. bind_with E7. done. }
  rewrite Ep2 in *. split; [|exact R10].
  replace (k + 3 + 2) with (k + 5) in R5, R7 by lia.
  assert (Hne : k * CHUNK_SIZE <> (k + 3) * CHUNK_SIZE) by (unfold CHUNK_SIZE; lia).
  destruct (R8 _ _ Hne Hq0) as (q0' & Hq0' & S0).
  split; [exact R1|exact R3| | | |exact R7].
  - by destruct (k_list _ _ _ R1) as (_ & (-> & _) & _).
  - exists q0'. split; [exact Hq0'|]. rewrite <- Eq0. apply (same_pcb_run _ _ S0).
  - exists q1. split; [exact R2|]. split; [exact R4|]. split; [exact R5|exact R6].
Qed.
End Whole.

(** ** From the loader on

    What the detection of the hardware finds, with a device tree or without:
    the board [h] with [total] bytes of memory; nothing is written but the
    buffers of the two strings that are printed. *)
Record board_read (e : boot_env) (m m2 : mem) (r1 r2 : Z) (h : hardware) (total : Z) : Prop := {
  br_detect : exists out, hardware_detect (b_fuel e) m (b_junk e) (b_system e) (b_revision e)
    hardware_bss r2 = Some (0, h, out);
  br_print : exists m1 o1 o2,
    hardware_print_model (b_fuel e) m (b_junk e) (b_model e) (b_string e) h r1 = Some (m1, o1) /\
    hardware_print_commandline (b_fuel e) m1 (b_junk e) (b_chosen e) (b_bootargs e) (b_cmdline e) h
      = Some (m2, o2);
  br_memory : exists out, hardware_get_memory (b_fuel e) m2 (b_junk e) (b_names e) h
    = Some (Some (0, total), out);
  br_written : modifies [(b_string e, DT_STRING_MAXSIZE); (b_cmdline e, CMDLINESIZE)] m m2 }.

(** Without a device tree the board is taken for a Pi 3B with 256 MB. *)
Definition default_board (m : mem) (r2 : Z) : hardware :=
  Hardware 0 0 RPI_MODEL_3B 0 (snd (devicetree_setup m device_tree_bss r2)).

Lemma board_without_tree e m r1 r2 : dt_word m r2 0 <> 0xd00dfeed ->
  board_read e m m r1 r2 (default_board m r2) (256 * 1024 * 1024).
Proof.
  intros Hm. unfold default_board.
  assert (E : fst (devicetree_setup m device_tree_bss r2) = - ENODEV).
  { unfold devicetree_setup. by rewrite (proj2 (Z.eqb_neq _ _) Hm). }
  split; [|eexists _, _, _; split; reflexivity|by eexists|done]. eexists.
  unfold hardware_detect. cbn [hw_tree hardware_bss].
  destruct (devicetree_setup m device_tree_bss r2) as [x dt]. cbn [fst snd] in *. by rewrite E.
Qed.

Lemma serial_init_driver `{Device W} io_base res w :
  let '(_, s, _, _) := serial_init io_base serial_bss res w SERIAL_UART_PL011 in
  initialized s = 1 /\ driver s = pl011_uart.
Proof.
  unfold serial_init. change (SERIAL_UART_PL011 =? SERIAL_UART_PL011) with true. cbv iota.
  unfold pl011_uart_init. by destruct (bcm2835_read _ _ _).
Qed.

Lemma kernel_image_modifies e d lim m m' : modifies (boot_regions e) m m' ->
  kernel_image e d lim m -> kernel_image e d lim m'.
Proof.
  intros M [I1 I2 I3 I4 I5 I6 I7 I8]. split; try done.
  by eapply holds_image_modifies; [exact M|exact I2|].
Qed.

(** The end of the chunks of the kernel image. *)
Definition kernel_limit (memory_kernel : Z) : Z := first_chunk memory_kernel * CHUNK_SIZE.

(** [kernel_main] with everything it calls. *)
Lemma kernel_main_ok `{MemFill} `{Device W} io_base `{!Uart (W := W) io_base}
    e d K vol r nm h total (w : W) m m2 r0 r1 r2 mk :
  board_read e m m2 r1 r2 h total -> fst (hardware_setup_vars (hardware_type h) 0) = io_base ->
  0 <= total <= MAX_MEMORY - VIDEO_CHUNKS * CHUNK_SIZE -> 0 <= mk < MAX_MEMORY ->
  first_chunk mk + 7 + chunks_of (fsize d r) <= total / CHUNK_SIZE ->
  kernel_image e d (kernel_limit mk) m -> has_shell e d K vol r nm ->
  (depth io_base < pe_wf (b_print e))%nat -> (400 < pe_fuel (b_print e))%nat ->
  exists st y out before, kernel_main e w m r0 r1 r2 mk = Some (true, st, y, out) /\
    first_processes e d vol r nm mk (kern y) /\
    (bs_hardware st, bs_io_base st, bs_ramdisk st, y_files y)
      = (h, io_base, boot_disk e, boot_files (root_of vol)) /\
    tx io_base (board y) = before ++ crlf (rendered (user_format 1
      ((first_chunk mk + 3) * CHUNK_SIZE + PCB_NAME) (text "/bin/shell"))) /\
    good (kernel_chunk mk) (kern y)
      [first_chunk mk * CHUNK_SIZE; (first_chunk mk + 3) * CHUNK_SIZE].
Proof.
  intros [(o1 & B1) (m1 & o2 & o3 & B2 & B3) (o4 & B4) B5] Hio Ht Hmk Hk KI HS Hdep Hfuel.
  assert (KI2 : kernel_image e d (kernel_limit mk) m2).
  { eapply kernel_image_modifies; [|exact KI]. eapply modifies_incl; [exact B5|].
    intros x [<-|[<-|[]]]; cbn; tauto. }
  unfold kernel_main. bind_with B1.
  destruct (hardware_setup_vars (hardware_type h) 0) as [iob gpio]. cbn [fst] in Hio. subst iob.
  pose proof (serial_init_driver io_base 0 w) as HS1.
  destruct (serial_init io_base serial_bss 0 w SERIAL_UART_PL011) as [[[r_ sr] res] w1].
  destruct HS1 as [Hi Hd]. bind_with B2. bind_with B3.
  destruct (platform_irq_enable (hardware_type h) 0 w1) as [[r2_ irqs] w2].
  unfold drivers_init_all. cbn [d_led d_reserved d_serial d_i2c].
  destruct (led_init io_base (hardware_type h) led_default res w2) as [[[r3_ ld] res3] w3].
  destruct (timer_init io_base w3) as [r4_ w4]. unfold serial_enable_interrupts. rewrite Hd.
  cbn [mbind option_bind]. destruct (i2c_init io_base i2c_bss res3 _ I2C_BCM2835) as [[[r5_ i2c] res5] w5].
  cbn [mbind option_bind]. unfold memory_hierarchy_init. bind_with B4.
  destruct (memory_init_fresh total total mk Ht Hmk) as (a & Ea & Fa & Em & HC). bind_with Ea.
  destruct (start_processes_ok io_base e d K vol r nm (kernel_limit mk) sr ltac:(split; [lia|by rewrite Hd|done|done])
    mk w5 m2 a eq_refl KI2 HS HC Fa ltac:(lia)) as (w7 & s & before & E & FP & T).
  bind_with E. eexists _, _, _, before. split; [reflexivity|].
  cbn [kern board y_sys sys_kernel sys_board bs_hardware bs_io_base bs_ramdisk y_files].
  split; [exact FP|]. split; [done|]. split; [exact T|]. by apply first_processes_good in FP.
Qed.

(** C2. From the loader's registers, on a board with [total] bytes of memory (at
    most 1 GB less the 16 MB the video core keeps), a PL011 that makes room
    again, and a disk image with the program /bin/shell, when the chunks behind
    the kernel are enough for the two control blocks, their stacks and the
    program, [kernel_main] reaches user mode: the process table is in order and holds
    the idle process, ready, with id 0, and the first process, ready, current,
    its own parent, in the root directory, with id 1 and the name "/bin/shell";
    its text holds the bytes of the file and is where it starts; the first three
    descriptors are open, the file system is mounted, and the last line sent to
    the port tells of the process.  The state is one from which the machine of
    [Safety] starts: its tables are in order, and neither the running nor the
    idle process has exited. *)
Theorem kernel_boots `{MemFill} `{Device W} io_base `{!Uart (W := W) io_base}
    e d K vol r nm h total (w : W) m m2 r0 r1 r2 mk :
  board_read e m m2 r1 r2 h total -> fst (hardware_setup_vars (hardware_type h) 0) = io_base ->
  0 <= total <= MAX_MEMORY - VIDEO_CHUNKS * CHUNK_SIZE -> 0 <= mk < MAX_MEMORY ->
  first_chunk mk + 7 + chunks_of (fsize d r) <= total / CHUNK_SIZE ->
  kernel_image e d (kernel_limit mk) m -> has_shell e d K vol r nm ->
  (depth io_base < pe_wf (b_print e))%nat -> (400 < pe_fuel (b_print e))%nat ->
  exists st y out before, kernel_main e w m r0 r1 r2 mk = Some (true, st, y, out) /\
    first_processes e d vol r nm mk (kern y) /\
    (bs_hardware st, bs_io_base st, bs_ramdisk st, y_files y)
      = (h, io_base, boot_disk e, boot_files (root_of vol)) /\
    tx io_base (board y) = before ++ crlf (rendered (user_format 1
      ((first_chunk mk + 3) * CHUNK_SIZE + PCB_NAME) (text "/bin/shell"))) /\
    good (kernel_chunk mk) (kern y)
      [first_chunk mk * CHUNK_SIZE; (first_chunk mk + 3) * CHUNK_SIZE].
Proof. intros. by eapply kernel_main_ok. Qed.

(** ** A boot

    A Pi 3B without a device tree: the port of [Serial], at the registers of
    this board. *)
Record pi3 := Pi3 { pi3_port : port }.

#[global] Instance pi3_device : Device pi3 := {
  mmio_read w a := let '(v, p) := mmio_read (pi3_port w) (a - 0x1f000000) in (v, Pi3 p);
  mmio_write w a v := Pi3 (mmio_write (pi3_port w) (a - 0x1f000000) v) }.

#[global] Instance pi3_uart : Uart (W := pi3) 0x3f000000.
Proof.
  refine {| tx w := tx 0x20000000 (pi3_port w); rx w := rx 0x20000000 (pi3_port w);
            full w := full 0x20000000 (pi3_port w); depth := depth 0x20000000 |}.
  - intros [p]. apply (full_bounded 0x20000000).
  - intros [p]. pose proof (uart_fr 0x20000000 p) as HF. unfold bcm2835_read in *.
    change (mmio_read (Pi3 p) (u32 (0x3f000000 + UART0_FR))) with
      (let '(v, q) := mmio_read p (u32 (0x20000000 + UART0_FR)) in (v, Pi3 q)).
    by destruct (mmio_read p _).
  - intros [p] b. exact (uart_put 0x20000000 p b).
  - intros [p] b l E. pose proof (uart_get 0x20000000 p b l E) as HG. unfold bcm2835_read in *.
    change (mmio_read (Pi3 p) (u32 (0x3f000000 + UART0_DR))) with
      (let '(v, q) := mmio_read p (u32 (0x20000000 + UART0_DR)) in (v, Pi3 q)).
    by destruct (mmio_read p _).
  - intros [p] v. exact (uart_icr 0x20000000 p v).
Defined.

(** A disk image with the program /bin/shell, whose text is "hello". *)
Definition shell_image : list Z :=
  romfs_magic ++ be_bytes 192 ++ be_bytes 0 ++ 118 :: repeat 0 15 ++
  demo_header (64 + 9) 32 0 [46] ++ demo_header 96 32 0 [46; 46] ++
  demo_header 9 128 0 (text "bin") ++ demo_header 2 0 5 (text "shell") ++
  text "hello" ++ repeat 0 27.

Definition shell_byte (i : Z) : Z := nth (Z.to_nat i) shell_image 0.

Definition demo_boot : boot_env :=
  BootEnv (PrintEnv 20800 (fun _ => 0) 500 3) (Exec.Entry 32800 32900) (repeat 0 15) (repeat 7 128) 0
    (DtNames 1 1 1 1 1 0 0) 20700 20700 20700 21100 20700 20700 21300 20700
    20480 20544 20640 20648 20656 20700 32768 192 16900 demo_fl 20 10.

Definition boot_mem : mem :=
  fold_left (fun m x => mem_with m (fst x) (snd x ++ [0])) (boot_strings demo_boot)
    (mem_with (fun _ => 1) 32768 shell_image).

Definition boot_image : ramdisk := Ramdisk 32768 192.

Definition apartb (r x : Z * Z) : bool := (fst r + snd r <=? fst x) || (fst x + snd x <=? fst r).

Lemma away_check rs l : forallb (fun x => forallb (fun r => apartb r x) rs) l = true ->
  Forall (away rs) l.
Proof.
  rewrite forallb_forall. intros Hl. apply List.Forall_forall. intros x Hx.
  specialize (Hl x Hx). rewrite forallb_forall in Hl. apply List.Forall_forall. intros r Hr.
  specialize (Hl r Hr). unfold apartb in Hl. unfold apart. lia.
Qed.

Lemma boot_layout : flayout boot_image demo_fl shell_byte.
Proof.
  split; [|left; cbn; lia| |cbn; lia|left; cbn; lia|right; cbn; lia].
  - split; cbn [rd_start rd_length boot_image temp_int temp_buffer filename header demo_fl fl_romfs
      demo_locals]; try (unfold apart; lia).
    intros i. unfold shell_byte.
    assert (Hb : forallb (fun b => (0 <=? b) && (b <? 256)) shell_image = true) by (by vm_compute).
    rewrite forallb_forall in Hb.
    destruct (nth_in_or_default (Z.to_nat i) shell_image 0) as [Hin|E]; [|rewrite E; lia].
    specialize (Hb _ Hin). lia.
  - repeat apply List.Forall_cons; [left; cbn; lia..|constructor].
Qed.

Lemma boot_kernel_image : kernel_image demo_boot shell_byte (kernel_limit 34000) boot_mem.
Proof.
  split.
  - unfold image_low. change (kernel_limit 34000) with 36864.
    repeat (apply List.Forall_cons; [by vm_compute|]). constructor.
  - apply away_check. by vm_compute.
  - by vm_compute.
  - cbn. lia.
  - exact boot_layout.
  - split; [cbn; lia|left; cbn; lia|right; cbn; lia].
  - split.
    + intros i Hi. apply Z.eqb_eq.
      by apply (check_below (fun i => boot_mem (32768 + i) =? shell_byte i) 192).
    + repeat (apply List.Forall_cons; [apply cstringb_cstring; by vm_compute|]). constructor.
  - cbn. lia.
Qed.

Lemma boot_root : is_dir boot_image shell_byte 2 10 32
  [(32, [46]); (64, [46; 46]); (96, text "bin")].
Proof.
  split; [cbn; lia|by vm_compute| |cbn; lia|repeat constructor; cbn; lia].
  apply dir_next; [split; [by vm_compute|by apply name_at_check]|by vm_compute|].
  apply dir_next; [split; [by vm_compute|by apply name_at_check]|by vm_compute|].
  apply dir_last; [split; [by vm_compute|by apply name_at_check]|by vm_compute].
Qed.

Lemma boot_bin : is_dir boot_image shell_byte 2 10 96 [(128, text "shell")].
Proof.
  split; [cbn; lia|by vm_compute| |cbn; lia|repeat constructor; cbn; lia].
  apply dir_last; [split; [by vm_compute|by apply name_at_check]|by vm_compute].
Qed.

Lemma boot_has_shell : has_shell demo_boot shell_byte 2 [118] 128 (text "shell").
Proof.
  split.
  - split; [|cbn; lia]. split; [|split; [by apply name_at_check|by vm_compute]].
    intros i Hi. apply Z.eqb_eq.
    by apply (check_below (fun i => shell_byte i =? nth (Z.to_nat i) romfs_magic 0) 8).
  - exists true, [text "bin"; text "shell"].
    split; [repeat (apply List.Forall_cons; [split; [cbn; repeat (apply List.Forall_cons; [by vm_compute|]);
      constructor|cbn; lia]|]); constructor|]. split; [done|]. split; [done|].
    change (root_of [118]) with 32. cbn [join]. eapply (walk_down _ _ _ _ _ _ _ 96).
    + exact boot_root.
    + exists 0%nat. split; [|cbn; lia]. apply resolves_here; [lia|cbn; lia|by vm_compute].
    + lia.
    + eapply walk_last; [exact boot_bin|].
      exists 0%nat. split; [|cbn; lia]. apply resolves_here; [lia|cbn; lia|by vm_compute].
  - split; [split; [by vm_compute|by apply name_at_check]|by vm_compute|cbn; lia|by vm_compute
           |by vm_compute].
Qed.

Lemma kernel_boots_witness :
  exists st y out before, kernel_main demo_boot (Pi3 (Port [] [] false)) boot_mem 0 0xc42 256 34000
      = Some (true, st, y, out) /\
    first_processes demo_boot shell_byte [118] 128 (text "shell") 34000 (kern y) /\
    (bs_hardware st, bs_io_base st, bs_ramdisk st, y_files y)
      = (default_board boot_mem 256, 0x3f000000, boot_image, boot_files 32) /\
    tx 0x3f000000 (board y) = before ++ crlf (rendered (user_format 1 49352 (text "/bin/shell"))) /\
    good (kernel_chunk 34000) (kern y) [36864; 49152].
Proof.
  refine (kernel_boots 0x3f000000 demo_boot shell_byte 2 [118] 128 (text "shell")
    (default_board boot_mem 256) (256 * 1024 * 1024) (Pi3 (Port [] [] false)) boot_mem boot_mem
    0 0xc42 256 34000 _ _ _ _ _ boot_kernel_image boot_has_shell _ _).
  - apply board_without_tree. by vm_compute.
  - reflexivity.
  - by vm_compute.
  - by vm_compute.
  - by vm_compute.
  - cbn. lia.
  - cbn. lia.
Defined.
