(* ===== verification/BoardTree.v ===== *)
(** * Booting with a device tree

    What [Boot.board_read] asks for, the board's type and memory, found in a
    tree the loader has left: the queries of [hardware_detect.c] on a tree that
    stays as it is while the two strings that are printed are copied out of
    it. *)

From stdpp Require Import base list numbers.
From Stdlib Require Import ZArith Lia.
From Stdlib Require String.
From S2P Require Import Prelude CString PageAlloc Romfs Process Sched Mmio Gpio Irq Serial Console Interrupts Files Printk I2c Exec Syscalls Safety DeviceTree User Boot.
Import String.StringSyntax.

(** ** A tree depends on its bytes *)

(** The words of the structure and the names of the properties lie in the tree's
    own bytes. *)
Record inside (m : mem) (dt : device_tree_type) (ps : list entry) (j : Z) : Prop := {
  in_struct : dt_address dt <= dt_tree dt /\
              dt_tree dt + 4 * (j + 1) <= dt_address dt + dt_totalsize dt < 2 ^ 32;
  in_names : Forall (fun x =>
    let p := u32 (dt_address dt + dt_off_strs dt + dt_word m (dt_tree dt) (e_index x + 1)) in
    dt_address dt <= p /\
    p + Z.of_nat (length (e_prop x)) + 1 <= dt_address dt + dt_totalsize dt) ps }.

Section Frame.
Context (m m' : mem) (dt : device_tree_type) (Hm : forall a, 0 <= m a < 256).
Context (Hs : forall a, dt_address dt <= a < dt_address dt + dt_totalsize dt -> m' a = m a).
Context (J : Z) (H0 : 0 <= dt_tree dt) (Hlo : dt_address dt <= dt_tree dt).
Context (Hhi : dt_tree dt + 4 * (J + 1) <= dt_address dt + dt_totalsize dt < 2 ^ 32).

Lemma word_frame i : 0 <= i <= J -> dt_word m' (dt_tree dt) i = dt_word m (dt_tree dt) i.
Proof.
  intros Hi. unfold dt_word, tree_word. f_equal. apply load32_ext. intros k Hk.
  rewrite u32_id by lia. apply Hs. lia.
Qed.

Lemma string_frame p l : cstring (at_ m p) l -> dt_address dt <= p ->
  p + Z.of_nat (length l) + 1 <= dt_address dt + dt_totalsize dt -> cstring (at_ m' p) l.
Proof. intros Hc H1 H2. eapply cstring_ext; [|exact Hc]. intros i Hi. unfold at_. apply Hs. lia. Qed.

Definition named_inside (ps : list entry) : Prop :=
  Forall (fun x =>
    let p := u32 (dt_address dt + dt_off_strs dt + dt_word m (dt_tree dt) (e_index x + 1)) in
    dt_address dt <= p /\
    p + Z.of_nat (length (e_prop x)) + 1 <= dt_address dt + dt_totalsize dt) ps.

Lemma node_items_frame :
  (forall i ps j, node_at m dt i ps j -> 0 <= i -> j <= J -> named_inside ps -> node_at m' dt i ps j) /\
  (forall name i ps j, items_at m dt name i ps j -> 0 <= i -> j <= J -> named_inside ps ->
     items_at m' dt name i ps j).
Proof.
  apply (node_items_ind m dt
    (fun i ps j _ => 0 <= i -> j <= J -> named_inside ps -> node_at m' dt i ps j)
    (fun name i ps j _ => 0 <= i -> j <= J -> named_inside ps -> items_at m' dt name i ps j)).
  - intros i name ps j Hw [Hc Hp] Hn Hit IH Hi Hj Hin.
    pose proof (proj2 (node_items_grow m Hm dt) _ _ _ _ Hit). pose proof (name_words_pos name).
    assert (Hl : Z.of_nat (length name) < 4 * name_words name)
      by (unfold name_words; Z.div_mod_to_equations; lia).
    apply node_intro with (name := name); [by rewrite word_frame by lia| |done|apply IH; done || lia].
    split; [apply string_frame; done || lia|]. intros b Hb. rewrite Hs by lia. by apply Hp.
  - intros name i Hw Hi Hj _. apply items_end. by rewrite word_frame by lia.
  - intros name i ps j Hw Hit IH Hi Hj Hin.
    pose proof (proj2 (node_items_grow m Hm dt) _ _ _ _ Hit).
    apply items_nop; [by rewrite word_frame by lia|apply IH; done || lia].
  - intros name i pname ps j Hw Hc Hsh Hl Hit IH Hi Hj Hin.
    pose proof (proj2 (node_items_grow m Hm dt) _ _ _ _ Hit) as Hg.
    pose proof (dt_word_nonneg m Hm (dt_tree dt) (i + 1)) as Hnn.
    assert (Hq : 0 <= (dt_word m (dt_tree dt) (i + 1) + 3) / 4) by (apply Z.div_pos; lia).
    apply Forall_cons_1 in Hin as [[N1 N2] Hin]. cbn [e_index e_prop] in N1, N2.
    replace (i + 1 + 1) with (i + 2) in N1, N2 by lia.
    apply items_prop; rewrite ?word_frame by lia; try done.
    + by apply string_frame.
    + apply IH; done || lia.
  - intros name i ps1 k ps2 j Hn IH1 Hit IH2 Hi Hj Hin.
    pose proof (proj1 (node_items_grow m Hm dt) _ _ _ Hn).
    pose proof (proj2 (node_items_grow m Hm dt) _ _ _ _ Hit).
    apply Forall_app in Hin as [Hin1 Hin2].
    eapply items_node; [apply IH1|apply IH2]; done || lia.
Qed.
End Frame.

(** A property ends before its node does. *)
Lemma indices_inside m (Hm : forall a, 0 <= m a < 256) dt :
  (forall i ps j, node_at m dt i ps j -> 0 <= i ->
     Forall (fun x => 0 <= e_index x /\
       e_index x + 2 + (dt_word m (dt_tree dt) (e_index x) + 3) / 4 < j) ps) /\
  (forall name i ps j, items_at m dt name i ps j -> 0 <= i ->
     Forall (fun x => 0 <= e_index x /\
       e_index x + 2 + (dt_word m (dt_tree dt) (e_index x) + 3) / 4 < j) ps).
Proof.
  apply (node_items_ind m dt
    (fun i ps j _ => 0 <= i -> Forall (fun x => 0 <= e_index x /\
       e_index x + 2 + (dt_word m (dt_tree dt) (e_index x) + 3) / 4 < j) ps)
    (fun name i ps j _ => 0 <= i -> Forall (fun x => 0 <= e_index x /\
       e_index x + 2 + (dt_word m (dt_tree dt) (e_index x) + 3) / 4 < j) ps)).
  - intros i name ps j _ _ _ _ IH Hi. pose proof (name_words_pos name). apply IH. lia.
  - intros. constructor.
  - intros name i ps j _ _ IH Hi. apply IH. lia.
  - intros name i pname ps j _ _ _ _ Hit IH Hi.
    pose proof (proj2 (node_items_grow m Hm dt) _ _ _ _ Hit).
    pose proof (dt_word_nonneg m Hm (dt_tree dt) (i + 1)).
    assert (0 <= (dt_word m (dt_tree dt) (i + 1) + 3) / 4) by (apply Z.div_pos; lia).
    apply List.Forall_cons; [cbn [e_index]; lia|apply IH; lia].
  - intros name i ps1 k ps2 j Hn IH1 Hit IH2 Hi.
    pose proof (proj1 (node_items_grow m Hm dt) _ _ _ Hn).
    pose proof (proj2 (node_items_grow m Hm dt) _ _ _ _ Hit).
    apply Forall_app. split; [|apply IH2; lia]. specialize (IH1 Hi). revert IH1.
    apply List.Forall_impl. intros x Hx. lia.
Qed.

Lemma entry_inside m dt ps j x : holds_tree m dt ps j -> In x ps ->
  0 <= e_index x /\ e_index x + 2 + (dt_word m (dt_tree dt) (e_index x) + 3) / 4 < j /\
  0 <= (dt_word m (dt_tree dt) (e_index x) + 3) / 4.
Proof.
  intros [Hm _ Hr _ _ _] Hx. pose proof (proj1 (indices_inside m Hm dt) _ _ _ Hr ltac:(lia)) as H.
  rewrite List.Forall_forall in H. destruct (H x Hx). split; [done|]. split; [done|].
  pose proof (dt_word_nonneg m Hm (dt_tree dt) (e_index x)). apply Z.div_pos; lia.
Qed.

(** A tree is still there after stores outside its bytes. *)
Lemma holds_tree_frame m m' dt ps j rs : holds_tree m dt ps j -> inside m dt ps j ->
  modifies rs m m' -> Forall (fun r => apart (fst r) (snd r) (dt_address dt) (dt_totalsize dt)) rs ->
  (forall a, 0 <= m' a < 256) -> holds_tree m' dt ps j /\ inside m' dt ps j /\
  (forall i, 0 <= i <= j -> dt_word m' (dt_tree dt) i = dt_word m (dt_tree dt) i).
Proof.
  intros [Hm Hv Hr He Hl Hh] [[S1 S2] N] M Ha Hm'.
  assert (Hs : forall a, dt_address dt <= a < dt_address dt + dt_totalsize dt -> m' a = m a).
  { intros a Hin. apply M. revert Ha. apply List.Forall_impl. unfold apart. intros r Hr'. lia. }
  pose proof (proj1 (node_items_grow m Hm dt) _ _ _ Hr) as Hg.
  assert (Hw : forall i, 0 <= i <= j -> dt_word m' (dt_tree dt) i = dt_word m (dt_tree dt) i)
    by (intros i Hi; by apply (word_frame m m' dt Hs j)).
  split; [|split; [|done]].
  - split; try done; [|by rewrite Hw by lia].
    apply (proj1 (node_items_frame m m' dt Hm Hs j Hl S1 S2)); done || lia.
  - split; [done|].
    revert N. rewrite !List.Forall_forall. intros N x Hx.
    destruct (entry_inside m dt ps j x) as (H1 & H2 & H3); [done..|].
    rewrite Hw by lia. by apply N.
Qed.

(** ** Strings out of the tree *)

Lemma first_entry_in qn qp ps x : first_entry qn qp ps = Some x ->
  exists y, In y ps /\ e_index y = x.
Proof.
  unfold first_entry. intros E. destruct (List.find _ _) as [y|] eqn:Ef; [|done].
  injection E as <-. apply find_some in Ef as [Hin _]. by exists y.
Qed.

Lemma dt_word_range m (Hm : forall a, 0 <= m a < 256) tree i : 0 <= dt_word m tree i < 2 ^ 32.
Proof.
  unfold dt_word, tree_word. rewrite load32_swapped by done.
  pose proof (Hm (u32 (tree + 4 * i) + 3)). pose proof (Hm (u32 (tree + 4 * i) + 2)).
  pose proof (Hm (u32 (tree + 4 * i) + 1)). pose proof (Hm (u32 (tree + 4 * i))). lia.
Qed.

(** The value of the property is copied to [string], and nothing else is
    written. *)
Lemma find_string_ok m junk dt ps j fuel node prop qn qp string len x :
  Z.of_nat (length junk) = DT_STRING_MAXSIZE -> holds_tree m dt ps j ->
  query m node prop qn qp -> j < Z.of_nat fuel -> first_entry qn qp ps = Some x ->
  exists m', devicetree_find_string m junk fuel dt node prop string len = Some (0, m', []) /\
    modifies [(string, dt_word m (dt_tree dt) x)] m m' /\ (forall a, 0 <= m' a < 256).
Proof.
  intros Hj Ht Q Hf E. destruct (find_int_ok _ _ _ _ _ _ _ _ _ _ Hj Ht Q Hf) as [F _].
  assert (Hx : 0 < x < 2 ^ 31).
  { destruct Ht as [Hm Hv Hn He Hl Hh]. pose proof (proj1 (node_items_grow m Hm dt) _ _ _ Hn).
    eapply first_entry_index; [|exact E].
    apply (proj1 (node_items_indices m Hm dt) _ _ _ Hn); lia. }
  destruct (index_found x Hx) as (I1 & I2 & _). destruct Ht as [Hm Hv _ _ _ _].
  unfold devicetree_find_string. rewrite F, E. cbn [mbind option_bind from_option id].
  rewrite (proj2 (Z.ltb_ge (u32 x) 0)) by apply u32_range. rewrite I1.
  unfold devicetree_prop_string. rewrite (proj2 (Z.eqb_neq _ _) Hv), I2.
  eexists. split; [reflexivity|]. set (n := dt_word m (dt_tree dt) x).
  pose proof (dt_word_range m Hm (dt_tree dt) x) as Hn. fold n in Hn.
  generalize (u32 (dt_tree dt + 4 * u32 (u32 (x + 1) + 1))). intros ptr.
  pose proof (for_up_ind (fun i m' => modifies [(string, n)] m m' /\ forall a, 0 <= m' a < 256)
    (fun i m => upd m (string + i) (m (ptr + i))) (Z.to_nat n) 0 m) as H.
  apply H; [done|]. intros i t Hi [Mt Bt]. split.
  - transitivity t; [done|]. eapply modifies_sub; [apply modifies_upd|]. intros y Hy.
    apply Forall_cons_1 in Hy as [Hy _]. cbn [fst snd] in Hy.
    apply List.Forall_cons; [cbn [fst snd]; lia|constructor].
  - intros a. unfold upd. destruct (a =? string + i); apply Bt.
Qed.

(** ** The board of a tree *)

(** The strings the kernel asks for. *)
Definition tree_names (e : boot_env) : list (Z * list Z) :=
  let n := b_names e in
  [(b_system e, text "system"); (b_revision e, text "linux,revision"); (b_model e, text "model");
   (b_chosen e, text "chosen"); (b_bootargs e, text "bootargs");
   (n_address_cells n, text "#address-cells"); (n_size_cells n, text "#size-cells");
   (n_memory n, text "memory"); (n_memory0 n, text "memory@0"); (n_reg n, text "reg")].

Definition has_names (e : boot_env) (m : mem) : Prop :=
  Forall (fun a => fst a <> 0 /\ cstring (at_ m (fst a)) (snd a)) (tree_names e).

Definition print_buffers (e : boot_env) : list (Z * Z) :=
  [(b_string e, DT_STRING_MAXSIZE); (b_cmdline e, CMDLINESIZE)].

Lemma names_short e : Forall (fun a => short (snd a)) (tree_names e).
Proof. repeat (apply List.Forall_cons; [by vm_compute|]). constructor. Qed.

Lemma name_query e m (N : has_names e m) node prop qn qp :
  In (prop, qp) (tree_names e) ->
  match qn with None => node = 0 | Some n => In (node, n) (tree_names e) end ->
  query m node prop qn qp.
Proof.
  unfold has_names in N. pose proof (names_short e) as S. rewrite List.Forall_forall in N, S.
  intros Hp Hn. split; [|by apply (N (prop, qp))|by apply (S (prop, qp))].
  destruct qn as [n|]; [|done]. split; [by apply (N (node, n))|].
  split; [by apply (N (node, n))|by apply (S (node, n))].
Qed.

Lemma has_names_frame e m m' : has_names e m -> modifies (print_buffers e) m m' ->
  Forall (away (print_buffers e)) (string_regions (tree_names e)) -> has_names e m'.
Proof.
  unfold has_names, string_regions. rewrite Forall_map, !List.Forall_forall.
  intros N M A a Ha. destruct (N a Ha) as [N0 N1]. split; [done|].
  eapply cstring_modifies; [exact M|exact (A a Ha)|exact N1].
Qed.

(** What the loader leaves: a well-formed tree apart from the buffers, the
    revision in "system", a model and a command line that fit into their
    buffers, and the memory of the board, as in [devicetree_memory]: one cell
    for addresses and sizes, a root without a name, nothing in "memory" and a
    property "reg" of two words in "memory@0". *)
Record loader_tree (e : boot_env) (m : mem) (r2 : Z) (dt : device_tree_type) (ps : list entry)
    (j rev total : Z) : Prop := {
  lt_setup : devicetree_setup m device_tree_bss r2 = (0, dt);
  lt_tree : holds_tree m dt ps j;
  lt_inside : inside m dt ps j;
  lt_fuel : j < Z.of_nat (b_fuel e);
  lt_junk : Z.of_nat (length (b_junk e)) = DT_STRING_MAXSIZE;
  lt_apart : Forall (fun r => apart (fst r) (snd r) (dt_address dt) (dt_totalsize dt)) (print_buffers e);
  lt_names : has_names e m;
  lt_away : Forall (away (print_buffers e)) (string_regions (tree_names e));
  lt_revision : exists x, first_entry (Some (text "system")) (text "linux,revision") ps = Some x /\
    dt_word m (dt_tree dt) (x + 2) = rev;
  lt_model : exists x, first_entry None (text "model") ps = Some x /\
    dt_word m (dt_tree dt) x <= DT_STRING_MAXSIZE;
  lt_cmdline : exists x, first_entry (Some (text "chosen")) (text "bootargs") ps = Some x /\
    dt_word m (dt_tree dt) x <= CMDLINESIZE;
  lt_cells : exists xa xs, first_entry None (text "#address-cells") ps = Some xa /\
    dt_word m (dt_tree dt) (xa + 2) = 1 /\
    first_entry None (text "#size-cells") ps = Some xs /\ dt_word m (dt_tree dt) (xs + 2) = 1;
  lt_root : dt_word m (dt_tree dt) 1 = 0;
  lt_old : first_entry (Some (text "memory")) (text "reg") ps = None;
  lt_memory : exists x, first_entry (Some (text "memory@0")) (text "reg") ps = Some x /\
    dt_word m (dt_tree dt) x = 8 /\ dt_word m (dt_tree dt) (x + 3) = total;
  lt_total : 1024 <= total }.

Definition tree_board (dt : device_tree_type) (rev : Z) : hardware :=
  Hardware 1 0 (hardware_convert_type rev) rev dt.

Section Board.
Context (e : boot_env) (r2 : Z) (dt : device_tree_type) (ps : list entry) (j : Z).

(** What stays of the tree and the names when only the buffers are written. *)
Record tree_kept (m m' : mem) : Prop := {
  tk_tree : holds_tree m' dt ps j;
  tk_words : forall i, 0 <= i <= j -> dt_word m' (dt_tree dt) i = dt_word m (dt_tree dt) i;
  tk_names : has_names e m' }.

Lemma loader_tree_kept m rev total m' : loader_tree e m r2 dt ps j rev total ->
  modifies (print_buffers e) m m' -> (forall a, 0 <= m' a < 256) -> tree_kept m m'.
Proof.
  intros L M B. destruct L. destruct (holds_tree_frame m m' dt ps j (print_buffers e)) as (T & _ & W);
    try done. split; [done|done|]. by eapply has_names_frame.
Qed.

(** The index of a property that is found, the words of its value. *)
Lemma found_inside m qn qp x k : holds_tree m dt ps j -> first_entry qn qp ps = Some x ->
  0 <= k < 3 + (dt_word m (dt_tree dt) x + 3) / 4 -> 0 <= x + k <= j.
Proof.
  intros Ht E Hk. apply first_entry_in in E as (y & Hy & <-).
  destruct (entry_inside m dt ps j y Ht Hy) as (H1 & H2 & H3). lia.
Qed.

(** One of the two strings. *)
Lemma string_printed m rev total node prop qn qp string size m0 x :
  loader_tree e m r2 dt ps j rev total -> modifies (print_buffers e) m m0 ->
  (forall a, 0 <= m0 a < 256) ->
  In (prop, qp) (tree_names e) -> match qn with None => node = 0 | Some n => In (node, n) (tree_names e) end ->
  In (string, size) (print_buffers e) -> first_entry qn qp ps = Some x ->
  dt_word m (dt_tree dt) x <= size ->
  exists m1, devicetree_find_string m0 (b_junk e) (b_fuel e) dt node prop string size
      = Some (0, m1, []) /\ modifies (print_buffers e) m m1 /\ (forall a, 0 <= m1 a < 256).
Proof.
  intros L M B Hp Hn Hbuf E Hsz. destruct (loader_tree_kept m rev total m0 L M B) as [T W N].
  destruct L. destruct (find_string_ok m0 (b_junk e) dt ps j (b_fuel e) node prop qn qp string size x)
    as (m1 & F & M1 & B1); try done; [by apply (name_query e)|].
  exists m1. split; [done|]. split; [|done]. transitivity m0; [done|].
  eapply modifies_sub; [exact M1|]. intros a Ha. rewrite List.Forall_forall in Ha.
  specialize (Ha _ Hbuf). cbn [fst snd] in Ha. rewrite W in * by
    (replace x with (x + 0) by lia; eapply found_inside; [exact lt_tree0|exact E|];
     split; [done|]; assert (0 <= (dt_word m (dt_tree dt) x + 3) / 4);
     [apply Z.div_pos; [|lia]; destruct lt_tree0 as [Hm ? ? ? ? ?];
      pose proof (dt_word_nonneg m Hm (dt_tree dt) x); lia|lia]).
  apply List.Forall_cons; [cbn [fst snd]; lia|constructor].
Qed.
End Board.

(** With the loader's tree the board is the one its revision names, with the
    memory the tree gives it. *)
Lemma board_with_tree e m r1 r2 dt ps j rev total : loader_tree e m r2 dt ps j rev total ->
  exists m2, board_read e m m2 r1 r2 (tree_board dt rev) total.
Proof.
  intros L. pose proof L as [Ls Lt Li Lf Lj La Ln Law (xr & R1 & R2) (xm & X1 & X2) (xb & B1 & B2)
    (xa & xs & C1 & C2 & C3 & C4) Lr Lo (x & M1 & M2 & M3) Ltot].
  assert (Hb : forall a, 0 <= m a < 256) by (by destruct Lt).
  destruct (string_printed e r2 dt ps j m rev total 0 (b_model e) None (text "model")
    (b_string e) DT_STRING_MAXSIZE m xm L) as (m1 & E1 & F1 & Y1); try done; [cbn; tauto..|].
  destruct (string_printed e r2 dt ps j m rev total (b_chosen e) (b_bootargs e)
    (Some (text "chosen")) (text "bootargs") (b_cmdline e) CMDLINESIZE m1 xb L F1 Y1)
    as (m2 & E2 & F2 & Y2); try done; [cbn; tauto..|].
  destruct (loader_tree_kept e r2 dt ps j m rev total m2 L F2 Y2) as [T2 W2 N2].
  exists m2. split; [| | |exact F2].
  - destruct (find_int_ok m (b_junk e) dt ps j (b_fuel e) (b_system e) (b_revision e) _ _ Lj Lt
      (name_query e m Ln _ _ (Some (text "system")) (text "linux,revision") ltac:(cbn; tauto)
        ltac:(cbn; tauto)) Lf) as [_ E].
    rewrite R1, R2 in E. eexists. unfold hardware_detect. cbn [hw_tree hardware_bss].
    rewrite Ls. change (u32 0 =? 0) with true. cbv iota. rewrite E. reflexivity.
  - exists m1. unfold hardware_print_model, hardware_print_commandline, tree_board.
    cbn [device_tree_found hw_tree]. change (negb (1 =? 0)) with true. cbv iota.
    rewrite E1, E2. cbn [mbind option_bind]. eexists _, _. split; reflexivity.
  - assert (Ht2 : forall qn qp y k, first_entry qn qp ps = Some y -> 0 <= k <= 2 ->
      dt_word m2 (dt_tree dt) (y + k) = dt_word m (dt_tree dt) (y + k)).
    { intros qn qp y k E Hk. apply W2. eapply found_inside; [exact Lt|exact E|].
      pose proof (dt_word_nonneg m Hb (dt_tree dt) y).
      assert (0 <= (dt_word m (dt_tree dt) y + 3) / 4) by (apply Z.div_pos; lia). lia. }
    assert (Hx0 : dt_word m2 (dt_tree dt) x = 8)
      by (rewrite <- M2; rewrite <- (Z.add_0_r x); by eapply Ht2; [exact M1|]).
    assert (Hx3 : dt_word m2 (dt_tree dt) (x + 3) = total).
    { rewrite <- M3. apply W2. eapply found_inside; [exact Lt|exact M1|]. rewrite M2. by vm_compute. }
    destruct (devicetree_memory m2 (b_junk e) dt ps j (b_fuel e) (b_names e) (text "#address-cells")
      (text "#size-cells") (text "memory") (text "memory@0") (text "reg") xa xs x) as (out & E);
      try done; try lia.
    + split; apply (name_query e m2 N2); cbn; tauto.
    + by rewrite (Ht2 _ _ _ _ C1) by lia.
    + by rewrite (Ht2 _ _ _ _ C3) by lia.
    + rewrite <- Lr. apply W2. pose proof (proj1 (node_items_grow m Hb dt) 0 ps j).
      destruct Lt as [_ _ Hroot _ _ _]. specialize (H Hroot). lia.
    + exists out. unfold hardware_get_memory, tree_board. cbn [device_tree_found hw_tree].
      change (negb (1 =? 0)) with true. cbv iota. rewrite E. cbn [mbind option_bind].
      rewrite Hx3, u32_id; [done|]. rewrite <- M3. apply dt_word_range, Hb.
Qed.

(** [kernel_main] with the loader's tree: the theorem of [Boot] for the board
    of the tree. *)
Lemma kernel_boots_from_tree `{MemFill} `{Device W} io_base `{!Uart (W := W) io_base}
    e d K vol r nm (w : W) m r0 r1 r2 mk dt ps j rev total :
  loader_tree e m r2 dt ps j rev total ->
  fst (hardware_setup_vars (hardware_convert_type rev) 0) = io_base ->
  total <= MAX_MEMORY - VIDEO_CHUNKS * CHUNK_SIZE -> 0 <= mk < MAX_MEMORY ->
  first_chunk mk + 7 + chunks_of (fsize d r) <= total / CHUNK_SIZE ->
  kernel_image e d (kernel_limit mk) m -> has_shell e d K vol r nm ->
  (depth io_base < pe_wf (b_print e))%nat -> (400 < pe_fuel (b_print e))%nat ->
  exists st y out, kernel_main e w m r0 r1 r2 mk = Some (true, st, y, out) /\
    first_processes e d vol r nm mk (kern y) /\
    (bs_hardware st, bs_io_base st) = (tree_board dt rev, io_base).
Proof.
  intros L Hio Ht Hmk Hk KI HS Hd Hf. pose proof (lt_total _ _ _ _ _ _ _ _ L).
  destruct (board_with_tree e m r1 r2 dt ps j rev total L) as [m2 B].
  destruct (kernel_main_ok io_base e d K vol r nm (tree_board dt rev) total w m m2 r0 r1 r2 mk)
    as (st & y & out & before & E & F & S & _); try done; [lia|].
  exists st, y, out. split; [done|]. split; [done|]. by injection S as -> -> _ _.
Qed.

(** ** A tree

    The boot of [Boot] with the tree of a Pi 3B with 948 MB at 24576 and the
    kernel's names from 23000 on. *)
Definition tree_strings : list (list Z) :=
  [text "#address-cells"; text "#size-cells"; text "model"; text "linux,revision";
   text "bootargs"; text "reg"].

Definition tree_struct : list Z :=
  flat_map be32 [1; 0; 3; 4; 0; 1; 3; 4; 15; 1; 3; 5; 27] ++ text "Pi 3" ++ [0; 0; 0; 0] ++
  flat_map be32 [1] ++ text "system" ++ [0; 0] ++ flat_map be32 [3; 4; 33; 0xa02082; 2; 1] ++
  text "chosen" ++ [0; 0] ++ flat_map be32 [3; 6; 48] ++ text "quiet" ++ [0; 0; 0] ++
  flat_map be32 [2; 1] ++ text "memory@0" ++ [0; 0; 0; 0] ++
  flat_map be32 [3; 8; 57; 0; 0x3b400000; 2; 2; 9].

Definition tree_blob : list Z :=
  flat_map be32 [0xd00dfeed; 277; 40; 216; 216; 17; 16; 0; 61; 176] ++ tree_struct ++
  flat_map (fun s => s ++ [0]) tree_strings.

Definition tree_boot : boot_env :=
  BootEnv (PrintEnv 20800 (fun _ => 0) 500 3) (Exec.Entry 32800 32900) (repeat 0 15) (repeat 7 128) 0
    (DtNames 23050 23066 23079 23087 23097 0 0) 23000 23008 23024 21100 23031 23039 21300 20700
    20480 20544 20640 20648 20656 20700 32768 192 16900 demo_fl 60 10.

Definition tree_mem : mem :=
  fold_left (fun m x => mem_with m (fst x) (snd x ++ [0]))
    (tree_names tree_boot ++ boot_strings tree_boot)
    (mem_with (mem_with (fun _ => 1) 32768 shell_image) 24576 tree_blob).

Definition tree_dt : device_tree_type := snd (devicetree_setup tree_mem device_tree_bss 24576).

Definition tree_entries : list entry :=
  [DeviceTree.Entry [] (text "#address-cells") 3; DeviceTree.Entry [] (text "#size-cells") 7;
   DeviceTree.Entry [] (text "model") 11; DeviceTree.Entry (text "system") (text "linux,revision") 19;
   DeviceTree.Entry (text "chosen") (text "bootargs") 27;
   DeviceTree.Entry (text "memory@0") (text "reg") 37].

Lemma padded_name_check m p l :
  cstringb (at_ m p) l = true ->
  forallb (fun i => m (p + Z.of_nat i) =? 0) (seq (length l) (Z.to_nat (4 * name_words l) - length l)) = true ->
  padded_name m p l.
Proof.
  intros Hc Hf. split; [by apply cstringb_cstring|]. intros b Hb. rewrite forallb_forall in Hf.
  replace b with (Z.of_nat (Z.to_nat b)) by lia. apply Z.eqb_eq, Hf, in_seq. lia.
Qed.

Ltac tree_prop := apply items_prop; [by vm_compute|demo_string|by vm_compute|by vm_compute|].
Ltac tree_child nm ps k rest :=
  apply (items_node _ _ _ _ ps k rest);
  [apply node_intro with (name := nm); [by vm_compute|by apply padded_name_check; vm_compute|by vm_compute|]|].

Lemma tree_root_node : node_at tree_mem tree_dt 0 tree_entries 43.
Proof.
  apply node_intro with (name := []);
    [by vm_compute|by apply padded_name_check; vm_compute|by vm_compute|].
  at_index 2. tree_prop. at_index 6. tree_prop. at_index 10. tree_prop. at_index 15.
  tree_child (text "system") [DeviceTree.Entry (text "system") (text "linux,revision") 19] 23
    [DeviceTree.Entry (text "chosen") (text "bootargs") 27;
     DeviceTree.Entry (text "memory@0") (text "reg") 37].
  { at_index 18. tree_prop. at_index 22. apply (items_end _ _ _ 22). by vm_compute. }
  tree_child (text "chosen") [DeviceTree.Entry (text "chosen") (text "bootargs") 27] 32
    [DeviceTree.Entry (text "memory@0") (text "reg") 37].
  { at_index 26. tree_prop. at_index 31. apply (items_end _ _ _ 31). by vm_compute. }
  tree_child (text "memory@0") [DeviceTree.Entry (text "memory@0") (text "reg") 37] 42 (@nil entry).
  { at_index 36. tree_prop. at_index 41. apply (items_end _ _ _ 41). by vm_compute. }
  apply (items_end _ _ _ 42). by vm_compute.
Qed.

Lemma bytes_check l : forallb (fun b => (0 <=? b) && (b <? 256)) l = true ->
  Forall (fun b => 0 <= b < 256) l.
Proof.
  intros Hl. apply List.Forall_forall. intros x Hx. rewrite forallb_forall in Hl.
  specialize (Hl x Hx). lia.
Qed.

Lemma tree_bytes a : 0 <= tree_mem a < 256.
Proof.
  unfold tree_mem. generalize a. clear a.
  assert (Hl : Forall (fun x => Forall (fun b => 0 <= b < 256) (snd x ++ [0]))
    (tree_names tree_boot ++ boot_strings tree_boot)).
  { repeat (apply List.Forall_cons; [apply bytes_check; by vm_compute|]). constructor. }
  assert (Hb : forall a, 0 <= mem_with (mem_with (fun _ => 1) 32768 shell_image) 24576 tree_blob a < 256).
  { apply mem_with_range; [apply mem_with_range; [lia|]|]; apply bytes_check; by vm_compute. }
  revert Hb. generalize (mem_with (mem_with (fun _ => 1) 32768 shell_image) 24576 tree_blob).
  revert Hl. generalize (tree_names tree_boot ++ boot_strings tree_boot). intros l.
  induction l as [|x l IH]; intros Hl m Hm; [done|]. apply Forall_cons_1 in Hl as [Hx Hl].
  cbn [fold_left]. apply IH; [done|]. by apply mem_with_range.
Qed.

Lemma demo_loader_tree : loader_tree tree_boot tree_mem 24576 tree_dt tree_entries 43 0xa02082 0x3b400000.
Proof.
  split.
  - by vm_compute.
  - split; [exact tree_bytes|by vm_compute|exact tree_root_node|by vm_compute..].
  - split; [by vm_compute|]. repeat (apply List.Forall_cons; [by vm_compute|]). constructor.
  - by vm_compute.
  - done.
  - repeat (apply List.Forall_cons; [left; by vm_compute|]). constructor.
  - repeat (apply List.Forall_cons; [split; [done|demo_string]|]). constructor.
  - apply away_check. by vm_compute.
  - exists 19. by vm_compute.
  - exists 11. by vm_compute.
  - exists 27. by vm_compute.
  - exists 3, 7. by vm_compute.
  - by vm_compute.
  - by vm_compute.
  - exists 37. by vm_compute.
  - lia.
Qed.

Lemma tree_kernel_image : kernel_image tree_boot shell_byte (kernel_limit 34000) tree_mem.
Proof.
  split.
  - unfold image_low. change (kernel_limit 34000) with 36864.
    repeat (apply List.Forall_cons; [by vm_compute|]). constructor.
  - apply away_check. by vm_compute.
  - by vm_compute.
  - cbn. lia.
  - exact boot_layout.
  - split; [cbn; lia|left; cbn; lia|right; cbn; lia].
  - split.
    + intros i Hi. apply Z.eqb_eq.
      by apply (check_below (fun i => tree_mem (32768 + i) =? shell_byte i) 192).
    + repeat (apply List.Forall_cons; [apply cstringb_cstring; by vm_compute|]). constructor.
  - cbn. lia.
Qed.

Lemma tree_has_shell : has_shell tree_boot shell_byte 2 [118] 128 (text "shell").
Proof. destruct boot_has_shell as [H1 H2 H3]. by split. Qed.

Lemma tree_boots :
  exists st y out, kernel_main tree_boot (Pi3 (Port [] [] false)) tree_mem 0 0xc42 24576 34000
      = Some (true, st, y, out) /\
    first_processes tree_boot shell_byte [118] 128 (text "shell") 34000 (kern y) /\
    (bs_hardware st, bs_io_base st) = (tree_board tree_dt 0xa02082, 0x3f000000).
Proof.
  refine (kernel_boots_from_tree 0x3f000000 tree_boot shell_byte 2 [118] 128 (text "shell")
    (Pi3 (Port [] [] false)) tree_mem 0 0xc42 24576 34000 tree_dt tree_entries 43 0xa02082 0x3b400000
    demo_loader_tree _ _ _ _ tree_kernel_image tree_has_shell _ _).
  - by vm_compute.
  - by vm_compute.
  - by vm_compute.
  - by vm_compute.
  - cbn. lia.
  - cbn. lia.
Qed.
