(* ===== verification/Debug.v ===== *)
(** * Debugging aids: kernel/debug/early_debug.c, emergency_blink.c and panic.c,
      kernel/lib/memory_benchmark.c

    What somebody who debugs the kernel calls by hand.  The first two drive the
    registers of the board, past the drivers; the others print, and what they
    print is a list of messages as in [DeviceTree].  The counter of cycles and
    the division routine of the benchmark are not in the repository: they are
    parameters. *)

From stdpp Require Import base list numbers.
From Stdlib Require Import ZArith Lia.
From Stdlib Require String.
From S2P Require Import Prelude CString Process Mmio Gpio Serial DeviceTree.
Import String.StringSyntax.
Delimit Scope string_scope with string.

(** ** early_debug.c *)
Section Early.
Context `{Device W} (io_base : Z).

Definition early_debug_init (w : W) : Z * W :=
  let w1 := bcm2835_write io_base w UART0_CR 0 in
  let '(old, w2) := bcm2835_read io_base w1 GPIO_GPFSEL1 in
  let old1 := Z.land old (not32 (shl32 7 12)) in
  let old2 := Z.lor old1 (shl32 4 12) in
  let old3 := Z.land old2 (not32 (shl32 7 15)) in
  let old4 := Z.lor old3 (shl32 4 15) in
  let w3 := bcm2835_write io_base w2 GPIO_GPFSEL1 old4 in
  let w4 := bcm2835_write io_base w3 GPIO_GPPUD GPIO_GPPUD_DISABLE in
  let w5 := bcm2835_write io_base w4 GPIO_GPPUDCLK0 (Z.lor (shl32 1 14) (shl32 1 15)) in
  let w6 := bcm2835_write io_base w5 GPIO_GPPUDCLK0 0 in
  let w7 := bcm2835_write io_base w6 UART0_ICR 0x7FF in
  let w8 := bcm2835_write io_base w7 UART0_IBRD 26 in
  let w9 := bcm2835_write io_base w8 UART0_FBRD 3 in
  let w10 := bcm2835_write io_base w9 UART0_LCRH (Z.lor UART0_LCRH_FEN UART0_LCRH_WLEN_8BIT) in
  let w11 := bcm2835_write io_base w10 UART0_IMSC 0 in
  let w12 := bcm2835_write io_base w11 UART0_CR
               (Z.lor (Z.lor UART0_CR_UARTEN UART0_CR_TXE) UART0_CR_RXE) in
  (0, w12).

Fixpoint early_debug_putc (fuel : nat) (w : W) (byte : Z) : option W :=
  match fuel with
  | O => None
  | S f =>
      let '(fr, w1) := bcm2835_read io_base w UART0_FR in
      if negb (Z.land fr UART0_FR_TXFF =? 0) then early_debug_putc f w1 byte
      else Some (bcm2835_write io_base w1 UART0_DR byte)
  end.

(** The loop calls the function of the driver. *)
Fixpoint early_debug_write_loop (n fuel : nat) (w : W) (m : mem) (ptr : Z) : option W :=
  match n with
  | O => Some w
  | S n' => w1 ← pl011_uart_putc io_base fuel w (m ptr); early_debug_write_loop n' fuel w1 m (ptr + 1)
  end.

Definition early_debug_write (fuel : nat) (w : W) (m : mem) (buffer size : Z) : option (Z * W) :=
  w1 ← early_debug_write_loop (Z.to_nat size) fuel w m buffer; Some (s32 size, w1).

Definition hex_char (temp : Z) : Z := if temp <? 10 then u8 (temp + 48) else u8 (temp + (65 - 10)).

Definition early_debug_put_hex_char (fuel : nat) (w : W) (x : Z) : option W :=
  w1 ← early_debug_putc fuel w (hex_char (Z.land (Z.shiftr x 4) 0xf));
  early_debug_putc fuel w1 (hex_char (Z.land x 0xf)).

(** [n] turns are left. *)
Fixpoint early_dump_loop (n fuel : nat) (w : W) (m : mem) (ptr i : Z) : option W :=
  match n with
  | O => Some w
  | S n' =>
      w1 ← (if Z.land i 0xf =? 0 then
              w ← early_debug_putc fuel w 13;
              early_debug_putc fuel w 10
            else Some w);
      w2 ← early_debug_put_hex_char fuel w1 (m ptr);
      w3 ← early_debug_putc fuel w2 32;
      early_dump_loop n' fuel w3 m (ptr + 1) (i + 1)
  end.

Definition early_debug_dump_memory (fuel : nat) (w : W) (m : mem) (address size : Z) : option W :=
  early_dump_loop (Z.to_nat size) fuel w m address 0.
End Early.

(** ** emergency_blink.c

    The registers are at the addresses of the newer boards, as an array of
    words. *)
Section Blink.
Context `{Device W}.

Definition gpio : Z := 0x3f000000 + 0x200000.
Definition gpio_word (i : Z) : Z := u32 (gpio + 4 * i).

(** [n] turns of the loop, which has no end; [delay] only counts. *)
Definition blink_turn (w : W) : W :=
  let w1 := mmio_write w (gpio_word 10) (shl32 1 18) in
  mmio_write w1 (gpio_word 7) (shl32 1 18).

Definition emergency_blink (n : nat) (w : W) : W :=
  let '(old, w1) := mmio_read w (gpio_word 1) in
  let w2 := mmio_write w1 (gpio_word 1) (Z.lor old (shl32 1 24)) in
  for_up n 0 (fun _ w => blink_turn w) w2.
End Blink.

(** ** panic.c *)

(** The lines of eight registers and the eight behind them, of which there are
    seven. *)
Definition dump_registers (r : list Z) : list message :=
  flat_map (fun i =>
    ("r%d: %x"%string, [i; nth (Z.to_nat i) r 0]) ::
    (if negb (i =? 7) then [("r%d: %x"%string, [i + 8; nth (Z.to_nat (i + 8)) r 0])] else []))
    (map Z.of_nat (seq 0 8)).

(** [proc] is the address of the control block, [name_at] that of its name. *)
Definition dump_saved_user_state (p : pcb) (name_at : Z) : list message :=
  ("Process %d dump! %s"%string, [pid p; name_at]) ::
  ("pc: %x cpsr: %x"%string, [user_pc p; user_spsr p]) :: dump_registers (user_r p).

Definition dump_saved_kernel_state (p : pcb) (name_at : Z) : list message :=
  ("Kernel %d dump! %s"%string, [pid p; name_at]) :: dump_registers (kernel_state p).

Definition dump_kernel_regs (r : list Z) : list message :=
  let g i := nth i r 0 in
  [("Kernel register dump: PC=%x"%string, [g 14%nat]);
   ("r0: %x r1: %x r2: %x r3: %x"%string, [g 0%nat; g 1%nat; g 2%nat; g 3%nat]);
   ("r4: %x r5: %x r6: %x r7: %x"%string, [g 4%nat; g 5%nat; g 6%nat; g 7%nat]);
   ("r8: %x r9: %x r10: %x r11: %x"%string, [g 8%nat; g 9%nat; g 10%nat; g 11%nat]);
   ("r12: %x r13: %x r14: %x"%string, [g 12%nat; g 13%nat; g 14%nat])].

Definition dump_memory (m : mem) (address size : Z) : list message :=
  flat_map (fun i =>
    (if Z.land i 0xf =? 0 then [("%x: "%string, [address + i])] else []) ++
    [("%x "%string, [m (address + i)])])
    (map Z.of_nat (seq 0 (Z.to_nat size))).

(** ** memory_benchmark.c *)

Definition BENCH_SIZE : Z := 1024 * 1024.
Definition BENCH_ITERATIONS : Z := 16.

(** The number of errors and what is printed; [n] bytes are left. *)
Fixpoint test_loop (n : nat) (b : Z -> Z) (value i errors : Z) : Z * list message :=
  match n with
  | O => (errors, [])
  | S n' =>
      if negb (b i =? value) then
        let msg := ("Not match at offset %d (%x!=%x)!"%string, [i; b i; value]) in
        let errors := errors + 1 in
        if 20 <? errors then (errors, [msg])
        else let '(errors, out) := test_loop n' b value (i + 1) errors in (errors, msg :: out)
      else test_loop n' b value (i + 1) errors
  end.

Definition memset_test (m : mem) (addr value size : Z) : list message :=
  let b := at_ m addr in
  let '(errors, out) := test_loop (Z.to_nat size) b value 0 0 in
  let '(errors, late) :=
    if b (size + 1) =? value
    then (errors + 1, [("Value after the end has wrong value!"%string, [])])
    else (errors, []) in
  [("Testing: "%string, [])] ++ out ++ late ++
  [(if negb (errors =? 0) then "Failed!"%string else "Passed!"%string, [])].

Section Benchmark.
Context `{MemFill} (benchmark memset_at : Z).
Context (div32 : Z -> Z -> Z) (read_cycle_counter : nat -> Z).

(** Sixteen fills with one of the routines; [k] counts the readings of the
    counter so far. *)
Definition run_benchmark (fill : mem -> Z -> Z -> Z -> mem) (value : Z) (m : mem) (k : nat)
    : mem * nat * list message :=
  let before := read_cycle_counter k in
  let m := for_up (Z.to_nat BENCH_ITERATIONS) 0 (fun _ m => fill m benchmark value BENCH_SIZE) m in
  let after := read_cycle_counter (S k) in
  (m, S (S k),
   ("MEMSPEED: %d MB took %d cycles %dMB/s"%string,
    [BENCH_SIZE * BENCH_ITERATIONS; u32 (after - before);
     div32 (16 * 700000) (u32 (after - before) / 1000)]) ::
   memset_test m benchmark value BENCH_SIZE).

Definition run_memory_benchmark := run_benchmark memset_byte 0xfe.
Definition run_memory_benchmark32 := run_benchmark memset_4byte 0xa5.
Definition run_memory_benchmark_asm := run_benchmark memset 0x78.

(** The routines for the caches have empty bodies. *)
Definition memset_benchmark (m : mem) (k : nat) : mem * nat * list message :=
  let head := [("Running Memory benchmarks %x %x"%string, [benchmark; memset_at]);
               ("Default memory:"%string, [])] in
  let '(m, k, o1) := run_memory_benchmark m k in
  let '(m, k, o2) := run_memory_benchmark m k in
  let '(m, k, o3) := run_memory_benchmark m k in
  let '(m, k, o4) := run_memory_benchmark m k in
  let '(m, k, o5) := run_memory_benchmark32 m k in
  let '(m, k, o6) := run_memory_benchmark_asm m k in
  (m, k, head ++ o1 ++ [("L1 icache enabled:"%string, [])] ++ o2 ++
     [("Branch predictor enabled:"%string, [])] ++ o3 ++
     [("L1 dcache enabled:"%string, [])] ++ o4 ++
     [("32-bit copy"%string, [])] ++ o5 ++
     [("Assembly 64-byt copy"%string, [])] ++ o6).
End Benchmark.

(** ** What early_debug.c does *)

Section EarlyLaws.
Context `{Device W} (io_base : Z).

(** The same registers, in the same order, as the driver, which also reserves
    the pins. *)
Lemma early_debug_init_same s res w :
  snd (early_debug_init io_base w) = snd (pl011_uart_init io_base s res w).
Proof.
  unfold early_debug_init, pl011_uart_init.
  by destruct (bcm2835_read io_base (bcm2835_write io_base w UART0_CR 0) GPIO_GPFSEL1).
Qed.

Context `{U : !Uart (W := W) io_base}.

Lemma early_putc_ok b fuel w : 0 <= b < 256 -> (depth io_base < fuel)%nat ->
  exists w', early_debug_putc io_base fuel w b = Some w' /\
    tx io_base w' = tx io_base w ++ [b] /\ rx io_base w' = rx io_base w.
Proof.
  intros Hb Hf. pose proof (full_bounded io_base w).
  exact (pl011_putc_ok io_base b Hb fuel w ltac:(lia)).
Qed.

(** The two digits of a byte. *)
Definition hex_text (b : Z) : list Z :=
  let digit d := if d <? 10 then 48 + d else 65 + d - 10 in
  [digit (b / 16); digit (b mod 16)].

Lemma hex_char_ok d : 0 <= d < 16 ->
  hex_char d = (if d <? 10 then 48 + d else 65 + d - 10) /\ 0 <= hex_char d < 256.
Proof. intros Hd. unfold hex_char. destruct (d <? 10) eqn:E; b2p; rewrite u8_id; lia. Qed.

Lemma put_hex_ok b fuel w : 0 <= b < 256 -> (depth io_base < fuel)%nat ->
  exists w', early_debug_put_hex_char io_base fuel w b = Some w' /\
    tx io_base w' = tx io_base w ++ hex_text b /\ rx io_base w' = rx io_base w.
Proof.
  intros Hb Hf. unfold early_debug_put_hex_char, hex_text. cbv zeta.
  assert (Hlo : Z.land b 0xf = b mod 16) by (change 0xf with (Z.ones 4); by rewrite Z.land_ones).
  assert (Hhi : Z.land (Z.shiftr b 4) 0xf = b / 16).
  { change 0xf with (Z.ones 4). rewrite Z.land_ones, Z.shiftr_div_pow2 by lia.
    change (2 ^ 4) with 16. apply Z.mod_small. Z.div_mod_to_equations. lia. }
  rewrite Hlo, Hhi.
  destruct (hex_char_ok (b / 16)) as [E1 R1]; [Z.div_mod_to_equations; lia|].
  destruct (hex_char_ok (b mod 16)) as [E2 R2]; [Z.div_mod_to_equations; lia|].
  destruct (early_putc_ok (hex_char (b / 16)) fuel w R1 Hf) as (w1 & -> & T1 & X1).
  cbn [mbind option_bind].
  destruct (early_putc_ok (hex_char (b mod 16)) fuel w1 R2 Hf) as (w2 & -> & T2 & X2).
  exists w2. split; [done|]. split; [|congruence]. by rewrite T2, T1, E1, E2, <- app_assoc.
Qed.

(** Lines of sixteen bytes, from the byte [i] on. *)
Fixpoint hex_dump (l : list Z) (i : Z) : list Z :=
  match l with
  | [] => []
  | b :: l' => (if i mod 16 =? 0 then [13; 10] else []) ++ hex_text b ++ [32] ++ hex_dump l' (i + 1)
  end.

Lemma early_dump_loop_ok fuel m : (depth io_base < fuel)%nat -> forall l p i w,
  0 <= i -> Forall (fun b => 0 <= b < 256) l -> has (at_ m p) l ->
  exists w', early_dump_loop io_base (length l) fuel w m p i = Some w' /\
    tx io_base w' = tx io_base w ++ hex_dump l i /\ rx io_base w' = rx io_base w.
Proof.
  intros Hf. induction l as [|b l IH]; intros p i w Hi Hl Hh; cbn [length early_dump_loop hex_dump].
  { exists w. by rewrite app_nil_r. }
  apply Forall_cons_1 in Hl as [Hb Hl].
  assert (Hm : m p = b) by (specialize (Hh 0%nat ltac:(cbn; lia)); unfold at_ in Hh; cbn in Hh;
    by rewrite Z.add_0_r in Hh).
  replace (Z.land i 0xf) with (i mod 16) by (change 0xf with (Z.ones 4); by rewrite Z.land_ones).
  assert (exists w1, (if i mod 16 =? 0 then w0 ← early_debug_putc io_base fuel w 13;
      early_debug_putc io_base fuel w0 10 else Some w) = Some w1 /\
    tx io_base w1 = tx io_base w ++ (if i mod 16 =? 0 then [13; 10] else []) /\
    rx io_base w1 = rx io_base w) as (w1 & -> & T1 & X1).
  { destruct (i mod 16 =? 0); [|exists w; by rewrite app_nil_r].
    destruct (early_putc_ok 13 fuel w) as (w0 & -> & T0 & X0); [lia|done|]. cbn [mbind option_bind].
    destruct (early_putc_ok 10 fuel w0) as (w1 & -> & T1 & X1); [lia|done|].
    exists w1. split; [done|]. split; [|congruence]. by rewrite T1, T0, <- app_assoc. }
  cbn [mbind option_bind]. rewrite Hm.
  destruct (put_hex_ok b fuel w1 Hb Hf) as (w2 & -> & T2 & X2). cbn [mbind option_bind].
  destruct (early_putc_ok 32 fuel w2) as (w3 & -> & T3 & X3); [lia|done|]. cbn [mbind option_bind].
  destruct (IH (p + 1) (i + 1) w3) as (w' & -> & T & X); [lia|done| |].
  { intros j Hj. specialize (Hh (S j) ltac:(cbn; lia)). unfold at_ in *. cbn [nth] in Hh.
    rewrite <- Hh. f_equal. lia. }
  exists w'. split; [done|]. split; [|congruence]. rewrite T, T3, T2, T1, <- !app_assoc. done.
Qed.

(** The dump of memory is its bytes in hexadecimal, sixteen to a line. *)
Lemma early_dump_ok fuel m address l w : (depth io_base < fuel)%nat ->
  Forall (fun b => 0 <= b < 256) l -> has (at_ m address) l ->
  exists w', early_debug_dump_memory io_base fuel w m address (Z.of_nat (length l)) = Some w' /\
    tx io_base w' = tx io_base w ++ hex_dump l 0 /\ rx io_base w' = rx io_base w.
Proof.
  intros Hf Hl Hh. unfold early_debug_dump_memory. rewrite Nat2Z.id.
  by apply early_dump_loop_ok.
Qed.
End EarlyLaws.

Lemma early_dump_witness :
  exists w', early_debug_dump_memory 0x20000000 3 (Port [] [] true)
      (mem_with (fun _ => 0) 100 [0x7f; 0x0a]) 100 2 = Some w' /\
    tx 0x20000000 w' = [13; 10; 55; 70; 32; 48; 65; 32] /\ rx 0x20000000 w' = [].
Proof.
  refine (early_dump_ok 0x20000000 3 (mem_with (fun _ => 0) 100 [0x7f; 0x0a]) 100 [0x7f; 0x0a]
    (Port [] [] true) _ _ _); [cbn; lia|repeat apply List.Forall_cons; lia || apply List.Forall_nil|].
  intros i Hi. cbn in Hi. assert (i = 0%nat \/ i = 1%nat) as [-> | ->] by lia; by vm_compute.
Defined.

(** ** The blinking light *)

(** With registers that hold what is written pin 18 is an output when it was an
    input before. *)
Lemma emergency_blink_output n (w : bank) : field3 (w (gpio_word 1)) 8 = 0 ->
  0 <= w (gpio_word 1) < 2 ^ 32 ->
  emergency_blink n w (gpio_word 1) = Z.lor (w (gpio_word 1)) (2 ^ 24) /\
  field3 (emergency_blink n w (gpio_word 1)) 8 = 1.
Proof.
  intros H0 Hr. assert (E : emergency_blink n w (gpio_word 1) = Z.lor (w (gpio_word 1)) (2 ^ 24)).
  { unfold emergency_blink. cbn [mmio_read mmio_write bank_device].
    rewrite u32_id by done. set (v := Z.lor (w (gpio_word 1)) (shl32 1 24)).
    cut (forall i w', w' (gpio_word 1) = v ->
      for_up n i (fun _ w => blink_turn w) w' (gpio_word 1) = v).
    { intros Hc. rewrite Hc; [done|]. apply upd_eq. }
    induction n as [|n IH]; intros i w' Hw; [done|]. cbn [for_up]. apply IH. unfold blink_turn.
    cbn [mmio_write bank_device]. by rewrite !upd_ne by done. }
  split; [done|]. rewrite E. unfold field3 in *. revert H0.
  change (3 * 8) with 24. rewrite Z.shiftr_lor. change (Z.shiftr (2 ^ 24) 24) with 1.
  intros H0. rewrite Z.land_lor_distr_l, H0. done.
Qed.

(** ** The test of the memory benchmark *)

Lemma test_loop_passes b value : forall n i errors,
  (forall j, i <= j < i + Z.of_nat n -> b j = value) -> test_loop n b value i errors = (errors, []).
Proof.
  induction n as [|n IH]; intros i errors Hb; [done|]. cbn [test_loop].
  rewrite (Hb i) by lia. rewrite Z.eqb_refl. apply IH. intros j Hj. apply Hb. lia.
Qed.

Lemma memset_test_passes m a c n : 0 <= n ->
  (forall j, 0 <= j < n -> m (a + j) = c) -> m (a + (n + 1)) <> c ->
  memset_test m a c n = [("Testing: "%string, []); ("Passed!"%string, [])].
Proof.
  intros Hn Hm He. unfold memset_test. rewrite test_loop_passes.
  - unfold at_. by rewrite (proj2 (Z.eqb_neq _ _)) by done.
  - intros j Hj. apply Hm. lia.
Qed.

(** A fill that writes one byte too many passes: the byte that is looked at is
    not the one behind the end. *)
Lemma overrun_passes m a c n : 0 <= c < 256 -> 0 <= n -> m (a + (n + 1)) <> c ->
  memset_test (memset_byte m a c (n + 1)) a c n
  = [("Testing: "%string, []); ("Passed!"%string, [])] /\ memset_byte m a c (n + 1) (a + n) = c.
Proof.
  intros Hc Hn He. pose proof (memset_byte_filled m a c (n + 1) Hc ltac:(lia)) as F.
  unfold filled in F. split; [apply memset_test_passes; try done|].
  - intros j Hj. rewrite F. by repeat (bcase; try lia).
  - rewrite F. by repeat (bcase; try lia).
  - rewrite F. by repeat (bcase; try lia).
Qed.
