(* ===== verification/Genromfs.v ===== *)
(** * The tool that makes the romfs image

    genromfs-0.5.2/genromfs.c: [processdir] walks a directory of the build
    host and gives every entry its offset in the image, [dumpall] writes the
    image.  The system calls on the host's files are the record [host]; an
    [int] that overflows, a buffer that is written past its end and a pointer
    before its string make a run [Undefined].  The tree of nodes is a value: a
    node's list of entries is the list in [Filenode]; module [Dlist] shows that
    the code's linked lists are such lists. *)

From stdpp Require Import base list numbers gmap.
From Stdlib Require Import ZArith Lia.
From S2P Require Import Prelude Romfs.

(** ** The lists of nodes

    A memory of words: the node at [a] keeps [next] at [a] and [prev] at
    [a + 1]; a header at [fh] keeps [head], [tail] and [tailpred] at [fh],
    [fh + 1] and [fh + 2], so the code's cast of [&fh->tail] to a node gives a
    node whose [next] is [tail] and whose [prev] is [tailpred].  Behind the links
    a node keeps its [parent], at [a + 2], and a header its [owner], at [fh + 3]. *)

Module Dlist.

Definition next (m : gmap Z Z) (a : Z) : Z := m !!! a.
Definition prev (m : gmap Z Z) (a : Z) : Z := m !!! (a + 1).

Definition parent (m : gmap Z Z) (a : Z) : Z := m !!! (a + 2).
Definition owner (m : gmap Z Z) (fh : Z) : Z := m !!! (fh + 3).

Definition initlist (m : gmap Z Z) (fh own : Z) : gmap Z Z :=
  <[fh + 3 := own]> (<[fh + 2 := fh]> (<[fh + 1 := 0]> (<[fh := fh + 1]> m))).

Definition listisempty (m : gmap Z Z) (fh : Z) : bool := (m !!! fh) =? fh + 1.

Definition append (m : gmap Z Z) (fh n : Z) : gmap Z Z :=
  let tail := fh + 1 in
  let m1 := <[n := tail]> m in
  let m2 := <[n + 1 := prev m1 tail]> m1 in
  let m3 := <[tail + 1 := n]> m2 in
  let m4 := <[prev m3 n := n]> m3 in
  <[n + 2 := owner m4 fh]> m4.

(** [for (p = fh->head; p->next; p = p->next)]: the nodes visited. *)
Fixpoint walk (fuel : nat) (m : gmap Z Z) (p : Z) : option (list Z) :=
  match fuel with
  | O => None
  | S f => if next m p =? 0 then Some []
           else l ← walk f m (next m p); Some (p :: l)
  end.

End Dlist.

(** ** Outcomes *)

(** What a run of the tool comes to: a value, undefined behaviour of C, or
    directories deeper than the fuel. *)
Inductive gen (A : Type) :=
| Done (a : A)
| Undefined
| Deep.
Arguments Done {A}.
Arguments Undefined {A}.
Arguments Deep {A}.

#[global] Instance gen_bind : MBind gen := fun A B f x =>
  match x with Done a => f a | Undefined => Undefined | Deep => Deep end.

(** [int] addition. *)
Definition iadd (a b : Z) : gen Z :=
  if (- 2 ^ 31 <=? a + b) && (a + b <? 2 ^ 31) then Done (a + b) else Undefined.

(** ** The host *)

(** The fields of the host's [struct stat]; a device number is its major and
    its minor number. *)
Record hstat := HStat {
  h_dev : Z; h_ino : Z; h_mode : Z; h_size : Z; h_rdev : Z * Z }.

(** [lstat], [opendir] with the names [readdir] gives, [readlink], [access]
    for reading, [open] with the descriptor, what [read] reads, [fnmatch] with
    the flags of the code (true for a match). *)
Record host := Host {
  lstat : list Z -> option hstat;
  opendir : list Z -> option (list (list Z));
  readlink : list Z -> option (list Z);
  access : list Z -> bool;
  open : list Z -> Z;
  contents : list Z -> list Z;
  fnmatch : list Z -> list Z -> bool }.

Definition S_ISREG (m : Z) : bool := Z.land m S_IFMT =? S_IFREG.
Definition S_ISDIR (m : Z) : bool := Z.land m S_IFMT =? S_IFDIR.
Definition S_ISLNK (m : Z) : bool := Z.land m S_IFMT =? S_IFLNK.
Definition S_ISCHR (m : Z) : bool := Z.land m S_IFMT =? S_IFCHR.
Definition S_ISBLK (m : Z) : bool := Z.land m S_IFMT =? S_IFBLK.
Definition S_ISFIFO (m : Z) : bool := Z.land m S_IFMT =? S_IFIFO.
Definition S_ISSOCK (m : Z) : bool := Z.land m S_IFMT =? S_IFSOCK.

(** ** Nodes *)

(** [struct filenode] without its links: [n_link] is the offset of
    [orig_link], which does not change once a node is in the tree. *)
Record fnode := FNode {
  n_name : list Z; n_realname : list Z; n_ondev : Z; n_devnode : Z * Z; n_onino : Z;
  n_modes : Z; n_offset : Z; n_size : Z; n_pad : Z; n_link : option Z }.

Inductive filenode := Filenode (n : fnode) (dirlist : list filenode).

Definition node (p : filenode) : fnode := let '(Filenode n _) := p in n.
Definition dirlist (p : filenode) : list filenode := let '(Filenode _ l) := p in l.

Definition setnode (n : fnode) (dev ino um : Z) : fnode :=
  FNode (n_name n) (n_realname n) dev (n_devnode n) ino um (n_offset n) (n_size n) (n_pad n)
    (n_link n).
Definition set_name (n : fnode) (s : list Z) : fnode :=
  FNode s (n_realname n) (n_ondev n) (n_devnode n) (n_onino n) (n_modes n) (n_offset n)
    (n_size n) (n_pad n) (n_link n).
Definition set_realname (n : fnode) (s : list Z) : fnode :=
  FNode (n_name n) s (n_ondev n) (n_devnode n) (n_onino n) (n_modes n) (n_offset n)
    (n_size n) (n_pad n) (n_link n).
Definition set_place (n : fnode) (offset pad : Z) : fnode :=
  FNode (n_name n) (n_realname n) (n_ondev n) (n_devnode n) (n_onino n) (n_modes n) offset
    (n_size n) pad (n_link n).
Definition set_size (n : fnode) (size : Z) : fnode :=
  FNode (n_name n) (n_realname n) (n_ondev n) (n_devnode n) (n_onino n) (n_modes n)
    (n_offset n) size (n_pad n) (n_link n).
Definition set_devnode (n : fnode) (d : Z * Z) : fnode :=
  FNode (n_name n) (n_realname n) (n_ondev n) d (n_onino n) (n_modes n) (n_offset n)
    (n_size n) (n_pad n) (n_link n).
Definition set_link (n : fnode) (o : Z) : fnode :=
  FNode (n_name n) (n_realname n) (n_ondev n) (n_devnode n) (n_onino n) (n_modes n)
    (n_offset n) (n_size n) (n_pad n) (Some o).

Definition dot : list Z := [46].
Definition dotdot : list Z := [46; 46].

(** The host path of [name] in [base]. *)
Definition in_dir (base name : list Z) : list Z :=
  match base with [] => name | _ => base ++ 47 :: name end.

Definition newnode (base name : list Z) (curroffset : Z) : fnode :=
  let name' := if curroffset =? 0 then dot else name in
  FNode name (in_dir base name') (2 ^ 64 - 1) (0, 0) (2 ^ 64 - 1) (2 ^ 32 - 1)
    (u32 curroffset) 0 0 None.

Fixpoint findnode (p : filenode) (dev ino : Z) : option Z :=
  let '(Filenode n l) := p in
  if (n_ondev n =? dev) && (n_onino n =? ino) then Some (n_offset n)
  else (fix scan (l : list filenode) : option Z :=
          match l with
          | [] => None
          | q :: l' => match findnode q dev ino with
                       | Some o => Some o
                       | None => scan l'
                       end
          end) l.

(** [ALIGNUP16] on a [size_t] and on an [unsigned int]. *)
Definition ALIGNUP16 (x : Z) : Z := Z.land (x + 15) (Z.lnot 15).
Definition ALIGNUP16_u (x : Z) : Z := Z.land (u32 (x + 15)) (u32 (Z.lnot 15)).

Definition spaceneeded (n : fnode) : Z :=
  s32 (16 + ALIGNUP16 (Z.of_nat (length (n_name n)) + 1) + ALIGNUP16_u (n_size n)).

(** ** Standard library functions the tool relies on *)

Definition isspace (c : Z) : bool := ((9 <=? c) && (c <=? 13)) || (c =? 32).

Definition skip_spaces : list Z -> list Z :=
  fix skip s := match s with
                | c :: s' => if isspace c then skip s' else s
                | [] => []
                end.

(** The value of a digit, 36 for a character that is none. *)
Definition digit (c : Z) : Z :=
  if (48 <=? c) && (c <=? 57) then c - 48
  else if (97 <=? c) && (c <=? 122) then c - 87
  else if (65 <=? c) && (c <=? 90) then c - 55 else 36.

(** The digits of base [b] at the front: how many, their value after [v],
    what follows. *)
Fixpoint digits (b v : Z) (s : list Z) : nat * Z * list Z :=
  match s with
  | c :: s' => if digit c <? b
               then let '(n, v', r) := digits b (b * v + digit c) s' in (S n, v', r)
               else (O, v, s)
  | [] => (O, v, [])
  end.

(** A sign: true for a minus, and what follows. *)
Definition sign (s : list Z) : bool * list Z :=
  match s with
  | c :: s' => if c =? 45 then (true, s') else if c =? 43 then (false, s') else (false, s)
  | [] => (false, [])
  end.

(** [strtoul(s, &p, 0)]: the value and [p]. *)
Definition strtoul (s : list Z) : Z * list Z :=
  let '(minus, s1) := sign (skip_spaces s) in
  let hex := match s1 with
             | z :: x :: h :: _ => (z =? 48) && ((x =? 120) || (x =? 88)) && (digit h <? 16)
             | _ => false
             end in
  let '(n, v, r) :=
    if hex then digits 16 0 (drop 2 s1)
    else digits (if hd 0 s1 =? 48 then 8 else 10) 0 s1 in
  match n with
  | O => (0, s)
  | _ => (if 2 ^ 64 <=? v then 2 ^ 64 - 1 else if minus then u64 (- v) else v, r)
  end.

(** [%d] of [sscanf]: nothing for no number; a number that is no [int] is
    undefined. *)
Definition scan_d (s : list Z) : gen (option (Z * list Z)) :=
  let '(minus, s1) := sign (skip_spaces s) in
  let '(n, v, r) := digits 10 0 s1 in
  match n with
  | O => Done None
  | _ => let w := if minus then - v else v in
         if (- 2 ^ 31 <=? w) && (w <? 2 ^ 31) then Done (Some (w, r)) else Undefined
  end.

(** The bytes at the front that [sel] selects, and the rest. *)
Fixpoint span_of (sel : Z -> bool) (s : list Z) : list Z * list Z :=
  match s with
  | c :: s' => if sel c then let '(a, r) := span_of sel s' in (c :: a, r) else ([], s)
  | [] => ([], [])
  end.

(** [a-zA-Z0-9_+-] *)
Definition devname_char (c : Z) : bool :=
  (digit c <? 36) || (c =? 95) || (c =? 43) || (c =? 45).

Definition comma (s : list Z) : option (list Z) :=
  match s with c :: s' => if c =? 44 then Some s' else None | [] => None end.

(** [sscanf(name, "@%[a-zA-Z0-9_+-],%c,%d,%d", devname, ...)] on a name that
    begins with @: the four conversions, or nothing for fewer.  [devname] has
    32 bytes. *)
Definition scan_special (name : list Z) : gen (option (list Z * Z * Z * Z)) :=
  let '(devname, r1) := span_of devname_char (drop 1 name) in
  match devname with
  | [] => Done None
  | _ =>
    if 32 <=? Z.of_nat (length devname) then Undefined
    else match comma r1 with
    | Some (type :: r2) =>
        match comma r2 with
        | None => Done None
        | Some r3 =>
            x ← scan_d r3;
            match x with
            | None => Done None
            | Some (major, r4) =>
                match comma r4 with
                | None => Done None
                | Some r5 =>
                    y ← scan_d r5;
                    match y with
                    | None => Done None
                    | Some (minor, _) => Done (Some (devname, type, major, minor))
                    end
                end
            end
        end
    | _ => Done None
    end
  end.

(** ** Walking the directories *)

(** The globals the options set: [align], [alignlist], [excludelist],
    [realbase]. *)
Record options := Options {
  o_align : Z; o_alignlist : list (Z * list Z); o_excludelist : list (list Z);
  o_realbase : nat }.

Section Walk.
Context (H : host) (o : options).

(** True for a match, where the code returns 0. *)
Definition nodematch (pattern : list Z) (n : fnode) : gen bool :=
  if hd 0 pattern =? 47 then
    if (o_realbase o <=? length (n_realname n))%nat
    then Done (fnmatch H pattern (drop (o_realbase o) (n_realname n))) else Undefined
  else Done (fnmatch H pattern (n_name n)).

Definition findalign (n : fnode) : gen Z :=
  (fix go (l : list (Z * list Z)) (i : Z) : gen Z :=
     match l with
     | [] => Done i
     | (a, pattern) :: l' =>
         if i <? a then b ← nodematch pattern n; go l' (if (b : bool) then a else i)
         else go l' i
     end) (o_alignlist o) (if S_ISREG (n_modes n) then o_align o else 16).

(** The node with [offset] and [pad] set, and the offset returned. *)
Definition alignnode (n : fnode) (curroffset extraspace : Z) : gen (fnode * Z) :=
  align ← findalign n;
  t ← iadd curroffset extraspace;
  let d := Z.land t (align - 1) in
  if d =? 0 then Done (n, curroffset)
  else
    c ← iadd curroffset (align - d);
    Done (set_place n (u32 (n_offset n + (align - d))) (align - d), c).

(** The loop over [excludelist]. *)
Definition excluded (n : fnode) : gen bool :=
  (fix go (l : list (list Z)) : gen bool :=
     match l with
     | [] => Done false
     | pattern :: l' => b ← nodematch pattern n; if (b : bool) then Done true else go l'
     end) (o_excludelist o).

Definition with_mode (sb : hstat) (type : Z) (rdev : Z * Z) : hstat :=
  HStat (h_dev sb) (h_ino sb) (Z.lor (Z.ldiff (h_mode sb) S_IFMT) type) (h_size sb) rdev.

(** The special names: nothing if the entry is ignored.  [bigbuf] has 4096
    bytes, [strdup] needs a NUL in it. *)
Definition special (n : fnode) (sb : hstat) : gen (option (fnode * hstat)) :=
  if negb (hd 0 (n_name n) =? 64) then Done (Some (n, sb))
  else if S_ISLNK (h_mode sb) then
    let target := take 4096 (default [] (readlink H (n_realname n))) in
    if Z.of_nat (length target) =? 4096 then Undefined
    else
      let n' := set_realname (set_name n (drop 1 (n_name n))) target in
      match lstat H target with
      | None => Done None
      | Some sb' => Done (Some (n', sb'))
      end
  else if S_ISREG (h_mode sb) && (h_size sb =? 0) then
    r ← scan_special (n_name n);
    match r with
    | None => Done (Some (n, sb))
    | Some (devname, type, major, minor) =>
        let n' := set_name n devname in
        let rdev := (u32 major, u32 minor) in
        if (type =? 99) || (type =? 117) then Done (Some (n', with_mode sb S_IFCHR rdev))
        else if type =? 98 then Done (Some (n', with_mode sb S_IFBLK rdev))
        else if type =? 112 then Done (Some (n', with_mode sb S_IFIFO rdev))
        else Done None
    end
  else Done (Some (n, sb)).

(** What the body of the [readdir] loop does with an entry: ignore it, append
    a node, append a node and walk the directory it is, append a node and walk
    [dir] again. *)
Inductive action :=
| Skip
| Add (n : fnode) (curroffset : Z)
| Enter (n : fnode) (curroffset : Z)
| Again (n : fnode) (curroffset : Z).

(** The node with [sb] in it and what its type asks for, once it is known to
    be no link. *)
Definition settle (n : fnode) (sb : hstat) (curroffset : Z) : gen action :=
  '(n, cur) ←
    (if S_ISREG (h_mode sb) then
       '(n, cur) ← alignnode n curroffset (spaceneeded n);
       Done (set_size n (u32 (h_size sb)), cur)
     else alignnode n curroffset 0);
  let n := if S_ISLNK (h_mode sb) then set_size n (u32 (h_size sb)) else n in
  cur ← iadd cur (spaceneeded n);
  let n := if S_ISCHR (h_mode sb) || S_ISBLK (h_mode sb)
           then set_devnode n (h_rdev sb) else n in
  if S_ISDIR (h_mode sb) then
    if bool_decide (n_name n = dotdot) then Done (Again n cur) else Done (Enter n cur)
  else Done (Add n cur).

(** [root] is the tree so far; [owner] is the offset of [dir->dirlist.owner],
    the parent of every entry, [grand] that of the owner's parent. *)
Definition entry (root : filenode) (level : Z) (base : list Z) (owner grand curroffset : Z)
    (d_name : list Z) : gen action :=
  if (level <=? 1) && (bool_decide (d_name = dot) || bool_decide (d_name = dotdot))
  then Done Skip
  else
    let n := newnode base d_name curroffset in
    x ← excluded n;
    if (x : bool) then Done Skip
    else match lstat H (n_realname n) with
    | None => Done Skip
    | Some sb =>
      s ← special n sb;
      match s with
      | None => Done Skip
      | Some (n, sb) =>
        let n := setnode n (h_dev sb) (h_ino sb) (h_mode sb) in
        if negb (S_ISLNK (n_modes n)) && negb (access H (n_realname n)) then Done Skip
        else
          let link :=
            if bool_decide (n_name n = dot) then Some owner
            else if bool_decide (n_name n = dotdot) then Some grand
            else findnode root (n_ondev n) (n_onino n) in
          match link with
          | Some l =>
              '(n, cur) ← alignnode (set_link n l) curroffset 0;
              cur ← iadd cur (spaceneeded n);
              Done (Add n cur)
          | None => settle n sb curroffset
          end
      end
    end.

(** The two entries made first for the directory of level 1: the list of
    [dir], the owner and its parent, the offset. *)
Definition dots (base : list Z) (owner grand : Z) (done : list filenode) (curroffset : Z)
    : gen (list filenode * Z * Z * Z) :=
  let link := newnode base dot curroffset in
  match lstat H (n_realname link) with
  | None => Done (done, owner, grand, curroffset)
  | Some sb =>
    '(link, cur) ← alignnode (setnode link (h_dev sb) (h_ino sb) (h_mode sb)) curroffset 0;
    cur ← iadd cur (spaceneeded link);
    let done := done ++ [Filenode link []] in
    let n := newnode base dotdot cur in
    match lstat H (n_realname n) with
    | None => Done (done, n_offset link, owner, cur)
    | Some sb =>
      '(n, cur) ← alignnode (set_link (setnode n (h_dev sb) (h_ino sb) (h_mode sb))
                   (n_offset link)) cur 0;
      cur ← iadd cur (spaceneeded n);
      Done (done ++ [Filenode n []], n_offset link, owner, cur)
    end
  end.

(** The loop over the names: [plug] puts the list of [dir] into the tree,
    [walk] is [processdir]. *)
Fixpoint readdir_loop
    (walk : (list filenode -> filenode) -> Z -> list Z -> list Z -> Z -> Z -> list filenode -> Z ->
            gen (list filenode * Z))
    (plug : list filenode -> filenode) (level : Z) (base dir_realname : list Z) (owner grand : Z)
    (names : list (list Z)) (done : list filenode) (cur : Z) : gen (list filenode * Z) :=
  match names with
  | [] => Done (done, cur)
  | d_name :: names' =>
    a ← entry (plug done) level base owner grand cur d_name;
    match a with
    | Skip => readdir_loop walk plug level base dir_realname owner grand names' done cur
    | Add n cur =>
        readdir_loop walk plug level base dir_realname owner grand names'
          (done ++ [Filenode n []]) cur
    | Enter n cur =>
        '(l, cur) ← walk (fun l => plug (done ++ [Filenode n l])) (level + 1)
                      (n_realname n) (n_realname n) (n_offset n) owner [] cur;
        readdir_loop walk plug level base dir_realname owner grand names'
          (done ++ [Filenode n l]) cur
    | Again n cur =>
        '(done, cur) ← walk plug (level + 1) dir_realname dir_realname owner grand
                         (done ++ [Filenode n []]) cur;
        readdir_loop walk plug level base dir_realname owner grand names' done cur
    end
  end.

(** [dir_realname] is [dir->realname], [done] the list of [dir]; it and the
    offset are returned. *)
Fixpoint processdir (fuel : nat) (plug : list filenode -> filenode) (level : Z)
    (base dir_realname : list Z) (owner grand : Z) (done : list filenode) (curroffset : Z)
    : gen (list filenode * Z) :=
  match fuel with
  | O => Deep
  | S f =>
    '(done, owner, grand, cur) ←
      (if level <=? 1 then dots base owner grand done curroffset
       else Done (done, owner, grand, curroffset));
    match opendir H dir_realname with
    | None => Done (done, cur)
    | Some names =>
        readdir_loop (processdir f) plug level base dir_realname owner grand names done cur
    end
  end.

End Walk.

(** ** Writing the image *)

Definition ROMFH_HRD : Z := 0.
Definition ROMFH_DIR : Z := 1.
Definition ROMFH_REG : Z := 2.
Definition ROMFH_LNK : Z := 3.
Definition ROMFH_BLK : Z := 4.
Definition ROMFH_CHR : Z := 5.
Definition ROMFH_SCK : Z := 6.
Definition ROMFH_FIF : Z := 7.
Definition ROMFH_EXEC : Z := 8.

(** The bytes of [htonl(w)] in memory, and [ntohl] of the word at [i]. *)
Definition be_bytes (w : Z) : list Z :=
  [u8 (w / 2 ^ 24); u8 (w / 2 ^ 16); u8 (w / 2 ^ 8); u8 w].

Definition word_at (data : list Z) (i : nat) : Z :=
  nth i data 0 * 2 ^ 24 + nth (i + 1) data 0 * 2 ^ 16 + nth (i + 2) data 0 * 2 ^ 8
  + nth (i + 3) data 0.

(** [struct romfh], in the byte order of the machine. *)
Record romfh := Romfh { nextfh : Z; spec : Z; rsize : Z; checksum : Z }.

Definition romfh_bytes (ri : romfh) : list Z :=
  be_bytes (nextfh ri) ++ be_bytes (spec ri) ++ be_bytes (rsize ri) ++ be_bytes (checksum ri).

Fixpoint checksum_loop (n : nat) (data : list Z) (sum : Z) : Z :=
  match n with
  | O => sum
  | S n' => checksum_loop n' (drop 4 data) (s32 (sum + word_at data 0))
  end.

Definition romfs_checksum (data : list Z) (size : Z) : Z :=
  checksum_loop (Z.to_nat (Z.shiftr size 2)) data 0.

(** A buffer that begins with a header, with its checksum set. *)
Definition put_checksum (buf : list Z) (w : Z) : list Z :=
  take 12 buf ++ be_bytes w ++ drop 16 buf.

(** The sum is an [int]: the least one has no negative. *)
Definition fixsum (buf : list Z) (size : Z) : gen (list Z) :=
  let buf0 := put_checksum buf 0 in
  let sum := romfs_checksum buf0 size in
  if sum =? - 2 ^ 31 then Undefined else Done (put_checksum buf (u32 (- sum))).

(** [atoffs], [fixbuf] and what was written to the file. *)
Record dump := Dump { atoffs : Z; fixbuf : list Z; written : list Z }.

Definition memcpy_at (buf : list Z) (i : nat) (bs : list Z) : list Z :=
  take i buf ++ bs ++ drop (i + length bs) buf.

Definition dumpdata (addr : list Z) (s : dump) : gen dump :=
  let len := Z.of_nat (length addr) in
  if len =? 0 then Done s
  else if 512 <=? atoffs s then Done (Dump (atoffs s + len) (fixbuf s) (written s ++ addr))
  else
    let tocopy := if len <? 512 - atoffs s then len else 512 - atoffs s in
    let fb := memcpy_at (fixbuf s) (Z.to_nat (atoffs s)) (take (Z.to_nat tocopy) addr) in
    let at' := atoffs s + tocopy in
    let addr' := drop (Z.to_nat tocopy) addr in
    let len' := len - tocopy in
    s1 ←
      (if at' =? 512 then
         let size := word_at fb 8 in
         fb' ← fixsum fb (if at' <? size then at' else size);
         Done (Dump at' fb' (written s ++ fb'))
       else Done (Dump at' fb (written s)));
    if negb (len' =? 0) then Done (Dump (atoffs s1 + len') (fixbuf s1) (written s1 ++ addr'))
    else Done s1.

(** [bigbuf] has 4096 bytes. *)
Definition dumpzero (len : Z) (s : dump) : gen dump :=
  if 4096 <? len then Undefined else dumpdata (repeat 0 (Z.to_nat len)) s.

Definition dumpdataa (addr : list Z) (s : dump) : gen dump :=
  let len := Z.of_nat (length addr) in
  s ← dumpdata addr s;
  if negb (Z.land len 15 =? 0) then dumpzero (16 - Z.land len 15) s else Done s.

Definition dumpstring (str : list Z) (s : dump) : gen dump := dumpdataa (str ++ [0]) s.

Definition dumpri (ri : romfh) (n : fnode) (s : dump) : gen dump :=
  let len := Z.of_nat (length (n_name n)) + 1 in
  let fill := if negb (Z.land len 15 =? 0) then 16 - Z.land len 15 else 0 in
  if 4096 <? 16 + len + fill then Undefined
  else
    let bigbuf := romfh_bytes ri ++ n_name n ++ [0] ++ repeat 0 (Z.to_nat fill) in
    bigbuf ← (if negb (n_offset n =? 0) then fixsum bigbuf (len + fill + 16) else Done bigbuf);
    dumpdata bigbuf s.

Section Dump.
Context (H : host).

(** The loop that copies a file; [fd] may be negative.  [offset] is returned. *)
Fixpoint copy_file (fuel : nat) (fd : Z) (data : list Z) (offset max : Z) (s : dump)
    : gen (Z * dump) :=
  match fuel with
  | O => Deep
  | S f =>
    if offset <? max then
      let avail := if max - offset <? 4096 then max - offset else 4096 in
      let bs := if fd <? 0 then [] else take (Z.to_nat avail) (drop (Z.to_nat offset) data) in
      if Z.of_nat (length bs) <=? 0 then Done (offset, s)
      else
        s ← dumpdata bs s;
        copy_file f fd data (offset + Z.of_nat (length bs)) max s
    else Done (offset, s)
  end.

Fixpoint pad_file (fuel : nat) (offset max : Z) (s : dump) : gen dump :=
  match fuel with
  | O => Deep
  | S f =>
    if offset <? max then
      let avail := if max - offset <? 4096 then max - offset else 4096 in
      s ← dumpdata (repeat 0 (Z.to_nat avail)) s;
      pad_file f (offset + avail) max s
    else Done s
  end.

(** The branch for a regular file, after the header. *)
Definition dump_reg (n : fnode) (s : dump) : gen dump :=
  let max := s32 (n_size n) in
  let fd := open H (n_realname n) in
  '(offset, s) ←
    (if negb (fd =? 0)
     then copy_file (S (Z.to_nat max)) fd (contents H (n_realname n)) 0 max s
     else Done (0, s));
  m ← iadd max 15;
  let max := Z.land m (Z.lnot 15) in
  pad_file (S (Z.to_nat max)) offset max s.

(** The branch for a symbolic link, after the header. *)
Definition dump_lnk (n : fnode) (s : dump) : gen dump :=
  if 4096 <? n_size n then Undefined
  else
    let target := take (Z.to_nat (n_size n)) (default [] (readlink H (n_realname n))) in
    dumpdataa (take (Z.to_nat (n_size n)) (target ++ repeat 0 4096)) s.

(** [dumpnode] up to the loop over the entries: [next] is the offset of the
    next node of the list, [head] that of the first entry. *)
Definition dumpself (next head : option Z) (n : fnode) (s : dump) : gen dump :=
  s ← (if negb (n_pad n =? 0) then dumpzero (n_pad n) s else Done s);
  let nx := default 0 next in
  let nx := if negb (Z.land (n_modes n) 0x49 =? 0)
               && (S_ISDIR (n_modes n) || S_ISREG (n_modes n))
            then Z.lor nx ROMFH_EXEC else nx in
  let ri nextfh spec := Romfh nextfh spec (n_size n) 0x55555555 in
  let dev := u32 (Z.lor (Z.shiftl (fst (n_devnode n)) 16) (snd (n_devnode n))) in
  match n_link n with
  | Some l => dumpri (ri (Z.ldiff (Z.lor nx ROMFH_HRD) ROMFH_EXEC) l) n s
  | None =>
    if S_ISDIR (n_modes n) then
      dumpri (ri (Z.lor nx ROMFH_DIR) (default (n_offset n) head)) n s
    else if S_ISLNK (n_modes n) then
      s ← dumpri (ri (Z.lor nx ROMFH_LNK) 0) n s; dump_lnk n s
    else if S_ISREG (n_modes n) then
      s ← dumpri (ri (Z.lor nx ROMFH_REG) 0) n s; dump_reg n s
    else if S_ISCHR (n_modes n) then dumpri (ri (Z.lor nx ROMFH_CHR) dev) n s
    else if S_ISBLK (n_modes n) then dumpri (ri (Z.lor nx ROMFH_BLK) dev) n s
    else if S_ISFIFO (n_modes n) then dumpri (ri (Z.lor nx ROMFH_FIF) 0) n s
    else if S_ISSOCK (n_modes n) then dumpri (ri (Z.lor nx ROMFH_SCK) 0) n s
    else Done s
  end.

(** The offset of the first node of a list. *)
Definition head_offset (l : list filenode) : option Z := n_offset ∘ node <$> head l.

Fixpoint dumpnode (next : option Z) (p : filenode) (s : dump) : gen dump :=
  let '(Filenode n l) := p in
  s ← dumpself next (head_offset l) n s;
  (fix go (l : list filenode) (s : dump) : gen dump :=
     match l with
     | [] => Done s
     | q :: l' => s ← dumpnode (head_offset l') q s; go l' s
     end) l s.

(** The loop over the entries of a node. *)
Fixpoint dumplist (l : list filenode) (s : dump) : gen dump :=
  match l with
  | [] => Done s
  | q :: l' => s ← dumpnode (head_offset l') q s; dumplist l' s
  end.

Definition dumpall (root : filenode) (lastoff : Z) (s : dump) : gen dump :=
  s ← dumpri (Romfh 0x2d726f6d 0x3166732d (u32 lastoff) 0x55555555) (node root) s;
  s ← dumplist (dirlist root) s;
  if negb (Z.land lastoff 1023 =? 0) then dumpzero (1024 - Z.land lastoff 1023) s else Done s.

End Dump.

Definition dump0 : dump := Dump 0 (repeat 0 512) [].

(** From [realbase = strlen(dir)] on: the file written. *)
Definition make_image (H : host) (o : options) (fuel : nat) (dir volname : list Z)
    : gen (filenode * Z * list Z) :=
  let o := Options (o_align o) (o_alignlist o) (o_excludelist o) (length dir) in
  let root := newnode dir volname 0 in
  '(l, lastoff) ← processdir H o fuel (Filenode root) 1 dir (n_realname root) (n_offset root)
                    (n_offset root) [] (spaceneeded root);
  s ← dumpall H (Filenode root l) lastoff dump0;
  Done (Filenode root l, lastoff, written s).

(** ** The options *)

(** The variables of [main] the options set. *)
Record settings := Settings {
  dir : list Z; outf : option (list Z); volname : option (list Z); verbose : bool;
  opts : options }.

Inductive exit :=
| Exit (code : Z)
| Written (outf : list Z) (image : list Z).

Definition with_opts (st : settings) (o : options) : settings :=
  Settings (dir st) (outf st) (volname st) (verbose st) o.

Definition bad_align (i : Z) : bool := (i <? 16) || negb (Z.land i (i - 1) =? 0).

(** One option [getopt] returns, with [optarg]: the exit code if [main] ends. *)
Definition option_step (c : Z) (optarg : list Z) (st : settings) : Z + settings :=
  let o := opts st in
  if c =? 100 (* d *) then inr (Settings optarg (outf st) (volname st) (verbose st) o)
  else if c =? 102 (* f *) then inr (Settings (dir st) (Some optarg) (volname st) (verbose st) o)
  else if c =? 86 (* V *) then inr (Settings (dir st) (outf st) (Some optarg) (verbose st) o)
  else if c =? 118 (* v *) then inr (Settings (dir st) (outf st) (volname st) true o)
  else if c =? 104 (* h *) then inl 0
  else if c =? 97 (* a *) then
    let align := s32 (fst (strtoul optarg)) in
    if bad_align align then inl 1
    else inr (with_opts st (Options align (o_alignlist o) (o_excludelist o) (o_realbase o)))
  else if c =? 65 (* A *) then
    let '(v, p) := strtoul optarg in
    let i := s32 v in
    if bad_align i then inl 1
    else if negb (hd 0 p =? 44) || (hd 0 (drop 1 p) =? 0) then inl 1
    else inr (with_opts st (Options (o_align o) (o_alignlist o ++ [(i, drop 1 p)])
                (o_excludelist o) (o_realbase o)))
  else if c =? 120 (* x *) then
    inr (with_opts st (Options (o_align o) (o_alignlist o) (o_excludelist o ++ [optarg])
           (o_realbase o)))
  else inl 1.

Fixpoint option_loop (l : list (Z * list Z)) (st : settings) : Z + settings :=
  match l with
  | [] => inr st
  | (c, optarg) :: l' =>
      match option_step c optarg st with
      | inl code => inl code
      | inr st' => option_loop l' st'
      end
  end.

Definition settings0 : settings :=
  Settings dot None None false (Options 16 [] [] 0).

(** [%08lx] of a value below 2^64. *)
Fixpoint hex_digits (n : nat) (v : Z) : list Z :=
  match n with
  | O => []
  | S n' => hex_digits n' (v / 16) ++
            [let d := v mod 16 in if d <? 10 then 48 + d else 87 + d]
  end.

Definition hex_width (v : Z) : nat :=
  Nat.max 8 (Z.to_nat (if v =? 0 then 1 else Z.log2 v / 4 + 1)).

Definition time_name (t : Z) : list Z :=
  [114; 111; 109; 32] ++ hex_digits (hex_width (u64 t)) (u64 t).

(** [main] on what [getopt] returns; [fopen] tells whether the file can be
    opened for writing ("-" is the standard output). *)
Definition main (H : host) (fopen : list Z -> bool) (time : Z) (fuel : nat)
    (l : list (Z * list Z)) : gen exit :=
  match option_loop l settings0 with
  | inl code => Done (Exit code)
  | inr st =>
      let vol := default (time_name time) (volname st) in
      match outf st with
      | None => Done (Exit 1)
      | Some f =>
          if negb (bool_decide (f = [45])) && negb (fopen f) then Done (Exit 1)
          else '(_, _, image) ← make_image H (opts st) fuel (dir st) vol;
               Done (Written f image)
      end
  end.

(** ** The linked lists are lists *)

Module Lists.
Import Dlist.

(** From the node [a] the links lead forth through [l] to [b], and back. *)
Fixpoint seg (m : gmap Z Z) (a : Z) (l : list Z) (b : Z) : Prop :=
  match l with
  | [] => next m a = b /\ prev m b = a
  | x :: l' => next m a = x /\ prev m x = a /\ seg m x l' b
  end.

(** The words of a header and of its nodes: the links, and behind them the
    owner and the parents. *)
Definition node_cells (l : list Z) : list Z := flat_map (fun a => [a; a + 1]) l.
Definition link_cells (fh : Z) (l : list Z) : list Z := [fh; fh + 1; fh + 2] ++ node_cells l.
Definition tree_cells (fh : Z) (l : list Z) : list Z := (fh + 3) :: map (fun a => a + 2) l.
Definition cells (fh : Z) (l : list Z) : list Z := link_cells fh l ++ tree_cells fh l.

(** The list of the header [fh] is [l], and its owner the parent of each. *)
Record dlist (m : gmap Z Z) (fh : Z) (l : list Z) : Prop := {
  dl_links : seg m fh l (fh + 1);
  dl_end : next m (fh + 1) = 0;
  dl_parents : Forall (fun a => parent m a = owner m fh) l;
  dl_apart : NoDup (cells fh l);
  dl_pos : Forall (fun a => 0 < a) (cells fh l) }.

Lemma get_ne (m : gmap Z Z) a v x : x <> a -> <[a := v]> m !!! x = m !!! x.
Proof. intros. by apply lookup_total_insert_ne. Qed.

Lemma get_eq (m : gmap Z Z) a v : <[a := v]> m !!! a = v.
Proof. apply lookup_total_insert_eq. Qed.

Lemma initlist_ok m fh own : 0 < fh -> dlist (initlist m fh own) fh [].
Proof.
  intros Hf. unfold initlist. split; [| |constructor| |].
  - cbn [seg]. unfold next, prev. rewrite !get_ne, get_eq by lia.
    replace (fh + 1 + 1) with (fh + 2) by lia. by rewrite get_ne, get_eq by lia.
  - unfold next. by rewrite !get_ne, get_eq by lia.
  - unfold cells, tree_cells. cbn. repeat (apply NoDup_cons; split); [..|apply NoDup_nil_2];
      rewrite ?not_elem_of_cons; repeat split; try lia; apply not_elem_of_nil.
  - repeat constructor; lia.
Qed.

(** Members of a list of distinct words, as inequalities. *)
Ltac apart_facts :=
  repeat match goal with
  | Hx : NoDup (_ :: _) |- _ => apply NoDup_cons in Hx as [? Hx]
  | Hx : _ ∉ _ :: _ |- _ => apply not_elem_of_cons in Hx as [? Hx]
  end.

(** The last node of a list, or what comes before it. *)
Definition final (a : Z) (l : list Z) : Z := default a (last l).

Lemma final_cons a x l : final a (x :: l) = final x l.
Proof. unfold final. rewrite last_cons. by destruct (last l). Qed.

Lemma final_in a l : final a l ∈ a :: l.
Proof.
  revert a. induction l as [|x l IH]; intros a; [by left|]. rewrite final_cons. right. apply IH.
Qed.

Lemma cells_in x l : x ∈ l -> x ∈ node_cells l /\ x + 1 ∈ node_cells l.
Proof.
  unfold node_cells. rewrite !list_elem_of_In, !in_flat_map.
  intros Hx. split; exists x; cbn; auto.
Qed.

Lemma cells_apart x y l : NoDup (node_cells l) -> x ∈ l -> y ∈ l -> x + 1 <> y.
Proof.
  induction l as [|z l IH]; [by set_solver|].
  change (node_cells (z :: l)) with (z :: z + 1 :: node_cells l).
  intros Hn Hx Hy E. apply NoDup_cons in Hn as [H1 Hn]. apply NoDup_cons in Hn as [H2 Hn].
  apply elem_of_cons in Hx as [->|Hx], Hy as [->|Hy]; try lia.
  - apply H2. rewrite E. by apply cells_in.
  - apply H1, elem_of_cons. right. rewrite <- E. by apply cells_in.
  - by apply IH.
Qed.

Lemma seg_last m b l : forall a, seg m a l b -> prev m b = final a l.
Proof.
  induction l as [|x l IH]; intros a; cbn [seg]; [tauto|]. intros (_ & _ & Hs).
  rewrite final_cons. by apply IH.
Qed.

(** Four words are written at the end of the list. *)
Lemma seg_snoc m m' n b l : forall a,
  seg m a l b -> NoDup (b + 1 :: n :: n + 1 :: node_cells (a :: l)) ->
  m' !!! n = b -> m' !!! (n + 1) = final a l -> m' !!! (b + 1) = n ->
  m' !!! final a l = n ->
  (forall c, c <> n -> c <> n + 1 -> c <> b + 1 -> c <> final a l -> m' !!! c = m !!! c) ->
  seg m' a (l ++ [n]) b.
Proof.
  induction l as [|x l IH]; intros a Hs Hn H1 H2 H3 H4 Hm; cbn [app seg] in *.
  - by unfold next, prev.
  - destruct Hs as (Hx & Hp & Hs). rewrite final_cons in *.
    pose proof (cells_in _ _ (final_in x l)) as [Hin _].
    change (node_cells (a :: x :: l)) with (a :: a + 1 :: node_cells (x :: l)) in Hn.
    assert (Hx1 : x + 1 <> final x l).
    { apply cells_apart with (l := x :: l); [by do 5 apply NoDup_cons in Hn as [_ Hn]|by left|].
      apply final_in. }
    assert (Ha : a <> final x l).
    { intros E. do 3 apply NoDup_cons in Hn as [_ Hn]. apply NoDup_cons in Hn as [N _].
      apply N. right. by rewrite E. }
    change (node_cells (x :: l)) with (x :: x + 1 :: node_cells l) in Hn.
    unfold next, prev in *. repeat split.
    + rewrite Hm; [done|apart_facts; congruence..|done].
    + rewrite Hm; [done|apart_facts; congruence..|done].
    + apply IH; try done. assert (Hn' : NoDup ([a; a + 1] ++ b + 1 :: n :: n + 1 :: x :: x + 1 :: node_cells l)).
      { revert Hn. apply NoDup_Permutation_proper. cbn [app]. solve_Permutation. }
      by apply NoDup_app in Hn' as (_ & _ & Hn').
Qed.

Lemma cells_snoc fh l n : NoDup (link_cells fh (l ++ [n])) ->
  NoDup (fh + 1 + 1 :: n :: n + 1 :: node_cells (fh :: l)).
Proof.
  apply NoDup_Permutation_proper.
  unfold link_cells, node_cells. rewrite flat_map_app. cbn [flat_map app].
  replace (fh + 1 + 1) with (fh + 2) by lia.
  solve_Permutation.
Qed.

(** The four stores to the links. *)
Definition link_last (m : gmap Z Z) (fh n : Z) (l : list Z) : gmap Z Z :=
  <[final fh l := n]> (<[fh + 1 + 1 := n]> (<[n + 1 := final fh l]> (<[n := fh + 1]> m))).

Lemma link_last_ok m fh l n : seg m fh l (fh + 1) -> next m (fh + 1) = 0 ->
  NoDup (link_cells fh (l ++ [n])) ->
  append m fh n = (let m4 := link_last m fh n l in <[n + 2 := owner m4 fh]> m4) /\
  seg (link_last m fh n l) fh (l ++ [n]) (fh + 1) /\ next (link_last m fh n l) (fh + 1) = 0.
Proof.
  intros Hs He Hn. pose proof (cells_snoc fh l n Hn) as Hc.
  pose proof (seg_last m (fh + 1) l fh Hs) as El. pose proof (final_in fh l) as Hf.
  pose proof Hc as Hc'. apply NoDup_cons in Hc as [C1 Hc]. apply NoDup_cons in Hc as [C2 Hc].
  apply NoDup_cons in Hc as [C3 Hc]. pose proof (cells_in _ _ Hf) as [Hf1 _].
  assert (E1 : fh + 1 ∈ node_cells (fh :: l)) by (by apply cells_in; left).
  assert (N1 : n <> fh + 1) by (intros E; apply C2; right; by rewrite E).
  assert (N2 : n <> fh + 1 + 1) by (intros E; apply C1; rewrite <- E; by left).
  assert (N3 : n + 1 <> fh + 1 + 1) by (intros E; apply C1; rewrite <- E; right; by left).
  assert (N4 : n <> final fh l) by (intros E; apply C2; right; by rewrite E).
  assert (N5 : n + 1 <> final fh l) by (intros E; apply C3; by rewrite E).
  assert (N7 : n + 1 <> fh + 1) by (intros E; apply C3; by rewrite E).
  assert (N6 : fh + 1 + 1 <> final fh l) by (intros E; apply C1; do 2 right; by rewrite E).
  assert (Hfp : fh + 1 <> final fh l) by (apply cells_apart with (l := fh :: l); [done|by left|done]).
  assert (P1 : prev (<[n := fh + 1]> m) (fh + 1) = final fh l)
    by (unfold prev in *; by rewrite get_ne).
  split; [|split].
  - unfold append, link_last. rewrite P1.
    assert (P2 : prev (<[fh + 1 + 1 := n]> (<[n + 1 := final fh l]> (<[n := fh + 1]> m))) n
      = final fh l) by (unfold prev; by rewrite get_ne, get_eq).
    by rewrite P2.
  - unfold link_last. eapply seg_snoc; [exact Hs|exact Hc'|..]; try (intros c ? ? ? ?);
      repeat first [rewrite get_eq; done | rewrite get_ne by (done || lia)]; done.
  - unfold next, link_last. rewrite !get_ne by (done || lia). exact He.
Qed.

Lemma seg_frame m m' b l : forall a, seg m a l b ->
  (forall c, c ∈ b + 1 :: node_cells (a :: l) -> m' !!! c = m !!! c) -> seg m' a l b.
Proof.
  unfold node_cells. induction l as [|x l IH]; intros a Hs Hm; cbn [seg flat_map app] in *;
    unfold next, prev in *.
  - destruct Hs as [H1 H2]. split; rewrite Hm by set_solver; done.
  - destruct Hs as (H1 & H2 & Hs). split; [rewrite Hm by set_solver; done|].
    split; [rewrite Hm by set_solver; done|]. apply IH; [done|]. intros c Hc. apply Hm. set_solver.
Qed.

Lemma link_last_frame m fh n l c : c ∉ link_cells fh (l ++ [n]) -> link_last m fh n l !!! c = m !!! c.
Proof.
  intros Hc. assert (Hn : c <> n /\ c <> n + 1 /\ c <> fh + 1 + 1 /\ c <> final fh l).
  { assert (Hin : forall x, x ∈ [n; n + 1; fh + 1 + 1; final fh l] -> c <> x).
    { intros x Hx ->. apply Hc. unfold link_cells, node_cells. rewrite flat_map_app.
      replace (fh + 1 + 1) with (fh + 2) in Hx by lia.
      pose proof (final_in fh l) as Hf. apply elem_of_cons in Hf.
      pose proof (cells_in (final fh l) l) as Hl. unfold node_cells in Hl.
      cbn [flat_map app]. set_solver. }
    repeat split; apply Hin; set_solver. }
  destruct Hn as (? & ? & ? & ?). unfold link_last. by rewrite !get_ne.
Qed.

Lemma append_ok m fh l n : dlist m fh l -> NoDup (cells fh (l ++ [n])) ->
  Forall (fun a => 0 < a) (cells fh (l ++ [n])) ->
  dlist (append m fh n) fh (l ++ [n]) /\ owner (append m fh n) fh = owner m fh.
Proof.
  intros [Hs He Hp _ _] Hn H0. pose proof Hn as Hn'. unfold cells in Hn'.
  apply NoDup_app in Hn' as (Hl & Hx & Ht).
  destruct (link_last_ok m fh l n Hs He Hl) as (-> & Hs' & He'). cbv zeta.
  set (m4 := link_last m fh n l) in *.
  assert (Hfr : forall c, c ∈ tree_cells fh (l ++ [n]) -> m4 !!! c = m !!! c).
  { intros c Hc. apply link_last_frame. intros Hin. by apply (Hx c). }
  assert (Hin : n + 2 ∈ tree_cells fh (l ++ [n])).
  { right. rewrite map_app. apply elem_of_app. right. by left. }
  assert (Eo : owner (<[n + 2 := owner m4 fh]> m4) fh = owner m fh).
  { unfold tree_cells in Ht. rewrite map_app in Ht. apply NoDup_cons in Ht as [Ht _].
    unfold owner at 1. rewrite get_ne by (intros E; apply Ht; rewrite E; set_solver).
    apply Hfr. by left. }
  assert (Em : owner m4 fh = owner m fh) by (apply Hfr; by left).
  assert (Hlk : forall c, c ∈ link_cells fh (l ++ [n]) -> <[n + 2 := owner m4 fh]> m4 !!! c = m4 !!! c).
  { intros c Hc. apply get_ne. intros ->. by apply (Hx (n + 2)). }
  split; [split; [..|done|done]|done].
  - eapply seg_frame; [exact Hs'|]. intros c Hc. apply Hlk. revert Hc.
    unfold link_cells, node_cells. cbn [flat_map app]. replace (fh + 1 + 1) with (fh + 2) by lia. set_solver.
  - unfold next. rewrite Hlk; [done|]. unfold link_cells. set_solver.
  - rewrite Eo, Em. apply Forall_app. split; [|by repeat constructor; unfold parent; rewrite get_eq].
    apply List.Forall_forall. intros a Ha. rewrite List.Forall_forall in Hp. rewrite <- (Hp a Ha).
    unfold parent. assert (Hta : NoDup (map (fun a => a + 2) (l ++ [n])))
      by (by apply NoDup_cons in Ht as [_ Ht]).
    rewrite map_app in Hta. apply NoDup_app in Hta as (_ & Hta & _).
    assert (Hal : a + 2 ∈ map (fun a => a + 2) l) by (apply list_elem_of_In, in_map_iff; by exists a).
    rewrite get_ne by (intros E; apply (Hta (a + 2)); [done|rewrite E; by left]).
    apply Hfr. right. rewrite map_app. apply elem_of_app. by left.
Qed.

Lemma walk_seg m b l : forall a, seg m a l b -> next m b = 0 -> 0 < b ->
  Forall (fun x => 0 < x) l ->
  forall fuel, (length l < fuel)%nat -> walk fuel m (next m a) = Some l.
Proof.
  induction l as [|x l IH]; intros a Hs Hb H0 Hp [|f] Hf; cbn [length] in Hf; try lia;
    cbn [walk seg] in *.
  - destruct Hs as [-> _]. by rewrite Hb.
  - destruct Hs as (-> & _ & Hs). apply Forall_cons_1 in Hp as [Hx Hp].
    rewrite (IH x) by (done || lia). cbn [mbind option_bind].
    replace (next m x =? 0) with false; [done|]. symmetry. apply Z.eqb_neq.
    destruct l as [|y l]; cbn [seg] in Hs; [lia|].
    apply Forall_cons_1 in Hp as [? _]. lia.
Qed.

Lemma nodes_pos fh l : Forall (fun x => 0 < x) (cells fh l) ->
  0 < fh + 1 /\ Forall (fun x => 0 < x) l.
Proof.
  unfold cells, link_cells. intros [[H1 H2]%Forall_app _]%Forall_app.
  split; [apply Forall_cons_1 in H1; lia|].
  revert H2. rewrite !Forall_forall. intros H2 x Hx. apply H2. by apply cells_in.
Qed.

(** A further node keeps the words positive. *)
Lemma cells_pos fh l n : Forall (fun x => 0 < x) (cells fh l) -> 0 < n ->
  Forall (fun x => 0 < x) (cells fh (l ++ [n])).
Proof.
  unfold cells, link_cells, tree_cells, node_cells.
  intros [[H1 H2]%Forall_app H3]%Forall_app H0. apply Forall_cons_1 in H3 as [H3 H4].
  rewrite flat_map_app, map_app. repeat apply Forall_app_2; try done; [by repeat constructor; lia|].
  constructor; [done|]. apply Forall_app_2; [done|]. repeat constructor; lia.
Qed.

Lemma isempty_ok m fh l : dlist m fh l -> listisempty m fh = bool_decide (l = []).
Proof.
  intros [Hs _ _ Hn _]. change (listisempty m fh) with (next m fh =? fh + 1). destruct l as [|x l]; cbn [seg] in Hs.
  - destruct Hs as [-> _]. by rewrite Z.eqb_refl.
  - destruct Hs as (Hx & _). rewrite Hx, bool_decide_eq_false_2 by done.
    apply Z.eqb_neq. intros ->. unfold cells, link_cells in Hn.
    apply NoDup_app in Hn as (Hn & _). apply NoDup_app in Hn as (_ & Hn & _).
    apply (Hn (fh + 1)); [right; by left|by left].
Qed.

(** C37. [append] puts the node at the end of the list of the header, with the
    code's pointers to the middle of the header, and makes the owner of the
    list its parent, as it is of the nodes before it; a walk along [next] from
    [head] until a node without [next] visits the nodes in the order they were
    appended; [listisempty] tells whether there are any. *)
Theorem append_list m fh l n :
  dlist m fh l -> NoDup (cells fh (l ++ [n])) -> 0 < n ->
  dlist (append m fh n) fh (l ++ [n]) /\ owner (append m fh n) fh = owner m fh /\
  walk (S (length (l ++ [n]))) (append m fh n) (next (append m fh n) fh) = Some (l ++ [n]) /\
  listisempty m fh = bool_decide (l = []) /\ listisempty (append m fh n) fh = false.
Proof.
  intros Hl Hn H0.
  destruct (append_ok m fh l n Hl Hn (cells_pos fh l n (dl_pos _ _ _ Hl) H0)) as [Ha Ho].
  pose proof (nodes_pos _ _ (dl_pos _ _ _ Ha)) as [Hp1 Hp2]. split; [done|]. split; [done|].
  split; [|split].
  - destruct Ha as [Hs He _ _ _]. by eapply walk_seg; try lia.
  - by apply isempty_ok.
  - rewrite (isempty_ok _ _ _ Ha). apply bool_decide_eq_false_2. by destruct l.
Qed.

(** Two nodes appended to a new list of the owner 7. *)
Lemma append_list_witness :
  let m := append (append (initlist ∅ 10 7) 10 20) 10 30 in
  parent m 20 = 7 /\ parent m 30 = 7 /\ walk 3 m (next m 10) = Some [20; 30].
Proof.
  split; [by vm_compute|]. split; [by vm_compute|].
  apply (append_list (append (initlist ∅ 10 7) 10 20) 10 [20] 30);
    [|by apply (bool_decide_unpack _); vm_compute|done].
  apply (append_ok (initlist ∅ 10 7) 10 [] 20); [by apply initlist_ok|..];
    by apply (bool_decide_unpack _); vm_compute.
Defined.
End Lists.

(** ** Trees in preorder *)

Lemma filenode_ind' (P : filenode -> Prop) :
  (forall n l, Forall P l -> P (Filenode n l)) -> forall p, P p.
Proof.
  intros HP. fix IH 1. intros [n l]. apply HP.
  induction l as [|q l IHl]; constructor; [apply IH|exact IHl].
Qed.

Fixpoint nodes (p : filenode) : list fnode :=
  let '(Filenode n l) := p in n :: flat_map nodes l.

(** A node that stands for the file with these numbers. *)
Definition same_file (dev ino : Z) (n : fnode) : bool :=
  (n_ondev n =? dev) && (n_onino n =? ino).

Definition first_of (dev ino : Z) (ns : list fnode) : option Z :=
  n_offset <$> List.find (same_file dev ino) ns.

Lemma find_app {A} (f : A -> bool) l1 l2 :
  List.find f (l1 ++ l2) = match List.find f l1 with Some x => Some x | None => List.find f l2 end.
Proof. induction l1 as [|x l1 IH]; cbn; [done|]. by destruct (f x). Qed.

(** [findnode] finds the first node of the tree with the numbers. *)
Lemma findnode_first dev ino p : findnode p dev ino = first_of dev ino (nodes p).
Proof.
  induction p as [n l IH] using filenode_ind'. cbn [findnode nodes]. unfold first_of. cbn [List.find].
  unfold same_file at 1. destruct ((n_ondev n =? dev) && (n_onino n =? ino)); [done|].
  induction IH as [|q l Hq Hl IHl]; [done|]. cbn [flat_map]. rewrite Hq, find_app. unfold first_of.
  destruct (List.find (same_file dev ino) (nodes q)); [done|exact IHl].
Qed.

(** What [dumpself] writes for each node, in order: the node, the offset of
    the next one of its list, that of its first entry. *)
Definition item : Type := fnode * option Z * option Z.

Fixpoint items (next : option Z) (p : filenode) : list item :=
  let '(Filenode n l) := p in
  (n, next, head_offset l) ::
  (fix go (l : list filenode) : list item :=
     match l with [] => [] | q :: l' => items (head_offset l') q ++ go l' end) l.

Fixpoint list_items (l : list filenode) : list item :=
  match l with [] => [] | q :: l' => items (head_offset l') q ++ list_items l' end.

Lemma items_eq next n l : items next (Filenode n l) = (n, next, head_offset l) :: list_items l.
Proof. reflexivity. Qed.

Definition item_node (it : item) : fnode := fst (fst it).

Lemma items_nodes p : forall next, map item_node (items next p) = nodes p.
Proof.
  induction p as [n l IH] using filenode_ind'. intros next. rewrite items_eq. cbn. f_equal.
  induction IH as [|q l Hq Hl IHl]; [done|]. cbn. by rewrite map_app, Hq, IHl.
Qed.

Lemma list_items_nodes l : map item_node (list_items l) = flat_map nodes l.
Proof.
  induction l as [|q l IH]; [done|]. cbn [list_items flat_map]. by rewrite map_app, items_nodes, IH.
Qed.

(** Dumping a list of items one after the other. *)
Fixpoint dump_items (H : host) (its : list item) (s : dump) : gen dump :=
  match its with
  | [] => Done s
  | (n, next, hd) :: its' => s ← dumpself H next hd n s; dump_items H its' s
  end.

Lemma gen_bind_assoc {A B C} (x : gen A) (f : A -> gen B) (g : B -> gen C) :
  ((x ≫= f) ≫= g) = (x ≫= fun a => f a ≫= g).
Proof. by destruct x. Qed.

Lemma gen_bind_ext {A B} (x : gen A) (f g : A -> gen B) :
  (forall a, f a = g a) -> (x ≫= f) = (x ≫= g).
Proof. intros E. destruct x; cbn; auto. Qed.

Lemma gen_bind_done {A B} (x : gen A) (f g : A -> gen B) :
  (forall a, x = Done a -> f a = g a) -> (x ≫= f) = (x ≫= g).
Proof. intros E. destruct x; cbn; auto. Qed.

Lemma dump_items_app H a b s : dump_items H (a ++ b) s = (dump_items H a s ≫= dump_items H b).
Proof.
  revert s. induction a as [|[[n next] hd] a IH]; intros s; [done|]. cbn [app dump_items].
  rewrite gen_bind_assoc. apply gen_bind_ext. auto.
Qed.

Lemma dumpnode_items H p : forall next s, dumpnode H next p s = dump_items H (items next p) s.
Proof.
  induction p as [n l IH] using filenode_ind'. intros next s. rewrite items_eq. cbn [dumpnode dump_items].
  apply gen_bind_ext. clear s. intros s. revert s.
  induction IH as [|q l Hq Hl IHl]; intros s; [done|]. cbn [list_items].
  rewrite dump_items_app, <- Hq. apply gen_bind_ext. exact IHl.
Qed.

Lemma dumplist_items H l : forall s, dumplist H l s = dump_items H (list_items l) s.
Proof.
  induction l as [|q l IH]; intros s; [done|]. cbn [dumplist list_items].
  rewrite dump_items_app, <- dumpnode_items. apply gen_bind_ext. auto.
Qed.

(** ** The bytes of the image, without the buffer

    [summed] is the buffer [fixsum] gives, when the sum has a negative. *)
Definition summed (buf : list Z) (size : Z) : list Z :=
  put_checksum buf (u32 (- romfs_checksum (put_checksum buf 0) size)).

Definition sum_ok (buf : list Z) (size : Z) : bool :=
  negb (romfs_checksum (put_checksum buf 0) size =? - 2 ^ 31).

Lemma fixsum_eq buf size :
  fixsum buf size = if sum_ok buf size then Done (summed buf size) else Undefined.
Proof. unfold fixsum, sum_ok. by destruct (_ =? _). Qed.

Definition good_dump (s : dump) : Prop := 0 <= atoffs s /\ length (fixbuf s) = 512%nat.

(** The first 512 bytes as they are written. *)
Definition block_size (fb : list Z) : Z := if 512 <? word_at fb 8 then 512 else word_at fb 8.
Definition first_block (fb : list Z) : list Z := summed fb (block_size fb).
Definition block_ok (fb : list Z) : bool := sum_ok fb (block_size fb).

Lemma length_be_bytes w : length (be_bytes w) = 4%nat.
Proof. done. Qed.

Lemma length_put_checksum buf w : (16 <= length buf)%nat ->
  length (put_checksum buf w) = length buf.
Proof.
  intros. unfold put_checksum. rewrite !length_app, length_take, length_drop, length_be_bytes. lia.
Qed.

Lemma length_summed buf k : (16 <= length buf)%nat -> length (summed buf k) = length buf.
Proof. intros. unfold summed. by apply length_put_checksum. Qed.

Lemma length_memcpy_at buf i bs : (i + length bs <= length buf)%nat ->
  length (memcpy_at buf i bs) = length buf.
Proof.
  intros. unfold memcpy_at. rewrite !length_app, length_take, length_drop. lia.
Qed.

Lemma dumpdata_late bs s : 512 <= atoffs s ->
  dumpdata bs s = Done (Dump (atoffs s + Z.of_nat (length bs)) (fixbuf s) (written s ++ bs)).
Proof.
  intros Hs. unfold dumpdata. destruct bs as [|b bs].
  - cbn. rewrite app_nil_r, Z.add_0_r. by destruct s.
  - rewrite (proj2 (Z.eqb_neq _ _)) by (cbn [length]; lia). by rewrite (proj2 (Z.leb_le _ _)).
Qed.

Lemma dumpdata_early bs s : 0 <= atoffs s -> length (fixbuf s) = 512%nat ->
  atoffs s + Z.of_nat (length bs) < 512 ->
  dumpdata bs s = Done (Dump (atoffs s + Z.of_nat (length bs))
    (memcpy_at (fixbuf s) (Z.to_nat (atoffs s)) bs) (written s)).
Proof.
  intros H0 Hl Hs. unfold dumpdata. destruct (decide (bs = [])) as [->|Hb].
  - cbn. unfold memcpy_at. cbn [app length]. rewrite Nat.add_0_r, take_drop, Z.add_0_r. by destruct s.
  - assert (Hn : 0 < Z.of_nat (length bs)) by (destruct bs; [done|cbn [length]; lia]).
    rewrite (proj2 (Z.eqb_neq _ _)), (proj2 (Z.leb_gt _ _)) by lia.
    replace (Z.of_nat (length bs) <? 512 - atoffs s) with true by lia.
    rewrite Nat2Z.id, firstn_all, (proj2 (Z.eqb_neq (atoffs s + _) 512)) by lia.
    cbn [mbind gen_bind]. by rewrite Z.sub_diag.
Qed.

(** The call that fills the buffer. *)
Lemma dumpdata_fill bs s : 0 <= atoffs s < 512 -> 512 <= atoffs s + Z.of_nat (length bs) ->
  dumpdata bs s =
    let k := Z.to_nat (512 - atoffs s) in
    let fb := memcpy_at (fixbuf s) (Z.to_nat (atoffs s)) (take k bs) in
    if block_ok fb
    then Done (Dump (atoffs s + Z.of_nat (length bs)) (first_block fb)
                 (written s ++ first_block fb ++ drop k bs))
    else Undefined.
Proof.
  intros H0 Hs. unfold dumpdata. cbv zeta.
  rewrite (proj2 (Z.eqb_neq (Z.of_nat _) 0)), (proj2 (Z.leb_gt _ _)) by lia.
  replace (Z.of_nat (length bs) <? 512 - atoffs s) with false by lia.
  rewrite Zplus_minus, Z.eqb_refl. set (fb := memcpy_at _ _ _). fold (block_size fb).
  rewrite fixsum_eq. fold (block_ok fb) (first_block fb). destruct (block_ok fb); [|done].
  cbn [mbind gen_bind atoffs fixbuf written].
  destruct (Z.of_nat (length bs) - (512 - atoffs s) =? 0) eqn:E; b2p; cbn [negb].
  - rewrite drop_ge, app_nil_r by lia. do 2 f_equal. lia.
  - rewrite <- app_assoc. do 2 f_equal. lia.
Qed.

(** Where a call is in the buffer. *)
Lemma dump_cases s (bs : list Z) : good_dump s ->
  512 <= atoffs s \/ (0 <= atoffs s < 512 /\ atoffs s + Z.of_nat (length bs) < 512) \/
  (0 <= atoffs s < 512 /\ 512 <= atoffs s + Z.of_nat (length bs)).
Proof. intros [H0 _]. lia. Qed.

Lemma good_dumpdata bs s s' : good_dump s -> dumpdata bs s = Done s' -> good_dump s'.
Proof.
  intros Hg. pose proof Hg as [H0 Hl]. destruct (dump_cases s bs Hg) as [Hs|[[Hs Hn]|[Hs Hn]]].
  - rewrite dumpdata_late by lia. intros [= <-]. split; [cbn; lia|done].
  - rewrite dumpdata_early by done. intros [= <-]. split; [cbn; lia|]. cbn [fixbuf].
    rewrite length_memcpy_at by lia. exact Hl.
  - rewrite dumpdata_fill by lia. cbv zeta.
    assert (E : length (memcpy_at (fixbuf s) (Z.to_nat (atoffs s))
        (take (Z.to_nat (512 - atoffs s)) bs)) = 512%nat)
      by (rewrite length_memcpy_at; [done|rewrite length_take; lia]).
    case_match; [|done]. intros [= <-]. split; [cbn; lia|]. cbn [fixbuf]. unfold first_block.
    rewrite length_summed by lia. exact E.
Qed.

(** A call is cut short only by the sum of the first block. *)
Lemma dumpdata_then_undefined {B} bs s : good_dump s ->
  (dumpdata bs s ≫= fun _ => @Undefined B) = Undefined.
Proof.
  intros Hg. pose proof Hg as [H0 Hl]. destruct (dump_cases s bs Hg) as [Hs|[[Hs Hn]|[Hs Hn]]].
  - by rewrite dumpdata_late.
  - by rewrite dumpdata_early.
  - rewrite dumpdata_fill by lia. cbv zeta. by case_match.
Qed.

Lemma memcpy_at_app buf i a b : (i + length a + length b <= length buf)%nat ->
  memcpy_at (memcpy_at buf i a) (i + length a) b = memcpy_at buf i (a ++ b).
Proof.
  intros Hl. unfold memcpy_at. set (rest := drop (i + length a) buf).
  assert (Hp : length (take i buf ++ a) = (i + length a)%nat)
    by (rewrite length_app, length_take; lia).
  rewrite (app_assoc (take i buf) a rest), <- Hp, take_app_length, drop_app_add, <- app_assoc.
  rewrite <- app_assoc, length_app. unfold rest. rewrite drop_drop, <- Nat.add_assoc. done.
Qed.

(** The dump of two pieces is the dump of their bytes. *)
Lemma dumpdata_app a b s : good_dump s -> dumpdata (a ++ b) s = (dumpdata a s ≫= dumpdata b).
Proof.
  intros Hg. pose proof Hg as [H0 Hl]. destruct (dump_cases s a Hg) as [Hs|[[Hs Ha]|[Hs Ha]]].
  - rewrite !dumpdata_late by lia. cbn [mbind gen_bind]. rewrite dumpdata_late by (cbn; lia).
    rewrite length_app. cbn. rewrite app_assoc. do 2 f_equal; lia.
  - rewrite (dumpdata_early a) by done. cbn [mbind gen_bind].
    destruct (decide (atoffs s + Z.of_nat (length (a ++ b)) < 512)) as [Hb|Hb];
      rewrite length_app in Hb.
    + rewrite dumpdata_early, dumpdata_early; cbn [atoffs fixbuf written];
        rewrite ?length_memcpy_at, ?length_app by lia; try lia.
      do 2 f_equal; [lia|]. rewrite <- memcpy_at_app by lia. f_equal. lia.
    + rewrite dumpdata_fill, dumpdata_fill by (rewrite ?length_app; cbn [atoffs]; lia).
      cbv zeta. cbn [atoffs fixbuf written].
      replace (Z.to_nat (512 - (atoffs s + Z.of_nat (length a))))
        with (Z.to_nat (512 - atoffs s) - length a)%nat by lia.
      rewrite take_app_ge, drop_app_ge by lia.
      replace (Z.to_nat (atoffs s + Z.of_nat (length a))) with (Z.to_nat (atoffs s) + length a)%nat by lia.
      rewrite memcpy_at_app by (rewrite length_take; lia). rewrite length_app.
      replace (atoffs s + Z.of_nat (length a) + Z.of_nat (length b))
        with (atoffs s + Z.of_nat (length a + length b)) by lia. done.
  - rewrite (dumpdata_fill a), (dumpdata_fill (a ++ b)) by (rewrite ?length_app; lia). cbv zeta.
    rewrite take_app_le, drop_app_le by lia. case_match; [|done]. cbn [mbind gen_bind].
    rewrite dumpdata_late by (cbn; lia). cbn [atoffs fixbuf written].
    rewrite length_app, <- !app_assoc. do 2 f_equal. lia.
Qed.

(** [f] writes [bs], and its headers have sums with a negative when [ok]. *)
Definition writes (ok : bool) (bs : list Z) (f : dump -> gen dump) : Prop :=
  forall s, good_dump s -> f s = if ok then dumpdata bs s else Undefined.

Lemma writes_dumpdata bs : writes true bs (dumpdata bs).
Proof. by intros s Hs. Qed.

Lemma writes_nothing : writes true [] Done.
Proof. by intros s Hs. Qed.

Lemma writes_bind ok1 ok2 a b f g : writes ok1 a f -> writes ok2 b g ->
  writes (ok1 && ok2) (a ++ b) (fun s => f s ≫= g).
Proof.
  intros Hf Hg s Hs. rewrite Hf by done. destruct ok1; [|done]. cbn [andb].
  assert (E : (dumpdata a s ≫= g) = (dumpdata a s ≫= fun s => if ok2 then dumpdata b s else Undefined)).
  { apply gen_bind_done. intros s' Ea. apply Hg. by eapply good_dumpdata. }
  rewrite E. destruct ok2; [by rewrite dumpdata_app|by apply dumpdata_then_undefined].
Qed.

(** The dump of at least 512 bytes. *)
Lemma dumpdata_whole bs : (512 <= length bs)%nat ->
  (dumpdata bs dump0 ≫= fun s => Done (written s)) =
  if block_ok (take 512 bs) then Done (first_block (take 512 bs) ++ drop 512 bs) else Undefined.
Proof.
  intros Hl. rewrite dumpdata_fill by (change (atoffs dump0) with 0; lia).
  cbn [written atoffs dump0 app fixbuf]. cbv zeta.
  change (Z.to_nat (512 - 0)) with 512%nat. change (Z.to_nat 0) with 0%nat.
  assert (E : memcpy_at (repeat 0 512) 0 (take 512 bs) = take 512 bs).
  { unfold memcpy_at. rewrite take_0, drop_ge by (rewrite length_take, repeat_length; lia).
    by rewrite app_nil_r. }
  rewrite E. by case_match.
Qed.

(** ** What each function writes *)

Lemma land15 x : Z.land x 15 = x mod 16.
Proof. change 15 with (Z.ones 4). by rewrite Z.land_ones by lia. Qed.

Lemma ALIGNUP16_up x : ALIGNUP16 x = 16 * ((x + 15) / 16).
Proof.
  unfold ALIGNUP16. change 15 with (Z.ones 4) at 2.
  rewrite <- Z.ldiff_land, Z.ldiff_ones_r, Z.shiftl_mul_pow2, Z.shiftr_div_pow2 by lia.
  change (2 ^ 4) with 16. apply Z.mul_comm.
Qed.

Lemma ALIGNUP16_u_up x : 0 <= x < 2 ^ 31 -> ALIGNUP16_u x = ALIGNUP16 x.
Proof.
  intros Hx. unfold ALIGNUP16_u. rewrite u32_id, ALIGNUP16_up by lia. apply next_mask. lia.
Qed.

Lemma ALIGNUP16_padded n : 0 <= n -> ALIGNUP16 (n + 1) = padded n.
Proof. intros. rewrite ALIGNUP16_up. unfold padded. Z.div_mod_to_equations. lia. Qed.

Lemma ALIGNUP16_bounds x : x <= ALIGNUP16 x < x + 16.
Proof. rewrite ALIGNUP16_up. Z.div_mod_to_equations. lia. Qed.

(** A header with its name. *)
Definition header_bytes (ri : romfh) (n : fnode) : list Z :=
  let len := length (n_name n) in
  let b := romfh_bytes ri ++ n_name n ++ repeat 0 (Z.to_nat (padded (Z.of_nat len)) - len) in
  if n_offset n =? 0 then b else summed b (16 + padded (Z.of_nat len)).

Definition header_ok (ri : romfh) (n : fnode) : bool :=
  let len := length (n_name n) in
  let b := romfh_bytes ri ++ n_name n ++ repeat 0 (Z.to_nat (padded (Z.of_nat len)) - len) in
  (n_offset n =? 0) || sum_ok b (16 + padded (Z.of_nat len)).

Lemma length_header_bytes ri n :
  Z.of_nat (length (header_bytes ri n)) = 16 + padded (Z.of_nat (length (n_name n))).
Proof.
  pose proof (padded_bounds (Z.of_nat (length (n_name n))) ltac:(lia)).
  unfold header_bytes. case_match; rewrite ?length_summed;
    rewrite !length_app, repeat_length; change (length (romfh_bytes ri)) with 16%nat; lia.
Qed.

Lemma dumpri_bytes ri n : 16 + padded (Z.of_nat (length (n_name n))) <= 4096 ->
  writes (header_ok ri n) (header_bytes ri n) (dumpri ri n).
Proof.
  intros Hl s _. unfold dumpri, header_bytes, header_ok. rewrite land15.
  set (len := Z.of_nat (length (n_name n))) in *. pose proof (padded_bounds len ltac:(lia)).
  assert (Ef : (if negb ((len + 1) mod 16 =? 0) then 16 - (len + 1) mod 16 else 0)
    = padded len - len - 1).
  { unfold padded. bcase; Z.div_mod_to_equations; lia. }
  rewrite Ef, (proj2 (Z.ltb_ge _ _)) by lia.
  replace (Z.to_nat (padded len) - length (n_name n))%nat with (S (Z.to_nat (padded len - len - 1)))
    by lia.
  cbn [repeat]. rewrite <- app_comm_cons. cbn [app].
  replace (len + 1 + (padded len - len - 1) + 16) with (16 + padded len) by lia.
  destruct (n_offset n =? 0); [done|]. cbn [negb orb]. rewrite fixsum_eq. by destruct (sum_ok _ _).
Qed.

(** One type test succeeds at most. *)
Definition is_types (m : Z) : list bool :=
  [S_ISDIR m; S_ISLNK m; S_ISREG m; S_ISCHR m; S_ISBLK m; S_ISFIFO m; S_ISSOCK m].

Lemma types_exclusive m :
  is_types m = repeat false 7 \/
  exists i, (i < 7)%nat /\ is_types m = map (fun j => bool_decide (j = i)) (seq 0 7).
Proof.
  unfold is_types, S_ISDIR, S_ISLNK, S_ISREG, S_ISCHR, S_ISBLK, S_ISFIFO, S_ISSOCK.
  generalize (Z.land m S_IFMT). intros t.
  destruct (t =? S_IFDIR) eqn:E0; [b2p; subst; right; exists 0%nat; split; [lia|done]|].
  destruct (t =? S_IFLNK) eqn:E1; [b2p; subst; right; exists 1%nat; split; [lia|done]|].
  destruct (t =? S_IFREG) eqn:E2; [b2p; subst; right; exists 2%nat; split; [lia|done]|].
  destruct (t =? S_IFCHR) eqn:E3; [b2p; subst; right; exists 3%nat; split; [lia|done]|].
  destruct (t =? S_IFBLK) eqn:E4; [b2p; subst; right; exists 4%nat; split; [lia|done]|].
  destruct (t =? S_IFIFO) eqn:E5; [b2p; subst; right; exists 5%nat; split; [lia|done]|].
  destruct (t =? S_IFSOCK) eqn:E6; [b2p; subst; right; exists 6%nat; split; [lia|done]|].
  by left.
Qed.

(** The cases of the type of a node. *)
Ltac type_cases m :=
  let E := fresh "E" in
  destruct (types_exclusive m) as [E|(? & ? & E)];
  [|repeat match goal with
    | Hi : (?i < S _)%nat |- _ => is_var i; destruct i as [|i]; [clear Hi|apply Nat.succ_lt_mono in Hi]
    | Hi : (?i < 0)%nat |- _ => by apply Nat.nlt_0_r in Hi
    end];
  injection E as ? ? ? ? ? ? ?;
  repeat match goal with
  | Hx : S_ISDIR m = _ |- _ => rewrite Hx in *; clear Hx
  | Hx : S_ISLNK m = _ |- _ => rewrite Hx in *; clear Hx
  | Hx : S_ISREG m = _ |- _ => rewrite Hx in *; clear Hx
  | Hx : S_ISCHR m = _ |- _ => rewrite Hx in *; clear Hx
  | Hx : S_ISBLK m = _ |- _ => rewrite Hx in *; clear Hx
  | Hx : S_ISFIFO m = _ |- _ => rewrite Hx in *; clear Hx
  | Hx : S_ISSOCK m = _ |- _ => rewrite Hx in *; clear Hx
  end.

Section Bytes.
Context (H : host).

Lemma copy_file_bytes fd data max : fd <> 0 -> forall fuel offset s, good_dump s ->
  0 <= offset -> (Z.to_nat (max - offset) < fuel)%nat ->
  let bs := if fd <? 0 then [] else take (Z.to_nat (max - offset)) (drop (Z.to_nat offset) data) in
  copy_file fuel fd data offset max s
  = (s ← dumpdata bs s; Done (offset + Z.of_nat (length bs), s)).
Proof.
  intros Hfd. induction fuel as [|f IH]; intros offset s Hs H0 Hf bs; [lia|]. cbn [copy_file].
  assert (Hnil : bs = [] -> Done (offset, s)
      = (s ← dumpdata bs s; Done (offset + Z.of_nat (length bs), s)))
    by (intros ->; cbn; by rewrite Z.add_0_r).
  destruct (offset <? max) eqn:E; b2p.
  2:{ apply Hnil. unfold bs. case_match; [done|]. by replace (Z.to_nat (max - offset)) with 0%nat by lia. }
  set (avail := if max - offset <? 4096 then max - offset else 4096).
  assert (Ha : 0 < avail <= max - offset) by (unfold avail; bcase; lia).
  destruct (fd <? 0) eqn:Ed; [by apply Hnil|].
  set (b1 := take (Z.to_nat avail) (drop (Z.to_nat offset) data)).
  destruct (Z.of_nat (length b1) <=? 0) eqn:El; b2p.
  { apply Hnil. unfold bs. assert (Hd : drop (Z.to_nat offset) data = []).
    { destruct (drop (Z.to_nat offset) data) as [|x l] eqn:Ex; [done|].
      unfold b1 in El. replace (Z.to_nat avail) with (S (Z.to_nat (avail - 1))) in El by lia.
      cbn in El. lia. }
    by rewrite Hd, take_nil. }
  assert (Hb : bs = b1 ++ take (Z.to_nat (max - (offset + Z.of_nat (length b1))))
      (drop (Z.to_nat (offset + Z.of_nat (length b1))) data)).
  { unfold bs. rewrite <- (take_drop (length b1) (take _ (drop _ data))) at 1. f_equal.
    - rewrite take_take. unfold b1. rewrite length_take.
      destruct (decide (Z.to_nat avail <= length (drop (Z.to_nat offset) data))%nat).
      + f_equal. lia.
      + by rewrite !(take_ge (drop _ _)) by lia.
    - rewrite skipn_firstn_comm, drop_drop. f_equal; [lia|]. f_equal. lia. }
  rewrite Hb, dumpdata_app, length_app, gen_bind_assoc by done.
  apply gen_bind_done. intros s1 E1. rewrite IH by (try lia; by eapply good_dumpdata).
  apply gen_bind_ext. intros s2. do 2 f_equal. lia.
Qed.

Lemma pad_file_bytes max : forall fuel offset, (Z.to_nat (max - offset) < fuel)%nat ->
  writes true (repeat 0 (Z.to_nat (max - offset))) (pad_file fuel offset max).
Proof.
  induction fuel as [|f IH]; intros offset Hf s Hs; [lia|]. cbn [pad_file].
  destruct (offset <? max) eqn:E; b2p.
  2:{ by replace (Z.to_nat (max - offset)) with 0%nat by lia. }
  set (avail := if max - offset <? 4096 then max - offset else 4096).
  assert (Ha : 0 < avail <= max - offset) by (unfold avail; bcase; lia).
  rewrite (writes_bind _ _ _ _ _ _ (writes_dumpdata _) (IH (offset + avail) ltac:(lia)) s Hs).
  cbn [andb]. rewrite <- repeat_app. do 2 f_equal. lia.
Qed.

(** The data of a regular file and of a symbolic link. *)
Definition file_data (n : fnode) : list Z :=
  let bs := if open H (n_realname n) <=? 0 then []
            else take (Z.to_nat (n_size n)) (contents H (n_realname n)) in
  bs ++ repeat 0 (Z.to_nat (ALIGNUP16 (n_size n)) - length bs).

Definition link_data (n : fnode) : list Z :=
  take (Z.to_nat (n_size n))
    (take (Z.to_nat (n_size n)) (default [] (readlink H (n_realname n))) ++ repeat 0 4096)
  ++ repeat 0 (Z.to_nat (ALIGNUP16 (n_size n) - n_size n)).

Lemma length_file_data n : 0 <= n_size n ->
  Z.of_nat (length (file_data n)) = ALIGNUP16 (n_size n).
Proof.
  intros Hs. pose proof (ALIGNUP16_bounds (n_size n)). unfold file_data.
  rewrite length_app, repeat_length. case_match; cbn [length]; rewrite ?length_take; lia.
Qed.

Lemma length_link_data n : 0 <= n_size n <= 4096 ->
  Z.of_nat (length (link_data n)) = ALIGNUP16 (n_size n).
Proof.
  intros Hs. pose proof (ALIGNUP16_bounds (n_size n)). unfold link_data.
  rewrite length_app, repeat_length, length_take, length_app, repeat_length. lia.
Qed.

Lemma dump_reg_bytes n : 0 <= n_size n < 2 ^ 31 - 15 ->
  writes true (file_data n) (dump_reg H n).
Proof.
  intros Hn s Hs. unfold dump_reg, file_data. rewrite s32_id by lia.
  set (fd := open H (n_realname n)). set (data := contents H (n_realname n)).
  set (bs := if fd <=? 0 then [] else take (Z.to_nat (n_size n)) data).
  assert (E : (if negb (fd =? 0) then copy_file (S (Z.to_nat (n_size n))) fd data 0 (n_size n) s
               else Done (0, s)) = (s ← dumpdata bs s; Done (Z.of_nat (length bs), s))).
  { destruct (fd =? 0) eqn:E0; b2p; cbn [negb].
    - unfold bs. by rewrite E0.
    - rewrite copy_file_bytes by (try done; lia). unfold bs. rewrite Z.sub_0_r. cbn [Z.to_nat drop].
      destruct (fd <? 0) eqn:E1, (fd <=? 0) eqn:E2; b2p; done || lia. }
  rewrite E, gen_bind_assoc, dumpdata_app by done. apply gen_bind_done. intros s1 E1.
  cbn [mbind gen_bind]. unfold iadd.
  rewrite (proj2 (Z.leb_le _ _)), (proj2 (Z.ltb_lt _ _)) by lia. cbn [andb mbind gen_bind].
  change (Z.land (n_size n + 15) (Z.lnot 15)) with (ALIGNUP16 (n_size n)).
  rewrite pad_file_bytes by (try lia; by eapply good_dumpdata). do 2 f_equal. lia.
Qed.

Lemma dump_lnk_bytes n : 0 <= n_size n <= 4096 -> writes true (link_data n) (dump_lnk H n).
Proof.
  intros Hn s Hs. unfold dump_lnk, link_data, dumpdataa. rewrite (proj2 (Z.ltb_ge _ _)) by lia.
  set (t := take (Z.to_nat (n_size n)) (_ ++ _)).
  assert (Et : Z.of_nat (length t) = n_size n)
    by (unfold t; rewrite length_take, length_app, repeat_length; lia).
  rewrite Et, land15, ALIGNUP16_up, dumpdata_app by done. apply gen_bind_ext. intros s1.
  destruct (n_size n mod 16 =? 0) eqn:E; b2p; cbn [negb].
  - replace (16 * ((n_size n + 15) / 16) - n_size n) with 0 by (Z.div_mod_to_equations; lia). done.
  - unfold dumpzero. rewrite (proj2 (Z.ltb_ge _ _)) by (Z.div_mod_to_equations; lia).
    do 3 f_equal. Z.div_mod_to_equations; lia.
Qed.

(** The type of the header of a node, and its word [spec]. *)
Definition node_type (n : fnode) : option Z :=
  match n_link n with
  | Some _ => Some ROMFH_HRD
  | None =>
      let m := n_modes n in
      if S_ISDIR m then Some ROMFH_DIR else if S_ISLNK m then Some ROMFH_LNK
      else if S_ISREG m then Some ROMFH_REG else if S_ISCHR m then Some ROMFH_CHR
      else if S_ISBLK m then Some ROMFH_BLK else if S_ISFIFO m then Some ROMFH_FIF
      else if S_ISSOCK m then Some ROMFH_SCK else None
  end.

Definition node_exec (n : fnode) : bool :=
  match n_link n with
  | Some _ => false
  | None => negb (Z.land (n_modes n) 0x49 =? 0) && (S_ISDIR (n_modes n) || S_ISREG (n_modes n))
  end.

Definition node_spec (head : option Z) (n : fnode) : Z :=
  match n_link n with
  | Some l => l
  | None =>
      let m := n_modes n in
      if S_ISDIR m then default (n_offset n) head
      else if S_ISCHR m || S_ISBLK m
      then u32 (Z.lor (Z.shiftl (fst (n_devnode n)) 16) (snd (n_devnode n))) else 0
  end.

Definition node_data (n : fnode) : list Z :=
  match n_link n with
  | Some _ => []
  | None => if S_ISLNK (n_modes n) then link_data n
            else if S_ISREG (n_modes n) then file_data n else []
  end.

Definition node_romfh (next head : option Z) (n : fnode) (t : Z) : romfh :=
  Romfh (default 0 next + (if node_exec n then 8 else 0) + t) (node_spec head n) (n_size n)
    0x55555555.

(** The bytes of a node: padding, header with name, data. *)
Definition self_bytes (it : item) : list Z :=
  let '(n, next, hd) := it in
  repeat 0 (Z.to_nat (n_pad n)) ++
  match node_type n with
  | Some t => header_bytes (node_romfh next hd n t) n ++ node_data n
  | None => []
  end.

(** The sum of its header has a negative. *)
Definition item_ok_sum (it : item) : bool :=
  let '(n, next, hd) := it in
  match node_type n with
  | Some t => header_ok (node_romfh next hd n t) n
  | None => true
  end.

(** What the buffers and the types of the tool can take. *)
Record dumpable (n : fnode) : Prop := {
  dm_name : 16 + padded (Z.of_nat (length (n_name n))) <= 4096;
  dm_pad : 0 <= n_pad n <= 4096;
  dm_size : 0 <= n_size n < 2 ^ 31 - 15;
  dm_link : S_ISLNK (n_modes n) = true -> n_size n <= 4096 }.

Lemma lor_flags k e t : 0 <= t < 8 ->
  Z.lor (if (e : bool) then Z.lor (16 * k) ROMFH_EXEC else 16 * k) t
  = 16 * k + (if e then 8 else 0) + t.
Proof.
  intros Ht. destruct e.
  - change ROMFH_EXEC with 8. rewrite (Z.lor_comm (16 * k)), (Z.mul_comm 16 k).
    change 16 with (2 ^ 4). rewrite lor_add by lia.
    replace (8 + k * 2 ^ 4) with ((2 * k + 1) * 2 ^ 3) by lia.
    rewrite Z.lor_comm, lor_add by lia. lia.
  - rewrite Z.lor_comm, (Z.mul_comm 16 k). change 16 with (2 ^ 4). rewrite lor_add by lia. lia.
Qed.

Lemma ldiff_exec k (e : bool) :
  Z.ldiff (Z.lor (if e then Z.lor (16 * k) ROMFH_EXEC else 16 * k) ROMFH_HRD) ROMFH_EXEC = 16 * k.
Proof.
  unfold ROMFH_HRD, ROMFH_EXEC. rewrite Z.lor_0_r. apply Z.bits_inj'. intros i Hi.
  assert (H3 : Z.testbit (16 * k) 3 = false).
  { rewrite (Z.mul_comm 16 k). change 16 with (2 ^ 4). by rewrite Z.mul_pow2_bits_low by lia. }
  rewrite Z.ldiff_spec. change 8 with (2 ^ 3).
  destruct e; rewrite ?Z.lor_spec, Z.pow2_bits_eqb by lia;
    destruct (Z.eqb_spec 3 i) as [<-|]; rewrite ?H3, ?orb_false_r; cbn [negb];
    by rewrite ?andb_false_r, ?andb_true_r.
Qed.

Lemma dumppad_bytes n : dumpable n ->
  writes true (repeat 0 (Z.to_nat (n_pad n)))
    (fun s => if negb (n_pad n =? 0) then dumpzero (n_pad n) s else Done s).
Proof.
  intros [_ Hp _ _] s _. destruct (n_pad n =? 0) eqn:E; b2p; cbn [negb].
  - by rewrite E.
  - unfold dumpzero. by rewrite (proj2 (Z.ltb_ge _ _)) by lia.
Qed.

Lemma writes_header ri ri' n : dumpable n -> ri = ri' ->
  writes (header_ok ri' n) (header_bytes ri' n ++ []) (dumpri ri n).
Proof. intros [Hnm _ _ _] ->. rewrite app_nil_r. by apply dumpri_bytes. Qed.

Lemma writes_header_data ri ri' n bs f : dumpable n -> ri = ri' -> writes true bs f ->
  writes (header_ok ri' n) (header_bytes ri' n ++ bs) (fun s => dumpri ri n s ≫= f).
Proof.
  intros [Hnm _ _ _] -> Hf. rewrite <- (andb_true_r (header_ok _ _)).
  apply writes_bind; [by apply dumpri_bytes|done].
Qed.

Lemma dumpself_bytes next hd n k : dumpable n -> default 0 next = 16 * k ->
  writes (item_ok_sum (n, next, hd)) (self_bytes (n, next, hd)) (dumpself H next hd n).
Proof.
  intros Hd Hk. unfold dumpself. cbn [self_bytes item_ok_sum].
  rewrite <- (andb_true_l (match node_type n with Some _ => _ | None => _ end)).
  apply writes_bind; [by apply dumppad_bytes|].
  unfold node_type, node_data, node_romfh, node_exec, node_spec. rewrite Hk.
  destruct (n_link n) as [l|].
  - apply writes_header; [done|]. f_equal. rewrite ldiff_exec. change ROMFH_HRD with 0. lia.
  - rewrite !(fun e t => lor_flags k e t) by (vm_compute; intuition discriminate).
    pose proof (dm_link n Hd) as Hl.
    type_cases (n_modes n); cbn [orb]; try apply writes_nothing; try by apply writes_header.
    + apply writes_header_data; [done..|]. apply dump_lnk_bytes.
      specialize (Hl eq_refl). pose proof (dm_size n Hd). lia.
    + apply writes_header_data; [done..|]. apply dump_reg_bytes. apply Hd.
Qed.

(** Where [next] comes from: the offsets of the nodes are multiples of 16. *)
Definition item_ok (it : item) : Prop :=
  dumpable (item_node it) /\ exists k, default 0 (snd (fst it)) = 16 * k.

Lemma dump_items_bytes its : Forall item_ok its ->
  writes (forallb item_ok_sum its) (flat_map self_bytes its) (dump_items H its).
Proof.
  induction 1 as [|[[n next] hd] its [Hd [k Hk]] Hits IH]; [apply writes_nothing|].
  apply writes_bind; [by apply (dumpself_bytes _ _ _ k)|exact IH].
Qed.

(** The bytes of the whole image before the checksum of the first block. *)
Definition image_bytes (root : fnode) (l : list filenode) (lastoff : Z) : list Z :=
  header_bytes (Romfh 0x2d726f6d 0x3166732d (u32 lastoff) 0x55555555) root
  ++ flat_map self_bytes (list_items l)
  ++ repeat 0 (Z.to_nat (if lastoff mod 1024 =? 0 then 0 else 1024 - lastoff mod 1024)).

(** The sums of the headers in it have negatives. *)
Definition headers_ok (root : fnode) (l : list filenode) (lastoff : Z) : bool :=
  header_ok (Romfh 0x2d726f6d 0x3166732d (u32 lastoff) 0x55555555) root
  && forallb item_ok_sum (list_items l).

Lemma dumpall_bytes root l lastoff :
  16 + padded (Z.of_nat (length (n_name root))) <= 4096 -> Forall item_ok (list_items l) ->
  writes (headers_ok root l lastoff) (image_bytes root l lastoff)
    (dumpall H (Filenode root l) lastoff).
Proof.
  intros Hn Hl. unfold dumpall, image_bytes, headers_ok. cbn [node dirlist].
  apply writes_bind; [by apply dumpri_bytes|]. rewrite <- (andb_true_r (forallb _ _)).
  apply writes_bind.
  { intros s Hs. rewrite dumplist_items. by apply dump_items_bytes. }
  intros s Hs. change 1023 with (Z.ones 10). rewrite Z.land_ones by lia. change (2 ^ 10) with 1024.
  destruct (lastoff mod 1024 =? 0) eqn:E; cbn [negb]; [done|].
  unfold dumpzero. rewrite (proj2 (Z.ltb_ge _ _)); [done|].
  pose proof (Z.mod_pos_bound lastoff 1024). lia.
Qed.
End Bytes.
