(* ===== verification/ImageTree.v ===== *)
(** * The tree genromfs builds

    [Genromfs] models the tool; here is what [processdir] makes of a directory
    of a host that fulfils [host_ok]: nodes one after the other with nothing but
    padding between them ([lies]), hard links to nodes of the same file
    ([linked]), a node for every readable entry ([entries_of]).  [measured]
    bounds depth and size of a directory; with it the walk ends
    ([processdir_top_done]).  [Image] puts the bytes and the kernel's file system
    on top. *)

From stdpp Require Import base list numbers.
From Stdlib Require Import ZArith Lia.
From S2P Require Import Prelude Romfs Genromfs.

Lemma bind_Done {A B} (x : gen A) (f : A -> gen B) b :
  (x ≫= f) = Done b -> exists a, x = Done a /\ f a = Done b.
Proof. destruct x as [a| |]; cbn; [|done|done]. eauto. Qed.

(** Take a run apart at its first bind. *)
Ltac run_inv Hr :=
  let a := fresh "a" in let E := fresh "E" in
  apply bind_Done in Hr as (a & E & Hr).

Lemma iadd_Done a b c : iadd a b = Done c -> c = a + b /\ - 2 ^ 31 <= a + b < 2 ^ 31.
Proof. unfold iadd. destruct (_ && _) eqn:E; [|done]. b2p. intros [= <-]. lia. Qed.

(** ** Alignment *)

Definition align_ok (a : Z) : Prop := 16 <= a <= 4096 /\ exists k, 0 <= k /\ a = 2 ^ k.

Record options_ok (o : options) : Prop := {
  oo_align : align_ok (o_align o);
  oo_list : Forall (fun p => align_ok (fst p)) (o_alignlist o) }.

Definition aligned (x : Z) : Prop := x mod 16 = 0.

Lemma aligned_add x y : aligned x -> aligned y -> aligned (x + y).
Proof. unfold aligned. intros. Z.div_mod_to_equations. lia. Qed.

Lemma align_ok_land a x : align_ok a -> Z.land x (a - 1) = x mod a.
Proof.
  intros [_ (k & Hk & ->)]. rewrite <- Z.land_ones by done. by rewrite Z.ones_equiv.
Qed.

Lemma align_ok_aligned a : align_ok a -> aligned a.
Proof.
  intros [Ha (k & Hk & ->)]. unfold aligned. destruct (decide (k < 4)) as [Hs|Hs].
  - assert (2 ^ k <= 2 ^ 3) by (apply Z.pow_le_mono_r; lia). lia.
  - replace k with (4 + (k - 4)) by lia. rewrite Z.pow_add_r by lia.
    rewrite Z.mul_comm. apply Z.mod_mul. done.
Qed.

Lemma aligned_mod x a : align_ok a -> aligned x -> aligned (x mod a).
Proof.
  intros Ha Hx. pose proof (align_ok_aligned a Ha) as Ha'. destruct Ha as [Hr _].
  unfold aligned in *. rewrite (Z.mod_eq x a) by lia.
  assert (Ex : x = 16 * (x / 16)) by (Z.div_mod_to_equations; lia).
  assert (Ea : a = 16 * (a / 16)) by (Z.div_mod_to_equations; lia).
  set (q := x / a). rewrite Ex, Ea.
  replace (16 * (x / 16) - 16 * (a / 16) * q) with ((x / 16 - a / 16 * q) * 16) by ring.
  by apply Z.mod_mul.
Qed.

Section Walk.
Context (H : host) (o : options) (Ho : options_ok o).

Lemma findalign_ok n a : findalign H o n = Done a -> align_ok a.
Proof.
  unfold findalign. assert (Hi : align_ok (if S_ISREG (n_modes n) then o_align o else 16)).
  { destruct (S_ISREG _); [apply Ho|]. split; [lia|]. by exists 4. }
  revert Hi. generalize (if S_ISREG (n_modes n) then o_align o else 16).
  induction (oo_list o Ho) as [|[b pattern] l Hb Hl IH]; intros i Hi Ha; [by injection Ha as <-|].
  destruct (i <? b); [|by eapply IH].
  run_inv Ha. destruct a0; [|by eapply IH]. by eapply IH in Ha.
Qed.

(** A new node at [cur]. *)
Definition fresh (n : fnode) (cur : Z) : Prop := n_offset n = cur /\ n_pad n = 0.

Lemma alignnode_ok n cur extra n' c : fresh n cur -> 0 <= cur -> aligned cur -> aligned extra ->
  alignnode H o n cur extra = Done (n', c) ->
  exists pad, n' = set_place n (cur + pad) pad /\ c = cur + pad /\ 0 <= pad <= 4096 /\
    aligned pad /\ (pad = 0 \/ c < 2 ^ 31).
Proof.
  intros [Hf1 Hf2] Hc Hca Hea Hr. unfold alignnode in Hr. run_inv Hr. rename a into al.
  apply findalign_ok in E as Hal. run_inv Hr. apply iadd_Done in E0 as [-> Hr1].
  rewrite align_ok_land in Hr by done.
  pose proof (Z.mod_pos_bound (cur + extra) al) as Hm. destruct Hal as [Har Hp].
  destruct ((cur + extra) mod al =? 0) eqn:Ed; b2p.
  - injection Hr as <- <-. exists 0. rewrite !Z.add_0_r. split; [|repeat split; try lia; by left].
    rewrite <- Hf1, <- Hf2. by destruct n.
  - run_inv Hr. apply iadd_Done in E0 as [-> Hr2]. injection Hr as <- <-.
    assert (Hd : aligned (al - (cur + extra) mod al)).
    { pose proof (align_ok_aligned al (conj Har Hp)) as H1.
      pose proof (aligned_mod (cur + extra) al (conj Har Hp) (aligned_add _ _ Hca Hea)) as H2.
      unfold aligned in *. Z.div_mod_to_equations. lia. }
    exists (al - (cur + extra) mod al). rewrite Hf1, u32_id by lia.
    repeat split; try lia; done.
Qed.

(** Without [-A] only regular files are moved. *)
Lemma alignnode_stays n cur n' c : o_alignlist o = [] -> S_ISREG (n_modes n) = false ->
  aligned cur -> alignnode H o n cur 0 = Done (n', c) -> n' = n.
Proof.
  intros Hl Hr Hc Ha. unfold alignnode, findalign in Ha. rewrite Hl, Hr in Ha.
  cbn [mbind gen_bind] in Ha. run_inv Ha. apply iadd_Done in E as [-> _].
  change (16 - 1) with (Z.ones 4) in Ha. rewrite Z.land_ones, Z.add_0_r in Ha by lia.
  unfold aligned in Hc. change (2 ^ 4) with 16 in Ha. rewrite Hc in Ha. by injection Ha as <- <-.
Qed.

(** ** What one entry becomes *)

(** Names and data of the host the format can hold. *)
Definition name_ok (s : list Z) : Prop :=
  Forall (fun b => 0 < b < 256) s /\ (length s <= 255)%nat.

Record stat_ok (sb : hstat) : Prop := {
  so_type : In true (is_types (h_mode sb));
  so_reg : S_ISREG (h_mode sb) = true -> 0 <= h_size sb < 2 ^ 30;
  so_lnk : S_ISLNK (h_mode sb) = true -> 0 <= h_size sb <= 4096 }.

Definition has_size (m : Z) : bool := S_ISREG m || S_ISLNK m.

(** The node lies at [cur], everything that belongs to it before [c]. *)
Record lies (cur : Z) (n : fnode) (c : Z) : Prop := {
  li_offset : n_offset n = cur + n_pad n;
  li_pad : aligned (n_pad n);
  li_end : c = n_offset n + 16 + padded (Z.of_nat (length (n_name n))) + ALIGNUP16 (n_size n);
  li_dump : dumpable n;
  li_size : has_size (n_modes n) = true /\ n_link n = None \/ n_size n = 0;
  li_type : node_type n <> None;
  li_name : name_ok (n_name n);
  li_bound : c < 2 ^ 31 }.

Lemma padded_name (s : list Z) : (length s <= 255)%nat -> 16 <= padded (Z.of_nat (length s)) <= 272.
Proof. intros. unfold padded. Z.div_mod_to_equations. lia. Qed.

Lemma spaceneeded_eq n : (length (n_name n) <= 255)%nat -> 0 <= n_size n < 2 ^ 30 ->
  spaceneeded n = 16 + padded (Z.of_nat (length (n_name n))) + ALIGNUP16 (n_size n).
Proof.
  intros Hn Hs. pose proof (padded_name _ Hn). unfold spaceneeded.
  rewrite ALIGNUP16_padded, ALIGNUP16_u_up by lia. pose proof (ALIGNUP16_bounds (n_size n)).
  apply s32_id. lia.
Qed.

Lemma aligned_ALIGNUP16 x : aligned (ALIGNUP16 x).
Proof. rewrite ALIGNUP16_up. unfold aligned. rewrite Z.mul_comm. by apply Z.mod_mul. Qed.

Lemma aligned_padded n : aligned (padded n).
Proof. unfold aligned, padded. rewrite Z.mul_comm. by apply Z.mod_mul. Qed.

Lemma lies_aligned cur n c : aligned cur -> lies cur n c -> aligned (n_offset n) /\ aligned c.
Proof.
  intros Hc [Hf Hp He _ _ _ _ _]. assert (Ho' : aligned (n_offset n)) by (rewrite Hf; by apply aligned_add).
  split; [done|]. rewrite He. apply aligned_add; [apply aligned_add|apply aligned_ALIGNUP16].
  - by apply aligned_add.
  - apply aligned_padded.
Qed.

(** Placing a node whose size is known, 0 for one that is still to come. *)
Lemma place_ok n cur extra n' c0 c size :
  fresh n cur -> 0 <= cur -> aligned cur -> aligned extra ->
  name_ok (n_name n) -> 0 <= size < 2 ^ 30 -> (S_ISLNK (n_modes n) = true -> size <= 4096) ->
  has_size (n_modes n) = true /\ n_link n = None \/ size = 0 -> node_type n <> None ->
  alignnode H o n cur extra = Done (n', c0) ->
  iadd c0 (spaceneeded (set_size n' size)) = Done c ->
  lies cur (set_size n' size) c /\
  exists pad, n' = set_place n (cur + pad) pad.
Proof.
  intros Hf Hc Hca Hea [Hn1 Hn2] Hs Hl Hsz Ht Ha Hi.
  apply alignnode_ok in Ha as (pad & -> & -> & Hp & Hpa & _); try done.
  apply iadd_Done in Hi as [-> Hi]. rewrite spaceneeded_eq in * by done. cbn [n_name n_size set_size set_place] in *.
  split; [|by exists pad]. pose proof (padded_name _ Hn2).
  split; cbn [n_name n_size n_offset n_pad n_modes n_link set_size set_place]; try done; try lia.
  split; cbn [n_name n_size n_offset n_pad n_modes n_link set_size set_place]; try done; lia.
Qed.

(** [n'] is [n] with a place, a size and a device number. *)
Record same_id (n n' : fnode) : Prop := {
  si_name : n_name n' = n_name n;
  si_realname : n_realname n' = n_realname n;
  si_dev : n_ondev n' = n_ondev n;
  si_ino : n_onino n' = n_onino n;
  si_modes : n_modes n' = n_modes n;
  si_link : n_link n' = n_link n }.

Lemma lies_devnode cur n c d : lies cur n c -> lies cur (set_devnode n d) c.
Proof. intros [? ? ? [? ? ? ?] ? ? ? ?]. split; try done. Qed.

Definition data_size (sb : hstat) : Z := if has_size (h_mode sb) then h_size sb else 0.

Lemma data_size_range sb : stat_ok sb -> 0 <= data_size sb < 2 ^ 30.
Proof.
  intros [_ Hr Hl]. unfold data_size, has_size.
  destruct (S_ISREG _), (S_ISLNK _); cbn [orb]; try specialize (Hr eq_refl); try specialize (Hl eq_refl); lia.
Qed.

Lemma node_type_known n : In true (is_types (n_modes n)) -> node_type n <> None.
Proof.
  intros Ht. unfold node_type. destruct (n_link n); [done|]. unfold is_types in Ht. cbn [In] in Ht.
  repeat (case_match; [done|]). intuition congruence.
Qed.

Lemma settle_ok n sb cur a : fresh n cur -> 0 <= cur -> aligned cur -> n_size n = 0 ->
  n_link n = None -> n_modes n = h_mode sb -> name_ok (n_name n) -> stat_ok sb ->
  settle H o n sb cur = Done a ->
  exists n' c, lies cur n' c /\ same_id n n' /\ n_size n' = data_size sb /\
    (a = Add n' c /\ S_ISDIR (h_mode sb) = false \/
     a = Enter n' c /\ S_ISDIR (h_mode sb) = true \/ a = Again n' c /\ n_name n = dotdot).
Proof.
  intros Hf Hc Hca Hz Hlk Hm Hn Hs Hr. pose proof (data_size_range _ Hs) as Hd.
  destruct Hs as [Ht Hreg Hlnk]. unfold settle in Hr. run_inv Hr. destruct a0 as [n1 c1].
  assert (Hnt : node_type n <> None) by (apply node_type_known; by rewrite Hm).
  assert (Hsp : aligned (spaceneeded n)).
  { rewrite spaceneeded_eq by (try apply Hn; lia). rewrite Hz. unfold aligned, padded.
    change (ALIGNUP16 0) with 0. Z.div_mod_to_equations. lia. }
  assert (HE : exists n0 extra, alignnode H o n cur extra = Done (n0, c1) /\ aligned extra /\
    (if S_ISLNK (h_mode sb) then set_size n1 (u32 (h_size sb)) else n1)
    = set_size n0 (data_size sb)).
  { unfold data_size, has_size in *. rewrite <- Hm in *. type_cases (n_modes n); cbn [orb] in *;
      try (exists n1, 0; split; [exact E|split; [done|]];
           apply alignnode_ok in E as (pad & -> & _); try done; unfold set_size, set_place; cbn;
           by rewrite Hz).
    - exists n1, 0. split; [exact E|]. split; [done|]. by rewrite u32_id by lia.
    - run_inv E. destruct a0 as [n0 c0]. injection E as <- <-. exists n0, (spaceneeded n).
      split; [done|]. split; [done|]. by rewrite u32_id by lia. }
  destruct HE as (n0 & extra & Ha & Hex & Heq). rewrite Heq in Hr. run_inv Hr.
  apply (place_ok n cur extra n0 c1 a0 (data_size sb)) in E0 as [Hl [pad ->]]; try done.
  2:{ rewrite Hm. intros Hx. unfold data_size, has_size. rewrite Hx, orb_true_r. by apply Hlnk. }
  2:{ rewrite Hm. unfold data_size. destruct (has_size _); [left; done|by right]. }
  set (n2 := set_size (set_place n (cur + pad) pad) (data_size sb)) in *.
  exists (if S_ISCHR (h_mode sb) || S_ISBLK (h_mode sb) then set_devnode n2 (h_rdev sb) else n2), a0.
  split; [destruct (_ || _); [by apply lies_devnode|done]|]. split; [by destruct (_ || _)|].
  split; [by destruct (_ || _)|].
  revert Hr. set (n3 := if _ || _ then _ else _). intros Hr.
  assert (En : n_name n3 = n_name n) by (unfold n3; by destruct (_ || _)).
  destruct (S_ISDIR (h_mode sb)); [|injection Hr as <-; by left].
  case_bool_decide; injection Hr as <-; [right; right|right; left; done].
  by rewrite <- En.
Qed.
End Walk.

(** ** The host's directories *)

Section Host.
Context (H : host) (top : list Z).

(** The directories below [top]: the path to open and the path its entries
    are looked up in. *)
Inductive reach : list Z -> list Z -> Prop :=
  | reach_top : reach (in_dir top dot) top
  | reach_down r b names c sb : reach r b -> opendir H r = Some names -> c ∈ names ->
      c <> dot -> c <> dotdot -> lstat H (in_dir b c) = Some sb ->
      S_ISDIR (h_mode sb) = true -> reach (in_dir b c) (in_dir b c).

Definition same_inode (s1 s2 : hstat) : Prop := h_dev s1 = h_dev s2 /\ h_ino s1 = h_ino s2.

(** A host as file systems are: what a path leads to depends on its inode,
    "." and ".." are the directory and the one above, a name occurs once; and
    no name begins with @, which would ask for something else. *)
Record host_ok : Prop := {
  hk_stat p sb : lstat H p = Some sb -> stat_ok sb;
  hk_ids p sb : lstat H p = Some sb -> h_ino sb < 2 ^ 64 - 1;
  hk_names p names : opendir H p = Some names ->
    NoDup names /\ Forall (fun c => name_ok c /\ c <> [] /\ hd 0 c <> 64) names;
  hk_inode p q sp sq : lstat H p = Some sp -> lstat H q = Some sq -> same_inode sp sq ->
    sp = sq /\ opendir H p = opendir H q /\ contents H p = contents H q;
  hk_read p sb : lstat H p = Some sb -> S_ISREG (h_mode sb) = true -> access H p = true ->
    0 < open H p /\ Z.of_nat (length (contents H p)) = h_size sb /\
    Forall (fun b => 0 <= b < 256) (contents H p);
  hk_readlink p t : readlink H p = Some t -> Forall (fun b => 0 <= b < 256) t;
  hk_below p q sp c : lstat H p = Some sp -> lstat H q = Some sp ->
    lstat H (in_dir p c) = lstat H (in_dir q c) /\ access H (in_dir p c) = access H (in_dir q c);
  hk_dot r b : reach r b -> lstat H (in_dir b dot) = lstat H r;
  hk_dotdot r b names c sb : reach r b -> opendir H r = Some names -> c ∈ names ->
    c <> dot -> c <> dotdot -> lstat H (in_dir b c) = Some sb -> S_ISDIR (h_mode sb) = true ->
    lstat H (in_dir (in_dir b c) dotdot) = lstat H r;
  hk_top : exists sb, lstat H (in_dir top dot) = Some sb /\ S_ISDIR (h_mode sb) = true /\
    lstat H top = Some sb;
  hk_parent su : lstat H (in_dir top dotdot) = Some su -> S_ISDIR (h_mode su) = true;
  hk_up r b names c sb su : reach r b -> opendir H r = Some names -> c ∈ names ->
    c <> dot -> c <> dotdot -> lstat H (in_dir b c) = Some sb ->
    lstat H (in_dir top dotdot) = Some su -> same_inode sb su ->
    exists st, lstat H (in_dir top dot) = Some st /\ same_inode sb st }.

(** ** The nodes in the order of the image *)

(** What [lstat] said of a node. *)
Definition told (n : fnode) : Prop :=
  exists sb, lstat H (n_realname n) = Some sb /\ n_ondev n = h_dev sb /\ n_onino n = h_ino sb /\
    n_modes n = h_mode sb /\ (n_link n = None -> n_size n = data_size sb) /\
    (S_ISREG (n_modes n) = true -> access H (n_realname n) = true).

(** [m] stands for the file of [n] itself. *)
Definition original (m n : fnode) : Prop :=
  n_link m = None /\ n_ondev m = n_ondev n /\ n_onino m = n_onino n.

(** A link leads to an earlier node of the same file; the ".." of the top
    leads to the top itself. *)
Definition linked (ns : list fnode) (n : fnode) : Prop :=
  match n_link n with
  | None => True
  | Some l => exists m, m ∈ ns /\ n_offset m = l /\
      (original m n \/ n_link m = None /\ n_name n = dotdot /\
        n_realname n = in_dir top dotdot /\ n_realname m = in_dir top dot)
  end.

Inductive tree_ok (start : Z) : list fnode -> Z -> Prop :=
  | tree_nil : tree_ok start [] start
  | tree_snoc ns cur n c : tree_ok start ns cur -> lies cur n c -> told n -> linked ns n ->
      tree_ok start (ns ++ [n]) c.

Lemma tree_ok_range start ns cur : 0 < start -> aligned start -> tree_ok start ns cur ->
  start <= cur /\ aligned cur.
Proof.
  intros Hs Ha. induction 1 as [|ns cur n c _ [IH1 IH2] Hl _ _]; [done|].
  split; [|by apply (lies_aligned cur n c)]. destruct Hl as [Hf Hp He [Hn Hpd Hsz _] _ _ _ _].
  pose proof (padded_bounds (Z.of_nat (length (n_name n))) ltac:(lia)).
  pose proof (ALIGNUP16_bounds (n_size n)). lia.
Qed.

Lemma tree_ok_linked start ns cur n : tree_ok start ns cur -> n ∈ ns -> linked ns n.
Proof.
  induction 1 as [|ns cur m c Ht IH Hl Hm Hk]; [by intros Hn%elem_of_nil|]. intros Hn.
  assert (Hk' : linked ns n).
  { apply elem_of_app in Hn as [Hn| ->%list_elem_of_singleton]; [by apply IH|done]. }
  unfold linked in *. destruct (n_link n); [|done]. destruct Hk' as (x & Hx & Hr). exists x.
  split; [|done]. apply elem_of_app. by left.
Qed.

Lemma same_file_iff dev ino n : same_file dev ino n = true <-> n_ondev n = dev /\ n_onino n = ino.
Proof. unfold same_file. rewrite andb_true_iff, !Z.eqb_eq. done. Qed.

Lemma find_none_in {A} (f : A -> bool) l x : List.find f l = None -> x ∈ l -> f x = false.
Proof. rewrite list_elem_of_In. intros Hf Hx. by apply (find_none f l Hf). Qed.

Lemma tree_ok_told start ns cur n : tree_ok start ns cur -> n ∈ ns -> told n.
Proof.
  induction 1 as [|ns cur m c Ht IH Hl Hm Hk]; [by intros Hn%elem_of_nil|].
  intros [Hn| ->%list_elem_of_singleton]%elem_of_app; [by apply IH|done].
Qed.

(** The first node of a file is no link. *)
Lemma first_original start ns cur dev ino m : host_ok -> tree_ok start ns cur ->
  (forall su, lstat H (in_dir top dotdot) = Some su -> dev = h_dev su -> ino = h_ino su ->
     exists st, lstat H (in_dir top dot) = Some st /\ dev = h_dev st /\ ino = h_ino st) ->
  List.find (same_file dev ino) ns = Some m -> n_link m = None.
Proof.
  intros HK Ht Hup. induction Ht as [|ns cur n c Ht IH Hl (sb & Hsb & Hdv & Hin & _) Hk]; [done|].
  rewrite find_app. destruct (List.find _ ns) as [x|] eqn:Ef; [intros [= ->]; by apply IH|].
  cbn [List.find]. destruct (same_file dev ino n) eqn:Es; [|done]. intros [= <-].
  apply same_file_iff in Es as [Ed Ei]. unfold linked in Hk. destruct (n_link n) as [l|]; [|done].
  destruct Hk as (x & Hx & _ & Hk). apply (find_none_in _ _ _ Ef) in Hx as Hns.
  enough (same_file dev ino x = true) by congruence. apply same_file_iff.
  destruct Hk as [(_ & E1 & E2)|(_ & _ & E3 & E4)]; [by rewrite E1, E2|].
  rewrite E3 in Hsb. destruct (Hup sb Hsb) as (st & Hst & -> & ->); [congruence|congruence|].
  destruct (tree_ok_told _ _ _ _ Ht Hx) as (st' & Hst' & -> & -> & _).
  rewrite E4 in Hst'. by replace st' with st by congruence.
Qed.

Section Step.
Context (HK : host_ok) (o : options) (Ho : options_ok o) (Hx : o_excludelist o = []).
Context (Hx2 : o_alignlist o = []).
Context (start : Z) (Hs0 : 0 < start) (Hsa : aligned start) (rootn : fnode).
Context (Hroot : n_onino rootn = 2 ^ 64 - 1).

Lemma find_in {A} (f : A -> bool) l x : List.find f l = Some x -> x ∈ l /\ f x = true.
Proof. intros E. rewrite list_elem_of_In. by apply find_some. Qed.

Lemma findnode_original p rest cur r b names c sb l :
  nodes p = rootn :: rest -> tree_ok start rest cur ->
  reach r b -> opendir H r = Some names -> c ∈ names -> c <> dot -> c <> dotdot ->
  lstat H (in_dir b c) = Some sb -> findnode p (h_dev sb) (h_ino sb) = Some l ->
  exists m, m ∈ rest /\ n_offset m = l /\ n_link m = None /\
    n_ondev m = h_dev sb /\ n_onino m = h_ino sb.
Proof.
  intros Hp Ht Hr Hd Hc N1 N2 Hst Hf. rewrite findnode_first, Hp in Hf. unfold first_of in Hf.
  cbn [List.find] in Hf. pose proof (hk_ids HK _ _ Hst) as Hid.
  destruct (same_file (h_dev sb) (h_ino sb) rootn) eqn:Er.
  { apply same_file_iff in Er as [_ Er]. lia. }
  destruct (List.find _ rest) as [m|] eqn:Em; [|done]. injection Hf as <-.
  destruct (find_in _ _ _ Em) as [Hm [E1 E2]%same_file_iff]. exists m.
  split; [done|]. split; [done|]. split; [|done].
  eapply first_original; [exact HK|exact Ht| |exact Em].
  intros su Hsu Ed Ei. destruct (hk_up HK r b names c sb su) as (st & Hst' & E3 & E4); try done.
  exists st. split; [done|]. split; congruence.
Qed.

(** [off] is the offset of a directory of the image, that of the host path
    [r]. *)
Definition owned (ns : list fnode) (off : Z) (r : list Z) : Prop :=
  exists m, m ∈ ns /\ n_offset m = off /\ n_link m = None /\ S_ISDIR (n_modes m) = true /\
    lstat H (n_realname m) = lstat H r.

Lemma owned_mono ns ns' off r : owned ns off r -> ns ⊆ ns' -> owned ns' off r.
Proof. intros (m & Hm & Hr) Hs. exists m. split; [by apply Hs|done]. Qed.

(** Where [processdir] is: in the directory [r], its entries in [b]. *)
Record at_dir (level : Z) (r b : list Z) (ns : list fnode) (owner grand : Z) : Prop := {
  ad_reach : reach r b;
  ad_owner : owned ns owner r;
  ad_grand : 1 < level -> b = r /\ exists r', owned ns grand r' /\ lstat H (in_dir b dotdot) = lstat H r' }.

Lemma at_dir_mono level r b ns ns' owner grand :
  at_dir level r b ns owner grand -> ns ⊆ ns' -> at_dir level r b ns' owner grand.
Proof.
  intros [Hr Hw Hg] Hs. split; [done|by eapply owned_mono|].
  intros Hl. destruct (Hg Hl) as (Hb & r' & Hr' & E). split; [done|]. exists r'.
  split; [by eapply owned_mono|done].
Qed.

Lemma newnode_eq b c cur : cur <> 0 -> 0 <= cur < 2 ^ 31 ->
  newnode b c cur = FNode c (in_dir b c) (2 ^ 64 - 1) (0, 0) (2 ^ 64 - 1) (2 ^ 32 - 1) cur 0 0 None.
Proof.
  intros Hc Hr. unfold newnode. rewrite (proj2 (Z.eqb_neq _ _)) by done. by rewrite u32_id by lia.
Qed.

(** A link at [cur] is placed. *)
Lemma link_step rest cur c sb real n1 cur1 cur2 l d :
  tree_ok start rest cur -> lstat H real = Some sb -> name_ok c ->
  (S_ISREG (h_mode sb) = true -> access H real = true) ->
  let n := FNode c real (h_dev sb) d (h_ino sb) (h_mode sb) cur 0 0 (Some l) in
  (forall n', same_id n n' -> linked rest n') ->
  alignnode H o n cur 0 = Done (n1, cur1) -> iadd cur1 (spaceneeded n1) = Done cur2 ->
  tree_ok start (rest ++ [n1]) cur2 /\ same_id n n1.
Proof.
  intros Ht Hst Hn Hacc n Hlk Ha Hi. pose proof (tree_ok_range _ _ _ Hs0 Hsa Ht) as [Hge Hal].
  pose proof (hk_stat HK _ _ Hst) as Hso.
  assert (E : n1 = set_size n1 0).
  { apply alignnode_ok in Ha as (pad & -> & _); try done. lia. }
  rewrite E in Hi. apply (place_ok H o Ho n cur 0 n1 cur1 cur2 0) in Ha as [Hl [pad ->]];
    try done; try lia; try by right.
  assert (Hid : same_id n (set_place n (cur + pad) pad)) by done.
  split; [|done]. eapply tree_snoc; [exact Ht|exact Hl| |by apply Hlk].
  exists sb. repeat split; try done.
Qed.

Context (Hs1 : start < 2 ^ 31).

Lemma tree_ok_bound rest cur : tree_ok start rest cur -> cur < 2 ^ 31.
Proof. induction 1 as [|ns cur n c _ _ Hl _ _]; [done|apply Hl]. Qed.

(** What a directory holds leads back to it by "." and to the one above by "..". *)
Lemma owned_linked rest cur off r n : tree_ok start rest cur -> owned rest off r ->
  (exists sb, lstat H r = Some sb /\ n_ondev n = h_dev sb /\ n_onino n = h_ino sb) ->
  n_link n = Some off -> linked rest n.
Proof.
  intros Ht (m & Hm & Hmo & Hml & Hmd & Hmr) (sb & Hsb & Ed & Ei) El. unfold linked. rewrite El.
  exists m. split; [done|]. split; [done|]. left. split; [done|].
  destruct (tree_ok_told _ _ _ _ Ht Hm) as (sb' & E & -> & -> & _).
  rewrite Ed, Ei. split; congruence.
Qed.

(** The node of an entry is appended. *)
Definition stepped (rest : list fnode) (b c : list Z) (n : fnode) (cur : Z) : Prop :=
  tree_ok start (rest ++ [n]) cur /\ n_name n = c /\ n_realname n = in_dir b c.

Definition entry_result (level : Z) (rest : list fnode) (b c : list Z) (a : action) : Prop :=
  match a with
  | Skip => level <= 1 /\ (c = dot \/ c = dotdot) \/
      forall sb, lstat H (in_dir b c) = Some sb ->
        S_ISLNK (h_mode sb) = false /\ access H (in_dir b c) = false
  | Add n cur => stepped rest b c n cur /\ (n_link n = None -> S_ISDIR (n_modes n) = false) /\
      (level <= 1 -> c <> dot /\ c <> dotdot)
  | Enter n cur => stepped rest b c n cur /\ n_link n = None /\ S_ISDIR (n_modes n) = true /\
      c <> dot /\ c <> dotdot
  | Again _ _ => False
  end.

(** The link the code chooses for an entry, if any. *)
Definition entry_link (p : filenode) (owner grand : Z) (c : list Z) (sb : hstat) : option Z :=
  if bool_decide (c = dot) then Some owner
  else if bool_decide (c = dotdot) then Some grand
  else findnode p (h_dev sb) (h_ino sb).

Lemma entry_link_ok p level r b names c rest cur owner grand sb l n :
  nodes p = rootn :: rest -> tree_ok start rest cur -> at_dir level r b rest owner grand ->
  opendir H r = Some names -> c ∈ names -> lstat H (in_dir b c) = Some sb ->
  (level <= 1 -> c <> dot /\ c <> dotdot) ->
  entry_link p owner grand c sb = Some l ->
  n_ondev n = h_dev sb -> n_onino n = h_ino sb -> n_link n = Some l -> linked rest n.
Proof.
  intros Hp Ht [Hr How Hg] Hd Hc Hst Hlev He Ed Ei El. unfold entry_link in He.
  case_bool_decide as N1; [injection He as <-|case_bool_decide as N2; [injection He as <-|]].
  - eapply owned_linked; [done|exact How| |done]. exists sb. split; [|done].
    rewrite <- (hk_dot HK r b), <- N1 by done. exact Hst.
  - destruct (decide (1 < level)) as [Hl|Hl]; [|destruct Hlev; [lia|done]].
    destruct (Hg Hl) as (_ & r' & Hr' & E). eapply owned_linked; [done|exact Hr'| |done].
    exists sb. split; [|done]. by rewrite <- E, <- N2.
  - destruct (findnode_original p rest cur r b names c sb l) as (m & Hm & Hmo & Hml & E1 & E2);
      try done. unfold linked. rewrite El. exists m. split; [done|]. split; [done|]. left.
    split; [done|]. split; congruence.
Qed.

Lemma entry_ok p level r b names c rest cur owner grand a :
  nodes p = rootn :: rest -> tree_ok start rest cur -> at_dir level r b rest owner grand ->
  opendir H r = Some names -> c ∈ names ->
  entry H o p level b owner grand cur c = Done a -> entry_result level rest b c a.
Proof.
  intros Hp Ht Hat Hd Hc He. pose proof (tree_ok_range _ _ _ Hs0 Hsa Ht) as [Hge Hal].
  pose proof (tree_ok_bound _ _ Ht) as Hcb.
  destruct (hk_names HK _ _ Hd) as [_ Hnames]. rewrite List.Forall_forall in Hnames.
  destruct (Hnames c) as (Hcn & _ & H64); [by apply list_elem_of_In|]. unfold entry in He.
  destruct ((level <=? 1) && _) eqn:El.
  { injection He as <-. left. apply andb_true_iff in El as [El Ec]. b2p. split; [done|].
    apply orb_true_iff in Ec as [Ec|Ec]; apply bool_decide_eq_true in Ec; auto. }
  assert (Hlev : level <= 1 -> c <> dot /\ c <> dotdot).
  { intros Hl. rewrite (proj2 (Z.leb_le level 1) Hl) in El. cbn [andb] in El.
    apply orb_false_iff in El as [E1 E2]. by apply bool_decide_eq_false in E1, E2. }
  rewrite newnode_eq in He by lia. unfold excluded in He. rewrite Hx in He.
  cbn [mbind gen_bind n_realname n_name] in He.
  destruct (lstat H (in_dir b c)) as [sb|] eqn:Est; [|injection He as <-; right; congruence].
  unfold special in He. cbn [n_name] in He. rewrite (proj2 (Z.eqb_neq (hd 0 c) 64)) in He by done.
  cbn [negb mbind gen_bind] in He. unfold setnode in He.
  cbn [n_name n_realname n_ondev n_devnode n_onino n_modes n_offset n_size n_pad n_link] in He.
  destruct (negb (S_ISLNK (h_mode sb)) && negb (access H (in_dir b c))) eqn:Eacc.
  { injection He as <-. right. intros sb' E'. replace sb' with sb by congruence. by b2p. }
  fold (entry_link p owner grand c sb) in He.
  assert (Hacc : S_ISREG (h_mode sb) = true -> access H (in_dir b c) = true).
  { intros Hreg. type_cases (h_mode sb); try done. by destruct (access H (in_dir b c)). }
  destruct (entry_link p owner grand c sb) as [l|] eqn:Elk.
  - run_inv He. destruct a0 as [n1 cur1]. run_inv He. injection He as <-.
    destruct (link_step rest cur c sb (in_dir b c) n1 cur1 a0 l (0, 0)) as [Ht' Hid]; try done.
    { intros n' [_ _ E1 E2 _ E3]. by eapply entry_link_ok. }
    destruct Hid as [E1 E2 _ _ _ E3]. split; [done|]. split; [|done]. by rewrite E3.
  - assert (Hnd : c <> dot /\ c <> dotdot).
    { unfold entry_link in Elk. do 2 (case_bool_decide; [done|]). done. }
    apply settle_ok in He as (n' & c' & Hl & [E1 E2 E3 E4 E5 E6] & Ez & Ha); try done; try lia;
      [|by eapply hk_stat].
    cbn [n_name n_realname n_ondev n_onino n_modes n_link] in *.
    assert (Hst : stepped rest b c n' c').
    { split; [|done]. eapply tree_snoc; [exact Ht|exact Hl| |unfold linked; by rewrite E6].
      exists sb. rewrite E2, E3, E4, E5. by repeat split. }
    destruct Ha as [[-> Hdir]|[[-> Hdir]|[-> Hdd]]]; cbn; rewrite ?E5; try done. by destruct Hnd.
Qed.

(** ** What [processdir] makes of a directory *)

(** The entries made of [names], in their order. *)
Record entries_of (level : Z) (b : list Z) (names : list (list Z)) (l : list filenode) : Prop := {
  eo_names : map (fun p => n_name (node p)) l `sublist_of` names;
  eo_real : Forall (fun p => n_realname (node p) = in_dir b (n_name (node p))) l;
  eo_dots : level <= 1 -> Forall (fun p => n_name (node p) <> dot /\ n_name (node p) <> dotdot) l;
  eo_all c sb : c ∈ names -> ~ (level <= 1 /\ (c = dot \/ c = dotdot)) ->
    lstat H (in_dir b c) = Some sb -> S_ISLNK (h_mode sb) = true \/ access H (in_dir b c) = true ->
    exists p, p ∈ l /\ n_name (node p) = c }.

Definition dir_entries (level : Z) (r b : list Z) (l : list filenode) : Prop :=
  match opendir H r with
  | None => l = []
  | Some names => entries_of level b names l
  end.

(** A node and what is below it. *)
Fixpoint subtrees (p : filenode) : list filenode :=
  p :: flat_map subtrees (let '(Filenode _ l) := p in l).

Definition good_sub (p : filenode) : Prop :=
  let '(Filenode n l) := p in
  if match n_link n with None => S_ISDIR (n_modes n) | Some _ => false end
  then dir_entries 2 (n_realname n) (n_realname n) l else l = [].

Lemma entries_nil level b : entries_of level b [] [].
Proof. split; [done|done|done|]. intros c sb Hc. by apply elem_of_nil in Hc. Qed.

Lemma entries_skip level rest b c names l :
  entry_result level rest b c Skip -> entries_of level b names l ->
  entries_of level b (c :: names) l.
Proof.
  intros Hsk [E1 E2 E3 E4]. split; [by apply sublist_cons|done|done|].
  intros c' sb [->|Hc]%elem_of_cons Hd Hst Hacc; [|by eapply E4].
  destruct Hsk as [Hsk|Hsk]; [done|]. destruct (Hsk _ Hst) as [E5 E6]. rewrite E5, E6 in Hacc.
  by destruct Hacc.
Qed.

Lemma entries_cons level b names p l :
  n_realname (node p) = in_dir b (n_name (node p)) ->
  (level <= 1 -> n_name (node p) <> dot /\ n_name (node p) <> dotdot) ->
  entries_of level b names l -> entries_of level b (n_name (node p) :: names) (p :: l).
Proof.
  intros Hr Hd [E1 E2 E3 E4]. split.
  - by apply sublist_skip.
  - by constructor.
  - constructor; auto.
  - intros c sb [->|Hc]%elem_of_cons Hn Hst Hacc; [exists p; split; [by left|done]|].
    destruct (E4 c sb Hc Hn Hst Hacc) as (q & Hq & Eq). exists q. split; [by right|done].
Qed.

(** What the proof needs of a walk into a directory below. *)
Definition walk_ok
    (walk : (list filenode -> filenode) -> Z -> list Z -> list Z -> Z -> Z -> list filenode -> Z ->
            gen (list filenode * Z)) : Prop :=
  forall plug pre level r owner grand cur l c,
  (forall l, nodes (plug l) = rootn :: pre ++ flat_map nodes l) ->
  tree_ok start pre cur -> 1 < level -> at_dir level r r pre owner grand ->
  walk plug level r r owner grand [] cur = Done (l, c) ->
  tree_ok start (pre ++ flat_map nodes l) c /\ dir_entries level r r l /\
  Forall good_sub (flat_map subtrees l).

Lemma flat_map_snoc {A B} (f : A -> list B) l x : flat_map f (l ++ [x]) = flat_map f l ++ f x.
Proof. rewrite flat_map_app. cbn. by rewrite app_nil_r. Qed.

Lemma dir_entries_level level level' r b l : 1 < level -> 1 < level' ->
  dir_entries level r b l -> dir_entries level' r b l.
Proof.
  intros H1 H2. unfold dir_entries. destruct (opendir H r); [|done]. intros [E1 E2 E3 E4].
  split; [done|done|lia|]. intros c sb Hc Hn. apply E4; [done|]. lia.
Qed.

(** Going down into the directory [x] of [r]. *)
Lemma at_dir_down level r b names x ns owner grand n cur :
  at_dir level r b ns owner grand -> opendir H r = Some names -> x ∈ names ->
  1 <= level -> stepped ns b x n cur -> n_link n = None -> S_ISDIR (n_modes n) = true ->
  x <> dot -> x <> dotdot ->
  at_dir (level + 1) (in_dir b x) (in_dir b x) (ns ++ [n]) (n_offset n) owner.
Proof.
  intros [Hr How Hg] Hd Hxn Hl (Ht & En & Ern) Hnl Hdir N1 N2.
  assert (Hin : n ∈ ns ++ [n]) by (apply elem_of_app; right; by left).
  destruct (tree_ok_told _ _ _ _ Ht Hin) as (sb & Hst & _ & _ & Em & _).
  rewrite Ern in Hst. rewrite Em in Hdir. split.
  - by eapply reach_down.
  - exists n. rewrite Ern, Em. done.
  - intros _. split; [done|]. exists r. split; [|by eapply hk_dotdot].
    eapply owned_mono; [exact How|]. by apply list_subseteq_app_l.
Qed.

(** A node and what was made below it, in front of what comes after it. *)
Lemma result_cons level b x names n l new :
  n_name n = x -> n_realname n = in_dir b x -> (level <= 1 -> x <> dot /\ x <> dotdot) ->
  good_sub (Filenode n l) -> Forall good_sub (flat_map subtrees l) ->
  entries_of level b names new -> Forall good_sub (flat_map subtrees new) ->
  entries_of level b (x :: names) (Filenode n l :: new) /\
  Forall good_sub (flat_map subtrees (Filenode n l :: new)).
Proof.
  intros En Er Hd Hg Hl He Hnew. split.
  - rewrite <- En. apply (entries_cons level b names (Filenode n l)); cbn [node]; rewrite ?En; done.
  - cbn [flat_map subtrees app]. constructor; [done|]. by apply Forall_app.
Qed.

Lemma loop_ok walk plug pre level r b owner grand all : walk_ok walk ->
  (forall l, nodes (plug l) = rootn :: pre ++ flat_map nodes l) ->
  opendir H r = Some all -> 1 <= level ->
  forall names done cur l c, names ⊆ all ->
  tree_ok start (pre ++ flat_map nodes done) cur ->
  at_dir level r b (pre ++ flat_map nodes done) owner grand ->
  readdir_loop H o walk plug level b r owner grand names done cur = Done (l, c) ->
  exists new, l = done ++ new /\ tree_ok start (pre ++ flat_map nodes l) c /\
    entries_of level b names new /\ Forall good_sub (flat_map subtrees new).
Proof.
  intros HW Hplug Hd Hlev. induction names as [|x names IH]; intros done cur l c Hin Ht Hat Hr.
  { injection Hr as <- <-. exists []. rewrite app_nil_r. split; [done|]. split; [done|].
    split; [apply entries_nil|constructor]. }
  cbn [readdir_loop] in Hr. run_inv Hr.
  assert (Hin' : names ⊆ all) by (intros y Hy; apply Hin; by right).
  apply (entry_ok (plug done) level r b all x (pre ++ flat_map nodes done)) in E as Hres;
    [|done|done|done|done|apply Hin; by left].
  destruct a as [|n cur'|n cur'|n cur']; [| | |done].
  - destruct (IH _ _ _ _ Hin' Ht Hat Hr) as (new & -> & Ht' & He & Hg). exists new.
    split; [done|]. split; [done|]. split; [by eapply entries_skip|done].
  - destruct Hres as ((Ht1 & En & Ern) & Hnd & Hdots).
    assert (Efl : pre ++ flat_map nodes (done ++ [Filenode n []])
        = (pre ++ flat_map nodes done) ++ [n]) by (by rewrite flat_map_snoc, app_assoc).
    destruct (IH (done ++ [Filenode n []]) cur' l c Hin') as (new & -> & Ht' & He & Hg); try done.
    { by rewrite Efl. }
    { rewrite Efl. eapply at_dir_mono; [exact Hat|]. by apply list_subseteq_app_l. }
    exists (Filenode n [] :: new). rewrite <- app_assoc in *. split; [done|]. split; [done|].
    apply result_cons; try done. cbn. destruct (n_link n); [done|]. by rewrite Hnd.
  - destruct Hres as (Hst & Hnl & Hdir & N1 & N2). run_inv Hr. destruct a as [l0 cur0].
    pose proof (at_dir_down _ _ _ _ _ _ _ _ _ _ Hat Hd (Hin x ltac:(by left)) Hlev Hst Hnl Hdir N1 N2)
      as Hat'. destruct Hst as (Ht1 & En & Ern). rewrite Ern in E0.
    apply (HW _ ((pre ++ flat_map nodes done) ++ [n])) in E0 as (Ht0 & He0 & Hg0);
      [|intros l'; by rewrite Hplug, flat_map_snoc, <- !app_assoc|done|lia|done].
    assert (Efl : pre ++ flat_map nodes (done ++ [Filenode n l0])
        = ((pre ++ flat_map nodes done) ++ [n]) ++ flat_map nodes l0)
      by (by rewrite flat_map_snoc, <- !app_assoc).
    destruct (IH (done ++ [Filenode n l0]) cur0 l c Hin') as (new & -> & Ht' & He & Hg); try done.
    { by rewrite Efl. }
    { rewrite Efl, <- app_assoc. eapply at_dir_mono; [exact Hat|]. by apply list_subseteq_app_l. }
    exists (Filenode n l0 :: new). rewrite <- app_assoc in *. split; [done|]. split; [done|].
    apply result_cons; try done. cbn. rewrite Hnl, Hdir, Ern.
    apply dir_entries_level with (level := level + 1); [lia|lia|done].
Qed.

Lemma processdir_below fuel : walk_ok (processdir H o fuel).
Proof.
  induction fuel as [|f IH]; intros plug pre level r owner grand cur l c Hplug Ht Hlev Hat Hr;
    [done|].
  cbn [processdir] in Hr. rewrite (proj2 (Z.leb_gt level 1)) in Hr by done.
  cbn [mbind gen_bind] in Hr. unfold dir_entries. destruct (opendir H r) as [names|] eqn:Ed.
  - eapply loop_ok in Hr as (new & -> & Ht' & He & Hg); [|exact IH|exact Hplug|done|lia|done|..].
    + done.
    + cbn. by rewrite app_nil_r.
    + cbn. by rewrite app_nil_r.
  - injection Hr as <- <-. cbn. rewrite app_nil_r. split; [done|]. split; [done|constructor].
Qed.

(** ** The whole tree *)

(** The entries made first at the top: "." and perhaps "..". *)
Record top_dots (l : list filenode) (owner cur : Z) : Prop := {
  td_nodes : exists n1 more, l = Filenode n1 [] :: more /\ n_name n1 = dot /\
    n_realname n1 = in_dir top dot /\ n_link n1 = None /\ S_ISDIR (n_modes n1) = true /\
    owner = n_offset n1 /\ n_offset n1 = start /\
    (more = [] \/ exists n2, more = [Filenode n2 []] /\ n_name n2 = dotdot /\
       n_realname n2 = in_dir top dotdot /\ n_link n2 = Some (n_offset n1));
  td_tree : tree_ok start (flat_map nodes l) cur }.

Lemma dot_ok sb n1 cur : lstat H (in_dir top dot) = Some sb -> S_ISDIR (h_mode sb) = true ->
  let n := setnode (newnode top dot start) (h_dev sb) (h_ino sb) (h_mode sb) in
  forall c1, alignnode H o n start 0 = Done (n1, c1) -> iadd c1 (spaceneeded n1) = Done cur ->
  tree_ok start [n1] cur /\ same_id n n1 /\ n_offset n1 = start.
Proof.
  intros Hst Hdir m c1 Ha Hi. unfold m in *. clear m. rewrite newnode_eq in * by lia.
  unfold setnode in *. cbn in Ha. set (m := FNode dot _ _ _ _ _ _ _ _ _) in Ha.
  assert (Hd0 : data_size sb = 0).
  { unfold data_size, has_size. by type_cases (h_mode sb). }
  assert (E : n1 = set_size n1 0).
  { apply alignnode_ok in Ha as (pad & -> & _); try done. lia. }
  rewrite E in Hi.
  assert (Em : n1 = m).
  { eapply alignnode_stays; [done| |done|exact Ha]. cbn. by type_cases (h_mode sb). }
  apply (place_ok H o Ho m start 0 n1 c1 cur 0) in Ha as [Hl [pad ->]];
    try done; try lia; try by right.
  - split; [|split; [done|by rewrite Em]]. apply (tree_snoc start [] start); [constructor|exact Hl| |done].
    exists sb. cbn. repeat split; try done. intros Hreg. by type_cases (h_mode sb).
  - split; [by repeat constructor|cbn; lia].
  - unfold node_type. cbn. by rewrite Hdir.
Qed.

Lemma dots_ok l ow gr owner grand cur :
  dots H o top ow gr [] start = Done (l, owner, grand, cur) -> top_dots l owner cur.
Proof.
  intros Hr. destruct (hk_top HK) as (sb & Hst & Hdir & _). unfold dots in Hr.
  assert (Er : n_realname (newnode top dot start) = in_dir top dot) by (by rewrite newnode_eq by lia).
  rewrite Er, Hst in Hr. run_inv Hr. destruct a as [n1 c1]. run_inv Hr. rename a into c2.
  destruct (dot_ok sb n1 c2 Hst Hdir c1 E E0) as (Ht & Hid & Hoff).
  rewrite newnode_eq in Hid by lia. destruct Hid as [E1 E2 _ _ E5 E6].
  cbn in E1, E2, E5, E6. rewrite <- E5 in Hdir.
  pose proof (tree_ok_range _ _ _ Hs0 Hsa Ht) as [Hge Hal]. pose proof (tree_ok_bound _ _ Ht).
  rewrite newnode_eq in Hr by lia. cbn [n_realname] in Hr.
  destruct (lstat H (in_dir top dotdot)) as [su|] eqn:Esu.
  - unfold setnode, set_link in Hr. cbn in Hr. run_inv Hr. destruct a as [n2 c3]. run_inv Hr.
    injection Hr as <- <- <- <-. pose proof (hk_parent HK _ Esu) as Hdu.
    destruct (link_step [n1] c2 dotdot su (in_dir top dotdot) n2 c3 a (n_offset n1) (0, 0))
      as [Ht2 [F1 F2 _ _ _ F6]]; try done.
    { split; [by repeat constructor|cbn; lia]. }
    { intros Hreg. by type_cases (h_mode su). }
    { intros n' [G1 G2 _ _ _ G6]. unfold linked. rewrite G6. exists n1. split; [by left|].
      split; [done|]. right. by rewrite G1, G2. }
    split; [|done]. exists n1, [Filenode n2 []]. repeat (split; [done|]). right. by exists n2.
  - injection Hr as <- <- <- <-. split; [|done]. exists n1, []. repeat (split; [done|]). by left.
Qed.

Lemma processdir_top fuel ow gr l c :
  processdir H o fuel (Filenode rootn) 1 top (in_dir top dot) ow gr [] start = Done (l, c) ->
  exists owner cur0 dots new, l = dots ++ new /\ top_dots dots owner cur0 /\
    tree_ok start (flat_map nodes l) c /\ dir_entries 1 (in_dir top dot) top new /\
    Forall good_sub (flat_map subtrees new).
Proof.
  destruct fuel as [|f]; [done|]. cbn [processdir]. change (1 <=? 1) with true. cbv iota.
  intros Hr. run_inv Hr. destruct a as [[[ds owner] grand] cur0]. apply dots_ok in E as Htd.
  exists owner, cur0, ds. unfold dir_entries.
  destruct (opendir H (in_dir top dot)) as [names|] eqn:Ed.
  - apply (loop_ok (processdir H o f) (Filenode rootn) [] 1 (in_dir top dot) top owner grand names)
      in Hr as (new & -> & Ht & He & Hg); try done.
    + by exists new.
    + apply processdir_below.
    + apply Htd.
    + split; [apply reach_top| |lia].
      destruct Htd as [(n1 & more & -> & _ & E2 & E3 & E4 & -> & _ & _) _]. exists n1.
      split; [by left|]. by rewrite E2.
  - injection Hr as <- <-. exists []. rewrite app_nil_r. split; [done|]. split; [done|].
    split; [apply Htd|]. split; [done|constructor].
Qed.

(** ** The walk returns *)

(** What an entry takes at most: padding, header, name, data, and what lies
    below a directory. *)
Definition entry_cost (weight : list Z -> Z) (b c : list Z) : Z :=
  match lstat H (in_dir b c) with
  | None => 0
  | Some sb =>
      4400 + data_size sb +
      (if S_ISDIR (h_mode sb) && negb (bool_decide (c = dot) || bool_decide (c = dotdot))
       then weight (in_dir b c) else 0)
  end.

Definition total (f : list Z -> Z) (names : list (list Z)) : Z :=
  fold_right (fun c s => f c + s) 0 names.

(** [rank] falls from a directory to those in it, [weight] bounds what a
    directory takes in the image. *)
Record measured (rank : list Z -> nat) (weight : list Z -> Z) : Prop := {
  me_rank r b names c sb : reach r b -> opendir H r = Some names -> c ∈ names -> c <> dot ->
    c <> dotdot -> lstat H (in_dir b c) = Some sb -> S_ISDIR (h_mode sb) = true ->
    (rank (in_dir b c) < rank r)%nat;
  me_weight r : 0 <= weight r;
  me_total r b names : reach r b -> opendir H r = Some names ->
    total (entry_cost weight b) names <= weight r }.

Lemma findalign_done n : exists a, findalign H o n = Done a /\ align_ok a.
Proof.
  assert (E : findalign H o n = Done (if S_ISREG (n_modes n) then o_align o else 16))
    by (unfold findalign; by rewrite Hx2).
  eexists. split; [exact E|]. by eapply findalign_ok.
Qed.

Lemma iadd_done a b : - 2 ^ 31 <= a + b < 2 ^ 31 -> iadd a b = Done (a + b).
Proof.
  intros Hr. unfold iadd. by rewrite (proj2 (Z.leb_le _ _)), (proj2 (Z.ltb_lt _ _)) by lia.
Qed.

Lemma alignnode_done n cur extra : 0 <= cur -> 0 <= extra -> cur + extra + 4096 < 2 ^ 31 ->
  exists n' c, alignnode H o n cur extra = Done (n', c) /\ cur <= c <= cur + 4096.
Proof.
  intros Hc He Hb. unfold alignnode. destruct (findalign_done n) as (a & -> & Ha).
  cbn [mbind gen_bind]. rewrite iadd_done by lia. cbn [mbind gen_bind].
  rewrite align_ok_land by done. destruct Ha as [Har _].
  pose proof (Z.mod_pos_bound (cur + extra) a). destruct (_ =? 0); [eexists _, _; split; [done|lia]|].
  rewrite iadd_done by lia. cbn [mbind gen_bind]. eexists _, _. split; [done|lia].
Qed.

(** Placing a node of [size] bytes. *)
Lemma place_done n cur extra size : fresh n cur -> 0 <= cur -> aligned cur -> aligned extra ->
  0 <= extra -> name_ok (n_name n) -> 0 <= size < 2 ^ 30 -> cur + extra + 4400 + size < 2 ^ 31 ->
  exists n' c c', alignnode H o n cur extra = Done (n', c) /\
    iadd c (spaceneeded (set_size n' size)) = Done c' /\ c' <= cur + 4400 + size.
Proof.
  intros Hf Hc Hca Hea He [Hn1 Hn2] Hs Hb. destruct (alignnode_done n cur extra) as (n' & c & Ha & Hr); [lia..|].
  pose proof (padded_name _ Hn2). pose proof (ALIGNUP16_bounds size).
  pose proof Ha as Ha'. apply alignnode_ok in Ha' as (pad & -> & -> & Hp & _); try done.
  exists (set_place n (cur + pad) pad), (cur + pad). rewrite spaceneeded_eq by done. cbn [n_name n_size set_size set_place].
  rewrite iadd_done by lia. eexists. split; [done|]. split; [done|]. lia.
Qed.

Definition action_bound (a : action) (lim : Z) : Prop :=
  match a with Skip => True | Add _ c | Enter _ c | Again _ c => c <= lim end.

Lemma settle_done n sb cur : fresh n cur -> 0 <= cur -> aligned cur -> n_size n = 0 ->
  n_modes n = h_mode sb -> name_ok (n_name n) -> stat_ok sb -> cur + 4700 + data_size sb < 2 ^ 31 ->
  exists a, settle H o n sb cur = Done a /\ action_bound a (cur + 4400 + data_size sb).
Proof.
  intros Hf Hc Hca Hz Hm Hn Hs Hb. pose proof (data_size_range _ Hs) as Hd.
  destruct Hs as [Ht Hreg Hlnk]. destruct Hn as [Hn1 Hn2]. pose proof (padded_name _ Hn2) as Hpn.
  assert (Hsp : spaceneeded n = 16 + padded (Z.of_nat (length (n_name n)))).
  { rewrite spaceneeded_eq by (done || lia). rewrite Hz. change (ALIGNUP16 0) with 0. lia. }
  assert (Hspa : aligned (spaceneeded n)).
  { rewrite Hsp. apply aligned_add; [done|apply aligned_padded]. }
  destruct (place_done n cur (if S_ISREG (h_mode sb) then spaceneeded n else 0) (data_size sb))
    as (n' & c & c' & Ha & Hi & Hc'); try done; try (destruct (S_ISREG _); done || lia).
  unfold settle. revert Ha. unfold data_size, has_size in *. destruct (S_ISREG (h_mode sb)) eqn:Er; intros Ha.
  - rewrite Ha. cbn [mbind gen_bind orb] in *. assert (S_ISLNK (h_mode sb) = false) as ->
      by (by type_cases (h_mode sb)). specialize (Hreg eq_refl). rewrite u32_id, Hi by lia.
    cbn [mbind gen_bind]. destruct (S_ISDIR _); [case_bool_decide|]; eexists; (split; [done|]); exact Hc'.
  - rewrite Ha. cbn [mbind gen_bind orb] in *.
    assert (E : (if S_ISLNK (h_mode sb) then set_size n' (u32 (h_size sb)) else n')
        = set_size n' (if S_ISLNK (h_mode sb) then h_size sb else 0)).
    { destruct (S_ISLNK (h_mode sb)).
      - specialize (Hlnk eq_refl). by rewrite u32_id by lia.
      - apply alignnode_ok in Ha as (pad & -> & _); try done. unfold set_size, set_place. cbn. by rewrite Hz. }
    rewrite E, Hi. cbn [mbind gen_bind].
    destruct (S_ISDIR _); [case_bool_decide|]; eexists; (split; [done|]); exact Hc'.
Qed.

Lemma entry_done p level base names r owner grand cur c : opendir H r = Some names -> c ∈ names ->
  0 < cur -> aligned cur ->
  let size := match lstat H (in_dir base c) with None => 0 | Some sb => 4400 + data_size sb end in
  cur + 300 + size < 2 ^ 31 ->
  exists a, entry H o p level base owner grand cur c = Done a /\ action_bound a (cur + size).
Proof.
  intros Hd Hc Hc0 Hca size Hb. destruct (hk_names HK _ _ Hd) as [_ Hnames].
  rewrite List.Forall_forall in Hnames. destruct (Hnames c) as (Hcn & _ & H64); [by apply list_elem_of_In|].
  unfold entry. destruct ((level <=? 1) && _); [by exists Skip|].
  assert (Hsz0 : 0 <= size).
  { unfold size. destruct (lstat H _) as [sb|] eqn:E; [|lia].
    pose proof (data_size_range _ (hk_stat HK _ _ E)). lia. }
  rewrite newnode_eq by lia. unfold excluded. rewrite Hx. cbn [mbind gen_bind n_realname n_name].
  unfold size in *. destruct (lstat H (in_dir base c)) as [sb|] eqn:Est; [|by exists Skip].
  pose proof (hk_stat HK _ _ Est) as Hst. pose proof (data_size_range _ Hst) as Hds.
  unfold special. cbn [n_name]. rewrite (proj2 (Z.eqb_neq (hd 0 c) 64)) by done.
  cbn [negb mbind gen_bind]. unfold setnode.
  cbn [n_name n_realname n_ondev n_devnode n_onino n_modes n_offset n_size n_pad n_link].
  destruct (negb _ && negb _); [by exists Skip|].
  destruct (if bool_decide (c = dot) then _ else _) as [l|].
  - unfold set_link. cbn [n_name n_realname n_ondev n_devnode n_onino n_modes n_offset n_size n_pad].
    set (n := FNode c _ _ _ _ _ _ _ _ _).
    destruct (place_done n cur 0 0) as (n' & c1 & c2 & Ha & Hi & Hc2); try done; try lia.
    assert (E : n' = set_size n' 0).
    { apply alignnode_ok in Ha as (pad & -> & _); try done. lia. }
    rewrite Ha. cbn [mbind gen_bind]. rewrite E, Hi. cbn [mbind gen_bind].
    eexists. split; [done|]. cbn. lia.
  - set (n := FNode c _ _ _ _ _ _ _ _ _).
    destruct (settle_done n sb cur) as (a & -> & Ha); try done; try lia. exists a. split; [done|].
    destruct a; cbn in *; lia.
Qed.

(** The walk returns from the directory [r] at any offset that leaves room. *)
Definition walk_done rank weight
    (walk : (list filenode -> filenode) -> Z -> list Z -> list Z -> Z -> Z -> list filenode -> Z ->
            gen (list filenode * Z)) (k : nat) : Prop :=
  measured rank weight ->
  forall plug pre level r owner grand cur,
  (forall l, nodes (plug l) = rootn :: pre ++ flat_map nodes l) ->
  tree_ok start pre cur -> 1 < level -> at_dir level r r pre owner grand ->
  (rank r < k)%nat -> cur + 300 + weight r < 2 ^ 31 ->
  exists l c, walk plug level r r owner grand [] cur = Done (l, c) /\ c <= cur + weight r.

Lemma total_nonneg f names : (forall c, 0 <= f c) -> 0 <= total f names.
Proof.
  intros Hf. induction names as [|c names IH]; [done|]. specialize (Hf c).
  change (total f (c :: names)) with (f c + total f names). lia.
Qed.

Lemma entry_cost_nonneg rank weight b c : measured rank weight -> 0 <= entry_cost weight b c.
Proof.
  intros Me. unfold entry_cost. destruct (lstat H _) as [sb|] eqn:E; [|lia].
  pose proof (data_size_range _ (hk_stat HK _ _ E)). pose proof (me_weight _ _ Me (in_dir b c)).
  destruct (_ && _); lia.
Qed.

(** Going down returns. *)
Lemma enter_done rank weight walk k plug pre level r b owner grand all x done n cur :
  measured rank weight -> walk_ok walk -> walk_done rank weight walk k ->
  (forall l, nodes (plug l) = rootn :: pre ++ flat_map nodes l) ->
  opendir H r = Some all -> x ∈ all -> 1 <= level -> (rank r <= k)%nat ->
  at_dir level r b (pre ++ flat_map nodes done) owner grand ->
  entry_result level (pre ++ flat_map nodes done) b x (Enter n cur) ->
  cur + 300 + weight (in_dir b x) < 2 ^ 31 ->
  exists l c sb, walk (fun l => plug (done ++ [Filenode n l])) (level + 1) (n_realname n) (n_realname n)
      (n_offset n) owner [] cur = Done (l, c) /\ c <= cur + weight (in_dir b x) /\
    lstat H (in_dir b x) = Some sb /\ S_ISDIR (h_mode sb) = true /\ x <> dot /\ x <> dotdot /\
    tree_ok start (pre ++ flat_map nodes (done ++ [Filenode n l])) c /\
    at_dir level r b (pre ++ flat_map nodes (done ++ [Filenode n l])) owner grand.
Proof.
  intros Me HW HD Hplug Hd Hxa Hlev Hk Hat (Hst & Hnl & Hdir & N1 & N2) Hb.
  pose proof (at_dir_down _ _ _ _ _ _ _ _ _ _ Hat Hd Hxa Hlev Hst Hnl Hdir N1 N2) as Hat'.
  destruct Hst as (Ht1 & En & Ern). rewrite Ern.
  assert (Hin1 : n ∈ (pre ++ flat_map nodes done) ++ [n]) by (apply elem_of_app; right; by left).
  destruct (tree_ok_told _ _ _ _ Ht1 Hin1) as (sb & Hsb & _ & _ & Em & _).
  rewrite Ern in Hsb. rewrite Em in Hdir.
  assert (Hpl : forall l, nodes (plug (done ++ [Filenode n l]))
      = rootn :: ((pre ++ flat_map nodes done) ++ [n]) ++ flat_map nodes l)
    by (intros l; by rewrite Hplug, flat_map_snoc, <- !app_assoc).
  pose proof (me_rank _ _ Me r b all x sb (ad_reach _ _ _ _ _ _ Hat) Hd Hxa N1 N2 Hsb Hdir) as Hrk.
  destruct (HD Me (fun l => plug (done ++ [Filenode n l])) ((pre ++ flat_map nodes done) ++ [n])
    (level + 1) (in_dir b x) (n_offset n) owner cur Hpl Ht1 ltac:(lia) Hat' ltac:(lia) Hb)
    as (l & c & E & Hc).
  exists l, c, sb. repeat (split; [done|]).
  apply (HW _ ((pre ++ flat_map nodes done) ++ [n])) in E as (Ht0 & _); [|done|done|lia|done].
  assert (Efl : pre ++ flat_map nodes (done ++ [Filenode n l])
      = ((pre ++ flat_map nodes done) ++ [n]) ++ flat_map nodes l)
    by (by rewrite flat_map_snoc, <- !app_assoc).
  rewrite Efl. split; [done|]. rewrite <- app_assoc. eapply at_dir_mono; [exact Hat|].
  by apply list_subseteq_app_l.
Qed.

Lemma loop_done rank weight walk k plug pre level r b owner grand all :
  measured rank weight -> walk_ok walk -> walk_done rank weight walk k ->
  (forall l, nodes (plug l) = rootn :: pre ++ flat_map nodes l) ->
  opendir H r = Some all -> 1 <= level -> (rank r <= k)%nat ->
  forall names done cur, names ⊆ all ->
  tree_ok start (pre ++ flat_map nodes done) cur ->
  at_dir level r b (pre ++ flat_map nodes done) owner grand ->
  cur + 300 + total (entry_cost weight b) names < 2 ^ 31 ->
  exists l c, readdir_loop H o walk plug level b r owner grand names done cur = Done (l, c) /\
    c <= cur + total (entry_cost weight b) names.
Proof.
  intros Me HW HD Hplug Hd Hlev Hk. induction names as [|x names IH]; intros done cur Hin Ht Hat Hb.
  { exists done, cur. split; [done|]. cbn. lia. }
  change (total (entry_cost weight b) (x :: names))
    with (entry_cost weight b x + total (entry_cost weight b) names) in *.
  set (rest := total (entry_cost weight b) names) in *.
  assert (Hin' : names ⊆ all) by (intros y Hy; apply Hin; by right).
  assert (Hxa : x ∈ all) by (apply Hin; by left).
  pose proof (total_nonneg (entry_cost weight b) names (fun c => entry_cost_nonneg _ _ _ _ Me)) as Htn.
  fold rest in Htn. pose proof (entry_cost_nonneg _ _ b x Me) as Hx0.
  pose proof (tree_ok_range _ _ _ Hs0 Hsa Ht) as [Hge Hal].
  assert (Hcost : match lstat H (in_dir b x) with None => 0 | Some sb => 4400 + data_size sb end
      <= entry_cost weight b x).
  { unfold entry_cost. destruct (lstat H _); [|lia]. pose proof (me_weight _ _ Me (in_dir b x)).
    destruct (_ && _); lia. }
  destruct (entry_done (plug done) level b all r owner grand cur x Hd Hxa) as (a & Ea & Hba); [lia|done|lia|].
  cbn [readdir_loop]. rewrite Ea. cbn [mbind gen_bind].
  apply (entry_ok (plug done) level r b all x (pre ++ flat_map nodes done)) in Ea as Hres; try done.
  destruct a as [|n c|n c|n c]; cbn [action_bound] in Hba; [| | |done].
  - destruct (IH done cur Hin' Ht Hat) as (l & c & -> & Hc); [lia|]. exists l, c. split; [done|lia].
  - destruct Hres as ((Ht1 & En & Ern) & _).
    destruct (IH (done ++ [Filenode n []]) c Hin') as (l & c' & -> & Hc'); [| |lia|].
    + by rewrite flat_map_snoc, app_assoc.
    + rewrite flat_map_snoc, app_assoc. eapply at_dir_mono; [exact Hat|]. by apply list_subseteq_app_l.
    + exists l, c'. split; [done|lia].
  - assert (Hw : 0 <= weight (in_dir b x)) by apply Me.
    destruct (enter_done rank weight walk k plug pre level r b owner grand all x done n c) as
      (l0 & c0 & sb & -> & Hc0 & Hsb & Hdir & N1 & N2 & Ht0 & Hat0); try done.
    { clear IH. destruct Hres as ((Ht1 & _ & Ern) & _ & Hdir & N1 & N2).
      assert (Hin1 : n ∈ (pre ++ flat_map nodes done) ++ [n]) by (apply elem_of_app; right; by left).
      destruct (tree_ok_told _ _ _ _ Ht1 Hin1) as (sb & Hsb & _ & _ & Em & _).
      rewrite Ern in Hsb. rewrite Em in Hdir. unfold entry_cost in *.
      rewrite Hsb, Hdir, !bool_decide_eq_false_2 in * by done. cbn in *. lia. }
    assert (Hcw : 4400 + data_size sb + weight (in_dir b x) = entry_cost weight b x).
    { unfold entry_cost. by rewrite Hsb, Hdir, !bool_decide_eq_false_2 by done. }
    rewrite Hsb in Hba. cbn [mbind gen_bind].
    destruct (IH (done ++ [Filenode n l0]) c0 Hin' Ht0 Hat0) as (l & c' & -> & Hc'); [lia|].
    exists l, c'. split; [done|lia].
Qed.

Lemma processdir_done rank weight fuel : walk_done rank weight (processdir H o fuel) fuel.
Proof.
  induction fuel as [|f IH]; intros Me plug pre level r owner grand cur Hplug Ht Hlev Hat Hk Hb; [lia|].
  cbn [processdir]. rewrite (proj2 (Z.leb_gt level 1)) by done. cbn [mbind gen_bind].
  pose proof (me_weight _ _ Me r) as Hw.
  destruct (opendir H r) as [names|] eqn:Ed; [|exists [], cur; split; [done|lia]].
  pose proof (me_total _ _ Me r r names (ad_reach _ _ _ _ _ _ Hat) Ed) as Htot.
  destruct (loop_done rank weight (processdir H o f) f plug pre level r r owner grand names Me
    (processdir_below f) IH Hplug Ed ltac:(lia) ltac:(lia) names [] cur) as (l & c & -> & Hc);
    try done; cbn [flat_map]; rewrite ?app_nil_r; try done; [lia|].
  exists l, c. split; [done|lia].
Qed.

Lemma dots_done ow gr : start + 9000 < 2 ^ 31 ->
  exists l owner grand cur, dots H o top ow gr [] start = Done (l, owner, grand, cur) /\
    cur <= start + 8800.
Proof.
  intros Hb. destruct (hk_top HK) as (sb & Hst & Hdir & _). unfold dots.
  rewrite newnode_eq by lia. cbn [n_realname]. rewrite Hst. unfold setnode.
  cbn [n_name n_realname n_ondev n_devnode n_onino n_modes n_offset n_size n_pad n_link].
  set (m := FNode dot _ _ _ _ _ _ _ _ _).
  assert (Hdot : name_ok dot) by (split; [by repeat constructor|cbn; lia]).
  assert (Hdd : name_ok dotdot) by (split; [by repeat constructor|cbn; lia]).
  destruct (place_done m start 0 0) as (n1 & c1 & c2 & Ha & Hi & Hc2); try done; try lia.
  assert (E : n1 = m).
  { eapply alignnode_stays; [done| |done|exact Ha]. cbn. by type_cases (h_mode sb). }
  subst n1. rewrite Ha. cbn [mbind gen_bind]. change (set_size m 0) with m in Hi. rewrite Hi.
  cbn [mbind gen_bind].
  destruct (dot_ok sb m c2 Hst Hdir c1) as (Ht & _); [by rewrite newnode_eq by lia|done|].
  pose proof (tree_ok_range _ _ _ Hs0 Hsa Ht) as [Hge Hal].
  rewrite newnode_eq by lia. cbn [n_realname].
  destruct (lstat H (in_dir top dotdot)) as [su|]; [|eexists _, _, _, _; split; [done|lia]].
  unfold set_link. cbn [n_name n_realname n_ondev n_devnode n_onino n_modes n_offset n_size n_pad].
  set (m2 := FNode dotdot _ _ _ _ _ _ _ _ _).
  destruct (place_done m2 c2 0 0) as (n2 & c3 & c4 & Ha2 & Hi2 & Hc4); try done; try lia.
  assert (E : n2 = set_size n2 0).
  { apply alignnode_ok in Ha2 as (pad & -> & _); try done. lia. }
  rewrite Ha2. cbn [mbind gen_bind]. rewrite E, Hi2. cbn [mbind gen_bind].
  eexists _, _, _, _. split; [done|lia].
Qed.

Lemma processdir_top_done rank weight fuel ow gr : measured rank weight ->
  (rank (in_dir top dot) < fuel)%nat -> start + 9200 + weight (in_dir top dot) < 2 ^ 31 ->
  exists l c, processdir H o fuel (Filenode rootn) 1 top (in_dir top dot) ow gr [] start = Done (l, c).
Proof.
  intros Me Hk Hb. pose proof (me_weight _ _ Me (in_dir top dot)) as Hw.
  destruct fuel as [|f]; [lia|]. cbn [processdir]. change (1 <=? 1) with true. cbv iota.
  destruct (dots_done ow gr ltac:(lia)) as (ds & owner & grand & cur & E & Hc). rewrite E.
  cbn [mbind gen_bind]. destruct (opendir H (in_dir top dot)) as [names|] eqn:Ed; [|by exists ds, cur].
  apply dots_ok in E as [(n1 & more & -> & _ & E2 & E3 & E4 & -> & _ & _) Ht].
  pose proof (me_total _ _ Me _ _ names reach_top Ed) as Htot.
  destruct (loop_done rank weight (processdir H o f) f (Filenode rootn) [] 1 (in_dir top dot) top
    (n_offset n1) grand names Me (processdir_below f) (processdir_done rank weight f) ltac:(done) Ed
    ltac:(lia) ltac:(lia) names (Filenode n1 [] :: more) cur) as (l & c & E1 & _); try done.
  - split; [apply reach_top| |lia]. exists n1. split; [by left|]. by rewrite E2.
  - lia.
  - by exists l, c.
Qed.
End Step.
End Host.
