(* ===== verification/Image.v ===== *)
(** * The image genromfs writes, read by the kernel

    What [Romfs], [Files] and [FileAccess] assume of an image holds of the one
    [Genromfs.make_image] gives for a directory of the host: the kernel finds
    the files of the directory under their paths, with their contents. *)

From stdpp Require Import base numbers list.
From Stdlib Require Import ZArith Lia.
From S2P Require Import Prelude CString Romfs Files Genromfs ImageTree.

(** ** Bytes and words *)

Lemma be_bytes_be32 d o w :
  (forall i, 0 <= i < 4 -> d (o + i) = nth (Z.to_nat i) (be_bytes w) 0) -> be32 d o = u32 w.
Proof.
  intros Hd. unfold be32. rewrite <- (Z.add_0_r o) at 1. rewrite !Hd by lia.
  change (Z.to_nat 0) with 0%nat. change (Z.to_nat 1) with 1%nat.
  change (Z.to_nat 2) with 2%nat. change (Z.to_nat 3) with 3%nat. cbn [nth be_bytes].
  unfold u8, u32. Z.div_mod_to_equations. lia.
Qed.

Lemma nth_put_checksum buf w i : (16 <= length buf)%nat -> (i < 12 \/ 16 <= i)%nat ->
  nth i (put_checksum buf w) 0 = nth i buf 0.
Proof.
  intros Hl Hi. unfold put_checksum. destruct Hi as [Hi|Hi].
  - rewrite app_nth1 by (rewrite length_take; lia). apply nth_take_lt. lia.
  - rewrite app_nth2 by (rewrite length_take; lia).
    rewrite app_nth2 by (rewrite length_take, length_be_bytes; lia).
    rewrite length_take, length_be_bytes, nth_drop_Z. f_equal. lia.
Qed.

Lemma nth_summed buf k i : (16 <= length buf)%nat -> (i < 12 \/ 16 <= i)%nat ->
  nth i (summed buf k) 0 = nth i buf 0.
Proof. intros. unfold summed. by apply nth_put_checksum. Qed.

(** The image differs from [image_bytes] in the checksum of the first block. *)
Lemma nth_first_block bs i : (512 <= length bs)%nat -> (i < 12 \/ 16 <= i)%nat ->
  nth i (first_block (take 512 bs) ++ drop 512 bs) 0 = nth i bs 0.
Proof.
  intros Hl Hi. assert (El : length (take 512 bs) = 512%nat) by (rewrite length_take; lia).
  unfold first_block. destruct (decide (i < 512)%nat) as [Hs|Hs].
  - rewrite app_nth1 by (rewrite length_summed; lia). rewrite nth_summed by lia.
    apply nth_take_lt. lia.
  - rewrite app_nth2 by (rewrite length_summed; lia). rewrite length_summed, El by lia.
    rewrite nth_drop_Z. f_equal. lia.
Qed.

Lemma length_first_block bs : (512 <= length bs)%nat ->
  length (first_block (take 512 bs) ++ drop 512 bs) = length bs.
Proof.
  intros Hl. unfold first_block. rewrite length_app, length_summed, length_drop, length_take; [lia|].
  rewrite length_take. lia.
Qed.

(** [d] holds the bytes [l] from [o] on. *)
Definition shows (d : Z -> Z) (o : Z) (l : list Z) : Prop :=
  forall i, (i < length l)%nat -> d (o + Z.of_nat i) = nth i l 0.

Lemma shows_app d o l1 l2 :
  shows d o (l1 ++ l2) <-> shows d o l1 /\ shows d (o + Z.of_nat (length l1)) l2.
Proof.
  unfold shows. rewrite length_app. split.
  - intros Hd. split; intros i Hi.
    + rewrite Hd by lia. by rewrite app_nth1.
    + rewrite <- Z.add_assoc, <- Nat2Z.inj_add, Hd by lia. rewrite app_nth2 by lia. f_equal. lia.
  - intros [H1 H2] i Hi. destruct (decide (i < length l1)%nat).
    + rewrite app_nth1 by done. by apply H1.
    + rewrite app_nth2 by lia. rewrite <- H2 by lia. f_equal. lia.
Qed.

(** A header and its name, whatever the checksum. *)
Record header_shown (d : Z -> Z) (o : Z) (ri : romfh) (name : list Z) : Prop := {
  hs_next : be32 d o = u32 (nextfh ri);
  hs_spec : be32 d (o + 4) = u32 (spec ri);
  hs_size : be32 d (o + 8) = u32 (rsize ri);
  hs_name : forall i, 0 <= i < padded (Z.of_nat (length name)) ->
    d (o + 16 + i) = nth (Z.to_nat i) name 0 }.

Lemma nth_name (s : list Z) k i : nth i (s ++ repeat 0 k) 0 = nth i s 0.
Proof.
  destruct (decide (i < length s)%nat); [by rewrite app_nth1|].
  rewrite app_nth2, nth_repeat, nth_overflow by lia. done.
Qed.

Lemma header_bytes_shown d o ri n :
  (forall i, (i < length (header_bytes ri n))%nat -> (i < 12 \/ 16 <= i)%nat ->
     d (o + Z.of_nat i) = nth i (header_bytes ri n) 0) ->
  header_shown d o ri (n_name n).
Proof.
  intros Hd. pose proof (length_header_bytes ri n) as Hl.
  pose proof (padded_bounds (Z.of_nat (length (n_name n))) ltac:(lia)) as Hp.
  set (b := romfh_bytes ri ++ n_name n ++
    repeat 0 (Z.to_nat (padded (Z.of_nat (length (n_name n)))) - length (n_name n))).
  assert (Hb : forall i, (i < length (header_bytes ri n))%nat -> (i < 12 \/ 16 <= i)%nat ->
      d (o + Z.of_nat i) = nth i b 0).
  { intros i Hi Hc. rewrite Hd by done. unfold header_bytes. fold b.
    destruct (n_offset n =? 0); [done|]. apply nth_summed; [|done].
    unfold b. rewrite length_app. change (length (romfh_bytes ri)) with 16%nat. lia. }
  clear Hd. assert (Hw : forall k w, (k < 3)%nat ->
      (forall i, (i < 4)%nat -> nth (4 * k + i) b 0 = nth i (be_bytes w) 0) ->
      be32 d (o + 4 * Z.of_nat k) = u32 w).
  { intros k w Hk Hn. apply be_bytes_be32. intros i Hi. rewrite <- Hn by lia.
    rewrite <- Hb by lia. f_equal. lia. }
  split.
  - rewrite <- (Z.add_0_r o). apply (Hw 0%nat); [lia|].
    intros i Hi. do 4 (destruct i as [|i]; [done|]). lia.
  - apply (Hw 1%nat); [lia|]. intros i Hi. do 4 (destruct i as [|i]; [done|]). lia.
  - apply (Hw 2%nat); [lia|]. intros i Hi. do 4 (destruct i as [|i]; [done|]). lia.
  - intros i Hi. replace (o + 16 + i) with (o + Z.of_nat (16 + Z.to_nat i)) by lia.
    rewrite Hb by lia. unfold b. rewrite app_nth2 by (change (length (romfh_bytes ri)) with 16%nat; lia).
    change (length (romfh_bytes ri)) with 16%nat. rewrite nth_name. f_equal. lia.
Qed.

(** ** Checksums *)

Fixpoint words_sum (n : nat) (data : list Z) : Z :=
  match n with O => 0 | S n' => word_at data 0 + words_sum n' (drop 4 data) end.

Lemma s32_add a b : s32 (s32 a + b) = s32 (a + b).
Proof.
  unfold s32. replace ((a + 2 ^ 31) mod 2 ^ 32 - 2 ^ 31 + b + 2 ^ 31)
    with ((a + 2 ^ 31) mod 2 ^ 32 + b) by lia.
  rewrite Zplus_mod_idemp_l. do 2 f_equal. lia.
Qed.

Lemma checksum_loop_sum n : forall data sum,
  checksum_loop (S n) data sum = s32 (sum + words_sum (S n) data).
Proof.
  induction n as [|n IH]; intros data sum.
  - cbn. by rewrite Z.add_0_r.
  - change (checksum_loop (S (S n)) data sum)
      with (checksum_loop (S n) (drop 4 data) (s32 (sum + word_at data 0))).
    rewrite IH, s32_add. f_equal. cbn [words_sum]. lia.
Qed.

Lemma words_sum_checksum n buf w : (16 <= length buf)%nat -> 0 <= w < 2 ^ 32 ->
  words_sum (4 + n) (put_checksum buf w) = words_sum (4 + n) (put_checksum buf 0) + w.
Proof.
  intros Hl Hw. do 16 (destruct buf as [|? buf]; [cbn in Hl; lia|]).
  unfold put_checksum. cbn [Nat.add words_sum firstn skipn app be_bytes take drop].
  unfold word_at. cbn [nth Nat.add]. change (u8 (0 / 2 ^ 24)) with 0. change (u8 (0 / 2 ^ 16)) with 0.
  change (u8 (0 / 2 ^ 8)) with 0. change (u8 0) with 0.
  assert (E : u8 (w / 2 ^ 24) * 2 ^ 24 + u8 (w / 2 ^ 16) * 2 ^ 16 + u8 (w / 2 ^ 8) * 2 ^ 8 + u8 w = w)
    by (unfold u8; Z.div_mod_to_equations; lia).
  lia.
Qed.

(** A fixed checksum makes the words add up to 0. *)
Lemma checksum_summed buf k : (16 <= length buf)%nat -> 16 <= k ->
  romfs_checksum (summed buf k) k = 0.
Proof.
  intros Hl Hk. unfold summed, romfs_checksum.
  assert (Hn : exists n, Z.to_nat (Z.shiftr k 2) = (4 + n)%nat).
  { exists (Z.to_nat (Z.shiftr k 2) - 4)%nat. rewrite Z.shiftr_div_pow2 by lia. change (2 ^ 2) with 4.
    Z.div_mod_to_equations. lia. }
  destruct Hn as [n ->]. change (4 + n)%nat with (S (3 + n)) at 1 2. rewrite !checksum_loop_sum, !Z.add_0_l.
  change (S (3 + n)) with (4 + n)%nat. rewrite words_sum_checksum by (done || apply u32_range).
  set (x := words_sum _ _). unfold s32, u32. Z.div_mod_to_equations. lia.
Qed.

Lemma words_sum_ext n : forall a b, (forall i, (i < 4 * n)%nat -> nth i a 0 = nth i b 0) ->
  words_sum n a = words_sum n b.
Proof.
  induction n as [|n IH]; intros a b He; [done|]. cbn [words_sum]. f_equal.
  - unfold word_at. by rewrite !He by lia.
  - apply IH. intros i Hi. rewrite !nth_drop_Z. apply He. lia.
Qed.

Lemma checksum_ext a b k : 4 <= k -> (forall i, Z.of_nat i < k -> nth i a 0 = nth i b 0) ->
  romfs_checksum a k = romfs_checksum b k.
Proof.
  intros Hk He. unfold romfs_checksum. rewrite Z.shiftr_div_pow2 by lia. change (2 ^ 2) with 4.
  assert (Hn : exists n, Z.to_nat (k / 4) = S n).
  { exists (Z.to_nat (k / 4) - 1)%nat. Z.div_mod_to_equations. lia. }
  destruct Hn as [n Hn]. rewrite Hn, !checksum_loop_sum. do 2 f_equal. apply words_sum_ext.
  intros i Hi. apply He. Z.div_mod_to_equations. lia.
Qed.

(** ** Where the bytes of the nodes are *)

Section Tree.
Context (H : host) (top : list Z).

(** The bytes of a node without the padding in front. *)
Definition node_bytes (it : item) : list Z :=
  let '(n, next, hd) := it in
  match node_type n with
  | Some t => header_bytes (node_romfh next hd n t) n ++ node_data H n
  | None => []
  end.

Lemma self_bytes_pad it :
  self_bytes H it = repeat 0 (Z.to_nat (n_pad (item_node it))) ++ node_bytes it.
Proof. by destruct it as [[n next] hd]. Qed.

Lemma length_node_data cur n c : lies cur n c ->
  Z.of_nat (length (node_data H n)) = ALIGNUP16 (n_size n).
Proof.
  intros [_ _ _ [_ _ Hsz Hlnk] Hs _ _ _]. unfold node_data.
  destruct (n_link n) as [l|]; [destruct Hs as [[_ Hs]|Hs]; [done|by rewrite Hs]|].
  unfold has_size in Hs. type_cases (n_modes n); cbn [orb] in Hs;
    try (destruct Hs as [[Hs _]|Hs]; [done|by rewrite Hs]).
  - apply length_link_data. specialize (Hlnk eq_refl). lia.
  - apply length_file_data. lia.
Qed.

Lemma length_node_bytes cur it c : lies cur (item_node it) c ->
  Z.of_nat (length (node_bytes it)) = c - n_offset (item_node it).
Proof.
  destruct it as [[n next] hd]. cbn. intros Hl. pose proof (length_node_data _ _ _ Hl) as Hd.
  destruct Hl as [_ _ He _ _ Ht _ _]. destruct (node_type n) as [t|]; [|done].
  rewrite length_app, Nat2Z.inj_add, length_header_bytes, Hd. lia.
Qed.

Lemma tree_shown d pre start ns cur : tree_ok H top start ns cur ->
  Z.of_nat (length pre) = start -> forall its, map item_node its = ns ->
  shows d 0 (pre ++ flat_map (self_bytes H) its) ->
  Z.of_nat (length (pre ++ flat_map (self_bytes H) its)) = cur /\
  Forall (fun it => shows d (n_offset (item_node it)) (node_bytes it)) its.
Proof.
  intros Ht Hp. induction Ht as [|ns cur n c Ht IH Hl _ _]; intros its Hm Hd.
  { destruct its; [|done]. cbn. rewrite app_nil_r. split; [done|constructor]. }
  apply map_eq_app in Hm as (its' & rest & -> & Hm & Hr).
  destruct rest as [|it [|? ?]]; try done. injection Hr as Hit.
  rewrite flat_map_app, app_assoc in Hd |- *. cbn [flat_map] in *. rewrite app_nil_r in *.
  apply shows_app in Hd as [Hd1 Hd2]. destruct (IH its' Hm Hd1) as [El Hs]. subst n.
  rewrite El, Z.add_0_l, self_bytes_pad in Hd2. apply shows_app in Hd2 as [_ Hd2].
  pose proof (length_node_bytes _ _ _ Hl) as Hn. pose proof Hl as [Hf _ _ [_ Hpad _ _] _ _ _ _].
  rewrite repeat_length, Z2Nat.id, <- Hf in Hd2 by lia. split.
  - rewrite length_app, Nat2Z.inj_add, El, self_bytes_pad, length_app, repeat_length. lia.
  - apply Forall_app. split; [done|]. by repeat constructor.
Qed.

Lemma tree_ok_lies start ns cur n : 0 < start -> aligned start -> tree_ok H top start ns cur ->
  n ∈ ns -> exists cur' c, start <= cur' /\ aligned cur' /\ lies cur' n c /\ c <= cur.
Proof.
  intros Hs Ha. induction 1 as [|ns cur m c Ht IH Hl _ _]; [by intros Hn%elem_of_nil|].
  pose proof (tree_ok_range _ _ _ _ _ Hs Ha Ht) as [Hge Hal].
  assert (cur <= c).
  { destruct Hl as [Hf _ He [_ Hp Hz _] _ _ _ _].
    pose proof (padded_bounds (Z.of_nat (length (n_name m))) ltac:(lia)).
    pose proof (ALIGNUP16_bounds (n_size m)). lia. }
  intros [Hn| ->%list_elem_of_singleton]%elem_of_app.
  - destruct (IH Hn) as (cur' & c' & ? & ? & ? & ?). exists cur', c'. repeat (split; [done|]). lia.
  - by exists cur, c.
Qed.

(** The offsets the headers lead to are those of nodes. *)
Definition offset_in (ns : list fnode) (x : option Z) : Prop :=
  match x with None => True | Some a => exists m, m ∈ ns /\ n_offset m = a end.

Lemma offset_in_mono ns ns' x : offset_in ns x -> ns ⊆ ns' -> offset_in ns' x.
Proof. destruct x; [|done]. intros (m & Hm & E) Hs. exists m. split; [by apply Hs|done]. Qed.

Lemma nodes_head p : node p ∈ nodes p.
Proof. destruct p. by left. Qed.

Lemma head_offset_in l : offset_in (flat_map nodes l) (head_offset l).
Proof.
  destruct l as [|p l]; [done|]. cbn. exists (node p). split; [|done].
  apply elem_of_app. left. apply nodes_head.
Qed.

Lemma subseteq_app_r {A} (l k : list A) : k ⊆ l ++ k.
Proof. intros x Hx. apply elem_of_app. by right. Qed.

Lemma subseteq_app_l {A} (l k : list A) : l ⊆ l ++ k.
Proof. intros x Hx. apply elem_of_app. by left. Qed.

Definition item_offsets_in (ns : list fnode) (it : item) : Prop :=
  offset_in ns (snd (fst it)) /\ offset_in ns (snd it).

Lemma items_offsets p : forall next ns, offset_in ns next -> nodes p ⊆ ns ->
  Forall (item_offsets_in ns) (items next p).
Proof.
  induction p as [n l IH] using filenode_ind'. intros next ns Hnx Hs. rewrite items_eq.
  assert (Hs' : flat_map nodes l ⊆ ns) by (intros x Hx; apply Hs; by right).
  constructor; [split; [done|eapply offset_in_mono; [apply head_offset_in|done]]|].
  clear Hnx Hs. induction IH as [|q l Hq Hl IHl]; [constructor|]. cbn [list_items flat_map] in *.
  apply Forall_app. split.
  - apply Hq; [|intros x Hx; apply Hs'; by apply subseteq_app_l].
    eapply offset_in_mono; [apply head_offset_in|].
    intros x Hx. apply Hs'. by apply subseteq_app_r.
  - apply IHl. intros x Hx. apply Hs'. by apply subseteq_app_r.
Qed.

Lemma list_items_offsets ns l : flat_map nodes l ⊆ ns ->
  Forall (item_offsets_in ns) (list_items l).
Proof.
  induction l as [|q l IHl]; intros Hs; [constructor|]. cbn [list_items flat_map] in *.
  apply Forall_app. split.
  - apply items_offsets; [|intros x Hx; apply Hs; by apply subseteq_app_l].
    eapply offset_in_mono; [apply head_offset_in|]. intros x Hx. apply Hs. by apply subseteq_app_r.
  - apply IHl. intros x Hx. apply Hs. by apply subseteq_app_r.
Qed.

(** An item and what the image shows of it. *)
Record pictured (d : Z -> Z) (len : Z) (it : item) : Prop := {
  pc_ri : exists t, node_type (item_node it) = Some t /\
    header_shown d (n_offset (item_node it))
      (node_romfh (snd (fst it)) (snd it) (item_node it) t) (n_name (item_node it));
  pc_data : shows d (n_offset (item_node it) + 16 +
    padded (Z.of_nat (length (n_name (item_node it))))) (node_data H (item_node it));
  pc_offset : 0 < n_offset (item_node it) /\ aligned (n_offset (item_node it));
  pc_end : n_offset (item_node it) + 16 + padded (Z.of_nat (length (n_name (item_node it)))) +
    ALIGNUP16 (n_size (item_node it)) <= len;
  pc_name : name_ok (n_name (item_node it));
  pc_size : 0 <= n_size (item_node it) < 2 ^ 31 }.

(** [d] is the image but for the checksums. *)
Lemma items_pictured d dr start its cur len : 16 <= start -> aligned start ->
  (forall i, 16 <= i -> d i = dr i) -> tree_ok H top start (map item_node its) cur -> cur <= len ->
  Forall (fun it => shows dr (n_offset (item_node it)) (node_bytes it)) its ->
  Forall (pictured d len) its.
Proof.
  intros Hs Ha Hd Ht Hlen Hsh. rewrite List.Forall_forall in Hsh |- *. intros it Hit.
  destruct (tree_ok_lies start _ cur (item_node it) ltac:(lia) Ha Ht) as (cur' & c & Hge & Hal & Hl & Hc).
  { apply list_elem_of_In. by apply in_map. }
  pose proof (lies_aligned _ _ _ Hal Hl) as [Hao _]. pose proof (length_node_data _ _ _ Hl) as Hnd.
  pose proof Hl as [Hf _ He [_ Hp Hz _] _ Hty Hnm _].
  specialize (Hsh it Hit). destruct it as [[n next] hd]. cbn [item_node fst snd] in *.
  cbn [node_bytes] in Hsh. destruct (node_type n) as [t|] eqn:Et; [|done].
  assert (Hsh' : shows d (n_offset n) (header_bytes (node_romfh next hd n t) n ++ node_data H n)).
  { intros i Hi. rewrite Hd by lia. by apply Hsh. }
  apply shows_app in Hsh' as [H1 H2]. rewrite length_header_bytes, Z.add_assoc in H2.
  split; cbn [item_node fst snd]; try done; try lia.
  - exists t. split; [done|]. apply header_bytes_shown. intros i Hi _. by apply H1.
  - split; [lia|done].
Qed.

(** ** The headers, as the kernel reads them *)

Section View.
Context (d : Z -> Z) (len : Z) (L : list filenode).
Context (HP : Forall (pictured d len) (list_items L)) (Hlen : len < 2 ^ 31).

Lemma item_pictured it : it ∈ list_items L -> pictured d len it.
Proof.
  intros Hi. rewrite List.Forall_forall in HP. apply HP. by apply list_elem_of_In.
Qed.

Lemma node_item n : n ∈ flat_map nodes L -> exists it, it ∈ list_items L /\ item_node it = n.
Proof.
  rewrite <- list_items_nodes, list_elem_of_In, in_map_iff. intros (it & E & Hi).
  exists it. split; [by apply list_elem_of_In|done].
Qed.

Lemma node_range n : n ∈ flat_map nodes L ->
  0 < n_offset n /\ aligned (n_offset n) /\ n_offset n + 32 <= len /\ name_ok (n_name n).
Proof.
  intros Hn. destruct (node_item n Hn) as (it & Hi & <-).
  destruct (item_pictured it Hi) as [_ _ [H1 H2] He Hnm Hs].
  pose proof (padded_name (n_name (item_node it)) (proj2 Hnm)).
  pose proof (ALIGNUP16_bounds (n_size (item_node it))). split; [done|]. split; [done|]. split; [lia|done].
Qed.

Lemma offset_range x : offset_in (flat_map nodes L) x ->
  0 <= default 0 x < 2 ^ 31 /\ exists k, default 0 x = 16 * k.
Proof.
  destruct x as [a|]; cbn; [|intros _; split; [lia|by exists 0]].
  intros (m & Hm & <-). destruct (node_range m Hm) as (H1 & H2 & H3 & _). split; [lia|].
  exists (n_offset m / 16). unfold aligned in H2. Z.div_mod_to_equations. lia.
Qed.

Lemma node_type_range n t : node_type n = Some t -> 0 <= t < 8.
Proof.
  unfold node_type. destruct (n_link n); [intros [= <-]; done|].
  repeat (case_match; [intros [= <-]; vm_compute; intuition discriminate|]). done.
Qed.

(** The four words of a header. *)
Record words_of (it : item) : Prop := {
  wo_type : node_type (item_node it) = Some (ftype d (n_offset (item_node it)));
  wo_exec : fexec d (n_offset (item_node it)) = node_exec (item_node it);
  wo_next : fnext d (n_offset (item_node it)) = default 0 (snd (fst it));
  wo_spec : fspec d (n_offset (item_node it)) = u32 (node_spec (snd it) (item_node it));
  wo_size : fsize d (n_offset (item_node it)) = n_size (item_node it);
  wo_header : header_at d len (n_offset (item_node it)) (n_name (item_node it)) }.

Lemma flag_word k (e : bool) t : 0 <= t < 8 ->
  Z.land (16 * k + (if e then 8 else 0) + t) 7 = t /\
  Z.testbit (16 * k + (if e then 8 else 0) + t) 3 = e /\
  16 * ((16 * k + (if e then 8 else 0) + t) / 16) = 16 * k.
Proof.
  intros Ht. split; [|split].
  - change 7 with (Z.ones 3). rewrite Z.land_ones by lia. destruct e; Z.div_mod_to_equations; lia.
  - rewrite Z.testbit_eqb by lia. change (2 ^ 3) with 8.
    destruct e; [apply Z.eqb_eq|apply Z.eqb_neq]; Z.div_mod_to_equations; lia.
  - destruct e; Z.div_mod_to_equations; lia.
Qed.

Lemma item_words it : it ∈ list_items L -> words_of it.
Proof.
  intros Hi. pose proof (list_items_offsets (flat_map nodes L) L ltac:(done)) as Hoff.
  rewrite List.Forall_forall in Hoff. destruct (Hoff it ltac:(by apply list_elem_of_In)) as [Hn _].
  destruct (offset_range _ Hn) as [Hr [k Hk]].
  destruct (item_pictured it Hi) as [(t & Ht & [E1 E2 E3 E4]) _ [H1 H2] He [Hnm Hnl] Hs].
  pose proof (node_type_range _ _ Ht) as Htr.
  pose proof (flag_word k (node_exec (item_node it)) t Htr) as (F1 & F2 & F3).
  cbn [node_romfh nextfh spec rsize] in *. rewrite Hk in E1.
  rewrite u32_id in E1 by (destruct (node_exec _); lia).
  pose proof (ALIGNUP16_bounds (n_size (item_node it))).
  split.
  - unfold ftype. by rewrite E1, F1.
  - unfold fexec. by rewrite E1, F2.
  - unfold fnext. by rewrite E1, F3, Hk.
  - exact E2.
  - unfold fsize. rewrite E3. apply u32_id. lia.
  - split; [lia|]. split; [|done]. revert Hnm. apply List.Forall_impl. lia.
Qed.

(** A list of nodes of the tree, as the entries of a directory. *)
Definition dir_list (l : list filenode) : list (Z * list Z) :=
  map (fun p => (n_offset (node p), n_name (node p))) l.

Lemma item_head next p : (node p, next, head_offset (dirlist p)) ∈ items next p.
Proof. destruct p as [n l]. rewrite items_eq. by left. Qed.

Lemma dir_from_list p l : list_items (p :: l) ⊆ list_items L ->
  dir_from d len (n_offset (node p)) (dir_list (p :: l)).
Proof.
  revert p. induction l as [|q l IH]; intros p Hs;
    (assert (Hp : (node p, head_offset _, head_offset (dirlist p)) ∈ list_items L)
      by (apply Hs; cbn [list_items]; apply elem_of_app; left; apply item_head));
    pose proof (item_words _ Hp) as [_ _ Hn _ _ Hh]; cbn [item_node fst snd] in *.
  - by apply dir_last.
  - assert (Hq : list_items (q :: l) ⊆ list_items L).
    { intros x Hx. apply Hs. cbn [list_items]. apply elem_of_app. by right. }
    cbn in Hn. change (dir_list (p :: q :: l)) with
      ((n_offset (node p), n_name (node p)) :: dir_list (q :: l)).
    apply dir_next; [done| |rewrite Hn; by apply IH]. rewrite Hn.
    assert (Hin : node q ∈ flat_map nodes L).
    { rewrite <- list_items_nodes. apply list_elem_of_In, in_map_iff.
      exists (node q, head_offset l, head_offset (dirlist q)). split; [done|].
      apply list_elem_of_In, Hq. cbn [list_items]. apply elem_of_app. left. apply item_head. }
    destruct (node_range _ Hin). lia.
Qed.

(** ** Directories *)

(** The nodes below a node are in its items and counted. *)
Definition sub_in (its : list item) (k : nat) (q : filenode) : Prop :=
  list_items (dirlist q) ⊆ its /\ (exists nx, (node q, nx, head_offset (dirlist q)) ∈ its) /\
  (length (dirlist q) <= k)%nat.

Lemma sub_in_mono its its' k k' q : sub_in its k q -> its ⊆ its' -> (k <= k')%nat -> sub_in its' k' q.
Proof.
  intros (H1 & (nx & H2) & H3) Hs Hk. split; [intros x Hx; by apply Hs, H1|].
  split; [exists nx; by apply Hs|lia].
Qed.

Lemma length_nodes l : (length l <= length (flat_map nodes l))%nat.
Proof.
  induction l as [|[n k] l IH]; [done|]. cbn [flat_map length nodes app]. rewrite length_app. lia.
Qed.

Lemma subtrees_in p : forall next, Forall (sub_in (items next p) (length (nodes p))) (subtrees p).
Proof.
  induction p as [n l IH] using filenode_ind'. intros next. rewrite items_eq.
  cbn [subtrees nodes length]. constructor.
  - split; [intros x Hx; by right|]. split; [exists next; by left|]. cbn. pose proof (length_nodes l). lia.
  - assert (Hl : Forall (sub_in (list_items l) (length (flat_map nodes l))) (flat_map subtrees l)).
    { induction IH as [|q l Hq Hl IHl]; [constructor|]. cbn [flat_map list_items].
      rewrite length_app. apply Forall_app. split.
      - generalize (Hq (head_offset l)). apply List.Forall_impl. intros r Hr.
        eapply sub_in_mono; [exact Hr|apply subseteq_app_l|lia].
      - revert IHl. apply List.Forall_impl. intros r Hr.
        eapply sub_in_mono; [exact Hr|apply subseteq_app_r|lia]. }
    revert Hl. apply List.Forall_impl. intros r Hr.
    eapply sub_in_mono; [exact Hr|intros x Hx; by right|lia].
Qed.

Lemma list_subtrees_in l : Forall (sub_in (list_items l) (length (flat_map nodes l)))
  (flat_map subtrees l).
Proof.
  induction l as [|q l IHl]; [constructor|]. cbn [flat_map list_items].
  rewrite length_app. apply Forall_app. split.
  - generalize (subtrees_in q (head_offset l)). apply List.Forall_impl. intros r Hr.
    eapply sub_in_mono; [exact Hr|apply subseteq_app_l|lia].
  - revert IHl. apply List.Forall_impl. intros r Hr.
    eapply sub_in_mono; [exact Hr|apply subseteq_app_r|lia].
Qed.

(** The directory [n] of the image has the entries [l]: its own list, or the
    list it is the first of when it has none. *)
Inductive dir_node (n : fnode) (l : list filenode) : Prop :=
  | dir_own : Filenode n l ∈ flat_map subtrees L -> l <> [] -> dir_node n l
  | dir_first more : L = Filenode n [] :: more -> l = L -> dir_node n l.

Lemma dir_node_in n l : dir_node n l -> l <> [] /\ list_items l ⊆ list_items L /\
  (length l <= length (flat_map nodes L))%nat /\
  exists nx hd, (n, nx, hd) ∈ list_items L /\ default (n_offset n) hd = default 0 (head_offset l).
Proof.
  intros [Hn Hl|more -> ->].
  - pose proof (list_subtrees_in L) as Hs. rewrite List.Forall_forall in Hs.
    destruct (Hs (Filenode n l) ltac:(by apply list_elem_of_In)) as (H1 & (nx & H2) & H3).
    split; [done|]. split; [done|]. split; [done|]. exists nx, (head_offset l). split; [done|].
    by destruct l.
  - split; [done|]. split; [done|]. split; [apply length_nodes|].
    exists (head_offset more), None. split; [by left|done].
Qed.

Lemma entry_in l q : list_items l ⊆ list_items L -> q ∈ l -> node q ∈ flat_map nodes L.
Proof.
  intros Hs Hq. assert (Hn : node q ∈ map item_node (list_items l)).
  { rewrite list_items_nodes. apply list_elem_of_In, in_flat_map. exists q.
    split; [by apply list_elem_of_In|apply list_elem_of_In, nodes_head]. }
  apply list_elem_of_In, in_map_iff in Hn as (it & <- & Hi). rewrite <- list_items_nodes.
  apply list_elem_of_In, in_map, list_elem_of_In, Hs. by apply list_elem_of_In.
Qed.

Lemma dir_node_is_dir rd K rf n l : rd_length rd = len -> dir_node n l -> n_link n = None ->
  S_ISDIR (n_modes n) = true -> (length (flat_map nodes L) + K <= rf)%nat -> (16 <= K)%nat ->
  is_dir rd d K rf (n_offset n) (dir_list l).
Proof.
  intros Hrd Hn Hnl Hdir Hrf HK. destruct (dir_node_in n l Hn) as (Hne & Hsub & Hln & nx & hd & Hit & Ehd).
  destruct (item_words _ Hit) as [Ht _ _ Hsp _ Hh]. cbn [item_node fst snd] in *.
  destruct l as [|p l]; [done|]. cbn in Ehd.
  assert (Hhd : n_offset (node p) = fspec d (n_offset n)).
  { rewrite Hsp. unfold node_spec. rewrite Hnl, Hdir, Ehd. symmetry. apply u32_id.
    assert (Hp : node p ∈ flat_map nodes L) by (apply (entry_in (p :: l)); [done|by left]).
    destruct (node_range _ Hp) as (H1 & _ & H3 & _). lia. }
  split; rewrite ?Hrd.
  - destruct Hh as [[H1 H2] _]. pose proof (padded_bounds (Z.of_nat (length (n_name n)))). lia.
  - unfold node_type in Ht. rewrite Hnl, Hdir in Ht. by injection Ht as <-.
  - rewrite <- Hhd. by apply dir_from_list.
  - unfold dir_list. rewrite length_map. lia.
  - unfold dir_list. rewrite List.Forall_map. rewrite List.Forall_forall. intros q Hq. cbn.
    apply list_elem_of_In in Hq. pose proof (entry_in (p :: l) q Hsub Hq) as Hin.
    destruct (node_range _ Hin) as (_ & _ & _ & [_ Hl]). lia.
Qed.

(** The code looks for the first entry whose name agrees up to 256 bytes. *)
Lemma lookup_found l p : list_items l ⊆ list_items L -> NoDup (map (fun q => n_name (node q)) l) ->
  p ∈ l -> lookup_name (n_name (node p)) (dir_list l) = Some (n_offset (node p)).
Proof.
  intros Hs. assert (Hl : Forall (fun q => (length (n_name (node q)) <= 255)%nat) l).
  { rewrite List.Forall_forall. intros q Hq. apply list_elem_of_In in Hq.
    destruct (node_range _ (entry_in l q Hs Hq)) as (_ & _ & _ & [_ Hn]). lia. }
  clear Hs. induction Hl as [|q l Hq Hl IH]; intros Hn Hp; [by apply elem_of_nil in Hp|].
  apply NoDup_cons in Hn as [Hnq Hn]. unfold lookup_name in *. cbn [dir_list map List.find snd].
  apply elem_of_cons in Hp as [->|Hp].
  - by rewrite bool_decide_eq_true_2.
  - rewrite List.Forall_forall in Hl. pose proof (Hl p ltac:(by apply list_elem_of_In)) as Hpl.
    rewrite bool_decide_eq_false_2; [by apply IH|]. rewrite !take_ge by lia. intros E.
    apply Hnq. rewrite E. apply list_elem_of_In, in_map_iff. exists p. split; [done|].
    by apply list_elem_of_In.
Qed.

Lemma node_words n : n ∈ flat_map nodes L -> exists it, item_node it = n /\ words_of it.
Proof. intros Hn. destruct (node_item n Hn) as (it & Hi & <-). exists it. split; [done|by apply item_words]. Qed.

(** A link leads to its node in one step. *)
Lemma node_resolves n m : n ∈ flat_map nodes L -> m ∈ flat_map nodes L -> n_link m = None ->
  (n = m \/ n_link n = Some (n_offset m)) ->
  exists k, resolves d len (n_offset n) (n_offset m) k /\ (k <= 1)%nat.
Proof.
  intros Hn Hm Hml Hr. destruct (node_range _ Hn) as (N1 & _ & N3 & _), (node_range _ Hm) as (M1 & _ & M3 & _).
  assert (Hres : resolves d len (n_offset m) (n_offset m) 0).
  { apply resolves_here; [lia|lia|]. destruct (node_words m Hm) as (it & <- & [Ht _ _ _ _ _]).
    unfold node_type in Ht. rewrite Hml in Ht. intros E. rewrite E in Ht.
    repeat (case_match; [done|]). done. }
  destruct Hr as [->|Hl]; [by exists 0%nat; split; [|lia]|]. exists 1%nat. split; [|lia].
  destruct (node_words n Hn) as (it & E & [Ht _ _ Hsp _ _]). rewrite E in *.
  apply resolves_link; [lia|lia| |].
  - unfold node_type in Ht. rewrite Hl in Ht. by injection Ht as <-.
  - rewrite Hsp. unfold node_spec. rewrite Hl, u32_id by lia. exact Hres.
Qed.
End View.

(** ** Paths of the host *)

(** From the directory [r], whose entries are looked up in [b], the components
    lead to [t]: every one is listed and readable, and ".." does not lead
    above the top. *)
Definition host_step (r b c : list Z) (sb : hstat) : Prop :=
  (exists names, opendir H r = Some names /\ c ∈ names) /\ lstat H (in_dir b c) = Some sb /\
  (S_ISLNK (h_mode sb) = true \/ access H (in_dir b c) = true) /\
  (c = dotdot -> lstat H (in_dir b c) <> lstat H (in_dir top dotdot)).

Inductive host_path : list Z -> list Z -> list (list Z) -> list Z -> Prop :=
  | host_last r b c sb : host_step r b c sb -> host_path r b [c] (in_dir b c)
  | host_down r b c sb cs t : host_step r b c sb -> S_ISDIR (h_mode sb) = true ->
      host_path (in_dir b c) (in_dir b c) cs t -> host_path r b (c :: cs) t.

Section Sim.
Context (HK : host_ok H top) (d : Z -> Z) (len : Z) (Hlen : len < 2 ^ 31).
Context (start lastoff owner cur0 : Z) (ds new : list filenode).
Context (Hd : top_dots H top start ds owner cur0).
Context (Ht : tree_ok H top start (flat_map nodes (ds ++ new)) lastoff).
Context (He : dir_entries H 1 (in_dir top dot) top new).
Context (Hg : Forall (good_sub H) (flat_map subtrees new)).
Context (HP : Forall (pictured d len) (list_items (ds ++ new))).

(** The node stands for the file of the path. *)
Record stands_for (n : fnode) (r : list Z) : Prop := {
  sf_in : n ∈ flat_map nodes (ds ++ new);
  sf_own : n_link n = None;
  sf_stat : lstat H (n_realname n) = lstat H r }.

Lemma nodes_subtrees p : map node (subtrees p) = nodes p.
Proof.
  induction p as [n l IH] using filenode_ind'. cbn. f_equal.
  induction IH as [|q l Hq Hl IHl]; [done|]. cbn. by rewrite map_app, Hq, IHl.
Qed.

Lemma list_nodes_subtrees l : map node (flat_map subtrees l) = flat_map nodes l.
Proof. induction l as [|q l IH]; [done|]. cbn. by rewrite map_app, nodes_subtrees, IH. Qed.

(** The directories of the image list what the host lists. *)
Record lists (n : fnode) (b : list Z) (l : list filenode) : Prop := {
  ls_dir : l <> [] -> dir_node (ds ++ new) n l;
  ls_unique : NoDup (map (fun p => n_name (node p)) l);
  ls_real : Forall (fun p => n_realname (node p) = in_dir b (n_name (node p))) l;
  ls_all c names sb : opendir H (n_realname n) = Some names -> c ∈ names ->
    lstat H (in_dir b c) = Some sb -> S_ISLNK (h_mode sb) = true \/ access H (in_dir b c) = true ->
    (c = dotdot -> lstat H (in_dir b c) <> lstat H (in_dir top dotdot)) ->
    exists p, p ∈ l /\ n_name (node p) = c }.

Lemma sub_lists n l : Filenode n l ∈ flat_map subtrees new -> n_link n = None ->
  S_ISDIR (n_modes n) = true -> lists n (n_realname n) l.
Proof.
  intros Hn Hnl Hdir. rewrite List.Forall_forall in Hg.
  pose proof (Hg _ ltac:(apply list_elem_of_In; exact Hn)) as Hgs. cbn in Hgs.
  rewrite Hnl, Hdir in Hgs. unfold dir_entries in Hgs.
  assert (Hsub : Filenode n l ∈ flat_map subtrees (ds ++ new)).
  { rewrite flat_map_app. apply elem_of_app. by right. }
  destruct (opendir H (n_realname n)) as [names|] eqn:Ed.
  - destruct Hgs as [E1 E2 _ E4]. split; [by left| |done|].
    + eapply sublist_NoDup; [|exact E1]. by apply (hk_names _ _ HK _ _ Ed).
    + intros c names' sb Eo Hc Hst Hacc _. replace names' with names in Hc by congruence. eapply E4; [done|lia|done|done].
  - subst l. split; [done|constructor|constructor|]. congruence.
Qed.

Lemma top_lists n1 more : ds = Filenode n1 [] :: more -> lists n1 top (ds ++ new).
Proof.
  intros Eds. destruct Hd as [(n1' & more' & Eds' & N1 & N2 & N3 & N4 & _ & _ & Hm) _].
  rewrite Eds in Eds'. injection Eds' as <- <-.
  assert (Hnew : Forall (fun p => n_realname (node p) = in_dir top (n_name (node p)) /\
      n_name (node p) <> dot /\ n_name (node p) <> dotdot) new /\
      NoDup (map (fun p => n_name (node p)) new)).
  { unfold dir_entries in He. destruct (opendir H (in_dir top dot)) as [names|] eqn:Eo.
    - destruct He as [E1 E2 E3 _]. split.
      + specialize (E3 ltac:(lia)). revert E2 E3. rewrite !List.Forall_forall. intros E2 E3 q Hq.
        split; [by apply E2|by apply E3].
      + eapply sublist_NoDup; [|exact E1]. by apply (hk_names _ _ HK _ _ Eo).
    - rewrite He. split; constructor. }
  destruct Hnew as [Hnew Hnd]. split.
  - intros _. rewrite Eds. by apply (dir_first _ _ _ (more ++ new)).
  - rewrite Eds, map_app. apply NoDup_app. split; [|split; [|done]].
    + destruct Hm as [->|(n2 & -> & M1 & _)]; cbn; rewrite ?N1, ?M1; by apply (bool_decide_unpack _).
    + intros c Hc Hin. apply list_elem_of_In, in_map_iff in Hin as (q & <- & Hq).
      rewrite List.Forall_forall in Hnew. destruct (Hnew q Hq) as (_ & Q1 & Q2).
      destruct Hm as [->|(n2 & -> & M1 & _)]; cbn in Hc; rewrite ?N1, ?M1 in Hc;
        apply elem_of_cons in Hc as [?|Hc]; try done; [by apply elem_of_nil in Hc|].
      by apply list_elem_of_singleton in Hc.
  - rewrite Eds. apply Forall_app. split.
    + constructor; [cbn; by rewrite N1, N2|].
      destruct Hm as [->|(n2 & -> & M1 & M2 & _)]; constructor; [cbn; by rewrite M1, M2|constructor].
    + revert Hnew. apply List.Forall_impl. tauto.
  - intros c names sb Eo Hc Hst Hacc Hup. rewrite N2 in Eo.
    destruct (decide (c = dot)) as [->|Hcd].
    { exists (Filenode n1 []). split; [rewrite Eds; by left|done]. }
    destruct (decide (c = dotdot)) as [->|Hcdd]; [by destruct (Hup eq_refl)|].
    unfold dir_entries in He. rewrite Eo in He. destruct He as [_ _ _ E4].
    destruct (E4 c sb Hc) as (p & Hp & En); try done; [intuition congruence|].
    exists p. split; [apply elem_of_app; by right|done].
Qed.

(** A node of the tree that is a directory of its own lists its files. *)
Lemma node_lists n r b : stands_for n r -> lstat H b = lstat H r -> S_ISDIR (n_modes n) = true ->
  exists b' l, lists n b' l /\ lstat H b' = lstat H b.
Proof.
  intros [Hn Hnl Hst] Hb Hdir. rewrite flat_map_app in Hn.
  pose proof Hd as [(n1 & more & Eds & N1 & N2 & N3 & N4 & _ & _ & Hm) _].
  apply elem_of_app in Hn as [Hn|Hn].
  - assert (n = n1) as ->.
    { rewrite Eds in Hn. destruct Hm as [->|(n2 & -> & _ & _ & M3)]; cbn in Hn;
        apply elem_of_cons in Hn as [?|Hn]; try done; [by apply elem_of_nil in Hn|].
      apply list_elem_of_singleton in Hn as ->. congruence. }
    exists top, (ds ++ new). split; [by eapply top_lists|]. rewrite Hb, <- Hst, N2.
    destruct (hk_top _ _ HK) as (sb & E1 & _ & E2). congruence.
  - rewrite <- list_nodes_subtrees in Hn. apply list_elem_of_In, in_map_iff in Hn as ([m l] & E & Hin).
    cbn in E. subst m. exists (n_realname n), l. split; [|congruence].
    apply sub_lists; [by apply list_elem_of_In|done|done].
Qed.

(** The node a link leads to stands for the same file. *)
Lemma target p path sb : p ∈ flat_map nodes (ds ++ new) -> lstat H (n_realname p) = Some sb ->
  lstat H path = Some sb ->
  (n_name p = dotdot -> lstat H (n_realname p) <> lstat H (in_dir top dotdot)) ->
  exists m, stands_for m path /\ (p = m \/ n_link p = Some (n_offset m)).
Proof.
  intros Hp Hst Hpath Hup. destruct (n_link p) as [o|] eqn:El.
  2:{ exists p. split; [|by left]. split; [done|done|congruence]. }
  pose proof (tree_ok_linked _ _ _ _ _ _ Ht Hp) as Hk. unfold linked in Hk. rewrite El in Hk.
  destruct Hk as (m & Hm & <- & [(Hml & E1 & E2)|(_ & E3 & E4 & _)]).
  2:{ destruct (Hup E3). by rewrite E4. }
  exists m. split; [|by right]. split; [done|done|].
  destruct (tree_ok_told _ _ _ _ _ _ Ht Hm) as (sm & Hsm & M1 & M2 & _).
  destruct (tree_ok_told _ _ _ _ _ _ Ht Hp) as (sp & Hsp & P1 & P2 & _).
  replace sp with sb in * by congruence.
  destruct (hk_inode _ _ HK _ _ _ _ Hsm Hpath) as [-> _]; [split; congruence|]. congruence.
Qed.

Context (rd : ramdisk) (Hrd : rd_length rd = len) (K rf : nat) (HKn : (16 <= K)%nat).
Context (Hrf : (length (flat_map nodes (ds ++ new)) + K <= rf)%nat).

Lemma step_ok n r b c sb : stands_for n r -> lstat H b = lstat H r -> S_ISDIR (n_modes n) = true ->
  host_step r b c sb ->
  exists l m, is_dir rd d K rf (n_offset n) l /\ stands_for m (in_dir b c) /\
    lookup_result rd d K c l (n_offset m).
Proof.
  intros Hn Hb Hdir ((names & Hop & Hc) & Hst & Hacc & Hup).
  destruct (node_lists n r b Hn Hb Hdir) as (b' & l & [Hl1 Hl2 Hl3 Hl4] & Hb').
  destruct (tree_ok_told _ _ _ _ _ _ Ht (sf_in _ _ Hn)) as (sn & Hsn & _).
  pose proof (sf_stat _ _ Hn) as Hnr.
  assert (Hop' : opendir H (n_realname n) = Some names).
  { destruct (hk_inode _ _ HK (n_realname n) r sn sn) as (_ & -> & _); try done. congruence. }
  destruct (hk_below _ _ HK b' b sn c) as [Eb Ea]; [congruence..|].
  destruct (Hl4 c names sb) as (p & Hp & En); try done; [congruence|by rewrite Ea|by rewrite Eb|].
  assert (Hne : l <> []) by (intros ->; by apply elem_of_nil in Hp).
  destruct (dir_node_in d len _ HP _ _ (Hl1 Hne)) as (_ & Hsub & _).
  pose proof (entry_in _ l p Hsub Hp) as Hpn. rewrite List.Forall_forall in Hl3.
  pose proof (Hl3 p ltac:(by apply list_elem_of_In)) as Hreal. rewrite En in Hreal.
  destruct (target (node p) (in_dir b c) sb) as (m & Hm & Hpm); try done.
  { by rewrite Hreal, Eb. }
  { rewrite Hreal, Eb, En. exact Hup. }
  exists (dir_list l), m. split; [|split; [done|]].
  - apply (dir_node_is_dir d len (ds ++ new)); try done; [by apply Hl1|apply Hn].
  - unfold lookup_result. rewrite <- En.
    rewrite (lookup_found d len (ds ++ new) HP) by done. rewrite Hrd.
    destruct (node_resolves d len (ds ++ new) HP Hlen (node p) m) as (k & Hk & Hk1);
      try done; [apply Hm|apply Hm|]. exists k. split; [done|lia].
Qed.

Lemma path_walks r b cs t : host_path r b cs t -> forall n, stands_for n r ->
  lstat H b = lstat H r -> S_ISDIR (n_modes n) = true ->
  exists m, stands_for m t /\ walks rd d K rf (n_offset n) cs (n_offset m).
Proof.
  induction 1 as [r b c sb Hs|r b c sb cs t Hs Hdir Hp IH]; intros n Hn Hb Hnd;
    destruct (step_ok n r b c sb Hn Hb Hnd Hs) as (l & m & Hl & Hm & Hr).
  - exists m. split; [done|]. by eapply walk_last.
  - assert (Hmd : S_ISDIR (n_modes m) = true).
    { destruct (tree_ok_told _ _ _ _ _ _ Ht (sf_in _ _ Hm)) as (sm & Hsm & _ & _ & -> & _).
      rewrite (sf_stat _ _ Hm) in Hsm. destruct Hs as (_ & Hst & _). by replace sm with sb by congruence. }
    destruct (IH m Hm eq_refl Hmd) as (m' & Hm' & Hw). exists m'. split; [done|].
    destruct cs as [|c' cs]; [by inversion Hp|].
    eapply walk_down; [exact Hl|exact Hr| |exact Hw].
    destruct (node_range d len _ HP m (sf_in _ _ Hm)). lia.
Qed.
End Sim.
End Tree.

(** ** The whole image *)

Definition byte (b : Z) : Prop := 0 <= b < 256.

Definition volume_ok (vol : list Z) : Prop :=
  Forall (fun b => 0 < b < 256) vol /\ 16 + padded (Z.of_nat (length vol)) <= 4096.

Lemma spaceneeded_root dir vol : volume_ok vol ->
  spaceneeded (newnode dir vol 0) = 16 + padded (Z.of_nat (length vol)).
Proof.
  intros [_ Hv]. unfold spaceneeded. cbn [n_name n_size newnode].
  pose proof (padded_bounds (Z.of_nat (length vol)) ltac:(lia)).
  rewrite ALIGNUP16_padded by lia. change (ALIGNUP16_u 0) with 0.
  rewrite Z.add_0_r. apply s32_id. lia.
Qed.

Section Made.
Context (H : host) (top : list Z) (HK : host_ok H top).

(** What the tree gives for the bytes. *)
Lemma tree_item_ok start l cur : 0 < start -> aligned start ->
  tree_ok H top start (flat_map nodes l) cur -> Forall item_ok (list_items l).
Proof.
  intros Hs Ha Ht. pose proof (list_items_offsets (flat_map nodes l) l ltac:(done)) as Hoff.
  rewrite List.Forall_forall in Hoff |- *. intros it Hit. destruct (Hoff it Hit) as [Hn _].
  assert (Hin : item_node it ∈ flat_map nodes l).
  { rewrite <- list_items_nodes. by apply list_elem_of_In, in_map. }
  destruct (tree_ok_lies H top start _ cur _ Hs Ha Ht Hin) as (c1 & c2 & _ & _ & Hl & _).
  split; [apply Hl|]. destruct (snd (fst it)) as [a|]; [|by exists 0]. cbn.
  destruct Hn as (m & Hm & <-).
  destruct (tree_ok_lies H top start _ cur _ Hs Ha Ht Hm) as (c3 & c4 & _ & Hal & Hlm & _).
  destruct (lies_aligned _ _ _ Hal Hlm) as [Hao _]. exists (n_offset m / 16).
  unfold aligned in Hao. Z.div_mod_to_equations. lia.
Qed.

(** The parts of a successful run. *)
Record made (o : options) (vol : list Z) (l : list filenode) (lastoff : Z) (image : list Z) : Prop := {
  md_tree : exists owner cur0 ds new, l = ds ++ new /\
    top_dots H top (16 + padded (Z.of_nat (length vol))) ds owner cur0 /\
    dir_entries H 1 (in_dir top dot) top new /\ Forall (good_sub H) (flat_map subtrees new);
  md_ok : tree_ok H top (16 + padded (Z.of_nat (length vol))) (flat_map nodes l) lastoff;
  md_last : 32 <= lastoff < 2 ^ 31 /\ aligned lastoff;
  md_bytes : let all := image_bytes H (newnode top vol 0) l lastoff in
    image = first_block (take 512 all) ++ drop 512 all /\
    Z.of_nat (length all) = 1024 * ((lastoff + 1023) / 1024) }.

Lemma start_range (vol : list Z) : volume_ok vol -> let start := 16 + padded (Z.of_nat (length vol)) in
  32 <= start <= 4096 /\ aligned start.
Proof.
  intros [_ Hv] start. subst start. split.
  - split; [|lia]. unfold padded. Z.div_mod_to_equations. lia.
  - apply aligned_add; [done|apply aligned_padded].
Qed.

Lemma length_image_bytes vol l lastoff : volume_ok vol ->
  tree_ok H top (16 + padded (Z.of_nat (length vol))) (flat_map nodes l) lastoff ->
  Z.of_nat (length (header_bytes (Romfh 0x2d726f6d 0x3166732d (u32 lastoff) 0x55555555)
    (newnode top vol 0) ++ flat_map (self_bytes H) (list_items l))) = lastoff.
Proof.
  intros Hv Ht. eapply (tree_shown H top (fun i => nth (Z.to_nat i) _ 0)) with (its := list_items l);
    [exact Ht|by rewrite length_header_bytes|apply list_items_nodes|].
  intros i Hi. by rewrite Z.add_0_l, Nat2Z.id.
Qed.

(** The sums of all headers, and of the first block, have negatives. *)
Definition sums_ok (vol : list Z) (l : list filenode) (lastoff : Z) : bool :=
  headers_ok (newnode top vol 0) l lastoff
  && block_ok (take 512 (image_bytes H (newnode top vol 0) l lastoff)).

(** The file, written. *)
Definition image_file (vol : list Z) (l : list filenode) (lastoff : Z) : list Z :=
  let all := image_bytes H (newnode top vol 0) l lastoff in
  first_block (take 512 all) ++ drop 512 all.

(** The walk of [make_image]. *)
Definition tree_of (o : options) (fuel : nat) (vol : list Z) : gen (list filenode * Z) :=
  processdir H (Options (o_align o) (o_alignlist o) (o_excludelist o) (length top)) fuel
    (Filenode (newnode top vol 0)) 1 top (in_dir top dot) 0 0 [] (16 + padded (Z.of_nat (length vol))).

(** What becomes of the tree, once it is there. *)
Lemma make_image_tree o fuel vol l lastoff :
  options_ok o -> o_excludelist o = [] -> o_alignlist o = [] -> volume_ok vol ->
  tree_of o fuel vol = Done (l, lastoff) ->
  made o vol l lastoff (image_file vol l lastoff) /\
  make_image H o fuel top vol
  = if sums_ok vol l lastoff
    then Done (Filenode (newnode top vol 0) l, lastoff, image_file vol l lastoff) else Undefined.
Proof.
  intros Ho Hx Hx2 Hv E. pose proof E as E'. unfold tree_of in E.
  destruct (start_range vol Hv) as [Hs Hsa].
  set (start := 16 + padded (Z.of_nat (length vol))) in *. set (o' := Options _ _ _ _) in E.
  assert (Ho' : options_ok o') by (by destruct Ho).
  destruct (processdir_top H top HK o' Ho' Hx Hx2 start ltac:(lia) Hsa (newnode top vol 0) eq_refl ltac:(lia)
    fuel _ _ l lastoff E) as (owner & cur0 & ds & new & El & Hd & Ht & He & Hg).
  assert (Hs0 : 0 < start) by lia.
  pose proof (tree_ok_range H top start _ lastoff Hs0 Hsa Ht) as [Hge Hal].
  assert (Hb : lastoff < 2 ^ 31) by (eapply tree_ok_bound; [|exact Ht]; lia).
  assert (Hlen : Z.of_nat (length (image_bytes H (newnode top vol 0) l lastoff))
      = 1024 * ((lastoff + 1023) / 1024)).
  { unfold image_bytes. rewrite app_assoc, length_app, Nat2Z.inj_add, repeat_length.
    rewrite (length_image_bytes vol l lastoff Hv Ht). bcase; Z.div_mod_to_equations; lia. }
  split; [split; [by exists owner, cur0, ds, new|done|split; [lia|done]|done]|].
  unfold make_image. rewrite spaceneeded_root by done. fold start.
  change (processdir _ _ _ _ _ _ _ _ _ _ _) with (tree_of o fuel vol). rewrite E'.
  cbn [mbind gen_bind].
  rewrite (dumpall_bytes H (newnode top vol 0) l lastoff (proj2 Hv) (tree_item_ok start l lastoff Hs0 Hsa Ht) dump0)
    by done.
  unfold sums_ok, image_file. destruct (headers_ok _ _ _); [|done]. cbn [andb].
  pose proof (dumpdata_whole (image_bytes H (newnode top vol 0) l lastoff)) as Hw.
  destruct (dumpdata _ dump0) as [s'| |]; cbn [mbind gen_bind] in *;
    specialize (Hw ltac:(Z.div_mod_to_equations; lia)); destruct (block_ok _); congruence.
Qed.

Lemma make_image_made o fuel vol root lastoff image :
  options_ok o -> o_excludelist o = [] -> o_alignlist o = [] -> volume_ok vol ->
  make_image H o fuel top vol = Done (root, lastoff, image) ->
  exists l, root = Filenode (newnode top vol 0) l /\ made o vol l lastoff image.
Proof.
  intros Ho Hx Hx2 Hv Hr. pose proof Hr as Hr'. unfold make_image in Hr'. run_inv Hr'.
  destruct a as [l last]. rewrite spaceneeded_root in E by done.
  change (tree_of o fuel vol = Done (l, last)) in E.
  destruct (make_image_tree o fuel vol l last Ho Hx Hx2 Hv E) as [M Em].
  rewrite Em in Hr. destruct (sums_ok _ _ _); [|done]. injection Hr as <- <- <-. by exists l.
Qed.

(** The walk ends: enough fuel for the depth of the directories, and room
    below 2^31. *)
Lemma tree_of_done o rank weight fuel vol : options_ok o -> o_excludelist o = [] ->
  o_alignlist o = [] -> volume_ok vol -> measured H top rank weight ->
  (rank (in_dir top dot) < fuel)%nat -> 14000 + weight (in_dir top dot) < 2 ^ 31 ->
  exists l lastoff, tree_of o fuel vol = Done (l, lastoff).
Proof.
  intros Ho Hx Hx2 Hv Me Hk Hb. destruct (start_range vol Hv) as [Hs Hsa].
  assert (Ho' : options_ok (Options (o_align o) (o_alignlist o) (o_excludelist o) (length top)))
    by (by destruct Ho).
  apply (processdir_top_done H top HK _ Ho' Hx Hx2 (16 + padded (Z.of_nat (length vol))) ltac:(lia) Hsa (newnode top vol 0) eq_refl
    ltac:(lia) rank weight fuel 0 0 Me Hk). lia.
Qed.

(** *** Every byte is a byte *)

Lemma byte_repeat k : Forall byte (repeat 0 k).
Proof. apply List.Forall_forall. intros x Hx. apply repeat_spec in Hx. subst. done. Qed.

Lemma byte_be w : Forall byte (be_bytes w).
Proof. repeat constructor; apply u8_range. Qed.

Lemma byte_take n l : Forall byte l -> Forall byte (take n l).
Proof. apply Forall_take. Qed.

Lemma byte_drop n l : Forall byte l -> Forall byte (drop n l).
Proof. apply Forall_drop. Qed.

Lemma byte_summed l k : Forall byte l -> Forall byte (summed l k).
Proof.
  intros Hl. unfold summed, put_checksum. rewrite !Forall_app.
  split; [by apply byte_take|]. split; [apply byte_be|by apply byte_drop].
Qed.

Lemma byte_header ri n : Forall (fun b => 0 < b < 256) (n_name n) -> Forall byte (header_bytes ri n).
Proof.
  intros Hn. assert (Hb : Forall byte (romfh_bytes ri ++ n_name n ++ repeat 0
      (Z.to_nat (padded (Z.of_nat (length (n_name n)))) - length (n_name n)))).
  { unfold romfh_bytes. rewrite !Forall_app. repeat split; try apply byte_be; [|apply byte_repeat].
    revert Hn. apply List.Forall_impl. unfold byte. lia. }
  unfold header_bytes. destruct (_ =? 0); [done|by apply byte_summed].
Qed.

Lemma byte_link n : Forall byte (link_data H n).
Proof.
  unfold link_data. rewrite Forall_app. split; [|apply byte_repeat]. apply byte_take, Forall_app.
  split; [|apply byte_repeat]. apply byte_take.
  destruct (readlink H (n_realname n)) as [t|] eqn:E; [by eapply hk_readlink|constructor].
Qed.

Lemma byte_self it : told H (item_node it) -> name_ok (n_name (item_node it)) ->
  Forall byte (self_bytes H it).
Proof.
  destruct it as [[n next] hd]. cbn [item_node fst self_bytes]. intros (sb & Hst & _ & _ & Em & _ & Hacc) [Hn _].
  rewrite Forall_app. split; [apply byte_repeat|]. destruct (node_type n); [|constructor].
  rewrite Forall_app. split; [by apply byte_header|]. unfold node_data.
  destruct (n_link n); [constructor|]. destruct (S_ISLNK _); [apply byte_link|].
  destruct (S_ISREG (n_modes n)) eqn:Er; [|constructor]. unfold file_data.
  rewrite Forall_app. split; [|apply byte_repeat]. destruct (_ <=? 0); [constructor|].
  apply byte_take. eapply hk_read; [exact HK|exact Hst|by rewrite <- Em|by apply Hacc].
Qed.

Section Read.
Context (o : options) (vol : list Z) (l : list filenode) (lastoff : Z) (image : list Z).
Context (Hv : volume_ok vol) (M : made o vol l lastoff image).

Lemma made_range : Forall byte image /\ Z.of_nat (length image) = 1024 * ((lastoff + 1023) / 1024).
Proof.
  destruct M as [_ Ht [Hl _] [-> Hlen]]. destruct (start_range vol Hv) as [Hs Hsa].
  set (all := image_bytes H (newnode top vol 0) l lastoff) in *.
  assert (Hb : Forall byte all).
  { unfold all, image_bytes. rewrite !Forall_app. split; [apply byte_header, Hv|].
    split; [|apply byte_repeat]. apply Forall_flat_map, List.Forall_forall. intros it Hit.
    assert (Hin : item_node it ∈ flat_map nodes l).
    { rewrite <- list_items_nodes. by apply list_elem_of_In, in_map. }
    apply byte_self; [by eapply tree_ok_told|].
    assert (Hs0 : 0 < 16 + padded (Z.of_nat (length vol))) by lia.
    destruct (tree_ok_lies H top _ _ _ _ Hs0 Hsa Ht Hin) as (? & ? & _ & _ & Hli & _). apply Hli. }
  split.
  - rewrite Forall_app. split; [|by apply byte_drop]. unfold first_block. by apply byte_summed, byte_take.
  - rewrite length_first_block; [done|]. Z.div_mod_to_equations. lia.
Qed.

(** The image by offset. *)
Definition at_offset (i : Z) : Z := nth (Z.to_nat i) image 0.

Lemma at_offset_byte i : 0 <= at_offset i < 256.
Proof.
  pose proof (proj1 made_range) as Hb. rewrite List.Forall_forall in Hb. unfold at_offset.
  destruct (nth_in_or_default (Z.to_nat i) image 0) as [Hin|E]; [by apply Hb|rewrite E; lia].
Qed.

(** The image but for its first checksum. *)
Lemma at_offset_raw i : 0 <= i -> (i < 12 \/ 16 <= i) ->
  at_offset i = nth (Z.to_nat i) (image_bytes H (newnode top vol 0) l lastoff) 0.
Proof.
  intros H0 Hi. destruct M as [_ _ [Hl _] [E Hlen]]. unfold at_offset. rewrite E.
  apply nth_first_block; [|lia]. Z.div_mod_to_equations. lia.
Qed.

Lemma made_shown : Forall (fun it => shows at_offset (n_offset (item_node it)) (node_bytes H it)) (list_items l).
Proof.
  destruct (start_range vol Hv) as [Hs Hsa]. pose proof M as [_ Ht _ _].
  assert (Hs0 : 0 < 16 + padded (Z.of_nat (length vol))) by lia.
  set (pre := header_bytes (Romfh 0x2d726f6d 0x3166732d (u32 lastoff) 0x55555555) (newnode top vol 0)).
  set (dr := fun i => nth (Z.to_nat i) (image_bytes H (newnode top vol 0) l lastoff) 0).
  assert (Hdr : shows dr 0 (pre ++ flat_map (self_bytes H) (list_items l))).
  { intros i Hi. unfold dr. rewrite Z.add_0_l, Nat2Z.id. unfold image_bytes. fold pre.
    by rewrite app_assoc, app_nth1. }
  assert (Hpl : Z.of_nat (length pre) = 16 + padded (Z.of_nat (length vol)))
    by (unfold pre; by rewrite length_header_bytes).
  pose proof (proj2 (tree_shown H top dr pre _ _ _ Ht Hpl (list_items l) (list_items_nodes l) Hdr)) as Hsh.
  rewrite List.Forall_forall in Hsh |- *. intros it Hit i Hi. rewrite <- Hsh by done.
  assert (Hin : item_node it ∈ flat_map nodes l).
  { rewrite <- list_items_nodes. by apply list_elem_of_In, in_map. }
  destruct (tree_ok_lies H top _ _ _ _ Hs0 Hsa Ht Hin) as (c1 & c2 & Hc & _ & [Ho _ _ [_ Hpd _ _] _ _ _ _] & _).
  apply at_offset_raw; lia.
Qed.

Lemma made_pictured : Forall (pictured H at_offset (Z.of_nat (length image))) (list_items l).
Proof.
  destruct (start_range vol Hv) as [Hs Hsa]. pose proof M as [_ Ht [Hl Hal] [_ Hlen]].
  eapply (items_pictured H top at_offset at_offset); [|exact Hsa|done|rewrite list_items_nodes; exact Ht| |].
  - lia.
  - rewrite (proj2 made_range). Z.div_mod_to_equations. lia.
  - apply made_shown.
Qed.

Lemma made_volume rd : rd_length rd = Z.of_nat (length image) -> volume rd at_offset vol.
Proof.
  intros Hrd. destruct (start_range vol Hv) as [Hs Hsa]. pose proof M as [_ Ht [Hl Hal] [_ Hlen]].
  set (n0 := newnode top vol 0). set (ri := Romfh 0x2d726f6d 0x3166732d (u32 lastoff) 0x55555555).
  assert (Hlh : Z.of_nat (length (header_bytes ri n0)) = 16 + padded (Z.of_nat (length vol)))
    by apply length_header_bytes.
  assert (Hsh : forall i, (i < length (header_bytes ri n0))%nat -> (i < 12 \/ 16 <= i)%nat ->
      at_offset (0 + Z.of_nat i) = nth i (header_bytes ri n0) 0).
  { intros i Hi Hc. rewrite at_offset_raw, Z.add_0_l, Nat2Z.id by lia. unfold image_bytes. fold ri n0.
    by rewrite app_nth1. }
  split; [|split].
  - intros i Hi. rewrite <- (Z2Nat.id i) by lia. rewrite <- (Z.add_0_l (Z.of_nat _)), Hsh by lia.
    rewrite Z.add_0_l, Nat2Z.id. assert (Hk : (Z.to_nat i < 8)%nat) by lia.
    revert Hk. generalize (Z.to_nat i). intros k Hk. do 8 (destruct k as [|k]; [done|]). lia.
  - destruct Hv as [Hb _]. split; [revert Hb; apply List.Forall_impl; lia|].
    intros i Hi. exact (hs_name _ _ _ _ (header_bytes_shown at_offset 0 ri n0 Hsh) i Hi).
  - rewrite Hrd, (proj2 made_range). assert (Hs0 : 0 < 16 + padded (Z.of_nat (length vol))) by lia.
    pose proof (tree_ok_range H top _ _ _ Hs0 Hsa Ht) as [Hge _].
    Z.div_mod_to_equations. lia.
Qed.

(** The checksums: of the volume header over the first 512 bytes, of every
    header over itself and its name. *)
Lemma made_checksum : romfs_checksum image (Z.min 512 lastoff) = 0.
Proof.
  destruct M as [_ _ [Hl _] [E Hlen]]. set (all := image_bytes H (newnode top vol 0) l lastoff) in *.
  assert (Hall : (512 <= length all)%nat) by (Z.div_mod_to_equations; lia).
  assert (Hw : word_at (take 512 all) 8 = lastoff).
  { unfold word_at. rewrite !nth_take_lt by lia.
    assert (Hb : forall k, (k < 16)%nat -> nth k all 0
        = nth k (romfh_bytes (Romfh 0x2d726f6d 0x3166732d (u32 lastoff) 0x55555555)) 0).
    { intros k Hk. unfold all, image_bytes, header_bytes. cbn [n_offset newnode].
      change (u32 0 =? 0) with true. cbv iota. rewrite <- app_assoc, app_nth1; [done|exact Hk]. }
    rewrite !Hb by lia. cbn [nth romfh_bytes be_bytes app rsize Nat.add].
    rewrite (u32_id lastoff) by lia. unfold u8. Z.div_mod_to_equations. lia. }
  assert (Hk : (if 512 <? word_at (take 512 all) 8 then 512 else word_at (take 512 all) 8)
      = Z.min 512 lastoff) by (rewrite Hw; bcase; lia).
  assert (El : length (take 512 all) = 512%nat) by (rewrite length_take; lia).
  rewrite E. unfold first_block, block_size. rewrite Hk.
  rewrite (checksum_ext _ (summed (take 512 all) (Z.min 512 lastoff))); [|lia|].
  - apply checksum_summed; lia.
  - intros i Hi. rewrite app_nth1; [done|]. rewrite length_summed by lia. lia.
Qed.

Lemma made_header_checksum n : n ∈ flat_map nodes l ->
  romfs_checksum (drop (Z.to_nat (n_offset n)) image) (16 + padded (Z.of_nat (length (n_name n)))) = 0.
Proof.
  intros Hn. destruct (node_item l n Hn) as ([[n' next] hd] & Hit & En). cbn in En. subst n'.
  pose proof made_shown as Hsh. rewrite List.Forall_forall in Hsh.
  specialize (Hsh _ ltac:(by apply list_elem_of_In)). cbn [item_node fst node_bytes] in Hsh.
  destruct (start_range vol Hv) as [Hs Hsa]. destruct M as [_ Ht _ _].
  assert (Hs0 : 0 < 16 + padded (Z.of_nat (length vol))) by lia.
  destruct (tree_ok_lies H top _ _ _ _ Hs0 Hsa Ht Hn) as (c1 & c2 & Hc & _ & [Ho Hp _ [_ Hpd _ _] _ Hty _ _] & _).
  destruct (node_type n) as [t|] eqn:Et; [|done]. apply shows_app in Hsh as [Hsh _].
  set (ri := node_romfh next hd n t) in *.
  pose proof (padded_bounds (Z.of_nat (length (n_name n))) ltac:(lia)).
  assert (Hl : Z.of_nat (length (header_bytes ri n)) = 16 + padded (Z.of_nat (length (n_name n))))
    by apply length_header_bytes.
  rewrite (checksum_ext _ (header_bytes ri n)); [|lia|].
  - unfold header_bytes. rewrite (proj2 (Z.eqb_neq (n_offset n) 0)) by lia. apply checksum_summed; [|lia].
    rewrite length_app. change (length (romfh_bytes ri)) with 16%nat. lia.
  - intros i Hi. rewrite nth_drop_Z. rewrite <- Hsh by lia. unfold at_offset. f_equal. lia.
Qed.

Context (Hsm : Z.of_nat (length image) < 2 ^ 31).

(** The file [r] of the image is the host's file [t]: the same type, the
    executable bit, the size and the contents of a regular file. *)
Record shows_file (rd : ramdisk) (r : Z) (nm t : list Z) (sb : hstat) : Prop := {
  sh_header : header_at at_offset (rd_length rd) r nm /\ name_ok nm /\ 0 < r /\ r + 32 <= rd_length rd;
  sh_type : type_bits (ftype at_offset r) = Z.land (h_mode sb) S_IFMT;
  sh_exec : S_ISREG (h_mode sb) = true \/ S_ISDIR (h_mode sb) = true ->
    fexec at_offset r = negb (Z.land (h_mode sb) 0x49 =? 0);
  sh_data : S_ISREG (h_mode sb) = true ->
    fsize at_offset r = h_size sb /\ fdata r nm + h_size sb <= rd_length rd /\
    file_bytes at_offset r nm 0 (h_size sb) = contents H t }.

Lemma node_type_bits n t : n_link n = None -> node_type n = Some t ->
  type_bits t = Z.land (n_modes n) S_IFMT.
Proof.
  unfold node_type. intros ->. unfold S_ISDIR, S_ISLNK, S_ISREG, S_ISCHR, S_ISBLK, S_ISFIFO, S_ISSOCK.
  repeat match goal with
  | |- context [if ?b then _ else _] =>
      destruct b eqn:?; [intros [= <-]; b2p; symmetry; assumption|]
  end. done.
Qed.

Lemma file_bytes_shown d r nm cs : shows d (fdata r nm) cs ->
  file_bytes d r nm 0 (Z.of_nat (length cs)) = cs.
Proof.
  intros Hs. unfold file_bytes, bytes_of. rewrite Nat2Z.id, Z.add_0_r.
  apply nth_ext with (d := 0) (d' := 0); rewrite length_map, length_seq; [done|].
  intros i Hi. rewrite <- Hs by done.
  rewrite (nth_indep _ 0 (d (fdata r nm + Z.of_nat 0))) by (by rewrite length_map, length_seq).
  by rewrite (map_nth (fun i => d (fdata r nm + Z.of_nat i))), seq_nth.
Qed.

Lemma node_shows_file rd n t sb : rd_length rd = Z.of_nat (length image) ->
  n ∈ flat_map nodes l -> n_link n = None -> lstat H (n_realname n) = lstat H t ->
  lstat H t = Some sb -> shows_file rd (n_offset n) (n_name n) t sb.
Proof.
  intros Hrd Hn Hnl Hst Ht. pose proof M as [_ Htree _ _].
  destruct (tree_ok_told _ _ _ _ _ _ Htree Hn) as (sn & Hsn & _ & _ & Em & Hsz & Hacc).
  assert (sn = sb) as -> by congruence. specialize (Hsz Hnl).
  pose proof made_pictured as HP.
  destruct (node_item l n Hn) as ([[n' next] hd] & Hit & En). cbn in En. subst n'.
  destruct (item_words H at_offset _ l HP Hsm _ Hit) as [Wt We _ _ Ws Wh].
  destruct (item_pictured H at_offset _ l HP _ Hit) as [_ Pd _ Pe Pn Ps].
  destruct (node_range H at_offset _ l HP n Hn) as (H0 & _ & Hr & _).
  cbn [item_node fst snd] in *. split; rewrite ?Hrd.
  - split; [done|]. split; [done|lia].
  - rewrite <- Em. by eapply node_type_bits.
  - intros Hrg. rewrite We. unfold node_exec. rewrite Hnl, Em.
    destruct Hrg as [Hrg|Hrg]; rewrite Hrg, ?orb_true_r; cbn [orb]; by rewrite andb_true_r.
  - intros Hrg. destruct (hk_inode _ _ HK _ _ _ _ Hsn Ht) as (_ & _ & Ec); [done|].
    destruct (hk_read _ _ HK _ _ Hsn Hrg) as (Ho & Hcl & _); [by apply Hacc; rewrite Em|].
    assert (Hz : n_size n = h_size sb) by (rewrite Hsz; unfold data_size, has_size; by rewrite Hrg).
    pose proof (ALIGNUP16_bounds (n_size n)). rewrite Ws, Hz. split; [done|].
    unfold fdata. split; [lia|]. rewrite <- Hcl, Ec. apply file_bytes_shown.
    unfold node_data in Pd. rewrite Hnl, Em in Pd.
    assert (Hnk : S_ISLNK (h_mode sb) = false) by (by type_cases (h_mode sb)).
    rewrite Hnk, Hrg in Pd. unfold file_data in Pd. rewrite (proj2 (Z.leb_gt _ _)) in Pd by done.
    apply shows_app in Pd as [Pd _]. rewrite Ec, take_ge in Pd; [exact Pd|]. rewrite <- Ec. lia.
Qed.

Lemma join_nonempty c cs : c <> [] -> join (c :: cs) <> [].
Proof. destruct c; [done|]. by destruct cs. Qed.

(** A path of the host below the top, read by the kernel. *)
Lemma made_path rd K rf cwd cs t sb : rd_length rd = Z.of_nat (length image) -> (16 <= K)%nat ->
  (length (flat_map nodes l) + K <= rf)%nat -> Forall component cs ->
  host_path H top (in_dir top dot) top cs t -> lstat H t = Some sb ->
  exists r nm, names_path rd at_offset K rf (16 + padded (Z.of_nat (length vol))) cwd (47 :: join cs) r /\
    shows_file rd r nm t sb.
Proof.
  intros Hrd HKn Hrf Hcs Hp Hst. pose proof M as [(owner & cur0 & ds & new & El & Hd & He & Hg) Ht _ _].
  pose proof made_pictured as HP. pose proof Hd as [(n1 & more & Eds & N1 & N2 & N3 & N4 & _ & N5 & _) _].
  rewrite El in Ht, HP, Hrf.
  assert (Hn1 : stands_for H ds new n1 (in_dir top dot)).
  { split; [rewrite Eds; by left|done|by rewrite N2]. }
  assert (Htop : lstat H top = lstat H (in_dir top dot)).
  { destruct (hk_top _ _ HK) as (s0 & E1 & _ & E2). congruence. }
  destruct (path_walks H top HK at_offset _ Hsm _ _ owner cur0 ds new Hd Ht He Hg HP rd Hrd K rf HKn Hrf
    _ _ _ _ Hp n1 Hn1 Htop N4) as (m & [Hm1 Hm2 Hm3] & Hw).
  exists (n_offset m), (n_name m). split.
  - exists true, cs. split; [done|]. split; [done|]. split; [done|]. cbv zeta. rewrite <- N5.
    assert (Hne : join cs <> []).
    { assert (Hc : exists c cs' r b s0, cs = c :: cs' /\ host_step H top r b c s0)
        by (inversion Hp; subst; eauto 10).
      destruct Hc as (c & cs' & r & b & s0 & -> & ((names & Ho & Hin) & _)). apply join_nonempty.
      destruct (hk_names _ _ HK _ _ Ho) as [_ Hnm]. rewrite List.Forall_forall in Hnm.
      apply list_elem_of_In in Hin. by apply Hnm. }
    destruct (join cs); [done|exact Hw].
  - apply node_shows_file; [done|by rewrite El|done|done|done].
Qed.
End Read.
End Made.
