(* ===== verification/HostDemo.v ===== *)
(** * A build host

    A file system of five inodes as the host of the tool: the working
    directory with the directory "image", in it "bin" with the program "shell"
    and a second link to it, and a text.  Paths are walked through the inodes,
    so [host_ok] holds for every path.  At the end,
    options and names with which the tool fails. *)

From stdpp Require Import base numbers list.
From Stdlib Require Import ZArith Lia.
From Stdlib Require String.
From S2P Require Import Prelude User Romfs Genromfs ImageTree.
Import String.StringSyntax.

(** The components of a path. *)
Fixpoint components (p : list Z) : list (list Z) :=
  match p with
  | [] => [[]]
  | b :: p' =>
      if b =? 47 then [] :: components p'
      else match components p' with c :: cs => (b :: c) :: cs | [] => [[b]] end
  end.

(** The inodes: 1 the working directory, 2 image, 3 bin, 4 shell, 5 a text. *)
Definition inode_mode (i : Z) : Z :=
  if i <=? 3 then 0x41ed else if i =? 4 then 0x81ed else 0x81a4.

Definition inode_data (i : Z) : list Z :=
  if i =? 4 then map (fun k => u8 (Z.of_nat k)) (seq 1 300) else if i =? 5 then text "vmwos" else [].

Definition inode_names (i : Z) : option (list (list Z)) :=
  if i =? 1 then Some [dot; dotdot; text "image"]
  else if i =? 2 then Some [text "bin"; dot; text "a"; dotdot]
  else if i =? 3 then Some [dot; dotdot; text "shell"; text "sh"] else None.

Definition inode_child (i : Z) (c : list Z) : option Z :=
  if i <=? 3 then
    if bool_decide (c = []) || bool_decide (c = dot) then Some i
    else if bool_decide (c = dotdot) then Some (Z.max 1 (i - 1))
    else if (i =? 1) && bool_decide (c = text "image") then Some 2
    else if (i =? 2) && bool_decide (c = text "bin") then Some 3
    else if (i =? 2) && bool_decide (c = text "a") then Some 5
    else if (i =? 3) && (bool_decide (c = text "shell") || bool_decide (c = text "sh")) then Some 4
    else None
  else None.

Definition follow (i : option Z) (cs : list (list Z)) : option Z :=
  foldl (fun i c => i ≫= fun i => inode_child i c) i cs.

Definition resolve (p : list Z) : option Z := follow (Some 1) (components p).

Definition inode_stat (i : Z) : hstat :=
  HStat 7 i (inode_mode i) (Z.of_nat (length (inode_data i))) (0, 0).

Definition demo_host : host :=
  Host (fun p => inode_stat <$> resolve p)
    (fun p => resolve p ≫= inode_names)
    (fun _ => None)
    (fun p => match resolve p with Some _ => true | None => false end)
    (fun p => match resolve p with Some _ => 3 | None => -1 end)
    (fun p => match resolve p with Some i => inode_data i | None => [] end)
    (fun _ _ => false).

Definition demo_options : options := Options 16 [] [] 0.

Lemma components_nonempty p : components p <> [].
Proof. destruct p as [|b p]; [done|]. cbn. case_match; [done|]. by destruct (components p). Qed.

Lemma components_join p c : components (p ++ 47 :: c) = components p ++ components c.
Proof.
  induction p as [|b p IH]; [done|]. cbn. rewrite IH. case_match; [done|].
  pose proof (components_nonempty p). by destruct (components p).
Qed.

Lemma resolve_in_dir p c : resolve (in_dir p c) = follow (resolve p) (components c).
Proof.
  unfold in_dir, resolve, follow. destruct p as [|b p]; [done|].
  by rewrite components_join, foldl_app.
Qed.

Lemma follow_name i c : components c = [c] -> follow (Some i) (components c) = inode_child i c.
Proof. by intros ->. Qed.

(** The inodes that exist. *)
Definition inode (i : Z) : Prop := 1 <= i <= 5.

Lemma inode_child_inode i c j : inode i -> inode_child i c = Some j -> inode j.
Proof.
  unfold inode, inode_child. intros Hi. repeat (case_match; try done); intros [= <-]; b2p; lia.
Qed.

Lemma follow_None cs : follow None cs = None.
Proof. induction cs; [done|]. exact IHcs. Qed.

Lemma follow_inode cs : forall i j, inode i -> follow (Some i) cs = Some j -> inode j.
Proof.
  induction cs as [|c cs IH]; intros i j Hi Hf; [by injection Hf as <-|].
  change (follow (Some i) (c :: cs)) with (follow (inode_child i c) cs) in Hf.
  destruct (inode_child i c) as [k|] eqn:E; [|by rewrite follow_None in Hf].
  eapply IH; [|exact Hf]. by eapply inode_child_inode.
Qed.

Lemma resolve_inode p i : resolve p = Some i -> inode i.
Proof. apply follow_inode. unfold inode. lia. Qed.

(** A statement about every inode, by cases. *)
Lemma inode_cases (P : Z -> Prop) : P 1 -> P 2 -> P 3 -> P 4 -> P 5 -> forall i, inode i -> P i.
Proof.
  intros ? ? ? ? ? i Hi. unfold inode in Hi.
  assert (i = 1 \/ i = 2 \/ i = 3 \/ i = 4 \/ i = 5) as Hc by lia.
  by destruct Hc as [->|[->|[->|[->| ->]]]].
Qed.

Lemma lstat_resolve p sb : lstat demo_host p = Some sb ->
  exists i, resolve p = Some i /\ inode i /\ sb = inode_stat i.
Proof.
  cbn. destruct (resolve p) as [i|] eqn:E; [|done]. intros [= <-]. exists i.
  split; [done|]. split; [by eapply resolve_inode|done].
Qed.

#[local] Abbreviation top := (text "image").

(** Below the top the directories are image and bin. *)
Lemma reach_resolve r b : reach demo_host top r b ->
  exists i, resolve r = Some i /\ resolve b = Some i /\ (i = 2 \/ i = 3).
Proof.
  induction 1 as [|r b names c sb _ (i & Hr & Hb & Hi) Hd Hc N1 N2 Hst Hdir]; [by exists 2; auto|].
  cbn in Hst, Hd. rewrite Hr in Hd. rewrite resolve_in_dir, Hb in *. cbn in Hd.
  destruct Hi as [->| ->]; injection Hd as <-; revert Hc N1 N2 Hst Hdir;
    rewrite !elem_of_cons, elem_of_nil; intros Hc; 
    repeat destruct Hc as [->|Hc]; try done; intros _ _ [= <-] Hdir; try discriminate Hdir;
    by exists 3; auto.
Qed.

Lemma demo_names i names : inode i -> inode_names i = Some names ->
  NoDup names /\ Forall (fun c => name_ok c /\ c <> [] /\ hd 0 c <> 64) names.
Proof.
  intros Hi. revert i Hi names. apply (inode_cases (fun i => forall names, inode_names i = Some names -> _));
    intros names; [intros [= <-]..|done|done];
    (split; [by apply (bool_decide_unpack _)|]); repeat constructor; cbn; done || lia.
Qed.

Lemma demo_stat i : inode i -> stat_ok (inode_stat i).
Proof.
  revert i. apply inode_cases; split; try (by vm_compute; tauto); cbn; intros Ht; try discriminate Ht; lia.
Qed.

(** Entries of the directories below the top, "." and ".." apart. *)
Lemma demo_entry i c names sb : i = 2 \/ i = 3 -> inode_names i = Some names -> c ∈ names ->
  c <> dot -> c <> dotdot -> inode_stat <$> follow (Some i) (components c) = Some sb ->
  exists j, sb = inode_stat j /\ follow (Some i) (components c) = Some j /\ 3 <= j <= 5 /\
    (S_ISDIR (h_mode sb) = true -> i = 2 /\ j = 3).
Proof.
  intros Hi Hn Hc N1 N2 Hst. destruct Hi as [->| ->]; injection Hn as <-; revert Hc N1 N2 Hst;
    rewrite !elem_of_cons, elem_of_nil; intros Hc; repeat destruct Hc as [->|Hc]; try done;
    intros _ _ [= <-]; eexists; (split; [done|]); (split; [done|]); (split; [lia|]);
    first [done | intros Hd; discriminate Hd].
Qed.

Lemma demo_host_ok : host_ok demo_host top.
Proof.
  split.
  - intros p sb (i & _ & Hi & ->)%lstat_resolve. by apply demo_stat.
  - intros p sb (i & _ & [Hi1 Hi2] & ->)%lstat_resolve. cbn. lia.
  - intros p names Ho. cbn in Ho. destruct (resolve p) as [i|] eqn:E; [|done].
    eapply demo_names; [by eapply resolve_inode|exact Ho].
  - intros p q sp sq (i & Ei & _ & ->)%lstat_resolve (j & Ej & _ & ->)%lstat_resolve [_ Hij].
    cbn in *. subst j. by rewrite Ei, Ej.
  - intros p sb (i & Ei & Hi & ->)%lstat_resolve Hr _. cbn. rewrite Ei. split; [lia|]. split; [done|].
    apply List.Forall_forall. intros x Hx.
    assert (Hb : forallb (fun b => (0 <=? b) && (b <? 256)) (inode_data i) = true).
    { clear -Hi. revert i Hi. by apply inode_cases; vm_compute. }
    rewrite forallb_forall in Hb. specialize (Hb x Hx). b2p. lia.
  - intros p t Ht. discriminate Ht.
  - intros p q sp c (i & Ei & _ & ->)%lstat_resolve (j & Ej & _ & Hj)%lstat_resolve.
    assert (i = j) as <- by (by injection Hj). cbn. by rewrite !resolve_in_dir, Ei, Ej.
  - intros r b (i & Er & Eb & Hi)%reach_resolve. cbn. rewrite resolve_in_dir, Er, Eb.
    by destruct Hi as [->| ->].
  - intros r b names c sb (i & Er & Eb & Hi)%reach_resolve Ho Hc N1 N2 Hst Hdir. cbn in Ho, Hst |- *.
    rewrite Er in Ho. rewrite !resolve_in_dir, Er, Eb in *.
    destruct (demo_entry i c names sb Hi Ho Hc N1 N2 Hst) as (j & -> & -> & _ & Hj).
    by destruct (Hj Hdir) as [-> ->].
  - by exists (inode_stat 2).
  - intros su [= <-]. done.
  - intros r b names c sb su (i & Er & Eb & Hi)%reach_resolve Ho Hc N1 N2 Hst Hsu [_ Hsame].
    cbn in Ho, Hst. rewrite Er in Ho. rewrite resolve_in_dir, Eb in Hst. injection Hsu as <-.
    destruct (demo_entry i c names sb Hi Ho Hc N1 N2 Hst) as (j & -> & _ & Hj & _).
    cbn in Hsame. lia.
Qed.

Definition demo_rank (p : list Z) : nat :=
  match resolve p with Some i => if i =? 2 then 1 else 0 | None => 0 end.

Definition demo_weight (p : list Z) : Z :=
  match resolve p with Some i => if i =? 2 then 100000 else 30000 | None => 0 end.

Lemma demo_measured : measured demo_host top demo_rank demo_weight.
Proof.
  split.
  - intros r b names c sb (i & Er & Eb & Hi)%reach_resolve Ho Hc N1 N2 Hst Hdir. cbn in Ho, Hst.
    rewrite Er in Ho. rewrite resolve_in_dir, Eb in Hst.
    destruct (demo_entry i c names sb Hi Ho Hc N1 N2 Hst) as (j & _ & Ej & _ & Hj).
    destruct (Hj Hdir) as [-> ->]. unfold demo_rank. rewrite resolve_in_dir, Eb, Ej, Er. cbn. lia.
  - intros r. unfold demo_weight. repeat case_match; lia.
  - intros r b names (i & Er & Eb & Hi)%reach_resolve Ho. cbn in Ho. rewrite Er in Ho.
    unfold demo_weight at 2. rewrite Er.
    assert (Hc : forall c, entry_cost demo_host demo_weight b c =
        match inode_stat <$> follow (Some i) (components c) with
        | None => 0
        | Some sb => 4400 + data_size sb +
            (if S_ISDIR (h_mode sb) && negb (bool_decide (c = dot) || bool_decide (c = dotdot))
             then match follow (Some i) (components c) with
                  | Some i => if i =? 2 then 100000 else 30000 | None => 0 end else 0)
        end).
    { intros c. unfold entry_cost, demo_weight. cbn. by rewrite resolve_in_dir, Eb. }
    unfold total. destruct Hi as [->| ->]; injection Ho as <-; cbn [fold_right]; rewrite !Hc;
      vm_compute; discriminate.
Qed.

(** The image of the demonstration. *)
Definition demo_run : gen (filenode * Z * list Z) :=
  make_image demo_host demo_options 5 top (text "VMWos").

Definition demo_made : filenode * Z * list Z :=
  Eval vm_compute in match demo_run with Done x => x | _ => (Filenode (newnode [] [] 0) [], 0, []) end.

Definition demo_root : filenode := fst (fst demo_made).
Definition demo_lastoff : Z := snd (fst demo_made).
Definition demo_image : list Z := snd demo_made.

Lemma demo_run_done : demo_run = Done (demo_root, demo_lastoff, demo_image).
Proof. by vm_compute. Qed.

(** ** Options that go wrong *)

(** The host with patterns that match themselves only. *)
Definition literal_host : host :=
  Host (lstat demo_host) (opendir demo_host) (readlink demo_host) (access demo_host)
    (open demo_host) (contents demo_host) (fun pattern s => bool_decide (pattern = s)).

(** "-a 8192": the padding in front of a file does not fit into [bigbuf]. *)
Lemma wide_align_overflows :
  make_image literal_host (Options 8192 [] [] 0) 5 top (text "VMWos") = Undefined.
Proof. by vm_compute. Qed.

(** "-A 64,.": the first header lies at 64, and 32, where it is looked for, holds zeros. *)
Lemma aligned_dot_moves_root :
  match make_image literal_host (Options 16 [(64, dot)] [] 0) 5 top (text "VMWos") with
  | Done (Filenode _ (Filenode first _ :: _), _, image) =>
      n_offset first = 64 /\ take 32 (drop 32 image) = repeat 0 32
  | _ => False
  end.
Proof. by vm_compute. Qed.

(** A volume name of 4080 bytes is copied behind the end of [bigbuf]. *)
Lemma long_volume_overflows :
  make_image literal_host demo_options 5 top (repeat 86 4080) = Undefined.
Proof. by vm_compute. Qed.

(** A special file with a device name of 32 bytes overflows [devname]. *)
Lemma long_device_overflows : scan_special (64 :: repeat 97 32 ++ text ",c,1,2") = Undefined.
Proof. by vm_compute. Qed.

(** A volume name of four bytes whose words make the first 512 bytes add up to
    the least [int], which [fixsum] negates. *)
Lemma crafted_name_overflows :
  make_image literal_host demo_options 5 top [200; 134; 50; 246] = Undefined.
Proof. by vm_compute. Qed.
