(* ===== verification/HostImage.v ===== *)
(** * From a directory of the build host to the kernel

    The Makefile of the userspace makes the kernel's disk image with
    "genromfs -f initrd.romfs -d image -V VMWos".  The image of a run of the
    tool is a well-formed romfs ([image_format]), the run ends
    ([make_image_returns]), every path of the directory leads the kernel to the
    file it leads to on the host ([image_paths]), a directory with a program
    bin/shell makes an image the kernel boots from ([image_has_shell]), and
    [cat] on the kernel prints what the host's file holds
    ([cat_prints_host_file]). *)

From stdpp Require Import base numbers list.
From Stdlib Require Import ZArith Lia.
From Stdlib Require String.
From S2P Require Import Prelude ArmMemset CString DeviceTree Romfs Process Sched Mmio Gpio Serial Console Interrupts Files Printk I2c Exec Syscalls User Vlibc Ls LsKernel FileAccess Slideshow Programs Boot Genromfs ImageTree Image HostDemo.
Import String.StringSyntax.

(** The options of the Makefile, and [-a] with any alignment up to 4096. *)
Record plain_options (o : options) : Prop := {
  po_align : align_ok (o_align o);
  po_alignlist : o_alignlist o = [];
  po_excludelist : o_excludelist o = [] }.

Lemma plain_options_ok o : plain_options o -> options_ok o.
Proof. intros [H1 H2 _]. split; [done|]. by rewrite H2. Qed.

(** Components, checked by evaluation. *)
Lemma components_check cs :
  forallb (fun c => forallb (fun b => negb (b =? 0) && negb (b =? 47)) c &&
    (Z.of_nat (length c) <? 255)) cs = true -> Forall component cs.
Proof.
  intros Hc. apply List.Forall_forall. intros c Hin. rewrite forallb_forall in Hc.
  specialize (Hc c Hin). apply andb_true_iff in Hc as [Hb Hl]. split; [|b2p; lia].
  apply List.Forall_forall. intros b Hb'. rewrite forallb_forall in Hb. specialize (Hb b Hb').
  b2p. lia.
Qed.

Section Image.
Context (H : host) (top : list Z) (HK : host_ok H top) (o : options) (Ho : plain_options o).
Context (fuel : nat) (vol : list Z) (Hv : volume_ok vol).
Context (root : filenode) (lastoff : Z) (image : list Z).
Context (Hr : make_image H o fuel top vol = Done (root, lastoff, image)).

Lemma image_made : exists l, root = Filenode (newnode top vol 0) l /\
  made H top o vol l lastoff image.
Proof. apply (make_image_made H top HK o fuel); try done; [by apply plain_options_ok|apply Ho|apply Ho]. Qed.

(** A path of the host. *)
Lemma image_path_ok rd K rf cwd cs t sb : rd_length rd = Z.of_nat (length image) ->
  rd_length rd < 2 ^ 31 -> (16 <= K)%nat -> (length (nodes root) + K <= rf)%nat ->
  Forall component cs -> host_path H top (in_dir top dot) top cs t -> lstat H t = Some sb ->
  exists r nm, names_path rd (at_offset image) K rf (root_of vol) cwd (47 :: join cs) r /\
    shows_file H image rd r nm t sb.
Proof.
  intros Hrd Hsm HKn Hrf Hcs Hp Ht. destruct image_made as (l & -> & M). cbn in Hrf.
  apply (made_path H top HK o vol l lastoff image Hv M); try done; [by rewrite <- Hrd|lia].
Qed.

(** A regular file of the image. *)
Lemma image_regular_ok rd e K cwd cs t sb : rd_length rd = Z.of_nat (length image) ->
  rd_length rd < 2 ^ 31 -> (16 <= K)%nat -> (length (nodes root) + K <= se_rf e)%nat ->
  Forall component cs -> host_path H top (in_dir top dot) top cs t -> lstat H t = Some sb ->
  S_ISREG (h_mode sb) = true -> (S (length (join cs)) < se_fuel e)%nat ->
  exists r nm, regular rd (at_offset image) e K (root_of vol) cwd r nm (47 :: join cs) /\
    ftype (at_offset image) r <> 0 /\ fsize (at_offset image) r = h_size sb /\
    file_bytes (at_offset image) r nm 0 (h_size sb) = contents H t.
Proof.
  intros Hrd Hsm HKn Hrf Hcs Hp Ht Hreg Hf.
  destruct (image_path_ok rd K (se_rf e) cwd cs t sb) as (r & nm & Hn & [(S1 & [_ S2] & S0 & S3) S4 _ S5]);
    try done. destruct (S5 Hreg) as (E1 & E2 & E3). exists r, nm.
  pose proof (hk_stat _ _ HK _ _ Ht) as [_ Hz _]. specialize (Hz Hreg).
  assert (Hl : (length nm < 16 * se_rf e)%nat) by lia.
  split; [split; [done|cbn; lia|lia|done|lia|lia|done]|]. split; [|by rewrite E1].
  intros E. rewrite E in S4. revert S4 Hreg. unfold S_ISREG. by intros <-.
Qed.
End Image.

(** ** What a run of the tool promises *)

(** C17. The image of a run is bytes, padded to blocks of 1024 behind its last
    file; its first 512 bytes (or the whole content, when shorter) and every
    file header with its name have the checksum 0, every header and the data
    behind it show the node of the tree, and the image is a volume of the given
    name for the kernel. *)
Theorem image_format H top o fuel vol root lastoff image :
  host_ok H top -> plain_options o -> volume_ok vol ->
  make_image H o fuel top vol = Done (root, lastoff, image) ->
  Forall byte image /\ Z.of_nat (length image) = 1024 * ((lastoff + 1023) / 1024) /\
  romfs_checksum image (Z.min 512 lastoff) = 0 /\
  Forall (fun n => romfs_checksum (drop (Z.to_nat (n_offset n)) image)
      (16 + padded (Z.of_nat (length (n_name n)))) = 0) (flat_map nodes (dirlist root)) /\
  Forall (pictured H (at_offset image) (Z.of_nat (length image))) (list_items (dirlist root)) /\
  forall rd, rd_length rd = Z.of_nat (length image) -> volume rd (at_offset image) vol.
Proof.
  intros HK Ho Hv Hr.
  destruct (image_made H top HK o Ho fuel vol Hv root lastoff image Hr) as (l & -> & M).
  destruct (made_range H top HK o vol l lastoff image Hv M) as [R1 R2].
  split; [done|]. split; [done|]. split; [by eapply made_checksum|].
  split; [|split; [by eapply made_pictured|intros rd; by eapply made_volume]].
  apply List.Forall_forall. intros n Hn%list_elem_of_In. by eapply made_header_checksum.
Qed.

(** C16. With the Makefile's options and any alignment up to 4096, on a
    directory of finite depth, no name of which asks for a special file with @,
    and whose image stays below 2 GiB, the walk of the tool ends, one turn of
    the recursion for each level of the directory being enough; and one thing
    alone decides whether the run is defined.  When the words of a header, or of
    the first 512 bytes, add up to the least [int], [fixsum] negates it, which
    is undefined; when none does, the tool writes the image of the tree, to its
    last byte.  No other buffer, addition or list of it goes wrong. *)
Theorem make_image_returns H top o rank weight fuel vol :
  host_ok H top -> plain_options o -> volume_ok vol -> measured H top rank weight ->
  (rank (in_dir top dot) < fuel)%nat -> 14000 + weight (in_dir top dot) < 2 ^ 31 ->
  exists l lastoff, tree_of H top o fuel vol = Done (l, lastoff) /\
    make_image H o fuel top vol
    = if sums_ok H top vol l lastoff
      then Done (Filenode (newnode top vol 0) l, lastoff, image_file H top vol l lastoff)
      else Undefined.
Proof.
  intros HK Ho Hv Hm Hk Hw. pose proof (plain_options_ok o Ho) as Ho'. destruct Ho as [_ Ha Hx].
  destruct (tree_of_done H top HK o rank weight fuel vol Ho' Hx Ha Hv Hm Hk Hw) as (l & c & E).
  exists l, c. split; [exact E|]. by apply make_image_tree.
Qed.

(** C7. What the tool packs the kernel finds: a path of the host leads the
    kernel, in the image of the directory, to a header with the same type, the
    same executable bit and, for a regular file, the same size and the same
    contents, also through hard links, "." and "..". *)
Theorem image_paths H top o fuel vol root lastoff image rd K rf cwd cs t sb :
  host_ok H top -> plain_options o -> volume_ok vol ->
  make_image H o fuel top vol = Done (root, lastoff, image) ->
  rd_length rd = Z.of_nat (length image) -> rd_length rd < 2 ^ 31 ->
  (16 <= K)%nat -> (length (nodes root) + K <= rf)%nat ->
  Forall component cs -> host_path H top (in_dir top dot) top cs t -> lstat H t = Some sb ->
  exists r nm, names_path rd (at_offset image) K rf (root_of vol) cwd (47 :: join cs) r /\
    shows_file H image rd r nm t sb.
Proof. intros HK Ho Hv Hr. by apply (image_path_ok H top HK o Ho fuel vol Hv root lastoff image Hr). Qed.

(** C19. The image of a directory with a program bin/shell is one the kernel
    boots from: it mounts the volume and finds the program, whose bytes are the
    ones of the host. *)
Theorem image_has_shell H top o fuel vol root lastoff image e K t sb :
  host_ok H top -> plain_options o -> volume_ok vol ->
  make_image H o fuel top vol = Done (root, lastoff, image) ->
  b_image_size e = Z.of_nat (length image) -> b_image_size e < 2 ^ 31 ->
  (16 <= K)%nat -> (length (nodes root) + K <= b_rf e)%nat -> (length vol < 16 * b_rf e)%nat ->
  host_path H top (in_dir top dot) top [text "bin"; text "shell"] t -> lstat H t = Some sb ->
  S_ISREG (h_mode sb) = true -> 0 < h_size sb ->
  exists r nm, has_shell e (at_offset image) K vol r nm /\
    fsize (at_offset image) r = h_size sb /\
    file_bytes (at_offset image) r nm 0 (h_size sb) = contents H t.
Proof.
  intros HK Ho Hv Hr Hrd Hsm HKn Hrf Hvl Hp Ht Hreg Hpos.
  set (env := SwiEnv 0 (PrintEnv 0 (fun _ => 0) 0 0) serial_bss 0 0 0 0
    (UnameStrings 0 0 0 0 0 0) 0 20 (b_rf e) 0 0).
  destruct (image_regular_ok H top HK o Ho fuel vol Hv root lastoff image Hr (boot_disk e) env K
    (root_of vol) [text "bin"; text "shell"] t sb) as (r & nm & [R1 _ R3 R4 R5 R6 R7] & Hty & Hsz & Hd);
    try done; [by apply components_check|cbn; lia|].
  destruct (image_made H top HK o Ho fuel vol Hv root lastoff image Hr) as (l & _ & M).
  exists r, nm. split; [|done]. split; [|exact R1|].
  - split; [by eapply made_volume|done].
  - split; [done|done| |done|lia]. cbn in R7. split; [done|lia].
Qed.

(** C6. From the host's file to the terminal: [cat] of a path, run on the kernel
    with the image as its ramdisk, prints what the host's file of that path
    holds. *)
Theorem cat_prints_host_file `{MF : MemFill} `{DW : Device W} H top o fuel vol root lastoff image rd fl
    (L : flayout rd fl (at_offset image)) e `{!Uart (W := W) (se_io_base e)}
    K rs cwd cs t sb n turns buffer argv m (s : system W) :
  host_ok H top -> plain_options o -> volume_ok vol ->
  make_image H o fuel top vol = Done (root, lastoff, image) ->
  rd_length rd = Z.of_nat (length image) -> rd_length rd < 2 ^ 31 ->
  (16 <= K)%nat -> (length (nodes root) + K <= se_rf e)%nat ->
  Forall component cs -> host_path H top (in_dir top dot) top cs t -> lstat H t = Some sb ->
  S_ISREG (h_mode sb) = true -> (S (length (join cs)) < se_fuel e)%nat ->
  length rs = 15%nat -> initialized (se_serial e) <> 0 -> driver (se_serial e) <> no_uart ->
  (depth (se_io_base e) < se_wf e)%nat ->
  0 <= buffer < 2 ^ 32 -> apart buffer Cat.BUF_SIZE (rd_start rd) (rd_length rd) ->
  (Z.to_nat (h_size sb) <= 128 * turns)%nat ->
  (let a := load32 m (argv + 4) in
   cstring (at_ m a) (47 :: join cs) /\ 0 < a /\ a + Z.of_nat (S (length (join cs))) < 2 ^ 32 /\
   Forall (fun r => apart (fst r) (snd r) a (Z.of_nat (S (length (join cs))) + 1)) (path_regions fl)) ->
  (forall r nm, file_state rd (at_offset image) e (root_of vol) cwd r nm None s m) ->
  exists m' s', run (kernel_call rd fl e) (Cat.main n rs buffer (S turns) 2 argv m) [] s
      = Some (0, m', [], s') /\
    tx (se_io_base e) (board s') = tx (se_io_base e) (board s) ++ crlf (contents H t).
Proof.
  intros HK Ho Hv Hr Hrd Hsm HKn Hrf Hcs Hp Ht Hreg Hf Hrs Hi Hd Hwf Hb Hap Hturns Ha St.
  destruct (image_regular_ok H top HK o Ho fuel vol Hv root lastoff image Hr rd e K cwd cs t sb)
    as (r & nm & R & _ & Hsz & <-); try done.
  rewrite <- Hsz. rewrite <- Hsz in Hturns.
  by apply (cat_main_ok rd fl (at_offset image) L e K rs (root_of vol) cwd r nm (47 :: join cs)).
Qed.

(** ** The demonstration: image/bin/{shell, sh} and image/a *)

#[local] Abbreviation top := (text "image").

Lemma demo_plain : plain_options demo_options.
Proof. split; [split; [cbn; lia|by exists 4]|done|done]. Qed.

Lemma demo_vol : volume_ok (text "VMWos").
Proof. split; [repeat constructor; lia|by vm_compute]. Qed.

Lemma demo_step r b names c sb : opendir demo_host r = Some names -> c ∈ names ->
  lstat demo_host (in_dir b c) = Some sb -> access demo_host (in_dir b c) = true -> c <> dotdot ->
  host_step demo_host top r b c sb.
Proof. intros Ho Hc Hst Ha Hn. split; [by exists names|]. split; [done|]. split; [by right|done]. Qed.

Lemma demo_to_bin c sb cs t : c ∈ [text "shell"; text "sh"] -> cs = [text "bin"; c] ->
  t = in_dir (in_dir top (text "bin")) c -> lstat demo_host t = Some sb ->
  host_path demo_host top (in_dir top dot) top cs t.
Proof.
  intros Hc -> -> Hst. eapply host_down with (sb := inode_stat 3).
  - eapply demo_step; [by vm_compute|by left|done|done|done].
  - done.
  - eapply host_last. eapply demo_step; [by vm_compute| |exact Hst| |];
      revert Hc; rewrite !elem_of_cons, elem_of_nil; intros Hc; repeat destruct Hc as [->|Hc]; try done; tauto.
Qed.

Lemma image_format_witness :
  Forall byte demo_image /\ Z.of_nat (length demo_image) = 1024 * ((demo_lastoff + 1023) / 1024) /\
  romfs_checksum demo_image (Z.min 512 demo_lastoff) = 0 /\
  Forall (fun n => romfs_checksum (drop (Z.to_nat (n_offset n)) demo_image)
      (16 + padded (Z.of_nat (length (n_name n)))) = 0) (flat_map nodes (dirlist demo_root)) /\
  Forall (pictured demo_host (at_offset demo_image) (Z.of_nat (length demo_image)))
    (list_items (dirlist demo_root)) /\
  forall rd, rd_length rd = Z.of_nat (length demo_image) ->
    volume rd (at_offset demo_image) (text "VMWos").
Proof.
  exact (image_format demo_host top demo_options 5 (text "VMWos") demo_root demo_lastoff demo_image
    demo_host_ok demo_plain demo_vol demo_run_done).
Defined.

Lemma make_image_returns_witness :
  exists l lastoff, tree_of demo_host top demo_options 2 (text "VMWos") = Done (l, lastoff) /\
    make_image demo_host demo_options 2 top (text "VMWos")
    = if sums_ok demo_host top (text "VMWos") l lastoff
      then Done (Filenode (newnode top (text "VMWos") 0) l, lastoff,
             image_file demo_host top (text "VMWos") l lastoff)
      else Undefined.
Proof.
  refine (make_image_returns demo_host top demo_options demo_rank demo_weight 2 (text "VMWos")
    demo_host_ok demo_plain demo_vol demo_measured _ _); vm_compute; [lia|done].
Defined.

Lemma image_paths_witness :
  exists r nm, names_path (Ramdisk 32768 1024) (at_offset demo_image) 16 40 (root_of (text "VMWos")) 0
      (text "/bin/sh") r /\
    shows_file demo_host demo_image (Ramdisk 32768 1024) r nm (text "image/bin/sh") (inode_stat 4).
Proof.
  refine (image_paths demo_host top demo_options 5 (text "VMWos") demo_root demo_lastoff demo_image
    (Ramdisk 32768 1024) 16 40 0 [text "bin"; text "sh"] (text "image/bin/sh") (inode_stat 4)
    demo_host_ok demo_plain demo_vol demo_run_done _ _ _ _ _ _ _);
    [by vm_compute|by vm_compute|lia|by vm_compute; lia|by apply components_check| |by vm_compute].
  eapply demo_to_bin; [by right; left|done|done|by vm_compute].
Defined.

(** A kernel whose image is the one of the demonstration. *)
Definition host_boot : boot_env :=
  BootEnv (PrintEnv 20800 (fun _ => 0) 500 3) (Exec.Entry 32800 32900) (repeat 0 15) (repeat 7 128) 0
    (DtNames 1 1 1 1 1 0 0) 20700 20700 20700 21100 20700 20700 21300 20700
    20480 20544 20640 20648 20656 20700 32768 1024 16900 demo_fl 20 40.

Lemma image_has_shell_witness :
  exists r nm, has_shell host_boot (at_offset demo_image) 16 (text "VMWos") r nm /\
    fsize (at_offset demo_image) r = 300 /\
    file_bytes (at_offset demo_image) r nm 0 300 = contents demo_host (text "image/bin/shell").
Proof.
  refine (image_has_shell demo_host top demo_options 5 (text "VMWos") demo_root demo_lastoff demo_image
    host_boot 16 (text "image/bin/shell") (inode_stat 4) demo_host_ok demo_plain demo_vol demo_run_done
    _ _ _ _ _ _ _ _ _);
    [by vm_compute|by vm_compute|lia|by vm_compute; lia|by vm_compute; lia| |by vm_compute..].
  eapply demo_to_bin; [by left|done|done|by vm_compute].
Defined.

(** "cat /bin/sh": the image at 32768, the table of the arguments at 20800. *)
Definition host_env : swi_env :=
  SwiEnv 0x20000000 (PrintEnv 0 (fun _ => 0) 0 0) (Serial 1 115200 8 1 0 pl011_uart)
    0 0 0 0 (UnameStrings 0 0 0 0 0 0) 16900 10 40 3 3.

Definition host_mem : mem :=
  store32 (mem_with (mem_with (fun _ => 1) 32768 demo_image) 20736 (text "/bin/sh" ++ [0])) 20804 20736.

Lemma host_layout : flayout (Ramdisk 32768 1024) demo_fl (at_offset demo_image).
Proof.
  split; [|left; cbn; lia| |cbn; lia|left; cbn; lia|right; cbn; lia].
  - split; cbn [rd_start rd_length temp_int temp_buffer filename header demo_fl fl_romfs demo_locals];
      try (unfold apart; lia).
    intros i. unfold at_offset.
    assert (Hb : forallb (fun b => (0 <=? b) && (b <? 256)) demo_image = true) by (by vm_compute).
    rewrite forallb_forall in Hb.
    destruct (nth_in_or_default (Z.to_nat i) demo_image 0) as [Hin|E]; [|rewrite E; lia].
    specialize (Hb _ Hin). b2p. lia.
  - repeat apply List.Forall_cons; [left; cbn; lia..|constructor].
Qed.

Lemma host_state r nm : file_state (Ramdisk 32768 1024) (at_offset demo_image) host_env
  (root_of (text "VMWos")) 32 r nm None ls_system host_mem.
Proof.
  split; [|by vm_compute|eexists; split; [by vm_compute|discriminate]|by vm_compute| |vm_compute; lia].
  - intros i Hi. apply Z.eqb_eq.
    by apply (check_below (fun i => host_mem (32768 + i) =? at_offset demo_image i) 1024).
  - eexists. split; [by vm_compute|done].
Qed.

Lemma cat_prints_host_file_witness :
  exists m' s', run (kernel_call (Ramdisk 32768 1024) demo_fl host_env)
      (Cat.main 10 (repeat 9 15) 40000 4 2 20800 host_mem) [] ls_system = Some (0, m', [], s') /\
    tx 0x20000000 (board s') = tx 0x20000000 (board ls_system) ++
      crlf (contents demo_host (text "image/bin/sh")).
Proof.
  refine (cat_prints_host_file demo_host top demo_options 5 (text "VMWos") demo_root demo_lastoff
    demo_image (Ramdisk 32768 1024) demo_fl host_layout host_env 16 (repeat 9 15) 32
    [text "bin"; text "sh"] (text "image/bin/sh") (inode_stat 4) 10 3 40000 20800 host_mem ls_system
    demo_host_ok demo_plain demo_vol demo_run_done _ _ _ _ _ _ _ _ _ _ _ _ _ _ _ _ _ host_state).
  - by vm_compute.
  - by vm_compute.
  - lia.
  - vm_compute. lia.
  - by apply components_check.
  - eapply demo_to_bin; [by right; left|done|done|by vm_compute].
  - by vm_compute.
  - by vm_compute.
  - cbn. lia.
  - done.
  - done.
  - done.
  - cbn. lia.
  - lia.
  - right. by vm_compute.
  - vm_compute. lia.
  - split; [apply cstringb_cstring; by vm_compute|]. split; [by vm_compute|]. split; [by vm_compute|].
    apply demo_path_apart; by vm_compute.
Defined.
